(* ===== verification/_CoqProject ===== *)
-Q . S2P
Prelude.v
Bytes.v
Text.v
Decoder.v
Frame.v
Keeps.v
Checksum.v
Const.v
Structs.v
FramePatch.v
Interfaces.v
LldpSend.v
LldpSpec.v
LldpDecode.v
LldpSafe.v
CdpSend.v
CdpDecode.v
Sonmp.v
EdpSend.v
Bits.v
LldpReads.v
LldpRoundtrip.v
Table.v
TableOk.v
TableInv.v
TableSteps.v
EdpDecode.v
EdpRoundtrip.v
Protocols.v
Smart.v
Loop.v
Marshal.v
MarshalInfo.v
Ctl.v
Client.v
Daemon.v
Fixedpoint.v
Pattern.v
Tokenizer.v
Addresses.v
SnmpIndex.v
SnmpWalk.v
SnmpTables.v
SnmpValues.v
SnmpAgent.v
SnmpCorrect.v
SnmpMib.v
AtomMaps.v
Atoms.v
AtomSettings.v
AtomLocation.v
AtomCivic.v
AtomCoord.v
AtomSafe.v
AtomConfig.v
Witness.v
WitnessLib.v
WitnessSnmp.v
WitnessAtoms.v
Privsep.v
Regex.v
Monitor.v
Proxies.v
MonitorSafe.v
Bpf.v
Commands.v
CommandsRun.v
Show.v
WitnessPriv.v
WitnessCli.v
OvsDecode.v
OvsNbr.v
OvsConfig.v
OvsSync.v
OvsStats.v
OvsPorts.v
WitnessOvs.v
WitnessSync.v
WitnessPorts.v
