(* ===== verification/Prelude.v ===== *)
(** * lldpd: protocols, neighbor table, clients, monitor, SNMP agent and database

    lldpd announces a host to its network neighbors and records what they announce, with
    LLDP (IEEE 802.1AB) and four vendor protocols.  Programs ask the daemon for what it
    knows, and configure it, through a socket and a client library; an SNMP agent in the
    daemon serves the same data, and on a switch a database configures the daemon and gets
    its neighbors.  What needs privileges is done by a monitor process on request.  This
    library models the daemon, the monitor, the client library and the core of the command
    line client as pure, executable functions and proves them correct.

    ** The program and the files that model it

    - Shared machinery.  [Prelude]: lists, lengths in [Z], record update, tactics.
      [Bytes]: bytes, big-endian words, wrap-around.  [Text]: C strings, decimal and
      hexadecimal printing, [atoi].  [Decoder]: the state and error monad of the
      decoders, with faults as values, [while] with fuel, and its weakest-precondition
      calculus.  [Keeps]: the class of decoder steps that keep a property of the
      locals.  [Const]: the constants of lldp-const.h, lldp-tlv.h, cdp.h, edp.h,
      sonmp.h.  [Structs]: the structures of lldpd-structs.h and [lldpd_alloc_mgmt].
    - Packets.  [Frame]: the POKE and PEEK macros of daemon/frame.h; a packet is a
      buffer, a position and the room left, and [Emits p bs] says that the sequence of
      writes [p] appends exactly [bs] or fails when there is no room.  [FramePatch]:
      rewriting an earlier field ([POKE_SAVE], [POKE_RESTORE]).  [Checksum]:
      [frame_checksum] of daemon/frame.c.  [Interfaces]: [interfaces_send_helper] of
      daemon/interfaces.c.
    - LLDP (daemon/lldp.c).  [LldpSend]: [lldp_send].  [LldpSpec]: the frame as a list
      of TLVs.  [LldpDecode]: [lldp_decode].  [LldpSafe]: its safety and termination.
      [Bits], [LldpReads], [LldpRoundtrip]: decoding what was sent.
    - CDP and FDP (daemon/cdp.c): [CdpSend], [CdpDecode].  EDP (daemon/edp.c):
      [EdpSend], [EdpDecode], [EdpRoundtrip].  SONMP (daemon/sonmp.c): [Sonmp].
    - The neighbor table (daemon/lldpd.c, lldpd-structs.c).  [Table]: the daemon state
      and [lldpd_decode], [lldpd_cleanup], [lldpd_remote_cleanup],
      [lldpd_alloc_hardware]; chassis are shared by the ports that refer to them, so
      they live in a heap and carry the 16-bit reference count of the code.
      [TableOk]: the well-formedness predicate [table_ok] and the class [ProtocolOk],
      the contract the table asks of a protocol.  [TableInv], [TableSteps]: every
      operation keeps [table_ok] and does what it promises.
    - The daemon.  [Protocols]: the array [protos], each entry with its [ProtocolOk]
      instance.  [Smart]: [lldpd_hide_ports].  [Loop]: [lldpd_recv], [lldpd_send],
      [lldpd_hide_all].  [Daemon]: [lldpd_update_localchassis] and the step relation
      [lldpd_step] of the whole daemon, clients included.  [Addresses]: the management
      addresses and the configuration of every reachable state ([sound]).
    - Clients.  [Marshal]: [marshal_serialize_] and [marshal_unserialize_] of marshal.c
      over byte-addressed memory; [MarshalInfo]: the descriptions of the structures.
      [Ctl]: the messages of ctl.c, the connection of lib/connection.c and
      [_lldpctl_do_something] of lib/atom.c.  [Client]: the handlers of daemon/client.c,
      from the bytes received to the new state of the daemon.
    - SNMP agent (daemon/agent.c).  [SnmpIndex]: the search of a row, with comparison of
      identifiers as the class [NetSnmp] and its laws.  [SnmpWalk]: TRYNEXT and walks.
      [SnmpTables]: the rows of each table.  [SnmpValues]: the columns.  [SnmpAgent]: the
      handlers, [agent_lldp_vars] and [agent_notify].  [SnmpCorrect], [SnmpMib]: what
      they answer.
    - Client library.  [Fixedpoint]: lib/fixedpoint.c.  [AtomMaps]: keys, errors and
      tables of words.  [Atoms]: the accessors of lib/atom.c.  [AtomSettings],
      [AtomLocation], [AtomConfig]: the methods of lib/atom-private.c for powers and
      policies, locations, and the configuration.  [AtomCivic], [AtomCoord], [AtomSafe]:
      theorems on locations.
    - Privilege separation.  [Privsep]: the two processes and the channel of
      daemon/privsep_io.c.  [Regex]: the expressions that paths are compared with.
      [Monitor]: the functions [asroot_*], the table [actions] and [priv_loop] of
      daemon/priv.c and daemon/priv-linux.c.  [Proxies]: the functions [priv_*] that send
      the requests, and that the channel cannot be seen.  [MonitorSafe]: what the monitor
      does whatever it receives.  [Bpf]: the filter of the packet sockets (daemon/lldpd.h).
    - Command line client.  [Tokenizer]: client/tokenizer.c.  [Commands]: the tree of
      commands, execution and completion (client/commands.c, client/misc.c).
      [CommandsRun]: what they do.  [Show]: the commands show and watch (client/show.c)
      and the choice of what is displayed (client/display.c).
    - Database (daemon/lldpd_ovsdb_if.c).  [OvsDecode]: the names shown for numbers.
      [OvsNbr]: the publication of a neighbor.  [OvsConfig]: the configuration that the
      row of the system, the bridges and the VRFs give.  [OvsSync]: changes of neighbors
      copied to the rows, requests to clear, and the transaction that confirms them.
      [OvsStats]: the counters.  [OvsPorts]: the maps of interfaces and ports, with the
      lifetime of their blocks, and the VLANs that are announced.
    - Helpers.  [Pattern]: daemon/pattern.c.
    - [Witness], [WitnessLib], [WitnessSnmp], [WitnessAtoms], [WitnessPriv], [WitnessCli],
      [WitnessOvs], [WitnessSync], [WitnessPorts]: concrete data on which the theorems are
      applied, and what the code does at the edges.

    Components meet at interfaces: protocols and table at [ProtocolOk] (the theorems on the
    table hold of any list of protocols that satisfies it, the theorems on the decoders
    discharge it), protocols and addresses at [ProtocolAddrs], agent and Net-SNMP at
    [NetSnmp] and [NetSnmpLaws], accessors and types of settings at [Settings], the
    database interface and what it is built on at [OpenSwitch], [InetPton],
    [InterfacesUpdate], [SmapInt] and [OvsNames].

    ** What the theorems show

    - Senders: the bytes handed to the driver are the encoding of an abstract list of
      TLVs when it fits in the MTU and nothing is sent otherwise; checksums verify;
      errors of the driver are reported and the counters follow.
    - Decoders: every loop ends on every input; the reads that can leave the received
      bytes are delimited (EDP never reads outside, SONMP only in frames shorter than
      30 bytes, LLDP by at most six bytes and otherwise only through the management
      address TLV); decoding what was sent gives back what was announced.
    - Table: reference counts are exact, chassis are unique, neighbors are bounded by
      the configured maximum, expiry removes what is due and nothing else, and a frame
      sent by a peer ends up as its neighbor entry, which replaces the one with the same
      chassis and port identifiers.
    - Daemon: the invariant of the table holds in every reachable state, whatever frames
      and whatever bytes of clients it received.
    - Clients: unserializing any bytes stays in the buffer and in the blocks it allocated;
      requests change what they ask for and nothing else; no client can put the daemon in a
      bad configuration; the library gets its answer through any fragmentation of what it
      reads and any notifications it can handle, and every call ends.
    - SNMP: GETNEXT goes up and a walk ends; where the indexes of the rows are distinct and
      rows without a value come last ([mib_fit]) it gives the least instance above and a walk
      lists all of them; no request faults in a reachable state; values have the types that
      are declared; notifications agree with the MIB.
    - Client library: settings are stored exactly when they are in range, and read back when
      the field can represent them; texts round-trip; a coordinate is read as the text it was
      written with, up to the precision it is stored with, and a civic address as it was
      written; locations that are edited with texts of bounded precision are always read
      within their memory; the copy of the configuration follows
      the one of the daemon.

    - Privilege separation: a sequence of requests of the unprivileged process does the
      operations it asked for and gets their results, as without a channel, when no call on
      the channel is interrupted; whatever bytes the monitor receives, each of its calls is
      permitted after those before it; reads and writes are only tried again after an
      interruption, and stop when the channel fails; the packet filter keeps exactly the
      frames of the protocols.
    - Command line client: a line is executed exactly when it spells a path of the tree,
      privileged nodes need the privilege, completion proposes what can follow, and show
      selects the neighbors that were asked for.
    - Database: the configuration becomes what the row asks for within its limits; a
      neighbor is published field by field, or the way it fails is told; a change of
      neighbors that its code describes reaches the database through any number of retries; counters go on after a restart;
      ports announce the VLANs of their row.

    ** Bounds, fuel and assumptions

    The build has CDP, FDP, EDP, SONMP, DOT1, DOT3 and LLDPMED enabled; ENABLE_OVSDB
    and the byte order of the host are the fields of the class [BuildConfig], the sign of a
    char is [CharConfig].  Allocation never fails.  A loop over a frame of [s] bytes gets
    fuel [s + 1]; the termination theorems show that it is never used up.  The address loop
    of CDP is bounded by the announced count and by the bytes consumed.  Unserializing has
    one more than the length of the buffer, a reception of the library the length of the
    stream plus two, TRYNEXT one more than the rows, a walk one more than the instances, the
    list of civic elements one more than the bytes, a read of the channel the bytes asked for
    plus the interruptions, a write one plus the interruptions, the loop of the monitor the
    messages plus one, a command
    its words plus one, a packet filter the length of the program: each is shown to be
    enough.  Reference counts are 16 bits wide: the cleanup step asks for fewer than 65535
    ports.  A crash of the code is a value of the model where it has one: the assertion on the
    protocol of a management address ([mgmt_assertion]), the name that EDP does not test for
    NULL ([EdpNull]), the blocks that a notification frees ([notification_end]).  Time, the
    driver and what the operating system says of the host are arguments.

    ** Not modelled

    Timers, signals and sockets (the rest of daemon/event.c and of lib/connection.c,
    daemon/agent_priv.c), how the two processes are created and confined ([priv_init]), the
    commands of lldpcli that configure, its writers and the fields they show, the atoms that
    only show fields of a port or a chassis, and how the local ports are filled from the
    operating system (the rest of daemon/interfaces.c, daemon/interfaces-linux.c:
    [InterfacesUpdate] stands for any interfaces and chassis it may leave, without
    assumption).  Of the database interface: the changes of direction and
    link state of an interface that is there, the event loop it shares with the daemon, the
    start-up and the commands of ovs-appctl; the commands of the switch shell (cli/) are left
    out too.  These are input and output around the core, or callbacks of libraries that
    are not part of the repository.  Logging, traps and the title of the process are left
    out everywhere. *)

From Stdlib Require Export Lia ZArith.
From stdpp Require Export base tactics list numbers.

#[local] Open Scope Z_scope.

(** ** Record update

    [r <| f := v |>] is the record [r] with field [f] set to [v]: the C
    assignment [r->f = v].  A record type opts in with a [Settable] instance
    (its eta expansion); the setter of each field is derived from it. *)

Declare Scope record_set.
Delimit Scope record_set with rset.

Class Settable (R : Type) := eta : R → R.
Class Setter {R T} (proj : R → T) := set : (T → T) → R → R.
Arguments set {R T} proj {_} f r.

Ltac solve_setter :=
  match goal with
  | |- @Setter ?R ?T ?proj =>
      let s := constr:(_ : Settable R) in
      let e := eval red in s in
      match eval pattern proj in e with
      | ?g _ =>
          let v := eval cbv beta in (λ f : T → T, g (λ r, f (proj r))) in
          exact v
      end
  end.
#[export] Hint Extern 0 (Setter _) => solve_setter : typeclass_instances.

Notation "r <| p := v |>" := (set p (λ _, v) r)
  (at level 1, left associativity, format "r <| p  :=  v |>") : record_set.
Notation "r <| p ::= f |>" := (set p f r)
  (at level 1, left associativity, format "r <| p  ::=  f |>") : record_set.
#[export] Set Warnings "-postfix-notation-not-level-1".
Open Scope record_set.

(** ** Build configuration

    [ENABLE_OVSDB] is the preprocessor symbol of configure.ac that turns the
    daemon into the OpenSwitch one; [HOST_LITTLE_ENDIAN] is the byte order of
    the host, which [ntohs] depends on.  Every definition whose source is
    guarded by the symbol takes it from this class, so a theorem over
    [BuildConfig] holds for both builds. *)

Class BuildConfig := {
  ENABLE_OVSDB : bool;
  HOST_LITTLE_ENDIAN : bool
}.

(** ** Hint databases and automation *)

Create HintDb lldpd.
Create Rewrite HintDb zlen.

(** Turn boolean integer tests into propositions. *)
Ltac bool_to_prop :=
  repeat match goal with
  | H : (_ && _)%bool = true |- _ => apply andb_prop in H; destruct H
  | H : (_ || _)%bool = false |- _ => apply orb_false_elim in H; destruct H
  | H : negb _ = true |- _ => apply negb_true_iff in H
  | H : negb _ = false |- _ => apply negb_false_iff in H
  | H : (_ =? _)%Z = true |- _ => apply Z.eqb_eq in H
  | H : (_ =? _)%Z = false |- _ => apply Z.eqb_neq in H
  | H : (_ <? _)%Z = true |- _ => apply Z.ltb_lt in H
  | H : (_ <? _)%Z = false |- _ => apply Z.ltb_ge in H
  | H : (_ <=? _)%Z = true |- _ => apply Z.leb_le in H
  | H : (_ <=? _)%Z = false |- _ => apply Z.leb_gt in H
  end.

(** [lia] with division and remainder by constants. *)
Ltac zlia := Z.div_mod_to_equations; lia.

(** Split the first [if] or [match] of the goal, remembering the equation. *)
Ltac case_if :=
  match goal with
  | |- context [if ?b then _ else _] => destruct b eqn:?; bool_to_prop
  end.

(** ** Lists *)

Section Lists.
Context {A : Type}.
Implicit Types (l k : list A) (n : nat).

(** Length of a list as a C [int]. *)
Definition zlen (l : list A) : Z := Z.of_nat (length l).

Lemma zlen_nonneg l : 0 ≤ zlen l.
Proof. unfold zlen; lia. Qed.

Lemma zlen_nil : zlen (@nil A) = 0.
Proof. done. Qed.

Lemma zlen_cons (x : A) l : zlen (x :: l) = 1 + zlen l.
Proof. unfold zlen; simpl; lia. Qed.

Lemma zlen_app l k : zlen (l ++ k) = zlen l + zlen k.
Proof. unfold zlen; rewrite length_app; lia. Qed.

Lemma zlen_take z l : 0 ≤ z ≤ zlen l → zlen (take (Z.to_nat z) l) = z.
Proof. unfold zlen; intros; rewrite length_take; lia. Qed.

Lemma zlen_drop z l : 0 ≤ z ≤ zlen l → zlen (drop (Z.to_nat z) l) = zlen l - z.
Proof. unfold zlen; intros; rewrite length_drop; lia. Qed.

Lemma to_nat_zlen l : Z.to_nat (zlen l) = length l.
Proof. unfold zlen; lia. Qed.

Lemma zlen_replicate n (x : A) : zlen (replicate n x) = Z.of_nat n.
Proof. unfold zlen; by rewrite length_replicate. Qed.

Lemma drop_app_zlen l k : drop (Z.to_nat (zlen l)) (l ++ k) = k.
Proof. rewrite to_nat_zlen. apply drop_app_length. Qed.

Lemma take_app_zlen l k : take (Z.to_nat (zlen l)) (l ++ k) = l.
Proof. rewrite to_nat_zlen. apply take_app_length. Qed.

(** Longest prefix whose elements satisfy a test. *)
Fixpoint take_while (f : A → bool) (l : list A) : list A :=
  match l with
  | [] => []
  | x :: l' => if f x then x :: take_while f l' else []
  end.

Lemma take_while_all (f : A → bool) l :
  Forall (λ x, f x = true) l → take_while f l = l.
Proof. induction 1 as [|x l Hx _ IH]; simpl; [done|]. by rewrite Hx, IH. Qed.

Lemma take_while_length (f : A → bool) l : (length (take_while f l) ≤ length l)%nat.
Proof. induction l as [|x l IH]; simpl; [done|]. destruct (f x); simpl; lia. Qed.

Lemma take_while_Forall (f : A → bool) l : Forall (λ x, f x = true) (take_while f l).
Proof. induction l as [|x l IH]; simpl; [done|]. destruct (f x) eqn:?; auto. Qed.

Lemma take_while_Forall_P (P : A → Prop) (f : A → bool) l :
  Forall P l → Forall P (take_while f l).
Proof. induction 1 as [|x l Hx _ IH]; simpl; [done|]. destruct (f x); auto. Qed.

Lemma filter_all (P : A → Prop) `{∀ x, Decision (P x)} l : Forall P l → filter P l = l.
Proof. induction 1 as [|x l Hx _ IH]; [done|]. by rewrite filter_cons_True, IH. Qed.
End Lists.

Arguments zlen : simpl never.
#[export] Hint Rewrite @zlen_nil @zlen_cons @zlen_app @zlen_replicate : zlen.
#[export] Hint Resolve zlen_nonneg : lldpd.

(** Evaluate every [zlen] that occurs and close linear goals. *)
Ltac zlen_simpl := autorewrite with zlen in *.
Ltac zlen_lia := zlen_simpl; repeat match goal with
  | |- context [zlen ?l] => lazymatch goal with H : 0 ≤ zlen l |- _ => fail | _ => pose proof (zlen_nonneg l) end
  end; lia.
