(* ===== verification/Bytes.v ===== *)
(** * Bytes and machine integers

    A byte or a wider unsigned integer of the C code is a [Z]; the width is
    made explicit by [u8], [u16] and [u32], the conversions C performs when a
    value is stored in a [u_int8_t], [u_int16_t] or [u_int32_t].  Multi-byte
    values on the wire are in network byte order, [be16] and [be32]; this is
    what [memcpy] of [htons(v)] and [htonl(v)] leaves in memory, whatever the
    host is.  NUL-terminated strings are the lists of the bytes of their
    buffer; [cstr] is the part C's string functions see. *)

From S2P Require Import Prelude.
#[local] Open Scope Z_scope.

Definition u8 (v : Z) : Z := v mod 2 ^ 8.
Definition u16 (v : Z) : Z := v mod 2 ^ 16.
Definition u32 (v : Z) : Z := v mod 2 ^ 32.

Definition is_byte (b : Z) : Prop := 0 ≤ b < 256.
#[global] Instance is_byte_dec b : Decision (is_byte b).
Proof. unfold is_byte; apply _. Defined.
Abbreviation bytes_ok := (Forall is_byte).

Definition be16 (v : Z) : list Z := [ (v / 2 ^ 8) mod 2 ^ 8; v mod 2 ^ 8 ].
Definition be32 (v : Z) : list Z :=
  [ (v / 2 ^ 24) mod 2 ^ 8; (v / 2 ^ 16) mod 2 ^ 8; (v / 2 ^ 8) mod 2 ^ 8; v mod 2 ^ 8 ].

Arguments be16 : simpl never.
Arguments be32 : simpl never.
Arguments u8 : simpl never.
Arguments u16 : simpl never.
Arguments u32 : simpl never.

(** The value of a big-endian byte list. *)
Fixpoint be_value_aux (acc : Z) (l : list Z) : Z :=
  match l with
  | [] => acc
  | b :: l' => be_value_aux (acc * 256 + b) l'
  end.
Definition be_value (l : list Z) : Z := be_value_aux 0 l.

(** [ntohs] as a function on host integers. *)
Definition swap16 (v : Z) : Z := (v mod 2 ^ 8) * 2 ^ 8 + (v / 2 ^ 8) mod 2 ^ 8.
Definition ntohs `{BuildConfig} (v : Z) : Z :=
  if HOST_LITTLE_ENDIAN then swap16 (u16 v) else u16 v.

(** The string a [char *] denotes: the bytes before the first NUL. *)
Definition cstr (l : list Z) : list Z := take_while (λ b, negb (b =? 0)) l.
Definition strlen (l : list Z) : Z := zlen (cstr l).
(** The size of the name of an interface (linux/if.h), and the string that is in such a
    buffer after [strlcpy]. *)
Definition IFNAMSIZ : Z := 16.
Definition ifname_copy (s : list Z) : list Z := take (Z.to_nat (IFNAMSIZ - 1)) (cstr s).

(** [printf("%d")] of a non-negative integer. *)
Fixpoint decimal_aux (fuel : nat) (v : Z) (acc : list Z) : list Z :=
  match fuel with
  | O => acc
  | S n => let acc := (48 + v mod 10) :: acc in
           if v <? 10 then acc else decimal_aux n (v / 10) acc
  end.
Definition decimal (v : Z) : list Z := decimal_aux 20 v [].

(** [strncmp(lit, s, n) == 0], where [lit] is the literal without its NUL. *)
Fixpoint strncmp_eq (lit s : list Z) (n : nat) : bool :=
  match n with
  | O => true
  | S n' =>
      match lit, s with
      | [], b :: _ => b =? 0
      | a :: lit', b :: s' => (a =? b) && strncmp_eq lit' s' n'
      | _, [] => false
      end
  end.

(** A string whose buffer holds no NUL. *)
Definition no_nul (l : list Z) : Prop := Forall (λ b, b ≠ 0) l.

Section Bytes.
Implicit Types (v b : Z) (l : list Z).

Lemma u8_small v : 0 ≤ v < 2 ^ 8 → u8 v = v.
Proof. apply Z.mod_small. Qed.
Lemma u16_small v : 0 ≤ v < 2 ^ 16 → u16 v = v.
Proof. apply Z.mod_small. Qed.
Lemma u32_small v : 0 ≤ v < 2 ^ 32 → u32 v = v.
Proof. apply Z.mod_small. Qed.
Lemma u8_bounds v : 0 ≤ u8 v < 256.
Proof. apply Z.mod_pos_bound; lia. Qed.
Lemma u16_bounds v : 0 ≤ u16 v < 65536.
Proof. apply Z.mod_pos_bound; lia. Qed.
Lemma u32_bounds v : 0 ≤ u32 v < 4294967296.
Proof. apply Z.mod_pos_bound; lia. Qed.

Lemma be16_value v : be_value (be16 v) = u16 v.
Proof. unfold be_value, be16, u16; cbn -[Z.div Z.modulo]. zlia. Qed.
Lemma be32_value v : be_value (be32 v) = u32 v.
Proof. unfold be_value, be32, u32; cbn -[Z.div Z.modulo]. zlia. Qed.

Lemma be_value_aux_bounds l acc k :
  bytes_ok l → 0 ≤ k → 0 ≤ acc < 256 ^ k →
  0 ≤ be_value_aux acc l < 256 ^ (k + zlen l).
Proof.
  intros Hl. revert acc k. induction Hl as [|b l Hb Hl IH]; intros acc k Hk Hacc.
  - change (zlen []) with 0. by rewrite Z.add_0_r.
  - simpl. rewrite zlen_cons, Z.add_assoc. apply IH; [lia|].
    rewrite Z.pow_add_r by lia. unfold is_byte in Hb. lia.
Qed.

Lemma be_value_bounds l : bytes_ok l → 0 ≤ be_value l < 256 ^ zlen l.
Proof. intros Hl. apply (be_value_aux_bounds l 0 0); [done|lia|lia]. Qed.

Lemma be_value_bounds_n l n :
  bytes_ok l → Z.of_nat (length l) = n → 0 ≤ be_value l < 256 ^ n.
Proof. intros Hl <-. by apply be_value_bounds. Qed.

Lemma be16_zlen v : zlen (be16 v) = 2.
Proof. done. Qed.
Lemma be32_zlen v : zlen (be32 v) = 4.
Proof. done. Qed.

Lemma be16_bytes v : bytes_ok (be16 v).
Proof. repeat constructor; unfold is_byte; zlia. Qed.
Lemma be32_bytes v : bytes_ok (be32 v).
Proof. repeat constructor; unfold is_byte; zlia. Qed.

Lemma cstr_no_nul l : no_nul l → cstr l = l.
Proof.
  intros Hl. apply take_while_all. eapply Forall_impl; [|exact Hl].
  intros b Hb; simpl. apply negb_true_iff, Z.eqb_neq, Hb.
Qed.

Lemma cstr_is_no_nul l : no_nul (cstr l).
Proof.
  eapply Forall_impl; [|apply take_while_Forall].
  intros b Hb; simpl in Hb. by apply negb_true_iff, Z.eqb_neq in Hb.
Qed.

Lemma cstr_bytes l : bytes_ok l → bytes_ok (cstr l).
Proof. apply take_while_Forall_P. Qed.
End Bytes.

#[export] Hint Rewrite be16_zlen be32_zlen : zlen.
#[export] Hint Resolve u8_bounds u16_bounds u32_bounds be16_bytes be32_bytes
  cstr_is_no_nul cstr_bytes : lldpd.
