(* ===== verification/Text.v ===== *)
(** * Text (the C library functions the daemon formats and parses text with)

    String literals as lists of bytes, the conversions of [printf] the daemon
    uses, [inet_ntoa], [atoi] and prefix comparison. *)

From S2P Require Import Prelude Bytes.
From stdpp Require Import strings.
#[local] Open Scope Z_scope.

(** The bytes of a string literal. *)
Definition chars (s : string) : list Z :=
  map (λ a, Z.of_N (Ascii.N_of_ascii a)) (String.list_ascii_of_string s).

(** [%x] and [%02x] of a byte. *)
Definition hex_digit (d : Z) : Z := if d <? 10 then 48 + d else 87 + d.
Definition hex2 (b : Z) : list Z := [hex_digit (b / 16); hex_digit (b mod 16)].
Definition hex (b : Z) : list Z := if b <? 16 then [hex_digit b] else hex2 b.

(** [inet_ntoa] *)
Definition inet_ntoa (address : list Z) : list Z :=
  match address with
  | [a; b; c; d] => decimal a ++ [46] ++ decimal b ++ [46] ++ decimal c ++ [46] ++ decimal d
  | _ => []
  end.

(** [strtol] in base 10: white space, a sign, digits, limited to a [long]; [atoi] stores it in an
    [int]. *)
Definition is_space (c : Z) : bool := (c =? 32) || ((9 <=? c) && (c <=? 13)).
Definition is_digit (c : Z) : bool := (48 <=? c) && (c <=? 57).
Fixpoint skip_spaces (s : list Z) : list Z :=
  match s with
  | c :: s' => if is_space c then skip_spaces s' else s
  | [] => []
  end.
Fixpoint digits (acc : Z) (s : list Z) : Z :=
  match s with
  | c :: s' => if is_digit c then digits (acc * 10 + (c - 48)) s' else acc
  | [] => acc
  end.
Definition decimal_value (s : list Z) : Z :=
  match skip_spaces s with
  | 45 :: s' => - digits 0 s'
  | 43 :: s' => digits 0 s'
  | s' => digits 0 s'
  end.
Definition strtol (s : list Z) : Z := Z.max (- 2 ^ 63) (Z.min (2 ^ 63 - 1) (decimal_value s)).
Definition int32 (v : Z) : Z := (v + 2 ^ 31) mod 2 ^ 32 - 2 ^ 31.
Definition atoi (s : list Z) : Z := int32 (strtol s).

(** [strncmp(s, prefix, strlen(prefix)) == 0] *)
Definition has_prefix (prefix s : list Z) : bool := strncmp_eq prefix s (length prefix).

Lemma has_prefix_app prefix s : has_prefix prefix (prefix ++ s) = true.
Proof.
  unfold has_prefix. induction prefix as [|b prefix IH]; [done|]. cbn. by rewrite Z.eqb_refl.
Qed.

(** Decimal digits read back. *)
Lemma digits_app acc a b : Forall (λ c, is_digit c = true) a → digits acc (a ++ b) = digits (digits acc a) b.
Proof.
  intros Ha. revert acc. induction Ha as [|c a Hc Ha IH]; intros acc; [done|].
  cbn. rewrite Hc. apply IH.
Qed.

Lemma decimal_aux_digits fuel v acc :
  0 ≤ v < 10 ^ Z.of_nat fuel →
  ∃ d, decimal_aux fuel v acc = d ++ acc ∧ digits 0 d = v ∧ Forall (λ c, is_digit c = true) d.
Proof.
  revert v acc. induction fuel as [|n IH]; intros v acc Hv.
  - change (10 ^ Z.of_nat 0) with 1 in Hv. exists []. cbn. split_and!; [done|lia|done].
  - rewrite Nat2Z.inj_succ, Z.pow_succ_r in Hv by lia. cbn [decimal_aux].
    assert (is_digit (48 + v mod 10) = true) as Hd
      by (unfold is_digit; rewrite andb_true_iff, !Z.leb_le; zlia).
    destruct (Z.ltb_spec v 10).
    + exists [48 + v mod 10]. split_and!; [done| |by constructor].
      cbn [digits]. rewrite Hd. rewrite Z.mod_small by lia. lia.
    + destruct (IH (v / 10) ((48 + v mod 10) :: acc)) as (d & -> & Hv' & Hd'); [zlia|].
      exists (d ++ [48 + v mod 10]). rewrite <- app_assoc. split_and!; [done| |].
      * rewrite digits_app, Hv' by done. cbn [digits]. rewrite Hd. zlia.
      * apply Forall_app. split; [done|by constructor].
Qed.

(** [printf("%d")] then [atoi] gives the number back. *)
Lemma decimal_value_decimal v s :
  0 ≤ v < 10 ^ 20 → hd 0 s = 0 → decimal_value (decimal v ++ s) = v.
Proof.
  intros Hv Hs. destruct (decimal_aux_digits 20 v [] Hv) as (d & Hd & Hval & Hf).
  unfold decimal. rewrite Hd, app_nil_r.
  assert (digits 0 (d ++ s) = v) as Hds.
  { rewrite digits_app, Hval by done. destruct s as [|c s]; [done|]. cbn in Hs. by subst c. }
  destruct d as [|c d].
  { cbn in Hval. subst v. destruct s as [|c s]; [done|]. cbn in Hs. by subst c. }
  apply Forall_cons_iff in Hf as [Hc _]. unfold is_digit in Hc. bool_to_prop.
  assert (is_space c = false) as Hsp.
  { unfold is_space. rewrite orb_false_iff, andb_false_iff, Z.eqb_neq, !Z.leb_gt. lia. }
  unfold decimal_value. cbn [app skip_spaces]. rewrite Hsp. cbn [app] in Hds.
  assert (c ≠ 45) by lia. assert (c ≠ 43) by lia.
  destruct c as [|c|c]; [done| |done].
  repeat (destruct c as [c|c|]; try done).
Qed.
Lemma int32_small v : - 2 ^ 31 ≤ v < 2 ^ 31 → int32 v = v.
Proof. intros Hv. unfold int32. rewrite Z.mod_small by lia. lia. Qed.
Lemma int32_bounds v : - 2 ^ 31 ≤ int32 v < 2 ^ 31.
Proof. unfold int32. pose proof (Z.mod_pos_bound (v + 2 ^ 31) (2 ^ 32) ltac:(lia)). lia. Qed.
Lemma atoi_decimal v s : 0 ≤ v < 2 ^ 31 → hd 0 s = 0 → atoi (decimal v ++ s) = v.
Proof.
  intros Hv Hs. unfold atoi, strtol. rewrite decimal_value_decimal by (done || lia).
  rewrite Z.min_r, Z.max_r by lia. apply int32_small. lia.
Qed.
