(* ===== verification/Decoder.v ===== *)
(** * The monad of the frame decoders

    A decoder of the daemon ([lldp_decode], [cdp_decode], ...) runs over the
    local variables of the C function and ends in one of three ways: it goes
    on with a value, it jumps to the [malformed] label, or it does something C
    leaves undefined (or that aborts the process).  The last one is a value
    too, [Fault], so that memory safety of a decoder is a theorem and not an
    assumption.  [wp] is the weakest-precondition calculus the safety proofs
    of all the decoders use; [while] is the C loop, with fuel. *)

From S2P Require Import Prelude.
#[local] Open Scope Z_scope.

Inductive fault :=
  | OutOfBoundsRead     (** a read past the end of the received buffer *)
  | BufferOverflow      (** a write past the end of a local array *)
  | UninitializedRead   (** a read of a local array that was never written *)
  | AssertionFailed     (** [assert] aborts the process *)
  | OutOfFuel.          (** the fuel of a [while] was too small *)

#[global] Instance fault_eq_dec : EqDecision fault.
Proof. solve_decision. Defined.

Inductive outcome (S A : Type) :=
  | Ok (a : A) (s : S)
  | Malformed (s : S)
  | Fault (f : fault).
Arguments Ok {S A}. Arguments Malformed {S A}. Arguments Fault {S A}.

Definition decoder (S A : Type) : Type := S → outcome S A.

#[global] Instance decoder_ret S : MRet (decoder S) := λ A a s, Ok a s.
#[global] Instance decoder_bind S : MBind (decoder S) := λ A B k m s,
  match m s with
  | Ok a s' => k a s'
  | Malformed s' => Malformed s'
  | Fault f => Fault f
  end.

(** [goto malformed] *)
Definition malformed {S A} : decoder S A := λ s, Malformed s.
Definition undefined {S A} (f : fault) : decoder S A := λ _, Fault f.
Definition gets {S A} (f : S → A) : decoder S A := λ s, Ok (f s) s.
Definition modify {S} (f : S → S) : decoder S unit := λ s, Ok tt (f s).
(** [if (!b) goto malformed] *)
Definition check {S} (b : bool) : decoder S unit := if b then mret tt else malformed.
(** [assert(b)] *)
Definition assert_ {S} (b : bool) : decoder S unit :=
  if b then mret tt else undefined AssertionFailed.

Fixpoint while {S} (fuel : nat) (cond : S → bool) (body : decoder S unit) : decoder S unit :=
  match fuel with
  | O => undefined OutOfFuel
  | S n => λ s, if cond s then (body ≫= λ _, while n cond body) s else Ok tt s
  end.

(** ** Weakest preconditions *)

Section Wp.
Context {S : Type}.
Implicit Types (E : fault → Prop) (R : S → Prop) (s : S).

(** [wp m E R Q s]: run from [s], [m] ends in a value and a state that
    satisfy [Q], or in [malformed] with [R], or in a fault [E] allows. *)
Definition wp {A} (m : decoder S A) E R (Q : A → S → Prop) s : Prop :=
  match m s with
  | Ok a s' => Q a s'
  | Malformed s' => R s'
  | Fault f => E f
  end.

Lemma wp_ret {A} (a : A) E R (Q : A → S → Prop) s : Q a s → wp (mret a) E R Q s.
Proof. done. Qed.

Lemma wp_bind {A B} (m : decoder S A) (k : A → decoder S B) E R (Q : B → S → Prop) s :
  wp m E R (λ a s', wp (k a) E R Q s') s → wp (m ≫= k) E R Q s.
Proof. unfold wp, mbind, decoder_bind. by destruct (m s). Qed.

Lemma wp_bind_inv {A B} (m : decoder S A) (k : A → decoder S B) E R (Q : B → S → Prop) s :
  wp (m ≫= k) E R Q s → wp m E R (λ a s', wp (k a) E R Q s') s.
Proof. unfold wp, mbind, decoder_bind. by destruct (m s). Qed.

Lemma wp_mono {A} (m : decoder S A) E R (Q Q' : A → S → Prop) s :
  wp m E R Q s → (∀ a s', Q a s' → Q' a s') → wp m E R Q' s.
Proof. unfold wp. destruct (m s); eauto. Qed.

Lemma wp_malformed {A} E R (Q : A → S → Prop) s : R s → wp malformed E R Q s.
Proof. done. Qed.

Lemma wp_undefined {A} f E R (Q : A → S → Prop) s : E f → wp (undefined f) E R Q s.
Proof. done. Qed.

Lemma wp_gets {A} (f : S → A) E R (Q : A → S → Prop) s : Q (f s) s → wp (gets f) E R Q s.
Proof. done. Qed.

Lemma wp_modify (f : S → S) E R (Q : unit → S → Prop) s : Q tt (f s) → wp (modify f) E R Q s.
Proof. done. Qed.

Lemma wp_check (b : bool) E R (Q : unit → S → Prop) s :
  (b = true → Q tt s) → (b = false → R s) → wp (check b) E R Q s.
Proof. destruct b; unfold wp; simpl; auto. Qed.

(** Total correctness of a loop: an invariant and a measure that every
    iteration decreases and that the fuel exceeds. *)
Lemma wp_while (I : S → Prop) (μ : S → Z) cond body E R (fuel : nat) s :
  (∀ s, I s → cond s = true →
    wp body E R (λ _ s', I s' ∧ 0 ≤ μ s' < μ s) s) →
  I s → 0 ≤ μ s < Z.of_nat fuel →
  wp (while fuel cond body) E R (λ _ s', I s' ∧ cond s' = false) s.
Proof.
  intros Hbody. revert s. induction fuel as [|n IH]; intros s HI Hμ; [lia|].
  cbn [while]. unfold wp. destruct (cond s) eqn:Hc; [|by split].
  change (wp (body ≫= λ _, while n cond body) E R (λ _ s', I s' ∧ cond s' = false) s).
  apply wp_bind. eapply wp_mono; [by apply Hbody|].
  intros _ s' [HI' Hμ']. apply IH; [done|lia].
Qed.
End Wp.

Arguments wp : simpl never.

(** ** Symbolic execution

    [exec_bind] runs the first step of a decoder whose result is known. *)
Lemma exec_bind {S A B} (m : decoder S A) (k : A → decoder S B) s a s' :
  m s = Ok a s' → (m ≫= k) s = k a s'.
Proof. intros H. unfold mbind, decoder_bind. by rewrite H. Qed.

Lemma exec_check {S} (b : bool) (s : S) : b = true → check b s = Ok tt s.
Proof. by intros ->. Qed.

Lemma exec_while_true {S} n cond (body : decoder S unit) s s' :
  cond s = true → body s = Ok tt s' →
  while (Datatypes.S n) cond body s = while n cond body s'.
Proof. intros Hc Hb. cbn [while]. rewrite Hc. unfold mbind, decoder_bind. by rewrite Hb. Qed.

Lemma exec_while_false {S} n cond (body : decoder S unit) s :
  cond s = false → while (Datatypes.S n) cond body s = Ok tt s.
Proof. intros Hc. cbn [while]. by rewrite Hc. Qed.
