(* ===== verification/Frame.v ===== *)
(** * Building and parsing frames (src/daemon/frame.h, src/daemon/frame.c)

    The [POKE_*] macros build a packet in a zeroed buffer of [h_mtu] bytes:
    a [pkt] is that buffer with the locals [pos], [length] and [tlv] the macros
    work on ([pos] and [tlv] are offsets in the buffer).  A macro evaluates to
    0 when the remaining [length] is too small; every sender then jumps to
    [toobig], which is [None] here, and chains the macros with [&&], which
    is [poke_seq].  The [PEEK_*] macros parse a received buffer without checking
    bounds: they are [decoder] steps, and a read outside the buffer is
    [OutOfBoundsRead].

    [Writes p bs] and [Emits p bs] say that the macros of [p] append exactly
    the bytes [bs], or fail because they do not fit.  The instances compute
    [bs] from the shape of [p]. *)

From S2P Require Import Prelude Bytes Decoder.
#[local] Open Scope Z_scope.

Definition ETHER_ADDR_LEN : Z := 6.

(** ** POKE *)

Record pkt := {
  pk_buf : list Z;
  pk_pos : Z;
  pk_length : Z;
  pk_tlv : Z
}.
#[global] Instance eta_pkt : Settable pkt := λ r,
  {| pk_buf := pk_buf r; pk_pos := pk_pos r; pk_length := pk_length r; pk_tlv := pk_tlv r |}.

Definition poke : Type := pkt → option pkt.

(** [memcpy(buf + pos, bs, sizeof bs)] *)
Definition write_at (buf : list Z) (pos : Z) (bs : list Z) : list Z :=
  take (Z.to_nat pos) buf ++ bs ++ drop (Z.to_nat (pos + zlen bs)) buf.

Definition POKE_BYTES (bs : list Z) : poke := λ st,
  if zlen bs <=? pk_length st then
    Some {| pk_buf := write_at (pk_buf st) (pk_pos st) bs;
            pk_pos := pk_pos st + zlen bs;
            pk_length := pk_length st - zlen bs;
            pk_tlv := pk_tlv st |}
  else None.
Definition POKE_UINT8 (v : Z) : poke := POKE_BYTES [u8 v].
Definition POKE_UINT16 (v : Z) : poke := POKE_BYTES (be16 v).
Definition POKE_UINT32 (v : Z) : poke := POKE_BYTES (be32 v).

(** [p && q] *)
Definition poke_seq (p q : poke) : poke := λ st, p st ≫= q.
Definition poke_skip : poke := λ st, Some st.
(** [(void)p] *)
Definition poke_void (p : poke) : poke := λ st,
  Some (match p st with Some st' => st' | None => st end).
(** [if (b) { if (!(p)) goto toobig; }] *)
Definition poke_when (b : bool) (p : poke) : poke := if b then p else poke_skip.
(** [TAILQ_FOREACH(x, l) { if (!(f x)) goto toobig; }] *)
Fixpoint poke_each {A} (f : A → poke) (l : list A) : poke :=
  match l with
  | [] => poke_skip
  | x :: l' => poke_seq (f x) (poke_each f l')
  end.

Declare Scope poke_scope.
Delimit Scope poke_scope with poke.
Bind Scope poke_scope with poke.
Notation "p && q" := (poke_seq p q) : poke_scope.
#[local] Open Scope poke_scope.

(** [POKE_SAVE(where)]: the saved position is the argument of what follows. *)
Definition POKE_SAVE (k : Z → poke) : poke := λ st, k (pk_pos st) st.
Definition POKE_RESTORE (where_ : Z) : poke := λ st,
  Some {| pk_buf := pk_buf st;
          pk_pos := where_;
          pk_length := if pk_pos st <? where_
                       then pk_length st - (where_ - pk_pos st)
                       else pk_length st + (pk_pos st - where_);
          pk_tlv := pk_tlv st |}.

(** The 16-bit word at an offset of the packet, in network byte order. *)
Definition word_at (buf : list Z) (off : Z) : Z :=
  be_value (take 2 (drop (Z.to_nat off) buf)).

Definition POKE_START_LLDP_TLV (type : Z) : poke := λ st,
  POKE_UINT16 (Z.shiftl type 9) st<|pk_tlv := pk_pos st|>.
Definition POKE_END_LLDP_TLV : poke := λ st,
  let word := Z.lor (word_at (pk_buf st) (pk_tlv st))
                    (Z.land (pk_pos st - (pk_tlv st + 2)) 0x1ff) in
  Some st<|pk_buf := write_at (pk_buf st) (pk_tlv st) (be16 word)|>.

Definition set_tlv : poke := λ st, Some st<|pk_tlv := pk_pos st|>.

Definition POKE_START_CDP_TLV (type : Z) : poke :=
  poke_void (POKE_UINT16 type) && set_tlv && POKE_UINT16 0.
Definition POKE_END_CDP_TLV : poke := λ st,
  Some st<|pk_buf := write_at (pk_buf st) (pk_tlv st)
                       (be16 (pk_pos st - pk_tlv st + 2))|>.

Definition EDP_TLV_MARKER : Z := 0x99.
Definition POKE_START_EDP_TLV (type : Z) : poke :=
  poke_void (POKE_UINT8 EDP_TLV_MARKER) && poke_void (POKE_UINT8 type) &&
  set_tlv && POKE_UINT16 0.
Definition POKE_END_EDP_TLV : poke := POKE_END_CDP_TLV.

(** The [calloc]ed packet of a sender, and its bytes when it is sent. *)
Definition pkt_init (mtu : Z) : pkt :=
  {| pk_buf := replicate (Z.to_nat mtu) 0; pk_pos := 0; pk_length := mtu; pk_tlv := 0 |}.
Definition pkt_upto (st : pkt) (e : Z) : list Z := take (Z.to_nat e) (pk_buf st).

Ltac pkt_simpl := cbn [pk_buf pk_pos pk_length pk_tlv set].

(** ** What a sequence of POKE macros appends *)

Definition pkt_ok (st : pkt) : Prop :=
  0 ≤ pk_pos st ∧ 0 ≤ pk_length st ∧ pk_pos st + pk_length st = zlen (pk_buf st).

Definition pkt_app (st : pkt) (bs : list Z) (tlv : Z) : pkt :=
  {| pk_buf := write_at (pk_buf st) (pk_pos st) bs;
     pk_pos := pk_pos st + zlen bs;
     pk_length := pk_length st - zlen bs;
     pk_tlv := tlv |}.

(** [p] appends [bs] and leaves the [tlv] pointer alone, or fails. *)
Class Writes (p : poke) (bs : list Z) : Prop :=
  writes : ∀ st, pkt_ok st →
    p st = if zlen bs <=? pk_length st then Some (pkt_app st bs (pk_tlv st)) else None.

(** [p] appends [bs], or fails. *)
Class Emits (p : poke) (bs : list Z) : Prop :=
  emits : ∀ st, pkt_ok st →
    if zlen bs <=? pk_length st then ∃ t, p st = Some (pkt_app st bs t) else p st = None.

Section WriteAt.
Implicit Types (buf pre rest bs : list Z).

Lemma write_at_split pre rest bs :
  write_at (pre ++ rest) (zlen pre) bs = pre ++ bs ++ drop (length bs) rest.
Proof.
  unfold write_at. rewrite take_app_zlen. do 2 f_equal.
  rewrite drop_app_ge by (unfold zlen; lia). f_equal. unfold zlen; lia.
Qed.

Lemma write_at_mid pre old rest bs :
  zlen bs = zlen old →
  write_at (pre ++ old ++ rest) (zlen pre) bs = pre ++ bs ++ rest.
Proof.
  intros H. rewrite write_at_split. do 2 f_equal.
  unfold zlen in H. replace (length bs) with (length old) by lia.
  apply drop_app_length.
Qed.

Lemma write_at_zlen buf pos bs :
  0 ≤ pos → pos + zlen bs ≤ zlen buf → zlen (write_at buf pos bs) = zlen buf.
Proof.
  intros Hp Hb. pose proof (zlen_nonneg bs). unfold write_at.
  rewrite !zlen_app, zlen_take, zlen_drop by lia. lia.
Qed.

Lemma pkt_split st : pkt_ok st → ∃ pre rest, pk_buf st = pre ++ rest ∧
  pk_pos st = zlen pre ∧ pk_length st = zlen rest.
Proof.
  intros (Hp & Hl & Hs). exists (take (Z.to_nat (pk_pos st)) (pk_buf st)),
    (drop (Z.to_nat (pk_pos st)) (pk_buf st)).
  rewrite take_drop, zlen_take, zlen_drop by lia. split_and!; [done|lia|lia].
Qed.

Lemma word_at_split pre v rest : word_at (pre ++ be16 v ++ rest) (zlen pre) = u16 v.
Proof.
  unfold word_at. rewrite drop_app_zlen. unfold be16; simpl. apply be16_value.
Qed.
End WriteAt.

Lemma pkt_app_ok st bs t : pkt_ok st → zlen bs ≤ pk_length st → pkt_ok (pkt_app st bs t).
Proof.
  intros (Hp & Hl & Hs) Hb. pose proof (zlen_nonneg bs). unfold pkt_ok, pkt_app; simpl.
  rewrite write_at_zlen by lia. lia.
Qed.

Lemma pkt_app_app st a b t t' :
  pkt_ok st → zlen a + zlen b ≤ pk_length st →
  pkt_app (pkt_app st a t) b t' = pkt_app st (a ++ b) t'.
Proof.
  intros Hok Hab. destruct (pkt_split st Hok) as (pre & rest & Hbuf & Hpos & Hlen).
  rewrite Hlen in Hab. unfold pkt_app; simpl. rewrite Hbuf, Hpos, Hlen.
  f_equal; [|rewrite zlen_app; lia..].
  rewrite !write_at_split, <- zlen_app, app_assoc, write_at_split, <- !app_assoc.
  do 3 f_equal. rewrite drop_drop, length_app. done.
Qed.

(** ** Instances *)

#[export] Instance writes_bytes bs : Writes (POKE_BYTES bs) bs.
Proof. done. Qed.
#[export] Instance writes_uint8 v : Writes (POKE_UINT8 v) [u8 v].
Proof. done. Qed.
#[export] Instance writes_uint16 v : Writes (POKE_UINT16 v) (be16 v).
Proof. done. Qed.
#[export] Instance writes_uint32 v : Writes (POKE_UINT32 v) (be32 v).
Proof. done. Qed.

Lemma pkt_app_nil st : pkt_ok st → pkt_app st [] (pk_tlv st) = st.
Proof.
  intros (Hp & Hl & Hs). unfold pkt_app, write_at. rewrite zlen_nil, !Z.add_0_r, Z.sub_0_r.
  simpl. rewrite take_drop. by destruct st.
Qed.

#[export] Instance writes_skip : Writes poke_skip [].
Proof.
  intros st Hok. rewrite zlen_nil. destruct (Z.leb_spec 0 (pk_length st)) as [|Hlt].
  - by rewrite pkt_app_nil.
  - destruct Hok as (_ & ? & _); lia.
Qed.

#[export] Instance writes_seq p q a b :
  Writes p a → Writes q b → Writes (p && q) (a ++ b).
Proof.
  intros Hp Hq st Hok. unfold poke_seq. rewrite (Hp st Hok).
  pose proof (zlen_nonneg a). pose proof (zlen_nonneg b). rewrite zlen_app.
  destruct (Z.leb_spec (zlen a) (pk_length st)); simpl.
  - rewrite (Hq _) by (by apply pkt_app_ok). simpl.
    destruct (Z.leb_spec (zlen b) (pk_length st - zlen a)),
      (Z.leb_spec (zlen a + zlen b) (pk_length st)); try lia; [|done].
    by rewrite pkt_app_app by first [done | lia].
  - destruct (Z.leb_spec (zlen a + zlen b) (pk_length st)); [lia|done].
Qed.

#[export] Instance writes_if (b : bool) p q bs cs :
  Writes p bs → Writes q cs → Writes (if b then p else q) (if b then bs else cs).
Proof. by destruct b. Qed.

#[export] Instance writes_when (b : bool) p bs :
  Writes p bs → Writes (poke_when b p) (if b then bs else []).
Proof. destruct b; [done|]. intros _. apply writes_skip. Qed.

#[export] Instance writes_each {A} (f : A → poke) (g : A → list Z) l :
  (∀ x, Writes (f x) (g x)) → Writes (poke_each f l) (flat_map g l).
Proof. intros Hf. induction l as [|x l IH]; simpl; apply _. Qed.

Lemma writes_emits p bs : Writes p bs → Emits p bs.
Proof.
  intros Hp st Hok. rewrite (Hp st Hok). destruct (Z.leb_spec (zlen bs) (pk_length st)); eauto.
Qed.
#[export] Hint Extern 5 (Emits _ _) => apply writes_emits : typeclass_instances.

Lemma emits_eq p bs bs' : Emits p bs → bs = bs' → Emits p bs'.
Proof. by intros ? <-. Qed.

#[export] Instance emits_seq p q a b :
  Emits p a → Emits q b → Emits (p && q) (a ++ b).
Proof.
  intros Hp Hq st Hok. unfold poke_seq. specialize (Hp st Hok).
  pose proof (zlen_nonneg a). pose proof (zlen_nonneg b). rewrite zlen_app.
  destruct (Z.leb_spec (zlen a) (pk_length st)).
  - destruct Hp as [t ->]. simpl. specialize (Hq _ (pkt_app_ok st a t Hok ltac:(lia))).
    simpl in Hq. destruct (Z.leb_spec (zlen b) (pk_length st - zlen a)),
      (Z.leb_spec (zlen a + zlen b) (pk_length st)); try lia; [|done].
    destruct Hq as [t' ->]. exists t'. by rewrite pkt_app_app by first [done | lia].
  - rewrite Hp. destruct (Z.leb_spec (zlen a + zlen b) (pk_length st)); [lia|done].
Qed.

#[export] Instance emits_when (b : bool) p bs :
  Emits p bs → Emits (poke_when b p) (if b then bs else []).
Proof. destruct b; [done|]. intros _. apply writes_emits, writes_skip. Qed.

#[export] Instance emits_if (b : bool) p q bs cs :
  Emits p bs → Emits q cs → Emits (if b then p else q) (if b then bs else cs).
Proof. by destruct b. Qed.

#[export] Instance emits_each {A} (f : A → poke) (g : A → list Z) l :
  (∀ x, Emits (f x) (g x)) → Emits (poke_each f l) (flat_map g l).
Proof.
  intros Hf. induction l as [|x l IH]; simpl; [|apply _]. apply writes_emits, writes_skip.
Qed.

(** ** TLVs

    [POKE_START_*_TLV(type) && body && POKE_END_*_TLV] and the bytes it leaves:
    the header patched with the length of the body.  The LLDP length has 9
    bits, so a body of 512 bytes or more is announced with a wrong length. *)

Definition LLDP_TLV (type : Z) (body : poke) : poke :=
  POKE_START_LLDP_TLV type && body && POKE_END_LLDP_TLV.
Definition CDP_TLV (type : Z) (body : poke) : poke :=
  POKE_START_CDP_TLV type && body && POKE_END_CDP_TLV.
Definition EDP_TLV (type : Z) (body : poke) : poke :=
  POKE_START_EDP_TLV type && body && POKE_END_EDP_TLV.

#[export] Hint Opaque LLDP_TLV CDP_TLV EDP_TLV : typeclass_instances.

Definition lldp_tlv_header (type n : Z) : Z :=
  Z.lor (u16 (Z.shiftl type 9)) (Z.land n 0x1ff).
Definition enc_lldp_tlv (type : Z) (body : list Z) : list Z :=
  be16 (lldp_tlv_header type (zlen body)) ++ body.
Definition enc_cdp_tlv (type : Z) (body : list Z) : list Z :=
  be16 type ++ be16 (zlen body + 4) ++ body.
Definition enc_edp_tlv (type : Z) (body : list Z) : list Z :=
  [EDP_TLV_MARKER; u8 type] ++ be16 (zlen body + 4) ++ body.

Lemma land_shiftl_small a n k : 0 ≤ k → 0 ≤ n < 2 ^ k → Z.land (Z.shiftl a k) n = 0.
Proof.
  intros Hk Hn. apply Z.bits_inj'. intros m Hm. rewrite Z.land_spec, Z.bits_0.
  destruct (Z.lt_ge_cases m k).
  - by rewrite Z.shiftl_spec_low.
  - rewrite <- (Z.mod_small n (2 ^ k)) by done. rewrite Z.mod_pow2_bits_high by lia.
    apply andb_false_r.
Qed.

Lemma lldp_tlv_header_fields type n :
  0 ≤ type < 128 → 0 ≤ n < 512 →
  Z.shiftr (u16 (lldp_tlv_header type n)) 9 = type ∧
  Z.land (u16 (lldp_tlv_header type n)) 0x1ff = n.
Proof.
  intros Ht Hn. unfold lldp_tlv_header.
  rewrite (u16_small (Z.shiftl type 9)) by (rewrite Z.shiftl_mul_pow2 by lia; lia).
  change 0x1ff with (Z.ones 9). rewrite (Z.land_ones n), (Z.mod_small n) by lia.
  assert (Z.lor (Z.shiftl type 9) n = type * 512 + n) as ->.
  { rewrite <- Z.add_nocarry_lor by (apply land_shiftl_small; lia).
    rewrite Z.shiftl_mul_pow2 by lia. lia. }
  rewrite u16_small, Z.land_ones, Z.shiftr_div_pow2 by lia. split; zlia.
Qed.

Section TlvEmits.
Variables (pre rest hdr bs : list Z).

Lemma pkt_app_split st t :
  pk_buf st = pre ++ rest → pk_pos st = zlen pre →
  pkt_app st bs t =
    {| pk_buf := pre ++ bs ++ drop (length bs) rest;
       pk_pos := zlen (pre ++ bs);
       pk_length := pk_length st - zlen bs;
       pk_tlv := t |}.
Proof.
  intros Hb Hp. unfold pkt_app. rewrite Hb, Hp, write_at_split, zlen_app. done.
Qed.
End TlvEmits.

(** [start] appends [old] and leaves [tlv] at offset [k] of it, or fails. *)
Definition starts (start : poke) (old : list Z) (k : Z) : Prop := ∀ st, pkt_ok st →
  start st = if zlen old <=? pk_length st
             then Some (pkt_app st old (pk_pos st + k)) else None.

(** The common part of the three TLV formats: [start] appends [old] (which
    ends at the word to patch), the body appends [bs], and [end_] replaces
    [old] by [new]. *)
Lemma emits_patched (start body end_ : poke) (old new bs : list Z) (k : Z) :
  zlen new = zlen old →
  starts start old k →
  Writes body bs →
  (∀ pre rest len, end_ {| pk_buf := pre ++ old ++ bs ++ rest;
        pk_pos := zlen (pre ++ old ++ bs); pk_length := len; pk_tlv := zlen pre + k |} =
      Some {| pk_buf := pre ++ new ++ bs ++ rest;
        pk_pos := zlen (pre ++ old ++ bs); pk_length := len; pk_tlv := zlen pre + k |}) →
  Emits (start && body && end_) (new ++ bs).
Proof.
  intros Hlen Hstart Hbody Hend st Hok. specialize (Hstart st Hok).
  pose proof (zlen_nonneg old). pose proof (zlen_nonneg bs). rewrite zlen_app, Hlen.
  unfold poke_seq. rewrite Hstart. destruct (Z.leb_spec (zlen old) (pk_length st)); simpl.
  2: { destruct (Z.leb_spec (zlen old + zlen bs) (pk_length st)); [lia|done]. }
  rewrite (Hbody _) by (apply pkt_app_ok; first [done|lia]). simpl.
  destruct (Z.leb_spec (zlen bs) (pk_length st - zlen old)),
    (Z.leb_spec (zlen old + zlen bs) (pk_length st)); try lia; [|done].
  rewrite pkt_app_app by first [done|lia].
  destruct (pkt_split st Hok) as (pre & rest & Hbuf & Hpos & Hl).
  exists (zlen pre + k). simpl. rewrite Hpos, !(pkt_app_split pre rest) by done.
  rewrite <- !app_assoc, !Hend. do 2 f_equal; [|by rewrite !zlen_app, Hlen|by rewrite !zlen_app, Hlen].
  do 2 f_equal. rewrite !length_app. unfold zlen in Hlen. do 2 f_equal. lia.
Qed.

#[export] Instance emits_lldp_tlv type body bs :
  Writes body bs → Emits (LLDP_TLV type body) (enc_lldp_tlv type bs).
Proof.
  intros Hb. eapply (emits_patched _ _ _ (be16 (Z.shiftl type 9)) _ _ 0); [done| |done|].
  - intros st Hok. unfold POKE_START_LLDP_TLV.
    assert (pkt_ok st<|pk_tlv := pk_pos st|>) as Hok' by exact Hok.
    rewrite (writes_uint16 _ _ Hok'), Z.add_0_r. by destruct (_ <=? _).
  - intros pre rest len. unfold POKE_END_LLDP_TLV; pkt_simpl.
    rewrite Z.add_0_r, word_at_split.
    replace (zlen (pre ++ be16 (Z.shiftl type 9) ++ bs) - (zlen pre + 2)) with (zlen bs)
      by (rewrite !zlen_app, be16_zlen; lia).
    by rewrite write_at_mid.
Qed.

Lemma poke_seq_assoc p q r st : (p && q && r) st = (p && (q && r)) st.
Proof. unfold poke_seq. by destruct (p st). Qed.

Lemma starts_set_tlv p b : Writes p b → starts (set_tlv && p) b 0.
Proof.
  intros Hp st Hok. unfold poke_seq, set_tlv. cbn [mbind option_bind].
  assert (pkt_ok st<|pk_tlv := pk_pos st|>) as Hok' by exact Hok.
  rewrite (Hp _ Hok'), Z.add_0_r. by destruct (_ <=? _).
Qed.

(** An unchecked POKE in front of a TLV start: when it does not fit, neither
    does what follows, which is at least as long. *)
Lemma starts_void a q b k :
  zlen a ≤ zlen b → starts q b k →
  starts (poke_void (POKE_BYTES a) && q) (a ++ b) (zlen a + k).
Proof.
  intros Hab Hq st Hok. pose proof (zlen_nonneg a). rewrite zlen_app.
  unfold poke_seq, poke_void. cbn [mbind option_bind]. rewrite (writes_bytes a st Hok).
  destruct (Z.leb_spec (zlen a) (pk_length st)).
  - rewrite Hq by (by apply pkt_app_ok). cbn [pkt_app pk_length pk_pos].
    destruct (Z.leb_spec (zlen b) (pk_length st - zlen a)),
      (Z.leb_spec (zlen a + zlen b) (pk_length st)); try lia; [|done].
    by rewrite pkt_app_app, Z.add_assoc by first [done|lia].
  - rewrite Hq by done.
    destruct (Z.leb_spec (zlen b) (pk_length st)), (Z.leb_spec (zlen a + zlen b) (pk_length st));
      first [lia|done].
Qed.

(** [POKE_END_CDP_TLV] patches the length word that follows [old]. *)
Lemma end_cdp_patch pre old bs rest len :
  POKE_END_CDP_TLV {| pk_buf := pre ++ (old ++ be16 0) ++ bs ++ rest;
        pk_pos := zlen (pre ++ (old ++ be16 0) ++ bs); pk_length := len;
        pk_tlv := zlen pre + zlen old |} =
  Some {| pk_buf := pre ++ (old ++ be16 (zlen bs + 4)) ++ bs ++ rest;
        pk_pos := zlen (pre ++ (old ++ be16 0) ++ bs); pk_length := len;
        pk_tlv := zlen pre + zlen old |}.
Proof.
  unfold POKE_END_CDP_TLV; pkt_simpl.
  replace (zlen (pre ++ (old ++ be16 0) ++ bs) - (zlen pre + zlen old) + 2) with (zlen bs + 4)
    by (rewrite !zlen_app, be16_zlen; lia).
  rewrite <- zlen_app, <- !app_assoc, (app_assoc pre old), write_at_mid by done.
  by rewrite <- !app_assoc.
Qed.

#[export] Instance emits_cdp_tlv type body bs :
  Writes body bs → Emits (CDP_TLV type body) (enc_cdp_tlv type bs).
Proof.
  intros Hb. unfold enc_cdp_tlv. rewrite app_assoc.
  eapply (emits_patched _ _ _ (be16 type ++ be16 0) _ _ 2); [done| |done|].
  - intros st Hok. unfold POKE_START_CDP_TLV. rewrite poke_seq_assoc.
    apply (starts_void (be16 type) _ (be16 0) 0); [done| |done].
    apply starts_set_tlv, writes_uint16.
  - intros pre rest len. apply (end_cdp_patch pre (be16 type)).
Qed.

#[export] Instance emits_edp_tlv type body bs :
  Writes body bs → Emits (EDP_TLV type body) (enc_edp_tlv type bs).
Proof.
  intros Hb. unfold enc_edp_tlv. rewrite app_assoc.
  eapply (emits_patched _ _ _ ([EDP_TLV_MARKER; u8 type] ++ be16 0) _ _ 2); [done| |done|].
  - intros st Hok. unfold POKE_START_EDP_TLV. rewrite !poke_seq_assoc.
    apply (starts_void [EDP_TLV_MARKER] _ ([u8 type] ++ be16 0) 1); [done| |done].
    apply (starts_void [u8 type] _ (be16 0) 0); [done|].
    apply starts_set_tlv, writes_uint16.
  - intros pre rest len. apply (end_cdp_patch pre [EDP_TLV_MARKER; u8 type]).
Qed.

(** The bytes between [packet] and [pos] once all the macros of [p] ran. *)
Definition poke_frame (p : poke) (mtu : Z) : option (list Z) :=
  st ← p (pkt_init mtu); Some (pkt_upto st (pk_pos st)).

Lemma pkt_init_ok mtu : 0 ≤ mtu → pkt_ok (pkt_init mtu).
Proof. intros H. unfold pkt_ok, pkt_init; simpl. rewrite zlen_replicate. lia. Qed.

Lemma pkt_init_app mtu bs t :
  zlen bs ≤ mtu → pkt_upto (pkt_app (pkt_init mtu) bs t) (zlen bs) = bs.
Proof.
  intros H. unfold pkt_upto, pkt_app, write_at; simpl. apply take_app_zlen.
Qed.

(** A sender that appends [bs] produces the frame [bs] if it fits in the MTU. *)
Lemma poke_frame_emits p bs mtu :
  0 ≤ mtu → Emits p bs →
  poke_frame p mtu = if zlen bs <=? mtu then Some bs else None.
Proof.
  intros Hm Hp. specialize (Hp _ (pkt_init_ok mtu Hm)). unfold poke_frame. simpl in Hp.
  destruct (Z.leb_spec (zlen bs) mtu).
  - destruct Hp as [t ->]. cbn [mbind option_bind pkt_app pk_pos pkt_init].
    rewrite Z.add_0_l. f_equal. by apply pkt_init_app.
  - by rewrite Hp.
Qed.

(** ** PEEK *)

Record cursor (X : Type) := {
  c_pos : Z;         (** offset of [pos] in the received buffer *)
  c_length : Z;      (** the local [length] *)
  c_ext : X          (** the other locals of the decoder *)
}.
Arguments c_pos {X}. Arguments c_length {X}. Arguments c_ext {X}.
Arguments Build_cursor {X}.
#[global] Instance eta_cursor X : Settable (cursor X) := λ r,
  {| c_pos := c_pos r; c_length := c_length r; c_ext := c_ext r |}.

Section Peek.
(** The memory [frame] points to. *)
Context {X : Type} (frame : list Z).
Implicit Types (st : cursor X).

(** [memcpy(value, pos, n), length -= n, pos += n] *)
Definition PEEK_BYTES (n : Z) : decoder (cursor X) (list Z) := λ st,
  if ((0 <=? c_pos st) && (0 <=? n) && (c_pos st + n <=? zlen frame))%bool then
    Ok (take (Z.to_nat n) (drop (Z.to_nat (c_pos st)) frame))
       {| c_pos := c_pos st + n; c_length := c_length st - n; c_ext := c_ext st |}
  else Fault OutOfBoundsRead.
Definition PEEK_UINT8 : decoder (cursor X) Z := 
  bs ← PEEK_BYTES 1; mret (be_value bs).
Definition PEEK_UINT16 : decoder (cursor X) Z := 
  bs ← PEEK_BYTES 2; mret (be_value bs).
Definition PEEK_UINT32 : decoder (cursor X) Z := 
  bs ← PEEK_BYTES 4; mret (be_value bs).
Definition PEEK_DISCARD (n : Z) : decoder (cursor X) unit := λ st,
  Ok tt {| c_pos := c_pos st + n; c_length := c_length st - n; c_ext := c_ext st |}.
Definition PEEK_DISCARD_UINT8 : decoder (cursor X) unit := PEEK_DISCARD 1.
Definition PEEK_DISCARD_UINT16 : decoder (cursor X) unit := PEEK_DISCARD 2.
(** [PEEK_CMP(value, bytes) == 0] *)
Definition PEEK_CMP (value : list Z) : decoder (cursor X) bool :=
  bs ← PEEK_BYTES (zlen value); mret (bool_decide (bs = value)).
Definition PEEK_SAVE : decoder (cursor X) Z := gets c_pos.
Definition PEEK_RESTORE (where_ : Z) : decoder (cursor X) unit := λ st,
  Ok tt {| c_pos := where_;
           c_length := if c_pos st <? where_
                       then c_length st - (where_ - c_pos st)
                       else c_length st + (c_pos st - where_);
           c_ext := c_ext st |}.

(** [n] bytes of the frame at [pos], without moving. *)
Definition read_at (pos n : Z) : decoder (cursor X) (list Z) := λ st,
  if ((0 <=? pos) && (0 <=? n) && (pos + n <=? zlen frame))%bool
  then Ok (take (Z.to_nat n) (drop (Z.to_nat pos) frame)) st
  else Fault OutOfBoundsRead.

(** Access to the other locals. *)
Definition ext_get {A} (f : X → A) : decoder (cursor X) A := gets (f ∘ c_ext).
Definition ext_set (f : X → X) : decoder (cursor X) unit :=
  modify (λ st, {| c_pos := c_pos st; c_length := c_length st; c_ext := f (c_ext st) |}).
Definition length_get : decoder (cursor X) Z := gets c_length.

(** *** Execution on a known suffix of the frame *)

(** The bytes from [pos] on are [bs]. *)
Definition at_bytes (pos : Z) (bs : list Z) : Prop :=
  0 ≤ pos ∧ ∃ pre, frame = pre ++ bs ∧ zlen pre = pos.

Lemma at_bytes_app pos a b : at_bytes pos (a ++ b) → at_bytes (pos + zlen a) b.
Proof.
  intros (Hp & pre & -> & <-). split; [pose proof (zlen_nonneg a); lia|].
  exists (pre ++ a). by rewrite <- app_assoc, zlen_app.
Qed.

Lemma at_bytes_end pos bs : at_bytes pos bs → pos + zlen bs = zlen frame.
Proof. intros (Hp & pre & -> & <-). by rewrite zlen_app. Qed.

Section Exec.
Context {B : Type} (p l : Z) (e : X).
#[local] Abbreviation cur p l := (Build_cursor p l e).

Lemma peek_bytes_at n a b :
  at_bytes p (a ++ b) → n = zlen a → PEEK_BYTES n (cur p l) = Ok a (cur (p + n) (l - n)).
Proof.
  intros Hat ->. pose proof (at_bytes_end _ _ Hat) as He.
  destruct Hat as (Hp & pre & Hf & Hpre). rewrite zlen_app in He.
  pose proof (zlen_nonneg a). pose proof (zlen_nonneg b). unfold PEEK_BYTES; simpl.
  assert (((0 <=? p) && (0 <=? zlen a) && (p + zlen a <=? zlen frame))%bool = true)
    as -> by (rewrite !andb_true_iff, !Z.leb_le; lia).
  f_equal. rewrite Hf, <- Hpre, drop_app_zlen. apply take_app_zlen.
Qed.

Lemma exec_bytes n a b (k : list Z → decoder (cursor X) B) r :
  at_bytes p (a ++ b) → n = zlen a →
  (at_bytes (p + n) b → k a (cur (p + n) (l - n)) = r) →
  (PEEK_BYTES n ≫= k) (cur p l) = r.
Proof.
  intros Hat Hn Hk. erewrite exec_bind by (by eapply peek_bytes_at).
  apply Hk. rewrite Hn. by apply at_bytes_app.
Qed.

Lemma exec_uint8 v b (k : Z → decoder (cursor X) B) r :
  at_bytes p ([v] ++ b) →
  (at_bytes (p + 1) b → k v (cur (p + 1) (l - 1)) = r) →
  (PEEK_UINT8 ≫= k) (cur p l) = r.
Proof.
  intros Hat Hk. unfold PEEK_UINT8, mbind, decoder_bind.
  rewrite (peek_bytes_at 1 [v] b) by done. apply Hk. by apply (at_bytes_app _ [v]).
Qed.

Lemma exec_uint16 v b (k : Z → decoder (cursor X) B) r :
  at_bytes p (be16 v ++ b) →
  (at_bytes (p + 2) b → k (u16 v) (cur (p + 2) (l - 2)) = r) →
  (PEEK_UINT16 ≫= k) (cur p l) = r.
Proof.
  intros Hat Hk. unfold PEEK_UINT16, mbind, decoder_bind.
  rewrite (peek_bytes_at 2 (be16 v) b) by done. unfold mret, decoder_ret.
  rewrite be16_value. apply Hk. by apply (at_bytes_app _ (be16 v)).
Qed.

Lemma exec_uint32 v b (k : Z → decoder (cursor X) B) r :
  at_bytes p (be32 v ++ b) →
  (at_bytes (p + 4) b → k (u32 v) (cur (p + 4) (l - 4)) = r) →
  (PEEK_UINT32 ≫= k) (cur p l) = r.
Proof.
  intros Hat Hk. unfold PEEK_UINT32, mbind, decoder_bind.
  rewrite (peek_bytes_at 4 (be32 v) b) by done. unfold mret, decoder_ret.
  rewrite be32_value. apply Hk. by apply (at_bytes_app _ (be32 v)).
Qed.

Lemma exec_discard n (k : unit → decoder (cursor X) B) r :
  k tt (cur (p + n) (l - n)) = r → (PEEK_DISCARD n ≫= k) (cur p l) = r.
Proof. done. Qed.
End Exec.

(** *** Safety rules: a read is in bounds when the buffer is long enough *)

Section Safe.
Implicit Types (E : fault → Prop) (R : cursor X → Prop).

Lemma wp_peek_bytes n E R (Q : list Z → cursor X → Prop) st :
  0 ≤ c_pos st → 0 ≤ n →
  (c_pos st + n ≤ zlen frame →
    Q (take (Z.to_nat n) (drop (Z.to_nat (c_pos st)) frame))
      (Build_cursor (c_pos st + n) (c_length st - n) (c_ext st))) →
  (zlen frame < c_pos st + n → E OutOfBoundsRead) →
  wp (PEEK_BYTES n) E R Q st.
Proof.
  intros Hp Hn HQ HE. unfold wp, PEEK_BYTES.
  destruct (Z.leb_spec 0 (c_pos st)), (Z.leb_spec 0 n); try lia. simpl.
  destruct (Z.leb_spec (c_pos st + n) (zlen frame)); auto.
Qed.

Lemma wp_read_at pos n E R (Q : list Z → cursor X → Prop) st :
  0 ≤ pos → 0 ≤ n → pos + n ≤ zlen frame →
  Q (take (Z.to_nat n) (drop (Z.to_nat pos) frame)) st → wp (read_at pos n) E R Q st.
Proof.
  intros Hp Hn Hz HQ. unfold wp, read_at. by rewrite !(proj2 (Z.leb_le _ _)).
Qed.

(** Reading [n] bytes gives a value in range, whatever the bytes are. *)
Lemma wp_peek_uint (m : decoder (cursor X) Z) n E R (Q : Z → cursor X → Prop) st :
  (m = PEEK_UINT8 ∧ n = 1 ∨ m = PEEK_UINT16 ∧ n = 2 ∨ m = PEEK_UINT32 ∧ n = 4) →
  bytes_ok frame → 0 ≤ c_pos st →
  (∀ v, 0 ≤ v < 256 ^ n → c_pos st + n ≤ zlen frame →
    Q v (Build_cursor (c_pos st + n) (c_length st - n) (c_ext st))) →
  (zlen frame < c_pos st + n → E OutOfBoundsRead) →
  wp m E R Q st.
Proof.
  intros Hm Hb Hp HQ HE.
  assert (wp (bs ← PEEK_BYTES n; mret (be_value bs)) E R Q st) as H.
  { apply wp_bind, wp_peek_bytes; [done|lia| |done]. intros Hle. apply wp_ret, HQ; [|done].
    apply be_value_bounds_n; [|rewrite length_take, length_drop; unfold zlen in Hle; lia].
    by apply Forall_take, Forall_drop. }
  destruct Hm as [[-> ->]|[[-> ->]|[-> ->]]]; exact H.
Qed.

(** The same when reads past the end are tolerated: used for termination. *)
Lemma wp_any_bytes n E R (Q : list Z → cursor X → Prop) st :
  E OutOfBoundsRead →
  (0 ≤ n → ∀ b, zlen b = n → Q b (Build_cursor (c_pos st + n) (c_length st - n) (c_ext st))) →
  wp (PEEK_BYTES n) E R Q st.
Proof.
  intros HE HQ. unfold wp, PEEK_BYTES.
  destruct (Z.leb_spec 0 (c_pos st)); [|done]. destruct (Z.leb_spec 0 n); [|done]. simpl.
  destruct (Z.leb_spec (c_pos st + n) (zlen frame)); [|done]. apply HQ; [done|].
  rewrite zlen_take; [done|]. rewrite zlen_drop by lia. lia.
Qed.

Lemma wp_any_uint (m : decoder (cursor X) Z) n E R (Q : Z → cursor X → Prop) st :
  (m = PEEK_UINT8 ∧ n = 1 ∨ m = PEEK_UINT16 ∧ n = 2 ∨ m = PEEK_UINT32 ∧ n = 4) →
  bytes_ok frame → E OutOfBoundsRead →
  (∀ v, 0 ≤ v < 256 ^ n → Q v (Build_cursor (c_pos st + n) (c_length st - n) (c_ext st))) →
  wp m E R Q st.
Proof.
  intros Hm Hb HE HQ. destruct (Z.leb_spec 0 (c_pos st)).
  - eapply wp_peek_uint; try done. intros v Hv _. by apply HQ.
  - assert (PEEK_BYTES n st = Fault OutOfBoundsRead) as Hf.
    { unfold PEEK_BYTES. by rewrite (proj2 (Z.leb_gt _ _)) by lia. }
    assert (wp (bs ← PEEK_BYTES n; mret (be_value bs)) E R Q st) as Hw.
    { unfold wp, mbind, decoder_bind. by rewrite Hf. }
    destruct Hm as [[-> ->]|[[-> ->]|[-> ->]]]; exact Hw.
Qed.
End Safe.
End Peek.
