(* ===== verification/Keeps.v ===== *)
(** * What the locals of a decoder keep

    [Keeps P m]: when the locals satisfy [P] before the step [m] of a decoder they
    satisfy it after, whatever the frame is.  The rules are instances on the
    macros, so a property of a whole decoder is proved by [keeps_solve] from
    the assignments alone; the neighbor table uses it to know that a decoder
    never attaches the port it returns. *)

From S2P Require Import Prelude Bytes Decoder Frame.
#[local] Open Scope Z_scope.

Class Keeps {X} (P : X → Prop) {A} (m : decoder (cursor X) A) : Prop :=
  keeps_run : ∀ st, P (c_ext st) →
    wp m (λ _, True) (λ _, True) (λ _ st', P (c_ext st')) st.

Section Rules.
Context {X : Type} (P : X → Prop) (frame : list Z).
Implicit Types (A B : Type).

Lemma keeps_bind {A B} (m : decoder (cursor X) A) (k : A → decoder (cursor X) B) :
  Keeps P m → (∀ a, Keeps P (k a)) → Keeps P (m ≫= k).
Proof. intros Hm Hk st Hst. apply wp_bind. eapply wp_mono; [by apply Hm|]. intros a st'. apply Hk. Qed.

Lemma keeps_ret {A} (a : A) : Keeps P (mret a).
Proof. by intros st Hst. Qed.

Lemma keeps_gets {A} (f : cursor X → A) : Keeps P (gets f).
Proof. by intros st Hst. Qed.

Lemma keeps_malformed {A} : Keeps P (malformed (A:=A)).
Proof. by intros st Hst. Qed.

Lemma keeps_undefined {A} f : Keeps P (undefined (A:=A) f).
Proof. by intros st Hst. Qed.

Lemma keeps_check b : Keeps P (check b).
Proof. intros st Hst. by destruct b. Qed.

Lemma keeps_assert b : Keeps P (assert_ b).
Proof. intros st Hst. by destruct b. Qed.

Lemma keeps_bytes n : Keeps P (PEEK_BYTES frame n).
Proof. intros st Hst. unfold wp, PEEK_BYTES. by case_if. Qed.

Lemma keeps_read_at p n : Keeps P (read_at frame p n).
Proof. intros st Hst. unfold wp, read_at. by case_if. Qed.

Lemma keeps_discard n : Keeps P (PEEK_DISCARD n).
Proof. by intros st Hst. Qed.

Lemma keeps_restore p : Keeps P (PEEK_RESTORE p).
Proof. by intros st Hst. Qed.

Lemma keeps_ext_set f : (∀ x, P x → P (f x)) → Keeps P (ext_set f).
Proof. intros Hf st Hst. by apply Hf. Qed.

Lemma keeps_while fuel cond m : Keeps P m → Keeps P (while fuel cond m).
Proof.
  intros Hm. induction fuel as [|n IH]; intros st Hst; [done|]. cbn [while]. unfold wp.
  case_if; [|done]. by apply (keeps_bind m (λ _, while n cond m)).
Qed.
End Rules.

Ltac keeps_step :=
  match goal with
  | |- Keeps _ (_ ≫= _) => apply keeps_bind; [|intros ?]
  | |- Keeps _ (mret _) => apply keeps_ret
  | |- Keeps _ (gets _) => apply keeps_gets
  | |- Keeps _ (ext_get _) => apply keeps_gets
  | |- Keeps _ PEEK_SAVE => apply keeps_gets
  | |- Keeps _ length_get => apply keeps_gets
  | |- Keeps _ malformed => apply keeps_malformed
  | |- Keeps _ (undefined _) => apply keeps_undefined
  | |- Keeps _ (check _) => apply keeps_check
  | |- Keeps _ (assert_ _) => apply keeps_assert
  | |- Keeps _ (PEEK_BYTES _ _) => apply keeps_bytes
  | |- Keeps _ (PEEK_UINT8 _) => unfold PEEK_UINT8
  | |- Keeps _ (PEEK_UINT16 _) => unfold PEEK_UINT16
  | |- Keeps _ (PEEK_UINT32 _) => unfold PEEK_UINT32
  | |- Keeps _ (PEEK_CMP _ _) => unfold PEEK_CMP
  | |- Keeps _ (read_at _ _ _) => apply keeps_read_at
  | |- Keeps _ (PEEK_DISCARD _) => apply keeps_discard
  | |- Keeps _ PEEK_DISCARD_UINT8 => apply keeps_discard
  | |- Keeps _ PEEK_DISCARD_UINT16 => apply keeps_discard
  | |- Keeps _ (PEEK_RESTORE _) => apply keeps_restore
  | |- Keeps _ (ext_set _) => apply keeps_ext_set; let H := fresh in intros ? H; exact H
  | |- Keeps _ (while _ _ _) => apply keeps_while
  | |- Keeps _ (if ?b then _ else _) => destruct b
  | |- Keeps _ (match ?x with _ => _ end) => destruct x
  end.
(** Up to the steps that are not macros. *)
Ltac keeps_solve := cbv zeta; repeat keeps_step.
