(* ===== verification/Checksum.v ===== *)
(** * The frame checksum (src/daemon/frame.c)

    [frame_checksum] is the Internet checksum of EDP and FDP, and with [cisco]
    the variant of CDP that treats an odd last byte in its own way.  The model
    keeps the 32-bit wrap-around of [sum] and the byte swap of [ntohs]. *)

From S2P Require Import Prelude Bytes.
#[local] Open Scope Z_scope.

(** [while ((len -= 2) >= 0) { sum += *cp++ << 8; sum += *cp++; }]: the sum and
    what is left of the buffer. *)
Fixpoint checksum_words (sum : Z) (cp : list Z) : Z * list Z :=
  match cp with
  | a :: b :: cp' => checksum_words (u32 (u32 (sum + Z.shiftl a 8) + b)) cp'
  | _ => (sum, cp)
  end.

Definition checksum_odd (sum : Z) (rest : list Z) (cisco : bool) : Z :=
  match rest with
  | v :: _ =>
      if cisco then
        if negb (Z.land v 0x80 =? 0)
        then u32 (u32 (sum + Z.shiftl 0xff 8) + (v - 1))
        else u32 (sum + v)
      else u32 (sum + Z.shiftl v 8)
  | [] => sum
  end.

Definition checksum_fold (sum : Z) : Z :=
  let sum := u32 (Z.shiftr sum 16 + Z.land sum 0xffff) in
  u32 (sum + Z.shiftr sum 16).

Definition frame_checksum `{BuildConfig} (cp : list Z) (cisco : bool) : Z :=
  let '(sum, rest) := checksum_words 0 cp in
  let sum := checksum_odd sum rest cisco in
  let sum := ntohs (checksum_fold sum) in
  Z.land 0xffff (Z.lnot sum).

(** ** The mathematical sum *)

(** The 16-bit words of a buffer added up in Z, with the weight the code gives
    to an odd last byte. *)
Fixpoint word_sum (cp : list Z) (cisco : bool) : Z :=
  match cp with
  | a :: b :: cp' => a * 256 + b + word_sum cp' cisco
  | [v] => if cisco then if v <? 128 then v else 0xff00 + v - 1 else v * 256
  | [] => 0
  end.

(** Induction two bytes at a time. *)
Lemma pairs_ind (P : list Z → Prop) :
  P [] → (∀ v, P [v]) → (∀ a b l, P l → P (a :: b :: l)) → ∀ l, P l.
Proof.
  intros H0 H1 H2. enough (∀ l, P l ∧ ∀ a, P (a :: l)) by (intros l; apply H).
  induction l as [|b l [IHl IHc]]; [by split|]. split; [apply IHc|].
  intros a. apply H2, IHl.
Qed.

Lemma byte_high_bit v : is_byte v → (Z.land v 0x80 =? 0) = (v <? 128).
Proof.
  intros Hv. assert (Forall (λ n, (Z.land (Z.of_nat n) 0x80 =? 0) = (Z.of_nat n <? 128))
    (seq 0 256)) as H by (repeat constructor).
  rewrite Forall_seq in H. specialize (H (Z.to_nat v)).
  rewrite Z2Nat.id in H by (unfold is_byte in Hv; lia). apply H. unfold is_byte in Hv; lia.
Qed.

Lemma word_sum_bounds cp cisco :
  bytes_ok cp → 0 ≤ word_sum cp cisco ≤ 65535 * ((zlen cp + 1) / 2).
Proof.
  induction cp as [|v|a b cp IH] using pairs_ind; intros Hb.
  - done.
  - rewrite Forall_singleton in Hb. unfold is_byte in Hb. simpl. change (zlen [v]) with 1.
    destruct cisco; [|zlia]. destruct (Z.ltb_spec v 128); zlia.
  - apply Forall_cons_iff in Hb as [Ha [Hb' Hc]%Forall_cons_iff]. unfold is_byte in *.
    specialize (IH Hc). simpl. rewrite !zlen_cons. zlia.
Qed.

(** No overflow up to 128 KiB: the 32-bit sum is the mathematical one. *)
Lemma checksum_words_sum cp cisco sum :
  bytes_ok cp → 0 ≤ sum → sum + 65535 * ((zlen cp + 1) / 2) < 2 ^ 32 →
  let '(s, rest) := checksum_words sum cp in
  checksum_odd s rest cisco = sum + word_sum cp cisco.
Proof.
  revert sum. induction cp as [|v|a b cp IH] using pairs_ind; intros sum Hb Hs Hlt.
  - simpl. lia.
  - rewrite Forall_singleton in Hb. simpl. change (zlen [v]) with 1 in Hlt.
    rewrite byte_high_bit by done. unfold is_byte in Hb.
    rewrite !Z.shiftl_mul_pow2 by lia. simpl in Hlt.
    destruct cisco; [destruct (Z.ltb_spec v 128)|]; cbn [negb]; unfold u32; zlia.
  - apply Forall_cons_iff in Hb as [Ha [Hb' Hc]%Forall_cons_iff]. unfold is_byte in *.
    rewrite !zlen_cons in Hlt. pose proof (zlen_nonneg cp).
    cbn [checksum_words word_sum]. rewrite !Z.shiftl_mul_pow2 by lia.
    assert (u32 (u32 (sum + a * 2 ^ 8) + b) = sum + a * 2 ^ 8 + b) as -> by (unfold u32; zlia).
    specialize (IH (sum + a * 2 ^ 8 + b) Hc).
    destruct (checksum_words _ cp) as [s rest]. rewrite IH; zlia.
Qed.

Lemma word_sum_app a cp cisco :
  Z.even (zlen a) = true → word_sum (a ++ cp) cisco = word_sum a cisco + word_sum cp cisco.
Proof.
  induction a as [|v|x y a IH] using pairs_ind; intros He.
  - done.
  - done.
  - simpl. rewrite IH; [lia|]. rewrite !zlen_cons, Z.add_assoc in He. rewrite Z.even_add in He.
    by destruct (Z.even (zlen a)).
Qed.

Lemma land_ffff x : Z.land x 0xffff = x mod 2 ^ 16.
Proof. change 0xffff with (Z.ones 16). by rewrite Z.land_ones. Qed.

Lemma land_ffff_lnot y : 0 ≤ y < 65536 → Z.land 0xffff (Z.lnot y) = 65535 - y.
Proof. intros Hy. rewrite Z.land_comm, land_ffff. unfold Z.lnot. zlia. Qed.

(** The two folding steps reduce the sum modulo 65535 into 1..65535 (0 stays 0):
    the one's complement sum of the words. *)
Lemma checksum_fold_spec t :
  0 ≤ t < 2 ^ 32 →
  u16 (checksum_fold t) mod 65535 = t mod 65535 ∧
  (u16 (checksum_fold t) = 0 ↔ t = 0).
Proof.
  intros Ht. unfold checksum_fold, u16.
  rewrite land_ffff, !Z.shiftr_div_pow2 by lia.
  pose proof (Z.div_mod t (2 ^ 16) ltac:(lia)) as Hdm.
  pose proof (Z.mod_pos_bound t (2 ^ 16) ltac:(lia)) as Hr.
  set (q := t / 2 ^ 16) in *. set (r := t mod 2 ^ 16) in *.
  assert (0 ≤ q < 65536) as Hq by lia.
  assert (t mod 65535 = (q + r) mod 65535) as ->.
  { replace t with (q + r + q * 65535) by lia. by rewrite Z.mod_add by lia. }
  rewrite (u32_small (q + r)) by lia. destruct (Z.lt_ge_cases (q + r) 65536).
  - rewrite (Z.div_small (q + r)), Z.add_0_r, u32_small, (Z.mod_small _ (2 ^ 16)) by lia. lia.
  - assert ((q + r) / 2 ^ 16 = 1) as -> by zlia. rewrite u32_small by lia.
    assert ((q + r + 1) mod 2 ^ 16 = q + r - 65535) as -> by zlia. zlia.
Qed.

(** The checksum a sender stores at an even offset of the data makes the
    checksum of the whole data 0, which is the test [edp_decode] performs.  The
    sender computes it with the two bytes at 0 and stores [ntohs(checksum)] in
    network byte order. *)
Lemma swap16_lnot x : 0 ≤ x < 65536 →
  swap16 (Z.land 0xffff (Z.lnot (swap16 x))) = 65535 - x.
Proof.
  intros Hx. rewrite land_ffff_lnot by (unfold swap16; zlia). unfold swap16. zlia.
Qed.

Section Verify.
Context `{BuildConfig}.

(** The checksum of a buffer of at most 128 KiB, without machine integers. *)
Lemma frame_checksum_word cp cisco :
  bytes_ok cp → zlen cp ≤ 131068 →
  ∃ f, frame_checksum cp cisco = Z.land 0xffff (Z.lnot (ntohs f)) ∧
    f mod 65535 = word_sum cp cisco mod 65535 ∧ (f = 0 ↔ word_sum cp cisco = 0) ∧
    0 ≤ f < 65536.
Proof.
  intros Hb Hl. pose proof (zlen_nonneg cp). pose proof (word_sum_bounds cp cisco Hb).
  exists (u16 (checksum_fold (word_sum cp cisco))).
  pose proof (checksum_words_sum cp cisco 0 Hb ltac:(lia) ltac:(zlia)) as Hw.
  unfold frame_checksum. destruct (checksum_words 0 cp) as [s rest]. rewrite Hw.
  destruct (checksum_fold_spec (word_sum cp cisco)) as [Hm Hz]; [zlia|].
  split_and!; [|done|done|apply u16_bounds..].
  unfold ntohs. by rewrite (u16_small (u16 _)) by apply u16_bounds.
Qed.

(** [ntohs(checksum)], the word the senders store. *)
Lemma ntohs_checksum f : 0 ≤ f < 65536 →
  ntohs (Z.land 0xffff (Z.lnot (ntohs f))) = 65535 - f.
Proof.
  intros Hf. unfold ntohs. rewrite !(u16_small f) by done. destruct HOST_LITTLE_ENDIAN.
  - rewrite u16_small; [by apply swap16_lnot|].
    rewrite Z.land_comm, land_ffff. zlia.
  - rewrite land_ffff_lnot by done. apply u16_small. lia.
Qed.

Lemma checksum_self pre post cisco :
  bytes_ok pre → bytes_ok post → Z.even (zlen pre) = true →
  zlen pre + zlen post ≤ 131066 →
  frame_checksum
    (pre ++ be16 (ntohs (frame_checksum (pre ++ be16 0 ++ post) cisco)) ++ post) cisco = 0.
Proof.
  intros Hpre Hpost He Hl.
  assert (∀ w, 0 ≤ w < 65536 → word_sum (pre ++ be16 w ++ post) cisco =
    word_sum (pre ++ post) cisco + w) as Hsum.
  { intros w Hw. rewrite !word_sum_app by done. unfold be16. cbn [app word_sum].
    replace (_ * 256 + _) with w by zlia. lia. }
  assert (∀ w, bytes_ok (pre ++ be16 w ++ post)) as Hb.
  { intros w. by repeat (apply Forall_app; split; auto with lldpd). }
  assert (∀ w, zlen (pre ++ be16 w ++ post) ≤ 131068) as Hz.
  { intros w. rewrite !zlen_app, be16_zlen. lia. }
  destruct (frame_checksum_word _ cisco (Hb 0) (Hz 0)) as (f & -> & Hm & H0 & Hf).
  rewrite Hsum, Z.add_0_r in Hm, H0 by lia. rewrite ntohs_checksum by done.
  destruct (frame_checksum_word _ cisco (Hb (65535 - f)) (Hz (65535 - f)))
    as (g & -> & Hm' & H0' & Hg).
  rewrite Hsum in Hm', H0' by lia.
  assert (0 ≤ word_sum (pre ++ post) cisco).
  { apply word_sum_bounds. by apply Forall_app. }
  assert (g = 65535) as -> by zlia. unfold ntohs. by destruct HOST_LITTLE_ENDIAN.
Qed.
End Verify.
