(* ===== verification/Const.v ===== *)
(** * Constants (src/lldp-const.h and the headers of the protocols)

    The protocol constants the modelled code uses, under their names in
    src/lldp-const.h, src/daemon/lldp-tlv.h, src/daemon/cdp.h,
    src/daemon/edp.h, src/daemon/sonmp.h and src/lldpd-structs.h.  The
    database [consts] unfolds them all. *)

From S2P Require Import Prelude.
#[local] Open Scope Z_scope.

Create HintDb consts.


(** ** src/lldp-const.h *)

Definition LLDP_CHASSISID_SUBTYPE_CHASSIS : Z := 1.
Definition LLDP_CHASSISID_SUBTYPE_IFALIAS : Z := 2.
Definition LLDP_CHASSISID_SUBTYPE_PORT : Z := 3.
Definition LLDP_CHASSISID_SUBTYPE_LLADDR : Z := 4.
Definition LLDP_CHASSISID_SUBTYPE_ADDR : Z := 5.
Definition LLDP_CHASSISID_SUBTYPE_IFNAME : Z := 6.
Definition LLDP_CHASSISID_SUBTYPE_LOCAL : Z := 7.
Definition LLDP_PORTID_SUBTYPE_UNKNOWN : Z := 0.
Definition LLDP_PORTID_SUBTYPE_IFALIAS : Z := 1.
Definition LLDP_PORTID_SUBTYPE_PORT : Z := 2.
Definition LLDP_PORTID_SUBTYPE_LLADDR : Z := 3.
Definition LLDP_PORTID_SUBTYPE_ADDR : Z := 4.
Definition LLDP_PORTID_SUBTYPE_IFNAME : Z := 5.
Definition LLDP_PORTID_SUBTYPE_AGENTCID : Z := 6.
Definition LLDP_PORTID_SUBTYPE_LOCAL : Z := 7.
Definition LLDP_PORTID_SUBTYPE_MAX : Z := LLDP_PORTID_SUBTYPE_LOCAL.
Definition LLDP_DOT3_POWER_PSE : Z := 1.
Definition LLDP_DOT3_POWER_PD : Z := 2.
Definition LLDP_DOT3_POWERPAIRS_SIGNAL : Z := 1.
Definition LLDP_DOT3_POWERPAIRS_SPARE : Z := 2.
Definition LLDP_DOT3_POWER_8023AT_OFF : Z := 0.
Definition LLDP_DOT3_POWER_8023AT_TYPE1 : Z := 1.
Definition LLDP_DOT3_POWER_8023AT_TYPE2 : Z := 2.
Definition LLDP_DOT3_POWER_SOURCE_UNKNOWN : Z := 0.
Definition LLDP_DOT3_POWER_SOURCE_PRIMARY : Z := 1.
Definition LLDP_DOT3_POWER_SOURCE_PSE : Z := 1.
Definition LLDP_DOT3_POWER_SOURCE_BACKUP : Z := 2.
Definition LLDP_DOT3_POWER_SOURCE_LOCAL : Z := 2.
Definition LLDP_DOT3_POWER_SOURCE_BOTH : Z := 3.
Definition LLDP_DOT3_POWER_PRIO_UNKNOWN : Z := 0.
Definition LLDP_DOT3_POWER_PRIO_CRITICAL : Z := 1.
Definition LLDP_DOT3_POWER_PRIO_HIGH : Z := 2.
Definition LLDP_DOT3_POWER_PRIO_LOW : Z := 3.
Definition LLDP_CAP_OTHER : Z := 0x01.
Definition LLDP_CAP_REPEATER : Z := 0x02.
Definition LLDP_CAP_BRIDGE : Z := 0x04.
Definition LLDP_CAP_WLAN : Z := 0x08.
Definition LLDP_CAP_ROUTER : Z := 0x10.
Definition LLDP_CAP_TELEPHONE : Z := 0x20.
Definition LLDP_CAP_DOCSIS : Z := 0x40.
Definition LLDP_CAP_STATION : Z := 0x80.
Definition LLDP_PPVID_CAP_SUPPORTED : Z := 2.
Definition LLDP_PPVID_CAP_ENABLED : Z := 4.
Definition LLDP_MGMT_ADDR_NONE : Z := 0.
Definition LLDP_MGMT_ADDR_IP4 : Z := 1.
Definition LLDP_MGMT_ADDR_IP6 : Z := 2.
Definition LLDP_MGMT_IFACE_UNKNOWN : Z := 1.
Definition LLDP_MGMT_IFACE_IFINDEX : Z := 2.
Definition LLDP_MGMT_IFACE_SYSPORT : Z := 3.
Definition LLDP_MED_CLASS_I : Z := 1.
Definition LLDP_MED_CLASS_II : Z := 2.
Definition LLDP_MED_CLASS_III : Z := 3.
Definition LLDP_MED_NETWORK_DEVICE : Z := 4.
Definition LLDP_MED_APPTYPE_UNDEFINED : Z := 0.
Definition LLDP_MED_APPTYPE_VOICE : Z := 1.
Definition LLDP_MED_APPTYPE_VOICESIGNAL : Z := 2.
Definition LLDP_MED_APPTYPE_GUESTVOICE : Z := 3.
Definition LLDP_MED_APPTYPE_GUESTVOICESIGNAL : Z := 4.
Definition LLDP_MED_APPTYPE_SOFTPHONEVOICE : Z := 5.
Definition LLDP_MED_APPTYPE_VIDEOCONFERENCE : Z := 6.
Definition LLDP_MED_APPTYPE_VIDEOSTREAM : Z := 7.
Definition LLDP_MED_APPTYPE_VIDEOSIGNAL : Z := 8.
Definition LLDP_MED_APPTYPE_LAST : Z := LLDP_MED_APPTYPE_VIDEOSIGNAL.
Definition LLDP_MED_LOCFORMAT_COORD : Z := 1.
Definition LLDP_MED_LOCFORMAT_CIVIC : Z := 2.
Definition LLDP_MED_LOCFORMAT_ELIN : Z := 3.
Definition LLDP_MED_LOCFORMAT_LAST : Z := LLDP_MED_LOCFORMAT_ELIN.
Definition LLDP_MED_POW_TYPE_PSE : Z := 1.
Definition LLDP_MED_POW_TYPE_PD : Z := 2.
Definition LLDP_MED_POW_TYPE_RESERVED : Z := 3.
Definition LLDP_MED_POW_SOURCE_UNKNOWN : Z := 1.
Definition LLDP_MED_POW_SOURCE_PRIMARY : Z := 2.
Definition LLDP_MED_POW_SOURCE_BACKUP : Z := 3.
Definition LLDP_MED_POW_SOURCE_RESERVED : Z := 4.
Definition LLDP_MED_POW_SOURCE_PSE : Z := 5.
Definition LLDP_MED_POW_SOURCE_LOCAL : Z := 6.
Definition LLDP_MED_POW_SOURCE_BOTH : Z := 7.
Definition LLDP_MED_POW_PRIO_UNKNOWN : Z := 0.
Definition LLDP_MED_POW_PRIO_CRITICAL : Z := 1.
Definition LLDP_MED_POW_PRIO_HIGH : Z := 2.
Definition LLDP_MED_POW_PRIO_LOW : Z := 3.
Definition LLDP_MED_CAP_CAP : Z := 0x01.
Definition LLDP_MED_CAP_POLICY : Z := 0x02.
Definition LLDP_MED_CAP_LOCATION : Z := 0x04.
Definition LLDP_MED_CAP_MDI_PSE : Z := 0x08.
Definition LLDP_MED_CAP_MDI_PD : Z := 0x10.
Definition LLDP_MED_CAP_IV : Z := 0x20.
Definition LLDPD_MODE_LLDP : Z := 1.
Definition LLDPD_MODE_CDPV1 : Z := 2.
Definition LLDPD_MODE_CDPV2 : Z := 3.
Definition LLDPD_MODE_SONMP : Z := 4.
Definition LLDPD_MODE_EDP : Z := 5.
Definition LLDPD_MODE_FDP : Z := 6.
Definition LLDPD_MODE_MAX : Z := LLDPD_MODE_FDP.
Definition LLDP_BOND_SLAVE_SRC_MAC_TYPE_UNKNOWN : Z := 0.
Definition LLDP_BOND_SLAVE_SRC_MAC_TYPE_REAL : Z := 1.
Definition LLDP_BOND_SLAVE_SRC_MAC_TYPE_ZERO : Z := 2.
Definition LLDP_BOND_SLAVE_SRC_MAC_TYPE_FIXED : Z := 3.
Definition LLDP_BOND_SLAVE_SRC_MAC_TYPE_LOCALLY_ADMINISTERED : Z := 4.
Definition LLDP_BOND_SLAVE_SRC_MAC_TYPE_MAX : Z := LLDP_BOND_SLAVE_SRC_MAC_TYPE_LOCALLY_ADMINISTERED.

(** ** src/daemon/lldp-tlv.h *)

Definition LLDP_MULTICAST_ADDR : list Z := [0x01; 0x80; 0xc2; 0x00; 0x00; 0x0e].
Definition LLDP_TLV_END : Z := 0.
Definition LLDP_TLV_CHASSIS_ID : Z := 1.
Definition LLDP_TLV_PORT_ID : Z := 2.
Definition LLDP_TLV_TTL : Z := 3.
Definition LLDP_TLV_PORT_DESCR : Z := 4.
Definition LLDP_TLV_SYSTEM_NAME : Z := 5.
Definition LLDP_TLV_SYSTEM_DESCR : Z := 6.
Definition LLDP_TLV_SYSTEM_CAP : Z := 7.
Definition LLDP_TLV_MGMT_ADDR : Z := 8.
Definition LLDP_TLV_ORG : Z := 127.
Definition LLDP_TLV_ORG_DOT1 : list Z := [0x00; 0x80; 0xc2].
Definition LLDP_TLV_ORG_DOT3 : list Z := [0x00; 0x12; 0x0f].
Definition LLDP_TLV_ORG_MED : list Z := [0x00; 0x12; 0xbb].
Definition LLDP_TLV_ORG_DCBX : list Z := [0x00; 0x1b; 0x21].
Definition LLDP_TLV_DOT1_PVID : Z := 1.
Definition LLDP_TLV_DOT1_PPVID : Z := 2.
Definition LLDP_TLV_DOT1_VLANNAME : Z := 3.
Definition LLDP_TLV_DOT1_PI : Z := 4.
Definition LLDP_TLV_DOT3_MAC : Z := 1.
Definition LLDP_TLV_DOT3_POWER : Z := 2.
Definition LLDP_TLV_DOT3_LA : Z := 3.
Definition LLDP_TLV_DOT3_MFS : Z := 4.
Definition LLDP_TLV_MED_CAP : Z := 1.
Definition LLDP_TLV_MED_POLICY : Z := 2.
Definition LLDP_TLV_MED_LOCATION : Z := 3.
Definition LLDP_TLV_MED_MDI : Z := 4.
Definition LLDP_TLV_MED_IV_HW : Z := 5.
Definition LLDP_TLV_MED_IV_FW : Z := 6.
Definition LLDP_TLV_MED_IV_SW : Z := 7.
Definition LLDP_TLV_MED_IV_SN : Z := 8.
Definition LLDP_TLV_MED_IV_MANUF : Z := 9.
Definition LLDP_TLV_MED_IV_MODEL : Z := 10.
Definition LLDP_TLV_MED_IV_ASSET : Z := 11.

(** ** src/daemon/cdp.h *)

Definition CDP_MULTICAST_ADDR : list Z := [0x01; 0x00; 0x0c; 0xcc; 0xcc; 0xcc].
Definition FDP_MULTICAST_ADDR : list Z := [0x01; 0xe0; 0x52; 0xcc; 0xcc; 0xcc].
Definition LLC_ORG_CISCO : list Z := [0x00; 0x00; 0x0c].
Definition LLC_ORG_FOUNDRY : list Z := [0x00; 0xe0; 0x52].
Definition LLC_PID_CDP : Z := 0x2000.
Definition LLC_PID_DRIP : Z := 0x102.
Definition LLC_PID_PAGP : Z := 0x104.
Definition LLC_PID_PVSTP : Z := 0x10b.
Definition LLC_PID_UDLD : Z := 0x111.
Definition LLC_PID_VTP : Z := 0x2003.
Definition LLC_PID_DTP : Z := 0x2004.
Definition LLC_PID_STP : Z := 0x200a.
Definition CDP_TLV_CHASSIS : Z := 1.
Definition CDP_TLV_ADDRESSES : Z := 2.
Definition CDP_TLV_PORT : Z := 3.
Definition CDP_TLV_CAPABILITIES : Z := 4.
Definition CDP_TLV_SOFTWARE : Z := 5.
Definition CDP_TLV_PLATFORM : Z := 6.
Definition CDP_TLV_NATIVEVLAN : Z := 10.
Definition CDP_TLV_POWER_CONSUMPTION : Z := 16.
Definition CDP_ADDRESS_PROTO_IP : Z := 0xcc.
Definition CDP_CAP_ROUTER : Z := 0x01.
Definition CDP_CAP_TRANSPARENT_BRIDGE : Z := 0x02.
Definition CDP_CAP_SOURCE_BRIDGE : Z := 0x04.
Definition CDP_CAP_SWITCH : Z := 0x08.
Definition CDP_CAP_HOST : Z := 0x10.
Definition CDP_CAP_IGMP : Z := 0x20.
Definition CDP_CAP_REPEATER : Z := 0x40.

(** ** src/daemon/edp.h *)

Definition EDP_MULTICAST_ADDR : list Z := [0x00; 0xe0; 0x2b; 0x00; 0x00; 0x00].
Definition LLC_ORG_EXTREME : list Z := [0x00; 0xe0; 0x2b].
Definition LLC_PID_EDP : Z := 0x00bb.
Definition EDP_TLV_NULL : Z := 0.
Definition EDP_TLV_DISPLAY : Z := 1.
Definition EDP_TLV_INFO : Z := 2.
Definition EDP_TLV_VLAN : Z := 5.
Definition EDP_TLV_ESRP : Z := 8.

(** ** src/daemon/sonmp.h *)

Definition SONMP_MULTICAST_ADDR : list Z := [0x01; 0x00; 0x81; 0x00; 0x01; 0x00].
Definition LLC_ORG_NORTEL : list Z := [0x00; 0x00; 0x81].
Definition LLC_PID_SONMP_HELLO : Z := 0x01a2.
Definition LLC_PID_SONMP_FLATNET : Z := 0x01a1.
Definition SONMP_TOPOLOGY_CHANGED : Z := 1.
Definition SONMP_TOPOLOGY_UNCHANGED : Z := 2.
Definition SONMP_TOPOLOGY_NEW : Z := 3.

(** ** src/lldpd-structs.h *)

Definition LLDPD_MGMT_MAXADDRSIZE : Z := 16.
Definition SMART_INCOMING_FILTER : Z := 1.
Definition SMART_INCOMING_ONE_PROTO : Z := 2.
Definition SMART_INCOMING_ONE_NEIGH : Z := 4.
Definition SMART_OUTGOING_FILTER : Z := 8.
Definition SMART_OUTGOING_ONE_PROTO : Z := 16.
Definition SMART_OUTGOING_ONE_NEIGH : Z := 32.
Definition SMART_INCOMING : Z := Z.lor (Z.lor SMART_INCOMING_FILTER SMART_INCOMING_ONE_PROTO) SMART_INCOMING_ONE_NEIGH.
Definition SMART_OUTGOING : Z := Z.lor (Z.lor SMART_OUTGOING_FILTER SMART_OUTGOING_ONE_PROTO) SMART_OUTGOING_ONE_NEIGH.

(** ** Constants of enumerations and of the system headers *)

Definition LLDPD_AF_NBR_NOOP : Z := 0.
Definition LLDPD_AF_NBR_ADD : Z := 1.
Definition LLDPD_AF_NBR_DEL : Z := 2.
Definition LLDPD_AF_NBR_MOD : Z := 3.
Definition LLDPD_AF_NBR_UPD : Z := 4.
Definition LLDPD_AF_UNSPEC : Z := 0.
Definition LLDPD_AF_IPV4 : Z := 1.
Definition LLDPD_AF_IPV6 : Z := 2.
Definition LLDPD_AF_LAST : Z := 3.
Definition LLDPD_TX_INTERVAL : Z := 30.
Definition LLDPD_TX_HOLD : Z := 4.
Definition LLDPD_TTL : Z := LLDPD_TX_INTERVAL * LLDPD_TX_HOLD.
Definition SONMP_SIZE : Z := 2 * 6 + 2 + 8.
Definition ETHERTYPE_LLDP : Z := 0x88cc.
Definition ETHERTYPE_VLAN : Z := 0x8100.

#[export] Hint Unfold
  LLDP_CHASSISID_SUBTYPE_CHASSIS LLDP_CHASSISID_SUBTYPE_IFALIAS LLDP_CHASSISID_SUBTYPE_PORT 
  LLDP_CHASSISID_SUBTYPE_LLADDR LLDP_CHASSISID_SUBTYPE_ADDR LLDP_CHASSISID_SUBTYPE_IFNAME 
  LLDP_CHASSISID_SUBTYPE_LOCAL LLDP_PORTID_SUBTYPE_UNKNOWN LLDP_PORTID_SUBTYPE_IFALIAS 
  LLDP_PORTID_SUBTYPE_PORT LLDP_PORTID_SUBTYPE_LLADDR LLDP_PORTID_SUBTYPE_ADDR 
  LLDP_PORTID_SUBTYPE_IFNAME LLDP_PORTID_SUBTYPE_AGENTCID LLDP_PORTID_SUBTYPE_LOCAL 
  LLDP_PORTID_SUBTYPE_MAX LLDP_DOT3_POWER_PSE LLDP_DOT3_POWER_PD LLDP_DOT3_POWERPAIRS_SIGNAL 
  LLDP_DOT3_POWERPAIRS_SPARE LLDP_DOT3_POWER_8023AT_OFF LLDP_DOT3_POWER_8023AT_TYPE1 
  LLDP_DOT3_POWER_8023AT_TYPE2 LLDP_DOT3_POWER_SOURCE_UNKNOWN LLDP_DOT3_POWER_SOURCE_PRIMARY 
  LLDP_DOT3_POWER_SOURCE_PSE LLDP_DOT3_POWER_SOURCE_BACKUP LLDP_DOT3_POWER_SOURCE_LOCAL 
  LLDP_DOT3_POWER_SOURCE_BOTH LLDP_DOT3_POWER_PRIO_UNKNOWN LLDP_DOT3_POWER_PRIO_CRITICAL 
  LLDP_DOT3_POWER_PRIO_HIGH LLDP_DOT3_POWER_PRIO_LOW LLDP_CAP_OTHER LLDP_CAP_REPEATER 
  LLDP_CAP_BRIDGE LLDP_CAP_WLAN LLDP_CAP_ROUTER LLDP_CAP_TELEPHONE LLDP_CAP_DOCSIS 
  LLDP_CAP_STATION LLDP_PPVID_CAP_SUPPORTED LLDP_PPVID_CAP_ENABLED LLDP_MGMT_ADDR_NONE 
  LLDP_MGMT_ADDR_IP4 LLDP_MGMT_ADDR_IP6 LLDP_MGMT_IFACE_UNKNOWN LLDP_MGMT_IFACE_IFINDEX 
  LLDP_MGMT_IFACE_SYSPORT LLDP_MED_CLASS_I LLDP_MED_CLASS_II LLDP_MED_CLASS_III 
  LLDP_MED_NETWORK_DEVICE LLDP_MED_APPTYPE_UNDEFINED LLDP_MED_APPTYPE_VOICE 
  LLDP_MED_APPTYPE_VOICESIGNAL LLDP_MED_APPTYPE_GUESTVOICE LLDP_MED_APPTYPE_GUESTVOICESIGNAL 
  LLDP_MED_APPTYPE_SOFTPHONEVOICE LLDP_MED_APPTYPE_VIDEOCONFERENCE LLDP_MED_APPTYPE_VIDEOSTREAM 
  LLDP_MED_APPTYPE_VIDEOSIGNAL LLDP_MED_APPTYPE_LAST LLDP_MED_LOCFORMAT_COORD 
  LLDP_MED_LOCFORMAT_CIVIC LLDP_MED_LOCFORMAT_ELIN LLDP_MED_LOCFORMAT_LAST 
  LLDP_MED_POW_TYPE_PSE LLDP_MED_POW_TYPE_PD LLDP_MED_POW_TYPE_RESERVED 
  LLDP_MED_POW_SOURCE_UNKNOWN LLDP_MED_POW_SOURCE_PRIMARY LLDP_MED_POW_SOURCE_BACKUP 
  LLDP_MED_POW_SOURCE_RESERVED LLDP_MED_POW_SOURCE_PSE LLDP_MED_POW_SOURCE_LOCAL 
  LLDP_MED_POW_SOURCE_BOTH LLDP_MED_POW_PRIO_UNKNOWN LLDP_MED_POW_PRIO_CRITICAL 
  LLDP_MED_POW_PRIO_HIGH LLDP_MED_POW_PRIO_LOW LLDP_MED_CAP_CAP LLDP_MED_CAP_POLICY 
  LLDP_MED_CAP_LOCATION LLDP_MED_CAP_MDI_PSE LLDP_MED_CAP_MDI_PD LLDP_MED_CAP_IV 
  LLDPD_MODE_LLDP LLDPD_MODE_CDPV1 LLDPD_MODE_CDPV2 LLDPD_MODE_SONMP LLDPD_MODE_EDP 
  LLDPD_MODE_FDP LLDPD_MODE_MAX LLDP_BOND_SLAVE_SRC_MAC_TYPE_UNKNOWN 
  LLDP_BOND_SLAVE_SRC_MAC_TYPE_REAL LLDP_BOND_SLAVE_SRC_MAC_TYPE_ZERO 
  LLDP_BOND_SLAVE_SRC_MAC_TYPE_FIXED LLDP_BOND_SLAVE_SRC_MAC_TYPE_LOCALLY_ADMINISTERED 
  LLDP_BOND_SLAVE_SRC_MAC_TYPE_MAX LLDP_MULTICAST_ADDR LLDP_TLV_END LLDP_TLV_CHASSIS_ID 
  LLDP_TLV_PORT_ID LLDP_TLV_TTL LLDP_TLV_PORT_DESCR LLDP_TLV_SYSTEM_NAME LLDP_TLV_SYSTEM_DESCR 
  LLDP_TLV_SYSTEM_CAP LLDP_TLV_MGMT_ADDR LLDP_TLV_ORG LLDP_TLV_ORG_DOT1 LLDP_TLV_ORG_DOT3 
  LLDP_TLV_ORG_MED LLDP_TLV_ORG_DCBX LLDP_TLV_DOT1_PVID LLDP_TLV_DOT1_PPVID 
  LLDP_TLV_DOT1_VLANNAME LLDP_TLV_DOT1_PI LLDP_TLV_DOT3_MAC LLDP_TLV_DOT3_POWER 
  LLDP_TLV_DOT3_LA LLDP_TLV_DOT3_MFS LLDP_TLV_MED_CAP LLDP_TLV_MED_POLICY LLDP_TLV_MED_LOCATION 
  LLDP_TLV_MED_MDI LLDP_TLV_MED_IV_HW LLDP_TLV_MED_IV_FW LLDP_TLV_MED_IV_SW LLDP_TLV_MED_IV_SN 
  LLDP_TLV_MED_IV_MANUF LLDP_TLV_MED_IV_MODEL LLDP_TLV_MED_IV_ASSET CDP_MULTICAST_ADDR 
  FDP_MULTICAST_ADDR LLC_ORG_CISCO LLC_ORG_FOUNDRY LLC_PID_CDP LLC_PID_DRIP LLC_PID_PAGP 
  LLC_PID_PVSTP LLC_PID_UDLD LLC_PID_VTP LLC_PID_DTP LLC_PID_STP CDP_TLV_CHASSIS 
  CDP_TLV_ADDRESSES CDP_TLV_PORT CDP_TLV_CAPABILITIES CDP_TLV_SOFTWARE CDP_TLV_PLATFORM 
  CDP_TLV_NATIVEVLAN CDP_TLV_POWER_CONSUMPTION CDP_ADDRESS_PROTO_IP CDP_CAP_ROUTER 
  CDP_CAP_TRANSPARENT_BRIDGE CDP_CAP_SOURCE_BRIDGE CDP_CAP_SWITCH CDP_CAP_HOST CDP_CAP_IGMP 
  CDP_CAP_REPEATER EDP_MULTICAST_ADDR LLC_ORG_EXTREME LLC_PID_EDP EDP_TLV_NULL EDP_TLV_DISPLAY 
  EDP_TLV_INFO EDP_TLV_VLAN EDP_TLV_ESRP SONMP_MULTICAST_ADDR LLC_ORG_NORTEL 
  LLC_PID_SONMP_HELLO LLC_PID_SONMP_FLATNET SONMP_TOPOLOGY_CHANGED SONMP_TOPOLOGY_UNCHANGED 
  SONMP_TOPOLOGY_NEW LLDPD_MGMT_MAXADDRSIZE SMART_INCOMING_FILTER SMART_INCOMING_ONE_PROTO 
  SMART_INCOMING_ONE_NEIGH SMART_OUTGOING_FILTER SMART_OUTGOING_ONE_PROTO 
  SMART_OUTGOING_ONE_NEIGH SMART_INCOMING SMART_OUTGOING LLDPD_AF_NBR_NOOP LLDPD_AF_NBR_ADD 
  LLDPD_AF_NBR_DEL LLDPD_AF_NBR_MOD LLDPD_AF_NBR_UPD LLDPD_AF_UNSPEC LLDPD_AF_IPV4 
  LLDPD_AF_IPV6 LLDPD_AF_LAST LLDPD_TX_INTERVAL LLDPD_TX_HOLD LLDPD_TTL SONMP_SIZE 
  ETHERTYPE_LLDP ETHERTYPE_VLAN : consts.
