(* ===== verification/Structs.v ===== *)
(** * The data of the daemon (src/lldpd-structs.h, src/lldpd-structs.c)

    The structures lldpd keeps about itself and its neighbors, field by field.
    A [TAILQ] is a list; a buffer with its length ([c_id] and [c_id_len],
    [p_id] and [p_id_len], [p_pi], location [data]) is one list; a
    NUL-terminated [char *] is the list of the bytes of its buffer without the
    final NUL, [None] when it is NULL.  Lists of bytes stand for what is
    allocated: [calloc] and [asprintf] never fail in the model, and [free] is
    not visible except where it removes an element of a list. *)

From S2P Require Import Prelude Bytes Const.
#[local] Open Scope Z_scope.

Record lldpd_ppvid := { p_cap_status : Z; p_ppvid : Z }.
Record lldpd_vlan := { v_name : list Z; v_vid : Z }.
Record lldpd_pi := { p_pi : list Z }.

Record lldpd_med_policy := {
  pol_type : Z; pol_unknown : Z; pol_tagged : Z; pol_vid : Z;
  pol_priority : Z; pol_dscp : Z
}.

Record lldpd_med_loc := { loc_format : Z; loc_data : list Z }.

Record lldpd_med_power := {
  mpow_devicetype : Z; mpow_source : Z; mpow_priority : Z; mpow_val : Z
}.

Record lldpd_dot3_macphy := {
  autoneg_support : Z; autoneg_enabled : Z; autoneg_advertised : Z; mau_type : Z
}.

Record lldpd_dot3_power := {
  pow_devicetype : Z; pow_supported : Z; pow_enabled : Z; pow_paircontrol : Z;
  pow_pairs : Z; pow_class : Z; pow_powertype : Z; pow_source : Z;
  pow_priority : Z; pow_requested : Z; pow_allocated : Z
}.

Record lldpd_mgmt := {
  m_family : Z;
  m_addr : list Z;       (** the 16 octets of the union *)
  m_addrsize : Z;
  m_iface : Z
}.

Record lldpd_chassis := {
  c_refcount : Z; c_index : Z; c_protocol : Z;
  c_id_subtype : Z; c_id : option (list Z);
  c_name : option (list Z); c_descr : option (list Z);
  c_cap_available : Z; c_cap_enabled : Z; c_ttl : Z;
  c_mgmt : list lldpd_mgmt;
  c_med_cap_available : Z; c_med_type : Z;
  c_med_hw : option (list Z); c_med_fw : option (list Z); c_med_sw : option (list Z);
  c_med_sn : option (list Z); c_med_manuf : option (list Z);
  c_med_model : option (list Z); c_med_asset : option (list Z)
}.

(** The address of a chassis. *)
Abbreviation chassis_ptr := nat (only parsing).

Record lldpd_port := {
  p_chassis : option chassis_ptr;
  p_lastchange : Z; p_lastupdate : Z;
  p_lastframe : option (list Z);
  p_protocol : Z; p_hidden_in : bool; p_hidden_out : bool;
  p_id_subtype : Z; p_id : option (list Z); p_descr : option (list Z);
  p_mfs : Z; p_aggregid : Z;
  p_macphy : lldpd_dot3_macphy; p_power : lldpd_dot3_power;
  p_med_cap_enabled : Z;
  p_med_policy : list lldpd_med_policy;     (** [LLDP_MED_APPTYPE_LAST] entries *)
  p_med_location : list lldpd_med_loc;      (** [LLDP_MED_LOCFORMAT_LAST] entries *)
  p_med_power : lldpd_med_power;
  p_pvid : Z;
  p_vlans : list lldpd_vlan; p_ppvids : list lldpd_ppvid; p_pids : list lldpd_pi
}.

(** The configuration.  The fields that are only tested against zero are booleans. *)
Record lldpd_config := {
  c_paused : Z; c_tx_interval : Z; c_smart : Z; c_receiveonly : bool;
  c_max_neighbors : Z;
  c_mgmt_pattern : option (list Z); c_cid_pattern : option (list Z);
  c_iface_pattern : option (list Z);
  c_platform : option (list Z); c_description : option (list Z); c_hostname : option (list Z);
  c_advertise_version : bool; c_set_ifdescr : Z; c_promisc : Z;
  c_noinventory : bool;
  c_enable_fast_start : Z; c_tx_fast_init : Z; c_tx_fast_interval : Z;
  c_tx_hold : Z; c_bond_slave_src_mac_type : Z; c_lldp_portid_type : Z;
  c_is_any_protocol_enabled : bool;
  c_lldp_tlv_sys_name_enable : bool; c_lldp_tlv_sys_cap_enable : bool;
  c_lldp_tlv_sys_desc_enable : bool; c_lldp_tlv_mgmt_addr_enable : bool;
  c_lldp_tlv_port_desc_enable : bool; c_lldp_tlv_port_vlanid_enable : bool;
  c_lldp_tlv_port_proto_vlanid_enable : bool; c_lldp_tlv_port_vlan_name_enable : bool;
  c_lldp_tlv_port_proto_id_enable : bool
}.

Inductive hardware_enable_dir_e :=
  | HARDWARE_ENABLE_DIR_OFF | HARDWARE_ENABLE_DIR_RX
  | HARDWARE_ENABLE_DIR_TX | HARDWARE_ENABLE_DIR_RXTX.
#[global] Instance hardware_enable_dir_e_eq_dec : EqDecision hardware_enable_dir_e.
Proof. solve_decision. Defined.

Record lldpd_hardware := {
  h_mangle : bool; h_mtu : Z; h_flags : Z; h_ifindex : Z; h_ifname : list Z;
  h_lladdr : list Z;
  h_tx_cnt : Z; h_rx_cnt : Z; h_rx_discarded_cnt : Z; h_rx_unrecognized_cnt : Z;
  h_ageout_cnt : Z; h_insert_cnt : Z; h_delete_cnt : Z; h_drop_cnt : Z;
  h_lport : lldpd_port; h_rports : list lldpd_port;
  h_tx_fast : Z;
  h_enable_dir : hardware_enable_dir_e; h_link_state_down : bool;
  h_rport_change_opcode : Z
}.

(** ** Record update *)

#[global] Instance eta_lldpd_ppvid : Settable lldpd_ppvid := λ r,
  {| p_cap_status := p_cap_status r; p_ppvid := p_ppvid r |}.

#[global] Instance eta_lldpd_vlan : Settable lldpd_vlan := λ r,
  {| v_name := v_name r; v_vid := v_vid r |}.

#[global] Instance eta_lldpd_pi : Settable lldpd_pi := λ r,
  {| p_pi := p_pi r |}.

#[global] Instance eta_lldpd_med_policy : Settable lldpd_med_policy := λ r,
  {| pol_type := pol_type r; pol_unknown := pol_unknown r; pol_tagged := pol_tagged r;
     pol_vid := pol_vid r; pol_priority := pol_priority r; pol_dscp := pol_dscp r |}.

#[global] Instance eta_lldpd_med_loc : Settable lldpd_med_loc := λ r,
  {| loc_format := loc_format r; loc_data := loc_data r |}.

#[global] Instance eta_lldpd_med_power : Settable lldpd_med_power := λ r,
  {| mpow_devicetype := mpow_devicetype r; mpow_source := mpow_source r; mpow_priority :=
     mpow_priority r; mpow_val := mpow_val r |}.

#[global] Instance eta_lldpd_dot3_macphy : Settable lldpd_dot3_macphy := λ r,
  {| autoneg_support := autoneg_support r; autoneg_enabled := autoneg_enabled r;
     autoneg_advertised := autoneg_advertised r; mau_type := mau_type r |}.

#[global] Instance eta_lldpd_dot3_power : Settable lldpd_dot3_power := λ r,
  {| pow_devicetype := pow_devicetype r; pow_supported := pow_supported r; pow_enabled :=
     pow_enabled r; pow_paircontrol := pow_paircontrol r; pow_pairs := pow_pairs r; pow_class
     := pow_class r; pow_powertype := pow_powertype r; pow_source := pow_source r;
     pow_priority := pow_priority r; pow_requested := pow_requested r; pow_allocated :=
     pow_allocated r |}.

#[global] Instance eta_lldpd_mgmt : Settable lldpd_mgmt := λ r,
  {| m_family := m_family r; m_addr := m_addr r; m_addrsize := m_addrsize r; m_iface :=
     m_iface r |}.

#[global] Instance eta_lldpd_chassis : Settable lldpd_chassis := λ r,
  {| c_refcount := c_refcount r; c_index := c_index r; c_protocol := c_protocol r;
     c_id_subtype := c_id_subtype r; c_id := c_id r; c_name := c_name r; c_descr := c_descr
     r; c_cap_available := c_cap_available r; c_cap_enabled := c_cap_enabled r; c_ttl :=
     c_ttl r; c_mgmt := c_mgmt r; c_med_cap_available := c_med_cap_available r; c_med_type :=
     c_med_type r; c_med_hw := c_med_hw r; c_med_fw := c_med_fw r; c_med_sw := c_med_sw r;
     c_med_sn := c_med_sn r; c_med_manuf := c_med_manuf r; c_med_model := c_med_model r;
     c_med_asset := c_med_asset r |}.

#[global] Instance eta_lldpd_port : Settable lldpd_port := λ r,
  {| p_chassis := p_chassis r; p_lastchange := p_lastchange r; p_lastupdate := p_lastupdate
     r; p_lastframe := p_lastframe r; p_protocol := p_protocol r; p_hidden_in := p_hidden_in
     r; p_hidden_out := p_hidden_out r; p_id_subtype := p_id_subtype r; p_id := p_id r;
     p_descr := p_descr r; p_mfs := p_mfs r; p_aggregid := p_aggregid r; p_macphy := p_macphy
     r; p_power := p_power r; p_med_cap_enabled := p_med_cap_enabled r; p_med_policy :=
     p_med_policy r; p_med_location := p_med_location r; p_med_power := p_med_power r; p_pvid
     := p_pvid r; p_vlans := p_vlans r; p_ppvids := p_ppvids r; p_pids := p_pids r |}.

#[global] Instance eta_lldpd_config : Settable lldpd_config := λ r,
  {| c_paused := c_paused r; c_tx_interval := c_tx_interval r; c_smart := c_smart r;
     c_receiveonly := c_receiveonly r; c_max_neighbors := c_max_neighbors r;
     c_mgmt_pattern := c_mgmt_pattern r; c_cid_pattern := c_cid_pattern r;
     c_iface_pattern := c_iface_pattern r; c_platform := c_platform r;
     c_description := c_description r; c_hostname := c_hostname r;
     c_advertise_version := c_advertise_version r; c_set_ifdescr := c_set_ifdescr r;
     c_promisc := c_promisc r; c_noinventory := c_noinventory r; c_enable_fast_start := c_enable_fast_start r; c_tx_fast_init :=
     c_tx_fast_init r; c_tx_fast_interval := c_tx_fast_interval r; c_tx_hold := c_tx_hold r; c_bond_slave_src_mac_type :=
     c_bond_slave_src_mac_type r; c_lldp_portid_type := c_lldp_portid_type r;
     c_is_any_protocol_enabled := c_is_any_protocol_enabled r;
     c_lldp_tlv_sys_name_enable := c_lldp_tlv_sys_name_enable r; c_lldp_tlv_sys_cap_enable :=
     c_lldp_tlv_sys_cap_enable r; c_lldp_tlv_sys_desc_enable := c_lldp_tlv_sys_desc_enable r;
     c_lldp_tlv_mgmt_addr_enable := c_lldp_tlv_mgmt_addr_enable r;
     c_lldp_tlv_port_desc_enable := c_lldp_tlv_port_desc_enable r;
     c_lldp_tlv_port_vlanid_enable := c_lldp_tlv_port_vlanid_enable r;
     c_lldp_tlv_port_proto_vlanid_enable := c_lldp_tlv_port_proto_vlanid_enable r;
     c_lldp_tlv_port_vlan_name_enable := c_lldp_tlv_port_vlan_name_enable r;
     c_lldp_tlv_port_proto_id_enable := c_lldp_tlv_port_proto_id_enable r |}.

#[global] Instance eta_lldpd_hardware : Settable lldpd_hardware := λ r,
  {| h_mangle := h_mangle r; h_mtu := h_mtu r; h_flags := h_flags r; h_ifindex := h_ifindex
     r; h_ifname := h_ifname r; h_lladdr := h_lladdr r; h_tx_cnt := h_tx_cnt r; h_rx_cnt :=
     h_rx_cnt r; h_rx_discarded_cnt := h_rx_discarded_cnt r; h_rx_unrecognized_cnt :=
     h_rx_unrecognized_cnt r; h_ageout_cnt := h_ageout_cnt r; h_insert_cnt := h_insert_cnt r;
     h_delete_cnt := h_delete_cnt r; h_drop_cnt := h_drop_cnt r; h_lport := h_lport r;
     h_rports := h_rports r; h_tx_fast := h_tx_fast r; h_enable_dir := h_enable_dir r;
     h_link_state_down := h_link_state_down r; h_rport_change_opcode := h_rport_change_opcode
     r |}.

(** ** Freshly allocated structures ([calloc]) *)

Definition policy_zero : lldpd_med_policy :=
  {| pol_type := 0; pol_unknown := 0; pol_tagged := 0; pol_vid := 0;
     pol_priority := 0; pol_dscp := 0 |}.
Definition loc_zero : lldpd_med_loc := {| loc_format := 0; loc_data := [] |}.
Definition med_power_zero : lldpd_med_power :=
  {| mpow_devicetype := 0; mpow_source := 0; mpow_priority := 0; mpow_val := 0 |}.
Definition macphy_zero : lldpd_dot3_macphy :=
  {| autoneg_support := 0; autoneg_enabled := 0; autoneg_advertised := 0; mau_type := 0 |}.
Definition power_zero : lldpd_dot3_power :=
  {| pow_devicetype := 0; pow_supported := 0; pow_enabled := 0; pow_paircontrol := 0;
     pow_pairs := 0; pow_class := 0; pow_powertype := 0; pow_source := 0;
     pow_priority := 0; pow_requested := 0; pow_allocated := 0 |}.

Definition chassis_zero : lldpd_chassis :=
  {| c_refcount := 0; c_index := 0; c_protocol := 0; c_id_subtype := 0; c_id := None;
     c_name := None; c_descr := None; c_cap_available := 0; c_cap_enabled := 0;
     c_ttl := 0; c_mgmt := []; c_med_cap_available := 0; c_med_type := 0;
     c_med_hw := None; c_med_fw := None; c_med_sw := None; c_med_sn := None;
     c_med_manuf := None; c_med_model := None; c_med_asset := None |}.

Definition port_zero : lldpd_port :=
  {| p_chassis := None; p_lastchange := 0; p_lastupdate := 0; p_lastframe := None;
     p_protocol := 0; p_hidden_in := false; p_hidden_out := false; p_id_subtype := 0;
     p_id := None; p_descr := None; p_mfs := 0; p_aggregid := 0;
     p_macphy := macphy_zero; p_power := power_zero; p_med_cap_enabled := 0;
     p_med_policy := replicate 8 policy_zero; p_med_location := replicate 3 loc_zero;
     p_med_power := med_power_zero; p_pvid := 0; p_vlans := []; p_ppvids := [];
     p_pids := [] |}.

(** ** Management addresses (src/daemon/lldpd.c) *)

Inductive errno := EAFNOSUPPORT | EOVERFLOW | ENOMEM.

Definition lldpd_alloc_mgmt (family : Z) (addrptr : list Z) (addrsize iface : Z)
    : errno + lldpd_mgmt :=
  if ((family <=? LLDPD_AF_UNSPEC) || (LLDPD_AF_LAST <=? family))%bool then inl EAFNOSUPPORT
  else if LLDPD_MGMT_MAXADDRSIZE <? addrsize then inl EOVERFLOW
  else inr {| m_family := family;
              m_addr := take (Z.to_nat addrsize) addrptr
                          ++ replicate (Z.to_nat (LLDPD_MGMT_MAXADDRSIZE - addrsize)) 0;
              m_addrsize := addrsize;
              m_iface := iface |}.

(** What [lldpd_alloc_mgmt] guarantees of every address in a [c_mgmt] list. *)
Definition mgmt_ok (m : lldpd_mgmt) : Prop :=
  (m_family m = LLDPD_AF_IPV4 ∨ m_family m = LLDPD_AF_IPV6) ∧
  0 ≤ m_addrsize m ≤ LLDPD_MGMT_MAXADDRSIZE ∧
  zlen (m_addr m) = LLDPD_MGMT_MAXADDRSIZE.

Lemma alloc_mgmt_ok family addr size iface m :
  0 ≤ size ≤ zlen addr →
  lldpd_alloc_mgmt family addr size iface = inr m → mgmt_ok m.
Proof.
  intros Hs. unfold lldpd_alloc_mgmt, mgmt_ok. autounfold with consts.
  repeat case_if; intros [=]. subst m; simpl.
  rewrite zlen_app, zlen_take, zlen_replicate by lia. bool_to_prop. lia.
Qed.
