(* ===== verification/FramePatch.v ===== *)
(** * Packets with fields filled in afterwards

    CDP, EDP and FDP frames carry their own length and checksum: the senders
    leave room for them with [POKE_SAVE], write the rest, and come back with
    [POKE_RESTORE].  [holds mtu st bs] says that the packet so far is [bs]; the
    lemmas step through the macros. *)

From S2P Require Import Prelude Bytes Frame.
#[local] Open Scope Z_scope.

(** The packet starts with [bs]; the position is somewhere in the buffer. *)
Record packet (mtu : Z) (st : pkt) (bs : list Z) : Prop := {
  pa_pos : 0 ≤ pk_pos st;
  pa_length : pk_length st = mtu - pk_pos st;
  pa_buf : ∃ rest, pk_buf st = bs ++ rest ∧ zlen (bs ++ rest) = mtu
}.

(** The position is at the end of what was written. *)
Definition holds (mtu : Z) (st : pkt) (bs : list Z) : Prop :=
  packet mtu st bs ∧ pk_pos st = zlen bs.

Section Patch.
Context (mtu : Z).
Implicit Types (st : pkt) (a b bs : list Z).

Lemma holds_init : 0 ≤ mtu → holds mtu (pkt_init mtu) [].
Proof.
  intros Hm. split; [|done]. split; cbn; [done|lia|].
  exists (replicate (Z.to_nat mtu) 0). split; [done|]. cbn. rewrite zlen_replicate. lia.
Qed.

Lemma holds_ok st a : holds mtu st a → pkt_ok st.
Proof.
  intros [[Hp Hl (rest & Hb & Hz)] Hpos]. rewrite zlen_app in Hz.
  pose proof (zlen_nonneg rest). unfold pkt_ok. rewrite Hb, zlen_app. lia.
Qed.

(** A sequence of macros either fits or sends the code to [toobig]. *)
Lemma holds_emits st a p b :
  holds mtu st a → Emits p b →
  (zlen (a ++ b) ≤ mtu ∧ ∃ st', p st = Some st' ∧ holds mtu st' (a ++ b)) ∨
  (mtu < zlen (a ++ b) ∧ p st = None).
Proof.
  intros Hst Hp. pose proof (holds_ok _ _ Hst) as Hok. specialize (Hp st Hok).
  destruct Hst as [[H1 H2 (rest & Hb & Hz)] Hpos].
  rewrite zlen_app in *. pose proof (zlen_nonneg b).
  destruct (Z.leb_spec (zlen b) (pk_length st)).
  - left. split; [lia|]. destruct Hp as [t ->]. eexists. split; [done|].
    split; [split|]; cbn; [lia|lia| |rewrite zlen_app; lia].
    exists (drop (length b) rest). rewrite Hb, Hpos, write_at_split, <- app_assoc.
    split; [done|]. rewrite !zlen_app. unfold zlen in *. rewrite length_drop. lia.
  - right. split; [lia|done].
Qed.

(** Writing over a field of the same size. *)
Lemma poke_over st a old c bs :
  packet mtu st (a ++ old ++ c) → pk_pos st = zlen a → zlen bs = zlen old →
  ∃ st', POKE_BYTES bs st = Some st' ∧ packet mtu st' (a ++ bs ++ c) ∧
    pk_pos st' = zlen a + zlen bs.
Proof.
  intros [H1 H2 (rest & Hb & Hz)] Hpos Hlen. rewrite !zlen_app in Hz.
  pose proof (zlen_nonneg a). pose proof (zlen_nonneg old). pose proof (zlen_nonneg c).
  pose proof (zlen_nonneg rest). unfold POKE_BYTES.
  rewrite (proj2 (Z.leb_le (zlen bs) _)) by lia.
  eexists. split; [done|]. split; [|cbn; lia]. split; cbn [pk_buf pk_pos pk_length]; [lia|lia|].
  exists rest. rewrite Hb, Hpos, <- !app_assoc, write_at_mid by done. split; [done|].
  rewrite !zlen_app. lia.
Qed.

(** Coming back to a field. *)
Lemma packet_restore st bs where_ :
  0 ≤ where_ → packet mtu st bs →
  ∃ st', POKE_RESTORE where_ st = Some st' ∧ packet mtu st' bs ∧ pk_pos st' = where_.
Proof.
  intros Hw [H1 H2 H3]. eexists. split; [done|]. split; [|done].
  split; cbn [pk_buf pk_pos pk_length]; [done| |done].
  destruct (Z.ltb_spec (pk_pos st) where_); lia.
Qed.

Lemma patch_bytes_pos st a old c bs :
  packet mtu st (a ++ old ++ c) → zlen bs = zlen old →
  ∃ st', poke_seq (POKE_RESTORE (zlen a)) (POKE_BYTES bs) st = Some st' ∧
    packet mtu st' (a ++ bs ++ c) ∧ pk_pos st' = zlen a + zlen bs.
Proof.
  intros Hp Hlen. destruct (packet_restore st _ (zlen a) (zlen_nonneg a) Hp) as (st1 & H1 & Hp1 & Hz).
  unfold poke_seq. rewrite H1. cbn [mbind option_bind]. by apply (poke_over st1 a old).
Qed.

Lemma patch_bytes st a old c bs :
  packet mtu st (a ++ old ++ c) → zlen bs = zlen old →
  ∃ st', poke_seq (POKE_RESTORE (zlen a)) (POKE_BYTES bs) st = Some st' ∧
    packet mtu st' (a ++ bs ++ c).
Proof.
  intros Hp Hl. destruct (patch_bytes_pos st a old c bs Hp Hl) as (st' & ? & ? & _). by exists st'.
Qed.

Lemma packet_upto st bs : packet mtu st bs → pkt_upto st (zlen bs) = bs.
Proof. intros [_ _ (rest & Hb & _)]. unfold pkt_upto. rewrite Hb. apply take_app_zlen. Qed.
End Patch.

(** [n] bytes of the packet from an offset on. *)
Definition pkt_sub (st : pkt) (pos n : Z) : list Z :=
  take (Z.to_nat n) (drop (Z.to_nat pos) (pk_buf st)).

Lemma packet_sub mtu st a b : packet mtu st (a ++ b) → pkt_sub st (zlen a) (zlen b) = b.
Proof.
  intros [_ _ (rest & Hb & _)]. unfold pkt_sub. rewrite Hb, <- app_assoc, drop_app_zlen.
  apply take_app_zlen.
Qed.

(** One sequence of macros, which emits what [He] says, in front of the rest of
    a packet whose frame does or does not fit in the MTU. *)
Ltac fits He :=
  let st := fresh "st" in let Hst := fresh "Hst" in let Hlt := fresh "Hlt" in
  match goal with
  | Hh : holds ?mtu ?s _ |- context [?p ?s] =>
      destruct (holds_emits mtu s _ p _ Hh He) as [[_ (st & -> & Hst)]|[Hlt ->]];
        [cbn [mbind option_bind app] in Hst |- *
        |rewrite !zlen_app, ?be16_zlen in Hlt; cbn [mbind option_bind];
         rewrite (proj2 (Z.leb_gt _ _)); [done|]]
  end.
