(* ===== verification/Interfaces.v ===== *)
(** * Sending on an interface (src/daemon/interfaces.c)

    [interfaces_send_helper] is what every protocol calls to put a packet on
    the wire.  The driver's [h_ops->send] is a parameter: it returns -1 on
    error.  The helper edits the packet in place (source address mangling on
    bond slaves), so the model returns the buffer too. *)

From S2P Require Import Prelude Bytes Const Structs Frame.
#[local] Open Scope Z_scope.

Definition MAC_UL_ADMINISTERED_BIT_MASK : Z := 0x02.
Definition arbitrary_mac : list Z := [0x00; 0x60; 0x08; 0x69; 0x97; 0xef].

(** The [switch] on [c_bond_slave_src_mac_type]. *)
Definition mangle_src_mac (type : Z) (buffer : list Z) : list Z :=
  let src := nth (Z.to_nat ETHER_ADDR_LEN) buffer 0 in
  if (type =? LLDP_BOND_SLAVE_SRC_MAC_TYPE_LOCALLY_ADMINISTERED) then
    if Z.land src MAC_UL_ADMINISTERED_BIT_MASK =? 0
    then write_at buffer ETHER_ADDR_LEN [Z.lor src MAC_UL_ADMINISTERED_BIT_MASK]
    else write_at buffer ETHER_ADDR_LEN arbitrary_mac
  else if type =? LLDP_BOND_SLAVE_SRC_MAC_TYPE_FIXED then
    write_at buffer ETHER_ADDR_LEN arbitrary_mac
  else if type =? LLDP_BOND_SLAVE_SRC_MAC_TYPE_ZERO then
    write_at buffer ETHER_ADDR_LEN (replicate (Z.to_nat ETHER_ADDR_LEN) 0)
  else buffer.

Definition interfaces_send_helper (cfg : lldpd_config) (hardware : lldpd_hardware)
    (h_ops_send : list Z → Z) (buffer : list Z) : Z * list Z :=
  if zlen buffer <? 2 * ETHER_ADDR_LEN then (0, buffer)
  else
    let buffer := if h_mangle hardware
                  then mangle_src_mac (c_bond_slave_src_mac_type cfg) buffer
                  else buffer in
    (h_ops_send buffer, buffer).

(** Mangling touches the six bytes of the source address and nothing else. *)
Lemma mangle_src_mac_frame type buffer :
  2 * ETHER_ADDR_LEN ≤ zlen buffer →
  ∃ mac, zlen mac = ETHER_ADDR_LEN ∧
    mangle_src_mac type buffer =
      take 6 buffer ++ mac ++ drop 12 buffer.
Proof.
  intros Hl. unfold ETHER_ADDR_LEN in *.
  assert (∃ a b c, buffer = a ++ b ++ c ∧ zlen a = 6 ∧ zlen b = 6) as (a & b & c & -> & Ha & Hb).
  { exists (take 6 buffer), (take 6 (drop 6 buffer)), (drop 12 buffer).
    replace (drop 12 buffer) with (drop 6 (drop 6 buffer)) by apply drop_drop.
    rewrite !take_drop. unfold zlen in *.
    rewrite !length_take, length_drop. split_and!; [done|lia..]. }
  assert (length a = 6%nat) as Hla by (unfold zlen in Ha; lia).
  assert (length b = 6%nat) as Hlb by (unfold zlen in Hb; lia).
  replace (take 6 (a ++ b ++ c)) with a by (by rewrite <- Hla, take_app_length).
  replace (drop 12 (a ++ b ++ c)) with c.
  2: { rewrite app_assoc, <- (drop_app_length (a ++ b) c) at 1. by rewrite length_app, Hla, Hlb. }
  destruct b as [|b0 b]; [done|].
  unfold mangle_src_mac, ETHER_ADDR_LEN.
  assert (∀ m rest, zlen m = 6 → write_at (a ++ (b0 :: b) ++ rest) 6 m = a ++ m ++ rest) as Hw.
  { intros m rest Hm. rewrite <- Ha. apply write_at_mid. by rewrite Hm, Hb. }
  repeat case_if.
  - eexists (_ :: b). rewrite zlen_cons in Hb |- *. split; [done|].
    rewrite <- Ha, write_at_split. done.
  - exists arbitrary_mac. by rewrite Hw.
  - exists arbitrary_mac. by rewrite Hw.
  - exists (replicate 6 0). by rewrite Hw.
  - by exists (b0 :: b).
Qed.

(** What mangling makes of a source address. *)
Definition mangle_mac (type : Z) (mac : list Z) : list Z :=
  if (type =? LLDP_BOND_SLAVE_SRC_MAC_TYPE_LOCALLY_ADMINISTERED) then
    if Z.land (nth 0 mac 0) MAC_UL_ADMINISTERED_BIT_MASK =? 0
    then Z.lor (nth 0 mac 0) MAC_UL_ADMINISTERED_BIT_MASK :: drop 1 mac
    else arbitrary_mac
  else if type =? LLDP_BOND_SLAVE_SRC_MAC_TYPE_FIXED then arbitrary_mac
  else if type =? LLDP_BOND_SLAVE_SRC_MAC_TYPE_ZERO then replicate 6 0
  else mac.
Definition sent_mac (cfg : lldpd_config) (hardware : lldpd_hardware) (mac : list Z) : list Z :=
  if h_mangle hardware then mangle_mac (c_bond_slave_src_mac_type cfg) mac else mac.

Lemma mangle_src_mac_app type a mac c :
  zlen a = 6 → zlen mac = 6 →
  mangle_src_mac type (a ++ mac ++ c) = a ++ mangle_mac type mac ++ c.
Proof.
  intros Ha Hm. destruct mac as [|b0 b]; [done|].
  unfold mangle_src_mac, mangle_mac, ETHER_ADDR_LEN.
  rewrite <- Ha. rewrite !to_nat_zlen.
  assert (nth (length a) (a ++ (b0 :: b) ++ c) 0 = b0) as ->
    by (rewrite app_nth2, Nat.sub_diag by lia; done).
  assert (length a = 6%nat) as Hla by (unfold zlen in Ha; lia).
  change (nth 0 (b0 :: b) 0) with b0. repeat case_if.
  - by rewrite write_at_split.
  - by rewrite write_at_mid by (by rewrite Hm).
  - by rewrite write_at_mid by (by rewrite Hm).
  - rewrite Hla, write_at_mid; [done|]. by rewrite Hm.
  - done.
Qed.

Lemma sent_mac_zlen cfg hardware mac : zlen mac = 6 → zlen (sent_mac cfg hardware mac) = 6.
Proof.
  intros Hm. unfold sent_mac, mangle_mac. repeat case_if; try done.
  unfold zlen in *. cbn. rewrite length_drop. lia.
Qed.

Lemma interfaces_send_frame cfg hardware send a mac c :
  zlen a = 6 → zlen mac = 6 →
  interfaces_send_helper cfg hardware send (a ++ mac ++ c) =
    (send (a ++ sent_mac cfg hardware mac ++ c), a ++ sent_mac cfg hardware mac ++ c).
Proof.
  intros Ha Hm. unfold interfaces_send_helper.
  rewrite (proj2 (Z.ltb_ge _ _)).
  2: { rewrite !zlen_app, Ha, Hm. pose proof (zlen_nonneg c). unfold ETHER_ADDR_LEN. lia. }
  unfold sent_mac. destruct (h_mangle hardware); [|done]. by rewrite mangle_src_mac_app.
Qed.
