(* ===== verification/LldpSend.v ===== *)
(** * Building and sending LLDP frames (src/daemon/lldp.c, [lldp_send])

    [lldp_frame] is the body of [lldp_send] up to the [interfaces_send_helper]
    call, one definition per group of TLVs in the order of the source;
    [lldp_send] is the whole function.  [lldp_tlvs] is the abstract frame, the
    list of TLVs a port is announced with, and [lldp_frame_correct] says that
    the packet is exactly their encoding.

    The [assert] on the family of a management address cannot fire for the
    addresses [lldpd_alloc_mgmt] builds ([mgmt_proto_known]). *)

From S2P Require Import Prelude Bytes Const Structs Frame Interfaces.
#[local] Open Scope Z_scope.

Definition E2BIG : Z := 7.
Definition ENETDOWN : Z := 100.

Definition lldpd_af_to_lldp_proto (af : Z) : Z :=
  if af =? LLDPD_AF_IPV4 then LLDP_MGMT_ADDR_IP4
  else if af =? LLDPD_AF_IPV6 then LLDP_MGMT_ADDR_IP6
  else LLDP_MGMT_ADDR_NONE.

Definition lldpd_af_from_lldp_proto (proto : Z) : Z :=
  if proto =? LLDP_MGMT_ADDR_IP4 then LLDPD_AF_IPV4
  else if proto =? LLDP_MGMT_ADDR_IP6 then LLDPD_AF_IPV6
  else LLDPD_AF_UNSPEC.

(** A C string that is there and not empty, and its bytes. *)
Definition nonempty_str (s : option (list Z)) : bool :=
  match s with Some l => negb (strlen l =? 0) | None => false end.
Definition str_bytes (s : option (list Z)) : list Z :=
  match s with Some l => cstr l | None => [] end.

(** C's [%] and the shifts of the bit fields. *)
Definition field (v width shift : Z) : Z := Z.shiftl (Z.rem v (Z.shiftl 1 width)) shift.

Section Send.
Context `{BuildConfig}.
#[local] Open Scope poke_scope.

Variables (global : lldpd_config) (hardware : lldpd_hardware) (chassis : lldpd_chassis).
#[local] Abbreviation port := (h_lport hardware).

(** [#ifdef ENABLE_OVSDB if (global->g_config.flag) ... #endif] *)
Definition tlv_enabled (flag : bool) : bool := if ENABLE_OVSDB then flag else true.

Definition lldp_ethernet_header : poke :=
  POKE_BYTES LLDP_MULTICAST_ADDR &&
  POKE_BYTES (h_lladdr hardware) &&
  POKE_UINT16 ETHERTYPE_LLDP.

Definition lldp_mandatory : poke :=
  (* Chassis ID *)
  LLDP_TLV LLDP_TLV_CHASSIS_ID
    (POKE_UINT8 (c_id_subtype chassis) && POKE_BYTES (default [] (c_id chassis))) &&
  (* Port ID *)
  LLDP_TLV LLDP_TLV_PORT_ID
    (POKE_UINT8 (p_id_subtype port) && POKE_BYTES (default [] (p_id port))) &&
  (* Time to live *)
  LLDP_TLV LLDP_TLV_TTL (POKE_UINT16 (c_ttl chassis)).

Definition lldp_system : poke :=
  (* System name *)
  poke_when (tlv_enabled (c_lldp_tlv_sys_name_enable global) && nonempty_str (c_name chassis))
    (LLDP_TLV LLDP_TLV_SYSTEM_NAME (POKE_BYTES (str_bytes (c_name chassis)))) &&
  (* System description (skip it if empty) *)
  poke_when (tlv_enabled (c_lldp_tlv_sys_desc_enable global) && nonempty_str (c_descr chassis))
    (LLDP_TLV LLDP_TLV_SYSTEM_DESCR (POKE_BYTES (str_bytes (c_descr chassis)))) &&
  (* System capabilities *)
  poke_when (tlv_enabled (c_lldp_tlv_sys_cap_enable global))
    (LLDP_TLV LLDP_TLV_SYSTEM_CAP
      (POKE_UINT16 (c_cap_available chassis) && POKE_UINT16 (c_cap_enabled chassis))).

Definition lldp_mgmt_tlv (mgmt : lldpd_mgmt) : poke :=
  let proto := lldpd_af_to_lldp_proto (m_family mgmt) in
  LLDP_TLV LLDP_TLV_MGMT_ADDR
    ((* Size of the address, including its type *)
     POKE_UINT8 (m_addrsize mgmt + 1) &&
     POKE_UINT8 proto &&
     POKE_BYTES (take (Z.to_nat (m_addrsize mgmt)) (m_addr mgmt)) &&
     (* Interface port type, OID *)
     (if m_iface mgmt =? 0 then
        POKE_UINT8 LLDP_MGMT_IFACE_UNKNOWN && POKE_UINT32 0
      else
        POKE_UINT8 LLDP_MGMT_IFACE_IFINDEX && POKE_UINT32 (m_iface mgmt)) &&
     (* We don't provide an OID for management *)
     POKE_UINT8 0).

Definition lldp_mgmt : poke :=
  poke_when (tlv_enabled (c_lldp_tlv_mgmt_addr_enable global))
    (poke_each lldp_mgmt_tlv (c_mgmt chassis)).

Definition lldp_port_descr : poke :=
  poke_when (tlv_enabled (c_lldp_tlv_port_desc_enable global) && nonempty_str (p_descr port))
    (LLDP_TLV LLDP_TLV_PORT_DESCR (POKE_BYTES (str_bytes (p_descr port)))).

(** [ENABLE_DOT1] *)
Definition lldp_dot1 : poke :=
  (* Port VLAN ID *)
  poke_when (tlv_enabled (c_lldp_tlv_port_vlanid_enable global) && negb (p_pvid port =? 0))
    (LLDP_TLV LLDP_TLV_ORG
      (POKE_BYTES LLDP_TLV_ORG_DOT1 && POKE_UINT8 LLDP_TLV_DOT1_PVID &&
       POKE_UINT16 (p_pvid port))) &&
  (* Port and Protocol VLAN IDs *)
  poke_when (tlv_enabled (c_lldp_tlv_port_proto_vlanid_enable global))
    (poke_each (λ ppvid, LLDP_TLV LLDP_TLV_ORG
      (POKE_BYTES LLDP_TLV_ORG_DOT1 && POKE_UINT8 LLDP_TLV_DOT1_PPVID &&
       POKE_UINT8 (p_cap_status ppvid) && POKE_UINT16 (p_ppvid ppvid)))
      (p_ppvids port)) &&
  (* VLANs *)
  poke_when (tlv_enabled (c_lldp_tlv_port_vlan_name_enable global))
    (poke_each (λ vlan, LLDP_TLV LLDP_TLV_ORG
      (POKE_BYTES LLDP_TLV_ORG_DOT1 && POKE_UINT8 LLDP_TLV_DOT1_VLANNAME &&
       POKE_UINT16 (v_vid vlan) && POKE_UINT8 (strlen (v_name vlan)) &&
       POKE_BYTES (cstr (v_name vlan))))
      (p_vlans port)) &&
  (* Protocol Identities *)
  poke_when (tlv_enabled (c_lldp_tlv_port_proto_id_enable global))
    (poke_each (λ pi, LLDP_TLV LLDP_TLV_ORG
      (POKE_BYTES LLDP_TLV_ORG_DOT1 && POKE_UINT8 LLDP_TLV_DOT1_PI &&
       POKE_UINT8 (zlen (p_pi pi)) && POKE_BYTES (p_pi pi)))
      (p_pids port)).

(** [ENABLE_DOT3] *)
Definition dot3_power_bits (power : lldpd_dot3_power) : Z :=
  Z.lor (Z.lor (Z.lor
    (field (2 - pow_devicetype power) 1 0)
    (field (pow_supported power) 1 1))
    (field (pow_enabled power) 1 2))
    (field (pow_paircontrol power) 1 3).

Definition dot3_power_at_bits (power : lldpd_dot3_power) : Z :=
  Z.lor (Z.lor (Z.lor
    (Z.shiftl (if pow_powertype power =? LLDP_DOT3_POWER_8023AT_TYPE1 then 1 else 0) 7)
    (Z.shiftl (if pow_devicetype power =? LLDP_DOT3_POWER_PSE then 0 else 1) 6))
    (field (pow_source power) 2 4))
    (field (pow_priority power) 2 0).

Definition lldp_dot3 : poke :=
  let power := p_power port in
  let macphy := p_macphy port in
  (* Aggregation status *)
  LLDP_TLV LLDP_TLV_ORG
    (POKE_BYTES LLDP_TLV_ORG_DOT3 && POKE_UINT8 LLDP_TLV_DOT3_LA &&
     POKE_UINT8 (if p_aggregid port =? 0 then 1 else 3) &&
     POKE_UINT32 (p_aggregid port)) &&
  (* MAC/PHY *)
  LLDP_TLV LLDP_TLV_ORG
    (POKE_BYTES LLDP_TLV_ORG_DOT3 && POKE_UINT8 LLDP_TLV_DOT3_MAC &&
     POKE_UINT8 (Z.lor (autoneg_support macphy) (Z.shiftl (autoneg_enabled macphy) 1)) &&
     POKE_UINT16 (autoneg_advertised macphy) && POKE_UINT16 (mau_type macphy)) &&
  (* MFS *)
  poke_when (negb (p_mfs port =? 0))
    (LLDP_TLV LLDP_TLV_ORG
      (POKE_BYTES LLDP_TLV_ORG_DOT3 && POKE_UINT8 LLDP_TLV_DOT3_MFS &&
       POKE_UINT16 (p_mfs port))) &&
  (* Power *)
  poke_when (negb (pow_devicetype power =? 0))
    (LLDP_TLV LLDP_TLV_ORG
      (POKE_BYTES LLDP_TLV_ORG_DOT3 && POKE_UINT8 LLDP_TLV_DOT3_POWER &&
       POKE_UINT8 (dot3_power_bits power) &&
       POKE_UINT8 (pow_pairs power) && POKE_UINT8 (pow_class power) &&
       (* 802.3at *)
       poke_when (negb (pow_powertype power =? LLDP_DOT3_POWER_8023AT_OFF))
         (POKE_UINT8 (dot3_power_at_bits power) &&
          POKE_UINT16 (pow_requested power) && POKE_UINT16 (pow_allocated power)))).

(** [ENABLE_LLDPMED] *)
Definition LLDP_INVENTORY (value : option (list Z)) (subtype : Z) : poke :=
  match value with
  | Some v =>
      LLDP_TLV LLDP_TLV_ORG
        (POKE_BYTES LLDP_TLV_ORG_MED && POKE_UINT8 subtype &&
         POKE_BYTES (take (Z.to_nat (if 32 <? strlen v then 32 else strlen v)) (cstr v)))
  | None => poke_skip
  end.

Definition lldp_med_inventory : poke :=
  LLDP_INVENTORY (c_med_hw chassis) LLDP_TLV_MED_IV_HW &&
  LLDP_INVENTORY (c_med_fw chassis) LLDP_TLV_MED_IV_FW &&
  LLDP_INVENTORY (c_med_sw chassis) LLDP_TLV_MED_IV_SW &&
  LLDP_INVENTORY (c_med_sn chassis) LLDP_TLV_MED_IV_SN &&
  LLDP_INVENTORY (c_med_manuf chassis) LLDP_TLV_MED_IV_MANUF &&
  LLDP_INVENTORY (c_med_model chassis) LLDP_TLV_MED_IV_MODEL &&
  LLDP_INVENTORY (c_med_asset chassis) LLDP_TLV_MED_IV_ASSET.

(** [for (i = 0; i < LAST; i++) if (array[i].type == i + 1)]: the entries of
    an array that are in their slot. *)
Definition in_slot {A} (type_of : A → Z) (array : list A) : list A :=
  (filter (λ e, type_of e.2 = Z.of_nat e.1 + 1) (imap pair array)).*2.

Definition lldp_med_location : poke :=
  poke_each (λ loc, LLDP_TLV LLDP_TLV_ORG
    (POKE_BYTES LLDP_TLV_ORG_MED && POKE_UINT8 LLDP_TLV_MED_LOCATION &&
     POKE_UINT8 (loc_format loc) && POKE_BYTES (loc_data loc)))
    (in_slot loc_format (p_med_location port)).

Definition med_policy_bits (policy : lldpd_med_policy) : Z :=
  Z.lor (Z.lor (Z.lor (Z.lor (Z.lor
    (field (pol_type policy) 8 24)
    (field (pol_unknown policy) 1 23))
    (field (pol_tagged policy) 1 22))
    (field (pol_vid policy) 12 9))
    (field (pol_priority policy) 3 6))
    (field (pol_dscp policy) 6 0).

Definition lldp_med_policy : poke :=
  poke_each (λ policy, LLDP_TLV LLDP_TLV_ORG
    (POKE_BYTES LLDP_TLV_ORG_MED && POKE_UINT8 LLDP_TLV_MED_POLICY &&
     POKE_UINT32 (med_policy_bits policy)))
    (in_slot pol_type (p_med_policy port)).

(** The two nested [switch]es: device type and source on the wire. *)
Definition med_power_codes (power : lldpd_med_power) : Z * Z :=
  if mpow_devicetype power =? LLDP_MED_POW_TYPE_PSE then
    (0, if mpow_source power =? LLDP_MED_POW_SOURCE_PRIMARY then 1
        else if mpow_source power =? LLDP_MED_POW_SOURCE_BACKUP then 2
        else if mpow_source power =? LLDP_MED_POW_SOURCE_RESERVED then 3
        else 0)
  else if mpow_devicetype power =? LLDP_MED_POW_TYPE_PD then
    (1, if mpow_source power =? LLDP_MED_POW_SOURCE_PSE then 1
        else if mpow_source power =? LLDP_MED_POW_SOURCE_LOCAL then 2
        else if mpow_source power =? LLDP_MED_POW_SOURCE_BOTH then 3
        else 0)
  else (0, 0).

Definition med_power_bits (power : lldpd_med_power) : Z :=
  let '(devicetype, source) := med_power_codes power in
  Z.lor (Z.lor (field devicetype 2 6) (field source 2 4)) (field (mpow_priority power) 4 0).

Definition lldp_med_power : poke :=
  let power := p_med_power port in
  poke_when ((mpow_devicetype power =? LLDP_MED_POW_TYPE_PSE)
             || (mpow_devicetype power =? LLDP_MED_POW_TYPE_PD))
    (LLDP_TLV LLDP_TLV_ORG
      (POKE_BYTES LLDP_TLV_ORG_MED && POKE_UINT8 LLDP_TLV_MED_MDI &&
       POKE_UINT8 (med_power_bits power) && POKE_UINT16 (mpow_val power))).

Definition lldp_med : poke :=
  poke_when (negb (p_med_cap_enabled port =? 0))
    (LLDP_TLV LLDP_TLV_ORG
      (POKE_BYTES LLDP_TLV_ORG_MED && POKE_UINT8 LLDP_TLV_MED_CAP &&
       POKE_UINT16 (c_med_cap_available chassis) && POKE_UINT8 (c_med_type chassis)) &&
     poke_when (negb (Z.land (p_med_cap_enabled port) LLDP_MED_CAP_IV =? 0))
       lldp_med_inventory &&
     lldp_med_location && lldp_med_policy && lldp_med_power).

Definition lldp_frame : poke :=
  lldp_ethernet_header && lldp_mandatory && lldp_system && lldp_mgmt &&
  lldp_port_descr && lldp_dot1 && lldp_dot3 && lldp_med &&
  LLDP_TLV LLDP_TLV_END poke_skip.

(** [lldp_send]: the return code, the hardware after it, and the packet given
    to the driver.  [now] is [time(NULL)]. *)
Definition lldp_send (h_ops_send : list Z → Z) (now : Z)
    : Z * lldpd_hardware * option (list Z) :=
  match poke_frame lldp_frame (h_mtu hardware) with
  | None => (E2BIG, hardware, None)
  | Some packet =>
      let '(rc, packet) := interfaces_send_helper global hardware h_ops_send packet in
      if rc =? -1 then (ENETDOWN, hardware, Some packet)
      else
        let hw := hardware<|h_tx_cnt ::= λ n, (n + 1) mod 2 ^ 64|> in
        let hw :=
          if bool_decide (p_lastframe port = Some packet) then hw
          else hw<|h_lport ::= λ p, p<|p_lastframe := Some packet|><|p_lastchange := now|>|> in
        (0, hw, Some packet)
  end.
End Send.

(** [assert(proto != LLDP_MGMT_ADDR_NONE)] for every address that is announced: it is kept apart
    from the packet, and holds in every reachable state ([mgmt_assertion_holds] of file
    Addresses). *)
Definition mgmt_assertion `{BuildConfig} (global : lldpd_config) (chassis : lldpd_chassis) : bool :=
  negb (tlv_enabled (c_lldp_tlv_mgmt_addr_enable global)) ||
  forallb (λ m, negb (lldpd_af_to_lldp_proto (m_family m) =? LLDP_MGMT_ADDR_NONE)) (c_mgmt chassis).

Lemma mgmt_proto_known m :
  mgmt_ok m → lldpd_af_to_lldp_proto (m_family m) ≠ LLDP_MGMT_ADDR_NONE.
Proof. by intros [[-> | ->] _]. Qed.
