(* ===== verification/LldpSpec.v ===== *)
(** * The LLDP frame as a list of TLVs

    The abstract specification of what [lldp_send] announces: a list of (type,
    value) pairs, with no buffer, no position and no failure.  [lldp_tlvs] is
    that list for a local port; [lldp_frame_correct] is the refinement theorem:
    the buffer manipulations of [lldp_send] produce the encoding of that list
    when it fits in the MTU, and fail with [E2BIG] exactly when it does not. *)

From S2P Require Import Prelude Bytes Const Structs Frame Interfaces LldpSend.
#[local] Open Scope Z_scope.

Definition tlv : Type := Z * list Z.
Definition enc_tlvs (l : list tlv) : list Z := flat_map (λ t, enc_lldp_tlv t.1 t.2) l.
Definition when {A} (b : bool) (l : list A) : list A := if b then l else [].
Definition org_tlv (oui : list Z) (subtype : Z) (data : list Z) : tlv :=
  (LLDP_TLV_ORG, oui ++ [u8 subtype] ++ data).

Section Spec.
Context `{BuildConfig}.
Variables (global : lldpd_config) (hardware : lldpd_hardware) (chassis : lldpd_chassis).
#[local] Abbreviation port := (h_lport hardware).

Definition mandatory_tlvs : list tlv :=
  [ (LLDP_TLV_CHASSIS_ID, [u8 (c_id_subtype chassis)] ++ default [] (c_id chassis));
    (LLDP_TLV_PORT_ID, [u8 (p_id_subtype port)] ++ default [] (p_id port));
    (LLDP_TLV_TTL, be16 (c_ttl chassis)) ].

Definition system_tlvs : list tlv :=
  when (tlv_enabled (c_lldp_tlv_sys_name_enable global) && nonempty_str (c_name chassis))
    [(LLDP_TLV_SYSTEM_NAME, str_bytes (c_name chassis))] ++
  when (tlv_enabled (c_lldp_tlv_sys_desc_enable global) && nonempty_str (c_descr chassis))
    [(LLDP_TLV_SYSTEM_DESCR, str_bytes (c_descr chassis))] ++
  when (tlv_enabled (c_lldp_tlv_sys_cap_enable global))
    [(LLDP_TLV_SYSTEM_CAP, be16 (c_cap_available chassis) ++ be16 (c_cap_enabled chassis))].

Definition mgmt_tlv (m : lldpd_mgmt) : tlv :=
  (LLDP_TLV_MGMT_ADDR,
    [u8 (m_addrsize m + 1)] ++ [u8 (lldpd_af_to_lldp_proto (m_family m))] ++
    take (Z.to_nat (m_addrsize m)) (m_addr m) ++
    [u8 (if m_iface m =? 0 then LLDP_MGMT_IFACE_UNKNOWN else LLDP_MGMT_IFACE_IFINDEX)] ++
    be32 (m_iface m) ++ [u8 0]).

Definition mgmt_tlvs : list tlv :=
  when (tlv_enabled (c_lldp_tlv_mgmt_addr_enable global)) (map mgmt_tlv (c_mgmt chassis)).

Definition port_descr_tlvs : list tlv :=
  when (tlv_enabled (c_lldp_tlv_port_desc_enable global) && nonempty_str (p_descr port))
    [(LLDP_TLV_PORT_DESCR, str_bytes (p_descr port))].

Definition pvid_tlvs : list tlv :=
  when (tlv_enabled (c_lldp_tlv_port_vlanid_enable global) && negb (p_pvid port =? 0))
    [org_tlv LLDP_TLV_ORG_DOT1 LLDP_TLV_DOT1_PVID (be16 (p_pvid port))].
Definition ppvid_tlv (ppvid : lldpd_ppvid) : tlv :=
  org_tlv LLDP_TLV_ORG_DOT1 LLDP_TLV_DOT1_PPVID
    ([u8 (p_cap_status ppvid)] ++ be16 (p_ppvid ppvid)).
Definition vlan_tlv (vlan : lldpd_vlan) : tlv :=
  org_tlv LLDP_TLV_ORG_DOT1 LLDP_TLV_DOT1_VLANNAME
    (be16 (v_vid vlan) ++ [u8 (strlen (v_name vlan))] ++ cstr (v_name vlan)).
Definition pi_tlv (pi : lldpd_pi) : tlv :=
  org_tlv LLDP_TLV_ORG_DOT1 LLDP_TLV_DOT1_PI ([u8 (zlen (p_pi pi))] ++ p_pi pi).

Definition dot1_tlvs : list tlv :=
  pvid_tlvs ++
  when (tlv_enabled (c_lldp_tlv_port_proto_vlanid_enable global))
    (map ppvid_tlv (p_ppvids port)) ++
  when (tlv_enabled (c_lldp_tlv_port_vlan_name_enable global))
    (map vlan_tlv (p_vlans port)) ++
  when (tlv_enabled (c_lldp_tlv_port_proto_id_enable global))
    (map pi_tlv (p_pids port)).

Definition dot3_power_data (power : lldpd_dot3_power) : list Z :=
  [u8 (dot3_power_bits power)] ++ [u8 (pow_pairs power)] ++ [u8 (pow_class power)] ++
  when (negb (pow_powertype power =? LLDP_DOT3_POWER_8023AT_OFF))
    ([u8 (dot3_power_at_bits power)] ++
     be16 (pow_requested power) ++ be16 (pow_allocated power)).

Definition dot3_tlvs : list tlv :=
  [ org_tlv LLDP_TLV_ORG_DOT3 LLDP_TLV_DOT3_LA
      ([u8 (if p_aggregid port =? 0 then 1 else 3)] ++ be32 (p_aggregid port));
    org_tlv LLDP_TLV_ORG_DOT3 LLDP_TLV_DOT3_MAC
      ([u8 (Z.lor (autoneg_support (p_macphy port))
                  (Z.shiftl (autoneg_enabled (p_macphy port)) 1))] ++
       be16 (autoneg_advertised (p_macphy port)) ++ be16 (mau_type (p_macphy port))) ] ++
  when (negb (p_mfs port =? 0))
    [org_tlv LLDP_TLV_ORG_DOT3 LLDP_TLV_DOT3_MFS (be16 (p_mfs port))] ++
  when (negb (pow_devicetype (p_power port) =? 0))
    [org_tlv LLDP_TLV_ORG_DOT3 LLDP_TLV_DOT3_POWER (dot3_power_data (p_power port))].

Definition inventory_tlv (value : option (list Z)) (subtype : Z) : list tlv :=
  match value with
  | Some v => [org_tlv LLDP_TLV_ORG_MED subtype (take 32 (cstr v))]
  | None => []
  end.

Definition inventory_tlvs : list tlv :=
  inventory_tlv (c_med_hw chassis) LLDP_TLV_MED_IV_HW ++
  inventory_tlv (c_med_fw chassis) LLDP_TLV_MED_IV_FW ++
  inventory_tlv (c_med_sw chassis) LLDP_TLV_MED_IV_SW ++
  inventory_tlv (c_med_sn chassis) LLDP_TLV_MED_IV_SN ++
  inventory_tlv (c_med_manuf chassis) LLDP_TLV_MED_IV_MANUF ++
  inventory_tlv (c_med_model chassis) LLDP_TLV_MED_IV_MODEL ++
  inventory_tlv (c_med_asset chassis) LLDP_TLV_MED_IV_ASSET.

Definition location_tlv (loc : lldpd_med_loc) : tlv :=
  org_tlv LLDP_TLV_ORG_MED LLDP_TLV_MED_LOCATION ([u8 (loc_format loc)] ++ loc_data loc).
Definition policy_tlv (policy : lldpd_med_policy) : tlv :=
  org_tlv LLDP_TLV_ORG_MED LLDP_TLV_MED_POLICY (be32 (med_policy_bits policy)).
Definition mdi_tlvs : list tlv :=
  when ((mpow_devicetype (p_med_power port) =? LLDP_MED_POW_TYPE_PSE)
        || (mpow_devicetype (p_med_power port) =? LLDP_MED_POW_TYPE_PD))
    [org_tlv LLDP_TLV_ORG_MED LLDP_TLV_MED_MDI
      ([u8 (med_power_bits (p_med_power port))] ++ be16 (mpow_val (p_med_power port)))].

Definition med_tlvs : list tlv :=
  when (negb (p_med_cap_enabled port =? 0))
    ([org_tlv LLDP_TLV_ORG_MED LLDP_TLV_MED_CAP
        (be16 (c_med_cap_available chassis) ++ [u8 (c_med_type chassis)])] ++
     when (negb (Z.land (p_med_cap_enabled port) LLDP_MED_CAP_IV =? 0)) inventory_tlvs ++
     map location_tlv (in_slot loc_format (p_med_location port)) ++
     map policy_tlv (in_slot pol_type (p_med_policy port)) ++
     mdi_tlvs).

(** Everything a port announces, the end marker excluded. *)
Definition lldp_tlvs : list tlv :=
  mandatory_tlvs ++ system_tlvs ++ mgmt_tlvs ++ port_descr_tlvs ++
  dot1_tlvs ++ dot3_tlvs ++ med_tlvs.

Definition lldp_header : list Z :=
  LLDP_MULTICAST_ADDR ++ h_lladdr hardware ++ be16 ETHERTYPE_LLDP.

Definition lldp_bytes : list Z :=
  lldp_header ++ enc_tlvs (lldp_tlvs ++ [(LLDP_TLV_END, [])]).

(** ** Refinement *)

Lemma enc_tlvs_app l k : enc_tlvs (l ++ k) = enc_tlvs l ++ enc_tlvs k.
Proof. apply flat_map_app. Qed.

Lemma enc_tlvs_when b l : enc_tlvs (when b l) = if b then enc_tlvs l else [].
Proof. by destruct b. Qed.

Lemma enc_tlvs_one t b : enc_tlvs [(t, b)] = enc_lldp_tlv t b.
Proof. unfold enc_tlvs; cbn [flat_map fst snd]. apply app_nil_r. Qed.

Lemma enc_tlvs_map {A} (f : A → tlv) l :
  enc_tlvs (map f l) = flat_map (λ x, enc_lldp_tlv (f x).1 (f x).2) l.
Proof. unfold enc_tlvs. by rewrite flat_map_concat_map, map_map, <- flat_map_concat_map. Qed.

Lemma str32 v : take (Z.to_nat (if 32 <? strlen v then 32 else strlen v)) (cstr v)
  = take 32 (cstr v).
Proof.
  unfold strlen. destruct (Z.ltb_spec 32 (zlen (cstr v))); [done|].
  rewrite to_nat_zlen, firstn_all. rewrite take_ge; [done|]. unfold zlen in *; lia.
Qed.

Lemma emits_inventory v t : Emits (LLDP_INVENTORY v t) (enc_tlvs (inventory_tlv v t)).
Proof.
  destruct v as [v|]; cbn [LLDP_INVENTORY inventory_tlv]; [|apply _]. unfold org_tlv.
  eapply emits_eq; [apply _|]. by rewrite str32, enc_tlvs_one, <- app_assoc.
Qed.
#[local] Existing Instance emits_inventory.

(** Compare the bytes the instances computed with the specification: up to
    associativity of [++] and the shape of the conditionals and loops. *)
Ltac spec_eq :=
  repeat first [rewrite enc_tlvs_app | rewrite enc_tlvs_when | rewrite enc_tlvs_map];
  unfold when, org_tlv;
  rewrite ?enc_tlvs_one; cbn [enc_tlvs flat_map map fst snd app];
  rewrite <- ?app_assoc, ?app_nil_r;
  repeat match goal with
  | |- ?x = ?x => reflexivity
  | |- _ ++ _ = _ ++ _ => f_equal
  | |- (if ?b then _ else _) = (if ?b then _ else _) => destruct b
  | |- flat_map _ ?l = flat_map _ ?l => apply flat_map_ext; intros ?
  | |- enc_lldp_tlv ?t _ = enc_lldp_tlv ?t _ => apply f_equal; rewrite <- ?app_assoc
  end.

Lemma emits_mandatory : Emits (lldp_mandatory hardware chassis) (enc_tlvs mandatory_tlvs).
Proof. eapply emits_eq; [apply _|]. unfold mandatory_tlvs. spec_eq. Qed.

Lemma emits_system : Emits (lldp_system global chassis) (enc_tlvs system_tlvs).
Proof. eapply emits_eq; [apply _|]. unfold system_tlvs. spec_eq. Qed.

Lemma emits_mgmt_tlv m : Emits (lldp_mgmt_tlv m) (enc_lldp_tlv (mgmt_tlv m).1 (mgmt_tlv m).2).
Proof.
  eapply emits_eq; [apply _|]. cbn [mgmt_tlv fst snd]. f_equal.
  destruct (Z.eqb_spec (m_iface m) 0) as [->|]; by rewrite <- !app_assoc.
Qed.
#[local] Existing Instance emits_mgmt_tlv.

Lemma emits_mgmt : Emits (lldp_mgmt global chassis) (enc_tlvs mgmt_tlvs).
Proof. eapply emits_eq; [apply _|]. unfold mgmt_tlvs. spec_eq. Qed.

Lemma emits_port_descr : Emits (lldp_port_descr global hardware) (enc_tlvs port_descr_tlvs).
Proof. eapply emits_eq; [apply _|]. unfold port_descr_tlvs. spec_eq. Qed.

Lemma emits_dot1 : Emits (lldp_dot1 global hardware) (enc_tlvs dot1_tlvs).
Proof.
  eapply emits_eq; [apply _|]. unfold dot1_tlvs, pvid_tlvs, ppvid_tlv, vlan_tlv, pi_tlv. spec_eq.
Qed.

Lemma emits_dot3 : Emits (lldp_dot3 hardware) (enc_tlvs dot3_tlvs).
Proof. eapply emits_eq; [apply _|]. unfold dot3_tlvs, dot3_power_data. spec_eq. Qed.

Lemma emits_med : Emits (lldp_med hardware chassis) (enc_tlvs med_tlvs).
Proof.
  eapply emits_eq; [apply _|].
  unfold med_tlvs, inventory_tlvs, location_tlv, policy_tlv, mdi_tlvs. spec_eq.
Qed.
#[local] Existing Instances emits_mandatory emits_system emits_mgmt emits_port_descr
  emits_dot1 emits_dot3 emits_med.

Lemma emits_frame : Emits (lldp_frame global hardware chassis) lldp_bytes.
Proof.
  eapply emits_eq; [apply _|]. unfold lldp_bytes, lldp_header, lldp_tlvs.
  rewrite !enc_tlvs_app, enc_tlvs_one, <- !app_assoc. done.
Qed.

Lemma lldp_frame_spec :
  0 ≤ h_mtu hardware →
  poke_frame (lldp_frame global hardware chassis) (h_mtu hardware) =
    if zlen lldp_bytes <=? h_mtu hardware then Some lldp_bytes else None.
Proof. intros Hm. apply poke_frame_emits; [done|]. apply emits_frame. Qed.

(** C4: the packet [lldp_send] builds with the POKE macros is the value [lldp_bytes],
    the headers and the encoding of the announced TLVs with their lengths,
    when it fits in the MTU; the sender gives up exactly when it does not. *)
Theorem lldp_frame_correct :
  0 ≤ h_mtu hardware →
  poke_frame (lldp_frame global hardware chassis) (h_mtu hardware) =
    if zlen lldp_bytes <=? h_mtu hardware then Some lldp_bytes else None.
Proof. apply lldp_frame_spec. Qed.
End Spec.
