(* ===== verification/LldpDecode.v ===== *)
(** * Decoding LLDP frames (src/daemon/lldp.c, [lldp_decode])

    One definition per [case] of the TLV switch, the loop body
    [lldp_decode_tlv], the loop and the whole function.  The locals of the C
    function are [lldp_locals]; [addr_str_buffer] is an array of 32 cells that
    are [None] until they are written.  [frame] is the memory the frame pointer
    gives access to and [s] the number of bytes received: [lldpd_recv] passes a
    buffer of [h_mtu] bytes that may be longer than [s]. *)

From S2P Require Import Prelude Bytes Const Structs Decoder Frame LldpSend.
#[local] Open Scope Z_scope.

(** The result of the decoder of a protocol: the new chassis and port, or -1;
    [hardware] changes in both cases. *)
Inductive decode_result :=
  | Decoded (newchassis : lldpd_chassis) (newport : lldpd_port) (hardware : lldpd_hardware)
  | Discarded (hardware : lldpd_hardware)
  | Crashed (f : fault).

Record lldp_locals := {
  l_chassis : lldpd_chassis;
  l_port : lldpd_port;
  l_gotend : bool;
  l_ttl_received : bool;
  l_addr_str_buffer : list (option Z);
  l_unrecognized : Z          (** increments of [h_rx_unrecognized_cnt] *)
}.
#[global] Instance eta_lldp_locals : Settable lldp_locals := λ r,
  {| l_chassis := l_chassis r; l_port := l_port r; l_gotend := l_gotend r;
     l_ttl_received := l_ttl_received r; l_addr_str_buffer := l_addr_str_buffer r;
     l_unrecognized := l_unrecognized r |}.

Definition lldp_locals_init : lldp_locals :=
  {| l_chassis := chassis_zero; l_port := port_zero; l_gotend := false;
     l_ttl_received := false; l_addr_str_buffer := replicate 32 None; l_unrecognized := 0 |}.

Abbreviation lldp_decoder := (decoder (cursor lldp_locals)).

Definition set_chassis (f : lldpd_chassis → lldpd_chassis) : lldp_decoder unit :=
  ext_set (λ l, l<|l_chassis ::= f|>).
Definition set_port (f : lldpd_port → lldpd_port) : lldp_decoder unit :=
  ext_set (λ l, l<|l_port ::= f|>).
(** [hardware->h_rx_unrecognized_cnt++] *)
Definition rx_unrecognized : lldp_decoder unit :=
  ext_set (λ l, l<|l_unrecognized ::= λ n, n + 1|>).

(** [CHECK_TLV_SIZE(x, name)] *)
Definition CHECK_TLV_SIZE (tlv_size x : Z) : lldp_decoder unit := check (x <=? tlv_size).

Section Decode.
Context `{BuildConfig}.
Variable frame : list Z.
#[local] Abbreviation PEEK_UINT8 := (PEEK_UINT8 frame).
#[local] Abbreviation PEEK_UINT16 := (PEEK_UINT16 frame).
#[local] Abbreviation PEEK_UINT32 := (PEEK_UINT32 frame).
#[local] Abbreviation PEEK_BYTES := (PEEK_BYTES frame).

(** [memcpy(b, cos, n)] where [cos] points to the Ethernet source address. *)
Definition read_cos (n : Z) : lldp_decoder (list Z) := λ st,
  if ((0 <=? n) && (ETHER_ADDR_LEN + n <=? zlen frame))%bool
  then Ok (take (Z.to_nat n) (drop (Z.to_nat ETHER_ADDR_LEN) frame)) st
  else Fault OutOfBoundsRead.

(** [LLDP_TLV_CHASSIS_ID], [LLDP_TLV_PORT_ID] *)
Definition decode_id (tlv_type tlv_size : Z) : lldp_decoder unit :=
  CHECK_TLV_SIZE tlv_size 2;;
  tlv_subtype ← PEEK_UINT8;
  check (negb ((tlv_subtype =? 0) || (7 <? tlv_subtype)));;
  b ← PEEK_BYTES (tlv_size - 1);
  if tlv_type =? LLDP_TLV_PORT_ID then
    set_port (λ p, p<|p_id_subtype := tlv_subtype|><|p_id := Some b|>)
  else
    b ← (if ENABLE_OVSDB then read_cos (tlv_size - 1) else mret b);
    set_chassis (λ c, c<|c_id_subtype := tlv_subtype|><|c_id := Some b|>).

Definition decode_ttl (tlv_size : Z) : lldp_decoder unit :=
  CHECK_TLV_SIZE tlv_size 2;;
  ttl ← PEEK_UINT16;
  set_chassis (λ c, c<|c_ttl := ttl|>);;
  ext_set (λ l, l<|l_ttl_received := true|>).

(** [LLDP_TLV_PORT_DESCR], [LLDP_TLV_SYSTEM_NAME], [LLDP_TLV_SYSTEM_DESCR] *)
Definition decode_string (tlv_type tlv_size : Z) : lldp_decoder unit :=
  if tlv_size <? 1 then mret tt
  else
    b ← PEEK_BYTES tlv_size;
    if tlv_type =? LLDP_TLV_PORT_DESCR then set_port (λ p, p<|p_descr := Some b|>)
    else if tlv_type =? LLDP_TLV_SYSTEM_NAME then set_chassis (λ c, c<|c_name := Some b|>)
    else set_chassis (λ c, c<|c_descr := Some b|>).

Definition decode_cap (tlv_size : Z) : lldp_decoder unit :=
  CHECK_TLV_SIZE tlv_size 4;;
  available ← PEEK_UINT16;
  enabled ← PEEK_UINT16;
  set_chassis (λ c, c<|c_cap_available := available|><|c_cap_enabled := enabled|>).

(** A byte of [addr_str_buffer]. *)
Definition read_addr_buffer (i : nat) : lldp_decoder Z :=
  buf ← ext_get l_addr_str_buffer;
  match buf !! i with
  | Some (Some b) => mret b
  | _ => undefined UninitializedRead
  end.

(** [PEEK_BYTES(addr_str_buffer, n)]: the array has 32 bytes. *)
Definition peek_addr_buffer (n : Z) : lldp_decoder unit :=
  b ← PEEK_BYTES n;
  if 32 <? n then undefined BufferOverflow
  else ext_set (λ l, l<|l_addr_str_buffer ::= λ buf, map Some b ++ drop (length b) buf|>).

(** [LLDP_TLV_MGMT_ADDR] *)
Definition decode_mgmt (tlv_size : Z) : lldp_decoder unit :=
  CHECK_TLV_SIZE tlv_size 1;;
  addr_str_length ← PEEK_UINT8;
  CHECK_TLV_SIZE tlv_size addr_str_length;;
  peek_addr_buffer addr_str_length;;
  let addr_length := u8 (addr_str_length - 1) in
  addr_family ← read_addr_buffer 0;
  CHECK_TLV_SIZE tlv_size 5;;
  iface_subtype ← PEEK_UINT8;
  iface_number ← PEEK_UINT32;
  let af := lldpd_af_from_lldp_proto addr_family in
  if af =? LLDPD_AF_UNSPEC then mret tt
  else
    let iface := if iface_subtype =? LLDP_MGMT_IFACE_IFINDEX then iface_number else 0 in
    buf ← ext_get l_addr_str_buffer;
    match lldpd_alloc_mgmt af (map (default 0) (drop 1 buf)) addr_length iface with
    | inl err => assert_ (match err with ENOMEM => true | _ => false end);; malformed
    | inr mgmt => set_chassis (λ c, c<|c_mgmt ::= λ l, l ++ [mgmt]|>)
    end.

(** [LLDP_TLV_ORG], OUI of IEEE 802.1 *)
Definition decode_dot1 (tlv_subtype tlv_size : Z) : lldp_decoder unit :=
  if tlv_subtype =? LLDP_TLV_DOT1_VLANNAME then
    CHECK_TLV_SIZE tlv_size 7;;
    vid ← PEEK_UINT16;
    vlan_len ← PEEK_UINT8;
    CHECK_TLV_SIZE tlv_size (7 + vlan_len);;
    name ← PEEK_BYTES vlan_len;
    set_port (λ p, p<|p_vlans ::= λ l, l ++ [{| v_name := name; v_vid := vid |}]|>)
  else if tlv_subtype =? LLDP_TLV_DOT1_PVID then
    CHECK_TLV_SIZE tlv_size 6;;
    pvid ← PEEK_UINT16;
    set_port (λ p, p<|p_pvid := pvid|>)
  else if tlv_subtype =? LLDP_TLV_DOT1_PPVID then
    CHECK_TLV_SIZE tlv_size 7;;
    cap_status ← PEEK_UINT8;
    ppvid ← PEEK_UINT16;
    set_port (λ p, p<|p_ppvids ::= λ l,
      l ++ [{| p_cap_status := cap_status; p_ppvid := ppvid |}]|>)
  else if tlv_subtype =? LLDP_TLV_DOT1_PI then
    CHECK_TLV_SIZE tlv_size 5;;
    pi_len ← PEEK_UINT8;
    CHECK_TLV_SIZE tlv_size (1 + pi_len);;
    pi ← PEEK_BYTES pi_len;
    set_port (λ p, p<|p_pids ::= λ l, l ++ [{| p_pi := pi |}]|>)
  else rx_unrecognized.

(** [LLDP_TLV_ORG], OUI of IEEE 802.3 *)
Definition decode_dot3 (tlv_subtype tlv_size : Z) : lldp_decoder unit :=
  if tlv_subtype =? LLDP_TLV_DOT3_MAC then
    CHECK_TLV_SIZE tlv_size 9;;
    support ← PEEK_UINT8;
    advertised ← PEEK_UINT16;
    mau ← PEEK_UINT16;
    set_port (λ p, p<|p_macphy := {|
      autoneg_enabled := Z.shiftr (Z.land support 0x2) 1;
      autoneg_support := Z.land support 0x1;
      autoneg_advertised := advertised;
      mau_type := mau |}|>)
  else if tlv_subtype =? LLDP_TLV_DOT3_LA then
    CHECK_TLV_SIZE tlv_size 9;;
    PEEK_DISCARD_UINT8;;
    aggregid ← PEEK_UINT32;
    set_port (λ p, p<|p_aggregid := aggregid|>)
  else if tlv_subtype =? LLDP_TLV_DOT3_MFS then
    CHECK_TLV_SIZE tlv_size 6;;
    mfs ← PEEK_UINT16;
    set_port (λ p, p<|p_mfs := mfs|>)
  else if tlv_subtype =? LLDP_TLV_DOT3_POWER then
    CHECK_TLV_SIZE tlv_size 7;;
    devicetype ← PEEK_UINT8;
    pairs ← PEEK_UINT8;
    class ← PEEK_UINT8;
    set_port (λ p, p<|p_power ::= λ w, w
      <|pow_supported := Z.shiftr (Z.land devicetype 0x2) 1|>
      <|pow_enabled := Z.shiftr (Z.land devicetype 0x4) 2|>
      <|pow_paircontrol := Z.shiftr (Z.land devicetype 0x8) 3|>
      <|pow_devicetype := if Z.land devicetype 0x1 =? 0
                          then LLDP_DOT3_POWER_PD else LLDP_DOT3_POWER_PSE|>
      <|pow_pairs := pairs|><|pow_class := class|>|>);;
    (* 802.3at? *)
    if 12 <=? tlv_size then
      powertype ← PEEK_UINT8;
      requested ← PEEK_UINT16;
      allocated ← PEEK_UINT16;
      set_port (λ p, p<|p_power ::= λ w, w
        <|pow_source := Z.shiftr (Z.land powertype (Z.lor (Z.shiftl 1 5) (Z.shiftl 1 4))) 4|>
        <|pow_priority := Z.land powertype (Z.lor (Z.shiftl 1 1) (Z.shiftl 1 0))|>
        <|pow_powertype := if Z.land powertype (Z.shiftl 1 7) =? 0
                           then LLDP_DOT3_POWER_8023AT_TYPE2
                           else LLDP_DOT3_POWER_8023AT_TYPE1|>
        <|pow_requested := requested|><|pow_allocated := allocated|>|>)
    else
      set_port (λ p, p<|p_power ::= λ w, w<|pow_powertype := LLDP_DOT3_POWER_8023AT_OFF|>|>)
  else rx_unrecognized.

(** [port->p_med_cap_enabled |= cap] *)
Definition enable_med_cap (cap : Z) : lldp_decoder unit :=
  set_port (λ p, p<|p_med_cap_enabled ::= λ c, u16 (Z.lor c cap)|>).

Definition decode_med_policy (tlv_size : Z) : lldp_decoder unit :=
  CHECK_TLV_SIZE tlv_size 8;;
  policy ← PEEK_UINT32;
  let type := Z.shiftr policy 24 in
  if ((type <? 1) || (LLDP_MED_APPTYPE_LAST <? type))%bool then mret tt
  else
    set_port (λ p, p<|p_med_policy ::= <[Z.to_nat (type - 1) := {|
      pol_type := type;
      pol_unknown := if Z.land policy 0x800000 =? 0 then 0 else 1;
      pol_tagged := if Z.land policy 0x400000 =? 0 then 0 else 1;
      pol_vid := Z.shiftr (Z.land policy 0x001FFE00) 9;
      pol_priority := Z.shiftr (Z.land policy 0x1C0) 6;
      pol_dscp := Z.land policy 0x3F |}]> |>);;
    enable_med_cap LLDP_MED_CAP_POLICY.

Definition decode_med_location (tlv_size : Z) : lldp_decoder unit :=
  CHECK_TLV_SIZE tlv_size 5;;
  loctype ← PEEK_UINT8;
  if ((loctype <? 1) || (LLDP_MED_LOCFORMAT_LAST <? loctype))%bool then mret tt
  else
    data ← PEEK_BYTES (tlv_size - 5);
    set_port (λ p, p<|p_med_location ::= <[Z.to_nat (loctype - 1) := {|
      loc_data := data; loc_format := loctype |}]> |>);;
    enable_med_cap LLDP_MED_CAP_LOCATION.

Definition set_med_power (f : lldpd_med_power → lldpd_med_power) : lldp_decoder unit :=
  set_port (λ p, p<|p_med_power ::= f|>).

Definition decode_med_mdi (tlv_size : Z) : lldp_decoder unit :=
  CHECK_TLV_SIZE tlv_size 7;;
  power ← PEEK_UINT8;
  (if Z.land power 0xC0 =? 0x0 then
     set_med_power (λ w, w<|mpow_devicetype := LLDP_MED_POW_TYPE_PSE|>);;
     enable_med_cap LLDP_MED_CAP_MDI_PSE;;
     set_med_power (λ w, w<|mpow_source :=
       if Z.land power 0x30 =? 0x0 then LLDP_MED_POW_SOURCE_UNKNOWN
       else if Z.land power 0x30 =? 0x10 then LLDP_MED_POW_SOURCE_PRIMARY
       else if Z.land power 0x30 =? 0x20 then LLDP_MED_POW_SOURCE_BACKUP
       else LLDP_MED_POW_SOURCE_RESERVED|>)
   else if Z.land power 0xC0 =? 0x40 then
     set_med_power (λ w, w<|mpow_devicetype := LLDP_MED_POW_TYPE_PD|>);;
     enable_med_cap LLDP_MED_CAP_MDI_PD;;
     set_med_power (λ w, w<|mpow_source :=
       if Z.land power 0x30 =? 0x0 then LLDP_MED_POW_SOURCE_UNKNOWN
       else if Z.land power 0x30 =? 0x10 then LLDP_MED_POW_SOURCE_PSE
       else if Z.land power 0x30 =? 0x20 then LLDP_MED_POW_SOURCE_LOCAL
       else LLDP_MED_POW_SOURCE_BOTH|>)
   else set_med_power (λ w, w<|mpow_devicetype := LLDP_MED_POW_TYPE_RESERVED|>));;
  set_med_power (λ w, w<|mpow_priority :=
    if LLDP_MED_POW_PRIO_LOW <? Z.land power 0x0F then LLDP_MED_POW_PRIO_UNKNOWN
    else Z.land power 0x0F|>);;
  val ← PEEK_UINT16;
  set_med_power (λ w, w<|mpow_val := val|>).

(** Inventory TLVs: the string, or NULL when the TLV has no value. *)
Definition decode_med_inventory (tlv_subtype tlv_size : Z) : lldp_decoder unit :=
  b ← (if tlv_size <=? 4 then mret None
       else b ← PEEK_BYTES (tlv_size - 4); mret (Some b));
  set_chassis (λ c,
    if tlv_subtype =? LLDP_TLV_MED_IV_HW then c<|c_med_hw := b|>
    else if tlv_subtype =? LLDP_TLV_MED_IV_FW then c<|c_med_fw := b|>
    else if tlv_subtype =? LLDP_TLV_MED_IV_SW then c<|c_med_sw := b|>
    else if tlv_subtype =? LLDP_TLV_MED_IV_SN then c<|c_med_sn := b|>
    else if tlv_subtype =? LLDP_TLV_MED_IV_MANUF then c<|c_med_manuf := b|>
    else if tlv_subtype =? LLDP_TLV_MED_IV_MODEL then c<|c_med_model := b|>
    else if tlv_subtype =? LLDP_TLV_MED_IV_ASSET then c<|c_med_asset := b|>
    else c);;
  enable_med_cap LLDP_MED_CAP_IV.

(** [LLDP_TLV_ORG], OUI of TIA (LLDP-MED) *)
Definition decode_med (tlv_subtype tlv_size : Z) : lldp_decoder unit :=
  if tlv_subtype =? LLDP_TLV_MED_CAP then
    CHECK_TLV_SIZE tlv_size 7;;
    available ← PEEK_UINT16;
    type ← PEEK_UINT8;
    set_chassis (λ c, c<|c_med_cap_available := available|><|c_med_type := type|>);;
    enable_med_cap LLDP_MED_CAP_CAP
  else if tlv_subtype =? LLDP_TLV_MED_POLICY then decode_med_policy tlv_size
  else if tlv_subtype =? LLDP_TLV_MED_LOCATION then decode_med_location tlv_size
  else if tlv_subtype =? LLDP_TLV_MED_MDI then decode_med_mdi tlv_size
  else if ((LLDP_TLV_MED_IV_HW <=? tlv_subtype) && (tlv_subtype <=? LLDP_TLV_MED_IV_ASSET))%bool
  then decode_med_inventory tlv_subtype tlv_size
  else rx_unrecognized.

(** [LLDP_TLV_ORG] *)
Definition decode_org (tlv_size : Z) : lldp_decoder unit :=
  CHECK_TLV_SIZE tlv_size 4;;
  orgid ← PEEK_BYTES 3;
  tlv_subtype ← PEEK_UINT8;
  if bool_decide (orgid = LLDP_TLV_ORG_DOT1) then decode_dot1 tlv_subtype tlv_size
  else if bool_decide (orgid = LLDP_TLV_ORG_DOT3) then decode_dot3 tlv_subtype tlv_size
  else if bool_decide (orgid = LLDP_TLV_ORG_MED) then decode_med tlv_subtype tlv_size
  else (* DCBX or unknown *) rx_unrecognized.

(** The [switch (tlv_type)] *)
Definition decode_value (tlv_type tlv_size : Z) : lldp_decoder unit :=
  if tlv_type =? LLDP_TLV_END then
    check (tlv_size =? 0);; ext_set (λ l, l<|l_gotend := true|>)
  else if ((tlv_type =? LLDP_TLV_CHASSIS_ID) || (tlv_type =? LLDP_TLV_PORT_ID))%bool then
    decode_id tlv_type tlv_size
  else if tlv_type =? LLDP_TLV_TTL then decode_ttl tlv_size
  else if ((tlv_type =? LLDP_TLV_PORT_DESCR) || (tlv_type =? LLDP_TLV_SYSTEM_NAME)
           || (tlv_type =? LLDP_TLV_SYSTEM_DESCR))%bool then
    decode_string tlv_type tlv_size
  else if tlv_type =? LLDP_TLV_SYSTEM_CAP then decode_cap tlv_size
  else if tlv_type =? LLDP_TLV_MGMT_ADDR then decode_mgmt tlv_size
  else if tlv_type =? LLDP_TLV_ORG then decode_org tlv_size
  else malformed.

(** The body of the [while] *)
Definition lldp_decode_tlv : lldp_decoder unit :=
  length ← length_get;
  check (2 <=? length);;
  header ← PEEK_UINT16;
  let tlv_type := Z.shiftr header 9 in
  let tlv_size := Z.land header 0x1ff in
  tlv ← PEEK_SAVE;
  length ← length_get;
  check (tlv_size <=? length);;
  decode_value tlv_type tlv_size;;
  pos ← PEEK_SAVE;
  check (pos <=? tlv + tlv_size);;
  PEEK_DISCARD (tlv + tlv_size - pos).

Definition lldp_decode_start : lldp_decoder unit :=
  length ← length_get;
  check (2 * ETHER_ADDR_LEN + 2 <=? length);;
  same ← PEEK_CMP frame LLDP_MULTICAST_ADDR;
  check same;;
  PEEK_DISCARD ETHER_ADDR_LEN;;
  ethertype ← PEEK_UINT16;
  check (ethertype =? ETHERTYPE_LLDP).

Definition lldp_more (st : cursor lldp_locals) : bool :=
  (negb (c_length st =? 0) && negb (l_gotend (c_ext st)))%bool.

Definition lldp_decode_body (fuel : nat) : lldp_decoder unit :=
  lldp_decode_start;;
  while fuel lldp_more lldp_decode_tlv;;
  (* Some random check *)
  l ← ext_get id;
  check (bool_decide (is_Some (c_id (l_chassis l))) &&
         bool_decide (is_Some (p_id (l_port l))) &&
         l_ttl_received l && l_gotend l).

Definition add_unrecognized (hardware : lldpd_hardware) (n : Z) : lldpd_hardware :=
  hardware<|h_rx_unrecognized_cnt ::= λ c, (c + n) mod 2 ^ 64|>.

(** [lldp_decode(cfg, frame, s, hardware, &newchassis, &newport)].  Every
    iteration of the loop consumes at least two bytes: [s + 1] rounds of fuel
    are enough ([lldp_decode_terminates]). *)
Definition lldp_decode (s : Z) (hardware : lldpd_hardware) : decode_result :=
  match lldp_decode_body (S (Z.to_nat s))
          {| c_pos := 0; c_length := s; c_ext := lldp_locals_init |} with
  | Ok _ st => Decoded (l_chassis (c_ext st)) (l_port (c_ext st))
                 (add_unrecognized hardware (l_unrecognized (c_ext st)))
  | Malformed st => Discarded (add_unrecognized hardware (l_unrecognized (c_ext st)))
  | Fault f => Crashed f
  end.
End Decode.
