(* ===== verification/LldpSafe.v ===== *)
(** * Memory safety and termination of [lldp_decode]

    The loop terminates on every input.  Reads stay within the received bytes
    except in two TLVs whose size checks are too weak (management address: up
    to 6 bytes past the TLV, protocol identity: up to 4): with 6 readable bytes
    after the frame no read is out of bounds.  The management address TLV has
    three more defects, exhibited on concrete frames: the 32-byte
    [addr_str_buffer] can be overflowed, an address longer than 16 bytes makes
    [lldpd_alloc_mgmt] fail with [EOVERFLOW], which the [assert] that expects
    [ENOMEM] turns into an abort, and an empty address string makes the decoder
    read [addr_str_buffer] before it is written. *)

From S2P Require Import Keeps Prelude Bytes Const Structs Decoder Frame LldpSend LldpDecode.
#[local] Open Scope Z_scope.

Section Safe.
Context `{BuildConfig}.
Variables (frame : list Z) (s : Z) (E : fault → Prop).
Hypothesis Hbytes : bytes_ok frame.
Hypothesis Hs : s ≤ zlen frame.
Hypothesis Hoob : E OutOfBoundsRead ∨ s + 6 ≤ zlen frame.
Hypothesis Hovf : E BufferOverflow.
Hypothesis Huninit : E UninitializedRead.
Hypothesis Hassert : E AssertionFailed.

#[local] Abbreviation wps m Q := (wp m E (λ _ : cursor lldp_locals, True) Q).

(** The cursor did not move before [p] and still accounts for all bytes. *)
Definition moved (p : Z) (st : cursor lldp_locals) : Prop :=
  p ≤ c_pos st ∧ c_pos st + c_length st = s.

Lemma wps_bytes n Q st :
  0 ≤ c_pos st → 0 ≤ n → c_pos st + n ≤ s + 6 →
  (∀ b, zlen b = n → Q b (Build_cursor (c_pos st + n) (c_length st - n) (c_ext st))) →
  wps (PEEK_BYTES frame n) Q st.
Proof.
  intros Hp Hn Hle HQ. apply wp_peek_bytes; try done.
  - intros Hb. apply HQ. apply zlen_take. rewrite zlen_drop by lia. lia.
  - intros Hb. destruct Hoob; [done|lia].
Qed.

Lemma wps_uint (m : lldp_decoder Z) n Q st :
  (m = PEEK_UINT8 frame ∧ n = 1 ∨ m = PEEK_UINT16 frame ∧ n = 2 ∨
   m = PEEK_UINT32 frame ∧ n = 4) →
  0 ≤ c_pos st → c_pos st + n ≤ s + 6 →
  (∀ v, 0 ≤ v < 256 ^ n → Q v (Build_cursor (c_pos st + n) (c_length st - n) (c_ext st))) →
  wps m Q st.
Proof.
  intros Hm Hp Hle HQ. eapply wp_peek_uint; [exact Hm|done..| |].
  - intros v Hv _. by apply HQ.
  - intros Hb. destruct Hoob; [done|lia].
Qed.

Lemma wps_ext_set f Q st :
  (∀ e, Q tt (Build_cursor (c_pos st) (c_length st) e)) → wps (ext_set f) Q st.
Proof. intros HQ. apply wp_modify, HQ. Qed.

Lemma wps_discard n (Q : unit → cursor lldp_locals → Prop) st :
  Q tt (Build_cursor (c_pos st + n) (c_length st - n) (c_ext st)) →
  wps (PEEK_DISCARD n) Q st.
Proof. done. Qed.

Lemma wps_check (b : bool) Q st : (b = true → Q tt st) → wps (check b) Q st.
Proof. intros HQ. by apply wp_check. Qed.

Lemma wps_read_cos n Q st :
  0 ≤ n → ETHER_ADDR_LEN + n ≤ zlen frame → (∀ b, Q b st) → wps (read_cos frame n) Q st.
Proof.
  intros Hn Hle HQ. unfold wp, read_cos.
  destruct (Z.leb_spec 0 n), (Z.leb_spec (ETHER_ADDR_LEN + n) (zlen frame)); try lia.
  apply HQ.
Qed.

Lemma wps_read_addr_buffer i Q st : (∀ b, Q b st) → wps (read_addr_buffer i) Q st.
Proof.
  intros HQ. apply wp_bind, wp_gets.
  destruct (_ !! i) as [[b|]|]; [apply wp_ret, HQ|exact Huninit..].
Qed.

Lemma wps_peek_addr_buffer n Q st :
  0 ≤ c_pos st → 0 ≤ n → c_pos st + n ≤ s + 6 →
  (∀ e, Q tt (Build_cursor (c_pos st + n) (c_length st - n) e)) →
  wps (peek_addr_buffer frame n) Q st.
Proof.
  intros Hp Hn Hle HQ. apply wp_bind, wps_bytes; try done. intros b _.
  destruct (_ <? _); [exact Hovf|]. apply wps_ext_set, HQ.
Qed.

Lemma wps_assert_malformed b Q st : wps (assert_ b;; malformed (A:=unit)) Q st.
Proof. destruct b; [exact I|exact Hassert]. Qed.

(** One step of a decoder. *)
Ltac wps_step :=
  match goal with
  | |- wps (assert_ _;; malformed) _ _ => apply wps_assert_malformed
  | |- wps (_ ≫= _) _ _ => apply wp_bind
  | |- wps (check _) _ _ => apply wps_check; intros; bool_to_prop
  | |- wps (CHECK_TLV_SIZE _ _) _ _ => unfold CHECK_TLV_SIZE
  | |- wps (PEEK_UINT8 _) _ _ => eapply (wps_uint _ 1); [by left| | |intros]
  | |- wps (PEEK_UINT16 _) _ _ => eapply (wps_uint _ 2); [by right; left| | |intros]
  | |- wps (PEEK_UINT32 _) _ _ => eapply (wps_uint _ 4); [by right; right| | |intros]
  | |- wps (PEEK_BYTES _ _) _ _ => apply wps_bytes; [| | |intros]
  | |- wps (read_cos _ _) _ _ => apply wps_read_cos; [|unfold ETHER_ADDR_LEN|intros]
  | |- wps (peek_addr_buffer _ _) _ _ => apply wps_peek_addr_buffer; [| | |intros]
  | |- wps (read_addr_buffer _) _ _ => apply wps_read_addr_buffer; intros
  | |- wps (ext_set _) _ _ => apply wps_ext_set; intros
  | |- wps (set_port _) _ _ => apply wps_ext_set; intros
  | |- wps (set_chassis _) _ _ => apply wps_ext_set; intros
  | |- wps (enable_med_cap _) _ _ => apply wps_ext_set; intros
  | |- wps (set_med_power _) _ _ => apply wps_ext_set; intros
  | |- wps rx_unrecognized _ _ => apply wps_ext_set; intros
  | |- wps (mret _) _ _ => apply wp_ret
  | |- wps (gets _) _ _ => apply wp_gets
  | |- wps (ext_get _) _ _ => apply wp_gets
  | |- wps length_get _ _ => apply wp_gets
  | |- wps PEEK_SAVE _ _ => apply wp_gets
  | |- wps (PEEK_DISCARD _) _ _ => apply wps_discard
  | |- wps PEEK_DISCARD_UINT8 _ _ => unfold PEEK_DISCARD_UINT8
  | |- wps malformed _ _ => exact I
  | |- wps (undefined _) _ _ => exact Hovf
  | |- wps (match ?x with _ => _ end) _ _ => destruct x eqn:?; bool_to_prop
  | |- moved _ _ => unfold moved
  end; cbn [c_pos c_length c_ext].

Ltac wps_solve := repeat wps_step; try lia.

(** The state in which the value of a TLV of [n] bytes is decoded. *)
Section Value.
Variables (n : Z) (st : cursor lldp_locals).
Hypothesis Hpos : 16 ≤ c_pos st.
Hypothesis Hlen : c_pos st + c_length st = s.
Hypothesis Hn : 0 ≤ n ≤ c_length st.
#[local] Abbreviation safe m := (wps m (λ _, moved (c_pos st)) st).

Lemma safe_id ty : safe (decode_id frame ty n).
Proof. unfold decode_id. wps_solve. Qed.
Lemma safe_ttl : safe (decode_ttl frame n).
Proof. unfold decode_ttl. wps_solve. Qed.
Lemma safe_string ty : safe (decode_string frame ty n).
Proof. unfold decode_string. wps_solve. Qed.
Lemma safe_cap : safe (decode_cap frame n).
Proof. unfold decode_cap. wps_solve. Qed.
Lemma safe_mgmt : safe (decode_mgmt frame n).
Proof. unfold decode_mgmt; cbv zeta. wps_solve. Qed.
End Value.

(** The state after the OUI and the subtype of an organizational TLV. *)
Section Org.
Variables (n ty : Z) (st : cursor lldp_locals).
Hypothesis Hpos : 20 ≤ c_pos st.
Hypothesis Hlen : c_pos st + c_length st = s.
Hypothesis Hn : 4 ≤ n ≤ c_length st + 4.
#[local] Abbreviation safe m := (wps m (λ _, moved (c_pos st)) st).

Lemma safe_dot1 : safe (decode_dot1 frame ty n).
Proof. unfold decode_dot1. wps_solve. Qed.
Lemma safe_dot3 : safe (decode_dot3 frame ty n).
Proof. unfold decode_dot3. wps_solve. Qed.
Lemma safe_med_policy : safe (decode_med_policy frame n).
Proof. unfold decode_med_policy; cbv zeta. wps_solve. Qed.
Lemma safe_med_location : safe (decode_med_location frame n).
Proof. unfold decode_med_location. wps_solve. Qed.
Lemma safe_med_mdi : safe (decode_med_mdi frame n).
Proof. unfold decode_med_mdi. wps_solve. Qed.
Lemma safe_med_inventory : safe (decode_med_inventory frame ty n).
Proof. unfold decode_med_inventory. wps_solve. Qed.
Lemma safe_med : safe (decode_med frame ty n).
Proof.
  unfold decode_med. repeat case_if; try (wps_solve; fail).
  - apply safe_med_policy.
  - apply safe_med_location.
  - apply safe_med_mdi.
  - apply safe_med_inventory.
Qed.
End Org.

Lemma safe_org n st :
  16 ≤ c_pos st → c_pos st + c_length st = s → 0 ≤ n ≤ c_length st →
  wps (decode_org frame n) (λ _, moved (c_pos st)) st.
Proof.
  intros Hpos Hlen Hn. unfold decode_org. do 10 (try wps_step); try lia.
  all: match goal with
    | |- wps _ _ ?st' => apply wp_mono with (Q := λ _, moved (c_pos st'))
    end; [|unfold moved; cbn [c_pos]; intros; lia].
  - apply safe_dot1; cbn [c_pos c_length]; lia.
  - apply safe_dot3; cbn [c_pos c_length]; lia.
  - apply safe_med; cbn [c_pos c_length]; lia.
  - wps_solve.
Qed.

Lemma safe_value ty n st :
  16 ≤ c_pos st → c_pos st + c_length st = s → 0 ≤ n ≤ c_length st →
  wps (decode_value frame ty n) (λ _, moved (c_pos st)) st.
Proof.
  intros. unfold decode_value. repeat case_if; try (wps_solve; fail).
  - by apply safe_id.
  - by apply safe_ttl.
  - by apply safe_string.
  - by apply safe_cap.
  - by apply safe_mgmt.
  - by apply safe_org.
Qed.

Definition loop_inv (st : cursor lldp_locals) : Prop :=
  14 ≤ c_pos st ∧ c_pos st + c_length st = s ∧ 0 ≤ c_length st.

Lemma safe_tlv st :
  loop_inv st →
  wps (lldp_decode_tlv frame)
    (λ _ st', loop_inv st' ∧ 0 ≤ c_length st' < c_length st) st.
Proof.
  intros (Hpos & Hlen & Hl). unfold lldp_decode_tlv. do 12 (try wps_step); try lia.
  match goal with Hv : 0 ≤ ?h < 256 ^ 2 |- _ =>
    pose proof (Z.land_ones h 9 ltac:(lia)) as Hland;
    pose proof (Z.mod_pos_bound h (2 ^ 9) ltac:(lia)) as Hsz end.
  change (Z.ones 9) with 0x1ff in Hland. rewrite <- Hland in Hsz.
  apply wp_bind. eapply wp_mono; [apply safe_value; cbn [c_pos c_length]; lia|].
  intros _ st' [Hp' Hl']. cbn [c_pos] in Hp'. wps_solve.
  unfold loop_inv; cbn [c_pos c_length]. lia.
Qed.

Lemma safe_body fuel :
  0 ≤ s → s < Z.of_nat fuel →
  wps (lldp_decode_body frame fuel) (λ _ _, True)
    {| c_pos := 0; c_length := s; c_ext := lldp_locals_init |}.
Proof.
  intros Hs0 Hfuel. unfold lldp_decode_body, lldp_decode_start.
  apply wp_bind. do 3 wps_step. change (2 * ETHER_ADDR_LEN + 2) with 14 in *.
  unfold PEEK_CMP. wps_step.
  change (zlen LLDP_MULTICAST_ADDR) with 6. change ETHER_ADDR_LEN with 6.
  wps_solve.
  eapply wp_mono.
  - apply wp_while with (I := loop_inv) (μ := c_length).
    + intros st' Hst' _. by apply safe_tlv.
    + unfold loop_inv; cbn [c_pos c_length]; lia.
    + cbn [c_length]; lia.
  - intros _ st' _. wps_solve.
Qed.
End Safe.

Section Theorems.
Context `{BuildConfig}.
Implicit Types (frame : list Z) (s : Z) (hw : lldpd_hardware).

Lemma lldp_decode_crash frame s hw (E : fault → Prop) f :
  bytes_ok frame → 0 ≤ s ≤ zlen frame →
  E OutOfBoundsRead ∨ s + 6 ≤ zlen frame →
  E BufferOverflow → E UninitializedRead → E AssertionFailed →
  lldp_decode frame s hw = Crashed f → E f.
Proof.
  intros Hb [Hs0 Hs] Hoob Ho Hu Ha. unfold lldp_decode.
  pose proof (safe_body frame s E Hb Hs Hoob Ho Hu Ha (S (Z.to_nat s)) Hs0 ltac:(lia)) as Hsafe.
  unfold wp in Hsafe. destruct (lldp_decode_body _ _ _); [done..|congruence].
Qed.

(** C6: [lldp_decode] terminates on every received frame: [s + 1] iterations
    of the TLV loop are always enough, whatever the bytes are. *)
Theorem lldp_decode_terminates frame s hw :
  bytes_ok frame → 0 ≤ s ≤ zlen frame → lldp_decode frame s hw ≠ Crashed OutOfFuel.
Proof.
  intros Hb Hs Hc. by apply (lldp_decode_crash frame s hw (λ f, f ≠ OutOfFuel) _ Hb Hs) in Hc; auto.
Qed.

(** C5: on a buffer with 6 readable bytes after the received frame,
    [lldp_decode] never reads out of bounds: it decodes or discards the frame,
    or it fails in one of the three ways the management address TLV has. *)
Theorem lldp_decode_in_bounds frame s hw f :
  bytes_ok frame → 0 ≤ s → s + 6 ≤ zlen frame →
  lldp_decode frame s hw = Crashed f →
  f = BufferOverflow ∨ f = UninitializedRead ∨ f = AssertionFailed.
Proof.
  intros Hb Hs Hs6. apply (lldp_decode_crash frame s hw
    (λ f, f = BufferOverflow ∨ f = UninitializedRead ∨ f = AssertionFailed)); auto; lia.
Qed.
End Theorems.

(** ** The decoded port is not attached to a chassis

    [lldp_decode] fills a zeroed port; nothing in it sets [p_chassis], which the
    neighbor table relies on. *)

Section Detached.
Context `{BuildConfig}.
Variable frame : list Z.
#[local] Abbreviation detached := (λ l, p_chassis (l_port l) = None).

Lemma keeps_read_cos n : Keeps detached (read_cos frame n).
Proof. intros st Hst. unfold wp, read_cos. by case_if. Qed.

Lemma keeps_value ty n : Keeps detached (decode_value frame ty n).
Proof.
  unfold decode_value, decode_id, decode_ttl, decode_string, decode_cap, decode_mgmt, decode_org,
    decode_dot1, decode_dot3, decode_med, decode_med_policy, decode_med_location, decode_med_mdi,
    decode_med_inventory, CHECK_TLV_SIZE, peek_addr_buffer, read_addr_buffer, enable_med_cap,
    set_med_power, rx_unrecognized, set_port, set_chassis.
  keeps_solve; apply keeps_read_cos.
Qed.

Lemma keeps_body fuel : Keeps detached (lldp_decode_body frame fuel).
Proof.
  unfold lldp_decode_body, lldp_decode_start, lldp_decode_tlv. keeps_solve; apply keeps_value.
Qed.

Lemma lldp_decode_detached s hw c q hw' :
  lldp_decode frame s hw = Decoded c q hw' →
  p_chassis q = None ∧ ∃ n, hw' = add_unrecognized hw n.
Proof.
  unfold lldp_decode.
  pose proof (keeps_body (S (Z.to_nat s))
    {| c_pos := 0; c_length := s; c_ext := lldp_locals_init |} eq_refl) as Hk.
  unfold wp in Hk. destruct (lldp_decode_body _ _ _); intros [= <- <- <-].
  split; [done|]. by eexists.
Qed.

Lemma lldp_decode_discarded s hw hw' :
  lldp_decode frame s hw = Discarded hw' → ∃ n, hw' = add_unrecognized hw n.
Proof. unfold lldp_decode. destruct (lldp_decode_body _ _ _); intros [= <-]. by eexists. Qed.
End Detached.
