(* ===== verification/CdpSend.v ===== *)
(** * Sending CDP and FDP frames (src/daemon/cdp.c, [cdp_send])

    [version] is 1 or 2 for CDP and 0 for FDP.  [cdp_frame] is the body of
    [cdp_send] up to the [interfaces_send_helper] call, with the length and the
    checksum filled in at the end; [cdp_bytes] is the frame as a value, and
    [cdp_frame_correct] says that the two agree. *)

From S2P Require Import Prelude Bytes Const Structs Frame FramePatch Checksum Interfaces LldpSend LldpSpec.
#[local] Open Scope Z_scope.

(** "Linux", "Router", "Switch", "Bridge", "Host" *)
Definition str_Linux : list Z := [76; 105; 110; 117; 120].
Definition str_Router : list Z := [82; 111; 117; 116; 101; 114].
Definition str_Switch : list Z := [83; 119; 105; 116; 99; 104].
Definition str_Bridge : list Z := [66; 114; 105; 100; 103; 101].
Definition str_Host : list Z := [72; 111; 115; 116].

Definition has_bit (v mask : Z) : bool := negb (Z.land v mask =? 0).

Section Send.
Context `{BuildConfig}.
#[local] Open Scope poke_scope.
Variables (global : lldpd_config) (hardware : lldpd_hardware) (chassis : lldpd_chassis).
Variable version : Z.
#[local] Abbreviation port := (h_lport hardware).

Definition cdp_mcastaddr : list Z :=
  if version =? 0 then FDP_MULTICAST_ADDR else CDP_MULTICAST_ADDR.
Definition cdp_llcorg : list Z :=
  if version =? 0 then LLC_ORG_FOUNDRY else LLC_ORG_CISCO.

Definition cdp_llc : poke :=
  POKE_UINT8 0xaa && POKE_UINT8 0xaa && POKE_UINT8 0x03 &&
  POKE_BYTES cdp_llcorg && POKE_UINT16 LLC_PID_CDP.

Definition is_ipv4 (mgmt : lldpd_mgmt) : bool := m_family mgmt =? LLDPD_AF_IPV4.
Definition cdp_address (mgmt : lldpd_mgmt) : poke :=
  poke_when (is_ipv4 mgmt)
    (POKE_UINT8 1 && POKE_UINT8 1 && POKE_UINT8 CDP_ADDRESS_PROTO_IP &&
     POKE_UINT16 4 && POKE_BYTES (take 4 (m_addr mgmt))).
Definition cdp_addresses : poke :=
  let i := zlen (filter (λ m, is_ipv4 m = true) (c_mgmt chassis)) in
  poke_when (0 <? i)
    (CDP_TLV CDP_TLV_ADDRESSES (POKE_UINT32 i && poke_each cdp_address (c_mgmt chassis))).

(** The capabilities, as an integer (CDP) or as a string (FDP). *)
Definition cdp_cap : Z :=
  Z.lor (Z.lor (if has_bit (c_cap_enabled chassis) LLDP_CAP_ROUTER then CDP_CAP_ROUTER else 0)
               (if has_bit (c_cap_enabled chassis) LLDP_CAP_BRIDGE then CDP_CAP_SWITCH else 0))
        CDP_CAP_HOST.
Definition fdp_capstr : list Z :=
  if has_bit (c_cap_enabled chassis) LLDP_CAP_ROUTER then str_Router
  else if has_bit (c_cap_enabled chassis) LLDP_CAP_BRIDGE then str_Switch
  else if has_bit (c_cap_enabled chassis) LLDP_CAP_REPEATER then str_Bridge
  else str_Host.

Definition cdp_platform : list Z :=
  match c_platform global with Some p => cstr p | None => str_Linux end.

Definition cdp_power_val : Z := mpow_val (p_med_power port).

Definition cdp_body : poke :=
  CDP_TLV CDP_TLV_CHASSIS (POKE_BYTES (str_bytes (c_name chassis))) &&
  cdp_addresses &&
  CDP_TLV CDP_TLV_PORT (POKE_BYTES (str_bytes (p_descr port))) &&
  (if negb (version =? 0)
   then CDP_TLV CDP_TLV_CAPABILITIES (POKE_UINT32 cdp_cap)
   else CDP_TLV CDP_TLV_CAPABILITIES (POKE_BYTES fdp_capstr)) &&
  poke_when ((2 <=? version) && negb (p_pvid port =? 0))
    (CDP_TLV CDP_TLV_NATIVEVLAN (POKE_UINT16 (p_pvid port))) &&
  CDP_TLV CDP_TLV_SOFTWARE (POKE_BYTES (str_bytes (c_descr chassis))) &&
  CDP_TLV CDP_TLV_PLATFORM (POKE_BYTES cdp_platform) &&
  poke_when ((2 <=? version) && negb (p_med_cap_enabled port =? 0) &&
             negb (mpow_source (p_med_power port) =? LLDP_MED_POW_SOURCE_LOCAL) &&
             (0 <? cdp_power_val) && (cdp_power_val <=? 655))
    (CDP_TLV CDP_TLV_POWER_CONSUMPTION (POKE_UINT16 (cdp_power_val * 100))).

Definition cdp_frame (mtu : Z) : option (list Z) :=
  (* Ethernet header *)
  st ← (POKE_BYTES cdp_mcastaddr && POKE_BYTES (h_lladdr hardware)) (pkt_init mtu);
  let pos_len_eh := pk_pos st in
  st ← POKE_UINT16 0 st;
  (* LLC *)
  let pos_llc := pk_pos st in
  st ← cdp_llc st;
  (* CDP header *)
  let pos_cdp := pk_pos st in
  st ← (POKE_UINT8 (if version =? 0 then 1 else version) && POKE_UINT8 (c_ttl chassis)) st;
  let pos_checksum := pk_pos st in
  st ← POKE_UINT16 0 st;
  st ← cdp_body st;
  let end_ := pk_pos st in
  (* Compute len and checksum *)
  st ← (POKE_RESTORE pos_len_eh && POKE_UINT16 (end_ - pos_llc)) st;
  let checksum := frame_checksum (pkt_sub st pos_cdp (end_ - pos_cdp)) (negb (version =? 0)) in
  st ← (POKE_RESTORE pos_checksum && POKE_UINT16 (ntohs checksum)) st;
  Some (pkt_upto st end_).

(** [cdp_send]; -1 when the frame is too big. *)
Definition cdp_send (h_ops_send : list Z → Z) : Z * lldpd_hardware * option (list Z) :=
  match cdp_frame (h_mtu hardware) with
  | None => (-1, hardware, None)
  | Some packet =>
      let '(rc, packet) := interfaces_send_helper global hardware h_ops_send packet in
      if rc =? -1 then (ENETDOWN, hardware, Some packet)
      else (0, hardware<|h_tx_cnt ::= λ n, (n + 1) mod 2 ^ 64|>, Some packet)
  end.

(** ** The frame as a value *)

Definition cdp_address_bytes (mgmt : lldpd_mgmt) : list Z :=
  if is_ipv4 mgmt then [1; 1; CDP_ADDRESS_PROTO_IP] ++ be16 4 ++ take 4 (m_addr mgmt) else [].

Definition cdp_tlvs : list (Z * list Z) :=
  let i := zlen (filter (λ m, is_ipv4 m = true) (c_mgmt chassis)) in
  [(CDP_TLV_CHASSIS, str_bytes (c_name chassis))] ++
  (if 0 <? i then [(CDP_TLV_ADDRESSES, be32 i ++ flat_map cdp_address_bytes (c_mgmt chassis))]
   else []) ++
  [(CDP_TLV_PORT, str_bytes (p_descr port));
   (CDP_TLV_CAPABILITIES, if version =? 0 then fdp_capstr else be32 cdp_cap)] ++
  (if ((2 <=? version) && negb (p_pvid port =? 0))%bool
   then [(CDP_TLV_NATIVEVLAN, be16 (p_pvid port))] else []) ++
  [(CDP_TLV_SOFTWARE, str_bytes (c_descr chassis)); (CDP_TLV_PLATFORM, cdp_platform)] ++
  (if ((2 <=? version) && negb (p_med_cap_enabled port =? 0) &&
       negb (mpow_source (p_med_power port) =? LLDP_MED_POW_SOURCE_LOCAL) &&
       (0 <? cdp_power_val) && (cdp_power_val <=? 655))%bool
   then [(CDP_TLV_POWER_CONSUMPTION, be16 (cdp_power_val * 100))] else []).

Definition enc_cdp_tlvs (l : list (Z * list Z)) : list Z := flat_map (λ t, enc_cdp_tlv t.1 t.2) l.

Definition cdp_header : list Z :=
  [u8 (if version =? 0 then 1 else version); u8 (c_ttl chassis)].
(** The CDP payload with a given checksum field. *)
Definition cdp_payload (cksum : Z) : list Z := cdp_header ++ be16 cksum ++ enc_cdp_tlvs cdp_tlvs.
Definition cdp_checksum : Z := ntohs (frame_checksum (cdp_payload 0) (negb (version =? 0))).
Definition cdp_llc_bytes : list Z := [0xaa; 0xaa; 0x03] ++ cdp_llcorg ++ be16 LLC_PID_CDP.
Definition cdp_bytes : list Z :=
  cdp_mcastaddr ++ h_lladdr hardware ++ be16 (8 + zlen (cdp_payload 0)) ++
  cdp_llc_bytes ++ cdp_payload cdp_checksum.

(** ** Correctness *)

Instance emits_address mgmt : Writes (cdp_address mgmt) (cdp_address_bytes mgmt).
Proof.
  intros st Hok. assert (Writes (cdp_address mgmt) (if is_ipv4 mgmt then
    ((([u8 1] ++ [u8 1]) ++ [u8 CDP_ADDRESS_PROTO_IP]) ++ be16 4) ++ take 4 (m_addr mgmt) else []))
    as Hw by apply _.
  rewrite (Hw st Hok). unfold cdp_address_bytes. by destruct (is_ipv4 mgmt).
Qed.

Lemma emits_cdp_body : Emits cdp_body (enc_cdp_tlvs cdp_tlvs).
Proof.
  unfold cdp_body, cdp_addresses. cbv zeta. eapply emits_eq; [apply _|].
  unfold cdp_tlvs, enc_cdp_tlvs. cbv zeta.
  rewrite !flat_map_app. cbn [flat_map fst snd].
  destruct (version =? 0); cbn [negb]; repeat case_if; cbn [flat_map fst snd app];
    rewrite ?app_nil_r, <- ?app_assoc; done.
Qed.

Lemma cdp_payload_zlen cksum : zlen (cdp_payload cksum) = zlen (cdp_payload 0).
Proof. unfold cdp_payload. by rewrite !zlen_app. Qed.

Lemma cdp_bytes_zlen :
  zlen cdp_bytes = zlen cdp_mcastaddr + zlen (h_lladdr hardware) + 10 + zlen (cdp_payload 0).
Proof.
  unfold cdp_bytes. rewrite !zlen_app, (cdp_payload_zlen cdp_checksum), be16_zlen.
  assert (zlen cdp_llc_bytes = 8) as -> by (unfold cdp_llc_bytes, cdp_llcorg; by case_if). lia.
Qed.

Lemma cdp_llc_zlen : zlen cdp_llc_bytes = 8.
Proof. unfold cdp_llc_bytes, cdp_llcorg. by case_if. Qed.

Lemma emits_cdp_llc : Emits cdp_llc cdp_llc_bytes.
Proof. eapply emits_eq; [apply _|]. unfold cdp_llc_bytes. by rewrite <- !app_assoc. Qed.

Lemma emits_cdp_header :
  Emits (POKE_UINT8 (if version =? 0 then 1 else version) && POKE_UINT8 (c_ttl chassis)) cdp_header.
Proof. eapply emits_eq; [apply _|done]. Qed.

(** Filling in the length and the checksum of a complete packet. *)
Lemma cdp_patch mtu st :
  let a := cdp_mcastaddr ++ h_lladdr hardware in
  let pre := a ++ be16 0 ++ cdp_llc_bytes in
  packet mtu st (pre ++ cdp_payload 0) →
  (st ← (POKE_RESTORE (zlen a) && POKE_UINT16 (8 + zlen (cdp_payload 0))) st;
   let checksum := frame_checksum (pkt_sub st (zlen pre) (zlen (cdp_payload 0))) (negb (version =? 0)) in
   st ← (POKE_RESTORE (zlen pre + 2) && POKE_UINT16 (ntohs checksum)) st;
   Some (pkt_upto st (zlen cdp_bytes))) = Some cdp_bytes.
Proof.
  intros a pre Hp. subst pre. unfold POKE_UINT16. rewrite <- !app_assoc in Hp. subst a.
  set (a := cdp_mcastaddr ++ h_lladdr hardware) in *.
  destruct (patch_bytes mtu st a (be16 0) (cdp_llc_bytes ++ cdp_payload 0)
    (be16 (8 + zlen (cdp_payload 0)))) as (st1 & -> & Hp1); [done|done|].
  cbn [mbind option_bind].
  set (b := a ++ be16 (8 + zlen (cdp_payload 0)) ++ cdp_llc_bytes).
  assert (zlen (a ++ be16 0 ++ cdp_llc_bytes) = zlen b) as ->
    by (unfold b; by rewrite !zlen_app, !be16_zlen).
  rewrite (packet_sub mtu st1 b (cdp_payload 0)) by (unfold b; by rewrite <- !app_assoc).
  replace (zlen b + 2) with (zlen (b ++ cdp_header)) by (rewrite zlen_app; done).
  destruct (patch_bytes mtu st1 (b ++ cdp_header) (be16 0) (enc_cdp_tlvs cdp_tlvs)
    (be16 cdp_checksum)) as (st2 & Hs2 & Hp2); [|done|].
  { unfold b. rewrite <- !app_assoc. exact Hp1. }
  unfold cdp_checksum in Hs2. rewrite Hs2. cbn [mbind option_bind].
  assert ((b ++ cdp_header) ++ be16 cdp_checksum ++ enc_cdp_tlvs cdp_tlvs = cdp_bytes) as Heq
    by (unfold b, a, cdp_bytes, cdp_payload; by rewrite <- !app_assoc).
  rewrite Heq in Hp2. by rewrite (packet_upto _ _ _ Hp2).
Qed.

Lemma cdp_frame_spec mtu :
  0 ≤ mtu → cdp_frame mtu = if zlen cdp_bytes <=? mtu then Some cdp_bytes else None.
Proof.
  intros Hm. unfold cdp_frame. pose proof cdp_bytes_zlen as Hz. pose proof cdp_llc_zlen as Hllc.
  assert (zlen (cdp_payload 0) = 4 + zlen (enc_cdp_tlvs cdp_tlvs)) as Hpl
    by (unfold cdp_payload; rewrite !zlen_app, be16_zlen; change (zlen cdp_header) with 2; lia).
  assert (zlen cdp_header = 2) as Hhd by done.
  pose proof (zlen_nonneg cdp_mcastaddr). pose proof (zlen_nonneg (h_lladdr hardware)).
  pose proof (zlen_nonneg (enc_cdp_tlvs cdp_tlvs)). pose proof (holds_init mtu Hm) as Hst0.
  fits (_ : Emits (POKE_BYTES cdp_mcastaddr && POKE_BYTES (h_lladdr hardware))
                  (cdp_mcastaddr ++ h_lladdr hardware)); [|rewrite zlen_nil in *; lia].
  fits (writes_emits _ _ (writes_uint16 0)); [|lia].
  fits emits_cdp_llc; [|lia].
  fits emits_cdp_header; [|lia].
  fits (writes_emits _ _ (writes_uint16 0)); [|lia].
  fits emits_cdp_body; [|lia].
  destruct Hst as [_ Hp], Hst1 as [_ Hp1], Hst2 as [_ Hp2], Hst3 as [_ Hp3], Hst5 as [Hpk Hp5].
  rewrite Hp, Hp1, Hp2, Hp3, Hp5. set (total := zlen (_ ++ enc_cdp_tlvs cdp_tlvs)).
  assert (total = zlen cdp_bytes) as Ht by (unfold total; rewrite !zlen_app, !be16_zlen in *; lia).
  assert (total ≤ mtu) as Hle.
  { destruct Hpk as [_ _ (rest & _ & Hr)]. rewrite zlen_app in Hr. pose proof (zlen_nonneg rest).
    unfold total. lia. }
  rewrite (proj2 (Z.leb_le _ _)) by lia.
  set (a := cdp_mcastaddr ++ h_lladdr hardware) in *.
  assert (zlen a = zlen cdp_mcastaddr + zlen (h_lladdr hardware)) as Ha by apply zlen_app.
  assert (total - zlen (a ++ be16 0) = 8 + zlen (cdp_payload 0)) as ->
    by (rewrite zlen_app, be16_zlen; lia).
  assert (total - zlen ((a ++ be16 0) ++ cdp_llc_bytes) = zlen (cdp_payload 0)) as ->
    by (rewrite !zlen_app, be16_zlen; lia).
  rewrite (zlen_app _ cdp_header), Hhd, Ht, <- !(app_assoc a).
  apply (cdp_patch mtu). fold a. unfold cdp_payload. rewrite <- !app_assoc in Hpk.
  rewrite <- !(app_assoc a), <- !(app_assoc (be16 0)). exact Hpk.
Qed.

(** C32: the packet [cdp_send] builds is the value [cdp_bytes] (header, length,
    checksum and the encoding of the TLVs) when it fits in the MTU, and the
    sender gives up exactly when it does not. *)
Theorem cdp_frame_correct mtu :
  0 ≤ mtu → cdp_frame mtu = if zlen cdp_bytes <=? mtu then Some cdp_bytes else None.
Proof. apply cdp_frame_spec. Qed.

(** The receiver of a CDP or FDP frame that checks the checksum, as the
    protocol asks, accepts it: the checksum of the payload with its checksum
    field is 0, in the Cisco variant and in the standard one, on hosts of both
    byte orders. *)
Theorem cdp_checksum_valid :
  bytes_ok (enc_cdp_tlvs cdp_tlvs) → zlen (enc_cdp_tlvs cdp_tlvs) ≤ 131000 →
  frame_checksum (cdp_payload cdp_checksum) (negb (version =? 0)) = 0.
Proof.
  intros Hb Hl. apply checksum_self; [|done|done|change (zlen cdp_header) with 2; lia].
  repeat constructor; apply u8_bounds.
Qed.
End Send.

Section Versions.
Context `{BuildConfig}.
Variables (global : lldpd_config) (hardware : lldpd_hardware) (chassis : lldpd_chassis).
Variable h_ops_send : list Z → Z.

Definition cdpv1_send : Z * lldpd_hardware * option (list Z) :=
  cdp_send global hardware chassis 1 h_ops_send.
Definition cdpv2_send : Z * lldpd_hardware * option (list Z) :=
  cdp_send global hardware chassis 2 h_ops_send.
Definition fdp_send : Z * lldpd_hardware * option (list Z) :=
  cdp_send global hardware chassis 0 h_ops_send.
End Versions.
