(* ===== verification/CdpDecode.v ===== *)
(** * Decoding CDP and FDP frames (src/daemon/cdp.c, [cdp_decode], [cdp_guess])

    One definition per [case] of the TLV switch, the loop over the addresses of
    an address TLV, the main loop and the whole function, as in LldpDecode. *)

From S2P Require Import Keeps Prelude Bytes Const Structs Decoder Frame LldpSend LldpDecode CdpSend.
#[local] Open Scope Z_scope.

Record cdp_locals := {
  k_chassis : lldpd_chassis;
  k_port : lldpd_port;
  k_software : option (Z * Z);    (** position and length, when not NULL *)
  k_platform : option (Z * Z);
  k_fdp : bool;
  k_unrecognized : Z
}.
#[global] Instance eta_cdp_locals : Settable cdp_locals := λ r,
  {| k_chassis := k_chassis r; k_port := k_port r; k_software := k_software r;
     k_platform := k_platform r; k_fdp := k_fdp r; k_unrecognized := k_unrecognized r |}.
Definition cdp_locals_init : cdp_locals :=
  {| k_chassis := chassis_zero; k_port := port_zero; k_software := None; k_platform := None;
     k_fdp := false; k_unrecognized := 0 |}.

Abbreviation cdp_decoder := (decoder (cursor cdp_locals)).

Definition cdp_set_chassis (f : lldpd_chassis → lldpd_chassis) : cdp_decoder unit :=
  ext_set (λ l, l<|k_chassis ::= f|>).
Definition cdp_set_port (f : lldpd_port → lldpd_port) : cdp_decoder unit :=
  ext_set (λ l, l<|k_port ::= f|>).

(** An [u_int32_t] stored in an [int]. *)
Definition to_int (v : Z) : Z := if v <? 2 ^ 31 then v else v - 2 ^ 32.

(** "VLAN #", " running on\n" *)
Definition str_VLAN : list Z := [86; 76; 65; 78; 32; 35].
Definition CONCAT_PLATFORM : list Z := [32; 114; 117; 110; 110; 105; 110; 103; 32; 111; 110; 10].

Section Decode.
Variable frame : list Z.
#[local] Abbreviation PEEK_UINT8 := (PEEK_UINT8 frame).
#[local] Abbreviation PEEK_UINT16 := (PEEK_UINT16 frame).
#[local] Abbreviation PEEK_UINT32 := (PEEK_UINT32 frame).
#[local] Abbreviation PEEK_BYTES := (PEEK_BYTES frame).
#[local] Abbreviation read_at := (read_at frame).

Definition cdp_check (tlv_len x : Z) : cdp_decoder unit := check (x <=? tlv_len).

Definition cdp_decode_chassis (tlv_len : Z) : cdp_decoder unit :=
  name ← PEEK_BYTES tlv_len;
  cdp_set_chassis (λ c, c<|c_name := Some name|>
    <|c_id_subtype := LLDP_CHASSISID_SUBTYPE_LOCAL|><|c_id := Some name|>).

(** [(PEEK_UINT8 == 1) && (PEEK_UINT8 == 1) && (PEEK_UINT8 == CDP_ADDRESS_PROTO_IP)
    && (PEEK_UINT16 == sizeof(struct in_addr))] *)
Definition cdp_is_ipv4 : cdp_decoder bool :=
  a ← PEEK_UINT8;
  if negb (a =? 1) then mret false
  else
    b ← PEEK_UINT8;
    if negb (b =? 1) then mret false
    else
      c ← PEEK_UINT8;
      if negb (c =? CDP_ADDRESS_PROTO_IP) then mret false
      else
        d ← PEEK_UINT16;
        mret (d =? 4).

(** One iteration of the [for] over the addresses; returns [addresses_len]. *)
Definition cdp_decode_address (addresses_len : Z) : cdp_decoder Z :=
  pos_address ← PEEK_SAVE;
  check (2 <=? addresses_len);;
  PEEK_DISCARD_UINT8;;
  address_len ← PEEK_UINT8;
  let addresses_len := addresses_len - 2 in
  check (address_len + 2 <=? addresses_len);;
  PEEK_DISCARD address_len;;
  let addresses_len := addresses_len - address_len in
  address_len ← PEEK_UINT16;
  let addresses_len := addresses_len - 2 in
  check (address_len <=? addresses_len);;
  PEEK_DISCARD address_len;;
  pos_next_address ← PEEK_SAVE;
  (* Next, we go back and try to extract IPv4 address *)
  PEEK_RESTORE pos_address;;
  ipv4 ← cdp_is_ipv4;
  (if (ipv4 : bool) then
     addr ← PEEK_BYTES 4;
     match lldpd_alloc_mgmt LLDPD_AF_IPV4 addr 4 0 with
     | inl err => assert_ (match err with ENOMEM => true | _ => false end);; malformed
     | inr mgmt => cdp_set_chassis (λ c, c<|c_mgmt ::= λ l, l ++ [mgmt]|>)
     end
   else mret tt);;
  PEEK_RESTORE pos_next_address;;
  mret addresses_len.

Fixpoint cdp_decode_addresses (fuel : nat) (nb addresses_len : Z) : cdp_decoder unit :=
  match fuel with
  | O => undefined OutOfFuel
  | S fuel' =>
      if 0 <? nb then
        addresses_len ← cdp_decode_address addresses_len;
        cdp_decode_addresses fuel' (nb - 1) addresses_len
      else mret tt
  end.

Definition cdp_decode_port (tlv_len : Z) : cdp_decoder unit :=
  check (negb (tlv_len =? 0));;
  descr ← PEEK_BYTES tlv_len;
  cdp_set_port (λ p, p<|p_descr := Some descr|>
    <|p_id_subtype := LLDP_PORTID_SUBTYPE_IFNAME|><|p_id := Some descr|>).

Definition fdp_cap (s : list Z) (n : nat) : Z :=
  if strncmp_eq str_Router s n then LLDP_CAP_ROUTER
  else if strncmp_eq str_Switch s n then LLDP_CAP_BRIDGE
  else if strncmp_eq str_Bridge s n then LLDP_CAP_REPEATER
  else LLDP_CAP_STATION.

Definition cdp_cap_enabled (enabled caps : Z) : Z :=
  let enabled := if has_bit caps CDP_CAP_ROUTER then Z.lor enabled LLDP_CAP_ROUTER else enabled in
  let enabled := if has_bit caps 0x0e then Z.lor enabled LLDP_CAP_BRIDGE else enabled in
  if enabled =? 0 then LLDP_CAP_STATION else enabled.

Definition cdp_decode_capabilities (tlv_len : Z) : cdp_decoder unit :=
  fdp ← ext_get k_fdp;
  if (fdp : bool) then
    pos ← PEEK_SAVE;
    s ← read_at pos tlv_len;
    let cap := fdp_cap s (Z.to_nat tlv_len) in
    cdp_set_chassis (λ c, c<|c_cap_enabled := cap|><|c_cap_available := cap|>)
  else
    cdp_check tlv_len 4;;
    caps ← PEEK_UINT32;
    cdp_set_chassis (λ c,
      let enabled := cdp_cap_enabled (c_cap_enabled c) caps in
      c<|c_cap_enabled := enabled|><|c_cap_available := enabled|>).

Definition cdp_decode_vlan (tlv_len : Z) : cdp_decoder unit :=
  cdp_check tlv_len 2;;
  vid ← PEEK_UINT16;
  cdp_set_port (λ p, p<|p_pvid := vid|>
    <|p_vlans ::= λ l, l ++ [{| v_name := str_VLAN ++ decimal vid; v_vid := vid |}]|>).

Definition cdp_decode_value (tlv_type tlv_len : Z) : cdp_decoder unit :=
  if tlv_type =? CDP_TLV_CHASSIS then cdp_decode_chassis tlv_len
  else if tlv_type =? CDP_TLV_ADDRESSES then
    cdp_check tlv_len 4;;
    nb ← PEEK_UINT32;
    cdp_decode_addresses (S (Z.to_nat tlv_len)) (to_int nb) (tlv_len - 4)
  else if tlv_type =? CDP_TLV_PORT then cdp_decode_port tlv_len
  else if tlv_type =? CDP_TLV_CAPABILITIES then cdp_decode_capabilities tlv_len
  else if tlv_type =? CDP_TLV_SOFTWARE then
    pos ← PEEK_SAVE;
    ext_set (λ l, l<|k_software := Some (pos, tlv_len)|>)
  else if tlv_type =? CDP_TLV_PLATFORM then
    pos ← PEEK_SAVE;
    ext_set (λ l, l<|k_platform := Some (pos, tlv_len)|>)
  else if tlv_type =? CDP_TLV_NATIVEVLAN then cdp_decode_vlan tlv_len
  else ext_set (λ l, l<|k_unrecognized ::= λ n, n + 1|>).

Definition cdp_decode_tlv : cdp_decoder unit :=
  length ← length_get;
  check (4 <=? length);;
  tlv_type ← PEEK_UINT16;
  tlv_len ← PEEK_UINT16;
  let tlv_len := tlv_len - 4 in
  tlv ← PEEK_SAVE;
  length ← length_get;
  check (negb ((tlv_len <? 0) || (length <? tlv_len)));;
  cdp_decode_value tlv_type tlv_len;;
  pos ← PEEK_SAVE;
  PEEK_DISCARD (tlv + tlv_len - pos).

Definition cdp_decode_start : cdp_decoder unit :=
  length ← length_get;
  check (2 * ETHER_ADDR_LEN + 2 + 8 + 4 <=? length);;
  same ← PEEK_CMP frame CDP_MULTICAST_ADDR;
  (if (same : bool) then mret tt
   else
     PEEK_RESTORE 0;;
     (* [fdpaddr] is initialised with the CDP address *)
     same ← PEEK_CMP frame CDP_MULTICAST_ADDR;
     if (same : bool) then malformed
     else ext_set (λ l, l<|k_fdp := true|>));;
  PEEK_DISCARD ETHER_ADDR_LEN;;
  len_eth ← PEEK_UINT16;
  length ← length_get;
  check (len_eth <=? length);;
  PEEK_DISCARD 6;;
  proto ← PEEK_UINT16;
  check (proto =? LLC_PID_CDP);;
  version ← PEEK_UINT8;
  check ((version =? 1) || (version =? 2));;
  ttl ← PEEK_UINT8;
  cdp_set_chassis (λ c, c<|c_ttl := ttl|>);;
  PEEK_DISCARD_UINT16.

(** The description from the software and the platform TLVs. *)
Definition cdp_description : cdp_decoder unit :=
  software ← ext_get k_software;
  platform ← ext_get k_platform;
  match software, platform with
  | None, Some (p, n) =>
      b ← read_at p n; cdp_set_chassis (λ c, c<|c_descr := Some b|>)
  | Some (p, n), None =>
      b ← read_at p n; cdp_set_chassis (λ c, c<|c_descr := Some b|>)
  | Some (sp, sn), Some (pp, pn) =>
      b ← read_at pp pn;
      s ← read_at sp sn;
      cdp_set_chassis (λ c, c<|c_descr := Some (b ++ CONCAT_PLATFORM ++ s)|>)
  | None, None => mret tt
  end.

Definition cdp_more (st : cursor cdp_locals) : bool := negb (c_length st =? 0).

Definition cdp_mandatory (l : cdp_locals) : bool :=
  (bool_decide (is_Some (c_id (k_chassis l))) && bool_decide (is_Some (p_id (k_port l))) &&
   bool_decide (is_Some (c_name (k_chassis l))) && bool_decide (is_Some (c_descr (k_chassis l))) &&
   bool_decide (is_Some (p_descr (k_port l))) && negb (c_ttl (k_chassis l) =? 0) &&
   negb (c_cap_enabled (k_chassis l) =? 0))%bool.

Definition cdp_decode_body (fuel : nat) : cdp_decoder unit :=
  cdp_decode_start;;
  while fuel cdp_more cdp_decode_tlv;;
  cdp_description;;
  l ← ext_get id;
  check (cdp_mandatory l).

(** [cdp_decode] *)
Definition cdp_decode (s : Z) (hardware : lldpd_hardware) : decode_result :=
  match cdp_decode_body (S (Z.to_nat s))
          {| c_pos := 0; c_length := s; c_ext := cdp_locals_init |} with
  | Ok _ st => Decoded (k_chassis (c_ext st)) (k_port (c_ext st))
                 (add_unrecognized hardware (k_unrecognized (c_ext st)))
  | Malformed st => Discarded (add_unrecognized hardware (k_unrecognized (c_ext st)))
  | Fault f => Crashed f
  end.

(** [cdp_guess] *)
Definition cdp_guess_body (version : Z) : decoder (cursor unit) bool :=
  length ← length_get;
  if length <? 2 * ETHER_ADDR_LEN + 2 + 8 + 4 then mret false
  else
    same ← PEEK_CMP frame CDP_MULTICAST_ADDR;
    if negb same then mret false
    else
      PEEK_DISCARD ETHER_ADDR_LEN;;
      PEEK_DISCARD_UINT16;;
      PEEK_DISCARD 8;;
      v ← PEEK_UINT8;
      mret (v =? version).
Definition cdp_guess (s version : Z) : bool :=
  match cdp_guess_body version {| c_pos := 0; c_length := s; c_ext := tt |} with
  | Ok b _ => b
  | _ => false
  end.
Definition cdpv1_guess (len : Z) : bool := cdp_guess len 1.
Definition cdpv2_guess (len : Z) : bool := cdp_guess len 2.
End Decode.

(** [cdp_guess] never reads out of bounds. *)
Lemma cdp_guess_safe frame s version :
  s ≤ zlen frame →
  wp (cdp_guess_body frame version) (λ _, False) (λ _, False) (λ _ _, True)
     {| c_pos := 0; c_length := s; c_ext := tt |}.
Proof.
  intros Hs. apply wp_bind, wp_gets. cbn [c_length].
  destruct (Z.ltb_spec s (2 * ETHER_ADDR_LEN + 2 + 8 + 4)) as [|Hge]; [by apply wp_ret|].
  unfold ETHER_ADDR_LEN in Hge.
  apply wp_bind, wp_bind, wp_peek_bytes; cbn [c_pos]; [done|done| |].
  - intros _. apply wp_ret. destruct (bool_decide _); [|by apply wp_ret].
    cbn [negb]. apply wp_bind, wp_modify, wp_bind, wp_modify, wp_bind, wp_modify.
    apply wp_bind, wp_bind, wp_peek_bytes; cbn [c_pos c_length c_ext];
      change (zlen CDP_MULTICAST_ADDR) with 6; unfold ETHER_ADDR_LEN; [done|done| |lia].
    intros _. by do 2 apply wp_ret.
  - change (zlen CDP_MULTICAST_ADDR) with 6. lia.
Qed.

(** ** Termination *)

Section Safe.
Variables (frame : list Z) (s : Z) (E : fault → Prop).
Hypothesis Hbytes : bytes_ok frame.
Hypothesis Hoob : E OutOfBoundsRead.
Hypothesis Hassert : E AssertionFailed.
#[local] Abbreviation wps m Q := (wp m E (λ _ : cursor cdp_locals, True) Q).

(** Position and remaining length always account for the whole frame. *)
Definition aligned (st : cursor cdp_locals) : Prop := c_pos st + c_length st = s.

#[local] Abbreviation keep m := (∀ st, aligned st → wps m (λ _, aligned) st).

Lemma keep_bind {A B} (m : cdp_decoder A) (k : A → cdp_decoder B) :
  keep m → (∀ a, keep (k a)) → keep (m ≫= k).
Proof. intros Hm Hk st Hst. apply wp_bind. eapply wp_mono; [by apply Hm|]. intros a st'. apply Hk. Qed.

Lemma keep_bytes n : keep (PEEK_BYTES frame n).
Proof. intros st Hst. apply wp_any_bytes; [done|]. intros _ b _. unfold aligned in *; cbn; lia. Qed.

Lemma keep_restore p : keep (PEEK_RESTORE p).
Proof.
  intros st Hst. unfold wp, PEEK_RESTORE, aligned in *; cbn.
  destruct (Z.ltb_spec (c_pos st) p); lia.
Qed.

Lemma keep_discard n : keep (PEEK_DISCARD n).
Proof. intros st Hst. unfold wp, PEEK_DISCARD, aligned in *; cbn; lia. Qed.

Lemma keep_check b : keep (check b).
Proof. intros st Hst. by destruct b. Qed.

Lemma keep_read_at p n : keep (read_at frame p n).
Proof. intros st Hst. unfold wp, read_at. by case_if. Qed.

Ltac keep_step :=
  match goal with
  | |- keep (_ ≫= _) => apply keep_bind; [|intros ?]
  | |- keep (check _) => apply keep_check
  | |- keep (cdp_check _ _) => apply keep_check
  | |- keep (PEEK_BYTES _ _) => apply keep_bytes
  | |- keep (PEEK_UINT8 _) => unfold PEEK_UINT8
  | |- keep (PEEK_UINT16 _) => unfold PEEK_UINT16
  | |- keep (PEEK_UINT32 _) => unfold PEEK_UINT32
  | |- keep (PEEK_CMP _ _) => unfold PEEK_CMP
  | |- keep (PEEK_RESTORE _) => apply keep_restore
  | |- keep (PEEK_DISCARD _) => apply keep_discard
  | |- keep PEEK_DISCARD_UINT8 => apply keep_discard
  | |- keep PEEK_DISCARD_UINT16 => apply keep_discard
  | |- keep (read_at _ _ _) => apply keep_read_at
  | |- keep (assert_ ?b) => let st := fresh in intros st ?; by destruct b
  | |- keep (if ?b then _ else _) => destruct b
  | |- keep (match ?x with _ => _ end) => destruct x
  | |- keep _ => done
  end.

Lemma wps_aligned_uint m n (Q : Z → cursor cdp_locals → Prop) st :
  (m = PEEK_UINT8 frame ∧ n = 1 ∨ m = PEEK_UINT16 frame ∧ n = 2 ∨ m = PEEK_UINT32 frame ∧ n = 4) →
  aligned st → (∀ v st', aligned st' → 0 ≤ v < 256 ^ n → Q v st') → wps m Q st.
Proof.
  intros Hm Hst HQ. eapply wp_any_uint; try done. intros v Hv. apply HQ; [|done].
  unfold aligned in *; cbn. lia.
Qed.

Lemma wps_keep {A B} (m : cdp_decoder A) (k : A → cdp_decoder B) Q st :
  keep m → aligned st → (∀ a st', aligned st' → wps (k a) Q st') → wps (m ≫= k) Q st.
Proof. intros Hm Hst Hk. apply wp_bind. eapply wp_mono; [by apply Hm|]. intros a st'. apply Hk. Qed.

(** Every address takes at least four bytes of [addresses_len]. *)
Lemma safe_address al st :
  aligned st →
  wps (cdp_decode_address frame al) (λ al' st', aligned st' ∧ 0 ≤ al' ≤ al - 4) st.
Proof.
  intros Hst. unfold cdp_decode_address. cbv zeta.
  apply wps_keep; [done|done|]. intros pos st0 Hst0.
  apply wp_bind, wp_check; [|done]. intros H2; bool_to_prop.
  apply wps_keep; [apply keep_discard|done|]. intros _ st1 Hst1.
  apply wp_bind. eapply (wps_aligned_uint _ 1); [by left|done|]. intros v st2 Hst2 Hv.
  apply wp_bind, wp_check; [|done]. intros H3; bool_to_prop.
  apply wps_keep; [apply keep_discard|done|]. intros _ st3 Hst3.
  apply wp_bind. eapply (wps_aligned_uint _ 2); [by right; left|done|]. intros v' st4 Hst4 Hv'.
  apply wp_bind, wp_check; [|done]. intros H4; bool_to_prop.
  apply wps_keep; [apply keep_discard|done|]. intros _ st5 Hst5.
  apply wps_keep; [done|done|]. intros next st6 Hst6.
  apply wps_keep; [apply keep_restore|done|]. intros _ st7 Hst7.
  apply wps_keep; [unfold cdp_is_ipv4; repeat keep_step|done|]. intros ip st8 Hst8.
  apply wps_keep; [repeat keep_step|done|]. intros _ st9 Hst9.
  apply wps_keep; [apply keep_restore|done|]. intros _ st10 Hst10.
  apply wp_ret. split; [done|lia].
Qed.

Lemma safe_addresses fuel nb al :
  0 ≤ al < Z.of_nat fuel → keep (cdp_decode_addresses frame fuel nb al).
Proof.
  revert nb al. induction fuel as [|n IH]; intros nb al Hal st Hst; [lia|].
  cbn [cdp_decode_addresses]. destruct (0 <? nb); [|done].
  apply wp_bind. eapply wp_mono; [by apply safe_address|].
  intros al' st' [Hst' Hal']. apply IH; [lia|done].
Qed.

Lemma safe_cdp_value ty n : 0 ≤ n → keep (cdp_decode_value frame ty n).
Proof.
  intros Hn. unfold cdp_decode_value, cdp_decode_chassis, cdp_decode_port,
    cdp_decode_capabilities, cdp_decode_vlan; cbv zeta.
  destruct (ty =? CDP_TLV_CHASSIS); [repeat keep_step|].
  destruct (ty =? CDP_TLV_ADDRESSES); [|repeat keep_step].
  intros st Hst. apply wp_bind, wp_check; [|done]. intros H4; bool_to_prop.
  apply wps_keep; [repeat keep_step|done|]. intros v st' Hst'.
  apply safe_addresses; [lia|done].
Qed.

Lemma safe_cdp_tlv st :
  aligned st → 0 ≤ c_length st →
  wps (cdp_decode_tlv frame)
    (λ _ st', (aligned st' ∧ 0 ≤ c_length st') ∧ 0 ≤ c_length st' < c_length st) st.
Proof.
  intros Hst Hl. unfold cdp_decode_tlv. cbv zeta.
  apply wp_bind, wp_gets, wp_bind, wp_check; [|done]. intros H4; bool_to_prop.
  apply wp_bind. eapply (wp_any_uint _ _ 2); [by right; left|done|done|]. intros ty Hty.
  apply wp_bind. eapply (wp_any_uint _ _ 2); [by right; left|done|done|]. intros n Hn.
  apply wp_bind, wp_gets, wp_bind, wp_gets, wp_bind, wp_check; [|done].
  cbn [c_pos c_length c_ext]. intros Hc; bool_to_prop.
  apply wps_keep; [apply safe_cdp_value; lia|unfold aligned in *; cbn; lia|].
  intros _ st' Hst'. apply wp_bind, wp_gets, wp_modify. unfold aligned in *. cbn. lia.
Qed.

(** The destination address: six bytes, in both branches. *)
Lemma safe_cdp_dst (k : bool → cdp_decoder unit) Q e :
  (∀ b e, wps (k b) Q {| c_pos := 6; c_length := s - 6; c_ext := e |}) →
  wps (PEEK_CMP frame CDP_MULTICAST_ADDR ≫= k) Q {| c_pos := 0; c_length := s; c_ext := e |}.
Proof.
  intros Hk. apply wp_bind, wp_bind, wp_any_bytes; [done|]. intros _ b _. apply wp_ret, Hk.
Qed.

Lemma safe_cdp_start :
  wps (cdp_decode_start frame) (λ _ st, c_pos st = 26 ∧ c_length st = s - 26 ∧ 26 ≤ s)
    {| c_pos := 0; c_length := s; c_ext := cdp_locals_init |}.
Proof.
  unfold cdp_decode_start. apply wp_bind, wp_gets, wp_bind, wp_check; [|done].
  cbn [c_length]. intros Hlen; bool_to_prop. unfold ETHER_ADDR_LEN in *.
  apply safe_cdp_dst. intros same e.
  assert (∀ (m : cdp_decoder unit) Q, wps m (λ _ st, c_pos st = 6 ∧ c_length st = s - 6)
      {| c_pos := 6; c_length := s - 6; c_ext := e |} →
    (∀ e, Q tt {| c_pos := 6; c_length := s - 6; c_ext := e |}) →
    wps m Q {| c_pos := 6; c_length := s - 6; c_ext := e |}) as Hseq.
  { intros m Q Hm HQ. eapply wp_mono; [exact Hm|]. intros [] [p' l' e'] [Hp Hl].
    cbn in Hp, Hl. subst. apply HQ. }
  apply wp_bind, Hseq.
  { destruct same; [by apply wp_ret|]. apply wp_bind, wp_modify. cbn.
    replace (s - 6 + (6 - 0)) with s by lia. apply safe_cdp_dst.
    intros same' e'. destruct same'; [done|]. by apply wp_modify. }
  clear e Hseq. intros e.
  apply wp_bind, wp_modify, wp_bind. eapply (wp_any_uint _ _ 2); [by right; left|done|done|].
  intros len Hlenv. apply wp_bind, wp_gets, wp_bind, wp_check; [|done]. intros _.
  apply wp_bind, wp_modify, wp_bind. eapply (wp_any_uint _ _ 2); [by right; left|done|done|].
  intros proto _. apply wp_bind, wp_check; [|done]. intros _.
  apply wp_bind. eapply (wp_any_uint _ _ 1); [by left|done|done|].
  intros version _. apply wp_bind, wp_check; [|done]. intros _.
  apply wp_bind. eapply (wp_any_uint _ _ 1); [by left|done|done|].
  intros ttl _. apply wp_bind, wp_modify, wp_modify. cbn. lia.
Qed.

Lemma safe_cdp_body fuel :
  0 ≤ s < Z.of_nat fuel →
  wps (cdp_decode_body frame fuel) (λ _ _, True)
    {| c_pos := 0; c_length := s; c_ext := cdp_locals_init |}.
Proof.
  intros Hs. unfold cdp_decode_body. apply wp_bind.
  eapply wp_mono; [apply safe_cdp_start|]. intros _ st (Hp & Hl & H26).
  apply wp_bind. eapply wp_mono.
  - apply wp_while with (I := λ st, aligned st ∧ 0 ≤ c_length st) (μ := c_length).
    + intros st' [Ha Hl'] _. by apply safe_cdp_tlv.
    + unfold aligned. lia.
    + lia.
  - intros _ st' [[Ha _] _]. apply wps_keep; [unfold cdp_description; repeat keep_step|done|].
    intros _ st'' _. apply wp_bind, wp_gets, wp_check; done.
Qed.
End Safe.

(** [cdp_decode] terminates on every frame, also when an address TLV makes it
      read past the end of the frame. *)
Theorem cdp_decode_terminates frame s hw :
  bytes_ok frame → 0 ≤ s → cdp_decode frame s hw ≠ Crashed OutOfFuel.
Proof.
  intros Hb Hs. unfold cdp_decode.
  pose proof (safe_cdp_body frame s (λ f, f ≠ OutOfFuel) Hb ltac:(done) ltac:(done)
    (S (Z.to_nat s)) ltac:(lia)) as Hsafe.
  unfold wp in Hsafe. destruct (cdp_decode_body _ _ _); [done..|congruence].
Qed.

(** ** The decoded port is not attached to a chassis *)

Section Detached.
Variable frame : list Z.
#[local] Abbreviation detached := (λ l, p_chassis (k_port l) = None).

Lemma keeps_cdp_addresses fuel nb len : Keeps detached (cdp_decode_addresses frame fuel nb len).
Proof.
  revert nb len. induction fuel as [|n IH]; intros nb len; [apply keeps_undefined|].
  cbn [cdp_decode_addresses]. unfold cdp_decode_address, cdp_is_ipv4, cdp_set_chassis.
  keeps_solve; apply IH.
Qed.

Lemma keeps_cdp_body fuel : Keeps detached (cdp_decode_body frame fuel).
Proof.
  unfold cdp_decode_body, cdp_decode_start, cdp_decode_tlv, cdp_description, cdp_decode_value,
    cdp_decode_chassis, cdp_decode_port, cdp_decode_capabilities, cdp_decode_vlan, cdp_check,
    cdp_set_chassis, cdp_set_port.
  keeps_solve. apply keeps_cdp_addresses.
Qed.

Lemma cdp_decode_detached s hw c q hw' :
  cdp_decode frame s hw = Decoded c q hw' →
  p_chassis q = None ∧ ∃ n, hw' = add_unrecognized hw n.
Proof.
  unfold cdp_decode.
  pose proof (keeps_cdp_body (S (Z.to_nat s))
    {| c_pos := 0; c_length := s; c_ext := cdp_locals_init |} eq_refl) as Hk.
  unfold wp in Hk. destruct (cdp_decode_body _ _ _); intros [= <- <- <-].
  split; [done|]. by eexists.
Qed.

Lemma cdp_decode_discarded s hw hw' :
  cdp_decode frame s hw = Discarded hw' → ∃ n, hw' = add_unrecognized hw n.
Proof. unfold cdp_decode. destruct (cdp_decode_body _ _ _); intros [= <-]. by eexists. Qed.
End Detached.
