(* ===== verification/Sonmp.v ===== *)
(** * SONMP (src/daemon/sonmp.c)

    The Nortel discovery protocol: [sonmp_send] builds one packet and sends it
    twice, the second time with another protocol identifier and another
    destination; [sonmp_decode] accepts only the first kind.  The theorems say
    what the two packets are, also on a bond slave where the source address is
    rewritten in place by each transmission, and that the receiver recovers the
    address and the port of the sender. *)

From S2P Require Import Prelude Bytes Text Const Structs Decoder Frame FramePatch Interfaces LldpSend LldpSpec.
From S2P Require Import LldpDecode.
From stdpp Require Import strings.
#[local] Open Scope Z_scope.

Definition sonmp_chassis_types : list (Z * string) :=
  [(1, "unknown (via SONMP)"%string);
   (2, "Nortel 3000"%string);
   (3, "Nortel 3030"%string);
   (4, "Nortel 2310"%string);
   (5, "Nortel 2810"%string);
   (6, "Nortel 2912"%string);
   (7, "Nortel 2914"%string);
   (8, "Nortel 271x"%string);
   (9, "Nortel 2813"%string);
   (10, "Nortel 2814"%string);
   (11, "Nortel 2915"%string);
   (12, "Nortel 5000"%string);
   (13, "Nortel 2813SA"%string);
   (14, "Nortel 2814SA"%string);
   (15, "Nortel 810M"%string);
   (16, "Nortel EtherCell"%string);
   (17, "Nortel 5005"%string);
   (18, "Alcatel Ethernet workgroup conc."%string);
   (20, "Nortel 2715SA"%string);
   (21, "Nortel 2486"%string);
   (22, "Nortel 28000 series"%string);
   (23, "Nortel 23000 series"%string);
   (24, "Nortel 5DN00x series"%string);
   (25, "BayStack Ethernet"%string);
   (26, "Nortel 23100 series"%string);
   (27, "Nortel 100Base-T Hub"%string);
   (28, "Nortel 3000 Fast Ethernet"%string);
   (29, "Nortel Orion switch"%string);
   (30, "unknown"%string);
   (31, "Nortel DDS "%string);
   (32, "Nortel Centillion"%string);
   (33, "Nortel Centillion"%string);
   (34, "Nortel Centillion"%string);
   (35, "BayStack 301"%string);
   (36, "BayStack TokenRing Hub"%string);
   (37, "Nortel FVC Multimedia Switch"%string);
   (38, "Nortel Switch Node"%string);
   (39, "BayStack 302 Switch"%string);
   (40, "BayStack 350 Switch"%string);
   (41, "BayStack 150 Ethernet Hub"%string);
   (42, "Nortel Centillion 50N switch"%string);
   (43, "Nortel Centillion 50T switch"%string);
   (44, "BayStack 303 and 304 Switches"%string);
   (45, "BayStack 200 Ethernet Hub"%string);
   (46, "BayStack 250 10/100 Ethernet Hub"%string);
   (48, "BayStack 450 10/100/1000 Switches"%string);
   (49, "BayStack 410 10/100 Switches"%string);
   (50, "Nortel Ethernet Routing 1200 L3 Switch"%string);
   (51, "Nortel Ethernet Routing 1250 L3 Switch"%string);
   (52, "Nortel Ethernet Routing 1100 L3 Switch"%string);
   (53, "Nortel Ethernet Routing 1150 L3 Switch"%string);
   (54, "Nortel Ethernet Routing 1050 L3 Switch"%string);
   (55, "Nortel Ethernet Routing 1051 L3 Switch"%string);
   (56, "Nortel Ethernet Routing 8610 L3 Switch"%string);
   (57, "Nortel Ethernet Routing 8606 L3 Switch"%string);
   (58, "Nortel Ethernet Routing Switch 8010"%string);
   (59, "Nortel Ethernet Routing Switch 8006"%string);
   (60, "BayStack 670 wireless access point"%string);
   (61, "Nortel Ethernet Routing Switch 740 "%string);
   (62, "Nortel Ethernet Routing Switch 750 "%string);
   (63, "Nortel Ethernet Routing Switch 790"%string);
   (64, "Nortel Business Policy Switch 2000 10/100 Switches"%string);
   (65, "Nortel Ethernet Routing 8110 L2 Switch"%string);
   (66, "Nortel Ethernet Routing 8106 L2 Switch"%string);
   (67, "BayStack 3580 Gig Switch"%string);
   (68, "BayStack 10 Power Supply Unit"%string);
   (69, "BayStack 420 10/100 Switch"%string);
   (70, "OPTera Metro 1200 Ethernet Service Module"%string);
   (71, "Nortel Ethernet Routing Switch 8010co"%string);
   (72, "Nortel Ethernet Routing 8610co L3 switch"%string);
   (73, "Nortel Ethernet Routing 8110co L2 switch"%string);
   (74, "Nortel Ethernet Routing 8003"%string);
   (75, "Nortel Ethernet Routing 8603 L3 switch"%string);
   (76, "Nortel Ethernet Routing 8103 L2 switch"%string);
   (77, "BayStack 380 10/100/1000 Switch"%string);
   (78, "Nortel Ethernet Switch 470-48T"%string);
   (79, "OPTera Metro 1450 Ethernet Service Module"%string);
   (80, "OPTera Metro 1400 Ethernet Service Module"%string);
   (81, "Alteon Switch Family"%string);
   (82, "Ethernet Switch 460-24T-PWR"%string);
   (83, "OPTera Metro 8010 OPM L2 Switch"%string);
   (84, "OPTera Metro 8010co OPM L2 Switch"%string);
   (85, "OPTera Metro 8006 OPM L2 Switch"%string);
   (86, "OPTera Metro 8003 OPM L2 Switch"%string);
   (87, "Alteon 180e"%string);
   (88, "Alteon AD3"%string);
   (89, "Alteon 184"%string);
   (90, "Alteon AD4"%string);
   (91, "Nortel Ethernet Routing 1424 L3 switch"%string);
   (92, "Nortel Ethernet Routing 1648 L3 switch"%string);
   (93, "Nortel Ethernet Routing 1612 L3 switch"%string);
   (94, "Nortel Ethernet Routing 1624 L3 switch "%string);
   (95, "BayStack 380-24F Fiber 1000 Switch"%string);
   (96, "Nortel Ethernet Routing Switch 5510-24T"%string);
   (97, "Nortel Ethernet Routing Switch 5510-48T"%string);
   (98, "Nortel Ethernet Switch 470-24T"%string);
   (99, "Nortel Networks Wireless LAN Access Point 2220"%string);
   (100, "Ethernet Routing RBS 2402 L3 switch"%string);
   (101, "Alteon Application Switch 2424  "%string);
   (102, "Alteon Application Switch 2224 "%string);
   (103, "Alteon Application Switch 2208 "%string);
   (104, "Alteon Application Switch 2216"%string);
   (105, "Alteon Application Switch 3408"%string);
   (106, "Alteon Application Switch 3416"%string);
   (107, "Nortel Networks Wireless LAN SecuritySwitch 2250"%string);
   (108, "Ethernet Switch 425-48T"%string);
   (109, "Ethernet Switch 425-24T"%string);
   (110, "Nortel Networks Wireless LAN Access Point 2221"%string);
   (111, "Nortel Metro Ethernet Service Unit 24-T SPF switch"%string);
   (112, "Nortel Metro Ethernet Service Unit 24-T LX DC switch"%string);
   (113, "Nortel Ethernet Routing Switch 8300 10-slot chassis"%string);
   (114, "Nortel Ethernet Routing Switch 8300 6-slot chassis"%string);
   (115, "Nortel Ethernet Routing Switch 5520-24T-PWR"%string);
   (116, "Nortel Ethernet Routing Switch 5520-48T-PWR"%string);
   (117, "Nortel Networks VPN Gateway 3050"%string);
   (118, "Alteon SSL 310 10/100"%string);
   (119, "Alteon SSL 310 10/100 Fiber"%string);
   (120, "Alteon SSL 310 10/100 FIPS"%string);
   (121, "Alteon SSL 410 10/100/1000"%string);
   (122, "Alteon SSL 410 10/100/1000 Fiber"%string);
   (123, "Alteon Application Switch 2424-SSL"%string);
   (124, "Nortel Ethernet Switch 325-24T"%string);
   (125, "Nortel Ethernet Switch 325-24G"%string);
   (126, "Nortel Networks Wireless LAN Access Point 2225"%string);
   (127, "Nortel Networks Wireless LAN SecuritySwitch 2270"%string);
   (128, "Nortel 24-port Ethernet Switch 470-24T-PWR"%string);
   (129, "Nortel 48-port Ethernet Switch 470-48T-PWR"%string);
   (130, "Nortel Ethernet Routing Switch 5530-24TFD"%string);
   (131, "Nortel Ethernet Switch 3510-24T"%string);
   (132, "Nortel Metro Ethernet Service Unit 12G AC L3 switch"%string);
   (133, "Nortel Metro Ethernet Service Unit 12G DC L3 switch"%string);
   (134, "Nortel Secure Access Switch"%string);
   (135, "Networks VPN Gateway 3070"%string);
   (136, "OPTera Metro 3500"%string);
   (137, "SMB BES 1010 24T"%string);
   (138, "SMB BES 1010 48T"%string);
   (139, "SMB BES 1020 24T PWR"%string);
   (140, "SMB BES 1020 48T PWR"%string);
   (141, "SMB BES 2010 24T"%string);
   (142, "SMB BES 2010 48T"%string);
   (143, "SMB BES 2020 24T PWR"%string);
   (144, "SMB BES 2020 48T PWR"%string);
   (145, "SMB BES 110 24T"%string);
   (146, "SMB BES 110 48T"%string);
   (147, "SMB BES 120 24T PWR"%string);
   (148, "SMB BES 120 48T PWR"%string);
   (149, "SMB BES 210 24T"%string);
   (150, "SMB BES 210 48T"%string);
   (151, "SMB BES 220 24T PWR"%string);
   (152, "SMB BES 220 48T PWR"%string);
   (153, "OME 6500"%string);
   (0, "unknown (via SONMP)"%string)].

(** ** Sending *)

(** [PEEK_DISCARD(n)] in a packet being built. *)
Definition poke_discard (n : Z) : poke := λ st,
  Some st<|pk_pos := pk_pos st + n|><|pk_length := pk_length st - n|>.

Section Send.
#[local] Open Scope poke_scope.
Variables (global : lldpd_config) (hardware : lldpd_hardware) (chassis : lldpd_chassis).

(** The first management address if it is an IPv4 one, else 0.0.0.0. *)
Definition sonmp_address : list Z :=
  match c_mgmt chassis with
  | mgmt :: _ => if m_family mgmt =? LLDPD_AF_IPV4 then take 4 (m_addr mgmt) else replicate 4 0
  | [] => replicate 4 0
  end.

Definition sonmp_header : poke :=
  POKE_BYTES SONMP_MULTICAST_ADDR && POKE_BYTES (h_lladdr hardware) && POKE_UINT16 SONMP_SIZE &&
  POKE_UINT8 0xaa && POKE_UINT8 0xaa && POKE_UINT8 0x03 && POKE_BYTES LLC_ORG_NORTEL.
Definition sonmp_body : poke :=
  POKE_UINT16 LLC_PID_SONMP_HELLO &&
  POKE_BYTES sonmp_address && POKE_UINT16 0 && POKE_UINT8 (h_ifindex hardware) &&
  POKE_UINT8 1 && POKE_UINT8 12 && POKE_UINT8 SONMP_TOPOLOGY_NEW && POKE_UINT8 1.

(** The packet after the last POKE, with [pos_pid] and [end]. *)
Definition sonmp_packet (mtu : Z) : option (pkt * Z * Z) :=
  st ← sonmp_header (pkt_init mtu);
  let pos_pid := pk_pos st in
  st ← sonmp_body st;
  Some (st, pos_pid, pk_pos st).

(** The edits between the two transmissions. *)
Definition sonmp_second (pos_pid : Z) : poke :=
  POKE_RESTORE pos_pid && poke_void (POKE_UINT16 LLC_PID_SONMP_FLATNET) &&
  POKE_RESTORE 0 && poke_discard (ETHER_ADDR_LEN - 1) && poke_void (POKE_UINT8 1).

(** [sonmp_send], with the packets handed to the driver. *)
Definition sonmp_send (h_ops_send : list Z → Z) : Z * lldpd_hardware * list (list Z) :=
  match sonmp_packet (h_mtu hardware) with
  | None => (-1, hardware, [])
  | Some (st, pos_pid, end_) =>
      let '(rc, packet) := interfaces_send_helper global hardware h_ops_send (pkt_upto st end_) in
      if rc =? -1 then (ENETDOWN, hardware, [packet])
      else
        let st := st<|pk_buf ::= λ buf, write_at buf 0 packet|> in
        match sonmp_second pos_pid st with
        | None => (-1, hardware, [packet])
        | Some st =>
            let '(rc, packet2) :=
              interfaces_send_helper global hardware h_ops_send (pkt_upto st end_) in
            if rc =? -1 then (ENETDOWN, hardware, [packet; packet2])
            else (0, hardware<|h_tx_cnt ::= λ n, (n + 1) mod 2 ^ 64|>, [packet; packet2])
        end
  end.
End Send.

(** ** Decoding *)

(** The search in [sonmp_chassis_types], whose last entry has type 0. *)
Fixpoint sonmp_chassis_find (l : list (Z * string)) (rchassis : Z) : option string :=
  match l with
  | [] => None
  | (type, description) :: l' =>
      if type =? 0 then Some description
      else if type =? rchassis then Some description
      else sonmp_chassis_find l' rchassis
  end.

Arguments sonmp_chassis_find : simpl never.

Definition sonmp_port_id (s0 s1 s2 : Z) : list Z := hex2 s0 ++ [45] ++ hex2 s1 ++ [45] ++ hex2 s2.
Definition sonmp_port_descr (s0 s1 s2 : Z) : list Z :=
  if ((s0 =? 0) && (s1 =? 0))%bool then chars "port " ++ decimal s2
  else if s0 =? 0 then chars "port " ++ decimal s1 ++ chars "/" ++ decimal s2
  else chars "port " ++ hex s0 ++ chars ":" ++ hex s1 ++ chars ":" ++ hex s2.

Section Decode.
(** [cfg] is NULL in the unit tests only. *)
Variables (cfg : option lldpd_config) (frame : list Z).
#[local] Abbreviation sonmp_decoder := (decoder (cursor unit)).

Definition sonmp_ttl : Z :=
  match cfg with
  | Some c => u16 (c_tx_interval c * c_tx_hold c)
  | None => LLDPD_TTL
  end.

Definition sonmp_start : sonmp_decoder unit :=
  length ← length_get;
  check (SONMP_SIZE <=? length);;
  same ← PEEK_CMP frame SONMP_MULTICAST_ADDR;
  check same;;
  PEEK_DISCARD ETHER_ADDR_LEN;; PEEK_DISCARD_UINT16;;
  PEEK_DISCARD 6;;
  pid ← PEEK_UINT16 frame;
  check (pid =? LLC_PID_SONMP_HELLO).

Definition sonmp_decode_body : sonmp_decoder (lldpd_chassis * lldpd_port) :=
  sonmp_start;;
  address ← PEEK_BYTES frame 4;
  seg ← PEEK_BYTES frame 3;
  rchassis ← PEEK_UINT8 frame;
  match sonmp_chassis_find sonmp_chassis_types rchassis with
  | None => undefined OutOfBoundsRead
  | Some description =>
      match lldpd_alloc_mgmt LLDPD_AF_IPV4 address 4 0 with
      | inl err => assert_ (match err with ENOMEM => true | _ => false end);; malformed
      | inr mgmt =>
          let s i := nth i seg 0 in
          mret (chassis_zero<|c_id_subtype := LLDP_CHASSISID_SUBTYPE_ADDR|>
                  <|c_id := Some (1 :: address)|><|c_name := Some (inet_ntoa address)|>
                  <|c_descr := Some (chars description)|><|c_mgmt := [mgmt]|>
                  <|c_ttl := sonmp_ttl|>,
                port_zero<|p_id_subtype := LLDP_PORTID_SUBTYPE_LOCAL|>
                  <|p_id := Some (sonmp_port_id (s 0%nat) (s 1%nat) (s 2%nat))|>
                  <|p_descr := Some (sonmp_port_descr (s 0%nat) (s 1%nat) (s 2%nat))|>)
      end
  end.

Definition sonmp_decode (s : Z) (hardware : lldpd_hardware) : decode_result :=
  match sonmp_decode_body {| c_pos := 0; c_length := s; c_ext := tt |} with
  | Ok (chassis, port) _ => Decoded chassis port hardware
  | Malformed _ => Discarded hardware
  | Fault f => Crashed f
  end.
End Decode.

(** ** What is sent *)

Section SendCorrect.
#[local] Open Scope poke_scope.
Variables (global : lldpd_config) (hardware : lldpd_hardware) (chassis : lldpd_chassis).
#[local] Abbreviation packets := (sonmp_send global hardware chassis).

Definition sonmp_data : list Z :=
  sonmp_address chassis ++ be16 0 ++ [u8 (h_ifindex hardware); 1; 12; SONMP_TOPOLOGY_NEW; 1].
Definition sonmp_llc : list Z := be16 SONMP_SIZE ++ [0xaa; 0xaa; 0x03] ++ LLC_ORG_NORTEL.
(** A SONMP frame, given the last byte of the destination, the source and the PID. *)
Definition sonmp_bytes (last : Z) (mac : list Z) (pid : Z) : list Z :=
  take 5 SONMP_MULTICAST_ADDR ++ [last] ++ mac ++ sonmp_llc ++ be16 pid ++ sonmp_data.

Lemma emits_sonmp_header :
  Emits (sonmp_header hardware) (SONMP_MULTICAST_ADDR ++ h_lladdr hardware ++ sonmp_llc).
Proof. eapply emits_eq; [apply _|]. unfold sonmp_llc. by rewrite <- !app_assoc. Qed.

Lemma emits_sonmp_body :
  Emits (sonmp_body hardware chassis) (be16 LLC_PID_SONMP_HELLO ++ sonmp_data).
Proof. eapply emits_eq; [apply _|]. unfold sonmp_data. by rewrite <- !app_assoc. Qed.

(** The transmission of a packet overwrites the beginning of the buffer. *)
Lemma packet_overwrite mtu st a b :
  packet mtu st a → zlen b = zlen a → packet mtu st<|pk_buf ::= λ buf, write_at buf 0 b|> b.
Proof.
  intros [Hp Hl (rest & Hb & Hz)] Hab. split; [done|done|]. exists rest. cbn.
  rewrite Hb. rewrite zlen_app in *. split; [|lia].
  apply (write_at_mid [] a rest b Hab).
Qed.

Lemma restore_discard n q st :
  0 ≤ n → 0 ≤ pk_pos st →
  (POKE_RESTORE 0 && poke_discard n && q) st = (POKE_RESTORE n && q) st.
Proof.
  intros Hn Hp. unfold poke_seq, POKE_RESTORE, poke_discard, set; cbn. f_equal. f_equal.
  destruct (Z.ltb_spec (pk_pos st) 0), (Z.ltb_spec (pk_pos st) n); lia.
Qed.

Lemma void_bytes bs r st st' :
  (POKE_RESTORE r && POKE_BYTES bs) st = Some st' →
  (POKE_RESTORE r && poke_void (POKE_BYTES bs)) st = Some st'.
Proof.
  unfold poke_seq, poke_void. cbn [mbind option_bind POKE_RESTORE]. by intros ->.
Qed.

Lemma sonmp_second_bytes mtu st mac :
  zlen mac = 6 →
  packet mtu st (sonmp_bytes 0 mac LLC_PID_SONMP_HELLO) →
  ∃ st', sonmp_second 20 st = Some st' ∧
    packet mtu st' (sonmp_bytes 1 mac LLC_PID_SONMP_FLATNET).
Proof.
  intros Hm Hp. set (pre := take 5 SONMP_MULTICAST_ADDR ++ [0] ++ mac ++ sonmp_llc).
  assert (zlen pre = 20) as Hpre by (unfold pre; rewrite !zlen_app, Hm; done).
  destruct (patch_bytes mtu st pre (be16 LLC_PID_SONMP_HELLO) sonmp_data
    (be16 LLC_PID_SONMP_FLATNET)) as (st1 & H1 & Hp1); [|done|].
  { unfold pre. rewrite <- !app_assoc. exact Hp. }
  rewrite Hpre in H1. apply void_bytes in H1.
  destruct (patch_bytes mtu st1 (take 5 SONMP_MULTICAST_ADDR) [0]
    (mac ++ sonmp_llc ++ be16 LLC_PID_SONMP_FLATNET ++ sonmp_data) [u8 1])
    as (st2 & H2 & Hp2); [|done|].
  { unfold pre in Hp1. rewrite <- !app_assoc in Hp1. exact Hp1. }
  apply void_bytes in H2. exists st2. split; [|exact Hp2].
  unfold sonmp_second, POKE_UINT16, POKE_UINT8.
  rewrite !poke_seq_assoc, <- (poke_seq_assoc (POKE_RESTORE 20)).
  unfold poke_seq at 1. rewrite H1. cbn [mbind option_bind].
  rewrite <- poke_seq_assoc, restore_discard; [exact H2|done|].
  by destruct Hp1.
Qed.

Lemma sonmp_packet_bytes mtu :
  0 ≤ mtu → zlen (h_lladdr hardware) = 6 →
  let hello := sonmp_bytes 0 (h_lladdr hardware) LLC_PID_SONMP_HELLO in
  if zlen hello <=? mtu
  then ∃ st, sonmp_packet hardware chassis mtu = Some (st, 20, zlen hello) ∧ packet mtu st hello
  else sonmp_packet hardware chassis mtu = None.
Proof.
  intros Hm Hmac hello. unfold sonmp_packet. set (pre := SONMP_MULTICAST_ADDR ++ h_lladdr hardware ++ sonmp_llc).
  assert (hello = pre ++ be16 LLC_PID_SONMP_HELLO ++ sonmp_data) as Hh
    by (unfold hello, pre, sonmp_bytes; rewrite <- !app_assoc; done).
  assert (zlen pre = 20) as Hpre by (unfold pre; rewrite !zlen_app, Hmac; done).
  rewrite Hh. set (post := be16 _ ++ _). rewrite zlen_app. pose proof (zlen_nonneg post).
  destruct (holds_emits mtu _ _ _ _ (holds_init mtu Hm) emits_sonmp_header)
    as [[_ (st1 & -> & H1)]|[Hlt ->]]; cbn [mbind option_bind app].
  2: { cbn [app] in Hlt. fold pre in Hlt. destruct (Z.leb_spec (zlen pre + zlen post) mtu); [lia|done]. }
  cbn [app] in H1. fold pre in H1.
  destruct (holds_emits mtu _ _ _ _ H1 emits_sonmp_body)
    as [[Hle (st2 & -> & H2)]|[Hlt ->]]; cbn [mbind option_bind].
  - fold post in Hle, H2. rewrite zlen_app in Hle. rewrite (proj2 (Z.leb_le _ _)) by done. exists st2. destruct H1 as [_ ->], H2 as [Hp ->].
    by rewrite Hpre, zlen_app, Hpre.
  - fold post in Hlt. rewrite zlen_app in Hlt. by rewrite (proj2 (Z.leb_gt _ _)).
Qed.

(** [sonmp_send] hands the driver the HELLO frame, then the FLATNET frame: the
    same bytes with another PID and the next destination address; each
    transmission mangles the source address the previous one left in the
    buffer; a failed transmission stops the exchange, and the counter counts
    the pair once. *)
Theorem sonmp_send_correct send :
  0 ≤ h_mtu hardware → zlen (h_lladdr hardware) = 6 →
  let mac1 := sent_mac global hardware (h_lladdr hardware) in
  let mac2 := sent_mac global hardware mac1 in
  let hello := sonmp_bytes 0 mac1 LLC_PID_SONMP_HELLO in
  let flatnet := sonmp_bytes 1 mac2 LLC_PID_SONMP_FLATNET in
  packets send =
    if h_mtu hardware <? zlen hello then (-1, hardware, [])
    else if send hello =? -1 then (ENETDOWN, hardware, [hello])
    else if send flatnet =? -1 then (ENETDOWN, hardware, [hello; flatnet])
    else (0, hardware<|h_tx_cnt ::= λ n, (n + 1) mod 2 ^ 64|>, [hello; flatnet]).
Proof.
  intros Hm Hmac mac1 mac2 hello flatnet. unfold sonmp_send.
  assert (zlen mac1 = 6) as Hmac1 by (by apply sent_mac_zlen).
  pose proof (sonmp_packet_bytes (h_mtu hardware) Hm Hmac) as Hpkt. cbv zeta in Hpkt.
  assert (∀ l m p, zlen m = 6 → zlen (sonmp_bytes l m p) = zlen hello) as Hz
    by (intros; unfold hello, sonmp_bytes; rewrite !zlen_app, !be16_zlen, !zlen_cons; lia).
  rewrite Hz, Z.leb_antisym in Hpkt by done.
  destruct (h_mtu hardware <? zlen hello); cbn [negb] in Hpkt; [by rewrite Hpkt|].
  destruct Hpkt as (st & -> & Hp).
  rewrite <- (Hz 0 (h_lladdr hardware) LLC_PID_SONMP_HELLO Hmac) at 1.
  rewrite (packet_upto _ _ _ Hp).
  assert (∀ l m p, sonmp_bytes l m p = (take 5 SONMP_MULTICAST_ADDR ++ [l]) ++ m ++
    sonmp_llc ++ be16 p ++ sonmp_data) as Hsplit by (intros; unfold sonmp_bytes; by rewrite <- !app_assoc).
  rewrite Hsplit, interfaces_send_frame by done. fold mac1. rewrite <- Hsplit. fold hello.
  destruct (send hello =? -1); [done|].
  destruct (sonmp_second_bytes (h_mtu hardware) _ mac1 Hmac1
    (packet_overwrite _ _ _ hello Hp (eq_sym (Hz _ _ _ Hmac)))) as (st2 & -> & Hp2).
  rewrite <- (Hz 1 mac1 LLC_PID_SONMP_FLATNET Hmac1), (packet_upto _ _ _ Hp2).
  rewrite Hsplit, interfaces_send_frame by done. fold mac2. rewrite <- Hsplit. done.
Qed.
End SendCorrect.

(** ** What is received *)

(** The search ends at the entry of type 0 whatever the received type is. *)
Lemma sonmp_chassis_found rchassis : is_Some (sonmp_chassis_find sonmp_chassis_types rchassis).
Proof.
  assert (∀ l, existsb (λ t, t.1 =? 0) l = true → is_Some (sonmp_chassis_find l rchassis)) as H.
  { induction l as [|[t d] l IH]; unfold sonmp_chassis_find; fold sonmp_chassis_find; cbn; [done|].
    intros Hl. destruct (t =? 0); [by eexists|]. destruct (t =? rchassis); [by eexists|auto]. }
  by apply H.
Qed.

Section DecodeCorrect.
Variables (cfg : option lldpd_config) (frame : list Z).
#[local] Abbreviation safe m Q st := (wp m (λ _, False) (λ _ : cursor unit, True) Q st).

Lemma safe_sonmp_start s :
  30 ≤ zlen frame →
  safe (sonmp_start frame) (λ _ st, c_pos st = 22) {| c_pos := 0; c_length := s; c_ext := tt |}.
Proof.
  intros Hz. unfold sonmp_start. apply wp_bind, wp_gets, wp_bind, wp_check; [intros _|done].
  apply wp_bind, wp_bind, wp_peek_bytes; [done|done| |]; change (zlen SONMP_MULTICAST_ADDR) with 6;
    cbn [c_pos]; [intros _|lia].
  apply wp_ret, wp_bind, wp_check; [intros _|done].
  do 3 apply wp_bind, wp_modify. apply wp_bind, wp_bind, wp_peek_bytes; cbn; unfold ETHER_ADDR_LEN; [lia|done| |lia].
  intros _. by apply wp_ret, wp_check.
Qed.

(** When the receive buffer has at least 30 bytes [sonmp_decode] reads inside
    it, whatever the frame is and also when [s] only says 22, and none of its
    assertions fails. *)
Theorem sonmp_decode_in_bounds s hw f :
  30 ≤ zlen frame → sonmp_decode cfg frame s hw ≠ Crashed f.
Proof.
  intros Hz. unfold sonmp_decode.
  assert (safe (sonmp_decode_body cfg frame) (λ _ _, True)
    {| c_pos := 0; c_length := s; c_ext := tt |}) as Hsafe.
  { apply wp_bind. eapply wp_mono; [by apply safe_sonmp_start|]. intros _ [p l []] Hp.
    cbn in Hp. subst p.
    apply wp_bind, wp_peek_bytes; cbn; [done|done| |lia]. intros _.
    apply wp_bind, wp_peek_bytes; cbn; [done|done| |lia]. intros _.
    apply wp_bind, wp_bind, wp_peek_bytes; cbn; [done|done| |lia]. intros _. apply wp_ret.
    match goal with |- context [sonmp_chassis_find _ ?r] =>
      destruct (sonmp_chassis_found r) as [d ->] end.
    by apply wp_ret. }
  unfold wp in Hsafe. by destruct (sonmp_decode_body _ _ _) as [[]| |].
Qed.
End DecodeCorrect.

(** What the receiver of [sonmp_send]'s HELLO stores. *)
Definition sonmp_remote_chassis (cfg : option lldpd_config) (address : list Z) : lldpd_chassis :=
  chassis_zero<|c_id_subtype := LLDP_CHASSISID_SUBTYPE_ADDR|>
    <|c_id := Some (1 :: address)|><|c_name := Some (inet_ntoa address)|>
    <|c_descr := Some (chars "unknown (via SONMP)")|>
    <|c_mgmt := [{| m_family := LLDPD_AF_IPV4; m_addr := address ++ replicate 12 0;
                    m_addrsize := 4; m_iface := 0 |}]|>
    <|c_ttl := sonmp_ttl cfg|>.
Definition sonmp_remote_port (ifindex : Z) : lldpd_port :=
  port_zero<|p_id_subtype := LLDP_PORTID_SUBTYPE_LOCAL|>
    <|p_id := Some (sonmp_port_id 0 0 (u8 ifindex))|>
    <|p_descr := Some (chars "port " ++ decimal (u8 ifindex))|>.

Lemma sonmp_address_zlen chassis :
  Forall mgmt_ok (c_mgmt chassis) → zlen (sonmp_address chassis) = 4.
Proof.
  unfold sonmp_address. destruct (c_mgmt chassis) as [|m l]; [done|].
  intros [(_ & _ & Hz) _]%Forall_cons_iff. case_if; [|done].
  unfold zlen, LLDPD_MGMT_MAXADDRSIZE in *. rewrite length_take. lia.
Qed.

(** Any frame of the form [sonmp_bytes], up to the PID. *)
Lemma sonmp_start_exec hardware chassis mac pid pad s :
  zlen mac = 6 → SONMP_SIZE ≤ s →
  let frame := sonmp_bytes hardware chassis 0 mac pid ++ pad in
  sonmp_start frame {| c_pos := 0; c_length := s; c_ext := tt |} =
    check (u16 pid =? LLC_PID_SONMP_HELLO) {| c_pos := 22; c_length := s - 22; c_ext := tt |} ∧
  at_bytes frame 22 (sonmp_data hardware chassis ++ pad).
Proof.
  intros Hm Hs frame.
  set (pre := take 5 SONMP_MULTICAST_ADDR ++ [0] ++ mac ++ sonmp_llc ++ be16 pid).
  assert (frame = pre ++ sonmp_data hardware chassis ++ pad) as Hf
    by (unfold frame, sonmp_bytes, pre; by rewrite <- !app_assoc).
  assert (at_bytes frame 0 frame) as H0 by (split; [done|]; by exists []).
  split.
  - unfold sonmp_start. erewrite exec_bind by reflexivity.
    erewrite exec_bind by (apply exec_check; apply Z.leb_le; exact Hs).
    erewrite exec_bind.
    2: { unfold PEEK_CMP. eapply (exec_bytes frame 0 s tt _ SONMP_MULTICAST_ADDR);
           [exact H0|done|]. intros _. reflexivity. }
    rewrite bool_decide_true by done. erewrite exec_bind by reflexivity.
    do 3 apply exec_discard. cbn.
    apply (exec_uint16 frame 20 (s - 6 - 6 - 2 - 6) tt pid (sonmp_data hardware chassis ++ pad)).
    + split; [done|]. exists (take 5 SONMP_MULTICAST_ADDR ++ [0] ++ mac ++ sonmp_llc).
      unfold frame, sonmp_bytes. rewrite <- !app_assoc. split; [done|].
      rewrite !zlen_app, Hm. done.
    + intros _. f_equal. f_equal. lia.
  - split; [done|]. exists pre. split; [done|]. unfold pre. rewrite !zlen_app, Hm. done.
Qed.

(** The receiver of a HELLO frame of [sonmp_send] (with any source address and
      any padding) recovers the management address and the interface index of
      the sender, and its own configuration gives the time to live. *)
Theorem sonmp_roundtrip cfg hardware chassis mac pad s hw :
  Forall mgmt_ok (c_mgmt chassis) → zlen mac = 6 → SONMP_SIZE ≤ s →
  sonmp_decode cfg (sonmp_bytes hardware chassis 0 mac LLC_PID_SONMP_HELLO ++ pad) s hw =
    Decoded (sonmp_remote_chassis cfg (sonmp_address chassis))
            (sonmp_remote_port (h_ifindex hardware)) hw.
Proof.
  intros Hmg Hm Hs. unfold sonmp_decode, sonmp_decode_body. set (frame := _ ++ pad).
  destruct (sonmp_start_exec hardware chassis mac LLC_PID_SONMP_HELLO pad s Hm Hs) as [Hst Hat].
  fold frame in Hst, Hat. erewrite exec_bind by exact Hst.
  unfold sonmp_data in Hat. rewrite <- !app_assoc in Hat.
  set (body := _ ≫= _).
  assert (∃ st, body {| c_pos := 22; c_length := s - 22; c_ext := tt |} =
    Ok (sonmp_remote_chassis cfg (sonmp_address chassis), sonmp_remote_port (h_ifindex hardware)) st)
    as [st ->]; [|done]. subst body.
  eexists. pose proof (sonmp_address_zlen chassis Hmg) as Hz.
  eapply exec_bytes; [exact Hat|by rewrite Hz|]. clear Hat. intros Hat.
  eapply (exec_bytes _ _ _ _ _ [_; _; _]); [exact Hat|done|]. clear Hat. intros Hat.
  eapply exec_uint8; [exact Hat|]. intros _. cbn -[u8 take].
  unfold sonmp_remote_chassis, sonmp_remote_port, sonmp_port_descr. cbn -[u8 take].
  rewrite take_ge by (unfold zlen in Hz; lia). reflexivity.
Qed.

(** The second frame of [sonmp_send] is never taken for a neighbor: a receiver
      discards it, so one announcement registers one neighbor. *)
Theorem sonmp_flatnet_discarded cfg hardware chassis mac pad s hw :
  zlen mac = 6 → SONMP_SIZE ≤ s →
  sonmp_decode cfg (sonmp_bytes hardware chassis 1 mac LLC_PID_SONMP_FLATNET ++ pad) s hw =
    Discarded hw.
Proof.
  intros Hm Hs. unfold sonmp_decode, sonmp_decode_body. set (frame := _ ++ pad).
  assert (sonmp_start frame {| c_pos := 0; c_length := s; c_ext := tt |} =
    Malformed {| c_pos := 6; c_length := s - 6; c_ext := tt |}) as Hst.
  { unfold sonmp_start. erewrite exec_bind by reflexivity.
    erewrite exec_bind by (apply exec_check; apply Z.leb_le; exact Hs).
    erewrite exec_bind.
    2: { unfold PEEK_CMP. eapply (exec_bytes frame 0 s tt _ [0x01; 0x00; 0x81; 0x00; 0x01; 0x01]);
           [split; [done|]; by exists []|done|]. intros _. reflexivity. }
    rewrite bool_decide_false by done. done. }
  unfold mbind, decoder_bind. by rewrite Hst.
Qed.

(** The decoded port is not attached, and the hardware is left alone. *)
Lemma sonmp_decode_contract cfg frame s hw :
  match sonmp_decode cfg frame s hw with
  | Decoded _ q hw' => p_chassis q = None ∧ hw' = hw
  | Discarded hw' => hw' = hw
  | Crashed _ => True
  end.
Proof.
  unfold sonmp_decode.
  assert (wp (sonmp_decode_body cfg frame) (λ _, True) (λ _, True) (λ r _, p_chassis r.2 = None)
    {| c_pos := 0; c_length := s; c_ext := tt |}) as Hw.
  { unfold sonmp_decode_body. do 4 (apply wp_bind; unfold wp at 1; case_match; [|done|done]).
    case_match; [|done]. by case_match. }
  unfold wp in Hw. by destruct (sonmp_decode_body _ _ _) as [[c q] st| |].
Qed.
