(* ===== verification/EdpSend.v ===== *)
(** * Sending EDP frames (src/daemon/edp.c, [edp_send])

    [edp_send] sends one frame with the name and the slot of the interface
    (state 0), then one with its VLANs if there are any (state 1); the static
    counter [seq] numbers them.  [edp_build] is the construction of one frame,
    [edp_bytes] the frame as a value. *)

From S2P Require Import Prelude Bytes Text Const Structs Frame FramePatch Checksum Interfaces.
From S2P Require Import LldpSend.
From stdpp Require Import strings.
#[local] Open Scope Z_scope.

Definition EINVAL : Z := 22.
Definition edp_fakeversion : list Z := [7; 6; 4; 99].
Definition deviceslot : list (list Z) :=
  map chars ["eth"; "veth"; "XXX"; "XXX"; "XXX"; "XXX"; "XXX"; "XXX"; ""]%string.

Inductive edp_built :=
  | EdpPacket (packet : list Z)
  | EdpTooBig
  | EdpInval         (** the chassis ID is not a MAC address *)
  | EdpNull          (** [strlen] of a NULL name: the process crashes *)
  | EdpNoVlan.       (** no VLAN, no need to send another frame *)

(** [static int seq; seq++], in 32 bits. *)
Definition seq_next (seq : Z) : Z := if seq =? 2 ^ 31 - 1 then - 2 ^ 31 else seq + 1.

(** Not a return code of [edp_send]: the process is gone. *)
Definition CRASHED : Z := -1.

Section Send.
Context `{BuildConfig}.
#[local] Open Scope poke_scope.
Variables (global : lldpd_config) (hardware : lldpd_hardware) (chassis : lldpd_chassis).
#[local] Abbreviation port := (h_lport hardware).

(** The loop over [deviceslot]: the slot and the number of the interface. *)
Fixpoint edp_find_slot (slots : list (list Z)) (i : Z) : option (Z * Z) :=
  match slots with
  | [] => None
  | slot :: slots' =>
      if has_prefix slot (h_ifname hardware)
      then Some (i, atoi (drop (length slot) (h_ifname hardware)))
      else edp_find_slot slots' (i + 1)
  end.
(** If we don't find a slot, we say that the interface is in slot 8. *)
Definition edp_slot : Z * Z :=
  match edp_find_slot deviceslot 0 with
  | Some s => s
  | None => (8, h_ifindex hardware)
  end.

Definition edp_llc : poke :=
  POKE_UINT8 0xaa && POKE_UINT8 0xaa && POKE_UINT8 0x03 &&
  POKE_BYTES LLC_ORG_EXTREME && POKE_UINT16 LLC_PID_EDP.

Definition edp_info : poke :=
  EDP_TLV EDP_TLV_DISPLAY (POKE_BYTES (str_bytes (c_name chassis)) && POKE_UINT8 0) &&
  EDP_TLV EDP_TLV_INFO
    (POKE_UINT16 (edp_slot.1) && POKE_UINT16 (edp_slot.2) &&
     POKE_UINT16 0 && POKE_UINT32 0 && POKE_UINT16 0 &&
     POKE_BYTES edp_fakeversion && POKE_UINT32 0xffffffff &&
     POKE_UINT32 0 && POKE_UINT32 0 && POKE_UINT32 0).
Definition edp_vlan (vlan : lldpd_vlan) : poke :=
  EDP_TLV EDP_TLV_VLAN
    (POKE_UINT8 0 && POKE_UINT8 0 && POKE_UINT16 (v_vid vlan) && POKE_UINT32 0 &&
     POKE_UINT32 0 && POKE_BYTES (cstr (v_name vlan)) && POKE_UINT8 0).
(** The [switch (state)]. *)
Definition edp_state (state : Z) : poke :=
  if state =? 0 then edp_info
  else if state =? 1 then poke_each edp_vlan (p_vlans port) else poke_skip.

Definition edp_id_is_mac : bool :=
  ((zlen (default [] (c_id chassis)) =? ETHER_ADDR_LEN) &&
   (c_id_subtype chassis =? LLDP_CHASSISID_SUBTYPE_LLADDR))%bool.

(** The name is not tested before [strlen], which is called when the TLV can start. *)
Definition edp_name_fault (state : Z) (st : pkt) : bool :=
  ((state =? 0) && bool_decide (c_name chassis = None) &&
   bool_decide (is_Some (POKE_START_EDP_TLV EDP_TLV_DISPLAY st)))%bool.

(** The NULL TLV, the lengths and the checksum. *)
Definition edp_finish (pos_len_eh pos_llc pos_edp pos_len_edp : Z) (st : pkt) : option (list Z) :=
  st ← EDP_TLV EDP_TLV_NULL poke_skip st;
  let end_ := pk_pos st in
  let i := end_ - pos_llc in
  let v := end_ - pos_edp in
  st ← (POKE_RESTORE pos_len_eh && POKE_UINT16 i) st;
  st ← (POKE_RESTORE pos_len_edp && POKE_UINT16 v) st;
  let checksum := frame_checksum (pkt_sub st pos_edp v) false in
  st ← POKE_UINT16 (ntohs checksum) st;
  Some (pkt_upto st end_).

(** One iteration of the [while]: the packet, and [seq] afterwards. *)
Definition edp_build (mtu state seq : Z) : edp_built * Z :=
  match (POKE_BYTES EDP_MULTICAST_ADDR && POKE_BYTES (h_lladdr hardware)) (pkt_init mtu) with
  | None => (EdpTooBig, seq)
  | Some st =>
      let pos_len_eh := pk_pos st in
      match POKE_UINT16 0 st with
      | None => (EdpTooBig, seq)
      | Some st =>
          let pos_llc := pk_pos st in
          match edp_llc st with
          | None => (EdpTooBig, seq)
          | Some st =>
              if negb edp_id_is_mac then (EdpInval, seq)
              else
                let pos_edp := pk_pos st in
                match (POKE_UINT8 1 && POKE_UINT8 0) st with
                | None => (EdpTooBig, seq)
                | Some st =>
                    let pos_len_edp := pk_pos st in
                    match (POKE_UINT32 0 && POKE_UINT16 seq && POKE_UINT16 0 &&
                           POKE_BYTES (default [] (c_id chassis))) st with
                    | None => (EdpTooBig, seq)
                    | Some st =>
                        let seq := seq_next seq in
                        if edp_name_fault state st then (EdpNull, seq) else
                        match edp_state state st with
                        | None => (EdpTooBig, seq)
                        | Some st =>
                            if ((state =? 1) && (zlen (p_vlans port) =? 0))%bool
                            then (EdpNoVlan, seq)
                            else
                              match edp_finish pos_len_eh pos_llc pos_edp pos_len_edp st with
                              | None => (EdpTooBig, seq)
                              | Some packet => (EdpPacket packet, seq)
                              end
                        end
                    end
                end
          end
      end
  end.

(** The [while (state != 2)] loop, over the states that remain. *)
Fixpoint edp_loop (h_ops_send : list Z → Z) (states : list Z) (seq : Z) : Z * Z * list (list Z) :=
  match states with
  | [] => (0, seq, [])
  | state :: states' =>
      let '(built, seq) := edp_build (h_mtu hardware) state seq in
      match built with
      | EdpTooBig => (E2BIG, seq, [])
      | EdpInval => (EINVAL, seq, [])
      | EdpNull => (CRASHED, seq, [])
      | EdpNoVlan => (0, seq, [])
      | EdpPacket packet =>
          let '(rc, packet) := interfaces_send_helper global hardware h_ops_send packet in
          if rc =? -1 then (ENETDOWN, seq, [packet])
          else
            let '(rc, seq, packets) := edp_loop h_ops_send states' seq in
            (rc, seq, packet :: packets)
      end
  end.

(** [edp_send], with [seq] and the packets handed to the driver. *)
Definition edp_send (h_ops_send : list Z → Z) (seq : Z) : Z * lldpd_hardware * Z * list (list Z) :=
  let '(rc, seq, packets) := edp_loop h_ops_send [0; 1] seq in
  (rc, if rc =? 0 then hardware<|h_tx_cnt ::= λ n, (n + 1) mod 2 ^ 64|> else hardware, seq, packets).

(** ** The frame as a value *)

Definition edp_vlan_tlv (vlan : lldpd_vlan) : Z * list Z :=
  (EDP_TLV_VLAN, [0; 0] ++ be16 (v_vid vlan) ++ be32 0 ++ be32 0 ++ cstr (v_name vlan) ++ [0]).
Definition edp_tlvs (state : Z) : list (Z * list Z) :=
  (if state =? 0 then
     [(EDP_TLV_DISPLAY, str_bytes (c_name chassis) ++ [0]);
      (EDP_TLV_INFO, be16 (edp_slot.1) ++ be16 (edp_slot.2) ++ be16 0 ++ be32 0 ++ be16 0 ++
         edp_fakeversion ++ be32 0xffffffff ++ be32 0 ++ be32 0 ++ be32 0)]
   else if state =? 1 then map edp_vlan_tlv (p_vlans port) else []) ++
  [(EDP_TLV_NULL, [])].
Definition enc_edp_tlvs (l : list (Z * list Z)) : list Z := flat_map (λ t, enc_edp_tlv t.1 t.2) l.

(** What follows the checksum. *)
Definition edp_rest (state seq : Z) : list Z :=
  be16 seq ++ be16 0 ++ default [] (c_id chassis) ++ enc_edp_tlvs (edp_tlvs state).
Definition edp_length (state seq : Z) : Z := 6 + zlen (edp_rest state seq).
Definition edp_payload (state seq cksum : Z) : list Z :=
  [1; 0] ++ be16 (edp_length state seq) ++ be16 cksum ++ edp_rest state seq.
Definition edp_checksum (state seq : Z) : Z := ntohs (frame_checksum (edp_payload state seq 0) false).
Definition edp_llc_bytes : list Z := [0xaa; 0xaa; 0x03] ++ LLC_ORG_EXTREME ++ be16 LLC_PID_EDP.
Definition edp_bytes (state seq : Z) : list Z :=
  EDP_MULTICAST_ADDR ++ h_lladdr hardware ++ be16 (8 + edp_length state seq) ++
  edp_llc_bytes ++ edp_payload state seq (edp_checksum state seq).

(** ** Correctness *)

Instance emits_edp_vlan vlan : Emits (edp_vlan vlan) (enc_edp_tlv (edp_vlan_tlv vlan).1 (edp_vlan_tlv vlan).2).
Proof.
  eapply emits_eq; [apply _|]. cbn [edp_vlan_tlv fst snd]. by rewrite <- !app_assoc.
Qed.

Definition edp_null : list Z := enc_edp_tlv EDP_TLV_NULL [].

(** The TLVs before the NULL one. *)
Lemma emits_edp_state state :
  ∃ bs, Emits (edp_state state) bs ∧ bs ++ edp_null = enc_edp_tlvs (edp_tlvs state).
Proof.
  unfold edp_state, edp_tlvs, enc_edp_tlvs. rewrite flat_map_app. cbn [flat_map fst snd].
  rewrite app_nil_r. fold edp_null. eexists. split; [apply _|]. f_equal.
  destruct (state =? 0); [cbn [flat_map fst snd]; by rewrite app_nil_r, <- !app_assoc|].
  destruct (state =? 1); [|done]. cbn beta. by rewrite flat_map_concat_map, flat_map_concat_map, map_map.
Qed.

Lemma emits_edp_llc : Emits edp_llc edp_llc_bytes.
Proof. eapply emits_eq; [apply _|]. unfold edp_llc_bytes. by rewrite <- !app_assoc. Qed.

#[local] Abbreviation ether := (EDP_MULTICAST_ADDR ++ h_lladdr hardware).

Lemma edp_bytes_zlen state seq : zlen (edp_bytes state seq) = zlen ether + 10 + edp_length state seq.
Proof.
  unfold edp_bytes, edp_payload, edp_length. rewrite !zlen_app, !be16_zlen.
  change (zlen edp_llc_bytes) with 8. change (zlen [1; 0]) with 2. lia.
Qed.

(** Filling in the two lengths and the checksum. *)
Lemma edp_patch mtu st state seq :
  let pre := ether ++ be16 0 ++ edp_llc_bytes in
  packet mtu st (pre ++ [1; 0] ++ be16 0 ++ be16 0 ++ edp_rest state seq) →
  (st ← (POKE_RESTORE (zlen ether) && POKE_UINT16 (8 + edp_length state seq)) st;
   st ← (POKE_RESTORE (zlen pre + 2) && POKE_UINT16 (edp_length state seq)) st;
   let checksum := frame_checksum (pkt_sub st (zlen pre) (edp_length state seq)) false in
   st ← POKE_UINT16 (ntohs checksum) st;
   Some (pkt_upto st (zlen (edp_bytes state seq)))) = Some (edp_bytes state seq).
Proof.
  intros pre Hp. unfold POKE_UINT16. set (n := edp_length state seq). set (a := ether) in *.
  destruct (patch_bytes mtu st a (be16 0)
    (edp_llc_bytes ++ [1; 0] ++ be16 0 ++ be16 0 ++ edp_rest state seq) (be16 (8 + n)))
    as (st1 & -> & Hp1); [unfold pre in Hp; rewrite <- !app_assoc in Hp; exact Hp|done|].
  cbn [mbind option_bind].
  set (b := a ++ be16 (8 + n) ++ edp_llc_bytes).
  assert (zlen pre = zlen b) as -> by (unfold pre, b; by rewrite !zlen_app, !be16_zlen).
  replace (zlen b + 2) with (zlen (b ++ [1; 0])) by (rewrite zlen_app; done).
  destruct (patch_bytes_pos mtu st1 (b ++ [1; 0]) (be16 0) (be16 0 ++ edp_rest state seq) (be16 n))
    as (st2 & -> & Hp2 & Hpos2); [unfold b; rewrite <- !app_assoc; exact Hp1|done|].
  cbn [mbind option_bind].
  assert (pkt_sub st2 (zlen b) n = edp_payload state seq 0) as ->.
  { replace n with (zlen (edp_payload state seq 0)).
    2: { unfold n, edp_payload, edp_length. rewrite !zlen_app, !be16_zlen.
         change (zlen [1; 0]) with 2. lia. }
    apply (packet_sub mtu). rewrite <- !app_assoc in Hp2. exact Hp2. }
  fold (edp_checksum state seq).
  destruct (poke_over mtu st2 ((b ++ [1; 0]) ++ be16 n) (be16 0) (edp_rest state seq)
    (be16 (edp_checksum state seq))) as (st3 & -> & Hp3 & _).
  { rewrite <- (app_assoc (b ++ [1; 0])). exact Hp2. } { by rewrite Hpos2, <- zlen_app. } { done. }
  cbn [mbind option_bind].
  assert (((b ++ [1; 0]) ++ be16 n) ++ be16 (edp_checksum state seq) ++ edp_rest state seq
    = edp_bytes state seq) as Heq
    by (unfold b, a, edp_bytes, edp_payload; by rewrite <- !app_assoc).
  rewrite Heq in Hp3. by rewrite (packet_upto _ _ _ Hp3).
Qed.

Lemma edp_finish_spec mtu st state seq r :
  let pre := ether ++ be16 0 ++ edp_llc_bytes in
  holds mtu st (pre ++ [1; 0] ++ be16 0 ++ be16 0 ++ r) →
  r ++ edp_null = edp_rest state seq →
  edp_finish (zlen ether) (zlen ether + 2) (zlen pre) (zlen pre + 2) st =
    if zlen (edp_bytes state seq) <=? mtu then Some (edp_bytes state seq) else None.
Proof.
  intros pre Hst Hr. unfold edp_finish. rewrite edp_bytes_zlen. unfold edp_length.
  assert (zlen pre = zlen ether + 10) as Hpre by (unfold pre; rewrite !zlen_app; done).
  destruct (holds_emits mtu _ _ _ _ Hst (emits_edp_tlv EDP_TLV_NULL poke_skip [] _))
    as [[Hle (st' & -> & [Hp Hpos])]|[Hlt ->]]; fold edp_null in *;
    rewrite <- !app_assoc, Hr in *; cbn [mbind option_bind].
  - assert (zlen (pre ++ [1; 0] ++ be16 0 ++ be16 0 ++ edp_rest state seq) =
      zlen ether + 10 + (6 + zlen (edp_rest state seq))) as Hz
      by (rewrite zlen_app, Hpre, !zlen_app, !be16_zlen; change (zlen [1; 0]) with 2; lia).
    rewrite (proj2 (Z.leb_le _ _)) by lia. rewrite Hpos, Hz.
    replace (_ - (zlen ether + 2)) with (8 + edp_length state seq) by (unfold edp_length; lia).
    replace (_ - zlen pre) with (edp_length state seq) by (unfold edp_length; lia).
    replace (zlen ether + 10 + _) with (zlen (edp_bytes state seq))
      by (rewrite edp_bytes_zlen; unfold edp_length; lia).
    apply (edp_patch mtu); done.
  - rewrite (proj2 (Z.leb_gt _ _)); [done|].
    rewrite zlen_app, Hpre, !zlen_app, !be16_zlen in Hlt.
    change (zlen [1; 0]) with 2 in Hlt. rewrite zlen_app. lia.
Qed.

Definition edp_no_vlan (state : Z) : bool := (state =? 1) && (zlen (p_vlans port) =? 0).

Lemma edp_build_spec mtu state seq :
  0 ≤ mtu → edp_id_is_mac = true → (state = 0 → c_name chassis ≠ None) →
  if zlen (edp_bytes state seq) <=? mtu
  then edp_build mtu state seq =
    (if edp_no_vlan state then EdpNoVlan else EdpPacket (edp_bytes state seq), seq_next seq)
  else edp_no_vlan state = false → (edp_build mtu state seq).1 = EdpTooBig.
Proof.
  intros Hm Hid Hname. destruct (emits_edp_state state) as (bs & Hbs & Hnull).
  assert (∀ st, edp_name_fault state st = false) as Hnf.
  { intros st. unfold edp_name_fault. destruct (Z.eqb_spec state 0) as [->|]; [|done].
    by rewrite bool_decide_false by (by apply Hname). }
  pose proof (edp_bytes_zlen state seq) as Hz. unfold edp_length, edp_rest in Hz.
  rewrite <- Hnull in Hz. rewrite !zlen_app, !be16_zlen in Hz.
  pose proof (zlen_nonneg EDP_MULTICAST_ADDR). pose proof (zlen_nonneg (h_lladdr hardware)).
  pose proof (zlen_nonneg bs). pose proof (zlen_nonneg edp_null).
  pose proof (zlen_nonneg (default [] (c_id chassis))).
  pose proof (holds_init mtu Hm) as Hst0. unfold edp_build.
  fits (_ : Emits (POKE_BYTES EDP_MULTICAST_ADDR && POKE_BYTES (h_lladdr hardware)) ether);
    [|rewrite zlen_nil in *; lia].
  fits (writes_emits _ _ (writes_uint16 0)); [|lia].
  assert (zlen edp_llc_bytes = 8 ∧ zlen [u8 1; u8 0] = 2 ∧ zlen [u8 1] = 1 ∧ zlen [u8 0] = 1)
    as (Hllc & Hv & Hv1 & Hv0) by done.
  fits emits_edp_llc; [|lia].
  rewrite Hid. cbn [negb].
  fits (_ : Emits (POKE_UINT8 1 && POKE_UINT8 0) ([u8 1] ++ [u8 0])); [|lia].
  fits (_ : Emits (POKE_UINT32 0 && POKE_UINT16 seq && POKE_UINT16 0 &&
    POKE_BYTES (default [] (c_id chassis))) (((be32 0 ++ be16 seq) ++ be16 0) ++ default [] (c_id chassis)));
    [|rewrite be32_zlen in *; lia].
  rewrite Hnf. fits Hbs; [|rewrite be32_zlen in *; lia].
  fold (edp_no_vlan state).
  destruct Hst as [_ ->], Hst1 as [_ ->], Hst2 as [_ ->], Hst3 as [_ ->].
  rewrite (zlen_app _ [u8 1; u8 0]), Hv, (zlen_app ether (be16 0)), be16_zlen, <- (app_assoc ether).
  rewrite (edp_finish_spec mtu _ state seq
    (be16 seq ++ be16 0 ++ default [] (c_id chassis) ++ bs)).
  - destruct (Z.leb_spec (zlen (edp_bytes state seq)) mtu); [|by intros ->].
    by destruct (edp_no_vlan state).
  - rewrite <- !app_assoc. rewrite <- !app_assoc in Hst5. exact Hst5.
  - unfold edp_rest. by rewrite <- Hnull, <- !app_assoc.
Qed.

(** The frame with the source address the driver sees. *)
Definition edp_sent (state seq : Z) : list Z :=
  EDP_MULTICAST_ADDR ++ sent_mac global hardware (h_lladdr hardware) ++
  drop 12 (edp_bytes state seq).

Lemma edp_send_frame send state seq :
  zlen (h_lladdr hardware) = 6 →
  interfaces_send_helper global hardware send (edp_bytes state seq) =
    (send (edp_sent state seq), edp_sent state seq).
Proof.
  intros Hmac. unfold edp_sent.
  assert (∀ tl, drop 12 (ether ++ tl) = tl) as Hdrop.
  { intros tl. replace 12%nat with (length ether); [apply drop_app_length|].
    unfold zlen in Hmac. rewrite length_app. cbn. lia. }
  unfold edp_bytes. rewrite (app_assoc EDP_MULTICAST_ADDR _ (be16 _ ++ _)), !Hdrop, <- app_assoc.
  by rewrite interfaces_send_frame.
Qed.

(** With a MAC address as chassis ID and frames that fit in the MTU, [edp_send]
    sends the name frame, then the VLAN frame exactly when the port has VLANs,
    numbered one after the other; a transmission error stops it, and the
    counter counts the whole announcement once. *)
Theorem edp_send_correct send seq :
  0 ≤ h_mtu hardware → zlen (h_lladdr hardware) = 6 → edp_id_is_mac = true → c_name chassis ≠ None →
  zlen (edp_bytes 0 seq) ≤ h_mtu hardware → zlen (edp_bytes 1 (seq_next seq)) ≤ h_mtu hardware →
  let f0 := edp_sent 0 seq in
  let f1 := edp_sent 1 (seq_next seq) in
  let hw' := hardware<|h_tx_cnt ::= λ n, (n + 1) mod 2 ^ 64|> in
  edp_send send seq =
    if send f0 =? -1 then (ENETDOWN, hardware, seq_next seq, [f0])
    else if zlen (p_vlans port) =? 0 then (0, hw', seq_next (seq_next seq), [f0])
    else if send f1 =? -1 then (ENETDOWN, hardware, seq_next (seq_next seq), [f0; f1])
    else (0, hw', seq_next (seq_next seq), [f0; f1]).
Proof.
  intros Hm Hmac Hid Hname H0 H1 f0 f1 hw'. unfold edp_send. cbn [edp_loop].
  pose proof (edp_build_spec (h_mtu hardware) 0 seq Hm Hid (λ _, Hname)) as Hb0.
  pose proof (edp_build_spec (h_mtu hardware) 1 (seq_next seq) Hm Hid ltac:(done)) as Hb1.
  rewrite (proj2 (Z.leb_le _ _) H0) in Hb0. rewrite (proj2 (Z.leb_le _ _) H1) in Hb1.
  change (edp_no_vlan 1) with (zlen (p_vlans port) =? 0) in Hb1. rewrite Hb0.
  change (edp_no_vlan 0) with false. cbv iota beta. rewrite edp_send_frame by done. fold f0.
  destruct (send f0 =? -1); [done|]. rewrite Hb1.
  destruct (zlen (p_vlans port) =? 0); [done|]. rewrite edp_send_frame by done. fold f1.
  by destruct (send f1 =? -1).
Qed.

(** C33: [edp_send] never announces a chassis whose identifier is not a MAC address:
    it fails with [EINVAL] (or because even the headers do not fit) before
    anything is handed to the driver and without using a sequence number. *)
Theorem edp_send_refuses send seq :
  edp_id_is_mac = false →
  ∃ rc, (rc = EINVAL ∨ rc = E2BIG) ∧ edp_send send seq = (rc, hardware, seq, []).
Proof.
  intros Hid. unfold edp_send. cbn [edp_loop]. unfold edp_build. rewrite Hid. cbn [negb].
  repeat (case_match; simplify_eq/=); eauto.
Qed.

(** A receiver that checks the EDP checksum accepts every frame of [edp_send],
    on hosts of both byte orders. *)
Theorem edp_checksum_valid state seq :
  bytes_ok (edp_rest state seq) → zlen (edp_rest state seq) ≤ 131000 →
  frame_checksum (edp_payload state seq (edp_checksum state seq)) false = 0.
Proof.
  intros Hb Hl. unfold edp_checksum, edp_payload.
  apply (checksum_self ([1; 0] ++ be16 (edp_length state seq))); [|done|done|].
  - apply Forall_app. split; [by repeat constructor|apply be16_bytes].
  - rewrite zlen_app. change (zlen [1; 0]) with 2. rewrite be16_zlen. lia.
Qed.
End Send.
