(* ===== verification/Bits.v ===== *)
(** * Bit fields

    The code packs and unpacks bit fields with shifts and masks.  These lemmas
    turn both directions into arithmetic: fields that do not overlap add up, and
    a mask followed by a shift is a quotient and a remainder. *)

From S2P Require Import Prelude Bytes Frame LldpSend.
#[local] Open Scope Z_scope.

Lemma field_small v w s : 0 ≤ w → 0 ≤ v < 2 ^ w → field v w s = Z.shiftl v s.
Proof.
  intros Hw Hv. unfold field. rewrite (Z.shiftl_mul_pow2 1) by lia.
  by rewrite Z.mul_1_l, Z.rem_small.
Qed.

(** A field placed below another one. *)
Lemma lor_shiftl_shiftl a b j k :
  0 ≤ k → 0 ≤ j → 0 ≤ b < 2 ^ j →
  Z.lor (Z.shiftl a (k + j)) (Z.shiftl b k) = Z.shiftl (a * 2 ^ j + b) k.
Proof.
  intros Hk Hj Hb. rewrite Z.add_comm, <- Z.shiftl_shiftl, <- Z.shiftl_lor by lia. f_equal.
  rewrite <- Z.add_nocarry_lor by (by apply land_shiftl_small).
  by rewrite Z.shiftl_mul_pow2.
Qed.

(** [(v & mask) >> s] where the mask has [w] bits from bit [s] on. *)
Lemma shiftr_land_field v w s :
  0 ≤ w → 0 ≤ s →
  Z.shiftr (Z.land v (Z.shiftl (Z.ones w) s)) s = (v / 2 ^ s) mod 2 ^ w.
Proof.
  intros Hw Hs. rewrite Z.shiftr_land, Z.shiftr_shiftl_l, Z.sub_diag, Z.shiftl_0_r by lia.
  by rewrite Z.land_ones, Z.shiftr_div_pow2.
Qed.

(** [v & (1 << s)] is a test of bit [s]. *)
Lemma land_bit v s : 0 ≤ s → Z.land v (Z.shiftl 1 s) = ((v / 2 ^ s) mod 2) * 2 ^ s.
Proof.
  intros Hs. pose proof (shiftr_land_field v 1 s ltac:(lia) Hs) as Hf.
  change (Z.ones 1) with 1 in Hf. change (2 ^ 1) with 2 in Hf. rewrite <- Hf.
  rewrite Z.shiftr_land, Z.shiftr_shiftl_l, Z.sub_diag, Z.shiftl_0_r by lia.
  rewrite <- Z.shiftl_mul_pow2, Z.shiftl_land by lia.
  apply Z.bits_inj'. intros m Hm. rewrite !Z.land_spec.
  destruct (Z.lt_ge_cases m s).
  - by rewrite (Z.shiftl_spec_low 1), !andb_false_r by done.
  - f_equal. rewrite Z.shiftl_spec, Z.shiftr_spec by lia. f_equal. lia.
Qed.

Lemma land_bit_eqb v s :
  0 ≤ s → (Z.land v (Z.shiftl 1 s) =? 0) = ((v / 2 ^ s) mod 2 =? 0).
Proof.
  intros Hs. rewrite land_bit by done. pose proof (Z.pow_pos_nonneg 2 s).
  destruct (Z.eqb_spec ((v / 2 ^ s) mod 2) 0) as [->|Hne]; [done|].
  apply Z.eqb_neq. lia.
Qed.
