(* ===== verification/LldpReads.v ===== *)
(** * What [lldp_decode] learns from a list of TLVs

    [Reads ts f] says that the decoding loop, started on the encoding of the
    TLVs [ts], consumes it completely and changes what is known of the neighbor
    (the [view]) by [f], whatever follows in the frame.  The statement composes
    over lists, like [Emits] does for the sender; the lemmas of this file give
    [f] for every TLV [lldp_send] can produce. *)

From S2P Require Import Prelude Bytes Const Structs Decoder Frame LldpSend LldpSpec LldpDecode Bits.
#[local] Open Scope Z_scope.

(** The locals of the decoder without its scratch buffer. *)
Record view := {
  w_chassis : lldpd_chassis;
  w_port : lldpd_port;
  w_ttl : bool
}.
#[global] Instance eta_view : Settable view := λ r,
  {| w_chassis := w_chassis r; w_port := w_port r; w_ttl := w_ttl r |}.

Definition locals (w : view) (buf : list (option Z)) : lldp_locals :=
  {| l_chassis := w_chassis w; l_port := w_port w; l_gotend := false;
     l_ttl_received := w_ttl w; l_addr_str_buffer := buf; l_unrecognized := 0 |}.

Definition on_chassis (g : lldpd_chassis → lldpd_chassis) (w : view) : view :=
  w<|w_chassis ::= g|>.
Definition on_port (g : lldpd_port → lldpd_port) (w : view) : view :=
  w<|w_port ::= g|>.

Lemma zlen_org_dot1 : zlen LLDP_TLV_ORG_DOT1 = 3. Proof. done. Qed.
Lemma zlen_org_dot3 : zlen LLDP_TLV_ORG_DOT3 = 3. Proof. done. Qed.
Lemma zlen_org_med : zlen LLDP_TLV_ORG_MED = 3. Proof. done. Qed.
#[export] Hint Rewrite zlen_org_dot1 zlen_org_dot3 zlen_org_med : zlen.

Section Reads.
Context `{BuildConfig} (frame : list Z).
#[local] Abbreviation run m Q := (wp m (λ _, False) (λ _, False) Q).
#[local] Abbreviation loop fuel := (while fuel lldp_more (lldp_decode_tlv frame)).

Definition Reads (ts : list tlv) (f : view → view) : Prop :=
  ∀ fuel p l w buf rest,
    at_bytes frame p (enc_tlvs ts ++ rest) → length buf = 32%nat →
    zlen (enc_tlvs ts) ≤ l →
    ∃ buf', length buf' = 32%nat ∧
      loop (length ts + fuel)%nat (Build_cursor p l (locals w buf)) =
      loop fuel (Build_cursor (p + zlen (enc_tlvs ts)) (l - zlen (enc_tlvs ts))
                              (locals (f w) buf')).

(** One TLV value: the decoder reads at most the value and extends the view. *)
Definition ReadsValue (ty : Z) (val : list Z) (f : view → view) : Prop :=
  ∀ p l w buf rest,
    at_bytes frame p (val ++ rest) → length buf = 32%nat →
    run (decode_value frame ty (zlen val))
      (λ _ st, c_pos st ≤ p + zlen val ∧ c_pos st + c_length st = p + l ∧
         ∃ buf', length buf' = 32%nat ∧ c_ext st = locals (f w) buf')
      (Build_cursor p l (locals w buf)).

Lemma reads_nil : Reads [] id.
Proof.
  intros fuel p l w buf rest _ Hbuf _. exists buf. split; [done|].
  change (zlen (enc_tlvs [])) with 0. by rewrite Z.add_0_r, Z.sub_0_r.
Qed.

Lemma reads_app a b f g : Reads a f → Reads b g → Reads (a ++ b) (g ∘ f).
Proof.
  intros Ha Hb fuel p l w buf rest Hat Hbuf Hl.
  rewrite enc_tlvs_app in *. rewrite zlen_app in *. rewrite <- app_assoc in Hat.
  pose proof (zlen_nonneg (enc_tlvs a)). pose proof (zlen_nonneg (enc_tlvs b)).
  destruct (Ha (length b + fuel)%nat p l w buf _ Hat Hbuf) as (buf1 & Hbuf1 & Heq1); [lia|].
  apply at_bytes_app in Hat.
  destruct (Hb fuel _ (l - zlen (enc_tlvs a)) (f w) buf1 _ Hat Hbuf1)
    as (buf2 & Hbuf2 & Heq2); [lia|].
  exists buf2. split; [done|]. rewrite length_app, <- Nat.add_assoc, Heq1, Heq2.
  f_equal. f_equal; lia.
Qed.

Lemma reads_eq ts f g : Reads ts f → (∀ w, f w = g w) → Reads ts g.
Proof. intros Hf Hfg fuel p l w buf rest. rewrite <- Hfg. apply Hf. Qed.

Lemma reads_when (b : bool) ts f : Reads ts f → Reads (when b ts) (if b then f else id).
Proof. destruct b; [done|]. intros _. apply reads_nil. Qed.

Lemma reads_map {A} (g : A → tlv) (f : A → view → view) (l : list A) :
  Forall (λ x, Reads [g x] (f x)) l →
  Reads (map g l) (λ w, foldl (λ w x, f x w) w l).
Proof.
  induction 1 as [|x l Hx _ IH]; [apply reads_nil|].
  apply (reads_app [g x] _ _ _ Hx IH).
Qed.

Lemma enc_tlvs_single ty val : enc_tlvs [(ty, val)] = enc_lldp_tlv ty val.
Proof. apply app_nil_r. Qed.

(** The loop body, once the value is dealt with. *)
Lemma run_tlv ty val f p l w buf rest :
  0 ≤ ty < 128 → zlen val < 512 → ReadsValue ty val f →
  at_bytes frame p (enc_lldp_tlv ty val ++ rest) → length buf = 32%nat →
  zlen (enc_lldp_tlv ty val) ≤ l →
  ∃ buf', length buf' = 32%nat ∧
    lldp_decode_tlv frame (Build_cursor p l (locals w buf)) =
    Ok tt (Build_cursor (p + zlen (enc_lldp_tlv ty val)) (l - zlen (enc_lldp_tlv ty val))
                        (locals (f w) buf')).
Proof.
  intros Hty Hv Hval Hat Hbuf Hl. unfold enc_lldp_tlv in *. rewrite zlen_app, be16_zlen in *.
  pose proof (zlen_nonneg val). rewrite <- app_assoc in Hat.
  destruct (lldp_tlv_header_fields ty (zlen val)) as [Hf1 Hf2]; [lia..|].
  specialize (Hval (p + 2) (l - 2) w buf rest (at_bytes_app _ _ (be16 _) _ Hat) Hbuf).
  unfold wp in Hval.
  destruct (decode_value _ _ _ _) as [[] [p' l' e']| |] eqn:Hdec; [|done..].
  cbn [c_pos c_length c_ext] in Hval. destruct Hval as (Hp & Hpl & buf' & Hbuf' & ->).
  exists buf'. split; [done|]. unfold lldp_decode_tlv.
  erewrite exec_bind by done. cbn [c_length].
  erewrite exec_bind by (apply exec_check, Z.leb_le; lia).
  eapply exec_uint16; [exact Hat|]. intros _. cbv zeta. rewrite Hf1, Hf2.
  erewrite exec_bind by done. cbn [c_pos]. erewrite exec_bind by done. cbn [c_length].
  erewrite exec_bind by (apply exec_check, Z.leb_le; lia).
  erewrite exec_bind by exact Hdec. erewrite exec_bind by done. cbn [c_pos].
  erewrite exec_bind by (apply exec_check, Z.leb_le; lia).
  unfold PEEK_DISCARD; cbn [c_pos c_length c_ext]. f_equal. f_equal; lia.
Qed.

Lemma reads_value ty val f :
  0 ≤ ty < 128 → zlen val < 512 → ReadsValue ty val f → Reads [(ty, val)] f.
Proof.
  intros Hty Hv Hval fuel p l w buf rest. rewrite enc_tlvs_single. intros Hat Hbuf Hl.
  destruct (run_tlv ty val f p l w buf rest) as (buf' & Hbuf' & Hrun); [done..|].
  exists buf'. split; [done|]. apply exec_while_true; [|done].
  pose proof (zlen_nonneg val). unfold enc_lldp_tlv in Hl. rewrite zlen_app, be16_zlen in Hl.
  unfold lldp_more. cbn. by rewrite (proj2 (Z.eqb_neq l 0)) by lia.
Qed.

(** ** Stepping through a value whose bytes are known *)

Lemma run_bytes n a b (Q : list Z → cursor lldp_locals → Prop) p l e :
  at_bytes frame p (a ++ b) → n = zlen a →
  (at_bytes frame (p + n) b → Q a (Build_cursor (p + n) (l - n) e)) →
  run (PEEK_BYTES frame n) Q (Build_cursor p l e).
Proof.
  intros Hat Hn HQ. unfold wp. erewrite peek_bytes_at by done.
  apply HQ. rewrite Hn. by apply at_bytes_app.
Qed.

Lemma run_uint8 v b (Q : Z → cursor lldp_locals → Prop) p l e :
  at_bytes frame p ([v] ++ b) →
  (at_bytes frame (p + 1) b → Q v (Build_cursor (p + 1) (l - 1) e)) →
  run (PEEK_UINT8 frame) Q (Build_cursor p l e).
Proof. intros Hat HQ. by eapply wp_bind, run_bytes. Qed.

Lemma run_uint16 v b (Q : Z → cursor lldp_locals → Prop) p l e :
  at_bytes frame p (be16 v ++ b) →
  (at_bytes frame (p + 2) b → Q (u16 v) (Build_cursor (p + 2) (l - 2) e)) →
  run (PEEK_UINT16 frame) Q (Build_cursor p l e).
Proof.
  intros Hat HQ. eapply wp_bind, run_bytes; [done..|]. intros Hb.
  apply wp_ret. rewrite be16_value. auto.
Qed.

Lemma run_uint32 v b (Q : Z → cursor lldp_locals → Prop) p l e :
  at_bytes frame p (be32 v ++ b) →
  (at_bytes frame (p + 4) b → Q (u32 v) (Build_cursor (p + 4) (l - 4) e)) →
  run (PEEK_UINT32 frame) Q (Build_cursor p l e).
Proof.
  intros Hat HQ. eapply wp_bind, run_bytes; [done..|]. intros Hb.
  apply wp_ret. rewrite be32_value. auto.
Qed.

Lemma run_discard_uint8 v b (Q : unit → cursor lldp_locals → Prop) p l e :
  at_bytes frame p ([v] ++ b) →
  (at_bytes frame (p + 1) b → Q tt (Build_cursor (p + 1) (l - 1) e)) →
  run PEEK_DISCARD_UINT8 Q (Build_cursor p l e).
Proof. intros Hat HQ. apply HQ. by apply (at_bytes_app _ _ [v]). Qed.

Lemma run_check (b : bool) (Q : unit → cursor lldp_locals → Prop) st :
  b = true → Q tt st → run (check b) Q st.
Proof. by intros -> ?. Qed.

(** Decide a closed test. *)
Ltac eval_if b :=
  assert_fails (idtac; match b with context [Z.shiftr] => idtac end);
  let v := eval vm_compute in b in
  match v with true => change b with true | false => change b with false end;
  cbv iota.

Ltac rd_step :=
  match goal with
  | |- run (_ ≫= _) _ _ => apply wp_bind
  | |- run (check _) _ _ => apply run_check
  | |- run (CHECK_TLV_SIZE _ _) _ _ => apply run_check; [apply Z.leb_le|]
  | Hat : at_bytes _ ?p _ |- run (PEEK_UINT8 _) _ (Build_cursor ?p _ _) =>
      eapply run_uint8; [exact Hat|clear Hat; intros Hat]
  | Hat : at_bytes _ ?p _ |- run (PEEK_UINT16 _) _ (Build_cursor ?p _ _) =>
      eapply run_uint16; [exact Hat|clear Hat; intros Hat]
  | Hat : at_bytes _ ?p _ |- run (PEEK_UINT32 _) _ (Build_cursor ?p _ _) =>
      eapply run_uint32; [exact Hat|clear Hat; intros Hat]
  | Hat : at_bytes _ ?p _ |- run (PEEK_BYTES _ _) _ (Build_cursor ?p _ _) =>
      eapply run_bytes; [exact Hat| |clear Hat; intros Hat]
  | |- run (if ?b then _ else _) _ _ => eval_if b
  | |- run (ext_set _) _ _ => apply wp_modify
  | |- run (set_port _) _ _ => apply wp_modify
  | |- run (set_chassis _) _ _ => apply wp_modify
  | |- run (enable_med_cap _) _ _ => apply wp_modify
  | |- run (set_med_power _) _ _ => apply wp_modify
  | |- run (mret _) _ _ => apply wp_ret
  | |- run (ext_get _) _ _ => apply wp_gets
  | Hat : at_bytes _ ?p _ |- run PEEK_DISCARD_UINT8 _ (Build_cursor ?p _ _) =>
      eapply run_discard_uint8; [exact Hat|clear Hat; intros Hat]
  end; cbn [c_pos c_length c_ext].

Ltac rd_lia := autorewrite with zlen; repeat match goal with
  | |- context [zlen ?l] => lazymatch goal with
      | H : 0 ≤ zlen l |- _ => fail | _ => pose proof (zlen_nonneg l) end
  end; lia.
Ltac rd_start :=
  intros p l w buf rest Hat Hbuf; rewrite <- ?app_assoc in Hat; unfold decode_value.
Ltac rd_end :=
  split; [rd_lia|split; [rd_lia|]]; eexists; split; [|reflexivity]; try done.
Ltac rd := rd_start; repeat rd_step; try rd_lia; try rd_end.

(** ** The TLVs of [lldp_send] *)

(** What the OpenSwitch build stores as the chassis ID: as many bytes of the
    frame, from the Ethernet source address on, as the announced ID has. *)
Definition received_chassis_id (id : list Z) : list Z :=
  if ENABLE_OVSDB then take (length id) (drop 6 frame) else id.

Lemma run_read_cos n (Q : list Z → cursor lldp_locals → Prop) st :
  0 ≤ n → 6 + n ≤ zlen frame →
  Q (take (Z.to_nat n) (drop 6 frame)) st → run (read_cos frame n) Q st.
Proof.
  intros Hn Hle HQ. unfold wp, read_cos.
  destruct (Z.leb_spec 0 n), (Z.leb_spec (ETHER_ADDR_LEN + n) (zlen frame));
    unfold ETHER_ADDR_LEN in *; try lia. exact HQ.
Qed.

Lemma reads_port_id subtype id :
  1 ≤ subtype ≤ 7 → 0 < zlen id < 511 →
  Reads [(LLDP_TLV_PORT_ID, [u8 subtype] ++ id)]
    (on_port (λ q, q<|p_id_subtype := subtype|><|p_id := Some id|>)).
Proof.
  intros Hs Hid. rewrite u8_small by lia.
  apply reads_value; [done|rd_lia|]. rd_start. unfold decode_id. repeat rd_step; try rd_lia.
  rd_end.
Qed.

Lemma reads_chassis_id subtype id :
  1 ≤ subtype ≤ 7 → 0 < zlen id < 511 → 6 + zlen id ≤ zlen frame →
  Reads [(LLDP_TLV_CHASSIS_ID, [u8 subtype] ++ id)]
    (on_chassis (λ c, c<|c_id_subtype := subtype|><|c_id := Some (received_chassis_id id)|>)).
Proof.
  intros Hs Hid Hf. rewrite u8_small by lia.
  apply reads_value; [done|rd_lia|]. rd_start. unfold decode_id. do 12 (try rd_step); try rd_lia.
  unfold received_chassis_id. destruct ENABLE_OVSDB.
  - apply run_read_cos; [rd_lia..|]. rd_step.
    replace (Z.to_nat (zlen ([subtype] ++ id) - 1)) with (length id)
      by (rewrite zlen_app; unfold zlen; simpl; lia).
    rd_end.
  - rd_step. rd_step. rd_end.
Qed.

Lemma reads_ttl ttl :
  0 ≤ ttl < 65536 →
  Reads [(LLDP_TLV_TTL, be16 ttl)]
    (λ w, on_chassis (λ c, c<|c_ttl := ttl|>) w<|w_ttl := true|>).
Proof.
  intros Ht. apply reads_value; [done|done|]. rd_start. unfold decode_ttl.
  repeat rd_step; try rd_lia. rewrite u16_small by lia. rd_end.
Qed.

Lemma reads_sysname name :
  0 < zlen name < 512 →
  Reads [(LLDP_TLV_SYSTEM_NAME, name)] (on_chassis (λ c, c<|c_name := Some name|>)).
Proof.
  intros Hn. apply reads_value; [done|lia|]. rd_start. unfold decode_string.
  repeat rd_step. rewrite (proj2 (Z.ltb_ge _ 1)) by lia.
  repeat rd_step; [done|]. rd_end.
Qed.

Lemma reads_sysdescr descr :
  0 < zlen descr < 512 →
  Reads [(LLDP_TLV_SYSTEM_DESCR, descr)] (on_chassis (λ c, c<|c_descr := Some descr|>)).
Proof.
  intros Hn. apply reads_value; [done|lia|]. rd_start. unfold decode_string.
  repeat rd_step. rewrite (proj2 (Z.ltb_ge _ 1)) by lia.
  repeat rd_step; [done|]. rd_end.
Qed.

Lemma reads_portdescr descr :
  0 < zlen descr < 512 →
  Reads [(LLDP_TLV_PORT_DESCR, descr)] (on_port (λ q, q<|p_descr := Some descr|>)).
Proof.
  intros Hn. apply reads_value; [done|lia|]. rd_start. unfold decode_string.
  repeat rd_step. rewrite (proj2 (Z.ltb_ge _ 1)) by lia.
  repeat rd_step; [done|]. rd_end.
Qed.

Lemma reads_cap available enabled :
  0 ≤ available < 65536 → 0 ≤ enabled < 65536 →
  Reads [(LLDP_TLV_SYSTEM_CAP, be16 available ++ be16 enabled)]
    (on_chassis (λ c, c<|c_cap_available := available|><|c_cap_enabled := enabled|>)).
Proof.
  intros Ha He. apply reads_value; [done|done|]. rd_start. unfold decode_cap.
  repeat rd_step; [rd_lia|]. rewrite !u16_small by lia. rd_end.
Qed.

Lemma reads_pvid pvid :
  0 ≤ pvid < 65536 →
  Reads [org_tlv LLDP_TLV_ORG_DOT1 LLDP_TLV_DOT1_PVID (be16 pvid)]
    (on_port (λ q, q<|p_pvid := pvid|>)).
Proof.
  intros Hv. apply reads_value; [done|done|]. rd_start. unfold decode_org, decode_dot1.
  repeat rd_step; try rd_lia. rewrite u16_small by lia. rd_end.
Qed.

Lemma reads_ppvid pp :
  0 ≤ p_cap_status pp < 256 → 0 ≤ p_ppvid pp < 65536 →
  Reads [ppvid_tlv pp] (on_port (λ q, q<|p_ppvids ::= λ k, k ++ [pp]|>)).
Proof.
  intros Hc Hv. apply reads_value; [done|done|]. rd_start. unfold decode_org, decode_dot1.
  repeat rd_step; try rd_lia. rewrite (u16_small (p_ppvid pp)), (u8_small (p_cap_status pp)) by lia. destruct pp. rd_end.
Qed.

Lemma reads_vlan v :
  0 ≤ v_vid v < 65536 → no_nul (v_name v) → zlen (v_name v) < 256 →
  Reads [vlan_tlv v] (on_port (λ q, q<|p_vlans ::= λ k, k ++ [v]|>)).
Proof.
  intros Hv Hn Hl. unfold vlan_tlv, strlen. rewrite (cstr_no_nul _ Hn).
  pose proof (zlen_nonneg (v_name v)). rewrite (u8_small (zlen _)) by lia.
  apply reads_value; [done|rd_lia|]. rd_start. unfold decode_org, decode_dot1.
  repeat rd_step; try rd_lia. rewrite u16_small by lia. destruct v. rd_end.
Qed.

Lemma reads_pi pi :
  zlen (p_pi pi) < 256 →
  Reads [pi_tlv pi] (on_port (λ q, q<|p_pids ::= λ k, k ++ [pi]|>)).
Proof.
  intros Hl. unfold pi_tlv. pose proof (zlen_nonneg (p_pi pi)).
  rewrite (u8_small (zlen _)) by lia.
  apply reads_value; [done|rd_lia|]. rd_start. unfold decode_org, decode_dot1.
  repeat rd_step; try rd_lia. destruct pi. rd_end.
Qed.

(** *** Management addresses *)

Definition mgmt_wf (m : lldpd_mgmt) : Prop :=
  mgmt_ok m ∧ 0 ≤ m_iface m < 2 ^ 32 ∧
  m_addr m = take (Z.to_nat (m_addrsize m)) (m_addr m)
               ++ replicate (Z.to_nat (LLDPD_MGMT_MAXADDRSIZE - m_addrsize m)) 0.

Lemma run_peek_addr_buffer n a b Q p l w buf :
  at_bytes frame p (a ++ b) → n = zlen a → zlen a ≤ 32 →
  (at_bytes frame (p + n) b →
    Q tt (Build_cursor (p + n) (l - n) (locals w (map Some a ++ drop (length a) buf)))) →
  run (peek_addr_buffer frame n) Q (Build_cursor p l (locals w buf)).
Proof.
  intros Hat Hn Ha HQ. unfold peek_addr_buffer. apply wp_bind.
  eapply run_bytes; [done..|]. intros Hb. rewrite (proj2 (Z.ltb_ge 32 n)) by lia.
  apply wp_modify. by apply HQ.
Qed.

Lemma run_read_addr_buffer i b Q p l w buf :
  buf !! i = Some (Some b) → Q b (Build_cursor p l (locals w buf)) →
  run (read_addr_buffer i) Q (Build_cursor p l (locals w buf)).
Proof. intros Hb HQ. apply wp_bind, wp_gets. cbn. by rewrite Hb. Qed.

Lemma alloc_mgmt_wf m tail :
  mgmt_wf m →
  lldpd_alloc_mgmt (m_family m)
    (map (default 0) (map Some (take (Z.to_nat (m_addrsize m)) (m_addr m)) ++ tail))
    (m_addrsize m) (m_iface m) = inr m.
Proof.
  intros [[Hfam [Hsz Hlen]] [_ Haddr]]. unfold lldpd_alloc_mgmt.
  assert (((m_family m <=? LLDPD_AF_UNSPEC) || (LLDPD_AF_LAST <=? m_family m))%bool = false)
    as -> by (destruct Hfam as [-> | ->]; done).
  rewrite (proj2 (Z.ltb_ge _ _)) by lia. f_equal. destruct m as [fam addr sz ifc]; cbn in *.
  f_equal. rewrite Haddr at 2. f_equal.
  rewrite map_app, map_map, map_id. apply take_app_length'. rewrite length_take.
  unfold zlen in Hlen. lia.
Qed.

Lemma reads_mgmt m :
  mgmt_wf m →
  Reads [mgmt_tlv m] (on_chassis (λ c, c<|c_mgmt ::= λ k, k ++ [m]|>)).
Proof.
  intros Hwf. pose proof Hwf as [[Hfam [Hsz Hlen]] [Hif _]].
  change LLDPD_MGMT_MAXADDRSIZE with 16 in *.
  assert (zlen (take (Z.to_nat (m_addrsize m)) (m_addr m)) = m_addrsize m) as Hzt
    by (apply zlen_take; lia).
  unfold mgmt_tlv. rewrite (u8_small (m_addrsize m + 1)) by lia.
  apply reads_value; [done|rd_lia|]. rd_start. unfold decode_mgmt.
  repeat rd_step; try rd_lia. rewrite app_assoc in Hat.
  eapply run_peek_addr_buffer; [exact Hat|rd_lia..|clear Hat; intros Hat].
  rd_step. eapply run_read_addr_buffer; [reflexivity|]. repeat rd_step; try rd_lia.
  assert (lldpd_af_from_lldp_proto (u8 (lldpd_af_to_lldp_proto (m_family m))) = m_family m)
    as -> by (destruct Hfam as [-> | ->]; done).
  rewrite (proj2 (Z.eqb_neq (m_family m) _)) by (destruct Hfam as [-> | ->]; done).
  repeat rd_step. unfold compose. cbn [c_ext locals l_addr_str_buffer].
  replace (u8 (m_addrsize m + 1 - 1)) with (m_addrsize m) by (rewrite u8_small; lia).
  replace (if u8 _ =? _ then _ else _) with (m_iface m).
  2: { rewrite u32_small by lia. by destruct (Z.eqb_spec (m_iface m) 0). }
  match goal with |- context [drop 1 (map Some ([?x] ++ ?a) ++ ?tl)] =>
    change (drop 1 (map Some ([x] ++ a) ++ tl)) with (map Some a ++ tl) end.
  rewrite alloc_mgmt_wf by done. rd_step. rd_end.
  cbn [locals l_addr_str_buffer]. rewrite length_app, length_map, length_drop, length_app, length_take.
  cbn [length].
  unfold zlen in *. lia.
Qed.

(** *** IEEE 802.3 *)

Definition is_bit (v : Z) : Prop := v = 0 ∨ v = 1.

Lemma reads_aggreg x id :
  0 ≤ id < 2 ^ 32 →
  Reads [org_tlv LLDP_TLV_ORG_DOT3 LLDP_TLV_DOT3_LA ([u8 x] ++ be32 id)]
    (on_port (λ q, q<|p_aggregid := id|>)).
Proof.
  intros Hv. apply reads_value; [done|done|]. rd_start. unfold decode_org, decode_dot3.
  repeat rd_step; try rd_lia. rewrite u32_small by lia. rd_end.
Qed.

Lemma reads_macphy mp :
  is_bit (autoneg_support mp) → is_bit (autoneg_enabled mp) →
  0 ≤ autoneg_advertised mp < 65536 → 0 ≤ mau_type mp < 65536 →
  Reads [org_tlv LLDP_TLV_ORG_DOT3 LLDP_TLV_DOT3_MAC
           ([u8 (Z.lor (autoneg_support mp) (Z.shiftl (autoneg_enabled mp) 1))] ++
            be16 (autoneg_advertised mp) ++ be16 (mau_type mp))]
    (on_port (λ q, q<|p_macphy := mp|>)).
Proof.
  intros Hs He Ha Hm. apply reads_value; [done|done|]. rd_start.
  unfold decode_org, decode_dot3. repeat rd_step; try rd_lia.
  rewrite !u16_small by lia. destruct mp as [sup en adv mau]; cbn in *.
  destruct Hs as [-> | ->], He as [-> | ->]; rd_end.
Qed.

Lemma reads_mfs mfs :
  0 ≤ mfs < 65536 →
  Reads [org_tlv LLDP_TLV_ORG_DOT3 LLDP_TLV_DOT3_MFS (be16 mfs)]
    (on_port (λ q, q<|p_mfs := mfs|>)).
Proof.
  intros Hv. apply reads_value; [done|done|]. rd_start. unfold decode_org, decode_dot3.
  repeat rd_step; try rd_lia. rewrite u16_small by lia. rd_end.
Qed.

Definition power_wf (w : lldpd_dot3_power) : Prop :=
  (pow_devicetype w = LLDP_DOT3_POWER_PSE ∨ pow_devicetype w = LLDP_DOT3_POWER_PD) ∧
  is_bit (pow_supported w) ∧ is_bit (pow_enabled w) ∧ is_bit (pow_paircontrol w) ∧
  0 ≤ pow_pairs w < 256 ∧ 0 ≤ pow_class w < 256 ∧
  0 ≤ pow_powertype w ≤ 2 ∧ 0 ≤ pow_source w < 4 ∧ 0 ≤ pow_priority w < 4 ∧
  0 ≤ pow_requested w < 65536 ∧ 0 ≤ pow_allocated w < 65536.

(** Without the 802.3at extension only the first part is received. *)
Definition received_power (old w : lldpd_dot3_power) : lldpd_dot3_power :=
  if pow_powertype w =? LLDP_DOT3_POWER_8023AT_OFF then
    w<|pow_source := pow_source old|><|pow_priority := pow_priority old|>
     <|pow_requested := pow_requested old|><|pow_allocated := pow_allocated old|>
  else w.

Lemma power_bits_fields w :
  power_wf w →
  let b := u8 (dot3_power_bits w) in
  Z.shiftr (Z.land b 0x2) 1 = pow_supported w ∧
  Z.shiftr (Z.land b 0x4) 2 = pow_enabled w ∧
  Z.shiftr (Z.land b 0x8) 3 = pow_paircontrol w ∧
  (if Z.land b 0x1 =? 0 then LLDP_DOT3_POWER_PD else LLDP_DOT3_POWER_PSE) = pow_devicetype w.
Proof.
  destruct w as [dev sup en pc prs cls ty src prio req alloc].
  unfold power_wf, dot3_power_bits; cbn. intros (Hd & Hs & He & Hp & _).
  by destruct Hd as [-> | ->], Hs as [-> | ->], He as [-> | ->], Hp as [-> | ->].
Qed.

Lemma power_at_bits_fields w :
  power_wf w → pow_powertype w ≠ LLDP_DOT3_POWER_8023AT_OFF →
  let b := u8 (dot3_power_at_bits w) in
  Z.shiftr (Z.land b (Z.lor (Z.shiftl 1 5) (Z.shiftl 1 4))) 4 = pow_source w ∧
  Z.land b (Z.lor (Z.shiftl 1 1) (Z.shiftl 1 0)) = pow_priority w ∧
  (if Z.land b (Z.shiftl 1 7) =? 0 then LLDP_DOT3_POWER_8023AT_TYPE2
   else LLDP_DOT3_POWER_8023AT_TYPE1) = pow_powertype w.
Proof.
  destruct w as [dev sup en pc prs cls ty src prio req alloc].
  unfold power_wf, dot3_power_at_bits; cbn.
  intros (Hd & _ & _ & _ & _ & _ & Ht & Hs & Hp & _) Hne.
  change LLDP_DOT3_POWER_8023AT_OFF with 0 in Hne.
  assert (ty = 1 ∨ ty = 2) as [-> | ->] by lia;
  assert (src = 0 ∨ src = 1 ∨ src = 2 ∨ src = 3) as [-> | [-> | [-> | ->]]] by lia;
  assert (prio = 0 ∨ prio = 1 ∨ prio = 2 ∨ prio = 3) as [-> | [-> | [-> | ->]]] by lia;
  by destruct Hd as [-> | ->].
Qed.

Lemma reads_power pw :
  power_wf pw →
  Reads [org_tlv LLDP_TLV_ORG_DOT3 LLDP_TLV_DOT3_POWER (dot3_power_data pw)]
    (on_port (λ q, q<|p_power ::= λ old, received_power old pw|>)).
Proof.
  intros Hwf. pose proof Hwf as (Hd & Hs & He & Hp & Hprs & Hcls & Ht & Hsrc & Hprio & Hreq & Hal).
  destruct (power_bits_fields pw Hwf) as (Hf1 & Hf2 & Hf3 & Hf4).
  unfold dot3_power_data, received_power.
  destruct (Z.eqb_spec (pow_powertype pw) LLDP_DOT3_POWER_8023AT_OFF) as [Hoff|Hon]; cbn [negb when].
  - apply reads_value; [done|done|]. rd_start. unfold decode_org, decode_dot3.
    repeat rd_step; try rd_lia.
    rewrite Hf1, Hf2, Hf3, Hf4, (u8_small (pow_pairs pw)), (u8_small (pow_class pw)) by lia.
    rewrite <- Hoff. clear -Hbuf. destruct pw. rd_end.
  - destruct (power_at_bits_fields pw Hwf Hon) as (Hg1 & Hg2 & Hg3).
    apply reads_value; [done|done|]. rd_start. unfold decode_org, decode_dot3.
    repeat rd_step; try rd_lia.
    rewrite Hf1, Hf2, Hf3, Hf4, Hg1, Hg2, Hg3, (u8_small (pow_pairs pw)),
      (u8_small (pow_class pw)), !u16_small by lia.
    clear -Hbuf. destruct pw. rd_end.
Qed.

(** *** LLDP-MED *)

Definition with_med_cap (cap : Z) (q : lldpd_port) : lldpd_port :=
  q<|p_med_cap_enabled ::= λ c, u16 (Z.lor c cap)|>.

Lemma reads_med_cap available type :
  0 ≤ available < 65536 → 0 ≤ type < 256 →
  Reads [org_tlv LLDP_TLV_ORG_MED LLDP_TLV_MED_CAP (be16 available ++ [u8 type])]
    (λ w, on_port (with_med_cap LLDP_MED_CAP_CAP)
            (on_chassis (λ c, c<|c_med_cap_available := available|><|c_med_type := type|>) w)).
Proof.
  intros Ha Ht. apply reads_value; [done|done|]. rd_start. unfold decode_org, decode_med.
  repeat rd_step; try rd_lia. rewrite u16_small, (u8_small type) by lia. rd_end.
Qed.

Definition policy_wf (po : lldpd_med_policy) : Prop :=
  1 ≤ pol_type po ≤ LLDP_MED_APPTYPE_LAST ∧
  is_bit (pol_unknown po) ∧ is_bit (pol_tagged po) ∧
  0 ≤ pol_vid po < 4096 ∧ 0 ≤ pol_priority po < 8 ∧ 0 ≤ pol_dscp po < 64.

Lemma is_bit_bounds v : is_bit v → 0 ≤ v < 2.
Proof. unfold is_bit; lia. Qed.

Lemma policy_bits_value po :
  policy_wf po →
  med_policy_bits po =
    ((((pol_type po * 2 + pol_unknown po) * 2 + pol_tagged po) * 8192 + pol_vid po) * 8
      + pol_priority po) * 64 + pol_dscp po.
Proof.
  intros (Ht & Hu%is_bit_bounds & Hg%is_bit_bounds & Hv & Hp & Hd). unfold med_policy_bits.
  change LLDP_MED_APPTYPE_LAST with 8 in Ht. rewrite !field_small by lia.
  rewrite (lor_shiftl_shiftl _ _ 1 23), (lor_shiftl_shiftl _ _ 1 22),
    (lor_shiftl_shiftl _ _ 13 9), (lor_shiftl_shiftl _ _ 3 6), (lor_shiftl_shiftl _ _ 6 0) by lia.
  rewrite Z.shiftl_0_r. lia.
Qed.

Lemma reads_policy po :
  policy_wf po →
  Reads [policy_tlv po]
    (on_port (λ q, with_med_cap LLDP_MED_CAP_POLICY
      q<|p_med_policy ::= <[Z.to_nat (pol_type po - 1) := po]>|>)).
Proof.
  intros Hwf. pose proof (policy_bits_value po Hwf) as Hbits.
  destruct Hwf as (Ht & Hu & Hg & Hv & Hp & Hd). change LLDP_MED_APPTYPE_LAST with 8 in Ht.
  pose proof (is_bit_bounds _ Hu). pose proof (is_bit_bounds _ Hg).
  unfold policy_tlv. set (bits := med_policy_bits po) in *. clearbody bits.
  apply reads_value; [done|done|]. rd_start. unfold decode_org, decode_med, decode_med_policy.
  repeat rd_step; try rd_lia. rewrite u32_small by lia. cbv zeta.
  change 0x800000 with (Z.shiftl 1 23). change 0x400000 with (Z.shiftl 1 22).
  change 0x001FFE00 with (Z.shiftl (Z.ones 12) 9). change 0x1C0 with (Z.shiftl (Z.ones 3) 6).
  change 0x3F with (Z.ones 6).
  rewrite !land_bit_eqb, !shiftr_land_field, Z.land_ones, Z.shiftr_div_pow2 by lia.
  assert (bits / 2 ^ 24 = pol_type po) as -> by zlia.
  replace ((_ <? 1) || _)%bool with false by (symmetry; change LLDP_MED_APPTYPE_LAST with 8; lia).
  assert ((if (bits / 2 ^ 23) mod 2 =? 0 then 0 else 1) = pol_unknown po) as ->.
  { assert ((bits / 2 ^ 23) mod 2 = pol_unknown po) as -> by zlia. by destruct Hu as [-> | ->]. }
  assert ((if (bits / 2 ^ 22) mod 2 =? 0 then 0 else 1) = pol_tagged po) as ->.
  { assert ((bits / 2 ^ 22) mod 2 = pol_tagged po) as -> by zlia. by destruct Hg as [-> | ->]. }
  assert ((bits / 2 ^ 9) mod 2 ^ 12 = pol_vid po) as -> by zlia.
  assert ((bits / 2 ^ 6) mod 2 ^ 3 = pol_priority po) as -> by zlia.
  assert (bits mod 2 ^ 6 = pol_dscp po) as -> by zlia.
  repeat rd_step. clear -Hbuf. destruct po. rd_end.
Qed.

Definition loc_wf (loc : lldpd_med_loc) : Prop :=
  1 ≤ loc_format loc ≤ LLDP_MED_LOCFORMAT_LAST ∧ zlen (loc_data loc) < 507.

Lemma reads_location loc :
  loc_wf loc →
  Reads [location_tlv loc]
    (on_port (λ q, with_med_cap LLDP_MED_CAP_LOCATION
      q<|p_med_location ::= <[Z.to_nat (loc_format loc - 1) := loc]>|>)).
Proof.
  intros [Hf Hl]. change LLDP_MED_LOCFORMAT_LAST with 3 in Hf.
  pose proof (zlen_nonneg (loc_data loc)).
  unfold location_tlv. rewrite (u8_small (loc_format loc)) by lia.
  apply reads_value; [done|rd_lia|]. rd_start. unfold decode_org, decode_med, decode_med_location.
  repeat rd_step; try rd_lia.
  replace ((_ <? 1) || _)%bool with false by (symmetry; change LLDP_MED_LOCFORMAT_LAST with 3; lia).
  repeat rd_step; try rd_lia. destruct loc. rd_end.
Qed.

Definition med_power_wf (pw : lldpd_med_power) : Prop :=
  (mpow_devicetype pw = LLDP_MED_POW_TYPE_PSE ∧
     1 ≤ mpow_source pw ≤ LLDP_MED_POW_SOURCE_RESERVED ∨
   mpow_devicetype pw = LLDP_MED_POW_TYPE_PD ∧
     (mpow_source pw = LLDP_MED_POW_SOURCE_UNKNOWN ∨
      LLDP_MED_POW_SOURCE_PSE ≤ mpow_source pw ≤ LLDP_MED_POW_SOURCE_BOTH)) ∧
  0 ≤ mpow_priority pw ≤ LLDP_MED_POW_PRIO_LOW ∧ 0 ≤ mpow_val pw < 65536.

Definition mdi_cap (pw : lldpd_med_power) : Z :=
  if mpow_devicetype pw =? LLDP_MED_POW_TYPE_PSE
  then LLDP_MED_CAP_MDI_PSE else LLDP_MED_CAP_MDI_PD.

Lemma reads_mdi pw :
  med_power_wf pw →
  Reads [org_tlv LLDP_TLV_ORG_MED LLDP_TLV_MED_MDI
           ([u8 (med_power_bits pw)] ++ be16 (mpow_val pw))]
    (on_port (λ q, with_med_cap (mdi_cap pw) q<|p_med_power := pw|>)).
Proof.
  destruct pw as [dev src prio val]. unfold med_power_wf, med_power_bits, mdi_cap; cbn.
  autounfold with consts. intros (Hd & Hp & Hv).
  apply reads_value; [done|done|]. rd_start. unfold decode_org, decode_med, decode_med_mdi.
  assert (prio = 0 ∨ prio = 1 ∨ prio = 2 ∨ prio = 3) as Hp' by lia. clear Hp.
  assert (dev = 1 ∧ (src = 1 ∨ src = 2 ∨ src = 3 ∨ src = 4) ∨
          dev = 2 ∧ (src = 1 ∨ src = 5 ∨ src = 6 ∨ src = 7)) as Hd' by lia. clear Hd.
  destruct Hd' as [[-> Hs]|[-> Hs]];
    repeat match goal with Hor : _ ∨ _ |- _ => destruct Hor as [->|Hor] end; subst;
    (repeat rd_step; [rd_lia..|]; rewrite u16_small by lia; rd_end).
Qed.

(** The field of the chassis an inventory TLV is about. *)
Definition set_inventory (subtype : Z) (b : option (list Z)) (c : lldpd_chassis) : lldpd_chassis :=
  if subtype =? LLDP_TLV_MED_IV_HW then c<|c_med_hw := b|>
  else if subtype =? LLDP_TLV_MED_IV_FW then c<|c_med_fw := b|>
  else if subtype =? LLDP_TLV_MED_IV_SW then c<|c_med_sw := b|>
  else if subtype =? LLDP_TLV_MED_IV_SN then c<|c_med_sn := b|>
  else if subtype =? LLDP_TLV_MED_IV_MANUF then c<|c_med_manuf := b|>
  else if subtype =? LLDP_TLV_MED_IV_MODEL then c<|c_med_model := b|>
  else c<|c_med_asset := b|>.

(** An inventory string is cut at 32 bytes; an empty one is not a string. *)
Definition received_inventory (v : list Z) : option (list Z) :=
  if zlen (take 32 (cstr v)) <=? 0 then None else Some (take 32 (cstr v)).

Lemma reads_inventory_value subtype b :
  LLDP_TLV_MED_IV_HW ≤ subtype ≤ LLDP_TLV_MED_IV_ASSET → zlen b ≤ 32 →
  Reads [org_tlv LLDP_TLV_ORG_MED subtype b]
    (λ w, on_port (with_med_cap LLDP_MED_CAP_IV)
      (on_chassis (set_inventory subtype (if zlen b <=? 0 then None else Some b)) w)).
Proof.
  intros Hs Hl. change LLDP_TLV_MED_IV_HW with 5 in Hs. change LLDP_TLV_MED_IV_ASSET with 11 in Hs.
  pose proof (zlen_nonneg b). apply reads_value; [done|rd_lia|].
  rd_start. unfold decode_org, decode_med, decode_med_inventory, set_inventory.
  assert (subtype = 5 ∨ subtype = 6 ∨ subtype = 7 ∨ subtype = 8 ∨ subtype = 9 ∨
          subtype = 10 ∨ subtype = 11) as Hcases by lia. clear Hs.
  destruct Hcases as [->|[->|[->|[->|[->|[-> | ->]]]]]].
  all: repeat rd_step; try rd_lia.
  all: destruct (Z.leb_spec (zlen b) 0);
    [rewrite (proj2 (Z.leb_le _ 4)) by rd_lia|rewrite (proj2 (Z.leb_gt _ 4)) by rd_lia];
    repeat rd_step; try rd_lia; rd_end.
Qed.
End Reads.
