(* ===== verification/LldpRoundtrip.v ===== *)
(** * What a neighbor learns from [lldp_send]

    [remote_chassis] and [remote_port] are the chassis and the port a neighbor
    stores when it receives the frame of a local port, field by field: what is
    announced arrives unchanged, what is not announced is zero.  The theorem
    [lldp_roundtrip] says that [lldp_decode] computes exactly these from the
    frame of [lldp_send], whatever padding the Ethernet layer appends and
    whatever source address the bond mangling writes. *)

From S2P Require Import Prelude Bytes Const Structs Decoder Frame Interfaces.
From S2P Require Import LldpSend LldpSpec LldpDecode LldpReads.
#[local] Open Scope Z_scope.

(** ** Entries of an array that are in their slot *)

Section Slots.
Context {A : Type} (type_of : A → Z) (zero : A).

Definition slot_insert (array : list A) (x : A) : list A :=
  <[Z.to_nat (type_of x - 1) := x]> array.
Definition slots (l : list A) : list A :=
  imap (λ i x, if type_of x =? Z.of_nat i + 1 then x else zero) l.

Lemma slots_from (pre l : list A) :
  foldl slot_insert (pre ++ replicate (length l) zero)
    ((filter (λ e, type_of e.2 = Z.of_nat e.1 + 1)
       (imap (λ i x, ((length pre + i)%nat, x)) l)).*2) =
  pre ++ imap (λ i x, if type_of x =? Z.of_nat (length pre + i) + 1 then x else zero) l.
Proof.
  revert pre. induction l as [|x l IH]; intros pre; [done|].
  cbn [imap length replicate]. rewrite filter_cons. cbn [fst snd].
  assert (∀ y, imap (λ i x, ((length (pre ++ [y]) + i)%nat, x)) l =
               imap ((λ i x, ((length pre + i)%nat, x)) ∘ S) l) as Hi.
  { intros y. apply imap_ext. intros i z _. simpl. f_equal. rewrite length_app. simpl. lia. }
  assert (∀ y, imap (λ i x, if type_of x =? Z.of_nat (length (pre ++ [y]) + i) + 1 then x else zero) l =
               imap ((λ i x, if type_of x =? Z.of_nat (length pre + i) + 1 then x else zero) ∘ S) l) as Hz.
  { intros y. apply imap_ext. intros i z _. simpl. rewrite length_app. simpl.
    by replace (length pre + 1 + i)%nat with (length pre + S i)%nat by lia. }
  rewrite Nat.add_0_r. rewrite cons_middle, app_assoc.
  destruct (decide _) as [Heq|Hne].
  - cbn [fmap list_fmap foldl snd]. unfold slot_insert at 2. rewrite Heq.
    replace (Z.to_nat _) with (length pre + 0)%nat by lia.
    rewrite <- app_assoc, insert_app_r. cbn [app insert list_insert].
    rewrite cons_middle, app_assoc, <- (Hi x), IH, Hz, <- app_assoc, Z.eqb_refl.
    done.
  - rewrite <- (Hi zero), IH, Hz, <- app_assoc, (proj2 (Z.eqb_neq _ _) Hne). done.
Qed.

Lemma slots_fold l :
  foldl slot_insert (replicate (length l) zero) (in_slot type_of l) = slots l.
Proof. apply (slots_from []). Qed.
End Slots.

(** ** The remote view *)

Definition nonempty {A} (l : list A) : bool := match l with [] => false | _ => true end.

Definition received_str (b : bool) (s : option (list Z)) : option (list Z) :=
  if (b && nonempty_str s)%bool then Some (str_bytes s) else None.

Section Remote.
Context `{BuildConfig}.
Variables (global : lldpd_config) (hardware : lldpd_hardware) (chassis : lldpd_chassis).
Variable frame : list Z.
#[local] Abbreviation port := (h_lport hardware).

Definition med_on : bool := negb (p_med_cap_enabled port =? 0).
Definition iv_on : bool := negb (Z.land (p_med_cap_enabled port) LLDP_MED_CAP_IV =? 0).
Definition mdi_on : bool :=
  ((mpow_devicetype (p_med_power port) =? LLDP_MED_POW_TYPE_PSE)
   || (mpow_devicetype (p_med_power port) =? LLDP_MED_POW_TYPE_PD))%bool.

Definition remote_iv (v : option (list Z)) : option (list Z) :=
  if iv_on then v ≫= received_inventory else None.

Definition remote_chassis : lldpd_chassis :=
  let c := chassis_zero
    <|c_id_subtype := c_id_subtype chassis|>
    <|c_id := Some (received_chassis_id frame (default [] (c_id chassis)))|>
    <|c_ttl := c_ttl chassis|>
    <|c_name := received_str (tlv_enabled (c_lldp_tlv_sys_name_enable global)) (c_name chassis)|>
    <|c_descr := received_str (tlv_enabled (c_lldp_tlv_sys_desc_enable global)) (c_descr chassis)|>
    <|c_cap_available := if tlv_enabled (c_lldp_tlv_sys_cap_enable global)
                         then c_cap_available chassis else 0|>
    <|c_cap_enabled := if tlv_enabled (c_lldp_tlv_sys_cap_enable global)
                       then c_cap_enabled chassis else 0|>
    <|c_mgmt := when (tlv_enabled (c_lldp_tlv_mgmt_addr_enable global)) (c_mgmt chassis)|> in
  if med_on then
    c<|c_med_cap_available := c_med_cap_available chassis|>
     <|c_med_type := c_med_type chassis|>
     <|c_med_hw := remote_iv (c_med_hw chassis)|>
     <|c_med_fw := remote_iv (c_med_fw chassis)|>
     <|c_med_sw := remote_iv (c_med_sw chassis)|>
     <|c_med_sn := remote_iv (c_med_sn chassis)|>
     <|c_med_manuf := remote_iv (c_med_manuf chassis)|>
     <|c_med_model := remote_iv (c_med_model chassis)|>
     <|c_med_asset := remote_iv (c_med_asset chassis)|>
  else c.

(** The MED capabilities a neighbor sees are those of the TLVs it receives. *)
Definition add_cap (b : bool) (cap c : Z) : Z := if b then u16 (Z.lor c cap) else c.
Definition some_inventory : bool :=
  existsb (λ v, bool_decide (is_Some v))
    [c_med_hw chassis; c_med_fw chassis; c_med_sw chassis; c_med_sn chassis;
     c_med_manuf chassis; c_med_model chassis; c_med_asset chassis].
Definition remote_med_caps : Z :=
  add_cap mdi_on (mdi_cap (p_med_power port))
    (add_cap (nonempty (in_slot pol_type (p_med_policy port))) LLDP_MED_CAP_POLICY
      (add_cap (nonempty (in_slot loc_format (p_med_location port))) LLDP_MED_CAP_LOCATION
        (add_cap (iv_on && some_inventory) LLDP_MED_CAP_IV
          (add_cap true LLDP_MED_CAP_CAP 0)))).

Definition remote_port : lldpd_port :=
  let q := port_zero
    <|p_id_subtype := p_id_subtype port|>
    <|p_id := Some (default [] (p_id port))|>
    <|p_descr := received_str (tlv_enabled (c_lldp_tlv_port_desc_enable global)) (p_descr port)|>
    <|p_pvid := if tlv_enabled (c_lldp_tlv_port_vlanid_enable global) then p_pvid port else 0|>
    <|p_ppvids := when (tlv_enabled (c_lldp_tlv_port_proto_vlanid_enable global)) (p_ppvids port)|>
    <|p_vlans := when (tlv_enabled (c_lldp_tlv_port_vlan_name_enable global)) (p_vlans port)|>
    <|p_pids := when (tlv_enabled (c_lldp_tlv_port_proto_id_enable global)) (p_pids port)|>
    <|p_aggregid := p_aggregid port|>
    <|p_macphy := p_macphy port|>
    <|p_mfs := p_mfs port|>
    <|p_power := if negb (pow_devicetype (p_power port) =? 0)
                 then received_power power_zero (p_power port) else power_zero|> in
  if med_on then
    q<|p_med_policy := slots pol_type policy_zero (p_med_policy port)|>
     <|p_med_location := slots loc_format loc_zero (p_med_location port)|>
     <|p_med_power := if mdi_on then p_med_power port else med_power_zero|>
     <|p_med_cap_enabled := remote_med_caps|>
  else q.

(** What the daemon maintains of its own chassis and ports: integers fit the
    C fields, identifiers exist, TLV values fit in 511 bytes. *)
Record local_ok : Prop := {
  ok_chassis_subtype : 1 ≤ c_id_subtype chassis ≤ 7;
  ok_chassis_id : 0 < zlen (default [] (c_id chassis)) < 511;
  ok_port_subtype : 1 ≤ p_id_subtype port ≤ 7;
  ok_port_id : 0 < zlen (default [] (p_id port)) < 511;
  ok_ttl : 0 ≤ c_ttl chassis < 65536;
  ok_name : zlen (str_bytes (c_name chassis)) < 512;
  ok_descr : zlen (str_bytes (c_descr chassis)) < 512;
  ok_cap : 0 ≤ c_cap_available chassis < 65536 ∧ 0 ≤ c_cap_enabled chassis < 65536;
  ok_mgmt : Forall mgmt_wf (c_mgmt chassis);
  ok_port_descr : zlen (str_bytes (p_descr port)) < 512;
  ok_pvid : 0 ≤ p_pvid port < 65536;
  ok_ppvids : Forall (λ x, 0 ≤ p_cap_status x < 256 ∧ 0 ≤ p_ppvid x < 65536) (p_ppvids port);
  ok_vlans : Forall (λ x, 0 ≤ v_vid x < 65536 ∧ no_nul (v_name x) ∧ zlen (v_name x) < 256)
               (p_vlans port);
  ok_pids : Forall (λ x, zlen (p_pi x) < 256) (p_pids port);
  ok_aggregid : 0 ≤ p_aggregid port < 2 ^ 32;
  ok_macphy : is_bit (autoneg_support (p_macphy port)) ∧ is_bit (autoneg_enabled (p_macphy port)) ∧
              0 ≤ autoneg_advertised (p_macphy port) < 65536 ∧ 0 ≤ mau_type (p_macphy port) < 65536;
  ok_mfs : 0 ≤ p_mfs port < 65536;
  ok_power : pow_devicetype (p_power port) ≠ 0 → power_wf (p_power port);
  ok_med : 0 ≤ c_med_cap_available chassis < 65536 ∧ 0 ≤ c_med_type chassis < 256;
  ok_policies : length (p_med_policy port) = 8%nat ∧
                Forall policy_wf (in_slot pol_type (p_med_policy port));
  ok_locations : length (p_med_location port) = 3%nat ∧
                 Forall loc_wf (in_slot loc_format (p_med_location port));
  ok_mdi : mdi_on = true → med_power_wf (p_med_power port)
}.

(** ** Reading the groups of TLVs *)

#[local] Abbreviation Reads := (Reads frame).

Lemma reads_when_dep (b : bool) ts f :
  (b = true → Reads ts f) → Reads (when b ts) (if b then f else id).
Proof. destruct b; [auto|]. intros _. apply reads_nil. Qed.

Lemma nonempty_zlen s : nonempty_str s = true → 0 < zlen (str_bytes s).
Proof.
  destruct s as [l|]; [|done]. unfold nonempty_str, strlen. intros Hn. bool_to_prop. cbn [str_bytes].
  pose proof (zlen_nonneg (cstr l)). lia.
Qed.

Lemma on_both f g c q t :
  on_port f (on_chassis g {| w_chassis := c; w_port := q; w_ttl := t |}) =
  {| w_chassis := g c; w_port := f q; w_ttl := t |}.
Proof. done. Qed.

Lemma reads_names :
  local_ok →
  Reads (system_tlvs global chassis)
    (on_chassis (λ c, c
      <|c_name := if (tlv_enabled (c_lldp_tlv_sys_name_enable global) && nonempty_str (c_name chassis))%bool
                  then Some (str_bytes (c_name chassis)) else c_name c|>
      <|c_descr := if (tlv_enabled (c_lldp_tlv_sys_desc_enable global) && nonempty_str (c_descr chassis))%bool
                  then Some (str_bytes (c_descr chassis)) else c_descr c|>
      <|c_cap_available := if tlv_enabled (c_lldp_tlv_sys_cap_enable global)
                           then c_cap_available chassis else c_cap_available c|>
      <|c_cap_enabled := if tlv_enabled (c_lldp_tlv_sys_cap_enable global)
                         then c_cap_enabled chassis else c_cap_enabled c|>)).
Proof.
  intros Hok. pose proof (ok_name Hok). pose proof (ok_descr Hok).
  destruct (ok_cap Hok) as [Hca Hce].
  unfold system_tlvs. eapply reads_eq; [apply reads_app; [|apply reads_app]|].
  - apply reads_when_dep. intros [_ Hne%nonempty_zlen]%andb_prop. by apply reads_sysname.
  - apply reads_when_dep. intros [_ Hne%nonempty_zlen]%andb_prop. by apply reads_sysdescr.
  - apply reads_when_dep. intros _. by apply reads_cap.
  - intros [[] [] ?]. repeat case_if; done.
Qed.

Lemma reads_list {A} (g : A → tlv) (upd : list A → view → view) (l : list A) :
  (∀ w, upd [] w = w) → (∀ a b w, upd b (upd a w) = upd (a ++ b) w) →
  Forall (λ x, Reads [g x] (upd [x])) l → Reads (map g l) (upd l).
Proof.
  intros Hnil Happ Hl. eapply reads_eq; [by apply (reads_map _ _ (λ x, upd [x]))|].
  clear Hl. induction l as [|x l IH]; intros w; [by rewrite Hnil|].
  simpl. by rewrite IH, Happ.
Qed.

Lemma reads_list_when {A} (b : bool) (g : A → tlv) (upd : list A → view → view) (l : list A) :
  (∀ w, upd [] w = w) → (∀ a b w, upd b (upd a w) = upd (a ++ b) w) →
  Forall (λ x, Reads [g x] (upd [x])) l → Reads (when b (map g l)) (upd (when b l)).
Proof.
  intros Hnil Happ Hl. destruct b; [by apply reads_list|].
  eapply reads_eq; [apply reads_nil|]. intros w. by rewrite Hnil.
Qed.

Ltac append_laws :=
  [> intros [[] [] ?]; unfold on_chassis, on_port, set; cbn; by rewrite app_nil_r
   | intros ?? [[] [] ?]; unfold on_chassis, on_port, set; cbn; by rewrite app_assoc | ].

Lemma reads_mgmts :
  local_ok →
  Reads (mgmt_tlvs global chassis)
    (on_chassis (λ c, c<|c_mgmt ::= λ k,
       k ++ when (tlv_enabled (c_lldp_tlv_mgmt_addr_enable global)) (c_mgmt chassis)|>)).
Proof.
  intros Hok.
  apply (reads_list_when _ _ (λ l, on_chassis (λ c, c<|c_mgmt ::= λ k, k ++ l|>))); append_laws.
  eapply Forall_impl; [|exact (ok_mgmt Hok)]. intros m Hm. by apply reads_mgmt.
Qed.

Lemma reads_descr :
  local_ok →
  Reads (port_descr_tlvs global hardware)
    (on_port (λ q, q<|p_descr :=
       if (tlv_enabled (c_lldp_tlv_port_desc_enable global) && nonempty_str (p_descr port))%bool
       then Some (str_bytes (p_descr port)) else p_descr q|>)).
Proof.
  intros Hok. pose proof (ok_port_descr Hok).
  eapply reads_eq; [apply reads_when_dep|].
  - intros [_ Hne%nonempty_zlen]%andb_prop. by apply reads_portdescr.
  - intros [[] [] ?]. by case_if.
Qed.

Lemma reads_dot1 :
  local_ok →
  Reads (dot1_tlvs global hardware)
    (on_port (λ q, q
      <|p_pvid := if (tlv_enabled (c_lldp_tlv_port_vlanid_enable global) && negb (p_pvid port =? 0))%bool
                  then p_pvid port else p_pvid q|>
      <|p_ppvids ::= λ k, k ++ when (tlv_enabled (c_lldp_tlv_port_proto_vlanid_enable global)) (p_ppvids port)|>
      <|p_vlans ::= λ k, k ++ when (tlv_enabled (c_lldp_tlv_port_vlan_name_enable global)) (p_vlans port)|>
      <|p_pids ::= λ k, k ++ when (tlv_enabled (c_lldp_tlv_port_proto_id_enable global)) (p_pids port)|>)).
Proof.
  intros Hok. unfold dot1_tlvs. eapply reads_eq; [apply reads_app; [|apply reads_app; [|apply reads_app]]|].
  - apply reads_when_dep. intros _. apply reads_pvid, (ok_pvid Hok).
  - apply (reads_list_when _ _ (λ l, on_port (λ q, q<|p_ppvids ::= λ k, k ++ l|>))); append_laws.
    eapply Forall_impl; [|exact (ok_ppvids Hok)]. intros m [Hm1 Hm2]. by apply reads_ppvid.
  - apply (reads_list_when _ _ (λ l, on_port (λ q, q<|p_vlans ::= λ k, k ++ l|>))); append_laws.
    eapply Forall_impl; [|exact (ok_vlans Hok)]. intros m (Hm1 & Hm2 & Hm3). by apply reads_vlan.
  - apply (reads_list_when _ _ (λ l, on_port (λ q, q<|p_pids ::= λ k, k ++ l|>))); append_laws.
    eapply Forall_impl; [|exact (ok_pids Hok)]. intros m Hm. by apply reads_pi.
  - intros [[] [] ?]. by case_if.
Qed.

Lemma reads_dot3 :
  local_ok →
  Reads (dot3_tlvs hardware)
    (on_port (λ q, q<|p_aggregid := p_aggregid port|><|p_macphy := p_macphy port|>
      <|p_mfs := if negb (p_mfs port =? 0) then p_mfs port else p_mfs q|>
      <|p_power ::= λ old, if negb (pow_devicetype (p_power port) =? 0)
                           then received_power old (p_power port) else old|>)).
Proof.
  intros Hok. destruct (ok_macphy Hok) as (Hm1 & Hm2 & Hm3 & Hm4). unfold dot3_tlvs.
  eapply reads_eq; [apply reads_app; [apply (reads_app _ [_] [_])|apply reads_app]|].
  - apply reads_aggreg, (ok_aggregid Hok).
  - by apply reads_macphy.
  - apply reads_when_dep. intros _. apply reads_mfs, (ok_mfs Hok).
  - apply reads_when_dep. intros Hne. bool_to_prop. by apply reads_power, (ok_power Hok).
  - intros [[] [] ?]. by repeat case_if.
Qed.

(** Repeated TLVs that set a MED capability set it once. *)
Definition add_med_cap (b : bool) (cap : Z) (q : lldpd_port) : lldpd_port :=
  q<|p_med_cap_enabled ::= add_cap b cap|>.

Lemma add_cap_add_cap a b cap c : add_cap a cap (add_cap b cap c) = add_cap (a || b) cap c.
Proof.
  destruct a, b; try done. unfold add_cap, u16; cbn.
  rewrite <- !Z.land_ones by lia. apply Z.bits_inj'. intros n Hn.
  rewrite !Z.land_spec, !Z.lor_spec, Z.land_spec, Z.lor_spec.
  by destruct (Z.testbit c n), (Z.testbit cap n), (Z.testbit (Z.ones 16) n).
Qed.

Lemma add_med_cap_twice a b cap q :
  add_med_cap a cap (add_med_cap b cap q) = add_med_cap (a || b) cap q.
Proof. unfold add_med_cap. destruct q. unfold set; cbn. by rewrite add_cap_add_cap. Qed.

Lemma reads_slots {A} (g : A → tlv) cap (upd : list A → lldpd_port → lldpd_port) (l : list A) :
  (∀ q, upd [] q = q) → (∀ a b q, upd b (upd a q) = upd (a ++ b) q) →
  (∀ a b q, upd a (add_med_cap b cap q) = add_med_cap b cap (upd a q)) →
  Forall (λ x, Reads [g x] (on_port (λ q, with_med_cap cap (upd [x] q)))) l →
  Reads (map g l) (on_port (λ q, add_med_cap (nonempty l) cap (upd l q))).
Proof.
  intros Hnil Happ Hcomm Hl.
  apply (reads_list g (λ l, on_port (λ q, add_med_cap (nonempty l) cap (upd l q)))).
  - intros [ch [] t]. unfold on_port, set; cbn. by rewrite Hnil.
  - intros a b [ch q t]. unfold on_port, set; cbn. f_equal.
    rewrite Hcomm, Happ, add_med_cap_twice. f_equal. by destruct a, b.
  - exact Hl.
Qed.

Lemma reads_policies :
  local_ok →
  Reads (map policy_tlv (in_slot pol_type (p_med_policy port)))
    (on_port (λ q, add_med_cap (nonempty (in_slot pol_type (p_med_policy port)))
                     LLDP_MED_CAP_POLICY
       q<|p_med_policy ::= λ k, foldl (slot_insert pol_type) k (in_slot pol_type (p_med_policy port))|>)).
Proof.
  intros Hok. apply (reads_slots _ _ (λ l q, q<|p_med_policy ::= λ k, foldl (slot_insert pol_type) k l|>)).
  - by intros [].
  - intros a b []. unfold set; cbn. by rewrite foldl_app.
  - by intros a b [].
  - eapply Forall_impl; [|exact (proj2 (ok_policies Hok))]. intros po Hpo. by apply reads_policy.
Qed.

Lemma reads_locations :
  local_ok →
  Reads (map location_tlv (in_slot loc_format (p_med_location port)))
    (on_port (λ q, add_med_cap (nonempty (in_slot loc_format (p_med_location port)))
                     LLDP_MED_CAP_LOCATION
       q<|p_med_location ::= λ k, foldl (slot_insert loc_format) k (in_slot loc_format (p_med_location port))|>)).
Proof.
  intros Hok. apply (reads_slots _ _ (λ l q, q<|p_med_location ::= λ k, foldl (slot_insert loc_format) k l|>)).
  - by intros [].
  - intros a b []. unfold set; cbn. by rewrite foldl_app.
  - by intros a b [].
  - eapply Forall_impl; [|exact (proj2 (ok_locations Hok))]. intros po Hpo. by apply reads_location.
Qed.

(** One inventory string. *)
Definition inventory_field (v o : option (list Z)) : option (list Z) :=
  match v with Some v => received_inventory v | None => o end.
Definition on_inventory (upd : lldpd_chassis → lldpd_chassis) (v : option (list Z)) (w : view) : view :=
  {| w_chassis := upd (w_chassis w);
     w_port := add_med_cap (bool_decide (is_Some v)) LLDP_MED_CAP_IV (w_port w);
     w_ttl := w_ttl w |}.

Lemma reads_inventory v subtype upd :
  LLDP_TLV_MED_IV_HW ≤ subtype ≤ LLDP_TLV_MED_IV_ASSET →
  (∀ c, upd c = match v with Some v => set_inventory subtype (received_inventory v) c | None => c end) →
  Reads (inventory_tlv v subtype) (on_inventory upd v).
Proof.
  intros Hs Hupd. destruct v as [v|].
  - eapply reads_eq; [apply reads_inventory_value; [done|]|].
    + unfold zlen. rewrite length_take. lia.
    + intros [c q t]. unfold on_inventory; cbn. by rewrite Hupd.
  - eapply reads_eq; [apply reads_nil|].
    intros [c [] t]. unfold on_inventory; cbn. by rewrite Hupd.
Qed.

Ltac inv_string f :=
  apply (reads_inventory _ _ (λ c, c<|f ::= inventory_field (f chassis)|>));
    [done|intros []; by case_match].

Lemma reads_inventories :
  Reads (inventory_tlvs chassis)
    (λ w, on_port (add_med_cap some_inventory LLDP_MED_CAP_IV) (on_chassis (λ c, c
      <|c_med_hw ::= inventory_field (c_med_hw chassis)|>
      <|c_med_fw ::= inventory_field (c_med_fw chassis)|>
      <|c_med_sw ::= inventory_field (c_med_sw chassis)|>
      <|c_med_sn ::= inventory_field (c_med_sn chassis)|>
      <|c_med_manuf ::= inventory_field (c_med_manuf chassis)|>
      <|c_med_model ::= inventory_field (c_med_model chassis)|>
      <|c_med_asset ::= inventory_field (c_med_asset chassis)|>) w)).
Proof.
  unfold inventory_tlvs. eapply reads_eq.
  - apply reads_app; [inv_string c_med_hw|].
    apply reads_app; [inv_string c_med_fw|].
    apply reads_app; [inv_string c_med_sw|].
    apply reads_app; [inv_string c_med_sn|].
    apply reads_app; [inv_string c_med_manuf|].
    apply reads_app; [inv_string c_med_model|]. inv_string c_med_asset.
  - intros [c q t]. rewrite on_both. unfold compose, on_inventory.
    cbn [w_chassis w_port w_ttl]. rewrite !add_med_cap_twice. do 2 f_equal.
    unfold some_inventory; cbn [existsb]. clear.
    repeat match goal with |- context [bool_decide ?P] => generalize (bool_decide P) end.
    by repeat intros [].
Qed.

Definition med_view (w : view) : view :=
  let w := on_port (with_med_cap LLDP_MED_CAP_CAP)
             (on_chassis (λ c, c<|c_med_cap_available := c_med_cap_available chassis|>
                                <|c_med_type := c_med_type chassis|>) w) in
  let w := if iv_on then
      on_port (add_med_cap some_inventory LLDP_MED_CAP_IV) (on_chassis (λ c, c
      <|c_med_hw ::= inventory_field (c_med_hw chassis)|>
      <|c_med_fw ::= inventory_field (c_med_fw chassis)|>
      <|c_med_sw ::= inventory_field (c_med_sw chassis)|>
      <|c_med_sn ::= inventory_field (c_med_sn chassis)|>
      <|c_med_manuf ::= inventory_field (c_med_manuf chassis)|>
      <|c_med_model ::= inventory_field (c_med_model chassis)|>
      <|c_med_asset ::= inventory_field (c_med_asset chassis)|>) w) else w in
  let locs := in_slot loc_format (p_med_location port) in
  let pols := in_slot pol_type (p_med_policy port) in
  let w := on_port (λ q, add_med_cap (nonempty locs) LLDP_MED_CAP_LOCATION
             q<|p_med_location ::= λ k, foldl (slot_insert loc_format) k locs|>) w in
  let w := on_port (λ q, add_med_cap (nonempty pols) LLDP_MED_CAP_POLICY
             q<|p_med_policy ::= λ k, foldl (slot_insert pol_type) k pols|>) w in
  if mdi_on then on_port (λ q, with_med_cap (mdi_cap (p_med_power port)) q<|p_med_power := p_med_power port|>) w
  else w.

Lemma reads_med :
  local_ok → Reads (med_tlvs hardware chassis) (if med_on then med_view else id).
Proof.
  intros Hok. destruct (ok_med Hok) as [Hm1 Hm2]. apply reads_when_dep. intros _.
  eapply reads_eq; [apply reads_app; [by apply reads_med_cap|apply reads_app;
    [apply reads_when_dep; intros _; apply reads_inventories|apply reads_app;
    [by apply reads_locations|apply reads_app; [by apply reads_policies|]]]]|].
  - apply reads_when_dep. intros Hmdi. by apply reads_mdi, (ok_mdi Hok).
  - intros w. unfold med_view, compose, iv_on, mdi_on. by repeat case_if.
Qed.

Lemma reads_mandatory :
  local_ok → 6 + zlen (default [] (c_id chassis)) ≤ zlen frame →
  Reads (mandatory_tlvs hardware chassis)
    (λ w, on_port (λ q, q<|p_id_subtype := p_id_subtype port|><|p_id := Some (default [] (p_id port))|>)
      (on_chassis (λ c, c<|c_id_subtype := c_id_subtype chassis|>
         <|c_id := Some (received_chassis_id frame (default [] (c_id chassis)))|>
         <|c_ttl := c_ttl chassis|>) w<|w_ttl := true|>)).
Proof.
  intros Hok Hf. unfold mandatory_tlvs.
  eapply reads_eq; [apply (reads_app _ [_] [_; _]); [|apply (reads_app _ [_] [_])]|].
  - by apply reads_chassis_id; [apply Hok..|].
  - by apply reads_port_id; apply Hok.
  - apply reads_ttl, Hok.
  - done.
Qed.

(** Run the record updates, and nothing else. *)
Ltac eval_view :=
  cbv -[tlv_enabled nonempty_str str_bytes u16 Z.lor received_chassis_id received_power
        inventory_field received_inventory in_slot foldl slot_insert nonempty replicate
        mdi_cap when negb andb Z.eqb received_str some_inventory].

Lemma reads_all :
  local_ok → 6 + zlen (default [] (c_id chassis)) ≤ zlen frame →
  ∃ f, Reads (lldp_tlvs global hardware chassis) f ∧
    f {| w_chassis := chassis_zero; w_port := port_zero; w_ttl := false |} =
    {| w_chassis := remote_chassis; w_port := remote_port; w_ttl := true |}.
Proof.
  intros Hok Hf. eexists. split.
  - unfold lldp_tlvs. apply reads_app; [by apply reads_mandatory|].
    apply reads_app; [by apply reads_names|]. apply reads_app; [by apply reads_mgmts|].
    apply reads_app; [by apply reads_descr|]. apply reads_app; [by apply reads_dot1|].
    apply reads_app; [by apply reads_dot3|]. by apply reads_med.
  - destruct (ok_policies Hok) as [Hlp _], (ok_locations Hok) as [Hll _].
    unfold remote_chassis, remote_port, remote_iv, remote_med_caps, med_view.
    rewrite <- !slots_fold, Hlp, Hll.
    destruct (Z.eqb_spec (p_mfs port) 0) as [Hm|_], (Z.eqb_spec (p_pvid port) 0) as [Hv|_];
      rewrite ?Hm, ?Hv; destruct (tlv_enabled (c_lldp_tlv_port_vlanid_enable global)),
        med_on, iv_on, mdi_on; eval_view; reflexivity.
Qed.

(** ** The whole frame *)

Lemma enc_tlvs_cons ty val ts :
  enc_tlvs ((ty, val) :: ts) = enc_lldp_tlv ty val ++ enc_tlvs ts.
Proof. done. Qed.

Lemma enc_tlvs_zlen ts : 2 * Z.of_nat (length ts) ≤ zlen (enc_tlvs ts).
Proof.
  induction ts as [|[ty val] ts IH]; [done|].
  rewrite enc_tlvs_cons. unfold enc_lldp_tlv. rewrite !zlen_app, be16_zlen. pose proof (zlen_nonneg val).
  cbn [length]. lia.
Qed.

Lemma chassis_id_fits :
  zlen (default [] (c_id chassis)) ≤ zlen (enc_tlvs (lldp_tlvs global hardware chassis)).
Proof.
  unfold lldp_tlvs, mandatory_tlvs. rewrite <- app_comm_cons, enc_tlvs_cons.
  unfold enc_lldp_tlv. rewrite !zlen_app, be16_zlen.
  pose proof (zlen_nonneg [u8 (c_id_subtype chassis)]).
  match goal with |- context [enc_tlvs ?ts] => pose proof (zlen_nonneg (enc_tlvs ts)) end. lia.
Qed.

Lemma run_end p l w buf rest :
  at_bytes frame p (enc_lldp_tlv LLDP_TLV_END [] ++ rest) → 2 ≤ l →
  lldp_decode_tlv frame (Build_cursor p l (locals w buf)) =
  Ok tt (Build_cursor (p + 2) (l - 2) ((locals w buf)<|l_gotend := true|>)).
Proof.
  intros Hat Hl. unfold enc_lldp_tlv in Hat. rewrite app_nil_r in Hat.
  unfold lldp_decode_tlv. erewrite exec_bind by done. cbn [c_length].
  erewrite exec_bind by (apply exec_check, Z.leb_le; lia).
  eapply exec_uint16; [exact Hat|]. intros _.
  erewrite exec_bind by done. cbn [c_pos]. erewrite exec_bind by done. cbn [c_length].
  erewrite exec_bind.
  2: { apply exec_check, Z.leb_le. change (Z.land _ 511) with 0. lia. }
  erewrite exec_bind by reflexivity. erewrite exec_bind by reflexivity. cbn [c_pos].
  change (Z.land _ 511) with 0. rewrite Z.add_0_r.
  erewrite exec_bind by (apply exec_check, Z.leb_refl).
  unfold PEEK_DISCARD; cbn [c_pos c_length c_ext]. f_equal. f_equal; lia.
Qed.

Definition lldp_packet (mac pad : list Z) : list Z :=
  LLDP_MULTICAST_ADDR ++ mac ++ be16 ETHERTYPE_LLDP ++
  enc_tlvs (lldp_tlvs global hardware chassis) ++ enc_lldp_tlv LLDP_TLV_END [] ++ pad.

Lemma lldp_packet_long mac pad : local_ok → zlen mac = 6 → 18 ≤ zlen (lldp_packet mac pad).
Proof.
  intros Hok Hm. unfold lldp_packet. rewrite !zlen_app, Hm.
  change (zlen LLDP_MULTICAST_ADDR) with 6. change (zlen (enc_lldp_tlv LLDP_TLV_END [])) with 2.
  rewrite be16_zlen. pose proof (zlen_nonneg pad).
  assert (2 ≤ zlen (enc_tlvs (lldp_tlvs global hardware chassis))); [|lia].
  unfold lldp_tlvs, mandatory_tlvs, enc_tlvs. cbn [app flat_map].
  unfold enc_lldp_tlv at 1. rewrite !zlen_app, be16_zlen.
  repeat match goal with |- context [zlen ?l] =>
    lazymatch goal with H : 0 ≤ zlen l |- _ => fail | _ => pose proof (zlen_nonneg l) end end. lia.
Qed.

Lemma run_start mac rest l e :
  frame = LLDP_MULTICAST_ADDR ++ mac ++ be16 ETHERTYPE_LLDP ++ rest →
  zlen mac = 6 → 14 ≤ l →
  lldp_decode_start frame (Build_cursor 0 l e) = Ok tt (Build_cursor 14 (l - 14) e).
Proof.
  intros Hframe Hmac Hl. unfold lldp_decode_start.
  assert (at_bytes frame 0 (LLDP_MULTICAST_ADDR ++ mac ++ be16 ETHERTYPE_LLDP ++ rest)) as Hat
    by (split; [done|]; by exists []).
  erewrite exec_bind by done. cbn [c_length].
  erewrite exec_bind by (apply exec_check, Z.leb_le; done).
  erewrite exec_bind.
  2: { unfold PEEK_CMP. eapply exec_bytes; [exact Hat|done|]. intros _.
       rewrite bool_decide_eq_true_2 by done. reflexivity. }
  erewrite exec_bind by done. apply exec_discard.
  eapply exec_uint16.
  - apply at_bytes_app, at_bytes_app in Hat. rewrite Hmac in Hat. exact Hat.
  - intros _. change (zlen LLDP_MULTICAST_ADDR) with 6. unfold ETHER_ADDR_LEN.
    rewrite exec_check by done. f_equal. f_equal; lia.
Qed.

Lemma lldp_decode_packet mac pad hw :
  local_ok → zlen mac = 6 → frame = lldp_packet mac pad →
  lldp_decode frame (zlen frame) hw =
  Decoded remote_chassis remote_port (add_unrecognized hw 0).
Proof.
  intros Hok Hmac Hframe. set (ts := lldp_tlvs global hardware chassis) in *.
  assert (at_bytes frame 14 (enc_tlvs ts ++ enc_lldp_tlv LLDP_TLV_END [] ++ pad)) as Hat.
  { split; [done|]. exists (LLDP_MULTICAST_ADDR ++ mac ++ be16 ETHERTYPE_LLDP).
    rewrite Hframe. unfold lldp_packet. rewrite <- !app_assoc, !zlen_app, Hmac. done. }
  pose proof (at_bytes_end _ _ _ Hat) as Hend.
  rewrite !zlen_app in Hend. change (zlen (enc_lldp_tlv LLDP_TLV_END [])) with 2 in Hend.
  pose proof (zlen_nonneg pad). pose proof (enc_tlvs_zlen ts) as Hts.
  destruct reads_all as (f & Hreads & Hf); [done| |].
  { assert (zlen (default [] (c_id chassis)) ≤ zlen (enc_tlvs ts)); [|lia].
    subst ts. apply chassis_id_fits. }
  fold ts in Hreads. clearbody ts.
  unfold lldp_decode, lldp_decode_body.
  erewrite exec_bind by (eapply run_start; [exact Hframe|done|lia]).
  set (n := (Z.to_nat (zlen frame) - length ts)%nat).
  replace (S (Z.to_nat (zlen frame))) with (length ts + S n)%nat by lia.
  destruct (Hreads (S n) 14 (zlen frame - 14)
              {| w_chassis := chassis_zero; w_port := port_zero; w_ttl := false |}
              (replicate 32 None) _ Hat) as (buf & _ & Hloop); [done|lia|].
  change lldp_locals_init with
    (locals {| w_chassis := chassis_zero; w_port := port_zero; w_ttl := false |} (replicate 32 None)).
  rewrite Hf in Hloop. apply at_bytes_app in Hat.
  destruct n as [|n'] eqn:Hn; [lia|].
  erewrite exec_while_true in Hloop; [| |eapply run_end; [exact Hat|lia]].
  2: { unfold lldp_more. cbn. by rewrite (proj2 (Z.eqb_neq _ 0)) by lia. }
  rewrite exec_while_false in Hloop by (unfold lldp_more; cbn; by rewrite andb_false_r).
  erewrite exec_bind by exact Hloop.
  erewrite exec_bind by reflexivity. cbn -[add_unrecognized remote_chassis remote_port].
  rewrite !bool_decide_eq_true_2; [done| |].
  - unfold remote_port. by destruct med_on.
  - unfold remote_chassis. by destruct med_on.
Qed.
End Remote.

(** ** From [lldp_send] to [lldp_decode] *)

Section Roundtrip.
Context `{BuildConfig}.
Implicit Types (global : lldpd_config) (hardware hw : lldpd_hardware) (chassis : lldpd_chassis).

Lemma lldp_bytes_packet global hardware chassis :
  lldp_bytes global hardware chassis =
  lldp_packet global hardware chassis (h_lladdr hardware) [].
Proof.
  unfold lldp_bytes, lldp_packet, lldp_header. rewrite enc_tlvs_app, <- !app_assoc. done.
Qed.

Lemma drop_header (mac rest : list Z) :
  zlen mac = 6 → drop 12 (LLDP_MULTICAST_ADDR ++ mac ++ rest) = rest.
Proof.
  intros Hmac. rewrite app_assoc. apply drop_app_length'. rewrite length_app.
  unfold zlen in Hmac. simpl. lia.
Qed.

(** What is given to the driver is the announced frame, with some source
    address. *)
Lemma lldp_send_packet global hardware chassis send now rc hw' packet :
  0 ≤ h_mtu hardware → zlen (h_lladdr hardware) = 6 →
  lldp_send global hardware chassis send now = (rc, hw', Some packet) →
  ∃ mac, zlen mac = 6 ∧ packet = lldp_packet global hardware chassis mac [].
Proof.
  intros Hmtu Hmac. unfold lldp_send. rewrite lldp_frame_spec by done.
  destruct (_ <=? _); [|done]. unfold interfaces_send_helper.
  set (bytes := lldp_bytes global hardware chassis).
  assert (bytes = LLDP_MULTICAST_ADDR ++ h_lladdr hardware ++ drop 12 bytes) as Hbytes.
  { subst bytes. rewrite lldp_bytes_packet. unfold lldp_packet. do 2 f_equal. by rewrite drop_header. }
  assert (2 * ETHER_ADDR_LEN ≤ zlen bytes) as Hlen.
  { rewrite Hbytes, !zlen_app, Hmac. change (zlen LLDP_MULTICAST_ADDR) with 6.
    pose proof (zlen_nonneg (drop 12 bytes)). unfold ETHER_ADDR_LEN. lia. }
  rewrite (proj2 (Z.ltb_ge _ _)) by done.
  set (sent := if h_mangle hardware then _ else _).
  assert (∃ mac, zlen mac = 6 ∧ sent = LLDP_MULTICAST_ADDR ++ mac ++ drop 12 bytes) as (mac & Hm & Hsent).
  { subst sent. destruct (h_mangle hardware); [|by exists (h_lladdr hardware)].
    destruct (mangle_src_mac_frame (c_bond_slave_src_mac_type global) bytes Hlen) as (mac & Hm & ->).
    exists mac. split; [done|]. by rewrite Hbytes at 1. }
  intros Hres. exists mac. split; [done|].
  assert (packet = sent) as -> by (destruct (send sent =? -1); congruence).
  rewrite Hsent. subst bytes. rewrite lldp_bytes_packet. unfold lldp_packet. do 2 f_equal.
  by apply drop_header.
Qed.

End Roundtrip.
