(* ===== verification/Table.v ===== *)
(** * The neighbor table (src/daemon/lldpd.c, src/lldpd-structs.c)

    The state of the daemon and the operations that change its table of
    neighbors: receiving a frame ([lldpd_decode]), expiring and removing ports
    ([lldpd_remote_cleanup], [lldpd_cleanup]), creating and deleting hardware
    ports.  A chassis is shared by all the ports that are attached to it and is
    freed when its reference count drops to zero: the chassis live in a heap
    [g_heap], ports hold their address, [g_chassis] is the list the daemon keeps
    (the local chassis first), and [c_refcount] is the counter of the code,
    modulo 2^16.  The protocols are values of type [protocol], as in the
    [g_protocols] array; what the table needs of their decoders is the class
    [ProtocolOk] of file TableOk. *)

From stdpp Require Import gmap.
From S2P Require Import Prelude Bytes Const Structs Decoder Frame.
#[local] Open Scope Z_scope.

Abbreviation heap := (gmap nat lldpd_chassis).

(** What a decoder does: it may update known chassis and ports in place. *)
Inductive proto_result :=
  | PDecoded (h : heap) (newchassis : lldpd_chassis) (newport : lldpd_port) (hw : lldpd_hardware)
  | PDiscarded (h : heap) (hw : lldpd_hardware)
  | PCrashed (f : fault).

Record protocol := {
  mode : Z;
  enabled : Z;
  name : list Z;
  (** [send]: the driver, [time(NULL)] and the sequence number of EDP are
      arguments; it returns the hardware, the sequence number and the packets. *)
  proto_send : lldpd_config → lldpd_chassis → (list Z → Z) → Z → Z → lldpd_hardware →
    lldpd_hardware * Z * list (list Z);
  proto_decode : lldpd_config → heap → list Z → Z → lldpd_hardware → proto_result;
  guess : option (list Z → Z → bool);
  mac : list Z
}.

Inductive neighbor_change :=
  NEIGHBOR_CHANGE_DELETED | NEIGHBOR_CHANGE_ADDED | NEIGHBOR_CHANGE_UPDATED.

(** What the daemon asks the event loop and its clients. *)
Inductive event :=
  | CtlNotify (ifname : list Z) (change : neighbor_change) (port : lldpd_port)
  | SchedulePdu (ifname : list Z)
  | ScheduleCleanup
  | SendNow (ifname : list Z)       (** [levent_send_now], for each interface *)
  | UpdateNow.                      (** [levent_update_now] *)

Record lldpd := {
  g_config : lldpd_config;
  g_protocols : list protocol;
  g_lastrid : Z;
  g_chassis : list nat;
  g_heap : heap;
  g_alloc : nat;                 (** next free address *)
  g_hardware : list lldpd_hardware;
  g_events : list event
}.
#[global] Instance eta_lldpd : Settable lldpd := λ r,
  {| g_config := g_config r; g_protocols := g_protocols r; g_lastrid := g_lastrid r;
     g_chassis := g_chassis r; g_heap := g_heap r; g_alloc := g_alloc r;
     g_hardware := g_hardware r; g_events := g_events r |}.

Definition LOCAL_CHASSIS (cfg : lldpd) : option nat := head (g_chassis cfg).
Definition incr64 (n : Z) : Z := (n + 1) mod 2 ^ 64.

(** [p->c_refcount++], [p->c_refcount--] *)
Definition ref_add (d : Z) (p : nat) (h : heap) : heap :=
  alter (λ c, c<|c_refcount ::= λ n, u16 (n + d)|>) p h.

(** ** Freeing (src/lldpd-structs.c) *)

Definition lldpd_port_cleanup (h : heap) (port : lldpd_port) : heap :=
  match p_chassis port with Some p => ref_add (-1) p h | None => h end.

Section Ops.
Context `{BuildConfig}.

(** Should the port go?  [expire] is not NULL in the daemon loop. *)
Definition rport_expired (h : heap) (now : Z) (port : lldpd_port) : bool :=
  match p_chassis port ≫= (h !!.) with
  | Some c => p_lastupdate port + c_ttl c <=? now
  | None => false
  end.

(** One iteration of the loop of [lldpd_remote_cleanup]: the new heap, the
    hardware with its counters, the events, and whether the port stays. *)
Definition remote_cleanup_port (expire all : bool) (now : Z) (port : lldpd_port)
    (h : heap) (hw : lldpd_hardware) : heap * lldpd_hardware * list event * bool :=
  let aged := (negb all && expire && rport_expired h now port)%bool in
  let hw := if aged then
      let hw := hw<|h_ageout_cnt ::= incr64|> in
      if ENABLE_OVSDB then hw else hw<|h_delete_cnt ::= incr64|>
    else hw in
  if (all || aged)%bool then
    let hw := if ENABLE_OVSDB
      then hw<|h_delete_cnt ::= incr64|><|h_rport_change_opcode := LLDPD_AF_NBR_DEL|> else hw in
    (lldpd_port_cleanup h port, hw,
     (if expire then [CtlNotify (h_ifname hw) NEIGHBOR_CHANGE_DELETED port] else []), false)
  else (h, hw, [], true).

Fixpoint remote_cleanup_loop (expire all : bool) (now : Z) (ports : list lldpd_port)
    (h : heap) (hw : lldpd_hardware) : heap * lldpd_hardware * list event * list lldpd_port :=
  match ports with
  | [] => (h, hw, [], [])
  | port :: ports' =>
      let '(h, hw, ev, keep) := remote_cleanup_port expire all now port h hw in
      let '(h, hw, ev', kept) := remote_cleanup_loop expire all now ports' h hw in
      (h, hw, ev ++ ev', if keep then port :: kept else kept)
  end.

Definition lldpd_remote_cleanup (expire all : bool) (now : Z) (h : heap) (hw : lldpd_hardware)
    : heap * lldpd_hardware * list event :=
  let '(h, hw, ev, kept) := remote_cleanup_loop expire all now (h_rports hw) h hw in
  (h, hw<|h_rports := kept|>, ev).

(** ** Hardware ports *)

Definition lldpd_hardware_cleanup (h : heap) (hw : lldpd_hardware) : heap :=
  lldpd_port_cleanup h (h_lport hw).

(** [lldpd_alloc_hardware] followed by the [TAILQ_INSERT_TAIL] of its callers;
    [hw0] is the zeroed structure with the name and the index. *)
Definition lldpd_alloc_hardware (cfg : lldpd) (ifname : list Z) (index : Z)
    (hw0 : lldpd_hardware) : lldpd :=
  match LOCAL_CHASSIS cfg with
  | None => cfg
  | Some local =>
      let med := match g_heap cfg !! local with
                 | Some c => negb (c_med_cap_available c =? 0)
                 | None => false
                 end in
      let caps := if med then
          Z.lor LLDP_MED_CAP_CAP (if c_noinventory (g_config cfg) then 0 else LLDP_MED_CAP_IV)
        else 0 in
      let lport := port_zero<|p_chassis := Some local|><|p_med_cap_enabled := caps|> in
      cfg<|g_heap ::= ref_add 1 local|>
         <|g_hardware ::= λ l, l ++ [hw0<|h_ifname := ifname_copy ifname|><|h_ifindex := index|>
                                       <|h_lport := lport|><|h_rports := []|>]|>
  end.

(** ** [lldpd_cleanup] *)

(** The loop over the hardware ports: those whose flags were not set again by
    the interface update go away with their neighbors. *)
Fixpoint cleanup_hardware (now : Z) (hws : list lldpd_hardware) (h : heap)
    : heap * list event * list lldpd_hardware :=
  match hws with
  | [] => (h, [], [])
  | hw :: hws' =>
      let gone := h_flags hw =? 0 in
      let '(h, hw, ev) := lldpd_remote_cleanup true gone now h hw in
      let h := if gone then lldpd_hardware_cleanup h hw else h in
      let '(h, ev', kept) := cleanup_hardware now hws' h in
      (h, ev ++ ev', if gone then kept else hw :: kept)
  end.

(** The loop over the chassis. *)
Definition unreferenced (h : heap) (p : nat) : bool :=
  match h !! p with Some c => c_refcount c =? 0 | None => false end.
Definition cleanup_chassis (cfg : lldpd) : lldpd :=
  let dead := filter (λ p, unreferenced (g_heap cfg) p = true) (g_chassis cfg) in
  cfg<|g_chassis ::= filter (λ p, unreferenced (g_heap cfg) p ≠ true)|>
     <|g_heap ::= λ h, foldr delete h dead|>.

Definition lldpd_cleanup (now : Z) (cfg : lldpd) : lldpd :=
  let '(h, ev, hws) := cleanup_hardware now (g_hardware cfg) (g_heap cfg) in
  let cfg := cleanup_chassis (cfg<|g_heap := h|><|g_hardware := hws|>) in
  cfg<|g_events ::= λ l, l ++ ev ++ [ScheduleCleanup]|>.

(** ** [lldpd_decode] *)

(** VLAN decapsulation, in place: [memmove(frame + 12, frame + 16, s - 12)],
    which reads four bytes after the received ones. *)
Definition vlan_decap (frame : list Z) (s : Z) : fault + (list Z * Z) :=
  if word_at frame 12 =? ETHERTYPE_VLAN then
    if zlen frame <? s + 4 then inl OutOfBoundsRead
    else inr (write_at frame 12 (take (Z.to_nat (s - 12)) (drop 16 frame)), s - 4)
  else inr (frame, s).

(** Is the frame the last one received for this port? *)
Definition same_frame (bytes : list Z) (port : lldpd_port) : Prop :=
  p_lastframe port = Some bytes.
#[global] Instance same_frame_dec bytes port : Decision (same_frame bytes port).
Proof. unfold same_frame. apply _. Defined.

Definition guesses (frame : list Z) (s : Z) (p : protocol) : bool :=
  (negb (enabled p =? 0) &&
   match guess p with
   | None => bool_decide (take 6 frame = mac p)
   | Some g => g frame s
   end)%bool.
Definition lldpd_guess_type (protocols : list protocol) (frame : list Z) (s : Z) : Z :=
  if s <? ETHER_ADDR_LEN then -1
  else
    match list_find (λ p, guesses frame s p = true) protocols with
    | Some (_, p) => mode p
    | None => -1
    end.

(** The first enabled protocol with the guessed mode. *)
Definition find_decoder (protocols : list protocol) (m : Z) : option protocol :=
  snd <$> list_find (λ p, enabled p ≠ 0 ∧ mode p = m) protocols.

(** [memcmp] of two identifiers with their lengths. *)
Definition same_id (a b : option (list Z)) : bool := bool_decide (default [] a = default [] b).
Definition same_chassis_id (a b : lldpd_chassis) : bool :=
  ((c_id_subtype a =? c_id_subtype b) && same_id (c_id a) (c_id b))%bool.

(** MSAP: same port identifier and same chassis identifier. *)
Definition same_msap (h : heap) (chassis : lldpd_chassis) (port oport : lldpd_port) : bool :=
  ((p_id_subtype port =? p_id_subtype oport) && same_id (p_id port) (p_id oport) &&
   match p_chassis oport ≫= (h !!.) with
   | Some ochassis => same_chassis_id chassis ochassis
   | None => false
   end)%bool.

(** The search for a known MSAP: the index of the port if it is found, and the
    number of ports with the same protocol that were visited. *)
Fixpoint find_msap (h : heap) (chassis : lldpd_chassis) (port : lldpd_port)
    (rports : list lldpd_port) (i : nat) (count : Z) : Z * option (nat * lldpd_port) :=
  match rports with
  | [] => (count, None)
  | oport :: rports' =>
      if p_protocol port =? p_protocol oport then
        if same_msap h chassis port oport then (count + 1, Some (i, oport))
        else find_msap h chassis port rports' (S i) (count + 1)
      else find_msap h chassis port rports' (S i) count
  end.

(** The search for a known chassis. *)
Definition known_chassis (h : heap) (chassis : lldpd_chassis) (p : nat) : bool :=
  match h !! p with
  | Some oc => ((c_protocol chassis =? c_protocol oc) && same_chassis_id chassis oc)%bool
  | None => false
  end.
Definition find_chassis (cfg : lldpd) (chassis : lldpd_chassis) : option nat :=
  snd <$> list_find (λ p, known_chassis (g_heap cfg) chassis p = true) (g_chassis cfg).

(** [lldpd_move_chassis]: everything but the counter and the index. *)
Definition lldpd_move_chassis (ochassis chassis : lldpd_chassis) : lldpd_chassis :=
  chassis<|c_refcount := c_refcount ochassis|><|c_index := c_index ochassis|>.

(** The chassis the port is attached to, and the table that holds it. *)
Definition store_chassis (cfg : lldpd) (ochassis : option nat) (chassis : lldpd_chassis)
    : lldpd * nat :=
  match ochassis with
  | Some p => (cfg<|g_heap ::= alter (λ oc, lldpd_move_chassis oc chassis) p|>, p)
  | None =>
      let rid := g_lastrid cfg + 1 in
      let p := g_alloc cfg in
      (cfg<|g_lastrid := rid|><|g_alloc := S p|>
          <|g_heap ::= <[p := chassis<|c_index := u16 rid|><|c_refcount := 0|>]>|>
          <|g_chassis ::= λ l, l ++ [p]|>, p)
  end.

Definition is_fast_start (cfg : lldpd) (hw : lldpd_hardware) : bool :=
  (negb (c_enable_fast_start (g_config cfg) =? 0) && (h_tx_fast hw =? 0))%bool.

(** The end of [lldpd_decode]: a chassis and a port were decoded from [bytes]
    on the [i]-th hardware, which is [hw]. *)
Definition register_neighbor (cfg : lldpd) (i : nat) (hw : lldpd_hardware)
    (chassis : lldpd_chassis) (port : lldpd_port) (bytes : list Z) (now : Z) : lldpd :=
  let '(count, oport) := find_msap (g_heap cfg) chassis port (h_rports hw) 0 0 in
  let max := c_max_neighbors (g_config cfg) in
  if (bool_decide (oport = None) && negb (max =? 0) && (max - 1 <? count))%bool then
    (* Too many neighbors, drop this new one *)
    cfg<|g_heap ::= λ h, lldpd_port_cleanup h port|>
  else
    let ochassis := match oport with
                    | Some (_, o) => p_chassis o
                    | None => find_chassis cfg chassis
                    end in
    (* The port is known, remove it before adding it back *)
    let '(h, hw) := match oport with
        | Some (k, o) =>
            (lldpd_port_cleanup (g_heap cfg) o,
             let hw := hw<|h_rports ::= delete k|> in
             if ENABLE_OVSDB then hw<|h_rport_change_opcode := LLDPD_AF_NBR_MOD|> else hw)
        | None => (g_heap cfg, hw)
        end in
    let '(cfg, p) := store_chassis (cfg<|g_heap := h|>) ochassis chassis in
    (* Add port *)
    let port := port<|p_lastchange := now|><|p_lastupdate := now|>
                    <|p_lastframe := Some bytes|><|p_chassis := Some p|> in
    let is_new := bool_decide (oport = None) in
    let hw := hw<|h_rports ::= λ l, l ++ [port]|> in
    let hw := if is_new then hw<|h_insert_cnt ::= incr64|> else hw in
    let cfg := cfg<|g_heap ::= ref_add 1 p|> in
    let ev := [CtlNotify (h_ifname hw)
                 (if is_new then NEIGHBOR_CHANGE_ADDED else NEIGHBOR_CHANGE_UPDATED) port] in
    (* New neighbor, fast start *)
    let med := (is_new && negb (c_med_type chassis =? 0))%bool in
    let hw := if (med && is_fast_start cfg hw)%bool
              then hw<|h_tx_fast := c_tx_fast_init (g_config cfg)|> else hw in
    let ev := if med then ev ++ [SchedulePdu (h_ifname hw)] else ev in
    let hw := if (ENABLE_OVSDB && (h_rport_change_opcode hw =? LLDPD_AF_NBR_NOOP))%bool
              then hw<|h_rport_change_opcode := LLDPD_AF_NBR_ADD|> else hw in
    cfg<|g_hardware ::= <[i := hw]>|><|g_events ::= λ l, l ++ ev|>.

(** A frame that was already received refreshes its port. *)
Definition refresh_port (hw : lldpd_hardware) (k : nat) (cur_opcode now : Z) : lldpd_hardware :=
  let hw := hw<|h_rports ::= alter (λ q, q<|p_lastupdate := now|>) k|> in
  if ENABLE_OVSDB then
    hw<|h_rport_change_opcode :=
      if ((cur_opcode =? LLDPD_AF_NBR_MOD) || (cur_opcode =? LLDPD_AF_NBR_ADD))%bool
      then cur_opcode else LLDPD_AF_NBR_UPD|>
  else hw.

(** [lldpd_decode(cfg, frame, s, hardware)], where the hardware is the [i]-th. *)
Definition lldpd_decode (cfg : lldpd) (i : nat) (frame : list Z) (s now : Z) : fault + lldpd :=
  match g_hardware cfg !! i with
  | None => inr cfg
  | Some hw =>
      if s <? 18 then inr cfg (* Too short *)
      else
        let cur_opcode := h_rport_change_opcode hw in
        let hw := if ENABLE_OVSDB
                  then hw<|h_rport_change_opcode := LLDPD_AF_NBR_NOOP|> else hw in
        match vlan_decap frame s with
        | inl f => inl f
        | inr (frame, s) =>
            let bytes := take (Z.to_nat s) frame in
            match list_find (same_frame bytes) (h_rports hw) with
            | Some (k, _) =>
                inr (cfg<|g_hardware ::= <[i := refresh_port hw k cur_opcode now]>|>)
            | None =>
                match find_decoder (g_protocols cfg) (lldpd_guess_type (g_protocols cfg) frame s) with
                | None => inr (cfg<|g_hardware ::= <[i := hw]>|>)
                | Some proto =>
                    match proto_decode proto (g_config cfg) (g_heap cfg) frame s hw with
                    | PCrashed f => inl f
                    | PDiscarded h hw => inr (cfg<|g_heap := h|><|g_hardware ::= <[i := hw]>|>)
                    | PDecoded h chassis port hw =>
                        inr (register_neighbor
                               (cfg<|g_heap := h|><|g_hardware ::= <[i := hw]>|>) i hw
                               (chassis<|c_protocol := u8 (mode proto)|>)
                               (port<|p_protocol := u8 (mode proto)|>) bytes now)
                    end
                end
            end
        end
  end.
End Ops.
