(* ===== verification/TableOk.v ===== *)
(** * Invariants of the neighbor table

    [table_ok] is what every operation of Table keeps true: ports point to
    chassis that exist, the reference counter of a chassis is the number of the
    ports that point to it (plus the permanent reference to the local chassis),
    no chassis and no MSAP is stored twice.  Decoders come in through the class
    [ProtocolOk], the contract a protocol has with the table. *)

From stdpp Require Import gmap.
From S2P Require Import Prelude Bytes Const Structs Decoder Frame Table.
#[local] Open Scope Z_scope.

(** ** Identity of chassis and ports *)

Definition chassis_key (c : lldpd_chassis) : Z * Z * list Z :=
  (c_protocol c, c_id_subtype c, default [] (c_id c)).
Definition port_key (q : lldpd_port) : option nat * Z * Z * list Z :=
  (p_chassis q, p_protocol q, p_id_subtype q, default [] (p_id q)).

(** Same chassis at the same addresses, with the same counters. *)
Definition heap_sim (h h' : heap) : Prop :=
  ∀ p, (λ c, (c_refcount c, chassis_key c)) <$> h !! p =
       (λ c, (c_refcount c, chassis_key c)) <$> h' !! p.

(** Every chassis of [h] is still in [h'] under the same identity. *)
Definition heap_le (h h' : heap) : Prop :=
  ∀ p c, h !! p = Some c → ∃ c', h' !! p = Some c' ∧ chassis_key c' = chassis_key c.

#[global] Instance heap_le_preorder : PreOrder heap_le.
Proof.
  split; [intros h p c Hc; by exists c|].
  intros h1 h2 h3 H12 H23 p c Hc. destruct (H12 p c Hc) as (c2 & Hc2 & Hk2).
  destruct (H23 p c2 Hc2) as (c3 & Hc3 & Hk3). exists c3. by rewrite Hk3.
Qed.

#[global] Instance heap_sim_equiv : Equivalence heap_sim.
Proof.
  split; [done|by intros ? ? Hh p; rewrite Hh|].
  intros h1 h2 h3 H12 H23 p. by rewrite H12.
Qed.

Lemma heap_sim_lookup h h' p c :
  heap_sim h h' → h !! p = Some c →
  ∃ c', h' !! p = Some c' ∧ c_refcount c' = c_refcount c ∧ chassis_key c' = chassis_key c.
Proof.
  intros Hs Hc. specialize (Hs p). rewrite Hc in Hs. cbn in Hs.
  destruct (h' !! p) as [c'|]; cbn in Hs; [|done]. injection Hs as H1 H2 H3 H4.
  exists c'. unfold chassis_key. split_and!; [done|by symmetry|congruence].
Qed.

Lemma heap_sim_le h h' : heap_sim h h' → heap_le h h'.
Proof.
  intros Hs p c Hc. destruct (heap_sim_lookup _ _ _ _ Hs Hc) as (c' & ? & _ & ?). by exists c'.
Qed.

(** ** Counting references *)

Definition refs_in (p : nat) (l : list lldpd_port) : nat :=
  length (filter (λ q, p_chassis q = Some p) l).
Definition hw_ports (hw : lldpd_hardware) : list lldpd_port := h_lport hw :: h_rports hw.
Definition refs (p : nat) (hws : list lldpd_hardware) : nat :=
  refs_in p (hws ≫= hw_ports).
(** The daemon keeps one reference to the local chassis for itself. *)
Definition base_refs (local p : nat) : nat := if decide (p = local) then 1%nat else 0%nat.

Arguments refs_in : simpl never.
Arguments refs : simpl never.
Arguments base_refs : simpl never.

Section Refs.
Implicit Types (p : nat) (q : lldpd_port) (l : list lldpd_port) (hws : list lldpd_hardware).

Lemma refs_in_app p l k : refs_in p (l ++ k) = (refs_in p l + refs_in p k)%nat.
Proof. unfold refs_in. by rewrite list.filter_app, length_app. Qed.

Lemma refs_in_cons p q l :
  refs_in p (q :: l) = ((if decide (p_chassis q = Some p) then 1 else 0) + refs_in p l)%nat.
Proof. unfold refs_in. rewrite filter_cons. by destruct (decide _). Qed.

Lemma refs_in_keys p l k : port_key <$> l = port_key <$> k → refs_in p l = refs_in p k.
Proof.
  revert k. induction l as [|a l IH]; intros [|b k]; try done.
  intros Hkeys. injection Hkeys as Hp _ _ _ Hrest. by rewrite !refs_in_cons, Hp, (IH k).
Qed.

Lemma refs_in_delete p l k q :
  l !! k = Some q →
  refs_in p l = ((if decide (p_chassis q = Some p) then 1 else 0) + refs_in p (delete k l))%nat.
Proof.
  intros Hk. rewrite <- (take_drop_middle l k q Hk) at 1.
  rewrite delete_take_drop, !refs_in_app, refs_in_cons. lia.
Qed.

Lemma refs_insert p hws i hw hw' :
  hws !! i = Some hw →
  (refs p (<[i := hw']> hws) + refs_in p (hw_ports hw) =
   refs p hws + refs_in p (hw_ports hw'))%nat.
Proof.
  intros Hi. unfold refs. rewrite <- (take_drop_middle hws i hw Hi) at 2.
  assert (i < length hws)%nat by (by eapply lookup_lt_Some).
  rewrite insert_take_drop by done. rewrite !bind_app, !bind_cons, !refs_in_app. lia.
Qed.
End Refs.

Lemma u16_add a b : u16 (u16 a + b) = u16 (a + b).
Proof. apply Zplus_mod_idemp_l. Qed.

(** ** The invariant *)

Record heap_ok (local : nat) (chs : list nat) (alloc : nat) (h : heap) : Prop := {
  hk_nodup : NoDup chs;
  hk_dom p : p ∈ chs ↔ is_Some (h !! p);
  hk_alloc p : p ∈ chs → (p < alloc)%nat;
  hk_local : head chs = Some local;
  hk_protocol p c : h !! p = Some c → c_protocol c = 0 ↔ p = local;
  hk_unique p p' c c' : h !! p = Some c → h !! p' = Some c' →
    chassis_key c = chassis_key c' → p = p'
}.

(** A neighbor: attached to a remote chassis of the same protocol. *)
Definition rport_ok (h : heap) (q : lldpd_port) : Prop :=
  ∃ p c, p_chassis q = Some p ∧ h !! p = Some c ∧ c_protocol c = p_protocol q ∧ p_protocol q ≠ 0.

Record hw_ok (local : nat) (h : heap) (hw : lldpd_hardware) : Prop := {
  hw_lport : p_chassis (h_lport hw) = Some local;
  hw_rports : Forall (rport_ok h) (h_rports hw);
  hw_msap : NoDup (port_key <$> (h_rports hw))
}.

Definition refs_ok (h : heap) (count : nat → nat) : Prop :=
  ∀ p c, h !! p = Some c → c_refcount c = u16 (Z.of_nat (count p)).

Record tab_ok (local : nat) (chs : list nat) (alloc : nat) (h : heap)
    (hws : list lldpd_hardware) : Prop := {
  tk_heap : heap_ok local chs alloc h;
  tk_hw : Forall (hw_ok local h) hws;
  tk_refs : refs_ok h (λ p, (refs p hws + base_refs local p)%nat)
}.
Definition table_ok (local : nat) (cfg : lldpd) : Prop :=
  tab_ok local (g_chassis cfg) (g_alloc cfg) (g_heap cfg) (g_hardware cfg).

(** *** Changes of the heap *)

Section Heap.
Context (local : nat).
Implicit Types (h : heap) (p : nat) (q : lldpd_port) (hw : lldpd_hardware).

Lemma rport_ok_le h h' q : heap_le h h' → rport_ok h q → rport_ok h' q.
Proof.
  intros Hle (p & c & Hp & Hc & Hpr & Hne). destruct (Hle p c Hc) as (c' & Hc' & Hk).
  injection Hk as Hk _ _. exists p, c'. by rewrite Hk.
Qed.

Lemma hw_ok_le h h' hw : heap_le h h' → hw_ok local h hw → hw_ok local h' hw.
Proof.
  intros Hle [Hl Hr Hm]. split; [done| |done].
  eapply Forall_impl; [|exact Hr]. intros q. by apply rport_ok_le.
Qed.

Lemma hws_ok_le h h' hws :
  heap_le h h' → Forall (hw_ok local h) hws → Forall (hw_ok local h') hws.
Proof. intros Hle Hf. eapply Forall_impl; [|exact Hf]. intros hw. by apply hw_ok_le. Qed.

(** A change of the heap that keeps addresses and identities. *)
Lemma heap_ok_keys chs alloc h h' :
  (∀ p, chassis_key <$> h !! p = chassis_key <$> h' !! p) →
  heap_ok local chs alloc h → heap_ok local chs alloc h'.
Proof.
  intros Hk [H1 H2 H3 H4 H5 H6].
  assert (∀ p c', h' !! p = Some c' → ∃ c, h !! p = Some c ∧ chassis_key c = chassis_key c') as Hback.
  { intros p c' Hc'. specialize (Hk p). rewrite Hc' in Hk.
    destruct (h !! p) as [c|]; cbn in Hk; [|done]. exists c. split; congruence. }
  split; [done| |done|done| |].
  - intros p. rewrite H2. specialize (Hk p).
    destruct (h !! p), (h' !! p); cbn in Hk; split; intros [? ?]; done || by eexists.
  - intros p c' Hc'. destruct (Hback p c' Hc') as (c & Hc & Hkey).
    injection Hkey as Hpr _ _. rewrite <- Hpr. by apply H5.
  - intros p p' c c' Hc Hc' Hkey.
    destruct (Hback p c Hc) as (d & Hd & Hdk), (Hback p' c' Hc') as (d' & Hd' & Hdk').
    apply (H6 p p' d d'); congruence.
Qed.

Lemma ref_add_lookup d p h p' :
  ref_add d p h !! p' =
    if decide (p = p') then (λ c, c<|c_refcount ::= λ n, u16 (n + d)|>) <$> h !! p' else h !! p'.
Proof.
  unfold ref_add. destruct (decide (p = p')) as [->|Hne].
  - apply lookup_alter_eq.
  - by apply lookup_alter_ne.
Qed.

Lemma ref_add_keys d p h p' : chassis_key <$> h !! p' = chassis_key <$> ref_add d p h !! p'.
Proof. rewrite ref_add_lookup. destruct (decide _); [|done]. by destruct (h !! p'). Qed.

Lemma keys_le h h' : (∀ p, chassis_key <$> h !! p = chassis_key <$> h' !! p) → heap_le h h'.
Proof.
  intros Hk p c Hc. specialize (Hk p). rewrite Hc in Hk.
  destruct (h' !! p) as [c'|]; cbn in Hk; [|done]. exists c'. split; congruence.
Qed.

Lemma ref_add_le d p h : heap_le h (ref_add d p h).
Proof. apply keys_le, ref_add_keys. Qed.

Lemma ref_add_refs d p h (n n' : nat → nat) :
  refs_ok h n → Z.of_nat (n' p) = Z.of_nat (n p) + d → (∀ p', p' ≠ p → n' p' = n p') →
  refs_ok (ref_add d p h) n'.
Proof.
  intros Hr Hp Hne p' c. rewrite ref_add_lookup. destruct (decide (p = p')) as [<-|Hpp].
  - destruct (h !! p) as [c0|] eqn:Hc0; [|done]. intros [= <-]. cbn.
    by rewrite (Hr p c0 Hc0), u16_add, Hp.
  - intros Hc. rewrite Hne by done. by apply Hr.
Qed.

Lemma port_cleanup_refs h q (n n' : nat → nat) :
  refs_ok h n →
  (∀ p, (n' p + if decide (p_chassis q = Some p) then 1 else 0)%nat = n p) →
  refs_ok (lldpd_port_cleanup h q) n'.
Proof.
  intros Hr Hn. unfold lldpd_port_cleanup. destruct (p_chassis q) as [p|].
  - apply (ref_add_refs (-1) p h n n' Hr).
    + specialize (Hn p). rewrite decide_True in Hn by done. lia.
    + intros p' Hne. specialize (Hn p'). rewrite decide_False in Hn by congruence. lia.
  - intros p c Hc. specialize (Hn p). rewrite decide_False in Hn by done.
    rewrite (Hr p c Hc). do 2 f_equal. lia.
Qed.

Lemma port_cleanup_keys h q p :
  chassis_key <$> h !! p = chassis_key <$> lldpd_port_cleanup h q !! p.
Proof. unfold lldpd_port_cleanup. destruct (p_chassis q); [apply ref_add_keys|done]. Qed.

Lemma port_cleanup_le h q : heap_le h (lldpd_port_cleanup h q).
Proof. apply keys_le, port_cleanup_keys. Qed.

(** Removing neighbors. *)
Lemma hw_ok_sublist h hw k :
  k `sublist_of` h_rports hw → hw_ok local h hw → hw_ok local h hw<|h_rports := k|>.
Proof.
  intros Hk [Hl Hr Hm]. split; cbn; [done| |].
  - apply list.Forall_forall. intros q Hq. rewrite list.Forall_forall in Hr. apply Hr.
    eapply elem_of_submseteq; [exact Hq|]. by apply sublist_submseteq.
  - eapply sublist_NoDup; [exact Hm|]. by apply fmap_sublist.
Qed.

(** Fields of a hardware port the invariant does not depend on. *)
Lemma hw_ok_ext h hw hw' :
  p_chassis (h_lport hw') = p_chassis (h_lport hw) →
  port_key <$> h_rports hw' = port_key <$> h_rports hw →
  hw_ok local h hw → hw_ok local h hw'.
Proof.
  intros Hl Hk [H1 H2 H3]. split; [congruence| |by rewrite Hk].
  clear H3. revert H2 Hk. generalize (h_rports hw) as l, (h_rports hw') as l'.
  intros l l' Hf. revert l'. induction Hf as [|q l Hq Hf IH]; intros [|q' l']; try done.
  intros Hk. injection Hk as Hp Hpr Hst Hid Hk. constructor; [|by apply IH].
  destruct Hq as (p & c & Hpc & Hc & Hcp & Hne). exists p, c. by rewrite Hp, Hpr.
Qed.

Lemma refs_fresh h hws p :
  Forall (hw_ok local h) hws → h !! local ≠ None → h !! p = None → refs p hws = 0%nat.
Proof.
  intros Hf Hl Hp. unfold refs. induction Hf as [|hw hws Hhw _ IH]; [done|].
  rewrite bind_cons, refs_in_app, IH. destruct Hhw as [Hlp Hr _]. unfold hw_ports.
  rewrite refs_in_cons, decide_False by congruence.
  enough (refs_in p (h_rports hw) = 0%nat) by lia. clear IH.
  induction Hr as [|q l (p' & c & Hq & Hc & _) _ IH]; [done|].
  rewrite refs_in_cons, decide_False by congruence. lia.
Qed.

Lemma hw_ok_add h hw q :
  rport_ok h q → port_key q ∉ (port_key <$> h_rports hw) →
  hw_ok local h hw → hw_ok local h hw<|h_rports ::= λ l, l ++ [q]|>.
Proof.
  intros Hq Hnew [Hl Hr Hm]. split; cbn; [done| |].
  - apply Forall_app. split; [done|by apply Forall_singleton].
  - rewrite fmap_app. apply list.NoDup_app. split_and!; [done| |apply NoDup_singleton].
    intros k Hk Hk'. apply list_elem_of_singleton in Hk'. by subst k.
Qed.

(** *** Storing a chassis *)

Lemma move_chassis_keys h p oc chassis p' :
  h !! p = Some oc → chassis_key chassis = chassis_key oc →
  chassis_key <$> h !! p' =
  chassis_key <$> alter (λ oc, lldpd_move_chassis oc chassis) p h !! p'.
Proof.
  intros Hp Hk. destruct (decide (p = p')) as [<-|Hne].
  - rewrite lookup_alter_eq, Hp. cbn. f_equal. exact (eq_sym Hk).
  - by rewrite lookup_alter_ne.
Qed.

Lemma move_chassis_refs h p chassis n :
  refs_ok h n → refs_ok (alter (λ oc, lldpd_move_chassis oc chassis) p h) n.
Proof.
  intros Hr p' c. destruct (decide (p = p')) as [<-|Hne].
  - rewrite lookup_alter_eq. destruct (h !! p) as [oc|] eqn:Hoc; [|done].
    intros [= <-]. cbn. by apply Hr.
  - rewrite lookup_alter_ne by done. apply Hr.
Qed.

Lemma insert_fresh_ok chs alloc h chassis :
  heap_ok local chs alloc h → c_protocol chassis ≠ 0 →
  (∀ p c, h !! p = Some c → chassis_key c ≠ chassis_key chassis) →
  heap_ok local (chs ++ [alloc]) (S alloc) (<[alloc := chassis]> h).
Proof.
  intros [H1 H2 H3 H4 H5 H6] Hpr Hnew.
  assert (alloc ∉ chs) as Hni by (intros Hin; apply H3 in Hin; lia).
  assert (h !! alloc = None) as Hnone.
  { destruct (h !! alloc) eqn:Ha; [|done]. destruct Hni. apply H2. by eexists. }
  assert (local ≠ alloc) as Hla.
  { intros ->. destruct chs as [|x chs]; [done|]. cbn in H4. injection H4 as ->.
    apply Hni. left. }
  split.
  - apply list.NoDup_app. split_and!; [done| |apply NoDup_singleton].
    intros x Hx Hx'. apply list_elem_of_singleton in Hx'. by subst x.
  - intros p. rewrite elem_of_app, list_elem_of_singleton. destruct (decide (p = alloc)) as [->|Hne].
    + rewrite lookup_insert_eq. split; [by eexists|by right].
    + rewrite lookup_insert_ne, <- H2 by done. tauto.
  - intros p. rewrite elem_of_app, list_elem_of_singleton. intros [Hp|Hp]; [apply H3 in Hp|]; lia.
  - destruct chs; [done|exact H4].
  - intros p c. destruct (decide (p = alloc)) as [->|Hne].
    + rewrite lookup_insert_eq. intros [= <-]. split; [done|congruence].
    + rewrite lookup_insert_ne by done. apply H5.
  - intros p p' c c'. destruct (decide (p = alloc)) as [->|Hne], (decide (p' = alloc)) as [->|Hne'];
      rewrite ?lookup_insert_eq, ?lookup_insert_ne by done; try done.
    + intros [= <-] Hc' Hk. by destruct (Hnew _ _ Hc').
    + intros Hc [= <-] Hk. by destruct (Hnew _ _ Hc).
    + apply H6.
Qed.
End Heap.

(** ** Searching *)

Definition proto_count (pr : Z) (l : list lldpd_port) : nat :=
  length (filter (λ q, p_protocol q = pr) l).

Section Search.
Context (h : heap) (chassis : lldpd_chassis) (port : lldpd_port).

Lemma proto_count_cons pr q l :
  proto_count pr (q :: l) = ((if decide (p_protocol q = pr) then 1 else 0) + proto_count pr l)%nat.
Proof. unfold proto_count. rewrite filter_cons. by destruct (decide _). Qed.

Lemma find_msap_none l i n count :
  find_msap h chassis port l i n = (count, None) →
  count = n + Z.of_nat (proto_count (p_protocol port) l) ∧
  Forall (λ o, p_protocol port = p_protocol o → same_msap h chassis port o = false) l.
Proof.
  revert i n. induction l as [|o l IH]; intros i n; cbn [find_msap].
  - intros [= <-]. split; [unfold proto_count; cbn; lia|done].
  - rewrite proto_count_cons. destruct (Z.eqb_spec (p_protocol port) (p_protocol o)) as [He|He].
    + rewrite decide_True by done. destruct (same_msap h chassis port o) eqn:Hs; [done|].
      intros [Hc Hf]%IH. split; [lia|]. by constructor.
    + rewrite decide_False by done. intros [Hc Hf]%IH. split; [lia|]. by constructor.
Qed.

Lemma find_msap_some l i n count k o :
  find_msap h chassis port l i n = (count, Some (k, o)) →
  ∃ j, k = (i + j)%nat ∧ l !! j = Some o ∧ p_protocol port = p_protocol o ∧
    same_msap h chassis port o = true.
Proof.
  revert i n. induction l as [|o' l IH]; intros i n; cbn [find_msap]; [done|].
  destruct (Z.eqb_spec (p_protocol port) (p_protocol o')) as [He|He].
  - destruct (same_msap h chassis port o') eqn:Hs.
    + intros [= <- <- <-]. exists 0%nat. by rewrite Nat.add_0_r.
    + intros (j & -> & Hj)%IH. exists (S j). split; [lia|done].
  - intros (j & -> & Hj)%IH. exists (S j). split; [lia|done].
Qed.

Lemma same_msap_spec o :
  same_msap h chassis port o = true →
  ∃ p oc, p_chassis o = Some p ∧ h !! p = Some oc ∧
    c_id_subtype chassis = c_id_subtype oc ∧ default [] (c_id chassis) = default [] (c_id oc) ∧
    p_id_subtype port = p_id_subtype o ∧ default [] (p_id port) = default [] (p_id o).
Proof.
  unfold same_msap, same_chassis_id, same_id. intros Hs. bool_to_prop.
  destruct (p_chassis o) as [p|]; cbn in *; [|done].
  destruct (h !! p) as [oc|] eqn:Hoc; [|done]. bool_to_prop.
  exists p, oc. by repeat match goal with Hd : bool_decide _ = true |- _ => apply bool_decide_eq_true_1 in Hd end.
Qed.

Lemma known_chassis_spec p :
  known_chassis h chassis p = true ↔
  ∃ oc, h !! p = Some oc ∧ chassis_key oc = chassis_key chassis.
Proof.
  unfold known_chassis, same_chassis_id, same_id, chassis_key. split.
  - destruct (h !! p) as [oc|]; [|done]. intros Hs. bool_to_prop.
    match goal with Hd : bool_decide _ = true |- _ => apply bool_decide_eq_true_1 in Hd end.
    exists oc. split; [done|]. congruence.
  - intros (oc & -> & [= H1 H2 H3]).
    by rewrite H1, H2, !Z.eqb_refl, bool_decide_eq_true_2 by done.
Qed.
End Search.

(** ** The steps of [register_neighbor] *)

Section Steps.
Context (local : nat) (chs : list nat) (alloc : nat).
Implicit Types (h : heap) (hw : lldpd_hardware) (hws : list lldpd_hardware) (q : lldpd_port).

(** Replacing a hardware by one with the same ports. *)
Lemma tab_same_ports h hws i hw hw' :
  tab_ok local chs alloc h hws → hws !! i = Some hw →
  p_chassis (h_lport hw') = p_chassis (h_lport hw) →
  port_key <$> h_rports hw' = port_key <$> h_rports hw →
  tab_ok local chs alloc h (<[i := hw']> hws).
Proof.
  intros [Hh Hf Hr] Hi Hl Hk. split; [done| |].
  - apply Forall_insert; [done|]. eapply hw_ok_ext; [done..|].
    by eapply Forall_lookup_1.
  - intros p c Hc. rewrite (Hr p c Hc). do 2 f_equal.
    pose proof (refs_insert p hws i hw hw' Hi) as Hin. unfold hw_ports in Hin.
    rewrite !refs_in_cons, Hl, (refs_in_keys p _ _ Hk) in Hin. lia.
Qed.

(** A decoder may update known chassis and ports in place. *)
Lemma tab_sim h h' hws :
  heap_sim h h' → tab_ok local chs alloc h hws → tab_ok local chs alloc h' hws.
Proof.
  intros Hs [Hh Hf Hr]. split.
  - eapply heap_ok_keys; [|exact Hh]. intros p. specialize (Hs p).
    destruct (h !! p), (h' !! p); cbn in *; congruence.
  - eapply hws_ok_le; [by apply heap_sim_le|done].
  - intros p c' Hc'. symmetry in Hs.
    destruct (heap_sim_lookup _ _ _ _ Hs Hc') as (c & Hc & Hrc & _). rewrite <- Hrc. by apply Hr.
Qed.

(** Removing a port that is known. *)
Lemma tab_detach h hws i hw k o :
  tab_ok local chs alloc h hws → hws !! i = Some hw → h_rports hw !! k = Some o →
  tab_ok local chs alloc (lldpd_port_cleanup h o) (<[i := hw<|h_rports ::= delete k|>]> hws).
Proof.
  intros [Hh Hf Hr] Hi Hk. split.
  - eapply heap_ok_keys; [|exact Hh]. intros p. apply port_cleanup_keys.
  - eapply hws_ok_le; [apply port_cleanup_le|]. apply Forall_insert; [done|].
    apply (hw_ok_sublist _ _ _ (delete k (h_rports hw))); [apply sublist_delete|].
    by eapply Forall_lookup_1.
  - eapply port_cleanup_refs; [exact Hr|]. intros p. cbn.
    pose proof (refs_insert p hws i hw hw<|h_rports ::= delete k|> Hi) as Hin.
    unfold hw_ports in Hin. cbn in Hin. rewrite !refs_in_cons, (refs_in_delete p _ _ _ Hk) in Hin. lia.
Qed.

(** Adding a port. *)
Lemma tab_attach h hws i hw q p :
  tab_ok local chs alloc h hws → hws !! i = Some hw →
  p_chassis q = Some p → rport_ok h q → port_key q ∉ (port_key <$> h_rports hw) →
  tab_ok local chs alloc (ref_add 1 p h) (<[i := hw<|h_rports ::= λ l, l ++ [q]|>]> hws).
Proof.
  intros [Hh Hf Hr] Hi Hp Hq Hnew. split.
  - eapply heap_ok_keys; [|exact Hh]. intros p'. apply ref_add_keys.
  - eapply hws_ok_le; [apply ref_add_le|]. apply Forall_insert; [done|].
    apply hw_ok_add; [done..|]. by eapply Forall_lookup_1.
  - assert (∀ p', refs p' (<[i := hw<|h_rports ::= λ l, l ++ [q]|>]> hws) =
              (refs p' hws + if decide (p_chassis q = Some p') then 1 else 0)%nat) as Hrefs.
    { intros p'. pose proof (refs_insert p' hws i hw hw<|h_rports ::= λ l, l ++ [q]|> Hi) as Hin.
      unfold hw_ports in Hin. cbn in Hin. rewrite !refs_in_cons, refs_in_app, refs_in_cons in Hin.
      change (refs_in p' []) with 0%nat in Hin. lia. }
    eapply ref_add_refs; [exact Hr| |]; cbn.
    + rewrite Hrefs, decide_True by done. lia.
    + intros p' Hne. rewrite Hrefs, decide_False by congruence. lia.
Qed.

Lemma tab_move h hws p oc chassis :
  tab_ok local chs alloc h hws → h !! p = Some oc → chassis_key chassis = chassis_key oc →
  tab_ok local chs alloc (alter (λ oc, lldpd_move_chassis oc chassis) p h) hws.
Proof.
  intros [Hh Hf Hr] Hp Hk.
  assert (∀ p', chassis_key <$> h !! p' = chassis_key <$>
            alter (λ oc, lldpd_move_chassis oc chassis) p h !! p') as Hkeys
    by (intros p'; by eapply move_chassis_keys).
  split; [by eapply heap_ok_keys|by eapply hws_ok_le; [apply keys_le|]|by apply move_chassis_refs].
Qed.

Lemma fresh_none h : heap_ok local chs alloc h → h !! alloc = None.
Proof.
  intros Hh. destruct (h !! alloc) eqn:Ha; [|done].
  assert (alloc ∈ chs) as Hin by (apply (hk_dom _ _ _ _ Hh); by eexists).
  apply (hk_alloc _ _ _ _ Hh) in Hin. lia.
Qed.

Lemma local_in_heap h : heap_ok local chs alloc h → is_Some (h !! local).
Proof.
  intros Hh. apply (hk_dom _ _ _ _ Hh). pose proof (hk_local _ _ _ _ Hh) as Hl.
  destruct chs; [done|]. injection Hl as ->. left.
Qed.

Lemma tab_fresh h hws chassis :
  tab_ok local chs alloc h hws → c_protocol chassis ≠ 0 → c_refcount chassis = 0 →
  (∀ p c, h !! p = Some c → chassis_key c ≠ chassis_key chassis) →
  tab_ok local (chs ++ [alloc]) (S alloc) (<[alloc := chassis]> h) hws.
Proof.
  intros [Hh Hf Hr] Hpr Hrc Hnew. pose proof (fresh_none h Hh) as Hnone.
  assert (heap_le h (<[alloc := chassis]> h)) as Hle.
  { intros p c Hc. exists c. split; [|done]. rewrite lookup_insert_ne; congruence. }
  split; [by apply insert_fresh_ok|by eapply hws_ok_le|].
  intros p c. destruct (decide (p = alloc)) as [->|Hne].
  - rewrite lookup_insert_eq. intros [= <-].
    destruct (local_in_heap h Hh) as [lc Hlc].
    rewrite (refs_fresh local h hws alloc Hf) by congruence. unfold base_refs.
    rewrite decide_False by congruence. by rewrite Hrc.
  - rewrite lookup_insert_ne by done. apply Hr.
Qed.
End Steps.

(** ** The contract between a protocol and the table

    The mode of a protocol is a non-zero byte; its decoder changes no counter, no
    identity and no attachment of what is already in the table, and returns a
    port that is not attached yet; its sender touches neither. *)
Class ProtocolOk (p : protocol) : Prop := {
  po_mode : 0 < mode p < 256;
  po_decoded conf h frame s hw h' c q hw' :
    proto_decode p conf h frame s hw = PDecoded h' c q hw' →
    heap_sim h h' ∧ p_chassis q = None ∧
    p_chassis (h_lport hw') = p_chassis (h_lport hw) ∧
    port_key <$> h_rports hw' = port_key <$> h_rports hw;
  po_discarded conf h frame s hw h' hw' :
    proto_decode p conf h frame s hw = PDiscarded h' hw' →
    heap_sim h h' ∧ p_chassis (h_lport hw') = p_chassis (h_lport hw) ∧
    port_key <$> h_rports hw' = port_key <$> h_rports hw;
  po_send conf chassis driver now seq hw hw' seq' packets :
    proto_send p conf chassis driver now seq hw = (hw', seq', packets) →
    p_chassis (h_lport hw') = p_chassis (h_lport hw) ∧ h_rports hw' = h_rports hw
}.

Section Preserve.
Context `{BuildConfig}.
Implicit Types (cfg : lldpd) (hw : lldpd_hardware).

Lemma not_in_delete {A B} (f : A → B) (l : list A) k x :
  NoDup (f <$> l) → l !! k = Some x → f x ∉ (f <$> delete k l).
Proof.
  intros Hnd Hk. rewrite <- (take_drop_middle l k x Hk) in Hnd at 1.
  rewrite delete_take_drop. rewrite fmap_app in *. rewrite fmap_cons in Hnd.
  apply list.NoDup_app in Hnd as (_ & Hd & [Hx _]%list.NoDup_cons).
  rewrite elem_of_app. intros [Hin|Hin]; [|done]. by apply (Hd _ Hin); left.
Qed.

Lemma store_find_chassis local cfg chassis cfg' p :
  table_ok local cfg → c_protocol chassis ≠ 0 →
  store_chassis cfg (find_chassis cfg chassis) chassis = (cfg', p) →
  table_ok local cfg' ∧ g_hardware cfg' = g_hardware cfg ∧ g_config cfg' = g_config cfg ∧
  (∃ c, g_heap cfg' !! p = Some c ∧ chassis_key c = chassis_key chassis) ∧
  (∀ p' oc, g_heap cfg !! p' = Some oc → p' = p → chassis_key oc = chassis_key chassis).
Proof.
  intros Hok Hpr. unfold find_chassis.
  destruct (list_find _ _) as [[k x]|] eqn:Hfind; cbn [fmap option_fmap option_map snd store_chassis].
  - intros [= <- <-]. apply list_find_Some in Hfind as (_ & Hk & _).
    apply known_chassis_spec in Hk as (oc & Hoc & Hkey). split_and!; [|done|done| |].
    + by eapply tab_move.
    + cbn. rewrite lookup_alter_eq, Hoc. by eexists.
    + intros p' oc' Hoc' ->. congruence.
  - intros [= <- <-]. apply list_find_None in Hfind.
    assert (∀ p c, g_heap cfg !! p = Some c → chassis_key c ≠ chassis_key chassis) as Hnew.
    { intros p c Hc Hkey. rewrite list.Forall_forall in Hfind. apply (Hfind p).
      - apply (hk_dom _ _ _ _ (tk_heap _ _ _ _ _ Hok)). by eexists.
      - apply known_chassis_spec. by exists c. }
    split_and!; [|done|done| |].
    + by apply tab_fresh.
    + cbn. rewrite lookup_insert_eq. by eexists.
    + intros p' oc Hoc ->. by rewrite (fresh_none _ _ _ _ (tk_heap _ _ _ _ _ Hok)) in Hoc.
Qed.

(** Whatever happens to the other fields of the hardware. *)
Lemma tab_attach_ext local chs alloc h hws i hw hw' q p :
  tab_ok local chs alloc h hws → hws !! i = Some hw →
  p_chassis q = Some p → rport_ok h q → port_key q ∉ (port_key <$> h_rports hw) →
  h_lport hw' = h_lport hw → h_rports hw' = h_rports hw ++ [q] →
  tab_ok local chs alloc (ref_add 1 p h) (<[i := hw']> hws).
Proof.
  intros Hok Hi Hp Hq Hnew Hl Hr.
  pose proof (tab_attach _ _ _ _ _ _ _ _ _ Hok Hi Hp Hq Hnew) as Hok'.
  rewrite <- (list_insert_insert_eq hws i hw' hw<|h_rports ::= λ l, l ++ [q]|>).
  eapply tab_same_ports; [exact Hok'| | |].
  - apply list_lookup_insert_eq. by eapply lookup_lt_Some.
  - cbn. by rewrite Hl.
  - cbn. by rewrite Hr.
Qed.

Lemma new_rport_ok (h : heap) (q : lldpd_port) (p : nat) (c chassis : lldpd_chassis) :
  p_chassis q = Some p → h !! p = Some c → chassis_key c = chassis_key chassis →
  c_protocol chassis = p_protocol q → p_protocol q ≠ 0 → rport_ok h q.
Proof. intros Hp Hc [= Hk _ _] Hpr Hne. exists p, c. by rewrite Hk. Qed.

Definition new_port (port : lldpd_port) (bytes : list Z) (now : Z) (p : nat) : lldpd_port :=
  port<|p_lastchange := now|><|p_lastupdate := now|><|p_lastframe := Some bytes|>
      <|p_chassis := Some p|>.

Lemma register_new_ok local cfg i hw chassis port bytes now cfg' p hw' :
  table_ok local cfg → g_hardware cfg !! i = Some hw →
  c_protocol chassis = p_protocol port → p_protocol port ≠ 0 →
  Forall (λ o, p_protocol port = p_protocol o →
               same_msap (g_heap cfg) chassis port o = false) (h_rports hw) →
  store_chassis cfg (find_chassis cfg chassis) chassis = (cfg', p) →
  h_lport hw' = h_lport hw → h_rports hw' = h_rports hw ++ [new_port port bytes now p] →
  tab_ok local (g_chassis cfg') (g_alloc cfg') (ref_add 1 p (g_heap cfg'))
    (<[i := hw']> (g_hardware cfg')).
Proof.
  intros Hok Hi Hpr Hne Hnone Hst Hl Hr.
  destruct (store_find_chassis local cfg chassis cfg' p Hok) as (Hok' & Hhw & _ & (c & Hc & Hkc) & Hkey);
    [congruence|done|].
  eapply (tab_attach_ext _ _ _ _ _ _ hw hw' (new_port port bytes now p));
    [exact Hok'|by rewrite Hhw|done| | |done|exact Hr].
  - by eapply new_rport_ok.
  - intros Hin. apply list_elem_of_fmap in Hin as (o & Hko & Ho).
    injection Hko as Hpo Hpro Hsto Hido. cbn in *.
    rewrite list.Forall_forall in Hnone. specialize (Hnone o Ho Hpro).
    assert (rport_ok (g_heap cfg) o) as (p' & oc & Hp' & Hoc & _).
    { pose proof (Forall_lookup_1 _ _ _ _ (tk_hw _ _ _ _ _ Hok) Hi) as [_ Hro _].
      rewrite list.Forall_forall in Hro. by apply Hro. }
    assert (p' = p) as -> by congruence. specialize (Hkey p oc Hoc eq_refl).
    injection Hkey as _ Hk2 Hk3. unfold same_msap, same_chassis_id, same_id in Hnone.
    rewrite Hp' in Hnone. cbn in Hnone.
    rewrite Hoc, Hk2, Hsto, !Z.eqb_refl, !bool_decide_eq_true_2 in Hnone by congruence. done.
Qed.

Lemma register_known_ok local cfg i hw chassis port bytes now k o p oc hw' :
  table_ok local cfg → g_hardware cfg !! i = Some hw →
  c_protocol chassis = p_protocol port → p_protocol port ≠ 0 →
  h_rports hw !! k = Some o → p_protocol port = p_protocol o →
  p_chassis o = Some p → g_heap cfg !! p = Some oc →
  chassis_key chassis = chassis_key oc →
  p_id_subtype port = p_id_subtype o → default [] (p_id port) = default [] (p_id o) →
  h_lport hw' = h_lport hw →
  h_rports hw' = delete k (h_rports hw) ++ [new_port port bytes now p] →
  tab_ok local (g_chassis cfg) (g_alloc cfg)
    (ref_add 1 p (alter (λ oc, lldpd_move_chassis oc chassis) p (lldpd_port_cleanup (g_heap cfg) o)))
    (<[i := hw']> (g_hardware cfg)).
Proof.
  intros Hok Hi Hpr Hne Hk Hpo Hp Hoc Hkey Hst Hid Hl Hr.
  pose proof (tab_detach _ _ _ _ _ _ _ _ _ Hok Hi Hk) as Hdet.
  destruct (port_cleanup_le (g_heap cfg) o p oc Hoc) as (oc1 & Hoc1 & Hk1).
  eapply (tab_move _ _ _ _ _ _ _ chassis) in Hdet; [|exact Hoc1|by rewrite Hk1].
  rewrite <- (list_insert_insert_eq _ i hw' hw<|h_rports ::= delete k|>).
  eapply (tab_attach_ext _ _ _ _ _ _ hw<|h_rports ::= delete k|> hw' (new_port port bytes now p));
    [exact Hdet| |done| | | |].
  - apply list_lookup_insert_eq. by eapply lookup_lt_Some.
  - eapply new_rport_ok; [done|rewrite lookup_alter_eq, Hoc1; done|reflexivity|done|done].
  - cbn. replace (port_key _) with (port_key o); [|unfold port_key; cbn; congruence].
    eapply not_in_delete; [|exact Hk]. apply (hw_msap local (g_heap cfg)).
    by eapply Forall_lookup_1; [apply (tk_hw _ _ _ _ _ Hok)|].
  - done.
  - exact Hr.
Qed.

Lemma register_ok local cfg i hw chassis port bytes now :
  table_ok local cfg → g_hardware cfg !! i = Some hw →
  p_chassis port = None → c_protocol chassis = p_protocol port → p_protocol port ≠ 0 →
  table_ok local (register_neighbor cfg i hw chassis port bytes now).
Proof.
  intros Hok Hi Hnone Hpr Hne. unfold register_neighbor.
  destruct (find_msap _ _ _ _ _ _) as [count oport] eqn:Hfind.
  destruct (bool_decide (oport = None) && _ && _)%bool.
  { unfold table_ok, lldpd_port_cleanup. cbn. rewrite Hnone. exact Hok. }
  destruct oport as [[k o]|].
  - apply find_msap_some in Hfind as (j & -> & Hj & Hpo & Hs). cbn in Hj |- *.
    apply same_msap_spec in Hs as (p & oc & Hp & Hoc & Hs1 & Hs2 & Hs3 & Hs4).
    rewrite Hp. cbn [store_chassis].
    assert (chassis_key chassis = chassis_key oc) as Hkey.
    { unfold chassis_key. rewrite Hs1, Hs2. do 2 f_equal.
      pose proof (Forall_lookup_1 _ _ _ _ (tk_hw _ _ _ _ _ Hok) Hi) as [_ Hro _].
      destruct (Forall_lookup_1 _ _ _ _ Hro Hj) as (p' & c' & Hp' & Hc' & Hcp & _). congruence. }
    eapply (register_known_ok local cfg i hw _ port bytes now j o); try done.
    + by repeat case_if.
    + by repeat case_if.
  - apply find_msap_none in Hfind as [_ Hf]. cbn [bool_decide].
    destruct (store_chassis _ _ _) as [cfg' p] eqn:Hst.
    replace (cfg<|g_heap := g_heap cfg|>) with cfg in Hst by (by destruct cfg).
    apply (register_new_ok local cfg i hw chassis port bytes now cfg' p); try done.
    + by repeat case_if.
    + by repeat case_if.
Qed.
End Preserve.
