(* ===== verification/TableInv.v ===== *)
(** * The operations keep the neighbor table well formed

    Preservation of [table_ok] by receiving a frame and by the periodic cleanup,
    and what the cleanup removes: expired neighbors, the neighbors of interfaces
    that are gone, and exactly the chassis nobody refers to any more. *)

From stdpp Require Import gmap.
From S2P Require Import Prelude Bytes Const Structs Decoder Frame Table TableOk.
#[local] Open Scope Z_scope.

Section Inv.
Context `{BuildConfig}.
Implicit Types (cfg : lldpd) (hw : lldpd_hardware) (h : heap).

Lemma tab_update_hw local cfg i hw hw' h :
  table_ok local cfg → g_hardware cfg !! i = Some hw → heap_sim (g_heap cfg) h →
  p_chassis (h_lport hw') = p_chassis (h_lport hw) →
  port_key <$> h_rports hw' = port_key <$> h_rports hw →
  table_ok local cfg<|g_heap := h|><|g_hardware ::= <[i := hw']>|>.
Proof. intros Hok Hi Hs Hl Hk. eapply tab_same_ports; [by eapply tab_sim|done..]. Qed.

Lemma refresh_port_keys hw k op now :
  p_chassis (h_lport (refresh_port hw k op now)) = p_chassis (h_lport hw) ∧
  port_key <$> h_rports (refresh_port hw k op now) = port_key <$> h_rports hw.
Proof.
  unfold refresh_port. split; [by repeat case_if|].
  assert (port_key <$> alter (λ q, q<|p_lastupdate := now|>) k (h_rports hw) =
          port_key <$> h_rports hw) as Heq.
  { apply list_eq. intros j. rewrite !list_lookup_fmap, list_lookup_alter.
    destruct (decide (k = j)) as [->|]; [|done]. by destruct (h_rports hw !! j). }
  by repeat case_if.
Qed.

Lemma find_decoder_ok protocols m proto :
  Forall ProtocolOk protocols → find_decoder protocols m = Some proto → ProtocolOk proto.
Proof.
  intros Hpo Hfd. unfold find_decoder in Hfd.
  destruct (list_find _ _) as [[k p]|] eqn:Hlf; [|done].
  cbn in Hfd. injection Hfd as <-. apply list_find_Some in Hlf as (Hk & _).
  by eapply Forall_lookup_1.
Qed.

Lemma lldpd_decode_ok local cfg i frame s now cfg' :
  Forall ProtocolOk (g_protocols cfg) → table_ok local cfg →
  lldpd_decode cfg i frame s now = inr cfg' → table_ok local cfg'.
Proof.
  intros Hpo Hok. unfold lldpd_decode.
  destruct (g_hardware cfg !! i) as [hw0|] eqn:Hi; [|by intros [= <-]].
  destruct (s <? 18); [by intros [= <-]|]. cbv zeta.
  set (hw := if ENABLE_OVSDB then _ else _).
  assert (p_chassis (h_lport hw) = p_chassis (h_lport hw0)) as Hl by (subst hw; by case_if).
  assert (h_rports hw = h_rports hw0) as Hr by (subst hw; by case_if).
  assert (cfg<|g_heap := g_heap cfg|> = cfg) as Heta by (by destruct cfg).
  destruct (vlan_decap frame s) as [f|[fr n]]; [done|].
  destruct (list_find _ _) as [[k ?]|].
  { intros [= <-]. rewrite <- Heta. destruct (refresh_port_keys hw k (h_rport_change_opcode hw0) now).
    eapply tab_update_hw; [done..| |]; congruence. }
  destruct (find_decoder _ _) as [proto|] eqn:Hfd.
  2: { intros [= <-]. rewrite <- Heta. eapply tab_update_hw; [done..| |]; congruence. }
  assert (ProtocolOk proto) as Hproto by (by eapply find_decoder_ok).
  destruct (proto_decode _ _ _ _ _ _) as [h' c q hw'|h' hw'|f] eqn:Hdec; [| |done]; intros [= <-].
  - destruct (po_decoded _ _ _ _ _ _ _ _ _ Hdec) as (Hs & Hq & Hl' & Hr').
    pose proof (po_mode (p:=proto)) as Hm.
    apply register_ok; cbn; try done.
    + eapply tab_update_hw; [done..| |]; congruence.
    + apply list_lookup_insert_eq. by eapply lookup_lt_Some.
    + rewrite u8_small by lia. lia.
  - destruct (po_discarded _ _ _ _ _ _ _ Hdec) as (Hs & Hl' & Hr').
    eapply tab_update_hw; [done..| |]; congruence.
Qed.

(** ** Removing neighbors *)

(** [l] with the hardware at the position after [pre]. *)
Lemma tab_at local chs alloc h pre hw hw' rest :
  tab_ok local chs alloc h (pre ++ hw :: rest) →
  p_chassis (h_lport hw') = p_chassis (h_lport hw) →
  port_key <$> h_rports hw' = port_key <$> h_rports hw →
  tab_ok local chs alloc h (pre ++ hw' :: rest).
Proof.
  intros Hok Hl Hk.
  pose proof (tab_same_ports _ _ _ _ _ (length pre) hw hw' Hok) as Hok'.
  rewrite insert_app_r_alt, Nat.sub_diag in Hok' by lia.
  apply Hok'; [by apply list_lookup_middle|done|done].
Qed.

Lemma tab_remove_rport local chs alloc h pre hw rest a q b :
  tab_ok local chs alloc h (pre ++ hw :: rest) → h_rports hw = a ++ q :: b →
  tab_ok local chs alloc (lldpd_port_cleanup h q) (pre ++ hw<|h_rports := a ++ b|> :: rest).
Proof.
  intros Hok Hr.
  pose proof (tab_detach _ _ _ _ _ (length pre) hw (length a) q Hok) as Hok'.
  rewrite insert_app_r_alt, Nat.sub_diag in Hok' by lia. cbn [insert list_insert] in Hok'.
  assert (delete (length a) (h_rports hw) = a ++ b) as Hd.
  { rewrite Hr. rewrite delete_middle. done. }
  eapply tab_at; [apply Hok'| |]; [by apply list_lookup_middle| |done|].
  - rewrite Hr. by apply list_lookup_middle.
  - cbn. by rewrite Hd.
Qed.

Lemma cleanup_port_fields expire all now q h hw h' hw' ev keep :
  remote_cleanup_port expire all now q h hw = (h', hw', ev, keep) →
  h_lport hw' = h_lport hw ∧ h_rports hw' = h_rports hw ∧ h_flags hw' = h_flags hw ∧
  h' = (if keep then h else lldpd_port_cleanup h q) ∧
  keep = negb (all || (expire && rport_expired h now q)).
Proof.
  unfold remote_cleanup_port. destruct all, expire, (rport_expired h now q); cbn;
    destruct ENABLE_OVSDB; intros [= <- <- <- <-]; done.
Qed.

Lemma remote_cleanup_loop_ok local chs alloc expire all now pre rest l a h hw h' hw' ev kept :
  tab_ok local chs alloc h (pre ++ hw<|h_rports := a ++ l|> :: rest) →
  remote_cleanup_loop expire all now l h hw = (h', hw', ev, kept) →
  tab_ok local chs alloc h' (pre ++ hw'<|h_rports := a ++ kept|> :: rest) ∧
  h_lport hw' = h_lport hw ∧ h_flags hw' = h_flags hw.
Proof.
  revert a h hw h' hw' ev kept.
  induction l as [|q l IH]; intros a h hw h' hw' ev kept Hok; cbn [remote_cleanup_loop].
  { by intros [= <- <- <- <-]. }
  destruct (remote_cleanup_port _ _ _ _ _ _) as [[[h1 hw1] ev1] keep] eqn:Hport.
  destruct (remote_cleanup_loop _ _ _ l h1 hw1) as [[[h2 hw2] ev2] kept2] eqn:Hloop.
  intros [= <- <- <- <-]. apply cleanup_port_fields in Hport as (Hl1 & Hr1 & Hf1 & -> & _).
  destruct keep.
  - destruct (IH (a ++ [q]) h hw1 h2 hw2 ev2 kept2) as (Hok' & Hl' & Hf').
    + rewrite <- app_assoc. eapply tab_at; [exact Hok|by cbn; rewrite Hl1|done].
    + exact Hloop.
    + rewrite <- app_assoc in Hok'. split_and!; [exact Hok'|congruence..].
  - destruct (IH a (lldpd_port_cleanup h q) hw1 h2 hw2 ev2 kept2) as (Hok' & Hl' & Hf').
    + eapply tab_at; [by eapply (tab_remove_rport _ _ _ _ _ _ _ a q l); [exact Hok|]| |done].
      by cbn; rewrite Hl1.
    + exact Hloop.
    + split_and!; [exact Hok'|congruence..].
Qed.

Lemma rport_expired_cleanup h now q q' :
  rport_expired (lldpd_port_cleanup h q') now q = rport_expired h now q.
Proof.
  unfold rport_expired, lldpd_port_cleanup. destruct (p_chassis q) as [p|]; [|done]. cbn.
  destruct (p_chassis q') as [p'|]; [|done]. rewrite ref_add_lookup.
  destruct (decide (p' = p)); [|done]. by destruct (h !! p).
Qed.

(** The neighbors that stay. *)
Definition rports_left (gone : bool) (now : Z) h (l : list lldpd_port) : list lldpd_port :=
  filter (λ q, gone = false ∧ rport_expired h now q = false) l.

Lemma remote_cleanup_loop_kept gone now l h hw h' hw' ev kept :
  remote_cleanup_loop true gone now l h hw = (h', hw', ev, kept) →
  kept = rports_left gone now h l ∧
  (∀ q, rport_expired h' now q = rport_expired h now q).
Proof.
  revert h hw h' hw' ev kept. induction l as [|q l IH]; intros h hw h' hw' ev kept; cbn [remote_cleanup_loop].
  { by intros [= <- <- <- <-]. }
  destruct (remote_cleanup_port _ _ _ _ _ _) as [[[h1 hw1] ev1] keep] eqn:Hport.
  destruct (remote_cleanup_loop _ _ _ l h1 hw1) as [[[h2 hw2] ev2] kept2] eqn:Hloop.
  intros [= <- <- <- <-]. apply cleanup_port_fields in Hport as (_ & _ & _ & -> & ->).
  apply IH in Hloop as [-> Hexp]. unfold rports_left. rewrite filter_cons. cbn [andb].
  split.
  - assert (filter (λ q0, gone = false ∧ rport_expired (if negb (gone || rport_expired h now q)
              then h else lldpd_port_cleanup h q) now q0 = false) l =
            filter (λ q0, gone = false ∧ rport_expired h now q0 = false) l) as ->.
    { apply list_filter_iff. intros q0. case_if; [done|]. by rewrite rport_expired_cleanup. }
    destruct gone, (rport_expired h now q); cbn [orb negb].
    + rewrite decide_False by (intros [? ?]; done). done.
    + rewrite decide_False by (intros [? ?]; done). done.
    + rewrite decide_False by (intros [? ?]; done). done.
    + by rewrite decide_True.
  - intros q0. rewrite Hexp. case_if; [done|]. apply rport_expired_cleanup.
Qed.

(** [lldpd_remote_cleanup] keeps exactly the neighbors whose time to live
    has not expired, in their order, and none when all of them must go. *)
Theorem lldpd_remote_cleanup_kept gone now h hw h' hw' ev :
  lldpd_remote_cleanup true gone now h hw = (h', hw', ev) →
  h_rports hw' = rports_left gone now h (h_rports hw).
Proof.
  unfold lldpd_remote_cleanup.
  destruct (remote_cleanup_loop _ _ _ _ _ _) as [[[h1 hw1] ev1] kept] eqn:Hloop.
  intros [= <- <- <-]. by apply remote_cleanup_loop_kept in Hloop as [-> _].
Qed.

Lemma tab_remove_hw local chs alloc h pre hw rest :
  tab_ok local chs alloc h (pre ++ hw :: rest) → h_rports hw = [] →
  tab_ok local chs alloc (lldpd_hardware_cleanup h hw) (pre ++ rest).
Proof.
  intros [Hh Hf Hr] Hnil. split.
  - eapply heap_ok_keys; [|exact Hh]. intros p. apply port_cleanup_keys.
  - eapply hws_ok_le; [apply port_cleanup_le|].
    apply Forall_app in Hf as [Hf1 Hf2]. apply Forall_app. split; [done|].
    by apply Forall_cons_iff in Hf2 as [_ Hf2].
  - eapply port_cleanup_refs; [exact Hr|]. intros p. cbn. unfold refs.
    rewrite !bind_app, bind_cons, !refs_in_app. unfold hw_ports at 4.
    rewrite Hnil, refs_in_cons. change (refs_in p []) with 0%nat. lia.
Qed.

Definition nports (hws : list lldpd_hardware) : nat := length (hws ≫= hw_ports).

Lemma remote_cleanup_ok local chs alloc gone now pre hw rest h h' hw' ev :
  tab_ok local chs alloc h (pre ++ hw :: rest) →
  lldpd_remote_cleanup true gone now h hw = (h', hw', ev) →
  tab_ok local chs alloc h' (pre ++ hw' :: rest) ∧
  h_lport hw' = h_lport hw ∧ h_flags hw' = h_flags hw ∧
  h_rports hw' = rports_left gone now h (h_rports hw) ∧
  (∀ q, rport_expired h' now q = rport_expired h now q).
Proof.
  intros Hok. unfold lldpd_remote_cleanup.
  destruct (remote_cleanup_loop _ _ _ _ _ _) as [[[h1 hw1] ev1] kept] eqn:Hloop.
  intros [= <- <- <-]. pose proof (remote_cleanup_loop_kept _ _ _ _ _ _ _ _ _ Hloop) as [-> Hexp].
  eapply (remote_cleanup_loop_ok local chs alloc true gone now pre rest (h_rports hw) [])
    in Hloop as (Hok' & Hl & Hf); [|by eapply tab_at; [exact Hok|..]].
  split_and!; [exact Hok'|done|done|done|done].
Qed.

Lemma cleanup_hardware_ok local chs alloc now hws pre h h' ev kept :
  tab_ok local chs alloc h (pre ++ hws) →
  cleanup_hardware now hws h = (h', ev, kept) →
  tab_ok local chs alloc h' (pre ++ kept) ∧
  map h_rports kept =
    map (λ hw, rports_left false now h (h_rports hw)) (filter (λ hw, h_flags hw ≠ 0) hws) ∧
  (nports kept ≤ nports hws)%nat.
Proof.
  revert pre h h' ev kept. induction hws as [|hw hws IH]; intros pre h h' ev kept Hok;
    cbn [cleanup_hardware].
  { by intros [= <- <- <-]. }
  destruct (lldpd_remote_cleanup _ _ _ _ _) as [[h1 hw1] ev1] eqn:Hrc.
  destruct (cleanup_hardware now hws _) as [[h2 ev2] kept2] eqn:Hch.
  intros [= <- <- <-]. destruct (remote_cleanup_ok _ _ _ _ _ _ _ _ _ _ _ _ Hok Hrc)
    as (Hok1 & Hl1 & Hf1 & Hr1 & He1).
  rewrite filter_cons. destruct (Z.eqb_spec (h_flags hw) 0) as [Hz|Hnz].
  - rewrite decide_False by (intros Hne; done).
    assert (h_rports hw1 = []) as Hnil.
    { rewrite Hr1. unfold rports_left. clear. induction (h_rports hw) as [|q l IHl]; [done|].
      rewrite filter_cons, decide_False by (intros [? ?]; done). exact IHl. }
    destruct (IH pre _ _ _ _ (tab_remove_hw _ _ _ _ _ _ _ Hok1 Hnil) Hch) as (Hok2 & Hk2 & Hn2).
    split_and!; [done| |].
    + rewrite Hk2. apply map_ext. intros hw'. apply list_filter_iff. intros q.
      unfold lldpd_hardware_cleanup. by rewrite rport_expired_cleanup, He1.
    + unfold nports in *. rewrite bind_cons, length_app. lia.
  - rewrite decide_True by done.
    apply (IH (pre ++ [hw1])) in Hch as (Hok2 & Hk2 & Hn2); [|by rewrite <- app_assoc].
    rewrite <- app_assoc in Hok2. split_and!; [done| |].
    + cbn [map]. rewrite Hk2, Hr1. f_equal. apply map_ext. intros hw'.
      apply list_filter_iff. intros q. by rewrite He1.
    + unfold nports in *. rewrite !bind_cons, !length_app. unfold hw_ports at 1 3. cbn [length].
      rewrite Hr1. pose proof (length_filter (λ q, false = false ∧ rport_expired h now q = false) (h_rports hw)).
      unfold rports_left. lia.
Qed.

(** ** Freeing chassis *)

Lemma refs_le_nports p hws : (refs p hws ≤ nports hws)%nat.
Proof. unfold refs, refs_in, nports. apply length_filter. Qed.

Lemma refcount_zero local chs alloc h hws p c :
  tab_ok local chs alloc h hws → Z.of_nat (nports hws) < 65535 → h !! p = Some c →
  (c_refcount c = 0 ↔ (refs p hws + base_refs local p = 0)%nat).
Proof.
  intros [_ _ Hr] Hb Hc. rewrite (Hr p c Hc). pose proof (refs_le_nports p hws).
  assert (base_refs local p ≤ 1)%nat by (unfold base_refs; case_decide; lia).
  rewrite u16_small by lia. lia.
Qed.

Lemma rport_refs h hw hws q p :
  hw ∈ hws → q ∈ hw_ports hw → p_chassis q = Some p → (0 < refs p hws)%nat.
Proof.
  intros Hhw Hq Hp. unfold refs, refs_in.
  assert (q ∈ filter (λ q, p_chassis q = Some p) (hws ≫= hw_ports)) as Hin.
  { apply list_elem_of_filter. split; [done|]. apply list_elem_of_bind. by exists hw. }
  destruct (filter _ _); [by apply not_elem_of_nil in Hin|cbn; lia].
Qed.

Lemma cleanup_chassis_ok local cfg :
  table_ok local cfg → Z.of_nat (nports (g_hardware cfg)) < 65535 →
  table_ok local (cleanup_chassis cfg).
Proof.
  intros Hok Hb. pose proof Hok as [Hh Hf Hr].
  set (dead := filter (λ p, unreferenced (g_heap cfg) p = true) (g_chassis cfg)).
  assert (∀ p, p ∈ dead → (refs p (g_hardware cfg) + base_refs local p = 0)%nat) as Hdead.
  { intros p [Hu Hp]%list_elem_of_filter. unfold unreferenced in Hu.
    destruct (g_heap cfg !! p) as [c|] eqn:Hc; [|done]. bool_to_prop.
    by apply (refcount_zero _ _ _ _ _ _ _ Hok Hb Hc). }
  assert (local ∉ dead) as Hlocal.
  { intros Hl%Hdead. unfold base_refs in Hl. rewrite decide_True in Hl by done. lia. }
  assert (∀ p c, foldr delete (g_heap cfg) dead !! p = Some c ↔ (p ∉ dead) ∧ g_heap cfg !! p = Some c)
    as Hlook by (intros; apply lookup_foldr_delete_Some).
  assert (∀ p, p ∈ filter (λ p, unreferenced (g_heap cfg) p ≠ true) (g_chassis cfg) ↔
               (p ∉ dead) ∧ p ∈ g_chassis cfg) as Hlive.
  { intros p. unfold dead. rewrite !list_elem_of_filter. tauto. }
  destruct Hh as [H1 H2 H3 H4 H5 H6].
  unfold table_ok, cleanup_chassis; cbn. fold dead. split; [split|..].
  - by apply list.NoDup_filter.
  - intros p. rewrite Hlive, H2. split.
    + intros [Hnd [c Hc]]. exists c. by apply Hlook.
    + intros [c [Hnd Hc]%Hlook]. split; [done|by eexists].
  - intros p [_ Hp]%Hlive. by apply H3.
  - destruct (g_chassis cfg) as [|x chs] eqn:Hchs; [done|]. cbn in H4. injection H4 as ->.
    rewrite filter_cons, decide_True; [done|]. intros Hu. apply Hlocal. unfold dead.
    apply list_elem_of_filter. split; [done|]. left.
  - intros p c [_ Hc]%Hlook. by apply H5.
  - intros p p' c c' [_ Hc]%Hlook [_ Hc']%Hlook. by apply H6.
  - apply list.Forall_forall. intros hw Hhw. rewrite list.Forall_forall in Hf.
    destruct (Hf hw Hhw) as [Hl Hro Hm]. split; [done| |done].
    apply list.Forall_forall. intros q Hq. rewrite list.Forall_forall in Hro.
    destruct (Hro q Hq) as (p & c & Hp & Hc & Hpr). exists p, c. split_and!; [done| |apply Hpr..].
    apply Hlook. split; [|done]. intros Hd%Hdead.
    pose proof (rport_refs (g_heap cfg) hw (g_hardware cfg) q p Hhw ltac:(by right) Hp). lia.
  - intros p c [_ Hc]%Hlook. by apply Hr.
Qed.

Lemma cleanup_spec local now cfg :
  table_ok local cfg → Z.of_nat (nports (g_hardware cfg)) < 65535 →
  let cfg' := lldpd_cleanup now cfg in
  table_ok local cfg' ∧
  (∀ p, p ∈ g_chassis cfg' ↔
        p ∈ g_chassis cfg ∧ (0 < refs p (g_hardware cfg') + base_refs local p)%nat) ∧
  map h_rports (g_hardware cfg') =
    map (λ hw, rports_left false now (g_heap cfg) (h_rports hw))
        (filter (λ hw, h_flags hw ≠ 0) (g_hardware cfg)).
Proof.
  intros Hok Hb. cbv zeta. unfold lldpd_cleanup.
  destruct (cleanup_hardware _ _ _) as [[h ev] hws] eqn:Hch.
  destruct (cleanup_hardware_ok local _ _ now (g_hardware cfg) [] _ _ _ _ Hok Hch) as (Hok1 & Hmap & Hn).
  cbn [app] in Hok1. set (cfg1 := cfg<|g_heap := h|><|g_hardware := hws|>).
  assert (table_ok local cfg1) as Hok1' by exact Hok1.
  assert (Z.of_nat (nports (g_hardware cfg1)) < 65535) as Hb1 by (change (g_hardware cfg1) with hws; lia).
  split_and!; [by apply (cleanup_chassis_ok local cfg1)| |exact Hmap].
  intros p. cbn. rewrite list_elem_of_filter. split.
  - intros [Hu Hp]. split; [done|].
    apply (hk_dom _ _ _ _ (tk_heap _ _ _ _ _ Hok1)) in Hp as [c Hc].
    pose proof (refcount_zero _ _ _ _ _ _ _ Hok1 Hb1 Hc) as Hz.
    unfold unreferenced in Hu. rewrite Hc in Hu.
    destruct (Z.eqb_spec (c_refcount c) 0); [done|]. change (g_hardware cfg1) with hws in Hz. lia.
  - intros [Hp Hr]. split; [|done].
    apply (hk_dom _ _ _ _ (tk_heap _ _ _ _ _ Hok1)) in Hp as [c Hc].
    pose proof (refcount_zero _ _ _ _ _ _ _ Hok1 Hb1 Hc) as Hz.
    unfold unreferenced. rewrite Hc. destruct (Z.eqb_spec (c_refcount c) 0) as [Hz'|]; [|done].
    change (g_hardware cfg1) with hws in Hz. lia.
Qed.

(** C9: the periodic cleanup keeps the table well formed: no port is left with a
    dangling chassis, reference counts stay exact, and a chassis is freed if and
    only if no remaining port refers to it (the local chassis never is); the
    neighbors that stay are exactly those of the interfaces that are still
    there whose time to live has not expired.  The counters are 16 bits wide:
    the statement is for fewer than 65535 ports. *)
Theorem lldpd_cleanup_correct local now cfg :
  table_ok local cfg → Z.of_nat (nports (g_hardware cfg)) < 65535 →
  let cfg' := lldpd_cleanup now cfg in
  table_ok local cfg' ∧
  (∀ p, p ∈ g_chassis cfg' ↔
        p ∈ g_chassis cfg ∧ (0 < refs p (g_hardware cfg') + base_refs local p)%nat) ∧
  map h_rports (g_hardware cfg') =
    map (λ hw, rports_left false now (g_heap cfg) (h_rports hw))
        (filter (λ hw, h_flags hw ≠ 0) (g_hardware cfg)).
Proof. apply cleanup_spec. Qed.

Lemma cleanup_ok local now cfg :
  table_ok local cfg → Z.of_nat (nports (g_hardware cfg)) < 65535 →
  table_ok local (lldpd_cleanup now cfg).
Proof. intros Hok Hb. by apply cleanup_spec. Qed.

(** Receiving a frame, whatever its bytes are, keeps the table well formed,
    for any protocols that respect their contract. *)
Theorem lldpd_decode_preserves local cfg i frame s now cfg' :
  Forall ProtocolOk (g_protocols cfg) → table_ok local cfg →
  lldpd_decode cfg i frame s now = inr cfg' → table_ok local cfg'.
Proof. apply lldpd_decode_ok. Qed.
End Inv.
