(* ===== verification/TableSteps.v ===== *)
(** * The neighbor table over time

    What one reception does to the table (functional behaviour), the bound on the
    number of neighbors, the initial state and the creation of interfaces. *)

From stdpp Require Import gmap relations.
From S2P Require Import Prelude Bytes Const Structs Decoder Frame Table TableOk TableInv.
#[local] Open Scope Z_scope.

Section Steps.
Context `{BuildConfig}.
Implicit Types (cfg : lldpd) (hw : lldpd_hardware) (h : heap).

(** ** Registering a neighbor *)

(** The content of a chassis, without its counter and its index. *)
Definition chassis_content (c : lldpd_chassis) : lldpd_chassis :=
  c<|c_refcount := 0|><|c_index := 0|>.

Definition dropped cfg hw (chassis : lldpd_chassis) (port : lldpd_port) : bool :=
  let '(count, oport) := find_msap (g_heap cfg) chassis port (h_rports hw) 0 0 in
  (bool_decide (oport = None) && negb (c_max_neighbors (g_config cfg) =? 0) &&
   (c_max_neighbors (g_config cfg) - 1 <? count))%bool.

(** The neighbors that are not replaced. *)
Definition other_rports cfg hw (chassis : lldpd_chassis) (port : lldpd_port) : list lldpd_port :=
  match (find_msap (g_heap cfg) chassis port (h_rports hw) 0 0).2 with
  | Some (k, _) => delete k (h_rports hw)
  | None => h_rports hw
  end.

Lemma store_chassis_content cfg oc chassis cfg' p :
  match oc with Some p => is_Some (g_heap cfg !! p) | None => True end →
  store_chassis cfg oc chassis = (cfg', p) →
  g_hardware cfg' = g_hardware cfg ∧
  chassis_content <$> g_heap cfg' !! p = Some (chassis_content chassis).
Proof.
  destruct oc as [p0|]; cbn.
  - intros [c Hc] [= <- <-]. split; [done|]. cbn. by rewrite lookup_alter_eq, Hc.
  - intros _ [= <- <-]. split; [done|]. cbn. by rewrite lookup_insert_eq.
Qed.

Lemma known_chassis_in_heap local cfg i hw chassis port k o :
  table_ok local cfg → g_hardware cfg !! i = Some hw →
  (find_msap (g_heap cfg) chassis port (h_rports hw) 0 0).2 = Some (k, o) →
  h_rports hw !! k = Some o ∧
  ∃ p, p_chassis o = Some p ∧ is_Some (lldpd_port_cleanup (g_heap cfg) o !! p).
Proof.
  intros Hok Hi Hfind. destruct (find_msap _ _ _ _ _ _) as [count oport] eqn:Hf.
  cbn in Hfind. subst oport. apply find_msap_some in Hf as (j & -> & Hj & _ & Hs).
  split; [done|]. apply same_msap_spec in Hs as (p & oc & Hp & Hoc & _). exists p. split; [done|].
  destruct (port_cleanup_le (g_heap cfg) o p oc Hoc) as (c' & Hc' & _). by eexists.
Qed.

Lemma find_chassis_in_heap cfg chassis :
  match find_chassis cfg chassis with Some p => is_Some (g_heap cfg !! p) | None => True end.
Proof.
  unfold find_chassis. destruct (list_find _ _) as [[k p]|] eqn:Hf; [|done]. cbn.
  apply list_find_Some in Hf as (_ & Hk & _). apply known_chassis_spec in Hk as (oc & Hoc & _).
  by eexists.
Qed.

Lemma register_stored local cfg i hw chassis port bytes now :
  table_ok local cfg → g_hardware cfg !! i = Some hw →
  dropped cfg hw chassis port = false →
  let cfg' := register_neighbor cfg i hw chassis port bytes now in
  ∃ hw' p, g_hardware cfg' = <[i := hw']> (g_hardware cfg) ∧
    h_rports hw' = other_rports cfg hw chassis port ++ [new_port port bytes now p] ∧
    chassis_content <$> g_heap cfg' !! p = Some (chassis_content chassis).
Proof.
  intros Hok Hi. unfold dropped, other_rports, register_neighbor.
  destruct (find_msap _ _ _ _ _ _) as [count oport] eqn:Hfind. intros ->. cbn [snd]. cbv zeta.
  assert (∀ h d p, chassis_content <$> ref_add d p h !! p = chassis_content <$> h !! p) as Hra.
  { intros h d p. rewrite ref_add_lookup, decide_True by done. by destruct (h !! p). }
  destruct oport as [[k o]|].
  - destruct (known_chassis_in_heap local cfg i hw chassis port k o Hok Hi) as (Hk & p & Hp & Hin);
      [by rewrite Hfind|].
    rewrite Hp. destruct (store_chassis _ _ _) as [cfg' p'] eqn:Hst.
    apply store_chassis_content in Hst as [Hhw Hc]; [|done]. cbn in Hhw.
    eexists _, p'. split; [by cbn; rewrite Hhw|]. split.
    + by repeat case_if.
    + cbn. by rewrite Hra.
  - destruct (store_chassis _ _ _) as [cfg' p'] eqn:Hst.
    apply store_chassis_content in Hst as [Hhw Hc]; [|exact (find_chassis_in_heap cfg chassis)]. cbn in Hhw.
    eexists _, p'. split; [by cbn; rewrite Hhw|]. split.
    + by repeat case_if.
    + cbn. by rewrite Hra.
Qed.

(** *** The MSAP

    What identifies a neighbor: its protocol, the subtype and the bytes of its port
    identifier, the subtype and the bytes of its chassis identifier. *)

Definition msap (h : heap) (q : lldpd_port) : option (Z * (Z * list Z) * (Z * list Z)) :=
  c ← p_chassis q ≫= (h !!.);
  Some (p_protocol q, (p_id_subtype q, default [] (p_id q)), (c_id_subtype c, default [] (c_id c))).
Definition decoded_msap (chassis : lldpd_chassis) (port : lldpd_port)
    : Z * (Z * list Z) * (Z * list Z) :=
  (p_protocol port, (p_id_subtype port, default [] (p_id port)),
   (c_id_subtype chassis, default [] (c_id chassis))).

(** A neighbor of [hw] with this MSAP is known; the limit is reached. *)
Definition neighbor_known cfg hw (chassis : lldpd_chassis) (port : lldpd_port) : Prop :=
  ∃ q, q ∈ h_rports hw ∧ msap (g_heap cfg) q = Some (decoded_msap chassis port).
Definition neighbors_full cfg hw (proto : Z) : Prop :=
  c_max_neighbors (g_config cfg) ≠ 0 ∧
  c_max_neighbors (g_config cfg) ≤ Z.of_nat (proto_count proto (h_rports hw)).

Lemma same_msap_iff h chassis port o :
  (p_protocol port = p_protocol o ∧ same_msap h chassis port o = true) ↔
  msap h o = Some (decoded_msap chassis port).
Proof.
  unfold msap, decoded_msap. split.
  - intros [Hp (p & oc & Hc & Hoc & H1 & H2 & H3 & H4)%same_msap_spec].
    rewrite Hc. cbn. rewrite Hoc. cbn. congruence.
  - destruct (p_chassis o) as [p|] eqn:Hc; cbn; [|done].
    destruct (h !! p) as [oc|] eqn:Hoc; cbn; [|done]. intros [= Hp H1 H2 H3 H4].
    split; [done|]. unfold same_msap, same_chassis_id, same_id. rewrite Hc. cbn. rewrite Hoc.
    rewrite H1, H2, H3, H4, !Z.eqb_refl, !bool_decide_true by done. done.
Qed.

(** In a well-formed table an MSAP occurs at most once on an interface. *)
Lemma msap_port_key local chs alloc h q q' m :
  heap_ok local chs alloc h → rport_ok h q → rport_ok h q' →
  msap h q = Some m → msap h q' = Some m → port_key q = port_key q'.
Proof.
  intros Hh (p & c & Hp & Hc & Hpr & _) (p' & c' & Hp' & Hc' & Hpr' & _).
  unfold msap, port_key. rewrite Hp, Hp'. cbn. rewrite Hc, Hc'. cbn. intros [= <-] [= H1 H2 H3 H4 H5].
  assert (p = p') as -> by (eapply (hk_unique _ _ _ _ Hh); [exact Hc|exact Hc'|unfold chassis_key; congruence]).
  congruence.
Qed.

Lemma delete_filter_unique {A} (P : A → Prop) `{!∀ x, Decision (P x)} (l : list A) k x :
  l !! k = Some x → P x → (∀ j y, l !! j = Some y → P y → j = k) →
  delete k l = filter (λ y, ¬ P y) l.
Proof.
  revert k. induction l as [|y l IH]; intros [|k] Hk HP Hu; try done.
  - cbn in Hk. injection Hk as ->. change (delete 0%nat (x :: l)) with l. rewrite filter_cons, decide_False by naive_solver.
    symmetry. apply filter_all. apply Forall_lookup_2. intros j z Hj Hz.
    specialize (Hu (S j) z Hj Hz). lia.
  - change (delete (S k) (y :: l)) with (y :: delete k l). rewrite filter_cons, decide_True.
    + f_equal. apply IH; [done|done|]. intros j z Hj Hz. specialize (Hu (S j) z Hj Hz). lia.
    + intros Hy. specialize (Hu 0%nat y eq_refl Hy). lia.
Qed.

Lemma other_rports_filter local cfg i hw chassis port :
  table_ok local cfg → g_hardware cfg !! i = Some hw →
  other_rports cfg hw chassis port =
    filter (λ q, msap (g_heap cfg) q ≠ Some (decoded_msap chassis port)) (h_rports hw).
Proof.
  intros [Hh Hf _] Hi. pose proof (Forall_lookup_1 _ _ _ _ Hf Hi) as [_ Hro Hnd].
  unfold other_rports. destruct (find_msap _ _ _ _ _ _) as [count [[k o]|]] eqn:Hfind; cbn [snd].
  - apply find_msap_some in Hfind as (j & -> & Hj & Hp & Hs). cbn.
    assert (msap (g_heap cfg) o = Some (decoded_msap chassis port)) as Ho by (by apply same_msap_iff).
    apply (delete_filter_unique (λ q, msap (g_heap cfg) q = Some (decoded_msap chassis port)) _ j o);
      [done|done|]. intros j' q Hq Hm.
    apply (NoDup_lookup _ j' j (port_key q) Hnd); rewrite list_lookup_fmap; [by rewrite Hq|].
    rewrite Hj. cbn. f_equal. rewrite list.Forall_forall in Hro.
    eapply (msap_port_key local _ _ _ o q); [exact Hh|apply Hro, list_elem_of_lookup; by eexists
      |apply Hro, list_elem_of_lookup; by eexists|exact Ho|exact Hm].
  - apply find_msap_none in Hfind as [_ Hn]. symmetry. apply filter_all.
    eapply Forall_impl; [|exact Hn]. cbn. intros q Hq [Hp Hs]%same_msap_iff. by rewrite Hq in Hs.
Qed.

Lemma dropped_iff cfg hw chassis port :
  dropped cfg hw chassis port = true ↔
  neighbors_full cfg hw (p_protocol port) ∧ ¬ neighbor_known cfg hw chassis port.
Proof.
  unfold dropped, neighbors_full, neighbor_known.
  destruct (find_msap _ _ _ _ _ _) as [count [[k o]|]] eqn:Hfind.
  - apply find_msap_some in Hfind as (j & -> & Hj & Hp & Hs). cbn. split; [done|].
    intros [_ []]. exists o. split; [by eapply list_elem_of_lookup_2|]. by apply same_msap_iff.
  - apply find_msap_none in Hfind as [-> Hn]. cbn [bool_decide]. rewrite bool_decide_true by done.
    assert (¬ ∃ q, q ∈ h_rports hw ∧ msap (g_heap cfg) q = Some (decoded_msap chassis port)) as Hk.
    { intros (q & Hq & [Hp Hs]%same_msap_iff). rewrite list.Forall_forall in Hn.
      by rewrite (Hn q Hq Hp) in Hs. }
    rewrite !andb_true_iff, negb_true_iff, Z.eqb_neq, Z.ltb_lt. split; [intros [[_ ?] ?]|intros [? _]];
      (split; [|done]) || split; lia.
Qed.

(** C8: a neighbor that was decoded becomes the last neighbor of its interface, with the
    decoded port, the receive time and the frame, and the chassis it is attached to holds the
    decoded content; the neighbor with the same MSAP (protocol, chassis identifier and port
    identifier) is gone, and all the others are kept, in their order.  Only a neighbor whose
    MSAP is not known is refused, when the interface has as many neighbors of its protocol as
    the configuration allows: then no interface changes. *)
Theorem register_neighbor_stored local cfg i hw chassis port bytes now :
  table_ok local cfg → g_hardware cfg !! i = Some hw →
  let cfg' := register_neighbor cfg i hw chassis port bytes now in
  (neighbor_known cfg hw chassis port ∨ ¬ neighbors_full cfg hw (p_protocol port) →
   ∃ hw' p, g_hardware cfg' = <[i := hw']> (g_hardware cfg) ∧
     h_rports hw' =
       filter (λ q, msap (g_heap cfg) q ≠ Some (decoded_msap chassis port)) (h_rports hw) ++
       [new_port port bytes now p] ∧
     chassis_content <$> g_heap cfg' !! p = Some (chassis_content chassis)) ∧
  (¬ neighbor_known cfg hw chassis port → neighbors_full cfg hw (p_protocol port) →
   g_hardware cfg' = g_hardware cfg).
Proof.
  intros Hok Hi cfg'. pose proof (dropped_iff cfg hw chassis port) as Hd. split.
  - intros Hroom. rewrite <- (other_rports_filter local cfg i hw chassis port Hok Hi).
    apply (register_stored local); [done|done|]. apply not_true_is_false. rewrite Hd. tauto.
  - intros Hnk Hfull. subst cfg'. assert (dropped cfg hw chassis port = true) as Hdr by tauto.
    unfold dropped in Hdr. unfold register_neighbor.
    destruct (find_msap _ _ _ _ _ _) as [count oport]. by rewrite Hdr.
Qed.

(** ** The bound on the number of neighbors *)

Definition neighbors_bounded (max : Z) (hws : list lldpd_hardware) : Prop :=
  Forall (λ hw, ∀ pr, Z.of_nat (proto_count pr (h_rports hw)) ≤ max) hws.

Lemma proto_count_app pr l k : proto_count pr (l ++ k) = (proto_count pr l + proto_count pr k)%nat.
Proof. unfold proto_count. by rewrite list.filter_app, length_app. Qed.

Lemma proto_count_keys pr l k :
  port_key <$> l = port_key <$> k → proto_count pr l = proto_count pr k.
Proof.
  revert k. induction l as [|a l IH]; intros [|b k]; try done.
  intros Hkeys. injection Hkeys as _ Hp _ _ Hrest. by rewrite !proto_count_cons, Hp, (IH k).
Qed.

Lemma proto_count_delete pr l k o :
  l !! k = Some o →
  proto_count pr l = ((if decide (p_protocol o = pr) then 1 else 0) + proto_count pr (delete k l))%nat.
Proof.
  intros Hk. rewrite <- (take_drop_middle l k o Hk) at 1.
  rewrite delete_take_drop, !proto_count_app, proto_count_cons. lia.
Qed.

Lemma bounded_insert max hws i hw :
  neighbors_bounded max hws → (∀ pr, Z.of_nat (proto_count pr (h_rports hw)) ≤ max) →
  neighbors_bounded max (<[i := hw]> hws).
Proof. intros Hb Hhw. by apply Forall_insert. Qed.

Lemma register_bounded local cfg i hw chassis port bytes now max :
  table_ok local cfg → g_hardware cfg !! i = Some hw →
  max = c_max_neighbors (g_config cfg) → 0 < max →
  neighbors_bounded max (g_hardware cfg) →
  neighbors_bounded max (g_hardware (register_neighbor cfg i hw chassis port bytes now)).
Proof.
  intros Hok Hi Hmax Hpos Hb.
  pose proof (Forall_lookup_1 _ _ _ _ Hb Hi) as Hhw. cbn in Hhw.
  destruct (dropped cfg hw chassis port) eqn:Hd.
  { unfold dropped in Hd. unfold register_neighbor.
    destruct (find_msap _ _ _ _ _ _) as [count oport]. rewrite Hd. exact Hb. }
  destruct (register_stored local cfg i hw chassis port bytes now Hok Hi Hd)
    as (hw' & p & -> & Hr & _).
  apply bounded_insert; [done|]. intros pr. rewrite Hr, proto_count_app, proto_count_cons.
  change (proto_count pr []) with 0%nat. cbn [new_port p_protocol].
  specialize (Hhw pr). unfold other_rports, dropped in *.
  destruct (find_msap _ _ _ _ _ _) as [count oport] eqn:Hf. cbn [snd].
  destruct oport as [[k o]|].
  - apply find_msap_some in Hf as (j & -> & Hj & Hpo & _). cbn [Nat.add].
    rewrite (proto_count_delete pr _ _ _ Hj), <- Hpo in Hhw. cbn. lia.
  - apply find_msap_none in Hf as [-> _]. rewrite <- Hmax in Hd. cbn in Hd.
    destruct (Z.eqb_spec max 0); [lia|]. cbn in Hd. bool_to_prop.
    cbn. case_decide as Hpr; [subst pr; lia|lia].
Qed.

(** C7: with a limit of [max] neighbors configured, no reception ever stores more
    than [max] neighbors of one protocol on an interface. *)
Theorem lldpd_decode_bounded local cfg i frame s now cfg' max :
  Forall ProtocolOk (g_protocols cfg) → table_ok local cfg →
  max = c_max_neighbors (g_config cfg) → 0 < max →
  neighbors_bounded max (g_hardware cfg) →
  lldpd_decode cfg i frame s now = inr cfg' →
  neighbors_bounded max (g_hardware cfg').
Proof.
  intros Hpo Hok Hmax Hpos Hb. unfold lldpd_decode.
  destruct (g_hardware cfg !! i) as [hw0|] eqn:Hi; [|by intros [= <-]].
  destruct (s <? 18); [by intros [= <-]|]. cbv zeta.
  set (hw := if ENABLE_OVSDB then _ else _).
  assert (h_lport hw = h_lport hw0 ∧ h_rports hw = h_rports hw0) as [Hl Hr] by (subst hw; by case_if).
  pose proof (Forall_lookup_1 _ _ _ _ Hb Hi) as Hhw. cbn in Hhw.
  destruct (vlan_decap frame s) as [f|[fr n]]; [done|].
  destruct (list_find _ _) as [[k ?]|].
  { intros [= <-]. apply bounded_insert; [done|]. intros pr.
    rewrite (proto_count_keys pr _ (h_rports hw0)); [done|].
    destruct (refresh_port_keys hw k (h_rport_change_opcode hw0) now). congruence. }
  destruct (find_decoder _ _) as [proto|] eqn:Hfd.
  2: { intros [= <-]. apply bounded_insert; [done|]. intros pr. by rewrite Hr. }
  assert (ProtocolOk proto) as Hproto by (by eapply find_decoder_ok).
  destruct (proto_decode _ _ _ _ _ _) as [h' c q hw'|h' hw'|f] eqn:Hdec; [| |done]; intros [= <-].
  - destruct (po_decoded _ _ _ _ _ _ _ _ _ Hdec) as (Hs & Hq & Hl' & Hr').
    assert (neighbors_bounded max (<[i := hw']> (g_hardware cfg))) as Hb'.
    { apply bounded_insert; [done|]. intros pr. rewrite (proto_count_keys pr _ (h_rports hw0)); congruence. }
    eapply register_bounded; [|apply list_lookup_insert_eq; by eapply lookup_lt_Some|done..].
    eapply tab_update_hw; [done..| |]; congruence.
  - destruct (po_discarded _ _ _ _ _ _ _ Hdec) as (Hs & Hl' & Hr').
    apply bounded_insert; [done|]. intros pr. rewrite (proto_count_keys pr _ (h_rports hw0)); congruence.
Qed.

(** ** Reachable states *)

(** What the interface code may do to a hardware port: anything but to its
    attachment and its neighbors. *)
Definition hw_update hw hw' : Prop :=
  p_chassis (h_lport hw') = p_chassis (h_lport hw) ∧ h_rports hw' = h_rports hw.

(** The state [lldpd_main] starts the loop with: the local chassis alone. *)
Definition daemon_init (config : lldpd_config) (protocols : list protocol)
    (lchassis : lldpd_chassis) : lldpd :=
  {| g_config := config; g_protocols := protocols; g_lastrid := 0; g_chassis := [0%nat];
     g_heap := {[ 0%nat := lchassis<|c_refcount := 1|><|c_protocol := 0|> ]};
     g_alloc := 1; g_hardware := []; g_events := [] |}.

Lemma daemon_init_ok config protocols lchassis :
  table_ok 0 (daemon_init config protocols lchassis).
Proof.
  split; [split|..]; cbn.
  - apply NoDup_singleton.
  - intros p. rewrite list_elem_of_singleton, lookup_singleton_is_Some. naive_solver.
  - intros p ->%list_elem_of_singleton. lia.
  - done.
  - by intros p c [<- <-]%lookup_singleton_Some.
  - by intros p p' c c' [<- _]%lookup_singleton_Some [<- _]%lookup_singleton_Some.
  - done.
  - by intros p c [<- <-]%lookup_singleton_Some.
Qed.

Lemma alloc_hardware_ok local cfg ifname index hw0 :
  table_ok local cfg → table_ok local (lldpd_alloc_hardware cfg ifname index hw0).
Proof.
  intros Hok. pose proof Hok as [Hh Hf Hr]. unfold lldpd_alloc_hardware, LOCAL_CHASSIS.
  rewrite (hk_local _ _ _ _ Hh). set (hw := hw0<|h_ifname := _|><|h_ifindex := _|><|h_lport := _|><|h_rports := _|>).
  unfold table_ok; cbn. split.
  - eapply heap_ok_keys; [|exact Hh]. intros p. apply ref_add_keys.
  - eapply hws_ok_le; [apply ref_add_le|]. apply Forall_app. split; [done|].
    apply Forall_singleton. by split; [|constructor|constructor].
  - assert (∀ p, refs p (g_hardware cfg ++ [hw]) =
              (refs p (g_hardware cfg) + if decide (Some local = Some p) then 1 else 0)%nat) as Hrefs.
    { intros p. unfold refs. rewrite bind_app, refs_in_app, bind_cons, refs_in_app.
      change (hw_ports hw) with [h_lport hw]. rewrite refs_in_cons. 
      change (refs_in p []) with 0%nat. change (p_chassis (h_lport hw)) with (Some local).
      change (refs_in p ([] ≫= hw_ports)) with 0%nat. lia. }
    eapply ref_add_refs; [exact Hr| |]; cbn.
    + rewrite Hrefs, decide_True by done. lia.
    + intros p Hne. rewrite Hrefs, decide_False by congruence. lia.
Qed.

Lemma decode_protocols cfg i frame s now cfg' :
  lldpd_decode cfg i frame s now = inr cfg' → g_protocols cfg' = g_protocols cfg.
Proof.
  unfold lldpd_decode, register_neighbor, store_chassis.
  repeat first [progress cbv zeta | case_match]; intros [= <-]; by simplify_eq.
Qed.

Lemma cleanup_protocols now cfg : g_protocols (lldpd_cleanup now cfg) = g_protocols cfg.
Proof. unfold lldpd_cleanup. by destruct (cleanup_hardware _ _ _) as [[? ?] ?]. Qed.

(** A change of the local chassis. *)
Lemma alter_local_ok local cfg f :
  (∀ c, c_refcount (f c) = c_refcount c ∧ c_protocol (f c) = c_protocol c) →
  table_ok local cfg → table_ok local cfg<|g_heap ::= alter f local|>.
Proof.
  intros Hkeep [Hh Hf Hr]. pose proof Hh as [H1 H2 H3 H4 H5 H6]. set (h' := alter f local (g_heap cfg)).
  assert (∀ p c', h' !! p = Some c' → ∃ c, g_heap cfg !! p = Some c ∧ c_refcount c' = c_refcount c ∧
    c_protocol c' = c_protocol c ∧ (p ≠ local → c' = c)) as Hback.
  { intros p c'. unfold h'. destruct (decide (local = p)) as [->|Hne].
    - rewrite lookup_alter_eq. destruct (g_heap cfg !! p) as [c|]; [|done]. intros [= <-].
      destruct (Hkeep c). by exists c.
    - rewrite lookup_alter_ne by done. intros Hc. by exists c'. }
  unfold table_ok. cbn. fold h'. split.
  - split; [done| |done|done| |].
    + intros p. rewrite H2. unfold h'. by rewrite lookup_alter_is_Some.
    + intros p c' Hc'. destruct (Hback p c' Hc') as (c & Hc & _ & -> & _). by apply H5.
    + intros p p' c1 c2 Hc1 Hc2 Hk. destruct (Hback _ _ Hc1) as (d1 & Hd1 & _ & Hp1 & He1).
      destruct (Hback _ _ Hc2) as (d2 & Hd2 & _ & Hp2 & He2).
      assert (c_protocol d1 = c_protocol d2) as Hpp by (injection Hk; congruence).
      destruct (decide (p = local)) as [->|Hn1].
      * symmetry. apply (H5 p' d2 Hd2). rewrite <- Hpp. by apply (H5 local d1 Hd1).
      * destruct (decide (p' = local)) as [->|Hn2].
        -- apply (H5 p d1 Hd1). rewrite Hpp. by apply (H5 local d2 Hd2).
        -- apply (H6 p p' d1 d2 Hd1 Hd2). by rewrite <- (He1 Hn1), <- (He2 Hn2).
  - eapply Forall_impl; [|exact Hf]. intros hw [Ha Hb Hc]. split; [done| |done].
    eapply Forall_impl; [|exact Hb]. intros q (p & c & Hp & Hpc & Hpr & Hne).
    assert (p ≠ local) as Hnl by (intros ->; apply Hne; rewrite <- Hpr; by apply (H5 local c)).
    exists p, c. split_and!; [done| |done|done]. unfold h'. by rewrite lookup_alter_ne.
  - intros p c' Hc'. destruct (Hback p c' Hc') as (c & Hc & -> & _). by apply Hr.
Qed.
End Steps.
