(* ===== verification/EdpDecode.v ===== *)
(** * Decoding EDP frames (src/daemon/edp.c, [edp_decode])

    The decoder of EDP is the one that edits the table while it decodes: a frame
    with VLANs and no interface information updates the ports already known
    for the same chassis and is then discarded.  [edp_decode] therefore takes
    the heap of chassis and returns it. *)

From stdpp Require Import gmap strings.
From S2P Require Import Keeps Prelude Bytes Text Const Structs Decoder Frame Checksum LldpDecode Table.
From S2P Require Import TableOk.
#[local] Open Scope Z_scope.

Record edp_locals := {
  x_chassis : lldpd_chassis;
  x_port : lldpd_port;
  x_gotend : bool;
  x_gotvlans : bool;
  x_unrecognized : Z
}.
#[global] Instance eta_edp_locals : Settable edp_locals := λ r,
  {| x_chassis := x_chassis r; x_port := x_port r; x_gotend := x_gotend r;
     x_gotvlans := x_gotvlans r; x_unrecognized := x_unrecognized r |}.
Definition edp_locals_init : edp_locals :=
  {| x_chassis := chassis_zero; x_port := port_zero; x_gotend := false; x_gotvlans := false;
     x_unrecognized := 0 |}.

Abbreviation edp_decoder := (decoder (cursor edp_locals)).

Section Decode.
Context `{BuildConfig}.
Variables (conf : lldpd_config) (frame : list Z).
#[local] Abbreviation PEEK_UINT8 := (PEEK_UINT8 frame).
#[local] Abbreviation PEEK_UINT16 := (PEEK_UINT16 frame).
#[local] Abbreviation PEEK_BYTES := (PEEK_BYTES frame).

Definition edp_set_chassis (f : lldpd_chassis → lldpd_chassis) : edp_decoder unit :=
  ext_set (λ l, l<|x_chassis ::= f|>).
Definition edp_set_port (f : lldpd_port → lldpd_port) : edp_decoder unit :=
  ext_set (λ l, l<|x_port ::= f|>).

(** From the Ethernet header to the checksum. *)
Definition edp_decode_start : edp_decoder unit :=
  length ← length_get;
  check (2 * ETHER_ADDR_LEN + 2 + 8 + 10 + ETHER_ADDR_LEN <=? length);;
  same ← PEEK_CMP frame EDP_MULTICAST_ADDR;
  check same;;
  PEEK_DISCARD ETHER_ADDR_LEN;; PEEK_DISCARD_UINT16;;
  PEEK_DISCARD 6;;
  pid ← PEEK_UINT16;
  check (pid =? LLC_PID_EDP);;
  pos_edp ← PEEK_SAVE;
  version ← PEEK_UINT8;
  check (version =? 1);;
  PEEK_DISCARD_UINT8;;
  edp_len ← PEEK_UINT16;
  PEEK_DISCARD_UINT16;;
  PEEK_DISCARD_UINT16;;
  id_type ← PEEK_UINT16;
  check (id_type =? 0);;
  length ← length_get;
  check (edp_len <=? length + 10);;
  id ← PEEK_BYTES ETHER_ADDR_LEN;
  edp_set_chassis (λ c, c<|c_ttl := u16 (c_tx_interval conf * c_tx_hold conf)|>
    <|c_id_subtype := LLDP_CHASSISID_SUBTYPE_LLADDR|><|c_id := Some id|>);;
  edp ← read_at frame pos_edp edp_len;
  check (frame_checksum edp false =? 0).

(** [%d.%d.%d.%d], the format of [inet_ntoa]. *)
Definition edp_version (v : list Z) : list Z :=
  chars "EDP enabled device, version " ++ inet_ntoa v.

Definition edp_decode_info (tlv_len : Z) : edp_decoder unit :=
  check (32 <=? tlv_len);;
  edp_slot ← PEEK_UINT16;
  edp_port ← PEEK_UINT16;
  edp_set_port (λ p, p<|p_id_subtype := LLDP_PORTID_SUBTYPE_IFNAME|>
    <|p_id := Some (decimal (edp_slot + 1) ++ chars "/" ++ decimal (edp_port + 1))|>
    <|p_descr := Some (chars "Slot " ++ decimal (edp_slot + 1) ++ chars " / Port " ++
                       decimal (edp_port + 1))|>);;
  PEEK_DISCARD_UINT16;;
  PEEK_DISCARD 6;;
  version ← PEEK_BYTES 4;
  edp_set_chassis (λ c, c<|c_descr := Some (edp_version version)|>).

Definition edp_decode_vlan (tlv_len : Z) : edp_decoder unit :=
  check (12 <=? tlv_len);;
  PEEK_DISCARD_UINT16;;
  vid ← PEEK_UINT16;
  PEEK_DISCARD 4;;
  address ← PEEK_BYTES 4;
  (if bool_decide (address = replicate 4 0) then mret tt
   else
     match lldpd_alloc_mgmt LLDPD_AF_IPV4 address 4 0 with
     | inl _ => malformed
     | inr mgmt => edp_set_chassis (λ c, c<|c_mgmt ::= λ l, l ++ [mgmt]|>)
     end);;
  name ← PEEK_BYTES (tlv_len - 12);
  edp_set_port (λ p, p<|p_vlans ::= λ l, l ++ [{| v_name := name; v_vid := vid |}]|>);;
  ext_set (λ l, l<|x_gotvlans := true|>).

Definition edp_decode_value (tlv_type tlv_len : Z) : edp_decoder unit :=
  if tlv_type =? EDP_TLV_INFO then edp_decode_info tlv_len
  else if tlv_type =? EDP_TLV_DISPLAY then
    name ← PEEK_BYTES tlv_len;
    edp_set_chassis (λ c, c<|c_name := Some name|>)
  else if tlv_type =? EDP_TLV_NULL then
    check (tlv_len =? 0);;
    ext_set (λ l, l<|x_gotend := true|>)
  else if tlv_type =? EDP_TLV_VLAN then edp_decode_vlan tlv_len
  else ext_set (λ l, l<|x_unrecognized ::= λ n, n + 1|>).

(** One iteration of the loop.  A TLV with an incorrect size ends it. *)
Definition edp_decode_tlv : edp_decoder unit :=
  length ← length_get;
  check (4 <=? length);;
  marker ← PEEK_UINT8;
  check (marker =? EDP_TLV_MARKER);;
  tlv_type ← PEEK_UINT8;
  tlv_len ← PEEK_UINT16;
  let tlv_len := tlv_len - 4 in
  tlv ← PEEK_SAVE;
  length ← length_get;
  if ((tlv_len <? 0) || (length <? tlv_len))%bool then
    ext_set (λ l, l<|x_gotend := true|>)
  else
    edp_decode_value tlv_type tlv_len;;
    pos ← PEEK_SAVE;
    PEEK_DISCARD (tlv + tlv_len - pos).

Definition edp_more (st : cursor edp_locals) : bool :=
  (negb (c_length st =? 0) && negb (x_gotend (c_ext st)))%bool.

Definition edp_decode_body (fuel : nat) : edp_decoder unit :=
  edp_decode_start;;
  while fuel edp_more edp_decode_tlv.

Definition edp_mandatory (l : edp_locals) : bool :=
  (bool_decide (is_Some (c_id (x_chassis l))) && bool_decide (is_Some (p_id (x_port l))) &&
   bool_decide (is_Some (c_name (x_chassis l))) && bool_decide (is_Some (c_descr (x_chassis l))) &&
   bool_decide (is_Some (p_descr (x_port l))) && x_gotend l)%bool.

(** *** VLANs sent in a separate frame *)

Definition same_mgmt (a b : lldpd_mgmt) : bool :=
  ((m_family a =? m_family b) && bool_decide (m_addr a = m_addr b))%bool.
(** Each address is compared with the ones that follow it in the frame. *)
Fixpoint edp_new_mgmts (l : list lldpd_mgmt) : list lldpd_mgmt :=
  match l with
  | [] => []
  | m :: l' => if existsb (same_mgmt m) l' then edp_new_mgmts l' else m :: edp_new_mgmts l'
  end.

Definition edp_same_chassis (h : heap) (chassis : lldpd_chassis) (oport : lldpd_port) : bool :=
  ((p_protocol oport =? LLDPD_MODE_EDP) &&
   match p_chassis oport ≫= (h !!.) with
   | Some oc => same_chassis_id oc chassis
   | None => false
   end)%bool.

(** The loop over the known ports.  The VLANs and the addresses move to the first
    one of the same chassis; the next ones lose their VLANs. *)
Fixpoint edp_attach (h : heap) (chassis : lldpd_chassis) (rports : list lldpd_port)
    (vlans : list lldpd_vlan) (mgmts : list lldpd_mgmt) : heap * list lldpd_port :=
  match rports with
  | [] => (h, [])
  | oport :: rports' =>
      if edp_same_chassis h chassis oport then
        let h := match p_chassis oport with
                 | Some p => alter (λ c, c<|c_mgmt ::= λ l, l ++ edp_new_mgmts mgmts|>) p h
                 | None => h
                 end in
        let '(h, rest) := edp_attach h chassis rports' [] [] in
        (h, oport<|p_vlans := vlans|> :: rest)
      else
        let '(h, rest) := edp_attach h chassis rports' vlans mgmts in
        (h, oport :: rest)
  end.

(** [edp_decode] *)
Definition edp_decode (h : heap) (s : Z) (hardware : lldpd_hardware) : proto_result :=
  match edp_decode_body (S (Z.to_nat s))
          {| c_pos := 0; c_length := s; c_ext := edp_locals_init |} with
  | Fault f => PCrashed f
  | Malformed st => PDiscarded h (add_unrecognized hardware (x_unrecognized (c_ext st)))
  | Ok _ st =>
      let l := c_ext st in
      let hw := add_unrecognized hardware (x_unrecognized l) in
      if edp_mandatory l then PDecoded h (x_chassis l) (x_port l) hw
      else if (x_gotvlans l && x_gotend l)%bool then
        let '(h, rports) := edp_attach h (x_chassis l) (h_rports hw)
                              (p_vlans (x_port l)) (c_mgmt (x_chassis l)) in
        PDiscarded h hw<|h_rports := rports|>
      else PDiscarded h hw
  end.
End Decode.

(** ** Memory safety *)

Section Safe.
Context `{BuildConfig}.
Variables (conf : lldpd_config) (frame : list Z) (s : Z).
Hypothesis Hbytes : bytes_ok frame.
Hypothesis Hs : s ≤ zlen frame.
#[local] Abbreviation safe m Q st := (wp m (λ _, False) (λ _ : cursor edp_locals, True) Q st).

(** Position and remaining length account for the received bytes. *)
Definition inside (st : cursor edp_locals) : Prop :=
  0 ≤ c_pos st ∧ c_pos st + c_length st = s.

(** A read of [n] bytes when [n] remain. *)
Lemma safe_bytes n (Q : list Z → cursor edp_locals → Prop) st :
  inside st → 0 ≤ n ≤ c_length st →
  (∀ b, zlen b = n → bytes_ok b →
    Q b (Build_cursor (c_pos st + n) (c_length st - n) (c_ext st))) →
  safe (PEEK_BYTES frame n) Q st.
Proof.
  intros [Hp Hl] Hn HQ. apply wp_peek_bytes; [done|lia| |lia]. intros Hz. apply HQ.
  - rewrite zlen_take; [done|]. rewrite zlen_drop by lia. lia.
  - by apply Forall_take, Forall_drop.
Qed.

Lemma safe_uint m n (Q : Z → cursor edp_locals → Prop) st :
  (m = PEEK_UINT8 frame ∧ n = 1 ∨ m = PEEK_UINT16 frame ∧ n = 2 ∨ m = PEEK_UINT32 frame ∧ n = 4) →
  inside st → n ≤ c_length st →
  (∀ v, 0 ≤ v < 256 ^ n → Q v (Build_cursor (c_pos st + n) (c_length st - n) (c_ext st))) →
  safe m Q st.
Proof.
  intros Hm [Hp Hl] Hn HQ. eapply wp_peek_uint; [exact Hm|done|done| |lia]. intros v Hv _. by apply HQ.
Qed.

(** Steps of the decoder, one macro at a time. *)
Ltac step :=
  lazymatch goal with
  | |- wp (length_get ≫= _) _ _ _ _ => apply wp_bind, wp_gets
  | |- wp (PEEK_SAVE ≫= _) _ _ _ _ => apply wp_bind, wp_gets
  | |- wp (check _ ≫= _) _ _ _ _ => apply wp_bind, wp_check; [intros ?|done]
  | |- wp (check _) _ _ _ _ => apply wp_check; [intros ?|done]
  | |- wp (PEEK_DISCARD _ ≫= _) _ _ _ _ => apply wp_bind, wp_modify
  | |- wp (PEEK_DISCARD_UINT8 ≫= _) _ _ _ _ => apply wp_bind, wp_modify
  | |- wp (PEEK_DISCARD_UINT16 ≫= _) _ _ _ _ => apply wp_bind, wp_modify
  | |- wp (edp_set_chassis _ ≫= _) _ _ _ _ => apply wp_bind, wp_modify
  | |- wp (edp_set_port _ ≫= _) _ _ _ _ => apply wp_bind, wp_modify
  | |- wp (ext_set _) _ _ _ _ => apply wp_modify
  | |- wp (edp_set_chassis _) _ _ _ _ => apply wp_modify
  | |- wp (PEEK_UINT8 _ ≫= _) _ _ _ _ =>
      apply wp_bind; eapply (safe_uint _ 1); [by left| | |intros ? ?]
  | |- wp (PEEK_UINT16 _ ≫= _) _ _ _ _ =>
      apply wp_bind; eapply (safe_uint _ 2); [by right; left| | |intros ? ?]
  | |- wp (PEEK_BYTES _ _ ≫= _) _ _ _ _ => apply wp_bind, safe_bytes; [| |intros ? ? ?]
  end; cbn [c_pos c_length c_ext]; bool_to_prop.
Ltac solve_inside := unfold inside in *; cbn [c_pos c_length] in *; unfold ETHER_ADDR_LEN in *; lia.
Ltac steps := repeat (step; try solve_inside).

Lemma safe_edp_start st :
  inside st → c_pos st = 0 →
  safe (edp_decode_start conf frame) (λ _ st', inside st' ∧ 0 ≤ c_length st' < s ∧ x_gotend (c_ext st') = x_gotend (c_ext st)) st.
Proof.
  intros Hst H0. unfold edp_decode_start, PEEK_CMP. step. step.
  apply wp_bind, wp_bind, safe_bytes; [done| |intros b Hb _]; change (zlen EDP_MULTICAST_ADDR) with 6 in *;
    [solve_inside|]. apply wp_ret.
  steps. apply wp_bind, wp_read_at; [solve_inside..|]. apply wp_check; [intros _|done].
  split_and!; [solve_inside..|done].
Qed.

Lemma safe_edp_value type len st :
  inside st → 0 ≤ len ≤ c_length st →
  safe (edp_decode_value frame type len) (λ _, inside) st.
Proof.
  intros Hst Hlen. unfold edp_decode_value, edp_decode_info, edp_decode_vlan.
  repeat case_match; try done; steps; try solve_inside.
  apply wp_bind. eapply (wp_mono _ _ _ (λ _ st', inside st' ∧ len - 12 ≤ c_length st')).
  - case_match; [apply wp_ret; solve_inside|]. cbn. apply wp_modify. solve_inside.
  - intros _ st' [Hst' Hl']. steps.
Qed.

(** The number of iterations left. *)
Definition edp_measure (st : cursor edp_locals) : Z :=
  if x_gotend (c_ext st) then 0 else 1 + c_length st.

Lemma safe_edp_tlv st :
  inside st → 0 ≤ c_length st → edp_more st = true →
  safe (edp_decode_tlv frame)
    (λ _ st', (inside st' ∧ 0 ≤ c_length st') ∧ 0 ≤ edp_measure st' < edp_measure st) st.
Proof.
  intros Hst Hl Hmore. unfold edp_more in Hmore. bool_to_prop.
  assert (edp_measure st = 1 + c_length st) as -> by (unfold edp_measure; by case_match).
  unfold edp_decode_tlv. steps. destruct (_ || _)%bool eqn:Hsize.
  - step. unfold edp_measure. cbn. split; [solve_inside|lia].
  - bool_to_prop. apply wp_bind. eapply wp_mono; [apply safe_edp_value; solve_inside|].
    intros [] st' Hst'. step. apply wp_modify. unfold edp_measure; cbn.
    split; [solve_inside|]. destruct (x_gotend (c_ext st')); solve_inside.
Qed.

Lemma safe_edp_body :
  0 ≤ s → safe (edp_decode_body conf frame (S (Z.to_nat s))) (λ _ _, True)
    {| c_pos := 0; c_length := s; c_ext := edp_locals_init |}.
Proof.
  intros H0. unfold edp_decode_body. apply wp_bind.
  eapply wp_mono; [apply safe_edp_start; [solve_inside|done]|]. intros _ st (Hst & Hl & Hg).
  eapply wp_mono; [|done].
  apply wp_while with (I := λ st, inside st ∧ 0 ≤ c_length st) (μ := edp_measure).
  - intros st' [Hst' Hl'] Hm. by apply safe_edp_tlv.
  - split; [done|lia].
  - unfold edp_measure. rewrite Hg. cbn. lia.
Qed.
End Safe.

(** [edp_decode] is memory safe and terminates on every frame: it only reads the
    received bytes, whatever they are, and the loop over the TLVs ends. *)
Theorem edp_decode_safe `{BuildConfig} conf frame h s hw f :
  bytes_ok frame → 0 ≤ s ≤ zlen frame → edp_decode conf frame h s hw ≠ PCrashed f.
Proof.
  intros Hb Hs. unfold edp_decode.
  pose proof (safe_edp_body conf frame s Hb ltac:(lia) ltac:(lia)) as Hsafe. unfold wp in Hsafe.
  destruct (edp_decode_body _ _ _ _); [|done|done].
  case_match; [done|]. case_match; [|done]. by destruct (edp_attach _ _ _ _ _).
Qed.

(** ** What the decoder may change in the table *)

Section Contract.
Context `{BuildConfig}.
Variables (conf : lldpd_config) (frame : list Z).

Lemma keeps_edp_body fuel :
  Keeps (λ l, p_chassis (x_port l) = None) (edp_decode_body conf frame fuel).
Proof.
  unfold edp_decode_body, edp_decode_start, edp_decode_tlv, edp_decode_value, edp_decode_info,
    edp_decode_vlan, edp_set_chassis, edp_set_port.
  keeps_solve.
Qed.

(** Attaching VLANs and addresses keeps counters, identities and attachments. *)
Lemma edp_attach_sim h chassis rports vlans mgmts h' rports' :
  edp_attach h chassis rports vlans mgmts = (h', rports') →
  heap_sim h h' ∧ port_key <$> rports' = port_key <$> rports.
Proof.
  revert h vlans mgmts rports'. induction rports as [|q rports IH]; cbn; intros h vlans mgmts rports'.
  { by intros [= <- <-]. }
  set (h1 := match p_chassis q with Some p => _ | None => _ end).
  assert (heap_sim h h1) as Hsim.
  { unfold h1. destruct (p_chassis q) as [p|]; [|done]. intros p'.
    destruct (decide (p = p')) as [->|Hne]; [|by rewrite lookup_alter_ne].
    rewrite lookup_alter_eq. by destruct (h !! p'). }
  case_match; destruct (edp_attach _ _ _ _ _) as [h2 rest] eqn:Hrest; intros [= <- <-];
    destruct (IH _ _ _ _ Hrest) as [Hs Hk]; cbn; rewrite Hk; split; try done.
  by etrans.
Qed.

Lemma edp_decode_contract h s hw :
  match edp_decode conf frame h s hw with
  | PDecoded h' c q hw' => h' = h ∧ p_chassis q = None ∧ ∃ n, hw' = add_unrecognized hw n
  | PDiscarded h' hw' => heap_sim h h' ∧ h_lport hw' = h_lport hw ∧
      port_key <$> h_rports hw' = port_key <$> h_rports hw
  | PCrashed _ => True
  end.
Proof.
  unfold edp_decode.
  pose proof (keeps_edp_body (S (Z.to_nat s))
    {| c_pos := 0; c_length := s; c_ext := edp_locals_init |} eq_refl) as Hk. unfold wp in Hk.
  destruct (edp_decode_body _ _ _ _) as [[] st|st|f]; [|done|done].
  destruct (edp_mandatory (c_ext st)); [split_and!; [done|done|by eexists]|].
  destruct (x_gotvlans (c_ext st) && x_gotend (c_ext st))%bool; [|done].
  destruct (edp_attach _ _ _ _ _) as [h' rports'] eqn:Hat.
  apply edp_attach_sim in Hat as [Hs Hr]. done.
Qed.
End Contract.

(** ** A VLAN frame updates the port it belongs to *)

(** When a VLAN frame arrives for a chassis that has one port on the interface,
    the VLANs of that port are replaced by those of the frame, the addresses of
    the frame are added to its chassis, and no other port changes. *)
Theorem edp_attach_one h chassis pre q post p oc vlans mgmts :
  Forall (λ q, edp_same_chassis h chassis q = false) (pre ++ post) →
  p_chassis q = Some p → h !! p = Some oc → edp_same_chassis h chassis q = true →
  edp_attach h chassis (pre ++ q :: post) vlans mgmts =
    (<[p := oc<|c_mgmt ::= λ l, l ++ edp_new_mgmts mgmts|>]> h,
     pre ++ q<|p_vlans := vlans|> :: post).
Proof.
  intros [Hpre Hpost]%Forall_app Hp Hoc Hq. induction Hpre as [|a pre Ha Hpre IH]; cbn.
  - rewrite Hq, Hp. set (h' := alter _ p h).
    assert (h' = <[p := oc<|c_mgmt ::= λ l, l ++ edp_new_mgmts mgmts|>]> h) as Hh'
      by (apply map_eq; intros p'; unfold h'; destruct (decide (p = p')) as [<-|Hne];
          [by rewrite lookup_alter_eq, lookup_insert_eq, Hoc
          |by rewrite lookup_alter_ne, lookup_insert_ne]).
    assert (Forall (λ q, edp_same_chassis h' chassis q = false) post) as Hpost'.
    { eapply Forall_impl; [|exact Hpost]. intros r Hr. unfold edp_same_chassis in *.
      etrans; [|exact Hr]. f_equal. destruct (p_chassis r) as [p'|]; [|done]. cbn. rewrite Hh'.
      destruct (decide (p = p')) as [<-|Hne]; [by rewrite lookup_insert_eq, Hoc|].
      by rewrite lookup_insert_ne. }
    assert (edp_attach h' chassis post [] [] = (h', post)) as ->; [|by rewrite Hh'].
    clear -Hpost'. induction Hpost' as [|r post Hr Hpost IH]; [done|]. cbn. by rewrite Hr, IH.
  - by rewrite Ha, IH.
Qed.
