(* ===== verification/EdpRoundtrip.v ===== *)
(** * What an EDP receiver makes of [edp_send]'s frames

    The frame of state 0 decodes into the announced name, identifier and slot; the
    frame of state 1 into the VLANs, which are attached to the port known for
    the same chassis. *)

From stdpp Require Import gmap strings.
From S2P Require Import Prelude Bytes Text Const Structs Decoder Frame Checksum LldpSend LldpDecode.
From S2P Require Import Table TableOk EdpSend EdpDecode.
#[local] Open Scope Z_scope.

Section Exec.
Context `{BuildConfig}.
Variables (conf : lldpd_config) (frame : list Z).
#[local] Abbreviation cur p l e := (Build_cursor p l e : cursor edp_locals).

(** Reading a body moves the locals from [e] to [e']. *)
Definition reads_edp (type : Z) (body : list Z) (e e' : edp_locals) : Prop :=
  ∀ p l rest, at_bytes frame p (body ++ rest) →
    ∃ p' l', edp_decode_value frame type (zlen body) (cur p l e) = Ok tt (cur p' l' e') ∧
      p' + l' = p + l.

Lemma exec_edp_tlv p l type body rest e e' :
  at_bytes frame p (enc_edp_tlv type body ++ rest) → 0 ≤ type < 256 → zlen body < 65532 →
  zlen body + 4 ≤ l → reads_edp type body e e' →
  edp_decode_tlv frame (cur p l e) = Ok tt (cur (p + (zlen body + 4)) (l - (zlen body + 4)) e').
Proof.
  intros Hat Ht Hz Hl Hbody. pose proof (zlen_nonneg body). unfold edp_decode_tlv.
  erewrite exec_bind by reflexivity. cbn [c_length].
  erewrite exec_bind by (apply exec_check, Z.leb_le; lia).
  unfold enc_edp_tlv in Hat. rewrite <- !app_assoc in Hat. cbn [app] in Hat.
  eapply exec_uint8; [exact Hat|]. clear Hat. intros Hat.
  erewrite exec_bind by (by apply exec_check).
  eapply exec_uint8; [exact Hat|]. clear Hat. intros Hat.
  eapply exec_uint16; [exact Hat|]. clear Hat. intros Hat. rewrite u16_small by lia. cbv zeta.
  do 2 (erewrite exec_bind by reflexivity). cbn [c_pos c_length].
  replace (zlen body + 4 - 4) with (zlen body) by lia.
  assert (((zlen body <? 0) || (l - 1 - 1 - 2 <? zlen body))%bool = false) as ->
    by (rewrite orb_false_iff, !Z.ltb_ge; lia).
  rewrite u8_small by lia.
  destruct (Hbody _ (l - 1 - 1 - 2) _ Hat) as (p' & l' & Hv & Hpl).
  erewrite exec_bind by exact Hv. erewrite exec_bind by reflexivity. unfold PEEK_DISCARD. cbn.
  f_equal. f_equal; lia.
Qed.

Lemma last_cons_default {A} (x d : A) l : last (x :: l) d = last l x.
Proof.
  revert x d. induction l as [|y l IH]; intros x d; [done|].
  change (last (x :: y :: l) d) with (last (y :: l) d). by rewrite !IH.
Qed.

(** The locals after each TLV. *)
Fixpoint edp_chain (e : edp_locals) (tlvs : list (Z * list Z)) (states : list edp_locals) : Prop :=
  match tlvs, states with
  | [], [] => True
  | t :: tlvs', e' :: states' =>
      x_gotend e' = false ∧ reads_edp t.1 t.2 e e' ∧ edp_chain e' tlvs' states'
  | _, _ => False
  end.

(** The loop over the encoding of a list of TLVs, up to the NULL one. *)
Lemma exec_edp_tlvs tlvs states fuel p l rest e :
  at_bytes frame p (enc_edp_tlvs (tlvs ++ [(EDP_TLV_NULL, [])]) ++ rest) →
  zlen (enc_edp_tlvs (tlvs ++ [(EDP_TLV_NULL, [])])) ≤ l → l < Z.of_nat fuel →
  x_gotend e = false →
  Forall (λ t, 0 ≤ t.1 < 256 ∧ zlen t.2 < 65532) tlvs →
  edp_chain e tlvs states →
  ∃ p' l', while fuel edp_more (edp_decode_tlv frame) (cur p l e) =
    Ok tt (cur p' l' (last states e)<|x_gotend := true|>).
Proof.
  revert states fuel p l e. induction tlvs as [|[ty body] tlvs IH];
    intros [|e1 states] fuel p l e Hat Hlen Hfuel Hend Hok Hstep; try done.
  - change (enc_edp_tlvs ([] ++ [(EDP_TLV_NULL, [])])) with (enc_edp_tlv EDP_TLV_NULL []) in Hat, Hlen.
    change (zlen (enc_edp_tlv EDP_TLV_NULL [])) with 4 in Hlen.
    destruct fuel as [|[|fuel]]; [lia|lia|].
    exists (p + (zlen (@nil Z) + 4)), (l - (zlen (@nil Z) + 4)). erewrite exec_while_true.
    + apply exec_while_false. unfold edp_more. cbn. apply andb_false_r.
    + unfold edp_more. cbn. rewrite Hend. cbn. rewrite andb_true_r, negb_true_iff, Z.eqb_neq. lia.
    + eapply exec_edp_tlv; [exact Hat|done|done|change (zlen (@nil Z)) with 0; lia|].
      intros p' l' rest' _. do 2 eexists. split; [reflexivity|done].
  - change (enc_edp_tlvs (((ty, body) :: tlvs) ++ [(EDP_TLV_NULL, [])])) with
      (enc_edp_tlv ty body ++ enc_edp_tlvs (tlvs ++ [(EDP_TLV_NULL, [])])) in Hat, Hlen.
    rewrite <- app_assoc in Hat. rewrite zlen_app in Hlen.
    assert (zlen (enc_edp_tlv ty body) = zlen body + 4) as Hz
      by (unfold enc_edp_tlv; rewrite !zlen_app, be16_zlen; change (zlen [_; _]) with 2; lia).
    pose proof (zlen_nonneg body). 
    pose proof (zlen_nonneg (enc_edp_tlvs (tlvs ++ [(EDP_TLV_NULL, [])]))).
    apply Forall_cons_iff in Hok as [[Ht Hb] Hok].
    destruct Hstep as (Hend1 & Hr & Hchain). cbn in Hr, Ht, Hb.
    destruct fuel as [|fuel]; [lia|]. erewrite exec_while_true.
    + destruct (IH states fuel (p + (zlen body + 4)) (l - (zlen body + 4)) e1)
        as (p' & l' & Hw); try done.
      * rewrite <- Hz. by apply at_bytes_app in Hat.
      * lia.
      * lia.
      * exists p', l'. by rewrite Hw, last_cons_default.
    + unfold edp_more. cbn. rewrite Hend. cbn. rewrite andb_true_r, negb_true_iff, Z.eqb_neq. lia.
    + eapply exec_edp_tlv; [exact Hat|done|done|lia|done].
Qed.
End Exec.

Section Roundtrip.
Context `{BuildConfig}.
Variables (conf : lldpd_config) (hardware : lldpd_hardware) (chassis : lldpd_chassis).
#[local] Abbreviation port := (h_lport hardware).
#[local] Abbreviation id := (default [] (c_id chassis)).

(** What the sender must announce for the length fields to fit their 16 bits. *)
Record edp_announce_ok (state seq : Z) : Prop := {
  eo_id : edp_id_is_mac chassis = true;
  eo_length : edp_length hardware chassis state seq < 65536;
  eo_bytes : bytes_ok (edp_rest hardware chassis state seq)
}.

(** The frame with a source address. *)
Definition edp_packet (state seq : Z) (mac : list Z) : list Z :=
  EDP_MULTICAST_ADDR ++ mac ++ be16 (8 + edp_length hardware chassis state seq) ++ edp_llc_bytes ++
  edp_payload hardware chassis state seq (edp_checksum hardware chassis state seq).

Lemma edp_sent_packet global state seq :
  zlen (h_lladdr hardware) = 6 →
  edp_sent global hardware chassis state seq =
  edp_packet state seq (Interfaces.sent_mac global hardware (h_lladdr hardware)).
Proof.
  intros Hm. unfold edp_sent, edp_packet. do 2 f_equal. unfold edp_bytes.
  rewrite app_assoc. replace 12%nat with (length (EDP_MULTICAST_ADDR ++ h_lladdr hardware)).
  - apply drop_app_length.
  - unfold zlen in Hm. rewrite length_app. cbn. lia.
Qed.

(** The locals after the header. *)
Definition edp_start_locals : edp_locals :=
  edp_locals_init<|x_chassis ::= λ c, c<|c_ttl := u16 (c_tx_interval conf * c_tx_hold conf)|>
    <|c_id_subtype := LLDP_CHASSISID_SUBTYPE_LLADDR|><|c_id := Some id|>|>.

Lemma exec_edp_start state seq mac pad :
  edp_announce_ok state seq → zlen mac = 6 →
  let frame := edp_packet state seq mac ++ pad in
  edp_decode_start conf frame (Build_cursor 0 (zlen frame) edp_locals_init) =
    Ok tt (Build_cursor 38 (zlen frame - 38) edp_start_locals) ∧
  at_bytes frame 38 (enc_edp_tlvs (edp_tlvs hardware chassis state) ++ pad).
Proof.
  intros [Hid Hlen Hb] Hm frame.
  assert (zlen id = 6) as Hz.
  { unfold edp_id_is_mac in Hid. bool_to_prop. done. }
  pose proof (zlen_nonneg (edp_rest hardware chassis state seq)) as Hrest.
  set (n := edp_length hardware chassis state seq) in *.
  set (ck := edp_checksum hardware chassis state seq).
  set (payload := edp_payload hardware chassis state seq ck).
  assert (at_bytes frame 22 (payload ++ pad)) as Hpay.
  { split; [done|]. exists (EDP_MULTICAST_ADDR ++ mac ++ be16 (8 + n) ++ edp_llc_bytes).
    unfold frame, edp_packet. rewrite <- !app_assoc. split; [done|]. rewrite !zlen_app, Hm. done. }
  assert (zlen payload = n) as Hzp.
  { unfold payload, edp_payload, n, edp_length. rewrite !zlen_app, !be16_zlen.
    change (zlen [1; 0]) with 2. lia. }
  assert (zlen frame = 22 + n + zlen pad) as Hzf.
  { pose proof (at_bytes_end _ _ _ Hpay) as He. rewrite zlen_app in He. lia. }
  pose proof (zlen_nonneg pad) as Hpad.
  assert (16 ≤ n) as Hn16.
  { unfold n, edp_length, edp_rest. rewrite !zlen_app, Hz, !be16_zlen.
    pose proof (zlen_nonneg (enc_edp_tlvs (edp_tlvs hardware chassis state))). lia. }
  assert (at_bytes frame 20 (be16 LLC_PID_EDP ++ payload ++ pad)) as H20.
  { split; [done|]. exists (EDP_MULTICAST_ADDR ++ mac ++ be16 (8 + n) ++ take 6 edp_llc_bytes).
    unfold frame, edp_packet. rewrite <- !app_assoc. split; [reflexivity|].
    rewrite !zlen_app, Hm. done. }
  assert (∃ tl, at_bytes frame 0 (EDP_MULTICAST_ADDR ++ tl)) as [tl H0].
  { eexists. split; [done|]. exists []. split; [|done]. unfold frame, edp_packet.
    rewrite <- !app_assoc. reflexivity. }
  clearbody frame. split.
  - unfold edp_decode_start. erewrite exec_bind by reflexivity. cbn [c_length].
    erewrite exec_bind by (apply exec_check, Z.leb_le; unfold ETHER_ADDR_LEN; lia).
    erewrite exec_bind.
    2: { unfold PEEK_CMP. eapply (exec_bytes frame 0 _ _ _ EDP_MULTICAST_ADDR); [exact H0|done|].
         intros _. reflexivity. }
    rewrite bool_decide_true by done. erewrite exec_bind by reflexivity.
    do 3 apply exec_discard. cbn.
    eapply (exec_uint16 frame 20 _ _ LLC_PID_EDP); [exact H20|]. intros _. erewrite exec_bind by reflexivity. erewrite exec_bind by reflexivity. cbn [c_pos].
    change (20 + 2) with 22. pose proof Hpay as Hat. unfold payload, edp_payload, edp_rest in Hat.
    rewrite <- !app_assoc in Hat. cbn [app] in Hat.
    eapply exec_uint8; [exact Hat|]. clear Hat. intros Hat. erewrite exec_bind by reflexivity.
    apply exec_discard. apply (at_bytes_app _ _ [0]) in Hat. change (zlen [0]) with 1 in Hat.
    eapply exec_uint16; [exact Hat|]. clear Hat. intros Hat.
    do 2 apply exec_discard.
    apply at_bytes_app in Hat. rewrite be16_zlen in Hat.
    apply at_bytes_app in Hat. rewrite be16_zlen in Hat.
    eapply exec_uint16; [exact Hat|]. clear Hat. intros Hat. erewrite exec_bind by reflexivity.
    erewrite exec_bind by reflexivity. cbn [c_length]. fold n. rewrite u16_small by lia.
    erewrite exec_bind by (apply exec_check, Z.leb_le; unfold ETHER_ADDR_LEN; change (zlen EDP_MULTICAST_ADDR) with 6; lia).
    eapply exec_bytes; [exact Hat|by rewrite Hz|]. intros _.
    erewrite exec_bind by reflexivity. cbn [c_pos c_length c_ext].
    erewrite exec_bind.
    2: { unfold read_at. rewrite !(proj2 (Z.leb_le _ _)) by lia. cbn [andb]. reflexivity. }
    assert (take (Z.to_nat n) (drop (Z.to_nat 22) frame) = payload) as ->.
    { destruct Hpay as (_ & pre & Hf & Hpre). rewrite Hf, <- Hpre, drop_app_zlen, <- Hzp.
      apply take_app_zlen. }
    assert (frame_checksum payload false = 0) as ->.
    { unfold payload, ck, edp_checksum, edp_payload.
      apply (checksum_self ([1; 0] ++ be16 n)); [|done|done|].
      - apply Forall_app. split; [by repeat constructor|apply be16_bytes].
      - rewrite zlen_app. change (zlen [1; 0]) with 2. rewrite be16_zlen.
        unfold n, edp_length in Hlen. lia. }
    cbn. f_equal. unfold ETHER_ADDR_LEN. change (zlen EDP_MULTICAST_ADDR) with 6. f_equal. lia.
  - assert (payload ++ pad = ([1; 0] ++ be16 n ++ be16 ck ++ be16 seq ++ be16 0 ++ id) ++
      enc_edp_tlvs (edp_tlvs hardware chassis state) ++ pad) as Heq
      by (unfold payload, edp_payload, edp_rest; by rewrite <- !app_assoc).
    rewrite Heq in Hpay. apply at_bytes_app in Hpay.
    rewrite !zlen_app, Hz, !be16_zlen in Hpay. exact Hpay.
Qed.

(** Decoding a frame whose TLVs lead to the locals [e]. *)
Lemma edp_decode_tlvs state seq mac pad tlvs states :
  edp_announce_ok state seq → zlen mac = 6 →
  edp_tlvs hardware chassis state = tlvs ++ [(EDP_TLV_NULL, [])] →
  let frame := edp_packet state seq mac ++ pad in
  Forall (λ t, 0 ≤ t.1 < 256 ∧ zlen t.2 < 65532) tlvs →
  edp_chain frame edp_start_locals tlvs states →
  ∃ p l, edp_decode_body conf frame (S (Z.to_nat (zlen frame)))
           (Build_cursor 0 (zlen frame) edp_locals_init) =
    Ok tt (Build_cursor p l (last states edp_start_locals)<|x_gotend := true|>).
Proof.
  intros Hok Hm Htlvs frame Hf Hchain.
  destruct (exec_edp_start state seq mac pad Hok Hm) as [Hst Hat]. fold frame in Hst, Hat.
  unfold edp_decode_body. erewrite exec_bind by exact Hst.
  pose proof (at_bytes_end _ _ _ Hat) as He. rewrite zlen_app in He. pose proof (zlen_nonneg pad).
  rewrite Htlvs in Hat, He.
  eapply exec_edp_tlvs; [exact Hat|lia|lia|done|done|done].
Qed.

(** The length of the whole frame bounds every TLV. *)
Lemma edp_tlvs_small state seq tlvs :
  edp_announce_ok state seq →
  Forall (λ t, 0 ≤ t.1 < 256) tlvs →
  edp_tlvs hardware chassis state = tlvs ++ [(EDP_TLV_NULL, [])] →
  Forall (λ t, 0 ≤ t.1 < 256 ∧ zlen t.2 < 65532) tlvs.
Proof.
  intros [_ Hlen _] Hty Htlvs. unfold edp_length, edp_rest in Hlen. rewrite Htlvs, !zlen_app in Hlen.
  pose proof (zlen_nonneg id). rewrite !be16_zlen in Hlen.
  assert (zlen (enc_edp_tlvs (tlvs ++ [(EDP_TLV_NULL, [])])) ≤ 65530) as Hle by lia. clear Hlen Htlvs.
  induction Hty as [|[ty body] tlvs Ht Hty IH]; [done|].
  change (enc_edp_tlvs _) with (enc_edp_tlv ty body ++ enc_edp_tlvs (tlvs ++ [(EDP_TLV_NULL, [])])) in Hle.
  unfold enc_edp_tlv in Hle. rewrite !zlen_app, be16_zlen in Hle.
  change (zlen [EDP_TLV_MARKER; u8 ty]) with 2 in Hle. pose proof (zlen_nonneg body).
  pose proof (zlen_nonneg (enc_edp_tlvs (tlvs ++ [(EDP_TLV_NULL, [])]))).
  constructor; [cbn in *; lia|]. apply IH. lia.
Qed.

(** *** The frame with the name and the slot *)

Definition edp_remote_chassis : lldpd_chassis :=
  (x_chassis edp_start_locals)<|c_name := Some (str_bytes (c_name chassis) ++ [0])|>
    <|c_descr := Some (edp_version edp_fakeversion)|>.
Definition edp_remote_port : lldpd_port :=
  let slot := decimal (u16 (edp_slot hardware).1 + 1) in
  let number := decimal (u16 (edp_slot hardware).2 + 1) in
  port_zero<|p_id_subtype := LLDP_PORTID_SUBTYPE_IFNAME|><|p_id := Some (slot ++ chars "/" ++ number)|>
    <|p_descr := Some (chars "Slot " ++ slot ++ chars " / Port " ++ number)|>.

Lemma reads_edp_display frame name e :
  reads_edp frame EDP_TLV_DISPLAY name e e<|x_chassis ::= λ c, c<|c_name := Some name|>|>.
Proof.
  intros p l rest Hat. exists (p + zlen name), (l - zlen name). split; [|lia].
  cbn. eapply exec_bytes; [exact Hat|done|]. intros _. reflexivity.
Qed.

Definition edp_info_locals (slot number : Z) (e : edp_locals) : edp_locals :=
    e<|x_port ::= λ p, p<|p_id_subtype := LLDP_PORTID_SUBTYPE_IFNAME|>
        <|p_id := Some (decimal (u16 slot + 1) ++ chars "/" ++ decimal (u16 number + 1))|>
        <|p_descr := Some (chars "Slot " ++ decimal (u16 slot + 1) ++ chars " / Port " ++
                           decimal (u16 number + 1))|>|>
     <|x_chassis ::= λ c, c<|c_descr := Some (edp_version edp_fakeversion)|>|>.

Lemma reads_edp_info frame slot number tl e :
  zlen tl = 16 →
  reads_edp frame EDP_TLV_INFO
    (be16 slot ++ be16 number ++ be16 0 ++ be32 0 ++ be16 0 ++ edp_fakeversion ++ tl) e
    (edp_info_locals slot number e).
Proof.
  intros Htl p l rest Hat. rewrite <- !app_assoc in Hat.
  exists (p + 2 + 2 + 2 + 6 + 4), (l - 2 - 2 - 2 - 6 - 4). split; [|lia].
  unfold edp_decode_value. change (EDP_TLV_INFO =? EDP_TLV_INFO) with true. cbv iota.
  unfold edp_decode_info. erewrite exec_bind.
  2: { apply exec_check, Z.leb_le. rewrite !zlen_app, !be16_zlen, be32_zlen, Htl. done. }
  eapply exec_uint16; [exact Hat|]. clear Hat. intros Hat.
  eapply exec_uint16; [exact Hat|]. clear Hat. intros Hat.
  erewrite exec_bind by reflexivity. do 2 apply exec_discard. cbn [c_pos c_length c_ext].
  do 3 apply at_bytes_app in Hat. rewrite !be16_zlen, be32_zlen in Hat.
  replace (p + 2 + 2 + 2 + 4 + 2) with (p + 2 + 2 + 2 + 6) in Hat by lia.
  eapply exec_bytes; [exact Hat|done|]. intros _. reflexivity.
Qed.

Lemma edp_info_decoded seq mac pad h hw :
  edp_announce_ok 0 seq → zlen mac = 6 →
  let frame := edp_packet 0 seq mac ++ pad in
  edp_decode conf frame h (zlen frame) hw =
    PDecoded h edp_remote_chassis edp_remote_port (add_unrecognized hw 0).
Proof.
  intros Hok Hm frame.
  set (e1 := edp_start_locals<|x_chassis ::= λ c, c<|c_name := Some (str_bytes (c_name chassis) ++ [0])|>|>).
  set (slot := (edp_slot hardware).1). set (number := (edp_slot hardware).2).
  destruct (edp_decode_tlvs 0 seq mac pad
    [(EDP_TLV_DISPLAY, str_bytes (c_name chassis) ++ [0]);
     (EDP_TLV_INFO, be16 slot ++ be16 number ++ be16 0 ++ be32 0 ++ be16 0 ++
           edp_fakeversion ++ be32 0xffffffff ++ be32 0 ++ be32 0 ++ be32 0)]
    [e1; edp_info_locals slot number e1] Hok Hm eq_refl) as (p & l & Hbody).
  - apply (edp_tlvs_small 0 seq); [done| |done]. rewrite !Forall_cons_iff. done.
  - split; [done|]. split; [apply reads_edp_display|]. split; [|split; [by apply reads_edp_info|done]].
    done.
  - unfold edp_decode. unfold frame. rewrite Hbody. reflexivity.
Qed.

(** What the receiver shows of the name of an interface: [ethN] is port N+1 of slot 1, [vethN]
    of slot 2, [XXXN] of slot 3, and any other interface is in slot 9. *)
Definition shown_slot (ifname : list Z) : Z * Z :=
  if has_prefix (chars "eth") ifname then (1, u16 (atoi (drop 3 ifname)) + 1)
  else if has_prefix (chars "veth") ifname then (2, u16 (atoi (drop 4 ifname)) + 1)
  else if has_prefix (chars "XXX") ifname then (3, u16 (atoi (drop 3 ifname)) + 1)
  else (9, u16 (atoi ifname) + 1).

Lemma edp_slot_shown :
  shown_slot (h_ifname hardware) = (u16 (edp_slot hardware).1 + 1, u16 (edp_slot hardware).2 + 1).
Proof.
  unfold shown_slot, edp_slot, deviceslot. cbn [map edp_find_slot].
  change (length (chars "eth")) with 3%nat. change (length (chars "veth")) with 4%nat.
  change (length (chars "XXX")) with 3%nat. change (length (chars "")) with 0%nat.
  destruct (has_prefix (chars "eth") _); [done|]. destruct (has_prefix (chars "veth") _); [done|].
  destruct (has_prefix (chars "XXX") _); [done|]. change (has_prefix (chars "") _) with true. by rewrite drop_0.
Qed.

(** The first frame, in bytes, without the name. *)
Lemma edp_bytes_name_zlen seq name :
  zlen (h_lladdr hardware) = 6 → edp_id_is_mac chassis = true → c_name chassis = Some name → no_nul name →
  zlen (edp_bytes hardware chassis 0 seq) = 83 + zlen name ∧
  edp_length hardware chassis 0 seq = 61 + zlen name.
Proof.
  intros Hm Hid Hn Hnn. unfold edp_id_is_mac in Hid. bool_to_prop.
  assert (zlen (default [] (c_id chassis)) = 6) as Hz by done.
  assert (edp_length hardware chassis 0 seq = 61 + zlen name) as Hl.
  { unfold edp_length, edp_rest, edp_tlvs, enc_edp_tlvs. cbn [Z.eqb app flat_map fst snd].
    unfold enc_edp_tlv. rewrite !zlen_app, Hz, !be16_zlen, !be32_zlen, Hn. cbn [str_bytes].
    rewrite (cstr_no_nul _ Hnn). change (zlen edp_fakeversion) with 4. change (zlen (@nil Z)) with 0.
    change (zlen [0]) with 1. rewrite !zlen_cons, !zlen_nil. lia. }
  split; [|done]. rewrite edp_bytes_zlen, Hl, zlen_app, Hm. change (zlen EDP_MULTICAST_ADDR) with 6. lia.
Qed.

Lemma edp_rest_bytes seq :
  bytes_ok (default [] (c_name chassis)) → bytes_ok id → bytes_ok (edp_rest hardware chassis 0 seq).
Proof.
  intros Hn Hi. unfold edp_rest, edp_tlvs, enc_edp_tlvs. cbn [Z.eqb app flat_map fst snd].
  assert (bytes_ok (str_bytes (c_name chassis))) as Hs.
  { destruct (c_name chassis) as [n|]; [|constructor]. by apply cstr_bytes. }
  unfold enc_edp_tlv. repeat (apply Forall_app; split); try apply be16_bytes; try apply be32_bytes;
    try done; by vm_compute; repeat constructor.
Qed.

(** C34: [edp_send] of a chassis with a MAC address and a name, on an interface whose MTU holds
    the frame, hands a first packet to the driver, and whoever receives this packet, with any
    padding, stores a neighbor with the chassis identifier and the name that were announced and
    the slot and port number of the interface. *)
Theorem edp_roundtrip global driver seq name h hw :
  zlen (h_lladdr hardware) = 6 → edp_id_is_mac chassis = true →
  c_name chassis = Some name → no_nul name → bytes_ok name → bytes_ok id →
  83 + zlen name ≤ h_mtu hardware → zlen name < 65475 →
  ∃ rc hw' seq' packet packets,
    edp_send global hardware chassis driver seq = (rc, hw', seq', packet :: packets) ∧
    ∀ pad, let frame := packet ++ pad in
      let slot := decimal (shown_slot (h_ifname hardware)).1 in
      let number := decimal (shown_slot (h_ifname hardware)).2 in
      edp_decode conf frame h (zlen frame) hw =
        PDecoded h
          (chassis_zero<|c_ttl := u16 (c_tx_interval conf * c_tx_hold conf)|>
             <|c_id_subtype := LLDP_CHASSISID_SUBTYPE_LLADDR|><|c_id := Some id|>
             <|c_name := Some (name ++ [0])|>
             <|c_descr := Some (chars "EDP enabled device, version 7.6.4.99")|>)
          (port_zero<|p_id_subtype := LLDP_PORTID_SUBTYPE_IFNAME|>
             <|p_id := Some (slot ++ chars "/" ++ number)|>
             <|p_descr := Some (chars "Slot " ++ slot ++ chars " / Port " ++ number)|>)
          (add_unrecognized hw 0).
Proof.
  intros Hm Hid Hn Hnn Hnb Hib Hmtu Hlen.
  destruct (edp_bytes_name_zlen seq name Hm Hid Hn Hnn) as [Hz Hl]. pose proof (zlen_nonneg name).
  assert (edp_announce_ok 0 seq) as Hok.
  { split; [done|lia|]. apply edp_rest_bytes; [by rewrite Hn|done]. }
  assert (str_bytes (c_name chassis) = name) as Hstr by (rewrite Hn; by apply cstr_no_nul).
  pose proof (edp_build_spec hardware chassis (h_mtu hardware) 0 seq ltac:(lia) Hid ltac:(by rewrite Hn)) as Hb.
  rewrite (proj2 (Z.leb_le _ _)) in Hb by lia. change (edp_no_vlan hardware 0) with false in Hb. cbv iota in Hb.
  assert (∃ rc hw' seq' packets, edp_send global hardware chassis driver seq =
    (rc, hw', seq', edp_sent global hardware chassis 0 seq :: packets)) as (rc & hw' & seq' & packets & Hs).
  { unfold edp_send. cbn [edp_loop]. rewrite Hb, edp_send_frame by done.
    destruct (driver _ =? -1); [by eexists _, _, _, _|].
    repeat case_match; simplify_eq; by eexists _, _, _, _. }
  exists rc, hw', seq', (edp_sent global hardware chassis 0 seq), packets. split; [done|].
  intros pad. cbv zeta. rewrite edp_sent_packet by done.
  rewrite (edp_info_decoded seq _ pad h hw Hok) by (by apply Interfaces.sent_mac_zlen).
  unfold edp_remote_chassis, edp_remote_port. rewrite Hstr, edp_slot_shown. reflexivity.
Qed.

(** *** The frame with the VLANs *)

Definition edp_received_vlan (v : lldpd_vlan) : lldpd_vlan :=
  {| v_name := cstr (v_name v) ++ [0]; v_vid := u16 (v_vid v) |}.
Definition edp_vlan_locals (v : lldpd_vlan) (e : edp_locals) : edp_locals :=
  e<|x_port ::= λ p, p<|p_vlans ::= λ l, l ++ [edp_received_vlan v]|>|><|x_gotvlans := true|>.

Lemma reads_edp_vlan frame v e :
  reads_edp frame EDP_TLV_VLAN (edp_vlan_tlv v).2 e (edp_vlan_locals v e).
Proof.
  intros p l rest Hat. set (body := (edp_vlan_tlv v).2) in *.
  set (name := cstr (v_name v) ++ [0]).
  assert (body = [0; 0] ++ be16 (v_vid v) ++ be32 0 ++ be32 0 ++ name) as Hbody by done.
  assert (zlen body = 12 + zlen name) as Hz.
  { rewrite Hbody, !zlen_app. change (zlen [0; 0]) with 2. rewrite be16_zlen, !be32_zlen. lia. }
  pose proof (zlen_nonneg name). rewrite Hbody, <- !app_assoc in Hat. clearbody body. clear Hbody.
  exists (p + zlen body), (l - zlen body). split; [|lia].
  unfold edp_decode_value. cbn [Z.eqb EDP_TLV_VLAN EDP_TLV_INFO EDP_TLV_DISPLAY EDP_TLV_NULL Pos.eqb].
  unfold edp_decode_vlan. erewrite exec_bind by (apply exec_check, Z.leb_le; lia).
  apply exec_discard. apply at_bytes_app in Hat. change (zlen [0; 0]) with 2 in Hat.
  eapply exec_uint16; [exact Hat|]. clear Hat. intros Hat.
  apply exec_discard. apply at_bytes_app in Hat. rewrite be32_zlen in Hat.
  eapply exec_bytes; [exact Hat|done|]. clear Hat. intros Hat.
  rewrite bool_decide_true by done. erewrite exec_bind by reflexivity.
  eapply exec_bytes; [exact Hat|rewrite Hz; lia|]. intros _.
  erewrite exec_bind by reflexivity. unfold ext_set, modify. cbn [c_pos c_length c_ext].
  f_equal. f_equal; lia.
Qed.

Fixpoint edp_vlan_states (vlans : list lldpd_vlan) (e : edp_locals) : list edp_locals :=
  match vlans with
  | [] => []
  | v :: vlans' => edp_vlan_locals v e :: edp_vlan_states vlans' (edp_vlan_locals v e)
  end.

Lemma edp_vlan_chain frame vlans e :
  x_gotend e = false →
  edp_chain frame e (map edp_vlan_tlv vlans) (edp_vlan_states vlans e).
Proof.
  revert e. induction vlans as [|v vlans IH]; intros e He; [done|].
  split; [done|]. split; [apply reads_edp_vlan|by apply IH].
Qed.

Lemma edp_vlan_states_last vlans e :
  last (edp_vlan_states vlans e) e =
    e<|x_port ::= λ p, p<|p_vlans ::= λ l, l ++ map edp_received_vlan vlans|>|>
     <|x_gotvlans ::= λ b, b || negb (bool_decide (vlans = []))|>.
Proof.
  revert e. induction vlans as [|v vlans IH]; intros e.
  - destruct e as [c [] g gv u]. unfold set; cbn. by rewrite app_nil_r, orb_false_r.
  - cbn [edp_vlan_states]. rewrite last_cons_default, IH. destruct e as [c [] g gv u].
    unfold edp_vlan_locals, set; cbn. rewrite <- app_assoc, orb_true_r. done.
Qed.

(** The receiver of [edp_send]'s VLAN frame registers no new neighbor and attaches
    exactly the announced VLANs to the port it already knows for the sender. *)
Theorem edp_vlans_roundtrip seq mac pad h hw :
  edp_announce_ok 1 seq → p_vlans port ≠ [] → zlen mac = 6 →
  let frame := edp_packet 1 seq mac ++ pad in
  edp_decode conf frame h (zlen frame) hw =
    let '(h', rports) := edp_attach h (x_chassis edp_start_locals) (h_rports hw)
                           (map edp_received_vlan (p_vlans port)) [] in
    PDiscarded h' (add_unrecognized hw 0)<|h_rports := rports|>.
Proof.
  intros Hok Hne Hm frame.
  destruct (edp_decode_tlvs 1 seq mac pad (map edp_vlan_tlv (p_vlans port))
    (edp_vlan_states (p_vlans port) edp_start_locals) Hok Hm eq_refl) as (p & l & Hbody).
  - apply (edp_tlvs_small 1 seq); [done| |done]. clear. induction (p_vlans port); [done|].
    cbn. by constructor.
  - by apply edp_vlan_chain.
  - unfold edp_decode, frame. rewrite Hbody, edp_vlan_states_last, bool_decide_false by done.
    reflexivity.
Qed.
End Roundtrip.
