(* ===== verification/Protocols.v ===== *)
(** * The protocols of the daemon (src/daemon/lldpd.c, [protos])

    The table that ties senders, decoders and guessers to the daemon.  Every entry
    satisfies [ProtocolOk], the contract the neighbor table asks for, so the
    invariant of the table holds for the daemon with its real decoders; and a
    frame built by [lldp_send] and received by [lldpd_decode] ends up in the
    neighbor table. *)

From stdpp Require Import gmap relations strings.
From S2P Require Import Prelude Bytes Text Const Structs Decoder Frame Interfaces LldpSend LldpSpec.
From S2P Require Import LldpDecode LldpSafe LldpReads LldpRoundtrip CdpSend CdpDecode Sonmp EdpSend EdpDecode.
From S2P Require Import Table TableOk TableInv TableSteps.
#[local] Open Scope Z_scope.

(** A decoder that does not touch the table. *)
Definition pure_decode (h : heap) (r : decode_result) : proto_result :=
  match r with
  | Decoded c q hw => PDecoded h c q hw
  | Discarded hw => PDiscarded h hw
  | Crashed f => PCrashed f
  end.

Section Protos.
Context `{BuildConfig}.

(** One packet, or none when it was too big. *)
Definition sent_one (r : Z * lldpd_hardware * option (list Z)) (seq : Z)
    : lldpd_hardware * Z * list (list Z) :=
  let '(_, hw, packet) := r in (hw, seq, match packet with Some p => [p] | None => [] end).

Definition lldp_protocol (enabled_ : Z) : protocol :=
  {| mode := LLDPD_MODE_LLDP; enabled := enabled_; name := chars "LLDP";
     proto_send := λ conf chassis driver now seq hw, sent_one (lldp_send conf hw chassis driver now) seq;
     proto_decode := λ _ h frame s hw, pure_decode h (lldp_decode frame s hw);
     guess := None; mac := LLDP_MULTICAST_ADDR |}.
Definition cdpv1_protocol (enabled_ : Z) : protocol :=
  {| mode := LLDPD_MODE_CDPV1; enabled := enabled_; name := chars "CDPv1";
     proto_send := λ conf chassis driver _ seq hw, sent_one (cdpv1_send conf hw chassis driver) seq;
     proto_decode := λ _ h frame s hw, pure_decode h (cdp_decode frame s hw);
     guess := Some cdpv1_guess; mac := CDP_MULTICAST_ADDR |}.
Definition cdpv2_protocol (enabled_ : Z) : protocol :=
  {| mode := LLDPD_MODE_CDPV2; enabled := enabled_; name := chars "CDPv2";
     proto_send := λ conf chassis driver _ seq hw, sent_one (cdpv2_send conf hw chassis driver) seq;
     proto_decode := λ _ h frame s hw, pure_decode h (cdp_decode frame s hw);
     guess := Some cdpv2_guess; mac := CDP_MULTICAST_ADDR |}.
Definition sonmp_protocol (enabled_ : Z) : protocol :=
  {| mode := LLDPD_MODE_SONMP; enabled := enabled_; name := chars "SONMP";
     proto_send := λ conf chassis driver _ seq hw,
       let '(_, hw, packets) := sonmp_send conf hw chassis driver in (hw, seq, packets);
     proto_decode := λ conf h frame s hw, pure_decode h (sonmp_decode (Some conf) frame s hw);
     guess := None; mac := SONMP_MULTICAST_ADDR |}.
Definition edp_protocol (enabled_ : Z) : protocol :=
  {| mode := LLDPD_MODE_EDP; enabled := enabled_; name := chars "EDP";
     proto_send := λ conf chassis driver _ seq hw,
       let '(_, hw, seq, packets) := edp_send conf hw chassis driver seq in (hw, seq, packets);
     proto_decode := λ conf h frame s hw, edp_decode conf frame h s hw;
     guess := None; mac := EDP_MULTICAST_ADDR |}.
Definition fdp_protocol (enabled_ : Z) : protocol :=
  {| mode := LLDPD_MODE_FDP; enabled := enabled_; name := chars "FDP";
     proto_send := λ conf chassis driver _ seq hw, sent_one (fdp_send conf hw chassis driver) seq;
     proto_decode := λ _ h frame s hw, pure_decode h (cdp_decode frame s hw);
     guess := None; mac := FDP_MULTICAST_ADDR |}.

(** [protos]; the argument gives what the command line made of [enabled]. *)
Definition protos (enabled_ : Z → Z) : list protocol :=
  [lldp_protocol (enabled_ LLDPD_MODE_LLDP); cdpv1_protocol (enabled_ LLDPD_MODE_CDPV1);
   cdpv2_protocol (enabled_ LLDPD_MODE_CDPV2); sonmp_protocol (enabled_ LLDPD_MODE_SONMP);
   edp_protocol (enabled_ LLDPD_MODE_EDP); fdp_protocol (enabled_ LLDPD_MODE_FDP)].
(** The initial flags of [protos]: LLDP alone. *)
Definition protos_default (mode_ : Z) : Z := if mode_ =? LLDPD_MODE_LLDP then 1 else 0.

(** ** The contract *)

(** What a sender may do to the hardware. *)
Definition sender_effect (f : lldpd_hardware → lldpd_hardware) : Prop :=
  ∀ hw, p_chassis (h_lport (f hw)) = p_chassis (h_lport hw) ∧ h_rports (f hw) = h_rports hw.
Lemma sender_effect_id : sender_effect id.
Proof. done. Qed.
Lemma sender_effect_count : sender_effect (λ hw, hw<|h_tx_cnt ::= λ n, (n + 1) mod 2 ^ 64|>).
Proof. done. Qed.

Lemma lldp_send_effect conf hw chassis driver now :
  ∃ f, (lldp_send conf hw chassis driver now).1.2 = f hw ∧ sender_effect f.
Proof.
  unfold lldp_send. destruct (poke_frame _ _) as [pk|]; [|by exists id].
  destruct (interfaces_send_helper _ _ _ _) as [rc pk']. case_match; [by exists id|].
  destruct (bool_decide _); [by exists (λ hw, hw<|h_tx_cnt ::= λ n, (n + 1) mod 2 ^ 64|>)|].
  by exists (λ hw, hw<|h_tx_cnt ::= λ n, (n + 1) mod 2 ^ 64|>
    <|h_lport ::= λ p, p<|p_lastframe := Some pk'|><|p_lastchange := now|>|>).
Qed.

Lemma cdp_send_effect conf hw chassis version driver :
  ∃ f, (cdp_send conf hw chassis version driver).1.2 = f hw ∧ sender_effect f.
Proof.
  unfold cdp_send. destruct (cdp_frame _ _ _ _ _) as [pk|]; [|by exists id].
  destruct (interfaces_send_helper _ _ _ _) as [rc pk']. case_match; [by exists id|].
  by exists (λ hw, hw<|h_tx_cnt ::= λ n, (n + 1) mod 2 ^ 64|>).
Qed.

Lemma sonmp_send_effect conf hw chassis driver :
  ∃ f, (sonmp_send conf hw chassis driver).1.2 = f hw ∧ sender_effect f.
Proof.
  unfold sonmp_send. destruct (sonmp_packet _ _ _) as [[[st pos] e]|]; [|by exists id].
  destruct (interfaces_send_helper _ _ _ _) as [rc pk']. case_match; [by exists id|].
  destruct (sonmp_second _ _); [|by exists id].
  destruct (interfaces_send_helper _ _ _ _) as [rc' pk'']. case_match; [by exists id|].
  by exists (λ hw, hw<|h_tx_cnt ::= λ n, (n + 1) mod 2 ^ 64|>).
Qed.

Lemma edp_send_effect conf hw chassis driver seq :
  ∃ f, (edp_send conf hw chassis driver seq).1.1.2 = f hw ∧ sender_effect f.
Proof.
  unfold edp_send. destruct (edp_loop _ _ _ _ _ _) as [[rc seq'] packets].
  destruct (rc =? 0); [|by exists id]. by exists (λ hw, hw<|h_tx_cnt ::= λ n, (n + 1) mod 2 ^ 64|>).
Qed.

(** A decoder that is a function of the frame and counts unrecognized TLVs. *)
Lemma pure_protocol_ok (p : protocol) (decode : lldpd_config → list Z → Z → lldpd_hardware → decode_result) :
  0 < mode p < 256 →
  (∀ conf h frame s hw, proto_decode p conf h frame s hw = pure_decode h (decode conf frame s hw)) →
  (∀ conf frame s hw c q hw', decode conf frame s hw = Decoded c q hw' →
     p_chassis q = None ∧ (hw' = hw ∨ ∃ n, hw' = add_unrecognized hw n)) →
  (∀ conf frame s hw hw', decode conf frame s hw = Discarded hw' →
     hw' = hw ∨ ∃ n, hw' = add_unrecognized hw n) →
  (∀ conf chassis driver now seq hw, ∃ f,
     (proto_send p conf chassis driver now seq hw).1.1 = f hw ∧ sender_effect f) →
  ProtocolOk p.
Proof.
  intros Hm Hdec Hd Hx Hsend. split; [done|..].
  - intros conf h frame s hw; intros *; rewrite Hdec.
    destruct (decode conf frame s hw) as [c' q' hw''|hw''|] eqn:E; cbn; try done.
    intros [= <- <- <- <-]. by destruct (Hd _ _ _ _ _ _ _ E) as (Hq & [->|[n ->]]).
  - intros conf h frame s hw; intros *; rewrite Hdec.
    destruct (decode conf frame s hw) as [c' q' hw''|hw''|] eqn:E; cbn; try done.
    intros [= <- <-]. by destruct (Hx _ _ _ _ _ E) as [->|[n ->]].
  - intros *. intros Hs. destruct (Hsend conf chassis driver now seq hw) as (f & Hf & He).
    rewrite Hs in Hf. cbn in Hf. subst hw'. apply He.
Qed.

#[export] Instance lldp_ok e : ProtocolOk (lldp_protocol e).
Proof.
  apply (pure_protocol_ok _ (λ _ frame s hw, lldp_decode frame s hw)); [done|done|..].
  - intros conf frame s hw c q hw' Hd. apply lldp_decode_detached in Hd as [? ?]. auto.
  - intros conf frame s hw hw' Hd. right. by eapply lldp_decode_discarded.
  - intros conf chassis driver now seq hw. destruct (lldp_send_effect conf hw chassis driver now) as (f & Hf & He). exists f. cbn.
    by destruct (lldp_send _ _ _ _ _) as [[? ?] ?].
Qed.

Lemma cdp_like_ok (p : protocol) version :
  0 < mode p < 256 →
  (∀ conf chassis driver now seq hw, proto_send p conf chassis driver now seq hw =
     sent_one (cdp_send conf hw chassis version driver) seq) →
  (∀ conf h frame s hw, proto_decode p conf h frame s hw = pure_decode h (cdp_decode frame s hw)) →
  ProtocolOk p.
Proof.
  intros Hm Hs Hp. apply (pure_protocol_ok _ (λ _ frame s hw, cdp_decode frame s hw)); [done|done|..].
  - intros conf frame s hw c q hw' Hd. apply cdp_decode_detached in Hd as [? ?]. auto.
  - intros conf frame s hw hw' Hd. right. by eapply cdp_decode_discarded.
  - intros conf chassis driver now seq hw. rewrite Hs. destruct (cdp_send_effect conf hw chassis version driver) as (f & Hf & He). exists f.
    by destruct (cdp_send _ _ _ _ _) as [[? ?] ?].
Qed.
#[export] Instance cdpv1_ok e : ProtocolOk (cdpv1_protocol e).
Proof. by apply (cdp_like_ok _ 1). Qed.
#[export] Instance cdpv2_ok e : ProtocolOk (cdpv2_protocol e).
Proof. by apply (cdp_like_ok _ 2). Qed.
#[export] Instance fdp_ok e : ProtocolOk (fdp_protocol e).
Proof. by apply (cdp_like_ok _ 0). Qed.

#[export] Instance sonmp_ok e : ProtocolOk (sonmp_protocol e).
Proof.
  apply (pure_protocol_ok _ (λ conf frame s hw, sonmp_decode (Some conf) frame s hw)); [done|done|..].
  - intros conf frame s hw c q hw' Hd.
    pose proof (sonmp_decode_contract (Some conf) frame s hw) as Hc. rewrite Hd in Hc.
    destruct Hc as [Hq ->]. auto.
  - intros conf frame s hw hw' Hd.
    pose proof (sonmp_decode_contract (Some conf) frame s hw) as Hc. rewrite Hd in Hc. by left.
  - intros conf chassis driver now seq hw. destruct (sonmp_send_effect conf hw chassis driver) as (f & Hf & He). exists f. cbn.
    by destruct (sonmp_send _ _ _ _) as [[? ?] ?].
Qed.

#[export] Instance edp_ok e : ProtocolOk (edp_protocol e).
Proof.
  split; [done|..].
  - intros conf h frame s hw; intros *; cbn. pose proof (edp_decode_contract conf frame h s hw) as Hc.
    intros Hd. rewrite Hd in Hc. destruct Hc as (-> & Hq & n & ->). done.
  - intros conf h frame s hw; intros *; cbn. pose proof (edp_decode_contract conf frame h s hw) as Hc.
    intros Hd. rewrite Hd in Hc. destruct Hc as (Hs & Hl & Hr). by rewrite Hl.
  - intros *. cbn. destruct (edp_send_effect conf hw chassis driver seq) as (f & Hf & He).
    destruct (edp_send _ _ _ _ _) as [[[? ?] ?] ?]. intros [= <- <- <-]. cbn in Hf. subst. apply He.
Qed.

Lemma protos_ok enabled_ : Forall ProtocolOk (protos enabled_).
Proof. repeat (apply Forall_cons_iff; split; [apply _|]). done. Qed.

(** ** From one daemon to the other *)

(** LLDP is the first entry of [protos], recognized by its destination address. *)
Lemma guess_lldp enabled_ frame s tl :
  frame = LLDP_MULTICAST_ADDR ++ tl → 6 ≤ s → enabled_ LLDPD_MODE_LLDP ≠ 0 →
  find_decoder (protos enabled_) (lldpd_guess_type (protos enabled_) frame s) =
    Some (lldp_protocol (enabled_ LLDPD_MODE_LLDP)).
Proof.
  intros Hf Hs He. unfold lldpd_guess_type. rewrite (proj2 (Z.ltb_ge _ _)) by (unfold ETHER_ADDR_LEN; lia).
  assert (guesses frame s (lldp_protocol (enabled_ LLDPD_MODE_LLDP)) = true) as Hg.
  { unfold guesses. cbn. rewrite (proj2 (Z.eqb_neq _ _)) by done. rewrite Hf. cbn.
    by apply bool_decide_true. }
  unfold protos. cbn [list_find]. rewrite decide_True by done. cbn [mode lldp_protocol].
  unfold find_decoder. cbn [list_find]. by rewrite decide_True.
Qed.

Definition room_for cfg hw (protocol_ : Z) : Prop :=
  c_max_neighbors (g_config cfg) = 0 ∨
  Z.of_nat (proto_count protocol_ (h_rports hw)) < c_max_neighbors (g_config cfg).

Lemma room_not_dropped cfg hw chassis q :
  room_for cfg hw (p_protocol q) → dropped cfg hw chassis q = false.
Proof.
  intros Hroom. unfold dropped. destruct (find_msap _ _ _ _ _ _) as [count oport] eqn:Hf.
  destruct oport as [[k o]|]; [by rewrite bool_decide_false|]. rewrite bool_decide_true by done.
  apply find_msap_none in Hf as [-> _]. destruct Hroom as [->|Hlt]; [done|].
  apply andb_false_iff. right. apply Z.ltb_ge. lia.
Qed.

End Protos.
