(* ===== verification/Smart.v ===== *)
(** * The smart filter (src/daemon/lldpd.c, [lldpd_hide_ports], [lldpd_hide_all])

    When several protocols are heard on an interface, the filter hides all the
    neighbors but those of the least common protocol (a host sends few frames of
    the protocols it really speaks; a switch floods the others), and possibly
    all but one.  The [protocols] array of the code is a list indexed by
    protocol; a direction ([SMART_INCOMING], [SMART_OUTGOING]) selects the flag
    that is written. *)

From S2P Require Import Prelude Bytes Const Structs CdpSend TableOk.
#[local] Open Scope Z_scope.

(** The indices of [protocols], 0 to [LLDPD_MODE_MAX]. *)
Definition modes : list Z := map Z.of_nat (seq 0 (S (Z.to_nat LLDPD_MODE_MAX))).

(** Occurrences of each protocol. *)
Definition protocol_counts (rports : list lldpd_port) : list Z :=
  map (λ i, Z.of_nat (proto_count i rports)) modes.

(** The smallest count that is not 0; [(unsigned int)-1] when there is none. *)
Definition smallest (counts : list Z) : Z :=
  fold_left (λ min c : Z, if negb (c =? 0) && (c <? min) then c else min) counts (2 ^ 32 - 1).

(** The counts turned into flags; [one] asks for a tie breaker. *)
Fixpoint elect (one : bool) (min : Z) (found : bool) (counts : list Z) : list bool :=
  match counts with
  | [] => []
  | c :: counts' =>
      if (c =? min) && negb found then true :: elect one min (found || one) counts'
      else false :: elect one min found counts'
  end.

Section Hide.
Variable smart : Z.     (** [cfg->g_config.c_smart] *)
Variable mask : Z.      (** [SMART_INCOMING] or [SMART_OUTGOING] *)

Definition one_proto : bool :=
  has_bit (Z.land smart mask) (Z.lor SMART_OUTGOING_ONE_PROTO SMART_INCOMING_ONE_PROTO).
Definition one_neigh : bool :=
  has_bit (Z.land smart mask) (Z.lor SMART_OUTGOING_ONE_NEIGH SMART_INCOMING_ONE_NEIGH).

Definition hidden (port : lldpd_port) : bool :=
  if mask =? SMART_OUTGOING then p_hidden_out port else p_hidden_in port.
Definition set_hidden (b : bool) (port : lldpd_port) : lldpd_port :=
  if mask =? SMART_OUTGOING then port<|p_hidden_out := b|> else port<|p_hidden_in := b|>.

(** We set the flag if the protocol is disabled. *)
Definition hide_protocols (protocols : list bool) (rports : list lldpd_port) : list lldpd_port :=
  map (λ q, set_hidden (negb (nth (Z.to_nat (p_protocol q)) protocols false)) q) rports.

(** If we want only one neighbor, we take the first one. *)
Fixpoint hide_neighbors (found : bool) (rports : list lldpd_port) : list lldpd_port :=
  match rports with
  | [] => []
  | q :: rports' =>
      let q := if found then set_hidden true q else q in
      q :: hide_neighbors (found || negb (hidden q)) rports'
  end.

Definition hide_rports (rports : list lldpd_port) : list lldpd_port :=
  let counts := protocol_counts rports in
  let protocols := elect one_proto (smallest counts) false counts in
  let rports := hide_protocols protocols rports in
  if one_neigh then hide_neighbors false rports else rports.
Definition lldpd_hide_ports (hardware : lldpd_hardware) : lldpd_hardware :=
  hardware<|h_rports ::= hide_rports|>.

(** ** What stays visible *)

Definition visible (rports : list lldpd_port) : list lldpd_port :=
  filter (λ q, hidden q = false) rports.

Lemma hidden_set b q : hidden (set_hidden b q) = b.
Proof. unfold hidden, set_hidden. by case_if. Qed.

Lemma set_hidden_protocol b q : p_protocol (set_hidden b q) = p_protocol q.
Proof. unfold set_hidden. by case_if. Qed.

Lemma set_hidden_key b q : port_key (set_hidden b q) = port_key q.
Proof. unfold set_hidden. by case_if. Qed.

(** The filter changes the flags only. *)
Lemma hide_rports_keys rports : port_key <$> hide_rports rports = port_key <$> rports.
Proof.
  assert (∀ f l, port_key <$> hide_neighbors f l = port_key <$> l) as Hn.
  { intros f l. revert f. induction l as [|q l IH]; intros f; [done|]. cbn. rewrite IH. f_equal.
    destruct f; [apply set_hidden_key|done]. }
  assert (∀ pr l, port_key <$> hide_protocols pr l = port_key <$> l) as Hp.
  { intros pr l. induction l as [|q l IH]; [done|]. cbn. f_equal; [apply set_hidden_key|exact IH]. }
  unfold hide_rports. cbv zeta. destruct one_neigh; by rewrite ?Hn, Hp.
Qed.

Lemma smallest_spec (counts : list Z) (m0 : Z) :
  let m := fold_left (λ min c : Z, if negb (c =? 0) && (c <? min) then c else min) counts m0 in
  m ≤ m0 ∧ Forall (λ c, c ≠ 0 → m ≤ c) counts ∧ (m = m0 ∨ m ≠ 0 ∧ m ∈ counts).
Proof.
  revert m0. induction counts as [|c counts IH]; intros m0; cbn; [split_and!; [lia|done|by left]|].
  set (m1 := if negb (c =? 0) && (c <? m0) then c else m0). specialize (IH m1). cbv zeta in IH. destruct IH as (Hle & Hf & Hin).
  assert (m1 ≤ m0 ∧ (c ≠ 0 → m1 ≤ c) ∧ (m1 = m0 ∨ m1 = c ∧ c ≠ 0)) as (H1 & H2 & H3).
  { unfold m1. destruct (Z.eqb_spec c 0), (Z.ltb_spec c m0); cbn; lia. }
  split; [lia|]. split; [constructor; [lia|done]|].
  destruct Hin as [->|[Hne Hin]]; [|right; split; [done|by apply list_elem_of_further]].
  destruct H3 as [->|[-> Hc]]; [by left|right]. split; [done|]. apply list_elem_of_here.
Qed.

(** Some protocol is elected when the smallest count occurs. *)
Lemma elect_some one min counts :
  min ∈ counts → ∃ i, nth i (elect one min false counts) false = true ∧ nth i counts 0 = min ∧
    (i < length counts)%nat.
Proof.
  intros Hin. induction counts as [|c counts IH]; [by apply not_elem_of_nil in Hin|].
  cbn. destruct (Z.eqb_spec c min) as [->|Hne]; cbn.
  - exists 0%nat. split_and!; [done|done|lia].
  - apply elem_of_cons in Hin as [->|Hin]; [done|]. destruct (IH Hin) as (i & Hi & Hc & Hl).
    exists (S i). split_and!; [done|done|lia].
Qed.

Lemma elect_min one min found counts i :
  nth i (elect one min found counts) false = true → found = false ∧ nth i counts 0 = min.
Proof.
  revert found i. induction counts as [|c counts IH]; intros found i; cbn; [by destruct i|].
  destruct (Z.eqb_spec c min) as [->|Hne], found, i as [|i]; cbn; try done; intros Hi;
    destruct (IH _ _ Hi); done.
Qed.

(** Without the tie breaker every protocol with the smallest count is elected. *)
Lemma elect_all min counts i :
  (i < length counts)%nat → nth i counts 0 = min → nth i (elect false min false counts) false = true.
Proof.
  revert i. induction counts as [|c counts IH]; intros i Hl Hc; cbn in *; [lia|].
  destruct i as [|i].
  - subst c. by rewrite Z.eqb_refl.
  - destruct (c =? min); cbn; apply IH; first [done|lia].
Qed.

(** With the tie breaker at most one protocol is elected. *)
Lemma elect_one min counts i j :
  nth i (elect true min false counts) false = true →
  nth j (elect true min false counts) false = true → i = j.
Proof.
  revert i j. induction counts as [|c counts IH]; intros i j; cbn; [by destruct i|].
  destruct (Z.eqb_spec c min) as [->|Hne]; cbn.
  - destruct i as [|i], j as [|j]; cbn; try done; intros Hi Hj.
    all: first [destruct (elect_min _ _ _ _ _ Hi); done | destruct (elect_min _ _ _ _ _ Hj); done].
  - destruct i as [|i], j as [|j]; cbn; try done. intros Hi Hj. by rewrite (IH _ _ Hi Hj).
Qed.

Lemma visible_hide_neighbors found rports :
  visible (hide_neighbors found rports) = if found then [] else take 1 (visible rports).
Proof.
  revert found. induction rports as [|q rports IH]; intros found; [by destruct found|].
  cbn [hide_neighbors]. unfold visible in *. rewrite !filter_cons.
  destruct found; cbn.
  - rewrite hidden_set, decide_False by done. apply IH.
  - destruct (hidden q) eqn:Hq; [rewrite !decide_False by done; apply IH|].
    rewrite !decide_True by done. cbn. f_equal. apply (IH true).
Qed.

Lemma nth_counts rports pr :
  0 ≤ pr ≤ LLDPD_MODE_MAX →
  nth (Z.to_nat pr) (protocol_counts rports) 0 = Z.of_nat (proto_count pr rports).
Proof.
  intros Hpr. unfold protocol_counts, modes. rewrite map_map.
  rewrite nth_indep with (d' := Z.of_nat (proto_count (Z.of_nat 0) rports))
    by (rewrite length_map, length_seq; unfold LLDPD_MODE_MAX, LLDPD_MODE_FDP in *; lia).
  rewrite (map_nth (λ n, Z.of_nat (proto_count (Z.of_nat n) rports))), seq_nth
    by (unfold LLDPD_MODE_MAX, LLDPD_MODE_FDP in *; lia).
  by rewrite Nat.add_0_l, Z2Nat.id by lia.
Qed.

(** The ports of the daemon: a protocol of [protos], fewer than 2^32 - 1 of them. *)
Definition filterable (rports : list lldpd_port) : Prop :=
  Forall (λ q, 0 ≤ p_protocol q ≤ LLDPD_MODE_MAX) rports ∧ zlen rports < 2 ^ 32 - 1.

Lemma proto_count_bound pr rports : Z.of_nat (proto_count pr rports) ≤ zlen rports.
Proof. unfold proto_count, zlen. pose proof (list.length_filter (λ q, p_protocol q = pr) rports). lia. Qed.

Lemma proto_count_pos q rports : q ∈ rports → (0 < proto_count (p_protocol q) rports)%nat.
Proof.
  intros Hq. unfold proto_count.
  destruct (filter (λ q', p_protocol q' = p_protocol q) rports) eqn:Hf; [|cbn; lia].
  assert (q ∈ (filter (λ q', p_protocol q' = p_protocol q) rports)) as Hin
    by (by apply list_elem_of_filter).
  rewrite Hf in Hin. by apply not_elem_of_nil in Hin.
Qed.

(** The smallest count is the count of some protocol that is heard. *)
Lemma smallest_counts rports :
  filterable rports → rports ≠ [] →
  smallest (protocol_counts rports) ∈ protocol_counts rports ∧
  0 < smallest (protocol_counts rports) ∧
  (∀ q, q ∈ rports → smallest (protocol_counts rports) ≤ Z.of_nat (proto_count (p_protocol q) rports)).
Proof.
  intros [Hpr Hlen] Hne. destruct (smallest_spec (protocol_counts rports) (2 ^ 32 - 1)) as (_ & Hle & Hin).
  fold (smallest (protocol_counts rports)) in Hle, Hin.
  assert (∀ q, q ∈ rports → smallest (protocol_counts rports) ≤ Z.of_nat (proto_count (p_protocol q) rports))
    as Hall.
  { intros q Hq. rewrite list.Forall_forall in Hpr. rewrite list.Forall_forall in Hle. specialize (Hpr q Hq).
    rewrite <- (nth_counts rports) by done. apply Hle.
    - apply list_elem_of_In, nth_In. unfold protocol_counts, modes.
      rewrite !length_map, length_seq. unfold LLDPD_MODE_MAX, LLDPD_MODE_FDP in *. lia.
    - rewrite nth_counts by done. pose proof (proto_count_pos q rports Hq). lia. }
  assert (smallest (protocol_counts rports) ∈ protocol_counts rports ∧ smallest (protocol_counts rports) ≠ 0)
    as [Hin' H0].
  { destruct Hin as [Hmax|[H0 Hin]]; [|done]. destruct rports as [|q rports]; [done|].
    specialize (Hall q (list_elem_of_here _ _)).
    pose proof (proto_count_bound (p_protocol q) (q :: rports)). lia. }
  split_and!; [done| |done].
  apply list_elem_of_In in Hin'. unfold protocol_counts in Hin'. apply in_map_iff in Hin' as (i & Hi & _).
  unfold protocol_counts in *. lia.
Qed.

Definition elected (rports : list lldpd_port) : list bool :=
  let counts := protocol_counts rports in elect one_proto (smallest counts) false counts.

Lemma visible_hide_protocols protocols rports q :
  q ∈ visible (hide_protocols protocols rports) →
  ∃ q0, q0 ∈ rports ∧ p_protocol q = p_protocol q0 ∧
    nth (Z.to_nat (p_protocol q)) protocols false = true.
Proof.
  unfold visible, hide_protocols. rewrite list_elem_of_filter.
  intros (Hh & (q0 & -> & Hq0)%list_elem_of_fmap). exists q0.
  rewrite hidden_set, negb_false_iff in Hh. by rewrite set_hidden_protocol.
Qed.

Lemma hide_rports_visible rports :
  visible (hide_rports rports) =
    let v := visible (hide_protocols (elected rports) rports) in if one_neigh then take 1 v else v.
Proof.
  unfold hide_rports, elected. cbv zeta. destruct one_neigh; [|done]. by rewrite visible_hide_neighbors.
Qed.

Lemma hide_rports_in rports q :
  q ∈ visible (hide_rports rports) → q ∈ visible (hide_protocols (elected rports) rports).
Proof.
  rewrite hide_rports_visible. cbv zeta. destruct one_neigh; [|done].
  destruct (visible _) as [|v l]; [done|]. cbn. intros ->%list_elem_of_singleton. apply list_elem_of_here.
Qed.

Lemma hide_protocols_visible rports :
  filterable rports → rports ≠ [] → visible (hide_protocols (elected rports) rports) ≠ [].
Proof.
  intros Hok Hne. destruct (smallest_counts rports Hok Hne) as (Hin & Hpos & _).
  destruct (elect_some one_proto _ _ Hin) as (i & Hi & Hc & Hl).
  assert (length (protocol_counts rports) = 7%nat) as Hlen by done. rewrite Hlen in Hl.
  pose proof (nth_counts rports (Z.of_nat i)) as Hn. rewrite Nat2Z.id, Hc in Hn.
  rewrite Hn in Hpos by (unfold LLDPD_MODE_MAX, LLDPD_MODE_FDP; lia).
  destruct (filter (λ q, p_protocol q = Z.of_nat i) rports) as [|q l] eqn:Hf.
  { unfold proto_count in Hpos. rewrite Hf in Hpos. cbn in Hpos. lia. }
  assert (q ∈ filter (λ q, p_protocol q = Z.of_nat i) rports) as [Hq Hqin]%list_elem_of_filter
    by (rewrite Hf; apply list_elem_of_here).
  intros Hnil. apply (not_elem_of_nil (set_hidden false q)). rewrite <- Hnil.
  unfold visible, hide_protocols. apply list_elem_of_filter. split; [apply hidden_set|].
  apply list_elem_of_fmap. exists q. split; [|done]. rewrite Hq, Nat2Z.id.
  change (nth i (elected rports) false = true) in Hi. by rewrite Hi.
Qed.

(** C35: the smart filter never hides everything; a visible neighbor speaks one of the
    least common protocols of the interface; when one protocol is asked for all
    the visible neighbors speak the same one, and when one neighbor is asked
    for exactly one stays visible. *)
Theorem lldpd_hide_ports_correct hardware :
  let rports := h_rports hardware in
  let shown := visible (h_rports (lldpd_hide_ports hardware)) in
  filterable rports → rports ≠ [] →
  shown ≠ [] ∧
  (∀ q q', q ∈ shown → q' ∈ rports →
    (proto_count (p_protocol q) rports ≤ proto_count (p_protocol q') rports)%nat) ∧
  (one_proto = true → ∀ q q', q ∈ shown → q' ∈ shown → p_protocol q = p_protocol q') ∧
  (one_neigh = true → length shown = 1%nat).
Proof.
  intros rports shown Hok Hne. pose proof (hide_protocols_visible rports Hok Hne) as Hv.
  unfold shown. cbn. fold rports.
  assert (∀ q, q ∈ visible (hide_rports rports) → ∃ q0, q0 ∈ rports ∧ p_protocol q = p_protocol q0 ∧
    nth (Z.to_nat (p_protocol q)) (elected rports) false = true) as Hin
    by (intros q Hq; by apply visible_hide_protocols, hide_rports_in).
  destruct Hok as [Hpr Hlen]. rewrite list.Forall_forall in Hpr. split_and!.
  - rewrite hide_rports_visible. cbv zeta. destruct one_neigh; [|done].
    by destruct (visible (hide_protocols (elected rports) rports)).
  - intros q q' Hq Hq'. destruct (Hin q Hq) as (q0 & Hq0 & He & Hel).
    apply elect_min in Hel as [_ Hel]. rewrite nth_counts in Hel by (rewrite He; auto).
    destruct (smallest_counts rports) as (_ & _ & Hall); [split; [by apply list.Forall_forall|done]|done|].
    specialize (Hall q' Hq'). lia.
  - intros Hone q q' Hq Hq'. destruct (Hin q Hq) as (q0 & Hq0 & He & Hel).
    destruct (Hin q' Hq') as (q1 & Hq1 & He1 & Hel1). unfold elected in Hel, Hel1. rewrite Hone in Hel, Hel1.
    pose proof (elect_one _ _ _ _ Hel Hel1). pose proof (Hpr _ Hq0). pose proof (Hpr _ Hq1). lia.
  - intros Hone. rewrite hide_rports_visible, Hone. cbv zeta.
    by destruct (visible (hide_protocols (elected rports) rports)).
Qed.
End Hide.
