(* ===== verification/Loop.v ===== *)
(** * Receiving and sending (src/daemon/lldpd.c)

    [lldpd_recv] and [lldpd_send] are the two entry points the event loop calls for
    an interface: the gates of the configuration, then [lldpd_decode] with the
    smart filter, or the senders of the protocols in use.
    [lldpd_update_localchassis] refreshes what the daemon says about itself. *)

From stdpp Require Import gmap relations strings.
From S2P Require Import Prelude Bytes Text Const Structs Decoder Frame CdpSend Table TableOk TableInv.
From S2P Require Import TableSteps Smart.
#[local] Open Scope Z_scope.

Definition IFF_RUNNING : Z := 0x40.

Section Loop.
Context `{BuildConfig}.
Implicit Types (cfg : lldpd) (hw : lldpd_hardware).

(** ** Reception *)

Definition lldpd_hide_hardware (smart : Z) (hw : lldpd_hardware) : lldpd_hardware :=
  let hw := if has_bit smart SMART_INCOMING_FILTER
            then lldpd_hide_ports smart SMART_INCOMING hw else hw in
  if has_bit smart SMART_OUTGOING_FILTER then lldpd_hide_ports smart SMART_OUTGOING hw else hw.
Definition lldpd_hide_all (cfg : lldpd) : lldpd :=
  let smart := c_smart (g_config cfg) in
  if smart =? 0 then cfg else cfg<|g_hardware ::= map (lldpd_hide_hardware smart)|>.

(** Does the daemon look at frames received on this interface? *)
Definition rx_open (conf : lldpd_config) (hw : lldpd_hardware) : bool :=
  (c_paused conf =? 0) &&
  negb (ENABLE_OVSDB &&
        (negb (c_is_any_protocol_enabled conf) ||
         bool_decide (h_enable_dir hw = HARDWARE_ENABLE_DIR_OFF) ||
         bool_decide (h_enable_dir hw = HARDWARE_ENABLE_DIR_TX) ||
         h_link_state_down hw)).

(** [lldpd_recv] on the [i]-th hardware; [received] is what the driver left in the
    buffer and the number of bytes it returned, [None] for -1. *)
Definition lldpd_recv (cfg : lldpd) (i : nat) (received : option (list Z * Z)) (now : Z)
    : fault + lldpd :=
  match g_hardware cfg !! i, received with
  | Some hw, Some (buffer, n) =>
      if rx_open (g_config cfg) hw then
        let cfg := cfg<|g_hardware ::= <[i := hw<|h_rx_cnt ::= incr64|>]>|> in
        match lldpd_decode cfg i buffer n now with
        | inl f => inl f
        | inr cfg => inr (lldpd_hide_all cfg)
        end
      else inr cfg
  | _, _ => inr cfg
  end.

(** ** Transmission *)

Definition tx_open (conf : lldpd_config) (hw : lldpd_hardware) : bool :=
  negb (c_receiveonly conf || negb (c_paused conf =? 0)) &&
  negb (ENABLE_OVSDB &&
        (bool_decide (h_enable_dir hw = HARDWARE_ENABLE_DIR_OFF) ||
         bool_decide (h_enable_dir hw = HARDWARE_ENABLE_DIR_RX) ||
         h_link_state_down hw)) &&
  negb (Z.land (h_flags hw) IFF_RUNNING =? 0).

(** Is the protocol forced, or spoken by a neighbor that is not hidden? *)
Definition speaks (rports : list lldpd_port) (p : protocol) : bool :=
  negb (enabled p =? 0) &&
  ((1 <? enabled p) ||
   existsb (λ q, negb (p_hidden_out q) && (p_protocol q =? mode p)) rports).

(** The loops of [lldpd_send]: the protocols whose [send] is called. *)
Definition to_send (protocols : list protocol) (rports : list lldpd_port) : list protocol :=
  match filter (λ p, speaks rports p = true) protocols with
  | [] => take 1 (filter (λ p, enabled p ≠ 0) protocols)
  | l => l
  end.

(** The calls, one after the other; the chassis is the local one. *)
Fixpoint send_all (conf : lldpd_config) (chassis : lldpd_chassis) (driver : list Z → Z) (now : Z)
    (ps : list protocol) (seq : Z) (hw : lldpd_hardware) : lldpd_hardware * Z * list (list Z) :=
  match ps with
  | [] => (hw, seq, [])
  | p :: ps' =>
      let '(hw, seq, sent) := proto_send p conf chassis driver now seq hw in
      let '(hw, seq, sent') := send_all conf chassis driver now ps' seq hw in
      (hw, seq, sent ++ sent')
  end.

Definition lldpd_send (cfg : lldpd) (i : nat) (driver : list Z → Z) (now seq : Z)
    : lldpd * Z * list (list Z) :=
  match g_hardware cfg !! i with
  | None => (cfg, seq, [])
  | Some hw =>
      match p_chassis (h_lport hw) ≫= (g_heap cfg !!.) with
      | None => (cfg, seq, [])
      | Some chassis =>
          if tx_open (g_config cfg) hw then
            let '(hw, seq, sent) := send_all (g_config cfg) chassis driver now
                                      (to_send (g_protocols cfg) (h_rports hw)) seq hw in
            (cfg<|g_hardware ::= <[i := hw]>|>, seq, sent)
          else (cfg, seq, [])
      end
  end.

(** A transmission calls every enabled protocol that is forced, never a disabled
    one, never a protocol nobody asked for except the fallback, and is silent
    only when no protocol is enabled. *)
Theorem to_send_correct protocols rports :
  let sent := to_send protocols rports in
  (∀ p, p ∈ protocols → 1 < enabled p → p ∈ sent) ∧
  (∀ p, p ∈ sent → p ∈ protocols ∧ enabled p ≠ 0) ∧
  (∀ p, p ∈ sent → speaks rports p = true ∨ sent = [p]) ∧
  (sent = [] ↔ Forall (λ p, enabled p = 0) protocols).
Proof.
  intros sent. unfold sent, to_send.
  assert (∀ p, speaks rports p = true → enabled p ≠ 0) as Hen.
  { intros p Hp. unfold speaks in Hp. by bool_to_prop. }
  assert (∀ p, p ∈ protocols → 1 < enabled p → p ∈ filter (λ p, speaks rports p = true) protocols)
    as Hforced.
  { intros p Hp Hgt. apply list_elem_of_filter. split; [|done]. unfold speaks.
    rewrite (proj2 (Z.eqb_neq _ _)), (proj2 (Z.ltb_lt _ _)) by lia. done. }
  assert (∀ p, p ∈ filter (λ p, speaks rports p = true) protocols → p ∈ protocols ∧ enabled p ≠ 0) as Hs.
  { intros p [Hp Hin]%list_elem_of_filter. auto. }
  destruct (filter (λ p, speaks rports p = true) protocols) as [|p0 l] eqn:Hf.
  - split_and!.
    + intros p Hp Hgt. destruct (not_elem_of_nil p). auto.
    + intros p Hp. apply elem_of_take in Hp as (k & Hk%list_elem_of_lookup_2 & _).
      by apply list_elem_of_filter in Hk as [? ?].
    + intros p Hp. right. destruct (filter (λ p, enabled p ≠ 0) protocols); [by apply not_elem_of_nil in Hp|].
      cbn in *. apply list_elem_of_singleton in Hp. by subst.
    + rewrite list.Forall_forall. split.
      * intros Hnil p Hp. destruct (decide (enabled p = 0)) as [|Hne]; [done|].
        assert (p ∈ filter (λ p, enabled p ≠ 0) protocols) as Hin by (by apply list_elem_of_filter).
        destruct (filter (λ p, enabled p ≠ 0) protocols); [by apply not_elem_of_nil in Hin|done].
      * intros Hall. destruct (filter (λ p, enabled p ≠ 0) protocols) as [|p l] eqn:Hg; [done|].
        assert (p ∈ filter (λ p, enabled p ≠ 0) protocols) as Hin by (rewrite Hg; apply list_elem_of_here).
        apply list_elem_of_filter in Hin as [Hne Hin]. by destruct Hne; apply Hall.
  - split_and!; [done|done| |].
    + intros p Hp. left. rewrite <- Hf in Hp. by apply list_elem_of_filter in Hp as [? _].
    + split; [done|]. intros Hall. destruct (Hs p0 (list_elem_of_here _ _)) as [Hin Hne].
      rewrite list.Forall_forall in Hall. by destruct Hne; apply Hall.
Qed.
End Loop.
