(* ===== verification/Marshal.v ===== *)
(** * Serialization (src/marshal.c, src/marshal.h)

    Structures travel between the daemon and its clients as bytes.  [marshal_serialize_]
    follows the pointers of a structure in memory and writes every object once, with
    numbers instead of addresses; [marshal_unserialize_] rebuilds the objects.  Both are
    driven by a description of the structure ([marshal_info]): its size and where its
    pointers, embedded structures and ignored fields are.

    Memory is byte-addressed, with 8-byte pointers and 4-byte integers.  The source of a
    serialization is a function from addresses to bytes.  The result of an
    unserialization is the list of the blocks that were allocated, in order, each with
    the number its object has in the buffer; [alloc i] is the address of the [i]-th
    block. *)

From S2P Require Import Prelude Bytes Frame.
From stdpp Require Import strings.
#[local] Open Scope Z_scope.

(** ** Words in the byte order of the host *)

Fixpoint le_bytes (n : nat) (v : Z) : list Z :=
  match n with O => [] | S n => v mod 2 ^ 8 :: le_bytes n (v / 2 ^ 8) end.
Definition host_bytes `{BuildConfig} (n : nat) (v : Z) : list Z :=
  if HOST_LITTLE_ENDIAN then le_bytes n v else rev (le_bytes n v).
Definition host_value `{BuildConfig} (l : list Z) : Z :=
  be_value (if HOST_LITTLE_ENDIAN then rev l else l).
(** An [int]. *)
Definition host_int `{BuildConfig} (l : list Z) : Z :=
  let v := host_value l in if v <? 2 ^ 31 then v else v - 2 ^ 32.

(** ** Descriptions *)

Inductive marshal_subinfo_kind := pointer | substruct | ignore.
Record marshal_subinfo := {
  offset : Z; offset2 : Z; kind : marshal_subinfo_kind; sub_mi : string
}.
Record marshal_info := { mi_size : Z; mi_pointers : list marshal_subinfo }.

Definition null_string : string := "null string".
Definition fixed_string : string := "fixed string".

(** [sizeof(struct marshal_serialized)], [ALIGNOF(struct marshal_serialized)] *)
Definition HEADER : Z := 16.
Definition ALIGN : Z := 8.
Definition padding (len : Z) : Z := (ALIGN - len mod ALIGN) mod ALIGN.

Section Marshal.
Context `{BuildConfig}.
(** The descriptions by name; a pointer to a structure of the same type refers to its
    name. *)
Variable infos : string → marshal_info.

(** ** [marshal_serialize_] *)

(** The pointers that were seen, with their numbers ([struct ref]). *)
#[local] Abbreviation refs := (list (Z * Z)).

Section Serialize.
Variable mem : Z → Z.

Definition load (p n : Z) : list Z := map (λ i, mem (p + Z.of_nat i)) (seq 0 (Z.to_nat n)).
Definition load_ptr (p : Z) : Z := host_value (load p 8).
Definition load_int (p : Z) : Z := host_int (load p 4).

(** [strlen]: the memory holds a NUL within [fuel] bytes. *)
Fixpoint mem_strlen (fuel : nat) (p : Z) : Z :=
  match fuel with
  | O => 0
  | S n => if mem p =? 0 then 0 else 1 + mem_strlen n (p + 1)
  end.

Definition ref_of (r : refs) (p : Z) : option Z := snd <$> find (λ x, fst x =? p) r.
Definition next_dummy (r : refs) : Z := foldl (λ d x, if d <=? snd x then snd x + 1 else d) 1 r.

Definition ser_size (strings : nat) (mi : string) (p osize : Z) : Z :=
  if String.eqb mi null_string then mem_strlen strings p + 1
  else if String.eqb mi fixed_string then osize
  else mi_size (infos mi).

(** The structure an inner field leads to; null pointers and ignored fields lead nowhere. *)
Definition sub_source (p : Z) (s : marshal_subinfo) : Z :=
  match kind s with pointer => load_ptr (p + offset s) | _ => p + offset s end.
Definition followed (p : Z) (s : marshal_subinfo) : bool :=
  match kind s with ignore => false | pointer => negb (sub_source p s =? 0) | substruct => true end.

(** The loop over the inner structures.  [obj] is the copy of the structure, [tail] what
    was appended to it. *)
Fixpoint ser_subs (rec : string → Z → bool → refs → Z → option (list Z * refs))
    (subs : list marshal_subinfo) (p : Z) (skip : bool) (obj tail : list Z) (r : refs) (osize : Z)
    : option (list Z * list Z * refs) :=
  match subs with
  | [] => Some (obj, tail, r)
  | s :: subs =>
      let source := sub_source p s in
      if followed p s then
        let osize := if offset2 s =? 0 then osize else load_int (p + offset2 s) in
        '(sub, r) ← rec (sub_mi s) source (match kind s with substruct => true | _ => false end) r osize;
        let obj := match kind s with
                   | pointer => if skip then obj
                                else write_at obj (offset s) (host_bytes 8 (default 0 (ref_of r source)))
                   | _ => obj
                   end in
        let tail := match sub with
                    | [] => tail
                    | _ => tail ++ replicate (Z.to_nat (padding (HEADER + zlen obj + zlen tail))) 0 ++ sub
                    end in
        ser_subs rec subs p skip obj tail r osize
      else ser_subs rec subs p skip obj tail r osize
  end.

(** The empty list when the object was already serialized; [None] without fuel.
    [strings] bounds the length of the strings. *)
Fixpoint marshal_serialize_ (strings fuel : nat) (mi : string) (p : Z) (skip : bool) (r : refs) (osize : Z)
    : option (list Z * refs) :=
  match fuel with
  | O => None
  | S fuel =>
      match ref_of r p with
      | Some _ => Some ([], r)
      | None =>
          let dummy := next_dummy r in
          let size := ser_size strings mi p osize in
          let obj := if skip then [] else load p size in
          '(obj, tail, r) ← ser_subs (marshal_serialize_ strings fuel) (mi_pointers (infos mi)) p skip
                               obj [] (r ++ [(p, dummy)]) osize;
          Some (host_bytes 8 dummy ++ host_bytes 8 (HEADER + zlen obj + zlen tail) ++ obj ++ tail, r)
      end
  end.
End Serialize.

(** ** [marshal_unserialize_] *)

(** The allocated blocks with the numbers they have in the buffer ([struct gc]). *)
#[local] Abbreviation gc := (list (Z * list Z)).

(** [UFail] is the return value 0; [UFault] a memory error. *)
Inductive unser_result :=
  | UOk (len : Z) (out : nat * Z) (g : gc)
  | UFail
  | UFault.

Variable alloc : nat → Z.

(** Reading and writing inside a block. *)
Definition get_at (g : gc) (out : nat * Z) (n : Z) : option (list Z) :=
  match g !! out.1 with
  | Some (_, b) =>
      if ((0 <=? out.2) && (out.2 + n <=? zlen b))%bool
      then Some (take (Z.to_nat n) (drop (Z.to_nat out.2) b)) else None
  | None => None
  end.
Definition set_at (g : gc) (out : nat * Z) (bs : list Z) : option gc :=
  match g !! out.1 with
  | Some (orig, b) =>
      if ((0 <=? out.2) && (out.2 + zlen bs <=? zlen b))%bool
      then Some (<[out.1 := (orig, write_at b out.2 bs)]> g) else None
  | None => None
  end.
Definition shifted (out : nat * Z) (o : Z) : nat * Z := (out.1, out.2 + o).

(** The block of an object that was already rebuilt. *)
Definition find_orig (g : gc) (orig : Z) : option nat := fst <$> list_find (λ x, fst x = orig) g.

(** Continue with a value, or stop on a memory error. *)
Definition or_fault {A} (o : option A) (k : A → unser_result) : unser_result :=
  match o with Some a => k a | None => UFault end.

(** The part of an iteration that reads an inner structure from the buffer; [total] is
    [total_len]. *)
Definition unser_inner (rec : string → list Z → option (nat * Z) → gc → Z → unser_result)
    (s : marshal_subinfo) (buffer : list Z) (out : nat * Z) (g : gc) (total osize : Z)
    (next : gc → Z → Z → unser_result) : unser_result :=
  let slot := shifted out (offset s) in
  or_fault (if offset2 s =? 0 then Some osize else host_int <$> get_at g (shifted out (offset2 s)) 4)
    (λ osize,
      let pad := padding total in
      if zlen buffer <? total + pad then UFail
      else
        match rec (sub_mi s) (drop (Z.to_nat (total + pad)) buffer)
                (match kind s with substruct => Some slot | _ => None end) g osize with
        | UOk sublen subout g =>
            let total := total + (sublen + pad) in
            match kind s with
            | pointer => or_fault (set_at g slot (host_bytes 8 (alloc subout.1)))
                           (λ g, next g total osize)
            | _ => next g total osize
            end
        | r => r
        end).

(** The loop over the substructures. *)
Fixpoint unser_subs (rec : string → list Z → option (nat * Z) → gc → Z → unser_result)
    (subs : list marshal_subinfo) (buffer : list Z) (out : nat * Z) (g : gc) (total osize : Z)
    : unser_result :=
  match subs with
  | [] => UOk total out g
  | s :: subs =>
      let slot := shifted out (offset s) in
      let next g total osize := unser_subs rec subs buffer out g total osize in
      match kind s with
      | ignore => or_fault (set_at g slot (replicate 8 0)) (λ g, next g total osize)
      | pointer =>
          or_fault (host_value <$> get_at g slot 8) (λ v,
            if v =? 0 then next g total osize
            else
              match find_orig g v with
              | Some i => or_fault (set_at g slot (host_bytes 8 (alloc i))) (λ g, next g total osize)
              | None => unser_inner rec s buffer out g total osize next
              end)
      | substruct => unser_inner rec s buffer out g total osize next
      end
  end.

(** The size of the object and the bytes that make sure a string ends. *)
Definition unser_size (mi : string) (object : list Z) (osize : Z) : Z * Z :=
  if String.eqb mi null_string then (strlen object + 1, 0)
  else if String.eqb mi fixed_string then (osize, 1)
  else (mi_size (infos mi), 0).
Definition is_string (mi : string) : bool := String.eqb mi null_string || String.eqb mi fixed_string.

(** [skip] is [Some out] when the structure is embedded in the object at [out]. *)
Fixpoint marshal_unserialize_ (fuel : nat) (mi : string) (buffer : list Z) (skip : option (nat * Z))
    (g : gc) (osize : Z) : unser_result :=
  match fuel with
  | O => UFault
  | S fuel =>
      let len := zlen buffer in
      let total := HEADER + match skip with Some _ => 0 | None => mi_size (infos mi) end in
      if ((len <? HEADER) || (len <? total))%bool then UFail
      else
        let object := drop (Z.to_nat HEADER) buffer in
        let '(size, extra) := unser_size mi object osize in
        (* A negative size is a large unsigned number *)
        if (is_string mi && ((size <? 0) || (len - HEADER <? size)))%bool then UFail
        else
          let total := if is_string mi then total + size else total in
          let subs := mi_pointers (infos mi) in
          match skip with
          | Some out => unser_subs (marshal_unserialize_ fuel) subs buffer out g total osize
          | None =>
              let block := take (Z.to_nat size) object ++ replicate (Z.to_nat extra) 0 in
              unser_subs (marshal_unserialize_ fuel) subs buffer (length g, 0)
                (g ++ [(host_value (take 8 buffer), block)]) total osize
          end
  end.

(** [marshal_unserialize(type, buffer, len, &p)]: every nested call consumes a header, so
    the length of the buffer bounds the depth. *)
Definition marshal_unserialize (mi : string) (buffer : list Z) : unser_result :=
  marshal_unserialize_ (S (length buffer)) mi buffer None [] 0.

(** ** Unserialization is safe on every buffer *)

(** The fields a description names lie inside the structure. *)
Definition sub_ok (size : Z) (s : marshal_subinfo) : Prop :=
  0 ≤ offset s ∧ (offset2 s = 0 ∨ 0 < offset2 s ∧ offset2 s + 4 ≤ size) ∧
  match kind s with
  | substruct => offset s + mi_size (infos (sub_mi s)) ≤ size ∧ is_string (sub_mi s) = false
  | _ => offset s + 8 ≤ size
  end.
Definition infos_ok : Prop := ∀ mi,
  0 ≤ mi_size (infos mi) ∧ Forall (sub_ok (mi_size (infos mi))) (mi_pointers (infos mi)) ∧
  (is_string mi = true → mi_size (infos mi) = 0).

(** [g'] has the blocks of [g], with the same sizes, and maybe more. *)
Definition extends (g g' : gc) : Prop :=
  ∀ i orig b, g !! i = Some (orig, b) → ∃ b', g' !! i = Some (orig, b') ∧ zlen b' = zlen b.
(** [out] is the address of [n] bytes. *)
Definition holds_at (g : gc) (out : nat * Z) (n : Z) : Prop :=
  ∃ orig b, g !! out.1 = Some (orig, b) ∧ 0 ≤ out.2 ∧ out.2 + n ≤ zlen b.

Lemma extends_refl g : extends g g.
Proof. intros i orig b Hi. by exists b. Qed.
Lemma extends_trans g1 g2 g3 : extends g1 g2 → extends g2 g3 → extends g1 g3.
Proof.
  intros H12 H23 i orig b Hi. destruct (H12 _ _ _ Hi) as (b2 & H2 & Hb2).
  destruct (H23 _ _ _ H2) as (b3 & H3 & Hb3). exists b3. split; [done|lia].
Qed.
Lemma extends_app g g' : extends g (g ++ g').
Proof. intros i orig b Hi. exists b. by rewrite (lookup_app_l_Some _ _ _ _ Hi). Qed.
Lemma holds_extends g g' out n : extends g g' → holds_at g out n → holds_at g' out n.
Proof.
  intros Hg (orig & b & Hb & H0 & Hn). destruct (Hg _ _ _ Hb) as (b' & Hb' & Hl).
  exists orig, b'. split_and!; [done|done|lia].
Qed.
Lemma holds_shifted g out size o n :
  holds_at g out size → 0 ≤ o → o + n ≤ size → holds_at g (shifted out o) n.
Proof.
  intros (orig & b & Hb & H0 & Hn) Ho Hs. exists orig, b. cbn. split_and!; [done|lia|lia].
Qed.

Lemma get_at_ok g out n : holds_at g out n → ∃ bs, get_at g out n = Some bs.
Proof.
  intros (orig & b & Hb & H0 & Hn). unfold get_at. rewrite Hb.
  rewrite (proj2 (Z.leb_le _ _)), (proj2 (Z.leb_le _ _)) by lia. by eexists.
Qed.
Lemma set_at_ok g out bs :
  holds_at g out (zlen bs) → ∃ g', set_at g out bs = Some g' ∧ extends g g'.
Proof.
  intros (orig & b & Hb & H0 & Hn). unfold set_at. rewrite Hb.
  rewrite (proj2 (Z.leb_le _ _)), (proj2 (Z.leb_le _ _)) by lia. eexists. split; [reflexivity|].
  intros i orig' b' Hi. destruct (decide (i = out.1)) as [->|Hne].
  - rewrite Hb in Hi. injection Hi as <- <-. exists (write_at b out.2 bs).
    split; [apply list_lookup_insert_eq; by eapply lookup_lt_Some|]. apply write_at_zlen; lia.
  - exists b'. by rewrite list_lookup_insert_ne.
Qed.

(** What a call gives: no memory error, a length within the buffer, and a valid object. *)
Definition safe_at (g : gc) (low len size : Z) (r : unser_result) : Prop :=
  match r with
  | UOk total out g' => low ≤ total ≤ len ∧ extends g g' ∧ holds_at g' out size
  | UFail => True
  | UFault => False
  end.

Lemma host_bytes_zlen n v : zlen (host_bytes n v) = Z.of_nat n.
Proof.
  assert (length (le_bytes n v) = n) as Hl.
  { revert v. induction n as [|n IH]; intros v; cbn; [done|]. by rewrite IH. }
  unfold host_bytes, zlen. destruct HOST_LITTLE_ENDIAN; rewrite ?length_rev, Hl; done.
Qed.

Lemma padding_bounds len : 0 ≤ padding len < 8.
Proof. unfold padding, ALIGN. apply Z.mod_pos_bound. lia. Qed.

Section Loop.
Variable (rec : string → list Z → option (nat * Z) → gc → Z → unser_result) (buffer : list Z).
(** The recursive calls get a strict suffix of the buffer. *)
Hypothesis Hrec : ∀ mi n skip g osize,
  HEADER ≤ n ≤ zlen buffer →
  match skip with Some out => holds_at g out (mi_size (infos mi)) ∧ is_string mi = false | None => True end →
  safe_at g 0 (zlen buffer - n) (mi_size (infos mi)) (rec mi (drop (Z.to_nat n) buffer) skip g osize).

Lemma unser_subs_safe subs size out g total osize :
  Forall (sub_ok size) subs → holds_at g out size → HEADER ≤ total ≤ zlen buffer →
  safe_at g HEADER (zlen buffer) size (unser_subs rec subs buffer out g total osize).
Proof.
  revert g total osize. induction subs as [|s subs IH]; intros g total osize Hsubs Hout Htot.
  { cbn. split_and!; [lia|lia|apply extends_refl|done]. }
  apply Forall_cons_iff in Hsubs as [(H0 & H2 & Hs) Hsubs].
  assert (∀ g' total osize, extends g g' → HEADER ≤ total ≤ zlen buffer →
    safe_at g HEADER (zlen buffer) size (unser_subs rec subs buffer out g' total osize)) as Hnext.
  { intros g' t o Hg Ht. pose proof (IH g' t o Hsubs (holds_extends _ _ _ _ Hg Hout) Ht) as Hsafe.
    destruct (unser_subs _ _ _ _ _ _ _) as [l out' g''| |]; [|done|done].
    destruct Hsafe as (? & ? & ?). split_and!; [lia|lia|by eapply extends_trans|done]. }
  assert (∀ bs, kind s ≠ substruct → zlen bs = 8 → ∀ g', extends g g' → ∀ k,
    (∀ g'', extends g g'' → safe_at g HEADER (zlen buffer) size (k g'')) →
    safe_at g HEADER (zlen buffer) size (or_fault (set_at g' (shifted out (offset s)) bs) k)) as Hset.
  { intros bs Hk Hbs g' Hg k Hcont.
    destruct (set_at_ok g' (shifted out (offset s)) bs) as (g'' & -> & Hg'').
    { rewrite Hbs. apply (holds_shifted _ _ size); [by apply (holds_extends g)|done|].
      destruct (kind s); [lia|done|lia]. }
    apply Hcont. by eapply extends_trans. }
  assert (safe_at g HEADER (zlen buffer) size (unser_inner rec s buffer out g total osize
    (λ g t o, unser_subs rec subs buffer out g t o))) as Hinner.
  { unfold unser_inner.
    destruct (if offset2 s =? 0 then _ else _) as [o|] eqn:Ho; cbn [or_fault].
    2: { destruct H2 as [H2|[H2 Hlt]]; [by rewrite H2 in Ho|].
         rewrite (proj2 (Z.eqb_neq _ _)) in Ho by lia.
         destruct (get_at_ok g (shifted out (offset2 s)) 4) as [bs Hbs];
           [by apply (holds_shifted _ _ size); lia || done|by rewrite Hbs in Ho]. }
    pose proof (padding_bounds total) as Hpad.
    destruct (Z.ltb_spec (zlen buffer) (total + padding total)); [done|].
    pose proof (Hrec (sub_mi s) (total + padding total)
      (match kind s with substruct => Some (shifted out (offset s)) | _ => None end) g o) as Hr.
    destruct (rec _ _ _ _ _) as [sublen subout g'| |].
    - destruct Hr as (Hl & Hg & Hh); [lia| |].
      { destruct (kind s); [done| |done]. split; [|tauto]. by apply (holds_shifted _ _ size); tauto. }
      destruct (kind s) eqn:Hk.
      + apply Hset; [done|by rewrite host_bytes_zlen|done|]. intros g'' Hg''. apply Hnext; [done|lia].
      + apply Hnext; [done|lia].
      + apply Hnext; [done|lia].
    - done.
    - apply Hr; [lia|]. destruct (kind s); [done| |done]. split; [|tauto]. by apply (holds_shifted _ _ size); tauto. }
  cbn [unser_subs]. cbv zeta. destruct (kind s) eqn:Hk; [| |].
  - destruct (get_at_ok g (shifted out (offset s)) 8) as [bs ->]; [by apply (holds_shifted _ _ size)|].
    cbn [fmap option_fmap option_map or_fault].
    destruct (host_value bs =? 0); [apply Hnext; [apply extends_refl|lia]|].
    destruct (find_orig g (host_value bs)) as [i|]; [|done].
    apply Hset; [done|by rewrite host_bytes_zlen|apply extends_refl|]. intros g'' Hg''. by apply Hnext.
  - done.
  - apply Hset; [done|done|apply extends_refl|]. intros g'' Hg''. by apply Hnext.
Qed.
End Loop.

(** The block a call allocates holds the structure. *)
Lemma new_block g orig block n :
  0 ≤ n ≤ zlen block → holds_at (g ++ [(orig, block)]) (length g, 0) n.
Proof.
  intros Hn. exists orig, block. cbn. rewrite lookup_app_r, Nat.sub_diag by lia. split_and!; [done|lia|lia].
Qed.

Lemma unser_size_bounds mi object osize :
  infos_ok → is_string mi = false ∨ 0 ≤ (unser_size mi object osize).1 →
  mi_size (infos mi) ≤ (unser_size mi object osize).1.
Proof.
  intros Hi Hs. destruct (Hi mi) as (H0 & _ & H1). unfold unser_size, is_string in *.
  destruct (String.eqb mi null_string); cbn in *; [destruct Hs; [done|rewrite H1; done]|].
  destruct (String.eqb mi fixed_string); cbn in *; [|done]. destruct Hs; [done|rewrite H1; done].
Qed.

Lemma unserialize_safe_at fuel mi buffer skip g osize :
  infos_ok → (length buffer < fuel)%nat →
  match skip with Some out => holds_at g out (mi_size (infos mi)) ∧ is_string mi = false | None => True end →
  safe_at g HEADER (zlen buffer) (mi_size (infos mi)) (marshal_unserialize_ fuel mi buffer skip g osize).
Proof.
  intros Hi. revert mi buffer skip g osize. induction fuel as [|fuel IH]; intros mi buffer skip g osize Hf Hskip;
    [lia|]. cbn [marshal_unserialize_]. destruct (Hi mi) as (Hsz & Hsubs & Hstr).
  set (total0 := HEADER + _). destruct ((zlen buffer <? HEADER) || (zlen buffer <? total0))%bool eqn:Hlen; [done|].
  bool_to_prop. destruct (unser_size mi (drop (Z.to_nat HEADER) buffer) osize) as [size extra] eqn:Hus.
  destruct (is_string mi && ((size <? 0) || (zlen buffer - HEADER <? size)))%bool eqn:Hbad; [done|].
  set (total := if is_string mi then total0 + size else total0).
  assert (HEADER ≤ total ≤ zlen buffer) as Htotal.
  { unfold total, total0 in *. apply andb_false_iff in Hbad. destruct (is_string mi) eqn:E.
    - rewrite Hstr in * by done. destruct Hbad as [?|Hbad]; [done|]. bool_to_prop.
      destruct skip; unfold HEADER in *; lia.
    - destruct skip; unfold HEADER in *; lia. }
  assert (∀ out g, holds_at g out (mi_size (infos mi)) →
    safe_at g HEADER (zlen buffer) (mi_size (infos mi))
      (unser_subs (marshal_unserialize_ fuel) (mi_pointers (infos mi)) buffer out g total osize)) as Hloop.
  { intros out g' Hout. apply unser_subs_safe; [|done|done|done].
    intros mi' n skip' g'' o Hn Hsk.
    pose proof (IH mi' (drop (Z.to_nat n) buffer) skip' g'' o) as Hsafe.
    rewrite zlen_drop in Hsafe by (unfold HEADER in *; lia).
    rewrite length_drop in Hsafe. unfold HEADER, zlen in *.
    destruct (marshal_unserialize_ fuel _ _ _ _ _); [|done|apply Hsafe; [lia|done]].
    destruct Hsafe as (? & ? & ?); [lia|done|]. split_and!; [lia|lia|done|done]. }
  destruct skip as [out|]; [apply Hloop; by destruct Hskip|].
  match goal with |- safe_at g _ _ _ (unser_subs _ _ _ _ ?g' _ _) =>
    assert (holds_at g' (length g, 0) (mi_size (infos mi))) as Hnew; [|
      pose proof (Hloop (length g, 0) g' Hnew) as Hsafe; destruct (unser_subs _ _ _ _ _ _ _); [|done|done];
      destruct Hsafe as (? & ? & ?); split_and!; [lia|lia|eapply extends_trans; [apply extends_app|done]|done]] end.
  apply new_block. split; [done|]. rewrite zlen_app.
  pose proof (zlen_nonneg (replicate (Z.to_nat extra) 0)).
  pose proof (unser_size_bounds mi (drop (Z.to_nat HEADER) buffer) osize Hi) as Hle. rewrite Hus in Hle. cbn in Hle.
  apply andb_false_iff in Hbad.
  assert (zlen (take (Z.to_nat size) (drop (Z.to_nat HEADER) buffer)) = size) as ->.
  { apply zlen_take. rewrite zlen_drop by (unfold HEADER in *; lia).
    destruct (is_string mi) eqn:E; [destruct Hbad as [?|Hb]; [done|]; bool_to_prop; lia|].
    assert (size = mi_size (infos mi)) as ->.
    { unfold unser_size, is_string in *. apply orb_false_elim in E as [E1 E2]. rewrite E1, E2 in Hus. by injection Hus. }
    unfold total0 in *. lia. }
  assert (mi_size (infos mi) ≤ size); [|lia]. apply Hle.
  destruct (is_string mi); [right|by left]. destruct Hbad as [?|Hb]; [done|]. bool_to_prop. lia.
Qed.

(** ** Serialization ends on every finite graph, cycles included *)

Section Total.
Variable (mem : Z → Z) (strings : nat).

(** A set of structures that following pointers does not leave. *)
Definition closed (nodes : list (string * Z)) : Prop := ∀ mi p s,
  (mi, p) ∈ nodes → s ∈ mi_pointers (infos mi) → followed mem p s = true → (sub_mi s, sub_source mem p s) ∈ nodes.

Variable nodes : list (string * Z).
Hypothesis Hclosed : closed nodes.

(** How many of them are left. *)
Definition unseen (r : refs) : nat := length (filter (λ q, ref_of r q = None) (remove_dups (map snd nodes))).
Definition grows (r r' : refs) : Prop := ∀ q, ref_of r' q = None → ref_of r q = None.

Lemma ref_of_app r p d q :
  ref_of (r ++ [(p, d)]) q = match ref_of r q with Some x => Some x | None => if p =? q then Some d else None end.
Proof.
  unfold ref_of. induction r as [|[a b] r IH]; cbn; [by destruct (p =? q)|].
  by destruct (a =? q).
Qed.

Lemma unseen_grows r r' : grows r r' → (unseen r' ≤ unseen r)%nat.
Proof.
  intros Hg. unfold unseen. apply submseteq_length, sublist_submseteq.
  induction (remove_dups (map snd nodes)) as [|q l IH]; [done|]. rewrite !filter_cons.
  destruct (decide (ref_of r' q = None)) as [Hq|Hq].
  - rewrite decide_True by auto. by constructor.
  - case_decide; [by constructor|done].
Qed.

Lemma unseen_add r p d :
  p ∈ map snd nodes → ref_of r p = None → (unseen (r ++ [(p, d)]) < unseen r)%nat.
Proof.
  intros Hp Hr. unfold unseen. pose proof (NoDup_remove_dups (map snd nodes)) as Hnd.
  assert (p ∈ remove_dups (map snd nodes)) as [k Hk]%list_elem_of_lookup by by apply elem_of_remove_dups.
  set (l := remove_dups (map snd nodes)) in *. clearbody l.
  assert (filter (λ q, ref_of (r ++ [(p, d)]) q = None) l ⊆+ filter (λ q, ref_of r q = None) (delete k l)) as Hsub.
  { apply NoDup_submseteq; [by apply NoDup_filter|]. intros q [Hq Hin]%list_elem_of_filter.
    rewrite ref_of_app in Hq. destruct (ref_of r q) eqn:Hrq; [done|].
    destruct (Z.eqb_spec p q) as [->|Hne]; [done|]. apply list_elem_of_filter. split; [done|].
    rewrite (delete_Permutation l k p Hk) in Hin. apply elem_of_cons in Hin as [->|Hin]; [done|done]. }
  apply submseteq_length in Hsub.
  assert (length (filter (λ q, ref_of r q = None) l) =
          S (length (filter (λ q, ref_of r q = None) (delete k l)))) as ->; [|lia].
  rewrite (delete_Permutation l k p Hk) at 1. by rewrite filter_cons_True.
Qed.

Lemma ser_subs_total rec subs p skip obj tail r osize :
  (∀ s, s ∈ subs → followed mem p s = true → (sub_mi s, sub_source mem p s) ∈ nodes) →
  (∀ mi q skip r' osize, (mi, q) ∈ nodes → (unseen r' ≤ unseen r)%nat →
    ∃ b r'', rec mi q skip r' osize = Some (b, r'') ∧ grows r' r'') →
  ∃ obj' tail' r', ser_subs mem rec subs p skip obj tail r osize = Some (obj', tail', r') ∧ grows r r'.
Proof.
  revert obj tail r osize. induction subs as [|s subs IH]; intros obj tail r osize Hsubs Hrec.
  { exists obj, tail, r. split; [done|]. by intros q. }
  assert (∀ s, s ∈ subs → followed mem p s = true → (sub_mi s, sub_source mem p s) ∈ nodes) as Hsubs'
    by (intros; apply Hsubs; [by right|done]).
  cbn [ser_subs]. destruct (followed mem p s) eqn:Hfol; [|by apply IH].
  destruct (Hrec (sub_mi s) (sub_source mem p s) (match kind s with substruct => true | _ => false end) r
    (if offset2 s =? 0 then osize else load_int mem (p + offset2 s))) as (b & r' & -> & Hg).
  { apply Hsubs; [apply list_elem_of_here|done]. }
  { done. }
  cbn [mbind option_bind].
  match goal with |- context [ser_subs mem rec subs p skip ?o ?t r' ?os] =>
    destruct (IH o t r' os) as (o' & t' & r'' & He & Hg') end.
  { done. }
  { intros mi q sk r1 os Hq Hle. apply Hrec; [done|]. pose proof (unseen_grows _ _ Hg). lia. }
  exists o', t', r''. split; [done|]. intros q Hq. by apply Hg, Hg'.
Qed.

Lemma serialize_grows fuel mi p skip r osize :
  (mi, p) ∈ nodes → (unseen r < fuel)%nat →
  ∃ b r', marshal_serialize_ mem strings fuel mi p skip r osize = Some (b, r') ∧ grows r r'.
Proof.
  revert mi p skip r osize. induction fuel as [|fuel IH]; intros mi p skip r osize Hp Hf; [lia|].
  cbn [marshal_serialize_]. destruct (ref_of r p) eqn:Hr; [exists [], r; split; [done|by intros q]|].
  assert (grows r (r ++ [(p, next_dummy r)])) as Hg.
  { intros q. rewrite ref_of_app. by destruct (ref_of r q). }
  pose proof (unseen_add r p (next_dummy r)) as Hadd.
  destruct (ser_subs_total (marshal_serialize_ mem strings fuel) (mi_pointers (infos mi)) p skip
    (if skip then [] else load mem p (ser_size mem strings mi p osize)) []
    (r ++ [(p, next_dummy r)]) osize) as (obj & tail & r' & -> & Hg').
  - intros s Hs. by apply (Hclosed mi p).
  - intros mi' q sk r1 os Hq Hle. apply IH; [done|]. assert (p ∈ map snd nodes); [|specialize (Hadd ltac:(done) Hr); lia].
    apply list_elem_of_fmap. by exists (mi, p).
  - cbn [mbind option_bind]. eexists _, _. split; [reflexivity|]. intros q Hq. by apply Hg, Hg'.
Qed.
End Total.

Lemma remove_dups_length (l : list Z) : (length (remove_dups l) ≤ length l)%nat.
Proof. induction l as [|x l IH]; cbn; [done|]. case_decide; cbn; lia. Qed.

(** Serialization ends on every finite graph of structures, shared objects and cycles
    included: a fuel above the number of structures is enough. *)
Theorem marshal_serialize_total mem strings nodes mi p osize :
  closed mem nodes → (mi, p) ∈ nodes →
  ∃ b r, marshal_serialize_ mem strings (S (length nodes)) mi p false [] osize = Some (b, r).
Proof.
  intros Hc Hp.
  destruct (serialize_grows mem strings nodes Hc (S (length nodes)) mi p false [] osize Hp) as (b & r & -> & _);
    [|by exists b, r].
  unfold unseen. pose proof (remove_dups_length (map snd nodes)) as Hl. rewrite length_map in Hl.
  eapply Nat.le_lt_trans; [apply length_filter|]. lia.
Qed.
End Marshal.
