(* ===== verification/MarshalInfo.v ===== *)
(** * The structures that are serialized (src/lldpd-structs.h, MARSHAL_* declarations)

    The descriptions that drive serialization, built as the macros of marshal.h build them:
    from the members of each structure, with the offsets of the LP64 layout, and the list of
    its MARSHAL_* declarations.  Every description stays inside its structure, so the
    safety theorem of file Marshal applies to every message of the control protocol. *)

From S2P Require Import Prelude Bytes Const Frame Marshal.
From stdpp Require Import strings.
#[local] Open Scope Z_scope.
#[local] Open Scope string_scope.

(** ** Layout of a structure *)

Record member := { m_name : string; m_size : Z; m_align : Z }.
Definition round_up (n a : Z) : Z := (n + a - 1) / a * a.

Fixpoint offset_in (members : list member) (pos : Z) (name : string) : Z :=
  match members with
  | [] => pos
  | m :: rest =>
      let o := round_up pos (m_align m) in
      if String.eqb (m_name m) name then o else offset_in rest (o + m_size m) name
  end.
Definition offsetof (members : list member) (name : string) : Z := offset_in members 0 name.
Definition end_of (members : list member) : Z :=
  foldl (λ pos m, round_up pos (m_align m) + m_size m) 0 members.
Definition align_of (members : list member) : Z := foldr (λ m a, Z.max (m_align m) a) 1 members.
Definition sizeof (members : list member) : Z := round_up (end_of members) (align_of members).

Definition scalar (size : Z) (name : string) : member := {| m_name := name; m_size := size; m_align := size |}.
Definition ptr (name : string) : member := scalar 8 name.
Definition int_ (name : string) : member := scalar 4 name.
Definition u8_ (name : string) : member := scalar 1 name.
Definition u16_ (name : string) : member := scalar 2 name.
Definition bytes_ (n : Z) (name : string) : member := {| m_name := name; m_size := n; m_align := 1 |}.
Definition entry (name : string) : list member := [ptr (name ++ ".tqe_next"); ptr (name ++ ".tqe_prev")].
Definition head (name : string) : list member := [ptr (name ++ ".tqh_first"); ptr (name ++ ".tqh_last")].
Definition embedded (members : list member) (name : string) : member :=
  {| m_name := name; m_size := sizeof members; m_align := align_of members |}.

(** ** The macros of marshal.h *)

Inductive mark :=
  | MARSHAL_POINTER (subtype member : string)
  | MARSHAL_STR (member : string)
  | MARSHAL_FSTR (member len : string)
  | MARSHAL_SUBSTRUCT (subtype member : string)
  | MARSHAL_IGNORE (member : string).
Definition MARSHAL_TQE (type field : string) : list mark :=
  [MARSHAL_POINTER type (field ++ ".tqe_next"); MARSHAL_IGNORE (field ++ ".tqe_prev")].
Definition MARSHAL_SUBTQ (subtype field : string) : list mark :=
  [MARSHAL_POINTER subtype (field ++ ".tqh_first"); MARSHAL_IGNORE (field ++ ".tqh_last")].

Definition subinfo (members : list member) (m : mark) : marshal_subinfo :=
  let at_ member len k mi :=
    {| offset := offsetof members member; offset2 := len; kind := k; sub_mi := mi |} in
  match m with
  | MARSHAL_POINTER subtype member => at_ member 0 pointer subtype
  | MARSHAL_STR member => at_ member 0 pointer null_string
  | MARSHAL_FSTR member len => at_ member (offsetof members len) pointer fixed_string
  | MARSHAL_SUBSTRUCT subtype member => at_ member 0 substruct subtype
  | MARSHAL_IGNORE member => at_ member 0 ignore "ignored"
  end.
Definition MARSHAL (members : list member) (marks : list mark) : marshal_info :=
  {| mi_size := sizeof members; mi_pointers := map (subinfo members) marks |}.

(** ** The structures *)

Definition ppvid_members : list member := entry "p_entries" ++ [u8_ "p_cap_status"; u16_ "p_ppvid"].
Definition vlan_members : list member := entry "v_entries" ++ [ptr "v_name"; u16_ "v_vid"].
Definition pi_members : list member := entry "p_entries" ++ [ptr "p_pi"; int_ "p_pi_len"].
Definition med_policy_members : list member :=
  [u8_ "index"; u8_ "type"; u8_ "unknown"; u8_ "tagged"; u16_ "vid"; u8_ "priority"; u8_ "dscp"].
Definition med_loc_members : list member := [u8_ "index"; u8_ "format"; ptr "data"; int_ "data_len"].
Definition med_power_members : list member := [u8_ "devicetype"; u8_ "source"; u8_ "priority"; u16_ "val"].
Definition dot3_macphy_members : list member :=
  [u8_ "autoneg_support"; u8_ "autoneg_enabled"; u16_ "autoneg_advertised"; u16_ "mau_type"].
Definition dot3_power_members : list member :=
  [u8_ "devicetype"; u8_ "supported"; u8_ "enabled"; u8_ "paircontrol"; u8_ "pairs"; u8_ "class";
   u8_ "powertype"; u8_ "source"; u8_ "priority"; u16_ "requested"; u16_ "allocated"].
Definition mgmt_members : list member :=
  entry "m_entries" ++
  [int_ "m_family"; {| m_name := "m_addr"; m_size := LLDPD_MGMT_MAXADDRSIZE; m_align := 4 |};
   scalar 8 "m_addrsize"; int_ "m_iface"].
Definition chassis_members : list member :=
  entry "c_entries" ++
  [u16_ "c_refcount"; u16_ "c_index"; u8_ "c_protocol"; u8_ "c_id_subtype"; ptr "c_id"; int_ "c_id_len";
   ptr "c_name"; ptr "c_descr"; u16_ "c_cap_available"; u16_ "c_cap_enabled"; u16_ "c_ttl"] ++
  head "c_mgmt" ++
  [u16_ "c_med_cap_available"; u8_ "c_med_type"; ptr "c_med_hw"; ptr "c_med_fw"; ptr "c_med_sw";
   ptr "c_med_sn"; ptr "c_med_manuf"; ptr "c_med_model"; ptr "c_med_asset"].
Definition port_members : list member :=
  entry "p_entries" ++
  [ptr "p_chassis"; scalar 8 "p_lastchange"; scalar 8 "p_lastupdate"; ptr "p_lastframe";
   u8_ "p_protocol"; u8_ "p_hidden"; u8_ "p_id_subtype"; ptr "p_id"; int_ "p_id_len"; ptr "p_descr";
   u16_ "p_mfs"; int_ "p_aggregid"; embedded dot3_macphy_members "p_macphy";
   embedded dot3_power_members "p_power"; u16_ "p_med_cap_enabled";
   {| m_name := "p_med_policy"; m_size := LLDP_MED_APPTYPE_LAST * sizeof med_policy_members;
      m_align := align_of med_policy_members |};
   embedded med_loc_members "p_med_location[0]"; embedded med_loc_members "p_med_location[1]";
   embedded med_loc_members "p_med_location[2]"; embedded med_power_members "p_med_power";
   u16_ "p_pvid"] ++
  head "p_vlans" ++ head "p_ppvids" ++ head "p_pids".
Definition port_set_members : list member :=
  [ptr "ifname"; ptr "med_policy"; ptr "med_location"; ptr "med_power"; ptr "dot3_power"].
Definition config_members `{BuildConfig} : list member :=
  map int_ ["c_paused"; "c_tx_interval"; "c_smart"; "c_receiveonly"; "c_max_neighbors"]%string ++
  map ptr ["c_mgmt_pattern"; "c_cid_pattern"; "c_iface_pattern"; "c_platform"; "c_description";
           "c_hostname"]%string ++
  map int_ ["c_advertise_version"; "c_set_ifdescr"; "c_promisc"; "c_noinventory";
            "c_enable_fast_start"; "c_tx_fast_init"; "c_tx_fast_interval"; "c_tx_hold";
            "c_bond_slave_src_mac_type"; "c_lldp_portid_type"]%string ++
  (if ENABLE_OVSDB then
     int_ "c_is_any_protocol_enabled" ::
     map u8_ ["c_lldp_tlv_sys_name_enable"; "c_lldp_tlv_sys_cap_enable"; "c_lldp_tlv_sys_desc_enable";
              "c_lldp_tlv_mgmt_addr_enable"; "c_lldp_tlv_port_desc_enable";
              "c_lldp_tlv_port_vlanid_enable"; "c_lldp_tlv_port_proto_vlanid_enable";
              "c_lldp_tlv_port_vlan_name_enable"; "c_lldp_tlv_port_proto_id_enable"]%string
   else []).
Definition hardware_members `{BuildConfig} : list member :=
  entry "h_entries" ++
  [ptr "h_cfg"; ptr "h_recv"; int_ "h_sendfd"; int_ "h_mangle"; ptr "h_ops"; ptr "h_data";
   ptr "h_timer"; int_ "h_mtu"; int_ "h_flags"; int_ "h_ifindex"; bytes_ 16 "h_ifname";
   bytes_ ETHER_ADDR_LEN "h_lladdr"] ++
  map (scalar 8) ["h_tx_cnt"; "h_rx_cnt"; "h_rx_discarded_cnt"; "h_rx_unrecognized_cnt";
                  "h_ageout_cnt"; "h_insert_cnt"; "h_delete_cnt"; "h_drop_cnt"]%string ++
  [ptr "h_lport_previous"; scalar 8 "h_lport_previous_len"; embedded port_members "h_lport"] ++
  head "h_rports" ++ [int_ "h_tx_fast"] ++
  (if ENABLE_OVSDB then map int_ ["h_enable_dir"; "h_link_state"; "h_reinit_delay";
                                  "h_rport_change_opcode"]%string else []).
Definition interface_members : list member := entry "next" ++ [ptr "name"].
Definition interface_list_members : list member := [ptr "tqh_first"; ptr "tqh_last"].
Definition neighbor_change_members : list member := [ptr "ifname"; int_ "state"; ptr "neighbor"].

Definition strings_of (l : list string) : list mark := map MARSHAL_STR l.

Section Infos.
Context `{BuildConfig}.

Definition all_infos : list (string * marshal_info) := [
  ("lldpd_ppvid", MARSHAL ppvid_members (MARSHAL_TQE "lldpd_ppvid" "p_entries"));
  ("lldpd_vlan", MARSHAL vlan_members (MARSHAL_TQE "lldpd_vlan" "v_entries" ++ [MARSHAL_STR "v_name"]));
  ("lldpd_pi", MARSHAL pi_members
     (MARSHAL_TQE "lldpd_pi" "p_entries" ++ [MARSHAL_FSTR "p_pi" "p_pi_len"]));
  ("lldpd_med_policy", MARSHAL med_policy_members []);
  ("lldpd_med_loc", MARSHAL med_loc_members [MARSHAL_FSTR "data" "data_len"]);
  ("lldpd_med_power", MARSHAL med_power_members []);
  ("lldpd_dot3_power", MARSHAL dot3_power_members []);
  ("lldpd_mgmt", MARSHAL mgmt_members (MARSHAL_TQE "lldpd_mgmt" "m_entries"));
  ("lldpd_chassis", MARSHAL chassis_members
     ([MARSHAL_IGNORE "c_entries.tqe_next"; MARSHAL_IGNORE "c_entries.tqe_prev";
       MARSHAL_FSTR "c_id" "c_id_len"; MARSHAL_STR "c_name"; MARSHAL_STR "c_descr"] ++
      MARSHAL_SUBTQ "lldpd_mgmt" "c_mgmt" ++
      strings_of ["c_med_hw"; "c_med_fw"; "c_med_sw"; "c_med_sn"; "c_med_manuf"; "c_med_model";
                  "c_med_asset"]%string));
  ("lldpd_port", MARSHAL port_members
     (MARSHAL_TQE "lldpd_port" "p_entries" ++
      [MARSHAL_POINTER "lldpd_chassis" "p_chassis"; MARSHAL_IGNORE "p_lastframe";
       MARSHAL_FSTR "p_id" "p_id_len"; MARSHAL_STR "p_descr";
       MARSHAL_SUBSTRUCT "lldpd_med_loc" "p_med_location[0]";
       MARSHAL_SUBSTRUCT "lldpd_med_loc" "p_med_location[1]";
       MARSHAL_SUBSTRUCT "lldpd_med_loc" "p_med_location[2]"] ++
      MARSHAL_SUBTQ "lldpd_vlan" "p_vlans" ++ MARSHAL_SUBTQ "lldpd_ppvid" "p_ppvids" ++
      MARSHAL_SUBTQ "lldpd_pi" "p_pids"));
  ("lldpd_port_set", MARSHAL port_set_members
     [MARSHAL_STR "ifname"; MARSHAL_POINTER "lldpd_med_policy" "med_policy";
      MARSHAL_POINTER "lldpd_med_loc" "med_location"; MARSHAL_POINTER "lldpd_med_power" "med_power";
      MARSHAL_POINTER "lldpd_dot3_power" "dot3_power"]);
  ("lldpd_config", MARSHAL config_members
     (strings_of ["c_mgmt_pattern"; "c_cid_pattern"; "c_iface_pattern"; "c_hostname"; "c_platform";
                  "c_description"]%string));
  ("lldpd_hardware", MARSHAL hardware_members
     ([MARSHAL_IGNORE "h_entries.tqe_next"; MARSHAL_IGNORE "h_entries.tqe_prev";
       MARSHAL_IGNORE "h_ops"; MARSHAL_IGNORE "h_data"; MARSHAL_IGNORE "h_cfg";
       MARSHAL_SUBSTRUCT "lldpd_port" "h_lport"] ++ MARSHAL_SUBTQ "lldpd_port" "h_rports"));
  ("lldpd_interface", MARSHAL interface_members
     (MARSHAL_TQE "lldpd_interface" "next" ++ [MARSHAL_STR "name"]));
  ("lldpd_interface_list", MARSHAL interface_list_members
     [MARSHAL_POINTER "lldpd_interface" "tqh_first"; MARSHAL_IGNORE "tqh_last"]);
  ("lldpd_neighbor_change", MARSHAL neighbor_change_members
     [MARSHAL_STR "ifname"; MARSHAL_POINTER "lldpd_port" "neighbor"])].

Definition lookup_info (l : list (string * marshal_info)) (name : string) : marshal_info :=
  match find (λ x, String.eqb (fst x) name) l with
  | Some (_, mi) => mi
  | None => {| mi_size := 0; mi_pointers := [] |}
  end.
Definition lldpd_infos : string → marshal_info := lookup_info all_infos.
End Infos.

(** Some sizes. *)
Example sizes :
  map sizeof [mgmt_members; chassis_members; med_loc_members; dot3_power_members] = [56; 144; 24; 14].
Proof. reflexivity. Qed.

(** ** Every description stays inside its structure *)

#[local] Close Scope string_scope.
#[local] Open Scope Z_scope.

Definition sub_okb (infos : string → marshal_info) (size : Z) (s : marshal_subinfo) : bool :=
  (0 <=? offset s) && ((offset2 s =? 0) || ((0 <? offset2 s) && (offset2 s + 4 <=? size))) &&
  match kind s with
  | substruct => (offset s + mi_size (infos (sub_mi s)) <=? size) && negb (is_string (sub_mi s))
  | _ => offset s + 8 <=? size
  end.
Definition info_okb (infos : string → marshal_info) (mi : marshal_info) : bool :=
  (0 <=? mi_size mi) && forallb (sub_okb infos (mi_size mi)) (mi_pointers mi).

Lemma sub_okb_ok infos size s : sub_okb infos size s = true → sub_ok infos size s.
Proof.
  unfold sub_okb, sub_ok. rewrite !andb_true_iff, orb_true_iff, andb_true_iff.
  rewrite Z.eqb_eq, Z.ltb_lt, !Z.leb_le. intros [[H0 H2] Hk]. split_and!; [done|tauto|].
  destruct (kind s); [by apply Z.leb_le| |by apply Z.leb_le].
  apply andb_true_iff in Hk as [Hk Hs]. split; [by apply Z.leb_le|by apply negb_true_iff].
Qed.

Lemma info_okb_ok infos mi :
  info_okb infos mi = true → 0 ≤ mi_size mi ∧ Forall (sub_ok infos (mi_size mi)) (mi_pointers mi).
Proof.
  unfold info_okb. rewrite andb_true_iff, Z.leb_le, forallb_forall. intros [H0 Hs]. split; [done|].
  apply list.Forall_forall. intros s Hin. apply sub_okb_ok, Hs. by apply list_elem_of_In.
Qed.

Lemma lookup_info_in l name :
  (∃ n, In (n, lookup_info l name) l) ∨ lookup_info l name = {| mi_size := 0; mi_pointers := [] |}.
Proof.
  unfold lookup_info. destruct (find _ l) as [[n mi]|] eqn:Hf; [|by right].
  left. exists n. by apply find_some in Hf as [].
Qed.

Lemma lldpd_infos_ok `{BuildConfig} : infos_ok lldpd_infos.
Proof.
  intros name.
  assert (forallb (λ x, info_okb lldpd_infos (snd x)) all_infos = true) as Hall.
  { destruct H as [[] e]; vm_compute; reflexivity. }
  rewrite forallb_forall in Hall.
  assert (0 ≤ mi_size (lldpd_infos name) ∧
    Forall (sub_ok lldpd_infos (mi_size (lldpd_infos name))) (mi_pointers (lldpd_infos name))) as [H0 Hs].
  { unfold lldpd_infos at 1 3 4. destruct (lookup_info_in all_infos name) as [[n Hin]|Hnone].
    - apply info_okb_ok. apply (Hall _ Hin).
    - rewrite Hnone. split; [done|constructor]. }
  split_and!; [done|done|]. unfold is_string. rewrite orb_true_iff, !String.eqb_eq.
  intros [-> | ->]; destruct H as [[] e]; reflexivity.
Qed.

(** C13: every message a client can send is unserialized safely: with the real descriptions
    no buffer makes the daemon read outside it or touch memory outside the blocks it
    allocated, and the structure it gets has its full size. *)
Theorem control_message_safe `{BuildConfig} alloc name buffer :
  match marshal_unserialize lldpd_infos alloc name buffer with
  | UOk total out g =>
      HEADER ≤ total ≤ zlen buffer ∧
      ∃ orig b, g !! out.1 = Some (orig, b) ∧ 0 ≤ out.2 ∧ out.2 + mi_size (lldpd_infos name) ≤ zlen b
  | UFail => True
  | UFault => False
  end.
Proof.
  pose proof (unserialize_safe_at lldpd_infos alloc (S (length buffer)) name buffer None [] 0
    lldpd_infos_ok ltac:(lia) I) as Hs.
  unfold marshal_unserialize. destruct (marshal_unserialize_ _ _ _ _ _ _ _ _); [|done|done].
  destruct Hs as (? & _ & ?). done.
Qed.

(** ** Concrete messages *)

#[local] Instance le_build : BuildConfig := {| ENABLE_OVSDB := false; HOST_LITTLE_ENDIAN := true |}.
(** An address for each block, far from zero. *)
Definition ex_alloc (i : nat) : Z := 0x100000 + 0x1000 * Z.of_nat i.
(** Memory with the given blocks; zero elsewhere. *)
Definition mem_of (blocks : list (Z * list Z)) (a : Z) : Z :=
  match find (λ x, (fst x <=? a) && (a <? fst x + zlen (snd x))) blocks with
  | Some (base, b) => nth (Z.to_nat (a - base)) b 0
  | None => 0
  end.

(** Two interfaces in a list, as the answer to [GET_INTERFACES]. *)
Definition ex_list : list (Z * list Z) :=
  [(1000, host_bytes 8 2000 ++ host_bytes 8 3000);
   (2000, host_bytes 8 3000 ++ host_bytes 8 1000 ++ host_bytes 8 4000);
   (3000, host_bytes 8 0 ++ host_bytes 8 2000 ++ host_bytes 8 5000);
   (4000, [101; 48; 0]); (5000, [101; 49; 0])].
Example interface_list_roundtrip :
  ('(b, _) ← marshal_serialize_ lldpd_infos (mem_of ex_list) 10 10 "lldpd_interface_list" 1000 false [] 0;
   match marshal_unserialize lldpd_infos ex_alloc "lldpd_interface_list" b with
   | UOk _ out g => Some (out, map snd g)
   | _ => None
   end) =
  Some ((0%nat, 0),
    [host_bytes 8 (ex_alloc 1) ++ replicate 8 0;
     host_bytes 8 (ex_alloc 2) ++ replicate 8 0 ++ host_bytes 8 (ex_alloc 4);
     replicate 16 0 ++ host_bytes 8 (ex_alloc 3); [101; 49; 0]; [101; 48; 0]]).
Proof. vm_compute. reflexivity. Qed.

(** The numbers in a message are not checked against types: a [SET_PORT] request whose
    [med_policy] has the number of the interface name gives a policy of eight bytes that
    points to a block of two, the same as [ifname]. *)
Example port_set_confusion :
  let object := host_bytes 8 2 ++ host_bytes 8 2 ++ replicate 24 0 in
  let message := host_bytes 8 1 ++ host_bytes 8 0 ++ object ++ host_bytes 8 2 ++ host_bytes 8 0 ++ [101; 0] in
  match marshal_unserialize lldpd_infos ex_alloc "lldpd_port_set" message with
  | UOk _ _ g => Some (map snd g)
  | _ => None
  end = Some [host_bytes 8 (ex_alloc 1) ++ host_bytes 8 (ex_alloc 1) ++ replicate 24 0; [101; 0]].
Proof. vm_compute. reflexivity. Qed.

(** The pointers of an embedded structure are sent as they are: the answer to
    [GET_INTERFACE] holds the addresses of the strings of the local port. *)
Example embedded_pointer_leaks :
  let at_ := offsetof hardware_members "h_lport" + offsetof port_members "p_descr" in
  ('(b, _) ← marshal_serialize_ lldpd_infos (mem_of [(1000 + at_, host_bytes 8 0x7f001234); (0x7f001234, [97; 0])])
               10 10 "lldpd_hardware" 1000 false [] 0;
   Some (host_value (take 8 (drop (Z.to_nat (HEADER + at_)) b)))) = Some 0x7f001234.
Proof. vm_compute. reflexivity. Qed.
