(* ===== verification/Ctl.v ===== *)
(** * The control protocol (src/ctl.c, src/lib/connection.c, src/lib/atom.c, src/daemon/event.c)

    A message is a header (type and length) and a serialized structure.  The file models the
    framing on both sides, the buffers of a connection of the client library and the
    request loop [_lldpctl_do_something], which sends a request and reads its answer while
    notifications of the daemon may come in between.  The socket is a stream of bytes that
    is delivered in pieces of arbitrary sizes. *)

From S2P Require Import Prelude Bytes Frame Marshal MarshalInfo.
From stdpp Require Import strings.
#[local] Open Scope Z_scope.

(** [enum hmsg_type] *)
Definition NONE : Z := 0.
Definition GET_CONFIG : Z := 1.
Definition SET_CONFIG : Z := 2.
Definition GET_INTERFACES : Z := 3.
Definition GET_INTERFACE : Z := 4.
Definition SET_PORT : Z := 5.
Definition SUBSCRIBE : Z := 6.
Definition NOTIFICATION : Z := 7.
Definition HMSG_MAX_SIZE : Z := Z.shiftl 1 19.
(** [sizeof(struct hmsg_header)]: an [int], four bytes of padding, a [size_t]. *)
Definition HMSG_HEADER : Z := 16.

(** ** Reading the rebuilt structures *)

Section Read.
Context `{BuildConfig}.
Variable alloc : nat → Z.
Variable g : list (Z * list Z).
Definition field (out : nat * Z) (members : list member) (name : string) (n : Z) : option (list Z) :=
  get_at g (shifted out (offsetof members name)) n.
Definition get_u8 out members name : option Z := host_value <$> field out members name 1.
Definition get_u16 out members name : option Z := host_value <$> field out members name 2.
Definition get_int out members name : option Z := host_int <$> field out members name 4.
(** The block an address leads to; [Some None] for NULL. *)
Definition deref (v : Z) : option (option nat) :=
  if v =? 0 then Some None
  else match list_find (λ i, alloc i = v) (seq 0 (length g)) with
       | Some (_, i) => Some (Some i)
       | None => None
       end.
Definition get_ptr out members name : option (option nat) :=
  v ← field out members name 8; deref (host_value v).
(** A string must end inside its block. *)
Definition get_string (i : nat) : option (list Z) :=
  match g !! i with
  | Some (_, b) => if bool_decide (0 ∈ b) then Some (take (Z.to_nat (strlen b)) b) else None
  | None => None
  end.
Definition get_str out members name : option (option (list Z)) :=
  p ← get_ptr out members name;
  match p with None => Some None | Some i => Some <$> get_string i end.

(** [free] of several pointers: no block twice. *)
Definition free_all (l : list (option nat)) : option unit :=
  if bool_decide (NoDup (omap id l)) then Some tt else None.
End Read.

Section Ctl.
Context `{BuildConfig}.
Variable alloc : nat → Z.

Definition hmsg_header (type len : Z) : list Z := host_bytes 4 type ++ replicate 4 0 ++ host_bytes 8 len.
Definition hdr_type (b : list Z) : Z := host_int (take 4 b).
Definition hdr_len (b : list Z) : Z := host_value (take 8 (drop 8 b)).

(** [t] is [None] for NULL, else what [marshal_serialize_] wrote; [None] for -1. *)
Definition ctl_msg_send_unserialized (output : list Z) (type : Z) (t : option (list Z))
    : option (list Z) :=
  match t with
  | Some [] => None
  | _ => let payload := default [] t in
         Some (output ++ hmsg_header type (zlen payload) ++ payload)
  end.

(** What is received: bytes are missing, an error, or the structure ([None] when the caller
    does not want one). *)
Inductive ctl_result :=
  | NeedMore (n : Z)
  | CtlError
  | Received (t : option unser_result).

Definition unser_ok (r : unser_result) : bool := match r with UOk _ _ _ => true | _ => false end.

(** The result and the input buffer; [t] names the structure, [None] for NULL. *)
Definition ctl_msg_recv_unserialized (input : list Z) (expected : Z) (t : option string)
    : ctl_result * list Z :=
  let len := zlen input in
  if len <? HMSG_HEADER then (NeedMore (HMSG_HEADER - len), input)
  else if HMSG_MAX_SIZE <? hdr_len input then (CtlError, [])
  else if len <? HMSG_HEADER + hdr_len input then (NeedMore (HMSG_HEADER + hdr_len input - len), input)
  else
    let rest := drop (Z.to_nat (HMSG_HEADER + hdr_len input)) input in
    if negb (hdr_type input =? expected) then
      if expected =? NOTIFICATION then (CtlError, input) else (CtlError, rest)
    else
      match t with
      | None => (Received None, rest)
      | Some mi =>
          if hdr_len input =? 0 then (CtlError, rest)
          else
            let payload := take (Z.to_nat (hdr_len input)) (drop (Z.to_nat HMSG_HEADER) input) in
            let r := marshal_unserialize lldpd_infos alloc mi payload in
            if unser_ok r then (Received (Some r), rest) else (CtlError, rest)
      end.

(** ** The daemon side: [levent_ctl_recv] *)

(** Wait for more data, drop the client, or hand a request to [client_handle_client];
    the last argument is what stays in the buffer. *)
Inductive levent_action :=
  | Wait
  | Drop
  | Ignore (rest : list Z)
  | Handle (type : Z) (data rest : list Z).

Definition levent_ctl_recv (buffer : list Z) : levent_action :=
  if zlen buffer <? HMSG_HEADER then Wait
  else if HMSG_MAX_SIZE <? hdr_len buffer then Drop
  else if zlen buffer <? hdr_len buffer + HMSG_HEADER then Wait
  else
    let data := take (Z.to_nat (hdr_len buffer)) (drop (Z.to_nat HMSG_HEADER) buffer) in
    let rest := drop (Z.to_nat (HMSG_HEADER + hdr_len buffer)) buffer in
    if ((hdr_len buffer =? 0) && (hdr_type buffer =? NOTIFICATION))%bool then Ignore rest
    else Handle (hdr_type buffer) data rest.

(** ** The client side: connections *)

Definition LLDPCTL_NO_ERROR : Z := 0.
Definition LLDPCTL_ERR_WOULDBLOCK : Z := -501.
Definition LLDPCTL_ERR_EOF : Z := -502.
Definition LLDPCTL_ERR_SERIALIZATION : Z := -506.
Definition LLDPCTL_ERR_INVALID_STATE : Z := -507.

(** The socket: what it will deliver and in which pieces, how much it takes at each write,
    and what was written.  [None] is an operation that would block; a socket that has
    nothing left to deliver is at its end. *)
Record net := {
  stream : list Z; pieces : list (option nat);
  room : list (option nat); written : list Z
}.
#[global] Instance eta_net : Settable net := λ r,
  {| stream := stream r; pieces := pieces r; room := room r; written := written r |}.

(** [conn->recv]: an error code, or at most [length_] bytes. *)
Definition net_recv (n : net) (length_ : Z) : (Z + list Z) * net :=
  match pieces n with
  | None :: ps => (inl LLDPCTL_ERR_WOULDBLOCK, n<|pieces := ps|>)
  | ps =>
      let k := match ps with Some c :: _ => Nat.min (Z.to_nat length_) (S c) | _ => Z.to_nat length_ end in
      (inr (take k (stream n)), n<|stream ::= drop k|><|pieces := tail ps|>)
  end.
(** [conn->send]: an error code, or the number of bytes that were taken. *)
Definition net_send (n : net) (data : list Z) : Z * net :=
  match room n with
  | None :: rs => (LLDPCTL_ERR_WOULDBLOCK, n<|room := rs|>)
  | rs =>
      let k := match rs with Some c :: _ => Nat.min (length data) c | _ => length data end in
      (Z.of_nat k, n<|written ::= λ w, w ++ take k data|><|room := tail rs|>)
  end.

Inductive invalid_access := NullPointer | UseAfterFree | OutOfBounds.

(** The buffers are empty for NULL. *)
Record conn := {
  conn_state : Z;
  state_data : option string;
  input_buffer : list Z;
  output_buffer : list Z;
  conn_error : Z;
  watch_cb : bool;
  watch_triggered : bool;
  notified : list (Z * unser_result);     (** the calls of [watch_cb] *)
  accesses : list invalid_access          (** invalid accesses to the memory, none so far when empty *)
}.
#[global] Instance eta_conn : Settable conn := λ r,
  {| conn_state := conn_state r; state_data := state_data r; input_buffer := input_buffer r;
     output_buffer := output_buffer r; conn_error := conn_error r; watch_cb := watch_cb r;
     watch_triggered := watch_triggered r; notified := notified r; accesses := accesses r |}.
Definition CONN_STATE_IDLE : Z := 0.
Definition SET_ERROR (c : conn) (x : Z) : conn := c<|conn_error := x|>.
Definition RESET_ERROR (c : conn) : conn := SET_ERROR c LLDPCTL_NO_ERROR.

(** [change->state] and the type of the change. *)
Definition change_state (r : unser_result) : option Z :=
  match r with
  | UOk _ out g => host_int <$> get_at g (shifted out (offsetof neighbor_change_members "state")) 4
  | _ => None
  end.
Definition change_type (state : option Z) : option Z :=
  match state with Some (-1) => Some 0 | Some 0 => Some 1 | Some 1 => Some 2 | _ => None end.
(** The callback is called unless there is none or the type is unknown. *)
Definition callback (watch : bool) (change : unser_result) : list (Z * unser_result) :=
  if watch then match change_type (change_state change) with Some ty => [(ty, change)] | None => [] end
  else [].

(** The atoms and the end of the function.  When the callback is called the name is copied by
    [_lldpctl_atom_new_interface], and [_lldpctl_atom_free_port] frees the chassis, forgets it
    and frees the port.  Otherwise the chassis is freed and [lldpd_port_cleanup] decrements the
    counter that is in it. *)
Definition notification_end (called : bool) (change : unser_result) : list invalid_access :=
  match change with
  | UOk _ out g =>
      (if called then
         match get_str alloc g out neighbor_change_members "ifname" with
         | Some (Some _) => [] | Some None => [NullPointer] | None => [OutOfBounds]
         end
       else []) ++
      match get_ptr alloc g out neighbor_change_members "neighbor" with
      | Some (Some port) =>
          match get_ptr alloc g (port, 0) port_members "p_chassis" with
          | Some (Some _) => if called then [] else [UseAfterFree]
          | Some None => [NullPointer]
          | None => [OutOfBounds]
          end
      | Some None => [NullPointer]
      | None => [OutOfBounds]
      end
  | _ => []
  end.

Definition check_for_notification (c : conn) : conn :=
  match ctl_msg_recv_unserialized (input_buffer c) NOTIFICATION (Some "lldpd_neighbor_change"%string) with
  | (Received (Some change), rest) =>
      let called := callback (watch_cb c) change in
      let is_called := match called with [] => false | _ => true end in
      c<|input_buffer := rest|><|notified ::= λ l, l ++ called|><|watch_triggered ::= orb is_called|>
       <|accesses ::= λ l, l ++ notification_end is_called change|>
  | (_, rest) => c<|input_buffer := rest|>
  end.
Definition lldpctl_recv (c : conn) (data : list Z) : Z * conn :=
  match data with
  | [] => (0, RESET_ERROR c)
  | _ => let c := RESET_ERROR (check_for_notification (RESET_ERROR c<|input_buffer ::= λ b, b ++ data|>)) in
         (zlen (input_buffer c), c)
  end.
(** [_lldpctl_needs]: the return code is negative on errors. *)
Definition lldpctl_needs (c : conn) (n : net) (length_ : Z) : Z * conn * net :=
  match net_recv n length_ with
  | (inl e, n) => (e, SET_ERROR c e, n)
  | (inr [], n) => (LLDPCTL_ERR_EOF, SET_ERROR c LLDPCTL_ERR_EOF, n)
  | (inr data, n) => let '(rc, c) := lldpctl_recv c data in (rc, RESET_ERROR c, n)
  end.
Definition lldpctl_send (c : conn) (n : net) : Z * conn * net :=
  match output_buffer c with
  | [] => (0, RESET_ERROR c, n)
  | _ =>
      let '(rc, n) := net_send n (output_buffer c) in
      if rc <? 0 then (rc, SET_ERROR c rc, n)
      else (rc, RESET_ERROR c<|output_buffer ::= drop (Z.to_nat rc)|>, n)
  end.

(** The loop that reads the answer: the return code, the structure, and the new state;
    [None] without fuel. *)
Fixpoint recv_loop (fuel : nat) (c : conn) (n : net) (type : Z) (t : option string)
    : option (Z * option unser_result * conn * net) :=
  match fuel with
  | O => None
  | S fuel =>
      match ctl_msg_recv_unserialized (input_buffer c) type t with
      | (NeedMore k, input) =>
          let '(rc, c, n) := lldpctl_needs (c<|input_buffer := input|>) n k in
          if rc <? 0 then Some (rc, None, SET_ERROR c rc, n) else recv_loop fuel c n type t
      | (CtlError, input) =>
          Some (LLDPCTL_ERR_SERIALIZATION, None,
                SET_ERROR (c<|input_buffer := input|>) LLDPCTL_ERR_SERIALIZATION, n)
      | (Received r, input) =>
          Some (0, r, c<|input_buffer := input|><|conn_state := CONN_STATE_IDLE|><|state_data := None|>, n)
      end
  end.

(** The three stages of [_lldpctl_do_something].  [to_send] is what [marshal_serialize_]
    wrote, [t] the description of the answer. *)
Definition data_matches (c : conn) (data : option string) : bool :=
  match data with None => true | Some s => bool_decide (state_data c = Some s) end.

Definition do_build (c : conn) (state_send : Z) (data : option string) (type : Z)
    (to_send : option (list Z)) : option conn :=
  if conn_state c =? CONN_STATE_IDLE then
    out ← ctl_msg_send_unserialized (output_buffer c) type to_send;
    Some (c<|output_buffer := out|><|conn_state := state_send|>
           <|state_data ::= λ d, match data with Some _ => data | None => d end|>)
  else Some c.
Definition do_send (c : conn) (n : net) (state_send state_recv : Z) (data : option string)
    : Z * conn * net :=
  if ((conn_state c =? state_send) && data_matches c data)%bool then
    let '(rc, c, n) := lldpctl_send c n in
    if rc <? 0 then (rc, SET_ERROR c rc, n) else (0, c<|conn_state := state_recv|>, n)
  else (0, c, n).
(** A byte is read by every turn of the loop, so the stream bounds the turns. *)
Definition do_recv (c : conn) (n : net) (state_recv : Z) (data : option string) (type : Z)
    (t : option string) : option (Z * option unser_result * conn * net) :=
  if ((conn_state c =? state_recv) && data_matches c data)%bool
  then recv_loop (S (S (length (stream n)))) c n type t
  else Some (LLDPCTL_ERR_INVALID_STATE, None, SET_ERROR c LLDPCTL_ERR_INVALID_STATE, n).

Definition lldpctl_do_something (c : conn) (n : net) (state_send state_recv : Z) (data : option string)
    (type : Z) (to_send : option (list Z)) (t : option string)
    : option (Z * option unser_result * conn * net) :=
  match do_build c state_send data type to_send with
  | None => Some (LLDPCTL_ERR_SERIALIZATION, None, SET_ERROR c LLDPCTL_ERR_SERIALIZATION, n)
  | Some c =>
      let '(rc, c, n) := do_send c n state_send state_recv data in
      if rc <? 0 then Some (rc, None, c, n) else do_recv c n state_recv data type t
  end.

(** A client that tries again when an operation would block. *)
Fixpoint try_again (tries : nat) (c : conn) (n : net) (state_send state_recv : Z) (data : option string)
    (type : Z) (to_send : option (list Z)) (t : option string)
    : option (Z * option unser_result * conn * net) :=
  match tries with
  | O => None
  | S tries =>
      '(rc, r, c, n) ← lldpctl_do_something c n state_send state_recv data type to_send t;
      if rc =? LLDPCTL_ERR_WOULDBLOCK
      then try_again tries c n state_send state_recv data type to_send t
      else Some (rc, r, c, n)
  end.

(** [lldpctl_watch] *)
Fixpoint watch_loop (fuel : nat) (c : conn) (n : net) : option (Z * conn * net) :=
  match fuel with
  | O => None
  | S fuel =>
      if watch_triggered c then Some (0, RESET_ERROR c, n)
      else
        let '(rc, c, n) := lldpctl_needs c n 1 in
        if rc <? 0 then Some (rc, SET_ERROR c rc, n) else watch_loop fuel c n
  end.
Definition lldpctl_watch (c : conn) (n : net) : option (Z * conn * net) :=
  let c := RESET_ERROR c in
  if negb (conn_state c =? CONN_STATE_IDLE)
  then Some (LLDPCTL_ERR_INVALID_STATE, SET_ERROR c LLDPCTL_ERR_INVALID_STATE, n)
  else watch_loop (S (S (length (stream n)))) (c<|watch_triggered := false|>) n.
End Ctl.
Arguments callback : simpl never.
Arguments notification_end : simpl never.

(** ** Framing *)

Lemma be_value_aux_app acc l b : be_value_aux acc (l ++ [b]) = be_value_aux acc l * 256 + b.
Proof. revert acc. induction l as [|x l IH]; intros acc; cbn [be_value_aux app]; [done|apply IH]. Qed.
Lemma le_bytes_value n v : be_value (rev (le_bytes n v)) = v mod 2 ^ (8 * Z.of_nat n).
Proof.
  revert v. induction n as [|n IH]; intros v; [cbn; by rewrite Z.mod_1_r|].
  cbn [le_bytes rev]. unfold be_value in *. rewrite be_value_aux_app, IH.
  replace (8 * Z.of_nat (S n)) with (8 + 8 * Z.of_nat n) by lia.
  rewrite Z.pow_add_r by lia. rewrite (Z.mul_comm (2 ^ 8)), Z.mul_comm.
  rewrite (Z.mul_comm (2 ^ (8 * _))), Z.rem_mul_r by lia. change 256 with (2 ^ 8). lia.
Qed.
Lemma host_value_bytes `{BuildConfig} n v :
  0 ≤ v < 2 ^ (8 * Z.of_nat n) → host_value (host_bytes n v) = v.
Proof.
  intros Hv. unfold host_value, host_bytes. destruct HOST_LITTLE_ENDIAN;
    rewrite le_bytes_value; by apply Z.mod_small.
Qed.
Lemma length_host_bytes `{BuildConfig} n v : length (host_bytes n v) = n.
Proof. pose proof (host_bytes_zlen n v) as Hz. unfold zlen in Hz. lia. Qed.

Section Framing.
Context `{BuildConfig}.
Variable alloc : nat → Z.

(** A message, and what makes it one the other side accepts. *)
Definition message (type : Z) (payload : list Z) : list Z := hmsg_header type (zlen payload) ++ payload.
Definition sendable (type : Z) (payload : list Z) : Prop :=
  0 ≤ type < 2 ^ 31 ∧ zlen payload ≤ HMSG_MAX_SIZE.

Lemma header_length type len : length (hmsg_header type len) = 16%nat.
Proof. unfold hmsg_header. by rewrite !length_app, !length_host_bytes, length_replicate. Qed.
Lemma message_zlen type payload : zlen (message type payload) = HMSG_HEADER + zlen payload.
Proof.
  unfold message. rewrite zlen_app. unfold zlen at 1. rewrite header_length. done.
Qed.
Lemma header_fields type len rest :
  0 ≤ type < 2 ^ 31 → 0 ≤ len < 2 ^ 64 →
  hdr_type (hmsg_header type len ++ rest) = type ∧ hdr_len (hmsg_header type len ++ rest) = len.
Proof.
  intros Ht Hl. unfold hdr_type, hdr_len, hmsg_header. rewrite <- !app_assoc. split.
  - rewrite take_app_length' by (rewrite length_host_bytes; lia). unfold host_int.
    rewrite host_value_bytes by (cbn; lia). by rewrite (proj2 (Z.ltb_lt _ _)) by lia.
  - rewrite app_assoc, drop_app_length'
      by (rewrite length_app, length_host_bytes, length_replicate; lia).
    rewrite take_app_length' by (rewrite length_host_bytes; lia). apply host_value_bytes. cbn. lia.
Qed.

(** The header is known once its 16 bytes are there. *)
Lemma prefix_fields type payload b m :
  sendable type payload → message type payload = b ++ m → HMSG_HEADER ≤ zlen b →
  hdr_type b = type ∧ hdr_len b = zlen payload.
Proof.
  intros [Ht Hp] Hm Hb. assert (∃ x, b = hmsg_header type (zlen payload) ++ x) as [x ->].
  { exists (drop 16 b). rewrite <- (take_drop 16 b) at 1. f_equal.
    transitivity (take 16 (message type payload)).
    - rewrite Hm. rewrite take_app_le; [done|]. unfold zlen, HMSG_HEADER in Hb. lia.
    - unfold message. rewrite take_app_length'; [done|]. symmetry. apply header_length. }
  apply header_fields; [done|]. change HMSG_MAX_SIZE with 524288 in Hp.
  pose proof (zlen_nonneg payload). lia.
Qed.

(** An incomplete message: some of the missing bytes are asked for. *)
Lemma recv_incomplete type payload b m expected t :
  sendable type payload → message type payload = b ++ m → m ≠ [] →
  ∃ k, ctl_msg_recv_unserialized alloc b expected t = (NeedMore k, b) ∧ 0 < k ≤ zlen m.
Proof.
  intros Hs Hm Hne. assert (0 < zlen m) as Hpos by (unfold zlen; destruct m; [done|cbn [length]; lia]).
  pose proof (message_zlen type payload) as Hlen. rewrite Hm, zlen_app in Hlen.
  unfold ctl_msg_recv_unserialized. destruct (Z.ltb_spec (zlen b) HMSG_HEADER) as [Hb|Hb].
  - eexists. split; [done|]. pose proof (zlen_nonneg payload). lia.
  - destruct (prefix_fields _ _ _ _ Hs Hm Hb) as [_ ->]. destruct Hs as [_ Hs].
    rewrite (proj2 (Z.ltb_ge _ _)) by lia. rewrite (proj2 (Z.ltb_lt _ _)) by lia.
    eexists. split; [done|]. lia.
Qed.

(** A complete message. *)
Lemma message_fields type payload rest :
  sendable type payload →
  hdr_type (message type payload ++ rest) = type ∧
  hdr_len (message type payload ++ rest) = zlen payload ∧
  drop (Z.to_nat (HMSG_HEADER + zlen payload)) (message type payload ++ rest) = rest ∧
  take (Z.to_nat (zlen payload)) (drop (Z.to_nat HMSG_HEADER) (message type payload ++ rest)) = payload.
Proof.
  intros Hs. pose proof (message_zlen type payload) as Hlen.
  assert (hdr_type (message type payload ++ rest) = type ∧
          hdr_len (message type payload ++ rest) = zlen payload) as [Ht Hl].
  { unfold message. rewrite <- app_assoc. apply header_fields; [apply Hs|].
    destruct Hs as [_ Hs]. change HMSG_MAX_SIZE with 524288 in Hs. pose proof (zlen_nonneg payload). lia. }
  split_and!; [done|done| |].
  - apply drop_app_length'. rewrite <- Hlen. unfold zlen. lia.
  - unfold message. rewrite <- app_assoc, drop_app_length' by (rewrite header_length; done).
    apply take_app_length'. unfold zlen. lia.
Qed.
Lemma recv_complete type payload rest expected t :
  sendable type payload →
  ctl_msg_recv_unserialized alloc (message type payload ++ rest) expected t =
    if negb (type =? expected) then
      (CtlError, if expected =? NOTIFICATION then message type payload ++ rest else rest)
    else match t with
         | None => (Received None, rest)
         | Some mi =>
             let r := marshal_unserialize lldpd_infos alloc mi payload in
             (if ((zlen payload =? 0) || negb (unser_ok r))%bool then CtlError else Received (Some r), rest)
         end.
Proof.
  intros Hs. destruct (message_fields type payload rest Hs) as (Ht & Hl & Hdrop & Htake).
  pose proof (message_zlen type payload) as Hlen. destruct Hs as [_ Hs].
  pose proof (zlen_nonneg rest). pose proof (zlen_nonneg payload).
  unfold ctl_msg_recv_unserialized. rewrite Ht, Hl, Hdrop, Htake, zlen_app, Hlen.
  rewrite (proj2 (Z.ltb_ge _ _)) by (unfold HMSG_HEADER; lia). rewrite (proj2 (Z.ltb_ge _ _)) by lia.
  rewrite (proj2 (Z.ltb_ge _ _)) by lia.
  destruct (negb (type =? expected)), (expected =? NOTIFICATION), t, (zlen payload =? 0); cbn; try done;
    destruct (unser_ok _); done.
Qed.

(** The daemon side agrees. *)
Lemma levent_recv_complete type payload rest :
  sendable type payload →
  levent_ctl_recv (message type payload ++ rest) =
    if ((zlen payload =? 0) && (type =? NOTIFICATION))%bool then Ignore rest else Handle type payload rest.
Proof.
  intros Hs. destruct (message_fields type payload rest Hs) as (Ht & Hl & Hdrop & Htake).
  pose proof (message_zlen type payload) as Hlen. destruct Hs as [_ Hs].
  pose proof (zlen_nonneg rest). pose proof (zlen_nonneg payload).
  unfold levent_ctl_recv. rewrite Ht, Hl, Hdrop, Htake, zlen_app, Hlen.
  rewrite (proj2 (Z.ltb_ge _ _)) by (unfold HMSG_HEADER; lia). rewrite (proj2 (Z.ltb_ge _ _)) by lia.
  by rewrite (proj2 (Z.ltb_ge _ _)) by lia.
Qed.
End Framing.

(** ** The request loop ends on every stream *)

Section Client.
Context `{BuildConfig}.
Variable alloc : nat → Z.

Lemma need_more_pos input expected t k input' :
  ctl_msg_recv_unserialized alloc input expected t = (NeedMore k, input') → 0 < k.
Proof.
  unfold ctl_msg_recv_unserialized. intros Hr.
  repeat (case_match; simplify_eq/=; bool_to_prop; try lia).
Qed.
(** A call of [_lldpctl_needs] fails or reads something. *)
Lemma needs_reads c n k rc c' n' :
  lldpctl_needs alloc c n k = (rc, c', n') → 0 < k → rc < 0 ∨ (length (stream n') < length (stream n))%nat.
Proof.
  unfold lldpctl_needs, net_recv. intros Hn Hk.
  assert (∀ j, (0 < j)%nat → take j (stream n) ≠ [] → (length (drop j (stream n)) < length (stream n))%nat)
    as Hread.
  { intros j Hj Hne. rewrite length_drop. destruct (stream n); [by rewrite take_nil in Hne|]. cbn. lia. }
  destruct (pieces n) as [|[p|] ps]; [| |simplify_eq; left; done].
  all: destruct (take _ (stream n)) as [|x l] eqn:Ht; [simplify_eq; left; done|].
  all: destruct (lldpctl_recv _ _ _); simplify_eq; right; cbn; apply Hread; [lia|by rewrite Ht].
Qed.
Lemma recv_loop_total fuel c n type t :
  (length (stream n) < fuel)%nat → is_Some (recv_loop alloc fuel c n type t).
Proof.
  revert c n. induction fuel as [|fuel IH]; intros c n Hf; [lia|]. cbn [recv_loop].
  destruct (ctl_msg_recv_unserialized _ _ _ _) as [[k| |r] input] eqn:Hr; [|by eexists..].
  destruct (lldpctl_needs _ _ _ _) as [[rc c'] n'] eqn:Hn.
  destruct (needs_reads _ _ _ _ _ _ Hn ltac:(by eapply need_more_pos)) as [Hrc|Hrc].
  - rewrite (proj2 (Z.ltb_lt _ _)) by done. by eexists.
  - case_match; [by eexists|]. apply IH. lia.
Qed.
Lemma watch_loop_total fuel c n :
  (length (stream n) < fuel)%nat → is_Some (watch_loop alloc fuel c n).
Proof.
  revert c n. induction fuel as [|fuel IH]; intros c n Hf; [lia|]. cbn [watch_loop].
  destruct (watch_triggered c); [by eexists|].
  destruct (lldpctl_needs _ _ _ _) as [[rc c'] n'] eqn:Hn.
  destruct (needs_reads _ _ _ _ _ _ Hn ltac:(lia)) as [Hrc|Hrc].
  - rewrite (proj2 (Z.ltb_lt _ _)) by done. by eexists.
  - case_match; [by eexists|]. apply IH. lia.
Qed.

(** A request and a watch of the client library end whatever the daemon sends, in
    whatever pieces: every turn of their loops consumes a byte, or reports an error. *)
Theorem client_calls_terminate c n state_send state_recv data type to_send t :
  is_Some (lldpctl_do_something alloc c n state_send state_recv data type to_send t) ∧
  is_Some (lldpctl_watch alloc c n).
Proof.
  split.
  - unfold lldpctl_do_something. destruct (do_build _ _ _ _ _) as [c1|]; [|by eexists].
    destruct (do_send _ _ _ _ _) as [[rc c2] n2]. case_match; [by eexists|].
    unfold do_recv. case_match; [|by eexists]. apply recv_loop_total. lia.
  - unfold lldpctl_watch. case_match; [by eexists|]. apply watch_loop_total. lia.
Qed.

(** ** A request gets its answer *)

Section Request.
Variables (type : Z) (t : option string) (answer : list Z) (r : option unser_result) (rest : list Z).
Variable (watch : bool) (total : list (Z * unser_result)) (faults : list invalid_access).

(** The answer has the type of the request and unserializes to [r]. *)
Definition answers : Prop :=
  sendable type answer ∧ type ≠ NOTIFICATION ∧
  match t with
  | None => r = None
  | Some mi => r = Some (marshal_unserialize lldpd_infos alloc mi answer) ∧ answer ≠ [] ∧
               unser_ok (marshal_unserialize lldpd_infos alloc mi answer) = true
  end.
Definition unser_change (p : list Z) : unser_result :=
  marshal_unserialize lldpd_infos alloc "lldpd_neighbor_change" p.
(** A notification as the daemon sends it: a known kind of change, an interface, and a port
    that is attached to a chassis. *)
Definition proper_change (change : unser_result) : Prop :=
  match change with
  | UOk _ out g =>
      is_Some (change_type (change_state change)) ∧
      (∃ name, get_str alloc g out neighbor_change_members "ifname" = Some (Some name)) ∧
      ∃ port chassis, get_ptr alloc g out neighbor_change_members "neighbor" = Some (Some port) ∧
        get_ptr alloc g (port, 0) port_members "p_chassis" = Some (Some chassis)
  | _ => False
  end.
Definition is_change (p : list Z) : Prop :=
  p ≠ [] ∧ zlen p ≤ HMSG_MAX_SIZE ∧ proper_change (unser_change p).
Definition callbacks (w : bool) (changes : list (list Z)) : list (Z * unser_result) :=
  concat (map (λ p, callback w (unser_change p)) changes).
Definition notifications (changes : list (list Z)) : list Z := concat (map (message NOTIFICATION) changes).

(** The message being received and what follows it. *)
Definition current (changes : list (list Z)) : list Z :=
  match changes with [] => message type answer | p :: _ => message NOTIFICATION p end.
Definition others (changes : list (list Z)) : list Z :=
  match changes with [] => rest | _ :: l => notifications l ++ message type answer ++ rest end.

(** The client has a strict part of the current message; [total] is what the callback will
    have been called with at the end. *)
Record pending (c : conn) (n : net) (changes : list (list Z)) : Prop := {
  pend_part : ∃ m, m ≠ [] ∧ current changes = input_buffer c ++ m ∧ stream n = m ++ others changes;
  pend_ok : Forall is_change changes;
  pend_total : notified c ++ callbacks watch changes = total;
  pend_watch : watch_cb c = watch;
  pend_called : changes = [] ∨ watch = true;
  pend_accesses : accesses c = faults
}.
(** What the request does not touch while it receives. *)
Definition same_request (c c' : conn) (n n' : net) : Prop :=
  conn_state c' = conn_state c ∧ state_data c' = state_data c ∧ output_buffer c' = output_buffer c ∧
  room n' = room n ∧ written n' = written n.

Lemma current_sendable changes :
  answers → Forall is_change changes →
  ∃ ty p, current changes = message ty p ∧ sendable ty p ∧
    (changes = [] ∧ ty = type ∧ p = answer ∨
     ∃ l, changes = p :: l ∧ ty = NOTIFICATION ∧ is_change p ∧ Forall is_change l).
Proof.
  intros (Hs & _) Hok. destruct changes as [|p l].
  - exists type, answer. by split_and!; [..|left].
  - apply Forall_cons_iff in Hok as [Hp Hl]. exists NOTIFICATION, p.
    split_and!; [done|split; [done|apply Hp]|right; by exists l].
Qed.
Lemma message_ne ty p : message ty p ≠ [].
Proof.
  intros Hm. pose proof (message_zlen ty p) as Hz. rewrite Hm in Hz. unfold HMSG_HEADER in Hz.
  pose proof (zlen_nonneg p). change (zlen []) with 0 in Hz. lia.
Qed.
Lemma next_message l : notifications l ++ message type answer ++ rest = current l ++ others l.
Proof. destruct l; cbn; [done|]. by rewrite <- app_assoc. Qed.

(** What [check_for_notification] does with a part of the current message. *)
Lemma check_part c changes m :
  answers → Forall is_change changes → current changes = input_buffer c ++ m → m ≠ [] →
  check_for_notification alloc c = c<|input_buffer := input_buffer c|>.
Proof.
  intros Ha Hok Hc Hm. destruct (current_sendable changes Ha Hok) as (ty & p & Hcur & Hs & _).
  rewrite Hcur in Hc. unfold check_for_notification.
  by destruct (recv_incomplete alloc ty p (input_buffer c) m NOTIFICATION
    (Some "lldpd_neighbor_change"%string) Hs Hc Hm) as (k & -> & _).
Qed.
Lemma proper_ok change : proper_change change → unser_ok change = true.
Proof. by destruct change. Qed.
Lemma proper_callback change :
  proper_change change → ∃ ty, callback true change = [(ty, change)] ∧ notification_end alloc true change = [].
Proof.
  destruct change as [total' out g| |]; [|done..]. intros ([ty Hty] & [name Hn] & port & ch & Hp & Hc).
  exists ty. unfold callback, notification_end. rewrite Hty, Hn, Hp. cbv beta iota. by rewrite Hc.
Qed.
Lemma check_change c p :
  is_change p → watch_cb c = true → input_buffer c = message NOTIFICATION p →
  let c' := check_for_notification alloc c in
  input_buffer c' = [] ∧ notified c' = notified c ++ callback (watch_cb c) (unser_change p) ∧
  watch_cb c' = watch_cb c ∧ conn_state c' = conn_state c ∧ state_data c' = state_data c ∧
  output_buffer c' = output_buffer c ∧ watch_triggered c' = true ∧ accesses c' = accesses c.
Proof.
  intros (Hne & Hlen & Hpr) Hw Hc. unfold check_for_notification. rewrite Hc, Hw.
  destruct (proper_callback _ Hpr) as (ty & Hcb & Hend). pose proof (proper_ok _ Hpr) as Hok.
  rewrite <- (app_nil_r (message NOTIFICATION p)).
  rewrite recv_complete by (split; [done|done]). cbn zeta. rewrite Z.eqb_refl. cbn [negb].
  unfold unser_change in *. rewrite Hok.
  rewrite (proj2 (Z.eqb_neq _ _)) by (unfold zlen; destruct p; [done|cbn [length]; lia]).
  cbn [orb negb]. rewrite Hcb. cbv beta iota. rewrite Hend. cbn. split_and!; done || apply app_nil_r.
Qed.
Lemma check_answer c :
  answers → input_buffer c = message type answer →
  check_for_notification alloc c = c<|input_buffer := input_buffer c|>.
Proof.
  intros (Hs & Hty & _) Hc. unfold check_for_notification. rewrite Hc.
  rewrite <- (app_nil_r (message type answer)), recv_complete by done.
  by rewrite (proj2 (Z.eqb_neq _ _)) by done.
Qed.

(** The answer is complete. *)
Record complete (c : conn) (n : net) : Prop := {
  compl_part : input_buffer c = message type answer;
  compl_stream : stream n = rest;
  compl_total : notified c = total;
  compl_accesses : accesses c = faults
}.

(** What was received moves the client on: it still waits, or the answer is there. *)
Lemma received c n changes data :
  answers → pending c n changes → data ≠ [] →
  (∃ m, current changes = input_buffer c ++ data ++ m ∧ stream n = data ++ m ++ others changes) →
  ∃ c' rc, lldpctl_recv alloc c data = (rc, c') ∧ 0 ≤ rc ∧
    (∀ n', stream n' = drop (length data) (stream n) →
       (∃ l, pending c' n' l) ∨ complete c' n') ∧
    (∀ n', same_request c c' n' n') .
Proof.
  intros Ha [_ Hok Htot Hw Hcal Hacc] Hd (m & Hcur & Hstr).
  assert (∀ n', stream n' = drop (length data) (stream n) → stream n' = m ++ others changes) as Hn'.
  { intros n' ->. rewrite Hstr. by rewrite drop_app_length. }
  unfold lldpctl_recv. destruct data as [|x data]; [done|]. set (d := x :: data) in *.
  set (c0 := RESET_ERROR c<|input_buffer ::= λ b, b ++ d|>).
  eexists _, _. split; [reflexivity|]. split; [apply zlen_nonneg|].
  destruct m as [|y m].
  - destruct changes as [|p l].
    + rewrite (check_answer c0) by (done || cbn; rewrite app_nil_r in Hcur; done).
      split; [|intros; by split_and!]. intros n' Hs. right. split; cbn.
      * by rewrite app_nil_r in Hcur.
      * by rewrite (Hn' n' Hs).
      * by rewrite <- Htot, app_nil_r.
      * done.
    + apply Forall_cons_iff in Hok as [Hp Hl].
      destruct Hcal as [?|Hcal]; [done|].
      destruct (check_change c0 p Hp) as (Hi & Hnot & Hcb & Hst & Hsd & Hob & _ & Hac).
      { cbn. congruence. }
      { cbn. rewrite app_nil_r in Hcur. done. }
      split; [|intros; by split_and!]. intros n' Hs. left. exists l. split.
      * exists (current l). split_and!; [destruct l; apply message_ne|cbn in *; by rewrite Hi|].
        rewrite (Hn' n' Hs). apply next_message.
      * done.
      * cbn in *. rewrite Hnot, <- app_assoc. cbn. by rewrite Hw.
      * cbn in *. by rewrite Hcb.
      * by right.
      * cbn in *. by rewrite Hac.
  - rewrite (check_part c0 changes (y :: m)) by (done || cbn; by rewrite <- app_assoc).
    split; [|intros; by split_and!]. intros n' Hs. left. exists changes. split; cbn; [|done..].
    exists (y :: m). split_and!; [done|by rewrite <- app_assoc|by apply Hn'].
Qed.

(** One read: it would block and changes nothing, or it moves the client on. *)
Lemma needs_progress c n changes k :
  answers → pending c n changes →
  (∀ m, current changes = input_buffer c ++ m → 0 < k ≤ zlen m) →
  ∃ rc c' n', lldpctl_needs alloc c n k = (rc, c', n') ∧ same_request c c' n n' ∧
    (rc = LLDPCTL_ERR_WOULDBLOCK ∧ pending c' n' changes ∧ (length (pieces n') < length (pieces n))%nat ∨
     0 ≤ rc ∧ ((∃ l, pending c' n' l) ∨ complete c' n') ∧
     (length (stream n') < length (stream n))%nat ∧ (length (pieces n') ≤ length (pieces n))%nat).
Proof.
  intros Ha Hp Hk. destruct (pend_part _ _ _ Hp) as (m & Hm & Hcur & Hstr). specialize (Hk m Hcur).
  (* [j] bytes of the current message arrive *)
  assert (∀ j n', (0 < j)%nat → Z.of_nat j ≤ k → stream n' = drop j (stream n) → room n' = room n →
    written n' = written n → (length (pieces n') ≤ length (pieces n))%nat →
    ∃ rc c', (let '(rc, c) := lldpctl_recv alloc c (take j (stream n)) in (rc, RESET_ERROR c, n')) = (rc, c', n') ∧
      take j (stream n) ≠ [] ∧ same_request c c' n n' ∧ 0 ≤ rc ∧ ((∃ l, pending c' n' l) ∨ complete c' n') ∧
      (length (stream n') < length (stream n))%nat) as Hread.
  { intros j n' Hj0 Hjk Hs Hr Hwr Hpc. unfold zlen in Hk.
    assert (take j (stream n) = take j m) as Ht by (rewrite Hstr, take_app_le; [done|lia]).
    assert (take j m ≠ []) as Hd by (destruct m, j; cbn; done || lia).
    destruct (received c n changes (take j m) Ha Hp Hd) as (c' & rc & He & Hrc & Hgo & Hsame).
    { exists (drop j m). rewrite Hcur, Hstr. rewrite !(app_assoc (take j m)), !take_drop. done. }
    rewrite Ht, He. eexists _, _. split; [done|]. split; [done|].
    destruct (Hsame n) as (E1 & E2 & E3 & _). split_and!; [by split_and!|done| |].
    - rewrite length_take, Nat.min_l in Hgo by lia.
      destruct (Hgo n' Hs) as [[l [Hl1 Hl2 Hl3 Hl4 Hl5 Hl6]]|[Hc1 Hc2 Hc3 Hc4]]; [left; exists l|right]; by split.
    - rewrite Hs, length_drop. destruct (stream n) eqn:Hsn; [by destruct m|]. cbn. lia. }
  unfold lldpctl_needs, net_recv. destruct (pieces n) as [|[q|] ps] eqn:Hps.
  - destruct (Hread (Z.to_nat k) (n<|stream ::= drop (Z.to_nat k)|><|pieces := tail []|>))
      as (rc & c' & He & Hne & Hrest); [lia|lia|done|done|done|cbn; lia|].
    destruct (take _ (stream n)); [done|]. eexists _, _, _. split; [exact He|].
    split; [apply Hrest|right]. split_and!; try apply Hrest. cbn. lia.
  - destruct (Hread (Nat.min (Z.to_nat k) (S q))
      (n<|stream ::= drop (Nat.min (Z.to_nat k) (S q))|><|pieces := tail (Some q :: ps)|>))
      as (rc & c' & He & Hne & Hrest); [lia|lia|done|done|done|cbn; lia|].
    destruct (take _ (stream n)); [done|]. eexists _, _, _. split; [exact He|].
    split; [apply Hrest|right]. split_and!; try apply Hrest. cbn. lia.
  - eexists _, _, _. split; [reflexivity|]. split; [by split_and!|left].
    split_and!; [done| |cbn; lia]. destruct Hp as [H1 H2 H3 H4 H5 H6]. by split.
Qed.

Lemma recv_loop_complete fuel c n :
  answers → complete c n →
  recv_loop alloc (S fuel) c n type t =
    Some (0, r, c<|input_buffer := []|><|conn_state := CONN_STATE_IDLE|><|state_data := None|>, n).
Proof.
  intros (Hs & _ & Hr) [Hc _ _]. cbn [recv_loop]. rewrite Hc, <- (app_nil_r (message _ _)).
  rewrite recv_complete by done. rewrite Z.eqb_refl. cbn [negb]. destruct t as [mi|]; [|by rewrite Hr].
  destruct Hr as (-> & Hne & Hok). cbn zeta. rewrite Hok.
  by rewrite (proj2 (Z.eqb_neq _ _)) by (unfold zlen; destruct answer; [done|cbn [length]; lia]).
Qed.

(** The receive loop gives the answer, or stops where it can be taken up again. *)
Lemma recv_loop_answer fuel c n changes :
  answers → pending c n changes → (S (length (stream n)) < fuel)%nat →
  ∃ rc r' c' n', recv_loop alloc fuel c n type t = Some (rc, r', c', n') ∧
    (rc = 0 ∧ r' = r ∧ conn_state c' = CONN_STATE_IDLE ∧ input_buffer c' = [] ∧
     output_buffer c' = output_buffer c ∧ notified c' = total ∧ accesses c' = faults ∧ stream n' = rest ∧
     written n' = written n ∨
     rc = LLDPCTL_ERR_WOULDBLOCK ∧ (∃ l, pending c' n' l) ∧ same_request c c' n n' ∧
     (length (pieces n') < length (pieces n))%nat).
Proof.
  intros Ha. revert c n changes. induction fuel as [|fuel IH]; intros c n changes Hp Hf; [lia|].
  destruct (pend_part _ _ _ Hp) as (m & Hm & Hcur & Hstr).
  destruct (current_sendable changes Ha (pend_ok _ _ _ Hp)) as (ty & p & Hty & Hs & _).
  rewrite Hty in Hcur. destruct (recv_incomplete alloc ty p _ _ type t Hs Hcur Hm) as (k & Hr & Hk).
  assert (pending (c<|input_buffer := input_buffer c|>) n changes) as Hp' by (by destruct Hp).
  destruct (needs_progress _ _ _ k Ha Hp') as (rc & c' & n' & He & Hsame & Hcase).
  { intros m' Hm'. cbn in Hm'. rewrite Hty, Hcur in Hm'. by simplify_list_eq. }
  cbn [recv_loop]. rewrite Hr, He. destruct Hcase as [(-> & Hpend & Hlen)|(Hrc & Hnext & Hlen & Hpc)].
  - eexists _, _, _, _. split; [reflexivity|right]. split_and!; [done| |done|done].
    exists changes. by destruct Hpend.
  - rewrite (proj2 (Z.ltb_ge _ _)) by done. destruct Hsame as (E1 & E2 & E3 & E4 & E5). cbn in E1, E2, E3.
    destruct Hnext as [[l Hl]|Hc].
    + destruct (IH c' n' l Hl ltac:(lia)) as (rc2 & r2 & c2 & n2 & -> & Hres).
      eexists _, _, _, _. split; [reflexivity|].
      destruct Hres as [(?&?&?&?&?&?&?&?&?)|(?&?&(F1&F2&F3&F4&F5)&?)]; [left|right]; split_and!;
        try done; try congruence; try lia.
      unfold same_request. split_and!; congruence.
    + destruct fuel as [|fuel]; [lia|]. rewrite recv_loop_complete by done.
      eexists _, _, _, _. split; [reflexivity|left]. destruct Hc. by split_and!.
Qed.

(** The stages of a request, with the bytes [req] that have to be sent. *)
Section Stages.
Variables (state_send state_recv : Z) (data : option string) (req sent : list Z).

Record unsent (c : conn) (n : net) (changes : list (list Z)) : Prop := {
  uns_state : conn_state c = state_send;
  uns_data : data_matches c data = true;
  uns_out : output_buffer c = req;
  uns_written : written n = sent;
  uns_room : Forall (λ o, match o with Some k => (length req ≤ k)%nat | None => True end) (room n);
  uns_pending : pending c n changes
}.
Record asked (c : conn) (n : net) : Prop := {
  ask_state : conn_state c = state_recv;
  ask_data : data_matches c data = true;
  ask_out : output_buffer c = [];
  ask_written : written n = sent ++ req;
  ask_pending : ∃ changes, pending c n changes
}.

Lemma do_send_unsent c n changes :
  req ≠ [] → unsent c n changes →
  ∃ rc c' n', do_send c n state_send state_recv data = (rc, c', n') ∧ pieces n' = pieces n ∧
    (rc = LLDPCTL_ERR_WOULDBLOCK ∧ unsent c' n' changes ∧ (length (room n') < length (room n))%nat ∨
     rc = 0 ∧ asked c' n' ∧ (length (room n') ≤ length (room n))%nat).
Proof.
  intros Hreq [Hst Hd Hout Hwr Hroom Hp]. unfold do_send. rewrite Hst, Z.eqb_refl, Hd. cbn [andb].
  unfold lldpctl_send. rewrite Hout. destruct req as [|x q] eqn:Hq; [done|]. rewrite <- Hq in *.
  assert (∀ (n' : net) k, k = length req → stream n' = stream n → written n' = sent ++ req →
    asked (RESET_ERROR c<|output_buffer ::= drop (Z.to_nat (Z.of_nat k))|><|conn_state := state_recv|>) n')
    as Hasked.
  { intros n' k -> Hs Hw'. split; try done.
    - cbn. rewrite Hout, Nat2Z.id, drop_all. done.
    - exists changes. destruct Hp as [H1 H2 H3 H4 H5 H6]. split; try done. by rewrite Hs. }
  unfold net_send. destruct (room n) as [|[k|] rs] eqn:Hr.
  - rewrite !(proj2 (Z.ltb_ge _ _)) by lia. eexists _, _, _. split; [reflexivity|]. split; [done|right].
    split_and!; [done| |cbn; lia]. apply Hasked; [done..|]. cbn. by rewrite Hwr, take_ge by lia.
  - apply Forall_cons_iff in Hroom as [Hk Hroom]. rewrite !(proj2 (Z.ltb_ge _ _)) by lia.
    eexists _, _, _. split; [reflexivity|]. split; [done|right].
    split_and!; [done| |cbn; lia]. apply Hasked; [lia|done|]. cbn. by rewrite Hwr, take_ge by lia.
  - apply Forall_cons_iff in Hroom as [Hk Hroom]. eexists _, _, _. split; [reflexivity|]. split; [done|left].
    split_and!; [done| |cbn; lia]. split; try done. by destruct Hp.
Qed.

(** The end of a request. *)
Definition finished (r' : option unser_result) (c' : conn) (n' : net) : Prop :=
  r' = r ∧ conn_state c' = CONN_STATE_IDLE ∧ input_buffer c' = [] ∧ output_buffer c' = [] ∧
  notified c' = total ∧ accesses c' = faults ∧ stream n' = rest ∧ written n' = sent ++ req.

Lemma do_recv_asked c n :
  answers → asked c n →
  ∃ rc r' c' n', do_recv alloc c n state_recv data type t = Some (rc, r', c', n') ∧
    (rc = 0 ∧ finished r' c' n' ∨ rc = LLDPCTL_ERR_WOULDBLOCK ∧ asked c' n' ∧ room n' = room n ∧
     (length (pieces n') < length (pieces n))%nat).
Proof.
  intros Ha [Hst Hd Hout Hwr [changes Hp]]. unfold do_recv. rewrite Hst, Z.eqb_refl, Hd. cbn [andb].
  destruct (recv_loop_answer (S (S (length (stream n)))) c n changes Ha Hp ltac:(lia))
    as (rc & r' & c' & n' & -> & Hres).
  eexists _, _, _, _. split; [reflexivity|].
  destruct Hres as [(->&?&?&?&?&?&?&?&?)|(->&[l Hl]&(F1&F2&F3&F4&F5)&?)]; [left|right]; (split; [done|]).
  - unfold finished. split_and!; congruence.
  - split_and!; [|done|done]. split; try congruence; [|by exists l].
    unfold data_matches in *. by rewrite F2.
Qed.

Lemma do_send_asked c n :
  asked c n → ∃ c', do_send c n state_send state_recv data = (0, c', n) ∧ asked c' n.
Proof.
  intros Hask. unfold do_send. case_match; [|by eexists]. unfold lldpctl_send.
  rewrite (ask_out _ _ Hask). eexists. split; [reflexivity|].
  destruct Hask as [H1 H2 H3 H4 [l H5]]. split; try done. exists l. by destruct H5.
Qed.

Hypothesis states_ok : state_send ≠ CONN_STATE_IDLE ∧ state_recv ≠ CONN_STATE_IDLE.
Hypothesis req_ok : req ≠ [].
Variable to_send : option (list Z).

(** A call once the request is built: the answer, or the same request with less left that
    can block. *)
Lemma do_something_progress c n :
  answers → (∃ l, unsent c n l) ∨ asked c n →
  ∃ rc r' c' n',
    lldpctl_do_something alloc c n state_send state_recv data type to_send t = Some (rc, r', c', n') ∧
    (rc = 0 ∧ finished r' c' n' ∨
     rc = LLDPCTL_ERR_WOULDBLOCK ∧ ((∃ l, unsent c' n' l) ∨ asked c' n') ∧
     (length (pieces n') + length (room n') < length (pieces n) + length (room n))%nat).
Proof.
  intros Ha Hstage. unfold lldpctl_do_something.
  assert (do_build c state_send data type to_send = Some c) as ->.
  { unfold do_build. rewrite (proj2 (Z.eqb_neq _ _)); [done|].
    destruct Hstage as [[l Hu]|Hu]; [rewrite (uns_state _ _ _ Hu)|rewrite (ask_state _ _ Hu)]; apply states_ok. }
  assert (∃ rc c1 n1, do_send c n state_send state_recv data = (rc, c1, n1) ∧ pieces n1 = pieces n ∧
    (rc = LLDPCTL_ERR_WOULDBLOCK ∧ (∃ l, unsent c1 n1 l) ∧ (length (room n1) < length (room n))%nat ∨
     rc = 0 ∧ asked c1 n1 ∧ (length (room n1) ≤ length (room n))%nat))
    as (rc & c1 & n1 & -> & Hpc & [(-> & Hu & Hlen)|(-> & Hask & Hlen)]).
  { destruct Hstage as [[l Hu]|Hu].
    - destruct (do_send_unsent c n l req_ok Hu) as (rc & c1 & n1 & He & Hpc & Hres).
      exists rc, c1, n1. split_and!; [done|done|]. destruct Hres as [(?&?&?)|?]; [left|by right].
      split_and!; [done|by exists l|done].
    - destruct (do_send_asked c n Hu) as (c1 & He & Hask). exists 0, c1, n. split_and!; [done|done|].
      right. split_and!; [done|done|lia]. }
  - eexists _, _, _, _. split; [reflexivity|right]. split_and!; [done|by left|]. rewrite Hpc. lia.
  - cbn [Z.ltb Z.compare]. destruct (do_recv_asked c1 n1 Ha Hask) as (rc & r' & c' & n' & -> & Hres).
    eexists _, _, _, _. split; [reflexivity|]. destruct Hres as [?|(-> & Hasked & Hroom & Hl)]; [by left|right].
    split_and!; [done|by right|]. rewrite Hroom. rewrite Hpc in Hl. lia.
Qed.

Lemma try_again_answer tries c n :
  answers → (∃ l, unsent c n l) ∨ asked c n → (length (pieces n) + length (room n) < tries)%nat →
  ∃ r' c' n', try_again alloc tries c n state_send state_recv data type to_send t = Some (0, r', c', n') ∧
    finished r' c' n'.
Proof.
  intros Ha. revert c n. induction tries as [|tries IH]; intros c n Hst Hlen; [lia|]. cbn [try_again].
  destruct (do_something_progress c n Ha Hst) as (rc & r' & c' & n' & -> & Hres). cbn [mbind option_bind].
  destruct Hres as [(-> & Hfin)|(-> & Hst' & Hl)].
  - by eexists _, _, _.
  - apply IH; [done|lia].
Qed.
End Stages.
End Request.

(** The first call builds the request; from then on it is as if it had been built before. *)
Lemma try_again_build tries c n ss sr data type to_send t out :
  conn_state c = CONN_STATE_IDLE → ss ≠ CONN_STATE_IDLE →
  ctl_msg_send_unserialized (output_buffer c) type to_send = Some out →
  try_again alloc (S tries) c n ss sr data type to_send t =
  try_again alloc (S tries) (c<|output_buffer := out|><|conn_state := ss|>
    <|state_data ::= λ d, match data with Some _ => data | None => d end|>) n ss sr data type to_send t.
Proof.
  intros Hidle Hss Hout. cbn [try_again]. unfold lldpctl_do_something, do_build at 1.
  rewrite Hidle, Z.eqb_refl, Hout. cbn [mbind option_bind]. unfold do_build. cbn [conn_state set].
  by rewrite (proj2 (Z.eqb_neq _ _)) by done.
Qed.

(** C14: a request of the client library gets its answer.  The daemon may send any number of
    notifications first, what it sends may come in any pieces and reads and writes may block any
    number of times: when the client tries again each time, the call ends with the structure
    of the answer, the request was written once, the callback was called for every change
    in order, no memory was accessed after it was freed, and not a byte after the answer was
    read, so that the connection is ready for the next request.  It is assumed that a write that
    does not block takes the whole request (after a partial write the rest is never sent), that
    the notifications are as the daemon makes them (a known kind of change, an interface, a port
    with its chassis) and that they come only to a client with a callback (without one the
    chassis is used after it is freed). *)
Theorem request_answered tries c n ss sr data type to_send t answer r rest changes req :
  conn_state c = CONN_STATE_IDLE → input_buffer c = [] → output_buffer c = [] →
  ss ≠ CONN_STATE_IDLE → sr ≠ CONN_STATE_IDLE →
  ctl_msg_send_unserialized [] type to_send = Some req →
  Forall (λ o, match o with Some k => (length req ≤ k)%nat | None => True end) (room n) →
  answers type t answer r → Forall is_change changes → (changes = [] ∨ watch_cb c = true) →
  stream n = notifications changes ++ message type answer ++ rest →
  (length (pieces n) + length (room n) < tries)%nat →
  ∃ c' n', try_again alloc tries c n ss sr data type to_send t = Some (0, r, c', n') ∧
    conn_state c' = CONN_STATE_IDLE ∧ input_buffer c' = [] ∧ output_buffer c' = [] ∧
    notified c' = notified c ++ callbacks (watch_cb c) changes ∧ accesses c' = accesses c ∧
    stream n' = rest ∧ written n' = written n ++ req.
Proof.
  intros Hidle Hin Hout Hss Hsr Hreq Hroom Ha Hch Hcalled Hstr Htries.
  destruct tries as [|tries]; [lia|]. rewrite <- Hout in Hreq.
  rewrite (try_again_build _ _ _ _ _ _ _ _ _ req) by done.
  assert (req ≠ []) as Hne.
  { rewrite Hout in Hreq. unfold ctl_msg_send_unserialized in Hreq.
    repeat case_match; simplify_eq/=; intros Hnil; apply (f_equal length) in Hnil;
      rewrite ?length_app, header_length in Hnil; cbn in Hnil; lia. }
  edestruct (try_again_answer type t answer r rest (watch_cb c)
    (notified c ++ callbacks (watch_cb c) changes) (accesses c) ss sr data req (written n) (conj Hss Hsr) Hne to_send
    (S tries)) as (r' & c' & n' & -> & -> & Hfin); [exact Ha| |exact Htries|].
  - left. exists changes. split; try done.
    + unfold data_matches. destruct data; [cbn; by rewrite bool_decide_true|done].
    + split; try done. exists (current type answer changes).
      split_and!; [destruct changes; apply message_ne|cbn; by rewrite Hin|].
      rewrite Hstr. apply next_message.
  - eexists _, _. split; [reflexivity|]. tauto.
Qed.
End Client.
