(* ===== verification/Client.v ===== *)
(** * Requests of the clients (src/daemon/client.c, src/daemon/event.c)

    A client sends serialized structures; the daemon rebuilds them in blocks of memory,
    reads their fields and changes its configuration or the settings of a port.  The
    blocks come from the client, who chooses the numbers that tie them together: a read
    outside a block, a string without end or a block that is freed twice is [None]. *)

From S2P Require Import Prelude Bytes Const Structs Frame Table TableOk TableInv TableSteps.
From S2P Require Import Marshal MarshalInfo Ctl.
From stdpp Require Import strings gmap.
#[local] Open Scope Z_scope.

Section Client.
Context `{BuildConfig}.
Variable alloc : nat → Z.
#[local] Abbreviation gc := (list (Z * list Z)).

#[local] Abbreviation deref := (deref alloc).
#[local] Abbreviation get_ptr := (get_ptr alloc).
#[local] Abbreviation get_str := (get_str alloc).

(** ** [client_handle_set_configuration] *)

(** The fields of the request that are looked at, in a configuration whose other fields
    are those of [old]. *)
Definition read_config (g : gc) (out : nat * Z) (old : lldpd_config) : option lldpd_config :=
  let int n := get_int g out config_members n in
  let str n := get_str g out config_members n in
  tx_interval ← int "c_tx_interval"%string;
  tx_hold ← int "c_tx_hold"%string;
  portid_type ← int "c_lldp_portid_type"%string;
  paused ← int "c_paused"%string;
  fast_start ← int "c_enable_fast_start"%string;
  fast_interval ← int "c_tx_fast_interval"%string;
  iface_pattern ← str "c_iface_pattern"%string;
  mgmt_pattern ← str "c_mgmt_pattern"%string;
  description ← str "c_description"%string;
  platform ← str "c_platform"%string;
  hostname ← str "c_hostname"%string;
  set_ifdescr ← int "c_set_ifdescr"%string;
  promisc ← int "c_promisc"%string;
  mac_type ← int "c_bond_slave_src_mac_type"%string;
  Some (old<|c_tx_interval := tx_interval|><|c_tx_hold := tx_hold|><|c_lldp_portid_type := portid_type|>
           <|c_paused := paused|><|c_enable_fast_start := fast_start|>
           <|c_tx_fast_interval := fast_interval|><|c_iface_pattern := iface_pattern|>
           <|c_mgmt_pattern := mgmt_pattern|><|c_description := description|>
           <|c_platform := platform|><|c_hostname := hostname|><|c_set_ifdescr := set_ifdescr|>
           <|c_promisc := promisc|><|c_bond_slave_src_mac_type := mac_type|>).

(** [lldpd_config_cleanup(config); free(config)] *)
Definition free_config (g : gc) (out : nat * Z) : option unit :=
  l ← mapM (get_ptr g out config_members)
        ["c_mgmt_pattern"; "c_cid_pattern"; "c_iface_pattern"; "c_hostname"; "c_platform";
         "c_description"]%string;
  free_all (l ++ [Some out.1]).

Definition levent_send_now (cfg : lldpd) : lldpd :=
  cfg<|g_events ::= λ l, l ++ map (SendNow ∘ h_ifname) (g_hardware cfg)|>.
Definition levent_update_now (cfg : lldpd) : lldpd := cfg<|g_events ::= λ l, l ++ [UpdateNow]|>.
(** [LOCAL_CHASSIS(cfg)->c_ttl = c_tx_interval * c_tx_hold], in 16 bits. *)
Definition update_ttl (cfg : lldpd) : lldpd :=
  match LOCAL_CHASSIS cfg with
  | Some p => cfg<|g_heap ::= alter (λ c, c<|c_ttl := u16 (c_tx_interval (g_config cfg) *
                                                         c_tx_hold (g_config cfg))|>) p|>
  | None => cfg
  end.
Definition CHANGED {A} `{EqDecision A} (w : lldpd_config → A) (config : lldpd_config) (cfg : lldpd) : bool :=
  bool_decide (w config ≠ w (g_config cfg)).

(** The changes, one after the other. *)
Definition set_tx_interval (config : lldpd_config) (cfg : lldpd) : lldpd :=
  if (CHANGED c_tx_interval config cfg && negb (c_tx_interval config =? 0))%bool then
    if c_tx_interval config <? 0 then levent_send_now cfg
    else update_ttl (cfg<|g_config ::= λ c, c<|c_tx_interval := c_tx_interval config|>|>)
  else cfg.
Definition set_tx_hold (config : lldpd_config) (cfg : lldpd) : lldpd :=
  if (CHANGED c_tx_hold config cfg && (0 <? c_tx_hold config))%bool then
    update_ttl (cfg<|g_config ::= λ c, c<|c_tx_hold := c_tx_hold config|>|>)
  else cfg.
Definition set_portid_type (config : lldpd_config) (cfg : lldpd) : lldpd :=
  if (CHANGED c_lldp_portid_type config cfg && (LLDP_PORTID_SUBTYPE_UNKNOWN <? c_lldp_portid_type config) &&
      (c_lldp_portid_type config <=? LLDP_PORTID_SUBTYPE_MAX))%bool then
    levent_update_now (cfg<|g_config ::= λ c, c<|c_lldp_portid_type := c_lldp_portid_type config|>|>)
  else cfg.
Definition set_paused (config : lldpd_config) (cfg : lldpd) : lldpd :=
  if CHANGED c_paused config cfg then
    levent_send_now (cfg<|g_config ::= λ c, c<|c_paused := c_paused config|>|>)
  else cfg.
Definition set_fast_start (config : lldpd_config) (cfg : lldpd) : lldpd :=
  if CHANGED c_enable_fast_start config cfg
  then cfg<|g_config ::= λ c, c<|c_enable_fast_start := c_enable_fast_start config|>|>
  else cfg.
Definition set_fast_interval (config : lldpd_config) (cfg : lldpd) : lldpd :=
  if (CHANGED c_tx_fast_interval config cfg && (0 <? c_tx_fast_interval config))%bool
  then cfg<|g_config ::= λ c, c<|c_tx_fast_interval := c_tx_fast_interval config|>|>
  else cfg.
(** A setting that is copied and makes the daemon refresh. *)
Definition set_and_update {A} `{EqDecision A} (w : lldpd_config → A) `{!Setter w} (config : lldpd_config)
    (cfg : lldpd) : lldpd :=
  if CHANGED w config cfg then levent_update_now (cfg<|g_config ::= λ c, set w (λ _, w config) c|>) else cfg.
Definition set_bond_mac (config : lldpd_config) (cfg : lldpd) : lldpd :=
  if (CHANGED c_bond_slave_src_mac_type config cfg &&
      (LLDP_BOND_SLAVE_SRC_MAC_TYPE_UNKNOWN <? c_bond_slave_src_mac_type config) &&
      (c_bond_slave_src_mac_type config <=? LLDP_BOND_SLAVE_SRC_MAC_TYPE_MAX))%bool
  then cfg<|g_config ::= λ c, c<|c_bond_slave_src_mac_type := c_bond_slave_src_mac_type config|>|>
  else cfg.

Definition apply_config (config : lldpd_config) (cfg : lldpd) : lldpd :=
  let cfg := set_tx_interval config cfg in
  let cfg := set_tx_hold config cfg in
  let cfg := set_portid_type config cfg in
  let cfg := set_paused config cfg in
  let cfg := set_fast_start config cfg in
  let cfg := set_fast_interval config cfg in
  let cfg := set_and_update c_iface_pattern config cfg in
  let cfg := set_and_update c_mgmt_pattern config cfg in
  let cfg := set_and_update c_description config cfg in
  let cfg := set_and_update c_platform config cfg in
  let cfg := set_and_update c_hostname config cfg in
  let cfg := set_and_update c_set_ifdescr config cfg in
  let cfg := set_and_update c_promisc config cfg in
  set_bond_mac config cfg.

(** ** Handlers *)

(** The answer: nothing, or a structure that is serialized. *)
Inductive answer :=
  | AEmpty
  | AConfig (config : lldpd_config)
  | AInterfaces (names : list (list Z))
  | AInterface (hw : lldpd_hardware).

(** A handler gives the type of the answer, the answer and the state. *)
#[local] Abbreviation handled := (option (Z * answer * lldpd)).

Definition client_handle_none (cfg : lldpd) : handled := Some (NONE, AEmpty, cfg).
Definition client_handle_get_configuration (cfg : lldpd) : handled :=
  Some (GET_CONFIG, AConfig (g_config cfg), cfg).
Definition client_handle_set_configuration (cfg : lldpd) (input : list Z) : handled :=
  match marshal_unserialize lldpd_infos alloc "lldpd_config" input with
  | UOk _ out g =>
      config ← read_config g out (g_config cfg);
      _ ← free_config g out;
      Some (SET_CONFIG, AEmpty, apply_config config cfg)
  | _ => Some (NONE, AEmpty, cfg)
  end.
Definition client_handle_get_interfaces (cfg : lldpd) : handled :=
  Some (GET_INTERFACES, AInterfaces (map h_ifname (g_hardware cfg)), cfg).
Definition client_handle_get_interface (cfg : lldpd) (input : list Z) : handled :=
  match marshal_unserialize lldpd_infos alloc null_string input with
  | UOk _ out g =>
      name ← get_string g out.1;
      match list_find (λ hw, h_ifname hw = name) (g_hardware cfg) with
      | Some (_, hw) => Some (GET_INTERFACE, AInterface hw, cfg)
      | None => Some (NONE, AEmpty, cfg)
      end
  | _ => Some (NONE, AEmpty, cfg)
  end.

(** ** [client_handle_set_port] *)

Definition read_policy (g : gc) (i : nat) : option lldpd_med_policy :=
  let u8 := get_u8 g (i, 0) med_policy_members in
  _ ← get_at g (i, 0) (sizeof med_policy_members);
  type ← u8 "type"%string; unknown ← u8 "unknown"%string; tagged ← u8 "tagged"%string;
  vid ← get_u16 g (i, 0) med_policy_members "vid"; priority ← u8 "priority"%string; dscp ← u8 "dscp"%string;
  Some {| pol_type := type; pol_unknown := unknown; pol_tagged := tagged; pol_vid := vid;
          pol_priority := priority; pol_dscp := dscp |}.
(** The data is copied: [malloc] gives NULL for a negative size. *)
Definition read_loc (g : gc) (i : nat) : option lldpd_med_loc :=
  _ ← get_at g (i, 0) (sizeof med_loc_members);
  format ← get_u8 g (i, 0) med_loc_members "format";
  len ← get_int g (i, 0) med_loc_members "data_len";
  p ← get_ptr g (i, 0) med_loc_members "data";
  data ← match p with
         | Some j => if len <? 0 then Some [] else get_at g (j, 0) len
         | None => Some []
         end;
  Some {| loc_format := format; loc_data := data |}.
Definition read_med_power (g : gc) (i : nat) : option lldpd_med_power :=
  let u8 := get_u8 g (i, 0) med_power_members in
  devicetype ← u8 "devicetype"%string; source ← u8 "source"%string; priority ← u8 "priority"%string;
  val ← get_u16 g (i, 0) med_power_members "val";
  Some {| mpow_devicetype := devicetype; mpow_source := source; mpow_priority := priority; mpow_val := val |}.
Definition read_dot3_power (g : gc) (i : nat) : option lldpd_dot3_power :=
  let u8 := get_u8 g (i, 0) dot3_power_members in
  let u16 := get_u16 g (i, 0) dot3_power_members in
  devicetype ← u8 "devicetype"%string; supported ← u8 "supported"%string; enabled ← u8 "enabled"%string;
  paircontrol ← u8 "paircontrol"%string; pairs ← u8 "pairs"%string; class ← u8 "class"%string;
  powertype ← u8 "powertype"%string; source ← u8 "source"%string; priority ← u8 "priority"%string;
  requested ← u16 "requested"%string; allocated ← u16 "allocated"%string;
  Some {| pow_devicetype := devicetype; pow_supported := supported; pow_enabled := enabled;
          pow_paircontrol := paircontrol; pow_pairs := pairs; pow_class := class;
          pow_powertype := powertype; pow_source := source; pow_priority := priority;
          pow_requested := requested; pow_allocated := allocated |}.

(** The changes to the port; [false] when the request is refused. *)
Definition set_policy (g : gc) (i : nat) (port : lldpd_port) : option (lldpd_port * bool) :=
  type ← get_u8 g (i, 0) med_policy_members "type";
  if type =? 0 then Some (port, true)
  else if LLDP_MED_APPTYPE_LAST <? type then Some (port, false)
  else
    policy ← read_policy g i;
    Some (port<|p_med_policy ::= <[Z.to_nat (type - 1) := policy]>|>
              <|p_med_cap_enabled ::= λ c, Z.lor c LLDP_MED_CAP_POLICY|>, true).
Definition set_location (g : gc) (i : nat) (port : lldpd_port) : option (lldpd_port * bool) :=
  format ← get_u8 g (i, 0) med_loc_members "format";
  if format =? 0 then Some (port, true)
  else if LLDP_MED_LOCFORMAT_LAST <? format then Some (port, false)
  else
    loc ← read_loc g i;
    Some (port<|p_med_location ::= <[Z.to_nat (format - 1) := loc]>|>
              <|p_med_cap_enabled ::= λ c, Z.lor c LLDP_MED_CAP_LOCATION|>, true).
Definition set_power_over_med (g : gc) (i : nat) (port : lldpd_port) : option (lldpd_port * bool) :=
  power ← read_med_power g i;
  let port := port<|p_med_power := power|> in
  Some (if mpow_devicetype power =? LLDP_MED_POW_TYPE_PD then
          port<|p_med_cap_enabled ::= λ c, Z.land (Z.lor c LLDP_MED_CAP_MDI_PD) (Z.lnot LLDP_MED_CAP_MDI_PSE)|>
        else if mpow_devicetype power =? LLDP_MED_POW_TYPE_PSE then
          port<|p_med_cap_enabled ::= λ c, Z.land (Z.lor c LLDP_MED_CAP_MDI_PSE) (Z.lnot LLDP_MED_CAP_MDI_PD)|>
        else port, true).
Definition set_dot3_power (g : gc) (i : nat) (port : lldpd_port) : option (lldpd_port * bool) :=
  power ← read_dot3_power g i; Some (port<|p_power := power|>, true).

(** The pointers of the request. *)
Record port_set := {
  ps_policy : option nat; ps_location : option nat; ps_power : option nat; ps_dot3 : option nat
}.
Definition when (p : option nat) (f : nat → lldpd_port → option (lldpd_port * bool)) (port : lldpd_port)
    : option (lldpd_port * bool) :=
  match p with None => Some (port, true) | Some i => f i port end.
(** A refusal stops, and what was changed before stays. *)
Definition apply_port_set (g : gc) (s : port_set) (port : lldpd_port) : option (lldpd_port * bool) :=
  '(port, ok) ← when (ps_policy s) (set_policy g) port;
  if negb ok then Some (port, false) else
  '(port, ok) ← when (ps_location s) (set_location g) port;
  if negb ok then Some (port, false) else
  '(port, _) ← when (ps_power s) (set_power_over_med g) port;
  when (ps_dot3 s) (set_dot3_power g) port.

(** The end of the handler; [set] itself is not freed. *)
Definition free_port_set (g : gc) (ifname : option nat) (s : port_set) : option unit :=
  data ← match ps_location s with
         | Some i => get_ptr g (i, 0) med_loc_members "data"
         | None => Some None
         end;
  free_all [ifname; ps_policy s; data; ps_location s; ps_power s; ps_dot3 s].

Definition set_named_port (g : gc) (s : port_set) (name : list Z) (cfg : lldpd) : option (lldpd * bool) :=
  match list_find (λ hw, h_ifname hw = name) (g_hardware cfg) with
  | Some (i, hw) =>
      '(port, ok) ← apply_port_set g s (h_lport hw);
      Some (cfg<|g_hardware ::= <[i := hw<|h_lport := port|>]>|>, ok)
  | None => Some (cfg, false)
  end.
Definition client_handle_set_port (cfg : lldpd) (input : list Z) : handled :=
  match marshal_unserialize lldpd_infos alloc "lldpd_port_set" input with
  | UOk _ out g =>
      let ptr n := get_ptr g out port_set_members n in
      ifname ← ptr "ifname"%string; policy ← ptr "med_policy"%string; location ← ptr "med_location"%string;
      power ← ptr "med_power"%string; dot3 ← ptr "dot3_power"%string;
      let s := {| ps_policy := policy; ps_location := location; ps_power := power; ps_dot3 := dot3 |} in
      '(cfg, ok) ← match ifname return option (lldpd * bool) with
                   | Some i => name ← get_string g i; set_named_port g s name cfg
                   | None => Some (cfg, false)
                   end;
      _ ← free_port_set g ifname s;
      Some (if ok : bool then SET_PORT else NONE, AEmpty, cfg)
  | _ => Some (NONE, AEmpty, cfg)
  end.

(** ** [client_handle_client] and [levent_ctl_recv] *)

(** What becomes of a client after a message: the daemon may also crash. *)
Inductive served :=
  | Crash
  | Dropped
  | Waiting
  | Served (cfg : lldpd) (subscribed : bool) (reply : option (Z * answer)) (rest : list Z).

(** [subscribed] is the flag of the client; [None] for a message of an unknown type. *)
Definition client_handle_client (cfg : lldpd) (type : Z) (input : list Z) (subscribed : bool)
    : option (handled * bool) :=
  if type =? NONE then Some (client_handle_none cfg, subscribed)
  else if type =? GET_CONFIG then Some (client_handle_get_configuration cfg, subscribed)
  else if type =? SET_CONFIG then Some (client_handle_set_configuration cfg input, subscribed)
  else if type =? GET_INTERFACES then Some (client_handle_get_interfaces cfg, subscribed)
  else if type =? GET_INTERFACE then Some (client_handle_get_interface cfg input, subscribed)
  else if type =? SET_PORT then Some (client_handle_set_port cfg input, subscribed)
  else if type =? SUBSCRIBE then Some (Some (SUBSCRIBE, AEmpty, cfg), true)
  else None.

Definition serve_client (cfg : lldpd) (subscribed : bool) (buffer : list Z) : served :=
  match levent_ctl_recv buffer with
  | Wait => Waiting
  | Drop => Dropped
  | Ignore rest => Served cfg subscribed None rest
  | Handle type data rest =>
      match client_handle_client cfg type data subscribed with
      | None => Dropped
      | Some (None, _) => Crash
      | Some (Some (type, reply, cfg), subscribed) => Served cfg subscribed (Some (type, reply)) rest
      end
  end.
End Client.

(** ** What a change of configuration does *)

(** The new configuration: values out of range are ignored. *)
Definition in_range (low high new old : Z) : Z := if ((low <? new) && (new <=? high))%bool then new else old.
Definition positive (new old : Z) : Z := if 0 <? new then new else old.
Definition merged (new old : lldpd_config) : lldpd_config :=
  old<|c_tx_interval ::= positive (c_tx_interval new)|><|c_tx_hold ::= positive (c_tx_hold new)|>
     <|c_lldp_portid_type ::= in_range LLDP_PORTID_SUBTYPE_UNKNOWN LLDP_PORTID_SUBTYPE_MAX
                                (c_lldp_portid_type new)|>
     <|c_paused := c_paused new|><|c_enable_fast_start := c_enable_fast_start new|>
     <|c_tx_fast_interval ::= positive (c_tx_fast_interval new)|>
     <|c_iface_pattern := c_iface_pattern new|><|c_mgmt_pattern := c_mgmt_pattern new|>
     <|c_description := c_description new|><|c_platform := c_platform new|>
     <|c_hostname := c_hostname new|><|c_set_ifdescr := c_set_ifdescr new|>
     <|c_promisc := c_promisc new|>
     <|c_bond_slave_src_mac_type ::= in_range LLDP_BOND_SLAVE_SRC_MAC_TYPE_UNKNOWN
                                       LLDP_BOND_SLAVE_SRC_MAC_TYPE_MAX (c_bond_slave_src_mac_type new)|>.

(** The announced time to live is the product of the interval and of the hold. *)
Definition ttl_ok (local : nat) (cfg : lldpd) : Prop :=
  ∀ c, g_heap cfg !! local = Some c → c_ttl c = u16 (c_tx_interval (g_config cfg) * c_tx_hold (g_config cfg)).

(** What a change leaves alone: all but the configuration, the events and the time to live
    of the local chassis. *)
Record reconfigured (local : nat) (cfg cfg' : lldpd) : Prop := {
  rc_hardware : g_hardware cfg' = g_hardware cfg;
  rc_protocols : g_protocols cfg' = g_protocols cfg;
  rc_chassis : g_chassis cfg' = g_chassis cfg;
  rc_alloc : g_alloc cfg' = g_alloc cfg;
  rc_heap : ∃ ttl : lldpd_chassis → Z, g_heap cfg' = alter (λ c, c<|c_ttl := ttl c|>) local (g_heap cfg);
  rc_ttl : ttl_ok local cfg → ttl_ok local cfg'
}.

Lemma alter_same {A} (f : A → A) (k : nat) (m : gmap nat A) : (∀ a, f a = a) → alter f k m = m.
Proof.
  intros Hf. apply map_eq. intros i. destruct (decide (k = i)) as [->|Hne].
  - rewrite lookup_alter_eq. destruct (m !! i); [|done]. cbn. by rewrite Hf.
  - by rewrite lookup_alter_ne.
Qed.

Section Reconfigure.
Variable local : nat.
Implicit Types (cfg : lldpd) (config : lldpd_config).

#[local] Instance reconfigured_refl : Reflexive (reconfigured local).
Proof. intros cfg. split; try done. exists c_ttl. symmetry. apply alter_same. by intros []. Qed.
#[local] Instance reconfigured_trans : Transitive (reconfigured local).
Proof.
  intros x y z [A1 A2 A3 A4 [f A5] A6] [B1 B2 B3 B4 [f' B5] B6]. split; try congruence; [|tauto].
  exists (λ c, f' (c<|c_ttl := f c|>)). rewrite B5, A5. apply map_eq. intros i.
  destruct (decide (local = i)) as [->|Hne].
  - rewrite !lookup_alter_eq. by destruct (g_heap x !! i).
  - by rewrite !lookup_alter_ne.
Qed.

(** A change of the configuration that does not concern the time to live, with some events. *)
Lemma reconfigured_config cfg f ev :
  (∀ c, c_tx_interval (f c) = c_tx_interval c ∧ c_tx_hold (f c) = c_tx_hold c) →
  reconfigured local cfg (cfg<|g_config ::= f|><|g_events ::= ev|>).
Proof.
  intros Hf. split; try done.
  - exists c_ttl. symmetry. apply alter_same. by intros [].
  - intros Ht c Hc. cbn. destruct (Hf (g_config cfg)) as [-> ->]. by apply Ht.
Qed.
Lemma reconfigured_ttl cfg f :
  LOCAL_CHASSIS cfg = Some local → reconfigured local cfg (update_ttl (cfg<|g_config ::= f|>)).
Proof.
  intros Hl. unfold update_ttl.
  change (LOCAL_CHASSIS cfg<|g_config ::= f|>) with (LOCAL_CHASSIS cfg). rewrite Hl. split; try done.
  - by eexists (λ _, _).
  - intros _ c. cbn. rewrite lookup_alter_eq. destruct (g_heap cfg !! local); [|done]. by intros [= <-].
Qed.

(** One setting: the configuration it gives, and nothing else changes. *)
Definition sets cfg cfg' (f : lldpd_config → lldpd_config) : Prop :=
  g_config cfg' = f (g_config cfg) ∧ reconfigured local cfg cfg'.

Lemma sets_same cfg f : f (g_config cfg) = g_config cfg → sets cfg cfg f.
Proof. intros Hf. by split. Qed.
Lemma sets_trans cfg cfg1 cfg2 f f' :
  sets cfg cfg1 f → sets cfg1 cfg2 f' → sets cfg cfg2 (λ c, f' (f c)).
Proof. intros [H1 H2] [H3 H4]. split; [congruence|by etrans]. Qed.

Lemma changed_false {A} `{EqDecision A} (w : lldpd_config → A) config cfg :
  CHANGED w config cfg = false → w config = w (g_config cfg).
Proof. unfold CHANGED. intros Hc%bool_decide_eq_false. by apply dec_stable. Qed.

Lemma set_tx_interval_ok config cfg :
  LOCAL_CHASSIS cfg = Some local →
  sets cfg (set_tx_interval config cfg) (λ c, c<|c_tx_interval ::= positive (c_tx_interval config)|>).
Proof.
  intros Hl. unfold set_tx_interval, positive. destruct (CHANGED _ _ _) eqn:Hc.
  - destruct (Z.eqb_spec (c_tx_interval config) 0) as [H0|H0]; cbn [andb negb].
    { apply sets_same. rewrite H0. by destruct (g_config cfg). }
    destruct (Z.ltb_spec (c_tx_interval config) 0).
    + rewrite (proj2 (Z.ltb_ge _ _)) by lia. split; [cbn; by destruct (g_config cfg)|].
      apply (reconfigured_config cfg (λ c, c)). done.
    + rewrite (proj2 (Z.ltb_lt _ _)) by lia. split; [|by apply reconfigured_ttl].
      unfold update_ttl. by case_match.
  - cbn [andb]. apply changed_false in Hc. apply sets_same. rewrite Hc. case_match; by destruct (g_config cfg).
Qed.

Lemma set_tx_hold_ok config cfg :
  LOCAL_CHASSIS cfg = Some local →
  sets cfg (set_tx_hold config cfg) (λ c, c<|c_tx_hold ::= positive (c_tx_hold config)|>).
Proof.
  intros Hl. unfold set_tx_hold, positive. destruct (CHANGED _ _ _) eqn:Hc.
  - destruct (0 <? c_tx_hold config); cbn [andb]; [|apply sets_same; by destruct (g_config cfg)].
    split; [|by apply reconfigured_ttl]. unfold update_ttl. by case_match.
  - cbn [andb]. apply changed_false in Hc. apply sets_same. rewrite Hc. case_match; by destruct (g_config cfg).
Qed.

(** The settings that have nothing to do with the time to live: copied when [ok]. *)
Lemma sets_copied {A} `{EqDecision A} (w : lldpd_config → A) `{!Setter w} config cfg (ok : bool) ev :
  (∀ c, set w (λ _, w c) c = c) →
  (∀ c v, c_tx_interval (set w (λ _, v) c) = c_tx_interval c ∧ c_tx_hold (set w (λ _, v) c) = c_tx_hold c) →
  sets cfg (if (CHANGED w config cfg && ok)%bool
            then cfg<|g_config ::= set w (λ _, w config)|><|g_events ::= ev|> else cfg)
    (λ c, if ok then set w (λ _, w config) c else c).
Proof.
  intros Hid Hw. destruct (CHANGED w config cfg) eqn:Hc; destruct ok; cbn [andb]; try by apply sets_same.
  - split; [done|]. apply reconfigured_config. intros c. apply Hw.
  - apply changed_false in Hc. apply sets_same. by rewrite Hc.
Qed.
Lemma set_and_update_ok {A} `{EqDecision A} (w : lldpd_config → A) `{!Setter w} config cfg :
  (∀ c, set w (λ _, w c) c = c) →
  (∀ c v, c_tx_interval (set w (λ _, v) c) = c_tx_interval c ∧ c_tx_hold (set w (λ _, v) c) = c_tx_hold c) →
  sets cfg (set_and_update w config cfg) (set w (λ _, w config)).
Proof.
  intros Hid Hw. pose proof (sets_copied w config cfg true (λ l, l ++ [UpdateNow]) Hid Hw) as Hs.
  unfold set_and_update. by rewrite andb_true_r in Hs.
Qed.

Lemma set_portid_type_ok config cfg :
  sets cfg (set_portid_type config cfg)
    (λ c, c<|c_lldp_portid_type ::= in_range LLDP_PORTID_SUBTYPE_UNKNOWN LLDP_PORTID_SUBTYPE_MAX
                                      (c_lldp_portid_type config)|>).
Proof.
  unfold set_portid_type. rewrite <- andb_assoc.
  destruct (sets_copied c_lldp_portid_type config cfg
    ((LLDP_PORTID_SUBTYPE_UNKNOWN <? c_lldp_portid_type config) &&
     (c_lldp_portid_type config <=? LLDP_PORTID_SUBTYPE_MAX)) (λ l, l ++ [UpdateNow])) as [Hs1 Hs2];
    [by intros []|done|]. split; [|exact Hs2].
  etrans; [exact Hs1|]. unfold in_range. clear Hs1 Hs2. destruct (_ && _); by destruct (g_config cfg).
Qed.
Lemma set_paused_ok config cfg : sets cfg (set_paused config cfg) (λ c, c<|c_paused := c_paused config|>).
Proof.
  destruct (sets_copied c_paused config cfg true (λ l, l ++ map (SendNow ∘ h_ifname) (g_hardware cfg)))
    as [Hs1 Hs2]; [by intros []|done|]. rewrite andb_true_r in Hs1, Hs2. by split.
Qed.
Lemma sets_quiet {A} `{EqDecision A} (w : lldpd_config → A) `{!Setter w} config cfg (ok : bool) :
  (∀ c, set w (λ _, w c) c = c) →
  (∀ c v, c_tx_interval (set w (λ _, v) c) = c_tx_interval c ∧ c_tx_hold (set w (λ _, v) c) = c_tx_hold c) →
  sets cfg (if (CHANGED w config cfg && ok)%bool then cfg<|g_config ::= set w (λ _, w config)|> else cfg)
    (λ c, if ok then set w (λ _, w config) c else c).
Proof. intros Hid Hw. exact (sets_copied w config cfg ok (λ l, l) Hid Hw). Qed.
Lemma set_fast_start_ok config cfg :
  sets cfg (set_fast_start config cfg) (λ c, c<|c_enable_fast_start := c_enable_fast_start config|>).
Proof.
  destruct (sets_quiet c_enable_fast_start config cfg true) as [Hs1 Hs2]; [by intros []|done|].
  rewrite andb_true_r in Hs1, Hs2. by split.
Qed.
Lemma set_fast_interval_ok config cfg :
  sets cfg (set_fast_interval config cfg) (λ c, c<|c_tx_fast_interval ::= positive (c_tx_fast_interval config)|>).
Proof.
  destruct (sets_quiet c_tx_fast_interval config cfg (0 <? c_tx_fast_interval config)) as [Hs1 Hs2];
    [by intros []|done|]. split; [|exact Hs2].
  etrans; [exact Hs1|]. unfold positive. clear Hs1 Hs2. destruct (0 <? _); by destruct (g_config cfg).
Qed.
Lemma set_bond_mac_ok config cfg :
  sets cfg (set_bond_mac config cfg)
    (λ c, c<|c_bond_slave_src_mac_type ::= in_range LLDP_BOND_SLAVE_SRC_MAC_TYPE_UNKNOWN
               LLDP_BOND_SLAVE_SRC_MAC_TYPE_MAX (c_bond_slave_src_mac_type config)|>).
Proof.
  unfold set_bond_mac. rewrite <- andb_assoc.
  destruct (sets_quiet c_bond_slave_src_mac_type config cfg
    ((LLDP_BOND_SLAVE_SRC_MAC_TYPE_UNKNOWN <? c_bond_slave_src_mac_type config) &&
     (c_bond_slave_src_mac_type config <=? LLDP_BOND_SLAVE_SRC_MAC_TYPE_MAX))) as [Hs1 Hs2];
    [by intros []|done|]. split; [|exact Hs2].
  etrans; [exact Hs1|]. unfold in_range. clear Hs1 Hs2. destruct (_ && _); by destruct (g_config cfg).
Qed.

Lemma sets_local cfg cfg' f :
  sets cfg cfg' f → LOCAL_CHASSIS cfg = Some local → LOCAL_CHASSIS cfg' = Some local.
Proof. intros [_ Hr]. unfold LOCAL_CHASSIS. by rewrite (rc_chassis _ _ _ Hr). Qed.

Lemma apply_config_sets config cfg :
  LOCAL_CHASSIS cfg = Some local → sets cfg (apply_config config cfg) (merged config).
Proof.
  intros Hl. unfold apply_config. cbv zeta.
  pose proof (set_tx_interval_ok config cfg Hl) as H1.
  pose proof (set_tx_hold_ok config _ (sets_local _ _ _ H1 Hl)) as H2.
  pose proof (sets_trans _ _ _ _ _ H1 H2) as Hs. clear H1 H2.
  assert (∀ cfg1 f, sets cfg cfg1 f → ∀ op f', (∀ x, sets x (op x) f') → sets cfg (op cfg1) (λ c, f' (f c)))
    as Hnext by (intros cfg1 f H1 op f' H2; eapply sets_trans; [exact H1|apply H2]).
  apply (λ s, Hnext _ _ s _ _ (set_portid_type_ok config)) in Hs.
  apply (λ s, Hnext _ _ s _ _ (set_paused_ok config)) in Hs.
  apply (λ s, Hnext _ _ s _ _ (set_fast_start_ok config)) in Hs.
  apply (λ s, Hnext _ _ s _ _ (set_fast_interval_ok config)) in Hs.
  assert (∀ cfg1 f A (eqd : EqDecision A) (w : lldpd_config → A) (sw : Setter w), sets cfg cfg1 f →
    (∀ c, set w (λ _, w c) c = c) →
    (∀ c v, c_tx_interval (set w (λ _, v) c) = c_tx_interval c ∧
            c_tx_hold (set w (λ _, v) c) = c_tx_hold c) →
    sets cfg (set_and_update w config cfg1) (λ c, set w (λ _, w config) (f c))) as Hcopy.
  { intros cfg1 f A eqd w sw H1 H2 H3. exact (Hnext _ _ H1 _ _ (λ x, set_and_update_ok w config x H2 H3)). }
  apply (Hcopy _ _ _ _ c_iface_pattern _) in Hs; [|by intros []|done].
  apply (Hcopy _ _ _ _ c_mgmt_pattern _) in Hs; [|by intros []|done].
  apply (Hcopy _ _ _ _ c_description _) in Hs; [|by intros []|done].
  apply (Hcopy _ _ _ _ c_platform _) in Hs; [|by intros []|done].
  apply (Hcopy _ _ _ _ c_hostname _) in Hs; [|by intros []|done].
  apply (Hcopy _ _ _ _ c_set_ifdescr _) in Hs; [|by intros []|done].
  apply (Hcopy _ _ _ _ c_promisc _) in Hs; [|by intros []|done].
  apply (λ s, Hnext _ _ s _ _ (set_bond_mac_ok config)) in Hs. exact Hs.
Qed.
End Reconfigure.

(** ** What a change of port does *)

(** Only the settings a client may change differ. *)
Definition same_port (old new : lldpd_port) : Prop :=
  ∃ policies locations mpower power cap,
    new = old<|p_med_policy := policies|><|p_med_location := locations|><|p_med_power := mpower|>
             <|p_power := power|><|p_med_cap_enabled := cap|>.
#[global] Instance same_port_refl : Reflexive same_port.
Proof. intros []. by eexists _, _, _, _, _. Qed.
#[global] Instance same_port_trans : Transitive same_port.
Proof.
  intros x y z (a1 & b1 & c1 & d1 & e1 & ->) (a2 & b2 & c2 & d2 & e2 & ->).
  exists a2, b2, c2, d2, e2. by destruct x.
Qed.
(** A change of some of them. *)
Ltac same_port :=
  match goal with
  | |- same_port ?p ?q =>
      exists (p_med_policy q), (p_med_location q), (p_med_power q), (p_power q), (p_med_cap_enabled q);
      destruct p; reflexivity
  end.

(** The numbers of the bits of [p_med_cap_enabled]. *)
Definition bit_policy : Z := 1.
Definition bit_location : Z := 2.
Definition bit_pse : Z := 3.
Definition bit_pd : Z := 4.

Section Port.
Context `{BuildConfig}.
Variables (alloc : nat → Z) (g : list (Z * list Z)).
Implicit Types port : lldpd_port.

(** What one part of a request stores. *)
Definition stored_policy (p : option nat) port port' : Prop :=
  match p with
  | None => p_med_policy port' = p_med_policy port
  | Some i => ∃ type, get_u8 g (i, 0) med_policy_members "type" = Some type ∧ type ≤ LLDP_MED_APPTYPE_LAST ∧
      if type =? 0 then p_med_policy port' = p_med_policy port
      else ∃ policy, read_policy g i = Some policy ∧ Z.testbit (p_med_cap_enabled port') bit_policy = true ∧
             p_med_policy port' = <[Z.to_nat (type - 1) := policy]> (p_med_policy port)
  end.
Definition stored_location (p : option nat) port port' : Prop :=
  match p with
  | None => p_med_location port' = p_med_location port
  | Some i => ∃ format, get_u8 g (i, 0) med_loc_members "format" = Some format ∧
      format ≤ LLDP_MED_LOCFORMAT_LAST ∧
      if format =? 0 then p_med_location port' = p_med_location port
      else ∃ loc, read_loc alloc g i = Some loc ∧ Z.testbit (p_med_cap_enabled port') bit_location = true ∧
             p_med_location port' = <[Z.to_nat (format - 1) := loc]> (p_med_location port)
  end.
(** A device is powered or powers, not both. *)
Definition stored_power (p : option nat) port port' : Prop :=
  match p with
  | None => p_med_power port' = p_med_power port
  | Some i => read_med_power g i = Some (p_med_power port') ∧
      (mpow_devicetype (p_med_power port') = LLDP_MED_POW_TYPE_PD →
         Z.testbit (p_med_cap_enabled port') bit_pd = true ∧ Z.testbit (p_med_cap_enabled port') bit_pse = false) ∧
      (mpow_devicetype (p_med_power port') = LLDP_MED_POW_TYPE_PSE →
         Z.testbit (p_med_cap_enabled port') bit_pse = true ∧ Z.testbit (p_med_cap_enabled port') bit_pd = false)
  end.
Definition stored_dot3 (p : option nat) port port' : Prop :=
  match p with
  | None => p_power port' = p_power port
  | Some i => read_dot3_power g i = Some (p_power port')
  end.
Record stored (s : port_set) port port' : Prop := {
  st_policy : stored_policy (ps_policy s) port port';
  st_location : stored_location (ps_location s) port port';
  st_power : stored_power (ps_power s) port port';
  st_dot3 : stored_dot3 (ps_dot3 s) port port'
}.

(** Setting and clearing bits of constants, one bit at a time. *)
Lemma testbit_set_clear c s m n :
  0 ≤ n → Z.testbit (Z.land (Z.lor c s) (Z.lnot m)) n = ((Z.testbit c n || Z.testbit s n) && negb (Z.testbit m n))%bool.
Proof. intros Hn. by rewrite Z.land_spec, Z.lor_spec, Z.lnot_spec. Qed.

Lemma when_policy p port port' ok :
  when p (set_policy g) port = Some (port', ok) →
  same_port port port' ∧ p_med_location port' = p_med_location port ∧ p_med_power port' = p_med_power port ∧
  p_power port' = p_power port ∧ (ok = true → stored_policy p port port').
Proof.
  destruct p as [i|]; [|intros [= <- <-]; by split_and!]. cbn [when]. unfold set_policy.
  destruct (get_u8 _ _ _ _) as [type|] eqn:Ht; [|done]. cbn [mbind option_bind].
  destruct (Z.eqb_spec type 0) as [->|H0].
  { intros [= <- <-]. split_and!; [done..|]. intros _. exists 0. by split_and!. }
  destruct (Z.ltb_spec LLDP_MED_APPTYPE_LAST type) as [Hl|Hl]; [intros [= <- <-]; by split_and!|].
  destruct (read_policy g i) as [policy|] eqn:Hr; [|done]. cbn [mbind option_bind]. intros [= <- <-].
  split_and!; [same_port|done..|]. intros _. exists type. split_and!; [done|done|].
  rewrite (proj2 (Z.eqb_neq _ _)) by done. exists policy. split_and!; [done| |done].
  etrans; [apply (Z.lor_spec (p_med_cap_enabled port))|apply orb_true_r].
Qed.
Lemma when_location p port port' ok :
  when p (set_location alloc g) port = Some (port', ok) →
  same_port port port' ∧ p_med_policy port' = p_med_policy port ∧ p_med_power port' = p_med_power port ∧
  p_power port' = p_power port ∧ (ok = true → stored_location p port port') ∧
  (Z.testbit (p_med_cap_enabled port) bit_policy = true → Z.testbit (p_med_cap_enabled port') bit_policy = true).
Proof.
  destruct p as [i|]; [|intros [= <- <-]; by split_and!]. cbn [when]. unfold set_location.
  destruct (get_u8 _ _ _ _) as [type|] eqn:Ht; [|done]. cbn [mbind option_bind].
  destruct (Z.eqb_spec type 0) as [->|H0].
  { intros [= <- <-]. split_and!; [done..| |done]. intros _. exists 0. by split_and!. }
  destruct (Z.ltb_spec LLDP_MED_LOCFORMAT_LAST type) as [Hl|Hl]; [intros [= <- <-]; by split_and!|].
  destruct (read_loc alloc g i) as [loc|] eqn:Hr; [|done]. cbn [mbind option_bind]. intros [= <- <-].
  split_and!; [same_port|done..| |].
  - intros _. exists type. split_and!; [done|done|].
    rewrite (proj2 (Z.eqb_neq _ _)) by done. exists loc. split_and!; [done| |done].
    etrans; [apply (Z.lor_spec (p_med_cap_enabled port))|apply orb_true_r].
  - intros Hb. etrans; [apply (Z.lor_spec (p_med_cap_enabled port))|]. by rewrite Hb.
Qed.
Lemma when_power p port port' ok :
  when p (set_power_over_med g) port = Some (port', ok) →
  same_port port port' ∧ p_med_policy port' = p_med_policy port ∧ p_med_location port' = p_med_location port ∧
  p_power port' = p_power port ∧ stored_power p port port' ∧
  (∀ n, n = bit_policy ∨ n = bit_location →
     Z.testbit (p_med_cap_enabled port) n = true → Z.testbit (p_med_cap_enabled port') n = true).
Proof.
  destruct p as [i|]; [|intros [= <- <-]; by split_and!]. cbn [when]. unfold set_power_over_med, stored_power.
  destruct (read_med_power g i) as [power|] eqn:Hr; [|done]. cbn [mbind option_bind].
  destruct (Z.eqb_spec (mpow_devicetype power) LLDP_MED_POW_TYPE_PD) as [Hd|Hd];
    [|destruct (Z.eqb_spec (mpow_devicetype power) LLDP_MED_POW_TYPE_PSE) as [He|He]];
    intros [= <- <-]; (split; [same_port|]); split_and!; try done; cbn -[Z.lor Z.land Z.testbit];
    rewrite ?testbit_set_clear by done.
  all: try (intros n Hn Hb; rewrite testbit_set_clear, Hb by (destruct Hn as [-> | ->]; done);
            by destruct Hn as [-> | ->]).
  all: intros Hp; rewrite ?Hd, ?He in Hp; try done; rewrite ?orb_true_r, ?andb_false_r; by split.
Qed.
Lemma when_dot3 p port port' ok :
  when p (set_dot3_power g) port = Some (port', ok) →
  same_port port port' ∧ p_med_policy port' = p_med_policy port ∧ p_med_location port' = p_med_location port ∧
  p_med_power port' = p_med_power port ∧ p_med_cap_enabled port' = p_med_cap_enabled port ∧
  stored_dot3 p port port'.
Proof.
  destruct p as [i|]; [|intros [= <- <-]; by split_and!]. cbn [when]. unfold set_dot3_power.
  destruct (read_dot3_power g i) as [power|] eqn:Hr; [|done]. cbn [mbind option_bind]. intros [= <- <-].
  split; [same_port|]. by split_and!.
Qed.

Lemma set_port_stored s port port' ok :
  apply_port_set alloc g s port = Some (port', ok) → same_port port port' ∧ (ok = true → stored s port port').
Proof.
  unfold apply_port_set.
  destruct (when (ps_policy s) _ _) as [[port1 ok1]|] eqn:H1; [|done]. cbn [mbind option_bind].
  apply when_policy in H1 as (S1 & L1 & P1 & D1 & T1). destruct ok1; cbn [negb]; [|by intros [= <- <-]].
  destruct (when (ps_location s) _ _) as [[port2 ok2]|] eqn:H2; [|done]. cbn [mbind option_bind].
  apply when_location in H2 as (S2 & L2 & P2 & D2 & T2 & B2).
  destruct ok2; cbn [negb]; [|intros [= <- <-]; split; [by etrans|done]].
  destruct (when (ps_power s) _ _) as [[port3 ok3]|] eqn:H3; [|done]. cbn [mbind option_bind].
  apply when_power in H3 as (S3 & L3 & P3 & D3 & T3 & B3).
  intros H4. apply when_dot3 in H4 as (S4 & L4 & P4 & D4 & C4 & T4).
  split; [etrans; [|exact S4]; etrans; [|exact S3]; by etrans|]. intros _. split.
  - specialize (T1 eq_refl). unfold stored_policy in *. destruct (ps_policy s); [|congruence].
    destruct T1 as (type & Ht & Hl & Hrest). exists type. split_and!; [done|done|].
    case_match; [congruence|]. destruct Hrest as (policy & Hr & Hb & He).
    exists policy. split_and!; [done| |congruence]. rewrite C4. apply B3; [by left|]. by apply B2.
  - specialize (T2 eq_refl). unfold stored_location in *. destruct (ps_location s); [|congruence].
    destruct T2 as (type & Ht & Hl & Hrest). exists type. split_and!; [done|done|].
    case_match; [congruence|]. destruct Hrest as (loc & Hr & Hb & He).
    exists loc. split_and!; [done| |congruence]. rewrite C4. apply B3; [by right|done].
  - unfold stored_power in *. destruct (ps_power s); [by rewrite D4, C4|congruence].
  - unfold stored_dot3 in *. destruct (ps_dot3 s); [done|congruence].
Qed.
End Port.

Section Serve.
Context `{BuildConfig}.
Variable alloc : nat → Z.
Implicit Types cfg : lldpd.

(** The ways a request to change a port ends. *)
Lemma handle_set_port_cases cfg input type reply cfg' :
  client_handle_set_port alloc cfg input = Some (type, reply, cfg') →
  type = NONE ∧ cfg' = cfg ∨
  ∃ total out g s name i hw port (ok : bool),
    marshal_unserialize lldpd_infos alloc "lldpd_port_set" input = UOk total out g ∧
    get_str alloc g out port_set_members "ifname" = Some (Some name) ∧
    get_ptr alloc g out port_set_members "med_policy" = Some (ps_policy s) ∧
    get_ptr alloc g out port_set_members "med_location" = Some (ps_location s) ∧
    get_ptr alloc g out port_set_members "med_power" = Some (ps_power s) ∧
    get_ptr alloc g out port_set_members "dot3_power" = Some (ps_dot3 s) ∧
    g_hardware cfg !! i = Some hw ∧ h_ifname hw = name ∧
    cfg' = cfg<|g_hardware ::= <[i := hw<|h_lport := port|>]>|> ∧
    type = (if ok then SET_PORT else NONE) ∧ apply_port_set alloc g s (h_lport hw) = Some (port, ok).
Proof.
  unfold client_handle_set_port. destruct (marshal_unserialize _ _ _ _) as [total out g| |] eqn:Hu;
    [|intros [= <- <- <-]; by left..].
  destruct (get_ptr _ _ _ _ "ifname") as [ifname|] eqn:Hn; [|done]. cbn [mbind option_bind].
  destruct (get_ptr _ _ _ _ "med_policy") as [policy|] eqn:Hp; [|done]. cbn [mbind option_bind].
  destruct (get_ptr _ _ _ _ "med_location") as [location|] eqn:Hl; [|done]. cbn [mbind option_bind].
  destruct (get_ptr _ _ _ _ "med_power") as [power|] eqn:Hw; [|done]. cbn [mbind option_bind].
  destruct (get_ptr _ _ _ _ "dot3_power") as [dot3|] eqn:Hd; [|done]. cbn [mbind option_bind].
  set (s := {| ps_policy := policy; ps_location := location; ps_power := power; ps_dot3 := dot3 |}).
  destruct ifname as [j|].
  2:{ cbn [mbind option_bind]. destruct (free_port_set _ _ _ _); [|done]. cbn [mbind option_bind]. intros [= <- <- <-]. by left. }
  destruct (get_string g j) as [name|] eqn:Hname; [|done]. cbn [mbind option_bind].
  unfold set_named_port. destruct (list_find _ _) as [[i hw]|] eqn:Hf.
  2:{ cbn [mbind option_bind]. destruct (free_port_set _ _ _ _); [|done]. cbn [mbind option_bind]. intros [= <- <- <-]. by left. }
  apply list_find_Some in Hf as (Hi & Hif & _).
  destruct (apply_port_set alloc g s (h_lport hw)) as [[port ok]|] eqn:Hs; [|done]. cbn [mbind option_bind].
  destruct (free_port_set _ _ _ _); [|done]. cbn [mbind option_bind]. intros [= <- <- <-]. right.
  exists total, out, g, s, name, i, hw, port, ok. split_and!; try done.
  unfold get_str. rewrite Hn. cbn. by rewrite Hname.
Qed.


(** Every message: what can become of the state. *)
Lemma served_cases cfg sub buffer cfg' sub' reply rest :
  serve_client alloc cfg sub buffer = Served cfg' sub' reply rest →
  cfg' = cfg ∨ (∃ config, cfg' = apply_config config cfg) ∨
  ∃ i hw port, g_hardware cfg !! i = Some hw ∧ same_port (h_lport hw) port ∧
    cfg' = cfg<|g_hardware ::= <[i := hw<|h_lport := port|>]>|>.
Proof.
  unfold serve_client. destruct (levent_ctl_recv buffer) as [| |r|type data r]; try done.
  { intros [= <- _ _ _]. by left. }
  destruct (client_handle_client alloc cfg type data sub) as [[[[[ty rep] cfg1]|] sub1]|] eqn:Hc; try done.
  intros [= <- _ _ _]. unfold client_handle_client in Hc.
  destruct (type =? NONE); [injection Hc as <- <- <- <-; by left|].
  destruct (type =? GET_CONFIG); [injection Hc as <- <- <- <-; by left|].
  destruct (type =? SET_CONFIG).
  { injection Hc as Hc _. unfold client_handle_set_configuration in Hc.
    destruct (marshal_unserialize _ _ _ _) as [total out g| |]; [|injection Hc as <- <- <-; by left..].
    destruct (read_config _ _ _ _) as [config|]; [|done]. cbn [mbind option_bind] in Hc.
    destruct (free_config _ _ _); [|done]. injection Hc as <- <- <-. right. left. by eexists. }
  destruct (type =? GET_INTERFACES); [injection Hc as <- <- <- <-; by left|].
  destruct (type =? GET_INTERFACE).
  { injection Hc as Hc _. unfold client_handle_get_interface in Hc. left.
    destruct (marshal_unserialize _ _ _ _) as [total out g| |]; [|by injection Hc..].
    destruct (get_string _ _); [|done]. cbn [mbind option_bind] in Hc.
    destruct (list_find _ _) as [[? ?]|]; by simplify_eq. }
  destruct (type =? SET_PORT).
  { injection Hc as Hc _.
    apply handle_set_port_cases in Hc as [[_ ->]|(? & ? & g & s & ? & i & hw & port & ok & Hcase)]; [by left|].
    right. right. exists i, hw, port. destruct Hcase as (_ & _ & _ & _ & _ & _ & Hi & _ & He & _ & Hs).
    apply set_port_stored in Hs as [Hs _]. by split_and!. }
  destruct (type =? SUBSCRIBE); [|done]. injection Hc as <- <- <- <-. by left.
Qed.

(** ** Invariants the clients cannot break *)

(** The settings the daemon relies on: periods and factors are positive, types are known. *)
Definition config_ok (c : lldpd_config) : Prop :=
  0 < c_tx_interval c ∧ 0 < c_tx_hold c ∧ 0 < c_tx_fast_interval c ∧
  LLDP_PORTID_SUBTYPE_UNKNOWN < c_lldp_portid_type c ≤ LLDP_PORTID_SUBTYPE_MAX ∧
  LLDP_BOND_SLAVE_SRC_MAC_TYPE_UNKNOWN < c_bond_slave_src_mac_type c ≤ LLDP_BOND_SLAVE_SRC_MAC_TYPE_MAX.

Lemma positive_ok new old : 0 < old → 0 < positive new old.
Proof. unfold positive. destruct (Z.ltb_spec 0 new); lia. Qed.
Lemma in_range_ok low high new old : low < old ≤ high → low < in_range low high new old ≤ high.
Proof. unfold in_range. destruct (Z.ltb_spec low new), (Z.leb_spec new high); cbn; lia. Qed.
Lemma merged_ok new old : config_ok old → config_ok (merged new old).
Proof.
  intros (H1 & H2 & H3 & H4 & H5). unfold config_ok.
  split_and!; (by apply positive_ok) || (by apply in_range_ok).
Qed.
Lemma same_port_chassis old new : same_port old new → p_chassis new = p_chassis old.
Proof. by intros (? & ? & ? & ? & ? & ->). Qed.

Lemma reconfigured_table local cfg cfg' :
  reconfigured local cfg cfg' → table_ok local cfg → table_ok local cfg'.
Proof.
  intros [R1 _ R3 R4 [ttl R5] _] Hok. unfold table_ok. rewrite R1, R3, R4, R5.
  by apply (alter_local_ok local cfg (λ c, c<|c_ttl := ttl c|>)).
Qed.

Lemma serve_table_ok local cfg sub buffer cfg' sub' reply rest :
  table_ok local cfg → serve_client alloc cfg sub buffer = Served cfg' sub' reply rest →
  table_ok local cfg' ∧ g_protocols cfg' = g_protocols cfg.
Proof.
  intros Hok [->|[[config ->]|(i & hw & port & Hi & Hs & ->)]]%served_cases; [done| |].
  - assert (LOCAL_CHASSIS cfg = Some local) as Hl.
    { destruct Hok as [Hh _ _]. exact (hk_local _ _ _ _ Hh). }
    destruct (apply_config_sets local config cfg Hl) as [_ Hr].
    split; [by eapply reconfigured_table|by destruct Hr].
  - split; [|done]. eapply tab_same_ports; [exact Hok|exact Hi|by apply same_port_chassis|done].
Qed.


(** C12: no client can put the daemon in a bad configuration: whatever the bytes it sends, the
    periods stay positive, the identifier and source address types stay among the known ones,
    and the time to live that is announced stays the one the settings ask for. *)
Theorem clients_keep_config local cfg sub buffer cfg' sub' reply rest :
  LOCAL_CHASSIS cfg = Some local → config_ok (g_config cfg) → ttl_ok local cfg →
  serve_client alloc cfg sub buffer = Served cfg' sub' reply rest →
  LOCAL_CHASSIS cfg' = Some local ∧ config_ok (g_config cfg') ∧ ttl_ok local cfg'.
Proof.
  intros Hl Hc Ht [->|[[config ->]|(i & hw & port & Hi & Hs & ->)]]%served_cases; [done| |done].
  destruct (apply_config_sets local config cfg Hl) as [He Hr]. rewrite He. split_and!.
  - by apply (sets_local local cfg _ _ (conj He Hr)).
  - by apply merged_ok.
  - by apply Hr.
Qed.

(** Requests are framed as the client sent them: with a part of a message the daemon
    waits, and with a whole one it handles that payload and keeps what follows. *)
Theorem request_framed cfg sub type payload :
  sendable type payload →
  (∀ b m, message type payload = b ++ m → m ≠ [] → serve_client alloc cfg sub b = Waiting) ∧
  (∀ rest, serve_client alloc cfg sub (message type payload ++ rest) =
     if ((zlen payload =? 0) && (type =? NOTIFICATION))%bool then Served cfg sub None rest
     else match client_handle_client alloc cfg type payload sub with
          | None => Dropped
          | Some (None, _) => Crash
          | Some (Some (ty, reply, cfg'), sub') => Served cfg' sub' (Some (ty, reply)) rest
          end).
Proof.
  intros Hs. pose proof (zlen_nonneg payload) as Hpos. split.
  - intros b m Hm Hne. assert (0 < zlen m) as Hp by (unfold zlen; destruct m; [done|cbn [length]; lia]).
    pose proof (message_zlen type payload) as Hlen. rewrite Hm, zlen_app in Hlen.
    unfold serve_client, levent_ctl_recv. destruct (Z.ltb_spec (zlen b) HMSG_HEADER) as [|Hb]; [done|].
    destruct (prefix_fields _ _ _ _ Hs Hm Hb) as [_ ->]. destruct Hs as [_ Hs].
    rewrite (proj2 (Z.ltb_ge _ _)) by lia. by rewrite (proj2 (Z.ltb_lt _ _)) by lia.
  - intros rest. unfold serve_client. rewrite levent_recv_complete by done. by destruct (_ && _)%bool.
Qed.
End Serve.
