(* ===== verification/Daemon.v ===== *)
(** * The daemon over time

    Every event the daemon reacts to is a step: a frame is received, an interface
    sends, the timer runs the cleanup, the local chassis is refreshed, an
    interface appears or changes, a client sends bytes.  The invariant of the neighbor table holds in
    every state reachable with the real protocols, and in every such state the
    smart filter indexes its array within bounds. *)

From stdpp Require Import gmap relations strings.
From S2P Require Import Prelude Bytes Text Const Structs Decoder Frame CdpSend Table TableOk TableInv.
From S2P Require Import TableSteps Protocols Smart Loop Client.
#[local] Open Scope Z_scope.

(** ** The local chassis ([lldpd_update_localchassis], [lldpd_med]) *)

(** What the operating system and the configuration say. *)
Record host := {
  un_sysname : list Z; un_release : list Z; un_version : list Z; un_machine : list Z;
  gethostbyname : list Z;                 (** [priv_gethostbyname] *)
  cfg_hostname : option (list Z); cfg_description : option (list Z);
  cfg_advertise_version : bool; g_lsb_release : option (list Z);
  routing_enabled : Z;                    (** [interfaces_routing_enabled] *)
  dmi_hw : option (list Z); dmi_fw : option (list Z); dmi_sn : option (list Z);
  dmi_manuf : option (list Z); dmi_model : option (list Z); dmi_asset : option (list Z)
}.

Section Local.
Variable sys : host.

Definition local_name : list Z := default (gethostbyname sys) (cfg_hostname sys).
Definition local_descr : list Z :=
  match cfg_description sys with
  | Some d => d
  | None =>
      if cfg_advertise_version sys then
        default [] (g_lsb_release sys) ++ [32] ++ un_sysname sys ++ [32] ++ un_release sys ++ [32] ++
        un_version sys ++ [32] ++ un_machine sys
      else default (un_sysname sys) (g_lsb_release sys)
  end.

Definition lldpd_routing_enabled (c : lldpd_chassis) : bool :=
  if Z.land (c_cap_available c) LLDP_CAP_ROUTER =? 0 then false
  else if routing_enabled sys =? -1 then false
  else negb (routing_enabled sys =? 0).

(** [once] is the static variable of [lldpd_med]. *)
Definition lldpd_med (once : bool) (c : lldpd_chassis) : lldpd_chassis :=
  let get old new := if once then old else new : option (list Z) in
  c<|c_med_hw ::= λ v, get v (dmi_hw sys)|><|c_med_fw ::= λ v, get v (dmi_fw sys)|>
   <|c_med_sn ::= λ v, get v (dmi_sn sys)|><|c_med_manuf ::= λ v, get v (dmi_manuf sys)|>
   <|c_med_model ::= λ v, get v (dmi_model sys)|><|c_med_asset ::= λ v, get v (dmi_asset sys)|>.

(** The enabled capabilities: the router bit follows the system, the telephone bit
    the available capabilities, and a station with nothing else enabled says so. *)
Definition refresh_cap (router telephone station : bool) (e : Z) : Z :=
  let e := if router then Z.lor e LLDP_CAP_ROUTER else Z.land e (Z.lnot LLDP_CAP_ROUTER) in
  let e := if telephone then Z.lor e LLDP_CAP_TELEPHONE else e in
  if (station && (e =? 0))%bool then LLDP_CAP_STATION else e.
Definition available (c : lldpd_chassis) (cap : Z) : bool := has_bit (c_cap_available c) cap.

Definition lldpd_update_localchassis (once : bool) (c : lldpd_chassis) : lldpd_chassis :=
  let c := c<|c_name := Some local_name|><|c_descr := Some local_descr|> in
  let c := c<|c_cap_enabled := refresh_cap (lldpd_routing_enabled c) (available c LLDP_CAP_TELEPHONE)
                                 (available c LLDP_CAP_STATION) (c_cap_enabled c)|> in
  let c := (lldpd_med once c)<|c_med_sw :=
             Some (if cfg_advertise_version sys then un_release sys else chars "Unknown")|> in
  match c_id c with
  | Some _ => c
  | None => c<|c_id := Some local_name|><|c_id_subtype := LLDP_CHASSISID_SUBTYPE_LOCAL|>
  end.

Definition local_cap (c : lldpd_chassis) : Z :=
  refresh_cap (lldpd_routing_enabled c) (available c LLDP_CAP_TELEPHONE)
    (available c LLDP_CAP_STATION) (c_cap_enabled c).
Definition local_sw : option (list Z) :=
  Some (if cfg_advertise_version sys then un_release sys else chars "Unknown").

(** The refreshed chassis, field by field. *)
Lemma update_localchassis_view once c :
  lldpd_update_localchassis once c =
    {| c_refcount := c_refcount c; c_index := c_index c; c_protocol := c_protocol c;
       c_id_subtype := match c_id c with Some _ => c_id_subtype c | None => LLDP_CHASSISID_SUBTYPE_LOCAL end;
       c_id := Some (default local_name (c_id c));
       c_name := Some local_name; c_descr := Some local_descr;
       c_cap_available := c_cap_available c; c_cap_enabled := local_cap c; c_ttl := c_ttl c;
       c_mgmt := c_mgmt c; c_med_cap_available := c_med_cap_available c; c_med_type := c_med_type c;
       c_med_hw := if once then c_med_hw c else dmi_hw sys;
       c_med_fw := if once then c_med_fw c else dmi_fw sys;
       c_med_sw := local_sw;
       c_med_sn := if once then c_med_sn c else dmi_sn sys;
       c_med_manuf := if once then c_med_manuf c else dmi_manuf sys;
       c_med_model := if once then c_med_model c else dmi_model sys;
       c_med_asset := if once then c_med_asset c else dmi_asset sys |}.
Proof. by destruct c as [? ? ? ? [?|] ? ? ? ? ? ? ? ? ? ? ? ? ? ? ?]. Qed.

(** What a refresh never touches. *)
Lemma update_localchassis_keeps once c :
  c_refcount (lldpd_update_localchassis once c) = c_refcount c ∧
  c_protocol (lldpd_update_localchassis once c) = c_protocol c.
Proof. by rewrite update_localchassis_view. Qed.

(** A chassis that already has the refreshed values. *)
Lemma update_localchassis_same c :
  is_Some (c_id c) → c_name c = Some local_name → c_descr c = Some local_descr →
  local_cap c = c_cap_enabled c → c_med_sw c = local_sw → lldpd_update_localchassis true c = c.
Proof.
  intros [i Hi] Hn Hd Hc Hs. rewrite update_localchassis_view, Hc, <- Hd, <- Hs.
  assert (Some (default local_name (c_id c)) = c_id c) as -> by (by rewrite Hi).
  assert (match c_id c with Some _ => c_id_subtype c | None => LLDP_CHASSISID_SUBTYPE_LOCAL end
    = c_id_subtype c) as -> by (by rewrite Hi).
  rewrite <- Hn. by destruct c.
Qed.

Lemma refresh_cap_idem r t s e : refresh_cap r t s (refresh_cap r t s e) = refresh_cap r t s e.
Proof.
  assert (∀ n, Z.testbit LLDP_CAP_TELEPHONE n && Z.testbit LLDP_CAP_ROUTER n = false) as Hdisj.
  { intros n. rewrite <- Z.land_spec. change (Z.land _ _) with 0. apply Z.bits_0. }
  set (step e := if t then Z.lor (if r then Z.lor e LLDP_CAP_ROUTER else Z.land e (Z.lnot LLDP_CAP_ROUTER))
    LLDP_CAP_TELEPHONE else if r then Z.lor e LLDP_CAP_ROUTER else Z.land e (Z.lnot LLDP_CAP_ROUTER)).
  assert (step (step e) = step e) as Hstep.
  { unfold step. destruct t, r; apply Z.bits_inj'; intros n Hn; specialize (Hdisj n);
      rewrite ?Z.lor_spec, ?Z.land_spec, ?Z.lor_spec, ?Z.land_spec, ?Z.lnot_spec by done;
      rewrite ?Z.lor_spec, ?Z.land_spec, ?Z.lnot_spec by done;
      destruct (Z.testbit e n), (Z.testbit LLDP_CAP_TELEPHONE n), (Z.testbit LLDP_CAP_ROUTER n); done. }
  assert (∀ x, refresh_cap r t s x = if (s && (step x =? 0))%bool then LLDP_CAP_STATION else step x) as Hr
    by (intros x; unfold refresh_cap, step; by destruct t, r).
  rewrite !Hr. destruct s; cbn [andb]; [|done]. destruct (Z.eqb_spec (step e) 0) as [H0|H0].
  - unfold step in H0 |- *. destruct t, r; cbn; try done.
    all: exfalso; apply (f_equal (λ z, Z.testbit z 4 || Z.testbit z 5)%bool) in H0;
      rewrite ?Z.lor_spec, ?Z.land_spec in H0; cbn in H0; rewrite ?orb_true_r in H0; done.
  - rewrite Hstep. by rewrite (proj2 (Z.eqb_neq _ _)).
Qed.

(** After a refresh the local chassis has everything the senders and the decoders
    of its neighbors require (an identifier, a name, a description, and at least
    one enabled capability when it is a station), and refreshing again under the
    same conditions changes nothing. *)
Theorem update_localchassis_ready once c :
  let c' := lldpd_update_localchassis once c in
  is_Some (c_id c') ∧ c_name c' = Some local_name ∧ c_descr c' = Some local_descr ∧
  (Z.land (c_cap_available c) LLDP_CAP_STATION ≠ 0 → c_cap_enabled c' ≠ 0) ∧
  lldpd_update_localchassis true c' = c'.
Proof.
  intros c'. assert (∀ r t e, refresh_cap r t true e ≠ 0) as Hne.
  { intros r t e. unfold refresh_cap. cbv zeta. cbn [andb].
    match goal with |- context [if ?b then _ else _] => destruct b eqn:He end; [done|].
    by apply Z.eqb_neq in He. }
  assert (c' = lldpd_update_localchassis once c) as Hc' by done. clearbody c'.
  rewrite update_localchassis_view in Hc'.
  assert (is_Some (c_id c') ∧ c_name c' = Some local_name ∧ c_descr c' = Some local_descr ∧
    c_med_sw c' = local_sw ∧ c_cap_enabled c' = local_cap c ∧ c_cap_available c' = c_cap_available c)
    as (Hid & Hn & Hd & Hsw & Hcap & Hav) by (rewrite Hc'; split_and!; [by eexists|done..]).
  split_and!; [done..| |].
  - intros Hst. rewrite Hcap. unfold local_cap, available at 2, has_bit.
    rewrite (proj2 (Z.eqb_neq _ 0)) by done. apply Hne.
  - apply update_localchassis_same; try done. unfold local_cap at 1, lldpd_routing_enabled, available.
    rewrite Hav, Hcap. apply refresh_cap_idem.
Qed.
End Local.
#[local] Opaque lldpd_update_localchassis.

(** ** The steps *)

Section Daemon.
Context `{BuildConfig}.
Implicit Types (cfg : lldpd) (hw : lldpd_hardware).

(** The counter of a chassis is 16 bits wide: a cleanup that meets a chassis with 65536
    references frees it.  The step is therefore given for fewer than 65535 ports; with more the
    behaviour of the code is outside of what follows. *)
Inductive lldpd_step cfg : lldpd → Prop :=
  | step_recv i received now cfg' :
      lldpd_recv cfg i received now = inr cfg' → lldpd_step cfg cfg'
  | step_send i driver now seq cfg' seq' packets :
      lldpd_send cfg i driver now seq = (cfg', seq', packets) → lldpd_step cfg cfg'
  | step_cleanup now :
      Z.of_nat (nports (g_hardware cfg)) < 65535 → lldpd_step cfg (lldpd_cleanup now cfg)
  | step_localchassis sys once p :
      LOCAL_CHASSIS cfg = Some p →
      lldpd_step cfg cfg<|g_heap ::= alter (lldpd_update_localchassis sys once) p|>
  | step_new_hardware ifname index hw0 :
      lldpd_step cfg (lldpd_alloc_hardware cfg ifname index hw0)
  | step_interface i hw hw' :
      g_hardware cfg !! i = Some hw → hw_update hw hw' →
      lldpd_step cfg cfg<|g_hardware ::= <[i := hw']>|>
  | step_client alloc sub buffer cfg' sub' reply rest :
      serve_client alloc cfg sub buffer = Served cfg' sub' reply rest → lldpd_step cfg cfg'.

(** A change of all the hardware that keeps attachments and neighbors. *)
Lemma tab_map local chs alloc h hws f :
  (∀ hw, p_chassis (h_lport (f hw)) = p_chassis (h_lport hw) ∧
         port_key <$> h_rports (f hw) = port_key <$> h_rports hw) →
  tab_ok local chs alloc h hws → tab_ok local chs alloc h (map f hws).
Proof.
  intros Hf [Hh Hw Hr]. split; [done| |].
  - clear Hr. induction Hw as [|hw hws Hhw Hw IH]; [done|]. cbn. constructor; [|done].
    destruct (Hf hw) as [Hl Hk]. by eapply hw_ok_ext.
  - intros p c Hc. rewrite (Hr p c Hc). do 3 f_equal. clear -Hf. unfold refs.
    induction hws as [|hw hws IH]; [done|]. cbn [map]. rewrite !bind_cons, !refs_in_app, IH.
    f_equal. unfold hw_ports. destruct (Hf hw) as [Hl Hk].
    by rewrite !refs_in_cons, Hl, (refs_in_keys p _ _ Hk).
Qed.

Lemma hide_hardware_keys smart hw :
  p_chassis (h_lport (lldpd_hide_hardware smart hw)) = p_chassis (h_lport hw) ∧
  port_key <$> h_rports (lldpd_hide_hardware smart hw) = port_key <$> h_rports hw.
Proof.
  unfold lldpd_hide_hardware, lldpd_hide_ports. split; [by repeat case_if|].
  repeat case_if; cbn; by rewrite ?hide_rports_keys.
Qed.

Lemma hide_all_ok local cfg : table_ok local cfg → table_ok local (lldpd_hide_all cfg).
Proof.
  intros Hok. unfold lldpd_hide_all. cbv zeta. case_if; [done|]. unfold table_ok. cbn.
  apply tab_map; [apply hide_hardware_keys|exact Hok].
Qed.

Lemma recv_ok local cfg i received now cfg' :
  Forall ProtocolOk (g_protocols cfg) → table_ok local cfg →
  lldpd_recv cfg i received now = inr cfg' → table_ok local cfg'.
Proof.
  intros Hpo Hok. unfold lldpd_recv. destruct (g_hardware cfg !! i) as [hw|] eqn:Hi; [|by intros [= <-]].
  destruct received as [[buffer n]|]; [|by intros [= <-]].
  destruct (rx_open _ _); [|by intros [= <-]]. cbv zeta.
  destruct (lldpd_decode _ _ _ _ _) as [f|cfg1] eqn:Hd; [done|]. intros [= <-].
  apply hide_all_ok. eapply lldpd_decode_ok; [| |exact Hd]; [done|].
  eapply (tab_same_ports local _ _ _ _ i hw); [exact Hok|done..].
Qed.

Lemma send_all_update conf chassis driver now ps seq hw hw' seq' packets :
  Forall ProtocolOk ps → send_all conf chassis driver now ps seq hw = (hw', seq', packets) →
  hw_update hw hw'.
Proof.
  intros Hps. revert seq hw packets. induction Hps as [|p ps Hp Hps IH]; intros seq hw packets; cbn.
  { by intros [= <- <- <-]. }
  destruct (proto_send _ _ _ _ _ _ _) as [[hw1 seq1] out1] eqn:H1.
  destruct (send_all _ _ _ _ _ _ _) as [[hw2 seq2] out2] eqn:H2. intros [= <- <- <-].
  destruct (po_send _ _ _ _ _ _ _ _ _ H1) as [Ha Hb]. destruct (IH _ _ _ H2) as [Hc Hd].
  split; congruence.
Qed.

Lemma to_send_sub protocols rports : to_send protocols rports ⊆ protocols.
Proof.
  intros p. unfold to_send.
  destruct (filter (λ p, speaks rports p = true) protocols) as [|a l] eqn:Hf.
  - intros (k & Hk%list_elem_of_lookup_2 & _)%elem_of_take. by apply list_elem_of_filter in Hk as [_ ?].
  - rewrite <- Hf. by intros [_ ?]%list_elem_of_filter.
Qed.

Lemma send_ok local cfg i driver now seq cfg' seq' packets :
  Forall ProtocolOk (g_protocols cfg) → table_ok local cfg →
  lldpd_send cfg i driver now seq = (cfg', seq', packets) →
  table_ok local cfg' ∧ g_protocols cfg' = g_protocols cfg.
Proof.
  intros Hpo Hok. unfold lldpd_send. destruct (g_hardware cfg !! i) as [hw|] eqn:Hi; [|by intros [= <- _ _]].
  destruct (_ ≫= _) as [chassis|]; [|by intros [= <- _ _]].
  destruct (tx_open _ _); [|by intros [= <- _ _]].
  destruct (send_all _ _ _ _ _ _ _) as [[hw' s'] out] eqn:Hs. intros [= <- _ _]. split; [|done].
  assert (Forall ProtocolOk (to_send (g_protocols cfg) (h_rports hw))) as Hts.
  { apply list.Forall_forall. intros p Hp%to_send_sub. rewrite list.Forall_forall in Hpo. auto. }
  destruct (send_all_update _ _ _ _ _ _ _ _ _ _ Hts Hs) as [Hl Hr].
  eapply tab_same_ports; [exact Hok|exact Hi|done|by rewrite Hr].
Qed.

Lemma recv_protocols cfg i received now cfg' :
  lldpd_recv cfg i received now = inr cfg' → g_protocols cfg' = g_protocols cfg.
Proof.
  unfold lldpd_recv. repeat case_match; try done; intros [= <-]; try done.
  unfold lldpd_hide_all. cbv zeta.
  match goal with Hd : lldpd_decode _ _ _ _ _ = inr _ |- _ => apply decode_protocols in Hd as Hp end.
  by case_if.
Qed.

(** Every step keeps the table well formed. *)
Lemma step_table_ok enabled_ cfg cfg' :
  lldpd_step cfg cfg' → g_protocols cfg = protos enabled_ → table_ok 0 cfg →
  table_ok 0 cfg' ∧ g_protocols cfg' = protos enabled_.
Proof.
  intros Hstep Hp Hok. pose proof (protos_ok enabled_) as Hpo. rewrite <- Hp in Hpo |- *.
  destruct Hstep as [i received now cfg' Hrecv|i driver now seq cfg' seq' packets Hsend|now Hb
    |sys once p Hl|ifname index hw0|i hw hw' Hi [Hl Hr]|alloc sub buffer cfg' sub' reply rest Hserve].
  - split; [by eapply recv_ok|]. by rewrite (recv_protocols _ _ _ _ _ Hrecv).
  - destruct (send_ok _ _ _ _ _ _ _ _ _ Hpo Hok Hsend) as [? ->]. done.
  - split; [by apply cleanup_ok|by rewrite cleanup_protocols].
  - assert (p = 0%nat) as ->.
    { unfold LOCAL_CHASSIS in Hl. destruct Hok as [Hh _ _]. rewrite (hk_local _ _ _ _ Hh) in Hl. congruence. }
    split; [apply alter_local_ok; [intros c; apply update_localchassis_keeps|done]|done].
  - split; [by apply alloc_hardware_ok|]. unfold lldpd_alloc_hardware. by case_match.
  - split; [|done]. eapply tab_same_ports; [exact Hok|done..|by rewrite Hr].
  - destruct (serve_table_ok _ _ _ _ _ _ _ _ _ Hok Hserve) as [? ->]. done.
Qed.

(** C2: whatever frames the daemon receives from the network, whatever its clients send,
    whatever the interfaces do and whichever protocols are enabled, every state it reaches with its own
    decoders has a well-formed neighbor table: no dangling chassis, exact
    reference counts modulo 2^16, no duplicate chassis and no duplicate neighbor.  The cleanup
    step is limited to fewer than 65535 ports. *)
Theorem lldpd_invariant config enabled_ lchassis cfg :
  rtc lldpd_step (daemon_init config (protos enabled_) lchassis) cfg → table_ok 0 cfg.
Proof.
  intros Hsteps. enough (table_ok 0 cfg ∧ g_protocols cfg = protos enabled_) by tauto.
  revert cfg Hsteps. apply rtc_ind_r; [split; [apply daemon_init_ok|done]|].
  intros cfg cfg' _ Hstep [Hok Hp]. by eapply step_table_ok.
Qed.
End Daemon.
