(* ===== verification/Fixedpoint.v ===== *)
(** * Fixed-point numbers of the client library (src/lib/fixedpoint.c)

    The coordinates of an LLDP-MED location are fixed-point numbers: a 6-bit precision,
    an integer part and a fractional part packed from any bit of a buffer.  The file
    models parsing ([fp_strtofp]), printing ([fp_fptostr]), packing ([fp_fptobuf]),
    unpacking ([fp_buftofp]) and negation.  A [long long] is an integer; [None] stands
    for a signed overflow or for an access outside the buffer. *)

From S2P Require Import Prelude Bytes Text.
From stdpp Require Import strings.
#[local] Open Scope Z_scope.

Record fp_number := {
  int_value : Z; int_bits : Z;
  frac_value : Z; frac_bits : Z; frac_precision : Z
}.
#[global] Instance eta_fp_number : Settable fp_number := λ r,
  {| int_value := int_value r; int_bits := int_bits r; frac_value := frac_value r;
     frac_bits := frac_bits r; frac_precision := frac_precision r |}.

Definition i64 (v : Z) : option Z :=
  if ((- 2 ^ 63 <=? v) && (v <? 2 ^ 63))%bool then Some v else None.
Definition u64 (v : Z) : Z := v mod 2 ^ 64.

(** ** Text *)

(** [strtoll(s, &end, 10)]: the value, saturated, and the rest of the string. *)
Definition saturate (v : Z) : Z := Z.max (- 2 ^ 63) (Z.min v (2 ^ 63 - 1)).
Definition strtoll (s : list Z) : Z * list Z :=
  let '(sign, u) := match skip_spaces s with
                    | c :: u => if c =? 45 then (-1, u) else if c =? 43 then (1, u) else (1, c :: u)
                    | [] => (1, [])
                    end in
  match take_while is_digit u with
  | [] => (0, s)
  | ds => (saturate (sign * digits 0 ds), drop (length ds) u)
  end.

(** Truncation to [intbits] bits, the sign included. *)
Definition fp_clamp (intbits v : Z) : Z :=
  if 2 ^ (intbits - 1) <=? v then 2 ^ (intbits - 1) - 1
  else if v <? - 2 ^ (intbits - 1) then - 2 ^ (intbits - 1)
  else v.

(** [sizeof(precision) * 8 - __builtin_clzll(precision - 1)] *)
Definition fp_digits_bits (precision : Z) : Z :=
  if precision =? 1 then 1 else Z.log2 (precision - 1) + 1.

Definition fp_strtofp (repr : list Z) (intbits fltbits : Z) : option (fp_number * list Z) :=
  let '(v, endptr) := strtoll repr in
  let result := {| int_value := fp_clamp intbits v; int_bits := intbits;
                   frac_value := 0; frac_bits := fltbits; frac_precision := 0 |} in
  match endptr with
  | c :: e2 =>
      if c =? 46 then
        let '(f, endptr) := strtoll e2 in
        precision ← i64 (10 ^ (zlen e2 - zlen endptr));
        f ← i64 (Z.shiftl f fltbits);
        Some (result<|frac_value := Z.quot f precision|>
                    <|frac_precision := Z.min (fp_digits_bits precision) fltbits|>, endptr)
      else Some (result, endptr)
  | [] => Some (result, endptr)
  end.

(** The first power of ten that is not below [bound], and its number of zeros. *)
Fixpoint fp_power (fuel : nat) (bound precision len : Z) : Z * Z :=
  match fuel with
  | O => (precision, len)
  | S n => if precision <? bound then fp_power n bound (precision * 10) (len + 1)
           else (precision, len)
  end.

(** [%0*llu] *)
Definition zero_padded (len v : Z) : list Z :=
  replicate (Z.to_nat len - length (decimal v)) 48 ++ decimal v.

Definition fp_fraction_str (fp : fp_number) : option (list Z) :=
  if frac_value fp =? 0 then Some []
  else
    let '(precision, len) := fp_power 20 (2 ^ frac_precision fp) 1 0 in
    let precision := if precision / 10 =? 0 then 1 else precision / 10 in
    decimal_ ← i64 (frac_value fp * precision);
    Some (46 :: zero_padded (len - 1) (Z.shiftr decimal_ (frac_bits fp))).

(** [suffix] holds the characters of a positive and of a negative number. *)
Definition fp_fptostr (fp : fp_number) (suffix : option (Z * Z)) : option (list Z) :=
  let negative := int_value fp <? 0 in
  frac ← fp_fraction_str fp;
  Some ((match suffix with None => if negative then [45] else [] | Some _ => [] end) ++
        decimal (Z.abs (int_value fp)) ++ frac ++
        match suffix with
        | None => []
        | Some (pos, neg) => [if negative then neg else pos]
        end).

(** ** Bits *)

(** [obit] bits of the byte are left, the first bit of the field comes next;
    [buf[o]] is written, then [(1 << n) - 1] masks of the source. *)
Definition fp_put_last (b v n obit : Z) : Z :=
  Z.lor (Z.land b (Z.lor (Z.lnot (2 ^ obit - 1)) (2 ^ (obit - n) - 1)))
        (Z.shiftl (Z.land v (2 ^ n - 1)) (obit - n)).
Definition fp_put_part (b v n obit : Z) : Z :=
  Z.lor (Z.land b (Z.lnot (2 ^ obit - 1))) (Z.land (Z.shiftr v (n - obit)) (2 ^ obit - 1)).

(** The loop of [fp_fptobuf]; [fields] are the integers and the bits that remain. *)
Fixpoint fp_put (fuel : nat) (fields : list (Z * Z)) (obit : Z) (o : nat) (buf : list Z)
    : option (list Z) :=
  match fields with
  | [] => Some buf
  | (v, n) :: rest =>
      match fuel with
      | O => None
      | S fuel =>
          b ← buf !! o;
          if n <? obit
          then fp_put fuel rest (obit - n) o (<[o := fp_put_last b v n obit]> buf)
          else fp_put fuel ((v, n - obit) :: rest) 8 (S o) (<[o := fp_put_part b v n obit]> buf)
      end
  end.

Definition fp_value (fp : fp_number) : Z :=
  if 0 <=? int_value fp then u64 (Z.shiftl (int_value fp) (frac_bits fp) + frac_value fp)
  else u64 (Z.lnot (Z.shiftl (- int_value fp) (frac_bits fp) + frac_value fp) + 1).

Definition fp_fields (fp : fp_number) : list (Z * Z) :=
  [(u64 (int_bits fp + frac_precision fp), 6); (fp_value fp, int_bits fp + frac_bits fp)].

(** Every round uses up a field or at least one of its bits. *)
Definition fp_fptobuf (fp : fp_number) (buf : list Z) (shift : Z) : option (list Z) :=
  fp_put (Z.to_nat (8 + int_bits fp + frac_bits fp)) (fp_fields fp) (8 - shift mod 8)
    (Z.to_nat (shift / 8)) buf.

(** The loop of [fp_buftofp]: the values read so far and the bits that remain. *)
Fixpoint fp_get (fuel : nat) (fields : list (Z * Z)) (ibit : Z) (i : nat) (buf : list Z)
    : option (list Z) :=
  match fields with
  | [] => Some []
  | (v, n) :: rest =>
      match fuel with
      | O => None
      | S fuel =>
          b ← buf !! i;
          if n <? ibit
          then vs ← fp_get fuel rest (ibit - n) i buf;
               Some (Z.lor v (Z.land (Z.shiftr b (ibit - n)) (2 ^ n - 1)) :: vs)
          else fp_get fuel
                 ((Z.lor v (Z.shiftl (Z.land b (2 ^ ibit - 1)) (n - ibit)), n - ibit) :: rest)
                 8 (S i) buf
      end
  end.

Definition fp_of_value (value precision intbits fltbits : Z) : fp_number :=
  let precision := if intbits <? precision then precision - intbits else intbits in
  let negative := Z.testbit value (intbits + fltbits - 1) in
  let value := if negative
               then Z.land (u64 (Z.lnot value + 1)) (2 ^ (intbits + fltbits - 1) - 1) else value in
  let i := Z.shiftr value fltbits in
  {| int_value := if negative then - i else i; int_bits := intbits;
     frac_value := Z.land value (2 ^ fltbits - 1); frac_bits := fltbits;
     frac_precision := precision |}.

Definition fp_buftofp (buf : list Z) (intbits fltbits shift : Z) : option fp_number :=
  vs ← fp_get (Z.to_nat (8 + intbits + fltbits)) [(0, 6); (0, intbits + fltbits)] (8 - shift mod 8)
         (Z.to_nat (shift / 8)) buf;
  match vs with
  | [precision; value] => Some (fp_of_value value precision intbits fltbits)
  | _ => None
  end.

Definition fp_negate (fp : fp_number) : fp_number :=
  fp<|int_value := fp_clamp (int_bits fp) (- int_value fp)|>.

(** The examples of tests/check_fixedpoint.c.  The second one also shows that a field
    that ends on a byte boundary makes the loop touch the byte after it: the buffer of
    five bytes of the test is too small. *)
Example fp_parse_float :
  fp_strtofp (chars "1542.6250E") 13 20 =
    Some ({| int_value := 1542; int_bits := 13; frac_value := 655360; frac_bits := 20;
             frac_precision := 14 |}, chars "E").
Proof. reflexivity. Qed.
Example fp_pack_boundary :
  let pack buf := r ← fp_strtofp (chars "-47.2031250") 9 25; fp_fptobuf r.1 buf 0 in
  pack (replicate 5 0) = None ∧
  pack (replicate 6 0) = Some [Z.lor (Z.shiftl 0x21 2) 3; 0xa1; 0x98; 0; 0; 0].
Proof. split; reflexivity. Qed.
Example fp_pack_shifted :
  (r ← fp_strtofp (chars "47.2031250") 9 25; fp_fptobuf r.1 [0x77; 0xc6; 0; 0; 0; 0; 0xc7] 12) =
    Some [0x77; 0xc8; 0x45; 0xe6; 0x80; 0x00; 0x07].
Proof. reflexivity. Qed.
Example fp_print_float :
  (r ← fp_strtofp (chars "214.06250") 9 24; fp_fptostr r.1 None) = Some (chars "214.06250").
Proof. reflexivity. Qed.
Example fp_negated :
  (r ← fp_strtofp (chars "14.5") 9 25; fp_fptostr (fp_negate r.1) None) = Some (chars "-14.5").
Proof. reflexivity. Qed.

(** ** What the bits of the buffer are *)

(** Bit [k] of a buffer, the most significant bit of a byte first. *)
Definition bit (buf : list Z) (k : Z) : bool :=
  Z.testbit (nth (Z.to_nat (k / 8)) buf 0) (7 - k mod 8).

(** Bit [k] after the fields were written from bit [p] on. *)
Fixpoint field_bit (fields : list (Z * Z)) (p k : Z) (old : bool) : bool :=
  match fields with
  | [] => old
  | (v, n) :: rest =>
      if ((p <=? k) && (k <? p + n))%bool then Z.testbit v (p + n - 1 - k)
      else field_bit rest (p + n) k old
  end.

Section Put.
Implicit Types (b v n obit t k p : Z) (buf : list Z) (fields : list (Z * Z)).

Lemma mask_bit n t : 0 ≤ n → 0 ≤ t → Z.testbit (2 ^ n - 1) t = (t <? n).
Proof.
  intros. rewrite <- (Z.testbit_ones_nonneg n t) by lia. f_equal. rewrite Z.ones_equiv. lia.
Qed.

Lemma put_last_bit b v n obit t :
  0 ≤ t → 0 ≤ n < obit →
  Z.testbit (fp_put_last b v n obit) t =
    if ((obit - n <=? t) && (t <? obit))%bool then Z.testbit v (t - (obit - n)) else Z.testbit b t.
Proof.
  intros Ht Hn. unfold fp_put_last.
  rewrite Z.lor_spec, Z.land_spec, Z.lor_spec, Z.lnot_spec, !mask_bit, Z.shiftl_spec by lia.
  destruct (Z.leb_spec (obit - n) t); cbn [andb].
  - rewrite Z.land_spec, mask_bit by lia.
    rewrite (proj2 (Z.ltb_ge t (obit - n))), orb_false_r by lia.
    destruct (Z.ltb_spec t obit); cbn [negb].
    + rewrite (proj2 (Z.ltb_lt _ _)) by lia. by rewrite andb_false_r, andb_true_r.
    + rewrite (proj2 (Z.ltb_ge _ _)) by lia. by rewrite andb_true_r, andb_false_r, orb_false_r.
  - rewrite (Z.testbit_neg_r _ (t - (obit - n))), orb_false_r by lia.
    rewrite (proj2 (Z.ltb_lt t (obit - n))) by lia. by rewrite orb_true_r, andb_true_r.
Qed.

Lemma put_part_bit b v n obit t :
  0 ≤ t → 0 < obit ≤ n →
  Z.testbit (fp_put_part b v n obit) t =
    if t <? obit then Z.testbit v (t + (n - obit)) else Z.testbit b t.
Proof.
  intros Ht Hn. unfold fp_put_part.
  rewrite Z.lor_spec, !Z.land_spec, Z.lnot_spec, mask_bit, Z.shiftr_spec by lia.
  destruct (t <? obit); cbn [negb]; [|by rewrite andb_true_r, andb_false_r, orb_false_r].
  by rewrite andb_false_r, andb_true_r.
Qed.

(** A byte is written: the bits of the other bytes stay. *)
Lemma bit_insert buf o b' k :
  (o < length buf)%nat → 0 ≤ k →
  bit (<[o := b']> buf) k =
    if k / 8 =? Z.of_nat o then Z.testbit b' (7 - k mod 8) else bit buf k.
Proof.
  intros Ho Hk. unfold bit. destruct (Z.eqb_spec (k / 8) (Z.of_nat o)) as [He|He].
  - rewrite He, Nat2Z.id. f_equal. apply nth_lookup_Some. by apply list_lookup_insert_eq.
  - f_equal. rewrite !nth_lookup. rewrite list_lookup_insert_ne; [done|].
    intros ->. apply He. rewrite Z2Nat.id; [done|]. apply Z.div_pos; lia.
Qed.

(** The bits of the byte at [o] that precede and follow the position. *)
Lemma bit_byte buf o b k :
  buf !! o = Some b → k / 8 = Z.of_nat o → bit buf k = Z.testbit b (7 - k mod 8).
Proof. intros Hb Hk. unfold bit. rewrite Hk, Nat2Z.id. f_equal. by apply nth_lookup_Some. Qed.

Definition field_len fields : Z := foldr (λ f s, snd f + s) 0 fields.
Definition fields_ok fields : Prop := Forall (λ f, 0 ≤ snd f) fields.

Lemma field_len_nonneg fields : fields_ok fields → 0 ≤ field_len fields.
Proof. unfold field_len. induction 1 as [|f l Hf _ IH]; cbn in *; lia. Qed.

(** Bits before the fields are not theirs. *)
Lemma field_bit_before fields p k old :
  fields_ok fields → k < p → field_bit fields p k old = old.
Proof.
  intros Hf. revert p. induction Hf as [|[v n] l Hn _ IH]; intros p Hk; [done|]. cbn in *.
  rewrite (proj2 (Z.leb_gt p k)) by lia. cbn [andb]. apply IH. lia.
Qed.

Lemma fp_put_bits fuel fields obit o buf :
  fields_ok fields → 1 ≤ obit ≤ 8 →
  (Z.to_nat (field_len fields) + length fields ≤ fuel)%nat →
  let p := 8 * Z.of_nat o + 8 - obit in
  p + field_len fields < 8 * zlen buf →
  ∃ buf', fp_put fuel fields obit o buf = Some buf' ∧ length buf' = length buf ∧
    ∀ k, 0 ≤ k → bit buf' k = field_bit fields p k (bit buf k).
Proof.
  revert fields obit o buf. induction fuel as [|fuel IH]; intros [|[v n] rest] obit o buf Hok Hob Hfuel p Hroom.
  1,3: by exists buf.
  { cbn in Hfuel. lia. }
  apply Forall_cons_iff in Hok as [Hn Hrest]. cbn [snd] in Hn.
  pose proof (field_len_nonneg rest Hrest) as Hlen.
  cbn [field_len foldr snd length] in Hfuel, Hroom. fold (field_len rest) in Hfuel, Hroom.
  assert (o < length buf)%nat as Ho by (unfold zlen in Hroom; lia).
  destruct (lookup_lt_is_Some_2 buf o Ho) as [b Hb].
  cbn [fp_put]. rewrite Hb. cbn [mbind option_bind].
  destruct (Z.ltb_spec n obit) as [Hlt|Hge].
  - destruct (IH rest (obit - n) o (<[o := fp_put_last b v n obit]> buf)) as (buf' & -> & Hl & Hbits);
      [done|lia|lia|unfold zlen in *; rewrite length_insert; lia|].
    exists buf'. rewrite length_insert in Hl. split_and!; [done|done|]. intros k Hk.
    replace (8 * Z.of_nat o + 8 - (obit - n)) with (p + n) in Hbits by lia.
    rewrite Hbits, bit_insert by done. cbn [field_bit].
    destruct (Z.eqb_spec (k / 8) (Z.of_nat o)) as [He|He].
    + rewrite put_last_bit by zlia. rewrite (bit_byte buf o b k Hb He).
      assert ((obit - n <=? 7 - k mod 8) && (7 - k mod 8 <? obit) = (p <=? k) && (k <? p + n))%bool as ->.
      { apply eq_bool_prop_intro. rewrite !andb_True, !Is_true_true, !Z.leb_le, !Z.ltb_lt. unfold p. zlia. }
      destruct ((p <=? k) && (k <? p + n))%bool eqn:E; [|done]. bool_to_prop.
      rewrite field_bit_before by (done || lia). f_equal. unfold p. zlia.
    + assert ((p <=? k) && (k <? p + n) = false)%bool as ->; [|done].
      apply andb_false_iff. rewrite Z.leb_gt, Z.ltb_ge. unfold p. zlia.
  - destruct (IH ((v, n - obit) :: rest) 8 (S o) (<[o := fp_put_part b v n obit]> buf))
      as (buf' & -> & Hl & Hbits);
      [constructor; [cbn; lia|done]|lia|cbn [field_len foldr snd length]; fold (field_len rest); lia
      |cbn [field_len foldr snd]; fold (field_len rest); unfold zlen in *; rewrite length_insert; lia|].
    exists buf'. rewrite length_insert in Hl. split_and!; [done|done|]. intros k Hk.
    replace (8 * Z.of_nat (S o) + 8 - 8) with (p + obit) in Hbits by lia.
    rewrite Hbits, bit_insert by done. cbn [field_bit].
    replace (p + obit + (n - obit)) with (p + n) by lia.
    destruct (Z.eqb_spec (k / 8) (Z.of_nat o)) as [He|He].
    + rewrite put_part_bit by zlia. rewrite (bit_byte buf o b k Hb He).
      rewrite (proj2 (Z.leb_gt (p + obit) k)) by (unfold p; zlia). cbn [andb].
      destruct (Z.ltb_spec (7 - k mod 8) obit) as [Hin|Hout].
      * rewrite field_bit_before by (done || (unfold p; zlia)).
        rewrite (proj2 (Z.leb_le p k)), (proj2 (Z.ltb_lt k (p + n))) by (unfold p; zlia).
        cbn [andb]. f_equal. unfold p. zlia.
      * rewrite (proj2 (Z.leb_gt p k)) by (unfold p; zlia). done.
    + assert ((p + obit <=? k) = (p <=? k)) as ->; [|done].
      apply eq_bool_prop_intro. rewrite !Is_true_true, !Z.leb_le. unfold p. zlia.
Qed.
End Put.

Section Get.
Implicit Types (b v n ibit k p : Z) (buf : list Z) (fields : list (Z * Z)).

(** The values [vs] are the fields that start at bit [p], added to what was read before. *)
Fixpoint reads_bits buf fields p (vs : list Z) : Prop :=
  match fields, vs with
  | [], [] => True
  | (acc, n) :: rest, v :: vs =>
      (∀ j, 0 ≤ j → Z.testbit v j = (Z.testbit acc j || ((j <? n) && bit buf (p + n - 1 - j)))%bool) ∧
      reads_bits buf rest (p + n) vs
  | _, _ => False
  end.

Lemma get_last_bit acc b n ibit j :
  0 ≤ j → 0 ≤ n < ibit →
  Z.testbit (Z.lor acc (Z.land (Z.shiftr b (ibit - n)) (2 ^ n - 1))) j =
    (Z.testbit acc j || ((j <? n) && Z.testbit b (j + (ibit - n))))%bool.
Proof.
  intros. rewrite Z.lor_spec, Z.land_spec, Z.shiftr_spec, mask_bit by lia. f_equal. apply andb_comm.
Qed.

Lemma get_part_bit acc b n ibit j :
  0 ≤ j → 0 < ibit ≤ n →
  Z.testbit (Z.lor acc (Z.shiftl (Z.land b (2 ^ ibit - 1)) (n - ibit))) j =
    (Z.testbit acc j || ((n - ibit <=? j) && (j <? n) && Z.testbit b (j - (n - ibit))))%bool.
Proof.
  intros. rewrite Z.lor_spec, Z.shiftl_spec by lia. f_equal.
  destruct (Z.leb_spec (n - ibit) j); [|by rewrite Z.testbit_neg_r by lia].
  rewrite Z.land_spec, mask_bit by lia. rewrite andb_comm. cbn [andb]. f_equal.
  apply eq_bool_prop_intro. rewrite !Is_true_true, !Z.ltb_lt. lia.
Qed.

Lemma fp_get_bits fuel fields ibit i buf :
  fields_ok fields → 1 ≤ ibit ≤ 8 →
  (Z.to_nat (field_len fields) + length fields ≤ fuel)%nat →
  let p := 8 * Z.of_nat i + 8 - ibit in
  p + field_len fields < 8 * zlen buf →
  ∃ vs, fp_get fuel fields ibit i buf = Some vs ∧ reads_bits buf fields p vs.
Proof.
  revert fields ibit i. induction fuel as [|fuel IH]; intros [|[acc n] rest] ibit i Hok Hib Hfuel p Hroom.
  1,3: by exists [].
  { cbn in Hfuel. lia. }
  apply Forall_cons_iff in Hok as [Hn Hrest]. cbn [snd] in Hn.
  pose proof (field_len_nonneg rest Hrest) as Hlen.
  cbn [field_len foldr snd length] in Hfuel, Hroom. fold (field_len rest) in Hfuel, Hroom.
  assert (i < length buf)%nat as Hi by (unfold zlen in Hroom; lia).
  destruct (lookup_lt_is_Some_2 buf i Hi) as [b Hb].
  cbn [fp_get]. rewrite Hb. cbn [mbind option_bind].
  destruct (Z.ltb_spec n ibit) as [Hlt|Hge].
  - destruct (IH rest (ibit - n) i) as (vs & -> & Hvs); [done|lia|lia|lia|].
    eexists. split; [reflexivity|]. cbn [reads_bits].
    replace (8 * Z.of_nat i + 8 - (ibit - n)) with (p + n) in Hvs by lia. split; [|done].
    intros j Hj. rewrite get_last_bit by lia. f_equal.
    destruct (Z.ltb_spec j n); [|done]. cbn [andb].
    rewrite (bit_byte buf i b) by (done || (unfold p; zlia)). f_equal. unfold p. zlia.
  - destruct (IH ((Z.lor acc (Z.shiftl (Z.land b (2 ^ ibit - 1)) (n - ibit)), n - ibit) :: rest) 8 (S i))
      as (vs & -> & Hvs);
      [constructor; [cbn; lia|done]|lia|cbn [field_len foldr snd length]; fold (field_len rest); lia
      |cbn [field_len foldr snd]; fold (field_len rest); lia|].
    exists vs. split; [done|]. destruct vs as [|v vs]; [done|]. cbn [reads_bits] in Hvs |- *.
    replace (8 * Z.of_nat (S i) + 8 - 8) with (p + ibit) in Hvs by lia.
    replace (p + ibit + (n - ibit)) with (p + n) in Hvs by lia. destruct Hvs as [Hv Hvs].
    split; [|done]. intros j Hj. rewrite Hv, get_part_bit, <- orb_assoc by lia. f_equal.
    destruct (Z.ltb_spec j (n - ibit)) as [Hl|Hg]; cbn [andb].
    + rewrite (proj2 (Z.leb_gt _ _)), (proj2 (Z.ltb_lt j n)) by lia. cbn [andb orb]. f_equal; lia.
    + rewrite (proj2 (Z.leb_le _ _)) by lia. cbn [andb]. rewrite orb_false_r.
      destruct (Z.ltb_spec j n); [|done]. cbn [andb].
      rewrite (bit_byte buf i b) by (done || (unfold p; zlia)). f_equal. unfold p. zlia.
Qed.
End Get.

(** ** Packing and unpacking *)

(** A number the buffer can hold: the widths fit in 64 bits, the parts in their widths, and
    there is a fractional part.  The least integer is excluded: it reads back as zero. *)
Record fp_ok (fp : fp_number) : Prop := {
  fo_int_bits : 0 < int_bits fp;
  fo_frac_bits : 0 ≤ frac_bits fp;
  fo_width : int_bits fp + frac_bits fp ≤ 64;
  fo_int : - 2 ^ (int_bits fp - 1) < int_value fp < 2 ^ (int_bits fp - 1);
  fo_frac : 0 ≤ frac_value fp < 2 ^ frac_bits fp;
  fo_precision : 0 < frac_precision fp;
  fo_precision_bits : int_bits fp + frac_precision fp < 64
}.

Section Pack.
Variable fp : fp_number.
Hypothesis Hok : fp_ok fp.
#[local] Abbreviation w := (int_bits fp + frac_bits fp).

(** The magnitude fits below the sign bit. *)
Definition fp_magnitude : Z := Z.abs (int_value fp) * 2 ^ frac_bits fp + frac_value fp.

Lemma fp_magnitude_bounds : 0 ≤ fp_magnitude < 2 ^ (w - 1).
Proof.
  destruct Hok. unfold fp_magnitude.
  replace (w - 1) with ((int_bits fp - 1) + frac_bits fp) by lia.
  rewrite Z.pow_add_r by lia. pose proof (Z.pow_pos_nonneg 2 (frac_bits fp)). nia.
Qed.

Lemma fp_value_magnitude :
  fp_value fp = if 0 <=? int_value fp then fp_magnitude else 2 ^ 64 - fp_magnitude.
Proof.
  pose proof fp_magnitude_bounds as Hm. destruct Hok.
  assert (2 ^ (w - 1) < 2 ^ 64) by (apply Z.pow_lt_mono_r; lia).
  unfold fp_value. destruct (Z.leb_spec 0 (int_value fp)).
  - unfold fp_magnitude in *. rewrite Z.abs_eq in * by lia.
    rewrite Z.shiftl_mul_pow2 by lia. apply Z.mod_small. lia.
  - assert (0 < fp_magnitude).
    { unfold fp_magnitude. pose proof (Z.pow_pos_nonneg 2 (frac_bits fp)). nia. }
    rewrite Z.shiftl_mul_pow2 by lia. replace (- int_value fp) with (Z.abs (int_value fp)) by lia.
    fold fp_magnitude. unfold u64, Z.lnot.
    replace (Z.pred (- fp_magnitude) + 1) with (2 ^ 64 - fp_magnitude + (-1) * 2 ^ 64) by lia.
    rewrite Z.mod_add by lia. apply Z.mod_small. lia.
Qed.

(** The low [w] bits of the packed value. *)
Lemma fp_value_mod :
  fp_value fp mod 2 ^ w = if 0 <=? int_value fp then fp_magnitude else 2 ^ w - fp_magnitude.
Proof.
  pose proof fp_magnitude_bounds as Hm. rewrite fp_value_magnitude. destruct Hok.
  assert (2 ^ (w - 1) < 2 ^ w) by (apply Z.pow_lt_mono_r; lia).
  destruct (Z.leb_spec 0 (int_value fp)); [apply Z.mod_small; lia|].
  assert (0 < fp_magnitude).
  { unfold fp_magnitude. pose proof (Z.pow_pos_nonneg 2 (frac_bits fp)). nia. }
  replace 64 with (w + (64 - w)) by lia. rewrite Z.pow_add_r by lia.
  replace (2 ^ w * 2 ^ (64 - w) - fp_magnitude)
    with (2 ^ w - fp_magnitude + (2 ^ (64 - w) - 1) * 2 ^ w) by lia.
  rewrite Z.mod_add by lia. apply Z.mod_small. lia.
Qed.

(** The parts of the magnitude. *)
Lemma fp_magnitude_parts :
  Z.shiftr fp_magnitude (frac_bits fp) = Z.abs (int_value fp) ∧
  Z.land fp_magnitude (2 ^ frac_bits fp - 1) = frac_value fp.
Proof.
  destruct Hok. unfold fp_magnitude.
  replace (2 ^ frac_bits fp - 1) with (Z.ones (frac_bits fp)) by (rewrite Z.ones_equiv; lia).
  rewrite Z.shiftr_div_pow2, Z.land_ones by lia.
  split.
  - rewrite Z.div_add_l, Z.div_small by lia. lia.
  - rewrite Z.add_comm, Z.mod_add, Z.mod_small by lia. done.
Qed.

(** The sign bit of a [w]-bit word, and the magnitude of a negative one. *)
Lemma sign_bit m : 0 ≤ m < 2 ^ (w - 1) → Z.testbit m (w - 1) = false.
Proof. intros Hm. apply (Z.testbit_false m (w - 1)); [|rewrite Z.div_small by lia; done]. destruct Hok; lia. Qed.

Lemma sign_bit_neg m : 0 < m < 2 ^ (w - 1) → Z.testbit (2 ^ w - m) (w - 1) = true.
Proof.
  intros Hm. destruct Hok. apply Z.testbit_true; [lia|].
  assert (2 ^ w = 2 * 2 ^ (w - 1)) as -> by (rewrite <- Z.pow_succ_r by lia; f_equal; lia).
  replace (2 * 2 ^ (w - 1) - m) with (1 * 2 ^ (w - 1) + (2 ^ (w - 1) - m)) by lia.
  by rewrite Z.div_add_l, Z.div_small by lia.
Qed.

Lemma negated_word m :
  0 < m < 2 ^ (w - 1) → Z.land (u64 (Z.lnot (2 ^ w - m) + 1)) (2 ^ (w - 1) - 1) = m.
Proof.
  intros Hm. destruct Hok.
  replace (2 ^ (w - 1) - 1) with (Z.ones (w - 1)) by (rewrite Z.ones_equiv; lia).
  rewrite Z.land_ones by lia. unfold u64, Z.lnot.
  assert (2 ^ w = 2 * 2 ^ (w - 1)) as -> by (rewrite <- Z.pow_succ_r by lia; f_equal; lia).
  rewrite Z.mod_mod_divide by
    (exists (2 ^ (64 - (w - 1))); rewrite <- Z.pow_add_r by lia; f_equal; lia).
  replace (Z.pred (- (2 * 2 ^ (w - 1) - m)) + 1) with (m + (-2) * 2 ^ (w - 1)) by lia.
  rewrite Z.mod_add, Z.mod_small by lia. done.
Qed.

Lemma fp_of_value_ok : fp_of_value (fp_value fp mod 2 ^ w) (int_bits fp + frac_precision fp)
  (int_bits fp) (frac_bits fp) = fp.
Proof.
  pose proof fp_magnitude_bounds as Hm. destruct fp_magnitude_parts as [Hi Hf].
  unfold fp_of_value. rewrite fp_value_mod. pose proof Hok as [].
  rewrite (proj2 (Z.ltb_lt _ _)) by lia.
  replace (int_bits fp + frac_precision fp - int_bits fp) with (frac_precision fp) by lia.
  destruct (Z.leb_spec 0 (int_value fp)).
  - rewrite sign_bit, Hi, Hf, Z.abs_eq by lia. by destruct fp.
  - assert (0 < fp_magnitude).
    { unfold fp_magnitude. pose proof (Z.pow_pos_nonneg 2 (frac_bits fp)). nia. }
    rewrite sign_bit_neg, negated_word, Hi, Hf by lia.
    replace (- Z.abs (int_value fp)) with (int_value fp) by lia. by destruct fp.
Qed.
End Pack.

(** Reading a field that was written. *)
Lemma reads_field v n p q (buf' : list Z) :
  0 ≤ n → (∀ k, p ≤ k < p + n → bit buf' k = Z.testbit v (p + n - 1 - k)) →
  (∀ j, 0 ≤ j → Z.testbit q j = (Z.testbit 0 j || ((j <? n) && bit buf' (p + n - 1 - j)))%bool) →
  q = v mod 2 ^ n.
Proof.
  intros Hn Hw Hr. apply Z.bits_inj'. intros j Hj. rewrite Hr, Z.testbit_0_l, Z.testbit_mod_pow2 by lia.
  cbn [orb]. destruct (Z.ltb_spec j n); [|done]. cbn [andb]. rewrite Hw by lia. f_equal. lia.
Qed.

(** [fp_fptobuf] writes, from bit [shift] on, the precision on six bits and the
    two's-complement value on its width, most significant bit first, and leaves every
    other bit of the buffer alone. *)
Lemma fptobuf_spec fp buf shift :
  0 ≤ int_bits fp → 0 ≤ frac_bits fp → 0 ≤ shift →
  shift + 6 + int_bits fp + frac_bits fp < 8 * zlen buf →
  ∃ buf', fp_fptobuf fp buf shift = Some buf' ∧ length buf' = length buf ∧
    ∀ k, 0 ≤ k → bit buf' k = field_bit (fp_fields fp) shift k (bit buf k).
Proof.
  intros Hi Hf Hs Hroom. unfold fp_fptobuf.
  destruct (fp_put_bits (Z.to_nat (8 + int_bits fp + frac_bits fp)) (fp_fields fp) (8 - shift mod 8)
    (Z.to_nat (shift / 8)) buf) as (buf' & He & Hlen & Hbits);
    [repeat constructor; cbn; lia|zlia|cbn; lia|cbn; zlia|].
  exists buf'. split_and!; [done|done|]. intros k Hk. rewrite Hbits by done. f_equal. zlia.
Qed.

(** The bits outside of the fields stay. *)
Lemma fp_fields_outside fp shift k old :
  0 ≤ int_bits fp → 0 ≤ frac_bits fp → (k < shift ∨ shift + 6 + int_bits fp + frac_bits fp ≤ k) →
  field_bit (fp_fields fp) shift k old = old.
Proof.
  intros Hi Hf Hk. cbn [field_bit fp_fields].
  replace ((shift <=? k) && (k <? shift + 6))%bool with false
    by (symmetry; rewrite andb_false_iff, Z.leb_gt, Z.ltb_ge; lia).
  replace (_ && _)%bool with false by (symmetry; rewrite andb_false_iff, Z.leb_gt, Z.ltb_ge; lia). done.
Qed.

(** [fp_buftofp] reads two words: the precision and the value. *)
Lemma buftofp_spec buf ib fb shift :
  0 ≤ ib → 0 ≤ fb → 0 ≤ shift → shift + 6 + ib + fb < 8 * zlen buf →
  ∃ q v, fp_buftofp buf ib fb shift = Some (fp_of_value v q ib fb) ∧
    (∀ j, 0 ≤ j → Z.testbit q j = ((j <? 6) && bit buf (shift + 6 - 1 - j))%bool) ∧
    (∀ j, 0 ≤ j → Z.testbit v j = ((j <? ib + fb) && bit buf (shift + 6 + (ib + fb) - 1 - j))%bool).
Proof.
  intros Hi Hf Hs Hroom. unfold fp_buftofp.
  destruct (fp_get_bits (Z.to_nat (8 + ib + fb)) [(0, 6); (0, ib + fb)] (8 - shift mod 8)
    (Z.to_nat (shift / 8)) buf) as (vs & -> & Hvs);
    [repeat constructor; cbn; lia|zlia|cbn; lia|cbn; zlia|].
  replace (8 * Z.of_nat (Z.to_nat (shift / 8)) + 8 - (8 - shift mod 8)) with shift in Hvs by zlia.
  destruct vs as [|q [|v [|]]]; cbn [reads_bits] in Hvs; try tauto.
  destruct Hvs as (Hq & Hv & _). cbn [mbind option_bind]. exists q, v. split; [done|].
  split; intros j Hj; [rewrite Hq by done|rewrite Hv by done]; by rewrite Z.testbit_0_l.
Qed.

(** What is read depends on the bits of the field only. *)
Lemma buftofp_ext buf1 buf2 ib fb shift :
  0 ≤ ib → 0 ≤ fb → 0 ≤ shift →
  shift + 6 + ib + fb < 8 * zlen buf1 → shift + 6 + ib + fb < 8 * zlen buf2 →
  (∀ k, shift ≤ k < shift + 6 + ib + fb → bit buf1 k = bit buf2 k) →
  fp_buftofp buf1 ib fb shift = fp_buftofp buf2 ib fb shift.
Proof.
  intros Hi Hf Hs H1 H2 Hb.
  destruct (buftofp_spec buf1 ib fb shift) as (q & v & -> & Hq & Hv); [done..|].
  destruct (buftofp_spec buf2 ib fb shift) as (q' & v' & -> & Hq' & Hv'); [done..|].
  assert (q = q') as ->.
  { apply Z.bits_inj'. intros j Hj. rewrite Hq, Hq' by done. destruct (Z.ltb_spec j 6); [|done].
    cbn [andb]. apply Hb. lia. }
  assert (v = v') as ->; [|done].
  apply Z.bits_inj'. intros j Hj. rewrite Hv, Hv' by done. destruct (Z.ltb_spec j (ib + fb)); [|done].
  cbn [andb]. apply Hb. lia.
Qed.

(** A number that was packed, as it is read back. *)
Definition fp_packed (fp : fp_number) : fp_number :=
  fp_of_value (fp_value fp mod 2 ^ (int_bits fp + frac_bits fp))
    (u64 (int_bits fp + frac_precision fp) mod 2 ^ 6) (int_bits fp) (frac_bits fp).

Lemma buftofp_written fp buf buf' shift :
  0 ≤ int_bits fp → 0 ≤ frac_bits fp → 0 ≤ shift →
  shift + 6 + int_bits fp + frac_bits fp < 8 * zlen buf →
  fp_fptobuf fp buf shift = Some buf' →
  fp_buftofp buf' (int_bits fp) (frac_bits fp) shift = Some (fp_packed fp).
Proof.
  intros Hi Hf Hs Hroom Hput.
  destruct (fptobuf_spec fp buf shift) as (b & Hb & Hlen & Hbits); [done..|].
  rewrite Hput in Hb. injection Hb as <-.
  destruct (buftofp_spec buf' (int_bits fp) (frac_bits fp) shift) as (q & v & -> & Hq & Hv);
    [done..|unfold zlen in *; lia|].
  unfold fp_packed. do 2 f_equal.
  - apply (reads_field _ _ (shift + 6) v buf'); [lia| |intros; by rewrite Z.testbit_0_l, Hv].
    intros k Hk. rewrite Hbits by lia.
    cbn [field_bit fp_fields]. rewrite (proj2 (Z.ltb_ge k (shift + 6))), andb_false_r by lia.
    by rewrite (proj2 (Z.leb_le _ _)), (proj2 (Z.ltb_lt _ _)) by lia.
  - apply (reads_field _ 6 shift q buf'); [lia| |intros; by rewrite Z.testbit_0_l, Hq].
    intros k Hk. rewrite Hbits by lia.
    cbn [field_bit fp_fields]. by rewrite (proj2 (Z.leb_le _ _)), (proj2 (Z.ltb_lt _ _)) by lia.
Qed.

Lemma fp_packed_ok fp : fp_ok fp → fp_packed fp = fp.
Proof.
  intros Hok. pose proof Hok as []. unfold fp_packed, u64.
  rewrite !(Z.mod_small (_ + frac_precision _)) by lia. by apply fp_of_value_ok.
Qed.

(** A number without decimals comes back with a precision of its own. *)
Lemma fp_packed_whole fp :
  frac_precision fp = 0 → 2 * int_bits fp < 64 → fp_ok (fp<|frac_precision := int_bits fp|>) →
  fp_packed fp = fp<|frac_precision := int_bits fp|>.
Proof.
  intros H0 Hw Hok. rewrite <- (fp_packed_ok (fp<|frac_precision := int_bits fp|>)) by done.
  destruct Hok. destruct fp as [i ib f fb p]. cbn in *. subst p. unfold fp_packed, fp_of_value. cbn.
  unfold u64. rewrite !(Z.mod_small (ib + _)) by lia.
  rewrite (proj2 (Z.ltb_ge ib (ib + 0))), (proj2 (Z.ltb_lt ib (ib + ib))) by lia.
  replace (ib + ib - ib) with ib by lia. done.
Qed.

(** A number packed into a buffer at any bit offset is read back unchanged, sign,
    fraction and precision included. *)
Theorem fp_buf_roundtrip fp buf shift :
  fp_ok fp → 0 ≤ shift → shift + 6 + int_bits fp + frac_bits fp < 8 * zlen buf →
  (buf' ← fp_fptobuf fp buf shift; fp_buftofp buf' (int_bits fp) (frac_bits fp) shift) = Some fp.
Proof.
  intros Hok Hs Hroom. pose proof Hok as [].
  destruct (fptobuf_spec fp buf shift) as (buf' & He & _); [lia..|].
  rewrite He. cbn [mbind option_bind]. rewrite (buftofp_written fp buf) by (done || lia).
  by rewrite fp_packed_ok.
Qed.

(** ** Parsing *)

Definition all_digits (s : list Z) : Prop := Forall (λ c, is_digit c = true) s.
(** The text after a number: its end, or a character that is not a digit. *)
Definition no_digit (s : list Z) : Prop := match s with c :: _ => is_digit c = false | [] => True end.
Definition minus (neg : bool) : list Z := if neg then [45] else [].
Definition signed (neg : bool) (v : Z) : Z := if neg then - v else v.

Lemma take_digits ds rest : all_digits ds → no_digit rest → take_while is_digit (ds ++ rest) = ds.
Proof.
  intros Hds Hr. induction Hds as [|c ds Hc _ IH]; cbn.
  - destruct rest as [|c rest]; [done|]. cbn in *. by rewrite Hr.
  - by rewrite Hc, IH.
Qed.

Lemma digits_nonneg ds acc : 0 ≤ acc → 0 ≤ digits acc ds.
Proof.
  revert acc. induction ds as [|c ds IH]; intros acc Ha; cbn; [done|]. unfold is_digit.
  destruct ((48 <=? c) && (c <=? 57))%bool eqn:E; [|done]. bool_to_prop. apply IH. lia.
Qed.

Lemma digits_bound ds acc : 0 ≤ acc → digits acc ds < (acc + 1) * 10 ^ zlen ds.
Proof.
  revert acc. induction ds as [|c ds IH]; intros acc Ha; cbn.
  { rewrite zlen_nil. lia. }
  rewrite zlen_cons, Z.pow_add_r by (pose proof (zlen_nonneg ds); lia).
  pose proof (Z.pow_pos_nonneg 10 (zlen ds) ltac:(lia) (zlen_nonneg ds)) as Hp. unfold is_digit.
  destruct ((48 <=? c) && (c <=? 57))%bool eqn:E; [|nia]. bool_to_prop.
  eapply Z.lt_le_trans; [apply IH; lia|]. nia.
Qed.

Lemma strtoll_digits neg ds rest :
  all_digits ds → ds ≠ [] → no_digit rest → digits 0 ds < 2 ^ 63 →
  strtoll (minus neg ++ ds ++ rest) = (signed neg (digits 0 ds), rest).
Proof.
  intros Hds Hne Hr Hv. pose proof (digits_nonneg ds 0) as H0. unfold strtoll.
  assert (∀ s : Z, s = 1 ∨ s = -1 → match take_while is_digit (ds ++ rest) with
    | [] => (0, minus neg ++ ds ++ rest)
    | l => (saturate (s * digits 0 l), drop (length l) (ds ++ rest)) end = (s * digits 0 ds, rest)) as Hs.
  { intros s Hs. rewrite take_digits by done. destruct ds as [|c ds]; [done|].
    cbv zeta. rewrite drop_app_length. f_equal. unfold saturate. lia. }
  destruct neg; cbn [minus app skip_spaces is_space signed].
  - specialize (Hs (-1) ltac:(lia)). etransitivity; [exact Hs|]. f_equal; lia.
  - destruct ds as [|c ds]; [done|]. apply Forall_cons_iff in Hds as [Hc _]. cbn [app skip_spaces].
    unfold is_digit in Hc. bool_to_prop.
    assert (is_space c = false) as ->.
    { unfold is_space. rewrite orb_false_iff, andb_false_iff, Z.eqb_neq, !Z.leb_gt. lia. }
    rewrite !(proj2 (Z.eqb_neq c _)) by lia. specialize (Hs 1 ltac:(lia)).
    etransitivity; [exact Hs|]. f_equal; lia.
Qed.

Lemma i64_some v : - 2 ^ 63 ≤ v < 2 ^ 63 → i64 v = Some v.
Proof. intros. unfold i64. by rewrite (proj2 (Z.leb_le _ _)), (proj2 (Z.ltb_lt _ _)) by lia. Qed.

(** What is parsed, exactly. *)
Lemma strtofp_exact neg ws ds rest intbits fltbits :
  all_digits ws → ws ≠ [] → all_digits ds → ds ≠ [] → no_digit rest →
  digits 0 ws < 2 ^ 63 → zlen ds ≤ 18 → digits 0 ds * 2 ^ fltbits < 2 ^ 63 → 0 ≤ fltbits →
  fp_strtofp (minus neg ++ ws ++ 46 :: ds ++ rest) intbits fltbits =
    Some ({| int_value := fp_clamp intbits (signed neg (digits 0 ws)); int_bits := intbits;
             frac_value := digits 0 ds * 2 ^ fltbits / 10 ^ zlen ds; frac_bits := fltbits;
             frac_precision := Z.min (fp_digits_bits (10 ^ zlen ds)) fltbits |}, rest).
Proof.
  intros His Hi0 Hds Hd0 Hr Hi Hk Hd Hfb. pose proof (digits_nonneg ds 0) as Hdn.
  pose proof (zlen_nonneg ds) as Hz. pose proof (Z.pow_pos_nonneg 2 fltbits ltac:(lia) Hfb) as Hp2.
  assert (0 < 10 ^ zlen ds ≤ 10 ^ 18) as Hp.
  { split; [apply Z.pow_pos_nonneg; lia|apply Z.pow_le_mono_r; lia]. }
  change (10 ^ 18) with 1000000000000000000 in Hp. change (2 ^ 63) with 9223372036854775808 in *.
  unfold fp_strtofp. rewrite (strtoll_digits neg ws (46 :: ds ++ rest)) by (done || cbn; done).
  change (46 =? 46) with true. cbn iota.
  pose proof (strtoll_digits false ds rest) as Hs. cbn [minus app signed] in Hs.
  rewrite Hs by (done || nia).
  rewrite zlen_app. replace (zlen ds + zlen rest - zlen rest) with (zlen ds) by lia.
  rewrite (i64_some (10 ^ _)) by (change (2 ^ 63) with 9223372036854775808; lia).
  cbn [mbind option_bind]. rewrite Z.shiftl_mul_pow2 by lia.
  rewrite i64_some by (change (2 ^ 63) with 9223372036854775808; nia). cbn [mbind option_bind].
  rewrite Z.quot_div_nonneg by nia. reflexivity.
Qed.
Lemma strtofp_whole neg ws rest intbits fltbits :
  all_digits ws → ws ≠ [] → no_digit rest → hd 0 rest ≠ 46 → digits 0 ws < 2 ^ 63 →
  fp_strtofp (minus neg ++ ws ++ rest) intbits fltbits =
    Some ({| int_value := fp_clamp intbits (signed neg (digits 0 ws)); int_bits := intbits;
             frac_value := 0; frac_bits := fltbits; frac_precision := 0 |}, rest).
Proof.
  intros His Hi0 Hr Hdot Hi. unfold fp_strtofp. rewrite (strtoll_digits neg ws rest) by done.
  destruct rest as [|c rest]; [done|]. cbn in Hdot. by rewrite (proj2 (Z.eqb_neq _ _) Hdot).
Qed.

(** A decimal number typed by the user, with at most 18 decimals that fit once shifted,
    is parsed without overflow; the integer part is kept or truncated to its width, the
    fraction is the nearest representable one from below, and the result can be packed
    unless it is the least integer. *)
Theorem fp_strtofp_value neg ws ds rest intbits fltbits :
  all_digits ws → ws ≠ [] → all_digits ds → ds ≠ [] → no_digit rest →
  digits 0 ws < 2 ^ 63 → zlen ds ≤ 18 → digits 0 ds * 2 ^ fltbits < 2 ^ 63 →
  0 < intbits → 0 < fltbits → intbits + fltbits < 64 →
  ∃ fp, fp_strtofp (minus neg ++ ws ++ 46 :: ds ++ rest) intbits fltbits = Some (fp, rest) ∧
    int_value fp = fp_clamp intbits (signed neg (digits 0 ws)) ∧
    frac_value fp * 10 ^ zlen ds ≤ digits 0 ds * 2 ^ fltbits < (frac_value fp + 1) * 10 ^ zlen ds ∧
    (- 2 ^ (intbits - 1) < int_value fp → fp_ok fp).
Proof.
  intros His Hi0 Hds Hd0 Hr Hi Hk Hd Hib Hfb Hw.
  pose proof (digits_nonneg ds 0) as Hdn. pose proof (digits_bound ds 0) as Hdb.
  pose proof (zlen_nonneg ds) as Hz.
  assert (0 < zlen ds) as Hz0 by (destruct ds; [done|]; rewrite zlen_cons in *; pose proof (zlen_nonneg ds); lia).
  assert (1 < 10 ^ zlen ds ≤ 10 ^ 18) as Hp.
  { split; [apply Z.pow_gt_1; lia|apply Z.pow_le_mono_r; lia]. }
  change (10 ^ 18) with 1000000000000000000 in Hp. change (2 ^ 63) with 9223372036854775808 in *.
  eexists. split; [by apply strtofp_exact; try done; lia|]. cbn.
  set (d := digits 0 ds * 2 ^ fltbits) in *.
  assert (0 ≤ d) by (unfold d; pose proof (Z.pow_pos_nonneg 2 fltbits); nia).
  pose proof (Z.div_mod d (10 ^ zlen ds) ltac:(lia)). pose proof (Z.mod_pos_bound d (10 ^ zlen ds) ltac:(lia)).
  split_and!; [done|nia|nia|]. intros Hmin.
  assert (0 < fp_digits_bits (10 ^ zlen ds)).
  { unfold fp_digits_bits. rewrite (proj2 (Z.eqb_neq _ _)) by lia.
    pose proof (Z.log2_nonneg (10 ^ zlen ds - 1)). lia. }
  split; cbn; try lia.
  - split; [done|]. unfold fp_clamp in *. pose proof (Z.pow_pos_nonneg 2 (intbits - 1)).
    repeat case_if; lia.
  - split; [apply Z.div_pos; lia|]. apply Z.div_lt_upper_bound; [lia|]. unfold d. nia.
Qed.

(** ** Printing *)

Lemma decimal_aux_zlen fuel v acc k :
  0 ≤ v < 10 ^ k → 1 ≤ k → zlen (decimal_aux fuel v acc) ≤ k + zlen acc.
Proof.
  revert v acc k. induction fuel as [|n IH]; intros v acc k Hv Hk; cbn [decimal_aux]; [lia|].
  destruct (Z.ltb_spec v 10); [rewrite zlen_cons; lia|].
  assert (2 ≤ k) as Hk2 by (destruct (Z.eq_dec k 1) as [->|]; lia).
  specialize (IH (v / 10) ((48 + v mod 10) :: acc) (k - 1)). rewrite zlen_cons in IH.
  replace k with (1 + (k - 1)) in Hv by lia. rewrite Z.pow_add_r in Hv by lia.
  assert (0 ≤ v / 10 < 10 ^ (k - 1)) by zlia. lia.
Qed.
Lemma digits_zeros n s : digits 0 (replicate n 48 ++ s) = digits 0 s.
Proof. induction n as [|n IH]; [done|exact IH]. Qed.

(** [%0*llu] shows the number with at least that many digits. *)
Lemma zero_padded_digits k v :
  0 ≤ v < 10 ^ k → 1 ≤ k ≤ 18 →
  all_digits (zero_padded k v) ∧ zlen (zero_padded k v) = k ∧ digits 0 (zero_padded k v) = v.
Proof.
  intros Hv Hk. pose proof (Z.pow_le_mono_r 10 k 20 ltac:(lia) ltac:(lia)).
  destruct (decimal_aux_digits 20 v [] ltac:(lia)) as (d & Hd & Hval & Hf). rewrite app_nil_r in Hd.
  pose proof (decimal_aux_zlen 20 v [] k ltac:(lia) ltac:(lia)) as Hl. change (zlen []) with 0 in Hl.
  unfold zero_padded, decimal. rewrite Hd in *. unfold zlen in *. split_and!.
  - apply Forall_app. split; [by apply Forall_replicate|done].
  - rewrite length_app, length_replicate. lia.
  - by rewrite digits_zeros.
Qed.

(** ** Texts that do not overflow *)

(** What follows the first point. *)
Definition after_point (s : list Z) : list Z :=
  match list_find (λ c, c = 46) s with Some (i, _) => drop (S i) s | None => [] end.

Lemma after_point_app pre rest : 46 ∉ pre → after_point (pre ++ 46 :: rest) = rest.
Proof.
  intros Hp. unfold after_point.
  assert (list_find (λ c, c = 46) (pre ++ 46 :: rest) = Some (length pre, 46)) as ->.
  { apply list_find_Some. split_and!; [by apply list_lookup_middle|done|].
    intros j y Hj Hlt ->. rewrite lookup_app_l in Hj by done. by apply Hp, (list_elem_of_lookup_2 _ j). }
  change (pre ++ 46 :: rest) with (pre ++ [46] ++ rest). rewrite app_assoc.
  apply drop_app_length'. rewrite length_app. cbn. lia.
Qed.
Lemma skip_spaces_split s : ∃ pre, s = pre ++ skip_spaces s ∧ 46 ∉ pre.
Proof.
  induction s as [|c s (pre & He & Hp)]; [by exists []; split; [|apply not_elem_of_nil]|]. cbn.
  destruct (is_space c) eqn:Hc; [|by exists []; split; [|apply not_elem_of_nil]].
  exists (c :: pre). split; [by cbn; f_equal|]. intros [<-|Hin]%elem_of_cons; [done|by apply Hp].
Qed.
Lemma take_while_split (P : Z → bool) s :
  s = take_while P s ++ drop (length (take_while P s)) s ∧ Forall (λ c, P c = true) (take_while P s).
Proof.
  induction s as [|c s [He Hf]]; cbn; [done|]. destruct (P c) eqn:Hc; [|done]. cbn. split; [by f_equal|by constructor].
Qed.
Lemma digits_no_point ds : all_digits ds → 46 ∉ ds.
Proof.
  intros Hds Hin. unfold all_digits in Hds. rewrite list.Forall_forall in Hds. by apply Hds in Hin.
Qed.

(** [strtoll] stops before the first point and reads no more digits than there are. *)
Lemma strtoll_rest s v rest :
  strtoll s = (v, rest) →
  (∃ pre, s = pre ++ rest ∧ 46 ∉ pre) ∧ ∃ n, 0 ≤ n ≤ zlen s - zlen rest ∧ Z.abs v < 10 ^ n + 1.
Proof.
  unfold strtoll. destruct (skip_spaces_split s) as (pre & He & Hp).
  set (p := match skip_spaces s with [] => (1, []) | _ => _ end).
  assert (∃ sg u, p = (sg, u) ∧ Z.abs sg = 1 ∧ ∃ w, skip_spaces s = w ++ u ∧ 46 ∉ w)
    as (sg & u & -> & Hsg & w & Hw & Hwp).
  { unfold p. destruct (skip_spaces s) as [|c u].
    { exists 1, []. split_and!; [done|done|]. exists []. split; [done|apply not_elem_of_nil]. }
    destruct (Z.eqb_spec c 45) as [->|]; [|destruct (Z.eqb_spec c 43) as [->|]].
    - exists (-1), u. split_and!; [done|done|]. exists [45]. split; [done|]. rewrite list_elem_of_singleton. lia.
    - exists 1, u. split_and!; [done|done|]. exists [43]. split; [done|]. rewrite list_elem_of_singleton. lia.
    - exists 1, (c :: u). split_and!; [done|done|]. exists []. split; [done|apply not_elem_of_nil]. }
  destruct (take_while_split is_digit u) as [Hu Hds].
  assert (s = (pre ++ w) ++ u) as Hs by (by rewrite <- app_assoc, <- Hw).
  destruct (take_while is_digit u) as [|c ds] eqn:Ht.
  - intros [= <- <-]. split; [exists []; split; [done|apply not_elem_of_nil]|]. exists 0. cbn. lia.
  - intros [= <- <-]. cbn [length drop] in *. set (l := c :: ds) in *.
    set (r := drop (S (length ds)) u) in *. split.
    + exists ((pre ++ w) ++ l). split; [by rewrite Hs at 1; rewrite Hu at 1; rewrite <- (app_assoc (pre ++ w))|].
      rewrite !not_elem_of_app. split_and!; [done|done|by apply digits_no_point].
    + exists (zlen l). assert (zlen s = zlen (pre ++ w) + (zlen l + zlen r)) as ->
        by (rewrite Hs at 1; rewrite Hu at 1; by rewrite !zlen_app).
      pose proof (zlen_nonneg (pre ++ w)). pose proof (zlen_nonneg l). split; [lia|].
      pose proof (digits_bound l 0 ltac:(lia)). pose proof (digits_nonneg l 0 ltac:(lia)).
      change (Z.abs (saturate (sg * digits 0 l)) < 10 ^ zlen l + 1). unfold saturate.
      assert (sg = 1 ∨ sg = -1) as [-> | ->] by lia; lia.
Qed.

(** With at most eleven characters after the point, parsing does not overflow. *)
Lemma strtofp_no_overflow s ib fb :
  zlen (after_point s) ≤ 11 → 0 ≤ fb ≤ 25 → fp_strtofp s ib fb ≠ None.
Proof.
  intros Hl Hfb. unfold fp_strtofp. destruct (strtoll s) as [v rest] eqn:Hs.
  apply strtoll_rest in Hs as [(pre & -> & Hp) _]. destruct rest as [|c e2]; [done|].
  destruct (Z.eqb_spec c 46) as [->|]; [|done]. rewrite after_point_app in Hl by done.
  destruct (strtoll e2) as [f endptr] eqn:He. apply strtoll_rest in He as [(pre2 & He2 & _) (n & Hn & Hf)].
  pose proof (zlen_nonneg endptr).
  assert (0 ≤ zlen e2 - zlen endptr) by lia.
  pose proof (Z.pow_le_mono_r 10 (zlen e2 - zlen endptr) 11 ltac:(lia) ltac:(lia)).
  pose proof (Z.pow_pos_nonneg 10 (zlen e2 - zlen endptr) ltac:(lia) ltac:(lia)).
  pose proof (Z.pow_le_mono_r 10 n 11 ltac:(lia) ltac:(lia)).
  pose proof (Z.pow_le_mono_r 2 fb 25 ltac:(lia) ltac:(lia)). pose proof (Z.pow_pos_nonneg 2 fb ltac:(lia) ltac:(lia)).
  rewrite Z.shiftl_mul_pow2 by lia. change (10 ^ 11) with 100000000000 in *. change (2 ^ 25) with 33554432 in *.
  set (p := 10 ^ (zlen e2 - zlen endptr)) in *. set (q := 2 ^ fb) in *. set (m := 10 ^ n) in *. clearbody p q m.
  assert (- 9223372036854775808 ≤ p < 9223372036854775808 ∧
          - 9223372036854775808 ≤ f * q < 9223372036854775808) as [Hb1 Hb2] by (split; [lia|nia]).
  rewrite (i64_some p Hb1). cbn [mbind option_bind]. by rewrite (i64_some (f * q) Hb2).
Qed.
