(* ===== verification/Pattern.v ===== *)
(** * Lists of patterns (src/daemon/pattern.c)

    [pattern_match] decides whether an interface or an address is selected by a list of
    comma-separated patterns, some of them black- or whitelisted.  The loop keeps a running
    verdict; the theorem gives the verdict as a closed formula on the list.  [fnmatch] is an
    argument: nothing is assumed of it. *)

From S2P Require Import Prelude Bytes Text.
From stdpp Require Import strings.
#[local] Open Scope Z_scope.

(** [strtok(s, ",")] until it returns NULL: the non-empty pieces. *)
Fixpoint strtok_aux (delim : Z) (s word : list Z) : list (list Z) :=
  match s with
  | [] => match word with [] => [] | _ => [word] end
  | c :: s' =>
      if c =? delim
      then match word with [] => strtok_aux delim s' [] | _ => word :: strtok_aux delim s' [] end
      else strtok_aux delim s' (word ++ [c])
  end.
Definition strtok (delim : Z) (s : list Z) : list (list Z) := strtok_aux delim s [].

Definition COMMA : Z := 44.
Definition BANG : Z := 33.

Section Pattern.
Variable fnmatch : list Z → list Z → bool.
Variable string : list Z.

(** The tests of the loop on one pattern. *)
Definition whitelists (pattern : list Z) : bool :=
  match pattern with
  | a :: b :: p => (a =? BANG) && (b =? BANG) && fnmatch p string
  | _ => false
  end.
Definition blacklists (pattern : list Z) : bool :=
  match pattern with
  | a :: p => (a =? BANG) && fnmatch p string
  | _ => false
  end.
Definition exact (pattern : list Z) : bool := bool_decide (pattern = string).

(** One iteration: [inr] for the [break]. *)
Definition pattern_step (pattern : list Z) (blacklisted : bool) (found : Z) : bool * Z + Z :=
  if whitelists pattern then inr (if exact (drop 2 pattern) then 2 else 1)
  else if blacklists pattern then inl (true, 0)
  else if (negb blacklisted && fnmatch pattern string)%bool then
    inl (blacklisted, if exact pattern then 2 else if found <? 2 then 1 else found)
  else inl (blacklisted, found).

Fixpoint pattern_loop (patterns : list (list Z)) (blacklisted : bool) (found : Z) : Z :=
  match patterns with
  | [] => found
  | pattern :: rest =>
      match pattern_step pattern blacklisted found with
      | inr found => found
      | inl (blacklisted, found) => pattern_loop rest blacklisted found
      end
  end.

Definition pattern_match (patterns : list Z) (found : Z) : Z :=
  pattern_loop (strtok COMMA patterns) false (if found =? 0 then 0 else 1).

(** The verdict the documentation describes. *)
Definition pattern_verdict (patterns : list (list Z)) (found : Z) : Z :=
  match list_find (λ p, whitelists p = true) patterns with
  | Some (_, p) => if exact (drop 2 p) then 2 else 1
  | None =>
      if existsb blacklists patterns then 0
      else if existsb (λ p, fnmatch p string && exact p)%bool patterns then 2
      else if existsb (λ p, fnmatch p string) patterns then Z.max 1 found
      else found
  end.

(** Once something is blacklisted only a whitelist counts. *)
Lemma pattern_loop_blacklisted patterns :
  pattern_loop patterns true 0 =
    match list_find (λ p, whitelists p = true) patterns with
    | Some (_, p) => if exact (drop 2 p) then 2 else 1
    | None => 0
    end.
Proof.
  induction patterns as [|p ps IH]; [done|]. cbn [pattern_loop list_find]. unfold pattern_step.
  destruct (whitelists p) eqn:Hw; [by rewrite decide_True|]. rewrite decide_False by done.
  cbn [negb andb]. destruct (blacklists p); rewrite IH; by destruct (list_find _ ps) as [[]|].
Qed.

Lemma pattern_loop_verdict patterns found :
  0 ≤ found ≤ 2 → pattern_loop patterns false found = pattern_verdict patterns found.
Proof.
  revert found. induction patterns as [|p ps IH]; intros found Hf; [done|].
  cbn [pattern_loop]. unfold pattern_step, pattern_verdict. cbn [list_find existsb].
  destruct (whitelists p) eqn:Hw; [by rewrite decide_True|]. rewrite decide_False by done.
  destruct (blacklists p) eqn:Hb.
  { rewrite pattern_loop_blacklisted. by destruct (list_find _ ps) as [[]|]. }
  cbn [negb andb orb].
  destruct (fnmatch p string) eqn:Hm; cbn [andb orb].
  - rewrite IH by (repeat case_if; lia). unfold pattern_verdict.
    destruct (list_find _ ps) as [[]|]; [done|]. cbn [fmap option_fmap option_map].
    destruct (existsb blacklists ps); [done|].
    destruct (exact p); cbn [orb].
    + destruct (existsb _ ps); [done|]. by destruct (existsb _ ps).
    + destruct (existsb (λ p, _ && _)%bool ps); [done|].
      destruct (Z.ltb_spec found 2); destruct (existsb _ ps); lia.
  - rewrite IH by done. unfold pattern_verdict.
    by destruct (list_find _ ps) as [[]|].
Qed.

(** C36: the verdict of [pattern_match] is the documented one: the first whitelisting pattern
    decides, else a blacklisting one rejects, else an exact match is 2, any other match is
    at least 1, and without a match the default stays. *)
Theorem pattern_match_verdict patterns found :
  pattern_match patterns found = pattern_verdict (strtok COMMA patterns) (if found =? 0 then 0 else 1).
Proof. apply pattern_loop_verdict. case_if; lia. Qed.
End Pattern.

(** Some lists of tests/check_pattern.c, with equality for [fnmatch]. *)
Example pattern_exact :
  pattern_match (λ p s, bool_decide (p = s)) (chars "eth0") (chars "eth1,eth0") 0 = 2.
Proof. reflexivity. Qed.
Example pattern_black :
  pattern_match (λ p s, bool_decide (p = s)) (chars "eth0") (chars "eth0,!eth0") 1 = 0.
Proof. reflexivity. Qed.
Example pattern_white :
  pattern_match (λ p s, bool_decide (p = s)) (chars "eth0") (chars "!eth0,,!!eth0") 0 = 2.
Proof. reflexivity. Qed.
