(* ===== verification/Tokenizer.v ===== *)
(** * The tokenizer of the command line (src/client/tokenizer.c)

    [tokenize_line] splits a line into words: quotes and backslashes protect characters,
    [#] starts a comment.  The code first turns the line into a list of characters, each
    with a flag that says whether it is protected, with the character 2 where a quote was
    opened; then it splits the list at the separators that are not protected. *)

From S2P Require Import Prelude Bytes Text.
From stdpp Require Import strings.
#[local] Open Scope Z_scope.

Definition is_ifs (c : Z) : bool := (c =? 32) || (c =? 10) || (c =? 9).
Definition is_quote (c : Z) : bool := (c =? 39) || (c =? 34).
Definition is_escape (c : Z) : bool := c =? 92.
Definition is_comment (c : Z) : bool := c =? 35.
Definition empty_mark : Z := 2.

(** The first loop: the marked characters, or [None] when a quote or an escape is open. *)
Fixpoint tok_mark (line : list Z) (escaped : bool) (quote : Z) : option (list (Z * bool)) :=
  match line with
  | [] => if (escaped || negb (quote =? 0))%bool then None else Some []
  | c :: line' =>
      if (is_comment c && negb escaped && (quote =? 0))%bool then Some []
      else if (negb escaped && is_escape c)%bool then tok_mark line' true quote
      else if (negb escaped && is_quote c && (quote =? 0))%bool then
        cons (empty_mark, true) <$> tok_mark line' false c
      else if (negb escaped && (quote =? c))%bool then tok_mark line' false 0
      else cons (c, (escaped || negb (quote =? 0))%bool) <$> tok_mark line' false quote
  end.

(** The second loop; [word] holds the characters since [wbegin]. *)
Fixpoint tok_words (input : list (Z * bool)) (word : option (list Z)) : list (list Z) :=
  match input with
  | [] => []
  | (c, escaped) :: input' =>
      match word with
      | None =>
          if (negb escaped && is_ifs c)%bool then tok_words input' None
          else tok_words input' (Some [c])
      | Some w =>
          if (escaped || negb (is_ifs c))%bool then tok_words input' (Some (w ++ [c]))
          else filter (λ c, c ≠ empty_mark) w :: tok_words input' None
      end
  end.

(** [None] stands for the error code 1, unmatched quotes. *)
Definition tokenize_line (line : list Z) : option (list (list Z)) :=
  input ← tok_mark line false 0;
  Some (tok_words (input ++ [(32, false)]) None).

Example tokenize_example :
  tokenize_line (chars " configure 'a b'c \# x # comment") =
    Some [chars "configure"; chars "a bc"; chars "#"; chars "x"].
Proof. reflexivity. Qed.

(** ** The array [input] is large enough *)

Lemma tok_mark_length line escaped quote input :
  tok_mark line escaped quote = Some input → (length input ≤ length line)%nat.
Proof.
  revert escaped quote input. induction line as [|c l IH]; intros escaped quote input; cbn [tok_mark].
  { case_if; [done|]. intros [= <-]. done. }
  repeat case_if; cbn [length].
  - intros [= <-]. cbn. lia.
  - intros Hi%IH. lia.
  - intros (i & Hi%IH & ->)%fmap_Some. cbn. lia.
  - intros Hi%IH. lia.
  - intros (i & Hi%IH & ->)%fmap_Some. cbn. lia.
Qed.

(** ** Ways to write a word *)

(** A character that stands for itself outside quotes. *)
Definition bare (c : Z) : Prop :=
  is_ifs c = false ∧ is_quote c = false ∧ is_escape c = false ∧ is_comment c = false.
(** A character that stands for itself between quotes. *)
Definition quotable (q c : Z) : Prop := c ≠ q ∧ is_escape c = false.

(** [spelled text word]: a way to write [word] on a line. *)
Inductive spelled : list Z → list Z → Prop :=
  | spelled_bare c : bare c → spelled [c] [c]
  | spelled_escaped c : spelled [92; c] [c]
  | spelled_quoted q w : is_quote q = true → Forall (quotable q) w → spelled (q :: w ++ [q]) w
  | spelled_app t1 w1 t2 w2 : spelled t1 w1 → spelled t2 w2 → spelled (t1 ++ t2) (w1 ++ w2).

(** The marked characters of a spelled word. *)
Definition marks_of (w : list Z) (input : list (Z * bool)) : Prop :=
  input ≠ [] ∧ Forall (λ m, snd m = true ∨ is_ifs (fst m) = false) input ∧
  filter (λ c, c ≠ empty_mark) (map fst input) = filter (λ c, c ≠ empty_mark) w.

Lemma quote_nonzero q : is_quote q = true → (q =? 0) = false ∧ is_escape q = false ∧ is_comment q = false.
Proof.
  unfold is_quote, is_escape, is_comment. rewrite orb_true_iff, !Z.eqb_eq.
  intros [-> | ->]; done.
Qed.

Lemma tok_mark_quoted q w line :
  is_quote q = true → Forall (quotable q) w →
  tok_mark (w ++ q :: line) false q =
    (λ r, map (λ c, (c, true)) w ++ r) <$> tok_mark line false 0.
Proof.
  intros Hq. destruct (quote_nonzero q Hq) as (H0 & He & Hc).
  induction 1 as [|c w [Hne Hce] _ IH]; cbn [app tok_mark map].
  - rewrite H0, He, andb_false_r. cbn [andb negb]. rewrite andb_false_r, Z.eqb_refl.
    by destruct (tok_mark line false 0).
  - rewrite H0, Hce, !andb_false_r. cbn [andb negb].
    rewrite (proj2 (Z.eqb_neq q c)) by done. cbn [orb]. rewrite IH.
    by destruct (tok_mark line false 0).
Qed.

Lemma tok_mark_spelled t w :
  spelled t w → no_nul w →
  ∃ input, marks_of w input ∧
    ∀ line, tok_mark (t ++ line) false 0 = (λ r, input ++ r) <$> tok_mark line false 0.
Proof.
  induction 1 as [c (Hi & Hq & He & Hc)|c|q w Hq Hw|t1 w1 t2 w2 _ IH1 _ IH2]; intros Hn.
  - apply Forall_cons_iff in Hn as [Hn _]. exists [(c, false)]. split.
    + split_and!; [done|constructor; [by right|done]|done].
    + intros line. cbn. rewrite Hq, He, Hc. cbn. destruct c; [done| |]; by destruct (tok_mark line false 0).
  - apply Forall_cons_iff in Hn as [Hn _]. exists [(c, true)]. split.
    + split_and!; [done|constructor; [by left|done]|done].
    + intros line. cbn. rewrite andb_false_r. by destruct (tok_mark line false 0).
  - destruct (quote_nonzero q Hq) as (H0 & He & Hc).
    exists ((empty_mark, true) :: map (λ c, (c, true)) w). split.
    + split_and!; [done|constructor; [by left|]|].
      * apply Forall_map, Forall_true. by left.
      * cbn [map fst]. rewrite filter_cons_False by (by intros []). by rewrite map_map, map_id.
    + intros line. cbn [app tok_mark]. rewrite Hc, He, Hq. cbn [andb negb Z.eqb].
      rewrite <- app_assoc. cbn [app]. rewrite tok_mark_quoted by done.
      by destruct (tok_mark line false 0).
  - apply Forall_app in Hn as [Hn1 Hn2].
    destruct (IH1 Hn1) as (i1 & (Hne & Hf1 & Hw1) & Ht1), (IH2 Hn2) as (i2 & (_ & Hf2 & Hw2) & Ht2).
    exists (i1 ++ i2). split.
    + split_and!; [by destruct i1|by apply Forall_app|]. by rewrite map_app, !filter_app, Hw1, Hw2.
    + intros line. rewrite <- app_assoc, Ht1, Ht2. destruct (tok_mark line false 0); [|done].
      cbn. by rewrite app_assoc.
Qed.

(** The characters of a word, then a separator. *)
Lemma tok_words_word input sep rest w :
  Forall (λ m, snd m = true ∨ is_ifs (fst m) = false) input → is_ifs sep = true →
  tok_words (input ++ (sep, false) :: rest) (Some w) =
    filter (λ c, c ≠ empty_mark) (w ++ map fst input) :: tok_words rest None.
Proof.
  intros Hf Hs. revert w. induction Hf as [|[c e] input Hc _ IH]; intros w; cbn [app tok_words map fst].
  - rewrite Hs. cbn. by rewrite app_nil_r.
  - cbn in Hc. assert ((e || negb (is_ifs c))%bool = true) as -> by (destruct Hc as [-> | ->]; [done|by destruct e]).
    rewrite IH, <- app_assoc. done.
Qed.

Lemma tok_words_marks w input sep rest :
  marks_of w input → is_ifs sep = true →
  tok_words (input ++ (sep, false) :: rest) None =
    filter (λ c, c ≠ empty_mark) w :: tok_words rest None.
Proof.
  intros (Hne & Hf & Hw) Hs. destruct input as [|[c e] input]; [done|].
  apply Forall_cons_iff in Hf as [Hc Hf]. cbn [app tok_words fst snd] in Hc |- *.
  assert ((negb e && is_ifs c)%bool = false) as -> by (destruct Hc as [-> | ->]; [done|by destruct e]).
  by rewrite tok_words_word, <- Hw.
Qed.

(** A line: words, each followed by a separator. *)
Definition line_of (ws : list (list Z * list Z * Z)) : list Z :=
  flat_map (λ '(t, _, sep), t ++ [sep]) ws.
Definition words_of (ws : list (list Z * list Z * Z)) : list (list Z) := map (λ x, x.1.2) ws.
Definition well_spelled (x : list Z * list Z * Z) : Prop :=
  spelled x.1.1 x.1.2 ∧ no_nul x.1.2 ∧ is_ifs x.2 = true ∧ Forall (λ c, c ≠ empty_mark) x.1.2.

Lemma ifs_mark sep line :
  is_ifs sep = true → tok_mark (sep :: line) false 0 = cons (sep, false) <$> tok_mark line false 0.
Proof.
  unfold is_ifs. rewrite !orb_true_iff, !Z.eqb_eq. by intros [[-> | ->] | ->].
Qed.

Lemma tokenize_words ws :
  Forall well_spelled ws →
  ∃ input, tok_mark (line_of ws) false 0 = Some input ∧
    ∀ rest, tok_words (input ++ rest) None = words_of ws ++ tok_words rest None.
Proof.
  induction 1 as [|[[t w] sep] ws (Hsp & Hn & Hs & H2) _ (input & Hin & Hws)]; [by exists []|].
  cbn [fst snd] in *. destruct (tok_mark_spelled t w Hsp Hn) as (i & Hi & Ht).
  exists (i ++ (sep, false) :: input). cbn [line_of flat_map words_of map fst snd app].
  fold (line_of ws) (words_of ws). rewrite <- app_assoc, Ht. cbn [app]. rewrite ifs_mark, Hin by done.
  split; [done|]. intros rest. rewrite <- app_assoc. cbn [app].
  rewrite (tok_words_marks w) by done. rewrite Hws. f_equal. by apply filter_all.
Qed.

(** Whatever mix of bare, escaped and quoted pieces the words of a line are written with,
    and whatever blanks separate them, [tokenize_line] gives the words back; the array it
    fills never overflows. *)
Theorem tokenize_line_words ws :
  Forall well_spelled ws →
  tokenize_line (line_of ws) = Some (words_of ws) ∧
  ∀ input, tok_mark (line_of ws) false 0 = Some input →
    (2 * length input + 2 < 2 * length (line_of ws) + 3)%nat.
Proof.
  intros Hws. destruct (tokenize_words ws Hws) as (input & Hin & Hw). split.
  - unfold tokenize_line. rewrite Hin. cbn [mbind option_bind]. rewrite Hw. cbn. by rewrite app_nil_r.
  - intros i Hi%tok_mark_length. lia.
Qed.
