(* ===== verification/Addresses.v ===== *)
(** * The management addresses the daemon keeps

    Every address of every chassis was made by [lldpd_alloc_mgmt]: its family is known and
    it is at most 16 bytes long.  The decoders promise it ([ProtocolAddrs]), the table keeps
    it, and with the settings that clients cannot spoil ([config_ok]) it holds in every
    reachable state: this is what the SNMP agent asserts of the state it reads. *)

From stdpp Require Import gmap relations strings.
From S2P Require Import Prelude Bytes Const Structs Decoder Frame Keeps LldpSend LldpDecode LldpSafe CdpSend CdpDecode.
From S2P Require Import Sonmp EdpDecode Table TableOk TableInv TableSteps Protocols Smart Loop Client Daemon.
#[local] Open Scope Z_scope.

Definition addrs_ok (c : lldpd_chassis) : Prop := Forall mgmt_ok (c_mgmt c).

(** ** Decoders *)

Lemma wp_bytes_len {X A} frame n (k : list Z → decoder (cursor X) A) Q st :
  (∀ b st', zlen b = n → c_ext st' = c_ext st → wp (k b) (λ _, True) (λ _, True) Q st') →
  wp (PEEK_BYTES frame n ≫= k) (λ _, True) (λ _, True) Q st.
Proof.
  intros Hk. apply wp_bind. unfold wp at 1, PEEK_BYTES.
  destruct (_ && _)%bool eqn:Hc; [|done]. bool_to_prop. apply Hk; [|done].
  rewrite zlen_take; [done|]. rewrite zlen_drop; lia.
Qed.
Lemma keeps_bytes_len {X A} (P : X → Prop) frame n (k : list Z → decoder (cursor X) A) :
  (∀ b, zlen b = n → Keeps P (k b)) → Keeps P (PEEK_BYTES frame n ≫= k).
Proof. intros Hk st Hst. apply wp_bytes_len. intros b st' Hb He. apply Hk; [done|by rewrite He]. Qed.
Lemma alloc_mgmt_size family addr size iface m :
  lldpd_alloc_mgmt family addr size iface = inr m → size ≤ LLDPD_MGMT_MAXADDRSIZE.
Proof.
  unfold lldpd_alloc_mgmt. case_match; [done|].
  destruct (Z.ltb_spec LLDPD_MGMT_MAXADDRSIZE size) as [|Hs]; [done|]. by intros _.
Qed.
(** An address of [size] bytes is added. *)
Lemma keeps_alloc {X A} (P : X → Prop) family addr size iface (k : lldpd_mgmt → decoder (cursor X) A)
    (fail : errno → decoder (cursor X) A) :
  0 ≤ size ≤ zlen addr → (∀ m, mgmt_ok m → Keeps P (k m)) → (∀ e, Keeps P (fail e)) →
  Keeps P (match lldpd_alloc_mgmt family addr size iface with inl e => fail e | inr m => k m end).
Proof.
  intros Hs Hk Hf. destruct (lldpd_alloc_mgmt family addr size iface) as [e|m] eqn:Ha; [done|].
  apply Hk. by eapply alloc_mgmt_ok.
Qed.
Lemma addrs_app c m : addrs_ok c → mgmt_ok m → addrs_ok c<|c_mgmt ::= λ l, l ++ [m]|>.
Proof. intros Hc Hm. apply Forall_app. split; [done|by constructor]. Qed.

Section Lldp.
Context `{BuildConfig}.
Variable frame : list Z.
(** The buffer for addresses keeps its 32 bytes. *)
#[local] Abbreviation fine := (λ l, addrs_ok (l_chassis l) ∧ length (l_addr_str_buffer l) = 32%nat).

Lemma keeps_addr_buffer n : Keeps fine (peek_addr_buffer frame n).
Proof.
  apply keeps_bytes_len. intros b Hb. destruct (Z.ltb_spec 32 n); [apply keeps_undefined|].
  apply keeps_ext_set. intros l [Ha Hl]. split; [exact Ha|]. cbn.
  rewrite length_app, length_map, length_drop, Hl. unfold zlen in Hb. lia.
Qed.
Lemma keeps_mgmt n : Keeps fine (decode_mgmt frame n).
Proof.
  unfold decode_mgmt, CHECK_TLV_SIZE, read_addr_buffer. cbv zeta.
  do 3 (apply keeps_bind; [keeps_solve|intros ?]).
  apply keeps_bind; [apply keeps_addr_buffer|intros _].
  do 4 (apply keeps_bind; [keeps_solve|intros ?]).
  destruct (_ =? _); [apply keeps_ret|]. intros st Hst. apply wp_bind, wp_gets.
  destruct (lldpd_alloc_mgmt _ _ _ _) as [e|m] eqn:Ha.
  - assert (Keeps fine (assert_ (match e with ENOMEM => true | _ => false end);; malformed (A:=unit))) as Hk
      by keeps_solve. by apply Hk.
  - apply (keeps_ext_set fine); [|exact Hst]. intros l [Hl Hb]. split; [|exact Hb].
    apply addrs_app; [exact Hl|].
    pose proof (alloc_mgmt_size _ _ _ _ _ Ha). eapply alloc_mgmt_ok; [|exact Ha]. destruct Hst as [_ Hlen].
    split; [unfold u8; apply Z.mod_pos_bound; lia|]. unfold zlen. rewrite length_map, length_drop.
    unfold compose. cbn in Hlen |- *. rewrite Hlen. unfold LLDPD_MGMT_MAXADDRSIZE in *. lia.
Qed.
Lemma keeps_fine_cos n : Keeps fine (read_cos frame n).
Proof. intros st Hst. unfold wp, read_cos. by case_if. Qed.
Lemma keeps_fine_body fuel : Keeps fine (lldp_decode_body frame fuel).
Proof.
  unfold lldp_decode_body, lldp_decode_start, lldp_decode_tlv, decode_value, decode_id, decode_ttl,
    decode_string, decode_cap, decode_org, decode_dot1, decode_dot3, decode_med, decode_med_policy,
    decode_med_location, decode_med_mdi, decode_med_inventory, CHECK_TLV_SIZE, enable_med_cap,
    set_med_power, rx_unrecognized, set_port, set_chassis.
  keeps_solve; first [apply keeps_fine_cos | apply keeps_mgmt |
    apply keeps_ext_set; intros l [Hl Hb]; split; [|exact Hb]; unfold addrs_ok in *; cbn;
    repeat case_match; exact Hl].
Qed.
Lemma lldp_decode_addrs s hw c q hw' : lldp_decode frame s hw = Decoded c q hw' → addrs_ok c.
Proof.
  unfold lldp_decode.
  pose proof (keeps_fine_body (S (Z.to_nat s))
    {| c_pos := 0; c_length := s; c_ext := lldp_locals_init |} (conj (Forall_nil_2 _) eq_refl)) as Hk.
  unfold wp in Hk. destruct (lldp_decode_body _ _ _); intros [= <- <- <-]. apply Hk.
Qed.
End Lldp.

Section Others.
Context `{BuildConfig}.

Lemma keeps_cdp_address frame len :
  Keeps (λ l, addrs_ok (k_chassis l)) (cdp_decode_address frame len).
Proof.
  unfold cdp_decode_address, cdp_is_ipv4, cdp_set_chassis. cbv zeta.
  repeat (apply keeps_bind; [solve [keeps_solve]|intros ?]).
  apply keeps_bind; [|intros _; keeps_solve]. case_match; [|apply keeps_ret].
  apply keeps_bytes_len. intros b Hb. apply keeps_alloc; [lia| |intros e; keeps_solve].
  intros m Hm. apply keeps_ext_set. intros l Hl. by apply addrs_app.
Qed.
Lemma keeps_cdp_addrs frame fuel nb len :
  Keeps (λ l, addrs_ok (k_chassis l)) (cdp_decode_addresses frame fuel nb len).
Proof.
  revert nb len. induction fuel as [|n IH]; intros nb len; [apply keeps_undefined|].
  cbn [cdp_decode_addresses]. case_match; [|apply keeps_ret].
  apply keeps_bind; [apply keeps_cdp_address|intros ?; apply IH].
Qed.
Lemma cdp_decode_addrs frame s hw c q hw' : cdp_decode frame s hw = Decoded c q hw' → addrs_ok c.
Proof.
  assert (∀ fuel, Keeps (λ l, addrs_ok (k_chassis l)) (cdp_decode_body frame fuel)) as Hbody.
  { intros fuel. unfold cdp_decode_body, cdp_decode_start, cdp_decode_tlv, cdp_description, cdp_decode_value,
      cdp_decode_chassis, cdp_decode_port, cdp_decode_capabilities, cdp_decode_vlan, cdp_check,
      cdp_set_chassis, cdp_set_port.
    keeps_solve. apply keeps_cdp_addrs. }
  unfold cdp_decode.
  pose proof (Hbody (S (Z.to_nat s))
    {| c_pos := 0; c_length := s; c_ext := cdp_locals_init |} (Forall_nil_2 _)) as Hk.
  unfold wp in Hk. destruct (cdp_decode_body _ _ _); intros [= <- <- <-]. apply Hk.
Qed.

Lemma keeps_edp_addrs conf frame fuel :
  Keeps (λ l, addrs_ok (x_chassis l)) (edp_decode_body conf frame fuel).
Proof.
  assert (∀ n, Keeps (λ l, addrs_ok (x_chassis l)) (edp_decode_vlan frame n)) as Hvlan.
  { intros n. unfold edp_decode_vlan, edp_set_chassis, edp_set_port.
    do 4 (apply keeps_bind; [keeps_solve|intros ?]). apply keeps_bytes_len. intros b Hb.
    apply keeps_bind; [|intros _; keeps_solve]. case_match; [apply keeps_ret|].
    apply keeps_alloc; [lia| |intros e; keeps_solve].
    intros m Hm. apply keeps_ext_set. intros l Hl. by apply addrs_app. }
  unfold edp_decode_body, edp_decode_start, edp_decode_tlv, edp_decode_value, edp_decode_info,
    edp_set_chassis, edp_set_port.
  keeps_solve. apply Hvlan.
Qed.

Lemma sonmp_decode_addrs conf frame s hw c q hw' :
  sonmp_decode conf frame s hw = Decoded c q hw' → addrs_ok c.
Proof.
  unfold sonmp_decode.
  assert (wp (sonmp_decode_body conf frame) (λ _, True) (λ _, True) (λ cq _, addrs_ok cq.1)
    {| c_pos := 0; c_length := s; c_ext := tt |}) as Hk.
  2: { unfold wp in Hk. destruct (sonmp_decode_body _ _ _) as [[c' q'] st|st|f]; [|done|done].
       by intros [= <- <- <-]. }
  unfold sonmp_decode_body. apply wp_bind. unfold wp at 1.
  destruct (sonmp_start _ _) as [[] st|st|f]; [|done|done]. apply wp_bytes_len. intros b st' Hb _.
  do 2 (apply wp_bind; unfold wp at 1; case_match; [|done|done]). case_match; [|done].
  destruct (lldpd_alloc_mgmt LLDPD_AF_IPV4 b 4 0) as [e|m] eqn:Ha; [by destruct e|].
  apply wp_ret. constructor; [|constructor]. eapply alloc_mgmt_ok; [|exact Ha]. lia.
Qed.

(** ** The contract *)

Definition heap_addrs (h : heap) : Prop := ∀ p c, h !! p = Some c → addrs_ok c.

Class ProtocolAddrs (p : protocol) : Prop := {
  pa_decoded conf h frame s hw h' c q hw' :
    proto_decode p conf h frame s hw = PDecoded h' c q hw' → heap_addrs h → heap_addrs h' ∧ addrs_ok c;
  pa_discarded conf h frame s hw h' hw' :
    proto_decode p conf h frame s hw = PDiscarded h' hw' → heap_addrs h → heap_addrs h'
}.
Lemma pure_addrs (p : protocol) (decode : lldpd_config → list Z → Z → lldpd_hardware → decode_result) :
  (∀ conf h frame s hw, proto_decode p conf h frame s hw = pure_decode h (decode conf frame s hw)) →
  (∀ conf frame s hw c q hw', decode conf frame s hw = Decoded c q hw' → addrs_ok c) →
  ProtocolAddrs p.
Proof.
  intros Hdec Hd. split; intros conf h frame s hw; intros *; rewrite Hdec;
    destruct (decode conf frame s hw) as [c' q' hw''|hw''|] eqn:E; cbn; try done.
  - intros [= <- <- <- <-] Hh. split; [done|]. by eapply Hd.
  - by intros [= <- <-].
Qed.
#[export] Instance lldp_addrs e : ProtocolAddrs (lldp_protocol e).
Proof. eapply (pure_addrs _ (λ _ frame s hw, lldp_decode frame s hw)); [done|]. intros conf frame s hw c q hw' Hd. by eapply lldp_decode_addrs. Qed.
Lemma cdp_like_addrs p :
  (∀ conf h frame s hw, proto_decode p conf h frame s hw = pure_decode h (cdp_decode frame s hw)) →
  ProtocolAddrs p.
Proof. intros Hp. eapply (pure_addrs _ (λ _, cdp_decode)); [done|]. intros conf frame s hw c q hw' Hd. by eapply cdp_decode_addrs. Qed.
#[export] Instance cdpv1_addrs e : ProtocolAddrs (cdpv1_protocol e).
Proof. by apply cdp_like_addrs. Qed.
#[export] Instance cdpv2_addrs e : ProtocolAddrs (cdpv2_protocol e).
Proof. by apply cdp_like_addrs. Qed.
#[export] Instance fdp_addrs e : ProtocolAddrs (fdp_protocol e).
Proof. by apply cdp_like_addrs. Qed.
#[export] Instance sonmp_addrs e : ProtocolAddrs (sonmp_protocol e).
Proof. eapply (pure_addrs _ (λ conf, sonmp_decode (Some conf))); [done|]. intros conf frame s hw c q hw' Hd. by eapply sonmp_decode_addrs. Qed.

(** A change of one chassis. *)
Lemma heap_addrs_alter f p h :
  (∀ c, addrs_ok c → addrs_ok (f c)) → heap_addrs h → heap_addrs (alter f p h).
Proof.
  intros Hf Hh p' c. destruct (decide (p = p')) as [->|Hne].
  - rewrite lookup_alter_eq. destruct (h !! p') as [c'|] eqn:Hc; [|done]. intros [= <-]. by eapply Hf, Hh.
  - rewrite lookup_alter_ne by done. apply Hh.
Qed.
Lemma edp_new_mgmts_ok l : Forall mgmt_ok l → Forall mgmt_ok (edp_new_mgmts l).
Proof. induction 1; cbn; [constructor|]. case_match; [done|by constructor]. Qed.
Lemma edp_attach_addrs chassis rports h vlans mgmts h' rports' :
  Forall mgmt_ok mgmts → heap_addrs h → edp_attach h chassis rports vlans mgmts = (h', rports') → heap_addrs h'.
Proof.
  revert h vlans mgmts rports'. induction rports as [|q rports IH]; cbn; intros h vlans mgmts rports' Hm Hh.
  { by intros [= <- <-]. }
  case_match; destruct (edp_attach _ _ _ _ _) as [h2 rest] eqn:Hrest; intros [= <- <-]; [|by eapply (IH h)].
  eapply (IH _ [] []); [constructor| |exact Hrest]. destruct (p_chassis q) as [p|]; [|done].
  apply heap_addrs_alter; [|done]. intros c Hc. apply Forall_app. split; [done|by apply edp_new_mgmts_ok].
Qed.
#[export] Instance edp_addrs e : ProtocolAddrs (edp_protocol e).
Proof.
  assert (∀ conf frame h s hw, heap_addrs h →
    match edp_decode conf frame h s hw with
    | PDecoded h' c _ _ => heap_addrs h' ∧ addrs_ok c
    | PDiscarded h' _ => heap_addrs h'
    | PCrashed _ => True
    end) as Hc.
  { intros conf frame h s hw Hh. unfold edp_decode.
    pose proof (keeps_edp_addrs conf frame (S (Z.to_nat s))
      {| c_pos := 0; c_length := s; c_ext := edp_locals_init |} (Forall_nil_2 _)) as Hk. unfold wp in Hk.
    destruct (edp_decode_body _ _ _ _) as [[] st|st|f]; [|done|done].
    destruct (edp_mandatory (c_ext st)); [by split|].
    destruct (x_gotvlans (c_ext st) && x_gotend (c_ext st))%bool; [|done].
    destruct (edp_attach _ _ _ _ _) as [h' rports'] eqn:Hat. by eapply edp_attach_addrs. }
  split; intros conf h frame s hw; intros *; cbn; intros Hd Hh;
    specialize (Hc conf frame h s hw Hh); rewrite Hd in Hc; apply Hc.
Qed.
Lemma protos_addrs enabled_ : Forall ProtocolAddrs (protos enabled_).
Proof. repeat (apply Forall_cons_iff; split; [apply _|]). done. Qed.
End Others.

(** ** The table *)

Section Table.
Context `{BuildConfig}.
Implicit Types (cfg : lldpd) (hw : lldpd_hardware) (h : heap).

Lemma ref_add_addrs d p h : heap_addrs h → heap_addrs (ref_add d p h).
Proof. by apply heap_addrs_alter. Qed.
Lemma port_cleanup_addrs q h : heap_addrs h → heap_addrs (lldpd_port_cleanup h q).
Proof. unfold lldpd_port_cleanup. destruct (p_chassis q); [apply ref_add_addrs|done]. Qed.
Lemma store_chassis_addrs cfg ochassis c cfg' p :
  heap_addrs (g_heap cfg) → addrs_ok c → store_chassis cfg ochassis c = (cfg', p) →
  heap_addrs (g_heap cfg') ∧ g_config cfg' = g_config cfg.
Proof.
  intros Hh Hc. destruct ochassis as [po|]; cbn; intros [= <- <-]; (split; [|done]); cbn.
  - by apply heap_addrs_alter.
  - intros p' c' [[<- <-]|[_ Hc']]%lookup_insert_Some; [exact Hc|by eapply Hh].
Qed.
Lemma register_addrs cfg i hw c q bytes now :
  heap_addrs (g_heap cfg) → addrs_ok c →
  heap_addrs (g_heap (register_neighbor cfg i hw c q bytes now)) ∧
  g_config (register_neighbor cfg i hw c q bytes now) = g_config cfg.
Proof.
  intros Hh Hc. unfold register_neighbor. destruct (find_msap _ _ _ _ _ _) as [count oport].
  destruct (_ && _)%bool; [by split; [apply port_cleanup_addrs|]|].
  set (start := match oport with Some (k, o) => _ | None => (g_heap cfg, hw) end).
  assert (heap_addrs start.1) as Hs by (destruct oport as [[k o]|]; [by apply port_cleanup_addrs|done]).
  destruct start as [h1 hw1]. destruct (store_chassis _ _ _) as [cfg1 p] eqn:Hst.
  apply store_chassis_addrs in Hst as [H1 H2]; [|done|done]. split; [|exact H2]. by apply ref_add_addrs.
Qed.
Lemma decode_addrs cfg i frame s now cfg' :
  Forall ProtocolAddrs (g_protocols cfg) → heap_addrs (g_heap cfg) →
  lldpd_decode cfg i frame s now = inr cfg' → heap_addrs (g_heap cfg') ∧ g_config cfg' = g_config cfg.
Proof.
  intros Hpa Hh. unfold lldpd_decode. destruct (g_hardware cfg !! i) as [hw0|]; [|by intros [= <-]].
  destruct (s <? 18); [by intros [= <-]|]. cbv zeta.
  destruct (vlan_decap frame s) as [f|[fr n]]; [done|].
  destruct (list_find _ _) as [[k ?]|]; [by intros [= <-]|].
  destruct (find_decoder _ _) as [proto|] eqn:Hfd; [|by intros [= <-]].
  assert (ProtocolAddrs proto) as Hproto.
  { unfold find_decoder in Hfd. destruct (list_find _ (g_protocols cfg)) as [[k p]|] eqn:Hlf; [|done].
    injection Hfd as <-. apply list_find_Some in Hlf as (Hk & _). by eapply Forall_lookup_1. }
  destruct (proto_decode _ _ _ _ _ _) as [h' c q hw'|h' hw'|f] eqn:Hdec; [| |done]; intros [= <-].
  - destruct (pa_decoded _ _ _ _ _ _ _ _ _ Hdec Hh) as [Hh' Hc].
    match goal with |- context [register_neighbor ?a ?b ?d ?e ?f ?g ?t] =>
      by destruct (register_addrs a b d e f g t Hh' Hc) as [? ->] end.
  - split; [|done]. by eapply pa_discarded.
Qed.
Lemma recv_addrs cfg i received now cfg' :
  Forall ProtocolAddrs (g_protocols cfg) → heap_addrs (g_heap cfg) →
  lldpd_recv cfg i received now = inr cfg' → heap_addrs (g_heap cfg') ∧ g_config cfg' = g_config cfg.
Proof.
  intros Hpa Hh. unfold lldpd_recv. destruct (g_hardware cfg !! i) as [hw|]; [|by intros [= <-]].
  destruct received as [[buffer n]|]; [|by intros [= <-]].
  destruct (rx_open _ _); [|by intros [= <-]]. cbv zeta.
  destruct (lldpd_decode _ _ _ _ _) as [f|cfg1] eqn:Hd; [done|]. intros [= <-].
  eapply decode_addrs in Hd as [H1 H2]; [|done|done]. unfold lldpd_hide_all. cbv zeta. by case_match.
Qed.

Lemma cleanup_loop_addrs expire all now ports h hw h' hw' ev kept :
  heap_addrs h → remote_cleanup_loop expire all now ports h hw = (h', hw', ev, kept) → heap_addrs h'.
Proof.
  revert h hw h' hw' ev kept. induction ports as [|q ports IH]; cbn; intros h hw h' hw' ev kept Hh.
  { by intros [= <- <- <- <-]. }
  destruct (remote_cleanup_port _ _ _ _ _ _) as [[[h1 hw1] ev1] keep] eqn:H1.
  destruct (remote_cleanup_loop _ _ _ _ _ _) as [[[h2 hw2] ev2] kept2] eqn:H2. intros [= <- <- <- <-].
  eapply IH, H2. unfold remote_cleanup_port in H1. cbv zeta in H1.
  destruct (_ || _)%bool; injection H1 as <- <- <- <-; [by apply port_cleanup_addrs|done].
Qed.
Lemma cleanup_hardware_addrs now hws h h' ev kept :
  heap_addrs h → cleanup_hardware now hws h = (h', ev, kept) → heap_addrs h'.
Proof.
  revert h h' ev kept. induction hws as [|hw hws IH]; cbn; intros h h' ev kept Hh; [by intros [= <- <- <-]|].
  destruct (lldpd_remote_cleanup _ _ _ _ _) as [[h1 hw1] ev1] eqn:H1.
  destruct (cleanup_hardware _ _ _) as [[h2 ev2] kept2] eqn:H2. intros [= <- <- <-]. eapply IH, H2.
  unfold lldpd_remote_cleanup in H1.
  destruct (remote_cleanup_loop _ _ _ _ _ _) as [[[h3 hw3] ev3] kept3] eqn:H3. injection H1 as <- <- <-.
  eapply cleanup_loop_addrs in H3; [|done]. case_match; [by apply port_cleanup_addrs|done].
Qed.
Lemma cleanup_addrs now cfg :
  heap_addrs (g_heap cfg) →
  heap_addrs (g_heap (lldpd_cleanup now cfg)) ∧ g_config (lldpd_cleanup now cfg) = g_config cfg.
Proof.
  intros Hh. unfold lldpd_cleanup. destruct (cleanup_hardware _ _ _) as [[h ev] hws] eqn:Hc.
  eapply cleanup_hardware_addrs in Hc; [|done]. split; [|done]. cbn.
  generalize (filter (λ p, unreferenced h p = true) (g_chassis cfg)) as dead.
  induction dead as [|p dead IH]; cbn; [done|]. intros p' c [_ Hc']%lookup_delete_Some. by eapply IH.
Qed.
Lemma send_addrs cfg i driver now seq cfg' seq' packets :
  lldpd_send cfg i driver now seq = (cfg', seq', packets) →
  g_heap cfg' = g_heap cfg ∧ g_config cfg' = g_config cfg.
Proof. unfold lldpd_send. repeat case_match; intros [= <- <- <-]; simplify_eq; done. Qed.

(** What the SNMP agent relies on, in every reachable state. *)
Definition sound (cfg : lldpd) : Prop :=
  table_ok 0 cfg ∧ heap_addrs (g_heap cfg) ∧ config_ok (g_config cfg).

Lemma step_sound enabled_ cfg cfg' :
  lldpd_step cfg cfg' → g_protocols cfg = protos enabled_ → sound cfg →
  sound cfg' ∧ g_protocols cfg' = protos enabled_.
Proof.
  intros Hstep Hp (Hok & Hh & Hc).
  destruct (step_table_ok enabled_ _ _ Hstep Hp Hok) as [Hok' Hp']. split; [|done].
  split; [done|]. clear Hok' Hp'. pose proof (protos_addrs enabled_) as Hpa. rewrite <- Hp in Hpa.
  destruct Hstep as [i received now cfg' Hrecv|i driver now seq cfg' seq' packets Hsend|now Hb
    |sys once p Hl|ifname index hw0|i hw hw' Hi Hu|alloc sub buffer cfg' sub' reply rest Hserve].
  - by destruct (recv_addrs _ _ _ _ _ Hpa Hh Hrecv) as [? ->].
  - by destruct (send_addrs _ _ _ _ _ _ _ _ Hsend) as [-> ->].
  - by destruct (cleanup_addrs now cfg Hh) as [? ->].
  - split; [|done]. apply heap_addrs_alter; [|done]. intros c Hcc.
    unfold addrs_ok. by rewrite update_localchassis_view.
  - unfold lldpd_alloc_hardware. case_match; [|done]. split; [|done]. by apply ref_add_addrs.
  - done.
  - apply served_cases in Hserve as [->|[[config ->]|(i & hw & port & Hi & Hs & ->)]]; [done| |done].
    assert (LOCAL_CHASSIS cfg = Some 0%nat) as Hl by (destruct Hok as [Hhk _ _]; exact (hk_local _ _ _ _ Hhk)).
    destruct (apply_config_sets 0 config cfg Hl) as [He [_ _ _ _ [ttl Httl] _]].
    rewrite He, Httl. split; [|by apply merged_ok]. by apply heap_addrs_alter.
Qed.
Lemma reachable_sound config enabled_ lchassis cfg :
  config_ok config → addrs_ok lchassis →
  rtc lldpd_step (daemon_init config (protos enabled_) lchassis) cfg → sound cfg.
Proof.
  intros Hconf Hl Hsteps.
  enough (sound cfg ∧ g_protocols cfg = protos enabled_) by tauto.
  revert cfg Hsteps. apply rtc_ind_r.
  - split; [|done]. split_and!; [apply daemon_init_ok| |done].
    cbn. by intros p c [<- <-]%lookup_singleton_Some.
  - intros cfg cfg' _ Hstep [Hs Hp]. by eapply step_sound.
Qed.

(** The assertion of [lldp_send] on the families of the addresses never fails. *)
Theorem mgmt_assertion_holds config enabled_ lchassis cfg p c :
  config_ok config → addrs_ok lchassis →
  rtc lldpd_step (daemon_init config (protos enabled_) lchassis) cfg →
  g_heap cfg !! p = Some c → mgmt_assertion (g_config cfg) c = true.
Proof.
  intros Hconf Hl Hsteps Hc. destruct (reachable_sound _ _ _ _ Hconf Hl Hsteps) as (_ & Hh & _).
  unfold mgmt_assertion. rewrite orb_true_iff. right. rewrite forallb_forall. intros m Hm.
  specialize (Hh p c Hc). unfold addrs_ok in Hh. rewrite List.Forall_forall in Hh.
  apply negb_true_iff, Z.eqb_neq, mgmt_proto_known, Hh, Hm.
Qed.
End Table.
