(* ===== verification/SnmpIndex.v ===== *)
(** * Searching the tables of the SNMP agent (src/daemon/agent.c)

    A row of a table has an index, the end of its object identifier.  A request names an
    identifier and asks for that row (GET, [exact]) or for the next one (GETNEXT).  The
    agent goes through the rows in the order of its lists, which is not the order of the
    indexes, and keeps the best one so far ([header_index_add]).

    The comparison of identifiers and the handling of scalars belong to Net-SNMP: they
    are the class [NetSnmp], with their documented behaviour in [NetSnmpLaws]. *)

From S2P Require Import Prelude.
#[local] Open Scope Z_scope.

(** ** Object identifiers *)

#[local] Abbreviation oid := (list Z).

(** The lexicographic order. *)
Fixpoint oid_cmp (a b : oid) : comparison :=
  match a, b with
  | [], [] => Eq
  | [], _ :: _ => Lt
  | _ :: _, [] => Gt
  | x :: a, y :: b => match x ?= y with Eq => oid_cmp a b | c => c end
  end.
Definition oid_lt (a b : oid) : Prop := oid_cmp a b = Lt.
Definition oid_le (a b : oid) : Prop := oid_cmp a b ≠ Gt.

Lemma oid_cmp_refl a : oid_cmp a a = Eq.
Proof. induction a as [|x a IH]; cbn; [done|]. by rewrite Z.compare_refl. Qed.
Lemma oid_cmp_eq a b : oid_cmp a b = Eq ↔ a = b.
Proof.
  split; [|intros ->; apply oid_cmp_refl]. revert b. induction a as [|x a IH]; intros [|y b]; cbn; try done.
  destruct (Z.compare_spec x y) as [->| |]; try done. by intros ->%IH.
Qed.
Lemma oid_cmp_antisym a b : oid_cmp b a = CompOpp (oid_cmp a b).
Proof.
  revert b. induction a as [|x a IH]; intros [|y b]; cbn; try done.
  rewrite (Z.compare_antisym x y). by destruct (x ?= y); cbn.
Qed.
Lemma oid_lt_trans a b c : oid_lt a b → oid_lt b c → oid_lt a c.
Proof.
  unfold oid_lt. revert b c. induction a as [|x a IH]; intros [|y b] [|z c]; cbn; try done.
  destruct (Z.compare_spec x y) as [E1|L1|G1]; [|intros _|done];
    (destruct (Z.compare_spec y z) as [E2|L2|G2]; [|intros H2|done]);
    destruct (Z.compare_spec x z) as [E3|L3|G3]; try done; try lia.
  apply IH.
Qed.
#[export] Instance oid_lt_dec a b : Decision (oid_lt a b).
Proof. unfold oid_lt. apply _. Defined.
#[export] Instance oid_lt_strict : StrictOrder oid_lt.
Proof.
  split; [|exact oid_lt_trans]. intros a Ha. unfold oid_lt in Ha. by rewrite oid_cmp_refl in Ha.
Qed.
Lemma oid_cmp_gt a b : oid_cmp a b = Gt ↔ oid_lt b a.
Proof. unfold oid_lt. rewrite (oid_cmp_antisym a b). by destruct (oid_cmp a b). Qed.
Lemma oid_le_lt_eq a b : oid_le a b ↔ oid_lt a b ∨ a = b.
Proof.
  unfold oid_le, oid_lt. rewrite <- oid_cmp_eq. destruct (oid_cmp a b); split; try done; (by right) || (by left) || (by intros [?|?]).
Qed.
Lemma oid_lt_le_trans a b c : oid_lt a b → oid_le b c → oid_lt a c.
Proof. intros Hab [Hbc| <-]%oid_le_lt_eq; [by etrans|done]. Qed.
Lemma oid_total a b : oid_lt a b ∨ a = b ∨ oid_lt b a.
Proof.
  destruct (oid_cmp a b) eqn:H; [right; left; by apply oid_cmp_eq|by left|].
  right. right. by apply oid_cmp_gt.
Qed.
Lemma oid_cmp_app p a b : oid_cmp (p ++ a) (p ++ b) = oid_cmp a b.
Proof. induction p as [|x p IH]; cbn; [done|]. by rewrite Z.compare_refl. Qed.
Lemma oid_lt_app p a b : oid_lt (p ++ a) (p ++ b) ↔ oid_lt a b.
Proof. unfold oid_lt. by rewrite oid_cmp_app. Qed.
(** An identifier comes before its extensions. *)
Lemma oid_cmp_prefix p a : oid_cmp p (p ++ a) = match a with [] => Eq | _ => Lt end.
Proof. rewrite <- (app_nil_r p) at 1. rewrite oid_cmp_app. by destruct a. Qed.

(** ** What the agent takes from Net-SNMP *)

Class NetSnmp := {
  (** Negative, zero or positive. *)
  snmp_oid_compare : oid → oid → Z;
  (** [header_generic(vp, name, length, exact)]: the name of the only instance of the scalar
      [vp], [None] for MATCH_FAILED. *)
  header_generic : oid → oid → bool → option oid;
  (** The greatest sub-identifier. *)
  MAX_SUBID : Z
}.
Class NetSnmpLaws `{NetSnmp} : Prop := {
  oid_compare_spec a b :
    snmp_oid_compare a b = match oid_cmp a b with Lt => -1 | Eq => 0 | Gt => 1 end;
  header_generic_spec vp name exact :
    header_generic vp name exact =
      match oid_cmp name (vp ++ [0]), exact with
      | Eq, true | Lt, false => Some (vp ++ [0])
      | _, _ => None
      end;
  MAX_SUBID_spec : MAX_SUBID = 0xFFFFFFFF
}.
(** An implementation. *)
Definition net_snmp_reference : NetSnmp := {|
  snmp_oid_compare a b := match oid_cmp a b with Lt => -1 | Eq => 0 | Gt => 1 end;
  header_generic vp name exact :=
    match oid_cmp name (vp ++ [0]), exact with
    | Eq, true | Lt, false => Some (vp ++ [0])
    | _, _ => None
    end;
  MAX_SUBID := 0xFFFFFFFF
|}.
Lemma net_snmp_reference_laws : @NetSnmpLaws net_snmp_reference.
Proof. by split. Qed.

(** [struct variable]: what identifies the column, and its identifier. *)
Record variable := { magic : Z; vp_name : oid }.

(** ** The search *)

(** A row that was found with the name of the request after it, no row, or a failed
    assertion. *)
Inductive found (A : Type) :=
  | Found (entity : A) (name : oid)
  | NotFound
  | Fault.
Arguments Found {A} _ _.
Arguments NotFound {A}.
Arguments Fault {A}.

Section Search.
Context `{NetSnmp} {A : Type}.

(** [struct header_index]; [hi_best] is the best index with its entity. *)
Record header_index := {
  hi_vp : variable; hi_name : oid; hi_exact : bool; hi_best : option (oid * A)
}.

(** [None] when the identifier is not in the column. *)
Definition header_index_init (vp : variable) (name : oid) (exact : bool) : option header_index :=
  let name := if snmp_oid_compare name (vp_name vp) <? 0 then vp_name vp else name in
  if (length name <? length (vp_name vp))%nat then None
  else if negb (bool_decide (take (length (vp_name vp)) name = vp_name vp)) then None
  else Some {| hi_vp := vp; hi_name := name; hi_exact := exact; hi_best := None |}.

(** [true] when the row is the one that was asked for. *)
Definition header_index_add (hi : header_index) (index : oid) (entity : A) : header_index * bool :=
  let target := drop (length (vp_name (hi_vp hi))) (hi_name hi) in
  let result := snmp_oid_compare index target in
  if result <? 0 then (hi, false)
  else if result =? 0 then (hi, hi_exact hi)
  else
    let better := match hi_best hi with
                  | None => true
                  | Some (best, _) => snmp_oid_compare index best <? 0
                  end in
    if better
    then ({| hi_vp := hi_vp hi; hi_name := hi_name hi; hi_exact := hi_exact hi;
             hi_best := Some (index, entity) |}, false)
    else (hi, false).

Definition header_index_best (hi : header_index) : found A :=
  match hi_best hi with
  | None => NotFound
  | Some (best, entity) =>
      if hi_exact hi then NotFound else Found entity (vp_name (hi_vp hi) ++ best)
  end.

(** The loop of the [header_*indexed_table] functions over their rows; a row that cannot be
    built is [None]. *)
Fixpoint header_loop (hi : header_index) (rows : list (option (oid * A))) : found A :=
  match rows with
  | [] => header_index_best hi
  | None :: _ => Fault
  | Some (index, entity) :: rows =>
      let '(hi, found_) := header_index_add hi index entity in
      if found_ then Found entity (hi_name hi) else header_loop hi rows
  end.
Definition header_indexed_table (vp : variable) (name : oid) (exact : bool)
    (rows : list (option (oid * A))) : found A :=
  match header_index_init vp name exact with
  | None => NotFound
  | Some hi => header_loop hi rows
  end.

(** A handler finds an entity with [table] and asks [value] for the answer. *)
Definition agent_h {V} (table : variable → oid → bool → found A) (value : variable → A → option V)
    (vp : variable) (name : oid) (exact : bool) : found V :=
  match table vp name exact with
  | Fault => Fault
  | NotFound => NotFound
  | Found e name => match value vp e with Some a => Found a name | None => NotFound end
  end.
(** A handler that ends in [TRYNEXT]: with no answer for the entity, it starts again after
    it.  [Fault] without fuel; there is enough of it with one more than the number of rows. *)
Fixpoint agent_h_trynext {V} (fuel : nat) (table : variable → oid → bool → found A)
    (value : variable → A → option V) (vp : variable) (name : oid) (exact : bool) : found V :=
  match fuel with
  | O => Fault
  | S fuel =>
      match table vp name exact with
      | Fault => Fault
      | NotFound => NotFound
      | Found e name =>
          match value vp e with
          | Some a => Found a name
          | None =>
              if negb exact && (List.last name 0 <? MAX_SUBID)
              then agent_h_trynext fuel table value vp name exact
              else NotFound
          end
      end
  end.
End Search.
Arguments header_index : clear implicits.

(** ** What the search finds *)

Section Rows.
Context {A : Type}.
Implicit Types (rows : list (oid * A)).

(** The first row with an index. *)
Fixpoint row_at (index : oid) rows : option A :=
  match rows with
  | [] => None
  | (i, e) :: rows => if bool_decide (i = index) then Some e else row_at index rows
  end.
(** The row with the least index above [target]; the first of them if several have it. *)
Definition is_next (target : oid) rows (index : oid) (e : A) : Prop :=
  oid_lt target index ∧ row_at index rows = Some e ∧
  ∀ i e', (i, e') ∈ rows → oid_lt target i → oid_le index i.

(** What is known of the best row after some of them. *)
Definition best_of (target : oid) rows (best : option (oid * A)) : Prop :=
  match best with
  | None => ∀ i e, (i, e) ∈ rows → ¬ oid_lt target i
  | Some (i, e) => is_next target rows i e
  end.

Lemma row_at_app i rows rows' :
  row_at i (rows ++ rows') = match row_at i rows with Some e => Some e | None => row_at i rows' end.
Proof. induction rows as [|[j e] rows IH]; cbn; [done|]. case_bool_decide; done. Qed.
Lemma row_at_in i rows e : row_at i rows = Some e → (i, e) ∈ rows.
Proof.
  induction rows as [|[j e'] rows IH]; cbn; [done|]. case_bool_decide as Hj.
  - intros [= <-]. subst. apply list_elem_of_here.
  - intros He. right. by apply IH.
Qed.
Lemma row_at_none i rows : row_at i rows = None → ∀ e, (i, e) ∉ rows.
Proof.
  induction rows as [|[j e'] rows IH]; cbn; [by intros _ e ?%not_elem_of_nil|].
  case_bool_decide as Hj; [done|]. intros Hr e [[= -> ->]|He]%elem_of_cons; [done|]. by apply (IH Hr e).
Qed.

(** A row below all the others that are above the target becomes the next one. *)
Lemma is_next_new target rows i e :
  oid_lt target i → (∀ j e', (j, e') ∈ rows → oid_lt target j → oid_lt i j) →
  is_next target (rows ++ [(i, e)]) i e.
Proof.
  intros Hlt Hall. split_and!; [done| |].
  - rewrite row_at_app. destruct (row_at i rows) as [e''|] eqn:Hi; cbn; [|by rewrite bool_decide_true].
    exfalso. apply (irreflexivity oid_lt i). by apply (Hall i e'' (row_at_in _ _ _ Hi)).
  - intros j e' [Hin|[= -> ->]%list_elem_of_singleton]%elem_of_app Hl; apply oid_le_lt_eq;
      [left; by eapply Hall|by right].
Qed.
(** A row that is not above the target, or not better, changes nothing. *)
Lemma best_of_keep target rows best i e :
  best_of target rows best →
  ¬ oid_lt target i ∨ (∃ j e', best = Some (j, e') ∧ oid_le j i) →
  best_of target (rows ++ [(i, e)]) best.
Proof.
  intros Hbest Hi. destruct best as [[j e']|].
  - destruct Hbest as (H1 & H2 & H3). split_and!; [done|by rewrite row_at_app, H2|].
    intros i' e'' [Hin|[= -> ->]%list_elem_of_singleton]%elem_of_app Hlt; [by eapply H3|].
    destruct Hi as [?|(? & ? & [= <- <-] & ?)]; done.
  - intros i' e'' [Hin|[= -> ->]%list_elem_of_singleton]%elem_of_app; [by eapply Hbest|].
    by destruct Hi as [?|(? & ? & ? & ?)].
Qed.

(** ** The column of a table, with full names *)

Definition column (vp : variable) (rows : list (oid * A)) : list (oid * A) :=
  map (λ r, (vp_name vp ++ r.1, r.2)) rows.

(** What a request for [name] must answer. *)
Definition search_spec (name : oid) (exact : bool) (col : list (oid * A)) (r : found A) : Prop :=
  match r with
  | Found e n => if exact then n = name ∧ row_at name col = Some e else is_next name col n e
  | NotFound => if exact then row_at name col = None else ∀ n e, (n, e) ∈ col → ¬ oid_lt name n
  | Fault => False
  end.
End Rows.

Section Spec.
Context `{NetSnmpLaws} {A : Type}.
Implicit Types (rows : list (oid * A)).

Lemma compare_lt a b : (snmp_oid_compare a b <? 0) = bool_decide (oid_lt a b).
Proof.
  rewrite oid_compare_spec. destruct (oid_cmp a b) eqn:Hc;
    [rewrite bool_decide_false|rewrite bool_decide_true|rewrite bool_decide_false];
    unfold oid_lt; rewrite ?Hc; done.
Qed.
Lemma compare_eq a b : (snmp_oid_compare a b =? 0) = bool_decide (a = b).
Proof.
  rewrite oid_compare_spec. destruct (oid_cmp a b) eqn:Hc.
  - apply oid_cmp_eq in Hc. by rewrite bool_decide_true.
  - rewrite bool_decide_false; [done|]. intros ->. by rewrite oid_cmp_refl in Hc.
  - rewrite bool_decide_false; [done|]. intros ->. by rewrite oid_cmp_refl in Hc.
Qed.

(** The row that was asked for, and nothing else. *)
Lemma header_loop_exact hi rows :
  hi_exact hi = true →
  header_loop hi (map Some rows) =
    match row_at (drop (length (vp_name (hi_vp hi))) (hi_name hi)) rows with
    | Some e => Found e (hi_name hi)
    | None => NotFound
    end.
Proof.
  revert hi. induction rows as [|[i e] rows IH]; intros hi Hx; cbn [map header_loop row_at].
  { unfold header_index_best. rewrite Hx. by repeat case_match. }
  unfold header_index_add. rewrite compare_lt, compare_eq, Hx.
  set (target := drop _ (hi_name hi)). destruct (decide (i = target)) as [->|Hne].
  - rewrite (bool_decide_false (oid_lt _ _)) by apply (irreflexivity oid_lt). by rewrite bool_decide_true.
  - rewrite (bool_decide_false (i = target)) by done.
    case_bool_decide; [by apply IH|].
    match goal with |- context [if ?b then ({| hi_vp := _ |}, _) else _] => destruct b end;
      [by rewrite IH|by apply IH].
Qed.

(** One more row. *)
Lemma header_index_add_best hi rows i e hi' b :
  hi_exact hi = false →
  best_of (drop (length (vp_name (hi_vp hi))) (hi_name hi)) rows (hi_best hi) →
  header_index_add hi i e = (hi', b) →
  b = false ∧ hi_vp hi' = hi_vp hi ∧ hi_name hi' = hi_name hi ∧ hi_exact hi' = false ∧
  best_of (drop (length (vp_name (hi_vp hi))) (hi_name hi)) (rows ++ [(i, e)]) (hi_best hi').
Proof.
  intros Hx Hbest. unfold header_index_add. set (target := drop _ (hi_name hi)) in *.
  rewrite compare_lt, compare_eq. destruct (oid_total target i) as [Hlt|[Heq|Hlt]].
  - rewrite (bool_decide_false (oid_lt i target)) by (intros ?; by apply (irreflexivity oid_lt i); etrans).
    rewrite (bool_decide_false (i = target)) by (intros ->; by apply (irreflexivity oid_lt target)).
    destruct (hi_best hi) as [[j e']|] eqn:Hj.
    + rewrite compare_lt. case_bool_decide as Hji; intros [= <- <-]; (split_and!; [done..|]); cbn.
      * apply is_next_new; [done|]. intros i' e'' Hin Hl. destruct Hbest as (H1 & H2 & H3).
        eapply oid_lt_le_trans; [done|]. by eapply H3.
      * rewrite Hj. apply best_of_keep; [done|]. right. exists j, e'. split; [done|].
        apply oid_le_lt_eq. destruct (oid_total j i) as [?|[?|?]]; [by left|by right|done].
    + intros [= <- <-]. split_and!; [done..|]. apply is_next_new; [done|].
      intros i' e'' Hin Hl. by destruct (Hbest i' e'' Hin).
  - subst i. rewrite (bool_decide_false (oid_lt _ _)) by apply (irreflexivity oid_lt).
    rewrite bool_decide_true by done. intros [= <- <-]. split_and!; [done..|].
    apply best_of_keep; [done|]. left. apply (irreflexivity oid_lt).
  - rewrite (bool_decide_true (oid_lt i target)) by done. intros [= <- <-]. split_and!; [done..|].
    apply best_of_keep; [done|]. left. intros ?. by apply (irreflexivity oid_lt i); etrans.
Qed.

Lemma header_loop_next hi seen rows :
  hi_exact hi = false →
  best_of (drop (length (vp_name (hi_vp hi))) (hi_name hi)) seen (hi_best hi) →
  ∃ best, best_of (drop (length (vp_name (hi_vp hi))) (hi_name hi)) (seen ++ rows) best ∧
    header_loop hi (map Some rows) =
      match best with Some (i, e) => Found e (vp_name (hi_vp hi) ++ i) | None => NotFound end.
Proof.
  revert hi seen. induction rows as [|[i e] rows IH]; intros hi seen Hx Hbest; cbn [map header_loop].
  { exists (hi_best hi). rewrite app_nil_r. split; [done|]. unfold header_index_best. rewrite Hx.
    by repeat case_match. }
  destruct (header_index_add hi i e) as [hi' b] eqn:Ha.
  destruct (header_index_add_best _ _ _ _ _ _ Hx Hbest Ha) as (-> & Hv & Hn & Hx' & Hb').
  destruct (IH hi' (seen ++ [(i, e)]) Hx') as (best & Hb & He); [by rewrite Hv, Hn|].
  exists best. rewrite Hv, Hn, <- app_assoc in *. done.
Qed.

(** A name that is not below a column and not in it is above all of it. *)
Lemma outside_above p name i :
  oid_cmp name p ≠ Lt → take (length p) name ≠ p → oid_lt (p ++ i) name.
Proof.
  unfold oid_lt. revert name. induction p as [|x p IH]; intros [|y name]; cbn; try done.
  destruct (Z.compare_spec y x) as [->|Hl|Hg]; [|done|].
  - rewrite Z.compare_refl. intros H1 H2. apply IH; [done|]. intros Heq. apply H2. by f_equal.
  - intros _ _. by destruct (Z.compare_spec x y); try lia.
Qed.
Lemma column_in {B} vp (rows : list (oid * B)) n e :
  (n, e) ∈ column vp rows ↔ ∃ i, n = vp_name vp ++ i ∧ (i, e) ∈ rows.
Proof.
  unfold column. rewrite list_elem_of_fmap. split.
  - intros ([i e'] & [= -> ->] & Hin). by exists i.
  - intros (i & -> & Hin). by exists (i, e).
Qed.
Lemma row_at_column {B} vp (rows : list (oid * B)) i :
  row_at (vp_name vp ++ i) (column vp rows) = row_at i rows.
Proof.
  induction rows as [|[j e] rows IH]; [done|].
  change (column vp ((j, e) :: rows)) with ((vp_name vp ++ j, e) :: column vp rows).
  cbn [row_at]. rewrite IH, (bool_decide_ext (vp_name vp ++ j = vp_name vp ++ i) (j = i)); [done|].
  split; [apply app_inv_head|by intros ->].
Qed.
Lemma row_at_column_none {B} vp (rows : list (oid * B)) name :
  (∀ i e, (i, e) ∈ rows → name ≠ vp_name vp ++ i) → row_at name (column vp rows) = None.
Proof.
  intros Hn. destruct (row_at name (column vp rows)) as [e|] eqn:Hr; [|done].
  apply row_at_in, column_in in Hr as (i & -> & Hin). by destruct (Hn i e Hin).
Qed.
Lemma is_next_column {B} vp (rows : list (oid * B)) target i e :
  is_next target rows i e → is_next (vp_name vp ++ target) (column vp rows) (vp_name vp ++ i) e.
Proof.
  intros (H1 & H2 & H3). split_and!; [by apply oid_lt_app|by rewrite row_at_column|].
  intros n e' (j & -> & Hin)%column_in Hl%oid_lt_app. unfold oid_le. rewrite oid_cmp_app. by eapply H3.
Qed.

(** The name of a request after [header_index_init]. *)
Lemma header_index_init_spec vp name exact :
  @header_index_init _ A vp name exact =
    if bool_decide (oid_lt name (vp_name vp))
    then Some {| hi_vp := vp; hi_name := vp_name vp; hi_exact := exact; hi_best := None |}
    else if bool_decide (take (length (vp_name vp)) name = vp_name vp)
    then Some {| hi_vp := vp; hi_name := name; hi_exact := exact; hi_best := None |}
    else None.
Proof.
  unfold header_index_init. rewrite compare_lt. case_bool_decide as Hl.
  - rewrite Nat.ltb_irrefl. by rewrite firstn_all, bool_decide_true.
  - case_bool_decide as Ht; [|by case_match].
    assert (length (vp_name vp) ≤ length name)%nat as Hle.
    { apply (f_equal length) in Ht. rewrite length_take in Ht. lia. }
    by rewrite (proj2 (Nat.ltb_ge _ _) Hle).
Qed.

(** The loop, from a name [p ++ target] that stands for the request [name]. *)
Lemma header_loop_spec vp name target exact rows :
  (exact = true → row_at name (column vp rows) = row_at target rows) →
  (exact = true → row_at target rows ≠ None → name = vp_name vp ++ target) →
  (exact = false → ∀ i e, (i, e) ∈ rows → (oid_lt name (vp_name vp ++ i) ↔ oid_lt target i)) →
  search_spec name exact (column vp rows)
    (header_loop {| hi_vp := vp; hi_name := vp_name vp ++ target; hi_exact := exact; hi_best := None |}
       (map Some rows)).
Proof.
  intros He Hn Hx. destruct exact.
  - rewrite header_loop_exact by done. cbn. rewrite drop_app_length.
    destruct (row_at target rows) as [e|] eqn:Hr; cbn; rewrite He by done; [|done].
    by rewrite (Hn eq_refl).
  - destruct (header_loop_next {| hi_vp := vp; hi_name := vp_name vp ++ target; hi_exact := false;
      hi_best := None |} [] rows eq_refl) as (best & Hb & ->); [by intros ? ? ?%not_elem_of_nil|].
    cbn in Hb |- *. rewrite drop_app_length in Hb. destruct best as [[i e]|]; cbn in *.
    + assert ((i, e) ∈ rows) as Hin by (apply row_at_in; apply Hb).
      destruct (is_next_column vp _ _ _ _ Hb) as (_ & H2 & H3).
      split_and!; [apply (Hx eq_refl _ _ Hin); apply Hb|done|].
      intros n e' (j & -> & Hj)%column_in Hl. apply (H3 _ e'); [apply column_in; by exists j|].
      apply oid_lt_app. by apply (Hx eq_refl _ _ Hj).
    + intros n e' (j & -> & Hj)%column_in Hl. by apply (Hb _ _ Hj), (Hx eq_refl _ _ Hj).
Qed.

(** A search gives the row that was asked for, or the first one after it. *)
Lemma header_search vp name exact rows :
  Forall (λ r, r.1 ≠ []) rows →
  search_spec name exact (column vp rows) (header_indexed_table vp name exact (map Some rows)).
Proof.
  intros Hne. unfold header_indexed_table. rewrite header_index_init_spec.
  assert (∀ i e, (i, e) ∈ rows → i ≠ []) as Hnil by (intros i e; intros Hin; exact (proj1 (list.Forall_forall _ _) Hne _ Hin)).
  case_bool_decide as Hl; [|case_bool_decide as Ht].
  - rewrite <- (app_nil_r (vp_name vp)) at 1. apply header_loop_spec.
    + intros _. rewrite row_at_column_none.
      * destruct (row_at [] rows) eqn:Hr; [|done]. by apply row_at_in, Hnil in Hr.
      * intros i e Hin ->. apply (irreflexivity oid_lt (vp_name vp ++ i)). etrans; [done|].
        unfold oid_lt. rewrite oid_cmp_prefix. by destruct i; [destruct (Hnil _ _ Hin)|].
    + intros _. destruct (row_at [] rows) eqn:Hr; [|done]. by apply row_at_in, Hnil in Hr.
    + intros _ i e Hin. destruct i as [|x i]; [by destruct (Hnil _ _ Hin)|]. split; [done|intros _].
      etrans; [done|]. unfold oid_lt. by rewrite oid_cmp_prefix.
  - set (target := drop (length (vp_name vp)) name).
    assert (name = vp_name vp ++ target) as Hname by (unfold target; rewrite <- Ht at 1; by rewrite take_drop).
    clearbody target. subst name. apply header_loop_spec.
    + intros _. apply row_at_column.
    + done.
    + intros _ i e _. apply oid_lt_app.
  - assert (∀ i, oid_lt (vp_name vp ++ i) name) as Habove by (intros i; by apply outside_above).
    cbn. destruct exact.
    + apply row_at_column_none. intros i e _ ->. by apply (irreflexivity oid_lt (vp_name vp ++ i)).
    + intros n e (i & -> & _)%column_in Hlt. apply (irreflexivity oid_lt name). by etrans.
Qed.
End Spec.
