(* ===== verification/SnmpWalk.v ===== *)
(** * What a manager sees of a column of the SNMP agent (src/daemon/agent.c)

    A handler finds the entity of a row and gives its value in one column.  When the entity
    has no value there, [TRYNEXT] goes on with the next row.  Here it is shown that the
    rows without value are then invisible, and that the walk of a manager, GETNEXT from the
    name it got last, lists the others in the order of their names. *)

From Stdlib Require Import Sorting.Sorted.
From S2P Require Import Prelude SnmpIndex.
#[local] Open Scope Z_scope.

#[local] Abbreviation oid := (list Z).

(** ** Rows with different indexes *)

Section Distinct.
Context {A : Type}.
Implicit Types (rows : list (oid * A)).

Lemma row_at_unique rows i e : NoDup rows.*1 → (i, e) ∈ rows → row_at i rows = Some e.
Proof.
  intros Hnd Hin. induction rows as [|[j e'] rows IH]; [by apply not_elem_of_nil in Hin|].
  cbn in *. apply list.NoDup_cons in Hnd as [Hj Hnd]. apply elem_of_cons in Hin as [[= -> ->]|Hin].
  - by rewrite bool_decide_true.
  - rewrite bool_decide_false; [by apply IH|]. intros ->. apply Hj.
    apply list_elem_of_fmap. by exists (i, e).
Qed.
Lemma column_names vp rows : (column vp rows).*1 = (λ i, vp_name vp ++ i) <$> rows.*1.
Proof. unfold column. induction rows as [|[i e] rows IH]; cbn in *; [done|by f_equal]. Qed.
Lemma column_distinct vp rows : NoDup rows.*1 → NoDup (column vp rows).*1.
Proof. rewrite column_names. apply NoDup_fmap_2. intros i j. apply app_inv_head. Qed.

(** The rows after a name. *)
Definition after (name : oid) rows : list (oid * A) := filter (λ r, oid_lt name r.1) rows.
Lemma after_in name rows n e : (n, e) ∈ after name rows ↔ oid_lt name n ∧ (n, e) ∈ rows.
Proof. unfold after. by rewrite list_elem_of_filter. Qed.
Lemma after_all name rows : Forall (λ r, oid_lt name r.1) rows → after name rows = rows.
Proof.
  unfold after. induction 1 as [|r rows Hr _ IH]; [done|]. rewrite filter_cons, decide_True by done. by f_equal.
Qed.
(** Without the next one of them, they are those after it. *)
Lemma after_next name rows n e :
  NoDup rows.*1 → is_next name rows n e → after name rows ≡ₚ (n, e) :: after n rows.
Proof.
  intros Hnd (Hlt & Hrow & Hle). apply list.NoDup_Permutation.
  - apply list.NoDup_filter. by eapply NoDup_fmap_1.
  - apply list.NoDup_cons. split; [|apply list.NoDup_filter; by eapply NoDup_fmap_1].
    intros [Hn _]%after_in. by apply (irreflexivity oid_lt n).
  - intros [m e']. rewrite elem_of_cons, !after_in. split.
    + intros [Hm Hin]. destruct (proj1 (oid_le_lt_eq _ _) (Hle _ _ Hin Hm)) as [?| ->]; [by right|].
      left. apply (row_at_unique _ _ _ Hnd) in Hin. congruence.
    + intros [[= -> ->]|[Hm Hin]]; split; [done|by apply row_at_in| |done]. by etrans.
Qed.

(** There are fewer of them after the next one. *)
Lemma after_shrinks name rows n e :
  oid_lt name n → (n, e) ∈ rows → (length (after n rows) < length (after name rows))%nat.
Proof.
  intros Hlt Hin. induction rows as [|[m e'] rows IH]; [by apply not_elem_of_nil in Hin|].
  assert (∀ l : list (oid * A), length (after n l) ≤ length (after name l))%nat as Hle.
  { clear IH Hin. intros l. induction l as [|[k u] l IH]; [done|]. unfold after in *. rewrite !filter_cons.
    case_decide as Hn; case_decide as Hm; cbn in *; try lia. destruct Hm. by etrans. }
  unfold after in *. rewrite !filter_cons. apply elem_of_cons in Hin as [[= -> ->]|Hin].
  - cbn. rewrite decide_False by apply (irreflexivity oid_lt). rewrite decide_True by done.
    cbn. specialize (Hle rows). lia.
  - specialize (IH Hin). case_decide as Hn; case_decide as Hm; cbn in *; try lia. destruct Hm. by etrans.
Qed.
End Distinct.

(** ** Rows with a value *)

Section Handler.
Context `{NetSnmpLaws} {A V : Type}.
Variable value : variable → A → option V.
Variable rows : list (oid * A).
Hypothesis rows_nonempty : Forall (λ r, r.1 ≠ []) rows.
Hypothesis rows_distinct : NoDup rows.*1.

Definition valued (vp : variable) : list (oid * V) :=
  omap (λ r, v ← value vp r.2; Some (r.1, v)) rows.
Definition table (vp : variable) (name : oid) (exact : bool) : found A :=
  header_indexed_table vp name exact (map Some rows).

Lemma valued_in vp i v :
  (i, v) ∈ valued vp ↔ ∃ e, (i, e) ∈ rows ∧ value vp e = Some v.
Proof.
  unfold valued. rewrite list_elem_of_omap. split.
  - intros ([j e] & Hin & Hv). cbn in Hv. destruct (value vp e) as [v'|] eqn:He; [|done].
    injection Hv as -> ->. by exists e.
  - intros (e & Hin & Hv). exists (i, e). split; [done|]. cbn. by rewrite Hv.
Qed.
Lemma valued_length vp : (length (valued vp) ≤ length rows)%nat.
Proof.
  unfold valued. clear. induction rows as [|r rs IH]; cbn; [done|]. case_match; cbn in *; lia.
Qed.
Lemma valued_distinct vp : NoDup (valued vp).*1.
Proof.
  unfold valued. clear rows_nonempty. induction rows as [|[i e] rs IH]; [constructor|].
  cbn in *. apply list.NoDup_cons in rows_distinct as [Hi Hnd].
  destruct (value vp e) as [v|]; cbn; [|by apply IH]. apply list.NoDup_cons. split; [|by apply IH].
  intros ([j v'] & -> & Hin)%list_elem_of_fmap. apply Hi. apply list_elem_of_fmap.
  apply list_elem_of_omap in Hin as ([k e'] & Hk & Hv). cbn in Hv.
  destruct (value vp e'); [|done]. injection Hv as -> _. by exists (j, e').
Qed.
(** The entity at a name and its value. *)
Lemma column_value vp n e :
  row_at n (column vp rows) = Some e → row_at n (column vp (valued vp)) = value vp e.
Proof.
  intros Hr. apply row_at_in, column_in in Hr as (i & -> & Hin). rewrite row_at_column.
  destruct (value vp e) as [v|] eqn:Hv.
  - apply row_at_unique; [apply valued_distinct|]. apply valued_in. by exists e.
  - destruct (row_at i (valued vp)) as [v|] eqn:Hi; [|done].
    apply row_at_in, valued_in in Hi as (e' & Hin' & Hv').
    apply (row_at_unique _ _ _ rows_distinct) in Hin, Hin'. congruence.
Qed.
Lemma column_valued_in vp n v :
  (n, v) ∈ column vp (valued vp) → ∃ e, (n, e) ∈ column vp rows ∧ value vp e = Some v.
Proof.
  intros (i & -> & (e & Hin & Hv)%valued_in)%column_in. exists e. split; [|done].
  apply column_in. by exists i.
Qed.

(** A GET gives the value of the row, if it has one. *)
Lemma handler_exact vp name :
  search_spec name true (column vp (valued vp)) (agent_h table value vp name true).
Proof.
  unfold agent_h. pose proof (header_search vp name true rows rows_nonempty) as Hs.
  unfold table. destruct (header_indexed_table vp name true (map Some rows)) as [e n| |]; cbn in *.
  - destruct Hs as [-> Hr]. apply column_value in Hr. by destruct (value vp e).
  - apply row_at_column_none. intros i v (e & Hin & Hv)%valued_in ->.
    apply (row_at_none _ _ Hs e), column_in. by exists i.
  - done.
Qed.
Lemma trynext_exact fuel vp name :
  agent_h_trynext (S fuel) table value vp name true = agent_h table value vp name true.
Proof. unfold agent_h. cbn. by repeat case_match. Qed.

(** The next row, when it has a value. *)
Lemma is_next_valued vp name n e v :
  is_next name (column vp rows) n e → value vp e = Some v →
  is_next name (column vp (valued vp)) n v.
Proof.
  intros (Hlt & Hr & Hle) Hv. split_and!; [done|by rewrite (column_value _ _ _ Hr)|].
  intros m w (e' & Hin & _)%column_valued_in. by eapply Hle.
Qed.
(** When it has none, the search goes on from it. *)
Lemma search_skip vp name n e r :
  is_next name (column vp rows) n e → value vp e = None →
  search_spec n false (column vp (valued vp)) r → search_spec name false (column vp (valued vp)) r.
Proof.
  intros (Hlt & Hr & Hle) Hv Hs.
  assert (∀ m w, (m, w) ∈ column vp (valued vp) → oid_lt name m → oid_lt n m) as Hskip.
  { intros m w Hin Hm. destruct (column_valued_in _ _ _ Hin) as (e' & Hin' & Hv').
    destruct (proj1 (oid_le_lt_eq _ _) (Hle _ _ Hin' Hm)) as [?| ->]; [done|].
    apply (row_at_unique _ _ _ (column_distinct vp _ rows_distinct)) in Hin'. congruence. }
  destruct r as [w m| |]; cbn in *; [|by intros m w Hin Hm; eapply Hs, Hskip|done].
  destruct Hs as (H1 & H2 & H3). split_and!; [by etrans|done|].
  intros k u Hin Hk. eapply H3; [done|]. by eapply Hskip.
Qed.

Lemma last_column vp n e :
  (n, e) ∈ column vp rows → ∃ i, (i, e) ∈ rows ∧ List.last n 0 = List.last i 0.
Proof.
  intros (i & -> & Hin)%column_in. exists i. split; [done|].
  pose proof (proj1 (list.Forall_forall _ _) rows_nonempty _ Hin) as Hi. cbn in Hi.
  destruct (exists_last Hi) as (l & x & ->). by rewrite app_assoc, !last_last.
Qed.

(** With [TRYNEXT], a GETNEXT gives the next row that has a value. *)
Lemma trynext_next fuel vp name :
  (∀ i e, (i, e) ∈ rows → List.last i 0 < MAX_SUBID) →
  (length (after name (column vp rows)) < fuel)%nat →
  search_spec name false (column vp (valued vp)) (agent_h_trynext fuel table value vp name false).
Proof.
  intros Hmax. revert name. induction fuel as [|fuel IH]; intros name Hf; [lia|]. cbn [agent_h_trynext].
  pose proof (header_search vp name false rows rows_nonempty) as Hs. unfold table at 1.
  destruct (header_indexed_table vp name false (map Some rows)) as [e n| |] eqn:Hh; cbn in Hs; [| |done].
  - destruct (value vp e) as [v|] eqn:Hv; [by eapply is_next_valued|].
    destruct (last_column vp n e) as (i & Hin & Hl); [by apply row_at_in, Hs|]. cbn [negb andb].
    rewrite Hl, (proj2 (Z.ltb_lt _ _) (Hmax _ _ Hin)).
    apply (search_skip vp name n e); [done..|]. apply IH.
    pose proof (after_next _ _ _ _ (column_distinct vp _ rows_distinct) Hs) as Hp%Permutation_length.
    cbn in Hp. lia.
  - intros m w (e & Hin & _)%column_valued_in. by eapply Hs.
Qed.
Lemma trynext_handler vp name exact :
  (∀ i e, (i, e) ∈ rows → List.last i 0 < MAX_SUBID) →
  search_spec name exact (column vp (valued vp))
    (agent_h_trynext (S (length rows)) table value vp name exact).
Proof.
  intros Hmax. destruct exact; [rewrite trynext_exact; apply handler_exact|].
  apply trynext_next; [done|]. assert (length (column vp rows) = length rows) as <- by apply length_map.
  unfold after. pose proof (length_filter (λ r, oid_lt name r.1) (column vp rows)). lia.
Qed.
(** The search ends, also when two rows have the same index. *)
Lemma trynext_no_fault fuel vp name exact :
  (length (after name (column vp rows)) < fuel)%nat →
  agent_h_trynext fuel table value vp name exact ≠ Fault.
Proof.
  revert name. induction fuel as [|fuel IH]; intros name Hf; [lia|]. cbn [agent_h_trynext].
  pose proof (header_search vp name exact rows rows_nonempty) as Hs. unfold table at 1.
  destruct (header_indexed_table vp name exact (map Some rows)) as [e n| |]; [|done..].
  destruct (value vp e); [done|]. destruct exact; cbn; [done|].
  case_match; [|done]. apply IH. destruct Hs as (Hlt & Hr & _).
  pose proof (after_shrinks name (column vp rows) n e Hlt (row_at_in _ _ _ Hr)). lia.
Qed.
Lemma handler_no_fault vp name exact : agent_h table value vp name exact ≠ Fault.
Proof.
  unfold agent_h, table. pose proof (header_search vp name exact rows rows_nonempty) as Hs.
  destruct (header_indexed_table vp name exact (map Some rows)); [|done..]. by case_match.
Qed.
(** What is found is a row above the name, also when two rows have the same index. *)
Lemma handler_above vp name v n :
  agent_h table value vp name false = Found v n → oid_lt name n ∧ (n, v) ∈ column vp (valued vp).
Proof.
  unfold agent_h, table. pose proof (header_search vp name false rows rows_nonempty) as Hs.
  destruct (header_indexed_table vp name false (map Some rows)) as [e m| |]; [|done..].
  destruct Hs as (Hlt & (i & -> & Hin)%row_at_in%column_in & _).
  destruct (value vp e) as [w|] eqn:Hv; [|done]. intros [= -> <-]. split; [done|].
  apply column_in. exists i. split; [done|]. apply valued_in. by exists e.
Qed.
Lemma trynext_above fuel vp name v n :
  agent_h_trynext fuel table value vp name false = Found v n →
  oid_lt name n ∧ (n, v) ∈ column vp (valued vp).
Proof.
  revert name. induction fuel as [|fuel IH]; intros name; cbn [agent_h_trynext]; [done|].
  pose proof (header_search vp name false rows rows_nonempty) as Hs. unfold table at 1.
  destruct (header_indexed_table vp name false (map Some rows)) as [e m| |]; [|done..].
  destruct Hs as (Hlt & (i & -> & Hin)%row_at_in%column_in & _).
  destruct (value vp e) as [w|] eqn:Hv; cbn.
  - intros [= -> <-]. split; [done|]. apply column_in. exists i. split; [done|]. apply valued_in. by exists e.
  - case_match; [|done]. intros [Hlt' ?]%IH. split; [by etrans|done].
Qed.
(** Without [TRYNEXT] it does so only when the rows without value come last. *)
Lemma handler_all vp name exact :
  (∀ i e j e', (i, e) ∈ rows → value vp e = None → (j, e') ∈ rows → oid_lt i j → value vp e' = None) →
  search_spec name exact (column vp (valued vp)) (agent_h table value vp name exact).
Proof.
  intros Hlast. destruct exact; [apply handler_exact|]. unfold agent_h, table.
  pose proof (header_search vp name false rows rows_nonempty) as Hs.
  destruct (header_indexed_table vp name false (map Some rows)) as [e n| |]; cbn in Hs; [| |done].
  - destruct (value vp e) as [v|] eqn:Hv; [by eapply is_next_valued|].
    apply (search_skip vp name n e NotFound Hs Hv). destruct Hs as (_ & Hr & _).
    intros m w (e' & Hin & Hv')%column_valued_in Hlt. apply row_at_in in Hr.
    apply column_in in Hr as (i & -> & Hi). apply column_in in Hin as (j & -> & Hj).
    apply oid_lt_app in Hlt. by rewrite (Hlast _ _ _ _ Hi Hv Hj Hlt) in Hv'.
  - intros m w (e & Hin & _)%column_valued_in. by eapply Hs.
Qed.
End Handler.

(** ** The walk of a manager *)

Section Walk.
Context {V : Type}.

(** GETNEXT until there is nothing more; [None] without fuel or after a fault. *)
Fixpoint snmp_walk (fuel : nat) (getnext : oid → found V) (name : oid) : option (list (oid * V)) :=
  match fuel with
  | O => None
  | S fuel =>
      match getnext name with
      | Fault => None
      | NotFound => Some []
      | Found v n => rest ← snmp_walk fuel getnext n; Some ((n, v) :: rest)
      end
  end.

Lemma snmp_walk_lists getnext (col : list (oid * V)) fuel name :
  NoDup col.*1 → (∀ name, search_spec name false col (getnext name)) →
  (length (after name col) < fuel)%nat →
  ∃ l, snmp_walk fuel getnext name = Some l ∧ StronglySorted oid_lt (name :: l.*1) ∧
    l ≡ₚ after name col.
Proof.
  intros Hnd Hget. revert name. induction fuel as [|fuel IH]; intros name Hf; [lia|]. cbn.
  pose proof (Hget name) as Hs. destruct (getnext name) as [v n| |]; cbn in Hs; [| |done].
  - pose proof (after_next _ _ _ _ Hnd Hs) as Hp. destruct (IH n) as (l & -> & Hsort & Hl).
    { apply Permutation_length in Hp. cbn in Hp. lia. }
    exists ((n, v) :: l). split_and!; [done| |by rewrite Hp, Hl].
    cbn. constructor; [done|]. apply StronglySorted_inv in Hsort as [_ Hall].
    constructor; [apply Hs|]. eapply List.Forall_impl; [|done]. intros m Hm. etrans; [apply Hs|done].
  - exists []. split_and!; [done|repeat constructor|].
    destruct (after name col) as [|[m w] rest] eqn:Ha; [done|].
    assert ((m, w) ∈ after name col) as [? ?]%after_in by (rewrite Ha; left). by destruct (Hs m w).
Qed.

(** Of answers that are only known to be rows above the name, the walk ends too. *)
Lemma snmp_walk_above getnext (col : list (oid * V)) fuel name :
  (∀ name, getnext name ≠ Fault) →
  (∀ name v n, getnext name = Found v n → oid_lt name n ∧ (n, v) ∈ col) →
  (length (after name col) < fuel)%nat →
  ∃ l, snmp_walk fuel getnext name = Some l ∧ StronglySorted oid_lt (name :: l.*1) ∧ l ⊆ col.
Proof.
  intros Hnf Hget. revert name. induction fuel as [|fuel IH]; intros name Hf; [lia|]. cbn.
  destruct (getnext name) as [v n| |] eqn:Hn; [| |by destruct (Hnf name)].
  - destruct (Hget _ _ _ Hn) as [Hlt Hin]. destruct (IH n) as (l & -> & Hsort & Hl).
    { pose proof (after_shrinks name col n v Hlt Hin). lia. }
    exists ((n, v) :: l). split_and!; [done| |intros r [->|Hr]%elem_of_cons; [done|by apply Hl]].
    cbn. constructor; [done|]. apply StronglySorted_inv in Hsort as [_ Hall].
    constructor; [done|]. eapply List.Forall_impl; [|done]. intros m Hm. by etrans.
  - exists []. split_and!; [done|repeat constructor|]. by intros r ?%not_elem_of_nil.
Qed.
End Walk.
