(* ===== verification/SnmpTables.v ===== *)
(** * The tables of the SNMP agent (src/daemon/agent.c)

    The rows of each table, as the [header_*indexed_table] functions go through the state of
    the daemon, and the value of an entity in each column ([agent_v_*]).  A row that makes
    the code read a chassis that is not there or fail its assertion is [None]. *)

From stdpp Require Import gmap.
From S2P Require Import Prelude Bytes Const Structs Checksum Table SnmpIndex.
#[local] Open Scope Z_scope.

#[local] Abbreviation oid := (list Z).

(** ** Columns *)

Definition LLDP_SNMP_TXINTERVAL : Z := 1.
Definition LLDP_SNMP_TXMULTIPLIER : Z := 2.
Definition LLDP_SNMP_REINITDELAY : Z := 3.
Definition LLDP_SNMP_TXDELAY : Z := 4.
Definition LLDP_SNMP_NOTIFICATION : Z := 5.
Definition LLDP_SNMP_LASTUPDATE : Z := 6.
Definition LLDP_SNMP_STATS_INSERTS : Z := 7.
Definition LLDP_SNMP_STATS_DELETES : Z := 8.
Definition LLDP_SNMP_STATS_DROPS : Z := 9.
Definition LLDP_SNMP_STATS_AGEOUTS : Z := 10.
Definition LLDP_SNMP_CIDSUBTYPE : Z := 1.
Definition LLDP_SNMP_CID : Z := 2.
Definition LLDP_SNMP_SYSNAME : Z := 3.
Definition LLDP_SNMP_SYSDESCR : Z := 4.
Definition LLDP_SNMP_SYSCAP_SUP : Z := 5.
Definition LLDP_SNMP_SYSCAP_ENA : Z := 6.
Definition LLDP_SNMP_STATS_TX : Z := 2.
Definition LLDP_SNMP_STATS_RX_DISCARDED : Z := 4.
Definition LLDP_SNMP_STATS_RX_ERRORS : Z := 5.
Definition LLDP_SNMP_STATS_RX : Z := 6.
Definition LLDP_SNMP_STATS_RX_TLVDISCARDED : Z := 7.
Definition LLDP_SNMP_STATS_RX_TLVUNRECOGNIZED : Z := 8.
Definition LLDP_SNMP_STATS_RX_AGEOUTS : Z := 9.
Definition LLDP_SNMP_PIDSUBTYPE : Z := 2.
Definition LLDP_SNMP_PID : Z := 3.
Definition LLDP_SNMP_PORTDESC : Z := 4.
Definition LLDP_SNMP_DOT3_AUTONEG_SUPPORT : Z := 5.
Definition LLDP_SNMP_DOT3_AUTONEG_ENABLED : Z := 6.
Definition LLDP_SNMP_DOT3_AUTONEG_ADVERTISED : Z := 7.
Definition LLDP_SNMP_DOT3_AUTONEG_MAU : Z := 8.
Definition LLDP_SNMP_DOT3_AGG_STATUS : Z := 9.
Definition LLDP_SNMP_DOT3_AGG_ID : Z := 10.
Definition LLDP_SNMP_DOT3_MFS : Z := 11.
Definition LLDP_SNMP_DOT3_POWER_DEVICETYPE : Z := 12.
Definition LLDP_SNMP_DOT3_POWER_SUPPORT : Z := 13.
Definition LLDP_SNMP_DOT3_POWER_ENABLED : Z := 14.
Definition LLDP_SNMP_DOT3_POWER_PAIRCONTROL : Z := 15.
Definition LLDP_SNMP_DOT3_POWER_PAIRS : Z := 16.
Definition LLDP_SNMP_DOT3_POWER_CLASS : Z := 17.
Definition LLDP_SNMP_DOT3_POWER_TYPE : Z := 18.
Definition LLDP_SNMP_DOT3_POWER_SOURCE : Z := 19.
Definition LLDP_SNMP_DOT3_POWER_PRIORITY : Z := 20.
Definition LLDP_SNMP_DOT3_POWER_REQUESTED : Z := 21.
Definition LLDP_SNMP_DOT3_POWER_ALLOCATED : Z := 22.
Definition LLDP_SNMP_DOT1_PVID : Z := 23.
Definition LLDP_SNMP_DOT1_VLANNAME : Z := 1.
Definition LLDP_SNMP_DOT1_PPVLAN_SUPPORTED : Z := 2.
Definition LLDP_SNMP_DOT1_PPVLAN_ENABLED : Z := 3.
Definition LLDP_SNMP_DOT1_PI : Z := 1.
Definition LLDP_SNMP_ADDR_LEN : Z := 1.
Definition LLDP_SNMP_ADDR_IFSUBTYPE : Z := 2.
Definition LLDP_SNMP_ADDR_IFID : Z := 3.
Definition LLDP_SNMP_ADDR_OID : Z := 4.
Definition LLDP_SNMP_MED_CAP_AVAILABLE : Z := 1.
Definition LLDP_SNMP_MED_CAP_ENABLED : Z := 2.
Definition LLDP_SNMP_MED_CLASS : Z := 3.
Definition LLDP_SNMP_MED_HW : Z := 4.
Definition LLDP_SNMP_MED_FW : Z := 5.
Definition LLDP_SNMP_MED_SW : Z := 6.
Definition LLDP_SNMP_MED_SN : Z := 7.
Definition LLDP_SNMP_MED_MANUF : Z := 8.
Definition LLDP_SNMP_MED_MODEL : Z := 9.
Definition LLDP_SNMP_MED_ASSET : Z := 10.
Definition LLDP_SNMP_MED_POLICY_VID : Z := 11.
Definition LLDP_SNMP_MED_POLICY_PRIO : Z := 12.
Definition LLDP_SNMP_MED_POLICY_DSCP : Z := 13.
Definition LLDP_SNMP_MED_POLICY_UNKNOWN : Z := 14.
Definition LLDP_SNMP_MED_POLICY_TAGGED : Z := 15.
Definition LLDP_SNMP_MED_LOCATION : Z := 16.
Definition LLDP_SNMP_MED_POE_DEVICETYPE : Z := 17.
Definition LLDP_SNMP_MED_POE_PSE_POWERVAL : Z := 19.
Definition LLDP_SNMP_MED_POE_PSE_POWERSOURCE : Z := 20.
Definition LLDP_SNMP_MED_POE_PSE_POWERPRIORITY : Z := 21.
Definition LLDP_SNMP_MED_POE_PD_POWERVAL : Z := 22.
Definition LLDP_SNMP_MED_POE_PD_POWERSOURCE : Z := 23.
Definition LLDP_SNMP_MED_POE_PD_POWERPRIORITY : Z := 24.
Definition LLDPD_TX_MSGDELAY : Z := 1.

(** A conversion to [unsigned long]; an [oid] is one. *)
Definition u64 (v : Z) : Z := v mod 2 ^ 64.

Definition swap_bits (n : Z) : Z :=
  let n := u8 (Z.lor (Z.shiftr (Z.land n 0xF0) 4) (Z.shiftl (Z.land n 0x0F) 4)) in
  let n := u8 (Z.lor (Z.shiftr (Z.land n 0xCC) 2) (Z.shiftl (Z.land n 0x33) 2)) in
  u8 (Z.lor (Z.shiftr (Z.land n 0xAA) 1) (Z.shiftl (Z.land n 0x55) 1)).

(** What a handler returns: a [long], a string with its length, an identifier. *)
Inductive snmp_value :=
  | VLong (n : Z)
  | VOctets (l : list Z)
  | VOid (o : oid).

(** ** Rows *)

Section Tables.
Context `{BuildConfig}.
Variable starttime : Z.      (** [starttime.tv_sec], of Net-SNMP *)
Variable scfg : lldpd.

Definition lastchange (port : lldpd_port) : Z :=
  if starttime <? p_lastchange port then (p_lastchange port - starttime) * 100 else 0.

(** A row that is there. *)
Abbreviation row index e := (Some (index, e)) (only parsing).

Definition header_portindexed : list (option (oid * lldpd_hardware)) :=
  map (λ hw, row [u64 (h_ifindex hw)] hw) (g_hardware scfg).

(** [for (i = 0; i < LLDP_MED_APPTYPE_LAST; i++)]; [index] comes before the last number. *)
Definition policy_rows (index : oid) (port : lldpd_port) : list (option (oid * lldpd_med_policy)) :=
  concat (imap (λ i policy,
    if pol_type policy =? Z.of_nat i + 1 then [row (index ++ [Z.of_nat i + 1]) policy] else [])
    (p_med_policy port)).
Definition location_rows (index : oid) (port : lldpd_port) : list (option (oid * lldpd_med_loc)) :=
  concat (imap (λ i loc,
    if loc_format loc =? Z.of_nat i + 1 then [row (index ++ [Z.of_nat i + 2]) loc] else [])
    (p_med_location port)).
Definition header_pmedindexed_policy : list (option (oid * lldpd_med_policy)) :=
  g_hardware scfg ≫= λ hw, policy_rows [u64 (h_ifindex hw)] (h_lport hw).
Definition header_pmedindexed_location : list (option (oid * lldpd_med_loc)) :=
  g_hardware scfg ≫= λ hw, location_rows [u64 (h_ifindex hw)] (h_lport hw).

(** The two loops over the remote ports that are not hidden ([SMART_HIDDEN]), with their
    chassis. *)
Definition remote_rows {E} (f : lldpd_hardware → lldpd_port → lldpd_chassis → list (option (oid * E)))
    : list (option (oid * E)) :=
  g_hardware scfg ≫= λ hw, h_rports hw ≫= λ port,
    if p_hidden_in port then []
    else match p_chassis port ≫= (g_heap scfg !!.) with
         | None => [None]
         | Some c => f hw port c
         end.
Definition tpr_index (hw : lldpd_hardware) (port : lldpd_port) (c : lldpd_chassis) : oid :=
  [u64 (lastchange port); u64 (h_ifindex hw); c_index c].

Definition header_tprindexed (withmed : bool) : list (option (oid * (lldpd_port * lldpd_chassis))) :=
  remote_rows (λ hw port c,
    if withmed && (c_med_cap_available c =? 0) then [] else [row (tpr_index hw port c) (port, c)]).

(** [size] is the size of the array [index] in bytes, [index] what is already in it.
    Reading beyond the 16 bytes of the address is a fault. *)
Definition mgmt_rows (size : Z) (index : oid) (m : lldpd_mgmt) : list (option (oid * lldpd_mgmt)) :=
  let family := if m_family m =? LLDPD_AF_IPV4 then Some 1
                else if m_family m =? LLDPD_AF_IPV6 then Some 2 else None in
  match family with
  | None => [None]
  | Some af =>
      if size - (zlen index + 2) <? m_addrsize m then []
      else if zlen (m_addr m) <? m_addrsize m then [None]
      else [row (index ++ [af; m_addrsize m] ++ take (Z.to_nat (m_addrsize m)) (m_addr m)) m]
  end.
Definition header_ipindexed : list (option (oid * lldpd_mgmt)) :=
  match LOCAL_CHASSIS scfg ≫= (g_heap scfg !!.) with
  | None => [None]
  | Some chassis => c_mgmt chassis ≫= mgmt_rows ((2 + 16) * 8) []
  end.
Definition header_tpripindexed : list (option (oid * lldpd_mgmt)) :=
  remote_rows (λ hw port c, c_mgmt c ≫= mgmt_rows ((5 + 16) * 8) (tpr_index hw port c)).

Inductive tpr_variant := TPR_VARIANT_MED_POLICY | TPR_VARIANT_MED_LOCATION.
Definition header_tprmedindexed (variant : tpr_variant)
    : list (option (oid * (lldpd_med_policy + lldpd_med_loc))) :=
  remote_rows (λ hw port c,
    if c_med_cap_available c =? 0 then []
    else match variant with
         | TPR_VARIANT_MED_POLICY =>
             map (fmap (prod_map id inl)) (policy_rows (tpr_index hw port c) port)
         | TPR_VARIANT_MED_LOCATION =>
             map (fmap (prod_map id inr)) (location_rows (tpr_index hw port c) port)
         end).

Definition header_pvindexed : list (option (oid * lldpd_vlan)) :=
  g_hardware scfg ≫= λ hw, map (λ v, row [u64 (h_ifindex hw); v_vid v] v) (p_vlans (h_lport hw)).
Definition header_tprvindexed : list (option (oid * lldpd_vlan)) :=
  remote_rows (λ hw port c, map (λ v, row (tpr_index hw port c ++ [v_vid v]) v) (p_vlans port)).
Definition header_pppvidindexed : list (option (oid * lldpd_ppvid)) :=
  g_hardware scfg ≫= λ hw, map (λ v, row [u64 (h_ifindex hw); p_ppvid v] v) (p_ppvids (h_lport hw)).
Definition header_tprppvidindexed : list (option (oid * lldpd_ppvid)) :=
  remote_rows (λ hw port c, map (λ v, row (tpr_index hw port c ++ [p_ppvid v]) v) (p_ppvids port)).
Definition header_ppiindexed : list (option (oid * lldpd_pi)) :=
  g_hardware scfg ≫= λ hw,
    map (λ v, row [u64 (h_ifindex hw); frame_checksum (p_pi v) false] v) (p_pids (h_lport hw)).
Definition header_tprpiindexed : list (option (oid * lldpd_pi)) :=
  remote_rows (λ hw port c,
    map (λ v, row (tpr_index hw port c ++ [frame_checksum (p_pi v) false]) v) (p_pids port)).
End Tables.
