(* ===== verification/SnmpValues.v ===== *)
(** * The values of the SNMP agent (src/daemon/agent.c, [agent_v_*])

    The value of an entity in the column [magic vp]; [None] when the code returns NULL. *)

From S2P Require Import Prelude Bytes Const Structs SnmpIndex SnmpTables.
#[local] Open Scope Z_scope.

(** [switch (v)] over constants. *)
Fixpoint switch {A} (v : Z) (cases : list (Z * A)) (default : A) : A :=
  match cases with
  | [] => default
  | (c, a) :: cases => if v =? c then a else switch v cases default
  end.
(** [long_ret = n; return (u_char * )&long_ret] *)
Definition long_ret (n : Z) : option snmp_value := Some (VLong (u64 n)).
Definition bit_ret (n : Z) : option snmp_value := Some (VOctets [n]).
(** A string with [strlen], and a buffer with its length; NULL is no answer. *)
Definition str_ret (s : option (list Z)) : option snmp_value := (λ s, VOctets (cstr s)) <$> s.
Definition buf_ret (s : option (list Z)) : option snmp_value := VOctets <$> s.
(** [if (!s || *s == '\0') break;] before it. *)
Definition nonempty_ret (s : option (list Z)) : option snmp_value :=
  match s with
  | Some (b :: s) => if b =? 0 then None else str_ret (Some (b :: s))
  | _ => None
  end.

Definition agent_v_med_power (vp : variable) (power : lldpd_med_power) : option snmp_value :=
  let pse := mpow_devicetype power =? LLDP_MED_POW_TYPE_PSE in
  let pd := mpow_devicetype power =? LLDP_MED_POW_TYPE_PD in
  let m := magic vp in
  if m =? LLDP_SNMP_MED_POE_DEVICETYPE then
    long_ret (switch (mpow_devicetype power)
      [(LLDP_MED_POW_TYPE_PSE, 2); (LLDP_MED_POW_TYPE_PD, 3); (0, 4)] 1)
  else if (m =? LLDP_SNMP_MED_POE_PSE_POWERVAL) || (m =? LLDP_SNMP_MED_POE_PD_POWERVAL) then
    if ((m =? LLDP_SNMP_MED_POE_PSE_POWERVAL) && pse) || ((m =? LLDP_SNMP_MED_POE_PD_POWERVAL) && pd)
    then long_ret (mpow_val power) else None
  else if m =? LLDP_SNMP_MED_POE_PSE_POWERSOURCE then
    if pse then long_ret (switch (mpow_source power)
      [(LLDP_MED_POW_SOURCE_PRIMARY, 2); (LLDP_MED_POW_SOURCE_BACKUP, 3)] 1) else None
  else if m =? LLDP_SNMP_MED_POE_PD_POWERSOURCE then
    if pd then long_ret (switch (mpow_source power)
      [(LLDP_MED_POW_SOURCE_PSE, 2); (LLDP_MED_POW_SOURCE_LOCAL, 3); (LLDP_MED_POW_SOURCE_BOTH, 4)] 1)
    else None
  else if (m =? LLDP_SNMP_MED_POE_PSE_POWERPRIORITY) || (m =? LLDP_SNMP_MED_POE_PD_POWERPRIORITY) then
    if ((m =? LLDP_SNMP_MED_POE_PSE_POWERPRIORITY) && pse)
       || ((m =? LLDP_SNMP_MED_POE_PD_POWERPRIORITY) && pd)
    then long_ret (switch (mpow_priority power)
      [(LLDP_MED_POW_PRIO_CRITICAL, 2); (LLDP_MED_POW_PRIO_HIGH, 3); (LLDP_MED_POW_PRIO_LOW, 4)] 1)
    else None
  else None.

(** [port] is NULL for the local chassis. *)
Definition agent_v_med (vp : variable) (chassis : lldpd_chassis) (port : option lldpd_port)
    : option snmp_value :=
  switch (magic vp)
    [(LLDP_SNMP_MED_CLASS, long_ret (c_med_type chassis));
     (LLDP_SNMP_MED_CAP_AVAILABLE, bit_ret (swap_bits (u8 (c_med_cap_available chassis))));
     (LLDP_SNMP_MED_CAP_ENABLED,
        port ← port; bit_ret (swap_bits (u8 (p_med_cap_enabled port))));
     (LLDP_SNMP_MED_HW, str_ret (c_med_hw chassis));
     (LLDP_SNMP_MED_SW, str_ret (c_med_sw chassis));
     (LLDP_SNMP_MED_FW, str_ret (c_med_fw chassis));
     (LLDP_SNMP_MED_SN, str_ret (c_med_sn chassis));
     (LLDP_SNMP_MED_MANUF, str_ret (c_med_manuf chassis));
     (LLDP_SNMP_MED_MODEL, str_ret (c_med_model chassis));
     (LLDP_SNMP_MED_ASSET, str_ret (c_med_asset chassis))] None.

Definition agent_v_med_policy (vp : variable) (policy : lldpd_med_policy) : option snmp_value :=
  switch (magic vp)
    [(LLDP_SNMP_MED_POLICY_VID, long_ret (pol_vid policy));
     (LLDP_SNMP_MED_POLICY_PRIO, long_ret (pol_priority policy));
     (LLDP_SNMP_MED_POLICY_DSCP, long_ret (pol_dscp policy));
     (LLDP_SNMP_MED_POLICY_UNKNOWN, long_ret (if pol_unknown policy =? 0 then 2 else 1));
     (LLDP_SNMP_MED_POLICY_TAGGED, long_ret (if pol_tagged policy =? 0 then 2 else 1))] None.

Definition agent_v_med_location (vp : variable) (location : lldpd_med_loc) : option snmp_value :=
  switch (magic vp) [(LLDP_SNMP_MED_LOCATION, buf_ret (Some (loc_data location)))] None.

Definition agent_v_chassis (vp : variable) (chassis : lldpd_chassis) : option snmp_value :=
  switch (magic vp)
    [(LLDP_SNMP_CIDSUBTYPE, long_ret (c_id_subtype chassis));
     (LLDP_SNMP_CID, buf_ret (c_id chassis));
     (LLDP_SNMP_SYSNAME, nonempty_ret (c_name chassis));
     (LLDP_SNMP_SYSDESCR, nonempty_ret (c_descr chassis));
     (LLDP_SNMP_SYSCAP_SUP, bit_ret (swap_bits (u8 (c_cap_available chassis))));
     (LLDP_SNMP_SYSCAP_ENA, bit_ret (swap_bits (u8 (c_cap_enabled chassis))))] None.

(** The [switch] of [agent_h_stats]. *)
Definition stats_value (vp : variable) (hardware : lldpd_hardware) : option snmp_value :=
  switch (magic vp)
    [(LLDP_SNMP_STATS_TX, long_ret (h_tx_cnt hardware));
     (LLDP_SNMP_STATS_RX, long_ret (h_rx_cnt hardware));
     (LLDP_SNMP_STATS_RX_DISCARDED, long_ret (h_rx_discarded_cnt hardware));
     (LLDP_SNMP_STATS_RX_ERRORS, long_ret (h_rx_discarded_cnt hardware));
     (LLDP_SNMP_STATS_RX_TLVDISCARDED, long_ret (h_rx_unrecognized_cnt hardware));
     (LLDP_SNMP_STATS_RX_TLVUNRECOGNIZED, long_ret (h_rx_unrecognized_cnt hardware));
     (LLDP_SNMP_STATS_RX_AGEOUTS, long_ret (h_ageout_cnt hardware))] None.

Definition agent_v_vlan (vp : variable) (vlan : lldpd_vlan) : option snmp_value :=
  switch (magic vp) [(LLDP_SNMP_DOT1_VLANNAME, str_ret (Some (v_name vlan)))] None.

Definition agent_v_ppvid (vp : variable) (ppvid : lldpd_ppvid) : option snmp_value :=
  let flag mask := long_ret (if Z.land (p_cap_status ppvid) mask =? 0 then 2 else 1) in
  switch (magic vp)
    [(LLDP_SNMP_DOT1_PPVLAN_SUPPORTED, flag LLDP_PPVID_CAP_SUPPORTED);
     (LLDP_SNMP_DOT1_PPVLAN_ENABLED, flag LLDP_PPVID_CAP_ENABLED)] None.

Definition agent_v_pi (vp : variable) (pi : lldpd_pi) : option snmp_value :=
  switch (magic vp) [(LLDP_SNMP_DOT1_PI, buf_ret (Some (p_pi pi)))] None.

Definition agent_v_port (vp : variable) (port : lldpd_port) : option snmp_value :=
  let mac := p_macphy port in
  let pow := p_power port in
  let flag v := if v =? 0 then 2 else 1 in
  let if_power a := if pow_devicetype pow =? 0 then None else a in
  let if_at a :=
    if_power (if pow_powertype pow =? LLDP_DOT3_POWER_8023AT_OFF then None else a) in
  switch (magic vp)
    [(LLDP_SNMP_PIDSUBTYPE, long_ret (p_id_subtype port));
     (LLDP_SNMP_PID, buf_ret (p_id port));
     (LLDP_SNMP_PORTDESC, nonempty_ret (p_descr port));
     (LLDP_SNMP_DOT3_AUTONEG_SUPPORT, long_ret (2 - autoneg_support mac));
     (LLDP_SNMP_DOT3_AUTONEG_ENABLED, long_ret (2 - autoneg_enabled mac));
     (LLDP_SNMP_DOT3_AUTONEG_ADVERTISED, Some (VOctets (be16 (autoneg_advertised mac))));
     (LLDP_SNMP_DOT3_AUTONEG_MAU, long_ret (mau_type mac));
     (LLDP_SNMP_DOT3_AGG_STATUS, bit_ret (swap_bits (if 0 <? p_aggregid port then 3 else 0)));
     (LLDP_SNMP_DOT3_AGG_ID, long_ret (p_aggregid port));
     (LLDP_SNMP_DOT3_MFS, if p_mfs port =? 0 then None else long_ret (p_mfs port));
     (LLDP_SNMP_DOT3_POWER_DEVICETYPE,
        if_power (long_ret (if pow_devicetype pow =? LLDP_DOT3_POWER_PSE then 1 else 2)));
     (LLDP_SNMP_DOT3_POWER_SUPPORT, if_power (long_ret (flag (pow_supported pow))));
     (LLDP_SNMP_DOT3_POWER_ENABLED, if_power (long_ret (flag (pow_enabled pow))));
     (LLDP_SNMP_DOT3_POWER_PAIRCONTROL, if_power (long_ret (flag (pow_paircontrol pow))));
     (LLDP_SNMP_DOT3_POWER_PAIRS, if_power (long_ret (pow_pairs pow)));
     (LLDP_SNMP_DOT3_POWER_CLASS,
        if_power (if pow_class pow =? 0 then None else long_ret (pow_class pow)));
     (LLDP_SNMP_DOT3_POWER_TYPE,
        if_at (bit_ret (Z.lor
          (Z.shiftl (if pow_powertype pow =? LLDP_DOT3_POWER_8023AT_TYPE1 then 0 else 1) 7)
          (Z.shiftl (if pow_devicetype pow =? LLDP_DOT3_POWER_PSE then 0 else 1) 6))));
     (LLDP_SNMP_DOT3_POWER_SOURCE, if_at (bit_ret (swap_bits (pow_source pow mod 2 ^ 2))));
     (LLDP_SNMP_DOT3_POWER_PRIORITY, if_at (long_ret (4 - pow_priority pow)));
     (LLDP_SNMP_DOT3_POWER_REQUESTED, if_at (long_ret (pow_requested pow)));
     (LLDP_SNMP_DOT3_POWER_ALLOCATED, if_at (long_ret (pow_allocated pow)));
     (LLDP_SNMP_DOT1_PVID, long_ret (p_pvid port))] None.

Definition agent_v_management (vp : variable) (mgmt : lldpd_mgmt) : option snmp_value :=
  switch (magic vp)
    [(LLDP_SNMP_ADDR_LEN, long_ret (m_addrsize mgmt + 1));
     (LLDP_SNMP_ADDR_IFSUBTYPE, long_ret (if m_iface mgmt =? 0 then 1 else LLDP_MGMT_IFACE_IFINDEX));
     (LLDP_SNMP_ADDR_IFID, long_ret (m_iface mgmt));
     (LLDP_SNMP_ADDR_OID, Some (VOid [0; 0]))] None.
