(* ===== verification/SnmpAgent.v ===== *)
(** * The handlers of the SNMP agent (src/daemon/agent.c, [agent_h_*])

    Each handler finds the entity of a request in its table and gives its value; those that
    end in [TRYNEXT] go on when there is none.  [agent_lldp_vars] says which handler serves
    which identifier, and the type of its values; [agent_notify] builds the notification of
    a change. *)

From stdpp Require Import gmap.
From S2P Require Import Prelude Bytes Const Structs Table SnmpIndex SnmpTables SnmpValues.
#[local] Open Scope Z_scope.

#[local] Abbreviation oid := (list Z).

Section Agent.
Context `{BuildConfig} `{NetSnmp}.
Variable starttime : Z.
Variable scfg : lldpd.

(** A handler over a table, without and with [TRYNEXT]. *)
Definition serve {E} (rows : list (option (oid * E))) (value : variable → E → option snmp_value)
    (vp : variable) (name : oid) (exact : bool) : found snmp_value :=
  agent_h (λ vp name exact, header_indexed_table vp name exact rows) value vp name exact.
Definition serve_trynext {E} (rows : list (option (oid * E)))
    (value : variable → E → option snmp_value) (vp : variable) (name : oid) (exact : bool)
    : found snmp_value :=
  agent_h_trynext (S (length rows)) (λ vp name exact, header_indexed_table vp name exact rows)
    value vp name exact.
(** [if (header_generic(...)) return NULL;] *)
Definition header_scalar (vp : variable) (name : oid) (exact : bool) : found unit :=
  match header_generic (vp_name vp) name exact with
  | Some name => Found tt name
  | None => NotFound
  end.

(** ** Scalars *)

Definition local_chassis : option lldpd_chassis := LOCAL_CHASSIS scfg ≫= (g_heap scfg !!.).

Definition sum_hardware (f : lldpd_hardware → Z) : Z :=
  foldl (λ n hw, u64 (n + f hw)) 0 (g_hardware scfg).
(** The remote ports that are not hidden. *)
Definition last_update : Z :=
  let last := foldl (λ n port, if p_hidden_in port then n
                               else if n <? u64 (p_lastchange port) then u64 (p_lastchange port) else n)
                    0 (g_hardware scfg ≫= h_rports) in
  if last =? 0 then 0 else u64 ((last - starttime) * 100).

(** A division by zero is a fault. *)
Definition agent_h_scalars (vp : variable) (name : oid) (exact : bool) : found snmp_value :=
  match header_scalar vp name exact with
  | Fault => Fault
  | NotFound => NotFound
  | Found _ name =>
      let ret n := Found (VLong (u64 n)) name in
      switch (magic vp)
        [(LLDP_SNMP_TXINTERVAL, ret (c_tx_interval (g_config scfg)));
         (LLDP_SNMP_TXMULTIPLIER,
            match local_chassis with
            | None => Fault
            | Some c => if c_tx_interval (g_config scfg) =? 0 then Fault
                        else ret (Z.quot (c_ttl c) (c_tx_interval (g_config scfg)))
            end);
         (LLDP_SNMP_REINITDELAY, ret 1);
         (LLDP_SNMP_TXDELAY, ret LLDPD_TX_MSGDELAY);
         (LLDP_SNMP_NOTIFICATION, ret 5);
         (LLDP_SNMP_LASTUPDATE, ret last_update);
         (LLDP_SNMP_STATS_INSERTS, ret (sum_hardware h_insert_cnt));
         (LLDP_SNMP_STATS_AGEOUTS, ret (sum_hardware h_ageout_cnt));
         (LLDP_SNMP_STATS_DELETES, ret (sum_hardware h_delete_cnt));
         (LLDP_SNMP_STATS_DROPS, ret (sum_hardware h_drop_cnt))] NotFound
  end.

(** ** LLDP-MED *)

(** The loop that chooses the port: PSE ports count up, PD ports down. *)
Definition med_power_choice (hws : list lldpd_hardware) : option lldpd_med_power :=
  (foldl (λ '(pse, power) hw,
    let p := p_med_power (h_lport hw) in
    if mpow_devicetype p =? LLDP_MED_POW_TYPE_PSE
    then (pse + 1, if pse + 1 =? 1 then Some p else power)
    else if mpow_devicetype p =? LLDP_MED_POW_TYPE_PD
    then (pse - 1, if pse - 1 =? -1 then Some p else power)
    else (pse, power)) (0, None) hws).2.
(** The local handlers answer only when the local chassis has LLDP-MED. *)
Definition if_local_med (k : lldpd_chassis → found snmp_value) : found snmp_value :=
  match local_chassis with
  | None => Fault
  | Some c => if c_med_cap_available c =? 0 then NotFound else k c
  end.
Definition agent_h_local_med_power (vp : variable) (name : oid) (exact : bool) : found snmp_value :=
  if_local_med (λ _, agent_h_trynext 2 header_scalar
    (λ vp _, power ← med_power_choice (g_hardware scfg); agent_v_med_power vp power) vp name exact).
Definition agent_h_remote_med_power (vp : variable) (name : oid) (exact : bool) : found snmp_value :=
  serve_trynext (header_tprindexed starttime scfg true)
    (λ vp '(port, _), agent_v_med_power vp (p_med_power port)) vp name exact.

Definition agent_h_local_med (vp : variable) (name : oid) (exact : bool) : found snmp_value :=
  if_local_med (λ c, agent_h_trynext 2 header_scalar (λ vp _, agent_v_med vp c None) vp name exact).
Definition agent_h_remote_med (vp : variable) (name : oid) (exact : bool) : found snmp_value :=
  serve_trynext (header_tprindexed starttime scfg true)
    (λ vp '(port, c), agent_v_med vp c (Some port)) vp name exact.

Definition agent_h_remote_med_policy (vp : variable) (name : oid) (exact : bool) : found snmp_value :=
  serve (header_tprmedindexed starttime scfg TPR_VARIANT_MED_POLICY)
    (λ vp e, match e with inl policy => agent_v_med_policy vp policy | inr _ => None end) vp name exact.
Definition agent_h_local_med_policy (vp : variable) (name : oid) (exact : bool) : found snmp_value :=
  serve (header_pmedindexed_policy scfg) agent_v_med_policy vp name exact.
Definition agent_h_remote_med_location (vp : variable) (name : oid) (exact : bool) : found snmp_value :=
  serve (header_tprmedindexed starttime scfg TPR_VARIANT_MED_LOCATION)
    (λ vp e, match e with inl _ => None | inr loc => agent_v_med_location vp loc end) vp name exact.
Definition agent_h_local_med_location (vp : variable) (name : oid) (exact : bool) : found snmp_value :=
  serve (header_pmedindexed_location scfg) agent_v_med_location vp name exact.

(** ** Chassis, ports and statistics *)

Definition agent_h_local_chassis (vp : variable) (name : oid) (exact : bool) : found snmp_value :=
  match header_scalar vp name exact with
  | Fault => Fault
  | NotFound => NotFound
  | Found _ name =>
      match local_chassis with
      | None => Fault
      | Some c => match agent_v_chassis vp c with Some a => Found a name | None => NotFound end
      end
  end.
Definition agent_h_remote_chassis (vp : variable) (name : oid) (exact : bool) : found snmp_value :=
  serve (header_tprindexed starttime scfg false) (λ vp '(_, c), agent_v_chassis vp c) vp name exact.
Definition agent_h_stats (vp : variable) (name : oid) (exact : bool) : found snmp_value :=
  serve (header_portindexed scfg) stats_value vp name exact.
Definition agent_h_remote_port (vp : variable) (name : oid) (exact : bool) : found snmp_value :=
  serve_trynext (header_tprindexed starttime scfg false) (λ vp '(port, _), agent_v_port vp port)
    vp name exact.
Definition agent_h_local_port (vp : variable) (name : oid) (exact : bool) : found snmp_value :=
  serve_trynext (header_portindexed scfg) (λ vp hw, agent_v_port vp (h_lport hw)) vp name exact.

(** ** VLAN, protocol identities and management addresses *)

Definition agent_h_local_vlan (vp : variable) (name : oid) (exact : bool) : found snmp_value :=
  serve (header_pvindexed scfg) agent_v_vlan vp name exact.
Definition agent_h_remote_vlan (vp : variable) (name : oid) (exact : bool) : found snmp_value :=
  serve (header_tprvindexed starttime scfg) agent_v_vlan vp name exact.
Definition agent_h_local_ppvid (vp : variable) (name : oid) (exact : bool) : found snmp_value :=
  serve (header_pppvidindexed scfg) agent_v_ppvid vp name exact.
Definition agent_h_remote_ppvid (vp : variable) (name : oid) (exact : bool) : found snmp_value :=
  serve (header_tprppvidindexed starttime scfg) agent_v_ppvid vp name exact.
Definition agent_h_local_pi (vp : variable) (name : oid) (exact : bool) : found snmp_value :=
  serve (header_ppiindexed scfg) agent_v_pi vp name exact.
Definition agent_h_remote_pi (vp : variable) (name : oid) (exact : bool) : found snmp_value :=
  serve (header_tprpiindexed starttime scfg) agent_v_pi vp name exact.
Definition agent_h_local_management (vp : variable) (name : oid) (exact : bool) : found snmp_value :=
  serve (header_ipindexed scfg) agent_v_management vp name exact.
Definition agent_h_remote_management (vp : variable) (name : oid) (exact : bool) : found snmp_value :=
  serve (header_tpripindexed starttime scfg) agent_v_management vp name exact.

(** ** The variables *)

Inductive asn_type := ASN_INTEGER | ASN_COUNTER | ASN_GAUGE | ASN_TIMETICKS | ASN_OCTET_STR | ASN_OBJECT_ID.
(** The pointers to the handlers. *)
Inductive handler :=
  | agent_h_scalars_
  | agent_h_stats_
  | agent_h_local_chassis_
  | agent_h_local_port_
  | agent_h_local_management_
  | agent_h_remote_chassis_
  | agent_h_remote_port_
  | agent_h_remote_management_
  | agent_h_local_med_
  | agent_h_local_med_policy_
  | agent_h_local_med_location_
  | agent_h_local_med_power_
  | agent_h_remote_med_
  | agent_h_remote_med_policy_
  | agent_h_remote_med_location_
  | agent_h_remote_med_power_
  | agent_h_local_ppvid_
  | agent_h_local_vlan_
  | agent_h_local_pi_
  | agent_h_remote_ppvid_
  | agent_h_remote_vlan_
  | agent_h_remote_pi_.
Definition call (h : handler) : variable → oid → bool → found snmp_value :=
  match h with
  | agent_h_scalars_ => agent_h_scalars
  | agent_h_stats_ => agent_h_stats
  | agent_h_local_chassis_ => agent_h_local_chassis
  | agent_h_local_port_ => agent_h_local_port
  | agent_h_local_management_ => agent_h_local_management
  | agent_h_remote_chassis_ => agent_h_remote_chassis
  | agent_h_remote_port_ => agent_h_remote_port
  | agent_h_remote_management_ => agent_h_remote_management
  | agent_h_local_med_ => agent_h_local_med
  | agent_h_local_med_policy_ => agent_h_local_med_policy
  | agent_h_local_med_location_ => agent_h_local_med_location
  | agent_h_local_med_power_ => agent_h_local_med_power
  | agent_h_remote_med_ => agent_h_remote_med
  | agent_h_remote_med_policy_ => agent_h_remote_med_policy
  | agent_h_remote_med_location_ => agent_h_remote_med_location
  | agent_h_remote_med_power_ => agent_h_remote_med_power
  | agent_h_local_ppvid_ => agent_h_local_ppvid
  | agent_h_local_vlan_ => agent_h_local_vlan
  | agent_h_local_pi_ => agent_h_local_pi
  | agent_h_remote_ppvid_ => agent_h_remote_ppvid
  | agent_h_remote_vlan_ => agent_h_remote_vlan
  | agent_h_remote_pi_ => agent_h_remote_pi
  end.
End Agent.

(** [struct variable8]: the magic, the type, the handler and the name. *)
#[local] Abbreviation entry := (Z * asn_type * handler * oid)%type.
Definition agent_lldp_vars_core : list entry :=
    [(LLDP_SNMP_TXINTERVAL, ASN_INTEGER, agent_h_scalars_, [1; 1; 1]);
     (LLDP_SNMP_TXMULTIPLIER, ASN_INTEGER, agent_h_scalars_, [1; 1; 2]);
     (LLDP_SNMP_REINITDELAY, ASN_INTEGER, agent_h_scalars_, [1; 1; 3]);
     (LLDP_SNMP_TXDELAY, ASN_INTEGER, agent_h_scalars_, [1; 1; 4]);
     (LLDP_SNMP_NOTIFICATION, ASN_INTEGER, agent_h_scalars_, [1; 1; 5]);
     (LLDP_SNMP_LASTUPDATE, ASN_TIMETICKS, agent_h_scalars_, [1; 2; 1]);
     (LLDP_SNMP_STATS_INSERTS, ASN_GAUGE, agent_h_scalars_, [1; 2; 2]);
     (LLDP_SNMP_STATS_DELETES, ASN_GAUGE, agent_h_scalars_, [1; 2; 3]);
     (LLDP_SNMP_STATS_DROPS, ASN_GAUGE, agent_h_scalars_, [1; 2; 4]);
     (LLDP_SNMP_STATS_AGEOUTS, ASN_GAUGE, agent_h_scalars_, [1; 2; 5]);
     (LLDP_SNMP_STATS_TX, ASN_COUNTER, agent_h_stats_, [1; 2; 6; 1; 2]);
     (LLDP_SNMP_STATS_RX_DISCARDED, ASN_COUNTER, agent_h_stats_, [1; 2; 7; 1; 2]);
     (LLDP_SNMP_STATS_RX_ERRORS, ASN_COUNTER, agent_h_stats_, [1; 2; 7; 1; 3]);
     (LLDP_SNMP_STATS_RX, ASN_COUNTER, agent_h_stats_, [1; 2; 7; 1; 4]);
     (LLDP_SNMP_STATS_RX_TLVDISCARDED, ASN_COUNTER, agent_h_stats_, [1; 2; 7; 1; 5]);
     (LLDP_SNMP_STATS_RX_TLVUNRECOGNIZED, ASN_COUNTER, agent_h_stats_, [1; 2; 7; 1; 6]);
     (LLDP_SNMP_STATS_RX_AGEOUTS, ASN_GAUGE, agent_h_stats_, [1; 2; 7; 1; 7]);
     (LLDP_SNMP_CIDSUBTYPE, ASN_INTEGER, agent_h_local_chassis_, [1; 3; 1]);
     (LLDP_SNMP_CID, ASN_OCTET_STR, agent_h_local_chassis_, [1; 3; 2]);
     (LLDP_SNMP_SYSNAME, ASN_OCTET_STR, agent_h_local_chassis_, [1; 3; 3]);
     (LLDP_SNMP_SYSDESCR, ASN_OCTET_STR, agent_h_local_chassis_, [1; 3; 4]);
     (LLDP_SNMP_SYSCAP_SUP, ASN_OCTET_STR, agent_h_local_chassis_, [1; 3; 5]);
     (LLDP_SNMP_SYSCAP_ENA, ASN_OCTET_STR, agent_h_local_chassis_, [1; 3; 6]);
     (LLDP_SNMP_PIDSUBTYPE, ASN_INTEGER, agent_h_local_port_, [1; 3; 7; 1; 2]);
     (LLDP_SNMP_PID, ASN_OCTET_STR, agent_h_local_port_, [1; 3; 7; 1; 3]);
     (LLDP_SNMP_PORTDESC, ASN_OCTET_STR, agent_h_local_port_, [1; 3; 7; 1; 4]);
     (LLDP_SNMP_ADDR_LEN, ASN_INTEGER, agent_h_local_management_, [1; 3; 8; 1; 3]);
     (LLDP_SNMP_ADDR_IFSUBTYPE, ASN_INTEGER, agent_h_local_management_, [1; 3; 8; 1; 4]);
     (LLDP_SNMP_ADDR_IFID, ASN_INTEGER, agent_h_local_management_, [1; 3; 8; 1; 5]);
     (LLDP_SNMP_ADDR_OID, ASN_OBJECT_ID, agent_h_local_management_, [1; 3; 8; 1; 6]);
     (LLDP_SNMP_CIDSUBTYPE, ASN_INTEGER, agent_h_remote_chassis_, [1; 4; 1; 1; 4]);
     (LLDP_SNMP_CID, ASN_OCTET_STR, agent_h_remote_chassis_, [1; 4; 1; 1; 5]);
     (LLDP_SNMP_PIDSUBTYPE, ASN_INTEGER, agent_h_remote_port_, [1; 4; 1; 1; 6]);
     (LLDP_SNMP_PID, ASN_OCTET_STR, agent_h_remote_port_, [1; 4; 1; 1; 7]);
     (LLDP_SNMP_PORTDESC, ASN_OCTET_STR, agent_h_remote_port_, [1; 4; 1; 1; 8]);
     (LLDP_SNMP_SYSNAME, ASN_OCTET_STR, agent_h_remote_chassis_, [1; 4; 1; 1; 9]);
     (LLDP_SNMP_SYSDESCR, ASN_OCTET_STR, agent_h_remote_chassis_, [1; 4; 1; 1; 10]);
     (LLDP_SNMP_SYSCAP_SUP, ASN_OCTET_STR, agent_h_remote_chassis_, [1; 4; 1; 1; 11]);
     (LLDP_SNMP_SYSCAP_ENA, ASN_OCTET_STR, agent_h_remote_chassis_, [1; 4; 1; 1; 12]);
     (LLDP_SNMP_ADDR_IFSUBTYPE, ASN_INTEGER, agent_h_remote_management_, [1; 4; 2; 1; 3]);
     (LLDP_SNMP_ADDR_IFID, ASN_INTEGER, agent_h_remote_management_, [1; 4; 2; 1; 4]);
     (LLDP_SNMP_ADDR_OID, ASN_OBJECT_ID, agent_h_remote_management_, [1; 4; 2; 1; 5])].
Definition agent_lldp_vars_dot3 : list entry :=
    [(LLDP_SNMP_DOT3_AUTONEG_SUPPORT, ASN_INTEGER, agent_h_local_port_, [1; 5; 4623; 1; 2; 1; 1; 1]);
     (LLDP_SNMP_DOT3_AUTONEG_ENABLED, ASN_INTEGER, agent_h_local_port_, [1; 5; 4623; 1; 2; 1; 1; 2]);
     (LLDP_SNMP_DOT3_AUTONEG_ADVERTISED, ASN_OCTET_STR, agent_h_local_port_, [1; 5; 4623; 1; 2; 1; 1; 3]);
     (LLDP_SNMP_DOT3_AUTONEG_MAU, ASN_INTEGER, agent_h_local_port_, [1; 5; 4623; 1; 2; 1; 1; 4]);
     (LLDP_SNMP_DOT3_POWER_DEVICETYPE, ASN_INTEGER, agent_h_local_port_, [1; 5; 4623; 1; 2; 2; 1; 1]);
     (LLDP_SNMP_DOT3_POWER_SUPPORT, ASN_INTEGER, agent_h_local_port_, [1; 5; 4623; 1; 2; 2; 1; 2]);
     (LLDP_SNMP_DOT3_POWER_ENABLED, ASN_INTEGER, agent_h_local_port_, [1; 5; 4623; 1; 2; 2; 1; 3]);
     (LLDP_SNMP_DOT3_POWER_PAIRCONTROL, ASN_INTEGER, agent_h_local_port_, [1; 5; 4623; 1; 2; 2; 1; 4]);
     (LLDP_SNMP_DOT3_POWER_PAIRS, ASN_INTEGER, agent_h_local_port_, [1; 5; 4623; 1; 2; 2; 1; 5]);
     (LLDP_SNMP_DOT3_POWER_CLASS, ASN_INTEGER, agent_h_local_port_, [1; 5; 4623; 1; 2; 2; 1; 6]);
     (LLDP_SNMP_DOT3_POWER_TYPE, ASN_OCTET_STR, agent_h_local_port_, [1; 5; 4623; 1; 2; 2; 1; 7]);
     (LLDP_SNMP_DOT3_POWER_SOURCE, ASN_OCTET_STR, agent_h_local_port_, [1; 5; 4623; 1; 2; 2; 1; 8]);
     (LLDP_SNMP_DOT3_POWER_PRIORITY, ASN_INTEGER, agent_h_local_port_, [1; 5; 4623; 1; 2; 2; 1; 9]);
     (LLDP_SNMP_DOT3_POWER_REQUESTED, ASN_INTEGER, agent_h_local_port_, [1; 5; 4623; 1; 2; 2; 1; 10]);
     (LLDP_SNMP_DOT3_POWER_ALLOCATED, ASN_INTEGER, agent_h_local_port_, [1; 5; 4623; 1; 2; 2; 1; 11]);
     (LLDP_SNMP_DOT3_AGG_STATUS, ASN_OCTET_STR, agent_h_local_port_, [1; 5; 4623; 1; 2; 3; 1; 1]);
     (LLDP_SNMP_DOT3_AGG_ID, ASN_INTEGER, agent_h_local_port_, [1; 5; 4623; 1; 2; 3; 1; 2]);
     (LLDP_SNMP_DOT3_MFS, ASN_INTEGER, agent_h_local_port_, [1; 5; 4623; 1; 2; 4; 1; 1]);
     (LLDP_SNMP_DOT3_AUTONEG_SUPPORT, ASN_INTEGER, agent_h_remote_port_, [1; 5; 4623; 1; 3; 1; 1; 1]);
     (LLDP_SNMP_DOT3_AUTONEG_ENABLED, ASN_INTEGER, agent_h_remote_port_, [1; 5; 4623; 1; 3; 1; 1; 2]);
     (LLDP_SNMP_DOT3_AUTONEG_ADVERTISED, ASN_OCTET_STR, agent_h_remote_port_, [1; 5; 4623; 1; 3; 1; 1; 3]);
     (LLDP_SNMP_DOT3_AUTONEG_MAU, ASN_INTEGER, agent_h_remote_port_, [1; 5; 4623; 1; 3; 1; 1; 4]);
     (LLDP_SNMP_DOT3_POWER_DEVICETYPE, ASN_INTEGER, agent_h_remote_port_, [1; 5; 4623; 1; 3; 2; 1; 1]);
     (LLDP_SNMP_DOT3_POWER_SUPPORT, ASN_INTEGER, agent_h_remote_port_, [1; 5; 4623; 1; 3; 2; 1; 2]);
     (LLDP_SNMP_DOT3_POWER_ENABLED, ASN_INTEGER, agent_h_remote_port_, [1; 5; 4623; 1; 3; 2; 1; 3]);
     (LLDP_SNMP_DOT3_POWER_PAIRCONTROL, ASN_INTEGER, agent_h_remote_port_, [1; 5; 4623; 1; 3; 2; 1; 4]);
     (LLDP_SNMP_DOT3_POWER_PAIRS, ASN_INTEGER, agent_h_remote_port_, [1; 5; 4623; 1; 3; 2; 1; 5]);
     (LLDP_SNMP_DOT3_POWER_CLASS, ASN_INTEGER, agent_h_remote_port_, [1; 5; 4623; 1; 3; 2; 1; 6]);
     (LLDP_SNMP_DOT3_POWER_TYPE, ASN_OCTET_STR, agent_h_remote_port_, [1; 5; 4623; 1; 3; 2; 1; 7]);
     (LLDP_SNMP_DOT3_POWER_SOURCE, ASN_OCTET_STR, agent_h_remote_port_, [1; 5; 4623; 1; 3; 2; 1; 8]);
     (LLDP_SNMP_DOT3_POWER_PRIORITY, ASN_INTEGER, agent_h_remote_port_, [1; 5; 4623; 1; 3; 2; 1; 9]);
     (LLDP_SNMP_DOT3_POWER_REQUESTED, ASN_INTEGER, agent_h_remote_port_, [1; 5; 4623; 1; 3; 2; 1; 10]);
     (LLDP_SNMP_DOT3_POWER_ALLOCATED, ASN_INTEGER, agent_h_remote_port_, [1; 5; 4623; 1; 3; 2; 1; 11]);
     (LLDP_SNMP_DOT3_AGG_STATUS, ASN_OCTET_STR, agent_h_remote_port_, [1; 5; 4623; 1; 3; 3; 1; 1]);
     (LLDP_SNMP_DOT3_AGG_ID, ASN_INTEGER, agent_h_remote_port_, [1; 5; 4623; 1; 3; 3; 1; 2]);
     (LLDP_SNMP_DOT3_MFS, ASN_INTEGER, agent_h_remote_port_, [1; 5; 4623; 1; 3; 4; 1; 1])].
Definition agent_lldp_vars_med : list entry :=
    [(LLDP_SNMP_MED_CLASS, ASN_INTEGER, agent_h_local_med_, [1; 5; 4795; 1; 1; 1]);
     (LLDP_SNMP_MED_POLICY_VID, ASN_INTEGER, agent_h_local_med_policy_, [1; 5; 4795; 1; 2; 1; 1; 2]);
     (LLDP_SNMP_MED_POLICY_PRIO, ASN_INTEGER, agent_h_local_med_policy_, [1; 5; 4795; 1; 2; 1; 1; 3]);
     (LLDP_SNMP_MED_POLICY_DSCP, ASN_INTEGER, agent_h_local_med_policy_, [1; 5; 4795; 1; 2; 1; 1; 4]);
     (LLDP_SNMP_MED_POLICY_UNKNOWN, ASN_INTEGER, agent_h_local_med_policy_, [1; 5; 4795; 1; 2; 1; 1; 5]);
     (LLDP_SNMP_MED_POLICY_TAGGED, ASN_INTEGER, agent_h_local_med_policy_, [1; 5; 4795; 1; 2; 1; 1; 6]);
     (LLDP_SNMP_MED_HW, ASN_OCTET_STR, agent_h_local_med_, [1; 5; 4795; 1; 2; 2]);
     (LLDP_SNMP_MED_FW, ASN_OCTET_STR, agent_h_local_med_, [1; 5; 4795; 1; 2; 3]);
     (LLDP_SNMP_MED_SW, ASN_OCTET_STR, agent_h_local_med_, [1; 5; 4795; 1; 2; 4]);
     (LLDP_SNMP_MED_SN, ASN_OCTET_STR, agent_h_local_med_, [1; 5; 4795; 1; 2; 5]);
     (LLDP_SNMP_MED_MANUF, ASN_OCTET_STR, agent_h_local_med_, [1; 5; 4795; 1; 2; 6]);
     (LLDP_SNMP_MED_MODEL, ASN_OCTET_STR, agent_h_local_med_, [1; 5; 4795; 1; 2; 7]);
     (LLDP_SNMP_MED_ASSET, ASN_OCTET_STR, agent_h_local_med_, [1; 5; 4795; 1; 2; 8]);
     (LLDP_SNMP_MED_LOCATION, ASN_OCTET_STR, agent_h_local_med_location_, [1; 5; 4795; 1; 2; 9; 1; 2]);
     (LLDP_SNMP_MED_POE_DEVICETYPE, ASN_INTEGER, agent_h_local_med_power_, [1; 5; 4795; 1; 2; 10]);
     (LLDP_SNMP_MED_POE_PSE_POWERVAL, ASN_GAUGE, agent_h_local_med_power_, [1; 5; 4795; 1; 2; 11; 1; 1]);
     (LLDP_SNMP_MED_POE_PSE_POWERPRIORITY, ASN_INTEGER, agent_h_local_med_power_, [1; 5; 4795; 1; 2; 11; 1; 2]);
     (LLDP_SNMP_MED_POE_PSE_POWERSOURCE, ASN_INTEGER, agent_h_local_med_power_, [1; 5; 4795; 1; 2; 12]);
     (LLDP_SNMP_MED_POE_PD_POWERVAL, ASN_GAUGE, agent_h_local_med_power_, [1; 5; 4795; 1; 2; 13]);
     (LLDP_SNMP_MED_POE_PD_POWERSOURCE, ASN_INTEGER, agent_h_local_med_power_, [1; 5; 4795; 1; 2; 14]);
     (LLDP_SNMP_MED_POE_PD_POWERPRIORITY, ASN_INTEGER, agent_h_local_med_power_, [1; 5; 4795; 1; 2; 15]);
     (LLDP_SNMP_MED_CAP_AVAILABLE, ASN_OCTET_STR, agent_h_remote_med_, [1; 5; 4795; 1; 3; 1; 1; 1]);
     (LLDP_SNMP_MED_CAP_ENABLED, ASN_OCTET_STR, agent_h_remote_med_, [1; 5; 4795; 1; 3; 1; 1; 2]);
     (LLDP_SNMP_MED_CLASS, ASN_INTEGER, agent_h_remote_med_, [1; 5; 4795; 1; 3; 1; 1; 3]);
     (LLDP_SNMP_MED_POLICY_VID, ASN_INTEGER, agent_h_remote_med_policy_, [1; 5; 4795; 1; 3; 2; 1; 2]);
     (LLDP_SNMP_MED_POLICY_PRIO, ASN_INTEGER, agent_h_remote_med_policy_, [1; 5; 4795; 1; 3; 2; 1; 3]);
     (LLDP_SNMP_MED_POLICY_DSCP, ASN_INTEGER, agent_h_remote_med_policy_, [1; 5; 4795; 1; 3; 2; 1; 4]);
     (LLDP_SNMP_MED_POLICY_UNKNOWN, ASN_INTEGER, agent_h_remote_med_policy_, [1; 5; 4795; 1; 3; 2; 1; 5]);
     (LLDP_SNMP_MED_POLICY_TAGGED, ASN_INTEGER, agent_h_remote_med_policy_, [1; 5; 4795; 1; 3; 2; 1; 6]);
     (LLDP_SNMP_MED_HW, ASN_OCTET_STR, agent_h_remote_med_, [1; 5; 4795; 1; 3; 3; 1; 1]);
     (LLDP_SNMP_MED_FW, ASN_OCTET_STR, agent_h_remote_med_, [1; 5; 4795; 1; 3; 3; 1; 2]);
     (LLDP_SNMP_MED_SW, ASN_OCTET_STR, agent_h_remote_med_, [1; 5; 4795; 1; 3; 3; 1; 3]);
     (LLDP_SNMP_MED_SN, ASN_OCTET_STR, agent_h_remote_med_, [1; 5; 4795; 1; 3; 3; 1; 4]);
     (LLDP_SNMP_MED_MANUF, ASN_OCTET_STR, agent_h_remote_med_, [1; 5; 4795; 1; 3; 3; 1; 5]);
     (LLDP_SNMP_MED_MODEL, ASN_OCTET_STR, agent_h_remote_med_, [1; 5; 4795; 1; 3; 3; 1; 6]);
     (LLDP_SNMP_MED_ASSET, ASN_OCTET_STR, agent_h_remote_med_, [1; 5; 4795; 1; 3; 3; 1; 7]);
     (LLDP_SNMP_MED_LOCATION, ASN_OCTET_STR, agent_h_remote_med_location_, [1; 5; 4795; 1; 3; 4; 1; 2]);
     (LLDP_SNMP_MED_POE_DEVICETYPE, ASN_INTEGER, agent_h_remote_med_power_, [1; 5; 4795; 1; 3; 5; 1; 1]);
     (LLDP_SNMP_MED_POE_PSE_POWERVAL, ASN_GAUGE, agent_h_remote_med_power_, [1; 5; 4795; 1; 3; 6; 1; 1]);
     (LLDP_SNMP_MED_POE_PSE_POWERSOURCE, ASN_INTEGER, agent_h_remote_med_power_, [1; 5; 4795; 1; 3; 6; 1; 2]);
     (LLDP_SNMP_MED_POE_PSE_POWERPRIORITY, ASN_INTEGER, agent_h_remote_med_power_, [1; 5; 4795; 1; 3; 6; 1; 3]);
     (LLDP_SNMP_MED_POE_PD_POWERVAL, ASN_GAUGE, agent_h_remote_med_power_, [1; 5; 4795; 1; 3; 7; 1; 1]);
     (LLDP_SNMP_MED_POE_PD_POWERSOURCE, ASN_INTEGER, agent_h_remote_med_power_, [1; 5; 4795; 1; 3; 7; 1; 2]);
     (LLDP_SNMP_MED_POE_PD_POWERPRIORITY, ASN_INTEGER, agent_h_remote_med_power_, [1; 5; 4795; 1; 3; 7; 1; 3])].
Definition agent_lldp_vars_dot1 : list entry :=
    [(LLDP_SNMP_DOT1_PVID, ASN_INTEGER, agent_h_local_port_, [1; 5; 32962; 1; 2; 1; 1; 1]);
     (LLDP_SNMP_DOT1_PPVLAN_SUPPORTED, ASN_INTEGER, agent_h_local_ppvid_, [1; 5; 32962; 1; 2; 2; 1; 2]);
     (LLDP_SNMP_DOT1_PPVLAN_ENABLED, ASN_INTEGER, agent_h_local_ppvid_, [1; 5; 32962; 1; 2; 2; 1; 3]);
     (LLDP_SNMP_DOT1_VLANNAME, ASN_OCTET_STR, agent_h_local_vlan_, [1; 5; 32962; 1; 2; 3; 1; 2]);
     (LLDP_SNMP_DOT1_PI, ASN_OCTET_STR, agent_h_local_pi_, [1; 5; 32962; 1; 2; 4; 1; 2]);
     (LLDP_SNMP_DOT1_PVID, ASN_INTEGER, agent_h_remote_port_, [1; 5; 32962; 1; 3; 1; 1; 1]);
     (LLDP_SNMP_DOT1_PPVLAN_SUPPORTED, ASN_INTEGER, agent_h_remote_ppvid_, [1; 5; 32962; 1; 3; 2; 1; 2]);
     (LLDP_SNMP_DOT1_PPVLAN_ENABLED, ASN_INTEGER, agent_h_remote_ppvid_, [1; 5; 32962; 1; 3; 2; 1; 3]);
     (LLDP_SNMP_DOT1_VLANNAME, ASN_OCTET_STR, agent_h_remote_vlan_, [1; 5; 32962; 1; 3; 3; 1; 2]);
     (LLDP_SNMP_DOT1_PI, ASN_OCTET_STR, agent_h_remote_pi_, [1; 5; 32962; 1; 3; 4; 1; 2])].
Definition agent_lldp_vars : list entry :=
  agent_lldp_vars_core ++ agent_lldp_vars_dot3 ++ agent_lldp_vars_med ++ agent_lldp_vars_dot1.

Definition LLDP_OID : oid := [1; 0; 8802; 1; 1; 2].
Definition SNMPTRAP_OID : oid := [1; 3; 6; 1; 6; 3; 1; 1; 4; 1; 0].

(** The variable of an entry, as [REGISTER_MIB] registers it. *)
Definition entry_var (entry : Z * asn_type * handler * oid) : variable :=
  let '(magic, _, _, name) := entry in {| magic := magic; vp_name := LLDP_OID ++ name |}.

(** ** Notifications *)

Section Notify.
Variable starttime : Z.
Variable scfg : lldpd.

Record varbind := { vb_name : oid; vb_type : asn_type; vb_value : snmp_value }.

(** The variables of the notification, [None] inside when nothing is sent; a port whose
    chassis is not there is a fault, whatever [g_snmp] says. *)
Definition agent_notify (g_snmp : bool) (hardware : lldpd_hardware) (type : neighbor_change)
    (rport : lldpd_port) : option (option (list varbind)) :=
  c ← p_chassis rport ≫= (g_heap scfg !!.);
  let gauge name f :=
    {| vb_name := LLDP_OID ++ name; vb_type := ASN_GAUGE; vb_value := VLong (sum_hardware scfg f) |} in
  let octets name s := {| vb_name := LLDP_OID ++ name; vb_type := ASN_OCTET_STR; vb_value := VOctets s |} in
  let index := tpr_index starttime hardware rport c in
  if negb g_snmp then Some None
  else Some (Some
    ([{| vb_name := SNMPTRAP_OID; vb_type := ASN_OBJECT_ID; vb_value := VOid (LLDP_OID ++ [0; 0; 1]) |};
      gauge [1; 2; 2] h_insert_cnt; gauge [1; 2; 3] h_delete_cnt;
      gauge [1; 2; 4] h_drop_cnt; gauge [1; 2; 5] h_ageout_cnt] ++
     match type with
     | NEIGHBOR_CHANGE_DELETED => []
     | _ =>
         [octets ([1; 3; 7; 1; 4] ++ [u64 (h_ifindex hardware)])
            (take (Z.to_nat IFNAMSIZ) (cstr (h_ifname hardware)))] ++
         match nonempty_ret (c_name c) with
         | Some _ => [octets ([1; 4; 1; 1; 9] ++ index) (cstr (default [] (c_name c)))]
         | None => []
         end ++
         match p_descr rport with
         | Some s => [octets ([1; 4; 1; 1; 8] ++ index) (cstr s)]
         | None => []
         end
     end)).
End Notify.
