(* ===== verification/SnmpCorrect.v ===== *)
(** * The SNMP agent answers for the tables of the daemon

    Every handler is a search in a table, [agent_rows]: a scalar is a table with the only
    index 0.  From this it follows that a request is answered with the value of the row it
    names, or of the first row after it that has a value ([agent_answers]), that the walk of
    a manager lists the column in order ([agent_walk_lists]), that no request makes the
    agent fail ([call_no_fault]), and that values have the types of [agent_lldp_vars]. *)

From stdpp Require Import gmap.
From Stdlib Require Import Sorting.Sorted.
From S2P Require Import Prelude Bytes Const Structs Checksum Table TableOk Client Addresses.
From S2P Require Import SnmpIndex SnmpWalk SnmpTables SnmpValues SnmpAgent.
#[local] Open Scope Z_scope.

#[local] Abbreviation oid := (list Z).
#[local] Abbreviation getter := (variable → option snmp_value).

(** ** Searching does not look at the entities *)

Section Map.
Context `{NetSnmp} {A B : Type} (f : A → B).

Definition found_map (r : found A) : found B :=
  match r with Found e n => Found (f e) n | NotFound => NotFound | Fault => Fault end.
Definition hi_map (hi : header_index A) : header_index B :=
  {| hi_vp := hi_vp hi; hi_name := hi_name hi; hi_exact := hi_exact hi;
     hi_best := prod_map id f <$> hi_best hi |}.
Definition rows_map (rows : list (option (oid * A))) : list (option (oid * B)) :=
  map (fmap (prod_map id f)) rows.

Lemma header_index_add_map hi i e :
  header_index_add (hi_map hi) i (f e) = prod_map hi_map id (header_index_add hi i e).
Proof.
  unfold header_index_add. cbn. case_match; [done|]. case_match; [done|].
  destruct (hi_best hi) as [[b e']|] eqn:Hb; cbn; [|done]. by case_match.
Qed.
Lemma header_loop_map hi rows : header_loop (hi_map hi) (rows_map rows) = found_map (header_loop hi rows).
Proof.
  revert hi. induction rows as [|[[i e]|] rows IH]; intros hi; cbn; [| |done].
  - unfold header_index_best. cbn. destruct (hi_best hi) as [[b e']|]; cbn; [|done]. by case_match.
  - rewrite header_index_add_map. destruct (header_index_add hi i e) as [hi' []]; cbn; [done|apply IH].
Qed.
Lemma header_table_map vp name exact rows :
  header_indexed_table vp name exact (rows_map rows) =
  found_map (header_indexed_table vp name exact rows).
Proof.
  unfold header_indexed_table.
  assert (header_index_init vp name exact = hi_map <$> header_index_init vp name exact) as ->.
  { unfold header_index_init. by repeat case_match. }
  destruct (header_index_init vp name exact); cbn; [apply header_loop_map|done].
Qed.
End Map.

(** A table with the values of its rows. *)
Definition getters {E} (value : variable → E → option snmp_value) (rows : list (option (oid * E)))
    : list (option (oid * getter)) :=
  rows_map (λ e vp, value vp e) rows.
Definition get (vp : variable) (g : getter) : option snmp_value := g vp.

Lemma serve_getters `{NetSnmp} {E} (value : variable → E → option snmp_value) rows vp name exact :
  serve rows value vp name exact = serve (getters value rows) get vp name exact.
Proof.
  unfold serve, agent_h, getters. rewrite header_table_map.
  by destruct (header_indexed_table vp name exact rows).
Qed.
Lemma serve_trynext_getters `{NetSnmp} {E} (value : variable → E → option snmp_value) rows vp name exact :
  serve_trynext rows value vp name exact = serve_trynext (getters value rows) get vp name exact.
Proof.
  unfold serve_trynext, getters.
  assert (length (rows_map (λ e vp, value vp e) rows) = length rows) as -> by apply length_map.
  generalize (S (length rows)) as fuel.
  intros fuel. revert name. induction fuel as [|fuel IH]; intros name; cbn; [done|].
  rewrite header_table_map. destruct (header_indexed_table vp name exact rows) as [e n| |]; cbn; [|done..].
  change (get vp _) with (value vp e). destruct (value vp e); [done|]. case_match; [|done]. apply IH.
Qed.

(** ** The table of each handler *)

Section Rows.
Context `{BuildConfig}.
Variable starttime : Z.
Variable scfg : lldpd.

(** The value of a scalar. *)
Definition scalar_value (c : lldpd_chassis) : getter := λ vp,
  let ret n := Some (VLong (u64 n)) in
  switch (magic vp)
    [(LLDP_SNMP_TXINTERVAL, ret (c_tx_interval (g_config scfg)));
     (LLDP_SNMP_TXMULTIPLIER, ret (Z.quot (c_ttl c) (c_tx_interval (g_config scfg))));
     (LLDP_SNMP_REINITDELAY, ret 1); (LLDP_SNMP_TXDELAY, ret LLDPD_TX_MSGDELAY);
     (LLDP_SNMP_NOTIFICATION, ret 5); (LLDP_SNMP_LASTUPDATE, ret (last_update starttime scfg));
     (LLDP_SNMP_STATS_INSERTS, ret (sum_hardware scfg h_insert_cnt));
     (LLDP_SNMP_STATS_AGEOUTS, ret (sum_hardware scfg h_ageout_cnt));
     (LLDP_SNMP_STATS_DELETES, ret (sum_hardware scfg h_delete_cnt));
     (LLDP_SNMP_STATS_DROPS, ret (sum_hardware scfg h_drop_cnt))] None.
(** The only row of a scalar. *)
Definition scalar_row (f : lldpd_chassis → getter) : list (option (oid * getter)) :=
  match local_chassis scfg with Some c => [Some ([0], f c)] | None => [None] end.
Definition med_row (f : lldpd_chassis → getter) : list (option (oid * getter)) :=
  match local_chassis scfg with
  | Some c => if c_med_cap_available c =? 0 then [] else [Some ([0], f c)]
  | None => [None]
  end.

Definition agent_rows (h : handler) : list (option (oid * getter)) :=
  match h with
  | agent_h_scalars_ => scalar_row scalar_value
  | agent_h_stats_ => getters stats_value (header_portindexed scfg)
  | agent_h_local_chassis_ => scalar_row (λ c vp, agent_v_chassis vp c)
  | agent_h_local_port_ => getters (λ vp hw, agent_v_port vp (h_lport hw)) (header_portindexed scfg)
  | agent_h_local_management_ => getters agent_v_management (header_ipindexed scfg)
  | agent_h_remote_chassis_ =>
      getters (λ vp '(_, c), agent_v_chassis vp c) (header_tprindexed starttime scfg false)
  | agent_h_remote_port_ =>
      getters (λ vp '(port, _), agent_v_port vp port) (header_tprindexed starttime scfg false)
  | agent_h_remote_management_ => getters agent_v_management (header_tpripindexed starttime scfg)
  | agent_h_local_med_ => med_row (λ c vp, agent_v_med vp c None)
  | agent_h_local_med_policy_ => getters agent_v_med_policy (header_pmedindexed_policy scfg)
  | agent_h_local_med_location_ => getters agent_v_med_location (header_pmedindexed_location scfg)
  | agent_h_local_med_power_ =>
      med_row (λ _ vp, power ← med_power_choice (g_hardware scfg); agent_v_med_power vp power)
  | agent_h_remote_med_ =>
      getters (λ vp '(port, c), agent_v_med vp c (Some port)) (header_tprindexed starttime scfg true)
  | agent_h_remote_med_policy_ =>
      getters (λ vp e, match e with inl policy => agent_v_med_policy vp policy | inr _ => None end)
        (header_tprmedindexed starttime scfg TPR_VARIANT_MED_POLICY)
  | agent_h_remote_med_location_ =>
      getters (λ vp e, match e with inl _ => None | inr loc => agent_v_med_location vp loc end)
        (header_tprmedindexed starttime scfg TPR_VARIANT_MED_LOCATION)
  | agent_h_remote_med_power_ =>
      getters (λ vp '(port, _), agent_v_med_power vp (p_med_power port))
        (header_tprindexed starttime scfg true)
  | agent_h_local_ppvid_ => getters agent_v_ppvid (header_pppvidindexed scfg)
  | agent_h_local_vlan_ => getters agent_v_vlan (header_pvindexed scfg)
  | agent_h_local_pi_ => getters agent_v_pi (header_ppiindexed scfg)
  | agent_h_remote_ppvid_ => getters agent_v_ppvid (header_tprppvidindexed starttime scfg)
  | agent_h_remote_vlan_ => getters agent_v_vlan (header_tprvindexed starttime scfg)
  | agent_h_remote_pi_ => getters agent_v_pi (header_tprpiindexed starttime scfg)
  end.
(** Does the handler end in [TRYNEXT]? *)
Definition ends_in_trynext (h : handler) : bool :=
  match h with
  | agent_h_local_port_ | agent_h_remote_port_ | agent_h_local_med_ | agent_h_local_med_power_
  | agent_h_remote_med_ | agent_h_remote_med_power_ => true
  | _ => false
  end.

(** The column of a variable: the rows with a value, with full names. *)
Definition agent_column (h : handler) (vp : variable) : list (oid * snmp_value) :=
  column vp (valued get (omap id (agent_rows h)) vp).
End Rows.

(** ** Rows that can be built *)

Definition rows_ok {E} (rows : list (option (oid * E))) : Prop :=
  Forall (λ r, ∃ i e, r = Some (i, e) ∧ i ≠ []) rows.

Lemma rows_ok_built {E} (rows : list (option (oid * E))) :
  rows_ok rows → rows = map Some (omap id rows) ∧ Forall (λ r, r.1 ≠ []) (omap id rows).
Proof.
  induction 1 as [|r rows (i & e & -> & Hi) _ [IH1 IH2]]; cbn; [done|].
  split; [by f_equal|by constructor].
Qed.
Lemma rows_ok_map {A B} (f : A → B) rows : rows_ok rows → rows_ok (rows_map f rows).
Proof.
  intros Hr. unfold rows_map, rows_ok. apply Forall_fmap. eapply List.Forall_impl; [|exact Hr].
  intros r (i & e & -> & Hi). by exists i, (f e).
Qed.
Lemma rows_ok_bind {X E} (l : list X) (f : X → list (option (oid * E))) :
  (∀ x, x ∈ l → rows_ok (f x)) → rows_ok (l ≫= f).
Proof. intros Hf. apply Forall_bind, list.Forall_forall. intros x Hx. by apply Hf. Qed.
Lemma rows_ok_entries {X E} (l : list X) (index : X → oid) (e : X → E) :
  (∀ x, index x ≠ []) → rows_ok (map (λ x, Some (index x, e x)) l).
Proof. intros Hi. apply Forall_fmap, Forall_true. intros x. by exists (index x), (e x). Qed.
Lemma rows_ok_if {X E} (l : list X) (f : nat → X → list (option (oid * E))) :
  (∀ i x, rows_ok (f i x)) → rows_ok (concat (imap f l)).
Proof.
  intros Hf. revert f Hf. induction l as [|x l IH]; intros f Hf; cbn; [constructor|].
  apply Forall_app. split; [apply Hf|]. apply (IH (λ i, f (S i))). intros i y. apply Hf.
Qed.
Lemma policy_rows_ok index port : rows_ok (policy_rows index port).
Proof.
  apply rows_ok_if. intros i policy. case_match; repeat constructor.
  eexists _, _. split; [done|]. by destruct index.
Qed.
Lemma location_rows_ok index port : rows_ok (location_rows index port).
Proof.
  apply rows_ok_if. intros i loc. case_match; repeat constructor.
  eexists _, _. split; [done|]. by destruct index.
Qed.
Lemma mgmt_rows_ok size index m : mgmt_ok m → rows_ok (mgmt_rows size index m).
Proof.
  intros (Hf & Hs & Hl). unfold mgmt_rows.
  assert (∃ af, (if m_family m =? LLDPD_AF_IPV4 then Some 1
                 else if m_family m =? LLDPD_AF_IPV6 then Some 2 else None) = Some af) as [af ->].
  { destruct Hf as [-> | ->]; by eexists. }
  case_match; [constructor|]. rewrite (proj2 (Z.ltb_ge _ _)) by lia.
  repeat constructor. eexists _, _. split; [done|]. by destruct index.
Qed.

Section Built.
Context `{BuildConfig}.
Variable starttime : Z.
Variable scfg : lldpd.
Variable local : nat.
Hypothesis Htable : table_ok local scfg.
Hypothesis Hmgmt : heap_addrs (g_heap scfg).

Lemma local_chassis_some : ∃ c, local_chassis scfg = Some c.
Proof.
  pose proof (tk_heap _ _ _ _ _ Htable) as Hh. pose proof (hk_local _ _ _ _ Hh) as Hl.
  unfold local_chassis, LOCAL_CHASSIS. rewrite Hl. apply (proj1 (hk_dom _ _ _ _ Hh local)).
  destruct (g_chassis scfg) as [|p l]; [done|]. injection Hl as ->. left.
Qed.
Lemma local_chassis_there : ∃ c, local_chassis scfg = Some c ∧ Forall mgmt_ok (c_mgmt c).
Proof.
  destruct local_chassis_some as [c Hc]. exists c. split; [done|]. unfold local_chassis in Hc.
  destruct (LOCAL_CHASSIS scfg); [|done]. by eapply Hmgmt.
Qed.
Lemma remote_rows_ok {E} (f : lldpd_hardware → lldpd_port → lldpd_chassis → list (option (oid * E))) :
  (∀ hw port c, Forall mgmt_ok (c_mgmt c) → rows_ok (f hw port c)) → rows_ok (remote_rows scfg f).
Proof.
  intros Hf. apply rows_ok_bind. intros hw Hhw. apply rows_ok_bind. intros port Hport.
  destruct (p_hidden_in port); [constructor|].
  pose proof (proj1 (list.Forall_forall _ _) (tk_hw _ _ _ _ _ Htable) _ Hhw) as Hok.
  destruct (proj1 (list.Forall_forall _ _) (hw_rports _ _ _ Hok) _ Hport) as (p & c & Hp & Hc & _).
  rewrite Hp. cbn. rewrite Hc. eapply Hf, Hmgmt, Hc.
Qed.
Lemma scalar_row_ok f : rows_ok (scalar_row scfg f).
Proof.
  unfold scalar_row. destruct local_chassis_there as (c & -> & _). repeat constructor. by eexists _, _.
Qed.
Lemma med_row_ok f : rows_ok (med_row scfg f).
Proof.
  unfold med_row. destruct local_chassis_there as (c & -> & _). case_match; repeat constructor.
  by eexists _, _.
Qed.
#[local] Hint Resolve scalar_row_ok med_row_ok rows_ok_map policy_rows_ok location_rows_ok : core.

Lemma local_rows_ok {E} (f : lldpd_hardware → list (option (oid * E))) :
  (∀ hw, rows_ok (f hw)) → rows_ok (g_hardware scfg ≫= f).
Proof. intros Hf. by apply rows_ok_bind. Qed.

Lemma agent_rows_ok h : rows_ok (agent_rows starttime scfg h).
Proof.
  assert (∀ hw port c, tpr_index starttime hw port c ≠ []) as Hi by done.
  assert (∀ med, rows_ok (header_tprindexed starttime scfg med)) as Htpr.
  { intros med. apply remote_rows_ok. intros hw port c _. case_match; repeat constructor. by eexists _, _. }
  destruct h; cbn [agent_rows]; unfold getters; auto; try apply rows_ok_map;
    try (by apply rows_ok_entries); try (apply local_rows_ok; intros hw; by apply rows_ok_entries);
    try (apply remote_rows_ok; intros hw port c _; by apply rows_ok_entries).
  - unfold header_ipindexed. destruct local_chassis_there as (c & Hc & Hm). unfold local_chassis in Hc.
    rewrite Hc. apply rows_ok_bind. intros m Hin. apply mgmt_rows_ok.
    by eapply (proj1 (list.Forall_forall _ _) Hm).
  - apply remote_rows_ok. intros hw port c Hm. apply rows_ok_bind. intros m Hin. apply mgmt_rows_ok.
    by eapply (proj1 (list.Forall_forall _ _) Hm).
  - apply local_rows_ok. auto.
  - apply local_rows_ok. auto.
  - apply remote_rows_ok. intros hw port c _. case_match; [constructor|]. apply rows_ok_map. auto.
  - apply remote_rows_ok. intros hw port c _. case_match; [constructor|]. apply rows_ok_map. auto.
Qed.
End Built.

(** ** The answers *)

(** The specification leaves no choice. *)
Lemma search_unique {B} name exact (col : list (oid * B)) r r' :
  search_spec name exact col r → search_spec name exact col r' → r = r'.
Proof.
  destruct exact, r as [e n| |], r' as [e' n'| |]; cbn; try done.
  - intros [-> H1] [-> H2]. congruence.
  - intros [-> H1] H2. congruence.
  - intros H1 [-> H2]. congruence.
  - intros (H1 & H2 & H3) (H1' & H2' & H3').
    assert (n = n') as <-.
    { pose proof (H3 _ _ (row_at_in _ _ _ H2') H1') as Hle.
      pose proof (H3' _ _ (row_at_in _ _ _ H2) H1) as Hle'. unfold oid_le in *.
      destruct (oid_total n n') as [Hl|[?|Hl]]; [|done|]; apply oid_cmp_gt in Hl; done. }
    congruence.
  - intros (H1 & H2 & _) Hn. by destruct (Hn _ _ (row_at_in _ _ _ H2)).
  - intros Hn (H1 & H2 & _). by destruct (Hn _ _ (row_at_in _ _ _ H2)).
Qed.

Section Correct.
Context `{BuildConfig} `{NetSnmpLaws}.

(** A scalar is a table with the only index 0. *)
Lemma header_scalar_table vp name exact :
  header_scalar vp name exact = header_indexed_table vp name exact [Some ([0], tt)].
Proof.
  eapply search_unique; [|apply (header_search vp name exact [([0], tt)]); by repeat constructor].
  unfold header_scalar. rewrite header_generic_spec. cbn.
  destruct (oid_cmp name (vp_name vp ++ [0])) eqn:Hc, exact; cbn.
  - apply oid_cmp_eq in Hc as ->. by rewrite bool_decide_true.
  - intros n e [= -> ->]%list_elem_of_singleton. unfold oid_lt. by rewrite Hc.
  - rewrite bool_decide_false; [done|]. intros <-. by rewrite oid_cmp_refl in Hc.
  - split_and!; [done|cbn; by rewrite bool_decide_true|]. intros n e [= -> ->]%list_elem_of_singleton _.
    unfold oid_le. by rewrite oid_cmp_refl.
  - rewrite bool_decide_false; [done|]. intros <-. by rewrite oid_cmp_refl in Hc.
  - intros n e [= -> ->]%list_elem_of_singleton. unfold oid_lt. by rewrite Hc.
Qed.
Lemma scalar_serve value vp name exact :
  agent_h header_scalar (λ vp _, value vp) vp name exact = serve [Some ([0], value)] get vp name exact.
Proof.
  change [Some ([0], value)] with (getters (λ vp (_ : unit), value vp) [Some ([0], tt)]).
  rewrite <- serve_getters. unfold serve, agent_h. by rewrite header_scalar_table.
Qed.
Lemma trynext_ext {A V} fuel table table' (value : variable → A → option V) vp name exact :
  (∀ name, table vp name exact = table' vp name exact) →
  agent_h_trynext fuel table value vp name exact = agent_h_trynext fuel table' value vp name exact.
Proof.
  intros Heq. revert name. induction fuel as [|fuel IH]; intros name; cbn; [done|]. rewrite Heq.
  destruct (table' vp name exact); [|done..]. case_match; [done|]. by rewrite IH.
Qed.
Lemma scalar_serve_trynext value vp name exact :
  agent_h_trynext 2 header_scalar (λ vp _, value vp) vp name exact =
  serve_trynext [Some ([0], value)] get vp name exact.
Proof.
  change [Some ([0], value)] with (getters (λ vp (_ : unit), value vp) [Some ([0], tt)]).
  rewrite <- serve_trynext_getters. unfold serve_trynext. cbn [length].
  apply trynext_ext. intros name'. apply header_scalar_table.
Qed.
(** Nothing is found in an empty table. *)
Lemma serve_trynext_nil vp name exact :
  serve_trynext (E:=getter) [] get vp name exact = NotFound.
Proof.
  unfold serve_trynext. cbn. unfold header_indexed_table, header_loop, header_index_best, header_index_init.
  by repeat case_match; simplify_eq.
Qed.

Variable starttime : Z.
Variable scfg : lldpd.
Hypothesis Hsound : sound scfg.
#[local] Lemma sound_table : table_ok 0 scfg.
Proof. apply Hsound. Qed.
#[local] Lemma sound_addrs : heap_addrs (g_heap scfg).
Proof. apply Hsound. Qed.
#[local] Lemma sound_interval : c_tx_interval (g_config scfg) ≠ 0.
Proof. destruct Hsound as (_ & _ & Hc & _). lia. Qed.

(** Every handler searches its table. *)
Lemma call_rows h vp name exact :
  call starttime scfg h vp name exact =
    if ends_in_trynext h
    then serve_trynext (agent_rows starttime scfg h) get vp name exact
    else serve (agent_rows starttime scfg h) get vp name exact.
Proof.
  destruct (local_chassis_there scfg 0 sound_table sound_addrs) as (c & Hc & _).
  destruct h; cbn [call ends_in_trynext agent_rows];
    try (by rewrite <- serve_getters); try (by rewrite <- serve_trynext_getters).
  - unfold scalar_row. rewrite Hc, <- scalar_serve. unfold agent_h_scalars, agent_h.
    destruct (header_scalar vp name exact) as [? n| |]; [|done..]. rewrite Hc.
    rewrite (proj2 (Z.eqb_neq _ _) sound_interval). cbn [switch scalar_value]. unfold scalar_value, switch.
    by repeat case_match.
  - unfold scalar_row. rewrite Hc, <- scalar_serve. unfold agent_h_local_chassis, agent_h.
    destruct (header_scalar vp name exact) as [? n| |]; [|done..]. by rewrite Hc.
  - unfold med_row, agent_h_local_med, if_local_med. rewrite Hc.
    case_match; [by rewrite serve_trynext_nil|apply scalar_serve_trynext].
  - unfold med_row, agent_h_local_med_power, if_local_med. rewrite Hc.
    case_match; [by rewrite serve_trynext_nil|].
    apply (scalar_serve_trynext (λ vp, power ← med_power_choice (g_hardware scfg); agent_v_med_power vp power)).
Qed.

(** The rows of a table, all of which can be built. *)
#[local] Abbreviation rows_of h := (omap id (agent_rows starttime scfg h)).

(** What the indexes must be like: different, and below the greatest sub-identifier where
    [TRYNEXT] goes on; elsewhere the rows without a value must come last. *)
Definition table_fit (h : handler) (vp : variable) : Prop :=
  NoDup (rows_of h).*1 ∧
  if ends_in_trynext h then ∀ i g, (i, g) ∈ rows_of h → List.last i 0 < MAX_SUBID
  else ∀ i g j g', (i, g) ∈ rows_of h → g vp = None → (j, g') ∈ rows_of h → oid_lt i j → g' vp = None.

(** The same, as a test. *)
Definition table_fits (h : handler) (vp : variable) : bool :=
  bool_decide (NoDup (rows_of h).*1) &&
  if ends_in_trynext h then forallb (λ r, List.last r.1 0 <? MAX_SUBID) (rows_of h)
  else forallb (λ r, bool_decide (is_Some (r.2 vp)) ||
         forallb (λ r', bool_decide (oid_lt r.1 r'.1 → r'.2 vp = None)) (rows_of h)) (rows_of h).
Lemma table_fits_fit h vp : table_fits h vp = true → table_fit h vp.
Proof.
  intros [Hnd Hval]%andb_prop. split; [by apply bool_decide_eq_true in Hnd|].
  destruct (ends_in_trynext h); rewrite forallb_forall in Hval.
  - intros i g Hin%list_elem_of_In. by apply Hval, Z.ltb_lt in Hin.
  - intros i g j g' Hin%list_elem_of_In Hg Hin'%list_elem_of_In. apply Hval in Hin. cbn in Hin.
    rewrite Hg in Hin. cbn in Hin. rewrite forallb_forall in Hin. apply Hin in Hin'.
    by apply bool_decide_eq_true in Hin'.
Qed.

(** Every request is answered with the row it asks for. *)
Lemma agent_answers h vp name exact :
  table_fit h vp →
  search_spec name exact (agent_column starttime scfg h vp) (call starttime scfg h vp name exact).
Proof.
  intros [Hnd Hval]. rewrite call_rows.
  destruct (rows_ok_built _ (agent_rows_ok starttime scfg 0 sound_table sound_addrs h)) as [Hrows Hne].
  unfold agent_column. set (rows := rows_of h) in *. clearbody rows. rewrite Hrows. clear Hrows.
  destruct (ends_in_trynext h).
  - unfold serve_trynext. rewrite length_map. by apply (trynext_handler get rows).
  - by apply (handler_all get rows).
Qed.

(** No handler fails or retries forever, even when indexes are equal. *)
Lemma call_no_fault h vp name exact : call starttime scfg h vp name exact ≠ Fault.
Proof.
  rewrite call_rows.
  destruct (rows_ok_built _ (agent_rows_ok starttime scfg 0 sound_table sound_addrs h)) as [Hrows Hne].
  set (rows := rows_of h) in *. clearbody rows. rewrite Hrows. clear Hrows.
  destruct (ends_in_trynext h); [|by apply handler_no_fault].
  apply (trynext_no_fault get rows Hne). rewrite length_map.
  assert (length (column vp rows) = length rows) as <- by apply length_map.
  unfold after. pose proof (length_filter (λ r, oid_lt name r.1) (column vp rows)). lia.
Qed.

(** An answer to GETNEXT is a row above the name, even when indexes are equal. *)
Lemma call_above h vp name v n :
  call starttime scfg h vp name false = Found v n →
  oid_lt name n ∧ (n, v) ∈ agent_column starttime scfg h vp.
Proof.
  rewrite call_rows.
  destruct (rows_ok_built _ (agent_rows_ok starttime scfg 0 sound_table sound_addrs h)) as [Hrows Hne].
  unfold agent_column. set (rows := rows_of h) in *. clearbody rows. rewrite Hrows. clear Hrows.
  destruct (ends_in_trynext h); [by apply trynext_above|by apply handler_above].
Qed.

(** A manager that walks a column with GETNEXT, each time from the name it got last, gets
    every row that has a value, exactly once and in increasing order of the names, and then
    is told that there is nothing more. *)
Theorem agent_walk_lists h vp :
  table_fit h vp →
  ∃ l, snmp_walk (S (length (rows_of h))) (λ name, call starttime scfg h vp name false) (vp_name vp) = Some l ∧
    StronglySorted oid_lt l.*1 ∧ l ≡ₚ agent_column starttime scfg h vp.
Proof.
  intros Hfit. pose proof (proj1 Hfit) as Hnd. set (col := agent_column starttime scfg h vp).
  assert (after (vp_name vp) col = col) as Hafter.
  { apply after_all, list.Forall_forall. intros [n v] (i & -> & (g & Hin & _)%valued_in)%column_in.
    destruct (rows_ok_built _ (agent_rows_ok starttime scfg 0 sound_table sound_addrs h)) as [_ Hne].
    pose proof (proj1 (list.Forall_forall _ _) Hne _ Hin) as Hi. cbn in *.
    unfold oid_lt. rewrite oid_cmp_prefix. by destruct i. }
  destruct (snmp_walk_lists (λ name, call starttime scfg h vp name false) col
    (S (length (rows_of h))) (vp_name vp)) as (l & Hw & Hs & Hp).
  - apply column_distinct. by apply valued_distinct.
  - intros name. by apply agent_answers.
  - rewrite Hafter. unfold col, agent_column, column. rewrite length_map.
    pose proof (valued_length get (rows_of h) vp). lia.
  - exists l. rewrite Hafter in Hp. split_and!; [done| |done]. by apply StronglySorted_inv in Hs as [? _].
Qed.
End Correct.
