(* ===== verification/SnmpMib.v ===== *)
(** * The SNMP agent as a whole (src/daemon/agent.c)

    The variables of [agent_lldp_vars] are ordered and their columns do not overlap, so that
    asking one variable after the other finds the next instance of the whole MIB.  Values
    have the type their variable declares, and notifications name what GET answers. *)

From stdpp Require Import gmap relations.
From Stdlib Require Import Sorting.Sorted.
From S2P Require Import Prelude Bytes Const Structs Checksum Table TableOk TableSteps Protocols Client Daemon Addresses.
From S2P Require Import SnmpIndex SnmpWalk SnmpTables SnmpValues SnmpAgent SnmpCorrect.
#[local] Open Scope Z_scope.

#[local] Abbreviation oid := (list Z).

(** ** Types *)

Definition has_type (type : asn_type) (v : snmp_value) : Prop :=
  match type, v with
  | ASN_OCTET_STR, VOctets _ | ASN_OBJECT_ID, VOid _ => True
  | (ASN_INTEGER | ASN_COUNTER | ASN_GAUGE | ASN_TIMETICKS), VLong n => 0 ≤ n < 2 ^ 64
  | _, _ => False
  end.
Definition option_typed (type : asn_type) (v : option snmp_value) : Prop :=
  match v with Some v => has_type type v | None => True end.

Lemma u64_range v : 0 ≤ u64 v < 2 ^ 64.
Proof. apply Z.mod_pos_bound. lia. Qed.
Lemma long_typed type n :
  type ≠ ASN_OCTET_STR → type ≠ ASN_OBJECT_ID → option_typed type (long_ret n).
Proof. pose proof (u64_range n). by destruct type. Qed.
Lemma str_typed s : option_typed ASN_OCTET_STR (str_ret s).
Proof. by destruct s. Qed.
Lemma buf_typed s : option_typed ASN_OCTET_STR (buf_ret s).
Proof. by destruct s. Qed.
Lemma nonempty_typed s : option_typed ASN_OCTET_STR (nonempty_ret s).
Proof. destruct s as [[|b s]|]; cbn; [done| |done]. by case_match. Qed.
Lemma bit_typed n : option_typed ASN_OCTET_STR (bit_ret n).
Proof. done. Qed.
Lemma if_typed type (b : bool) x y :
  option_typed type x → option_typed type y → option_typed type (if b then x else y).
Proof. by destruct b. Qed.
Lemma none_typed type : option_typed type None.
Proof. done. Qed.
Lemma bind_typed {A} type (o : option A) k :
  (∀ x, option_typed type (k x)) → option_typed type (o ≫= k).
Proof. intros Hk. by destruct o; cbn. Qed.
Create HintDb snmp.
#[export] Hint Resolve bind_typed str_typed buf_typed nonempty_typed bit_typed if_typed none_typed : snmp.
#[export] Hint Extern 1 (option_typed _ (long_ret _)) => apply long_typed; discriminate : snmp.
#[export] Hint Extern 1 (option_typed _ (Some _)) => exact I : snmp.

Section Typed.
Context `{BuildConfig} `{NetSnmp}.
Variable type : asn_type.

Definition found_typed (r : found snmp_value) : Prop :=
  match r with Found v _ => has_type type v | _ => True end.

Lemma agent_h_typed {A} table (value : variable → A → option snmp_value) vp name exact :
  (∀ e, option_typed type (value vp e)) → found_typed (agent_h table value vp name exact).
Proof.
  intros Hv. unfold agent_h. destruct (table vp name exact) as [e n| |]; cbn; [|done..].
  specialize (Hv e). by destruct (value vp e).
Qed.
Lemma trynext_typed {A} fuel table (value : variable → A → option snmp_value) vp name exact :
  (∀ e, option_typed type (value vp e)) → found_typed (agent_h_trynext fuel table value vp name exact).
Proof.
  intros Hv. revert name. induction fuel as [|fuel IH]; intros name; cbn; [done|].
  destruct (table vp name exact) as [e n| |]; cbn; [|done..].
  specialize (Hv e). destruct (value vp e); [done|]. case_match; [apply IH|done].
Qed.
Lemma local_med_typed scfg k : (∀ c, found_typed (k c)) → found_typed (if_local_med scfg k).
Proof. intros Hk. unfold if_local_med. repeat case_match; cbn; auto. Qed.
End Typed.

Definition entry_type (entry : Z * asn_type * handler * oid) : asn_type := entry.1.1.2.
Definition entry_handler (entry : Z * asn_type * handler * oid) : handler := entry.1.2.

Ltac typed_value :=
  cbn -[u64 long_ret str_ret buf_ret nonempty_ret bit_ret]; auto with snmp.
Ltac typed_handler :=
  intros; cbn [call entry_type entry_handler entry_var fst snd];
  lazymatch goal with
  | |- found_typed _ (agent_h_scalars _ _ _ _ _) =>
      unfold agent_h_scalars; destruct (header_scalar _ _ _); [|done..];
      cbn -[u64]; repeat case_match; cbn; try done; apply u64_range
  | |- found_typed _ (agent_h_local_chassis _ _ _ _) =>
      unfold agent_h_local_chassis; destruct (header_scalar _ _ _); [|done..];
      destruct (local_chassis _) as [c|]; [|done];
      lazymatch goal with |- found_typed ?t (match ?v with _ => _ end) =>
        assert (option_typed t v) by typed_value; by destruct v end
  | |- _ => idtac
  end.

Section Entries.
Context `{BuildConfig} `{NetSnmp}.
Variable starttime : Z.
Variable scfg : lldpd.
Lemma entries_typed :
  Forall (λ entry, ∀ name exact,
    found_typed (entry_type entry) (call starttime scfg (entry_handler entry) (entry_var entry) name exact))
    agent_lldp_vars.
Proof.
  unfold agent_lldp_vars, agent_lldp_vars_core, agent_lldp_vars_dot3, agent_lldp_vars_med, agent_lldp_vars_dot1.
  cbn [app]. repeat (apply Forall_cons_2; [typed_handler|]).
  all: cbv delta [agent_h_local_med agent_h_local_med_power]; cbv beta; try (apply local_med_typed; intros).
  all: try (apply agent_h_typed || apply trynext_typed); intros; repeat case_match; typed_value.
Qed.

(** C17: whatever the state of the daemon, an answer has the type the variable declares in
    [agent_lldp_vars]: an unsigned long for the integers, gauges, counters and time ticks,
    a string for the octet strings, an identifier for the object identifiers.  (The code
    returns an untyped pointer; Net-SNMP reads it at the declared type.) *)
Theorem agent_answers_typed entry name exact v n :
  entry ∈ agent_lldp_vars →
  call starttime scfg (entry_handler entry) (entry_var entry) name exact = Found v n →
  has_type (entry_type entry) v.
Proof.
  intros Hin Hc. pose proof (proj1 (list.Forall_forall _ _) entries_typed _ Hin name exact) as Ht.
  by rewrite Hc in Ht.
Qed.
End Entries.

(** ** Order *)

(** [a] is below [b] and not the beginning of it. *)
Fixpoint before (a b : oid) : bool :=
  match a, b with
  | x :: a, y :: b => if x =? y then before a b else x <? y
  | _, _ => false
  end.
Lemma before_lt a b i j : before a b = true → oid_lt (a ++ i) (b ++ j).
Proof.
  unfold oid_lt. revert b. induction a as [|x a IH]; intros [|y b]; cbn; try done.
  destruct (Z.eqb_spec x y) as [->|Hne].
  - rewrite Z.compare_refl. apply IH.
  - intros Hl%Z.ltb_lt. by rewrite (proj2 (Z.compare_lt_iff x y) Hl).
Qed.
Lemma before_trans a b c : before a b = true → before b c = true → before a c = true.
Proof.
  revert b c. induction a as [|x a IH]; intros [|y b] [|z c]; cbn; try done.
  destruct (Z.eqb_spec x y), (Z.eqb_spec y z), (Z.eqb_spec x z); subst; try lia; try done; eauto.
Qed.
Lemma before_app p a b : before (p ++ a) (p ++ b) = before a b.
Proof. induction p as [|x p IH]; cbn; [done|]. by rewrite Z.eqb_refl. Qed.

Definition vars_before (e e' : Z * asn_type * handler * oid) : Prop :=
  before (vp_name (entry_var e)) (vp_name (entry_var e')) = true.
Lemma agent_lldp_vars_ordered : StronglySorted vars_before agent_lldp_vars.
Proof.
  apply Sorted_StronglySorted; [intros a b c; apply before_trans|].
  unfold agent_lldp_vars, agent_lldp_vars_core, agent_lldp_vars_dot3, agent_lldp_vars_med, agent_lldp_vars_dot1.
  cbn [app]. repeat constructor.
Qed.

(** ** The whole MIB *)

Section Mib.
Context `{BuildConfig} `{NetSnmpLaws}.
Variable starttime : Z.
Variable scfg : lldpd.

(** The variables are asked one after the other, as the master agent does. *)
Fixpoint agent_getnext (entries : list (Z * asn_type * handler * oid)) (name : oid) : found snmp_value :=
  match entries with
  | [] => NotFound
  | e :: entries =>
      match call starttime scfg (entry_handler e) (entry_var e) name false with
      | Fault => Fault
      | Found v n => Found v n
      | NotFound => agent_getnext entries name
      end
  end.
Definition entry_column (e : Z * asn_type * handler * oid) : list (oid * snmp_value) :=
  agent_column starttime scfg (entry_handler e) (entry_var e).
Definition agent_mib (entries : list (Z * asn_type * handler * oid)) : list (oid * snmp_value) :=
  entries ≫= entry_column.

Lemma entry_column_in e n v :
  (n, v) ∈ entry_column e → ∃ i, n = vp_name (entry_var e) ++ i.
Proof. intros (i & -> & _)%column_in. by exists i. Qed.
Lemma agent_mib_above e entries n v m w :
  Forall (vars_before e) entries → (n, v) ∈ entry_column e → (m, w) ∈ agent_mib entries → oid_lt n m.
Proof.
  intros Hb (i & ->)%entry_column_in. unfold agent_mib.
  intros (e' & (j & ->)%entry_column_in & He')%list_elem_of_bind.
  apply before_lt. by apply (proj1 (list.Forall_forall _ _) Hb).
Qed.
(** Two columns of which the first is below the second. *)
Lemma search_app {B} name (col col' : list (oid * B)) r r' :
  (∀ n e m e', (n, e) ∈ col → (m, e') ∈ col' → oid_lt n m) →
  search_spec name false col r → search_spec name false col' r' →
  search_spec name false (col ++ col') (match r with NotFound => r' | _ => r end).
Proof.
  intros Hb. destruct r as [e n| |]; cbn; [| |done].
  - intros (Ha & Hr & Hle) _. split_and!; [done|by rewrite row_at_app, Hr|].
    intros m e' [Hin|Hin]%elem_of_app Hm; [by eapply Hle|]. apply oid_le_lt_eq. left.
    eapply Hb; [|done]. by apply row_at_in.
  - intros Hno. destruct r' as [e n| |]; cbn; [| |done].
    + intros (Ha & Hr & Hle). split_and!; [done| |].
      * rewrite row_at_app. destruct (row_at n col) as [e'|] eqn:Hn; [|done].
        by apply row_at_in, Hno in Hn.
      * intros m e' [Hin|Hin]%elem_of_app Hm; [by destruct (Hno _ _ Hin)|by eapply Hle].
    + intros Hno' m e' [Hin|Hin]%elem_of_app; [by eapply Hno|by eapply Hno'].
Qed.

Lemma agent_getnext_search entries name :
  StronglySorted vars_before entries →
  Forall (λ e, ∀ name, search_spec name false (entry_column e)
    (call starttime scfg (entry_handler e) (entry_var e) name false)) entries →
  search_spec name false (agent_mib entries) (agent_getnext entries name).
Proof.
  induction 1 as [|e entries Hs IH Hb]; intros Hall; [by intros ? ? ?%not_elem_of_nil|].
  apply Forall_cons_iff in Hall as [He Hall]. specialize (IH Hall). cbn [agent_getnext].
  pose proof (search_app name _ _ _ _ (λ n v m w Hn Hm, agent_mib_above e entries n v m w Hb Hn Hm)
    (He name) IH) as Happ.
  by destruct (call starttime scfg (entry_handler e) (entry_var e) name false).
Qed.
Lemma agent_mib_distinct entries :
  StronglySorted vars_before entries → Forall (λ e, NoDup (entry_column e).*1) entries →
  NoDup (agent_mib entries).*1.
Proof.
  induction 1 as [|e entries Hs IH Hb]; intros Hall; [constructor|].
  apply Forall_cons_iff in Hall as [He Hall]. unfold agent_mib. cbn. rewrite fmap_app.
  apply list.NoDup_app. split_and!; [done| |by apply IH].
  intros n ([n1 v] & -> & Hn)%list_elem_of_fmap ([n2 w] & Heq & Hm)%list_elem_of_fmap. cbn in Heq. subst n2.
  apply (irreflexivity oid_lt n1). by eapply agent_mib_above.
Qed.

Lemma agent_getnext_above entries name v n :
  sound scfg → agent_getnext entries name = Found v n → oid_lt name n ∧ (n, v) ∈ agent_mib entries.
Proof.
  intros Hsound. unfold agent_mib. induction entries as [|e entries IH]; cbn [agent_getnext]; [done|].
  destruct (call starttime scfg (entry_handler e) (entry_var e) name false) as [w m| |] eqn:Hc; [| |done].
  - intros [= -> ->]. apply (call_above starttime scfg Hsound) in Hc as [Hlt Hin]. split; [done|].
    apply list_elem_of_bind. exists e. split; [done|left].
  - intros [Hlt Hin]%IH. split; [done|]. rewrite bind_cons. apply elem_of_app. by right.
Qed.
Lemma agent_getnext_no_fault entries name : sound scfg → agent_getnext entries name ≠ Fault.
Proof.
  intros Hsound. induction entries as [|e entries IH]; cbn [agent_getnext]; [done|].
  pose proof (call_no_fault starttime scfg Hsound (entry_handler e) (entry_var e) name false).
  by destruct (call starttime scfg (entry_handler e) (entry_var e) name false).
Qed.
Lemma agent_mib_after : after [] (agent_mib agent_lldp_vars) = agent_mib agent_lldp_vars.
Proof.
  apply after_all, list.Forall_forall. unfold agent_mib.
  intros [n v] (e & (i & ->)%entry_column_in & _)%list_elem_of_bind. by destruct e as [[[? ?] ?] ?].
Qed.

(** The indexes of the tables make the MIB a map that can be walked, see [table_fit]. *)
Definition mib_fit : Prop :=
  Forall (λ e, table_fit starttime scfg (entry_handler e) (entry_var e)) agent_lldp_vars.

(** C15: whatever the state of the daemon, asking the variables of [agent_lldp_vars] one after
    the other answers GETNEXT with an instance of the MIB above the identifier, or with nothing,
    and the walk of a manager from the root ends with a list of instances in strictly increasing
    order.  When moreover the indexes of the rows of each table are distinct (two neighbors of
    one chassis heard on one interface in the same second have the same one), their last
    sub-identifiers are below the greatest one where the handler goes on to the next row, and
    the rows without a value come last where it does not (a neighbor without a system name hides
    those after it), the answer is the least instance above the identifier, with its value, and
    the walk lists every instance of every variable exactly once. *)
Theorem agent_mib_walk :
  sound scfg →
  (∀ name v n, agent_getnext agent_lldp_vars name = Found v n →
     oid_lt name n ∧ (n, v) ∈ agent_mib agent_lldp_vars) ∧
  (mib_fit → ∀ name, search_spec name false (agent_mib agent_lldp_vars) (agent_getnext agent_lldp_vars name)) ∧
  ∃ l, snmp_walk (S (length (agent_mib agent_lldp_vars))) (agent_getnext agent_lldp_vars) [] = Some l ∧
    StronglySorted oid_lt l.*1 ∧ l ⊆ agent_mib agent_lldp_vars ∧
    (mib_fit → l ≡ₚ agent_mib agent_lldp_vars).
Proof.
  intros Hsound. pose proof agent_mib_after as Hafter.
  assert (mib_fit → ∀ name, search_spec name false (agent_mib agent_lldp_vars) (agent_getnext agent_lldp_vars name))
    as Hnext.
  { intros Hfit name. apply agent_getnext_search; [apply agent_lldp_vars_ordered|].
    eapply List.Forall_impl; [|exact Hfit]. intros e He name'. by eapply agent_answers. }
  split; [intros name v n; by apply agent_getnext_above|]. split; [done|].
  destruct (snmp_walk_above (agent_getnext agent_lldp_vars) (agent_mib agent_lldp_vars)
    (S (length (agent_mib agent_lldp_vars))) []) as (l & Hw & Hs & Hp).
  - intros name. by apply agent_getnext_no_fault.
  - intros name v n. by apply agent_getnext_above.
  - rewrite Hafter. lia.
  - exists l. split_and!; [done|by apply StronglySorted_inv in Hs as [? _]|done|]. intros Hfit.
    destruct (snmp_walk_lists (agent_getnext agent_lldp_vars) (agent_mib agent_lldp_vars)
      (S (length (agent_mib agent_lldp_vars))) []) as (l' & Hw' & _ & Hp'); [|by apply Hnext| |].
    + apply agent_mib_distinct; [apply agent_lldp_vars_ordered|].
      eapply List.Forall_impl; [|exact Hfit]. intros e [He _]. by apply column_distinct, valued_distinct.
    + rewrite Hafter. lia.
    + rewrite Hafter in Hp'. assert (l = l') as -> by congruence. done.
Qed.
End Mib.

(** ** Safety *)

(** C16: no SNMP request makes the daemon fail.  Whatever frames it received, whatever its
    clients sent and its interfaces did, then whatever the variable and the identifier, for
    GET and for GETNEXT, no handler reads a chassis that is gone, fails the assertion on the
    family of an address, reads beyond an address or its index, divides by zero, or retries
    forever. *)
Theorem agent_no_fault `{BuildConfig} `{NetSnmpLaws} config enabled_ lchassis cfg starttime h vp name exact :
  config_ok config → addrs_ok lchassis →
  rtc lldpd_step (daemon_init config (protos enabled_) lchassis) cfg →
  call starttime cfg h vp name exact ≠ Fault.
Proof. intros Hc Hl Hr. apply call_no_fault. by eapply reachable_sound. Qed.

(** ** Notifications *)

Section Notify.
Context `{BuildConfig}.
Variable starttime : Z.
Variable scfg : lldpd.

Lemma agent_mib_in k e i g v :
  agent_lldp_vars !! k = Some e → Some (i, g) ∈ agent_rows starttime scfg (entry_handler e) →
  g (entry_var e) = Some v →
  (vp_name (entry_var e) ++ i, v) ∈ agent_mib starttime scfg agent_lldp_vars.
Proof.
  intros Hk Hrow Hv. apply list_elem_of_bind. exists e. split; [|by eapply list_elem_of_lookup_2].
  apply column_in. exists i. split; [done|]. apply valued_in. exists g. split; [|done].
  apply list_elem_of_omap. by exists (Some (i, g)).
Qed.
Lemma sum_hardware_u64 f : u64 (sum_hardware scfg f) = sum_hardware scfg f.
Proof.
  unfold sum_hardware. assert (∀ l n, u64 n = n → u64 (foldl (λ n hw, u64 (n + f hw)) n l) =
    foldl (λ n hw, u64 (n + f hw)) n l) as Hu; [|by apply Hu].
  induction l as [|hw l IH]; intros n Hn; cbn; [done|]. apply IH. unfold u64. by rewrite Zmod_mod.
Qed.
Lemma getters_in {E} (value : variable → E → option snmp_value) rows i e :
  Some (i, e) ∈ rows → Some (i, λ vp, value vp e) ∈ getters value rows.
Proof. intros Hin. unfold getters, rows_map. apply list_elem_of_fmap. by exists (Some (i, e)). Qed.
Lemma remote_row_in hw port c :
  hw ∈ g_hardware scfg → port ∈ h_rports hw → p_hidden_in port = false →
  p_chassis port ≫= (g_heap scfg !!.) = Some c →
  Some (tpr_index starttime hw port c, (port, c)) ∈ header_tprindexed starttime scfg false.
Proof.
  intros Hhw Hport Hh Hc. unfold header_tprindexed, remote_rows.
  apply list_elem_of_bind. exists hw. split; [|done]. apply list_elem_of_bind. exists port. split; [|done].
  rewrite Hh, Hc. left.
Qed.
Lemma nonempty_ret_value s v : nonempty_ret s = Some v → v = VOctets (cstr (default [] s)).
Proof. destruct s as [[|b s]|]; cbn; [done| |done]. case_match; [done|]. by intros [= <-]. Qed.

(** A counter of the MIB. *)
Lemma gauge_in k f magic name c :
  agent_lldp_vars !! k = Some (magic, ASN_GAUGE, agent_h_scalars_, name) → local_chassis scfg = Some c →
  scalar_value starttime scfg c {| magic := magic; vp_name := LLDP_OID ++ name |} =
    Some (VLong (u64 (sum_hardware scfg f))) →
  ((LLDP_OID ++ name) ++ [0], VLong (sum_hardware scfg f)) ∈ agent_mib starttime scfg agent_lldp_vars.
Proof.
  intros Hk Hc Hv.
  apply (agent_mib_in k (magic, ASN_GAUGE, agent_h_scalars_, name) [0] (scalar_value starttime scfg c)); [done| |].
  - cbn. unfold scalar_row. rewrite Hc. left.
  - rewrite <- sum_hardware_u64. exact Hv.
Qed.
(** The name and the description of a neighbor. *)
Lemma neighbor_strings_in hw port c v :
  Some (tpr_index starttime hw port c, (port, c)) ∈ header_tprindexed starttime scfg false →
  (nonempty_ret (c_name c) = Some v →
   (LLDP_OID ++ [1; 4; 1; 1; 9] ++ tpr_index starttime hw port c, v) ∈ agent_mib starttime scfg agent_lldp_vars) ∧
  (nonempty_ret (p_descr port) = Some v →
   (LLDP_OID ++ [1; 4; 1; 1; 8] ++ tpr_index starttime hw port c, v) ∈ agent_mib starttime scfg agent_lldp_vars).
Proof.
  intros Hrow. split; intros Hv.
  - refine (agent_mib_in 35 _ _ _ _ eq_refl (getters_in _ _ _ _ Hrow) _). exact Hv.
  - refine (agent_mib_in 34 _ _ _ _ eq_refl (getters_in _ _ _ _ Hrow) _). exact Hv.
Qed.
Lemma nonempty_ret_none s : nonempty_ret (Some s) = None → cstr s = [].
Proof. destruct s as [|b s]; cbn; [done|]. by destruct (b =? 0). Qed.

(** The strings of a notification about a neighbor, and what the MIB has under their names. *)
Lemma notify_name_in hw rport c vb :
  Some (tpr_index starttime hw rport c, (rport, c)) ∈ header_tprindexed starttime scfg false →
  vb ∈ match nonempty_ret (c_name c) with
       | Some _ => [{| vb_name := LLDP_OID ++ [1; 4; 1; 1; 9] ++ tpr_index starttime hw rport c;
                       vb_type := ASN_OCTET_STR; vb_value := VOctets (cstr (default [] (c_name c))) |}]
       | None => []
       end →
  vb_type vb = ASN_OCTET_STR ∧ (vb_name vb, vb_value vb) ∈ agent_mib starttime scfg agent_lldp_vars.
Proof.
  intros Hrow. destruct (nonempty_ret (c_name c)) as [v|] eqn:Hn; [|by intros ?%not_elem_of_nil].
  intros ->%list_elem_of_singleton. split; [done|]. cbn [vb_name vb_value].
  rewrite <- (nonempty_ret_value _ _ Hn). by apply (neighbor_strings_in hw rport c v Hrow).
Qed.
Lemma notify_descr_in hw rport c s :
  Some (tpr_index starttime hw rport c, (rport, c)) ∈ header_tprindexed starttime scfg false →
  p_descr rport = Some s → cstr s ≠ [] →
  (LLDP_OID ++ [1; 4; 1; 1; 8] ++ tpr_index starttime hw rport c, VOctets (cstr s)) ∈
    agent_mib starttime scfg agent_lldp_vars.
Proof.
  intros Hrow Hd Hs. destruct (nonempty_ret (Some s)) as [v|] eqn:Hn; [|by apply nonempty_ret_none in Hn].
  assert (v = VOctets (cstr s)) as <- by exact (nonempty_ret_value _ _ Hn).
  apply (neighbor_strings_in hw rport c v Hrow). by rewrite Hd.
Qed.

(** C18: a notification about a visible neighbor carries the four counters, with the values of
    the counters of the MIB (under the names of the objects, without the .0 of their instances).
    Unless the neighbor is gone it also carries the name of the interface, and the system name
    and the port description of the neighbor when it has them; these are instances of the MIB,
    except for a port description that is set and empty, which is notified but is not in the
    MIB. *)
Theorem agent_notify_in_mib local hw type rport :
  table_ok local scfg → hw ∈ g_hardware scfg → rport ∈ h_rports hw → p_hidden_in rport = false →
  ∃ c vars, p_chassis rport ≫= (g_heap scfg !!.) = Some c ∧
    agent_notify starttime scfg true hw type rport = Some (Some vars) ∧
    let sysname := LLDP_OID ++ [1; 4; 1; 1; 9] ++ tpr_index starttime hw rport c in
    let portdescr := LLDP_OID ++ [1; 4; 1; 1; 8] ++ tpr_index starttime hw rport c in
    let locport := LLDP_OID ++ [1; 3; 7; 1; 4; u64 (h_ifindex hw)] in
    (∀ vb, vb ∈ vars →
      match vb_type vb with
      | ASN_GAUGE => (vb_name vb ++ [0], vb_value vb) ∈ agent_mib starttime scfg agent_lldp_vars
      | ASN_OCTET_STR =>
          vb_name vb = locport ∧ vb_value vb = VOctets (take 16 (cstr (h_ifname hw))) ∨
          (vb_name vb, vb_value vb) ∈ agent_mib starttime scfg agent_lldp_vars ∨
          vb_name vb = portdescr ∧ vb_value vb = VOctets [] ∧ cstr <$> p_descr rport = Some []
      | _ => vb_name vb = SNMPTRAP_OID ∧ vb_value vb = VOid (LLDP_OID ++ [0; 0; 1])
      end) ∧
    (∀ k, k ∈ [2; 3; 4; 5] → LLDP_OID ++ [1; 2; k] ∈ vb_name <$> vars) ∧
    (type ≠ NEIGHBOR_CHANGE_DELETED →
      locport ∈ vb_name <$> vars ∧
      (∀ s, c_name c = Some s → cstr s ≠ [] → sysname ∈ vb_name <$> vars) ∧
      (∀ s, p_descr rport = Some s → portdescr ∈ vb_name <$> vars)).
Proof.
  intros Htab Hhw Hport Hhid.
  pose proof (proj1 (list.Forall_forall _ _) (tk_hw _ _ _ _ _ Htab) _ Hhw) as Hok.
  destruct (proj1 (list.Forall_forall _ _) (hw_rports _ _ _ Hok) _ Hport) as (p & c & Hp & Hc & _).
  assert (p_chassis rport ≫= (g_heap scfg !!.) = Some c) as Hch by by rewrite Hp.
  pose proof (remote_row_in hw rport c Hhw Hport Hhid Hch) as Hrow.
  destruct (local_chassis_some scfg local Htab) as [c0 Hc0].
  exists c. unfold agent_notify. rewrite Hch. cbn [mbind option_bind negb]. eexists.
  split; [done|]. split; [reflexivity|]. split; [|split].
  - intros vb [Hvb|Hvb]%elem_of_app.
    + repeat (apply elem_of_cons in Hvb as [->|Hvb]); [done| | | | |by apply not_elem_of_nil in Hvb].
      * by apply (gauge_in 6 h_insert_cnt LLDP_SNMP_STATS_INSERTS _ c0).
      * by apply (gauge_in 7 h_delete_cnt LLDP_SNMP_STATS_DELETES _ c0).
      * by apply (gauge_in 8 h_drop_cnt LLDP_SNMP_STATS_DROPS _ c0).
      * by apply (gauge_in 9 h_ageout_cnt LLDP_SNMP_STATS_AGEOUTS _ c0).
    + destruct type; [by apply not_elem_of_nil in Hvb| |].
      all: apply elem_of_cons in Hvb as [->|Hvb]; [by left|]; apply elem_of_app in Hvb as [Hvb|Hvb];
        [destruct (notify_name_in _ _ _ _ Hrow Hvb) as [-> ?]; by right; left|].
      all: destruct (p_descr rport) as [s|] eqn:Hd; [|by apply not_elem_of_nil in Hvb];
        apply list_elem_of_singleton in Hvb as ->; cbn [vb_type vb_value vb_name];
        right; destruct (decide (cstr s = [])) as [Hs|Hs]; [right; cbn; by rewrite Hs|left; by apply notify_descr_in].
  - intros k Hk. rewrite fmap_app. apply elem_of_app. left.
    repeat (apply elem_of_cons in Hk as [->|Hk]; [cbn; rewrite !elem_of_cons; tauto|]). by apply not_elem_of_nil in Hk.
  - intros Hty. rewrite fmap_app. destruct type; [done| |].
    all: rewrite !fmap_app; split_and!; [|intros s Hs Hne|intros s Hs]; rewrite !elem_of_app; right;
      [by left; apply list_elem_of_singleton|right; left|right; right]; rewrite Hs;
      [|by apply list_elem_of_singleton].
    all: destruct (nonempty_ret (Some s)) eqn:Hn; [by apply list_elem_of_singleton|by apply nonempty_ret_none in Hn].
Qed.
End Notify.
