(* ===== verification/AtomMaps.v ===== *)
(** * Keys, errors and tables of the client library (src/lib/lldpctl.h, src/lib/atom-private.c)

    The accessors of the client library are indexed by keys and translate integers to the
    words of the tables below.  The file holds the keys, the errors, the tables and the
    two searches, and shows that they are inverse to each other. *)

From S2P Require Import Prelude Bytes Const Text.
From stdpp Require Import strings.
#[local] Open Scope Z_scope.

(** ** Keys and errors *)

Inductive lldpctl_key_t :=
  | lldpctl_k_config_tx_interval | lldpctl_k_config_receiveonly | lldpctl_k_config_mgmt_pattern
  | lldpctl_k_config_iface_pattern | lldpctl_k_config_cid_pattern | lldpctl_k_config_description
  | lldpctl_k_config_platform | lldpctl_k_config_hostname | lldpctl_k_config_advertise_version
  | lldpctl_k_config_lldpmed_noinventory | lldpctl_k_config_paused
  | lldpctl_k_config_fast_start_enabled | lldpctl_k_config_fast_start_interval
  | lldpctl_k_config_ifdescr_update | lldpctl_k_config_iface_promisc | lldpctl_k_interface_name
  | lldpctl_k_port_name | lldpctl_k_port_index | lldpctl_k_port_neighbors | lldpctl_k_port_protocol
  | lldpctl_k_port_age | lldpctl_k_port_id_subtype | lldpctl_k_port_id | lldpctl_k_port_descr
  | lldpctl_k_port_hidden | lldpctl_k_port_dot3_mfs | lldpctl_k_port_dot3_aggregid
  | lldpctl_k_port_dot3_autoneg_support | lldpctl_k_port_dot3_autoneg_enabled
  | lldpctl_k_port_dot3_autoneg_advertised | lldpctl_k_port_dot3_mautype
  | lldpctl_k_port_dot3_power | lldpctl_k_dot3_power_devicetype | lldpctl_k_dot3_power_supported
  | lldpctl_k_dot3_power_enabled | lldpctl_k_dot3_power_paircontrol | lldpctl_k_dot3_power_pairs
  | lldpctl_k_dot3_power_class | lldpctl_k_dot3_power_type | lldpctl_k_dot3_power_source
  | lldpctl_k_dot3_power_priority | lldpctl_k_dot3_power_allocated | lldpctl_k_dot3_power_requested
  | lldpctl_k_port_vlan_pvid | lldpctl_k_port_vlans | lldpctl_k_vlan_id | lldpctl_k_vlan_name
  | lldpctl_k_port_ppvids | lldpctl_k_ppvid_status | lldpctl_k_ppvid_id | lldpctl_k_port_pis
  | lldpctl_k_pi_id | lldpctl_k_chassis_index | lldpctl_k_chassis_id_subtype | lldpctl_k_chassis_id
  | lldpctl_k_chassis_name | lldpctl_k_chassis_descr | lldpctl_k_chassis_cap_available
  | lldpctl_k_chassis_cap_enabled | lldpctl_k_chassis_mgmt | lldpctl_k_chassis_med_type
  | lldpctl_k_chassis_med_cap | lldpctl_k_chassis_med_inventory_hw
  | lldpctl_k_chassis_med_inventory_sw | lldpctl_k_chassis_med_inventory_fw
  | lldpctl_k_chassis_med_inventory_sn | lldpctl_k_chassis_med_inventory_manuf
  | lldpctl_k_chassis_med_inventory_model | lldpctl_k_chassis_med_inventory_asset
  | lldpctl_k_port_med_policies | lldpctl_k_med_policy_type | lldpctl_k_med_policy_unknown
  | lldpctl_k_med_policy_tagged | lldpctl_k_med_policy_vid | lldpctl_k_med_policy_priority
  | lldpctl_k_med_policy_dscp | lldpctl_k_port_med_locations | lldpctl_k_med_location_format
  | lldpctl_k_med_location_geoid | lldpctl_k_med_location_latitude
  | lldpctl_k_med_location_longitude | lldpctl_k_med_location_altitude
  | lldpctl_k_med_location_altitude_unit | lldpctl_k_med_location_country
  | lldpctl_k_med_location_elin | lldpctl_k_med_location_ca_elements
  | lldpctl_k_med_civicaddress_type | lldpctl_k_med_civicaddress_value | lldpctl_k_port_med_power
  | lldpctl_k_med_power_type | lldpctl_k_med_power_source | lldpctl_k_med_power_priority
  | lldpctl_k_med_power_val | lldpctl_k_mgmt_ip | lldpctl_k_tx_cnt | lldpctl_k_rx_cnt
  | lldpctl_k_rx_discarded_cnt | lldpctl_k_rx_unrecognized_cnt | lldpctl_k_ageout_cnt
  | lldpctl_k_insert_cnt | lldpctl_k_delete_cnt | lldpctl_k_config_tx_hold
  | lldpctl_k_config_bond_slave_src_mac_type | lldpctl_k_config_lldp_portid_type.

(** The value of the enumerator. *)
Definition key_code (k : lldpctl_key_t) : Z :=
  match k with
  | lldpctl_k_config_tx_interval => 0 | lldpctl_k_config_receiveonly => 1
  | lldpctl_k_config_mgmt_pattern => 2 | lldpctl_k_config_iface_pattern => 3
  | lldpctl_k_config_cid_pattern => 4 | lldpctl_k_config_description => 5
  | lldpctl_k_config_platform => 6 | lldpctl_k_config_hostname => 7
  | lldpctl_k_config_advertise_version => 8 | lldpctl_k_config_lldpmed_noinventory => 9
  | lldpctl_k_config_paused => 10 | lldpctl_k_config_fast_start_enabled => 11
  | lldpctl_k_config_fast_start_interval => 12 | lldpctl_k_config_ifdescr_update => 13
  | lldpctl_k_config_iface_promisc => 14 | lldpctl_k_interface_name => 1000
  | lldpctl_k_port_name => 1100 | lldpctl_k_port_index => 1101 | lldpctl_k_port_neighbors => 1200
  | lldpctl_k_port_protocol => 1201 | lldpctl_k_port_age => 1202
  | lldpctl_k_port_id_subtype => 1203 | lldpctl_k_port_id => 1204 | lldpctl_k_port_descr => 1205
  | lldpctl_k_port_hidden => 1206 | lldpctl_k_port_dot3_mfs => 1300
  | lldpctl_k_port_dot3_aggregid => 1301 | lldpctl_k_port_dot3_autoneg_support => 1302
  | lldpctl_k_port_dot3_autoneg_enabled => 1303 | lldpctl_k_port_dot3_autoneg_advertised => 1304
  | lldpctl_k_port_dot3_mautype => 1305 | lldpctl_k_port_dot3_power => 1400
  | lldpctl_k_dot3_power_devicetype => 1401 | lldpctl_k_dot3_power_supported => 1402
  | lldpctl_k_dot3_power_enabled => 1403 | lldpctl_k_dot3_power_paircontrol => 1404
  | lldpctl_k_dot3_power_pairs => 1405 | lldpctl_k_dot3_power_class => 1406
  | lldpctl_k_dot3_power_type => 1407 | lldpctl_k_dot3_power_source => 1408
  | lldpctl_k_dot3_power_priority => 1409 | lldpctl_k_dot3_power_allocated => 1410
  | lldpctl_k_dot3_power_requested => 1411 | lldpctl_k_port_vlan_pvid => 1500
  | lldpctl_k_port_vlans => 1501 | lldpctl_k_vlan_id => 1502 | lldpctl_k_vlan_name => 1503
  | lldpctl_k_port_ppvids => 1600 | lldpctl_k_ppvid_status => 1601 | lldpctl_k_ppvid_id => 1602
  | lldpctl_k_port_pis => 1700 | lldpctl_k_pi_id => 1701 | lldpctl_k_chassis_index => 1800
  | lldpctl_k_chassis_id_subtype => 1801 | lldpctl_k_chassis_id => 1802
  | lldpctl_k_chassis_name => 1803 | lldpctl_k_chassis_descr => 1804
  | lldpctl_k_chassis_cap_available => 1805 | lldpctl_k_chassis_cap_enabled => 1806
  | lldpctl_k_chassis_mgmt => 1807 | lldpctl_k_chassis_med_type => 1900
  | lldpctl_k_chassis_med_cap => 1901 | lldpctl_k_chassis_med_inventory_hw => 1902
  | lldpctl_k_chassis_med_inventory_sw => 1903 | lldpctl_k_chassis_med_inventory_fw => 1904
  | lldpctl_k_chassis_med_inventory_sn => 1905 | lldpctl_k_chassis_med_inventory_manuf => 1906
  | lldpctl_k_chassis_med_inventory_model => 1907 | lldpctl_k_chassis_med_inventory_asset => 1908
  | lldpctl_k_port_med_policies => 2000 | lldpctl_k_med_policy_type => 2001
  | lldpctl_k_med_policy_unknown => 2002 | lldpctl_k_med_policy_tagged => 2003
  | lldpctl_k_med_policy_vid => 2004 | lldpctl_k_med_policy_priority => 2005
  | lldpctl_k_med_policy_dscp => 2006 | lldpctl_k_port_med_locations => 2100
  | lldpctl_k_med_location_format => 2101 | lldpctl_k_med_location_geoid => 2102
  | lldpctl_k_med_location_latitude => 2103 | lldpctl_k_med_location_longitude => 2104
  | lldpctl_k_med_location_altitude => 2105 | lldpctl_k_med_location_altitude_unit => 2106
  | lldpctl_k_med_location_country => 2200 | lldpctl_k_med_location_elin => 2201
  | lldpctl_k_med_location_ca_elements => 2300 | lldpctl_k_med_civicaddress_type => 2301
  | lldpctl_k_med_civicaddress_value => 2302 | lldpctl_k_port_med_power => 2400
  | lldpctl_k_med_power_type => 2401 | lldpctl_k_med_power_source => 2402
  | lldpctl_k_med_power_priority => 2403 | lldpctl_k_med_power_val => 2404
  | lldpctl_k_mgmt_ip => 3000 | lldpctl_k_tx_cnt => 4000 | lldpctl_k_rx_cnt => 4001
  | lldpctl_k_rx_discarded_cnt => 4002 | lldpctl_k_rx_unrecognized_cnt => 4003
  | lldpctl_k_ageout_cnt => 4004 | lldpctl_k_insert_cnt => 4005 | lldpctl_k_delete_cnt => 4006
  | lldpctl_k_config_tx_hold => 4007 | lldpctl_k_config_bond_slave_src_mac_type => 4008
  | lldpctl_k_config_lldp_portid_type => 4009
  end.
Definition all_keys : list lldpctl_key_t :=
  [lldpctl_k_config_tx_interval; lldpctl_k_config_receiveonly; lldpctl_k_config_mgmt_pattern;
   lldpctl_k_config_iface_pattern; lldpctl_k_config_cid_pattern; lldpctl_k_config_description;
   lldpctl_k_config_platform; lldpctl_k_config_hostname; lldpctl_k_config_advertise_version;
   lldpctl_k_config_lldpmed_noinventory; lldpctl_k_config_paused;
   lldpctl_k_config_fast_start_enabled; lldpctl_k_config_fast_start_interval;
   lldpctl_k_config_ifdescr_update; lldpctl_k_config_iface_promisc; lldpctl_k_interface_name;
   lldpctl_k_port_name; lldpctl_k_port_index; lldpctl_k_port_neighbors; lldpctl_k_port_protocol;
   lldpctl_k_port_age; lldpctl_k_port_id_subtype; lldpctl_k_port_id; lldpctl_k_port_descr;
   lldpctl_k_port_hidden; lldpctl_k_port_dot3_mfs; lldpctl_k_port_dot3_aggregid;
   lldpctl_k_port_dot3_autoneg_support; lldpctl_k_port_dot3_autoneg_enabled;
   lldpctl_k_port_dot3_autoneg_advertised; lldpctl_k_port_dot3_mautype; lldpctl_k_port_dot3_power;
   lldpctl_k_dot3_power_devicetype; lldpctl_k_dot3_power_supported; lldpctl_k_dot3_power_enabled;
   lldpctl_k_dot3_power_paircontrol; lldpctl_k_dot3_power_pairs; lldpctl_k_dot3_power_class;
   lldpctl_k_dot3_power_type; lldpctl_k_dot3_power_source; lldpctl_k_dot3_power_priority;
   lldpctl_k_dot3_power_allocated; lldpctl_k_dot3_power_requested; lldpctl_k_port_vlan_pvid;
   lldpctl_k_port_vlans; lldpctl_k_vlan_id; lldpctl_k_vlan_name; lldpctl_k_port_ppvids;
   lldpctl_k_ppvid_status; lldpctl_k_ppvid_id; lldpctl_k_port_pis; lldpctl_k_pi_id;
   lldpctl_k_chassis_index; lldpctl_k_chassis_id_subtype; lldpctl_k_chassis_id;
   lldpctl_k_chassis_name; lldpctl_k_chassis_descr; lldpctl_k_chassis_cap_available;
   lldpctl_k_chassis_cap_enabled; lldpctl_k_chassis_mgmt; lldpctl_k_chassis_med_type;
   lldpctl_k_chassis_med_cap; lldpctl_k_chassis_med_inventory_hw;
   lldpctl_k_chassis_med_inventory_sw; lldpctl_k_chassis_med_inventory_fw;
   lldpctl_k_chassis_med_inventory_sn; lldpctl_k_chassis_med_inventory_manuf;
   lldpctl_k_chassis_med_inventory_model; lldpctl_k_chassis_med_inventory_asset;
   lldpctl_k_port_med_policies; lldpctl_k_med_policy_type; lldpctl_k_med_policy_unknown;
   lldpctl_k_med_policy_tagged; lldpctl_k_med_policy_vid; lldpctl_k_med_policy_priority;
   lldpctl_k_med_policy_dscp; lldpctl_k_port_med_locations; lldpctl_k_med_location_format;
   lldpctl_k_med_location_geoid; lldpctl_k_med_location_latitude; lldpctl_k_med_location_longitude;
   lldpctl_k_med_location_altitude; lldpctl_k_med_location_altitude_unit;
   lldpctl_k_med_location_country; lldpctl_k_med_location_elin; lldpctl_k_med_location_ca_elements;
   lldpctl_k_med_civicaddress_type; lldpctl_k_med_civicaddress_value; lldpctl_k_port_med_power;
   lldpctl_k_med_power_type; lldpctl_k_med_power_source; lldpctl_k_med_power_priority;
   lldpctl_k_med_power_val; lldpctl_k_mgmt_ip; lldpctl_k_tx_cnt; lldpctl_k_rx_cnt;
   lldpctl_k_rx_discarded_cnt; lldpctl_k_rx_unrecognized_cnt; lldpctl_k_ageout_cnt;
   lldpctl_k_insert_cnt; lldpctl_k_delete_cnt; lldpctl_k_config_tx_hold;
   lldpctl_k_config_bond_slave_src_mac_type; lldpctl_k_config_lldp_portid_type].

Definition LLDPCTL_ERR_NOT_EXIST : Z := -503.
Definition LLDPCTL_ERR_BAD_VALUE : Z := -509.
Definition LLDP_MED_LOCATION_GEOID_WGS84 : Z := 1.
Definition LLDP_MED_LOCATION_GEOID_NAD83 : Z := 2.
Definition LLDP_MED_LOCATION_GEOID_NAD83_MLLW : Z := 3.
Definition LLDP_MED_LOCATION_ALTITUDE_UNIT_METER : Z := 1.
Definition LLDP_MED_LOCATION_ALTITUDE_UNIT_FLOOR : Z := 2.

(** ** Tables: the entries before the one whose string is NULL *)

Abbreviation lldpctl_map_t := (list (Z * list Z)).

Definition lldpd_protocol_map : lldpctl_map_t :=
  [ (LLDPD_MODE_LLDP, chars "LLDP");
    (LLDPD_MODE_CDPV1, chars "CDPv1");
    (LLDPD_MODE_CDPV2, chars "CDPv2");
    (LLDPD_MODE_EDP, chars "EDP");
    (LLDPD_MODE_FDP, chars "FDP");
    (LLDPD_MODE_SONMP, chars "SONMP") ].
Definition chassis_id_subtype_map : lldpctl_map_t :=
  [ (LLDP_CHASSISID_SUBTYPE_IFNAME, chars "ifname");
    (LLDP_CHASSISID_SUBTYPE_IFALIAS, chars "ifalias");
    (LLDP_CHASSISID_SUBTYPE_LOCAL, chars "local");
    (LLDP_CHASSISID_SUBTYPE_LLADDR, chars "mac");
    (LLDP_CHASSISID_SUBTYPE_ADDR, chars "ip");
    (LLDP_CHASSISID_SUBTYPE_PORT, chars "unhandled");
    (LLDP_CHASSISID_SUBTYPE_CHASSIS, chars "unhandled") ].
Definition port_id_subtype_map : lldpctl_map_t :=
  [ (LLDP_PORTID_SUBTYPE_IFNAME, chars "ifname");
    (LLDP_PORTID_SUBTYPE_IFALIAS, chars "ifalias");
    (LLDP_PORTID_SUBTYPE_LOCAL, chars "local");
    (LLDP_PORTID_SUBTYPE_LLADDR, chars "mac");
    (LLDP_PORTID_SUBTYPE_ADDR, chars "ip");
    (LLDP_PORTID_SUBTYPE_PORT, chars "unhandled");
    (LLDP_PORTID_SUBTYPE_AGENTCID, chars "unhandled") ].
Definition operational_mau_type_values : lldpctl_map_t :=
  [ (1, chars "AUI - no internal MAU, view from AUI");
    (2, chars "10Base5 - thick coax MAU");
    (3, chars "Foirl - FOIRL MAU");
    (4, chars "10Base2 - thin coax MAU");
    (5, chars "10BaseT - UTP MAU");
    (6, chars "10BaseFP - passive fiber MAU");
    (7, chars "10BaseFB - sync fiber MAU");
    (8, chars "10BaseFL - async fiber MAU");
    (9, chars "10Broad36 - broadband DTE MAU");
    (10, chars "10BaseTHD - UTP MAU, half duplex mode");
    (11, chars "10BaseTFD - UTP MAU, full duplex mode");
    (12, chars "10BaseFLHD - async fiber MAU, half duplex mode");
    (13, chars "10BaseFLDF - async fiber MAU, full duplex mode");
    (14, chars "10BaseT4 - 4 pair category 3 UTP");
    (15, chars "100BaseTXHD - 2 pair category 5 UTP, half duplex mode");
    (16, chars "100BaseTXFD - 2 pair category 5 UTP, full duplex mode");
    (17, chars "100BaseFXHD - X fiber over PMT, half duplex mode");
    (18, chars "100BaseFXFD - X fiber over PMT, full duplex mode");
    (19, chars "100BaseT2HD - 2 pair category 3 UTP, half duplex mode");
    (20, chars "100BaseT2FD - 2 pair category 3 UTP, full duplex mode");
    (21, chars "1000BaseXHD - PCS/PMA, unknown PMD, half duplex mode");
    (22, chars "1000BaseXFD - PCS/PMA, unknown PMD, full duplex mode");
    (23, chars "1000BaseLXHD - Fiber over long-wavelength laser, half duplex mode");
    (24, chars "1000BaseLXFD - Fiber over long-wavelength laser, full duplex mode");
    (25, chars "1000BaseSXHD - Fiber over short-wavelength laser, half duplex mode");
    (26, chars "1000BaseSXFD - Fiber over short-wavelength laser, full duplex mode");
    (27, chars "1000BaseCXHD - Copper over 150-Ohm balanced cable, half duplex mode");
    (28, chars "1000BaseCXFD - Copper over 150-Ohm balanced cable, full duplex mode");
    (29, chars "1000BaseTHD - Four-pair Category 5 UTP, half duplex mode");
    (30, chars "1000BaseTFD - Four-pair Category 5 UTP, full duplex mode");
    (31, chars "10GigBaseX - X PCS/PMA, unknown PMD.");
    (32, chars "10GigBaseLX4 - X fiber over WWDM optics");
    (33, chars "10GigBaseR - R PCS/PMA, unknown PMD.");
    (34, chars "10GigBaseER - R fiber over 1550 nm optics");
    (35, chars "10GigBaseLR - R fiber over 1310 nm optics");
    (36, chars "10GigBaseSR - R fiber over 850 nm optics");
    (37, chars "10GigBaseW - W PCS/PMA, unknown PMD.");
    (38, chars "10GigBaseEW - W fiber over 1550 nm optics");
    (39, chars "10GigBaseLW - W fiber over 1310 nm optics");
    (40, chars "10GigBaseSW - W fiber over 850 nm optics");
    (41, chars "10GigBaseCX4 - X copper over 8 pair 100-Ohm balanced cable");
    (42, chars "2BaseTL - Voice grade UTP copper, up to 2700m, optional PAF");
    (43, chars "10PassTS - Voice grade UTP copper, up to 750m, optional PAF");
    (44, chars "100BaseBX10D - One single-mode fiber OLT, long wavelength, 10km");
    (45, chars "100BaseBX10U - One single-mode fiber ONU, long wavelength, 10km");
    (46, chars "100BaseLX10 - Two single-mode fibers, long wavelength, 10km");
    (47, chars "1000BaseBX10D - One single-mode fiber OLT, long wavelength, 10km");
    (48, chars "1000BaseBX10U - One single-mode fiber ONU, long wavelength, 10km");
    (49, chars "1000BaseLX10 - Two sigle-mode fiber, long wavelength, 10km");
    (50, chars "1000BasePX10D - One single-mode fiber EPON OLT, 10km");
    (51, chars "1000BasePX10U - One single-mode fiber EPON ONU, 10km");
    (52, chars "1000BasePX20D - One single-mode fiber EPON OLT, 20km");
    (53, chars "1000BasePX20U - One single-mode fiber EPON ONU, 20km") ].
Definition port_dot3_power_devicetype_map : lldpctl_map_t :=
  [ (LLDP_DOT3_POWER_PSE, chars "PSE");
    (LLDP_DOT3_POWER_PD, chars "PD") ].
Definition port_dot3_power_pairs_map : lldpctl_map_t :=
  [ (LLDP_DOT3_POWERPAIRS_SIGNAL, chars "signal");
    (LLDP_DOT3_POWERPAIRS_SPARE, chars "spare") ].
Definition port_dot3_power_class_map : lldpctl_map_t :=
  [ (1, chars "class 0");
    (2, chars "class 1");
    (3, chars "class 2");
    (4, chars "class 3");
    (5, chars "class 4") ].
Definition port_dot3_power_pse_source_map : lldpctl_map_t :=
  [ (LLDP_DOT3_POWER_SOURCE_BOTH, chars "PSE + Local");
    (LLDP_DOT3_POWER_SOURCE_PSE, chars "PSE") ].
Definition port_dot3_power_pd_source_map : lldpctl_map_t :=
  [ (LLDP_DOT3_POWER_SOURCE_BACKUP, chars "Backup source");
    (LLDP_DOT3_POWER_SOURCE_PRIMARY, chars "Primary power source") ].
Definition port_dot3_power_priority_map : lldpctl_map_t :=
  [ (0, chars "unknown");
    (LLDP_MED_POW_PRIO_CRITICAL, chars "critical");
    (LLDP_MED_POW_PRIO_HIGH, chars "high");
    (LLDP_MED_POW_PRIO_LOW, chars "low") ].
Definition chassis_med_type_map : lldpctl_map_t :=
  [ (LLDP_MED_CLASS_I, chars "Generic Endpoint (Class I)");
    (LLDP_MED_CLASS_II, chars "Media Endpoint (Class II)");
    (LLDP_MED_CLASS_III, chars "Communication Device Endpoint (Class III)");
    (LLDP_MED_NETWORK_DEVICE, chars "Network Connectivity Device") ].
Definition port_med_policy_map : lldpctl_map_t :=
  [ (LLDP_MED_APPTYPE_VOICE, chars "Voice");
    (LLDP_MED_APPTYPE_VOICESIGNAL, chars "Voice Signaling");
    (LLDP_MED_APPTYPE_GUESTVOICE, chars "Guest Voice");
    (LLDP_MED_APPTYPE_GUESTVOICESIGNAL, chars "Guest Voice Signaling");
    (LLDP_MED_APPTYPE_SOFTPHONEVOICE, chars "Softphone Voice");
    (LLDP_MED_APPTYPE_VIDEOCONFERENCE, chars "Video Conferencing");
    (LLDP_MED_APPTYPE_VIDEOSTREAM, chars "Streaming Video");
    (LLDP_MED_APPTYPE_VIDEOSIGNAL, chars "Video Signaling") ].
Definition port_med_policy_prio_map : lldpctl_map_t :=
  [ (0, chars "Background");
    (1, chars "Spare");
    (2, chars "Best effort");
    (3, chars "Excellent effort");
    (4, chars "Controlled load");
    (5, chars "Video");
    (6, chars "Voice");
    (7, chars "Network control") ].
Definition port_med_location_map : lldpctl_map_t :=
  [ (LLDP_MED_LOCFORMAT_COORD, chars "Coordinates");
    (LLDP_MED_LOCFORMAT_CIVIC, chars "Civic address");
    (LLDP_MED_LOCFORMAT_ELIN, chars "ELIN") ].
Definition civic_address_type_map : lldpctl_map_t :=
  [ (0, chars "Language");
    (1, chars "Country subdivision");
    (2, chars "County");
    (3, chars "City");
    (4, chars "City division");
    (5, chars "Block");
    (6, chars "Street");
    (16, chars "Direction");
    (17, chars "Trailing street suffix");
    (18, chars "Street suffix");
    (19, chars "Number");
    (20, chars "Number suffix");
    (21, chars "Landmark");
    (22, chars "Additional");
    (23, chars "Name");
    (24, chars "ZIP");
    (25, chars "Building");
    (26, chars "Unit");
    (27, chars "Floor");
    (28, chars "Room");
    (29, chars "Place type");
    (128, chars "Script") ].
Definition port_med_geoid_map : lldpctl_map_t :=
  [ (LLDP_MED_LOCATION_GEOID_WGS84, chars "WGS84");
    (LLDP_MED_LOCATION_GEOID_NAD83, chars "NAD83");
    (LLDP_MED_LOCATION_GEOID_NAD83_MLLW, chars "NAD83/MLLW") ].
Definition port_med_pow_devicetype_map : lldpctl_map_t :=
  [ (LLDP_MED_POW_TYPE_PSE, chars "PSE");
    (LLDP_MED_POW_TYPE_PD, chars "PD") ].
Definition port_med_pow_source_map : lldpctl_map_t :=
  [ (LLDP_MED_POW_SOURCE_PRIMARY, chars "Primary Power Source");
    (LLDP_MED_POW_SOURCE_BACKUP, chars "Backup Power Source / Power Conservation Mode");
    (LLDP_MED_POW_SOURCE_PSE, chars "PSE");
    (LLDP_MED_POW_SOURCE_LOCAL, chars "Local");
    (LLDP_MED_POW_SOURCE_BOTH, chars "PSE + Local") ].
Definition port_med_pow_source_map2 : lldpctl_map_t :=
  [ (0, chars "unknown");
    (LLDP_MED_POW_SOURCE_PRIMARY, chars "primary");
    (LLDP_MED_POW_SOURCE_BACKUP, chars "backup");
    (LLDP_MED_POW_SOURCE_PSE, chars "pse");
    (LLDP_MED_POW_SOURCE_LOCAL, chars "local");
    (LLDP_MED_POW_SOURCE_BOTH, chars "both") ].
Definition port_med_pow_priority_map : lldpctl_map_t := port_dot3_power_priority_map.
Definition bond_slave_src_mac_map : lldpctl_map_t :=
  [ (LLDP_BOND_SLAVE_SRC_MAC_TYPE_REAL, chars "real");
    (LLDP_BOND_SLAVE_SRC_MAC_TYPE_ZERO, chars "zero");
    (LLDP_BOND_SLAVE_SRC_MAC_TYPE_FIXED, chars "fixed");
    (LLDP_BOND_SLAVE_SRC_MAC_TYPE_LOCALLY_ADMINISTERED, chars "local") ].
Definition lldp_portid_map : lldpctl_map_t :=
  [ (LLDP_PORTID_SUBTYPE_IFNAME, chars "ifname");
    (LLDP_PORTID_SUBTYPE_LLADDR, chars "macaddress") ].

Definition map_lookup (entries : lldpctl_map_t) (n : Z) : list Z :=
  match List.find (λ e, fst e =? n) entries with
  | Some (_, string) => string
  | None => chars "unknown"
  end.

(** [strcasecmp(a, b) == 0] in the C locale *)
Definition lower (c : Z) : Z := if ((65 <=? c) && (c <=? 90))%bool then c + 32 else c.
Definition strcasecmp_eq (a b : list Z) : bool := bool_decide (map lower a = map lower b).

Definition map_reverse_lookup (entries : lldpctl_map_t) (string : option (list Z)) : Z :=
  match string with
  | None => -1
  | Some s => match List.find (λ e, strcasecmp_eq (snd e) s) entries with
              | Some (value, _) => value
              | None => -1
              end
  end.

Definition empty_map : lldpctl_map_t := [].

Definition lldpctl_key_get_map (key : lldpctl_key_t) : lldpctl_map_t :=
  match key with
  | lldpctl_k_med_location_geoid => port_med_geoid_map
  | lldpctl_k_med_civicaddress_type => civic_address_type_map
  | lldpctl_k_med_policy_type => port_med_policy_map
  | lldpctl_k_med_policy_priority => port_med_policy_prio_map
  | lldpctl_k_med_power_priority => port_med_pow_priority_map
  | lldpctl_k_dot3_power_pairs => port_dot3_power_pairs_map
  | lldpctl_k_dot3_power_class => port_dot3_power_class_map
  | lldpctl_k_dot3_power_priority => port_dot3_power_priority_map
  | lldpctl_k_config_bond_slave_src_mac_type => bond_slave_src_mac_map
  | lldpctl_k_config_lldp_portid_type => lldp_portid_map
  | lldpctl_k_port_protocol => lldpd_protocol_map
  | _ => empty_map
  end.

(** ** Decidable equality of keys, by their codes *)

Definition key_of_code (z : Z) : option lldpctl_key_t :=
  List.find (λ k, key_code k =? z) all_keys.
Lemma key_of_code_code k : key_of_code (key_code k) = Some k.
Proof. by destruct k. Qed.
#[global] Instance key_code_inj : Inj (=) (=) key_code.
Proof. intros a b H. apply (f_equal key_of_code) in H. rewrite !key_of_code_code in H. congruence. Qed.
#[global] Instance key_eq_dec : EqDecision lldpctl_key_t.
Proof.
  intros a b. destruct (Z.eq_dec (key_code a) (key_code b)) as [H|H].
  - left. by apply (inj key_code).
  - right. intros ->. by apply H.
Defined.

(** ** The two searches are inverse to each other *)

(** No two entries have the same word, case apart. *)
Definition words_distinct (m : lldpctl_map_t) : Prop := NoDup (map (λ e : Z * list Z, map lower (snd e)) m).
#[global] Instance words_distinct_dec m : Decision (words_distinct m).
Proof. unfold words_distinct. apply _. Defined.

Section Searches.
Implicit Types (m : lldpctl_map_t) (v : Z) (w : list Z).

Lemma map_lookup_In m v :
  v ∈ map fst m → ∃ w, In (v, w) m ∧ map_lookup m v = w.
Proof.
  unfold map_lookup. induction m as [|[v' w'] m IH]; cbn; intros H.
  - by apply list.not_elem_of_nil in H.
  - destruct (Z.eqb_spec v' v) as [->|Hv].
    + exists w'. by split; [left|].
    + apply list.elem_of_cons in H as [H|H]; [congruence|].
      destruct (IH H) as (w & Hw & He). exists w. by split; [right|].
Qed.

Lemma map_reverse_In m v w :
  words_distinct m → In (v, w) m → map_reverse_lookup m (Some w) = v.
Proof.
  unfold map_reverse_lookup, words_distinct. induction m as [|[v' w'] m IH]; cbn; intros Hd Hin; [done|].
  apply list.NoDup_cons in Hd as [Hn Hd]. unfold strcasecmp_eq. case_bool_decide as Hw.
  - destruct Hin as [|Hin]; [congruence|]. exfalso. apply Hn. rewrite Hw.
    apply list_elem_of_fmap. exists (v, w). by rewrite list_elem_of_In.
  - destruct Hin as [|Hin]; [congruence|]. by apply IH.
Qed.

(** The word of a value finds the value again. *)
Lemma map_reverse_lookup_value m v :
  words_distinct m → v ∈ map fst m → map_reverse_lookup m (Some (map_lookup m v)) = v.
Proof. intros Hd Hv. destruct (map_lookup_In m v Hv) as (w & Hin & ->). by apply map_reverse_In. Qed.

(** What is found is the value of an entry, or -1. *)
Lemma map_reverse_lookup_range m s :
  map_reverse_lookup m s ∈ map fst m ∨ map_reverse_lookup m s = -1.
Proof.
  unfold map_reverse_lookup. destruct s as [w|]; [|by right].
  destruct (List.find _ m) as [[v w']|] eqn:E; [|by right]. left.
  apply List.find_some in E as [E _]. apply list_elem_of_fmap. exists (v, w'). by rewrite list_elem_of_In.
Qed.
End Searches.
