(* ===== verification/Atoms.v ===== *)
(** * Accessors of the client library (src/lib/atom.c, src/lib/atom-private.c)

    An atom gives access to a structure by keys, as an integer or as text.  The file models
    the accessors of lib/atom.c, which try the text, the integer and the buffer in turn, and
    the methods of the atoms for the power over the link ([dot3_power]), a network policy
    ([med_policy]) and the power over LLDP-MED ([med_power]).  An atom may be changed when
    it belongs to a local port only: [local] says that [parent->hardware] is not NULL.

    Text is the list of the characters of a C string; [None] is a NULL pointer. *)

From S2P Require Import Prelude Bytes Const Structs Text Fixedpoint AtomMaps.
From stdpp Require Import strings.
#[local] Open Scope Z_scope.

(** The result of an accessor: a value, the error left in the connection, or an access
    outside of the memory of the atom. *)
Inductive access (A : Type) :=
  | Got (a : A)
  | Err (e : Z)
  | Fault.
Arguments Got {A} a.
Arguments Err {A} e.
Arguments Fault {A}.
#[global] Instance access_eq_dec {A} `{EqDecision A} : EqDecision (access A).
Proof. solve_decision. Defined.

(** [SET_ERROR(conn, e); return NULL] *)
Abbreviation NOT_EXIST := (Err LLDPCTL_ERR_NOT_EXIST).
Abbreviation BAD_VALUE := (Err LLDPCTL_ERR_BAD_VALUE).

(** The methods of a type of atoms; the builder of a type may leave any of them out. *)
Record atom_ops (A : Type) := {
  op_get_str : option (A → lldpctl_key_t → access (option (list Z)));
  op_get_int : option (A → lldpctl_key_t → access Z);
  op_get_buffer : option (A → lldpctl_key_t → access (option (list Z)));
  op_set_str : option (bool → A → lldpctl_key_t → option (list Z) → access A);
  op_set_int : option (bool → A → lldpctl_key_t → Z → access A);
  op_set_buffer : option (bool → A → lldpctl_key_t → option (list Z) → access A)
}.
Arguments op_get_str {A}.
Arguments op_get_int {A}.
Arguments op_get_buffer {A}.
Arguments op_set_str {A}.
Arguments op_set_int {A}.
Arguments op_set_buffer {A}.

(** ** Text of numbers and of buffers *)

(** [%ld] *)
Definition ldecimal (n : Z) : list Z := (if n <? 0 then [45] else []) ++ decimal (Z.abs n).

(** [strtol(s, &end, 0)]: a prefix chooses the base. *)
Definition digit_value (c : Z) : Z :=
  if is_digit c then c - 48
  else if ((97 <=? c) && (c <=? 122))%bool then c - 87
  else if ((65 <=? c) && (c <=? 90))%bool then c - 55
  else 36.
Fixpoint strtol_digits (base acc : Z) (s : list Z) : Z * list Z :=
  match s with
  | c :: s' => if digit_value c <? base then strtol_digits base (acc * base + digit_value c) s'
               else (acc, s)
  | [] => (acc, [])
  end.
Definition starts_digit (base : Z) (s : list Z) : bool :=
  match s with c :: _ => digit_value c <? base | [] => false end.
Definition strtol_base (s : list Z) : Z * list Z :=
  match s with
  | c :: x :: s' =>
      if c =? 48 then
        if (((x =? 120) || (x =? 88)) && starts_digit 16 s')%bool then (16, s') else (8, s)
      else (10, s)
  | _ => (10, s)
  end.
Definition strtol0 (s : list Z) : Z * list Z :=
  let '(sign, u) := match skip_spaces s with
                    | c :: u => if c =? 45 then (-1, u) else if c =? 43 then (1, u) else (1, c :: u)
                    | [] => (1, [])
                    end in
  let '(base, u) := strtol_base u in
  if starts_digit base u
  then let '(v, rest) := strtol_digits base 0 u in (saturate (sign * v), rest)
  else (0, s).

(** A write into a buffer; [None] when it leaves the buffer. *)
Definition poke (buf : list Z) (o : Z) (bs : list Z) : option (list Z) :=
  if ((0 <=? o) && (o + zlen bs <=? zlen buf))%bool
  then Some (take (Z.to_nat o) buf ++ bs ++ drop (Z.to_nat (o + zlen bs)) buf)
  else None.

(** The loop of [_lldpctl_dump_in_atom]: [snprintf] writes the terminating NUL too. *)
Fixpoint dump_loop (input : list Z) (sep i max : Z) (buffer : list Z) : option (Z * list Z) :=
  match input with
  | [] => Some (i, buffer)
  | b :: input =>
      if ((max =? 0) || (i <? max))%bool
      then buffer ← poke buffer (i * 3) (hex2 b ++ [sep; 0]);
           dump_loop input sep (i + 1) max buffer
      else Some (i, buffer)
  end.

Definition truncation : list Z := chars "[...]".

(** The content of the buffer that is returned. *)
Definition _lldpctl_dump_in_atom (input : list Z) (sep max : Z) : option (list Z) :=
  let size := zlen input in
  let len := if ((0 <? max) && (max <? size))%bool
             then max * 3 + (zlen truncation + 1) + 1 else size * 3 + 1 in
  '(i, buffer) ← dump_loop input sep 0 max (replicate (Z.to_nat len) 0);
  if ((0 <? max) && (max <? size))%bool
  then poke buffer (i * 3) (truncation ++ [0])
  else poke buffer (i * 3 - 1) [0].

(** ** The accessors of lib/atom.c *)

Section Accessors.
Context {A : Type} (ops : atom_ops A).
Implicit Types (a : A) (key : lldpctl_key_t).

Definition get_str_from_buffer a key : access (option (list Z)) :=
  match op_get_buffer ops with
  | None => NOT_EXIST
  | Some get =>
      match get a key with
      | Got (Some buf) => match _lldpctl_dump_in_atom buf 32 0 with
                          | Some s => Got (Some (cstr s))
                          | None => Fault
                          end
      | Got None => Got None
      | Err e => if e =? LLDPCTL_ERR_NOT_EXIST then NOT_EXIST else Err e
      | Fault => Fault
      end
  end.

(** An error of [get_int] is also its result. *)
Definition get_str_from_int a key : access (option (list Z)) :=
  match op_get_int ops with
  | None => get_str_from_buffer a key
  | Some get =>
      match get a key with
      | Got n => Got (Some (ldecimal n))
      | Err e => if e =? LLDPCTL_ERR_NOT_EXIST then get_str_from_buffer a key
                 else Got (Some (ldecimal e))
      | Fault => Fault
      end
  end.

Definition lldpctl_atom_get_str a key : access (option (list Z)) :=
  match op_get_str ops with
  | None => get_str_from_int a key
  | Some get =>
      match get a key with
      | Err e => if e =? LLDPCTL_ERR_NOT_EXIST then get_str_from_int a key else Err e
      | r => r
      end
  end.

(** A setter refused the value: [k bad] tries the next one, any other error is final. *)
Definition try_next (r : access A) (bad : bool) (k : bool → access A) : access A :=
  match r with
  | Err e =>
      if ((e =? LLDPCTL_ERR_NOT_EXIST) || (e =? LLDPCTL_ERR_BAD_VALUE))%bool
      then k (bad || (e =? LLDPCTL_ERR_BAD_VALUE))%bool else Err e
  | _ => r
  end.

Definition set_str_as_buffer (local : bool) a key (value : option (list Z)) (bad : bool) : access A :=
  let failed (bad : bool) := if bad then BAD_VALUE else NOT_EXIST in
  match op_set_buffer ops with
  | Some set => try_next (set local a key value) bad failed
  | None => failed bad
  end.

(** [strtol] converts the whole text. *)
Definition converts (value : option (list Z)) : option Z :=
  match value with
  | None => None
  | Some s => let '(v, rest) := strtol0 s in
              if ((zlen rest =? 0) && negb (zlen s =? 0))%bool then Some v else None
  end.

Definition set_str_as_int (local : bool) a key (value : option (list Z)) (bad : bool) : access A :=
  match op_set_int ops, converts value with
  | Some set, Some converted =>
      try_next (set local a key converted) bad (set_str_as_buffer local a key value)
  | _, _ => set_str_as_buffer local a key value bad
  end.

Definition lldpctl_atom_set_str (local : bool) a key (value : option (list Z)) : access A :=
  match op_set_str ops with
  | Some set => try_next (set local a key value) false (set_str_as_int local a key value)
  | None => set_str_as_int local a key value false
  end.

Definition lldpctl_atom_get_int a key : access Z :=
  match op_get_int ops with None => NOT_EXIST | Some get => get a key end.
Definition lldpctl_atom_set_int (local : bool) a key (value : Z) : access A :=
  match op_set_int ops with None => NOT_EXIST | Some set => set local a key value end.
Definition lldpctl_atom_get_buffer a key : access (option (list Z)) :=
  match op_get_buffer ops with None => NOT_EXIST | Some get => get a key end.
Definition lldpctl_atom_set_buffer (local : bool) a key (value : option (list Z)) : access A :=
  match op_set_buffer ops with None => NOT_EXIST | Some set => set local a key value end.
End Accessors.

(** ** Numbers as text *)

Lemma decimal_aux_head fuel v acc :
  0 < v < 10 ^ Z.of_nat fuel → ∃ c d, decimal_aux fuel v acc = c :: d ∧ 48 < c ≤ 57.
Proof.
  revert v acc. induction fuel as [|n IH]; intros v acc Hv.
  - change (10 ^ Z.of_nat 0) with 1 in Hv. lia.
  - rewrite Nat2Z.inj_succ, Z.pow_succ_r in Hv by lia. cbn [decimal_aux].
    destruct (Z.ltb_spec v 10); [|apply IH; zlia].
    exists (48 + v mod 10), acc. split; [done|]. rewrite Z.mod_small by lia. lia.
Qed.

(** The digits of a number: they read back, and only zero starts with a zero. *)
Lemma decimal_shape v :
  0 ≤ v < 10 ^ 20 →
  ∃ c d, decimal v = c :: d ∧ Forall (λ c, is_digit c = true) (c :: d) ∧ digits 0 (c :: d) = v ∧
    (c = 48 → d = []).
Proof.
  intros Hv. destruct (decimal_aux_digits 20 v [] Hv) as (d & Hd & Hval & Hf).
  rewrite app_nil_r in Hd. unfold decimal. rewrite Hd.
  destruct (Z.eq_dec v 0) as [->|].
  { vm_compute in Hd. subst d. exists 48, []. split_and!; [done|by repeat constructor|done|done]. }
  destruct (decimal_aux_head 20 v []) as (c & d' & Hc & Hb); [change (10 ^ Z.of_nat 20) with (10 ^ 20); lia|].
  rewrite Hd in Hc. rewrite Hc in *. exists c, d'. split_and!; [done|done|done|]. intros ->. lia.
Qed.

Lemma digit_value_digit c : is_digit c = true → digit_value c = c - 48 ∧ 48 ≤ c ≤ 57.
Proof. intros H. unfold digit_value. rewrite H. unfold is_digit in H. bool_to_prop. lia. Qed.

Lemma strtol_digits_all acc d :
  Forall (λ c, is_digit c = true) d → strtol_digits 10 acc d = (digits acc d, []).
Proof.
  intros Hd. revert acc. induction Hd as [|c d Hc _ IH]; intros acc; [done|]. cbn.
  destruct (digit_value_digit c Hc) as [-> Hb]. rewrite Hc, (proj2 (Z.ltb_lt _ _)) by lia. apply IH.
Qed.

(** [%ld] then [strtol] gives the number back. *)
Lemma strtol0_decimal v : 0 ≤ v < 2 ^ 63 → strtol0 (decimal v) = (v, []).
Proof.
  intros Hv. destruct (decimal_shape v) as (c & d & -> & Hf & Hval & Hz); [lia|].
  pose proof Hf as Hf'. apply Forall_cons_iff in Hf' as [Hc Hd].
  destruct (digit_value_digit c Hc) as [Hdv Hb].
  unfold strtol0. cbn [skip_spaces].
  assert (is_space c = false) as ->.
  { unfold is_space. rewrite orb_false_iff, andb_false_iff, Z.eqb_neq, !Z.leb_gt. lia. }
  rewrite !(proj2 (Z.eqb_neq c _)) by lia.
  assert (strtol_base (c :: d) = (10, c :: d)) as ->.
  { unfold strtol_base. destruct d as [|x d]; [done|]. rewrite (proj2 (Z.eqb_neq c 48)); [done|].
    intros ->. by specialize (Hz eq_refl). }
  cbn [starts_digit]. rewrite Hdv, (proj2 (Z.ltb_lt (c - 48) 10)) by lia.
  rewrite (strtol_digits_all 0 (c :: d)), Hval by done. f_equal. unfold saturate. lia.
Qed.

Lemma converts_decimal v : 0 ≤ v < 2 ^ 63 → converts (Some (decimal v)) = Some v.
Proof.
  intros Hv. unfold converts. rewrite strtol0_decimal by done.
  destruct (decimal_shape v) as (c & d & -> & _); [lia|]. rewrite zlen_cons.
  pose proof (zlen_nonneg d). by rewrite (proj2 (Z.eqb_neq (1 + zlen d) 0)) by lia.
Qed.

(** A number is no word of a table whose words do not start with a digit. *)
Lemma map_reverse_number m v :
  0 ≤ v < 2 ^ 63 → Forall (λ e, starts_digit 10 (snd e) = false) m →
  map_reverse_lookup m (Some (decimal v)) = -1.
Proof.
  intros Hv Hm. unfold map_reverse_lookup.
  destruct (decimal_shape v) as (c & d & -> & Hf & _); [lia|].
  apply Forall_cons_iff in Hf as [Hc _]. destruct (digit_value_digit c Hc) as [Hdv Hb].
  destruct (List.find _ m) as [[x w]|] eqn:E; [|done]. exfalso.
  apply List.find_some in E as [Hin Hw]. rewrite List.Forall_forall in Hm. specialize (Hm _ Hin).
  cbn in Hw, Hm. unfold strcasecmp_eq in Hw. apply bool_decide_eq_true_1 in Hw. cbn [map] in Hw.
  destruct w as [|c' w]; [done|]. cbn [map] in Hw. injection Hw as Hw _.
  assert (lower c = c) as Hl by (unfold lower; rewrite (proj2 (Z.leb_gt 65 c)) by lia; done).
  rewrite Hl in Hw. assert (c' = c) as ->.
  { unfold lower in Hw. destruct ((65 <=? c') && (c' <=? 90))%bool eqn:?; bool_to_prop; lia. }
  cbn in Hm. rewrite Hdv in Hm. bool_to_prop. lia.
Qed.

(** ** The dump of a buffer *)

Definition dump_pairs (sep : Z) (bs : list Z) : list Z := flat_map (λ b, hex2 b ++ [sep]) bs.

(** What a dump shows: the bytes separated by [sep], and a mark when some are left out. *)
Definition dump_text (input : list Z) (sep max : Z) : list Z :=
  if ((0 <? max) && (max <? zlen input))%bool
  then dump_pairs sep (take (Z.to_nat max) input) ++ truncation
  else removelast (dump_pairs sep input).

Lemma dump_pairs_length sep bs : length (dump_pairs sep bs) = (3 * length bs)%nat.
Proof. unfold dump_pairs. induction bs as [|b bs IH]; [done|]. cbn [flat_map hex2]. rewrite length_app, IH. cbn. lia. Qed.

Lemma hex2_nonzero b : is_byte b → Forall (λ c, negb (c =? 0) = true) (hex2 b).
Proof.
  unfold is_byte. intros Hb. unfold hex2, hex_digit.
  repeat constructor; rewrite negb_true_iff, Z.eqb_neq; case_if; zlia.
Qed.

Lemma dump_pairs_nonzero sep bs :
  sep ≠ 0 → bytes_ok bs → Forall (λ c, negb (c =? 0) = true) (dump_pairs sep bs).
Proof.
  intros Hs. unfold dump_pairs. induction 1 as [|b bs Hb _ IH]; [constructor|]. cbn [flat_map].
  rewrite !Forall_app. split_and!; [by apply hex2_nonzero| |done].
  repeat constructor. by rewrite negb_true_iff, Z.eqb_neq.
Qed.

Lemma poke_at pre old bs rest :
  length old = length bs → poke (pre ++ old ++ rest) (zlen pre) bs = Some (pre ++ bs ++ rest).
Proof.
  intros Hl. assert (zlen old = zlen bs) as Hz by (unfold zlen; by rewrite Hl). unfold poke.
  pose proof (zlen_nonneg pre). pose proof (zlen_nonneg rest).
  rewrite !zlen_app, (proj2 (Z.leb_le _ _)), (proj2 (Z.leb_le _ _)) by lia. cbn [andb].
  rewrite take_app_zlen. do 3 f_equal. rewrite <- Hz, <- zlen_app, app_assoc. apply drop_app_zlen.
Qed.

Lemma poke_zeros pre bs n :
  (length bs ≤ n)%nat →
  poke (pre ++ replicate n 0) (zlen pre) bs = Some (pre ++ bs ++ replicate (n - length bs) 0).
Proof.
  intros Hn. replace (replicate n 0) with (replicate (length bs) 0 ++ replicate (n - length bs) 0)
    by (rewrite <- replicate_add; f_equal; lia).
  apply poke_at. apply length_replicate.
Qed.

Lemma dump_loop_spec sep max input i pre n :
  0 ≤ max → (max = 0 ∨ i ≤ max) → zlen pre = i * 3 →
  let shown := if max =? 0 then input else take (Z.to_nat (max - i)) input in
  (3 * length shown < n)%nat →
  dump_loop input sep i max (pre ++ replicate n 0) =
    Some (i + zlen shown, pre ++ dump_pairs sep shown ++ replicate (n - 3 * length shown) 0).
Proof.
  intros Hmax. revert i pre n. induction input as [|b input IH]; intros i pre n Hi Hpre shown Hn; subst shown.
  { cbn [dump_loop]. replace (if max =? 0 then [] else take _ []) with (@nil Z) by (by rewrite take_nil; case_if).
    cbn. rewrite Nat.sub_0_r. f_equal. f_equal. change (zlen []) with 0. lia. }
  cbn [dump_loop]. destruct ((max =? 0) || (i <? max))%bool eqn:E.
  - assert (∃ shown', (if max =? 0 then b :: input else take (Z.to_nat (max - i)) (b :: input)) = b :: shown' ∧
      (if max =? 0 then input else take (Z.to_nat (max - (i + 1))) input) = shown') as (shown' & Hs & Hs').
    { destruct (Z.eqb_spec max 0); [by eexists|]. cbn in E. bool_to_prop.
      replace (Z.to_nat (max - i)) with (S (Z.to_nat (max - (i + 1)))) by lia. by eexists. }
    rewrite Hs in *. cbn [length] in Hn. rewrite <- Hpre, poke_zeros by (cbn; lia).
    cbn [mbind option_bind]. change (length (hex2 b ++ [sep; 0])) with 4%nat.
    replace (hex2 b ++ [sep; 0]) with ((hex2 b ++ [sep]) ++ [0]) by (by rewrite <- app_assoc).
    rewrite <- app_assoc. change ([0] ++ replicate (n - 4) 0) with (replicate (S (n - 4)) 0).
    rewrite app_assoc. replace (S (n - 4)) with (n - 3)%nat by lia.
    rewrite IH.
    + rewrite Hs', zlen_cons. cbn [dump_pairs flat_map length]. fold (dump_pairs sep shown').
      rewrite <- !app_assoc. f_equal. f_equal; [lia|]. replace (n - 3 * S (length shown'))%nat with (n - 3 - 3 * length shown')%nat by lia. done.
    + destruct (Z.eqb_spec max 0); [by left|]. right. cbn in E. bool_to_prop. lia.
    + rewrite zlen_app, Hpre. change (zlen (hex2 b ++ [sep])) with 3. lia.
    + rewrite Hs'. lia.
  - bool_to_prop. rewrite (proj2 (Z.eqb_neq max 0)) in * by lia.
    replace (Z.to_nat (max - i)) with 0%nat by lia. cbn. rewrite Nat.sub_0_r. f_equal. f_equal.
    change (zlen []) with 0. lia.
Qed.

Lemma cstr_terminated (p r : list Z) :
  Forall (λ c, negb (c =? 0) = true) p → cstr (p ++ 0 :: r) = p.
Proof. unfold cstr. induction 1 as [|c p Hc _ IH]; [done|]. cbn. by rewrite Hc, IH. Qed.

(** The dump of a buffer of at least one byte is written within the memory allocated for
    it and is the text of the bytes in hexadecimal, separated, cut after the maximum with a
    mark. *)
Theorem dump_in_atom_correct input sep max :
  bytes_ok input → sep ≠ 0 → 0 ≤ max → input ≠ [] →
  ∃ buffer, _lldpctl_dump_in_atom input sep max = Some buffer ∧ cstr buffer = dump_text input sep max.
Proof.
  intros Hin Hsep Hmax Hne. unfold _lldpctl_dump_in_atom, dump_text. change (zlen truncation) with 5.
  pose proof (zlen_nonneg input) as Hz.
  destruct ((0 <? max) && (max <? zlen input))%bool eqn:E.
  - bool_to_prop. rename H into Hm1, H0 into Hm2. pose proof (dump_loop_spec sep max input 0 []
      (Z.to_nat (max * 3 + (5 + 1) + 1))) as H. cbn [app] in H. rewrite H; clear H; [|lia|lia|done|].
    2: { rewrite (proj2 (Z.eqb_neq max 0)), length_take by lia. lia. }
    rewrite (proj2 (Z.eqb_neq max 0)), Z.sub_0_r, Z.add_0_l by lia. cbn [mbind option_bind].
    set (shown := take (Z.to_nat max) input).
    assert (length shown = Z.to_nat max) as Hl by (unfold shown; rewrite length_take; unfold zlen in *; lia).
    replace (zlen shown * 3) with (zlen (dump_pairs sep shown))
      by (unfold zlen; rewrite dump_pairs_length; lia).
    rewrite poke_zeros by (rewrite Hl; cbn; lia).
    eexists. split; [done|]. rewrite <- app_assoc, app_assoc. apply cstr_terminated. apply Forall_app.
    split; [|by repeat constructor]. apply dump_pairs_nonzero; [done|]. by apply Forall_take.
  - pose proof (dump_loop_spec sep max input 0 [] (Z.to_nat (zlen input * 3 + 1))) as H.
    assert ((if max =? 0 then input else take (Z.to_nat (max - 0)) input) = input) as Hs.
    { destruct (Z.eqb_spec max 0); [done|]. apply take_ge. apply andb_false_iff in E.
      rewrite !Z.ltb_ge in E. unfold zlen in *. lia. }
    rewrite Hs in H. cbn [app] in H. rewrite H; clear H; [|lia|lia|done|unfold zlen; lia].
    cbn [mbind option_bind]. rewrite Z.add_0_l.
    pose proof (dump_pairs_length sep input) as Hl. pose proof (dump_pairs_nonzero sep input Hsep Hin) as Hnz.
    assert (dump_pairs sep input ≠ []) as Hp by (intros E'; rewrite E' in Hl; by destruct input).
    destruct (exists_last Hp) as (p & c & Hc). rewrite Hc in *.
    rewrite removelast_last. rewrite length_app in Hl. cbn in Hl.
    replace (zlen input * 3 - 1) with (zlen p) by (unfold zlen; lia).
    rewrite <- app_assoc, poke_at by done. eexists. split; [done|].
    apply cstr_terminated. by apply Forall_app in Hnz as [? _].
Qed.
