(* ===== verification/AtomSettings.v ===== *)
(** * Settings of a port in the client library (src/lib/atom-private.c)

    The methods of the atoms for the power over the link, a network policy and the power
    over LLDP-MED, and what the accessors of [Atoms] make of them: a value in its range is
    stored and read back and nothing else changes, a value out of range is refused, and the
    text of a setting sets it to the same value. *)

From S2P Require Import Prelude Bytes Const Structs Text Fixedpoint AtomMaps Atoms.
From stdpp Require Import strings.
#[local] Open Scope Z_scope.

Implicit Types (key : lldpctl_key_t) (value : Z) (text : option (list Z)).

Definition one_of (l : list Z) (v : Z) : bool := existsb (Z.eqb v) l.

(** ** Power over the link *)

Definition _lldpctl_atom_get_str_dot3_power (p : lldpd_dot3_power) key : access (option (list Z)) :=
  match key with
  | lldpctl_k_dot3_power_devicetype => Got (Some (map_lookup port_dot3_power_devicetype_map (pow_devicetype p)))
  | lldpctl_k_dot3_power_pairs => Got (Some (map_lookup port_dot3_power_pairs_map (pow_pairs p)))
  | lldpctl_k_dot3_power_class => Got (Some (map_lookup port_dot3_power_class_map (pow_class p)))
  | lldpctl_k_dot3_power_source =>
      Got (Some (map_lookup (if pow_devicetype p =? LLDP_DOT3_POWER_PSE
                             then port_dot3_power_pse_source_map else port_dot3_power_pd_source_map)
                   (pow_source p)))
  | lldpctl_k_dot3_power_priority => Got (Some (map_lookup port_dot3_power_priority_map (pow_priority p)))
  | _ => NOT_EXIST
  end.

Definition _lldpctl_atom_get_int_dot3_power (p : lldpd_dot3_power) key : access Z :=
  match key with
  | lldpctl_k_dot3_power_devicetype => Got (pow_devicetype p)
  | lldpctl_k_dot3_power_supported => Got (pow_supported p)
  | lldpctl_k_dot3_power_enabled => Got (pow_enabled p)
  | lldpctl_k_dot3_power_paircontrol => Got (pow_paircontrol p)
  | lldpctl_k_dot3_power_pairs => Got (pow_pairs p)
  | lldpctl_k_dot3_power_class => Got (pow_class p)
  | lldpctl_k_dot3_power_type => Got (pow_powertype p)
  | lldpctl_k_dot3_power_source => Got (pow_source p)
  | lldpctl_k_dot3_power_priority => Got (pow_priority p)
  | lldpctl_k_dot3_power_requested => Got (pow_requested p * 100)
  | lldpctl_k_dot3_power_allocated => Got (pow_allocated p * 100)
  | _ => NOT_EXIST
  end.

Definition _lldpctl_atom_set_int_dot3_power (local : bool) (p : lldpd_dot3_power) key value
    : access lldpd_dot3_power :=
  if negb local then NOT_EXIST
  else match key with
  | lldpctl_k_dot3_power_devicetype =>
      if one_of [0; LLDP_DOT3_POWER_PSE; LLDP_DOT3_POWER_PD] value
      then Got (p<|pow_devicetype := u8 value|>) else BAD_VALUE
  | lldpctl_k_dot3_power_supported =>
      if one_of [0; 1] value then Got (p<|pow_supported := u8 value|>) else BAD_VALUE
  | lldpctl_k_dot3_power_enabled =>
      if one_of [0; 1] value then Got (p<|pow_enabled := u8 value|>) else BAD_VALUE
  | lldpctl_k_dot3_power_paircontrol =>
      if one_of [0; 1] value then Got (p<|pow_paircontrol := u8 value|>) else BAD_VALUE
  | lldpctl_k_dot3_power_pairs =>
      if one_of [1; 2] value then Got (p<|pow_pairs := u8 value|>) else BAD_VALUE
  | lldpctl_k_dot3_power_class =>
      if ((value <? 0) || (5 <? value))%bool then BAD_VALUE else Got (p<|pow_class := u8 value|>)
  | lldpctl_k_dot3_power_type =>
      if one_of [LLDP_DOT3_POWER_8023AT_TYPE1; LLDP_DOT3_POWER_8023AT_TYPE2; LLDP_DOT3_POWER_8023AT_OFF] value
      then Got (p<|pow_powertype := u8 value|>) else BAD_VALUE
  | lldpctl_k_dot3_power_source =>
      if ((value <? 0) || (3 <? value))%bool then BAD_VALUE else Got (p<|pow_source := u8 value|>)
  | lldpctl_k_dot3_power_priority =>
      if one_of [LLDP_DOT3_POWER_PRIO_UNKNOWN; LLDP_DOT3_POWER_PRIO_CRITICAL;
                 LLDP_DOT3_POWER_PRIO_HIGH; LLDP_DOT3_POWER_PRIO_LOW] value
      then Got (p<|pow_priority := u8 value|>) else BAD_VALUE
  | lldpctl_k_dot3_power_allocated =>
      if value <? 0 then BAD_VALUE else Got (p<|pow_allocated := u16 (value / 100)|>)
  | lldpctl_k_dot3_power_requested =>
      if value <? 0 then BAD_VALUE else Got (p<|pow_requested := u16 (value / 100)|>)
  | _ => NOT_EXIST
  end.

Definition _lldpctl_atom_set_str_dot3_power (local : bool) (p : lldpd_dot3_power) key text
    : access lldpd_dot3_power :=
  let set m := _lldpctl_atom_set_int_dot3_power local p key (map_reverse_lookup m text) in
  match key with
  | lldpctl_k_dot3_power_devicetype => set port_dot3_power_devicetype_map
  | lldpctl_k_dot3_power_pairs => set port_dot3_power_pairs_map
  | lldpctl_k_dot3_power_class => set port_dot3_power_class_map
  | lldpctl_k_dot3_power_priority => set port_dot3_power_priority_map
  | _ => NOT_EXIST
  end.

Definition atom_dot3_power : atom_ops lldpd_dot3_power :=
  {| op_get_str := Some _lldpctl_atom_get_str_dot3_power;
     op_get_int := Some _lldpctl_atom_get_int_dot3_power; op_get_buffer := None;
     op_set_str := Some _lldpctl_atom_set_str_dot3_power;
     op_set_int := Some _lldpctl_atom_set_int_dot3_power; op_set_buffer := None |}.

(** ** A network policy *)

Definition _lldpctl_atom_get_int_med_policy (m : lldpd_med_policy) key : access Z :=
  match key with
  | lldpctl_k_med_policy_type => Got (pol_type m)
  | lldpctl_k_med_policy_unknown => Got (pol_unknown m)
  | lldpctl_k_med_policy_tagged => Got (pol_tagged m)
  | lldpctl_k_med_policy_vid => Got (pol_vid m)
  | lldpctl_k_med_policy_dscp => Got (pol_dscp m)
  | lldpctl_k_med_policy_priority => Got (pol_priority m)
  | _ => NOT_EXIST
  end.

Definition _lldpctl_atom_set_int_med_policy (local : bool) (m : lldpd_med_policy) key value
    : access lldpd_med_policy :=
  let out_of (low high : Z) := ((value <? low) || (high <? value))%bool in
  if negb local then NOT_EXIST
  else match key with
  | lldpctl_k_med_policy_type =>
      if out_of 0 LLDP_MED_APPTYPE_LAST then BAD_VALUE else Got (m<|pol_type := u8 value|>)
  | lldpctl_k_med_policy_unknown =>
      if (negb (value =? 0) && negb (value =? 1))%bool then BAD_VALUE else Got (m<|pol_unknown := u8 value|>)
  | lldpctl_k_med_policy_tagged =>
      if (negb (value =? 0) && negb (value =? 1))%bool then BAD_VALUE else Got (m<|pol_tagged := u8 value|>)
  | lldpctl_k_med_policy_vid =>
      if out_of 0 4094 then BAD_VALUE else Got (m<|pol_vid := u16 value|>)
  | lldpctl_k_med_policy_dscp =>
      if out_of 0 63 then BAD_VALUE else Got (m<|pol_dscp := u8 value|>)
  | lldpctl_k_med_policy_priority =>
      if out_of 0 7 then BAD_VALUE else Got (m<|pol_priority := u8 value|>)
  | _ => NOT_EXIST
  end.

Definition _lldpctl_atom_get_str_med_policy (m : lldpd_med_policy) key : access (option (list Z)) :=
  match key with
  | lldpctl_k_med_policy_type => Got (Some (map_lookup port_med_policy_map (pol_type m)))
  | lldpctl_k_med_policy_priority => Got (Some (map_lookup port_med_policy_prio_map (pol_priority m)))
  | _ => NOT_EXIST
  end.

Definition _lldpctl_atom_set_str_med_policy (local : bool) (m : lldpd_med_policy) key text
    : access lldpd_med_policy :=
  let set map := _lldpctl_atom_set_int_med_policy local m key (map_reverse_lookup map text) in
  match key with
  | lldpctl_k_med_policy_type => set port_med_policy_map
  | lldpctl_k_med_policy_priority => set port_med_policy_prio_map
  | _ => NOT_EXIST
  end.

Definition atom_med_policy : atom_ops lldpd_med_policy :=
  {| op_get_str := Some _lldpctl_atom_get_str_med_policy;
     op_get_int := Some _lldpctl_atom_get_int_med_policy; op_get_buffer := None;
     op_set_str := Some _lldpctl_atom_set_str_med_policy;
     op_set_int := Some _lldpctl_atom_set_int_med_policy; op_set_buffer := None |}.

(** ** Power over LLDP-MED *)

Definition _lldpctl_atom_get_str_med_power (p : lldpd_med_power) key : access (option (list Z)) :=
  match key with
  | lldpctl_k_med_power_type => Got (Some (map_lookup port_med_pow_devicetype_map (mpow_devicetype p)))
  | lldpctl_k_med_power_source => Got (Some (map_lookup port_med_pow_source_map (mpow_source p)))
  | lldpctl_k_med_power_priority => Got (Some (map_lookup port_med_pow_priority_map (mpow_priority p)))
  | _ => NOT_EXIST
  end.

Definition _lldpctl_atom_get_int_med_power (p : lldpd_med_power) key : access Z :=
  match key with
  | lldpctl_k_med_power_type => Got (mpow_devicetype p)
  | lldpctl_k_med_power_source => Got (mpow_source p)
  | lldpctl_k_med_power_priority => Got (mpow_priority p)
  | lldpctl_k_med_power_val => Got (mpow_val p * 100)
  | _ => NOT_EXIST
  end.

Definition _lldpctl_atom_set_int_med_power (local : bool) (p : lldpd_med_power) key value
    : access lldpd_med_power :=
  if negb local then NOT_EXIST
  else match key with
  | lldpctl_k_med_power_type =>
      if one_of [0; LLDP_MED_POW_TYPE_PSE; LLDP_MED_POW_TYPE_PD] value
      then Got (p<|mpow_devicetype := u8 value|>) else BAD_VALUE
  | lldpctl_k_med_power_source =>
      if one_of [LLDP_MED_POW_SOURCE_PRIMARY; LLDP_MED_POW_SOURCE_BACKUP] value
      then if negb (mpow_devicetype p =? LLDP_MED_POW_TYPE_PSE) then BAD_VALUE
           else Got (p<|mpow_source := u8 value|>)
      else if one_of [LLDP_MED_POW_SOURCE_PSE; LLDP_MED_POW_SOURCE_LOCAL; LLDP_MED_POW_SOURCE_BOTH] value
      then if negb (mpow_devicetype p =? LLDP_MED_POW_TYPE_PD) then BAD_VALUE
           else Got (p<|mpow_source := u8 value|>)
      else if value =? LLDP_MED_POW_SOURCE_UNKNOWN
      then Got (p<|mpow_source := u8 value|>)
      else BAD_VALUE
  | lldpctl_k_med_power_priority =>
      if ((value <? 0) || (3 <? value))%bool then BAD_VALUE else Got (p<|mpow_priority := u8 value|>)
  | lldpctl_k_med_power_val =>
      if value <? 0 then BAD_VALUE else Got (p<|mpow_val := u16 (value / 100)|>)
  | _ => NOT_EXIST
  end.

Definition _lldpctl_atom_set_str_med_power (local : bool) (p : lldpd_med_power) key text
    : access lldpd_med_power :=
  let set m := _lldpctl_atom_set_int_med_power local p key (map_reverse_lookup m text) in
  match key with
  | lldpctl_k_med_power_type => set port_med_pow_devicetype_map
  | lldpctl_k_med_power_source => set port_med_pow_source_map2
  | lldpctl_k_med_power_priority => set port_med_pow_priority_map
  | _ => NOT_EXIST
  end.

Definition atom_med_power : atom_ops lldpd_med_power :=
  {| op_get_str := Some _lldpctl_atom_get_str_med_power;
     op_get_int := Some _lldpctl_atom_get_int_med_power; op_get_buffer := None;
     op_set_str := Some _lldpctl_atom_set_str_med_power;
     op_set_int := Some _lldpctl_atom_set_int_med_power; op_set_buffer := None |}.

(** ** What the settings promise *)

(** The reference of a type of settings: the values allowed under a key, the keys counted in
    units of 100 on 16 bits, and the tables of words for writing and for reading. *)
Record settings (A : Type) := {
  allowed : A → lldpctl_key_t → Z → bool;
  scaled : lldpctl_key_t → bool;
  set_words : lldpctl_key_t → option lldpctl_map_t;
  get_words : A → lldpctl_key_t → option lldpctl_map_t
}.
Arguments allowed {A}.
Arguments scaled {A}.
Arguments set_words {A}.
Arguments get_words {A}.

(** What is read back after [v] was written. *)
Definition kept {A} (s : settings A) key (v : Z) : Z := if scaled s key then u16 (v / 100) * 100 else v.

(** A table whose words are distinct and cannot be taken for numbers. *)
Definition words_ok (m : lldpctl_map_t) : Prop :=
  words_distinct m ∧ Forall (λ e, starts_digit 10 (snd e) = false) m.
#[global] Instance words_ok_dec m : Decision (words_ok m).
Proof. unfold words_ok. apply _. Defined.

Class Settings {A} (ops : atom_ops A) (s : settings A) : Prop := {
  (** nothing of a remote port can be changed *)
  remote_refused a key value : lldpctl_atom_set_int ops false a key value = NOT_EXIST;
  (** a value is stored exactly when it is allowed *)
  set_int_correct a key value :
    match lldpctl_atom_set_int ops true a key value with
    | Got a' => allowed s a key value = true ∧
                ∀ key', lldpctl_atom_get_int ops a' key' =
                        if decide (key' = key) then Got (kept s key value)
                        else lldpctl_atom_get_int ops a key'
    | Err e => allowed s a key value = false ∧
               e = match lldpctl_atom_get_int ops a key with
                   | Err e => e | _ => LLDPCTL_ERR_BAD_VALUE
                   end
    | Fault => False
    end;
  (** an atom is what its integers are *)
  get_int_ext a b : (∀ key, lldpctl_atom_get_int ops a key = lldpctl_atom_get_int ops b key) → a = b;
  get_int_total a key : (∃ v, lldpctl_atom_get_int ops a key = Got v) ∨ lldpctl_atom_get_int ops a key = NOT_EXIST;
  get_str_words a key :
    (∃ get, op_get_str ops = Some get ∧
      get a key = match get_words s a key, lldpctl_atom_get_int ops a key with
                  | Some m, Got v => Got (Some (map_lookup m v))
                  | _, _ => NOT_EXIST
                  end);
  set_str_words local a key text :
    (∃ set, op_set_str ops = Some set ∧
      set local a key text = match set_words s key with
                             | Some m => lldpctl_atom_set_int ops local a key (map_reverse_lookup m text)
                             | None => NOT_EXIST
                             end);
  allowed_range a key v : allowed s a key v = true → kept s key v = v → 0 ≤ v < 2 ^ 63;
  set_words_ok key m : set_words s key = Some m → words_ok m ∧ ∀ a, allowed s a key (-1) = false;
  set_words_readable a key m : set_words s key = Some m → ∃ v, lldpctl_atom_get_int ops a key = Got v;
  no_buffers : op_get_buffer ops = None ∧ op_set_buffer ops = None
}.

Definition within (low v high : Z) : bool := (low <=? v) && (v <=? high).

Definition dot3_power_settings : settings lldpd_dot3_power := {|
  allowed _ key v := match key with
    | lldpctl_k_dot3_power_devicetype | lldpctl_k_dot3_power_type => within 0 v 2
    | lldpctl_k_dot3_power_supported | lldpctl_k_dot3_power_enabled
    | lldpctl_k_dot3_power_paircontrol => within 0 v 1
    | lldpctl_k_dot3_power_pairs => within 1 v 2
    | lldpctl_k_dot3_power_class => within 0 v 5
    | lldpctl_k_dot3_power_source | lldpctl_k_dot3_power_priority => within 0 v 3
    | lldpctl_k_dot3_power_allocated | lldpctl_k_dot3_power_requested => 0 <=? v
    | _ => false
    end;
  scaled key := match key with
    | lldpctl_k_dot3_power_allocated | lldpctl_k_dot3_power_requested => true | _ => false end;
  set_words key := match key with
    | lldpctl_k_dot3_power_devicetype => Some port_dot3_power_devicetype_map
    | lldpctl_k_dot3_power_pairs => Some port_dot3_power_pairs_map
    | lldpctl_k_dot3_power_class => Some port_dot3_power_class_map
    | lldpctl_k_dot3_power_priority => Some port_dot3_power_priority_map
    | _ => None
    end;
  get_words p key := match key with
    | lldpctl_k_dot3_power_devicetype => Some port_dot3_power_devicetype_map
    | lldpctl_k_dot3_power_pairs => Some port_dot3_power_pairs_map
    | lldpctl_k_dot3_power_class => Some port_dot3_power_class_map
    | lldpctl_k_dot3_power_source =>
        Some (if pow_devicetype p =? LLDP_DOT3_POWER_PSE
              then port_dot3_power_pse_source_map else port_dot3_power_pd_source_map)
    | lldpctl_k_dot3_power_priority => Some port_dot3_power_priority_map
    | _ => None
    end
|}.

Definition med_policy_settings : settings lldpd_med_policy := {|
  allowed _ key v := match key with
    | lldpctl_k_med_policy_type => within 0 v 8
    | lldpctl_k_med_policy_unknown | lldpctl_k_med_policy_tagged => within 0 v 1
    | lldpctl_k_med_policy_vid => within 0 v 4094
    | lldpctl_k_med_policy_dscp => within 0 v 63
    | lldpctl_k_med_policy_priority => within 0 v 7
    | _ => false
    end;
  scaled _ := false;
  set_words key := match key with
    | lldpctl_k_med_policy_type => Some port_med_policy_map
    | lldpctl_k_med_policy_priority => Some port_med_policy_prio_map
    | _ => None
    end;
  get_words _ key := match key with
    | lldpctl_k_med_policy_type => Some port_med_policy_map
    | lldpctl_k_med_policy_priority => Some port_med_policy_prio_map
    | _ => None
    end
|}.

(** The source is unknown, or one that fits the type of the device. *)
Definition med_power_settings : settings lldpd_med_power := {|
  allowed p key v := match key with
    | lldpctl_k_med_power_type => within 0 v 2
    | lldpctl_k_med_power_source =>
        (v =? 1) || ((mpow_devicetype p =? LLDP_MED_POW_TYPE_PSE) && within 2 v 3)
                 || ((mpow_devicetype p =? LLDP_MED_POW_TYPE_PD) && within 5 v 7)
    | lldpctl_k_med_power_priority => within 0 v 3
    | lldpctl_k_med_power_val => 0 <=? v
    | _ => false
    end;
  scaled key := match key with lldpctl_k_med_power_val => true | _ => false end;
  set_words key := match key with
    | lldpctl_k_med_power_type => Some port_med_pow_devicetype_map
    | lldpctl_k_med_power_source => Some port_med_pow_source_map2
    | lldpctl_k_med_power_priority => Some port_med_pow_priority_map
    | _ => None
    end;
  get_words _ key := match key with
    | lldpctl_k_med_power_type => Some port_med_pow_devicetype_map
    | lldpctl_k_med_power_source => Some port_med_pow_source_map
    | lldpctl_k_med_power_priority => Some port_med_pow_priority_map
    | _ => None
    end
|}.

(** ** The three types keep the promise *)

Ltac unfold_constants :=
  unfold LLDP_DOT3_POWER_PSE, LLDP_DOT3_POWER_PD, LLDP_DOT3_POWER_8023AT_TYPE1,
    LLDP_DOT3_POWER_8023AT_TYPE2, LLDP_DOT3_POWER_8023AT_OFF, LLDP_DOT3_POWER_PRIO_UNKNOWN,
    LLDP_DOT3_POWER_PRIO_CRITICAL, LLDP_DOT3_POWER_PRIO_HIGH, LLDP_DOT3_POWER_PRIO_LOW,
    LLDP_MED_APPTYPE_LAST, LLDP_MED_APPTYPE_VIDEOSIGNAL, LLDP_MED_POW_TYPE_PSE, LLDP_MED_POW_TYPE_PD,
    LLDP_MED_POW_SOURCE_PRIMARY, LLDP_MED_POW_SOURCE_BACKUP, LLDP_MED_POW_SOURCE_PSE,
    LLDP_MED_POW_SOURCE_LOCAL, LLDP_MED_POW_SOURCE_BOTH, LLDP_MED_POW_SOURCE_UNKNOWN in *.

(** A guard in the code and the range of the reference say the same. *)
Ltac solve_guard :=
  unfold within, one_of; cbn [existsb]; unfold_constants;
  apply eq_bool_prop_intro; rewrite !Is_true_true;
  rewrite ?negb_true_iff, ?orb_true_iff, ?orb_false_iff, ?andb_true_iff, ?andb_false_iff,
    ?negb_false_iff, ?Z.eqb_eq, ?Z.leb_le, ?Z.ltb_lt, ?Z.ltb_ge, ?Z.eqb_neq; 
  intuition (congruence || lia).

Section Stored.
Context {A : Type} (ops : atom_ops A) (s : settings A).

(** The promise on one call. *)
Definition set_result (a : A) key value (r : access A) : Prop :=
  match r with
  | Got a' => allowed s a key value = true ∧
              ∀ key', lldpctl_atom_get_int ops a' key' =
                      if decide (key' = key) then Got (kept s key value)
                      else lldpctl_atom_get_int ops a key'
  | Err e => allowed s a key value = false ∧
             e = match lldpctl_atom_get_int ops a key with
                 | Err e => e | _ => LLDPCTL_ERR_BAD_VALUE
                 end
  | Fault => False
  end.

Lemma set_guarded a a' key value g v :
  lldpctl_atom_get_int ops a key = Got v →
  allowed s a key value = g →
  (g = true → lldpctl_atom_get_int ops a' key = Got (kept s key value)) →
  (∀ key', key' ≠ key → lldpctl_atom_get_int ops a' key' = lldpctl_atom_get_int ops a key') →
  set_result a key value (if g then Got a' else BAD_VALUE).
Proof.
  intros Hv Hg Hsame Hother. unfold set_result. destruct g; [|by rewrite Hv].
  split; [done|]. intros key'. destruct (decide (key' = key)) as [->|]; auto.
Qed.

Lemma set_guarded_not a a' key value g v :
  lldpctl_atom_get_int ops a key = Got v →
  allowed s a key value = negb g →
  (negb g = true → lldpctl_atom_get_int ops a' key = Got (kept s key value)) →
  (∀ key', key' ≠ key → lldpctl_atom_get_int ops a' key' = lldpctl_atom_get_int ops a key') →
  set_result a key value (if g then BAD_VALUE else Got a').
Proof. intros. destruct g; [apply (set_guarded a a' key value false v)|apply (set_guarded a a' key value true v)]; auto. Qed.
End Stored.

(** An allowed value fits in its byte or its word. *)
Ltac solve_kept :=
  let H := fresh in intros H; cbn in H |- *; unfold kept; cbn; try reflexivity; f_equal;
  unfold within, one_of in H; cbn [existsb] in H; unfold_constants;
  rewrite ?negb_true_iff, ?orb_true_iff, ?orb_false_iff, ?andb_true_iff, ?andb_false_iff,
    ?negb_false_iff, ?Z.eqb_eq, ?Z.leb_le, ?Z.ltb_ge in H;
  unfold u8, u16; apply Z.mod_small; lia.
Ltac solve_settings :=
  lazymatch goal with
  | |- set_result _ _ _ _ _ (if _ then Got _ else _) =>
      eapply set_guarded; [reflexivity|cbn; solve_guard|solve_kept|by intros []]
  | |- set_result _ _ _ _ _ (if _ then _ else Got _) =>
      eapply set_guarded_not; [reflexivity|cbn; solve_guard|solve_kept|by intros []]
  | |- _ => by split
  end.

Lemma dot3_power_set_int p key value :
  set_result atom_dot3_power dot3_power_settings p key value
    (lldpctl_atom_set_int atom_dot3_power true p key value).
Proof. destruct key; cbn; solve_settings. Qed.

Lemma med_policy_set_int m key value :
  set_result atom_med_policy med_policy_settings m key value
    (lldpctl_atom_set_int atom_med_policy true m key value).
Proof. destruct key; cbn; solve_settings. Qed.

(** The guards of the source, as one test. *)
Lemma med_power_set_source p value :
  _lldpctl_atom_set_int_med_power true p lldpctl_k_med_power_source value =
    if allowed med_power_settings p lldpctl_k_med_power_source value
    then Got (p<|mpow_source := u8 value|>) else BAD_VALUE.
Proof.
  cbn. unfold within, one_of. cbn [existsb]. unfold_constants. rewrite !orb_false_r.
  destruct (Z.eqb_spec value 2) as [->|]; [by destruct (mpow_devicetype p =? 1), (mpow_devicetype p =? 2)|].
  destruct (Z.eqb_spec value 3) as [->|]; [by destruct (mpow_devicetype p =? 1), (mpow_devicetype p =? 2)|].
  replace ((2 <=? value) && (value <=? 3))%bool with false by (symmetry; rewrite andb_false_iff, !Z.leb_gt; lia).
  rewrite andb_false_r, orb_false_r. cbn [orb].
  destruct (Z.eqb_spec value 1) as [->|]; [done|].
  replace ((5 <=? value) && (value <=? 7))%bool
    with ((value =? 5) || ((value =? 6) || (value =? 7)))%bool
    by (apply eq_bool_prop_intro; rewrite !Is_true_true, !orb_true_iff, andb_true_iff, !Z.eqb_eq, !Z.leb_le; lia).
  by destruct (mpow_devicetype p =? 2), ((value =? 5) || ((value =? 6) || (value =? 7)))%bool.
Qed.

Lemma med_power_set_int p key value :
  set_result atom_med_power med_power_settings p key value
    (lldpctl_atom_set_int atom_med_power true p key value).
Proof.
  destruct key; try (cbn; solve_settings).
  unfold lldpctl_atom_set_int. cbn [op_set_int atom_med_power]. rewrite med_power_set_source.
  eapply set_guarded; [reflexivity|done|solve_kept|by intros []].
Qed.

(** Atoms with the same integers are equal: compare them key by key. *)
Ltac same_at H key := let E := fresh "E" in pose proof (H key) as E; cbn in E; injection E as E.
Ltac solve_words :=
  let H := fresh in intros [] ? H; try discriminate H; injection H as <-;
  (split; [apply (bool_decide_unpack _); vm_compute; exact I|intros; cbn; by rewrite ?andb_false_r]).
Ltac solve_range :=
  let H := fresh in let K := fresh in
  intros ? [] v H K; try discriminate H; unfold kept in K; cbn in H, K;
  repeat match type of K with context [u16 ?x] => pose proof (Z.mod_pos_bound x (2 ^ 16)); unfold u16 in K end;
  unfold within in H; rewrite ?orb_true_iff, ?andb_true_iff, ?Z.eqb_eq, ?Z.leb_le in H; lia.
Ltac solve_laws :=
  lazymatch goal with
  | |- ∀ a key value, lldpctl_atom_set_int _ false _ _ _ = _ => by intros ? []
  | |- ∀ a key, _ ∨ _ => intros ? []; (right; reflexivity) || (left; by eexists)
  | |- ∀ a key, ∃ get, _ => intros ? []; eexists; (split; [reflexivity|done])
  | |- ∀ local a key text, _ => intros ? ? [] ?; eexists; (split; [reflexivity|done])
  | |- ∀ a key v, _ → kept _ _ _ = _ → _ => solve_range
  | |- ∀ key m, _ → words_ok _ ∧ _ => solve_words
  | |- ∀ a key m, _ → ∃ v, _ => let H := fresh in intros ? [] ? H; try discriminate H; by eexists
  | |- _ => idtac
  end.

#[global] Instance dot3_power_ok : Settings atom_dot3_power dot3_power_settings.
Proof.
  split; solve_laws; [apply dot3_power_set_int| |done].
  intros [] [] H. same_at H lldpctl_k_dot3_power_devicetype. same_at H lldpctl_k_dot3_power_supported.
  same_at H lldpctl_k_dot3_power_enabled. same_at H lldpctl_k_dot3_power_paircontrol.
  same_at H lldpctl_k_dot3_power_pairs. same_at H lldpctl_k_dot3_power_class.
  same_at H lldpctl_k_dot3_power_type. same_at H lldpctl_k_dot3_power_source.
  same_at H lldpctl_k_dot3_power_priority. same_at H lldpctl_k_dot3_power_requested.
  same_at H lldpctl_k_dot3_power_allocated. f_equal; lia.
Qed.

#[global] Instance med_policy_ok : Settings atom_med_policy med_policy_settings.
Proof.
  split; solve_laws; [apply med_policy_set_int| |done].
  intros [] [] H. same_at H lldpctl_k_med_policy_type. same_at H lldpctl_k_med_policy_unknown.
  same_at H lldpctl_k_med_policy_tagged. same_at H lldpctl_k_med_policy_vid.
  same_at H lldpctl_k_med_policy_dscp. same_at H lldpctl_k_med_policy_priority. f_equal; lia.
Qed.

#[global] Instance med_power_ok : Settings atom_med_power med_power_settings.
Proof.
  split; solve_laws; [apply med_power_set_int| |done].
  intros [] [] H. same_at H lldpctl_k_med_power_type. same_at H lldpctl_k_med_power_source.
  same_at H lldpctl_k_med_power_priority. same_at H lldpctl_k_med_power_val. f_equal; lia.
Qed.

(** ** What a user of the accessors sees *)

Section Users.
Context {A : Type} (ops : atom_ops A) (s : settings A) `{!Settings ops s}.
Implicit Types (a : A).

(** Allowed values under every key, as they come back after having been written. *)
Definition setting_ok a : Prop :=
  ∀ key v, lldpctl_atom_get_int ops a key = Got v → allowed s a key v = true ∧ kept s key v = v.

(** Writing the value that is there changes nothing. *)
Lemma set_int_same a key v :
  setting_ok a → lldpctl_atom_get_int ops a key = Got v →
  lldpctl_atom_set_int ops true a key v = Got a.
Proof.
  intros Hok Hv. destruct (Hok key v Hv) as [Hal Hk].
  pose proof (set_int_correct a key v) as H. destruct (lldpctl_atom_set_int ops true a key v) as [a'|e|].
  - destruct H as [_ H]. f_equal. apply (get_int_ext (ops := ops)). intros key'. rewrite H.
    destruct (decide (key' = key)) as [->|]; [|done]. by rewrite Hv, Hk.
  - destruct H as [H _]. congruence.
  - done.
Qed.

(** No setter reports another error. *)
Lemma set_int_errors local a key v e :
  lldpctl_atom_set_int ops local a key v = Err e →
  e = LLDPCTL_ERR_NOT_EXIST ∨ (e = LLDPCTL_ERR_BAD_VALUE ∧ local = true).
Proof.
  destruct local; [|rewrite remote_refused; intros [=]; by left].
  intros He. pose proof (set_int_correct a key v) as H. rewrite He in H. destruct H as [_ ->].
  destruct (get_int_total a key) as [[? ->]| ->]; auto.
Qed.

(** Text that is no word of the table is left to the other setters. *)
Lemma set_str_falls_back local a key t v :
  converts (Some t) = Some v →
  (∀ m, set_words s key = Some m → map_reverse_lookup m (Some t) = -1) →
  lldpctl_atom_set_str ops local a key (Some t) = lldpctl_atom_set_int ops local a key v.
Proof.
  intros Hv Hnw. destruct (set_str_words local a key (Some t)) as (set & Hset & Hval).
  assert (∃ bad : bool, set local a key (Some t) =
    Err (if bad then LLDPCTL_ERR_BAD_VALUE else LLDPCTL_ERR_NOT_EXIST) ∧
    (bad = true → lldpctl_atom_set_int ops local a key v ≠ NOT_EXIST)) as (bad & He & Hb).
  { rewrite Hval. destruct (set_words s key) as [m|] eqn:Hm; [|by exists false].
    rewrite (Hnw m eq_refl). destruct local; [|rewrite remote_refused; by exists false].
    destruct (set_words_ok key m Hm) as [_ Hal]. destruct (set_words_readable a key m Hm) as [n Hn].
    pose proof (set_int_correct a key (-1)) as H. pose proof (set_int_correct a key v) as H'.
    destruct (lldpctl_atom_set_int ops true a key (-1)) as [a'|e|]; [|destruct H as [_ ->]|done].
    - destruct H as [H _]. by rewrite Hal in H.
    - rewrite Hn. exists true. split; [done|]. intros _ E. rewrite E, Hn in H'. by destruct H'. }
  unfold lldpctl_atom_set_str. rewrite Hset, He. unfold try_next at 1.
  replace ((_ =? _) || (_ =? _))%bool with true by (by destruct bad).
  unfold set_str_as_int. rewrite Hv.
  destruct (op_set_int ops) as [si|] eqn:Hsi; revert Hb; unfold lldpctl_atom_set_int; rewrite Hsi.
  - intros Hb. destruct (si local a key v) as [|e|] eqn:Hi; [done| |done].
    destruct (set_int_errors local a key v e) as [->|[-> _]];
      [unfold lldpctl_atom_set_int; by rewrite Hsi| |].
    + cbn. unfold set_str_as_buffer. rewrite (proj2 (no_buffers (s := s))).
      destruct bad; [|done]. by specialize (Hb eq_refl).
    + cbn. unfold set_str_as_buffer. rewrite (proj2 (no_buffers (s := s))). by destruct bad.
  - intros Hb. unfold set_str_as_buffer. rewrite (proj2 (no_buffers (s := s))).
    destruct bad; [by specialize (Hb eq_refl)|done].
Qed.

(** The text of a number writes the number. *)
Lemma set_str_number local a key v :
  0 ≤ v < 2 ^ 63 →
  lldpctl_atom_set_str ops local a key (Some (decimal v)) = lldpctl_atom_set_int ops local a key v.
Proof.
  intros Hv. apply set_str_falls_back; [by apply converts_decimal|]. intros m Hm.
  apply map_reverse_number; [done|]. by destruct (set_words_ok key m Hm) as [[_ ?] _].
Qed.

(** A word of the table writes its value. *)
Lemma set_str_word a key m v a' :
  set_words s key = Some m → v ∈ map fst m → lldpctl_atom_set_int ops true a key v = Got a' →
  lldpctl_atom_set_str ops true a key (Some (map_lookup m v)) = Got a'.
Proof.
  intros Hm Hv Ha. destruct (set_words_ok key m Hm) as [[Hd _] _].
  destruct (set_str_words true a key (Some (map_lookup m v))) as (set & Hset & Hval).
  unfold lldpctl_atom_set_str. rewrite Hset, Hval, Hm.
  rewrite map_reverse_lookup_value by done. by rewrite Ha.
Qed.

(** A setting whose text can be written back: a number, or a value that has a word in the
    table both sides use. *)
Definition renders a key : Prop :=
  match get_words s a key with
  | None => True
  | Some m => set_words s key = Some m ∧
              ∀ v, lldpctl_atom_get_int ops a key = Got v → v ∈ map fst m
  end.

(** The text of a setting: its word, or its number. *)
Lemma get_str_value a key :
  lldpctl_atom_get_str ops a key =
    match lldpctl_atom_get_int ops a key with
    | Got v => Got (Some (match get_words s a key with Some m => map_lookup m v | None => ldecimal v end))
    | _ => NOT_EXIST
    end.
Proof.
  destruct (get_str_words (ops := ops) (s := s) a key) as (get & Hget & Hval).
  destruct (no_buffers (ops := ops) (s := s)) as [Hnb _].
  assert (get_str_from_buffer ops a key = NOT_EXIST) as Hbuf by (unfold get_str_from_buffer; by rewrite Hnb).
  unfold lldpctl_atom_get_str. rewrite Hget, Hval.
  destruct (get_int_total (ops := ops) (s := s) a key) as [[v Hv]|Hv]; rewrite Hv.
  - destruct (get_words s a key) as [m|]; [done|]. cbn. unfold get_str_from_int.
    revert Hv. unfold lldpctl_atom_get_int. destruct (op_get_int ops); [|done]. by intros ->.
  - replace (match get_words s a key with Some m => _ | None => _ end) with (@Err (option (list Z)) LLDPCTL_ERR_NOT_EXIST)
      by (by destruct (get_words s a key)). cbn.
    unfold get_str_from_int. revert Hv. unfold lldpctl_atom_get_int. destruct (op_get_int ops); [|done].
    by intros ->.
Qed.

(** The text of a setting, written, leaves the atom as it is. *)
Lemma set_str_get_str a key t :
  setting_ok a → renders a key →
  lldpctl_atom_get_str ops a key = Got (Some t) →
  lldpctl_atom_set_str ops true a key (Some t) = Got a.
Proof.
  intros Hok Hr. rewrite get_str_value.
  destruct (lldpctl_atom_get_int ops a key) as [v| |] eqn:Hv; [|done..]. intros [= <-].
  pose proof (set_int_same a key v Hok Hv) as Hs. unfold renders in Hr.
  destruct (get_words s a key) as [m|].
  - destruct Hr as [Hm Hin]. eapply set_str_word; [done|by apply Hin|done].
  - destruct (Hok key v Hv) as [Hal Hk]. pose proof (allowed_range a key v Hal Hk). unfold ldecimal.
    rewrite (proj2 (Z.ltb_ge v 0)), Z.abs_eq by lia. cbn [app]. by rewrite set_str_number by lia.
Qed.
End Users.

(** A value that a key can hold: any allowed one, or for a power counted in units of 100 on 16
    bits a multiple of 100 below 6553600. *)
Definition representable {A} (s : settings A) key (value : Z) : Prop :=
  scaled s key = true → value mod 100 = 0 ∧ value < 6553600.

Lemma kept_representable {A} (s : settings A) key value :
  0 ≤ value → representable s key value → kept s key value = value.
Proof.
  unfold representable, kept. destruct (scaled s key); [|done]. intros Hv Hr. destruct (Hr eq_refl) as [Hm Hl].
  rewrite u16_small by (split; [apply Z.div_pos; lia|apply Z.div_lt_upper_bound; lia]).
  pose proof (Z.div_mod value 100 ltac:(lia)). lia.
Qed.
Lemma kept_scaled {A} (s : settings A) key value :
  scaled s key = true → kept s key value = (value - value mod 100) mod 6553600.
Proof.
  intros Hs. unfold kept, u16. rewrite Hs. pose proof (Z.div_mod value 100 ltac:(lia)) as Hd.
  replace (value - value mod 100) with (100 * (value / 100)) by lia.
  change 6553600 with (100 * 2 ^ 16). rewrite Z.mul_mod_distr_l by lia. lia.
Qed.

(** The promise on one call, in terms of the value that was written: it is stored exactly when it
    is allowed, and then read back when it is representable (a power that is not is rounded down
    to hundreds, and wraps around at 6553600); the other keys read as before. *)
Definition writes_setting {A} (ops : atom_ops A) (s : settings A) (a : A) key value (r : access A) : Prop :=
  match r with
  | Got a' => allowed s a key value = true ∧
      (representable s key value → lldpctl_atom_get_int ops a' key = Got value) ∧
      (scaled s key = true → lldpctl_atom_get_int ops a' key = Got ((value - value mod 100) mod 6553600)) ∧
      ∀ key', key' ≠ key → lldpctl_atom_get_int ops a' key' = lldpctl_atom_get_int ops a key'
  | Err e => allowed s a key value = false ∧
             e = match lldpctl_atom_get_int ops a key with
                 | Err e => e | _ => LLDPCTL_ERR_BAD_VALUE
                 end
  | Fault => False
  end.
Lemma set_result_writes {A} (ops : atom_ops A) (s : settings A) a key value r :
  (scaled s key = true → allowed s a key value = true → 0 ≤ value) →
  set_result ops s a key value r → writes_setting ops s a key value r.
Proof.
  intros Hpos. unfold set_result, writes_setting. destruct r as [a'| |]; [|done..]. intros [Hal Hget].
  split; [done|]. pose proof (Hget key) as Hk. rewrite decide_True in Hk by done. split_and!.
  - intros Hr. rewrite Hk. f_equal. destruct (scaled s key) eqn:Hs; [apply kept_representable; auto|].
    unfold kept. by rewrite Hs.
  - intros Hs. by rewrite Hk, kept_scaled.
  - intros key' Hne. rewrite Hget. by rewrite decide_False.
Qed.

(** C23: the integer setters of the power over the link, of a policy and of the power over
    LLDP-MED store a value of a local port exactly when it is in the range of its key; the value
    is then read back under that key and every other key reads as before, except that the
    allocated, requested and MED powers are kept in units of 100 on 16 bits: they are rounded
    down to hundreds, and one of 6553600 or more wraps around.  A value out of range, an unknown
    key and a remote port are refused with their error. *)
Theorem settings_correct key value :
  (∀ p, writes_setting atom_dot3_power dot3_power_settings p key value
          (lldpctl_atom_set_int atom_dot3_power true p key value) ∧
        lldpctl_atom_set_int atom_dot3_power false p key value = NOT_EXIST) ∧
  (∀ m, writes_setting atom_med_policy med_policy_settings m key value
          (lldpctl_atom_set_int atom_med_policy true m key value) ∧
        lldpctl_atom_set_int atom_med_policy false m key value = NOT_EXIST) ∧
  (∀ p, writes_setting atom_med_power med_power_settings p key value
          (lldpctl_atom_set_int atom_med_power true p key value) ∧
        lldpctl_atom_set_int atom_med_power false p key value = NOT_EXIST).
Proof.
  split_and!; intros x; (split; [apply set_result_writes; [|apply set_int_correct]|apply (remote_refused (ops := _))]).
  all: destruct key; cbn; try done; intros _ Hal; bool_to_prop; lia.
Qed.

(** The text of a setting can be written back, and numbers are accepted as text. *)
Definition text_law {A} (ops : atom_ops A) (s : settings A) : Prop :=
  (∀ a key t, setting_ok ops s a → renders ops s a key →
     lldpctl_atom_get_str ops a key = Got (Some t) →
     lldpctl_atom_set_str ops true a key (Some t) = Got a) ∧
  (∀ local a key v, 0 ≤ v < 2 ^ 63 →
     lldpctl_atom_set_str ops local a key (Some (decimal v)) = lldpctl_atom_set_int ops local a key v).

Lemma text_law_holds {A} (ops : atom_ops A) s `{!Settings ops s} : text_law ops s.
Proof. split; intros; [by eapply set_str_get_str|by eapply set_str_number]. Qed.

(** For the three types of settings, the text lldpctl_atom_get_str gives for a setting is
    accepted by lldpctl_atom_set_str and leaves the atom as it was, and the decimal text of a
    number does what lldpctl_atom_set_int does with the number, errors included. *)
Theorem settings_text :
  text_law atom_dot3_power dot3_power_settings ∧ text_law atom_med_policy med_policy_settings ∧
  text_law atom_med_power med_power_settings.
Proof. split_and!; apply text_law_holds; apply _. Qed.
