(* ===== verification/AtomLocation.v ===== *)
(** * Locations in the client library (src/lib/atom-private.c)

    An LLDP-MED location is a format and a block of bytes: coordinates packed into sixteen
    bytes, a civic address made of elements, or an ELIN string.  The file models the methods
    of the atoms for a location, for the list of the elements of a civic address and for an
    element.  A pointer into a block is the rest of the block; what lies outside is a
    [Fault].  [data] is a [char *]: whether a char is signed is left to the platform. *)

From S2P Require Import Prelude Bytes Const Structs Text Fixedpoint AtomMaps Atoms.
From stdpp Require Import strings.
#[local] Open Scope Z_scope.

Class CharConfig := CHAR_SIGNED : bool.

(** The value of a [char]. *)
Definition char_value `{CharConfig} (b : Z) : Z :=
  if (CHAR_SIGNED && (128 <=? b))%bool then b - 256 else b.

(** [m->location->data[i]] *)
Definition at_data {A} (loc : lldpd_med_loc) (i : Z) (k : Z → access A) : access A :=
  match loc_data loc !! Z.to_nat i with Some b => k b | None => Fault end.
Definition set_data (loc : lldpd_med_loc) (i : Z) (bs : list Z) : access lldpd_med_loc :=
  match poke (loc_data loc) i bs with Some d => Got (loc<|loc_data := d|>) | None => Fault end.

Abbreviation data_len loc := (zlen (loc_data loc)).

(** ** The location *)

Section Location.
Context `{CharConfig}.
Implicit Types (loc : lldpd_med_loc) (key : lldpctl_key_t) (value : Z) (text : option (list Z)).

Definition _lldpctl_atom_get_int_med_location loc key : access Z :=
  match key with
  | lldpctl_k_med_location_format =>
      if loc_format loc =? LLDP_MED_LOCFORMAT_COORD then
        if negb (data_len loc =? 16) then NOT_EXIST else Got LLDP_MED_LOCFORMAT_COORD
      else if loc_format loc =? LLDP_MED_LOCFORMAT_CIVIC then
        if data_len loc <? 3 then NOT_EXIST
        else at_data loc 0 (λ b,
          if negb (data_len loc - 1 =? char_value b) then NOT_EXIST else Got LLDP_MED_LOCFORMAT_CIVIC)
      else if loc_format loc =? LLDP_MED_LOCFORMAT_ELIN then Got LLDP_MED_LOCFORMAT_ELIN
      else Got 0
  | lldpctl_k_med_location_geoid =>
      if negb (loc_format loc =? LLDP_MED_LOCFORMAT_COORD) then NOT_EXIST
      else at_data loc 15 (λ b, Got (char_value b))
  | lldpctl_k_med_location_altitude_unit =>
      if negb (loc_format loc =? LLDP_MED_LOCFORMAT_COORD) then NOT_EXIST
      else at_data loc 10 (λ b, Got (Z.shiftr (Z.land (char_value b) 0xf0) 4))
  | _ => NOT_EXIST
  end.

(** [calloc] never fails. *)
Definition set_format loc value : access lldpd_med_loc :=
  if ((value =? 0) || (value =? LLDP_MED_LOCFORMAT_COORD))%bool
  then Got {| loc_format := value; loc_data := replicate 16 0 |}
  else if value =? LLDP_MED_LOCFORMAT_CIVIC
  then Got {| loc_format := value; loc_data := [3; 2; 85; 83] |}
  else if value =? LLDP_MED_LOCFORMAT_ELIN
  then Got {| loc_format := value; loc_data := [] |}
  else BAD_VALUE.

Definition is_coord loc : bool :=
  (loc_format loc =? LLDP_MED_LOCFORMAT_COORD) && (data_len loc =? 16).

Definition _lldpctl_atom_set_int_med_location (local : bool) loc key value : access lldpd_med_loc :=
  if negb local then NOT_EXIST
  else match key with
  | lldpctl_k_med_location_format => set_format loc value
  | lldpctl_k_med_location_geoid =>
      if negb (is_coord loc) then BAD_VALUE
      else if ((value =? 0) || (value =? LLDP_MED_LOCATION_GEOID_WGS84)
               || (value =? LLDP_MED_LOCATION_GEOID_NAD83)
               || (value =? LLDP_MED_LOCATION_GEOID_NAD83_MLLW))%bool
      then set_data loc 15 [u8 value]
      else BAD_VALUE
  | lldpctl_k_med_location_altitude_unit =>
      if negb (is_coord loc) then BAD_VALUE
      else if ((value =? 0) || (value =? LLDP_MED_LOCATION_ALTITUDE_UNIT_METER)
               || (value =? LLDP_MED_LOCATION_ALTITUDE_UNIT_FLOOR))%bool
      then at_data loc 10 (λ b, set_data loc 10 [u8 (Z.lor (Z.land b 0x0f) (Z.shiftl value 4))])
      else BAD_VALUE
  | _ => NOT_EXIST
  end.

(** ** Coordinates *)

(** [suffix] holds the letters of a positive and of a negative coordinate. *)
Definition read_fixed_precision (buffer : list Z) (shift intbits fltbits : Z) (suffix : option (Z * Z))
    : access (option (list Z)) :=
  match fp ← fp_buftofp buffer intbits fltbits shift; fp_fptostr fp suffix with
  | Some s => Got (Some s)
  | None => Fault
  end.

Definition NS : Z * Z := (78, 83).
Definition EW : Z * Z := (69, 87).

Definition _lldpctl_atom_get_str_med_location loc key : access (option (list Z)) :=
  let coord (k : access (option (list Z))) :=
    if loc_format loc =? LLDP_MED_LOCFORMAT_COORD then k else NOT_EXIST in
  match key with
  | lldpctl_k_med_location_format => Got (Some (map_lookup port_med_location_map (loc_format loc)))
  | lldpctl_k_med_location_geoid =>
      coord (at_data loc 15 (λ b, Got (Some (map_lookup port_med_geoid_map (char_value b)))))
  | lldpctl_k_med_location_latitude => coord (read_fixed_precision (loc_data loc) 0 9 25 (Some NS))
  | lldpctl_k_med_location_longitude => coord (read_fixed_precision (loc_data loc) 40 9 25 (Some EW))
  | lldpctl_k_med_location_altitude => coord (read_fixed_precision (loc_data loc) 84 22 8 None)
  | lldpctl_k_med_location_altitude_unit =>
      coord (at_data loc 10 (λ b,
        let u := Z.land (char_value b) 0xf0 in
        if u =? Z.shiftl LLDP_MED_LOCATION_ALTITUDE_UNIT_METER 4 then Got (Some (chars "m"))
        else if u =? Z.shiftl LLDP_MED_LOCATION_ALTITUDE_UNIT_FLOOR 4 then Got (Some (chars "floor"))
        else NOT_EXIST))
  | lldpctl_k_med_location_country =>
      if loc_format loc =? LLDP_MED_LOCFORMAT_CIVIC
      then at_data loc 2 (λ b, at_data loc 3 (λ c, Got (Some (cstr [b; c])))) else NOT_EXIST
  | lldpctl_k_med_location_elin =>
      if loc_format loc =? LLDP_MED_LOCFORMAT_ELIN
      then Got (Some (cstr (loc_data loc))) else NOT_EXIST
  | _ => NOT_EXIST
  end.

(** A number and, perhaps, one letter after it. *)
Definition parse_coordinate text (intbits fltbits : Z) (suffix : Z * Z) : access fp_number :=
  match text with
  | None => BAD_VALUE
  | Some s =>
      match fp_strtofp s intbits fltbits with
      | None => Fault
      | Some (fp, []) => Got fp
      | Some (fp, [c]) =>
          if c =? snd suffix then Got (fp_negate fp) else if c =? fst suffix then Got fp else BAD_VALUE
      | Some _ => BAD_VALUE
      end
  end.
Definition parse_altitude text : access fp_number :=
  match text with
  | None => BAD_VALUE
  | Some s => match fp_strtofp s 22 8 with
              | None => Fault
              | Some (fp, []) => Got fp
              | Some _ => BAD_VALUE
              end
  end.

Definition set_coordinate loc (parsed : access fp_number) (shift : Z) : access lldpd_med_loc :=
  if negb (is_coord loc) then BAD_VALUE
  else match parsed with
       | Got fp => match fp_fptobuf fp (loc_data loc) shift with
                   | Some d => Got (loc<|loc_data := d|>)
                   | None => Fault
                   end
       | Err e => Err e
       | Fault => Fault
       end.

Definition _lldpctl_atom_set_str_med_location (local : bool) loc key text : access lldpd_med_loc :=
  if negb local then NOT_EXIST
  else match key with
  | lldpctl_k_med_location_latitude => set_coordinate loc (parse_coordinate text 9 25 NS) 0
  | lldpctl_k_med_location_longitude => set_coordinate loc (parse_coordinate text 9 25 EW) 40
  | lldpctl_k_med_location_altitude => set_coordinate loc (parse_altitude text) 84
  | lldpctl_k_med_location_altitude_unit =>
      match text with
      | None => BAD_VALUE
      | Some s =>
          if negb (is_coord loc) then BAD_VALUE
          else if bool_decide (s = chars "m")
          then _lldpctl_atom_set_int_med_location local loc key LLDP_MED_LOCATION_ALTITUDE_UNIT_METER
          else if (bool_decide (s = chars "f") || bool_decide (s = chars "floor"))%bool
          then _lldpctl_atom_set_int_med_location local loc key LLDP_MED_LOCATION_ALTITUDE_UNIT_FLOOR
          else BAD_VALUE
      end
  | lldpctl_k_med_location_geoid =>
      _lldpctl_atom_set_int_med_location local loc key (map_reverse_lookup port_med_geoid_map text)
  | lldpctl_k_med_location_country =>
      if negb (loc_format loc =? LLDP_MED_LOCFORMAT_CIVIC) then BAD_VALUE
      else if data_len loc <? 3 then BAD_VALUE
      else match text with
           | Some s => if zlen s =? 2 then set_data loc 2 s else BAD_VALUE
           | None => BAD_VALUE
           end
  | lldpctl_k_med_location_elin =>
      match text with
      | None => BAD_VALUE
      | Some s => if negb (loc_format loc =? LLDP_MED_LOCFORMAT_ELIN) then BAD_VALUE
                  else Got (loc<|loc_data := s|>)
      end
  | _ => NOT_EXIST
  end.

(** ** Elements of a civic address *)

Record caelement := { ca_type : Z; ca_value : list Z }.

(** An element with a length that does not fit in its byte, or a block whose first byte
    wraps around, is written as it is. *)
Definition _lldpctl_atom_set_atom_med_location (local : bool) loc key (el : caelement)
    : access lldpd_med_loc :=
  if negb local then NOT_EXIST
  else match key with
  | lldpctl_k_med_location_ca_elements =>
      if negb (loc_format loc =? LLDP_MED_LOCFORMAT_CIVIC) then BAD_VALUE
      else match loc_data loc with
           | b :: rest =>
               if data_len loc <? 3 then BAD_VALUE
               else Got (loc<|loc_data := u8 (b + (2 + zlen (ca_value el))) :: rest ++
                                [u8 (ca_type el); u8 (zlen (ca_value el))] ++ ca_value el|>)
           | [] => BAD_VALUE
           end
  | _ => NOT_EXIST
  end.

Record ca_iter := { ci_data : list Z; ci_len : Z }.

(** [data_len] is a [size_t]. *)
Definition _lldpctl_atom_iter_med_caelements_list loc : ca_iter :=
  {| ci_data := drop 4 (loc_data loc); ci_len := u64 (data_len loc - 4) |}.

Definition _lldpctl_atom_next_med_caelements_list (cai : ca_iter) : access (option ca_iter) :=
  if ci_len cai <? 2 then Got None
  else match ci_data cai !! 1%nat with
       | None => Fault
       | Some len =>
           if ci_len cai <? 2 + len then Got None
           else Got (Some {| ci_data := drop (2 + Z.to_nat len) (ci_data cai);
                             ci_len := ci_len cai - (2 + len) |})
       end.

(** The atom keeps a pointer to the bytes of the value, which are read when they are asked
    for: an element that leaves the block is a [Fault] already here. *)
Definition _lldpctl_atom_value_med_caelements_list (cai : ca_iter) : access (option caelement) :=
  if ci_len cai <? 2 then Got None
  else match ci_data cai with
       | type :: len :: bytes =>
           if ci_len cai <? 2 + len then Got None
           else if zlen bytes <? len then Fault
           else Got (Some {| ca_type := type; ca_value := take (Z.to_nat len) bytes |})
       | _ => Fault
       end.

Definition _lldpctl_atom_create_med_caelements_list : caelement := {| ca_type := -1; ca_value := [] |}.

(** [lldpctl_atom_foreach] over the elements; [None] when the fuel runs out. *)
Fixpoint ca_foreach (fuel : nat) (cai : ca_iter) : option (access (list caelement)) :=
  match fuel with
  | O => None
  | S fuel =>
      match _lldpctl_atom_value_med_caelements_list cai with
      | Fault => Some Fault
      | Err e => Some (Err e)
      | Got None => Some (Got [])
      | Got (Some el) =>
          match _lldpctl_atom_next_med_caelements_list cai with
          | Fault => Some Fault
          | Err e => Some (Err e)
          | Got None => Some (Got [el])
          | Got (Some cai) =>
              match ca_foreach fuel cai with
              | Some (Got els) => Some (Got (el :: els))
              | r => r
              end
          end
      end
  end.

(** A step leaves the block or moves by two bytes at least. *)
Definition ca_elements loc : option (access (list caelement)) :=
  ca_foreach (S (length (loc_data loc))) (_lldpctl_atom_iter_med_caelements_list loc).

Definition _lldpctl_atom_get_int_med_caelement (el : caelement) key : access Z :=
  match key with
  | lldpctl_k_med_civicaddress_type => Got (ca_type el)
  | _ => NOT_EXIST
  end.

Definition _lldpctl_atom_set_int_med_caelement (local : bool) (el : caelement) key value : access caelement :=
  if negb local then NOT_EXIST
  else match key with
  | lldpctl_k_med_civicaddress_type =>
      if ((value <=? 0) || (128 <? value))%bool then BAD_VALUE
      else Got {| ca_type := value; ca_value := ca_value el |}
  | _ => NOT_EXIST
  end.

Definition _lldpctl_atom_get_str_med_caelement (el : caelement) key : access (option (list Z)) :=
  match key with
  | lldpctl_k_med_civicaddress_type => Got (Some (map_lookup civic_address_type_map (ca_type el)))
  | lldpctl_k_med_civicaddress_value => Got (Some (cstr (ca_value el)))
  | _ => NOT_EXIST
  end.

Definition _lldpctl_atom_set_str_med_caelement (local : bool) (el : caelement) key text : access caelement :=
  if negb local then NOT_EXIST
  else match key with
  | lldpctl_k_med_civicaddress_value =>
      match text with
      | None => BAD_VALUE
      | Some s => if 251 <? zlen s + 1 then BAD_VALUE
                  else Got {| ca_type := ca_type el; ca_value := s |}
      end
  | lldpctl_k_med_civicaddress_type =>
      _lldpctl_atom_set_int_med_caelement local el key (map_reverse_lookup civic_address_type_map text)
  | _ => NOT_EXIST
  end.
End Location.

Definition atom_med_location `{CharConfig} : atom_ops lldpd_med_loc :=
  {| op_get_str := Some _lldpctl_atom_get_str_med_location;
     op_get_int := Some _lldpctl_atom_get_int_med_location; op_get_buffer := None;
     op_set_str := Some _lldpctl_atom_set_str_med_location;
     op_set_int := Some _lldpctl_atom_set_int_med_location; op_set_buffer := None |}.
Definition atom_med_caelement : atom_ops caelement :=
  {| op_get_str := Some _lldpctl_atom_get_str_med_caelement;
     op_get_int := Some _lldpctl_atom_get_int_med_caelement; op_get_buffer := None;
     op_set_str := Some _lldpctl_atom_set_str_med_caelement;
     op_set_int := Some _lldpctl_atom_set_int_med_caelement; op_set_buffer := None |}.
