(* ===== verification/AtomCivic.v ===== *)
(** * Civic addresses through the accessors (src/lib/atom-private.c)

    The calls a client makes to build a civic address, and what it reads from the address
    that results. *)

From S2P Require Import Prelude Bytes Const Structs Text Fixedpoint AtomMaps Atoms AtomLocation.
From stdpp Require Import strings.
#[local] Open Scope Z_scope.

Section Civic.
Context `{CharConfig}.
Implicit Types (loc : lldpd_med_loc) (el : caelement).

Definition then_ {A B} (r : access A) (k : A → access B) : access B :=
  match r with Got a => k a | Err e => Err e | Fault => Fault end.

(** [lldpctl_atom_create], then the type and the value. *)
Definition new_element (type : Z) (text : list Z) : access caelement :=
  then_ (lldpctl_atom_set_int atom_med_caelement true _lldpctl_atom_create_med_caelements_list
           lldpctl_k_med_civicaddress_type type)
    (λ el, lldpctl_atom_set_str atom_med_caelement true el lldpctl_k_med_civicaddress_value (Some text)).

(** Each element is appended with [lldpctl_atom_set]. *)
Fixpoint add_elements loc (els : list (Z * list Z)) : access lldpd_med_loc :=
  match els with
  | [] => Got loc
  | (type, text) :: els =>
      then_ (new_element type text) (λ el,
        then_ (_lldpctl_atom_set_atom_med_location true loc lldpctl_k_med_location_ca_elements el) (λ loc,
          add_elements loc els))
  end.

Definition civic_address loc (country : list Z) (els : list (Z * list Z)) : access lldpd_med_loc :=
  then_ (lldpctl_atom_set_int atom_med_location true loc lldpctl_k_med_location_format
           LLDP_MED_LOCFORMAT_CIVIC) (λ loc,
    then_ (lldpctl_atom_set_str atom_med_location true loc lldpctl_k_med_location_country (Some country)) (λ loc,
      add_elements loc els)).

(** ** The bytes *)

Definition element_ok (e : Z * list Z) : Prop := 0 < fst e ≤ 128 ∧ zlen (snd e) ≤ 250.
Definition encode (e : Z * list Z) : list Z := [fst e; zlen (snd e)] ++ snd e.
Definition encode_all (els : list (Z * list Z)) : list Z := flat_map encode els.

Lemma new_element_ok type text :
  element_ok (type, text) → new_element type text = Got {| ca_type := type; ca_value := text |}.
Proof.
  intros [Ht Hv]. cbn [fst snd] in *. unfold new_element. cbn.
  rewrite (proj2 (Z.leb_gt type 0)), (proj2 (Z.ltb_ge 128 type)) by lia. cbn.
  unfold lldpctl_atom_set_str. cbn. by rewrite (proj2 (Z.ltb_ge 251 (zlen text + 1))) by lia.
Qed.

Lemma add_elements_ok b rest els :
  is_byte b → (2 ≤ length rest)%nat → Forall element_ok els →
  add_elements {| loc_format := LLDP_MED_LOCFORMAT_CIVIC; loc_data := b :: rest |} els =
    Got {| loc_format := LLDP_MED_LOCFORMAT_CIVIC;
           loc_data := u8 (b + zlen (encode_all els)) :: rest ++ encode_all els |}.
Proof.
  intros Hb Hr Hels. revert b rest Hb Hr. induction Hels as [|[type text] els Hel _ IH]; intros b rest Hb Hr.
  - cbn. change (zlen []) with 0. unfold u8. rewrite Z.add_0_r, Z.mod_small, app_nil_r by (unfold is_byte in Hb; lia).
    done.
  - cbn [add_elements]. rewrite new_element_ok by done. cbn [then_].
    unfold _lldpctl_atom_set_atom_med_location. cbn [negb loc_format loc_data].
    rewrite Z.eqb_refl. cbn [negb]. rewrite zlen_cons, (proj2 (Z.ltb_ge _ 3)) by (unfold zlen; lia).
    cbn [then_ ca_type ca_value]. unfold set at 1. cbn. rewrite IH.
    + cbn [encode_all flat_map]. fold (encode_all els). destruct Hel as [Ht Hv]. cbn [fst snd] in *.
      pose proof (zlen_nonneg text). unfold encode. cbn [fst snd].
      assert (u8 type = type ∧ u8 (zlen text) = zlen text) as [-> ->]
        by (unfold u8; rewrite !Z.mod_small by lia; done).
      f_equal. f_equal. rewrite <- !app_assoc. f_equal. unfold u8.
      rewrite !zlen_cons, zlen_app, Z.add_mod_idemp_l by lia. f_equal. lia.
    + unfold is_byte, u8. apply Z.mod_pos_bound. lia.
    + rewrite length_app. lia.
Qed.

(** The elements as atoms. *)
Definition as_elements (els : list (Z * list Z)) : list caelement :=
  map (λ e, {| ca_type := fst e; ca_value := snd e |}) els.

Lemma foreach_encoded els fuel :
  Forall element_ok els → (length els < fuel)%nat →
  ca_foreach fuel {| ci_data := encode_all els; ci_len := zlen (encode_all els) |} =
    Some (Got (as_elements els)).
Proof.
  intros Hels. revert fuel. induction Hels as [|[type text] els [Ht Hv] _ IH]; intros [|fuel] Hf;
    cbn [length] in Hf; try lia; [done|].
  cbn [fst snd] in Ht, Hv. cbn [encode_all flat_map]. fold (encode_all els). unfold encode. cbn [fst snd app].
  pose proof (zlen_nonneg text). pose proof (zlen_nonneg (encode_all els)).
  assert (zlen (type :: zlen text :: text ++ encode_all els) = 2 + zlen text + zlen (encode_all els)) as Hl
    by (rewrite !zlen_cons, zlen_app; lia).
  cbn [ca_foreach].
  assert (_lldpctl_atom_value_med_caelements_list
            {| ci_data := type :: zlen text :: text ++ encode_all els;
               ci_len := zlen (type :: zlen text :: text ++ encode_all els) |} =
          Got (Some {| ca_type := type; ca_value := text |})) as ->.
  { unfold _lldpctl_atom_value_med_caelements_list. cbn [ci_len ci_data]. rewrite Hl.
    rewrite (proj2 (Z.ltb_ge _ 2)), (proj2 (Z.ltb_ge _ (2 + zlen text))), zlen_app,
      (proj2 (Z.ltb_ge _ (zlen text))), take_app_zlen by lia. done. }
  assert (_lldpctl_atom_next_med_caelements_list
            {| ci_data := type :: zlen text :: text ++ encode_all els;
               ci_len := zlen (type :: zlen text :: text ++ encode_all els) |} =
          Got (Some {| ci_data := encode_all els; ci_len := zlen (encode_all els) |})) as ->.
  { unfold _lldpctl_atom_next_med_caelements_list. cbn [ci_len ci_data]. rewrite Hl.
    change ((type :: zlen text :: text ++ encode_all els) !! 1%nat) with (Some (zlen text)).
    rewrite (proj2 (Z.ltb_ge _ 2)), (proj2 (Z.ltb_ge _ (2 + zlen text))) by lia.
    cbn [Nat.add drop]. rewrite drop_app_zlen. do 3 f_equal. lia. }
  rewrite IH by lia. done.
Qed.

(** Enough fuel. *)
Lemma length_encode_all els : (length els ≤ length (encode_all els))%nat.
Proof. induction els as [|e els IH]; [done|]. cbn [encode_all flat_map length]. rewrite length_app. cbn. fold (encode_all els). lia. Qed.

(** The largest length a [char] can hold. *)
Definition CHAR_MAX : Z := if CHAR_SIGNED then 127 else 255.

Lemma char_value_u8 n : 0 ≤ n → (n =? char_value (u8 n)) = (n <=? CHAR_MAX).
Proof.
  intros Hn. unfold char_value, CHAR_MAX, u8. pose proof (Z.mod_pos_bound n (2 ^ 8) ltac:(lia)).
  apply eq_bool_prop_intro. rewrite !Is_true_true, Z.eqb_eq, Z.leb_le.
  destruct CHAR_SIGNED; cbn [andb]; [destruct (Z.leb_spec 128 (n mod 2 ^ 8))|]; zlia.
Qed.

Lemma civic_address_data loc c1 c2 els :
  Forall element_ok els →
  civic_address loc [c1; c2] els =
    Got {| loc_format := LLDP_MED_LOCFORMAT_CIVIC;
           loc_data := u8 (3 + zlen (encode_all els)) :: [2; c1; c2] ++ encode_all els |}.
Proof.
  intros Hels. rewrite <- (add_elements_ok 3 [2; c1; c2]); [done|unfold is_byte; lia|cbn; lia|done].
Qed.

(** C22: a civic address built through the library, country and elements with types from 1 to
    128 and values of at most 250 characters, is read back element by element in the order
    they were added, and the country too; the address is taken for a civic address exactly
    when its length fits in a char. *)
Theorem civic_address_roundtrip loc country els :
  zlen country = 2 → no_nul country → Forall element_ok els → zlen (encode_all els) < 2 ^ 31 - 4 →
  ∃ loc', civic_address loc country els = Got loc' ∧
    ca_elements loc' = Some (Got (as_elements els)) ∧
    lldpctl_atom_get_str atom_med_location loc' lldpctl_k_med_location_country = Got (Some country) ∧
    lldpctl_atom_get_int atom_med_location loc' lldpctl_k_med_location_format =
      (if 3 + zlen (encode_all els) <=? CHAR_MAX then Got LLDP_MED_LOCFORMAT_CIVIC else NOT_EXIST).
Proof.
  intros Hc Hnul Hels Hint. destruct country as [|c1 [|c2 [|]]]; unfold zlen in Hc; cbn in Hc; try lia. clear Hc.
  rewrite civic_address_data by done. eexists. split; [reflexivity|]. set (body := encode_all els) in *.
  pose proof (zlen_nonneg body).
  assert (zlen (u8 (3 + zlen body) :: [2; c1; c2] ++ body) = 4 + zlen body) as Hl
    by (cbn [app]; rewrite !zlen_cons; lia).
  split_and!.
  - unfold ca_elements, _lldpctl_atom_iter_med_caelements_list. cbn [loc_data]. rewrite Hl.
    unfold u64. rewrite Z.mod_small by lia. replace (4 + zlen body - 4) with (zlen body) by lia.
    apply foreach_encoded; [done|]. pose proof (length_encode_all els) as Hle. fold body in Hle. cbn [length app]. lia.
  - transitivity (@Got (option (list Z)) (Some (cstr [c1; c2]))); [reflexivity|]. by rewrite cstr_no_nul.
  - unfold lldpctl_atom_get_int. cbn [op_get_int atom_med_location]. unfold _lldpctl_atom_get_int_med_location.
    cbn [loc_format loc_data].
    change (LLDP_MED_LOCFORMAT_CIVIC =? LLDP_MED_LOCFORMAT_COORD) with false. rewrite Z.eqb_refl, Hl.
    rewrite (proj2 (Z.ltb_ge _ 3)) by lia. unfold at_data. cbn [loc_data].
    change ((u8 (3 + zlen body) :: [2; c1; c2] ++ body) !! Z.to_nat 0) with (Some (u8 (3 + zlen body))). cbn iota.
    replace (4 + zlen body - 1) with (3 + zlen body) by lia. rewrite char_value_u8 by lia.
    by destruct (3 + zlen body <=? CHAR_MAX).
Qed.
End Civic.
