(* ===== verification/AtomCoord.v ===== *)
(** * Coordinates of a location (src/lib/atom-private.c)

    The sixteen bytes of a location hold the latitude (bits 0 to 39), the longitude (40 to
    79), the unit of the altitude (80 to 83), the altitude (84 to 119) and the geoid (the
    last byte).  The file shows that setting one of them is read back and leaves the others
    alone, and that a location edited through the library can always be read. *)

From S2P Require Import Prelude Bytes Const Structs Text Fixedpoint AtomMaps Atoms AtomLocation.
From stdpp Require Import strings.
#[local] Open Scope Z_scope.

(** ** Bytes and bits *)

Lemma byte_bits b : is_byte b ↔ 0 ≤ b ∧ ∀ t, 8 ≤ t → Z.testbit b t = false.
Proof.
  unfold is_byte. split.
  - intros Hb. split; [lia|]. intros t Ht. apply (Z.testbit_false b t); [lia|].
    rewrite Z.div_small; [done|]. change 256 with (2 ^ 8) in Hb. pose proof (Z.pow_le_mono_r 2 8 t). lia.
  - intros [H0 Hb]. split; [done|]. change 256 with (2 ^ 8).
    assert (b = b mod 2 ^ 8) as ->; [|apply Z.mod_pos_bound; lia].
    apply Z.bits_inj'. intros t Ht. rewrite Z.testbit_mod_pow2 by lia.
    destruct (Z.ltb_spec t 8); [done|]. by rewrite Hb by lia.
Qed.

Lemma put_last_byte b v n obit : is_byte b → 0 ≤ n < obit → obit ≤ 8 → is_byte (fp_put_last b v n obit).
Proof.
  rewrite !byte_bits. intros [H0 Hb] Hn Ho. split.
  - unfold fp_put_last. apply Z.lor_nonneg. split; [apply Z.land_nonneg; by left|].
    apply Z.shiftl_nonneg, Z.land_nonneg. right. pose proof (Z.pow_pos_nonneg 2 n). lia.
  - intros t Ht. rewrite put_last_bit, (proj2 (Z.ltb_ge t obit)), andb_false_r by lia. auto.
Qed.

Lemma put_part_byte b v n obit : is_byte b → 0 < obit ≤ n → obit ≤ 8 → is_byte (fp_put_part b v n obit).
Proof.
  rewrite !byte_bits. intros [H0 Hb] Hn Ho. split.
  - unfold fp_put_part. apply Z.lor_nonneg. split; apply Z.land_nonneg; [by left|].
    right. pose proof (Z.pow_pos_nonneg 2 obit). lia.
  - intros t Ht. rewrite put_part_bit, (proj2 (Z.ltb_ge t obit)) by lia. auto.
Qed.

Lemma fp_put_bytes fuel fields obit o buf buf' :
  fields_ok fields → 1 ≤ obit ≤ 8 → bytes_ok buf →
  fp_put fuel fields obit o buf = Some buf' → bytes_ok buf'.
Proof.
  revert fields obit o buf. induction fuel as [|fuel IH]; intros [|[v n] fields] obit o buf Hf Ho Hb;
    cbn [fp_put]; try congruence.
  destruct (buf !! o) as [b|] eqn:E; [|done]. cbn [mbind option_bind].
  apply Forall_cons_iff in Hf as [Hn Hf]. cbn [snd] in Hn.
  pose proof (Forall_lookup_1 _ _ _ _ Hb E) as Hbyte.
  destruct (Z.ltb_spec n obit).
  - apply IH; [done|lia|]. apply Forall_insert; [done|]. apply put_last_byte; [done|lia|lia].
  - apply IH; [constructor; [cbn; lia|done]|lia|]. apply Forall_insert; [done|]. apply put_part_byte; [done|lia|lia].
Qed.

Lemma fptobuf_bytes fp buf buf' shift :
  0 ≤ int_bits fp → 0 ≤ frac_bits fp → bytes_ok buf →
  fp_fptobuf fp buf shift = Some buf' → bytes_ok buf'.
Proof. intros Hi Hf. apply fp_put_bytes; [repeat constructor; cbn; lia|]. zlia. Qed.

(** A byte whose bits did not change did not change. *)
Lemma byte_same buf buf' i :
  bytes_ok buf → bytes_ok buf' → length buf' = length buf → 0 ≤ i →
  (∀ k, 8 * i ≤ k < 8 * i + 8 → bit buf' k = bit buf k) → buf' !! Z.to_nat i = buf !! Z.to_nat i.
Proof.
  intros Hb Hb' Hl Hi Hk. destruct (buf !! Z.to_nat i) as [b|] eqn:E.
  - destruct (lookup_lt_is_Some_2 buf' (Z.to_nat i)) as [b' E'];
      [rewrite Hl; by eapply lookup_lt_Some|].
    rewrite E'. f_equal. apply Z.bits_inj'. intros t Ht.
    destruct (proj1 (byte_bits b) (Forall_lookup_1 _ _ _ _ Hb E)) as [_ Hh].
    destruct (proj1 (byte_bits b') (Forall_lookup_1 _ _ _ _ Hb' E')) as [_ Hh'].
    destruct (Z.le_gt_cases 8 t); [by rewrite Hh, Hh'|].
    specialize (Hk (8 * i + (7 - t)) ltac:(lia)).
    rewrite (bit_byte buf' (Z.to_nat i) b'), (bit_byte buf (Z.to_nat i) b) in Hk by (done || zlia).
    by replace (7 - (8 * i + (7 - t)) mod 8) with t in Hk by zlia.
  - apply lookup_ge_None. rewrite Hl. by apply lookup_ge_None.
Qed.

(** A write of one byte. *)
Lemma poke_byte buf i b :
  0 ≤ i < zlen buf → poke buf i [b] = Some (<[Z.to_nat i := b]> buf).
Proof.
  intros Hi. unfold poke. change (zlen [b]) with 1.
  rewrite (proj2 (Z.leb_le 0 i)), (proj2 (Z.leb_le (i + 1) _)) by lia. cbn [andb]. f_equal.
  rewrite insert_take_drop by (unfold zlen in Hi; lia). replace (Z.to_nat (i + 1)) with (S (Z.to_nat i)) by lia.
  done.
Qed.

(** ** Fields *)

(** Where a coordinate is and how it is written. *)
Definition coordinate (key : lldpctl_key_t) : option (Z * Z * Z * option (Z * Z)) :=
  match key with
  | lldpctl_k_med_location_latitude => Some (0, 9, 25, Some NS)
  | lldpctl_k_med_location_longitude => Some (40, 9, 25, Some EW)
  | lldpctl_k_med_location_altitude => Some (84, 22, 8, None)
  | _ => None
  end.

(** Printing cannot overflow. *)
Definition printable (fp : fp_number) : Prop :=
  0 ≤ frac_precision fp ≤ 25 ∧ 0 ≤ frac_value fp < 2 ^ 25.

Lemma fp_power_bound p : 0 ≤ p ≤ 25 → 1 ≤ fst (fp_power 20 (2 ^ p) 1 0) ≤ 10 ^ 8.
Proof.
  intros Hp. assert (p ∈ seqZ 0 26) as Hin by (apply elem_of_seqZ; lia).
  assert (Forall (λ p, 1 ≤ fst (fp_power 20 (2 ^ p) 1 0) ≤ 10 ^ 8) (seqZ 0 26)) as H.
  { apply (bool_decide_unpack _). vm_compute. exact I. }
  rewrite list.Forall_forall in H. by apply H.
Qed.

Lemma fptostr_printable fp suffix : printable fp → ∃ s, fp_fptostr fp suffix = Some s.
Proof.
  intros [Hp Hv]. unfold fp_fptostr.
  assert (∃ f, fp_fraction_str fp = Some f) as [f ->]; [|by eexists].
  unfold fp_fraction_str. destruct (frac_value fp =? 0); [by eexists|].
  pose proof (fp_power_bound _ Hp) as Hb. destruct (fp_power 20 (2 ^ frac_precision fp) 1 0) as [pr len].
  cbn [fst] in Hb. change (10 ^ 8) with 100000000 in Hb. change (2 ^ 25) with 33554432 in Hv.
  set (m := if pr / 10 =? 0 then 1 else pr / 10).
  assert (1 ≤ m ≤ 100000000) by (unfold m; destruct (Z.eqb_spec (pr / 10) 0); zlia).
  rewrite i64_some by (change (2 ^ 63) with 9223372036854775808; nia). by eexists.
Qed.

Lemma fp_of_value_printable v q ib fb :
  0 ≤ ib → 0 ≤ fb ≤ 25 → ib ≤ 25 → q ≤ ib + 25 → printable (fp_of_value v q ib fb).
Proof.
  intros Hi Hf Hib Hq. unfold fp_of_value, printable. cbn [frac_precision frac_value]. split.
  - destruct (Z.ltb_spec ib q); lia.
  - replace (2 ^ fb - 1) with (Z.ones fb) by (rewrite Z.ones_equiv; lia). rewrite Z.land_ones by lia.
    pose proof (Z.pow_le_mono_r 2 fb 25).
    pose proof (Z.mod_pos_bound (if Z.testbit v (ib + fb - 1)
      then Z.land (u64 (Z.lnot v + 1)) (2 ^ (ib + fb - 1) - 1) else v) (2 ^ fb)). lia.
Qed.

Definition field_ok (data : list Z) (shift ib fb : Z) : Prop :=
  ∃ fp, fp_buftofp data ib fb shift = Some fp ∧ printable fp.
Definition fields_printable (data : list Z) : Prop :=
  field_ok data 0 9 25 ∧ field_ok data 40 9 25 ∧ field_ok data 84 22 8.

(** The number a text denotes. *)
Definition parsed (key : lldpctl_key_t) (text : option (list Z)) : access fp_number :=
  match key with
  | lldpctl_k_med_location_latitude => parse_coordinate text 9 25 NS
  | lldpctl_k_med_location_longitude => parse_coordinate text 9 25 EW
  | lldpctl_k_med_location_altitude => parse_altitude text
  | _ => NOT_EXIST
  end.

(** A number of the given widths, its precision included. *)
Definition has_widths (ib fb : Z) (fp : fp_number) : Prop :=
  int_bits fp = ib ∧ frac_bits fp = fb ∧ 0 ≤ frac_precision fp ≤ fb.

Lemma strtofp_widths s ib fb fp rest :
  0 ≤ fb → fp_strtofp s ib fb = Some (fp, rest) → has_widths ib fb fp.
Proof.
  intros Hfb. unfold fp_strtofp, has_widths. destruct (strtoll s) as [v [|c e2]].
  { intros [= <- _]. cbn. lia. }
  destruct (c =? 46); [|intros [= <- _]; cbn; lia].
  destruct (strtoll e2) as [f endptr]. 
  destruct (i64 (10 ^ _)) as [precision|]; cbn [mbind option_bind]; [|congruence].
  destruct (i64 (Z.shiftl _ _)) as [f'|]; cbn [mbind option_bind]; [|congruence].
  intros [= <- _]. cbn. split_and!; [done|done| |apply Z.le_min_r].
  apply Z.min_glb; [|done]. unfold fp_digits_bits. destruct (precision =? 1); [lia|].
  pose proof (Z.log2_nonneg (precision - 1)). lia.
Qed.

Lemma parsed_widths key text fp shift ib fb suffix :
  coordinate key = Some (shift, ib, fb, suffix) → parsed key text = Got fp → has_widths ib fb fp.
Proof.
  assert (∀ text suf ib fb fp, 0 ≤ fb → parse_coordinate text ib fb suf = Got fp → has_widths ib fb fp) as Hc.
  { clear. intros [s|] suf ib fb fp Hfb; cbn; [|done].
    destruct (fp_strtofp s ib fb) as [[fp' [|c [|]]]|] eqn:E; intros Hp; try done.
    - injection Hp as <-. by eapply strtofp_widths.
    - pose proof (strtofp_widths _ _ _ _ _ Hfb E) as Hw.
      destruct (c =? snd suf); [injection Hp as <-; exact Hw|].
      destruct (c =? fst suf); [injection Hp as <-; exact Hw|done]. }
  destruct key; try done; cbn; intros [= <- <- <- <-]; try (apply Hc; lia).
  destruct text as [s|]; cbn; [|done].
  destruct (fp_strtofp s 22 8) as [[fp' [|]]|] eqn:E; intros [= <-]. by eapply (strtofp_widths _ 22 8).
Qed.

(** The coordinates lie in the first fifteen bytes and are small. *)
Definition in_block (shift ib fb : Z) : Prop :=
  0 ≤ shift ∧ 0 ≤ ib ≤ 25 ∧ 0 ≤ fb ≤ 25 ∧ shift + 6 + ib + fb ≤ 120.
Lemma coordinate_in_block key shift ib fb suffix :
  coordinate key = Some (shift, ib, fb, suffix) → in_block shift ib fb.
Proof. unfold in_block. destruct key; try done; intros [= <- <- <- <-]; lia. Qed.

Lemma packed_printable ib fb fp :
  has_widths ib fb fp → 0 ≤ ib ≤ 25 → 0 ≤ fb ≤ 25 → printable (fp_packed fp).
Proof.
  intros (<- & <- & Hp) Hi Hf. apply fp_of_value_printable; [lia..|].
  unfold u64. rewrite !(Z.mod_small (int_bits fp + _)) by lia. lia.
Qed.

Section Coordinates.
Context `{CharConfig}.
Implicit Types (loc : lldpd_med_loc) (key : lldpctl_key_t).

Lemma is_coord_true loc : is_coord loc = true ↔ loc_format loc = LLDP_MED_LOCFORMAT_COORD ∧ length (loc_data loc) = 16%nat.
Proof. unfold is_coord, zlen. rewrite andb_true_iff, !Z.eqb_eq. lia. Qed.

Lemma set_str_coordinate local loc key text shift ib fb suffix :
  coordinate key = Some (shift, ib, fb, suffix) →
  _lldpctl_atom_set_str_med_location local loc key text =
    if negb local then NOT_EXIST else set_coordinate loc (parsed key text) shift.
Proof. destruct key; try done; by intros [= <- <- <- <-]. Qed.

(** A coordinate that is set: its field holds the number, the other bits stay. *)
Lemma set_coordinate_spec loc key text fp shift ib fb suffix :
  is_coord loc = true → bytes_ok (loc_data loc) →
  coordinate key = Some (shift, ib, fb, suffix) → parsed key text = Got fp →
  ∃ d, _lldpctl_atom_set_str_med_location true loc key text = Got (loc<|loc_data := d|>) ∧
    length d = 16%nat ∧ bytes_ok d ∧ fp_buftofp d ib fb shift = Some (fp_packed fp) ∧
    ∀ k, 0 ≤ k → (k < shift ∨ shift + 6 + ib + fb ≤ k) → bit d k = bit (loc_data loc) k.
Proof.
  intros Hcoord Hb Hkey Hp. pose proof (coordinate_in_block _ _ _ _ _ Hkey) as (Hs & Hi & Hf & Hroom).
  pose proof (parsed_widths _ _ _ _ _ _ _ Hkey Hp) as (<- & <- & Hw).
  rewrite (set_str_coordinate _ _ _ _ _ _ _ _ Hkey). cbn [negb]. unfold set_coordinate. rewrite Hcoord, Hp.
  apply is_coord_true in Hcoord as [_ Hl].
  assert (shift + 6 + int_bits fp + frac_bits fp < 8 * zlen (loc_data loc)) by (unfold zlen; lia).
  destruct (fptobuf_spec fp (loc_data loc) shift) as (d & Hd & Hlen & Hbits); [lia..|].
  cbn [negb]. rewrite Hd. exists d. split_and!; [done|lia|eapply fptobuf_bytes; [| | |done]; (done || lia)| |].
  - eapply buftofp_written; [| | | |done]; (done || lia).
  - intros k Hk Hout. rewrite Hbits by done. apply fp_fields_outside; lia.
Qed.

(** ** What a key reads *)

(** The bits a key of the coordinates depends on. *)
Definition bits_of key : option (Z * Z) :=
  match key with
  | lldpctl_k_med_location_latitude => Some (0, 40)
  | lldpctl_k_med_location_longitude => Some (40, 80)
  | lldpctl_k_med_location_altitude_unit => Some (80, 84)
  | lldpctl_k_med_location_altitude => Some (84, 120)
  | lldpctl_k_med_location_geoid => Some (120, 128)
  | _ => None
  end.

Definition agree (d d' : list Z) (low high : Z) : Prop := ∀ k, low ≤ k < high → bit d k = bit d' k.

Lemma char_value_high b : is_byte b → Z.land (char_value b) 0xf0 = Z.land b 0xf0.
Proof.
  intros Hb. assert (b ∈ seqZ 0 256) as Hin by (apply elem_of_seqZ; unfold is_byte in Hb; lia).
  assert (Forall (λ b, Z.land (b - 256) 0xf0 = Z.land b 0xf0) (seqZ 0 256)) as Hall.
  { apply (bool_decide_unpack _). vm_compute. exact I. }
  rewrite list.Forall_forall in Hall. unfold char_value. by destruct (CHAR_SIGNED && (128 <=? b))%bool; auto.
Qed.

Lemma high_same d d' b b' :
  d !! 10%nat = Some b → d' !! 10%nat = Some b' → agree d d' 80 84 → Z.land b 0xf0 = Z.land b' 0xf0.
Proof.
  intros E E' Ha. apply Z.bits_inj'. intros t Ht. rewrite !Z.land_spec.
  destruct (Z.testbit 0xf0 t) eqn:Em; [|by rewrite !andb_false_r]. rewrite !andb_true_r.
  assert (4 ≤ t ≤ 7) as Hr.
  { destruct (Z.le_gt_cases 4 t); [destruct (Z.le_gt_cases t 7); [lia|]|].
    - by rewrite (Z.bits_above_log2 0xf0 t) in Em by (cbn; lia).
    - assert (t = 0 ∨ t = 1 ∨ t = 2 ∨ t = 3) as [->|[->|[->| ->]]] by lia; done. }
  specialize (Ha (87 - t) ltac:(lia)).
  rewrite (bit_byte d 10 b), (bit_byte d' 10 b') in Ha by (done || zlia).
  by replace (7 - (87 - t) mod 8) with t in Ha by zlia.
Qed.

(** Locations that agree on those bits read the same under the key. *)
Lemma reading_ext key loc loc' :
  is_coord loc = true → is_coord loc' = true → bytes_ok (loc_data loc) → bytes_ok (loc_data loc') →
  (∀ low high, bits_of key = Some (low, high) → agree (loc_data loc') (loc_data loc) low high) →
  _lldpctl_atom_get_str_med_location loc' key = _lldpctl_atom_get_str_med_location loc key ∧
  _lldpctl_atom_get_int_med_location loc' key = _lldpctl_atom_get_int_med_location loc key.
Proof.
  rewrite !is_coord_true. intros [Hf Hl] [Hf' Hl'] Hb Hb' Ha.
  assert (∀ shift ib fb suffix, in_block shift ib fb →
    agree (loc_data loc') (loc_data loc) shift (shift + 6 + ib + fb) →
    read_fixed_precision (loc_data loc') shift ib fb suffix =
    read_fixed_precision (loc_data loc) shift ib fb suffix) as Hread.
  { intros shift ib fb suffix (? & ? & ? & ?) Hag. unfold read_fixed_precision.
    rewrite (buftofp_ext (loc_data loc') (loc_data loc)); [done|unfold zlen; (lia || done)..]. }
  destruct (lookup_lt_is_Some_2 (loc_data loc) 10) as [b E]; [lia|].
  destruct (lookup_lt_is_Some_2 (loc_data loc') 10) as [b' E']; [lia|].
  assert (agree (loc_data loc') (loc_data loc) 80 84 →
    Z.land (char_value b') 0xf0 = Z.land (char_value b) 0xf0) as Hunit.
  { intros Hag. rewrite (char_value_high b), (char_value_high b') by (exact (Forall_lookup_1 _ _ _ _ Hb E) || exact (Forall_lookup_1 _ _ _ _ Hb' E')). exact (high_same _ _ _ _ E' E Hag). }
  destruct key; try (split; unfold _lldpctl_atom_get_str_med_location, _lldpctl_atom_get_int_med_location;
    by rewrite ?Hf, ?Hf'); unfold _lldpctl_atom_get_str_med_location, _lldpctl_atom_get_int_med_location;
    rewrite Hf, Hf'; cbn -[at_data read_fixed_precision Z.land zlen].
  - unfold zlen. by rewrite Hl, Hl'.
  - unfold at_data. rewrite (byte_same (loc_data loc) (loc_data loc') 15) by
      (done || lia || (intros; by apply (Ha 120 128))). done.
  - split; [|done]. apply Hread; [unfold in_block; lia|]. by apply Ha.
  - split; [|done]. apply Hread; [unfold in_block; lia|]. by apply Ha.
  - split; [|done]. apply Hread; [unfold in_block; lia|]. by apply Ha.
  - unfold at_data. change (Z.to_nat 10) with 10%nat. rewrite E, E', Hunit by (by apply Ha). done.
Qed.

Lemma get_str_ext {A} (ops : atom_ops A) a a' key :
  (∀ get, op_get_str ops = Some get → get a key = get a' key) →
  (∀ get, op_get_int ops = Some get → get a key = get a' key) →
  op_get_buffer ops = None → lldpctl_atom_get_str ops a key = lldpctl_atom_get_str ops a' key.
Proof.
  intros Hs Hi Hb. unfold lldpctl_atom_get_str, get_str_from_int, get_str_from_buffer. rewrite Hb.
  destruct (op_get_str ops) as [gs|]; [rewrite (Hs gs eq_refl)|];
    (destruct (op_get_int ops) as [gi|]; [rewrite (Hi gi eq_refl)|]); done.
Qed.

(** A coordinate shares no bit with what other keys read. *)
Lemma bits_disjoint key key' shift ib fb suffix low high :
  coordinate key = Some (shift, ib, fb, suffix) → key' ≠ key → bits_of key' = Some (low, high) →
  0 ≤ low ∧ (high ≤ shift ∨ shift + 6 + ib + fb ≤ low).
Proof.
  destruct key; try done; intros [= <- <- <- <-]; destruct key'; try done; intros _ [= <- <-]; lia.
Qed.

(** A number whose text survives: with decimals as they can be packed, or without any. *)
Definition coord_number (fp : fp_number) : Prop :=
  fp_ok fp ∨ (frac_precision fp = 0 ∧ frac_value fp = 0 ∧ fp_ok (fp<|frac_precision := int_bits fp|>)).

Lemma fptostr_packed fp suffix :
  int_bits fp ≤ 25 → coord_number fp → fp_fptostr (fp_packed fp) suffix = fp_fptostr fp suffix.
Proof.
  intros Hi [Hok|(Hp & Hv & Hok)]; [by rewrite fp_packed_ok|].
  rewrite fp_packed_whole by (done || lia). unfold fp_fptostr, fp_fraction_str.
  change (frac_value (fp<|frac_precision := int_bits fp|>)) with (frac_value fp).
  change (int_value (fp<|frac_precision := int_bits fp|>)) with (int_value fp). rewrite Hv, Z.eqb_refl. reflexivity.
Qed.

(** What is parsed is what is shown; the other keys read as before. *)
Lemma coordinate_stored loc key text fp shift ib fb suffix :
  is_coord loc = true → bytes_ok (loc_data loc) →
  coordinate key = Some (shift, ib, fb, suffix) → parsed key (Some text) = Got fp → coord_number fp →
  ∃ loc' s, lldpctl_atom_set_str atom_med_location true loc key (Some text) = Got loc' ∧
    fp_fptostr fp suffix = Some s ∧
    lldpctl_atom_get_str atom_med_location loc' key = Got (Some s) ∧
    ∀ key', key' ≠ key →
      lldpctl_atom_get_str atom_med_location loc' key' = lldpctl_atom_get_str atom_med_location loc key' ∧
      lldpctl_atom_get_int atom_med_location loc' key' = lldpctl_atom_get_int atom_med_location loc key'.
Proof.
  intros Hc Hb Hkey Hp Hn. pose proof (coordinate_in_block _ _ _ _ _ Hkey) as (Hs & Hi & Hf & Hroom).
  pose proof (parsed_widths _ _ _ _ _ _ _ Hkey Hp) as Hw.
  destruct (set_coordinate_spec _ _ _ _ _ _ _ _ Hc Hb Hkey Hp) as (d & Hset & Hlen & Hbd & Hget & Hout).
  destruct (fptostr_printable (fp_packed fp) suffix) as [s Hstr]; [by eapply packed_printable|].
  pose proof Hc as Hc'. apply is_coord_true in Hc' as [Hfmt Hl].
  assert (is_coord (loc<|loc_data := d|>) = true) as Hcd by (by apply is_coord_true).
  exists (loc<|loc_data := d|>), s. split_and!.
  - unfold lldpctl_atom_set_str. cbn [op_set_str atom_med_location]. by rewrite Hset.
  - rewrite <- (fptostr_packed fp); [done|destruct Hw as (-> & _); lia|done].
  - assert (_lldpctl_atom_get_str_med_location (loc<|loc_data := d|>) key = Got (Some s)) as Hg.
    { assert (_lldpctl_atom_get_str_med_location (loc<|loc_data := d|>) key =
              read_fixed_precision d shift ib fb suffix) as ->.
      { clear -Hkey Hfmt. destruct loc as [fmt data]. cbn in Hfmt. subst fmt.
        by destruct key; try done; injection Hkey as <- <- <- <-. }
      unfold read_fixed_precision. rewrite Hget. cbn [mbind option_bind]. by rewrite Hstr. }
    unfold lldpctl_atom_get_str. cbn [op_get_str atom_med_location]. by rewrite Hg.
  - intros key' Hne.
    destruct (reading_ext key' loc (loc<|loc_data := d|>)) as [Hgs Hgi]; [done..| |].
    { intros low high Hbits k Hk. destruct (bits_disjoint _ _ _ _ _ _ _ _ Hkey Hne Hbits). apply Hout; lia. }
    split; [|done]. apply get_str_ext; [by intros ? [= <-]|by intros ? [= <-]|done].
Qed.

(** *** Texts of coordinates

    A sign, digits, decimals after a point if there are any, and for an angle perhaps a letter. *)

Definition coord_text (neg : bool) (ws ds tail : list Z) : list Z :=
  Fixedpoint.minus neg ++ ws ++ (match ds with [] => [] | _ => 46 :: ds end) ++ tail.
Definition tail_ok (suffix : option (Z * Z)) (tail : list Z) : Prop :=
  tail = [] ∨ match suffix with Some (p, n) => tail = [p] ∨ tail = [n] | None => False end.
(** The second letter changes the sign. *)
Definition text_negative (neg : bool) (suffix : option (Z * Z)) (tail : list Z) : bool :=
  xorb neg (match suffix with Some (_, n) => bool_decide (tail = [n]) | None => false end).
(** As many decimals as the field can tell apart: seven for 25 bits, two for 8 bits. *)
Definition max_decimals (fb : Z) : Z := if fb =? 8 then 2 else 7.
(** The text of a number with its sign in front, or as the letter that comes after it. *)
Definition shown_text (suffix : option (Z * Z)) (negative : bool) (whole : Z) (decimals : list Z) : list Z :=
  (match suffix with None => Fixedpoint.minus negative | Some _ => [] end) ++ decimal whole ++
  (match decimals with [] => [] | _ => 46 :: decimals end) ++
  match suffix with None => [] | Some (p, n) => [if negative then n else p] end.

(** The number such a text is parsed to. *)
Definition text_number (negative : bool) (ws ds : list Z) (ib fb : Z) : fp_number :=
  {| int_value := signed negative (digits 0 ws); int_bits := ib;
     frac_value := digits 0 ds * 2 ^ fb / 10 ^ zlen ds; frac_bits := fb;
     frac_precision := match ds with [] => 0 | _ => Z.min (fp_digits_bits (10 ^ zlen ds)) fb end |}.

Lemma fp_clamp_small ib v : - 2 ^ (ib - 1) ≤ v < 2 ^ (ib - 1) → fp_clamp ib v = v.
Proof.
  intros Hv. unfold fp_clamp. rewrite (proj2 (Z.leb_gt _ _)), (proj2 (Z.ltb_ge _ _)) by lia. done.
Qed.

Lemma coord_text_parsed neg ws ds tail ib fb :
  all_digits ws → ws ≠ [] → all_digits ds → zlen ds ≤ 7 → 0 < ib ≤ 22 → 0 ≤ fb ≤ 25 →
  digits 0 ws < 2 ^ (ib - 1) → no_digit tail → hd 0 tail ≠ 46 →
  fp_strtofp (coord_text neg ws ds tail) ib fb = Some (text_number neg ws ds ib fb, tail).
Proof.
  intros Hws Hw0 Hds Hk Hib Hfb Hw Ht Hdot. pose proof (digits_nonneg ws 0 ltac:(lia)) as Hwn.
  pose proof (Z.pow_le_mono_r 2 (ib - 1) 62 ltac:(lia) ltac:(lia)) as Hp.
  assert (digits 0 ws < 2 ^ 63) as Hw63 by (change (2 ^ 63) with (2 * 2 ^ 62); lia).
  assert (fp_clamp ib (signed neg (digits 0 ws)) = signed neg (digits 0 ws)) as Hc
    by (apply fp_clamp_small; destruct neg; cbn; lia).
  unfold coord_text, text_number. destruct ds as [|c ds].
  - cbn [app]. rewrite strtofp_whole by done. by rewrite Hc.
  - assert (digits 0 (c :: ds) * 2 ^ fb < 2 ^ 63) as Hb.
    { pose proof (digits_bound (c :: ds) 0 ltac:(lia)) as Hd. pose proof (digits_nonneg (c :: ds) 0 ltac:(lia)).
      pose proof (Z.pow_le_mono_r 10 (zlen (c :: ds)) 7 ltac:(lia) Hk).
      pose proof (Z.pow_le_mono_r 2 fb 25 ltac:(lia) ltac:(lia)). pose proof (Z.pow_pos_nonneg 2 fb ltac:(lia) ltac:(lia)).
      change (10 ^ 7) with 10000000 in *. change (2 ^ 25) with 33554432 in *. change (2 ^ 63) with 9223372036854775808. nia. }
    change ((46 :: c :: ds) ++ tail) with (46 :: (c :: ds) ++ tail).
    rewrite strtofp_exact by (done || lia). by rewrite Hc.
Qed.
Lemma text_number_negate neg ws ds ib fb :
  0 ≤ digits 0 ws < 2 ^ (ib - 1) → fp_negate (text_number neg ws ds ib fb) = text_number (negb neg) ws ds ib fb.
Proof.
  intros Hw. unfold fp_negate, text_number. cbn [int_bits int_value].
  rewrite fp_clamp_small by (destruct neg; cbn; lia).
  assert (- signed neg (digits 0 ws) = signed (negb neg) (digits 0 ws)) as -> by (destruct neg; cbn; lia). reflexivity.
Qed.

Lemma parsed_text key neg ws ds tail shift ib fb suffix :
  coordinate key = Some (shift, ib, fb, suffix) → tail_ok suffix tail →
  all_digits ws → ws ≠ [] → all_digits ds → zlen ds ≤ 7 → digits 0 ws < 2 ^ (ib - 1) →
  parsed key (Some (coord_text neg ws ds tail)) =
    Got (text_number (text_negative neg suffix tail) ws ds ib fb).
Proof.
  intros Hkey Ht Hws Hw0 Hds Hk Hw. pose proof (digits_nonneg ws 0 ltac:(lia)) as Hwn.
  unfold text_negative. destruct key; try done; injection Hkey as <- <- <- <-;
    (destruct Ht as [->|Ht]; [|destruct Ht as [->| ->] || destruct Ht]);
    cbn [parsed parse_coordinate parse_altitude];
    rewrite coord_text_parsed by (done || lia); cbn -[digits text_number]; rewrite ?xorb_false_r; try reflexivity.
  all: rewrite text_number_negate by (change (9 - 1) with 8 in Hw; cbn; lia); by destruct neg.
Qed.

Lemma text_number_coord negative ws ds shift ib fb suffix key :
  coordinate key = Some (shift, ib, fb, suffix) → all_digits ds →
  0 ≤ digits 0 ws < 2 ^ (ib - 1) → coord_number (text_number negative ws ds ib fb).
Proof.
  intros Hkey Hds Hw. pose proof (digits_bound ds 0 ltac:(lia)) as Hd. pose proof (digits_nonneg ds 0 ltac:(lia)) as Hn.
  pose proof (zlen_nonneg ds) as Hz. pose proof (Z.pow_pos_nonneg 10 (zlen ds) ltac:(lia) Hz) as Hp.
  assert (0 < ib ≤ 22 ∧ 0 < fb ≤ 25 ∧ ib + fb < 64) as (Hib & Hfb & Hsum)
    by (destruct key; try done; injection Hkey as <- <- <- <-; lia).
  pose proof (Z.pow_pos_nonneg 2 fb ltac:(lia) ltac:(lia)) as Hp2.
  assert (0 ≤ digits 0 ds * 2 ^ fb / 10 ^ zlen ds < 2 ^ fb) as Hf.
  { split; [apply Z.div_pos; nia|]. apply Z.div_lt_upper_bound; nia. }
  assert (- 2 ^ (ib - 1) < signed negative (digits 0 ws) < 2 ^ (ib - 1)) as Hi by (destruct negative; cbn; lia).
  unfold coord_number, text_number. destruct ds as [|c ds].
  - right. cbn [frac_precision frac_value]. split; [done|]. split; [done|]. split; cbn; try lia.
    change (digits 0 []) with 0. rewrite Z.div_0_l by done. lia.
  - left. assert (0 < fp_digits_bits (10 ^ zlen (c :: ds))).
    { unfold fp_digits_bits. destruct (_ =? 1); [lia|]. pose proof (Z.log2_nonneg (10 ^ zlen (c :: ds) - 1)). lia. }
    split; cbn -[digits zlen]; lia.
Qed.

(** The decimals that are shown: one unit less when the number has no exact binary form. *)
Lemma shown_decimals k fb d :
  1 ≤ k ≤ max_decimals fb → fb = 25 ∨ fb = 8 → 0 ≤ d < 10 ^ k →
  let d' := d * 2 ^ fb / 10 ^ k * 10 ^ k / 2 ^ fb in
  0 ≤ d' ∧ d - 1 ≤ d' ≤ d ∧ ((10 ^ k | d * 2 ^ fb) → d' = d).
Proof.
  intros Hk Hfb Hd d'. assert (0 < 10 ^ k ≤ 2 ^ fb) as [Hp Hle].
  { split; [apply Z.pow_pos_nonneg; lia|]. unfold max_decimals in Hk.
    destruct Hfb as [-> | ->]; cbn in Hk;
      [pose proof (Z.pow_le_mono_r 10 k 7 ltac:(lia) ltac:(lia))|pose proof (Z.pow_le_mono_r 10 k 2 ltac:(lia) ltac:(lia))];
      change (10 ^ 7) with 10000000 in *; change (10 ^ 2) with 100 in *; change (2 ^ 25) with 33554432;
      change (2 ^ 8) with 256; lia. }
  set (q := 2 ^ fb) in *. set (p := 10 ^ k) in *. unfold d'. clear d' Hk Hfb. clearbody p q.
  pose proof (Z.div_mod (d * q) p ltac:(lia)) as Ha. pose proof (Z.mod_pos_bound (d * q) p ltac:(lia)) as Hb.
  set (f := d * q / p) in *.
  pose proof (Z.div_mod (f * p) q ltac:(lia)) as Hc. pose proof (Z.mod_pos_bound (f * p) q ltac:(lia)) as He.
  assert (0 ≤ f) by (apply Z.div_pos; nia). set (g := f * p / q) in *.
  assert (0 ≤ g) by (apply Z.div_pos; nia). split; [done|]. split; [split; nia|].
  intros Hdiv. apply Z.mod_divide in Hdiv; [|lia]. rewrite Hdiv in Ha. nia.
Qed.

Lemma fp_power_decimals k fb :
  1 ≤ k ≤ max_decimals fb → fb = 25 ∨ fb = 8 →
  fp_power 20 (2 ^ Z.min (fp_digits_bits (10 ^ k)) fb) 1 0 = (10 ^ (k + 1), k + 1).
Proof.
  intros Hk Hfb. assert (k ∈ seqZ 1 (max_decimals fb)) as Hin by (apply elem_of_seqZ; lia).
  assert (Forall (λ k, fp_power 20 (2 ^ Z.min (fp_digits_bits (10 ^ k)) fb) 1 0 = (10 ^ (k + 1), k + 1))
    (seqZ 1 (max_decimals fb))) as Hall
    by (destruct Hfb as [-> | ->]; apply (bool_decide_unpack _); vm_compute; exact I).
  rewrite list.Forall_forall in Hall. by apply Hall.
Qed.

Lemma text_number_shown negative ws ds fb ib suffix :
  all_digits ds → zlen ds ≤ max_decimals fb → fb = 25 ∨ fb = 8 → (negative = true → 0 < digits 0 ws) →
  0 ≤ digits 0 ws →
  ∃ decimals, fp_fptostr (text_number negative ws ds ib fb) suffix =
      Some (shown_text suffix negative (digits 0 ws) decimals) ∧
    (decimals = [] ∧ digits 0 ds * 2 ^ fb < 10 ^ zlen ds ∨
     all_digits decimals ∧ zlen decimals = zlen ds ∧ digits 0 ds - 1 ≤ digits 0 decimals ≤ digits 0 ds ∧
     ((10 ^ zlen ds | digits 0 ds * 2 ^ fb) → digits 0 decimals = digits 0 ds)).
Proof.
  intros Hds Hk Hfb Hneg Hw. pose proof (digits_bound ds 0 ltac:(lia)) as Hd.
  pose proof (digits_nonneg ds 0 ltac:(lia)) as Hn. pose proof (zlen_nonneg ds) as Hz.
  pose proof (Z.pow_pos_nonneg 10 (zlen ds) ltac:(lia) Hz) as Hp. rewrite Z.mul_1_l in Hd.
  assert ((signed negative (digits 0 ws) <? 0) = negative) as Hsign.
  { destruct negative; cbn; [apply Z.ltb_lt; specialize (Hneg eq_refl); lia|apply Z.ltb_ge; lia]. }
  assert (Z.abs (signed negative (digits 0 ws)) = digits 0 ws) as Habs by (destruct negative; cbn; lia).
  unfold fp_fptostr. set (fp := text_number negative ws ds ib fb).
  change (int_value fp) with (signed negative (digits 0 ws)). rewrite Hsign, Habs.
  destruct (Z.eqb_spec (digits 0 ds * 2 ^ fb / 10 ^ zlen ds) 0) as [Hf|Hf].
  - exists []. split.
    + unfold fp_fraction_str. change (frac_value fp) with (digits 0 ds * 2 ^ fb / 10 ^ zlen ds). rewrite Hf.
      by destruct suffix as [[p n]|].
    + left. split; [done|]. destruct (Z.lt_ge_cases (digits 0 ds * 2 ^ fb) (10 ^ zlen ds)) as [|Hge]; [done|].
      apply (Z.div_le_mono _ _ (10 ^ zlen ds)) in Hge; [|done]. rewrite Z.div_same in Hge by lia. lia.
  - assert (ds ≠ []) as Hne by (intros ->; done).
    assert (1 ≤ zlen ds) as Hk1 by (destruct ds; [done|rewrite zlen_cons; pose proof (zlen_nonneg ds); lia]).
    destruct (shown_decimals (zlen ds) fb (digits 0 ds)) as (H0 & Hle & Hex); [lia|done|lia|].
    set (d' := digits 0 ds * 2 ^ fb / 10 ^ zlen ds * 10 ^ zlen ds / 2 ^ fb) in *.
    destruct (zero_padded_digits (zlen ds) d') as (Had & Hzl & Hval);
      [lia|unfold max_decimals in Hk; destruct (fb =? 8); lia|].
    exists (zero_padded (zlen ds) d'). rewrite Hval. split; [|by right].
    assert (fp_fraction_str fp = Some (46 :: zero_padded (zlen ds) d')) as ->.
    + unfold fp_fraction_str. change (frac_value fp) with (digits 0 ds * 2 ^ fb / 10 ^ zlen ds).
      rewrite (proj2 (Z.eqb_neq _ _) Hf).
      assert (frac_precision fp = Z.min (fp_digits_bits (10 ^ zlen ds)) fb) as -> by (by destruct ds).
      rewrite fp_power_decimals by (done || lia).
      rewrite Z.pow_add_r by lia. change (10 ^ 1) with 10. rewrite Z.div_mul by done.
      rewrite (proj2 (Z.eqb_neq _ _)) by lia. change (frac_bits fp) with fb.
      rewrite i64_some.
      * cbn [mbind option_bind]. rewrite Z.shiftr_div_pow2 by lia. by replace (zlen ds + 1 - 1) with (zlen ds) by lia.
      * pose proof (Z.mul_div_le (digits 0 ds * 2 ^ fb) (10 ^ zlen ds) ltac:(lia)).
        assert (0 ≤ digits 0 ds * 2 ^ fb / 10 ^ zlen ds) by (apply Z.div_pos; [|lia]; pose proof (Z.pow_pos_nonneg 2 fb); lia).
        assert (10 ^ zlen ds * 2 ^ fb < 2 ^ 63); [|pose proof (Z.pow_pos_nonneg 2 fb); nia].
        destruct Hfb as [-> | ->]; cbn in Hk; [pose proof (Z.pow_le_mono_r 10 (zlen ds) 7 ltac:(lia) ltac:(lia))
          |pose proof (Z.pow_le_mono_r 10 (zlen ds) 2 ltac:(lia) ltac:(lia))];
          change (10 ^ 7) with 10000000 in *; change (10 ^ 2) with 100 in *; change (2 ^ 25) with 33554432;
          change (2 ^ 8) with 256; change (2 ^ 63) with 9223372036854775808; lia.
    + unfold shown_text. cbn [mbind option_bind].
      destruct (zero_padded (zlen ds) d') as [|c l]; [rewrite zlen_nil in Hzl; lia|]. by destruct suffix as [[p n]|].
Qed.

(** C21: a latitude, a longitude or an altitude that is written as text (a sign, digits, at most
    seven decimals, two for an altitude, and for an angle perhaps the letter of its direction) is
    accepted when its integer part fits in the field, and is then shown with the same integer
    part, the same direction and as many decimals; these are the decimals that were written, or
    one unit less in the last place when the number has no exact binary form, and none when the
    fraction is below the resolution of the field.  A negative number must be at least one in
    absolute value: the sign of -0.5 is lost.  Every other key of the location reads as before. *)
Theorem coordinate_roundtrip loc key shift ib fb suffix neg ws ds tail :
  is_coord loc = true → bytes_ok (loc_data loc) →
  coordinate key = Some (shift, ib, fb, suffix) → tail_ok suffix tail →
  all_digits ws → ws ≠ [] → all_digits ds → zlen ds ≤ max_decimals fb → digits 0 ws < 2 ^ (ib - 1) →
  (text_negative neg suffix tail = true → 0 < digits 0 ws) →
  ∃ loc' decimals,
    lldpctl_atom_set_str atom_med_location true loc key (Some (coord_text neg ws ds tail)) = Got loc' ∧
    lldpctl_atom_get_str atom_med_location loc' key =
      Got (Some (shown_text suffix (text_negative neg suffix tail) (digits 0 ws) decimals)) ∧
    (decimals = [] ∧ digits 0 ds * 2 ^ fb < 10 ^ zlen ds ∨
     all_digits decimals ∧ zlen decimals = zlen ds ∧ digits 0 ds - 1 ≤ digits 0 decimals ≤ digits 0 ds ∧
     ((10 ^ zlen ds | digits 0 ds * 2 ^ fb) → digits 0 decimals = digits 0 ds)) ∧
    ∀ key', key' ≠ key →
      lldpctl_atom_get_str atom_med_location loc' key' = lldpctl_atom_get_str atom_med_location loc key' ∧
      lldpctl_atom_get_int atom_med_location loc' key' = lldpctl_atom_get_int atom_med_location loc key'.
Proof.
  intros Hc Hb Hkey Ht Hws Hw0 Hds Hk Hw Hneg. pose proof (digits_nonneg ws 0 ltac:(lia)) as Hwn.
  assert (fb = 25 ∨ fb = 8) as Hfb by (destruct key; try done; injection Hkey as <- <- <- <-; lia).
  assert (zlen ds ≤ 7) as Hk7 by (unfold max_decimals in Hk; destruct (fb =? 8); lia).
  pose proof (parsed_text _ neg _ _ _ _ _ _ _ Hkey Ht Hws Hw0 Hds Hk7 Hw) as Hp.
  destruct (coordinate_stored loc key _ _ _ _ _ _ Hc Hb Hkey Hp) as (loc' & s & Hset & Hstr & Hget & Hother).
  { by eapply text_number_coord. }
  destruct (text_number_shown (text_negative neg suffix tail) ws ds fb ib suffix) as (decimals & Hshow & Hdec); [done..|].
  exists loc', decimals. assert (s = shown_text suffix (text_negative neg suffix tail) (digits 0 ws) decimals) as -> by congruence.
  done.
Qed.
End Coordinates.
