(* ===== verification/AtomSafe.v ===== *)
(** * Locations that are edited can be read (src/lib/atom-private.c)

    The getters of a location read the block of bytes without looking at its length.  The
    file shows that this is harmless for the locations a client edits: an invariant on the
    block holds after every edit, and no getter leaves a block that satisfies it. *)

From S2P Require Import Prelude Bytes Const Structs Text Fixedpoint AtomMaps Atoms AtomLocation AtomCoord.
From stdpp Require Import strings.
#[local] Open Scope Z_scope.

(** What a format asks of the block: sixteen bytes with coordinates that can be printed, or
    the country after the length and the meaning. *)
Definition loc_ok (loc : lldpd_med_loc) : Prop :=
  bytes_ok (loc_data loc) ∧
  (loc_format loc = LLDP_MED_LOCFORMAT_COORD →
     length (loc_data loc) = 16%nat ∧ fields_printable (loc_data loc)) ∧
  (loc_format loc = LLDP_MED_LOCFORMAT_CIVIC → (4 ≤ length (loc_data loc))%nat).

(** A call that did not leave the memory of the atom, and whose result satisfies [P]. *)
Definition keeps {A} (P : A → Prop) (r : access A) : Prop :=
  match r with Got a => P a | Err _ => True | Fault => False end.

(** The characters of a C string, at most eleven of them after the first point: a longer
    fraction can overflow when it is read as a number. *)
Definition text_ok (s : list Z) : Prop := bytes_ok s ∧ zlen (after_point s) ≤ 11.

Lemma field_ok_ext data data' shift ib fb :
  in_block shift ib fb → length data = 16%nat → length data' = 16%nat →
  agree data' data shift (shift + 6 + ib + fb) → field_ok data shift ib fb → field_ok data' shift ib fb.
Proof.
  intros (? & ? & ? & ?) Hl Hl' Ha (fp & Hget & Hp). exists fp. split; [|done].
  rewrite <- Hget. apply buftofp_ext; [unfold zlen; (lia || done)..|]. exact Ha.
Qed.

(** Bits outside of the coordinates do not matter. *)
Lemma fields_printable_ext data data' :
  length data = 16%nat → length data' = 16%nat → agree data' data 0 80 → agree data' data 84 120 →
  fields_printable data → fields_printable data'.
Proof.
  intros Hl Hl' H1 H2 (F1 & F2 & F3).
  split_and!; (eapply field_ok_ext; [unfold in_block; lia|exact Hl|done| |done]); intros k Hk;
    (apply H1; lia) || (apply H2; lia).
Qed.

Section Edits.
Context `{CharConfig}.
Implicit Types (loc : lldpd_med_loc) (key : lldpctl_key_t) (value : Z) (text : option (list Z)).

(** A byte of the coordinates is replaced by one with the same low bits, or is the last. *)
Lemma set_byte_keeps loc i b b' :
  loc_ok loc → is_coord loc = true → is_byte b' → loc_data loc !! Z.to_nat i = Some b →
  (i = 15 ∨ (i = 10 ∧ ∀ t, 0 ≤ t ≤ 3 → Z.testbit b' t = Z.testbit b t)) →
  keeps loc_ok (set_data loc i [b']).
Proof.
  intros (Hb & Hc & _) Hcoord Hb' E Hi. apply is_coord_true in Hcoord as [Hf Hl].
  destruct (Hc Hf) as [_ Hp]. unfold set_data.
  rewrite poke_byte by (unfold zlen; lia). cbn. unfold loc_ok. cbn. split_and!.
  - by apply Forall_insert.
  - intros _. split; [by rewrite length_insert|].
    eapply fields_printable_ext; [exact Hl|by rewrite length_insert| | |done]; intros k Hk;
      rewrite bit_insert by lia; destruct (Z.eqb_spec (k / 8) (Z.of_nat (Z.to_nat i))) as [He|]; try done.
    + exfalso. zlia.
    + rewrite (bit_byte _ _ b k E He). destruct Hi as [->|[-> Ht]]; [exfalso; zlia|]. apply Ht. zlia.
  - intros Hcivic. rewrite Hf in Hcivic. done.
Qed.

Lemma unit_low b value t :
  is_byte b → 0 ≤ value ≤ 2 → 0 ≤ t ≤ 3 →
  Z.testbit (u8 (Z.lor (Z.land b 0x0f) (Z.shiftl value 4))) t = Z.testbit b t.
Proof.
  intros Hb Hv Ht. unfold u8. rewrite Z.testbit_mod_pow2, (proj2 (Z.ltb_lt t 8)) by lia. cbn [andb].
  rewrite Z.lor_spec, Z.land_spec, Z.shiftl_spec, (Z.testbit_neg_r value) by lia. rewrite orb_false_r.
  assert (t = 0 ∨ t = 1 ∨ t = 2 ∨ t = 3) as [->|[->|[->| ->]]] by lia; apply andb_true_r.
Qed.

Lemma set_format_keeps loc value : keeps loc_ok (set_format loc value).
Proof.
  unfold set_format.
  assert (bytes_ok (replicate 16 0)) as Hz by (by apply Forall_replicate).
  assert (fields_printable (replicate 16 0)) as Hf.
  { split_and!; (eexists; split; [vm_compute; reflexivity|unfold printable; cbn [frac_precision frac_value]; lia]). }
  destruct (_ || _)%bool; [split_and!; [done|done|cbn; lia]|].
  destruct (Z.eqb_spec value LLDP_MED_LOCFORMAT_CIVIC) as [->|].
  { split_and!; [|done|cbn; lia]. cbn. repeat constructor; unfold is_byte; lia. }
  destruct (Z.eqb_spec value LLDP_MED_LOCFORMAT_ELIN) as [->|]; [|done]. by split_and!.
Qed.

Lemma set_int_keeps local loc key value :
  loc_ok loc → keeps loc_ok (_lldpctl_atom_set_int_med_location local loc key value).
Proof.
  intros Hok. unfold _lldpctl_atom_set_int_med_location. destruct local; [|done]. cbn [negb].
  destruct key; try done; [apply set_format_keeps| |].
  - destruct (is_coord loc) eqn:Hc; [|done]. cbn [negb].
    destruct (_ || _)%bool; [|done].
    pose proof Hc as Hc'. apply is_coord_true in Hc' as [_ Hl].
    destruct (lookup_lt_is_Some_2 (loc_data loc) (Z.to_nat 15)) as [b E]; [cbn; lia|].
    apply (set_byte_keeps _ _ b); [done|done|unfold is_byte, u8; apply Z.mod_pos_bound; lia|done|by left].
  - destruct (is_coord loc) eqn:Hc; [|done]. cbn [negb].
    destruct (_ || _)%bool eqn:Hv; [|done].
    pose proof Hc as Hc'. apply is_coord_true in Hc' as [_ Hl].
    destruct (lookup_lt_is_Some_2 (loc_data loc) (Z.to_nat 10)) as [b E]; [cbn; lia|].
    unfold at_data. rewrite E. apply (set_byte_keeps _ _ b);
      [done|done|unfold is_byte, u8; apply Z.mod_pos_bound; lia|done|right; split; [done|]].
    intros t Ht. apply unit_low; [|unfold LLDP_MED_LOCATION_ALTITUDE_UNIT_METER, LLDP_MED_LOCATION_ALTITUDE_UNIT_FLOOR in Hv; rewrite !orb_true_iff, !Z.eqb_eq in Hv; lia|done].
    destruct Hok as [Hb _]. exact (Forall_lookup_1 _ _ _ _ Hb E).
Qed.

Lemma set_coordinate_keeps loc key text shift ib fb suffix :
  loc_ok loc → coordinate key = Some (shift, ib, fb, suffix) → parsed key text ≠ Fault →
  keeps loc_ok (_lldpctl_atom_set_str_med_location true loc key text).
Proof.
  intros Hok Hkey Hpf. destruct (is_coord loc) eqn:Hc.
  2: { rewrite (set_str_coordinate _ _ _ _ _ _ _ _ Hkey). cbn [negb]. unfold set_coordinate. by rewrite Hc. }
  destruct (parsed key text) as [fp|e|] eqn:Hp; [| |done].
  2: { rewrite (set_str_coordinate _ _ _ _ _ _ _ _ Hkey). cbn [negb]. unfold set_coordinate. by rewrite Hc, Hp. }
  destruct Hok as (Hb & Hco & _).
  destruct (set_coordinate_spec _ _ _ _ _ _ _ _ Hc Hb Hkey Hp) as (d & -> & Hlen & Hbd & Hget & Hout).
  apply is_coord_true in Hc as [Hf Hl]. destruct (Hco Hf) as [_ (F1 & F2 & F3)].
  cbn [keeps]. unfold loc_ok. cbn. split_and!; [done| |by rewrite Hf].
  intros _. split; [done|].
  pose proof (parsed_widths _ _ _ _ _ _ _ Hkey Hp) as Hw.
  assert (field_ok d shift ib fb) as Hnew.
  { eexists. split; [done|]. eapply packed_printable; [done|..];
      destruct (coordinate_in_block _ _ _ _ _ Hkey) as (? & ? & ? & ?); lia. }
  destruct key; try done; injection Hkey as <- <- <- <-; (split_and!; try done;
    (eapply field_ok_ext; [unfold in_block; lia|exact Hl|done| |done]); intros k Hk; apply Hout; lia).
Qed.

Lemma parsed_total key s shift ib fb suffix :
  text_ok s → coordinate key = Some (shift, ib, fb, suffix) → parsed key (Some s) ≠ Fault.
Proof.
  intros [_ Hl] Hkey. pose proof (strtofp_no_overflow s 9 25 Hl ltac:(lia)) as H1.
  pose proof (strtofp_no_overflow s 22 8 Hl ltac:(lia)) as H2. destruct key; try done; cbn.
  - destruct (fp_strtofp s 9 25) as [[fp [|c [|]]]|]; try done. by repeat case_if.
  - destruct (fp_strtofp s 9 25) as [[fp [|c [|]]]|]; try done. by repeat case_if.
  - by destruct (fp_strtofp s 22 8) as [[fp [|]]|].
Qed.

Lemma set_country_keeps loc s :
  loc_ok loc → bytes_ok s → zlen s = 2 → loc_format loc = LLDP_MED_LOCFORMAT_CIVIC →
  keeps loc_ok (set_data loc 2 s).
Proof.
  intros (Hb & _ & Hc) Hs Hl Hf. specialize (Hc Hf). unfold set_data, poke.
  rewrite Hl, (proj2 (Z.leb_le (2 + 2) _)) by (unfold zlen; lia). cbn [Z.leb andb Z.compare].
  change (Z.to_nat 2) with 2%nat. change (Z.to_nat (2 + 2)) with 4%nat. cbn. unfold loc_ok. cbn. split_and!.
  - rewrite !Forall_app. split_and!; [by apply Forall_take|done|by apply Forall_drop].
  - by rewrite Hf.
  - intros _. rewrite !length_app, length_take, length_drop. unfold zlen in Hl. lia.
Qed.

Lemma set_str_keeps local loc key text :
  loc_ok loc → (∀ s, text = Some s → text_ok s) →
  keeps loc_ok (_lldpctl_atom_set_str_med_location local loc key text).
Proof.
  intros Hok Ht. destruct local; [|done]. destruct text as [s|].
  2: { destruct key; try done; unfold _lldpctl_atom_set_str_med_location; cbn [negb];
       [by apply set_int_keeps|by destruct (is_coord loc) eqn:E; unfold set_coordinate; rewrite E..|].
       by repeat case_if. }
  specialize (Ht s eq_refl).
  destruct (coordinate key) as [[[[shift ib] fb] suffix]|] eqn:Hkey.
  { eapply set_coordinate_keeps; [done..|]. by eapply parsed_total. }
  destruct key; try done; unfold _lldpctl_atom_set_str_med_location; cbn [negb].
  - by apply set_int_keeps.
  - repeat case_if; try done; by apply set_int_keeps.
  - repeat case_if; try done. apply set_country_keeps; [done|by destruct Ht|done|done].
  - case_if; [done|]. bool_to_prop. destruct Hok as (Hb & _ & _). cbn. unfold loc_ok. cbn.
    assert (loc_format loc = LLDP_MED_LOCFORMAT_ELIN) as -> by done.
    split_and!; [by destruct Ht|done|done].
Qed.

Lemma add_keeps local loc key el :
  loc_ok loc → bytes_ok (ca_value el) →
  keeps loc_ok (_lldpctl_atom_set_atom_med_location local loc key el).
Proof.
  intros (Hb & _ & Hc) Hel. unfold _lldpctl_atom_set_atom_med_location. destruct local; [|done]. cbn [negb].
  destruct key; try done. destruct (Z.eqb_spec (loc_format loc) LLDP_MED_LOCFORMAT_CIVIC) as [Hf|]; [|done].
  specialize (Hc Hf). destruct loc as [fmt [|b rest]]; [done|]. cbn in Hf, Hb, Hc |- *. subst fmt.
  destruct (_ <? 3); [done|]. cbn. unfold loc_ok. cbn.
  assert (∀ v, is_byte (u8 v)) by (intros; unfold is_byte, u8; apply Z.mod_pos_bound; lia).
  apply Forall_cons_iff in Hb as [_ Hb]. split_and!.
  - constructor; [done|]. apply Forall_app. split; [done|]. constructor; [done|]. by constructor.
  - done.
  - intros _. rewrite length_app. cbn in Hc. lia.
Qed.

(** The fallbacks of [lldpctl_atom_set_str] keep what the methods keep. *)
Lemma accessor_keeps {A} (ops : atom_ops A) (P : A → Prop) local a key text :
  (∀ set, op_set_str ops = Some set → keeps P (set local a key text)) →
  (∀ set v, op_set_int ops = Some set → keeps P (set local a key v)) →
  op_set_buffer ops = None →
  keeps P (lldpctl_atom_set_str ops local a key text).
Proof.
  intros Hs Hi Hb.
  assert (∀ bad, keeps P (set_str_as_buffer ops local a key text bad)) as Hbuf
    by (intros []; unfold set_str_as_buffer; by rewrite Hb).
  assert (∀ r bad k, keeps P r → (∀ bad, keeps P (k bad)) → keeps P (try_next (A := A) r bad k)) as Hnext.
  { intros [] bad k Hr Hk; try done. cbn. case_if; auto. }
  assert (∀ bad, keeps P (set_str_as_int ops local a key text bad)) as Hint.
  { intros bad. unfold set_str_as_int. destruct (op_set_int ops); [|done]. destruct (converts text); [|done].
    apply Hnext; auto. }
  unfold lldpctl_atom_set_str. destruct (op_set_str ops); [|done]. apply Hnext; auto.
Qed.

(** ** Reading *)

Lemma at_data_read {A} loc i (k : Z → access A) :
  0 ≤ i → (Z.to_nat i < length (loc_data loc))%nat → (∀ b, k b ≠ Fault) → at_data loc i k ≠ Fault.
Proof.
  intros Hi Hl Hk. unfold at_data. destruct (lookup_lt_is_Some_2 (loc_data loc) (Z.to_nat i)) as [b ->]; auto.
Qed.

Lemma read_fixed_ok data shift ib fb suffix :
  field_ok data shift ib fb → read_fixed_precision data shift ib fb suffix ≠ Fault.
Proof.
  intros (fp & Hget & Hp). unfold read_fixed_precision. rewrite Hget. cbn [mbind option_bind].
  by destruct (fptostr_printable fp suffix Hp) as [s ->].
Qed.

Lemma get_int_reads loc key : loc_ok loc → _lldpctl_atom_get_int_med_location loc key ≠ Fault.
Proof.
  intros (_ & Hc & Hv). destruct key; try done; unfold _lldpctl_atom_get_int_med_location.
  - destruct (Z.eqb_spec (loc_format loc) LLDP_MED_LOCFORMAT_COORD) as [|]; [by case_if|].
    destruct (Z.eqb_spec (loc_format loc) LLDP_MED_LOCFORMAT_CIVIC) as [Hf|]; [|by case_if].
    specialize (Hv Hf). case_if; [done|]. apply at_data_read; [lia|cbn; lia|]. intros b. by case_if.
  - destruct (Z.eqb_spec (loc_format loc) LLDP_MED_LOCFORMAT_COORD) as [Hf|]; [|done].
    destruct (Hc Hf). apply at_data_read; [lia|cbn; lia|done].
  - destruct (Z.eqb_spec (loc_format loc) LLDP_MED_LOCFORMAT_COORD) as [Hf|]; [|done].
    destruct (Hc Hf). apply at_data_read; [lia|cbn; lia|done].
Qed.

Lemma get_str_reads loc key : loc_ok loc → _lldpctl_atom_get_str_med_location loc key ≠ Fault.
Proof.
  intros (_ & Hc & Hv). destruct key; try done; unfold _lldpctl_atom_get_str_med_location;
    (destruct (Z.eqb_spec (loc_format loc) LLDP_MED_LOCFORMAT_COORD) as [Hf|Hf];
      [destruct (Hc Hf) as [Hl (F1 & F2 & F3)]|]); try done.
  - apply at_data_read; [lia|cbn; lia|done].
  - by apply read_fixed_ok.
  - by apply read_fixed_ok.
  - by apply read_fixed_ok.
  - apply at_data_read; [lia|cbn; lia|]. intros b. cbn. by repeat case_if.
  - by rewrite Hf.
  - destruct (Z.eqb_spec (loc_format loc) LLDP_MED_LOCFORMAT_CIVIC) as [Hfc|]; [|done]. specialize (Hv Hfc).
    apply at_data_read; [lia|cbn; lia|]. intros b. apply at_data_read; [lia|cbn; lia|done].
  - by rewrite Hf.
  - by case_if.
Qed.

Lemma accessor_reads {A} (ops : atom_ops A) a key :
  (∀ get, op_get_str ops = Some get → get a key ≠ Fault) →
  (∀ get, op_get_int ops = Some get → get a key ≠ Fault) →
  op_get_buffer ops = None → lldpctl_atom_get_str ops a key ≠ Fault.
Proof.
  intros Hs Hi Hb.
  assert (get_str_from_int ops a key ≠ Fault) as Hint.
  { unfold get_str_from_int, get_str_from_buffer. rewrite Hb. destruct (op_get_int ops) as [get|]; [|done].
    specialize (Hi get eq_refl). destruct (get a key); try done. by case_if. }
  unfold lldpctl_atom_get_str. destruct (op_get_str ops) as [get|]; [|done].
  specialize (Hs get eq_refl). destruct (get a key); try done. by case_if.
Qed.

(** The iteration ends on every block: each step leaves it or moves by two bytes. *)
Lemma foreach_total fuel cai : (length (ci_data cai) < fuel)%nat → ca_foreach fuel cai ≠ None.
Proof.
  revert cai. induction fuel as [|fuel IH]; intros cai Hf; [lia|]. cbn [ca_foreach].
  destruct (_lldpctl_atom_value_med_caelements_list cai) as [[el|]| |]; try done.
  destruct (_lldpctl_atom_next_med_caelements_list cai) as [[cai'|]| |] eqn:E; try done.
  assert (length (ci_data cai') < fuel)%nat as Hlt.
  { revert E. unfold _lldpctl_atom_next_med_caelements_list. destruct (ci_len cai <? 2); [done|].
    destruct (ci_data cai !! 1%nat) as [len|] eqn:El; [|done]. case_if; [done|]. intros [= <-]. cbn [ci_data].
    apply lookup_lt_Some in El. rewrite length_drop. lia. }
  specialize (IH cai' Hlt). by destruct (ca_foreach fuel cai') as [[]|].
Qed.

(** It stays in a block whose length is right. *)
Lemma foreach_reads fuel cai :
  bytes_ok (ci_data cai) → ci_len cai = zlen (ci_data cai) → (length (ci_data cai) < fuel)%nat →
  ∃ els, ca_foreach fuel cai = Some (Got els).
Proof.
  revert cai. induction fuel as [|fuel IH]; intros [data len] Hb Hl Hf; cbn [ci_data ci_len] in *; [lia|].
  cbn [ca_foreach]. unfold _lldpctl_atom_value_med_caelements_list, _lldpctl_atom_next_med_caelements_list.
  cbn [ci_data ci_len]. subst len. destruct (Z.ltb_spec (zlen data) 2); [by eexists|].
  destruct data as [|type [|l bytes]]; [by cbn in *|by cbn in *|].
  change ((type :: l :: bytes) !! 1%nat) with (Some l). cbn iota.
  destruct (Z.ltb_spec (zlen (type :: l :: bytes)) (2 + l)) as [|Hfit]; [by eexists|].
  rewrite !zlen_cons in Hfit. rewrite (proj2 (Z.ltb_ge (zlen bytes) l)) by lia.
  rewrite !Forall_cons_iff in Hb. destruct Hb as (_ & Hlb & Hb). unfold is_byte in Hlb.
  cbn [Nat.add drop].
  destruct (IH {| ci_data := drop (Z.to_nat l) bytes; ci_len := zlen (type :: l :: bytes) - (2 + l) |})
    as [els ->]; [by apply Forall_drop| | |by eexists].
  - cbn [ci_data ci_len]. rewrite zlen_drop, !zlen_cons by lia. lia.
  - cbn [ci_data]. cbn in Hf. rewrite length_drop. lia.
Qed.

Lemma ca_elements_reads loc :
  loc_ok loc → loc_format loc = LLDP_MED_LOCFORMAT_CIVIC → zlen (loc_data loc) < 2 ^ 31 →
  ∃ els, ca_elements loc = Some (Got els).
Proof.
  intros (Hb & _ & Hc) Hf Hl. specialize (Hc Hf). apply foreach_reads; unfold _lldpctl_atom_iter_med_caelements_list.
  - by apply Forall_drop.
  - cbn [ci_data ci_len]. unfold u64. rewrite Z.mod_small by (unfold zlen in *; lia).
    unfold zlen. rewrite length_drop. lia.
  - cbn [ci_data]. rewrite length_drop. lia.
Qed.

(** ** Sequences of edits *)

Inductive edit :=
  | EditInt (key : lldpctl_key_t) (value : Z)
  | EditStr (key : lldpctl_key_t) (text : option (list Z))
  | EditAdd (el : caelement).

Definition edit_ok (e : edit) : Prop :=
  match e with
  | EditInt _ _ => True
  | EditStr _ text => ∀ s, text = Some s → text_ok s
  | EditAdd el => bytes_ok (ca_value el)
  end.

Definition apply_edit loc (e : edit) : access lldpd_med_loc :=
  match e with
  | EditInt key value => lldpctl_atom_set_int atom_med_location true loc key value
  | EditStr key text => lldpctl_atom_set_str atom_med_location true loc key text
  | EditAdd el => _lldpctl_atom_set_atom_med_location true loc lldpctl_k_med_location_ca_elements el
  end.

(** An edit that is refused leaves the location as it is. *)
Fixpoint run_edits loc (es : list edit) : access lldpd_med_loc :=
  match es with
  | [] => Got loc
  | e :: es => match apply_edit loc e with
               | Got loc => run_edits loc es
               | Err _ => run_edits loc es
               | Fault => Fault
               end
  end.

Lemma apply_edit_keeps loc e : loc_ok loc → edit_ok e → keeps loc_ok (apply_edit loc e).
Proof.
  intros Hok He. destruct e as [key value|key text|el]; cbn [apply_edit].
  - exact (set_int_keeps true loc key value Hok).
  - apply accessor_keeps; [|intros set v|done]; intros ? [= <-] || intros [= <-];
      [by apply set_str_keeps|by apply set_int_keeps].
  - by apply add_keeps.
Qed.

(** C20: whatever integers, texts and elements a client writes to a location, refused edits
    included, no write leaves the block and no number overflows; and the location that results
    can be read under every key, as text and as an integer, and its elements listed, without
    leaving the block either.  The location it starts from has a block that fits its format
    ([loc_ok]: sixteen bytes with precisions that can be printed for coordinates, at least four
    bytes for a civic address, since the country is written over the fourth byte of a shorter
    one), as the blocks that setting the format allocates do, and a text has at most eleven
    characters after its first point. *)
Theorem location_edits_safe loc es :
  loc_ok loc → Forall edit_ok es →
  ∃ loc', run_edits loc es = Got loc' ∧ loc_ok loc' ∧
    (∀ key, lldpctl_atom_get_str atom_med_location loc' key ≠ Fault ∧
            lldpctl_atom_get_int atom_med_location loc' key ≠ Fault) ∧
    (loc_format loc' = LLDP_MED_LOCFORMAT_CIVIC → zlen (loc_data loc') < 2 ^ 31 →
       ∃ els, ca_elements loc' = Some (Got els)).
Proof.
  intros Hok Hes.
  assert (∃ loc', run_edits loc es = Got loc' ∧ loc_ok loc') as (loc' & Hrun & Hok').
  { revert loc Hok. induction Hes as [|e es He _ IH]; intros loc Hok; [by eexists|]. cbn [run_edits].
    pose proof (apply_edit_keeps loc e Hok He) as Hk. destruct (apply_edit loc e); [by apply IH..|done]. }
  exists loc'. split_and!; [done|done| |].
  - intros key. split; [apply accessor_reads; [by intros ? [= <-]; apply get_str_reads|
      by intros ? [= <-]; apply get_int_reads|done]|]. by apply get_int_reads.
  - intros. by apply ca_elements_reads.
Qed.

(** Listing the elements ends on every location, whatever its bytes are. *)
Lemma ca_elements_total loc : ca_elements loc ≠ None.
Proof.
  apply foreach_total. unfold _lldpctl_atom_iter_med_caelements_list. cbn [ci_data]. rewrite length_drop. lia.
Qed.
End Edits.
