(* ===== verification/AtomConfig.v ===== *)
(** * The configuration in the client library (src/lib/atom-private.c)

    The atom of the configuration keeps a copy of the configuration of the daemon.  Writing
    a setting changes the copy and sends a configuration to the daemon, which applies it
    ([Client]).  The file models the methods of the atom and shows what becomes of both
    copies.  The options of the command line of the daemon that are kept as booleans are 0
    or 1. *)

From S2P Require Import Prelude Bytes Const Structs Text AtomMaps Atoms Table Client.
From stdpp Require Import strings.
#[local] Open Scope Z_scope.

(** A [long] stored in an [int]. *)
Definition to_int (v : Z) : Z := (v + 2 ^ 31) mod 2 ^ 32 - 2 ^ 31.

Definition _lldpctl_atom_get_int_config (c : lldpd_config) (key : lldpctl_key_t) : access Z :=
  match key with
  | lldpctl_k_config_paused => Got (c_paused c)
  | lldpctl_k_config_tx_interval => Got (c_tx_interval c)
  | lldpctl_k_config_receiveonly => Got (Z.b2z (c_receiveonly c))
  | lldpctl_k_config_advertise_version => Got (Z.b2z (c_advertise_version c))
  | lldpctl_k_config_ifdescr_update => Got (c_set_ifdescr c)
  | lldpctl_k_config_iface_promisc => Got (c_promisc c)
  | lldpctl_k_config_lldpmed_noinventory => Got (Z.b2z (c_noinventory c))
  | lldpctl_k_config_fast_start_enabled => Got (c_enable_fast_start c)
  | lldpctl_k_config_fast_start_interval => Got (c_tx_fast_interval c)
  | lldpctl_k_config_tx_hold => Got (c_tx_hold c)
  | _ => NOT_EXIST
  end.

Definition _lldpctl_atom_get_str_config (c : lldpd_config) (key : lldpctl_key_t) : access (option (list Z)) :=
  let str (res : option (list Z)) := Got (Some (default [] res)) in
  match key with
  | lldpctl_k_config_mgmt_pattern => str (c_mgmt_pattern c)
  | lldpctl_k_config_iface_pattern => str (c_iface_pattern c)
  | lldpctl_k_config_cid_pattern => str (c_cid_pattern c)
  | lldpctl_k_config_description => str (c_description c)
  | lldpctl_k_config_platform => str (c_platform c)
  | lldpctl_k_config_hostname => str (c_hostname c)
  | lldpctl_k_config_bond_slave_src_mac_type =>
      Got (Some (map_lookup bond_slave_src_mac_map (c_bond_slave_src_mac_type c)))
  | lldpctl_k_config_lldp_portid_type => Got (Some (map_lookup lldp_portid_map (c_lldp_portid_type c)))
  | _ => NOT_EXIST
  end.

(** The copy of the atom and the configuration that is sent. *)
Definition both (c : lldpd_config) : access (lldpd_config * lldpd_config) := Got (c, c).

Definition _lldpctl_atom_set_str_config (c : lldpd_config) (key : lldpctl_key_t) (value : option (list Z))
    : access (lldpd_config * lldpd_config) :=
  match key with
  | lldpctl_k_config_iface_pattern => both (c<|c_iface_pattern := value|>)
  | lldpctl_k_config_mgmt_pattern => both (c<|c_mgmt_pattern := value|>)
  | lldpctl_k_config_description => both (c<|c_description := value|>)
  | lldpctl_k_config_platform => both (c<|c_platform := value|>)
  | lldpctl_k_config_hostname => both (c<|c_hostname := value|>)
  | _ => NOT_EXIST
  end.

Definition _lldpctl_atom_set_int_config (c : lldpd_config) (key : lldpctl_key_t) (value : Z)
    : access (lldpd_config * lldpd_config) :=
  let v := to_int value in
  match key with
  | lldpctl_k_config_paused => both (c<|c_paused := v|>)
  | lldpctl_k_config_tx_interval =>
      Got (if 0 <? value then c<|c_tx_interval := v|> else c, c<|c_tx_interval := v|>)
  | lldpctl_k_config_ifdescr_update => both (c<|c_set_ifdescr := v|>)
  | lldpctl_k_config_iface_promisc => both (c<|c_promisc := v|>)
  | lldpctl_k_config_fast_start_enabled => both (c<|c_enable_fast_start := v|>)
  | lldpctl_k_config_fast_start_interval => both (c<|c_tx_fast_interval := v|>)
  | lldpctl_k_config_tx_hold =>
      Got (if 0 <? value then c<|c_tx_hold := v|> else c, c<|c_tx_hold := v|>)
  | lldpctl_k_config_bond_slave_src_mac_type => both (c<|c_bond_slave_src_mac_type := v|>)
  | lldpctl_k_config_lldp_portid_type => both (c<|c_lldp_portid_type := v|>)
  | _ => NOT_EXIST
  end.

(** ** Both copies after a change *)

(** The values the daemon takes. *)
Definition accepted (key : lldpctl_key_t) (v : Z) : bool :=
  match key with
  | lldpctl_k_config_tx_interval | lldpctl_k_config_tx_hold
  | lldpctl_k_config_fast_start_interval => 0 <? v
  | lldpctl_k_config_bond_slave_src_mac_type => (0 <? v) && (v <=? 4)
  | lldpctl_k_config_lldp_portid_type => (0 <? v) && (v <=? 7)
  | _ => true
  end.

Lemma to_int_small v : - 2 ^ 31 ≤ v < 2 ^ 31 → to_int v = v.
Proof. intros Hv. unfold to_int. rewrite Z.mod_small by lia. lia. Qed.

Lemma positive_same v : Client.positive v v = v.
Proof. unfold Client.positive. by case_if. Qed.
Lemma in_range_same low high v : in_range low high v v = v.
Proof. unfold in_range. by case_if. Qed.

(** Evaluate a configuration that was merged, up to the tests on its values. *)
Ltac eval_merged := lazy -[Client.positive in_range Z.ltb Z.leb andb].

Lemma merged_int c key value copy sent :
  - 2 ^ 31 ≤ value < 2 ^ 31 → _lldpctl_atom_set_int_config c key value = Got (copy, sent) →
  merged sent c = if accepted key value then copy else c.
Proof.
  intros Hv. destruct c, key; try discriminate; cbn -[merged]; unfold both;
    rewrite to_int_small by done; intros [= <- <-]; eval_merged;
    rewrite ?positive_same, ?in_range_same; try done; unfold Client.positive, in_range; by case_if.
Qed.

Lemma merged_str c key value copy sent :
  _lldpctl_atom_set_str_config c key value = Got (copy, sent) → merged sent c = copy.
Proof.
  destruct c, key; try discriminate; cbn -[merged]; intros [= <- <-]; eval_merged;
    by rewrite ?positive_same, ?in_range_same.
Qed.

(** The copy reads as it was written, and as before under the other keys. *)
Lemma set_int_config_get c key value copy sent :
  - 2 ^ 31 ≤ value < 2 ^ 31 → accepted key value = true →
  _lldpctl_atom_set_int_config c key value = Got (copy, sent) →
  ∀ key', _lldpctl_atom_get_int_config copy key' =
    if decide (key' = key) then
      match _lldpctl_atom_get_int_config c key with Got _ => Got value | r => r end
    else _lldpctl_atom_get_int_config c key'.
Proof.
  intros Hv Ha Hs key'. destruct (decide (key' = key)) as [->|Hne].
  - destruct key; try discriminate; cbn in Hs, Ha |- *; unfold both in Hs;
      rewrite ?to_int_small in Hs by done; rewrite ?Ha in Hs; injection Hs as <- _; done.
  - destruct key; try discriminate; cbn in Hs, Ha; unfold both in Hs; rewrite ?Ha in Hs; injection Hs as <- _;
      destruct key'; done.
Qed.

(** C19: a client that holds the configuration of the daemon and writes a setting: the daemon
    takes exactly that change, and no other, when the value is one it accepts, and keeps its
    configuration otherwise; then the copy of the client is the configuration of the daemon
    again, the setting reads as it was written and the others as before. *)
Theorem config_change_applied local cfg key value copy sent :
  LOCAL_CHASSIS cfg = Some local → - 2 ^ 31 ≤ value < 2 ^ 31 →
  _lldpctl_atom_set_int_config (g_config cfg) key value = Got (copy, sent) →
  let cfg' := apply_config sent cfg in
  g_config cfg' = (if accepted key value then copy else g_config cfg) ∧ reconfigured local cfg cfg' ∧
  (accepted key value = true → ∀ key', _lldpctl_atom_get_int_config (g_config cfg') key' =
     if decide (key' = key) then
       match _lldpctl_atom_get_int_config (g_config cfg) key with Got _ => Got value | r => r end
     else _lldpctl_atom_get_int_config (g_config cfg) key').
Proof.
  intros Hl Hv Hs cfg'. destruct (apply_config_sets local sent cfg Hl) as [Hc Hr].
  fold cfg' in Hc, Hr. rewrite Hc, (merged_int _ _ _ _ _ Hv Hs). split_and!; [done|done|].
  intros Ha. rewrite Ha. by eapply set_int_config_get.
Qed.

(** The same for the settings that are text: every text is taken. *)
Lemma config_text_applied local cfg key value copy sent :
  LOCAL_CHASSIS cfg = Some local →
  _lldpctl_atom_set_str_config (g_config cfg) key value = Got (copy, sent) →
  g_config (apply_config sent cfg) = copy ∧ reconfigured local cfg (apply_config sent cfg) ∧
  _lldpctl_atom_get_str_config copy key = Got (Some (default [] value)).
Proof.
  intros Hl Hs. destruct (apply_config_sets local sent cfg Hl) as [-> Hr].
  rewrite (merged_str _ _ _ _ _ Hs). split_and!; [done|done|].
  by destruct key; try discriminate; injection Hs as <- _.
Qed.
