(* ===== verification/Witness.v ===== *)
(** * The theorems at work

    Concrete data (a configuration, a chassis, an interface, a daemon that has just
    created it) at which the hypotheses of the theorems hold, and the theorems
    applied there. *)

From stdpp Require Import gmap relations strings.
From S2P Require Import Prelude Bytes Text Const Structs Decoder Frame Checksum Interfaces LldpSend.
From S2P Require Import LldpSpec LldpDecode LldpSafe LldpReads LldpRoundtrip CdpSend CdpDecode Sonmp EdpSend Table TableOk.
From S2P Require Import TableInv TableSteps EdpDecode EdpRoundtrip Protocols Smart Loop Daemon.
#[local] Open Scope Z_scope.

#[local] Instance ex_build : BuildConfig := {| ENABLE_OVSDB := false; HOST_LITTLE_ENDIAN := true |}.

Definition ex_cfg : lldpd_config :=
  {| c_paused := 0; c_tx_interval := 30; c_smart := 0; c_receiveonly := false;
     c_max_neighbors := 32; c_mgmt_pattern := None; c_cid_pattern := None;
     c_iface_pattern := None; c_platform := None; c_description := None; c_hostname := None;
     c_advertise_version := true; c_set_ifdescr := 0; c_promisc := 0; c_noinventory := false;
     c_enable_fast_start := 1; c_tx_fast_init := 4; c_tx_fast_interval := 1; c_tx_hold := 4;
     c_bond_slave_src_mac_type := 4; c_lldp_portid_type := 5; c_is_any_protocol_enabled := true;
     c_lldp_tlv_sys_name_enable := true; c_lldp_tlv_sys_cap_enable := true;
     c_lldp_tlv_sys_desc_enable := true; c_lldp_tlv_mgmt_addr_enable := true;
     c_lldp_tlv_port_desc_enable := true; c_lldp_tlv_port_vlanid_enable := true;
     c_lldp_tlv_port_proto_vlanid_enable := true; c_lldp_tlv_port_vlan_name_enable := true;
     c_lldp_tlv_port_proto_id_enable := true |}.
Definition ex_mgmt : lldpd_mgmt :=
  {| m_family := 1; m_addr := [10; 0; 0; 1] ++ replicate 12 0; m_addrsize := 4; m_iface := 7 |}.
Definition ex_ch : lldpd_chassis :=
  chassis_zero<|c_id := Some [2; 0; 0; 0; 0; 9]|><|c_id_subtype := 4|><|c_ttl := 120|>
    <|c_name := Some (chars "switch")|><|c_descr := Some (chars "A switch")|>
    <|c_cap_available := 28|><|c_cap_enabled := 20|><|c_mgmt := [ex_mgmt]|>
    <|c_med_cap_available := 63|><|c_med_type := 1|><|c_med_hw := Some (chars "hw")|>.
Definition ex_port : lldpd_port :=
  port_zero<|p_id := Some (chars "eth0")|><|p_id_subtype := 5|><|p_descr := Some (chars "uplink")|>
    <|p_pvid := 5|><|p_vlans := [{| v_name := chars "v5"; v_vid := 5 |}]|>
    <|p_pids := [{| p_pi := [1; 2; 3] |}]|><|p_med_cap_enabled := 33|>
    <|p_med_policy := <[0%nat := {| pol_type := 1; pol_unknown := 1; pol_tagged := 0; pol_vid := 77;
                                    pol_priority := 5; pol_dscp := 33 |}]> (replicate 8 policy_zero)|>
    <|p_power := {| pow_devicetype := 1; pow_supported := 1; pow_enabled := 0; pow_paircontrol := 1;
                    pow_pairs := 2; pow_class := 3; pow_powertype := 2; pow_source := 1;
                    pow_priority := 2; pow_requested := 300; pow_allocated := 400 |}|>.
Definition ex_hw : lldpd_hardware :=
  {| h_mangle := false; h_mtu := 1500; h_flags := 64; h_ifindex := 3; h_ifname := chars "eth0";
     h_lladdr := [2; 0; 0; 0; 0; 9]; h_tx_cnt := 0; h_rx_cnt := 0; h_rx_discarded_cnt := 0;
     h_rx_unrecognized_cnt := 0; h_ageout_cnt := 0; h_insert_cnt := 0; h_delete_cnt := 0;
     h_drop_cnt := 0; h_lport := ex_port; h_rports := []; h_tx_fast := 0;
     h_enable_dir := HARDWARE_ENABLE_DIR_RXTX; h_link_state_down := false;
     h_rport_change_opcode := 0 |}.
Definition ok_driver (packet : list Z) : Z := zlen packet.

(** A daemon with one interface. *)
Definition ex_daemon : lldpd :=
  lldpd_alloc_hardware (daemon_init ex_cfg (protos protos_default) ex_ch) (chars "eth0") 3 ex_hw.
Definition ex_hardware : lldpd_hardware := default ex_hw (g_hardware ex_daemon !! 0%nat).

Lemma ex_daemon_ok : table_ok 0 ex_daemon.
Proof. apply alloc_hardware_ok, daemon_init_ok. Qed.

(** What [lldp_send] puts on the wire. *)
Definition ex_packet : list Z := default [] (lldp_send ex_cfg ex_hw ex_ch ok_driver 0).2.
Definition ex_sent : lldpd_hardware := (lldp_send ex_cfg ex_hw ex_ch ok_driver 0).1.2.

(** Decide a closed proposition by evaluation. *)
Ltac ex := refine (bool_decide_unpack _ _); vm_compute; exact I.

Lemma ex_local_ok : local_ok ex_hw ex_ch.
Proof.
  split; unfold mgmt_wf, mgmt_ok, power_wf, policy_wf, loc_wf, med_power_wf, mdi_on, no_nul, is_bit; ex.
Qed.

(** ** LLDP *)



Lemma lldp_frame_correct_witness :
  poke_frame (lldp_frame ex_cfg ex_hw ex_ch) (h_mtu ex_hw) =
    if zlen (lldp_bytes ex_cfg ex_hw ex_ch) <=? h_mtu ex_hw
    then Some (lldp_bytes ex_cfg ex_hw ex_ch) else None.
Proof. apply (lldp_frame_correct ex_cfg ex_hw ex_ch); done. Defined.

(** A frame with a management address TLV that announces 40 bytes. *)
Definition long_mgmt_frame : list Z :=
  LLDP_MULTICAST_ADDR ++ [2; 0; 0; 0; 0; 9] ++ be16 ETHERTYPE_LLDP ++
  enc_lldp_tlv LLDP_TLV_CHASSIS_ID [4; 2; 0; 0; 0; 0; 9] ++ enc_lldp_tlv LLDP_TLV_PORT_ID [5; 101] ++
  enc_lldp_tlv LLDP_TLV_TTL [0; 120] ++
  enc_lldp_tlv LLDP_TLV_MGMT_ADDR ([40; 1] ++ replicate 50 7) ++ enc_lldp_tlv LLDP_TLV_END [] ++
  replicate 6 0.

Lemma lldp_decode_terminates_witness :
  lldp_decode long_mgmt_frame 81 ex_hw ≠ Crashed OutOfFuel.
Proof. apply (lldp_decode_terminates long_mgmt_frame 81 ex_hw); ex. Defined.

Lemma lldp_decode_in_bounds_witness :
  BufferOverflow = BufferOverflow ∨ BufferOverflow = UninitializedRead ∨ BufferOverflow = AssertionFailed.
Proof.
  apply (lldp_decode_in_bounds long_mgmt_frame (zlen long_mgmt_frame - 6) ex_hw BufferOverflow);
    [ex|done|done|by vm_compute].
Defined.

(** ** The neighbor table *)

(** The daemon after it received the packet. *)
Definition ex_daemon2 : lldpd :=
  match lldpd_decode ex_daemon 0 ex_packet (zlen ex_packet) 100 with inr c => c | inl _ => ex_daemon end.

Lemma ex_daemon2_eq : lldpd_decode ex_daemon 0 ex_packet (zlen ex_packet) 100 = inr ex_daemon2.
Proof.
  assert (match lldpd_decode ex_daemon 0 ex_packet (zlen ex_packet) 100 with
          | inr _ => true | inl _ => false end = true) as He by (vm_compute; reflexivity).
  unfold ex_daemon2. revert He. by destruct (lldpd_decode _ _ _ _ _).
Qed.

(** The neighbor it has, received again with another description: the known one is replaced. *)
Definition ex_hardware2 : lldpd_hardware := default ex_hw (g_hardware ex_daemon2 !! 0%nat).
Definition ex_rport : lldpd_port := default ex_port (h_rports ex_hardware2 !! 0%nat).
Definition ex_rchassis : lldpd_chassis := default ex_ch (p_chassis ex_rport ≫= (g_heap ex_daemon2 !!.)).

Lemma register_neighbor_stored_witness :
  let q := ex_rport<|p_descr := Some (chars "uplink")|> in
  let cfg' := register_neighbor ex_daemon2 0 ex_hardware2 ex_rchassis q [1; 2] 107 in
  ∃ hw' p, g_hardware cfg' = <[0%nat := hw']> (g_hardware ex_daemon2) ∧
    h_rports hw' = [new_port q [1; 2] 107 p] ∧
    chassis_content <$> g_heap cfg' !! p = Some (chassis_content ex_rchassis).
Proof.
  intros q cfg'.
  assert (filter (λ o, msap (g_heap ex_daemon2) o ≠ Some (decoded_msap ex_rchassis q))
            (h_rports ex_hardware2) = []) as Hnone by (vm_compute; reflexivity).
  destruct (register_neighbor_stored 0 ex_daemon2 0 ex_hardware2 ex_rchassis q [1; 2] 107)
    as [Hstored _].
  - apply (lldpd_decode_ok 0 ex_daemon 0 ex_packet (zlen ex_packet) 100 ex_daemon2);
      [apply protos_ok|exact ex_daemon_ok|exact ex_daemon2_eq].
  - vm_compute. reflexivity.
  - destruct Hstored as (hw' & p & Hg & Hr & Hc).
    + left. exists ex_rport. split; [apply (list_elem_of_lookup_2 _ 0); vm_compute; reflexivity|].
      vm_compute. reflexivity.
    + exists hw', p. rewrite Hnone in Hr. exact (conj Hg (conj Hr Hc)).
Defined.

Lemma lldpd_decode_preserves_witness : table_ok 0 ex_daemon2.
Proof.
  apply (lldpd_decode_preserves 0 ex_daemon 0 ex_packet (zlen ex_packet) 100 ex_daemon2).
  - apply protos_ok.
  - exact ex_daemon_ok.
  - exact ex_daemon2_eq.
Defined.

Lemma lldpd_decode_bounded_witness : neighbors_bounded 32 (g_hardware ex_daemon2).
Proof.
  apply (lldpd_decode_bounded 0 ex_daemon 0 ex_packet (zlen ex_packet) 100 ex_daemon2 32).
  - apply protos_ok.
  - exact ex_daemon_ok.
  - done.
  - done.
  - by constructor; [|constructor].
  - exact ex_daemon2_eq.
Defined.

Lemma lldpd_remote_cleanup_kept_witness :
  let '(h', hw', ev) := lldpd_remote_cleanup true false 1000 (g_heap ex_daemon) ex_hardware in
  h_rports hw' = rports_left false 1000 (g_heap ex_daemon) (h_rports ex_hardware).
Proof.
  destruct (lldpd_remote_cleanup true false 1000 (g_heap ex_daemon) ex_hardware) as [[h' hw'] ev] eqn:E.
  apply (lldpd_remote_cleanup_kept false 1000 (g_heap ex_daemon) ex_hardware h' hw' ev E).
Defined.

Lemma lldpd_cleanup_correct_witness :
  let cfg' := lldpd_cleanup 1000 ex_daemon in
  table_ok 0 cfg' ∧
  (∀ p, p ∈ g_chassis cfg' ↔
        p ∈ g_chassis ex_daemon ∧ (0 < refs p (g_hardware cfg') + base_refs 0 p)%nat) ∧
  map h_rports (g_hardware cfg') =
    map (λ hw, rports_left false 1000 (g_heap ex_daemon) (h_rports hw))
        (filter (λ hw, h_flags hw ≠ 0) (g_hardware ex_daemon)).
Proof. apply (lldpd_cleanup_correct 0 1000 ex_daemon); [exact ex_daemon_ok|ex]. Defined.

Lemma lldpd_invariant_witness : table_ok 0 ex_daemon.
Proof.
  apply (lldpd_invariant ex_cfg protos_default ex_ch ex_daemon).
  apply rtc_once, step_new_hardware.
Defined.

(** ** CDP *)

Lemma cdp_frame_correct_witness :
  cdp_frame ex_cfg ex_hw ex_ch 2 1500 =
    if zlen (cdp_bytes ex_cfg ex_hw ex_ch 2) <=? 1500
    then Some (cdp_bytes ex_cfg ex_hw ex_ch 2) else None.
Proof. apply (cdp_frame_correct ex_cfg ex_hw ex_ch 2 1500). done. Defined.

Lemma cdp_checksum_valid_witness :
  frame_checksum (cdp_payload ex_cfg ex_hw ex_ch 2 (cdp_checksum ex_cfg ex_hw ex_ch 2)) true = 0.
Proof. apply (cdp_checksum_valid ex_cfg ex_hw ex_ch 2); ex. Defined.

Definition ex_cdp_packet : list Z := cdp_bytes ex_cfg ex_hw ex_ch 2.

Lemma cdp_decode_terminates_witness : cdp_decode ex_cdp_packet 60 ex_hw ≠ Crashed OutOfFuel.
Proof. apply (cdp_decode_terminates ex_cdp_packet 60 ex_hw); ex. Defined.

(** ** EDP *)

Lemma edp_send_correct_witness :
  edp_send ex_cfg ex_hw ex_ch ok_driver 5 =
    (0, ex_hw<|h_tx_cnt := 1|>, 7,
     [edp_sent ex_cfg ex_hw ex_ch 0 5; edp_sent ex_cfg ex_hw ex_ch 1 6]).
Proof. apply (edp_send_correct ex_cfg ex_hw ex_ch ok_driver 5); ex. Defined.

(** A chassis named by an interface name. *)
Definition ex_named_ch : lldpd_chassis := ex_ch<|c_id_subtype := LLDP_CHASSISID_SUBTYPE_IFNAME|>.

Lemma edp_send_refuses_witness :
  ∃ rc, (rc = EINVAL ∨ rc = E2BIG) ∧ edp_send ex_cfg ex_hw ex_named_ch ok_driver 5 = (rc, ex_hw, 5, []).
Proof. apply (edp_send_refuses ex_cfg ex_hw ex_named_ch ok_driver 5). done. Defined.

Lemma edp_checksum_valid_witness :
  frame_checksum (edp_payload ex_hw ex_ch 0 5 (edp_checksum ex_hw ex_ch 0 5)) false = 0.
Proof. apply (edp_checksum_valid ex_hw ex_ch 0 5); ex. Defined.

Lemma edp_decode_safe_witness :
  edp_decode ex_cfg (edp_packet ex_hw ex_ch 0 5 [2; 0; 0; 0; 0; 1]) ∅ 40 ex_hw ≠ PCrashed OutOfBoundsRead.
Proof.
  apply (edp_decode_safe ex_cfg (edp_packet ex_hw ex_ch 0 5 [2; 0; 0; 0; 0; 1]) ∅ 40 ex_hw OutOfBoundsRead); ex.
Defined.

Lemma edp_roundtrip_witness :
  ∃ rc hw' seq' packet packets,
    edp_send ex_cfg ex_hw ex_ch ok_driver 5 = (rc, hw', seq', packet :: packets) ∧
    ∃ c q, edp_decode ex_cfg (packet ++ [0; 0]) ∅ (zlen (packet ++ [0; 0])) ex_hw =
        PDecoded ∅ c q (add_unrecognized ex_hw 0) ∧
      c_id c = c_id ex_ch ∧ p_id q = Some (chars "1/1").
Proof.
  destruct (edp_roundtrip ex_cfg ex_hw ex_ch ex_cfg ok_driver 5 (default [] (c_name ex_ch)) ∅ ex_hw)
    as (rc & hw' & seq' & packet & packets & Hs & Hd); [ex|ex|done|unfold no_nul; ex|ex|ex|ex|ex|].
  exists rc, hw', seq', packet, packets. split; [exact Hs|].
  eexists _, _. split; [exact (Hd [0; 0])|]. split; [vm_compute; reflexivity|vm_compute; reflexivity].
Defined.

Lemma edp_vlans_roundtrip_witness :
  let frame := edp_packet ex_hw ex_ch 1 5 [2; 0; 0; 0; 0; 1] ++ [0; 0] in
  edp_decode ex_cfg frame ∅ (zlen frame) ex_hw =
    (let '(h', rports) := edp_attach ∅ (x_chassis (edp_start_locals ex_cfg ex_ch)) (h_rports ex_hw)
                            (map edp_received_vlan (p_vlans (h_lport ex_hw))) [] in
     PDiscarded h' (add_unrecognized ex_hw 0)<|h_rports := rports|>).
Proof. apply (edp_vlans_roundtrip ex_cfg ex_hw ex_ch 5); [split; ex|done|done]. Defined.

(** A port of the chassis [ex_ch] seen with EDP, and a port of nobody. *)
Definition ex_edp_ch : lldpd_chassis := ex_ch<|c_protocol := LLDPD_MODE_EDP|>.
Definition ex_edp_port : lldpd_port :=
  ex_port<|p_protocol := LLDPD_MODE_EDP|><|p_chassis := Some 3%nat|><|p_vlans := []|>.

Lemma edp_attach_one_witness :
  edp_attach {[3%nat := ex_edp_ch]} ex_edp_ch [port_zero; ex_edp_port] [{| v_name := chars "v9"; v_vid := 9 |}] [] =
    (<[3%nat := ex_edp_ch<|c_mgmt ::= λ l, l ++ edp_new_mgmts []|>]> {[3%nat := ex_edp_ch]},
     [port_zero; ex_edp_port<|p_vlans := [{| v_name := chars "v9"; v_vid := 9 |}]|>]).
Proof.
  apply (edp_attach_one {[3%nat := ex_edp_ch]} ex_edp_ch [port_zero] ex_edp_port [] 3 ex_edp_ch);
    [ex|done|done|done].
Defined.

(** ** SONMP *)

Lemma sonmp_send_correct_witness :
  sonmp_send ex_cfg ex_hw ex_ch ok_driver =
    (0, ex_hw<|h_tx_cnt := 1|>,
     [sonmp_bytes ex_hw ex_ch 0 (h_lladdr ex_hw) LLC_PID_SONMP_HELLO;
      sonmp_bytes ex_hw ex_ch 1 (h_lladdr ex_hw) LLC_PID_SONMP_FLATNET]).
Proof. apply (sonmp_send_correct ex_cfg ex_hw ex_ch ok_driver); ex. Defined.

Lemma sonmp_roundtrip_witness :
  sonmp_decode (Some ex_cfg) (sonmp_bytes ex_hw ex_ch 0 [2; 0; 0; 0; 0; 1] LLC_PID_SONMP_HELLO ++ [0]) 60
    ex_hw =
  Decoded (sonmp_remote_chassis (Some ex_cfg) (sonmp_address ex_ch)) (sonmp_remote_port 3) ex_hw.
Proof.
  apply (sonmp_roundtrip (Some ex_cfg) ex_hw ex_ch [2; 0; 0; 0; 0; 1] [0] 60 ex_hw);
    [unfold mgmt_ok; ex|done|done].
Defined.

Lemma sonmp_flatnet_discarded_witness :
  sonmp_decode (Some ex_cfg) (sonmp_bytes ex_hw ex_ch 1 [2; 0; 0; 0; 0; 1] LLC_PID_SONMP_FLATNET ++ [0])
    60 ex_hw = Discarded ex_hw.
Proof. apply (sonmp_flatnet_discarded (Some ex_cfg) ex_hw ex_ch [2; 0; 0; 0; 0; 1] [0] 60 ex_hw); done. Defined.

Lemma sonmp_decode_in_bounds_witness : sonmp_decode None (replicate 30 255) 30 ex_hw ≠ Crashed OutOfBoundsRead.
Proof. apply (sonmp_decode_in_bounds None (replicate 30 255) 30 ex_hw OutOfBoundsRead). ex. Defined.

(** ** The smart filter *)

(** Two LLDP neighbors and one CDP neighbor. *)
Definition ex_seen : lldpd_hardware :=
  ex_hw<|h_rports := [port_zero<|p_protocol := 1|>; port_zero<|p_protocol := 1|><|p_pvid := 5|>;
                      port_zero<|p_protocol := 3|>]|>.

Lemma lldpd_hide_ports_correct_witness :
  visible SMART_INCOMING (h_rports (lldpd_hide_ports 15 SMART_INCOMING ex_seen)) ≠ [].
Proof.
  apply (lldpd_hide_ports_correct 15 SMART_INCOMING ex_seen); [split|]; ex.
Defined.
