(* ===== verification/WitnessLib.v ===== *)
(** * The theorems on the control protocol at work

    Concrete numbers, lines, structures and requests at which the theorems on the library
    and on the requests of clients are applied, and some requests with a surprising
    effect. *)

From stdpp Require Import gmap strings.
From S2P Require Import Prelude Bytes Text Const Structs Table TableOk TableSteps Fixedpoint Tokenizer.
From S2P Require Import Marshal MarshalInfo Ctl Client Witness.
#[local] Open Scope Z_scope.

#[local] Instance ex_build : BuildConfig := {| ENABLE_OVSDB := false; HOST_LITTLE_ENDIAN := true |}.

(** ** Fixed point numbers *)

(** -48.855 on 9 and 25 bits. *)
Definition ex_fp : fp_number :=
  {| int_value := -48; int_bits := 9; frac_value := 28688908; frac_bits := 25; frac_precision := 10 |}.
Lemma ex_fp_ok : fp_ok ex_fp.
Proof. split; cbn; lia. Qed.

Lemma fp_buf_roundtrip_witness :
  (buf' ← fp_fptobuf ex_fp (replicate 6 255) 3; fp_buftofp buf' 9 25 3) = Some ex_fp.
Proof. apply (fp_buf_roundtrip ex_fp); [apply ex_fp_ok|lia|vm_compute; reflexivity]. Defined.

Lemma fp_strtofp_value_witness :
  ∃ fp, fp_strtofp (chars "-48.855N") 9 25 = Some (fp, chars "N") ∧ int_value fp = -48 ∧
    frac_value fp * 1000 ≤ 855 * 2 ^ 25 < (frac_value fp + 1) * 1000 ∧
    (- 2 ^ 8 < int_value fp → fp_ok fp).
Proof.
  apply (fp_strtofp_value true (chars "48") (chars "855") (chars "N") 9 25); try done.
  all: repeat constructor.
Defined.

(** ** Tokens *)

Lemma tokenize_line_words_witness :
  tokenize_line (chars "a'b c' ") = Some [chars "ab c"] ∧
  ∀ input, tok_mark (chars "a'b c' ") false 0 = Some input → (2 * length input + 2 < 17)%nat.
Proof.
  apply (tokenize_line_words [(chars "a'b c'", chars "ab c", 32)]).
  constructor; [|constructor]. split_and!; [|repeat constructor; done|done|repeat constructor; done].
  apply (spelled_app [97] [97]); [by constructor|].
  apply (spelled_quoted 39 (chars "b c")); [done|]. repeat constructor; done.
Defined.

(** ** Serialization *)

Definition ex_nodes : list (string * Z) :=
  [("lldpd_interface_list", 1000); ("lldpd_interface", 2000); ("lldpd_interface", 3000);
   (null_string, 4000); (null_string, 5000)]%string.
Lemma marshal_serialize_total_witness :
  ∃ b r, marshal_serialize_ lldpd_infos (mem_of ex_list) 10 6 "lldpd_interface_list" 1000 false [] 0 = Some (b, r).
Proof.
  apply (marshal_serialize_total lldpd_infos (mem_of ex_list) 10 ex_nodes).
  - assert (forallb (λ n, forallb (λ s, negb (followed (mem_of ex_list) n.2 s) ||
        bool_decide ((sub_mi s, sub_source (mem_of ex_list) n.2 s) ∈ ex_nodes))
        (mi_pointers (lldpd_infos n.1))) ex_nodes = true) as Hall by (vm_compute; reflexivity).
    rewrite forallb_forall in Hall. intros mi p s Hn Hs Hf. apply list_elem_of_In in Hn.
    specialize (Hall _ Hn). rewrite forallb_forall in Hall. apply list_elem_of_In in Hs.
    specialize (Hall _ Hs). cbn [fst snd] in Hall. rewrite Hf in Hall. by apply bool_decide_eq_true in Hall.
  - apply list_elem_of_here.
Defined.

(** ** Requests of a client *)

(** A structure in the memory of the client, as it is sent. *)
Definition serialized (mi : string) (blocks : list (Z * list Z)) : list Z :=
  match marshal_serialize_ lldpd_infos (mem_of blocks) 20 20 mi 1000 false [] 0 with
  | Some (b, _) => b
  | None => []
  end.
Definition ex_answer : list Z := serialized "lldpd_interface_list" ex_list.
(** A new neighbor on [e0]. *)
Definition ex_change : list Z :=
  serialized "lldpd_neighbor_change"
    [(1000, host_bytes 8 4000 ++ host_bytes 4 1 ++ replicate 4 0 ++ host_bytes 8 2000); (4000, [101; 48; 0]);
     (2000 + offsetof port_members "p_chassis", host_bytes 8 3000)].
Definition ex_conn : conn :=
  {| conn_state := CONN_STATE_IDLE; state_data := None; input_buffer := []; output_buffer := [];
     conn_error := 0; watch_cb := true; watch_triggered := false; notified := []; accesses := [] |}.
(** The notification comes first; the third read and the first write block. *)
Definition ex_net : net :=
  {| stream := notifications [ex_change] ++ message GET_INTERFACES ex_answer ++ [7; 7];
     pieces := [Some 3; Some 200; None; Some 1]%nat; room := [None]; written := [] |}.

Lemma ex_answers :
  answers ex_alloc GET_INTERFACES (Some "lldpd_interface_list"%string) ex_answer
    (Some (marshal_unserialize lldpd_infos ex_alloc "lldpd_interface_list" ex_answer)).
Proof.
  split; [split; [done|vm_compute; discriminate]|]. split; [discriminate|]. split; [reflexivity|].
  split; [vm_compute; discriminate|vm_compute; reflexivity].
Qed.
Lemma ex_is_change : is_change ex_alloc ex_change.
Proof.
  split; [vm_compute; discriminate|]. split; [vm_compute; discriminate|].
  unfold proper_change. vm_compute. split; [by eexists|]. split; [by eexists|by eexists _, _].
Qed.

Lemma request_answered_witness :
  ∃ c' n', try_again ex_alloc 6 ex_conn ex_net 1 2 None GET_INTERFACES None (Some "lldpd_interface_list"%string) =
      Some (0, Some (marshal_unserialize lldpd_infos ex_alloc "lldpd_interface_list" ex_answer), c', n') ∧
    conn_state c' = CONN_STATE_IDLE ∧ input_buffer c' = [] ∧ output_buffer c' = [] ∧
    notified c' = notified ex_conn ++ callbacks ex_alloc (watch_cb ex_conn) [ex_change] ∧
    accesses c' = [] ∧
    stream n' = [7; 7] ∧ written n' = written ex_net ++ message GET_INTERFACES [].
Proof.
  apply (request_answered ex_alloc 6 ex_conn ex_net 1 2 None GET_INTERFACES None
    (Some "lldpd_interface_list"%string) ex_answer
    (Some (marshal_unserialize lldpd_infos ex_alloc "lldpd_interface_list" ex_answer)) [7; 7] [ex_change]
    (message GET_INTERFACES [])).
  1-3: reflexivity.
  1-2: discriminate.
  - vm_compute. reflexivity.
  - by constructor; [|constructor].
  - exact ex_answers.
  - constructor; [exact ex_is_change|constructor].
  - right. reflexivity.
  - reflexivity.
  - cbn. lia.
Defined.
(** Without a callback the same notification makes the library use the chassis it has just
    freed; a port without chassis is a NULL pointer. *)
Example unwatched_notification :
  accesses (check_for_notification ex_alloc
    ex_conn<|watch_cb := false|><|input_buffer := notifications [ex_change]|>) = [UseAfterFree].
Proof. vm_compute. reflexivity. Qed.

(** The callback was called once, for a neighbor that was added. *)
Example ex_callback : map fst (callbacks ex_alloc true [ex_change]) = [2].
Proof. vm_compute. reflexivity. Qed.

Definition ex_box : lldpd :=
  lldpd_alloc_hardware (daemon_init ex_cfg [] ex_ch) (chars "eth0") 3 ex_hw.
(** A voice signaling policy on VLAN 100, and a powered device. *)
Definition ex_set : list Z :=
  serialized "lldpd_port_set"
    [(1000, host_bytes 8 2000 ++ host_bytes 8 3000 ++ replicate 8 0 ++ host_bytes 8 4000 ++ replicate 8 0);
     (2000, chars "eth0" ++ [0]); (3000, [0; 2; 0; 1; 100; 0; 5; 46]); (4000, [2; 1; 3; 0; 65; 0])].
Definition ex_after : lldpd :=
  match client_handle_set_port ex_alloc ex_box ex_set with Some (_, _, cfg) => cfg | None => ex_box end.
Lemma ex_after_eq : client_handle_set_port ex_alloc ex_box ex_set = Some (SET_PORT, AEmpty, ex_after).
Proof. vm_compute. reflexivity. Qed.

(** What the port announces from then on. *)
Example ex_after_port :
  (λ hw, (p_med_policy (h_lport hw) !! 1%nat, mpow_val (p_med_power (h_lport hw)),
          p_med_cap_enabled (h_lport hw))) <$> g_hardware ex_after !! 0%nat =
  Some (Some {| pol_type := 2; pol_unknown := 0; pol_tagged := 1; pol_vid := 100; pol_priority := 5;
                pol_dscp := 46 |}, 65, 51).
Proof. vm_compute. reflexivity. Qed.

(** A configuration with the given transmit interval, hold and platform. *)
Definition ex_new_config (interval hold mac_type : Z) : list Z :=
  serialized "lldpd_config"
    [(1000, host_bytes 4 0 ++ host_bytes 4 interval ++ replicate 40 0 ++ host_bytes 8 4000);
     (1000 + offsetof config_members "c_tx_hold", host_bytes 4 hold ++ host_bytes 4 mac_type);
     (4000, chars "box" ++ [0])].
Definition reconfigure (interval hold mac_type : Z) : lldpd :=
  match client_handle_set_configuration ex_alloc ex_box (ex_new_config interval hold mac_type) with
  | Some (_, _, cfg) => cfg
  | None => ex_box
  end.
Definition seen (cfg : lldpd) : Z * Z * Z * option (list Z) * option Z :=
  (c_tx_interval (g_config cfg), c_tx_hold (g_config cfg), c_bond_slave_src_mac_type (g_config cfg),
   c_platform (g_config cfg), c_ttl <$> g_heap cfg !! 0%nat).
Example ex_reconfigure : seen (reconfigure 10 6 9) = (10, 6, 4, Some (chars "box"), Some 60).
Proof. vm_compute. reflexivity. Qed.
(** The time to live wraps around: with an interval of 16384 seconds the daemon announces that it
    is leaving. *)
Example ttl_wraps : seen (reconfigure 16384 4 0) = (16384, 4, 4, Some (chars "box"), Some 0).
Proof. vm_compute. reflexivity. Qed.

Lemma ex_reconfigure_eq :
  client_handle_set_configuration ex_alloc ex_box (ex_new_config 10 6 9) = Some (SET_CONFIG, AEmpty, reconfigure 10 6 9).
Proof. vm_compute. reflexivity. Qed.

Lemma ex_served :
  serve_client ex_alloc ex_box false (message SET_CONFIG (ex_new_config 10 6 9)) =
    Served (reconfigure 10 6 9) false (Some (SET_CONFIG, AEmpty)) [].
Proof. vm_compute. reflexivity. Qed.
Lemma clients_keep_config_witness :
  LOCAL_CHASSIS (reconfigure 10 6 9) = Some 0%nat ∧ config_ok (g_config (reconfigure 10 6 9)) ∧
  ttl_ok 0 (reconfigure 10 6 9).
Proof.
  apply (clients_keep_config ex_alloc 0 ex_box false (message SET_CONFIG (ex_new_config 10 6 9))
    (reconfigure 10 6 9) false (Some (SET_CONFIG, AEmpty)) []).
  - reflexivity.
  - vm_compute. repeat split; discriminate.
  - intros c. vm_compute. by intros [= <-].
  - exact ex_served.
Defined.

Lemma request_framed_witness :
  (∀ b m, message SUBSCRIBE [] = b ++ m → m ≠ [] → serve_client ex_alloc ex_box false b = Waiting) ∧
  ∀ rest, serve_client ex_alloc ex_box false (message SUBSCRIBE [] ++ rest) =
    Served ex_box true (Some (SUBSCRIBE, AEmpty)) rest.
Proof. apply (request_framed ex_alloc ex_box false SUBSCRIBE []). split; [done|vm_compute; discriminate]. Defined.

(** ** Surprising requests *)

(** The interface name and the policy share a number: the daemon copies eight bytes from a
    block of five and frees the block twice. *)
Example set_port_crash :
  serve_client ex_alloc ex_box false
    (message SET_PORT (host_bytes 8 1 ++ host_bytes 8 0 ++ host_bytes 8 2 ++ host_bytes 8 2 ++ replicate 24 0 ++
                       host_bytes 8 2 ++ host_bytes 8 0 ++ chars "eth0" ++ [0])) = Crash.
Proof. vm_compute. reflexivity. Qed.

(** A request that is refused for its location has already changed the policy. *)
Definition ex_refused : list Z :=
  serialized "lldpd_port_set"
    [(1000, host_bytes 8 2000 ++ host_bytes 8 3000 ++ host_bytes 8 5000 ++ replicate 16 0);
     (2000, chars "eth0" ++ [0]); (3000, [0; 2; 0; 1; 100; 0; 5; 46]); (5000, [0; 9] ++ replicate 22 0)].
Example refused_but_changed :
  match client_handle_set_port ex_alloc ex_box ex_refused with
  | Some (type, _, cfg) =>
      Some (type, (λ hw, pol_vid <$> p_med_policy (h_lport hw) !! 1%nat) <$> g_hardware cfg !! 0%nat)
  | None => None
  end = Some (NONE, Some (Some 100)).
Proof. vm_compute. reflexivity. Qed.

(** When only a part of the request can be written, the rest never is: the next call reads
    the answer that will not come. *)
Example short_write :
  match lldpctl_do_something ex_alloc ex_conn (ex_net<|room := [Some 6%nat]|><|pieces := [None]|>) 1 2 None
          GET_INTERFACES None (Some "lldpd_interface_list"%string) with
  | Some (rc, _, c, n) => Some (rc, conn_state c, length (output_buffer c), length (written n))
  | None => None
  end = Some (LLDPCTL_ERR_WOULDBLOCK, 2, 10%nat, 6%nat).
Proof. vm_compute. reflexivity. Qed.

(** An error answer (type [NONE]) leaves the connection in the receiving state: another
    request is then refused. *)
Example error_answer_sticks :
  match lldpctl_do_something ex_alloc ex_conn (ex_net<|room := []|><|pieces := []|><|stream := message NONE []|>)
          3 4 (Some "eth9"%string) GET_INTERFACE (Some [1]) (Some "lldpd_hardware"%string) with
  | Some (rc, _, c, n) =>
      match lldpctl_do_something ex_alloc c n 1 2 None GET_INTERFACES None (Some "lldpd_interface_list"%string) with
      | Some (rc', _, _, _) => Some (rc, conn_state c, rc')
      | None => None
      end
  | None => None
  end = Some (LLDPCTL_ERR_SERIALIZATION, 4, LLDPCTL_ERR_INVALID_STATE).
Proof. vm_compute. reflexivity. Qed.
