(* ===== verification/WitnessSnmp.v ===== *)
(** * The SNMP agent at work

    A daemon that has heard two neighbors, the requests of a manager on it, and requests
    whose answer is not the expected one. *)

From stdpp Require Import gmap relations strings.
From Stdlib Require Import Sorting.Sorted.
From S2P Require Import Prelude Bytes Text Const Structs Decoder Frame LldpSend LldpSpec Table TableOk TableSteps.
From S2P Require Import Protocols Loop Client Daemon Addresses Witness.
From S2P Require Import SnmpIndex SnmpWalk SnmpTables SnmpValues SnmpAgent SnmpCorrect SnmpMib.
#[local] Open Scope Z_scope.

#[local] Instance ex_build : BuildConfig := {| ENABLE_OVSDB := false; HOST_LITTLE_ENDIAN := true |}.
#[local] Existing Instance net_snmp_reference.
#[local] Existing Instance net_snmp_reference_laws.

(** A neighbor that says no more than it must: chassis [id], port [port]. *)
Definition short_frame (id port : Z) : list Z :=
  LLDP_MULTICAST_ADDR ++ [2; 0; 0; 0; 0; id] ++ be16 ETHERTYPE_LLDP ++
  enc_lldp_tlv LLDP_TLV_CHASSIS_ID [4; 2; 0; 0; 0; 0; id] ++ enc_lldp_tlv LLDP_TLV_PORT_ID [5; port] ++
  enc_lldp_tlv LLDP_TLV_TTL [0; 120] ++ enc_lldp_tlv LLDP_TLV_END [].
Definition heard (frame : list Z) (now : Z) (cfg : lldpd) : lldpd :=
  match lldpd_recv cfg 0 (Some (frame, zlen frame)) now with inr cfg' => cfg' | inl _ => cfg end.
Lemma heard_step frame now cfg : rtc lldpd_step cfg (heard frame now cfg).
Proof.
  unfold heard. destruct (lldpd_recv _ _ _ _) as [f|cfg'] eqn:Hr; [done|].
  apply rtc_once. by eapply step_recv.
Qed.

(** A neighbor with everything at second 100, a short one at second 200. *)
Definition ex_heard : lldpd := heard (short_frame 8 101) 200 (heard ex_packet 100 ex_daemon).

Lemma ex_config_ok : config_ok ex_cfg.
Proof. unfold config_ok. ex. Qed.
Lemma ex_addrs_ok : addrs_ok ex_ch.
Proof. unfold addrs_ok, mgmt_ok. ex. Qed.
Lemma ex_reached : rtc lldpd_step (daemon_init ex_cfg (protos protos_default) ex_ch) ex_heard.
Proof.
  eapply rtc_l; [apply step_new_hardware|]. etrans; [|apply heard_step]. apply heard_step.
Qed.
Lemma ex_sound : sound ex_heard.
Proof. eapply reachable_sound; [apply ex_config_ok|apply ex_addrs_ok|apply ex_reached]. Qed.

(** The variable for the description of remote ports, and the one for their names. *)
Definition ex_entry (k : nat) : Z * asn_type * handler * list Z :=
  default (0, ASN_INTEGER, agent_h_scalars_, []) (agent_lldp_vars !! k).

Example ex_names :
  snmp_walk 9 (λ n, call 50 ex_heard agent_h_remote_port_ (entry_var (ex_entry 34)) n false)
    (vp_name (entry_var (ex_entry 34))) =
  Some [(LLDP_OID ++ [1; 4; 1; 1; 8] ++ [5000; 3; 1], VOctets (chars "uplink"))].
Proof. vm_compute. reflexivity. Qed.

Lemma agent_no_fault_witness :
  call 50 ex_heard agent_h_remote_management_ (entry_var (ex_entry 39)) [1; 0] false ≠ Fault.
Proof.
  apply (agent_no_fault ex_cfg protos_default ex_ch);
    [apply ex_config_ok|apply ex_addrs_ok|apply ex_reached].
Defined.

Lemma agent_answers_typed_witness : has_type (entry_type (ex_entry 35)) (VOctets (chars "switch")).
Proof.
  apply (agent_answers_typed 50 ex_heard (ex_entry 35) [] false (VOctets (chars "switch"))
    (LLDP_OID ++ [1; 4; 1; 1; 9] ++ [5000; 3; 1])).
  - by apply (list_elem_of_lookup_2 _ 35).
  - vm_compute. reflexivity.
Defined.

Lemma agent_walk_lists_witness :
  ∃ l, snmp_walk (S (length (omap id (agent_rows 50 ex_heard (entry_handler (ex_entry 34))))))
      (λ name, call 50 ex_heard (entry_handler (ex_entry 34)) (entry_var (ex_entry 34)) name false)
      (vp_name (entry_var (ex_entry 34))) = Some l ∧
    StronglySorted oid_lt l.*1 ∧
    l ≡ₚ agent_column 50 ex_heard (entry_handler (ex_entry 34)) (entry_var (ex_entry 34)).
Proof.
  apply (agent_walk_lists 50 ex_heard ex_sound (entry_handler (ex_entry 34)) (entry_var (ex_entry 34))).
  apply table_fits_fit. vm_compute. reflexivity.
Defined.

Lemma ex_all_fit :
  Forall (λ e, table_fit 50 ex_heard (entry_handler e) (entry_var e)) agent_lldp_vars.
Proof.
  assert (forallb (λ e, table_fits 50 ex_heard (entry_handler e) (entry_var e)) agent_lldp_vars = true)
    as Hall by (vm_compute; reflexivity).
  rewrite forallb_forall in Hall. apply list.Forall_forall. intros e He%list_elem_of_In.
  by apply table_fits_fit, Hall.
Qed.
Lemma agent_mib_walk_witness :
  (∀ name, search_spec name false (agent_mib 50 ex_heard agent_lldp_vars)
     (agent_getnext 50 ex_heard agent_lldp_vars name)) ∧
  ∃ l, snmp_walk (S (length (agent_mib 50 ex_heard agent_lldp_vars)))
      (agent_getnext 50 ex_heard agent_lldp_vars) [] = Some l ∧
    StronglySorted oid_lt l.*1 ∧ l ≡ₚ agent_mib 50 ex_heard agent_lldp_vars.
Proof.
  destruct (agent_mib_walk 50 ex_heard ex_sound) as (_ & Hnext & l & Hw & Hs & _ & Hp).
  split; [exact (Hnext ex_all_fit)|]. exists l. exact (conj Hw (conj Hs (Hp ex_all_fit))).
Defined.

(** ** Notifications *)

Definition ex_hw0 : lldpd_hardware := default ex_hw (g_hardware ex_heard !! 0%nat).
Definition ex_neighbor : lldpd_port := default ex_port (h_rports ex_hw0 !! 0%nat).

Definition ex_neighbor_chassis : lldpd_chassis :=
  default ex_ch (p_chassis ex_neighbor ≫= (g_heap ex_heard !!.)).

Lemma agent_notify_in_mib_witness :
  ∃ vars, agent_notify 50 ex_heard true ex_hw0 NEIGHBOR_CHANGE_ADDED ex_neighbor = Some (Some vars) ∧
    LLDP_OID ++ [1; 4; 1; 1; 9; 5000; 3; 1] ∈ vb_name <$> vars ∧
    LLDP_OID ++ [1; 4; 1; 1; 8; 5000; 3; 1] ∈ vb_name <$> vars.
Proof.
  destruct (agent_notify_in_mib 50 ex_heard 0 ex_hw0 NEIGHBOR_CHANGE_ADDED ex_neighbor)
    as (c & vars & Hc & Hv & _ & _ & Hs).
  - apply ex_sound.
  - apply (list_elem_of_lookup_2 _ 0). vm_compute. reflexivity.
  - apply (list_elem_of_lookup_2 _ 0). vm_compute. reflexivity.
  - vm_compute. reflexivity.
  - exists vars. split; [exact Hv|]. destruct (Hs ltac:(discriminate)) as (_ & Hn & Hd).
    assert (c = ex_neighbor_chassis) as ->
      by (apply (inj Some); rewrite <- Hc; vm_compute; reflexivity).
    exact (conj (Hn (chars "switch") ltac:(vm_compute; reflexivity) ltac:(discriminate))
                (Hd (chars "uplink") ltac:(vm_compute; reflexivity))).
Defined.

(** ** Surprises *)

(** The neighbor without a name comes first: the names of the others cannot be walked to,
    although a GET gives them. *)
Definition ex_unnamed_first : lldpd := heard ex_packet 200 (heard (short_frame 8 101) 100 ex_daemon).
Definition sysname_var : variable := entry_var (ex_entry 35).
Example unnamed_hides_others :
  call 50 ex_unnamed_first agent_h_remote_chassis_ sysname_var (vp_name sysname_var) false = NotFound ∧
  call 50 ex_unnamed_first agent_h_remote_chassis_ sysname_var
    (vp_name sysname_var ++ [15000; 3; 2]) true =
  Found (VOctets (chars "switch")) (vp_name sysname_var ++ [15000; 3; 2]).
Proof. vm_compute. done. Qed.

(** Two ports of one chassis heard in the same second on one interface have one index: the
    walk shows the first of them only. *)
Definition ex_same_index : lldpd := heard (short_frame 8 102) 100 (heard (short_frame 8 101) 100 ex_daemon).
Example same_index_hides_one :
  length (agent_column 50 ex_same_index agent_h_remote_port_ (entry_var (ex_entry 33))) = 2%nat ∧
  length <$> snmp_walk 9 (λ n, call 50 ex_same_index agent_h_remote_port_ (entry_var (ex_entry 33)) n false)
    (vp_name (entry_var (ex_entry 33))) = Some 1%nat.
Proof. vm_compute. done. Qed.

(** The name of a counter in a notification is not the name of an instance. *)
Example notified_counter_not_found :
  call 50 ex_heard agent_h_scalars_ (entry_var (ex_entry 6)) (LLDP_OID ++ [1; 2; 2]) true = NotFound ∧
  call 50 ex_heard agent_h_scalars_ (entry_var (ex_entry 6)) (LLDP_OID ++ [1; 2; 2; 0]) true =
    Found (VLong 2) (LLDP_OID ++ [1; 2; 2; 0]).
Proof. vm_compute. done. Qed.

(** A change before the agent was started: the index of the neighbor says 0, the time of the
    last update of the tables wraps around. *)
Example last_update_wraps :
  agent_column 300 ex_heard agent_h_scalars_ (entry_var (ex_entry 5)) =
    [(LLDP_OID ++ [1; 2; 1; 0], VLong (2 ^ 64 - 10000))] ∧
  map fst (agent_column 300 ex_heard agent_h_remote_port_ (entry_var (ex_entry 33))) =
    [LLDP_OID ++ [1; 4; 1; 1; 7; 0; 3; 1]; LLDP_OID ++ [1; 4; 1; 1; 7; 0; 3; 2]].
Proof. vm_compute. done. Qed.
