(* ===== verification/WitnessAtoms.v ===== *)
(** * The theorems on the accessors of the client library at work

    Concrete settings, locations and configurations at which the theorems on atoms are
    applied, and what the accessors do at the edges. *)

From stdpp Require Import gmap strings.
From S2P Require Import Prelude Bytes Text Const Structs Table Fixedpoint Client WitnessLib.
From S2P Require Import AtomMaps Atoms AtomSettings AtomLocation AtomCivic AtomCoord AtomSafe AtomConfig.
#[local] Open Scope Z_scope.

#[local] Instance ex_char : CharConfig := true.

(** ** Settings *)

Definition ex_power : lldpd_dot3_power :=
  {| pow_devicetype := 1; pow_supported := 1; pow_enabled := 1; pow_paircontrol := 0; pow_pairs := 1;
     pow_class := 3; pow_powertype := 1; pow_source := 1; pow_priority := 2; pow_requested := 150;
     pow_allocated := 120 |}.

Example power_words :
  lldpctl_atom_get_str atom_dot3_power ex_power lldpctl_k_dot3_power_class = Got (Some (chars "class 2")) ∧
  lldpctl_atom_set_str atom_dot3_power true ex_power lldpctl_k_dot3_power_class (Some (chars "CLASS 3")) =
    Got (ex_power<|pow_class := 4|>) ∧
  lldpctl_atom_set_str atom_dot3_power true ex_power lldpctl_k_dot3_power_requested (Some (chars "0x4b0")) =
    Got (ex_power<|pow_requested := 12|>).
Proof. by split_and!; vm_compute. Qed.

(** The words that are shown for a source cannot be written; an unset class shows a word that
    is refused; a power above 6.5 kW wraps around. *)
Example power_edges :
  lldpctl_atom_get_str atom_dot3_power ex_power lldpctl_k_dot3_power_source = Got (Some (chars "PSE")) ∧
  lldpctl_atom_set_str atom_dot3_power true ex_power lldpctl_k_dot3_power_source (Some (chars "PSE")) = NOT_EXIST ∧
  lldpctl_atom_get_str atom_dot3_power (ex_power<|pow_class := 0|>) lldpctl_k_dot3_power_class =
    Got (Some (chars "unknown")) ∧
  lldpctl_atom_set_str atom_dot3_power true ex_power lldpctl_k_dot3_power_class (Some (chars "unknown")) = BAD_VALUE ∧
  lldpctl_atom_set_int atom_dot3_power true ex_power lldpctl_k_dot3_power_allocated 6553600 =
    Got (ex_power<|pow_allocated := 0|>).
Proof. by split_and!; vm_compute. Qed.

Definition ex_med_power : lldpd_med_power :=
  {| mpow_devicetype := 1; mpow_source := 2; mpow_priority := 1; mpow_val := 65 |}.

(** Reading and writing the source use different words, and the word unknown is refused. *)
Example med_power_source_words :
  lldpctl_atom_get_str atom_med_power ex_med_power lldpctl_k_med_power_source =
    Got (Some (chars "Primary Power Source")) ∧
  lldpctl_atom_set_str atom_med_power true ex_med_power lldpctl_k_med_power_source
    (Some (chars "Primary Power Source")) = BAD_VALUE ∧
  lldpctl_atom_set_str atom_med_power true ex_med_power lldpctl_k_med_power_source (Some (chars "primary")) =
    Got ex_med_power ∧
  lldpctl_atom_set_str atom_med_power true ex_med_power lldpctl_k_med_power_source (Some (chars "unknown")) =
    BAD_VALUE.
Proof. by split_and!; vm_compute. Qed.

(** The hypotheses of the text round trip hold of a policy. *)
Definition ex_policy : lldpd_med_policy :=
  {| pol_type := 1; pol_unknown := 0; pol_tagged := 1; pol_vid := 100; pol_priority := 5; pol_dscp := 46 |}.
Lemma ex_policy_ok : setting_ok atom_med_policy med_policy_settings ex_policy.
Proof. intros [] v; cbn; intros Hv; try discriminate Hv; injection Hv as <-; by split. Qed.
Example policy_text :
  lldpctl_atom_set_str atom_med_policy true ex_policy lldpctl_k_med_policy_priority (Some (chars "Video")) =
    Got ex_policy.
Proof.
  apply (set_str_get_str atom_med_policy med_policy_settings); [apply ex_policy_ok| |done].
  split; [done|]. intros v [= <-]. by vm_compute; repeat constructor.
Qed.

(** ** Dumps *)

Example dump_mac :
  cstr <$> _lldpctl_dump_in_atom [0; 27; 33; 60; 164; 255] 58 0 = Some (chars "00:1b:21:3c:a4:ff") ∧
  cstr <$> _lldpctl_dump_in_atom [1; 2; 3; 4] 32 2 = Some (chars "01 02 [...]").
Proof. by split; vm_compute. Qed.

(** An empty buffer: the terminator is written before the memory that was allocated. *)
Example dump_empty : _lldpctl_dump_in_atom [] 32 0 = None.
Proof. done. Qed.

(** ** Civic addresses *)

Definition ex_els : list (Z * list Z) := [(3, chars "Paris"); (6, chars "Rue de Rivoli"); (19, chars "30")].

Lemma civic_address_roundtrip_witness :
  ∃ loc, civic_address loc_zero (chars "FR") ex_els = Got loc ∧
    ca_elements loc = Some (Got (as_elements ex_els)) ∧
    lldpctl_atom_get_str atom_med_location loc lldpctl_k_med_location_country = Got (Some (chars "FR")) ∧
    lldpctl_atom_get_int atom_med_location loc lldpctl_k_med_location_format = Got LLDP_MED_LOCFORMAT_CIVIC.
Proof.
  destruct (civic_address_roundtrip loc_zero (chars "FR") ex_els) as (loc & H1 & H2 & H3 & H4).
  - done.
  - by repeat constructor.
  - repeat constructor; done.
  - done.
  - exists loc. replace (3 + zlen (encode_all ex_els) <=? CHAR_MAX) with true in H4 by reflexivity.
    exact (conj H1 (conj H2 (conj H3 H4))).
Defined.

(** The language, type 0, is in the table of the types but is refused; an address of 127
    bytes after its length byte is the longest that is recognised where a char is signed. *)
Example civic_edges :
  map_reverse_lookup civic_address_type_map (Some (chars "Language")) = 0 ∧
  lldpctl_atom_set_str atom_med_caelement true _lldpctl_atom_create_med_caelements_list
    lldpctl_k_med_civicaddress_type (Some (chars "Language")) = BAD_VALUE ∧
  (∃ loc, civic_address loc_zero (chars "FR") [(6, replicate 122 97)] = Got loc ∧
     lldpctl_atom_get_int atom_med_location loc lldpctl_k_med_location_format = Got LLDP_MED_LOCFORMAT_CIVIC) ∧
  (∃ loc, civic_address loc_zero (chars "FR") [(6, replicate 123 97)] = Got loc ∧
     lldpctl_atom_get_int atom_med_location loc lldpctl_k_med_location_format = NOT_EXIST).
Proof. by split_and!; [vm_compute..|eexists; split; vm_compute|eexists; split; vm_compute]. Qed.

(** ** Coordinates *)

Definition ex_loc : lldpd_med_loc := {| loc_format := LLDP_MED_LOCFORMAT_COORD; loc_data := replicate 16 0 |}.

Lemma coordinate_roundtrip_witness :
  ∃ loc decimals,
    lldpctl_atom_set_str atom_med_location true ex_loc lldpctl_k_med_location_latitude (Some (chars "48.85667S")) =
      Got loc ∧
    lldpctl_atom_get_str atom_med_location loc lldpctl_k_med_location_latitude =
      Got (Some (shown_text (Some NS) true 48 decimals)) ∧
    zlen decimals = 5 ∧ 85666 ≤ digits 0 decimals ≤ 85667.
Proof.
  destruct (coordinate_roundtrip ex_loc lldpctl_k_med_location_latitude 0 9 25 (Some NS) false
    (chars "48") (chars "85667") (chars "S")) as (loc & decimals & Hset & Hget & Hdec & _);
    [done|by apply Forall_replicate|done|by right; right|by repeat constructor|done|by repeat constructor
    |vm_compute; discriminate|vm_compute; reflexivity|by intros _; vm_compute|].
  exists loc, decimals. split; [exact Hset|]. split; [exact Hget|].
  destruct Hdec as [[_ Hlt]|(_ & Hz & Hd & _)]; [by vm_compute in Hlt|]. exact (conj Hz Hd).
Defined.
(** The last decimal is one less when the number has no exact binary form. *)
Example shown_latitudes :
  let shown text := match lldpctl_atom_set_str atom_med_location true ex_loc lldpctl_k_med_location_latitude
                            (Some (chars text)) with
                    | Got loc => lldpctl_atom_get_str atom_med_location loc lldpctl_k_med_location_latitude
                    | _ => Got None
                    end in
  shown "48.85667S"%string = Got (Some (chars "48.85666S")) ∧ shown "48.5"%string = Got (Some (chars "48.5N")) ∧
  shown "48.1N"%string = Got (Some (chars "48.0N")) ∧ shown "-0.5"%string = Got (Some (chars "0.5N")).
Proof. vm_compute. done. Qed.


(** ** Edits *)

Definition ex_edits : list edit :=
  [EditStr lldpctl_k_med_location_format (Some (chars "1"));
   EditStr lldpctl_k_med_location_latitude (Some (chars "48.85667N"));
   EditStr lldpctl_k_med_location_longitude (Some (chars "2.2014E"));
   EditStr lldpctl_k_med_location_altitude (Some (chars "117.47"));
   EditStr lldpctl_k_med_location_altitude_unit (Some (chars "m"));
   EditStr lldpctl_k_med_location_geoid (Some (chars "wgs84"));
   EditStr lldpctl_k_med_location_country (Some (chars "FR"))].

Lemma location_edits_safe_witness :
  ∃ loc, run_edits loc_zero ex_edits = Got loc ∧ loc_ok loc ∧
    lldpctl_atom_get_str atom_med_location loc lldpctl_k_med_location_longitude ≠ Fault.
Proof.
  destruct (location_edits_safe loc_zero ex_edits) as (loc & Hrun & Hok & Hread & _).
  - by split_and!.
  - unfold ex_edits. repeat (apply List.Forall_cons; [intros s [= <-];
      (split; [apply (bool_decide_unpack _); vm_compute; exact I|by vm_compute])|]). constructor.
  - exists loc. exact (conj Hrun (conj Hok (proj1 (Hread lldpctl_k_med_location_longitude)))).
Defined.

(** What a neighbor announced is read without these guarantees: coordinates that are too
    short, a precision that overflows, an address without a country. *)
Example remote_faults :
  lldpctl_atom_get_str atom_med_location
    {| loc_format := LLDP_MED_LOCFORMAT_COORD; loc_data := [1; 2; 3] |} lldpctl_k_med_location_geoid = Fault ∧
  lldpctl_atom_get_str atom_med_location
    {| loc_format := LLDP_MED_LOCFORMAT_COORD; loc_data := [252; 1; 255; 255; 255] ++ replicate 11 0 |}
    lldpctl_k_med_location_latitude = Fault ∧
  lldpctl_atom_get_str atom_med_location
    {| loc_format := LLDP_MED_LOCFORMAT_CIVIC; loc_data := [2; 2; 70] |} lldpctl_k_med_location_country = Fault ∧
  ca_elements {| loc_format := LLDP_MED_LOCFORMAT_CIVIC; loc_data := [2; 2; 70] |} = Some Fault.
Proof. by split_and!; vm_compute. Qed.

(** ** Configuration *)

Lemma config_change_applied_witness :
  ∃ copy sent, _lldpctl_atom_set_int_config (g_config ex_box) lldpctl_k_config_tx_interval 45 = Got (copy, sent) ∧
    g_config (apply_config sent ex_box) = copy ∧ c_tx_interval copy = 45.
Proof.
  do 2 eexists. split; [reflexivity|]. split; [|reflexivity].
  eapply (config_change_applied 0%nat ex_box lldpctl_k_config_tx_interval 45); [done|lia|reflexivity].
Defined.

(** A value the daemon ignores stays in the copy of the client. *)
Example config_copy_differs :
  match _lldpctl_atom_set_int_config (g_config ex_box) lldpctl_k_config_lldp_portid_type 99 with
  | Got (copy, sent) => c_lldp_portid_type copy = 99 ∧ g_config (apply_config sent ex_box) = g_config ex_box
  | _ => False
  end.
Proof. by split. Qed.
