(* ===== verification/Privsep.v ===== *)
(** * Privilege separation: the channel

    lldpd runs as two processes: a child without privileges and a monitor that runs as
    root.  They talk over the pair of datagram sockets that [priv_init] creates
    (daemon/priv.c), with the functions of daemon/privsep_io.c.  A [read] takes one
    datagram and loses what does not fit in the buffer; descriptors travel beside the
    bytes.

    The state of the two processes is a [world]: what is under way in both directions,
    how the next system calls on the sockets end ([io], [Go] when it is empty), the
    privileged operations done so far, and the static variable of [asroot_snmp_socket].
    A function of either process is a [prog]; besides returning it may wait for a
    message, exit, stop with [fatal], or do something that C does not define
    ([Fault]). *)

From S2P Require Import Prelude Bytes Text Marshal Ctl.
#[local] Open Scope Z_scope.

(** ** Operating system *)

Inductive family := AF_PACKET | AF_INET | AF_UNIX.

(** The system and library calls made with privileges, with what they are given. *)
Inductive syscall :=
  | Unlink (path : list Z)
  | Uname
  | Gethostbyname (name : list Z)
  | Res_init
  | Open (path : list Z)
  | Socket (f : family)
  | Bind (fd ifindex : Z)
  | Attach_filter (fd : Z)
  | Lock_filter (fd : Z)
  | Ioctl_multicast (fd : Z) (add : bool) (ifr_name mac : list Z)
  | Ioctl_ethtool (fd : Z) (ifr_name : list Z)
  | Ioctl_getflags (fd : Z) (ifr_name : list Z)
  | Ioctl_setflags (fd : Z) (ifr_name : list Z) (flags : Z)
  | Connect (fd : Z) (addr : list Z)
  | Getfl (fd : Z)
  | Setfl (fd : Z) (flags : Z)
  | Fopen (path : list Z)
  | Fgets
  | Fputs (text : list Z)
  | Fclose
  | Close (fd : Z).

(** Return value, [errno] and data of a call.  A call that returns a pointer has
    [ret = -1] for NULL. *)
Record reply := Reply { ret : Z; errno : Z; out : list Z }.

(** What the system answers may depend on everything asked before. *)
Class OperatingSystem := answers : list syscall → syscall → reply.

(** ** Worlds and programs *)

Record datagram := Datagram { data : list Z; rights : option Z }.
Inductive io_event := Go | Again | Broken.
#[global] Instance io_event_eq_dec : EqDecision io_event.
Proof. solve_decision. Defined.
Inductive priv_context := PRIV_PRIVILEGED | PRIV_UNPRIVILEGED.

Record world := World {
  to_monitor : list datagram;
  to_child : list datagram;
  io : list io_event;
  calls : list syscall;
  snmp_addr : option (list Z)
}.
#[global] Instance eta_world : Settable world :=
  λ w, World (to_monitor w) (to_child w) (io w) (calls w) (snmp_addr w).

(** What C does not define: a length that overflows or does not fit its block, an array
    that is read past its end, a string without terminator, a result that was not set. *)
Inductive fault := BadLength | ShortArray | LongAlias | NoResult.

Inductive outcome (A : Type) :=
  | Done (a : A) (w : world)
  | Blocked (w : world)
  | Exited (w : world)
  | Fatal (w : world)
  | Fault (f : fault)
  | NoFuel.
Arguments Done {A} a w.
Arguments Blocked {A} w.
Arguments Exited {A} w.
Arguments Fatal {A} w.
Arguments Fault {A} f.
Arguments NoFuel {A}.

Definition prog (A : Type) : Type := world → outcome A.
#[global] Instance prog_ret : MRet prog := λ A a w, Done a w.
#[global] Instance prog_bind : MBind prog := λ A B f m w,
  match m w with
  | Done a w => f a w
  | Blocked w => Blocked w
  | Exited w => Exited w
  | Fatal w => Fatal w
  | Fault f => Fault f
  | NoFuel => NoFuel
  end.

Definition _exit {A} : prog A := Exited.
Definition fatal {A} : prog A := Fatal.
Definition undefined {A} (f : fault) : prog A := λ _, Fault f.

(** ** Sockets *)

(** What a process has to read, and adding to what the other one has to read. *)
Definition received (ctx : priv_context) (w : world) : list datagram :=
  match ctx with PRIV_PRIVILEGED => to_monitor w | PRIV_UNPRIVILEGED => to_child w end.
Definition set_received (ctx : priv_context) (q : list datagram) (w : world) : world :=
  match ctx with
  | PRIV_PRIVILEGED => w <| to_monitor := q |>
  | PRIV_UNPRIVILEGED => w <| to_child := q |>
  end.
Definition deliver (ctx : priv_context) (d : datagram) (w : world) : world :=
  match ctx with
  | PRIV_PRIVILEGED => w <| to_child ::= (λ q, q ++ [d]) |>
  | PRIV_UNPRIVILEGED => w <| to_monitor ::= (λ q, q ++ [d]) |>
  end.

(** How the next call on a socket ends. *)
Definition next_event (w : world) : io_event * world :=
  match io w with [] => (Go, w) | e :: io' => (e, w <| io := io' |>) end.

(** [may_read] and [must_read]: one loop, two ends.  [pos] is what is in the buffer. *)
Fixpoint read_loop (fuel : nat) (ctx : priv_context) (failed : prog (option (list Z)))
    (n : Z) (pos : list Z) (w : world) : outcome (option (list Z)) :=
  if n <=? zlen pos then Done (Some pos) w else
  match fuel with
  | O => NoFuel
  | S fuel =>
      match next_event w with
      | (Again, w) => read_loop fuel ctx failed n pos w
      | (Broken, w) => failed w
      | (Go, w) =>
          match received ctx w with
          | [] => Blocked w
          | d :: q =>
              let res := take (Z.to_nat (n - zlen pos)) (data d) in
              let w := set_received ctx q w in
              if zlen res =? 0 then failed w else read_loop fuel ctx failed n (pos ++ res) w
          end
      end
  end.

(** The calls that will be interrupted.  Only these are made again: besides them, a read of
    [n] bytes takes at most [n] calls, a write one. *)
Fixpoint count_again (es : list io_event) : nat :=
  match es with [] => O | Again :: es => S (count_again es) | _ :: es => count_again es end.
Definition interruptions (w : world) : nat := count_again (io w).
Definition read_fuel (n : Z) (w : world) : nat := interruptions w + Z.to_nat n.

Definition may_read (ctx : priv_context) (n : Z) : prog (option (list Z)) :=
  λ w, read_loop (read_fuel n w) ctx (mret None) n [] w.
Definition must_read (ctx : priv_context) (n : Z) : prog (list Z) :=
  r ← (λ w, read_loop (read_fuel n w) ctx _exit n [] w);
  match r with Some buf => mret buf | None => _exit end.

Fixpoint write_loop (fuel : nat) (ctx : priv_context) (buf : list Z) (w : world) : outcome unit :=
  match fuel with
  | O => NoFuel
  | S fuel =>
      match next_event w with
      | (Again, w) => write_loop fuel ctx buf w
      | (Broken, w) => Exited w
      | (Go, w) => Done tt (deliver ctx (Datagram buf None) w)
      end
  end.
Definition must_write (ctx : priv_context) (buf : list Z) : prog unit :=
  λ w, if zlen buf =? 0 then Done tt w else write_loop (S (interruptions w)) ctx buf w.

(** Writing the first [n] bytes of a block of memory. *)
Definition must_write_from (ctx : priv_context) (mem : list Z) (n : Z) : prog unit :=
  if zlen mem <? n then undefined ShortArray else must_write ctx (take (Z.to_nat n) mem).

Section Messages.
Context `{BuildConfig}.

Definition write_int (ctx : priv_context) (v : Z) : prog unit := must_write ctx (host_bytes 4 v).
Definition read_int (ctx : priv_context) : prog Z := b ← must_read ctx 4; mret (host_int b).

(** A descriptor that is not one is sent as the current [errno]; a message that cannot
    be sent is lost. *)
Definition send_fd (ctx : priv_context) (fd err : Z) : prog unit := λ w,
  let d := if 0 <=? fd then Datagram (host_bytes 4 0) (Some fd) else Datagram (host_bytes 4 err) None in
  match next_event w with
  | (Go, w) => Done tt (deliver ctx d w)
  | (_, w) => Done tt w
  end.

(** [result] is only set by a message of at least four bytes. *)
Definition receive_fd (ctx : priv_context) : prog Z := λ w,
  match next_event w with
  | (Go, w) =>
      match received ctx w with
      | [] => Blocked w
      | d :: q =>
          let w := set_received ctx q w in
          if zlen (data d) <? 4 then Fault NoResult
          else if host_int (take 4 (data d)) =? 0
               then Done (match rights d with Some fd => fd | None => -1 end) w
               else Done (-1) w
      end
  | (_, w) => Fault NoResult
  end.
End Messages.

(** [len] bytes in a block of [malloc(len + 1)], where [len] comes from the other process:
    the conversions to [size_t] of the C code decide what a bad length does. *)
Definition INT_MAX : Z := 2 ^ 31 - 1.
Definition read_block (ctx : priv_context) (len : Z) : prog (list Z) :=
  if len =? INT_MAX then undefined BadLength
  else if len =? -1 then undefined BadLength
  else if len <? -1 then fatal
  else must_read ctx len.

(** A call of the system. *)
Definition perform `{OperatingSystem} (c : syscall) : prog reply :=
  λ w, Done (answers (calls w) c) (w <| calls ::= (λ l, l ++ [c]) |>).
