(* ===== verification/Regex.v ===== *)
(** * Regular expressions of the monitor

    [asroot_open] (daemon/priv-linux.c) compares a path with basic regular expressions
    made of characters, of [[^c]] and of [[^c]*], compiled with [REG_NOSUB] only: no
    anchor is written, so [regexec] looks for a match anywhere.  [regexec] is executable;
    [lang] says what an expression denotes, and [regexec_spec] that the search is right. *)

From S2P Require Import Prelude Bytes Text.
From stdpp Require Import strings.
#[local] Open Scope Z_scope.

Inductive item := Lit (c : Z) | NotIn (c : Z) | StarNotIn (c : Z).

(** The characters that have a meaning of their own in a basic expression. *)
Definition special (c : Z) : bool := bool_decide (c ∈ chars "[]^$\.*").

Fixpoint regcomp (p : list Z) : option (list item) :=
  match p with
  | [] => Some []
  | 91 :: 94 :: c :: 93 :: 42 :: p => cons (StarNotIn c) <$> regcomp p
  | 91 :: 94 :: c :: 93 :: p => cons (NotIn c) <$> regcomp p
  | c :: p => if special c then None else cons (Lit c) <$> regcomp p
  end.

Fixpoint match_here (r : list item) (s : list Z) {struct r} : bool :=
  match r with
  | [] => true
  | Lit c :: r => match s with x :: s => (x =? c) && match_here r s | [] => false end
  | NotIn c :: r => match s with x :: s => negb (x =? c) && match_here r s | [] => false end
  | StarNotIn c :: r =>
      (fix star (s : list Z) : bool :=
         match_here r s || match s with x :: s => negb (x =? c) && star s | [] => false end) s
  end.

Fixpoint regexec (r : list item) (s : list Z) : bool :=
  match_here r s || match s with _ :: s => regexec r s | [] => false end.

(** What an expression denotes. *)
Inductive lang : list item → list Z → Prop :=
  | lang_nil : lang [] []
  | lang_lit c r s : lang r s → lang (Lit c :: r) (c :: s)
  | lang_not c r x s : x ≠ c → lang r s → lang (NotIn c :: r) (x :: s)
  | lang_star c r t s : Forall (λ x, x ≠ c) t → lang r s → lang (StarNotIn c :: r) (t ++ s).
#[export] Hint Constructors lang : lldpd.

Lemma match_here_sound r : ∀ s, match_here r s = true → ∃ m post, s = m ++ post ∧ lang r m.
Proof.
  induction r as [|[c|c|c] r IH]; intros s Hs.
  - exists [], s. eauto with lldpd.
  - destruct s as [|x s]; cbn in Hs; [done|]. bool_to_prop. subst.
    destruct (IH s) as (m & post & -> & Hm); [done|]. exists (c :: m), post. eauto with lldpd.
  - destruct s as [|x s]; cbn in Hs; [done|]. bool_to_prop.
    destruct (IH s) as (m & post & -> & Hm); [done|]. exists (x :: m), post. eauto with lldpd.
  - induction s as [|x s IHs]; cbn in Hs.
    + rewrite orb_false_r in Hs. destruct (IH [] Hs) as (m & post & He & Hm).
      exists m, post. split; [done|]. exact (lang_star c r [] m (Forall_nil_2 _) Hm).
    + apply orb_true_iff in Hs as [Hs|Hs].
      * destruct (IH _ Hs) as (m & post & He & Hm).
        exists m, post. split; [done|]. exact (lang_star c r [] m (Forall_nil_2 _) Hm).
      * bool_to_prop. destruct IHs as (m & post & -> & Hm); [done|].
        inversion Hm as [| | |c' r' t u Ht Hu]; subst. exists (x :: t ++ u), post.
        split; [done|]. apply (lang_star c r (x :: t)); [by constructor|done].
Qed.

Lemma match_here_complete r m post : lang r m → match_here r (m ++ post) = true.
Proof.
  intros Hm. induction Hm as [|c r s Hm IH|c r x s Hx Hm IH|c r t s Ht Hm IH]; [done| | |].
  - cbn. by rewrite Z.eqb_refl, IH.
  - cbn. by rewrite (proj2 (Z.eqb_neq x c) Hx), IH.
  - induction Ht as [|x t Hx Ht IHt].
    + cbn [app]. destruct (s ++ post) eqn:E; cbn; rewrite IH; done.
    + cbn in IHt |- *. rewrite (proj2 (Z.eqb_neq x c) Hx). cbn. by rewrite IHt, orb_true_r.
Qed.

(** The search finds a match when there is one, wherever it is. *)
Lemma regexec_spec r s :
  regexec r s = true ↔ ∃ pre m post, s = pre ++ m ++ post ∧ lang r m.
Proof.
  split.
  - induction s as [|x s IH]; cbn; intros Hs; apply orb_true_iff in Hs as [Hs|Hs]; try done.
    + apply match_here_sound in Hs as (m & post & -> & Hm). by exists [], m, post.
    + apply match_here_sound in Hs as (m & post & -> & Hm). by exists [], m, post.
    + destruct (IH Hs) as (pre & m & post & -> & Hm). by exists (x :: pre), m, post.
  - intros (pre & m & post & -> & Hm). induction pre as [|x pre IH].
    + cbn [app]. pose proof (match_here_complete _ _ post Hm) as Hh.
      destruct (m ++ post) eqn:E; cbn [regexec]; by rewrite Hh.
    + cbn. by rewrite IH, orb_true_r.
Qed.
