(* ===== verification/Monitor.v ===== *)
(** * Privilege separation: the monitor

    The privileged side (daemon/priv.c, daemon/priv-linux.c): one [asroot_*] function per
    request, which reads its arguments from the channel, does the operation and answers;
    [actions], the table of the requests; [priv_loop], which serves them. *)

From S2P Require Import Prelude Bytes Text Marshal Ctl Regex Privsep.
From stdpp Require Import strings.
#[local] Open Scope Z_scope.

(** ** Commands *)

Inductive priv_cmd :=
  | PRIV_PING | PRIV_DELETE_CTL_SOCKET | PRIV_GET_HOSTNAME | PRIV_OPEN | PRIV_ETHTOOL
  | PRIV_IFACE_INIT | PRIV_IFACE_MULTICAST | PRIV_IFACE_DESCRIPTION | PRIV_IFACE_PROMISC
  | PRIV_SNMP_SOCKET.
Definition cmd_value (c : priv_cmd) : Z :=
  match c with
  | PRIV_PING => 0 | PRIV_DELETE_CTL_SOCKET => 1 | PRIV_GET_HOSTNAME => 2 | PRIV_OPEN => 3
  | PRIV_ETHTOOL => 4 | PRIV_IFACE_INIT => 5 | PRIV_IFACE_MULTICAST => 6
  | PRIV_IFACE_DESCRIPTION => 7 | PRIV_IFACE_PROMISC => 8 | PRIV_SNMP_SOCKET => 9
  end.

Definition ETHER_ADDR_LEN : Z := 6.
Definition SIZEOF_SOCKADDR_UN : Z := 110.
Definition SIZEOF_ETHTOOL_CMD : Z := 44.
Definition AF_UNIX_VALUE : Z := 1.
Definition EADDRINUSE : Z := 98.
Definition ENOPROTOOPT : Z := 92.
Definition O_NONBLOCK : Z := 2048.
Definition IFF_PROMISC : Z := 256.
Definition IFALIASZ : Z := 256.
Definition SYSFS_CLASS_NET : list Z := chars "/sys/class/net/".
Definition SYSFS_CLASS_DMI : list Z := chars "/sys/class/dmi/id/".

Section Monitor.
Context `{BuildConfig} `{OperatingSystem}.

Abbreviation must_read := (must_read PRIV_PRIVILEGED).
Abbreviation read_int := (read_int PRIV_PRIVILEGED).
Abbreviation read_block := (read_block PRIV_PRIVILEGED).
Abbreviation must_write := (must_write PRIV_PRIVILEGED).
Abbreviation write_int := (write_int PRIV_PRIVILEGED).
Abbreviation send_fd := (send_fd PRIV_PRIVILEGED).

(** [char name[IFNAMSIZ]] with its last character forced to NUL, as a string; and a string
    copied to such an array by [strlcpy], the rest of the array being zero. *)
Definition ifname (name : list Z) : list Z := cstr (take (Z.to_nat (IFNAMSIZ - 1)) name).
Definition strlcpy_ifname (s : list Z) : list Z :=
  let s := take (Z.to_nat (IFNAMSIZ - 1)) (cstr s) in s ++ replicate (Z.to_nat IFNAMSIZ - length s) 0.

Definition when (b : bool) (p : prog unit) : prog unit := if b then p else mret tt.

(** ** Operations *)

Definition ctl_cleanup (name : list Z) : prog unit := _ ← perform (Unlink name); mret tt.

Definition asroot_iface_init_os (ifindex : Z) (name : list Z) : prog (Z * Z) :=
  s ← perform (Socket AF_PACKET);
  let fd := ret s in
  if fd <? 0 then mret (errno s, fd) else
  b ← perform (Bind fd ifindex);
  if ret b <? 0 then mret (errno b, fd) else
  f ← perform (Attach_filter fd);
  if ret f <? 0 then mret (errno f, fd) else
  l ← perform (Lock_filter fd);
  if (ret l <? 0) && negb (errno l =? ENOPROTOOPT) then mret (errno l, fd) else
  mret (0, fd).

(** The text to write in ifalias: [line] is what [fgets] read, NULL at the end of file.
    [None] is the branch that returns without writing.  [memmove] moves the characters
    7 to 251 of the array, so a longer line loses its terminator. *)
Definition alias_text (description : list Z) (line : option (list Z)) : prog (option (list Z)) :=
  match (if zlen description =? 0 then line else None) with
  | Some descr =>
      if has_prefix (chars "lldpd: ") descr
      then if has_prefix (chars "was ") (drop 7 descr) then mret None
           else if IFALIASZ - 4 <=? zlen descr then undefined LongAlias
           else mret (Some (chars "lldpd: was " ++ drop 7 descr))
      else mret (Some (chars "lldpd: no neighbor"))
  | None => mret (Some (take (Z.to_nat (IFALIASZ - 1)) (chars "lldpd: connected to " ++ description)))
  end.

Definition read_line : prog (option (list Z)) :=
  r ← perform Fgets;
  mret (if ret r =? -1 then None else Some (cstr (take (Z.to_nat (IFALIASZ - 1)) (out r)))).

Definition asroot_iface_description_os (name description : list Z) : prog Z :=
  match name with
  | [] => mret (-1)
  | 46 :: _ => mret (-1)
  | _ =>
      f ← perform (Fopen (SYSFS_CLASS_NET ++ name ++ chars "/ifalias"));
      if ret f =? -1 then mret (errno f) else
      line ← (if zlen description =? 0 then read_line else mret None);
      text ← alias_text description line;
      match text with
      | None => _ ← perform Fclose; mret 0
      | Some descr =>
          p ← perform (Fputs descr);
          _ ← perform Fclose;
          mret (if ret p =? -1 then -1 else 0)
      end
  end.

Definition asroot_iface_promisc_os (name : list Z) : prog Z :=
  s ← perform (Socket AF_PACKET);
  if ret s <? 0 then mret (errno s) else
  let ifr_name := strlcpy_ifname name in
  g ← perform (Ioctl_getflags (ret s) ifr_name);
  if ret g =? -1 then _ ← perform (Close (ret s)); mret (errno g) else
  let flags := host_value (take 2 (out g)) in
  if negb (Z.land flags IFF_PROMISC =? 0) then _ ← perform (Close (ret s)); mret 0 else
  t ← perform (Ioctl_setflags (ret s) ifr_name (Z.lor flags IFF_PROMISC));
  _ ← perform (Close (ret s));
  mret (if ret t =? -1 then errno t else 0).

Definition multicast_os (name mac : list Z) (add : bool) : prog Z :=
  s ← perform (Socket AF_INET);
  if ret s =? -1 then mret (errno s) else
  m ← perform (Ioctl_multicast (ret s) add name mac);
  _ ← perform (Close (ret s));
  mret (if (ret m <? 0) && negb (errno m =? EADDRINUSE) then errno m else 0).

Definition gethostname_os : prog (list Z) :=
  un ← perform Uname;
  if ret un <? 0 then fatal else
  hp ← perform (Gethostbyname (cstr (out un)));
  if ret hp =? -1 then _ ← perform Res_init; mret (cstr (out un)) else mret (cstr (out hp)).

(** ** Requests *)

Definition asroot_ping : prog unit := write_int 1.

Definition asroot_ctl_cleanup : prog unit :=
  len ← read_int;
  ctlname ← read_block len;
  _ ← ctl_cleanup (cstr ctlname);
  write_int 0.

Definition asroot_gethostbyname : prog unit :=
  name ← gethostname_os;
  _ ← write_int (zlen name);
  must_write (name ++ [0]).

Definition asroot_iface_init : prog unit :=
  ifindex ← read_int;
  name ← must_read IFNAMSIZ;
  rf ← asroot_iface_init_os ifindex (ifname name);
  let '(rc, fd) := rf in
  _ ← write_int rc;
  _ ← when ((rc =? 0) && (0 <=? fd)) (send_fd fd 0);
  when (0 <=? fd) (_ ← perform (Close fd); mret tt).

Definition asroot_iface_multicast : prog unit :=
  name ← must_read IFNAMSIZ;
  mac ← must_read ETHER_ADDR_LEN;
  add ← read_int;
  rc ← multicast_os name mac (negb (add =? 0));
  write_int rc.

Definition asroot_iface_description : prog unit :=
  name ← must_read IFNAMSIZ;
  len ← read_int;
  description ← read_block len;
  rc ← asroot_iface_description_os (ifname name) (cstr description);
  write_int rc.

Definition asroot_iface_promisc : prog unit :=
  name ← must_read IFNAMSIZ;
  rc ← asroot_iface_promisc_os (ifname name);
  write_int rc.

(** The address of the first request is kept; the others only make the monitor read. *)
Definition remember_addr (addr : list Z) : prog (list Z) := λ w,
  let a := default addr (snmp_addr w) in
  let a' := if host_value (take 2 a) =? AF_UNIX_VALUE then take (Z.to_nat (SIZEOF_SOCKADDR_UN - 1)) a ++ [0] else a in
  let w := w <| snmp_addr := Some a' |> in
  if host_value (take 2 a) =? AF_UNIX_VALUE then Done a' w else Fatal w.

(** The connection: [inl rc] is a failure, [inr fd] a descriptor to pass. *)
Definition snmp_connect (addr : list Z) : prog (Z + Z) :=
  s ← perform (Socket AF_UNIX);
  let sock := ret s in
  if sock <? 0 then mret (inl sock) else
  c ← perform (Connect sock addr);
  if negb (ret c =? 0) then _ ← perform (Close sock); mret (inl (-1)) else
  g ← perform (Getfl sock);
  if ret g <? 0 then _ ← perform (Close sock); mret (inl (-1)) else
  t ← perform (Setfl sock (Z.lor (ret g) O_NONBLOCK));
  if ret t <? 0 then _ ← perform (Close sock); mret (inl (-1)) else
  mret (inr sock).

Definition asroot_snmp_socket : prog unit :=
  bogus ← must_read SIZEOF_SOCKADDR_UN;
  addr ← remember_addr bogus;
  r ← snmp_connect addr;
  match r with
  | inl rc => write_int rc
  | inr sock => _ ← write_int 0; _ ← send_fd sock 0; _ ← perform (Close sock); mret tt
  end.

(** ** Linux: opening files and ethtool *)

Definition authorized : list (list Z) :=
  [ chars "/proc/sys/net/ipv4/ip_forward";
    chars "/proc/net/bonding/[^.][^/]*";
    chars "/proc/self/net/bonding/[^.][^/]*";
    SYSFS_CLASS_NET ++ chars "[^.][^/]*/brforward";
    SYSFS_CLASS_NET ++ chars "[^.][^/]*/brport";
    SYSFS_CLASS_NET ++ chars "[^.][^/]*/brif/[^.][^/]*/port_no";
    SYSFS_CLASS_DMI ++ chars "product_version";
    SYSFS_CLASS_DMI ++ chars "product_serial";
    SYSFS_CLASS_DMI ++ chars "product_name";
    SYSFS_CLASS_DMI ++ chars "bios_version";
    SYSFS_CLASS_DMI ++ chars "sys_vendor";
    SYSFS_CLASS_DMI ++ chars "chassis_asset_tag" ].

(** The loop over the expressions: [None] when one cannot be compiled. *)
Fixpoint authorized_loop (f : list (list Z)) (file : list Z) : option bool :=
  match f with
  | [] => Some false
  | p :: f =>
      preg ← regcomp p;
      if regexec preg file then Some true else authorized_loop f file
  end.

Definition open_os (file : list Z) : prog Z :=
  match authorized_loop authorized file with
  | None => fatal
  | Some false => mret (-1)
  | Some true => fd ← perform (Open file); mret (ret fd)
  end.

Definition asroot_open : prog unit :=
  len ← read_int;
  file ← read_block len;
  fd ← open_os (cstr file);
  _ ← write_int fd;
  when (negb (fd =? -1)) (_ ← send_fd fd 0; _ ← perform (Close fd); mret tt).

(** [inl rc] is a failure, [inr ethc] the structure the driver filled. *)
Definition ethtool_os (name : list Z) : prog (Z + list Z) :=
  s ← perform (Socket AF_INET);
  if ret s =? -1 then mret (inl (-1)) else
  e ← perform (Ioctl_ethtool (ret s) (strlcpy_ifname name));
  _ ← perform (Close (ret s));
  mret (if ret e =? 0 then inr (take (Z.to_nat SIZEOF_ETHTOOL_CMD) (out e ++ replicate (Z.to_nat SIZEOF_ETHTOOL_CMD) 0))
        else inl (ret e)).

Definition asroot_ethtool : prog unit :=
  len ← read_int;
  name ← read_block len;
  r ← ethtool_os (cstr name);
  match r with
  | inl rc => write_int rc
  | inr ethc => _ ← write_int 0; must_write ethc
  end.

(** ** Dispatch *)

Definition actions : list (priv_cmd * prog unit) :=
  [ (PRIV_PING, asroot_ping);
    (PRIV_DELETE_CTL_SOCKET, asroot_ctl_cleanup);
    (PRIV_GET_HOSTNAME, asroot_gethostbyname);
    (PRIV_OPEN, asroot_open);
    (PRIV_ETHTOOL, asroot_ethtool);
    (PRIV_IFACE_INIT, asroot_iface_init);
    (PRIV_IFACE_MULTICAST, asroot_iface_multicast);
    (PRIV_IFACE_DESCRIPTION, asroot_iface_description);
    (PRIV_IFACE_PROMISC, asroot_iface_promisc);
    (PRIV_SNMP_SOCKET, asroot_snmp_socket) ].

Fixpoint dispatch (a : list (priv_cmd * prog unit)) (cmd : Z) : prog unit :=
  match a with
  | [] => fatal
  | (msg, function) :: a => if cmd =? cmd_value msg then function else dispatch a cmd
  end.

(** [priv_loop]: it returns when the command cannot be read. *)
Fixpoint priv_loop (fuel : nat) (once : bool) : prog unit :=
  match fuel with
  | O => λ _, NoFuel
  | S fuel =>
      cmd ← may_read PRIV_PRIVILEGED 4;
      match cmd with
      | None => mret tt
      | Some cmd =>
          _ ← dispatch actions (host_value cmd);
          if once then mret tt else priv_loop fuel once
      end
  end.
End Monitor.
