(* ===== verification/Proxies.v ===== *)
(** * Privilege separation: the proxies

    The other side of daemon/priv.c and daemon/priv-linux.c: functions of the process
    without privileges that ask the monitor for an operation.  [priv_wait] runs the monitor
    for one request, as it is written for a build without a second process; with two
    processes the child has nothing else to do until the answer comes.

    [direct] is what a request should amount to, without a channel.  The theorem of this
    file is that the channel cannot be seen: any sequence of calls of the proxies does the
    same operations and returns the same values as the direct ones. *)

From S2P Require Import Prelude Bytes Text Marshal Ctl Regex Privsep Monitor.
#[local] Open Scope Z_scope.

Section Proxies.
Context `{BuildConfig} `{OperatingSystem}.

Abbreviation must_read := (must_read PRIV_UNPRIVILEGED).
Abbreviation read_int := (read_int PRIV_UNPRIVILEGED).
Abbreviation must_write := (must_write PRIV_UNPRIVILEGED).
Abbreviation must_write_from := (must_write_from PRIV_UNPRIVILEGED).
Abbreviation write_int := (write_int PRIV_UNPRIVILEGED).
Abbreviation receive_fd := (receive_fd PRIV_UNPRIVILEGED).

Definition priv_wait : prog unit := priv_loop 1 true.
Definition write_cmd (c : priv_cmd) : prog unit := must_write (host_bytes 4 (cmd_value c)).

Definition priv_ping : prog unit :=
  _ ← write_cmd PRIV_PING; _ ← priv_wait; _ ← read_int; mret tt.

Definition priv_ctl_cleanup (ctlname : list Z) : prog unit :=
  let len := strlen ctlname in
  _ ← write_cmd PRIV_DELETE_CTL_SOCKET;
  _ ← write_int len;
  _ ← must_write (cstr ctlname);
  _ ← priv_wait; _ ← read_int; mret tt.

(** The array the name is read into is resized to [rc + 1]. *)
Definition priv_gethostbyname : prog (list Z) :=
  _ ← write_cmd PRIV_GET_HOSTNAME;
  _ ← priv_wait;
  rc ← read_int;
  if (rc =? INT_MAX) || (rc =? -1) then undefined BadLength
  else if rc <? -1 then fatal
  else must_read (rc + 1).

(** [dev] is an array on the stack, sent whole: [junk] is what was there. *)
Definition priv_iface_init (junk : list Z) (index : Z) (iface : list Z) : prog Z :=
  _ ← write_cmd PRIV_IFACE_INIT;
  _ ← write_int index;
  let s := take (Z.to_nat (IFNAMSIZ - 1)) (cstr iface) ++ [0] in
  _ ← must_write_from (s ++ drop (length s) junk) IFNAMSIZ;
  _ ← priv_wait;
  rc ← read_int;
  if negb (rc =? 0) then mret (-1) else receive_fd.

Definition priv_iface_multicast (name mac : list Z) (add : Z) : prog Z :=
  _ ← write_cmd PRIV_IFACE_MULTICAST;
  _ ← must_write_from name IFNAMSIZ;
  _ ← must_write_from mac ETHER_ADDR_LEN;
  _ ← write_int add;
  _ ← priv_wait; read_int.

Definition priv_iface_description (name description : list Z) : prog Z :=
  let len := strlen description in
  _ ← write_cmd PRIV_IFACE_DESCRIPTION;
  _ ← must_write_from name IFNAMSIZ;
  _ ← write_int len;
  _ ← must_write (cstr description);
  _ ← priv_wait; read_int.

Definition priv_iface_promisc (name : list Z) : prog Z :=
  _ ← write_cmd PRIV_IFACE_PROMISC;
  _ ← must_write_from name IFNAMSIZ;
  _ ← priv_wait; read_int.

Definition priv_snmp_socket (addr : list Z) : prog Z :=
  _ ← write_cmd PRIV_SNMP_SOCKET;
  _ ← must_write_from addr SIZEOF_SOCKADDR_UN;
  _ ← priv_wait;
  rc ← read_int;
  if rc <? 0 then mret rc else receive_fd.

Definition priv_open (file : list Z) : prog Z :=
  _ ← write_cmd PRIV_OPEN;
  let len := strlen file in
  _ ← write_int len;
  _ ← must_write (cstr file ++ [0]);
  _ ← priv_wait;
  rc ← read_int;
  if rc =? -1 then mret rc else receive_fd.

Definition priv_ethtool (ifname : list Z) (length : Z) : prog (Z * list Z) :=
  _ ← write_cmd PRIV_ETHTOOL;
  let len := strlen ifname in
  _ ← write_int len;
  _ ← must_write (cstr ifname ++ [0]);
  _ ← priv_wait;
  rc ← read_int;
  if negb (rc =? 0) then mret (rc, []) else ethc ← must_read length; mret (rc, ethc).

(** ** Requests and what they should do *)

Inductive request :=
  | Ping
  | CtlCleanup (ctlname : list Z)
  | GetHostname
  | IfaceInit (junk : list Z) (index : Z) (iface : list Z)
  | Multicast (name mac : list Z) (add : Z)
  | Description (name description : list Z)
  | Promisc (name : list Z)
  | SnmpSocket (addr : list Z)
  | OpenFile (file : list Z)
  | Ethtool (ifname : list Z).

(** What the caller gets: a number and some bytes. *)
Definition number (p : prog Z) : prog (Z * list Z) := z ← p; mret (z, []).

Definition proxy (r : request) : prog (Z * list Z) :=
  match r with
  | Ping => _ ← priv_ping; mret (0, [])
  | CtlCleanup ctlname => _ ← priv_ctl_cleanup ctlname; mret (0, [])
  | GetHostname => buf ← priv_gethostbyname; mret (0, buf)
  | IfaceInit junk index iface => number (priv_iface_init junk index iface)
  | Multicast name mac add => number (priv_iface_multicast name mac add)
  | Description name description => number (priv_iface_description name description)
  | Promisc name => number (priv_iface_promisc name)
  | SnmpSocket addr => number (priv_snmp_socket addr)
  | OpenFile file => number (priv_open file)
  | Ethtool ifname => priv_ethtool ifname SIZEOF_ETHTOOL_CMD
  end.

Definition closing (fd : Z) : prog unit := when (0 <=? fd) (_ ← perform (Close fd); mret tt).

Definition direct (r : request) : prog (Z * list Z) :=
  match r with
  | Ping => mret (0, [])
  | CtlCleanup ctlname => _ ← ctl_cleanup (cstr ctlname); mret (0, [])
  | GetHostname => name ← gethostname_os; mret (0, name ++ [0])
  | IfaceInit _ index iface =>
      rf ← asroot_iface_init_os index (ifname iface);
      _ ← closing rf.2;
      mret (if rf.1 =? 0 then rf.2 else -1, [])
  | Multicast name mac add => number (multicast_os (take 16 name) (take 6 mac) (negb (add =? 0)))
  | Description name description => number (asroot_iface_description_os (ifname name) (cstr description))
  | Promisc name => number (asroot_iface_promisc_os (ifname name))
  | SnmpSocket addr =>
      a ← remember_addr (take 110 addr);
      r ← snmp_connect a;
      match r with
      | inl rc => mret (rc, [])
      | inr fd => _ ← perform (Close fd); mret (fd, [])
      end
  | OpenFile file => fd ← open_os (cstr file); _ ← closing fd; mret (fd, [])
  | Ethtool ifname =>
      r ← ethtool_os (cstr ifname);
      mret (match r with inl rc => (rc, []) | inr ethc => (0, ethc) end)
  end.

(** What the callers see to: arrays are as long as the code reads them, and the names
    of files and devices are not empty. *)
Definition is_int (v : Z) : Prop := - 2 ^ 31 ≤ v < 2 ^ 31.
Definition request_ok (r : request) : Prop :=
  match r with
  | Ping | GetHostname => True
  | CtlCleanup s => strlen s < INT_MAX
  | IfaceInit junk index _ => is_int index ∧ zlen junk = 16
  | Multicast name mac add => 16 ≤ zlen name ∧ 6 ≤ zlen mac ∧ is_int add
  | Description name d => 16 ≤ zlen name ∧ strlen d < INT_MAX
  | Promisc name => 16 ≤ zlen name
  | SnmpSocket addr => 110 ≤ zlen addr
  | OpenFile s | Ethtool s => 0 < strlen s < INT_MAX
  end.

(** What is assumed of the system: results are integers, at least -1, [errno] is set
    when a call fails, and names have a sensible length. *)
Class OsLaws : Prop := os_laws : ∀ cs c,
  -1 ≤ ret (answers cs c) < 2 ^ 31 ∧
  (ret (answers cs c) = -1 → 0 < errno (answers cs c)) ∧
  is_int (errno (answers cs c)) ∧ zlen (out (answers cs c)) < INT_MAX.

Definition quiet (w : world) : Prop := to_monitor w = [] ∧ to_child w = [] ∧ io w = [].
End Proxies.

(** ** The channel, step by step *)

Section Channel.
Context `{BuildConfig} `{OperatingSystem}.
Implicit Types (tm tc q : list datagram) (cs : list syscall) (sa : option (list Z)).

Lemma bind_done {A B} (m : prog A) (f : A → prog B) w a w' :
  m w = Done a w' → (m ≫= f) w = f a w'.
Proof. intros Hm. unfold mbind, prog_bind. by rewrite Hm. Qed.

Lemma bind_assoc {A B C} (m : prog A) (f : A → prog B) (g : B → prog C) w :
  ((m ≫= f) ≫= g) w = (m ≫= λ a, f a ≫= g) w.
Proof. unfold mbind, prog_bind. by destruct (m w). Qed.

Lemma must_write_quiet ctx b w :
  b ≠ [] → io w = [] → Privsep.must_write ctx b w = Done tt (deliver ctx (Datagram b None) w).
Proof.
  intros Hb Hio. unfold Privsep.must_write. destruct (Z.eqb_spec (zlen b) 0) as [Hz|_].
  - destruct b as [|x b]; [done|]. rewrite zlen_cons in Hz. pose proof (zlen_nonneg b). lia.
  - destruct w; cbn in Hio |- *; subst. by destruct ctx.
Qed.

Lemma must_write_nil ctx w : Privsep.must_write ctx [] w = Done tt w.
Proof. done. Qed.

Lemma read_datagram ctx failed n b r q w :
  io w = [] → received ctx w = Datagram b r :: q → 0 < n ≤ zlen b →
  read_loop (read_fuel n w) ctx failed n [] w = Done (Some (take (Z.to_nat n) b)) (set_received ctx q w).
Proof.
  intros Hio Hr Hn. unfold read_fuel, interruptions. rewrite Hio.
  destruct (Z.to_nat n) as [|m] eqn:Em; [lia|]. cbn [count_again Nat.add read_loop].
  rewrite (proj2 (Z.leb_gt n (zlen []))) by zlen_lia. unfold next_event. rewrite Hio, Hr.
  cbn [data]. rewrite zlen_nil, Z.sub_0_r, (zlen_take n b) by lia.
  rewrite (proj2 (Z.eqb_neq n 0)) by lia. cbn [app]. rewrite <- Em.
  assert ((n <=? zlen (take (Z.to_nat n) b)) = true) as Hd by (apply Z.leb_le; rewrite zlen_take; lia).
  by destruct m; cbn [read_loop]; rewrite Hd.
Qed.

Lemma must_read_quiet ctx n b r q w :
  io w = [] → received ctx w = Datagram b r :: q → 0 < n ≤ zlen b →
  Privsep.must_read ctx n w = Done (take (Z.to_nat n) b) (set_received ctx q w).
Proof.
  intros Hio Hr Hn. unfold Privsep.must_read.
  erewrite bind_done by (by eapply read_datagram). done.
Qed.

Lemma must_read_zero ctx w : Privsep.must_read ctx 0 w = Done [] w.
Proof. unfold Privsep.must_read, mbind, prog_bind. by destruct (read_fuel 0 w). Qed.

Lemma host_int_bytes v : is_int v → host_int (take 4 (host_bytes 4 v)) = v.
Proof.
  intros Hv. rewrite take_ge by (rewrite length_host_bytes; lia). unfold is_int in Hv. unfold host_int.
  assert (host_value (host_bytes 4 v) = v mod 2 ^ 32) as ->.
  { unfold host_value, host_bytes. destruct HOST_LITTLE_ENDIAN; by rewrite le_bytes_value. }
  destruct (Z.ltb_spec (v mod 2 ^ 32) (2 ^ 31)); zlia.
Qed.

Lemma read_int_quiet ctx v r q w :
  io w = [] → received ctx w = Datagram (host_bytes 4 v) r :: q → is_int v →
  Privsep.read_int ctx w = Done v (set_received ctx q w).
Proof.
  intros Hio Hr Hv. unfold Privsep.read_int.
  erewrite bind_done by (eapply must_read_quiet; [done|done|rewrite host_bytes_zlen; lia]).
  by rewrite (host_int_bytes v Hv : host_int (take (Z.to_nat 4) _) = v).
Qed.

Lemma host_bytes_nonempty v : host_bytes 4 v ≠ [].
Proof. intros He. pose proof (length_host_bytes 4 v) as Hl. by rewrite He in Hl. Qed.

(** A block written with a trailing NUL or without, and read without. *)
Lemma read_block_quiet ctx s t r q w :
  io w = [] → received ctx w = Datagram (s ++ t) r :: q → 0 < zlen s < INT_MAX →
  Privsep.read_block ctx (zlen s) w = Done s (set_received ctx q w).
Proof.
  intros Hio Hr Hs. unfold Privsep.read_block, INT_MAX in *.
  rewrite (proj2 (Z.eqb_neq _ _)), (proj2 (Z.eqb_neq _ (-1))), (proj2 (Z.ltb_ge _ _)) by lia.
  rewrite (must_read_quiet ctx _ (s ++ t) r q) by (rewrite ?zlen_app; auto; zlen_lia).
  by rewrite take_app_zlen.
Qed.

(** ** Operations of the system leave the channel alone *)

Class Local {A} (p : prog A) : Prop := local_ : ∀ w, quiet w →
  match p w with Done _ w | Blocked w | Exited w | Fatal w => quiet w | Fault _ | NoFuel => True end.

#[global] Instance local_ret {A} (a : A) : Local (mret a).
Proof. by intros w Hw. Qed.
#[global] Instance local_bind {A B} (m : prog A) (f : A → prog B) :
  Local m → (∀ a, Local (f a)) → Local (m ≫= f).
Proof.
  intros Hm Hf w Hw. unfold mbind, prog_bind. specialize (Hm w Hw).
  destruct (m w) as [a w'| | | | |]; try done. by apply Hf.
Qed.
#[global] Instance local_perform c : Local (perform c).
Proof. by intros w Hw. Qed.
#[global] Instance local_if {A} (b : bool) (p q : prog A) : Local p → Local q → Local (if b then p else q).
Proof. by destruct b. Qed.
#[global] Instance local_fatal {A} : Local (@fatal A).
Proof. by intros w Hw. Qed.
#[global] Instance local_undefined {A} f : Local (@undefined A f).
Proof. by intros w Hw. Qed.
#[global] Instance local_when b p : Local p → Local (when b p).
Proof. unfold when. apply _. Qed.
#[global] Instance local_remember_addr a : Local (remember_addr a).
Proof. intros w Hw. unfold remember_addr. by destruct (_ =? _). Qed.

#[global] Instance local_ctl_cleanup n : Local (ctl_cleanup n).
Proof. unfold ctl_cleanup. apply _. Qed.
#[global] Instance local_gethostname_os : Local gethostname_os.
Proof. unfold gethostname_os. apply _. Qed.
#[global] Instance local_iface_init_os i n : Local (asroot_iface_init_os i n).
Proof. unfold asroot_iface_init_os. apply _. Qed.
#[global] Instance local_multicast_os n m b : Local (multicast_os n m b).
Proof. unfold multicast_os. apply _. Qed.
#[global] Instance local_promisc_os n : Local (asroot_iface_promisc_os n).
Proof. unfold asroot_iface_promisc_os. apply _. Qed.
#[global] Instance local_snmp_connect a : Local (snmp_connect a).
Proof. unfold snmp_connect. apply _. Qed.
#[global] Instance local_ethtool_os n : Local (ethtool_os n).
Proof. unfold ethtool_os. apply _. Qed.
#[global] Instance local_open_os f : Local (open_os f).
Proof. unfold open_os. destruct (authorized_loop _ _) as [[]|]; apply _. Qed.
#[global] Instance local_alias_text d l : Local (alias_text d l).
Proof. unfold alias_text. destruct (if _ : bool then _ else _); apply _. Qed.
#[global] Instance local_read_line : Local read_line.
Proof. unfold read_line. apply _. Qed.
#[global] Instance local_description_os n d : Local (asroot_iface_description_os n d).
Proof.
  unfold asroot_iface_description_os. destruct n as [|c n]; [apply _|].
  assert (∀ t : option (list Z), Local match t with
    | None => _ ← perform Fclose; mret 0
    | Some descr => p ← perform (Fputs descr); _ ← perform Fclose; mret (if ret p =? -1 then -1 else 0)
    end) by (intros [|]; apply _).
  destruct c as [|p|]; try apply _.
  repeat (destruct p as [p|p|]; try apply _).
Qed.

(** Binding an operation of the system: it ends the same way on both sides, or goes on
    with an empty channel. *)
Lemma bind_local {A B} (op : prog A) (f g : A → prog B) w :
  Local op → quiet w → (∀ a w', op w = Done a w' → quiet w' → f a w' = g a w') → (op ≫= f) w = (op ≫= g) w.
Proof.
  intros Hop Hw Hfg. unfold mbind, prog_bind. specialize (Hop w Hw).
  destruct (op w) as [a w'| | | | |] eqn:E; try done. by apply Hfg.
Qed.
End Channel.

(** ** What the operations return *)

Section Values.
Context `{BuildConfig} `{OperatingSystem} `{!OsLaws}.

Definition yields {A} (P : A → Prop) (p : prog A) : Prop := ∀ w a w', p w = Done a w' → P a.
Definition reply_ok (r : reply) : Prop :=
  -1 ≤ ret r < 2 ^ 31 ∧ (ret r = -1 → 0 < errno r) ∧ is_int (errno r) ∧ zlen (out r) < INT_MAX.

Lemma yields_ret {A} (P : A → Prop) a : P a → yields P (mret a).
Proof. intros Ha w a' w' He. by inversion He; subst. Qed.
Lemma yields_perform {A} (P : A → Prop) c (f : reply → prog A) :
  (∀ r, reply_ok r → yields P (f r)) → yields P (r ← perform c; f r).
Proof. intros Hf w a w' He. apply (Hf _ (os_laws (calls w) c) _ _ _ He). Qed.
Lemma yields_bind {A B} (P : A → Prop) (Q : B → Prop) (p : prog A) (f : A → prog B) :
  yields P p → (∀ a, P a → yields Q (f a)) → yields Q (p ≫= f).
Proof.
  intros Hp Hf w b w'. unfold mbind, prog_bind. destruct (p w) as [a w''| | | | |] eqn:E; try done.
  intros He. by eapply (Hf a); [eapply Hp|].
Qed.
Lemma yields_fatal {A} (P : A → Prop) : yields P fatal.
Proof. done. Qed.
Lemma yields_undefined {A} (P : A → Prop) f : yields P (undefined f).
Proof. done. Qed.

Ltac reply_lia :=
  unfold reply_ok, is_int in *; bool_to_prop; cbn [fst snd]; try case_if; lia.
Ltac yields_step :=
  first [ apply yields_perform; intros ? ? | apply yields_fatal | apply yields_undefined
        | case_if | apply yields_ret ].

Lemma iface_init_os_yields i n :
  yields (λ rf, is_int rf.1 ∧ -1 ≤ rf.2 < 2 ^ 31 ∧ (rf.1 = 0 → 0 ≤ rf.2)) (asroot_iface_init_os i n).
Proof. unfold asroot_iface_init_os. repeat yields_step; reply_lia. Qed.
Lemma multicast_os_yields n m b : yields is_int (multicast_os n m b).
Proof. unfold multicast_os. repeat yields_step; reply_lia. Qed.
Lemma promisc_os_yields n : yields is_int (asroot_iface_promisc_os n).
Proof. unfold asroot_iface_promisc_os. repeat yields_step; reply_lia. Qed.
Lemma open_os_yields f : yields (λ fd, -1 ≤ fd < 2 ^ 31) (open_os f).
Proof. unfold open_os. destruct (authorized_loop _ _) as [[]|]; repeat yields_step; reply_lia. Qed.

Lemma description_os_yields n d : yields is_int (asroot_iface_description_os n d).
Proof.
  unfold asroot_iface_description_os.
  assert (∀ t : option (list Z), yields is_int match t with
    | None => _ ← perform Fclose; mret 0
    | Some descr => p ← perform (Fputs descr); _ ← perform Fclose; mret (if ret p =? -1 then -1 else 0)
    end) as Ht by (intros [|]; repeat yields_step; reply_lia).
  assert (yields is_int (mret (M := prog) (-1))) as Hr by (apply yields_ret; reply_lia).
  assert (∀ n, yields is_int (f ← perform (Fopen n); if ret f =? -1 then mret (errno f) else
      line ← (if zlen d =? 0 then read_line else mret None);
      text ← alias_text d line;
      match text with
      | None => _ ← perform Fclose; mret 0
      | Some descr => p ← perform (Fputs descr); _ ← perform Fclose; mret (if ret p =? -1 then -1 else 0)
      end)) as Hb.
  { intros path. repeat yields_step; try reply_lia;
      (apply (yields_bind (λ _, True)); [done|]; intros ? _; apply (yields_bind (λ _, True)); [done|]; auto). }
  destruct n as [|c n]; [done|].
  destruct c as [|p|]; try apply Hb. repeat (destruct p as [p|p|]; try apply Hb). done.
Qed.

Lemma ethtool_os_yields n :
  yields (λ r, match r with inl rc => is_int rc ∧ rc ≠ 0 | inr e => zlen e = SIZEOF_ETHTOOL_CMD end) (ethtool_os n).
Proof.
  unfold ethtool_os. repeat yields_step; try (reply_lia || done).
  rewrite zlen_take; [done|]. zlen_simpl. pose proof (zlen_nonneg (out r0)). unfold SIZEOF_ETHTOOL_CMD. lia.
Qed.

Lemma snmp_connect_yields a :
  yields (λ r, match r with inl rc => -1 ≤ rc < 0 | inr fd => 0 ≤ fd < 2 ^ 31 end) (snmp_connect a).
Proof. unfold snmp_connect. repeat yields_step; unfold reply_ok in *; lia. Qed.

Lemma cstr_zlen l : zlen (cstr l) ≤ zlen l.
Proof. unfold cstr, zlen. pose proof (take_while_length (λ b, negb (b =? 0)) l). lia. Qed.

Lemma gethostname_os_yields : yields (λ n, zlen n < INT_MAX) gethostname_os.
Proof.
  unfold gethostname_os. repeat yields_step; unfold reply_ok in *;
    match goal with |- context [cstr (out ?r)] => pose proof (cstr_zlen (out r)) end; lia.
Qed.
End Values.

(** ** The channel cannot be seen *)

Section Transparent.
Context `{BuildConfig} `{OperatingSystem} `{!OsLaws}.

Definition handler (c : priv_cmd) : prog unit :=
  match c with
  | PRIV_PING => asroot_ping
  | PRIV_DELETE_CTL_SOCKET => asroot_ctl_cleanup
  | PRIV_GET_HOSTNAME => asroot_gethostbyname
  | PRIV_OPEN => asroot_open
  | PRIV_ETHTOOL => asroot_ethtool
  | PRIV_IFACE_INIT => asroot_iface_init
  | PRIV_IFACE_MULTICAST => asroot_iface_multicast
  | PRIV_IFACE_DESCRIPTION => asroot_iface_description
  | PRIV_IFACE_PROMISC => asroot_iface_promisc
  | PRIV_SNMP_SOCKET => asroot_snmp_socket
  end.

Lemma dispatch_handler c : dispatch actions (cmd_value c) = handler c.
Proof. by destruct c. Qed.

Lemma bind_unit (p : prog unit) w : (_ ← p; mret tt) w = p w.
Proof. unfold mbind, prog_bind. by destruct (p w) as [[]| | | | |]. Qed.

Lemma bind_eq {A B} (m m' : prog A) (f : A → prog B) w w' : m w = m' w' → (m ≫= f) w = (m' ≫= f) w'.
Proof. intros He. unfold mbind, prog_bind. by rewrite He. Qed.

(** One round of the monitor, when a request is there. *)
Lemma priv_wait_serves c q w :
  io w = [] → to_monitor w = Datagram (host_bytes 4 (cmd_value c)) None :: q →
  priv_wait w = handler c (w <| to_monitor := q |>).
Proof.
  intros Hio Hq. unfold priv_wait, priv_loop, may_read.
  erewrite bind_done by (eapply read_datagram; [done|exact Hq|rewrite host_bytes_zlen; lia]).
  cbv beta iota. rewrite bind_unit, take_ge by (rewrite length_host_bytes; cbn; lia).
  rewrite host_value_bytes by (destruct c; cbn; lia). by rewrite dispatch_handler.
Qed.

(** The steps on worlds that are written out. *)
Lemma write_child b tm tc cs sa : b ≠ [] →
  Privsep.must_write PRIV_UNPRIVILEGED b (World tm tc [] cs sa) =
  Done tt (World (tm ++ [Datagram b None]) tc [] cs sa).
Proof. intros Hb. by rewrite must_write_quiet. Qed.
Lemma write_monitor b tm tc cs sa : b ≠ [] →
  Privsep.must_write PRIV_PRIVILEGED b (World tm tc [] cs sa) =
  Done tt (World tm (tc ++ [Datagram b None]) [] cs sa).
Proof. intros Hb. by rewrite must_write_quiet. Qed.
Lemma write_child_from b n tm tc cs sa : 0 < n ≤ zlen b →
  Privsep.must_write_from PRIV_UNPRIVILEGED b n (World tm tc [] cs sa) =
  Done tt (World (tm ++ [Datagram (take (Z.to_nat n) b) None]) tc [] cs sa).
Proof.
  intros Hn. unfold Privsep.must_write_from. rewrite (proj2 (Z.ltb_ge _ _)) by lia.
  apply write_child. intros He. pose proof (zlen_take n b) as Hz. rewrite He in Hz. unfold zlen in *; cbn in Hz. lia.
Qed.
Lemma read_monitor n b r q tc cs sa : 0 < n ≤ zlen b →
  Privsep.must_read PRIV_PRIVILEGED n (World (Datagram b r :: q) tc [] cs sa) =
  Done (take (Z.to_nat n) b) (World q tc [] cs sa).
Proof. intros Hn. by rewrite (must_read_quiet _ _ b r q). Qed.
Lemma read_child n b r q tm cs sa : 0 < n ≤ zlen b →
  Privsep.must_read PRIV_UNPRIVILEGED n (World tm (Datagram b r :: q) [] cs sa) =
  Done (take (Z.to_nat n) b) (World tm q [] cs sa).
Proof. intros Hn. by rewrite (must_read_quiet _ _ b r q). Qed.
Lemma read_int_monitor v r q tc cs sa : is_int v →
  Privsep.read_int PRIV_PRIVILEGED (World (Datagram (host_bytes 4 v) r :: q) tc [] cs sa) = Done v (World q tc [] cs sa).
Proof. intros Hv. by rewrite (read_int_quiet _ v r q). Qed.
Lemma read_int_child v r q tm cs sa : is_int v →
  Privsep.read_int PRIV_UNPRIVILEGED (World tm (Datagram (host_bytes 4 v) r :: q) [] cs sa) = Done v (World tm q [] cs sa).
Proof. intros Hv. by rewrite (read_int_quiet _ v r q). Qed.
Lemma receive_child fd tm q cs sa :
  Privsep.receive_fd PRIV_UNPRIVILEGED (World tm (Datagram (host_bytes 4 0) (Some fd) :: q) [] cs sa) =
  Done fd (World tm q [] cs sa).
Proof.
  unfold Privsep.receive_fd. cbn [next_event io received to_child data rights].
  rewrite host_bytes_zlen, host_int_bytes by (unfold is_int; lia). done.
Qed.
Lemma send_monitor fd err tm tc cs sa : 0 ≤ fd →
  Privsep.send_fd PRIV_PRIVILEGED fd err (World tm tc [] cs sa) =
  Done tt (World tm (tc ++ [Datagram (host_bytes 4 0) (Some fd)]) [] cs sa).
Proof. intros Hf. unfold Privsep.send_fd. by rewrite (proj2 (Z.leb_le 0 fd)). Qed.
(** A block that may be empty, written with [t] behind it. *)
Lemma read_block_monitor s t r q tc cs sa : 0 < zlen s < INT_MAX →
  Privsep.read_block PRIV_PRIVILEGED (zlen s) (World (Datagram (s ++ t) r :: q) tc [] cs sa) =
  Done s (World q tc [] cs sa).
Proof. intros Hs. by rewrite (read_block_quiet _ s t r q). Qed.
Lemma serve c q tc cs sa :
  priv_wait (World (Datagram (host_bytes 4 (cmd_value c)) None :: q) tc [] cs sa) = handler c (World q tc [] cs sa).
Proof. by rewrite (priv_wait_serves c q). Qed.

(** A block that may be empty: nothing is sent then, and nothing is read. *)
Definition block (s : list Z) : list datagram := match s with [] => [] | _ => [Datagram s None] end.
Lemma write_block s tm tc cs sa :
  Privsep.must_write PRIV_UNPRIVILEGED s (World tm tc [] cs sa) = Done tt (World (tm ++ block s) tc [] cs sa).
Proof. destruct s; [by cbn; rewrite app_nil_r|]. by rewrite write_child. Qed.
Lemma read_block_monitor' s tc cs sa : zlen s < INT_MAX →
  Privsep.read_block PRIV_PRIVILEGED (zlen s) (World (block s) tc [] cs sa) = Done s (World [] tc [] cs sa).
Proof.
  intros Hs. destruct s as [|x s]; [done|]. rewrite <- (app_nil_r (x :: s)) at 2.
  apply read_block_monitor. rewrite zlen_cons in *. pose proof (zlen_nonneg s). lia.
Qed.

Lemma snoc_nonempty (s : list Z) x : s ++ [x] ≠ [].
Proof. by destruct s. Qed.
Lemma perform_step c tm tc i cs sa :
  perform c (World tm tc i cs sa) = Done (answers cs c) (World tm tc i (cs ++ [c]) sa).
Proof. done. Qed.

Lemma ret_step {A} (a : A) w : (mret a : prog A) w = Done a w.
Proof. done. Qed.

Ltac chan_side :=
  first [ apply host_bytes_nonempty | apply snoc_nonempty
        | rewrite ?host_bytes_zlen; unfold is_int, INT_MAX, strlen, SIZEOF_SOCKADDR_UN, ETHER_ADDR_LEN, IFNAMSIZ in *;
          rewrite ?zlen_take by lia; try (rewrite zlen_app; zlen_lia); lia | done ].
(** Run the steps of the left-hand side that only move messages. *)
Ltac chan :=
  repeat first
    [ rewrite bind_assoc
    | erewrite bind_done by (apply write_child; chan_side)
    | erewrite bind_done by (apply write_monitor; chan_side)
    | erewrite bind_done by (apply write_child_from; chan_side)
    | erewrite bind_done by (apply write_block)
    | erewrite bind_done by (apply read_block_monitor; chan_side)
    | erewrite bind_done by (apply read_block_monitor'; chan_side)
    | erewrite bind_done by (apply read_int_monitor; chan_side)
    | erewrite bind_done by (apply read_int_child; chan_side)
    | erewrite bind_done by (apply read_monitor; chan_side)
    | erewrite bind_done by (apply read_child; chan_side)
    | erewrite bind_done by (apply receive_child)
    | erewrite bind_done by (apply send_monitor; chan_side)
    | lazymatch goal with
      | |- (perform _ ≫= _) _ = _ => erewrite bind_done by (apply perform_step)
      | |- (mret _ ≫= _) _ = _ => erewrite bind_done by (apply ret_step)
      end
    | erewrite bind_eq by (apply serve)
    | progress cbn [app handler] ].
(** Reach the operation of the system on both sides; what it returns is known. *)
Ltac operate Hy :=
  apply bind_local; [apply _|done|]; let Hd := fresh "Hd" in
  intros ?a [] Hd (?Hm & ?Hc & ?Hi); cbn in *; subst; apply Hy in Hd; cbn in Hd.
Ltac answer := unfold Privsep.write_int, when, closing; chan.

Lemma ping_transparent cs sa : proxy Ping (World [] [] [] cs sa) = direct Ping (World [] [] [] cs sa).
Proof. unfold proxy, priv_ping, write_cmd. by chan. Qed.

Lemma cstr_idem l : cstr (cstr l) = cstr l.
Proof. apply cstr_no_nul, cstr_is_no_nul. Qed.

Lemma cleanup_transparent n cs sa : strlen n < INT_MAX →
  proxy (CtlCleanup n) (World [] [] [] cs sa) = direct (CtlCleanup n) (World [] [] [] cs sa).
Proof.
  intros Hn. pose proof (zlen_nonneg (cstr n)).
  unfold proxy, priv_ctl_cleanup, write_cmd, Privsep.write_int. chan.
  unfold asroot_ctl_cleanup. chan. unfold direct. rewrite cstr_idem.
  apply bind_local; [apply _|done|]. intros [] [] _ (Hm & Hc & Hi). cbn in Hm, Hc, Hi. subst.
  unfold Privsep.write_int. by chan.
Qed.

Ltac start :=
  intros; unfold proxy, number, write_cmd, Privsep.write_int,
    priv_gethostbyname, priv_iface_init, priv_iface_multicast, priv_iface_description,
    priv_iface_promisc, priv_snmp_socket, priv_open, priv_ethtool; chan;
  unfold asroot_gethostbyname, asroot_iface_init, asroot_iface_multicast, asroot_iface_description,
    asroot_iface_promisc, asroot_snmp_socket, asroot_open, asroot_ethtool; chan;
  unfold direct, number, strlen; rewrite ?cstr_idem.

Abbreviation start_world := (λ cs sa, World [] [] [] cs sa).

Lemma hostname_transparent cs sa :
  proxy GetHostname (start_world cs sa) = direct GetHostname (start_world cs sa).
Proof.
  start. operate gethostname_os_yields. pose proof (zlen_nonneg a). answer.
  unfold INT_MAX in *. rewrite (proj2 (Z.eqb_neq (zlen a) _)), (proj2 (Z.eqb_neq _ (-1))) by lia.
  cbn [orb]. rewrite (proj2 (Z.ltb_ge _ _)) by lia.
  erewrite bind_done by (apply read_child; rewrite zlen_app; unfold zlen in *; cbn; lia).
  rewrite take_ge; [done|]. rewrite length_app. unfold zlen; cbn; lia.
Qed.

Lemma ifname_take n : ifname (take (Z.to_nat IFNAMSIZ) (take (Z.to_nat IFNAMSIZ) n)) = ifname n.
Proof. unfold ifname. by rewrite !take_take. Qed.

Lemma iface_init_transparent j i n cs sa : is_int i → zlen j = 16 →
  proxy (IfaceInit j i n) (start_world cs sa) = direct (IfaceInit j i n) (start_world cs sa).
Proof.
  start.
  set (dev := (take _ (cstr n) ++ [0]) ++ _).
  assert (16 ≤ zlen dev) as Hdev.
  { unfold dev, zlen in *. rewrite !length_app, length_drop, ?length_app. cbn [length]. lia. }
  chan. unfold asroot_iface_init. chan.
  change (asroot_iface_init_os i (ifname n)) with (asroot_iface_init_os i (ifname (take (Z.to_nat IFNAMSIZ) (take (Z.to_nat IFNAMSIZ) dev)))).
  operate iface_init_os_yields. destruct a as [rc fd]. destruct Hd as (Hrc & Hfd & Hok). cbn in *.
  destruct (Z.eqb_spec rc 0) as [->|Hr].
  - specialize (Hok eq_refl). answer. rewrite (proj2 (Z.leb_le 0 fd) Hok). cbn [andb]. chan. cbn [Z.eqb negb]. by chan.
  - answer. cbn [andb]. destruct (0 <=? fd); chan; rewrite (proj2 (Z.eqb_neq rc 0) Hr); done.
Qed.

Lemma multicast_transparent n m a cs sa : 16 ≤ zlen n → 6 ≤ zlen m → is_int a →
  proxy (Multicast n m a) (start_world cs sa) = direct (Multicast n m a) (start_world cs sa).
Proof.
  start. rewrite !take_take. operate multicast_os_yields. by answer.
Qed.

Lemma description_transparent n d cs sa : 16 ≤ zlen n → strlen d < INT_MAX →
  proxy (Description n d) (start_world cs sa) = direct (Description n d) (start_world cs sa).
Proof.
  pose proof (zlen_nonneg (cstr d)). start. rewrite ifname_take. operate description_os_yields. by answer.
Qed.

Lemma promisc_transparent n cs sa : 16 ≤ zlen n →
  proxy (Promisc n) (start_world cs sa) = direct (Promisc n) (start_world cs sa).
Proof. start. rewrite ifname_take. operate promisc_os_yields. by answer. Qed.

Lemma snmp_transparent n cs sa : 110 ≤ zlen n →
  proxy (SnmpSocket n) (start_world cs sa) = direct (SnmpSocket n) (start_world cs sa).
Proof.
  start. rewrite take_take. apply bind_local; [apply _|done|]. intros a [] _ (Hm & Hc & Hi). cbn in Hm, Hc, Hi. subst. chan. operate snmp_connect_yields. destruct a0 as [rc|fd]; answer; [|done].
  by rewrite (proj2 (Z.ltb_lt rc 0)) by lia.
Qed.

Lemma open_transparent n cs sa : 0 < strlen n < INT_MAX →
  proxy (OpenFile n) (start_world cs sa) = direct (OpenFile n) (start_world cs sa).
Proof.
  start. operate open_os_yields. answer. unfold when. destruct (Z.eqb_spec a (-1)) as [->|Ha]; cbn [negb].
  - by chan.
  - rewrite (proj2 (Z.leb_le 0 a)) by lia. chan. rewrite (proj2 (Z.eqb_neq a (-1)) Ha). by chan.
Qed.

Lemma ethtool_transparent n cs sa : 0 < strlen n < INT_MAX →
  proxy (Ethtool n) (start_world cs sa) = direct (Ethtool n) (start_world cs sa).
Proof.
  start. operate ethtool_os_yields. destruct a as [rc|e]; answer.
  - destruct Hd as [? Hne]. by rewrite (proj2 (Z.eqb_neq rc 0) Hne).
  - unfold SIZEOF_ETHTOOL_CMD in *.
    erewrite bind_done by (apply write_monitor; intros ->; unfold zlen in Hd; cbn in Hd; lia). chan. cbn [Z.eqb negb]. chan.
    rewrite take_ge; [done|]. unfold zlen in Hd. lia.
Qed.

Lemma request_transparent r w : request_ok r → quiet w → proxy r w = direct r w.
Proof.
  destruct w as [tm tc i cs sa]. intros Hr (Hm & Hc & Hi). cbn in Hm, Hc, Hi. subst.
  destruct r; cbn in Hr.
  - apply ping_transparent.
  - by apply cleanup_transparent.
  - apply hostname_transparent.
  - destruct Hr. by apply iface_init_transparent.
  - destruct Hr as (? & ? & ?). by apply multicast_transparent.
  - destruct Hr. by apply description_transparent.
  - by apply promisc_transparent.
  - by apply snmp_transparent.
  - by apply open_transparent.
  - by apply ethtool_transparent.
Qed.

#[global] Instance local_direct r : Local (direct r).
Proof.
  destruct r; unfold direct, number, closing; try apply _.
  apply local_bind; [apply _|]. intros a. apply local_bind; [apply _|]. intros []; apply _.
Qed.

(** A sequence of calls, with the values they return. *)
Fixpoint session (step : request → prog (Z * list Z)) (rs : list request) : prog (list (Z * list Z)) :=
  match rs with
  | [] => mret []
  | r :: rs => x ← step r; xs ← session step rs; mret (x :: xs)
  end.

(** C24: a sequence of calls of the proxies of the unprivileged process does the same privileged
    operations, in the same order, and returns the same values as the operations done directly:
    requests and answers are encoded, dispatched and decoded right, descriptors reach the caller, and
    nothing is left in the channel between two requests.  This is so when the channel is empty at the
    start and no call on it is interrupted or fails ([quiet]: a descriptor whose message is interrupted
    is lost), when the arrays are as long as the code reads them and the names of the files to open
    and of the devices to query are not empty ([request_ok]: an empty one leaves its NUL in the
    channel), and when the calls of the system return as documented ([OsLaws]). *)
Theorem priv_channel_transparent rs w :
  Forall request_ok rs → quiet w → session proxy rs w = session direct rs w.
Proof.
  intros Hrs. revert w. induction Hrs as [|r rs Hr Hrs IH]; intros w Hw; [done|].
  cbn [session]. rewrite (bind_eq (proxy r) (direct r) _ w w) by (by apply request_transparent).
  apply bind_local; [apply _|done|]. intros x w' _ Hw'.
  apply bind_eq. by apply IH.
Qed.

End Transparent.
