(* ===== verification/MonitorSafe.v ===== *)
(** * Privilege separation: what the monitor can be made to do

    The messages of the unprivileged process may be anything.  [permitted] lists what the
    monitor does with privileges whatever it receives; the invariant [safe] carries it
    through [priv_loop].  The file also shows that the loops of the channel and the loop of
    the monitor end. *)

From S2P Require Import Prelude Bytes Text Marshal Ctl Regex Privsep Monitor.
From stdpp Require Import strings.
#[local] Open Scope Z_scope.

(** ** Permitted operations *)

Definition terminated (name : list Z) : Prop := ∃ s, name = s ++ [0].

Section Permitted.
Context `{BuildConfig} `{OperatingSystem}.

(** An address of the UNIX domain, with its terminator. *)
Definition unix_address (a : list Z) : Prop :=
  zlen a = SIZEOF_SOCKADDR_UN ∧ host_value (take 2 a) = AF_UNIX_VALUE ∧ terminated a.

(** The flags [new] are [old] with one more bit set, and nothing else. *)
Definition adds_bit (i old new : Z) : Prop :=
  ∀ j, 0 ≤ j → Z.testbit new j = if j =? i then true else Z.testbit old j.

(** The line that was read from the file, as a string. *)
Definition line_read (before : list syscall) : list Z :=
  cstr (take (Z.to_nat (IFALIASZ - 1)) (out (answers before Fgets))).

(** The text that may be written in the file opened by the call before, or by the one before
    the line was read: the description that was asked for, cut to the size of the array; or,
    without one, that there is no neighbor, or the former description marked as such. *)
Definition alias_form (before : list syscall) (text : list Z) : Prop :=
  (∃ pre path d, before = pre ++ [Fopen path] ∧ d ≠ [] ∧ text = take 255 (chars "lldpd: connected to " ++ d)) ∨
  ∃ pre path, before = (pre ++ [Fopen path]) ++ [Fgets] ∧
    if ret (answers (pre ++ [Fopen path]) Fgets) =? -1 then text = chars "lldpd: connected to " else
    (¬ chars "lldpd: " `prefix_of` line_read (pre ++ [Fopen path]) ∧ text = chars "lldpd: no neighbor") ∨
    ∃ d, line_read (pre ++ [Fopen path]) = chars "lldpd: " ++ d ∧ ¬ chars "was " `prefix_of` d ∧
      text = chars "lldpd: was " ++ d.

(** What may be done after the calls [before].  Files are opened when a part of the path is
    one of the authorized expressions; only descriptions of interfaces are written; a socket
    is connected to one address, the first that was asked for; flags are those the call
    before returned, with one bit added.  Any file may be unlinked, and any name looked up. *)
Definition permitted (before : list syscall) (addr : option (list Z)) (c : syscall) : Prop :=
  match c with
  | Open path => ∃ p r pre m post,
      p ∈ authorized ∧ regcomp p = Some r ∧ path = pre ++ m ++ post ∧ lang r m
  | Fopen path => ∃ name,
      path = SYSFS_CLASS_NET ++ name ++ chars "/ifalias" ∧ no_nul name ∧
      0 < zlen name < IFNAMSIZ ∧ head name ≠ Some 46
  | Fputs text => zlen text < IFALIASZ ∧ alias_form before text
  | Connect _ a => addr = Some a ∧ unix_address a
  | Ioctl_multicast _ _ name mac => zlen name = IFNAMSIZ ∧ zlen mac = ETHER_ADDR_LEN
  | Ioctl_ethtool _ name | Ioctl_getflags _ name => zlen name = IFNAMSIZ ∧ terminated name
  | Ioctl_setflags fd name flags => ∃ pre,
      before = pre ++ [Ioctl_getflags fd name] ∧ zlen name = IFNAMSIZ ∧ terminated name ∧
      adds_bit 8 (host_value (take 2 (out (answers pre (Ioctl_getflags fd name))))) flags
  | Setfl fd flags => ∃ pre, before = pre ++ [Getfl fd] ∧ adds_bit 11 (ret (answers pre (Getfl fd))) flags
  | Unlink path => no_nul path
  | _ => True
  end.

Definition permitted_calls (w : world) : Prop :=
  ∀ before c after, calls w = before ++ c :: after → permitted before (snmp_addr w) c.
Definition safe (w : world) : Prop :=
  permitted_calls w ∧ (∀ a, snmp_addr w = Some a → unix_address a).
End Permitted.

(** ** Triples *)

Section Safe.
Context `{BuildConfig} `{OperatingSystem}.

(** From a safe world and [P], the program ends in a safe world with [Q]; wherever it
    stops, it did nothing that is not permitted; only two things are undefined. *)
Definition triple {A} (P : world → Prop) (p : prog A) (Q : A → world → Prop) : Prop :=
  ∀ w, safe w → P w →
  match p w with
  | Done a w' => safe w' ∧ Q a w'
  | Blocked w' | Exited w' | Fatal w' => permitted_calls w'
  | Fault f => f = BadLength ∨ f = LongAlias
  | NoFuel => True
  end.
Abbreviation keeps p Q := (triple (λ _, True) p (λ a _, Q a)).

Lemma triple_bind {A B} P (Q : A → world → Prop) (R : B → world → Prop) (m : prog A) (f : A → prog B) :
  triple P m Q → (∀ a, triple (Q a) (f a) R) → triple P (m ≫= f) R.
Proof.
  intros Hm Hf w Hw HP. unfold mbind, prog_bind. specialize (Hm w Hw HP).
  destruct (m w) as [a w'| | | | |]; try done. destruct Hm as [Hw' HQ]. by apply Hf.
Qed.
Lemma secure_bind {A B} (Q : A → Prop) (R : B → Prop) (m : prog A) (f : A → prog B) :
  keeps m Q → (∀ a, Q a → keeps (f a) R) → keeps (m ≫= f) R.
Proof. intros Hm Hf. eapply triple_bind; [apply Hm|]. intros a w Hw HQ. by apply Hf. Qed.
Lemma secure_ret {A} (Q : A → Prop) a : Q a → keeps (mret a) Q.
Proof. by intros Ha w Hw _. Qed.
Lemma keeps_fatal {A} (Q : A → Prop) : keeps fatal Q.
Proof. intros w [Hw _] _. done. Qed.
Lemma keeps_bad_length {A} (Q : A → Prop) : keeps (undefined BadLength) Q.
Proof. intros w Hw _. by left. Qed.
Lemma keeps_weaken {A} (Q R : A → Prop) p : keeps p Q → (∀ a, Q a → R a) → keeps p R.
Proof.
  intros Hp Hi w Hw HP. specialize (Hp w Hw HP). destruct (p w); try done. destruct Hp; auto.
Qed.

Lemma perform_safe c w :
  safe w → permitted (calls w) (snmp_addr w) c → safe (w <| calls ::= (λ l, l ++ [c]) |>).
Proof.
  intros [Hc Ha] Hp. split; [|done]. intros before c' after. cbn.
  destruct after as [|a after _] using rev_ind.
  - intros [<- [= <-]]%app_inj_tail. done.
  - rewrite app_comm_cons, app_assoc. intros [He [= ->]]%app_inj_tail. by eapply Hc.
Qed.

(** The last call that was made, and its answer. *)
Definition last_call (c : syscall) (r : reply) (w : world) : Prop :=
  ∃ before, calls w = before ++ [c] ∧ r = answers before c.

Lemma triple_call {B} P c (f : reply → prog B) R :
  (∀ w, P w → permitted (calls w) (snmp_addr w) c) → (∀ r, triple (last_call c r) (f r) R) →
  triple P (perform c ≫= f) R.
Proof.
  intros Hc Hf. apply (triple_bind _ (λ r, last_call c r)); [|done].
  intros w Hw HP. split; [by apply perform_safe, Hc|]. by exists (calls w).
Qed.
Lemma triple_any {A} P (p : prog A) : keeps p (λ _, True) → triple P p (λ _ _, True).
Proof. intros Hp w Hw _. by apply Hp. Qed.

Lemma keeps_perform {B} c (f : reply → prog B) (R : B → Prop) :
  (∀ l a, permitted l a c) → (∀ r, keeps (f r) R) → keeps (perform c ≫= f) R.
Proof.
  intros Hc Hf. apply (secure_bind (λ _, True)); [|by intros r _].
  intros w Hw _. split; [|done]. by apply perform_safe.
Qed.

(** ** The channel *)

(** The channel changes neither what was done nor the address. *)
Definition same_log (w w' : world) : Prop := calls w' = calls w ∧ snmp_addr w' = snmp_addr w.
Lemma same_log_safe w w' : same_log w w' → safe w → safe w'.
Proof. unfold safe, permitted_calls. by intros [-> ->]. Qed.

Lemma same_log_trans u v w : same_log u v → same_log v w → same_log u w.
Proof. intros [Hc Ha] [Hc' Ha']. split; congruence. Qed.

Definition read_result (n : Z) (w : world) (o : outcome (option (list Z))) : Prop :=
  match o with
  | Done (Some b) w' => same_log w w' ∧ zlen b = n
  | Done None w' | Blocked w' | Exited w' | Fatal w' => same_log w w'
  | Fault _ => False
  | NoFuel => True
  end.
Lemma read_result_trans n u v o : same_log u v → read_result n v o → read_result n u o.
Proof.
  intros Hs. destruct o as [[]| | | | |]; cbn; try done; try (by apply same_log_trans).
  intros [Hv Hl]. split; [by eapply same_log_trans|done].
Qed.

Lemma read_loop_same fuel ctx failed n : ∀ pos w,
  (∀ v, failed v = Exited v ∨ failed v = Done None v) → zlen pos ≤ n →
  read_result n w (read_loop fuel ctx failed n pos w).
Proof.
  induction fuel as [|fuel IH]; intros pos w Hf Hp; cbn [read_loop];
    (destruct (Z.leb_spec n (zlen pos)); [by split; [split|lia]|]); [done|].
  assert (∀ v, same_log w v → read_result n w (failed v)) as Hfail.
  { intros v Hv. by destruct (Hf v) as [->| ->]. }
  destruct (next_event w) as [e v] eqn:Ee.
  assert (same_log w v) as Hv.
  { unfold next_event in Ee. destruct (io w); inversion Ee; by subst. }
  destruct e; [|eapply read_result_trans; [done|by apply IH]|by apply Hfail].
  destruct (received ctx v) as [|d q]; [done|].
  assert (same_log w (set_received ctx q v)) as Hq by (by destruct ctx).
  case_if; [by apply Hfail|]. eapply read_result_trans; [done|]. apply IH; [done|].
  rewrite zlen_app. unfold zlen in *. rewrite length_take. lia.
Qed.

Lemma keeps_must_read n : 0 ≤ n → keeps (must_read PRIV_PRIVILEGED n) (λ b, zlen b = n).
Proof.
  intros Hn w Hw _. unfold must_read, mbind, prog_bind.
  pose proof (read_loop_same (read_fuel n w) PRIV_PRIVILEGED _exit n [] w (λ v, or_introl eq_refl) Hn) as Hr.
  destruct (read_loop _ _ _ _ _ _) as [[b|] w'|w'|w'|w'|f|]; cbn; try (by eapply same_log_safe); try done.
  destruct Hr as [Hs Hl]. split; [by eapply same_log_safe|done].
Qed.

Lemma keeps_read_int : keeps (read_int PRIV_PRIVILEGED) (λ _, True).
Proof. eapply secure_bind; [apply keeps_must_read; lia|]. intros b _. by apply secure_ret. Qed.
Lemma keeps_read_block n : keeps (read_block PRIV_PRIVILEGED n) (λ _, True).
Proof.
  unfold read_block. repeat (case_if; [apply keeps_bad_length || apply keeps_fatal|]).
  eapply keeps_weaken; [apply keeps_must_read; lia|done].
Qed.

Lemma next_event_log w : same_log w (next_event w).2.
Proof. unfold next_event. by destruct (io w). Qed.
Lemma write_loop_same fuel ctx b : ∀ w,
  match write_loop fuel ctx b w with Done _ w' | Exited w' => same_log w w' | NoFuel => True | _ => False end.
Proof.
  induction fuel as [|fuel IH]; intros w; cbn; [done|]. pose proof (next_event_log w) as Hn.
  destruct (next_event w) as [[] v]; cbn in Hn; [by destruct ctx| |done].
  specialize (IH v). destruct (write_loop _ _ _ _); try done; by eapply same_log_trans.
Qed.
Lemma keeps_must_write b : keeps (must_write PRIV_PRIVILEGED b) (λ _, True).
Proof.
  intros w Hw _. unfold must_write. case_if; [done|].
  pose proof (write_loop_same (S (interruptions w)) PRIV_PRIVILEGED b w) as Hs.
  destruct (write_loop _ _ _ _); try done; [split; [|done]|]; by eapply same_log_safe.
Qed.
Lemma keeps_write_int v : keeps (write_int PRIV_PRIVILEGED v) (λ _, True).
Proof. apply keeps_must_write. Qed.
Lemma keeps_send_fd fd err : keeps (send_fd PRIV_PRIVILEGED fd err) (λ _, True).
Proof.
  intros w Hw _. unfold send_fd, next_event. destruct (io w) as [|[] ?]; split; try done; by eapply same_log_safe.
Qed.
Lemma keeps_when b p : keeps p (λ _, True) → keeps (when b p) (λ _, True).
Proof. unfold when. case_if; [done|]. intros _. by apply secure_ret. Qed.

(** ** Operations *)

Lemma strlcpy_ifname_ok s : zlen (strlcpy_ifname s) = IFNAMSIZ ∧ terminated (strlcpy_ifname s).
Proof.
  unfold strlcpy_ifname, IFNAMSIZ. set (t := take _ _).
  assert (length t ≤ 15)%nat as Ht by (unfold t; rewrite length_take; lia).
  split; [unfold zlen; rewrite length_app, length_replicate; lia|].
  exists (t ++ replicate (15 - length t) 0).
  replace (Z.to_nat 16 - length t)%nat with (S (15 - length t)) by lia.
  rewrite replicate_S_end, app_assoc. done.
Qed.

Ltac keep :=
  repeat first
    [ apply keeps_perform; [try done|intros ?]
    | case_if
    | apply keeps_fatal
    | apply secure_ret; done ].

Lemma keeps_ctl_cleanup s : keeps (ctl_cleanup (cstr s)) (λ _, True).
Proof. unfold ctl_cleanup. keep. intros ? ?. apply cstr_is_no_nul. Qed.
Lemma keeps_gethostname_os : keeps gethostname_os (λ _, True).
Proof. unfold gethostname_os. keep. Qed.
Lemma keeps_iface_init_os i n : keeps (asroot_iface_init_os i n) (λ _, True).
Proof. unfold asroot_iface_init_os. keep. Qed.
Lemma keeps_multicast_os n m b :
  zlen n = IFNAMSIZ → zlen m = ETHER_ADDR_LEN → keeps (multicast_os n m b) (λ _, True).
Proof. intros. unfold multicast_os. keep. Qed.
Lemma keeps_ethtool_os n : keeps (ethtool_os n) (λ _, True).
Proof. unfold ethtool_os. keep. intros ? ?. apply strlcpy_ifname_ok. Qed.
Lemma lor_adds_bit i v : 0 ≤ i → adds_bit i v (Z.lor v (2 ^ i)).
Proof.
  intros Hi j Hj. rewrite Z.lor_spec, Z.pow2_bits_eqb, Z.eqb_sym by done.
  destruct (j =? i); by rewrite ?orb_true_r, ?orb_false_r.
Qed.
Lemma keeps_promisc_os n : keeps (asroot_iface_promisc_os n) (λ _, True).
Proof.
  destruct (strlcpy_ifname_ok n). unfold asroot_iface_promisc_os.
  apply keeps_perform; [done|]. intros s. case_if; [by apply secure_ret|].
  apply triple_call; [by intros w _|]. intros g. case_if; [apply triple_any; keep|].
  case_if; [apply triple_any; keep|]. apply triple_call; [|intros r; apply triple_any; keep].
  intros w (before & Hw & ->). exists before. split_and!; try done. by apply (lor_adds_bit 8).
Qed.

Lemma authorized_loop_true ps f :
  authorized_loop ps f = Some true → ∃ p r pre m post,
    p ∈ ps ∧ regcomp p = Some r ∧ f = pre ++ m ++ post ∧ lang r m.
Proof.
  induction ps as [|p ps IH]; cbn; [done|]. destruct (regcomp p) as [r|] eqn:Er; cbn; [|done].
  case_if.
  - intros _. apply regexec_spec in Heqb as (pre & m & post & Hf & Hm).
    exists p, r, pre, m, post. split; [by left|done].
  - intros Hl. destruct (IH Hl) as (p' & r' & pre & m & post & Hp & Hrest).
    exists p', r', pre, m, post. split; [by right|done].
Qed.
Lemma keeps_open_os f : keeps (open_os f) (λ _, True).
Proof.
  unfold open_os. destruct (authorized_loop _ _) as [[]|] eqn:E; keep.
  intros ? ?. by apply authorized_loop_true.
Qed.

(** ** Descriptions *)

(** The calls of the description so far: the file was opened and, without a description, a
    line was read. *)
Definition alias_open (d : list Z) (line : option (list Z)) (w : world) : Prop :=
  ∃ pre path,
  if zlen d =? 0
  then calls w = (pre ++ [Fopen path]) ++ [Fgets] ∧
       line = if ret (answers (pre ++ [Fopen path]) Fgets) =? -1 then None else Some (line_read (pre ++ [Fopen path]))
  else calls w = pre ++ [Fopen path].

Lemma has_prefix_split p s : has_prefix p s = true ↔ p `prefix_of` s.
Proof.
  split; [|intros [k ->]; apply has_prefix_app].
  unfold has_prefix. revert s. induction p as [|b p IH]; intros s; [by exists s|].
  destruct s as [|c s]; cbn; [done|]. intros [Hb Hs]%andb_true_iff. bool_to_prop. subst.
  by apply prefix_cons, IH.
Qed.

Lemma triple_alias_text d l :
  triple (alias_open d l) (alias_text d l)
    (λ t w, ∀ text, t = Some text → permitted (calls w) (snmp_addr w) (Fputs text)).
Proof.
  intros w Hw (pre & path & Ho). unfold alias_text. destruct (Z.eqb_spec (zlen d) 0) as [Hd|Hd].
  - destruct Ho as [Hc ->]. destruct (ret _ =? -1) eqn:Er.
    + split; [done|]. intros text <-%(inj Some). destruct d as [|x d]; [|rewrite zlen_cons in Hd; pose proof (zlen_nonneg d); lia].
      split; [done|]. right. exists pre, path. by rewrite Er.
    + set (line := line_read _). destruct (has_prefix (chars "lldpd: ") line) eqn:Ep.
      * apply has_prefix_split in Ep as [k Hk]. rewrite Hk, drop_app_length' by done.
        destruct (has_prefix (chars "was ") k) eqn:Ew; [by split|].
        destruct (Z.leb_spec (IFALIASZ - 4) (zlen (chars "lldpd: " ++ k))) as [Hl|Hl]; [by right|].
        split; [done|]. intros text <-%(inj Some). rewrite zlen_app in Hl.
        split; [rewrite zlen_app; unfold zlen, IFALIASZ in *; cbn in Hl |- *; lia|].
        right. exists pre, path. split; [done|]. rewrite Er. right. exists k. split_and!; try done.
        by intros H1%has_prefix_split%(eq_trans (eq_sym Ew)).
      * split; [done|]. intros text <-%(inj Some). split; [done|]. right. exists pre, path. split; [done|]. rewrite Er.
        left. split; [|done]. by intros H1%has_prefix_split%(eq_trans (eq_sym Ep)).
  - split; [done|]. intros text <-%(inj Some). split; [unfold zlen, IFALIASZ; rewrite length_take; lia|].
    left. exists pre, path, d. split_and!; try done. by intros ->.
Qed.

Lemma triple_read_line path r d : zlen d = 0 → triple (last_call (Fopen path) r) read_line (λ l, alias_open d l).
Proof.
  intros Hd w Hw (pre & Hc & _). cbn. split; [by apply perform_safe|].
  exists pre, path. rewrite Hd. cbn. by rewrite Hc.
Qed.

(** A name that was cut to the size of an array and does not start with a dot. *)
Lemma keeps_description_os n d : no_nul n → zlen n < IFNAMSIZ → keeps (asroot_iface_description_os n d) (λ _, True).
Proof.
  intros Hn Hl. unfold asroot_iface_description_os. destruct n as [|c n]; [by apply secure_ret|].
  assert (c ≠ 46 → keeps (f ← perform (Fopen (SYSFS_CLASS_NET ++ (c :: n) ++ chars "/ifalias"));
      if ret f =? -1 then mret (errno f) else
      line ← (if zlen d =? 0 then read_line else mret None);
      text ← alias_text d line;
      match text with
      | None => _ ← perform Fclose; mret 0
      | Some descr => p ← perform (Fputs descr); _ ← perform Fclose; mret (if ret p =? -1 then -1 else 0)
      end) (λ _, True)) as Hb.
  { intros Hc. apply triple_call.
    - intros w _. exists (c :: n). split; [done|]. split; [done|]. split; [|cbn; congruence].
      split; [rewrite zlen_cons; pose proof (zlen_nonneg n); lia|done].
    - intros r. case_if; [by apply triple_any, secure_ret|].
      apply (triple_bind _ (λ l, alias_open d l)).
      { destruct (Z.eqb_spec (zlen d) 0) as [Hd|Hd]; [by apply (triple_read_line _ r)|].
        intros w Hw (pre & Hp & _). split; [done|]. exists pre. eexists. by rewrite (proj2 (Z.eqb_neq _ _) Hd). }
      intros line. eapply triple_bind; [apply triple_alias_text|]. intros [t|]; [|apply triple_any; keep].
      apply triple_call; [intros w Ht; by apply Ht|]. intros p. apply triple_any. keep. }
  destruct (decide (c = 46)) as [->|Hc]; [by apply secure_ret|]. specialize (Hb Hc).
  destruct c as [|p|]; try apply Hb. repeat (destruct p as [p|p|]; try apply Hb). done.
Qed.

Lemma ifname_ok name : no_nul (ifname name) ∧ zlen (ifname name) < IFNAMSIZ.
Proof.
  unfold ifname. split; [apply cstr_is_no_nul|].
  unfold cstr, zlen, IFNAMSIZ.
  match goal with |- context [take_while ?f ?l] => pose proof (take_while_length f l) as Hl end.
  rewrite length_take in Hl. lia.
Qed.

(** The address: the first one that is asked for, or nothing. *)
Lemma remember_addr_triple a :
  zlen a = SIZEOF_SOCKADDR_UN →
  triple (λ _, True) (remember_addr a) (λ b w, snmp_addr w = Some b ∧ unix_address b).
Proof.
  intros Ha w [Hc Hu] _. unfold remember_addr.
  destruct (snmp_addr w) as [b|] eqn:Eb; cbn [from_option id].
  - destruct (Hu b eq_refl) as (Hl & Hf & s & Hs). rewrite Hf, Z.eqb_refl.
    assert (take (Z.to_nat (SIZEOF_SOCKADDR_UN - 1)) b ++ [0] = b) as Heq.
    { subst b. unfold SIZEOF_SOCKADDR_UN in *. rewrite take_app_length'; [done|].
      rewrite zlen_app in Hl. unfold zlen in Hl. cbn in Hl. lia. }
    rewrite Heq. assert (permitted_calls (w <| snmp_addr := Some b |>)) as Hc'.
    { intros before c after He. rewrite <- Eb. by eapply Hc. }
    split; [split; [exact Hc'|]|split; [done|by split; [|split; [|exists s]]]].
    intros b' [= <-]. by split; [|split; [|exists s]].
  - assert (∀ x, permitted_calls (w <| snmp_addr := Some x |>)) as Hc'.
    { intros x before c after He. specialize (Hc _ _ _ He). rewrite Eb in Hc. destruct c; try done. by destruct Hc. }
    destruct (host_value (take 2 a) =? AF_UNIX_VALUE) eqn:Ef; [|apply Hc']. bool_to_prop.
    set (b := take _ a ++ [0]).
    assert (unix_address b) as Hb.
    { unfold unix_address, b, SIZEOF_SOCKADDR_UN in *. split; [|split; [|by eexists]].
      - rewrite zlen_app, zlen_take by lia. done.
      - rewrite take_app_le by (rewrite length_take; unfold zlen in Ha; lia). rewrite take_take. done. }
    split; [split; [apply Hc'|by intros ? [= <-]]|done].
Qed.

Definition has_addr (a : list Z) (w : world) : Prop := snmp_addr w = Some a ∧ unix_address a.
Lemma triple_perform {B} a c (f : reply → prog B) R :
  (∀ l, permitted l (Some a) c) → (∀ r, triple (has_addr a) (f r) R) → triple (has_addr a) (perform c ≫= f) R.
Proof.
  intros Hc Hf. apply (triple_bind _ (λ _, has_addr a)); [|done].
  intros w Hw [Ha Hu]. split; [|done]. apply perform_safe; [done|]. by rewrite Ha.
Qed.

Lemma snmp_connect_keeps a : triple (has_addr a) (snmp_connect a) (λ _ _, True).
Proof.
  intros w Hw Ha. pose proof (proj2 Ha) as Hu. revert w Hw Ha. change (triple (has_addr a) (snmp_connect a) (λ _ _, True)).
  unfold snmp_connect.
  apply triple_perform; [done|]. intros s. case_if; [by apply triple_any, secure_ret|].
  apply triple_perform; [done|]. intros c. case_if; [apply triple_any; keep|].
  apply triple_call; [done|]. intros g. case_if; [apply triple_any; keep|].
  apply triple_call; [|intros t; apply triple_any; keep].
  intros w (before & Hw & ->). exists before. split; [done|]. by apply (lor_adds_bit 11).
Qed.

(** ** Requests *)

Ltac serve_one :=
  lazymatch goal with
  | |- triple _ (read_int _) _ => apply keeps_read_int
  | |- triple _ (read_block _ _) _ => apply keeps_read_block
  | |- triple _ (must_read _ _) _ => apply keeps_must_read; done
  | |- triple _ (write_int _ _) _ => apply keeps_write_int
  | |- triple _ (must_write _ _) _ => apply keeps_must_write
  | |- triple _ (send_fd _ _ _) _ => apply keeps_send_fd
  | |- triple _ (ctl_cleanup _) _ => apply keeps_ctl_cleanup
  | |- triple _ gethostname_os _ => apply keeps_gethostname_os
  | |- triple _ (asroot_iface_init_os _ _) _ => apply keeps_iface_init_os
  | |- triple _ (ethtool_os _) _ => apply keeps_ethtool_os
  | |- triple _ (asroot_iface_promisc_os _) _ => apply keeps_promisc_os
  | |- triple _ (open_os _) _ => apply keeps_open_os
  | |- triple _ (multicast_os _ _ _) _ => apply keeps_multicast_os; assumption
  | |- triple _ (asroot_iface_description_os _ _) _ => apply keeps_description_os; apply ifname_ok
  end.
Ltac serve :=
  repeat lazymatch goal with
  | |- triple _ (mret _) _ => apply secure_ret; done
  | |- triple _ (when _ _) _ => apply keeps_when
  | |- triple _ (perform _ ≫= _) _ => apply keeps_perform; [done|intros ?]
  | |- triple _ (when _ _ ≫= _) _ => apply (secure_bind (λ _, True)); [|intros ? ?]
  | |- triple _ (_ ≫= _) _ => eapply secure_bind; [serve_one|intros ? ?]
  | |- _ => serve_one
  end.

Lemma asroot_snmp_socket_safe : keeps asroot_snmp_socket (λ _, True).
Proof.
  unfold asroot_snmp_socket. eapply secure_bind; [by apply keeps_must_read|]. intros b Hb.
  eapply triple_bind; [by apply remember_addr_triple|]. intros a.
  eapply triple_bind; [apply snmp_connect_keeps|]. intros []; apply triple_any; serve.
Qed.

Lemma actions_safe cmd : keeps (dispatch actions cmd) (λ _, True).
Proof.
  unfold dispatch, actions. repeat case_if; try apply keeps_fatal.
  - unfold asroot_ping. serve.
  - unfold asroot_ctl_cleanup. serve.
  - unfold asroot_gethostbyname. serve.
  - unfold asroot_open. serve.
  - unfold asroot_ethtool. serve. destruct a1; serve.
  - unfold asroot_iface_init. serve. destruct a1. serve.
  - unfold asroot_iface_multicast. serve.
  - unfold asroot_iface_description. serve.
  - unfold asroot_iface_promisc. serve.
  - apply asroot_snmp_socket_safe.
Qed.

Lemma keeps_may_read n : 0 ≤ n → keeps (may_read PRIV_PRIVILEGED n) (λ _, True).
Proof.
  intros Hn w Hw _. unfold may_read.
  pose proof (read_loop_same (read_fuel n w) PRIV_PRIVILEGED (mret (M := prog) None) n [] w (λ v, or_intror eq_refl) Hn) as Hr.
  destruct (read_loop _ _ _ _ _ _) as [[b|] w'|w'|w'|w'|f|]; cbn in Hr |- *; try done;
    try (split; [|done]); eapply same_log_safe; eauto; apply Hr.
Qed.

Lemma priv_loop_keeps fuel once : keeps (priv_loop fuel once) (λ _, True).
Proof.
  induction fuel as [|fuel IH]; [by intros w _ _|]. cbn [priv_loop].
  eapply secure_bind; [by apply keeps_may_read|]. intros [cmd|] _; [|by apply secure_ret].
  eapply secure_bind; [apply actions_safe|]. intros _ _. by destruct once; [apply secure_ret|].
Qed.

(** The world where a program stopped. *)
Definition stopped {A} (o : outcome A) : option world :=
  match o with Done _ w | Blocked w | Exited w | Fatal w => Some w | Fault _ | NoFuel => None end.

End Safe.

(** ** The loops end *)

Section Ends.
Context `{BuildConfig} `{OperatingSystem}.

Definition pending (w : world) : nat := length (to_monitor w).
Class Ends {A} (p : prog A) : Prop := ends_ : ∀ w,
  match p w with Done _ w' => (pending w' ≤ pending w)%nat | NoFuel => False | _ => True end.

#[global] Instance ends_ret {A} (a : A) : Ends (mret a).
Proof. intros w. cbn. lia. Qed.
#[global] Instance ends_bind {A B} (m : prog A) (f : A → prog B) : Ends m → (∀ a, Ends (f a)) → Ends (m ≫= f).
Proof.
  intros Hm Hf w. unfold mbind, prog_bind. specialize (Hm w). destruct (m w) as [a w'| | | | |]; try done.
  specialize (Hf a w'). destruct (f a w'); try done. lia.
Qed.
#[global] Instance ends_perform c : Ends (perform c).
Proof. intros w. apply Nat.le_refl. Qed.
#[global] Instance ends_if {A} (b : bool) (p q : prog A) : Ends p → Ends q → Ends (if b then p else q).
Proof. by destruct b. Qed.
#[global] Instance ends_fatal {A} : Ends (@fatal A).
Proof. by intros w. Qed.
#[global] Instance ends_undefined {A} f : Ends (@undefined A f).
Proof. by intros w. Qed.
#[global] Instance ends_when b p : Ends p → Ends (when b p).
Proof. unfold when. apply _. Qed.
#[global] Instance ends_option {A B} (o : option A) (p : prog B) f : Ends p → (∀ a, Ends (f a)) →
  Ends match o with Some a => f a | None => p end.
Proof. by destruct o. Qed.
#[global] Instance ends_sum {A B C} (s : A + B) (f : A → prog C) g : (∀ a, Ends (f a)) → (∀ b, Ends (g b)) →
  Ends match s with inl a => f a | inr b => g b end.
Proof. by destruct s. Qed.

(** An event that is taken leaves the messages alone; only an interruption counts. *)
Lemma next_event_ends w :
  let '(e, v) := next_event w in
  pending v = pending w ∧
  interruptions w = match e with Again => S (interruptions v) | _ => interruptions v end.
Proof. unfold next_event, interruptions. destruct (io w) as [|[] es] eqn:E; cbn; by rewrite ?E. Qed.
Lemma set_received_ends ctx q w : interruptions (set_received ctx q w) = interruptions w.
Proof. by destruct ctx. Qed.

(** A call that is not interrupted brings a byte or ends the read. *)
Lemma read_loop_fuel ctx failed n fuel : ∀ pos w,
  (∀ v, failed v ≠ NoFuel) → (interruptions w + Z.to_nat (n - zlen pos) ≤ fuel)%nat →
  read_loop fuel ctx failed n pos w ≠ NoFuel.
Proof.
  induction fuel as [|fuel IH]; intros pos w Hf Hl; cbn [read_loop];
    (destruct (Z.leb_spec n (zlen pos)); [done|]); [lia|].
  pose proof (next_event_ends w) as He. destruct (next_event w) as [[] v]; destruct He as [_ He]; [|apply IH; [done|lia]|done].
  destruct (received _ v) as [|d q]; [done|]. case_if; [done|]. apply IH; [done|]. rewrite set_received_ends.
  match goal with |- context [pos ++ ?r] => set (res := r) in * end. rewrite zlen_app. pose proof (zlen_nonneg res). lia.
Qed.
Lemma write_loop_fuel ctx b fuel : ∀ w, (interruptions w < fuel)%nat → write_loop fuel ctx b w ≠ NoFuel.
Proof.
  induction fuel as [|fuel IH]; intros w Hl; [lia|]. cbn [write_loop].
  pose proof (next_event_ends w) as He. destruct (next_event w) as [[] v]; destruct He as [_ He]; [done|apply IH; lia|done].
Qed.

Lemma write_loop_pending b fuel : ∀ w,
  match write_loop fuel PRIV_PRIVILEGED b w with Done _ w' => (pending w' ≤ pending w)%nat | _ => True end.
Proof.
  induction fuel as [|fuel IH]; intros w; [done|]. cbn [write_loop].
  pose proof (next_event_ends w) as He. destruct (next_event w) as [[] v]; destruct He as [Hp _]; [|rewrite <- Hp; apply IH|done].
  cbn. unfold pending in *. cbn. lia.
Qed.
Lemma ret_fuel (v : world) : mret (M := prog) (@None (list Z)) v ≠ NoFuel.
Proof. intros Hv. unfold mret, prog_ret in Hv. congruence. Qed.
Lemma read_fuel_enough n w : (interruptions w + Z.to_nat (n - zlen (A:=Z) []) ≤ read_fuel n w)%nat.
Proof. unfold read_fuel. rewrite zlen_nil. lia. Qed.

(** A read of the monitor takes a message when it has something to read. *)
Lemma read_loop_ends fuel failed n : ∀ pos w,
  (∀ v, failed v = Exited v ∨ failed v = Done None v) →
  match read_loop fuel PRIV_PRIVILEGED failed n pos w with
  | Done (Some _) w' => (pending w' ≤ pending w)%nat ∧ (zlen pos < n → (pending w' < pending w)%nat)
  | Done None w' => (pending w' ≤ pending w)%nat
  | _ => True
  end.
Proof.
  induction fuel as [|fuel IH]; intros pos w Hf; cbn [read_loop];
    (destruct (Z.leb_spec n (zlen pos)); [split; lia|]); [done|].
  pose proof (next_event_ends w) as He. destruct (next_event w) as [e v]; destruct He as [Hp _].
  assert (∀ u, (pending u ≤ pending w)%nat → match failed u with Done (Some _) _ => False
     | Done None u' => (pending u' ≤ pending w)%nat | _ => True end) as Hfail.
  { intros u Hu. by destruct (Hf u) as [->| ->]. }
  destruct e.
  - destruct (received _ v) as [|d q] eqn:Eq; [done|]. cbn in Eq.
    assert (pending (v <| to_monitor := q |>) < pending w)%nat as Hq by (rewrite <- Hp; unfold pending; rewrite Eq; cbn; lia).
    case_if.
    + specialize (Hfail (v <| to_monitor := q |>) ltac:(lia)). cbn.
      destruct (failed _) as [[]| | | | |]; try done.
    + specialize (IH (pos ++ take (Z.to_nat (n - zlen pos)) (data d)) (v <| to_monitor := q |>) Hf).
      cbn [set_received].
      destruct (read_loop _ _ _ _ _ _) as [[]| | | | |]; try done; destruct_and?; try split; lia.
  - specialize (IH pos v Hf). by rewrite Hp in IH.
  - specialize (Hfail v ltac:(lia)). by destruct (failed v) as [[]| | | | |].
Qed.

#[global] Instance ends_must_read n : Ends (must_read PRIV_PRIVILEGED n).
Proof.
  intros w. unfold must_read, mbind, prog_bind.
  pose proof (read_loop_ends (read_fuel n w) _exit n [] w (λ v, or_introl eq_refl)) as Hr.
  pose proof (read_loop_fuel PRIV_PRIVILEGED _exit n (read_fuel n w) [] w ltac:(done) (read_fuel_enough n w)).
  destruct (read_loop _ _ _ _ _ _) as [[]| | | | |]; cbn; try done. apply Hr.
Qed.
#[global] Instance ends_read_int : Ends (read_int PRIV_PRIVILEGED).
Proof. unfold read_int. apply _. Qed.
#[global] Instance ends_read_block n : Ends (read_block PRIV_PRIVILEGED n).
Proof. unfold read_block. apply _. Qed.
#[global] Instance ends_must_write b : Ends (must_write PRIV_PRIVILEGED b).
Proof.
  intros w. unfold must_write. case_if; [lia|].
  pose proof (write_loop_fuel PRIV_PRIVILEGED b (S (interruptions w)) w ltac:(lia)) as Hn.
  pose proof (write_loop_pending b (S (interruptions w)) w) as Hp. by destruct (write_loop _ _ _ _).
Qed.
#[global] Instance ends_write_int v : Ends (write_int PRIV_PRIVILEGED v).
Proof. unfold write_int. apply _. Qed.
#[global] Instance ends_send_fd fd err : Ends (send_fd PRIV_PRIVILEGED fd err).
Proof. intros w. unfold send_fd, next_event. destruct (io w) as [|[] ?]; apply Nat.le_refl. Qed.
#[global] Instance ends_remember_addr a : Ends (remember_addr a).
Proof. intros w. unfold remember_addr. case_if; [apply Nat.le_refl|done]. Qed.

#[global] Instance ends_description_os n d : Ends (asroot_iface_description_os n d).
Proof.
  unfold asroot_iface_description_os, read_line, alias_text. destruct n as [|c n]; [apply _|].
  destruct c as [|p|]; try apply _. repeat (destruct p as [p|p|]; try apply _).
Qed.
#[global] Instance ends_open_os f : Ends (open_os f).
Proof. unfold open_os. destruct (authorized_loop _ _) as [[]|]; apply _. Qed.

Lemma actions_end cmd : Ends (dispatch actions cmd).
Proof.
  unfold dispatch, actions. repeat case_if; [..|apply ends_fatal].
  - unfold asroot_ping. apply _.
  - unfold asroot_ctl_cleanup, ctl_cleanup. apply _.
  - unfold asroot_gethostbyname, gethostname_os. apply _.
  - unfold asroot_open. apply _.
  - unfold asroot_ethtool, ethtool_os. apply _.
  - unfold asroot_iface_init, asroot_iface_init_os. apply ends_bind; [apply _|]. intros i. apply ends_bind; [apply _|].
    intros n. apply ends_bind; [apply _|]. intros []. apply _.
  - unfold asroot_iface_multicast, multicast_os. apply _.
  - unfold asroot_iface_description. apply _.
  - unfold asroot_iface_promisc, asroot_iface_promisc_os. apply _.
  - unfold asroot_snmp_socket, snmp_connect. apply _.
Qed.

(** Every request takes at least one message. *)
Lemma priv_loop_fuel once fuel : ∀ w, (pending w < fuel)%nat → priv_loop fuel once w ≠ NoFuel.
Proof.
  induction fuel as [|fuel IH]; intros w Hw; [lia|]. cbn [priv_loop].
  unfold mbind at 1, prog_bind at 1, may_read.
  pose proof (read_loop_ends (read_fuel 4 w) (mret (M := prog) None) 4 [] w (λ v, or_intror eq_refl)) as Hr.
  pose proof (read_loop_fuel PRIV_PRIVILEGED (mret (M := prog) None) 4 (read_fuel 4 w) [] w ret_fuel (read_fuel_enough 4 w)).
  destruct (read_loop _ _ _ _ _ _) as [[cmd|] w'| | | | |]; try done.
  destruct Hr as [_ Hr]. specialize (Hr ltac:(zlen_lia)).
  unfold mbind, prog_bind. pose proof (actions_end (host_value cmd) w') as He.
  destruct (dispatch _ _ _) as [[] w''| | | | |]; try done. destruct once; [done|]. apply IH. lia.
Qed.

(** The channel fails: after some interruptions a call fails, or the other process is gone
    and a message of no bytes is read; [w'] is the world where this is known. *)
Definition channel_fails (ctx : priv_context) (w w' : world) : Prop :=
  ∃ k es, (io w = replicate k Again ++ Broken :: es ∧ w' = w <| io := es |>) ∨
          (∃ r q, (io w = replicate k Again ∧ es = [] ∨ io w = replicate k Again ++ Go :: es) ∧
             received ctx w = Datagram [] r :: q ∧ w' = set_received ctx q (w <| io := es |>)).

Lemma read_loop_again ctx failed n es k : ∀ fuel w,
  0 < n → io w = replicate k Again ++ es →
  read_loop (k + fuel) ctx failed n [] w = read_loop fuel ctx failed n [] (w <| io := es |>).
Proof.
  induction k as [|k IH]; intros fuel w Hn Hio.
  - by destruct w; cbn in Hio |- *; subst.
  - cbn [Nat.add read_loop]. rewrite zlen_nil, (proj2 (Z.leb_gt n 0)) by done.
    unfold next_event. rewrite Hio. cbn [replicate app]. by rewrite IH.
Qed.
Lemma count_again_app k es : count_again (replicate k Again ++ es) = (k + count_again es)%nat.
Proof. induction k; cbn; lia. Qed.

Lemma read_loop_fails ctx failed n w w' :
  0 < n → channel_fails ctx w w' → read_loop (read_fuel n w) ctx failed n [] w = failed w'.
Proof.
  intros Hn (k & es & Hc). unfold read_fuel, interruptions.
  assert (∃ es', io w = replicate k Again ++ es' ∧ ∀ fuel,
    read_loop (S fuel) ctx failed n [] (w <| io := es' |>) = failed w') as (es' & Hio & Hstep).
  { destruct Hc as [[Hio ->]|(r & q & Hio & Hq & ->)].
    - exists (Broken :: es). split; [done|]. intros fuel. cbn [read_loop].
      by rewrite zlen_nil, (proj2 (Z.leb_gt n 0)).
    - exists (if decide (io w = replicate k Again) then [] else Go :: es).
      split; [case_decide; [by rewrite app_nil_r|]; by destruct Hio as [[]|]|].
      intros fuel. cbn [read_loop]. rewrite zlen_nil, (proj2 (Z.leb_gt n 0)) by done.
      assert (next_event (w <| io := if decide (io w = replicate k Again) then [] else Go :: es |>) = (Go, w <| io := es |>)) as ->.
      { case_decide as Hk; [|done]. destruct Hio as [[_ ->]|Hio]; [done|].
        rewrite Hio in Hk. apply (f_equal length) in Hk. rewrite length_app, length_replicate in Hk. cbn in Hk. lia. }
      assert (received ctx (w <| io := es |>) = received ctx w) as -> by (by destruct ctx).
      rewrite Hq. cbn [data]. by rewrite take_nil. }
  rewrite Hio, count_again_app, <- Nat.add_assoc, (read_loop_again _ _ _ es') by done.
  destruct (Z.to_nat n) as [|m] eqn:Em; [lia|]. rewrite Nat.add_succ_r. apply Hstep.
Qed.

(** C26: the monitor comes to an end of what it received: it waits for more, returns, exits or stops.
    A read or a write makes a call again only when it was interrupted, or for the bytes that are
    missing: a read of [n] bytes makes at most [n] calls besides those that are interrupted, a write
    one; when the channel fails, or the other process is gone, the read of a command returns, and
    with it the loop of the monitor, and a read inside a request exits, at once; and the loop serves
    at most one request per message. *)
Theorem priv_loop_terminates :
  (∀ ctx n w, read_loop (interruptions w + Z.to_nat n) ctx _exit n [] w ≠ NoFuel ∧
              read_loop (interruptions w + Z.to_nat n) ctx (mret None) n [] w ≠ NoFuel) ∧
  (∀ ctx b w, write_loop (interruptions w + 1) ctx b w ≠ NoFuel) ∧
  (∀ ctx n w w', 0 < n → channel_fails ctx w w' → must_read ctx n w = Exited w' ∧ may_read ctx n w = Done None w') ∧
  (∀ fuel once w w', channel_fails PRIV_PRIVILEGED w w' → priv_loop (S fuel) once w = Done tt w') ∧
  ∀ once w, priv_loop (1 + length (to_monitor w)) once w ≠ NoFuel.
Proof.
  split_and!.
  - intros ctx n w. split; (apply read_loop_fuel; [done || apply ret_fuel|apply read_fuel_enough]).
  - intros ctx b w. apply write_loop_fuel. lia.
  - intros ctx n w w' Hn Hc. unfold must_read, may_read, mbind, prog_bind. by rewrite !(read_loop_fails _ _ _ _ w').
  - intros fuel once w w' Hc. cbn [priv_loop]. unfold mbind at 1, prog_bind at 1, may_read.
    by rewrite (read_loop_fails _ _ _ _ w').
  - intros once w. apply priv_loop_fuel. unfold pending. lia.
Qed.
End Ends.
