(* ===== verification/Bpf.v ===== *)
(** * The filter of the packet sockets

    [LLDPD_FILTER_F] (daemon/lldpd.h) is the program that [asroot_iface_init_os] attaches to
    the socket of an interface: the kernel runs it on every frame and keeps the frames for
    which it returns something else than 0.  The instructions are data; [bpf_run] is the
    machine of packet filters: an accumulator, loads in network byte order that end the
    program with 0 when they leave the packet, jumps that only go forward. *)

From S2P Require Import Prelude Bytes Const.
#[local] Open Scope Z_scope.

Record sock_filter := Insn { code : Z; jt : nat; jf : nat; k : Z }.

Definition LLDPD_FILTER_F : list sock_filter :=
  [ Insn 0x30 0 0 0x00000000;
    Insn 0x54 0 0 0x00000001;
    Insn 0x15 0 14 0x00000001;
    Insn 0x28 0 0 0x0000000c;
    Insn 0x15 0 4 0x000088cc;
    Insn 0x20 0 0 0x00000002;
    Insn 0x15 0 2 0xc200000e;
    Insn 0x28 0 0 0x00000000;
    Insn 0x15 12 13 0x00000180;
    Insn 0x20 0 0 0x00000002;
    Insn 0x15 0 2 0x52cccccc;
    Insn 0x28 0 0 0x00000000;
    Insn 0x15 8 9 0x000001e0;
    Insn 0x15 1 0 0x0ccccccc;
    Insn 0x15 0 2 0x81000100;
    Insn 0x28 0 0 0x00000000;
    Insn 0x15 4 5 0x00000100;
    Insn 0x20 0 0 0x00000002;
    Insn 0x15 0 3 0x2b000000;
    Insn 0x28 0 0 0x00000000;
    Insn 0x15 0 1 0x000000e0;
    Insn 0x6 0 0 0x0000ffff;
    Insn 0x6 0 0 0x00000000 ].

(** The machine. *)
Definition load_bytes (size : Z) (off : Z) (packet : list Z) : option Z :=
  if (off + size) <=? zlen packet
  then Some (be_value (take (Z.to_nat size) (drop (Z.to_nat off) packet))) else None.

Fixpoint bpf_run (fuel : nat) (prog : list sock_filter) (a : Z) (packet : list Z) : option Z :=
  match fuel with
  | O => None
  | S fuel =>
      match prog with
      | [] => None
      | i :: rest =>
          let ld size :=
            match load_bytes size (k i) packet with
            | Some v => bpf_run fuel rest v packet
            | None => Some 0
            end in
          match code i with
          | 0x30 => ld 1
          | 0x28 => ld 2
          | 0x20 => ld 4
          | 0x54 => bpf_run fuel rest (Z.land a (k i)) packet
          | 0x15 => bpf_run fuel (drop (if a =? k i then jt i else jf i) rest) a packet
          | 0x6 => Some (k i)
          | _ => None
          end
      end
  end.

Definition run_filter (packet : list Z) : option Z := bpf_run (length LLDPD_FILTER_F) LLDPD_FILTER_F 0 packet.

(** What the comment above the program says it keeps. *)
Definition mac_in (m : list Z) (frame : list Z) : bool := bool_decide (take 6 frame = m).
Definition wanted (frame : list Z) : bool :=
  (zlen frame >=? 14) &&
    ((bool_decide (take 2 (drop 12 frame) = [0x88; 0xcc]) && mac_in LLDP_MULTICAST_ADDR frame)
     || mac_in FDP_MULTICAST_ADDR frame
     || mac_in CDP_MULTICAST_ADDR frame
     || mac_in SONMP_MULTICAST_ADDR frame)
  || mac_in EDP_MULTICAST_ADDR frame.

(** ** The program and the comment agree *)

(** The three words the program looks at. *)
Definition word16 (b : Z) (c : Z) : Z := be_value [b; c].
Definition word32 (b c d e : Z) : Z := be_value [b; c; d; e].

Lemma mac_in_words b0 b1 b2 b3 b4 b5 rest m0 m1 m2 m3 m4 m5 :
  bytes_ok [b0; b1; b2; b3; b4; b5] → bytes_ok [m0; m1; m2; m3; m4; m5] →
  mac_in [m0; m1; m2; m3; m4; m5] (b0 :: b1 :: b2 :: b3 :: b4 :: b5 :: rest) =
  (word16 b0 b1 =? word16 m0 m1) && (word32 b2 b3 b4 b5 =? word32 m2 m3 m4 m5).
Proof.
  intros Hb Hm. repeat match goal with H : bytes_ok (_ :: _) |- _ => apply Forall_cons_iff in H as [? H] end.
  unfold mac_in, is_byte in *. cbn [take]. unfold word16, word32, be_value; cbn [be_value_aux].
  apply eq_true_iff_eq. rewrite bool_decide_eq_true, andb_true_iff, !Z.eqb_eq. split.
  - by intros [= -> -> -> -> -> ->].
  - intros [H16 H32]. assert (b0 = m0 ∧ b1 = m1 ∧ b2 = m2 ∧ b3 = m3 ∧ b4 = m4 ∧ b5 = m5) as (-> & -> & -> & -> & -> & ->) by lia. done.
Qed.

Lemma type_words a b rest : is_byte a → is_byte b →
  bool_decide (take 2 (a :: b :: rest) = [0x88; 0xcc]) = (word16 a b =? 0x88cc).
Proof.
  unfold is_byte. intros Ha Hb. apply eq_true_iff_eq. rewrite bool_decide_eq_true, Z.eqb_eq.
  unfold word16, be_value; cbn. split; [by intros [= -> ->]|]. intros He.
  assert (a = 0x88 ∧ b = 0xcc) as [-> ->] by lia. done.
Qed.

(** The program on what it loads: the parity of the first byte, the type, the address. *)
Definition decision (odd : bool) (type : option Z) (hi lo : Z) : Z :=
  if odd then
    match type with
    | None => 0
    | Some t =>
        if ((t =? 0x88cc) && (lo =? 0xc200000e) && (hi =? 0x180))
           || (lo =? 0x52cccccc) && (hi =? 0x1e0)
           || ((lo =? 0x0ccccccc) || (lo =? 0x81000100)) && (hi =? 0x100)
        then 0xffff else 0
    end
  else if (lo =? 0x2b000000) && (hi =? 0xe0) then 0xffff else 0.

(** One instruction. *)
Lemma run_ldb fuel t f off rest a p v : load_bytes 1 off p = Some v →
  bpf_run (S fuel) (Insn 0x30 t f off :: rest) a p = bpf_run fuel rest v p.
Proof. intros Hl. cbn [bpf_run code k]. by rewrite Hl. Qed.
Lemma run_ldh fuel t f off rest a p v : load_bytes 2 off p = Some v →
  bpf_run (S fuel) (Insn 0x28 t f off :: rest) a p = bpf_run fuel rest v p.
Proof. intros Hl. cbn [bpf_run code k]. by rewrite Hl. Qed.
Lemma run_ldw fuel t f off rest a p v : load_bytes 4 off p = Some v →
  bpf_run (S fuel) (Insn 0x20 t f off :: rest) a p = bpf_run fuel rest v p.
Proof. intros Hl. cbn [bpf_run code k]. by rewrite Hl. Qed.
Lemma run_ldb_out fuel t f off rest a p : load_bytes 1 off p = None →
  bpf_run (S fuel) (Insn 0x30 t f off :: rest) a p = Some 0.
Proof. intros Hl. cbn [bpf_run code k]. by rewrite Hl. Qed.
Lemma run_ldh_out fuel t f off rest a p : load_bytes 2 off p = None →
  bpf_run (S fuel) (Insn 0x28 t f off :: rest) a p = Some 0.
Proof. intros Hl. cbn [bpf_run code k]. by rewrite Hl. Qed.
Lemma run_ldw_out fuel t f off rest a p : load_bytes 4 off p = None →
  bpf_run (S fuel) (Insn 0x20 t f off :: rest) a p = Some 0.
Proof. intros Hl. cbn [bpf_run code k]. by rewrite Hl. Qed.
Lemma run_and fuel t f v rest a p :
  bpf_run (S fuel) (Insn 0x54 t f v :: rest) a p = bpf_run fuel rest (Z.land a v) p.
Proof. done. Qed.
Lemma run_jeq fuel t f v rest a p :
  bpf_run (S fuel) (Insn 0x15 t f v :: rest) a p = bpf_run fuel (drop (if a =? v then t else f) rest) a p.
Proof. done. Qed.
Lemma run_ret fuel t f v rest a p : bpf_run (S fuel) (Insn 0x6 t f v :: rest) a p = Some v.
Proof. done. Qed.

(** Run the program until it returns, splitting on every comparison. *)
Ltac run_program :=
  repeat first
    [ rewrite run_ret
    | rewrite run_and
    | erewrite run_ldb by eassumption
    | erewrite run_ldh by eassumption
    | erewrite run_ldw by eassumption
    | erewrite run_ldh_out by eassumption
    | erewrite run_ldw_out by eassumption
    | rewrite run_jeq;
      match goal with |- context [drop (if ?b then _ else _) _] => destruct b eqn:? end; cbn [drop] ].

Lemma run_filter_decision b0 b1 b2 b3 b4 b5 rest :
  let frame := b0 :: b1 :: b2 :: b3 :: b4 :: b5 :: rest in
  is_byte b0 → is_byte b1 →
  run_filter frame =
  Some (decision (Z.land b0 1 =? 1) (load_bytes 2 12 frame) (word16 b0 b1) (word32 b2 b3 b4 b5)).
Proof.
  intros frame H0 H1. unfold run_filter, decision.
  assert (6 ≤ zlen frame) as Hl by (unfold frame; zlen_lia).
  assert (load_bytes 1 0 frame = Some b0) as L1 by (unfold load_bytes; by rewrite (proj2 (Z.leb_le _ _)) by lia).
  assert (load_bytes 2 0 frame = Some (word16 b0 b1)) as L2 by (unfold load_bytes; by rewrite (proj2 (Z.leb_le _ _)) by lia).
  assert (load_bytes 4 2 frame = Some (word32 b2 b3 b4 b5)) as L4 by (unfold load_bytes; by rewrite (proj2 (Z.leb_le _ _)) by lia).
  assert (word16 b0 b1 = 0xe0 → b0 = 0) as Hz by (unfold word16, be_value, is_byte in *; cbn; lia).
  generalize dependent frame. intros frame _ L1 L2 L4.
  generalize dependent (word16 b0 b1). generalize dependent (word32 b2 b3 b4 b5). intros lo L4 hi Hz L2.
  change (length LLDPD_FILTER_F) with 23%nat. unfold LLDPD_FILTER_F.
  destruct (load_bytes 2 12 frame) as [t|] eqn:L12; run_program; bool_to_prop; subst; cbn [andb orb]; try done.
  all: repeat match goal with H : ?x ≠ ?y |- context [?x =? ?y] => rewrite (proj2 (Z.eqb_neq x y) H) end.
  all: cbn [andb orb]; try done; rewrite (Hz eq_refl) in *; done.
Qed.

Lemma load_type frame : load_bytes 2 12 frame =
  if zlen frame >=? 14 then Some (be_value (take 2 (drop 12 frame))) else None.
Proof. unfold load_bytes. rewrite Z.geb_leb. done. Qed.

(** Frames that are too short for an address are refused. *)
Lemma run_filter_short frame : zlen frame < 6 → run_filter frame = Some 0 ∧ wanted frame = false.
Proof.
  intros Hl. assert (∀ m, length m = 6%nat → mac_in m frame = false) as Hm.
  { intros m Hm. apply bool_decide_eq_false. intros He. rewrite <- He, length_take in Hm. unfold zlen in Hl. lia. }
  split.
  - assert (load_bytes 2 12 frame = None) as L2 by (unfold load_bytes; by rewrite (proj2 (Z.leb_gt _ _)) by lia).
    assert (load_bytes 4 2 frame = None) as L4 by (unfold load_bytes; by rewrite (proj2 (Z.leb_gt _ _)) by lia).
    unfold run_filter. change (length LLDPD_FILTER_F) with 23%nat. unfold LLDPD_FILTER_F.
    destruct (load_bytes 1 0 frame) as [b|] eqn:L1; [by run_program|by apply run_ldb_out].
  - unfold wanted. rewrite !Hm by done. rewrite Z.geb_leb, (proj2 (Z.leb_gt 14 (zlen frame))) by lia. done.
Qed.

(** C27: the filter attached to the socket of an interface keeps exactly the frames its comment
    describes: LLDP frames by their type and address, FDP, CDP, SONMP and EDP frames by their
    address; every other frame is dropped before the daemon sees it. *)
Theorem filter_exact frame :
  bytes_ok frame → run_filter frame = Some (if wanted frame then 0xffff else 0).
Proof.
  intros Hb. destruct (Z.ltb_spec (zlen frame) 6) as [Hs|Hs].
  { by destruct (run_filter_short frame Hs) as [-> ->]. }
  destruct frame as [|b0 [|b1 [|b2 [|b3 [|b4 [|b5 rest]]]]]]; try (unfold zlen in Hs; cbn in Hs; lia).
  assert (bytes_ok [b0; b1; b2; b3; b4; b5]) as H6 by (by apply (Forall_take _ 6) in Hb).
  assert (is_byte b0 ∧ is_byte b1) as [H0 H1] by (by repeat (apply Forall_cons_iff in H6 as [? H6])).
  rewrite run_filter_decision by done. unfold wanted, decision.
  unfold LLDP_MULTICAST_ADDR, FDP_MULTICAST_ADDR, CDP_MULTICAST_ADDR, SONMP_MULTICAST_ADDR, EDP_MULTICAST_ADDR.
  rewrite !(mac_in_words b0 b1 b2 b3 b4 b5 rest) by (done || (repeat constructor; done)).
  rewrite load_type. set (frame := b0 :: _) in *.
  assert (14 ≤ zlen frame → (be_value (take 2 (drop 12 frame)) =? 0x88cc) =
            bool_decide (take 2 (drop 12 frame) = [0x88; 0xcc])) as Ht.
  { intros Hl. pose proof (Forall_take _ 2 _ (Forall_drop _ 12 _ Hb)) as Hd.
    assert (2 ≤ length (drop 12 frame))%nat as Hl2 by (rewrite length_drop; unfold zlen in Hl; lia).
    destruct (drop 12 frame) as [|x [|y r]]; cbn [length] in Hl2; [lia|lia|].
    cbn [take] in *. repeat (apply Forall_cons_iff in Hd as [? Hd]). symmetry. by apply (type_words x y []). }
  clearbody frame.
  assert (Z.land b0 1 = 1 → word16 b0 b1 ≠ 0xe0) as Hodd.
  { intros Hl. assert (b0 ≠ 0) by (by intros ->). unfold word16, be_value, is_byte in *; cbn; lia. }
  assert (Z.land b0 1 ≠ 1 → word16 b0 b1 ≠ 0x180 ∧ word16 b0 b1 ≠ 0x1e0 ∧ word16 b0 b1 ≠ 0x100) as Heven.
  { intros Hl. assert (b0 ≠ 1) by (by intros ->). unfold word16, be_value, is_byte in *; cbn; lia. }
  revert Hodd Heven. generalize (word16 b0 b1) (word32 b2 b3 b4 b5). intros hi lo Hodd Heven.
  change (word16 1 128) with 0x180. change (word16 1 224) with 0x1e0. change (word16 1 0) with 0x100. change (word16 0 224) with 0xe0.
  change (word32 194 0 0 14) with 0xc200000e. change (word32 82 204 204 204) with 0x52cccccc.
  change (word32 12 204 204 204) with 0x0ccccccc. change (word32 129 0 1 0) with 0x81000100. change (word32 43 0 0 0) with 0x2b000000.
  rewrite Z.geb_leb. destruct (Z.eqb_spec (Z.land b0 1) 1) as [Ho|He].
  - rewrite (proj2 (Z.eqb_neq hi 0xe0) (Hodd Ho)). cbn [andb].
    rewrite orb_false_r. destruct (Z.leb_spec 14 (zlen frame)) as [Hl|Hl]; [|done]. rewrite (Ht Hl). cbn [andb].
    destruct (bool_decide _), (lo =? _), (hi =? 0x180), (lo =? 0x52cccccc), (hi =? 0x1e0), (lo =? 0x0ccccccc), (hi =? 0x100), (lo =? 0x81000100); done.
  - destruct (Heven He) as (H1' & H2' & H3').
    rewrite (proj2 (Z.eqb_neq _ _) H1'), (proj2 (Z.eqb_neq _ _) H2'), (proj2 (Z.eqb_neq _ _) H3').
    cbn [andb]. by rewrite !andb_false_r, andb_comm.
Qed.
