(* ===== verification/Commands.v ===== *)
(** * Commands of lldpcli (client/commands.c, client/misc.c)

    The command language is a tree of nodes: a token to enter the node, whether a privilege
    is needed, a function that says if it can be entered, a function that runs when it is.
    A command is a list of words; [_commands_execute] walks down the tree, one word at a
    time, with a stack of nodes that functions may pop to go back up, and a list of
    variables they may add to.  The same walk completes a word.

    Nodes live in an array and refer to each other by index, as C nodes do by address; [W]
    is what the functions act on outside (the connection and the writer). *)

From S2P Require Import Prelude Bytes Text Tokenizer.
From stdpp Require Import strings.
#[local] Open Scope Z_scope.

Abbreviation word := (list Z).
Definition NEWLINE : word := chars "<CR>".

(** ** Environment *)

Record cmd_env := Env {
  elements : list (word * option word);
  stack : list nat;
  argp : nat;
  argv : list word
}.
#[global] Instance eta_cmd_env : Settable cmd_env :=
  λ e, Env (elements e) (stack e) (argp e) (argv e).
Definition argc (env : cmd_env) : nat := length (argv env).

(** Current argument: [NEWLINE] after the last one, NULL further. *)
Definition cmdenv_arg (env : cmd_env) : option word :=
  if (argp env <? argc env)%nat then argv env !! argp env
  else if (argp env =? argc env)%nat then Some NEWLINE else None.

Fixpoint env_find (els : list (word * option word)) (key : word) : option word :=
  match els with
  | [] => None
  | (k, v) :: els => if bool_decide (k = key) then Some (default k v) else env_find els key
  end.
Definition cmdenv_get (env : cmd_env) (key : word) : option word := env_find (elements env) key.
Definition cmdenv_put (env : cmd_env) (key : word) (value : option word) : cmd_env :=
  env <| elements ::= (λ l, l ++ [(key, value)]) |>.

(** [cmdenv_pop]: what is popped before the stack runs out stays popped. *)
Fixpoint cmdenv_pop (env : cmd_env) (n : nat) : Z * cmd_env :=
  match n with
  | O => (0, env)
  | S n => match stack env with
           | [] => (-1, env)
           | _ :: s => cmdenv_pop (env <| stack := s |>) n
           end
  end.
Definition cmdenv_push (env : cmd_env) (node : nat) : cmd_env := env <| stack ::= cons node |>.
Definition cmdenv_top (env : cmd_env) : option nat := head (stack env).

(** [contains]: an element of a comma-separated list. *)
Definition comma : Z := 44.
Fixpoint strchr (c : Z) (s : word) : option word :=
  match s with [] => None | x :: s' => if x =? c then Some s else strchr c s' end.
Definition head_is (list element : word) : bool :=
  bool_decide (element `prefix_of` list) &&
  match drop (length element) list with [] => true | c :: _ => c =? comma end.
Fixpoint contains_loop (fuel : nat) (list element : word) : bool :=
  head_is list element ||
  match fuel with
  | O => false
  | S fuel => match strchr comma list with
              | Some (_ :: list) => contains_loop fuel list element
              | _ => false
              end
  end.
Definition contains (list element : word) : bool := contains_loop (length list) list element.

(** ** Nodes *)

Section Commands.
Context {W : Type}.

Definition validator : Type := cmd_env → Z.
Definition executor : Type := cmd_env → W → Z * cmd_env * W.
Record cmd_node := Node {
  token : option word;
  doc : option word;
  privileged : bool;
  hidden : bool;
  validate : option validator;
  execute : option executor;
  subentries : list nat
}.
#[global] Instance eta_cmd_node : Settable cmd_node := λ n,
  Node (token n) (doc n) (privileged n) (hidden n) (validate n) (execute n) (subentries n).

Abbreviation tree := (list cmd_node).
Definition no_node : cmd_node := Node None None false false None None [].
Definition node (t : tree) (i : nat) : cmd_node := default no_node (t !! i).

(** [commands_new]: the new node, and the tree with it at the end of its parent. *)
Definition commands_new (t : tree) (root : option nat) (token doc : option word)
    (validate : option validator) (execute : option executor) : nat * tree :=
  let t := match root with
           | Some r => alter (λ n : cmd_node, n <| subentries ::= (λ l, l ++ [length t]) |>) r t
           | None => t
           end in
  (length t, t ++ [Node token doc false false validate execute []]).
Definition commands_root : nat * tree := commands_new [] None None None None None.
Definition commands_privileged (t : tree) (n : nat) : tree := alter (λ n : cmd_node, n <| privileged := true |>) n t.
Definition commands_hidden (t : tree) (n : nat) : tree := alter (λ n : cmd_node, n <| hidden := true |>) n t.

(** ** Running a command *)

Section Run.
Context (t : tree).

(** [CAN_EXECUTE] *)
Definition can_execute (env : cmd_env) (priv complete : bool) (candidate : nat) : bool :=
  let n := node t candidate in
  (negb (privileged n) || priv || complete) &&
  match validate n with None => true | Some f => f env =? 1 end.

Definition matches (token_ : word) (candidate : nat) : bool :=
  match token (node t candidate) with Some s => bool_decide (token_ `prefix_of` s) | None => false end.
Definition exact (token_ : word) (candidate : nat) : bool := bool_decide (token (node t candidate) = Some token_).

(** The first loop: [inl] the two candidates of an ambiguous token, [inr best]. *)
Fixpoint find_token (can : nat → bool) (token_ : word) (subs : list nat) (best : option nat)
    : (nat * nat) + option nat :=
  match subs with
  | [] => inr best
  | candidate :: subs =>
      if matches token_ candidate && can candidate then
        if exact token_ candidate then inr (Some candidate)
        else match best with
             | None => find_token can token_ subs (Some candidate)
             | Some b => inl (candidate, b)
             end
      else find_token can token_ subs best
  end.

(** The second loop: the first node without token that validates. *)
Fixpoint find_free (can : nat → bool) (subs : list nat) : option nat :=
  match subs with
  | [] => None
  | candidate :: subs =>
      if bool_decide (token (node t candidate) = None) && can candidate then Some candidate else find_free can subs
  end.

Definition find_best (can : nat → bool) (token_ : word) (subs : list nat) : (nat * nat) + option nat :=
  match find_token can token_ subs None with
  | inl a => inl a
  | inr (Some b) => inr (Some b)
  | inr None => inr (find_free can subs)
  end.

(** Where the loop stopped.  [entered] lists the nodes that were pushed, the last first,
    with the state of [complete] when they were. *)
Record state := State {
  env : cmd_env;
  rc : Z;
  help : bool;
  complete : bool;
  world : W;
  entered : list (nat * bool)
}.

Definition is_set (env : cmd_env) (key : word) : bool := match cmdenv_get env key with Some _ => true | None => false end.

(** One turn of the loop of [_commands_execute]: [inl] leaves it. *)
Definition command_step (completion priv : bool) (s : state) : state + state :=
  match cmdenv_top (env s) with
  | None => inl s
  | Some current =>
      let e := env s in
      let help := if completion then help s else is_set e (chars "help") in
      let complete := if completion then complete s else is_set e (chars "complete") in
      let s := State e (rc s) help complete (world s) (entered s) in
      match (if (argp e <? argc e)%nat then argv e !! argp e
             else if (argp e =? argc e)%nat && negb help && negb complete then Some NEWLINE else None) with
      | None => inl s
      | Some token_ =>
          if completion && (S (argp e) =? argc e)%nat then inl s else
          let fail := State e (-1) help complete (world s) (entered s) in
          match find_best (can_execute e priv complete) token_ (subentries (node t current)) with
          | inl _ => inl fail
          | inr None => inl (if (argp e =? argc e)%nat then s else fail)
          | inr (Some best) =>
              let e := cmdenv_push e best in
              let trace := (best, complete) :: entered s in
              let '(r, e, w) := match execute (node t best) with
                                | None => (1, e, world s)
                                | Some f => f e (world s)
                                end in
              if negb (r =? 1) then inl (State e (-1) help complete w trace)
              else inr (State (e <| argp ::= S |>) (rc s) help complete w trace)
          end
      end
  end.
Fixpoint command_loop (fuel : nat) (completion priv : bool) (s : state) : option state :=
  match command_step completion priv s with
  | inl s => Some s
  | inr s => match fuel with O => None | S fuel => command_loop fuel completion priv s end
  end.

(** ** Completion *)

Record candidate_word := Cand { cword : option word; cdoc : option word; chidden : bool }.

(** The words that can come next: [typed] is [env.argv[env.argc - 1]], which is only
    looked at when neither help nor completion was asked by a command. *)
Definition candidates (s : state) (priv : bool) (typed : word) (current : nat) : list candidate_word :=
  let keep c :=
    (bool_decide (token (node t c) = None) || help s || complete s || matches typed c)
    && can_execute (env s) priv (complete s) c in
  map (λ c, Cand (token (node t c)) (doc (node t c)) (hidden (node t c))) (List.filter keep (subentries (node t current))).

Definition word_length (c : candidate_word) : nat := match cword c with Some w => length w | None => 0 end.
Definition max_length (words : list candidate_word) : nat := foldl (λ m c, max m (word_length c)) 10%nat words.

(** One column of the common prefix: [c] says if the loop ran to its end on a word that
    counts, [p] is [prefix[n]]. *)
Fixpoint prefix_column (n : nat) (words : list candidate_word) (c : bool) (p : option Z) : bool * option Z :=
  match words with
  | [] => (c, p)
  | w :: words =>
      if chidden w then prefix_column n words false p
      else match cword w with
           | None => (false, p)
           | Some s =>
               if bool_decide (s = NEWLINE) then (false, p)
               else match s !! n with
                    | None => (false, p)
                    | Some x => match p with
                                | None => prefix_column n words true (Some x)
                                | Some y => if y =? x then prefix_column n words true p else (false, p)
                                end
                    end
           end
  end.
Fixpoint common_prefix (steps : nat) (n : nat) (words : list candidate_word) : word :=
  match steps with
  | O => []
  | S steps =>
      match prefix_column n words true None with
      | (true, Some x) => x :: common_prefix steps (S n) words
      | _ => []
      end
  end.

(** What completion gives: a word to put in place of the typed one, or a list to show. *)
Inductive completion_result := Completed (w : word) | Shown (words : list candidate_word) | Nothing.
Definition space : Z := 32.
Definition complete_words (s : state) (all : bool) (typed : word) (words : list candidate_word) : completion_result :=
  match words with
  | [] => Nothing
  | _ =>
      let prefix := common_prefix (max_length words) 0 words in
      if negb all && negb (help s) && negb (complete s) && negb (bool_decide (prefix = NEWLINE))
         && (0 <? length prefix)%nat && (length typed <? length prefix)%nat
      then Completed (if existsb (λ c, bool_decide (cword c = Some prefix)) words then prefix ++ [space] else prefix)
      else Shown (List.filter (λ c, negb (chidden c) &&
             negb (complete s && match cword c with None => true | Some w => bool_decide (w = NEWLINE) end)) words)
  end.

(** [_commands_execute]: [None] is the access to a node of an empty stack or to an
    argument that does not exist. *)
Definition start (root : nat) (args : list word) (w : W) : state :=
  State (Env [] [root] 0 args) 0 false false w [].
Definition run_fuel (args : list word) : nat := S (length args).

Definition _commands_execute (root : nat) (args : list word) (completion all priv : bool) (w : W)
    : option (Z * completion_result * state) :=
  s ← command_loop (run_fuel args) completion priv (start root args w);
  let argp := argp (env s) in
  let argc := length args in
  if negb completion && negb (help s) && negb (complete s)
  then Some (if (rc s =? 0) && negb (argp =? S argc)%nat then -1 else rc s, Nothing, s)
  else if (rc s =? 0) && ((S argp =? argc)%nat || help s || complete s) then
    current ← cmdenv_top (env s);
    typed ← (if help s || complete s then Some (default [] (last args)) else last args);
    Some (rc s, complete_words s all typed (candidates s priv typed current), s)
  else Some (rc s, Nothing, s).

Definition commands_complete (root : nat) (args : list word) (all priv : bool) (w : W) : option (option word) :=
  r ← _commands_execute root args true all priv w;
  Some (match r with (0, Completed word, _) => Some word | _ => None end).

Definition commands_execute (root : nat) (args : list word) (priv : bool) (w : W) : option (Z * W) :=
  r ← _commands_execute root args false false priv w;
  Some (r.1.1, world r.2).
End Run.

(** ** Functions for nodes *)

Definition one (b : bool) : Z := if b then 1 else 0.

Definition cmd_check_no_env (key : word) : validator := λ env, one (bool_decide (cmdenv_get env key = None)).

(** The keys of the list that are set, less the commas. *)
Definition cmd_check_env (key : word) : validator := λ env,
  let count := length (List.filter (λ el, contains key el.1) (elements env)) in
  let commas := length (List.filter (Z.eqb comma) key) in
  one (Z.of_nat count - Z.of_nat commas =? 1).

(** Putting always succeeds, so the first operand of [&&] is true. *)
Definition put_and_pop (key : word) (value : cmd_env → option word) (n : nat) : executor := λ env w,
  let '(r, env) := cmdenv_pop (cmdenv_put env key (value env)) n in (one (negb (r =? -1)), env, w).
Definition cmd_store_env (key : word) : executor := put_and_pop key (λ _, None) 0.
Definition cmd_store_env_and_pop (key : word) : executor := put_and_pop key (λ _, None) 1.
Definition cmd_store_env_value (key : word) : executor := put_and_pop key cmdenv_arg 0.
Definition cmd_store_env_value_and_pop (key : word) : executor := put_and_pop key cmdenv_arg 1.
Definition cmd_store_env_value_and_pop2 (key : word) : executor := put_and_pop key cmdenv_arg 2.
Definition cmd_store_env_value_and_pop3 (key : word) : executor := put_and_pop key cmdenv_arg 3.
Definition cmd_store_something_env_value_and_pop2 (what value : word) : executor :=
  put_and_pop what (λ _, Some value) 2.

Definition cmd_restrict (key doc1 doc2 : word) (t : tree) (root : nat) : tree :=
  let '(n, t) := commands_new t (Some root) (Some key) (Some doc1) (Some (cmd_check_no_env key)) None in
  (commands_new t (Some n) None (Some doc2) None (Some (cmd_store_env_value_and_pop2 key))).2.
Definition cmd_restrict_ports : tree → nat → tree :=
  cmd_restrict (chars "ports") (chars "Restrict configuration to some ports")
    (chars "Restrict configuration to the specified ports (comma-separated list)").
Definition cmd_restrict_protocol : tree → nat → tree :=
  cmd_restrict (chars "protocol") (chars "Restrict to specific protocol")
    (chars "Restrict display to the specified protocol").

(** [parse_and_exec] of client/lldpcli.c: -1 on error, 0 when there is nothing to do. *)
Definition parse_and_exec (t : tree) (root : nat) (priv : bool) (line : word) (w : W) : option (Z * W) :=
  match tokenize_line line with
  | None => Some (-1, w)
  | Some [] => Some (0, w)
  | Some args =>
      r ← commands_execute t root args priv w;
      Some (if r.1 =? 0 then 1 else -1, r.2)
  end.
End Commands.
Arguments cmd_node W : clear implicits.
Arguments state W : clear implicits.

(** ** Comma-separated lists *)

Section Lists.
Implicit Types (l e : word).

(** The elements of a list, as a reference. *)
Fixpoint split_commas (l : word) : list word :=
  match l with
  | [] => [[]]
  | c :: l => if c =? comma then [] :: split_commas l
              else match split_commas l with x :: xs => (c :: x) :: xs | [] => [[c]] end
  end.

Lemma split_commas_strchr l :
  split_commas l = match strchr comma l with
                   | Some (_ :: r) => take (length l - S (length r)) l :: split_commas r
                   | _ => [l]
                   end.
Proof.
  induction l as [|c l IH]; [done|]. cbn [split_commas strchr].
  destruct (Z.eqb_spec c comma) as [->|Hc].
  { replace (length (comma :: l) - S (length l))%nat with 0%nat by (cbn; lia). done. }
  rewrite IH. clear IH. assert (∀ r, strchr comma l = Some r → (length r ≤ length l)%nat) as Hl.
  { clear. induction l as [|c l IH]; cbn; [done|]. case_if; [by intros r [= <-]|]. intros r Hr. specialize (IH r Hr). lia. }
  destruct (strchr comma l) as [[|c' r]|] eqn:E; try done. specialize (Hl _ eq_refl). cbn [length] in Hl.
  replace (length (c :: l) - S (length r))%nat with (S (length l - S (length r))) by (cbn; lia). done.
Qed.

Lemma strchr_split l r : strchr comma l = Some r →
  ∃ x r', l = x ++ comma :: r' ∧ r = comma :: r' ∧ Forall (λ c, c ≠ comma) x.
Proof.
  revert r. induction l as [|c l IH]; intros r; cbn; [done|].
  destruct (Z.eqb_spec c comma) as [->|Hc].
  - intros [= <-]. by exists [], l.
  - intros Hr. destruct (IH r Hr) as (x & r' & -> & -> & Hx). exists (c :: x), r'. split_and!; [done|done|by constructor].
Qed.
Lemma strchr_none l : strchr comma l = None → Forall (λ c, c ≠ comma) l.
Proof.
  induction l as [|c l IH]; cbn; [done|]. destruct (Z.eqb_spec c comma); [done|]. intros Hl. constructor; auto.
Qed.

(** The first element, when [e] has no comma. *)
Lemma head_is_first e x r : Forall (λ c, c ≠ comma) e → Forall (λ c, c ≠ comma) x →
  (head_is (x ++ comma :: r) e = true ↔ e = x) ∧ (head_is x e = true ↔ e = x).
Proof.
  intros He Hx. unfold head_is. revert x Hx. induction He as [|c e Hc He IH]; intros x Hx.
  - destruct x as [|y x]; [done|]. inversion Hx as [|? ? Hy]; subst. cbn.
    rewrite (proj2 (Z.eqb_neq y comma) Hy). done.
  - destruct x as [|y x].
    + cbn [app length drop]. split; (split; [|done]); intros Hh; apply andb_true_iff in Hh as [Hp _];
        apply bool_decide_eq_true in Hp; [|by apply prefix_nil_not in Hp].
      by apply prefix_cons_inv_1 in Hp as ->.
    + inversion Hx as [|? ? Hy Hx']; subst. destruct (IH x Hx') as [IH1 IH2].
      cbn [app length drop]. assert (∀ m, bool_decide (c :: e `prefix_of` y :: m) = bool_decide (c = y) && bool_decide (e `prefix_of` m)) as Hp.
      { intros m. apply eq_true_iff_eq. rewrite andb_true_iff, !bool_decide_eq_true. split.
        - intros Hp. split; [by apply prefix_cons_inv_1 in Hp|by apply prefix_cons_inv_2 in Hp].
        - intros [-> Hp]. by apply prefix_cons. }
      rewrite !Hp, <- !andb_assoc, (andb_true_iff (bool_decide _)), (andb_true_iff (bool_decide (c = y)) (_ && match drop (length e) x with _ => _ end)).
      rewrite IH1, IH2, bool_decide_eq_true. split; (split; [by intros [-> ->]|by intros [= -> ->]]).
Qed.

(** [contains] searches the elements of the list. *)
Lemma contains_spec l e : Forall (λ c, c ≠ comma) e → contains l e = true ↔ e ∈ split_commas l.
Proof.
  intros He. unfold contains. assert (∀ n, (length l ≤ n)%nat → contains_loop n l e = true ↔ e ∈ split_commas l) as Hn; [|by apply Hn].
  intros n. revert l. induction n as [|n IH]; intros l Hl.
  - destruct l; [|cbn in Hl; lia]. cbn [contains_loop]. rewrite orb_false_r.
    destruct (head_is_first e [] [] He (Forall_nil_2 _)) as [_ ->]. cbn. by rewrite list_elem_of_singleton.
  - cbn [contains_loop]. rewrite orb_true_iff, split_commas_strchr.
    destruct (strchr comma l) as [r|] eqn:Er.
    + apply strchr_split in Er as (x & r' & -> & -> & Hx).
      destruct (head_is_first e x r' He Hx) as [-> _]. rewrite length_app in Hl |- *. cbn [length] in Hl |- *.
      rewrite IH by lia. replace (length x + S (length r') - S (length r'))%nat with (length x) by lia.
      rewrite take_app_length. by rewrite elem_of_cons.
    + apply strchr_none in Er. destruct (head_is_first e l [] He Er) as [_ ->]. rewrite list_elem_of_singleton. split; [by intros [|]|by left].
Qed.
End Lists.
