(* ===== verification/CommandsRun.v ===== *)
(** * Commands of lldpcli: what running and completing do

    Which node a word selects, that every command ends, that privileges are respected, what
    a successful command is, and what completion proposes. *)

From stdpp Require Import strings.
From S2P Require Import Prelude Bytes Text Tokenizer Commands.
#[local] Open Scope Z_scope.

(** ** Selecting a node *)

Section Select.
Context {W : Type} (t : list (cmd_node W)).
Implicit Types (can : nat → bool) (subs : list nat).

(** The candidates: nodes that start with the word and can be entered. *)
Definition eligible can (token_ : word) subs : list nat := List.filter (λ c, matches t token_ c && can c) subs.

(** The choice: the first of the first two candidates that is the word itself, or the only
    candidate. *)
Definition choose (token_ : word) (l : list nat) : (nat * nat) + option nat :=
  match l with
  | [] => inr None
  | [a] => inr (Some a)
  | a :: b :: _ => if exact t token_ a then inr (Some a)
                   else if exact t token_ b then inr (Some b) else inl (b, a)
  end.

Lemma find_token_some can token_ subs b :
  find_token t can token_ subs (Some b) =
  match eligible can token_ subs with
  | [] => inr (Some b)
  | c :: _ => if exact t token_ c then inr (Some c) else inl (c, b)
  end.
Proof.
  induction subs as [|c subs IH]; [done|]. cbn [find_token eligible List.filter].
  destruct (matches t token_ c && can c); [done|]. apply IH.
Qed.

Lemma find_token_choose can token_ subs :
  find_token t can token_ subs None = choose token_ (eligible can token_ subs).
Proof.
  induction subs as [|c subs IH]; [done|]. cbn [find_token eligible List.filter].
  destruct (matches t token_ c && can c); [|apply IH].
  rewrite find_token_some. unfold choose. fold (eligible can token_ subs).
  destruct (eligible can token_ subs) as [|d l]; [by destruct (exact t token_ c)|]. by destruct (exact t token_ c).
Qed.

Lemma eligible_elem can token_ subs c :
  c ∈ eligible can token_ subs ↔ c ∈ subs ∧ matches t token_ c = true ∧ can c = true.
Proof. unfold eligible. rewrite !list_elem_of_In, List.filter_In, andb_true_iff. done. Qed.

(** A word that only one node starts with. *)
Lemma find_best_only can token_ subs c :
  List.filter (matches t token_) subs = [c] → can c = true → find_best t can token_ subs = inr (Some c).
Proof.
  intros Hm Hc. assert (eligible can token_ subs = List.filter can (List.filter (matches t token_) subs)) as He.
  { clear Hm Hc. induction subs as [|d subs IH]; [done|]. cbn. destruct (matches t token_ d); cbn; [|done].
    destruct (can d); by rewrite <- IH. }
  unfold find_best. rewrite find_token_choose, He, Hm. cbn. by rewrite Hc.
Qed.

(** A node without a token, alone, takes any word. *)
Lemma find_best_free can token_ c :
  token (node t c) = None → can c = true → find_best t can token_ [c] = inr (Some c).
Proof. intros Ht Hc. unfold find_best. cbn. unfold matches. rewrite Ht. cbn. by rewrite Hc. Qed.

(** What is selected can be entered, and its token, if it has one, starts with the word. *)
Lemma find_best_sound can token_ subs best :
  find_best t can token_ subs = inr (Some best) →
  best ∈ subs ∧ can best = true ∧ (matches t token_ best = true ∨ token (node t best) = None).
Proof.
  unfold find_best. rewrite find_token_choose.
  destruct (choose token_ (eligible can token_ subs)) as [|[b|]] eqn:Ec; [done| |].
  - intros [= <-]. assert (b ∈ eligible can token_ subs) as Hb.
    { destruct (eligible can token_ subs) as [|a [|d l]]; cbn in Ec; [done|inversion Ec; by left|].
      destruct (exact t token_ a); [inversion Ec; by left|]. destruct (exact t token_ d); [inversion Ec; by right; left|done]. }
    apply eligible_elem in Hb as (? & ? & ?). auto.
  - clear Ec. induction subs as [|c subs IH]; [done|]. cbn [find_free].
    destruct (bool_decide (token (node t c) = None) && can c) eqn:E.
    + intros [= <-]. apply andb_true_iff in E as [E1 E2]. apply bool_decide_eq_true in E1. split; [by left|auto].
    + intros Hf. destruct (IH Hf) as (? & ? & ?). split; [by right|auto].
Qed.

Lemma find_free_token can subs best : find_free t can subs = Some best → token (node t best) = None.
Proof.
  induction subs as [|c subs IH]; [done|]. cbn [find_free]. case_if; [|done].
  intros [= <-]. by apply bool_decide_eq_true in H.
Qed.

(** An abbreviation selects what the whole word selects. *)
Lemma find_best_abbreviation can token_ subs best full :
  find_best t can token_ subs = inr (Some best) → token (node t best) = Some full →
  find_best t can full subs = inr (Some best).
Proof.
  intros Hf Hfull. unfold find_best in *. rewrite find_token_choose in *.
  destruct (choose token_ (eligible can token_ subs)) as [|[b|]] eqn:Ec; [done| |].
  2: { inversion Hf as [Hf']. apply find_free_token in Hf'. congruence. }
  injection Hf as ->.
  destruct (decide (token_ = full)) as [->|Hne]; [by rewrite Ec|].
  assert (eligible can token_ subs = [best]) as El.
  { destruct (eligible can token_ subs) as [|a [|d l]]; cbn in Ec; [done|congruence|]. unfold exact in Ec.
    destruct (bool_decide (token (node t a) = Some token_)) eqn:Ea; [apply bool_decide_eq_true in Ea; congruence|].
    destruct (bool_decide (token (node t d) = Some token_)) eqn:Ed; [apply bool_decide_eq_true in Ed; congruence|done]. }
  assert (best ∈ eligible can token_ subs) as Hb by (rewrite El; by left).
  apply eligible_elem in Hb as (_ & Hm & Hcan). unfold matches in Hm. rewrite Hfull in Hm. apply bool_decide_eq_true in Hm.
  assert (∀ c, matches t full c = true → matches t token_ c = true) as Hmono.
  { intros c. unfold matches. destruct (token (node t c)); [|done]. rewrite !bool_decide_eq_true. by etrans. }
  assert (eligible can full subs = List.filter (matches t full) (eligible can token_ subs)) as ->.
  { unfold eligible. clear El Ec. induction subs as [|c subs IH]; [done|]. cbn [List.filter].
    destruct (matches t full c) eqn:Ef.
    - rewrite (Hmono c Ef). destruct (can c); cbn [andb List.filter]; rewrite ?Ef, ?IH; done.
    - cbn [andb]. rewrite IH. destruct (matches t token_ c && can c); cbn [List.filter]; by rewrite ?Ef. }
  rewrite El. cbn [List.filter]. unfold matches. rewrite Hfull, bool_decide_true by done. done.
Qed.
End Select.

(** ** Running *)

Section Run.
Context {W : Type} (t : list (cmd_node W)).

(** What the functions of commands.c allow a node to do to the environment: the words and
    the position are private, variables are only added. *)
Definition respects (f : @executor W) : Prop := ∀ e w r e' w',
  f e w = (r, e', w') → argv e' = argv e ∧ argp e' = argp e ∧ elements e `prefix_of` elements e'.
Definition tree_ok : Prop := ∀ i f, execute (node t i) = Some f → respects f.

(** What a turn that goes on did: a node that could be entered was selected for the
    current word and its function succeeded. *)
Definition current_word (help complete : bool) (e : cmd_env) : option word :=
  if (argp e <? argc e)%nat then argv e !! argp e
  else if (argp e =? argc e)%nat && negb help && negb complete then Some NEWLINE else None.
Definition enter (best : nat) (e : cmd_env) (w : W) : Z * cmd_env * W :=
  match execute (node t best) with None => (1, cmdenv_push e best, w) | Some f => f (cmdenv_push e best) w end.

Lemma command_step_inr completion priv s s' :
  command_step t completion priv s = inr s' →
  ∃ current best word e',
    cmdenv_top (env s) = Some current ∧
    current_word (help s') (complete s') (env s) = Some word ∧
    (completion = false → help s' = is_set (env s) (chars "help") ∧ complete s' = is_set (env s) (chars "complete")) ∧
    (completion = true → help s' = help s ∧ complete s' = complete s ∧ S (argp (env s)) ≠ argc (env s)) ∧
    find_best t (can_execute t (env s) priv (complete s')) word (subentries (node t current)) = inr (Some best) ∧
    enter best (env s) (world s) = (1, e', world s') ∧
    env s' = e' <| argp ::= S |> ∧ rc s' = rc s ∧ entered s' = (best, complete s') :: entered s.
Proof.
  unfold command_step. destruct (cmdenv_top (env s)) as [current|] eqn:Etop; [|done].
  set (h := if completion then help s else _). set (c := if completion then complete s else _).
  cbn [env rc help complete world entered].
  fold (current_word h c (env s)). destruct (current_word h c (env s)) as [word|] eqn:Ew; [|done].
  destruct (completion && _) eqn:Elast; [done|].
  destruct (find_best _ _ _ _) as [|[best|]] eqn:Ef; [done| |by case_if].
  fold (enter best (env s) (world s)). destruct (enter best (env s) (world s)) as [[r e'] w'] eqn:Een.
  destruct (Z.eqb_spec r 1) as [->|]; [|done]. intros [= <-]. exists current, best, word, e'.
  cbn [env rc help complete world entered]. unfold h, c in *. split_and!; try done.
  - by intros ->.
  - intros ->. split_and!; try done. cbn in Elast. by apply Nat.eqb_neq.
Qed.

Lemma enter_respects best e w r e' w' :
  tree_ok → enter best e w = (r, e', w') →
  argv e' = argv e ∧ argp e' = argp e ∧ elements e `prefix_of` elements e'.
Proof.
  intros Hok. unfold enter. destruct (execute (node t best)) as [f|] eqn:Ef.
  - intros He. by apply (Hok _ _ Ef) in He.
  - intros [= <- <- <-]. done.
Qed.

Lemma command_step_progress completion priv s s' :
  tree_ok → command_step t completion priv s = inr s' →
  argv (env s') = argv (env s) ∧ argp (env s') = S (argp (env s)) ∧ (argp (env s) ≤ argc (env s))%nat.
Proof.
  intros Hok Hs. apply command_step_inr in Hs as (cur & best & word & e' & _ & Hw & _ & _ & _ & Hen & -> & _).
  destruct (enter_respects _ _ _ _ _ _ Hok Hen) as (Ha & Hp & _). cbn. split_and!; [done|by rewrite Hp|].
  unfold current_word in Hw. destruct (Nat.ltb_spec (argp (env s)) (argc (env s))); [lia|].
  destruct (Nat.eqb_spec (argp (env s)) (argc (env s))); [lia|done].
Qed.

Lemma command_loop_ends fuel completion priv s :
  tree_ok → (S (argc (env s)) ≤ fuel + argp (env s))%nat →
  ∃ s', command_loop t fuel completion priv s = Some s'.
Proof.
  intros Hok. revert s. induction fuel as [|fuel IH]; intros s Hf; cbn [command_loop].
  - destruct (command_step t completion priv s) as [s'|s'] eqn:Es; [by eexists|].
    apply (command_step_progress _ _ _ _ Hok) in Es as (_ & _ & Hl). lia.
  - destruct (command_step t completion priv s) as [s'|s'] eqn:Es; [by eexists|].
    apply (command_step_progress _ _ _ _ Hok) in Es as (Ha & Hp & _). apply IH.
    unfold argc in *. rewrite Ha, Hp. lia.
Qed.

(** Every command of lldpcli comes to an end, whatever the tree of commands and the words
    typed: the loop enters at most one node per word and one for the end of the line. *)
Theorem commands_terminate root args completion priv w :
  tree_ok → ∃ s, command_loop t (run_fuel args) completion priv (start root args w) = Some s.
Proof. intros Hok. apply command_loop_ends; [done|]. unfold run_fuel, argc. cbn. lia. Qed.

(** An invariant of the state that every turn keeps. *)
Lemma command_loop_invariant (P : state W → Prop) completion priv fuel s s' :
  (∀ s s', P s → command_step t completion priv s = inr s' → P s') →
  (∀ s s', P s → command_step t completion priv s = inl s' → P s') →
  P s → command_loop t fuel completion priv s = Some s' → P s'.
Proof.
  intros Hr Hl. revert s. induction fuel as [|fuel IH]; intros s Hs; cbn [command_loop].
  - destruct (command_step t completion priv s) eqn:Es; [|done]. intros [= <-]. eauto.
  - destruct (command_step t completion priv s) eqn:Es; [|by eauto]. intros [= <-]. eauto.
Qed.

(** ** Privileges *)

(** Nodes that were entered, and how the last one was chosen when a turn leaves the loop. *)
Lemma command_step_inl completion priv s s' :
  command_step t completion priv s = inl s' →
  (completion = true → complete s' = complete s) ∧
  (entered s' = entered s ∨
   ∃ best word current, entered s' = (best, complete s') :: entered s ∧
     find_best t (can_execute t (env s) priv (complete s')) word (subentries (node t current)) = inr (Some best)).
Proof.
  unfold command_step. destruct (cmdenv_top (env s)) as [current|]; [|intros [= <-]; by split; [|left]].
  cbn [env rc help complete world entered].
  set (c := if completion then complete s else _). assert (completion = true → c = complete s) as Hc by (unfold c; by intros ->).
  clearbody c.
  destruct (if (argp (env s) <? argc (env s))%nat then _ else _) as [word|]; [|intros [= <-]; by split; [|left]].
  destruct (completion && _); [intros [= <-]; by split; [|left]|].
  destruct (find_best _ _ _ _) as [|[best|]] eqn:Ef; [intros [= <-]; by split; [|left]| |intros [= <-]; by case_if; split; [|left| |left]].
  destruct (match execute (node t best) with Some _ => _ | None => _ end) as [[r e'] w'].
  destruct (r =? 1); [done|]. intros [= <-]. split; [done|]. right. by exists best, word, current.
Qed.

Definition allowed (priv : bool) (x : nat * bool) : Prop :=
  privileged (node t x.1) = true → priv = true ∨ x.2 = true.
Lemma find_best_allowed e priv complete word subs best :
  find_best t (can_execute t e priv complete) word subs = inr (Some best) → allowed priv (best, complete).
Proof.
  intros Hf Hp. apply find_best_sound in Hf as (_ & Hcan & _). unfold can_execute in Hcan. cbn in Hp. rewrite Hp in Hcan.
  apply andb_true_iff in Hcan as [Hcan _]. by apply orb_true_iff in Hcan.
Qed.

Definition entered_ok (completion priv : bool) (s : state W) : Prop :=
  Forall (allowed priv) (entered s) ∧
  (completion = true → complete s = false ∧ Forall (λ x, x.2 = false) (entered s)).

(** C29: without privileges no node that asks for them is ever entered, except under the word
    complete, which lists what could follow; when a word is completed there is no exception. *)
Theorem privileges_respected root args completion priv w s :
  command_loop t (run_fuel args) completion priv (start root args w) = Some s →
  Forall (allowed priv) (entered s) ∧ (completion = true → Forall (λ x, x.2 = false) (entered s)).
Proof.
  intros Hl. assert (entered_ok completion priv s) as [Ha Hc]; [|split; [done|by intros ?; apply Hc]].
  revert Hl. apply command_loop_invariant; [| |by split; [constructor|split]].
  - intros s1 s2 [H1 H2] Hs. apply command_step_inr in Hs as (cur & best & word & e' & _ & _ & _ & Hcomp & Hf & _ & _ & _ & He).
    unfold entered_ok. rewrite He. split; [constructor; [by eapply find_best_allowed|done]|].
    intros Hc. destruct (H2 Hc) as [Hc1 Hall]. destruct (Hcomp Hc) as (_ & Hc2 & _). rewrite Hc1 in Hc2. by rewrite Hc2; split; [|constructor].
  - intros s1 s2 [H1 H2] Hs. apply command_step_inl in Hs as [Hcomp [He|(best & word & cur & He & Hf)]];
      unfold entered_ok; rewrite He.
    + split; [done|]. intros Hc. destruct (H2 Hc) as [Hc1 Hall]. by rewrite (Hcomp Hc).
    + split; [constructor; [by eapply find_best_allowed|done]|].
      intros Hc. destruct (H2 Hc) as [Hc1 Hall]. rewrite (Hcomp Hc), Hc1. by split; [|constructor].
Qed.

(** ** Success *)

(** The turns of a loop that succeeds. *)
Definition plain (e : cmd_env) : Prop := is_set e (chars "help") = false ∧ is_set e (chars "complete") = false.
Inductive walks (priv : bool) : cmd_env → W → cmd_env → W → Prop :=
  | walks_end e w :
      argp e = S (argc e) → (cmdenv_top e = None ∨ plain e) → walks priv e w e w
  | walks_word e w current word best e1 w1 e2 w2 :
      cmdenv_top e = Some current → plain e → cmdenv_arg e = Some word →
      find_best t (can_execute t e priv false) word (subentries (node t current)) = inr (Some best) →
      enter best e w = (1, e1, w1) →
      walks priv (e1 <| argp ::= S |>) w1 e2 w2 → walks priv e w e2 w2.

Lemma current_word_arg e : current_word false false e = cmdenv_arg e.
Proof. unfold current_word, cmdenv_arg. by rewrite !andb_true_r. Qed.

(** A state in which nothing failed and no help was asked. *)
Definition good (s : state W) : Prop := rc s = 0 ∧ help s = false ∧ complete s = false.

Lemma step_walks_end priv s :
  good s → argp (env s) = S (argc (env s)) → cmdenv_top (env s) = None ∨ plain (env s) →
  ∃ s', command_step t false priv s = inl s' ∧ good s' ∧ env s' = env s ∧ world s' = world s.
Proof.
  intros (Hr & Hh & Hc) Ha Hp. unfold command_step. destruct (cmdenv_top (env s)) as [cur|] eqn:Et; [|by eexists].
  destruct Hp as [|[Hp1 Hp2]]; [done|]. cbn [env rc help complete world entered].
  rewrite (proj2 (Nat.ltb_ge _ _)), (proj2 (Nat.eqb_neq _ _)) by lia. cbn [andb].
  eexists. split; [done|]. by split; [split; [|split]|].
Qed.

Lemma step_walks_word priv s current word best e1 w1 :
  good s → cmdenv_top (env s) = Some current → plain (env s) → cmdenv_arg (env s) = Some word →
  find_best t (can_execute t (env s) priv false) word (subentries (node t current)) = inr (Some best) →
  enter best (env s) (world s) = (1, e1, w1) →
  ∃ s', command_step t false priv s = inr s' ∧ good s' ∧ env s' = e1 <| argp ::= S |> ∧ world s' = w1.
Proof.
  intros (Hr & Hh & Hc) Et [Hp1 Hp2] Hw Hf He. unfold command_step. rewrite Et.
  cbn [env rc help complete world entered]. rewrite Hp1, Hp2.
  fold (current_word false false (env s)). rewrite current_word_arg, Hw. cbn [andb]. rewrite Hf.
  fold (enter best (env s) (world s)). rewrite He. cbn. eexists. split; [done|]. by split; [split; [|split]|].
Qed.

Lemma loop_walks priv e w e2 w2 fuel s :
  tree_ok → walks priv e w e2 w2 → env s = e → world s = w → good s → (S (argc e) ≤ fuel + argp e)%nat →
  ∃ s', command_loop t fuel false priv s = Some s' ∧ good s' ∧ env s' = e2 ∧ world s' = w2.
Proof.
  intros Hok Hsp. revert fuel s. induction Hsp as [e w Ha Hp|e w cur word best e1 w1 e2 w2 Ht Hp Hw Hf He Hsp IH];
    intros fuel s <- <- Hg Hl.
  - destruct (step_walks_end priv s Hg Ha Hp) as (s' & Hs & Hrest). exists s'. split; [|done]. destruct fuel; cbn; by rewrite Hs.
  - destruct (step_walks_word priv s cur word best e1 w1 Hg Ht Hp Hw Hf He) as (s1 & Hs & Hg1 & He1 & Hw1).
    destruct (command_step_progress _ _ _ _ Hok Hs) as (Hav & Hap & Hle).
    destruct fuel as [|fuel]; [lia|]. cbn [command_loop]. rewrite Hs. apply IH; try done.
    rewrite <- He1. unfold argc in *. rewrite Hav, Hap. lia.
Qed.

(** Variables stay set, so help and complete once asked for stay asked for. *)
Lemma env_find_app els els' key v : env_find els key = Some v → env_find (els ++ els') key = Some v.
Proof. induction els as [|[k u] els IH]; cbn; [done|]. case_if; auto. Qed.
Lemma is_set_mono e e' key : elements e `prefix_of` elements e' → is_set e key = true → is_set e' key = true.
Proof.
  unfold is_set, cmdenv_get. intros [l ->]. destruct (env_find (elements e) key) as [v|] eqn:Ev; [|done].
  by rewrite (env_find_app _ l _ _ Ev).
Qed.

Lemma step_flags priv s s' :
  tree_ok → command_step t false priv s = inr s' →
  (help s' = true → is_set (env s') (chars "help") = true) ∧
  (complete s' = true → is_set (env s') (chars "complete") = true).
Proof.
  intros Hok Hs. apply command_step_inr in Hs as (cur & best & word & e' & _ & _ & Hfl & _ & _ & Hen & He & _).
  destruct (Hfl eq_refl) as [-> ->]. destruct (enter_respects _ _ _ _ _ _ Hok Hen) as (_ & _ & Hel).
  rewrite He. by split; apply is_set_mono.
Qed.

Definition flags_of (s : state W) (h c : bool) : Prop :=
  (h = true → help s = true ∧ is_set (env s) (chars "help") = true) ∧
  (c = true → complete s = true ∧ is_set (env s) (chars "complete") = true).

Lemma step_flags_kept priv h c s s' :
  tree_ok → flags_of s h c → command_step t false priv s = inr s' → flags_of s' h c.
Proof.
  intros Hok [Hh Hc] Hs. pose proof (step_flags _ _ _ Hok Hs) as [Hh' Hc'].
  apply command_step_inr in Hs as (cur & best & word & e' & _ & _ & Hfl & _ & _ & Hen & He & _).
  destruct (Hfl eq_refl) as [E1 E2]. split.
  - intros Hht. destruct (Hh Hht) as [_ Hset]. rewrite Hset in E1. auto.
  - intros Hct. destruct (Hc Hct) as [_ Hset]. rewrite Hset in E2. auto.
Qed.
Lemma step_end_flags priv h c s s' :
  flags_of s h c → command_step t false priv s = inl s' → (h = true → help s' = true) ∧ (c = true → complete s' = true).
Proof.
  intros [Hh Hc]. unfold command_step. destruct (cmdenv_top (env s)); [|intros [= <-]; split; intros Ht; [by apply Hh|by apply Hc]].
  cbn [env rc help complete world entered].
  assert (∀ s0 : state W, help s0 = is_set (env s) (chars "help") → complete s0 = is_set (env s) (chars "complete") →
    (h = true → help s0 = true) ∧ (c = true → complete s0 = true)) as Hgoal.
  { intros s0 -> ->. split; intros Ht; [by apply Hh|by apply Hc]. }
  destruct (if (argp (env s) <? argc (env s))%nat then _ else _); [|intros [= <-]; by apply Hgoal]. cbn [andb].
  destruct (find_best _ _ _ _) as [|[best|]]; [intros [= <-]; by apply Hgoal| |intros [= <-]; case_if; by apply Hgoal].
  destruct (match execute (node t best) with Some _ => _ | None => _ end) as [[r e'] w'].
  destruct (r =? 1); [done|]. intros [= <-]. by apply Hgoal.
Qed.

Lemma loop_flags priv h c fuel s s' :
  tree_ok → flags_of s h c → command_loop t fuel false priv s = Some s' →
  (h = true → help s' = true) ∧ (c = true → complete s' = true).
Proof.
  intros Hok. revert s. induction fuel as [|fuel IH]; intros s Hs; cbn [command_loop];
    destruct (command_step t false priv s) as [s1|s1] eqn:Es; try done.
  - intros [= <-]. by eapply step_end_flags.
  - intros [= <-]. by eapply step_end_flags.
  - apply IH. by eapply step_flags_kept.
Qed.

(** A turn that leaves the loop after the end of the line did nothing. *)
Lemma step_end priv s s' :
  command_step t false priv s = inl s' → good s' → argp (env s') = S (argc (env s')) →
  env s' = env s ∧ world s' = world s ∧ (cmdenv_top (env s) = None ∨ plain (env s)).
Proof.
  intros Hs (Hr & Hh & Hc) Ha. revert Hs. unfold command_step.
  destruct (cmdenv_top (env s)) as [cur|]; [|intros [= <-]; by split_and!; [| |left]].
  cbn [env rc help complete world entered].
  destruct (if (argp (env s) <? argc (env s))%nat then _ else _) as [word|].
  - cbn [andb]. destruct (find_best _ _ _ _) as [|[best|]]; [intros [= <-]; done| |].
    + destruct (match execute (node t best) with Some _ => _ | None => _ end) as [[r e'] w'].
      destruct (r =? 1); [done|]. by intros [= <-].
    + intros [= <-]. destruct (Nat.eqb_spec (argp (env s)) (argc (env s))); [cbn in Ha; lia|done].
  - intros [= <-]. cbn in *. split_and!; [done|done|by right].
Qed.

Lemma walks_loop priv fuel s s' :
  tree_ok → command_loop t fuel false priv s = Some s' → good s' → argp (env s') = S (argc (env s')) →
  walks priv (env s) (world s) (env s') (world s').
Proof.
  intros Hok. revert s. induction fuel as [|fuel IH]; intros s; cbn [command_loop];
    destruct (command_step t false priv s) as [s1|s1] eqn:Es; try done; intros Hl Hg Ha.
  - injection Hl as ->. destruct (step_end _ _ _ Es Hg Ha) as (He & Hw & Hp). rewrite <- Hw, He in *. by constructor.
  - injection Hl as ->. destruct (step_end _ _ _ Es Hg Ha) as (He & Hw & Hp). rewrite <- Hw, He in *. by constructor.
  - specialize (IH s1 Hl Hg Ha). pose proof (step_flags _ _ _ Hok Es) as [Hfh Hfc].
    apply command_step_inr in Es as (cur & best & word & e' & Ht & Hw & Hfl & _ & Hf & Hen & He & _).
    destruct (Hfl eq_refl) as [E1 E2].
    assert (help s1 = false ∧ complete s1 = false) as [F1 F2].
    { destruct (loop_flags priv (help s1) (complete s1) fuel s1 s' Hok) as [L1 L2]; [by split; auto|done|].
      destruct Hg as (_ & G1 & G2). split; [destruct (help s1); [|done]; by rewrite L1 in G1|destruct (complete s1); [|done]; by rewrite L2 in G2]. }
    rewrite F1, F2 in *. rewrite He in IH. eapply walks_word; try done.
    by rewrite <- current_word_arg.
Qed.

(** The words do not change. *)
Lemma step_inl_argv completion priv s s' :
  tree_ok → command_step t completion priv s = inl s' → argv (env s') = argv (env s).
Proof.
  intros Hok. unfold command_step. destruct (cmdenv_top (env s)) as [current|]; [|by intros [= <-]].
  cbn [env rc help complete world entered].
  destruct (if (argp (env s) <? argc (env s))%nat then _ else _) as [word|]; [|by intros [= <-]].
  destruct (completion && _); [by intros [= <-]|].
  destruct (find_best _ _ _ _) as [|[best|]]; [by intros [= <-]| |by intros [= <-]; case_if].
  fold (enter best (env s) (world s)). destruct (enter best (env s) (world s)) as [[r e'] w'] eqn:Een.
  destruct (r =? 1); [done|]. intros [= <-]. cbn [env]. by apply (enter_respects _ _ _ _ _ _ Hok) in Een as [-> _].
Qed.
Lemma loop_argv completion priv fuel s s' :
  tree_ok → command_loop t fuel completion priv s = Some s' → argv (env s') = argv (env s).
Proof.
  intros Hok Hl. revert Hl. apply (command_loop_invariant (λ x, argv (env x) = argv (env s))); [| |done].
  - intros s1 s2 H1 H2. apply (command_step_progress _ _ _ _ Hok) in H2 as [-> _]. done.
  - intros s1 s2 H1 H2. by rewrite (step_inl_argv _ _ _ _ Hok H2).
Qed.

(** A command whose words spell a path succeeds. *)
Lemma walks_execute root args priv w e' w' :
  tree_ok → walks priv (Env [] [root] 0 args) w e' w' →
  ∃ s, _commands_execute t root args false false priv w = Some (0, Nothing, s) ∧ good s ∧ world s = w'.
Proof.
  intros Hok Hsp. unfold _commands_execute.
  destruct (loop_walks priv _ _ _ _ (run_fuel args) (start root args w) Hok Hsp eq_refl eq_refl) as (s & El & Hg & He & Hw);
    [by split_and!|unfold run_fuel, argc; cbn; lia|].
  exists s. rewrite El. pose proof Hg as (Hr & Hh & Hc). cbn [mbind option_bind]. rewrite Hh, Hc, Hr. cbn [negb andb].
  assert (argp (env s) = S (length args)) as Hap.
  { rewrite He. assert (argp e' = S (argc e')) as -> by (clear -Hsp; induction Hsp; auto). unfold argc. f_equal.
    rewrite <- He. by rewrite (loop_argv _ _ _ _ _ Hok El). }
  rewrite Hap, Nat.eqb_refl. by split_and!.
Qed.

Lemma execute_walks root args priv w w' :
  tree_ok →
  (∃ s, _commands_execute t root args false false priv w = Some (0, Nothing, s) ∧
        help s = false ∧ complete s = false ∧ world s = w') ↔
  ∃ e', walks priv (Env [] [root] 0 args) w e' w'.
Proof.
  intros Hok. unfold _commands_execute. split.
  - intros (s & Hex & Hh & Hc & <-). destruct (command_loop _ _ _ _ _) as [s0|] eqn:El; [|done]. cbn [mbind option_bind] in Hex.
    destruct (negb false && negb (help s0) && negb (complete s0)) eqn:Ef.
    + apply andb_true_iff in Ef as [Ef Ec]. apply andb_true_iff in Ef as [_ Eh]. bool_to_prop.
      destruct ((rc s0 =? 0) && negb _) eqn:Ea; [done|]. injection Hex as Hr ->.
      rewrite Hr in Ea. cbn in Ea. bool_to_prop. apply Nat.eqb_eq in Ea.
      exists (env s). apply (walks_loop priv _ _ _ Hok El); [done|]. unfold argc.
      by rewrite (loop_argv _ _ _ _ _ Hok El).
    + assert (s = s0) as ->; [|by rewrite Hh, Hc in Ef].
      destruct ((rc s0 =? 0) && _); [|congruence].
      destruct (cmdenv_top (env s0)); [|done]. cbn [mbind option_bind] in Hex.
      destruct (if help s0 || complete s0 then _ else _); [|done]. cbn [mbind option_bind] in Hex. congruence.
  - intros (e' & Hsp). destruct (walks_execute root args priv w e' w' Hok Hsp) as (s & Hex & (_ & Hh & Hc) & Hw). by exists s.
Qed.
End Run.

(** ** What a command is *)

Section Spell.
Context {W : Type} (t : list (cmd_node W)).
Implicit Types (priv : bool) (e : cmd_env) (word : word) (i : nat).

(** A node can be entered with the privilege it asks for, if any, and when its own check
    passes; a candidate for a word is such a node whose token starts with the word. *)
Definition enterable priv e i : Prop :=
  (privileged (node t i) = true → priv = true) ∧ ∀ f, validate (node t i) = Some f → f e = 1.
Definition candidate priv e word i : Prop :=
  (∃ s, token (node t i) = Some s ∧ word `prefix_of` s) ∧ enterable priv e i.

(** The node that a word selects among the children of a node, in their order: the only
    candidate; the node whose token is the word, when there is at most one candidate before
    it; without candidates, the first node without a token that can be entered. *)
Inductive selects priv e word : list nat → nat → Prop :=
  | selects_only pre i post :
      candidate priv e word i → Forall (λ j, ¬ candidate priv e word j) (pre ++ post) →
      selects priv e word (pre ++ i :: post) i
  | selects_exact p1 other p2 i post :
      token (node t i) = Some word → enterable priv e i →
      Forall (λ j, ¬ candidate priv e word j) (p1 ++ p2) →
      (∀ o, other = Some o → token (node t o) ≠ Some word) →
      selects priv e word (p1 ++ option_list other ++ p2 ++ i :: post) i
  | selects_free pre i post :
      Forall (λ j, ¬ candidate priv e word j) (pre ++ i :: post) →
      token (node t i) = None → enterable priv e i →
      Forall (λ j, token (node t j) = None → ¬ enterable priv e j) pre →
      selects priv e word (pre ++ i :: post) i.

(** The function of a node, which runs on the top of the stack and succeeds. *)
Definition succeeds i e (w : W) e' (w' : W) : Prop :=
  match execute (node t i) with
  | None => e' = e <| stack := i :: stack e |> ∧ w' = w
  | Some f => f (e <| stack := i :: stack e |>) w = (1, e', w')
  end.

(** No help was asked for. *)
Definition unaided e : Prop := ∀ v, ((chars "help", v) ∉ elements e) ∧ ((chars "complete", v) ∉ elements e).

(** The words of a command from the current one on, and then the end of the line, spell a
    path: each selects a child of the node at the top, whose function succeeds. *)
Inductive spells priv : cmd_env → W → cmd_env → W → Prop :=
  | spells_end e w : argp e = S (length (argv e)) → (stack e = [] ∨ unaided e) → spells priv e w e w
  | spells_word e w current rest word i e1 w1 e2 w2 :
      stack e = current :: rest → unaided e → (argv e ++ [chars "<CR>"]) !! argp e = Some word →
      selects priv e word (subentries (node t current)) i → succeeds i e w e1 w1 →
      spells priv (e1 <| argp := S (argp e1) |>) w1 e2 w2 → spells priv e w e2 w2.

Lemma can_execute_enterable priv e i : can_execute t e priv false i = true ↔ enterable priv e i.
Proof.
  unfold can_execute, enterable. rewrite orb_false_r, andb_true_iff, orb_true_iff, negb_true_iff.
  split.
  - intros [Hp Hv]. split; [intros Hq; rewrite Hq in Hp; by destruct Hp|]. intros f Hf. rewrite Hf in Hv. by apply Z.eqb_eq.
  - intros [Hp Hv]. split; [destruct (privileged (node t i)); auto|].
    destruct (validate (node t i)) as [f|]; [|done]. by rewrite (Hv f eq_refl).
Qed.
Lemma eligible_candidate priv e word i :
  (matches t word i && can_execute t e priv false i) = true ↔ candidate priv e word i.
Proof.
  rewrite andb_true_iff, can_execute_enterable. unfold candidate, matches.
  destruct (token (node t i)) as [s|]; [rewrite bool_decide_eq_true|]; split; intros [H1 H2]; split; try done.
  - by exists s.
  - by destruct H1 as (? & [= <-] & ?).
  - by destruct H1 as (? & ? & ?).
Qed.

Abbreviation eligibles priv e word := (eligible t (can_execute t e priv false) word).
Lemma eligible_none priv e word subs :
  eligibles priv e word subs = [] ↔ Forall (λ j, ¬ candidate priv e word j) subs.
Proof.
  unfold eligible. induction subs as [|c subs IH]; [by split|]. rewrite List.Forall_cons_iff, <- (eligible_candidate priv e word c), <- IH. cbn [List.filter].
  destruct (_ && _); split; try done; [|by intros [_ ?]]. by intros [? _].
Qed.
Lemma eligible_app priv e word l k : eligibles priv e word (l ++ k) = eligibles priv e word l ++ eligibles priv e word k.
Proof. apply filter_app. Qed.
Lemma eligible_first priv e word subs a l :
  eligibles priv e word subs = a :: l → ∃ pre post, subs = pre ++ a :: post ∧
    Forall (λ j, ¬ candidate priv e word j) pre ∧ candidate priv e word a ∧ eligibles priv e word post = l.
Proof.
  induction subs as [|c subs IH]; [done|]. unfold eligible in *. cbn [List.filter].
  destruct (_ && _) eqn:Ec.
  - intros [= -> <-]. exists [], subs. split_and!; try done. by apply eligible_candidate.
  - intros Hl. destruct (IH Hl) as (pre & post & -> & Hpre & Ha & Hpost). exists (c :: pre), post.
    split_and!; try done. constructor; [|done]. by rewrite <- eligible_candidate, Ec.
Qed.

Lemma exact_spec word i : exact t word i = true ↔ token (node t i) = Some word.
Proof. apply bool_decide_eq_true. Qed.
Lemma exact_candidate priv e word i : token (node t i) = Some word → enterable priv e i → candidate priv e word i.
Proof. intros Ht He. split; [by exists word|done]. Qed.

Lemma find_free_spec can subs i :
  find_free t can subs = Some i ↔ ∃ pre post, subs = pre ++ i :: post ∧ token (node t i) = None ∧ can i = true ∧
    Forall (λ j, token (node t j) = None → can j = false) pre.
Proof.
  induction subs as [|c subs IH]; cbn [find_free]; [split; [done|by intros ([] & ? & ? & _)]|].
  destruct (bool_decide (token (node t c) = None) && can c) eqn:Ec.
  - apply andb_true_iff in Ec as [Ec Hc]. apply bool_decide_eq_true in Ec. split.
    + intros [= ->]. exists [], subs. by split_and!.
    + intros ([|d pre] & post & [= -> ->] & Ht & Hi & Hpre); [done|]. apply List.Forall_cons_iff in Hpre as [Hd _]. by rewrite Hd in Hc.
  - rewrite IH. split.
    + intros (pre & post & -> & Ht & Hi & Hpre). exists (c :: pre), post. split_and!; try done. constructor; [|done].
      intros Hn. by rewrite bool_decide_true in Ec by done.
    + intros ([|d pre] & post & [= -> ->] & Ht & Hi & Hpre).
      * by rewrite bool_decide_true, Hi in Ec by done.
      * apply List.Forall_cons_iff in Hpre as [_ Hpre]. exists pre, post. by split_and!.
Qed.

(** The loops of the code select this node. *)
Lemma find_best_selects priv e word subs i :
  find_best t (can_execute t e priv false) word subs = inr (Some i) ↔ selects priv e word subs i.
Proof.
  unfold find_best. rewrite find_token_choose. split.
  - destruct (eligibles priv e word subs) as [|a [|b l]] eqn:El; cbn [choose].
    + intros [= (pre & post & -> & Ht & Hi & Hpre)%find_free_spec]. apply eligible_none in El. apply selects_free; try done.
      * by apply can_execute_enterable.
      * eapply List.Forall_impl; [|exact Hpre]. intros j Hj Hn He. apply can_execute_enterable in He. by rewrite Hj in He.
    + intros [= ->]. apply eligible_first in El as (pre & post & -> & Hpre & Ha & Hpost%eligible_none).
      apply selects_only; [done|]. by apply Forall_app.
    + apply eligible_first in El as (pre & post & -> & Hpre & Ha & Hpost).
      destruct (exact t word a) eqn:Ea.
      * intros [= ->]. apply exact_spec in Ea. destruct Ha. by apply (selects_exact _ _ _ pre None []); rewrite ?app_nil_r.
      * apply eligible_first in Hpost as (pre2 & post2 & -> & Hpre2 & Hb & _).
        destruct (exact t word b) eqn:Eb; [|done]. intros [= ->]. apply exact_spec in Eb. destruct Hb.
        apply (selects_exact _ _ _ pre (Some a) pre2); try done; [by apply Forall_app|].
        intros o [= <-] Ho%exact_spec. congruence.
  - intros [pre j post Hj Hn|p1 other p2 j post Ht He Hn Ho|pre j post Hn Ht He Hpre].
    + apply Forall_app in Hn as [H1%eligible_none H2%eligible_none]. apply eligible_candidate in Hj.
      assert (eligibles priv e word (pre ++ j :: post) = [j]) as ->; [|done].
      rewrite eligible_app, H1. unfold eligible in *. cbn [List.filter app]. by rewrite Hj, H2.
    + apply Forall_app in Hn as [H1%eligible_none H2%eligible_none].
      pose proof (proj2 (eligible_candidate _ _ _ _) (exact_candidate _ _ _ _ Ht He)) as Hj.
      rewrite !eligible_app, H1, H2.
      assert (eligibles priv e word (j :: post) = j :: eligibles priv e word post) as ->.
      { unfold eligible. cbn [List.filter]. by rewrite Hj. }
      cbn [app]. destruct other as [o|]; cbn [option_list option_rect].
      * unfold eligible at 1. cbn [List.filter].
        destruct (matches t word o && can_execute t e priv false o); cbn [app choose].
        -- destruct (exact t word o) eqn:Eo; [by apply exact_spec, Ho in Eo|]. by rewrite (proj2 (exact_spec word j) Ht).
        -- destruct (eligibles priv e word post); [done|]. by rewrite (proj2 (exact_spec word j) Ht).
      * cbn [eligible List.filter app choose]. destruct (eligibles priv e word post); [done|]. by rewrite (proj2 (exact_spec word j) Ht).
    + apply eligible_none in Hn. rewrite Hn. cbn [choose]. f_equal. apply find_free_spec. exists pre, post.
      split_and!; try done; [by apply can_execute_enterable|]. eapply List.Forall_impl; [|exact Hpre].
      intros k Hk Hkn. destruct (can_execute t e priv false k) eqn:Ek; [|done]. by apply can_execute_enterable, Hk in Ek.
Qed.

Lemma is_set_elem e key : is_set e key = false ↔ ∀ v, (key, v) ∉ elements e.
Proof.
  unfold is_set, cmdenv_get. induction (elements e) as [|[k v] els IH]; cbn [env_find].
  - split; [intros _ v Hv; by inversion Hv|done].
  - case_bool_decide as Hk; [subst; split; [done|intros Hv; exfalso; apply (Hv v); by left]|]. rewrite IH. split; intros Hv u.
    + intros [[= -> _]|Hu]%elem_of_cons; [done|by apply (Hv u)].
    + intros Hu. apply (Hv u). by right.
Qed.
Lemma plain_unaided e : plain e ↔ unaided e.
Proof. unfold plain, unaided. rewrite !is_set_elem. split; [by intros [H1 H2] v|intros Hv; split; intros v; apply (Hv v)]. Qed.
Lemma cmdenv_arg_lookup e word : cmdenv_arg e = Some word ↔ (argv e ++ [chars "<CR>"]) !! argp e = Some word.
Proof.
  unfold cmdenv_arg, argc. destruct (Nat.ltb_spec (argp e) (length (argv e))) as [Hl|Hl]; [by rewrite lookup_app_l|].
  rewrite lookup_app_r by done. destruct (Nat.eqb_spec (argp e) (length (argv e))) as [->|Hne]; [by rewrite Nat.sub_diag|].
  destruct (argp e - length (argv e))%nat eqn:E; [lia|]. done.
Qed.
Lemma enter_succeeds i e w e' w' : enter t i e w = (1, e', w') ↔ succeeds i e w e' w'.
Proof.
  unfold enter, succeeds, cmdenv_push. destruct (execute (node t i)); [done|]. split; [by intros [= <- <-]|by intros [-> ->]].
Qed.

Lemma walks_spells priv e w e' w' : walks t priv e w e' w' ↔ spells priv e w e' w'.
Proof.
  split.
  - induction 1 as [e w Ha Hp|e w cur word best e1 w1 e2 w2 Ht Hp Hw Hf He _ IH].
    + apply spells_end; [done|]. destruct Hp as [Hp|Hp%plain_unaided]; [left; unfold cmdenv_top in Hp; by destruct (stack e)|by right].
    + unfold cmdenv_top in Ht. destruct (stack e) as [|c rest] eqn:Es; [done|]. injection Ht as ->.
      eapply spells_word; [exact Es|by apply plain_unaided|by apply cmdenv_arg_lookup|by apply find_best_selects|by apply enter_succeeds|done].
  - induction 1 as [e w Ha Hp|e w cur rest word i e1 w1 e2 w2 Hs Hp Hw Hf He _ IH].
    + apply walks_end; [done|]. unfold cmdenv_top. destruct Hp as [->|Hp%plain_unaided]; [by left|by right].
    + eapply walks_word; [by unfold cmdenv_top; rewrite Hs|by apply plain_unaided|by apply cmdenv_arg_lookup|by apply find_best_selects|by apply enter_succeeds|done].
Qed.

(** C28: a command in which neither help nor completion was asked for succeeds exactly when its words,
    and then the end of the line, spell a path of the tree; what it did is what the functions of the
    nodes of the path did, in that order.  The functions of the tree may add variables and pop nodes,
    and leave the words and the position alone ([tree_ok], which those of commands.c do). *)
Theorem commands_execute_spells root args priv w w' :
  tree_ok t →
  (∃ s, _commands_execute t root args false false priv w = Some (0, Nothing, s) ∧
        help s = false ∧ complete s = false ∧ world s = w') ↔
  ∃ e', spells priv (Env [] [root] 0 args) w e' w'.
Proof. intros Hok. rewrite execute_walks by done. by setoid_rewrite walks_spells. Qed.
End Spell.

(** ** Completion *)

Section Complete.
Implicit Types (words : list candidate_word) (n : nat).

(** A word that counts: not hidden, and with a character [x] at [n]. *)
Definition shows (n : nat) (x : Z) (c : candidate_word) : Prop :=
  chidden c = false → ∃ s, cword c = Some s ∧ s ≠ NEWLINE ∧ s !! n = Some x.

Lemma column_shows n words c p x :
  prefix_column n words c p = (true, Some x) → Forall (shows n x) words ∧ (∀ y, p = Some y → y = x).
Proof.
  revert c p. induction words as [|w words IH]; intros c p; cbn [prefix_column].
  - intros [= -> ->]. split; [constructor|congruence].
  - destruct (chidden w) eqn:Eh.
    { intros Hc. destruct (IH _ _ Hc) as [Hf Hp]. split; [constructor; [by intros ?; congruence|done]|done]. }
    destruct (cword w) as [s|] eqn:Ew; [|done]. destruct (bool_decide_reflect (s = NEWLINE)) as [|Hn]; [done|].
    destruct (s !! n) as [z|] eqn:Ez; [|done]. destruct p as [y|].
    + destruct (Z.eqb_spec y z) as [->|]; [|done]. intros Hc. destruct (IH _ _ Hc) as [Hf Hp].
      specialize (Hp z eq_refl). subst z. split; [|congruence]. constructor; [|done]. intros _. by exists s.
    + intros Hc. destruct (IH _ _ Hc) as [Hf Hp]. specialize (Hp z eq_refl). subst z. split; [|done].
      constructor; [|done]. intros _. by exists s.
Qed.

(** Somebody counts when a character was found. *)
Lemma column_visible n words c p x :
  prefix_column n words c p = (true, Some x) → words ≠ [] → ∃ w, w ∈ words ∧ chidden w = false.
Proof.
  revert c p. induction words as [|w words IH]; intros c p Hc Hne; [done|]. cbn [prefix_column] in Hc.
  destruct (chidden w) eqn:Eh; [|exists w; split; [by left|done]].
  destruct words as [|w' words]; [done|]. destruct (IH _ _ Hc) as (v & Hv & Hh); [done|]. exists v. split; [by right|done].
Qed.

Lemma common_prefix_shows steps n words w :
  w ∈ words → chidden w = false → common_prefix steps n words ≠ [] →
  ∃ s, cword w = Some s ∧ common_prefix steps n words `prefix_of` drop n s.
Proof.
  revert n. induction steps as [|steps IH]; intros n Hw Hh; cbn [common_prefix]; [done|].
  destruct (prefix_column n words true None) as [[] [x|]] eqn:Ec; try done. intros _.
  apply column_shows in Ec as [Hf _]. pose proof (proj1 (list.Forall_forall _ _) Hf w Hw Hh) as (s & Hs & _ & Hx).
  exists s. split; [done|]. rewrite (drop_S _ _ _ Hx).
  destruct (common_prefix steps (S n) words) as [|y q] eqn:Eq; [apply prefix_cons, prefix_nil|].
  destruct (IH (S n) Hw Hh) as (s' & Hs' & Hp); [by rewrite Eq|]. rewrite Eq in Hp.
  assert (s' = s) as -> by congruence. by apply prefix_cons.
Qed.

Lemma prefix_shorter (a b s : word) : a `prefix_of` s → b `prefix_of` s → (length a ≤ length b)%nat → a `prefix_of` b.
Proof. intros Ha Hb Hl. destruct (prefix_weak_total a b s Ha Hb) as [|Hba]; [done|]. apply prefix_length_eq in Hba; [by subst|lia]. Qed.

Context {W : Type} (t : list (cmd_node W)).

Lemma candidates_elem (s : state W) priv typed current c :
  c ∈ candidates t s priv typed current → help s = false → complete s = false →
  cword c = None ∨ ∃ w, cword c = Some w ∧ typed `prefix_of` w.
Proof.
  unfold candidates. rewrite list_elem_of_In, in_map_iff. intros (i & <- & Hi) Hh Hc. cbn.
  apply List.filter_In in Hi as [_ Hk]. apply andb_true_iff in Hk as [Hk _]. rewrite Hh, Hc, !orb_false_r in Hk.
  apply orb_true_iff in Hk as [Hk|Hk]; [left; by apply bool_decide_eq_true in Hk|].
  right. unfold matches in Hk. destruct (token (node t i)) as [w|]; [|done]. exists w. split; [done|by apply bool_decide_eq_true in Hk].
Qed.

(** C30: the word that completion puts in place of the one that was typed continues it, starts every
    visible candidate, and ends with a space only when it is a candidate by itself. *)
Theorem completion_sound root args all priv w c :
  commands_complete t root args all priv w = Some (Some c) →
  ∃ s current typed p,
    command_loop t (run_fuel args) true priv (start root args w) = Some s ∧
    cmdenv_top (env s) = Some current ∧ list.last args = Some typed ∧
    typed `prefix_of` p ∧ typed ≠ p ∧
    (∀ x, x ∈ candidates t s priv typed current → chidden x = false → ∃ u, cword x = Some u ∧ p `prefix_of` u) ∧
    (c = p ∨ c = p ++ [space] ∧ ∃ x, x ∈ candidates t s priv typed current ∧ cword x = Some p).
Proof.
  unfold commands_complete, _commands_execute.
  destruct (command_loop _ _ _ _ _) as [s|] eqn:El; [|done]. cbn [mbind option_bind negb andb].
  destruct ((rc s =? 0) && _); [|cbn; by destruct (rc s)].
  destruct (cmdenv_top (env s)) as [current|] eqn:Et; [|done]. cbn [mbind option_bind].
  destruct (help s || complete s) eqn:Efl.
  { cbn [mbind option_bind]. unfold complete_words. intros Hc. exfalso.
    destruct (candidates _ _ _ _ _) as [|c0 ws]; [by destruct (rc s)|]. revert Hc.
    assert (negb all && negb (help s) && negb (complete s) = false) as -> by (by destruct all, (help s), (complete s)).
    cbn [andb]. by destruct (rc s). }
  apply orb_false_iff in Efl as [Eh Ec].
  destruct (list.last args) as [typed|] eqn:Ety; [|done]. cbn [mbind option_bind].
  destruct (complete_words s all typed (candidates t s priv typed current)) as [c'| |] eqn:Ew; try (by destruct (rc s)).
  destruct (rc s); try done. intros [= ->]. exists s, current, typed.
  unfold complete_words in Ew. set (words := candidates t s priv typed current) in *.
  destruct words as [|w0 ws] eqn:Ewords; [done|]. rewrite <- Ewords in *.
  set (p := common_prefix (max_length words) 0 words) in *. exists p.
  destruct (negb all && negb (help s) && negb (complete s) && negb (bool_decide (p = NEWLINE)) && (0 <? length p)%nat && (length typed <? length p)%nat) eqn:Eg; [|done].
  apply andb_true_iff in Eg as [Eg El2]. apply andb_true_iff in Eg as [_ El1]. apply Nat.ltb_lt in El1, El2.
  assert (p ≠ []) as Hp by (by destruct p; cbn in El1; [lia|]).
  assert (∀ x, x ∈ words → chidden x = false → ∃ u, cword x = Some u ∧ p `prefix_of` u) as Hall.
  { intros x Hx Hxh. destruct (common_prefix_shows (max_length words) 0 words x Hx Hxh Hp) as (u & Hu & Hpu). by exists u. }
  assert (∃ x, x ∈ words ∧ chidden x = false) as (x & Hx & Hxh).
  { unfold p in Hp. destruct (max_length words) as [|m]; cbn [common_prefix] in Hp; [done|].
    destruct (prefix_column 0 words true None) as [[] [y|]] eqn:Ecol; try done.
    apply (column_visible _ _ _ _ _ Ecol). by rewrite Ewords. }
  destruct (Hall x Hx Hxh) as (u & Hu & Hpu).
  destruct (candidates_elem s priv typed current x Hx Eh Ec) as [Hn|(u' & Hu' & Htu)]; [congruence|].
  assert (u' = u) as -> by congruence.
  split_and!; try done.
  - by apply (prefix_shorter typed p u); [| |lia].
  - intros Heq. rewrite Heq in El2. lia.
  - injection Ew as <-. destruct (existsb _ words) eqn:Eex; [right|by left]. split; [done|].
    apply existsb_exists in Eex as (y & Hy & Hyp). apply list_elem_of_In in Hy. apply bool_decide_eq_true in Hyp. by exists y.
Qed.
End Complete.

(** ** The functions of commands.c are as the tree asks *)

Section Stores.
Context {W : Type}.

Lemma cmdenv_pop_keeps n e : argv (cmdenv_pop e n).2 = argv e ∧ argp (cmdenv_pop e n).2 = argp e ∧ elements (cmdenv_pop e n).2 = elements e.
Proof.
  revert e. induction n as [|n IH]; intros e; cbn; [done|]. destruct (stack e); [done|].
  destruct (IH (e <| stack := l |>)) as (-> & -> & ->). done.
Qed.

Lemma put_and_pop_respects key value n : respects (put_and_pop (W := W) key value n).
Proof.
  intros e w r e' w'. unfold put_and_pop.
  pose proof (cmdenv_pop_keeps n (cmdenv_put e key (value e))) as (Ha & Hp & He).
  destruct (cmdenv_pop _ _) as [r0 e0]. cbn in *. intros [= <- <- <-]. split_and!; [done|done|].
  rewrite He. by eexists.
Qed.

(** What was stored is what is read, unless the key was there already. *)
Lemma cmdenv_get_put e key value :
  cmdenv_get e key = None → cmdenv_get (cmdenv_put e key value) key = Some (default key value).
Proof.
  unfold cmdenv_get, cmdenv_put. cbn. induction (elements e) as [|[k v] els IH]; cbn.
  - by rewrite bool_decide_true.
  - case_if; [done|]. apply IH.
Qed.

(** Popping as many nodes as there are, and one too many. *)
Lemma cmdenv_pop_spec e n : cmdenv_pop e n = (if (n <=? length (stack e))%nat then 0 else -1, e <| stack := drop n (stack e) |>).
Proof.
  revert e. induction n as [|n IH]; intros e; cbn [cmdenv_pop]; [by destruct e|].
  destruct e as [els [|x st] p v]; cbn [stack]; [done|]. rewrite IH. done.
Qed.
End Stores.

(** ** Restrictions *)

Section Restrict.
Context {W : Type} (t : list (cmd_node W)) (root : nat).
Context (Hroot : (root < length t)%nat).

Lemma node_lookup (u : list (cmd_node W)) i n : u !! i = Some n → node u i = n.
Proof. unfold node. by intros ->. Qed.

(** The two nodes that are added. *)
Definition restricted (key d1 d2 : word) : list (cmd_node W) := cmd_restrict key d1 d2 t root.
Lemma restricted_nodes key d1 d2 :
  let u := restricted key d1 d2 in
  node u (length t) = Node (Some key) (Some d1) false false (Some (cmd_check_no_env key)) None [S (length t)] ∧
  node u (S (length t)) = Node None (Some d2) false false None (Some (cmd_store_env_value_and_pop2 key)) [] ∧
  node u root = (node t root) <| subentries ::= (λ l, l ++ [length t]) |> ∧
  (∀ i, (i < length t)%nat → i ≠ root → node u i = node t i).
Proof.
  intros u. set (t1 := alter (λ n : cmd_node W, n <| subentries ::= (λ l, l ++ [length t]) |>) root t).
  set (n1 := Node (W := W) (Some key) (Some d1) false false (Some (cmd_check_no_env key)) None []).
  set (n2 := Node (W := W) None (Some d2) false false None (Some (cmd_store_env_value_and_pop2 key)) []).
  assert (length t1 = length t) as Hl1 by (unfold t1; by rewrite length_alter).
  assert (u = (t1 ++ [n1 <| subentries := [S (length t)] |>]) ++ [n2]) as ->.
  { unfold u, restricted, cmd_restrict, commands_new. fold t1. rewrite !Hl1, length_app, Hl1. cbn [length snd].
    rewrite Nat.add_1_r. f_equal. rewrite <- Hl1 at 1. rewrite alter_app_r_alt by lia. by rewrite Nat.sub_diag. }
  split_and!.
  - apply node_lookup. rewrite lookup_app_l by (rewrite length_app; cbn; lia). rewrite <- Hl1. by apply list_lookup_middle.
  - apply node_lookup. rewrite lookup_app_r by (rewrite length_app; cbn; lia). rewrite length_app, Hl1. cbn. by rewrite Nat.add_1_r, Nat.sub_diag.
  - unfold node. rewrite lookup_app_l, lookup_app_l by (rewrite ?length_app; cbn; lia). unfold t1. rewrite list_lookup_alter_eq.
    destruct (t !! root) as [x|] eqn:E; [done|]. apply lookup_ge_None in E. lia.
  - intros i Hi Hne. unfold node. rewrite lookup_app_l, lookup_app_l by (rewrite ?length_app; cbn; lia). unfold t1.
    by rewrite list_lookup_alter_ne.
Qed.

Lemma restricted_token key d1 d2 c : (c < length t)%nat → token (node (restricted key d1 d2) c) = token (node t c).
Proof.
  intros Hc. destruct (restricted_nodes key d1 d2) as (_ & _ & Hr & Ho).
  destruct (decide (c = root)) as [->|Hne]; [by rewrite Hr|by rewrite Ho].
Qed.

(** Under a node with a restriction such as ports, the keyword and a value store the value in the
    environment and come back to the node with the rest of the line; the keyword is then no longer
    accepted. *)
Theorem restriction_stored key d1 d2 priv s rest v :
  let u := restricted key d1 d2 in
  Forall (λ c, (c < length t)%nat ∧ matches t key c = false) (subentries (node t root)) →
  good s → stack (env s) = root :: rest → plain (env s) → cmdenv_get (env s) key = None →
  argv (env s) !! argp (env s) = Some key → argv (env s) !! S (argp (env s)) = Some v →
  ∃ s1 s2, command_step u false priv s = inr s1 ∧ command_step u false priv s1 = inr s2 ∧
    env s2 = (env s) <| elements ::= (λ l, l ++ [(key, Some v)]) |> <| argp := S (S (argp (env s))) |> ∧
    world s2 = world s ∧ cmdenv_get (env s2) key = Some v ∧
    can_execute u (env s2) priv false (length t) = false.
Proof.
  intros u Hsubs Hg Hst Hpl Hkey Hw1 Hw2. destruct (restricted_nodes key d1 d2) as (N1 & N2 & Nr & No). fold u in N1, N2, Nr, No.
  assert (∀ e w i, e = env s → argv e !! i = Some w → (i < argc e)%nat) as Hlt.
  { intros e w i -> Hl. by apply lookup_lt_Some in Hl. }
  assert (∀ c, (c < length t)%nat → matches u key c = matches t key c) as Hmt.
  { intros c Hc. unfold matches, u. by rewrite restricted_token. }
  assert (find_best u (can_execute u (env s) priv false) key (subentries (node u root)) = inr (Some (length t))) as Hf.
  { assert (subentries (node u root) = subentries (node t root) ++ [length t]) as -> by (by rewrite Nr).
    unfold find_best. rewrite find_token_choose. unfold eligible. rewrite filter_app.
    assert (List.filter (λ c, matches u key c && can_execute u (env s) priv false c) (subentries (node t root)) = []) as ->.
    { clear -Hsubs Hmt. induction Hsubs as [|c l [Hc Hm] _ IH]; [done|]. cbn [List.filter]. by rewrite Hmt, Hm. }
    cbn [app List.filter]. unfold matches, can_execute. rewrite N1. cbn [token privileged validate negb orb andb].
    unfold cmd_check_no_env. rewrite Hkey, !bool_decide_true by done. done. }
  assert (cmdenv_arg (env s) = Some key) as Harg.
  { unfold cmdenv_arg. rewrite (proj2 (Nat.ltb_lt _ _)); [done|]. by eapply Hlt. }
  destruct (step_walks_word u priv s root key (length t) (cmdenv_push (env s) (length t)) (world s) Hg) as (s1 & S1 & G1 & E1 & W1);
    [unfold cmdenv_top; by rewrite Hst|done|done|done|unfold enter; by rewrite N1|].
  destruct (step_walks_word u priv s1 (length t) v (S (length t))
    ((env s) <| elements ::= (λ l, l ++ [(key, Some v)]) |> <| argp ::= S |>) (world s) G1) as (s2 & S2 & G2 & E2 & W2).
  - by rewrite E1.
  - by rewrite E1.
  - rewrite E1. unfold cmdenv_arg, argc. cbn [argp argv set cmdenv_push]. rewrite (proj2 (Nat.ltb_lt _ _)); [done|]. by eapply Hlt.
  - rewrite N1. cbn [subentries]. unfold find_best. cbn [find_token]. unfold matches. rewrite N2. cbn [token andb find_free].
    rewrite N2. cbn [token]. rewrite bool_decide_true by done. unfold can_execute. rewrite N2. done.
  - unfold enter. rewrite N2. cbn [execute]. unfold cmd_store_env_value_and_pop2, put_and_pop. rewrite cmdenv_pop_spec, E1, W1.
    assert (cmdenv_arg (cmdenv_push (cmdenv_push (env s) (length t))<|argp ::= S|> (S (length t))) = Some v) as ->.
    { unfold cmdenv_arg, argc. cbn [argp argv set cmdenv_push]. rewrite (proj2 (Nat.ltb_lt _ _)); [done|]. by eapply Hlt. }
    by destruct (env s).
  - exists s1, s2. rewrite E2. unfold cmdenv_get in *. cbn [elements set]. split_and!; try done.
    + by apply (cmdenv_get_put (env s) key (Some v)).
    + unfold can_execute. rewrite N1. cbn [privileged negb orb andb validate]. unfold cmd_check_no_env.
      rewrite bool_decide_false; [done|]. pose proof (cmdenv_get_put (env s) key (Some v) Hkey) as Hp. unfold cmdenv_get in *.
      cbn [elements set cmdenv_put] in *. by rewrite Hp.
Qed.
End Restrict.
