(* ===== verification/Show.v ===== *)
(** * The commands show and watch of lldpcli

    The part of the tree that client/show.c registers, what its functions do, and the
    choice of the neighbors they display (client/display.c).  The connection to the daemon
    is what the library answers: the interfaces, their neighbors and their counters; the
    writer is the list of what was displayed.  The fields of a neighbor, the text of the
    configuration and the layout are left to the writers. *)

From stdpp Require Import strings.
From S2P Require Import Prelude Bytes Text Const AtomMaps Tokenizer Commands CommandsRun.
#[local] Open Scope Z_scope.

(** ** What is displayed *)

Definition DISPLAY_BRIEF : Z := 1.
Definition DISPLAY_NORMAL : Z := 2.
Definition DISPLAY_DETAILS : Z := 3.

(** A neighbor, with the two integers that [display_interface] looks at. *)
Record neighbor := Neighbor { n_index : Z; n_hidden : Z; n_protocol : Z }.
(** The seven counters are in the order of [display_interface_stats]. *)
Record interface := Interface { i_name : word; i_neighbors : list neighbor; i_counters : list Z }.

Inductive output :=
  | Neighbor_output (iface : word) (n : neighbor) (details : Z)
  | Stats_output (iface : word) (counters : list Z)
  | Summary_output (counters : list Z)
  | Configuration_output
  | Change_start (type : Z)
  | Change_end.

(** What the library and the writer hold: [None] when the list cannot be had. *)
Record session := Session { interfaces : option (list interface); printed : list output }.
#[global] Instance eta_session : Settable session := λ s, Session (interfaces s) (printed s).
Definition print (s : session) (o : list output) : session := s <| printed ::= (λ l, l ++ o) |>.

Definition PORTS : word := chars "ports".
Definition PROTOCOL : word := chars "protocol".
Definition HIDDEN : word := chars "hidden".
Definition DETAILED : word := chars "detailed".
Definition SUMMARY : word := chars "summary".

(** [cmd_iterate_on_interfaces], as the list of the interfaces it gives. *)
Definition on_ports (env : cmd_env) (name : word) : bool :=
  match cmdenv_get env PORTS with Some l => contains l name | None => true end.
Definition cmd_iterate_on_interfaces (s : session) (env : cmd_env) : list interface :=
  match interfaces s with
  | Some l => List.filter (λ i, on_ports env (i_name i)) l
  | None => []
  end.

(** The protocol to show: [LLDPD_MODE_MAX] for all of them, 0 for a name that is not one. *)
Definition wanted_protocol (env : cmd_env) : Z :=
  match cmdenv_get env PROTOCOL with
  | None => LLDPD_MODE_MAX
  | Some name => match List.find (λ e, strcasecmp_eq name (snd e)) lldpd_protocol_map with
                 | Some e => fst e
                 | None => 0
                 end
  end.

Definition display_interface (hidden : bool) (iface : word) (n : neighbor) (details protocol : Z) : list output :=
  if negb hidden && negb (n_hidden n =? 0) then []
  else if negb (protocol =? LLDPD_MODE_MAX) && negb (protocol =? n_protocol n) then []
  else [Neighbor_output iface n details].

Definition display_interfaces (s : session) (env : cmd_env) (hidden : bool) (details : Z) : session :=
  print s (flat_map (λ i, flat_map (λ n, display_interface hidden (i_name i) n details (wanted_protocol env)) (i_neighbors i))
                    (cmd_iterate_on_interfaces s env)).

(** Counters are added as unsigned numbers of 64 bits. *)
Definition add_counters (sum c : list Z) : list Z := zip_with (λ a b, (a + b) mod 2 ^ 64) sum c.
Definition display_interfaces_stats (s : session) (env : cmd_env) : session :=
  let l := cmd_iterate_on_interfaces s env in
  if is_set env SUMMARY
  then print s [Summary_output (foldl (λ sum i, add_counters sum (i_counters i)) (replicate 7 0) l)]
  else print s (map (λ i, Stats_output (i_name i) (i_counters i)) l).

(** ** Functions of the nodes *)

Definition details_of (env : cmd_env) : Z :=
  if is_set env SUMMARY then DISPLAY_BRIEF else if is_set env DETAILED then DISPLAY_DETAILS else DISPLAY_NORMAL.

Definition cmd_show_neighbors : executor := λ env s,
  (1, env, display_interfaces s env (is_set env HIDDEN) (details_of env)).
Definition cmd_show_interface_stats : executor := λ env s, (1, env, display_interfaces_stats s env).
Definition cmd_check_no_detailed_nor_summary : validator := λ env,
  if is_set env DETAILED then 0 else if is_set env SUMMARY then 0 else 1.
Definition cmd_show_configuration : executor := λ env s, (1, env, print s [Configuration_output]).

(** The three kinds of change of [lldpctl_change_t]. *)
Definition lldpctl_c_deleted : Z := 0.
Definition lldpctl_c_updated : Z := 1.
Definition lldpctl_c_added : Z := 2.
Definition watchcb (env : cmd_env) (type : Z) (iface : word) (n : neighbor) : list output :=
  if negb (on_ports env iface) then []
  else if (type =? lldpctl_c_deleted) || (type =? lldpctl_c_updated) || (type =? lldpctl_c_added)
       then [Change_start type] ++ display_interface true iface n (details_of env) (wanted_protocol env) ++ [Change_end]
       else [].

(** [cmd_watch_neighbors] displays the changes that come until the connection fails. *)
Definition cmd_watch_neighbors (changes : list (Z * word * neighbor)) : executor := λ env s,
  (0, env, print s (flat_map (λ c, watchcb env c.1.1 c.1.2 c.2) changes)).

(** ** The tree *)

Abbreviation tree := (list (cmd_node session)).

Definition register_common_commands (t : tree) (root : nat) : tree :=
  let t := (commands_new t (Some root) (Some HIDDEN) (Some (chars "Include hidden neighbors"))
             (Some (cmd_check_no_env HIDDEN)) (Some (cmd_store_env_and_pop HIDDEN))).2 in
  let t := (commands_new t (Some root) (Some (chars "details")) (Some (chars "With more details"))
             (Some cmd_check_no_detailed_nor_summary) (Some (cmd_store_env_and_pop DETAILED))).2 in
  let t := (commands_new t (Some root) (Some SUMMARY) (Some (chars "With less details"))
             (Some cmd_check_no_detailed_nor_summary) (Some (cmd_store_env_and_pop SUMMARY))).2 in
  cmd_restrict_protocol (cmd_restrict_ports t root) root.

Definition register_summary_command (t : tree) (root : nat) : tree :=
  (commands_new t (Some root) (Some SUMMARY) (Some (chars "With less details"))
     (Some cmd_check_no_detailed_nor_summary) (Some (cmd_store_env_and_pop SUMMARY))).2.

Definition register_commands_show (t : tree) (root : nat) : tree :=
  let '(show, t) := commands_new t (Some root) (Some (chars "show")) (Some (chars "Show running system information")) None None in
  let '(neighbors, t) := commands_new t (Some show) (Some (chars "neighbors")) (Some (chars "Show neighbors data")) None None in
  let '(stats, t) := commands_new t (Some show) (Some (chars "statistics")) (Some (chars "Show statistics")) None None in
  let t := (commands_new t (Some neighbors) (Some NEWLINE) (Some (chars "Show neighbors data")) None (Some cmd_show_neighbors)).2 in
  let t := register_common_commands t neighbors in
  let t := (commands_new t (Some stats) (Some NEWLINE) (Some (chars "Show stats data")) None (Some cmd_show_interface_stats)).2 in
  let t := cmd_restrict_ports t stats in
  let t := register_summary_command t stats in
  let '(c, t) := commands_new t (Some show) (Some (chars "configuration")) (Some (chars "Show running configuration")) None None in
  let t := (commands_new t (Some c) (Some NEWLINE) (Some (chars "Show running configuration")) None (Some cmd_show_configuration)).2 in
  let '(r, t) := commands_new t (Some show) (Some (chars "running-configuration")) (Some (chars "Show running configuration")) None None in
  (commands_new t (Some r) (Some NEWLINE) (Some (chars "Show running configuration")) None (Some cmd_show_configuration)).2.

Definition register_commands_watch (changes : list (Z * word * neighbor)) (t : tree) (root : nat) : tree :=
  let '(watch, t) := commands_new t (Some root) (Some (chars "watch")) (Some (chars "Monitor neighbor changes")) None None in
  let t := (commands_new t (Some watch) (Some NEWLINE) (Some (chars "Monitor neighbors change")) None
             (Some (cmd_watch_neighbors changes))).2 in
  register_common_commands t watch.

(** A tree with the two commands, in the order of [register_commands]. *)
Definition show_commands (changes : list (Z * word * neighbor)) : tree :=
  let '(root, t) := commands_root in
  register_commands_watch changes (register_commands_show t root) root.

(** ** What show neighbors displays *)

(** A new node whose function respects the environment. *)
Definition respectful {W} (e : option (@executor W)) : Prop := match e with Some f => respects f | None => True end.
Lemma commands_new_ok {W} (t : list (cmd_node W)) root tok d v e :
  tree_ok t → respectful e → tree_ok (commands_new t root tok d v e).2.
Proof.
  intros Ht He i f. unfold commands_new. cbn [snd].
  set (g := λ n : cmd_node W, n <| subentries ::= (λ l, l ++ [length t]) |>).
  assert (∀ u : list (cmd_node W), tree_ok u → execute (node (u ++ [Node tok d false false v e []]) i) = Some f → respects f) as Hu.
  { intros u Hu. unfold node. destruct (decide (i < length u)%nat) as [Hi|Hi].
    - rewrite lookup_app_l by done. apply Hu.
    - rewrite lookup_app_r by lia. destruct (i - length u)%nat as [|k]; cbn; [|done]. by intros ->. }
  destruct root as [r|]; [|by apply Hu]. apply Hu. intros j f' Hj. apply (Ht j f'). revert Hj. unfold node.
  destruct (decide (j = r)) as [->|Hne]; [rewrite list_lookup_alter_eq|by rewrite list_lookup_alter_ne].
  by destruct (t !! r).
Qed.
Ltac tree_grows rest :=
  repeat match goal with
  | |- tree_ok (commands_new _ _ _ _ _ _).2 => apply commands_new_ok
  | |- tree_ok (let '(x, y) := commands_new ?t ?r ?k ?d ?v ?e in _) =>
      let E := fresh in
      assert (tree_ok (commands_new t r k d v e).2) as E; [apply commands_new_ok|
      let n := fresh in let u := fresh in destruct (commands_new t r k d v e) as [n u]; cbn [snd] in E]
  | |- respectful None => exact I
  | |- respectful (Some _) => first [apply put_and_pop_respects | by intros ????? [= <- <- <-]]
  | |- tree_ok ?t => is_var t; assumption
  | |- tree_ok _ => rest tt
  end.
Lemma cmd_restrict_ok {W} key d1 d2 (t : list (cmd_node W)) root : tree_ok t → tree_ok (cmd_restrict key d1 d2 t root).
Proof. intros Ht. unfold cmd_restrict. tree_grows ltac:(fun _ => fail). Qed.
Lemma register_common_ok t root : tree_ok t → tree_ok (register_common_commands t root).
Proof.
  intros Ht. unfold register_common_commands, cmd_restrict_protocol, cmd_restrict_ports. cbv zeta. tree_grows ltac:(fun _ => apply cmd_restrict_ok).
Qed.
Lemma register_summary_ok t root : tree_ok t → tree_ok (register_summary_command t root).
Proof. intros Ht. unfold register_summary_command. tree_grows ltac:(fun _ => fail). Qed.
Lemma register_show_ok t root : tree_ok t → tree_ok (register_commands_show t root).
Proof.
  intros Ht. unfold register_commands_show, cmd_restrict_ports. cbv zeta.
  tree_grows ltac:(fun _ => lazymatch goal with
    | |- tree_ok (cmd_restrict _ _ _ _ _) => apply cmd_restrict_ok
    | |- tree_ok (register_common_commands _ _) => apply register_common_ok
    | |- tree_ok (register_summary_command _ _) => apply register_summary_ok end).
Qed.
Lemma register_watch_ok changes t root : tree_ok t → tree_ok (register_commands_watch changes t root).
Proof.
  intros Ht. unfold register_commands_watch. cbv zeta. tree_grows ltac:(fun _ => apply register_common_ok).
Qed.

(** The options of show neighbors, as words, and what they put in the environment. *)
Inductive choice := Hidden | Details | Summary | Ports (l : word) | Protocol (p : word).
Definition choice_words (c : choice) : list word :=
  match c with
  | Hidden => [HIDDEN]
  | Details => [chars "details"]
  | Summary => [SUMMARY]
  | Ports l => [PORTS; l]
  | Protocol p => [PROTOCOL; p]
  end.
Definition choice_element (c : choice) : word * option word :=
  match c with
  | Hidden => (HIDDEN, None)
  | Details => (DETAILED, None)
  | Summary => (SUMMARY, None)
  | Ports l => (PORTS, Some l)
  | Protocol p => (PROTOCOL, Some p)
  end.
(** Every option once, and not both levels of detail. *)
Definition choice_kind (c : choice) : nat :=
  match c with Hidden => 0 | Details | Summary => 1 | Ports _ => 2 | Protocol _ => 3 end.
Definition ports_of (cs : list choice) : option word :=
  head (omap (λ c, match c with Ports l => Some l | _ => None end) cs).
Definition protocol_of (cs : list choice) : option word :=
  head (omap (λ c, match c with Protocol p => Some p | _ => None end) cs).

(** The selection the options ask for. *)
Definition level (cs : list choice) : Z :=
  if existsb (λ c, match c with Summary => true | _ => false end) cs then DISPLAY_BRIEF
  else if existsb (λ c, match c with Details => true | _ => false end) cs then DISPLAY_DETAILS
  else DISPLAY_NORMAL.
Definition selects_port (cs : list choice) (i : interface) : bool :=
  match ports_of cs with Some l => bool_decide (i_name i ∈ split_commas l) | None => true end.
Definition mode_named (name : word) (mode : Z) : bool :=
  existsb (λ e, strcasecmp_eq name (snd e) && (fst e =? mode)) lldpd_protocol_map.
Definition selects_neighbor (cs : list choice) (n : neighbor) : bool :=
  (existsb (λ c, match c with Hidden => true | _ => false end) cs || (n_hidden n =? 0))
  && match protocol_of cs with
     | Some p => mode_named p LLDPD_MODE_MAX || mode_named p (n_protocol n)
     | None => true
     end.

Section ShowNeighbors.
Context (changes : list (Z * word * neighbor)) (priv : bool).
Abbreviation t := (show_commands changes).

(** The nodes of show neighbors. *)
Lemma show_path :
  List.filter (matches t (chars "show")) (subentries (node t 0)) = [1]%nat ∧
  List.filter (matches t (chars "neighbors")) (subentries (node t 1)) = [2]%nat ∧
  execute (node t 1) = None ∧ execute (node t 2) = None ∧
  (∀ e, can_execute t e priv false 1 = true) ∧ (∀ e, can_execute t e priv false 2 = true) ∧
  List.filter (matches t NEWLINE) (subentries (node t 2)) = [4]%nat ∧
  execute (node t 4) = Some cmd_show_neighbors ∧ (∀ e, can_execute t e priv false 4 = true).
Proof. split_and!; vm_compute; reflexivity. Qed.

Definition choice_node (c : choice) : nat :=
  match c with Hidden => 5 | Details => 6 | Summary => 7 | Ports _ => 8 | Protocol _ => 10 end.
Definition choice_value (c : choice) : option word :=
  match c with Ports l | Protocol l => Some l | _ => None end.
Lemma choice_nodes c :
  let n := node t (choice_node c) in
  let key := (choice_element c).1 in
  privileged n = false ∧
  validate n = Some (match c with Details | Summary => cmd_check_no_detailed_nor_summary | _ => cmd_check_no_env key end) ∧
  match choice_value c with
  | None => execute n = Some (cmd_store_env_and_pop key)
  | Some _ =>
      let v := S (choice_node c) in
      execute n = None ∧ subentries n = [v] ∧ token (node t v) = None ∧
      (∀ e, can_execute t e priv false v = true) ∧ execute (node t v) = Some (cmd_store_env_value_and_pop2 key)
  end ∧
  (∀ w l, choice_words c = w :: l → List.filter (matches t w) (subentries (node t 2)) = [choice_node c]).
Proof.
  destruct c; cbn [choice_words choice_value choice_element choice_node fst];
    (split_and!; [vm_compute; reflexivity|vm_compute; reflexivity|..|intros w l' [= <- <-]; vm_compute; reflexivity]).
  all: vm_compute; reflexivity.
Qed.

Lemma show_tree_ok : tree_ok t.
Proof.
  unfold show_commands, commands_root. cbn [commands_new app length]. apply register_watch_ok, register_show_ok.
  by intros [|i] f.
Qed.

#[local] Opaque show_commands.

(** The environment once some options were read. *)
Definition after (cs : list choice) (e : cmd_env) : Prop :=
  elements e = map choice_element cs ∧ stack e = [2; 1; 0]%nat.

Lemma elements_get cs e : elements e = map choice_element cs →
  cmdenv_get e PORTS = ports_of cs ∧ cmdenv_get e PROTOCOL = protocol_of cs ∧
  is_set e HIDDEN = existsb (λ c, match c with Hidden => true | _ => false end) cs ∧
  is_set e SUMMARY = existsb (λ c, match c with Summary => true | _ => false end) cs ∧
  is_set e DETAILED = existsb (λ c, match c with Details => true | _ => false end) cs ∧
  plain e.
Proof.
  intros He. unfold plain, is_set, cmdenv_get, ports_of, protocol_of. rewrite He. clear He e.
  induction cs as [|c cs (IH1 & IH2 & IH3 & IH4 & IH5 & IH6 & IH7)]; [done|].
  destruct c; cbn [map choice_element env_find omap list_omap head existsb orb]; rewrite ?bool_decide_true by done;
    repeat (rewrite bool_decide_false by (vm_compute; congruence)); by split_and!.
Qed.

(** An option that was not given yet can be entered. *)
Lemma choice_allowed cs c e :
  after cs e → choice_kind c ∉ map choice_kind cs → can_execute t e priv false (choice_node c) = true.
Proof.
  intros [Ha _] Hk. apply elements_get in Ha as (H1 & H2 & H3 & H4 & H5 & _).
  assert (∀ f, (∀ d, f d = true → choice_kind d = choice_kind c) → existsb f cs = false) as Hn.
  { intros f Hf. apply not_true_iff_false. rewrite existsb_exists. intros (d & Hd & Hfd). apply Hk.
    rewrite <- (Hf d Hfd). apply list_elem_of_fmap_2, list_elem_of_In, Hd. }
  assert (∀ A (f : choice → option A), (∀ d, is_Some (f d) → choice_kind d = choice_kind c) → head (omap f cs) = None) as Hh.
  { intros A f Hf. destruct (omap f cs) as [|a l] eqn:E; [done|]. exfalso.
    assert (a ∈ omap f cs) as Hin by (rewrite E; by left). apply list_elem_of_omap in Hin as (d & Hd & Hfd).
    apply Hk. rewrite <- (Hf d (ex_intro _ a Hfd)). by apply list_elem_of_fmap_2. }
  destruct (choice_nodes c) as (Hp & Hv & _). unfold is_set in H3. unfold can_execute. rewrite Hp, Hv.
  destruct c; cbn [choice_element fst]; unfold cmd_check_no_env, cmd_check_no_detailed_nor_summary.
  - rewrite (Hn _) in H3 by (by intros []). destruct (cmdenv_get e HIDDEN); [done|]. by rewrite bool_decide_true.
  - rewrite H4, H5, !Hn by (by intros []). done.
  - rewrite H4, H5, !Hn by (by intros []). done.
  - rewrite H1. unfold ports_of. rewrite Hh by (intros []; by intros [? [=]] || done). by rewrite bool_decide_true.
  - rewrite H2. unfold protocol_of. rewrite Hh by (intros []; by intros [? [=]] || done). by rewrite bool_decide_true.
Qed.

Lemma arg_of e (x : word) l : drop (argp e) (argv e) = x :: l →
  cmdenv_arg e = Some x ∧ drop (S (argp e)) (argv e) = l ∧ (argp e < argc e)%nat.
Proof.
  intros Hd. assert (argv e !! argp e = Some x) as Hx by (by rewrite <- (Nat.add_0_r (argp e)), <- lookup_drop, Hd).
  apply lookup_lt_Some in Hx as Hlt. unfold cmdenv_arg, argc. rewrite (proj2 (Nat.ltb_lt _ _) Hlt). split_and!; [done| |done].
  by rewrite (drop_S _ _ _ Hx) in Hd; injection Hd.
Qed.

Lemma arg_end e : argp e = argc e → cmdenv_arg e = Some NEWLINE.
Proof. intros He. unfold cmdenv_arg. by rewrite He, Nat.ltb_irrefl, Nat.eqb_refl. Qed.

(** One option: its word or words are read and the walk is back at its node. *)
Lemma walks_choice cs c e s e' s' l :
  after cs e → choice_kind c ∉ map choice_kind cs → drop (argp e) (argv e) = choice_words c ++ l →
  (∀ e1, after (cs ++ [c]) e1 → argv e1 = argv e → drop (argp e1) (argv e1) = l → (argp e1 ≤ argc e1)%nat → walks t priv e1 s e' s') →
  walks t priv e s e' s'.
Proof.
  intros Ha Hk Hd Hrest. pose proof (choice_allowed cs c e Ha Hk) as Hcan.
  pose proof (elements_get cs e (proj1 Ha)) as (_ & _ & _ & _ & _ & Hpl). destruct Ha as [Hel Hst].
  pose proof (choice_nodes c) as Hn. cbv zeta in Hn. destruct Hn as (_ & _ & Hex & Hm).
  assert (cmdenv_top e = Some 2%nat) as Htop by (unfold cmdenv_top; by rewrite Hst).
  destruct (choice_words c) as [|w n] eqn:Ew; [destruct c; discriminate Ew|]. destruct (arg_of e w (n ++ l) Hd) as (Harg & Hd' & Hlt).
  pose proof (find_best_only t (can_execute t e priv false) w _ _ (Hm w n eq_refl) Hcan) as Hf. clear Hm Hcan Hk.
  destruct e as [els st p v]. cbn in Hel, Hst, Hd', Hlt. subst els st.
  destruct (choice_value c) as [x|] eqn:Ev.
  - assert (n = [x] ∧ choice_element c = ((choice_element c).1, Some x)) as [-> Hce]
      by (destruct c; try discriminate Ev; injection Ew as <- <-; injection Ev as <-; split; reflexivity).
    destruct Hex as (He1 & Hsub & Htok & Hc2 & He2).
    destruct (arg_of (Env (map choice_element cs) [choice_node c; 2; 1; 0]%nat (S p) v) x l Hd') as (Harg2 & Hd2 & Hlt2).
    eapply walks_word; [exact Htop|exact Hpl|exact Harg|exact Hf|unfold enter; rewrite He1; reflexivity|].
    set (E := Env (map choice_element cs) [choice_node c; 2; 1; 0]%nat (S p) v) in *.
    assert (enter t (S (choice_node c)) E s = (1, Env (map choice_element (cs ++ [c])) [2; 1; 0]%nat (S p) v, s)) as Hent.
    { unfold enter. rewrite He2, map_app. unfold cmd_store_env_value_and_pop2, put_and_pop. cbn [cmdenv_push].
      assert (cmdenv_arg (cmdenv_push E (S (choice_node c))) = Some x) as -> by exact Harg2. cbn [map]. by rewrite Hce. }
    eapply (walks_word _ _ E); [reflexivity|split; apply Hpl|exact Harg2|rewrite Hsub; by apply find_best_free|exact Hent|].
    apply Hrest; cbn in *; [split; reflexivity|reflexivity|exact Hd2|lia].
  - assert (n = [] ∧ choice_element c = ((choice_element c).1, None)) as [-> Hce]
      by (destruct c; try discriminate Ev; injection Ew as <- <-; split; reflexivity).
    set (E := Env (map choice_element cs) [2; 1; 0]%nat p v) in *.
    assert (enter t (choice_node c) E s = (1, Env (map choice_element (cs ++ [c])) [2; 1; 0]%nat p v, s)) as Hent.
    { unfold enter. rewrite Hex, map_app. unfold cmd_store_env_and_pop, put_and_pop. cbn [cmdenv_push map]. rewrite Hce. reflexivity. }
    eapply (walks_word _ _ E); [exact Htop|exact Hpl|exact Harg|exact Hf|exact Hent|].
    apply Hrest; cbn in *; [split; reflexivity|reflexivity|exact Hd'|lia].
Qed.

Lemma walks_choices cs done e s e' s' :
  after done e → NoDup (map choice_kind (done ++ cs)) → drop (argp e) (argv e) = flat_map choice_words cs →
  (argp e ≤ argc e)%nat →
  (∀ e1, after (done ++ cs) e1 → argv e1 = argv e → argp e1 = argc e1 → walks t priv e1 s e' s') →
  walks t priv e s e' s'.
Proof.
  revert done e. induction cs as [|c cs IH]; intros dn e Ha Hnd Hd Hle Hend.
  - apply Hend; [by rewrite app_nil_r|done|]. cbn in Hd. apply (f_equal length) in Hd. rewrite length_drop in Hd. cbn in Hd. unfold argc in *. lia.
  - apply (walks_choice dn c e s e' s' (flat_map choice_words cs) Ha); [|done|].
    { rewrite map_app in Hnd. apply list.NoDup_app in Hnd as (_ & Hnd & _). intros Hin. by apply (Hnd _ Hin); left. }
    intros e1 Ha1 Hv1 Hd1 Hle1. apply (IH (dn ++ [c]) e1 Ha1); [by rewrite <- app_assoc|done|done|].
    intros e2. rewrite <- app_assoc, Hv1. apply Hend.
Qed.

(** The words show and neighbors, the options, and the end of the line. *)
Lemma walks_show cs s :
  NoDup (map choice_kind cs) →
  ∃ e e', after cs e ∧
    walks t priv (Env [] [0]%nat 0 ([chars "show"; chars "neighbors"] ++ flat_map choice_words cs)) s
      e' (display_interfaces s (cmdenv_push e 4) (is_set (cmdenv_push e 4) HIDDEN) (details_of (cmdenv_push e 4))).
Proof.
  intros Hnd. destruct show_path as (M1 & M2 & X1 & X2 & C1 & C2 & M4 & X4 & C4).
  set (args := [chars "show"; chars "neighbors"] ++ flat_map choice_words cs).
  set (e := Env (map choice_element cs) [2; 1; 0]%nat (length args) args).
  exists e, ((cmdenv_push e 4) <| argp ::= S |>). assert (after cs e) as Ha by (split; reflexivity). split; [exact Ha|].
  pose proof (elements_get cs e (proj1 Ha)) as (_ & _ & _ & _ & _ & Hpl).
  eapply walks_word; [reflexivity|split; reflexivity|reflexivity|exact (find_best_only t _ _ _ _ M1 (C1 _))|unfold enter; rewrite X1; reflexivity|].
  eapply walks_word; [reflexivity|split; reflexivity|reflexivity|exact (find_best_only t _ _ _ _ M2 (C2 _))|unfold enter; rewrite X2; reflexivity|].
  apply (walks_choices cs []); [split; reflexivity|exact Hnd|reflexivity|cbn; lia|]. cbn [app]. intros e1 [He1 Hs1] Hv1 Hp1.
  assert (e1 = e) as -> by (destruct e1; cbn in *; subst; unfold argc in *; cbn in *; subst; reflexivity).
  eapply walks_word; [reflexivity|exact Hpl| |exact (find_best_only t _ NEWLINE _ _ M4 (C4 _))|unfold enter; rewrite X4; reflexivity|].
  - apply arg_end. reflexivity.
  - apply walks_end; [reflexivity|right; split; apply Hpl].
Qed.
End ShowNeighbors.

(** The table has one mode for a name. *)
Lemma find_mode p :
  match List.find (λ e, strcasecmp_eq p (snd e)) lldpd_protocol_map with
  | Some e => ∀ m, mode_named p m = (fst e =? m)
  | None => ∀ m, mode_named p m = false
  end.
Proof.
  unfold mode_named, lldpd_protocol_map. cbn [List.find existsb fst snd].
  assert (∀ x, strcasecmp_eq p x = true → ∀ y, strcasecmp_eq p y = strcasecmp_eq x y) as Hs.
  { intros x Hx y. unfold strcasecmp_eq in *. apply bool_decide_eq_true in Hx. by rewrite Hx. }
  repeat match goal with
  | |- context [if strcasecmp_eq ?q ?x then _ else _] => destruct (strcasecmp_eq q x) eqn:?
  end; try done; intros m; cbn [andb orb]; rewrite ?orb_false_r; try done.
  all: match goal with H : strcasecmp_eq _ _ = true |- _ => rewrite !(Hs _ H) end; cbn [fst andb orb].
  all: repeat match goal with |- context [strcasecmp_eq ?x ?y] =>
         let b := eval vm_compute in (strcasecmp_eq x y) in change (strcasecmp_eq x y) with b end; cbn [andb orb]; by rewrite ?orb_false_r.
Qed.

(** What [display_interface] keeps is what the options select. *)
Lemma display_selected cs e i n :
  elements e = map choice_element cs → 0 < n_protocol n →
  display_interface (is_set e HIDDEN) i n (details_of e) (wanted_protocol e) =
  if selects_neighbor cs n then [Neighbor_output i n (level cs)] else [].
Proof.
  intros Ha Hn. apply elements_get in Ha as (_ & Hp & Hh & Hs & Hd & _).
  unfold display_interface, selects_neighbor, wanted_protocol, details_of, level. rewrite Hp, Hh, Hs, Hd.
  rewrite <- negb_orb. destruct (existsb _ cs || (n_hidden n =? 0)); [|done]. cbn [negb andb].
  destruct (protocol_of cs) as [p|]; [|done]. pose proof (find_mode p) as Hf.
  destruct (List.find _ _) as [e0|]; rewrite !Hf.
  - by destruct (fst e0 =? LLDPD_MODE_MAX), (fst e0 =? n_protocol n).
  - rewrite (proj2 (Z.eqb_neq 0 (n_protocol n))) by lia. done.
Qed.

Lemma flat_map_filter {A B} (f : A → list B) (g : A → bool) (h : A → B) l :
  (∀ a, a ∈ l → f a = if g a then [h a] else []) → flat_map f l = map h (List.filter g l).
Proof.
  induction l as [|a l IH]; intros Hf; [done|]. cbn. rewrite (Hf a) by left. rewrite IH by (intros b Hb; apply Hf; by right). by destruct (g a).
Qed.

(** C31: the command show neighbors, with its options in any order, displays exactly the neighbors the
    options ask for, interface by interface: those of the ports in the list, not hidden unless hidden
    ones are asked for, of the protocol that was named (in any case of letters), with the level of
    detail that was asked for.  FDP is the exception: its number is the one that stands for all
    protocols, so that it selects every neighbor. *)
Theorem show_neighbors_selects changes priv cs s l :
  NoDup (map choice_kind cs) → interfaces s = Some l →
  Forall (λ i, Forall (λ c, c ≠ comma) (i_name i) ∧ Forall (λ n, 0 < n_protocol n) (i_neighbors i)) l →
  commands_execute (show_commands changes) 0 ([chars "show"; chars "neighbors"] ++ flat_map choice_words cs) priv s =
  Some (0, print s (flat_map (λ i, map (λ n, Neighbor_output (i_name i) n (level cs))
                                       (List.filter (selects_neighbor cs) (i_neighbors i)))
                             (List.filter (selects_port cs) l))).
Proof.
  intros Hnd Hl Hok. destruct (walks_show changes priv cs s Hnd) as (e & e' & Ha & Hsp).
  destruct (walks_execute _ _ _ _ _ _ _ (show_tree_ok changes) Hsp) as (st & Hex & _ & Hw).
  unfold commands_execute. rewrite Hex. cbn [mbind option_bind fst snd]. rewrite Hw. do 2 f_equal.
  unfold display_interfaces, cmd_iterate_on_interfaces. rewrite Hl. f_equal.
  assert (elements (cmdenv_push e 4) = map choice_element cs) as Ha' by apply Ha. set (e4 := cmdenv_push e 4) in *.
  clear Hl Hsp Hex Hw. induction Hok as [|i l [Hi Hn] Hok IH]; [done|]. cbn [List.filter].
  assert (on_ports e4 (i_name i) = selects_port cs i) as ->.
  { unfold on_ports, selects_port. pose proof (elements_get cs _ Ha') as (-> & _).
    destruct (ports_of cs) as [ports|]; [|done].
    apply eq_true_iff_eq. rewrite bool_decide_eq_true, contains_spec; done. }
  destruct (selects_port cs i); [|done]. cbn [flat_map]. rewrite IH. f_equal. apply flat_map_filter. intros n Hin.
  apply display_selected; [done|]. by eapply list.Forall_forall in Hn.
Qed.
