(* ===== verification/WitnessPriv.v ===== *)
(** * The theorems on privilege separation at work

    A system that answers every call, a session of the unprivileged process, what a
    process that has been taken over may send, and a frame for the filter; and some
    requests with a surprising effect. *)

From stdpp Require Import strings.
From S2P Require Import Prelude Bytes Text Marshal Ctl Regex Privsep Monitor Proxies MonitorSafe Bpf.
#[local] Open Scope Z_scope.

#[local] Instance ex_build : BuildConfig := {| ENABLE_OVSDB := false; HOST_LITTLE_ENDIAN := true |}.

(** Sockets and files are descriptor 5, everything else succeeds with 0. *)
#[local] Instance ex_os : OperatingSystem := λ _ c,
  match c with
  | Socket _ | Open _ => Reply 5 0 []
  | Uname | Gethostbyname _ => Reply 0 0 (chars "host")
  | _ => Reply 0 0 []
  end.
#[local] Instance ex_os_laws : OsLaws.
Proof. intros cs c. destruct c; vm_compute; split_and!; congruence. Qed.

Definition ex_world : world := World [] [] [] [] None.
Definition ex_ifname : list Z := strlcpy_ifname (chars "eth0").

Definition ex_requests : list request :=
  [Ping; GetHostname; IfaceInit (replicate 16 255) 3 (chars "eth0"); Multicast ex_ifname [1; 128; 194; 0; 0; 14] 1;
   Description ex_ifname (chars "switch"); OpenFile (chars "/proc/net/bonding/bond0"); OpenFile (chars "/etc/shadow");
   Ethtool (chars "eth0"); SnmpSocket (1 :: 0 :: replicate 108 97); CtlCleanup (chars "/run/lldpd")].

Lemma priv_channel_transparent_witness :
  session proxy ex_requests ex_world = session direct ex_requests ex_world.
Proof.
  apply priv_channel_transparent; [|done].
  repeat apply Forall_cons; try apply Forall_nil; vm_compute; try done; try (split; congruence); split_and!; congruence.
Defined.

(** A file that is not authorized is refused on both sides. *)
Example session_values :
  match session proxy ex_requests ex_world with Done l _ => map fst l | _ => [] end = [0; 0; 5; 0; 0; 5; -1; 0; 5; 0].
Proof. vm_compute. reflexivity. Qed.

(** An empty name: its NUL is left for the next request. *)
Example empty_name_left :
  match proxy (OpenFile []) ex_world with Done _ w => to_monitor w | _ => [] end = [Datagram [0] None].
Proof. vm_compute. reflexivity. Qed.
(** A descriptor whose message is interrupted is lost: here the eighth call on the channel. *)
Example descriptor_lost :
  match proxy (OpenFile (chars "/proc/net/bonding/bond0")) (ex_world <| io := replicate 7 Go ++ [Again] |>) with
  | Blocked w => calls w | _ => [] end = [Open (chars "/proc/net/bonding/bond0"); Close 5].
Proof. vm_compute. reflexivity. Qed.

(** What a process that was taken over may send: a file with an authorized expression in
    its path. *)
Definition ex_path : list Z := chars "/sys/class/net/eth0/brport/../../../../../etc/shadow".
Definition ex_attack : world :=
  World [Datagram (host_bytes 4 (cmd_value PRIV_OPEN)) None; Datagram (host_bytes 4 (zlen ex_path)) None; Datagram ex_path None]
    [] [] [] None.

(** The monitor after the child is gone, in the middle of a request. *)
Definition ex_gone : world :=
  World [Datagram (host_bytes 4 (cmd_value PRIV_OPEN)) None] [] [Go; Again; Broken] [] None.
Lemma priv_loop_terminates_witness :
  channel_fails PRIV_PRIVILEGED (ex_gone <| io := [Again; Broken] |>) (ex_gone <| io := [] |>) ∧
  priv_loop 1 false (ex_gone <| io := [Again; Broken] |>) = Done tt (ex_gone <| io := [] |>).
Proof.
  assert (channel_fails PRIV_PRIVILEGED (ex_gone <| io := [Again; Broken] |>) (ex_gone <| io := [] |>)) as Hc.
  { exists 1%nat, []. by left. }
  split; [exact Hc|]. by apply (proj2 (proj2 (proj2 priv_loop_terminates))).
Defined.
Example gone_exits : priv_loop 2 false ex_gone = Exited (ex_gone <| to_monitor := [] |> <| io := [] |>).
Proof. vm_compute. reflexivity. Qed.

(** The flags of an interface that is up, with the promiscuous flag added. *)
Definition up_os : OperatingSystem := λ _ c, match c with Ioctl_getflags _ _ => Reply 0 0 [3; 16] | _ => Reply 0 0 [] end.
Example promisc_added :
  match asroot_iface_promisc_os (H0 := up_os) (chars "eth0") ex_world with Done _ w => calls w !! 2%nat | _ => None end
  = Some (Ioctl_setflags 0 ex_ifname 0x1103).
Proof. vm_compute. reflexivity. Qed.

(** The expressions are not anchored: the file is opened. *)
Example unanchored_path :
  match priv_loop 4 false ex_attack with Blocked w => calls w | _ => [] end = [Open ex_path; Close 5].
Proof. vm_compute. reflexivity. Qed.

(** A length of -1 makes the monitor read into a block of no bytes. *)
Example negative_length :
  priv_loop 2 false (World [Datagram (host_bytes 4 (cmd_value PRIV_OPEN)) None; Datagram (host_bytes 4 (-1)) None] [] [] [] None)
  = Fault BadLength.
Proof. vm_compute. reflexivity. Qed.

(** An interface without a neighbor: the text of the second refresh. *)
Example description_was :
  alias_text [] (Some (chars "lldpd: no neighbor")) ex_world = Done (Some (chars "lldpd: was no neighbor")) ex_world.
Proof. vm_compute. reflexivity. Qed.
Example description_empty_alias :
  alias_text [] None ex_world = Done (Some (chars "lldpd: connected to ")) ex_world.
Proof. vm_compute. reflexivity. Qed.

(** An LLDP frame passes; the same frame to another address does not. *)
Definition ex_frame (last : Z) : list Z := [1; 128; 194; 0; 0; last] ++ [0; 1; 2; 3; 4; 5] ++ [136; 204] ++ replicate 46 0.
Lemma filter_exact_witness : run_filter (ex_frame 14) = Some (if wanted (ex_frame 14) then 0xffff else 0).
Proof. apply filter_exact. vm_compute. repeat constructor; congruence. Defined.
Example filtered : run_filter (ex_frame 14) = Some 0xffff ∧ run_filter (ex_frame 15) = Some 0.
Proof. vm_compute. done. Qed.
