(* ===== verification/WitnessCli.v ===== *)
(** * The theorems on lldpcli at work

    Commands typed on the tree of show and watch, and some with a surprising effect. *)

From stdpp Require Import strings.
From S2P Require Import Prelude Bytes Text Const Tokenizer Commands CommandsRun Show.
#[local] Open Scope Z_scope.

(** Two interfaces, three neighbors, one of them hidden. *)
Definition ex_interfaces : list interface :=
  [Interface (chars "eth0") [Neighbor 1 0 LLDPD_MODE_LLDP; Neighbor 2 1 LLDPD_MODE_CDPV1] (replicate 7 1);
   Interface (chars "eth1") [Neighbor 3 0 LLDPD_MODE_LLDP] (replicate 7 2)].
Definition ex_session : session := Session (Some ex_interfaces) [].
Definition ex_tree : list (cmd_node session) := show_commands [].
Definition ex_args : list word := [chars "sh"; chars "n"; chars "det"; chars "ports"; chars "eth1,eth2"].

Lemma commands_terminate_witness :
  ∃ s, command_loop ex_tree (run_fuel ex_args) false false (start 0 ex_args ex_session) = Some s.
Proof. apply commands_terminate, (show_tree_ok []). Defined.

(** A tree with a command that needs a privilege. *)
Definition ex_update (env : cmd_env) (n : nat) : Z * cmd_env * nat := (1, env, S n).
Definition ex_privileged : list (cmd_node nat) :=
  let '(root, t) := commands_root in
  let '(update, t) := commands_new t (Some root) (Some (chars "update")) None None None in
  let '(n, t) := commands_new t (Some update) (Some NEWLINE) None None (Some ex_update) in
  let t := commands_privileged t n in
  let '(hidden, t) := commands_new t (Some root) (Some (chars "complete")) None None (Some (cmd_store_env_and_pop (chars "complete"))) in
  commands_hidden t hidden.
Definition ex_final : state nat := State (Env [] [1; 0]%nat 1 [chars "update"]) 0 false false 0%nat [(1%nat, false)].
Lemma privileges_respected_witness :
  Forall (allowed ex_privileged false) (entered ex_final) ∧ (false = true → Forall (λ x, x.2 = false) (entered ex_final)).
Proof.
  apply (privileges_respected ex_privileged 0 [chars "update"] false false 0%nat ex_final). vm_compute. reflexivity.
Defined.
Example update_needs_privilege :
  commands_execute ex_privileged 0 [chars "update"] false 0%nat = Some (-1, 0%nat) ∧
  commands_execute ex_privileged 0 [chars "update"] true 0%nat = Some (0, 1%nat).
Proof. vm_compute. done. Qed.

Lemma commands_execute_spells_witness :
  (∃ s, _commands_execute ex_tree 0 ex_args false false false ex_session = Some (0, Nothing, s) ∧
        help s = false ∧ complete s = false ∧
        world s = Session (Some ex_interfaces) [Neighbor_output (chars "eth1") (Neighbor 3 0 LLDPD_MODE_LLDP) DISPLAY_DETAILS]) ↔
  ∃ e', spells ex_tree false (Env [] [0]%nat 0 ex_args) ex_session e'
    (Session (Some ex_interfaces) [Neighbor_output (chars "eth1") (Neighbor 3 0 LLDPD_MODE_LLDP) DISPLAY_DETAILS]).
Proof. apply commands_execute_spells, (show_tree_ok []). Defined.

(** The manual's abbreviation of show neighbors ports eth0 summary is ambiguous: p may be
    ports or protocol. *)
Example manual_abbreviation :
  fst <$> commands_execute ex_tree 0 (map chars ["sh"; "neigh"; "p"; "eth0"; "sum"]) false ex_session = Some (-1) ∧
  fst <$> commands_execute ex_tree 0 (map chars ["sh"; "neigh"; "po"; "eth0"; "sum"]) false ex_session = Some 0.
Proof. vm_compute. done. Qed.

Lemma completion_sound_witness :
  ∃ s current typed p,
    command_loop ex_tree (run_fuel [chars "show"; chars "nei"]) true false (start 0 [chars "show"; chars "nei"] ex_session) = Some s ∧
    cmdenv_top (env s) = Some current ∧ list.last [chars "show"; chars "nei"] = Some typed ∧
    typed `prefix_of` p ∧ typed ≠ p ∧
    (∀ x, x ∈ candidates ex_tree s false typed current → chidden x = false → ∃ u, cword x = Some u ∧ p `prefix_of` u) ∧
    (chars "neighbors " = p ∨ chars "neighbors " = p ++ [space] ∧ ∃ x, x ∈ candidates ex_tree s false typed current ∧ cword x = Some p).
Proof. apply (completion_sound ex_tree 0 _ false false ex_session). vm_compute. reflexivity. Defined.

(** Restricting the statistics to a port, from the node of the statistics. *)
Definition ex_stats : list (cmd_node session) :=
  (commands_new commands_root.2 (Some 0%nat) (Some NEWLINE) None None (Some cmd_show_interface_stats)).2.
Definition ex_state : state session :=
  start 0 [chars "ports"; chars "eth1"] ex_session.
Lemma restriction_stored_witness :
  let u := restricted ex_stats 0 (chars "ports") [] [] in
  ∃ s1 s2, command_step u false false ex_state = inr s1 ∧ command_step u false false s1 = inr s2 ∧
    env s2 = (env ex_state) <| elements ::= (λ l, l ++ [(chars "ports", Some (chars "eth1"))]) |> <| argp := 2%nat |> ∧
    world s2 = ex_session ∧ cmdenv_get (env s2) (chars "ports") = Some (chars "eth1") ∧
    can_execute u (env s2) false false 2 = false.
Proof.
  apply (restriction_stored ex_stats 0 ltac:(vm_compute; lia) (chars "ports") [] [] false ex_state []); try reflexivity.
  - change (subentries (node ex_stats 0)) with [1%nat]. constructor; [|constructor]. split; [apply Nat.ltb_lt|]; reflexivity.
  - split; [reflexivity|split; reflexivity].
  - split; reflexivity.
Defined.

Definition ex_choices : list choice := [Protocol (chars "lldp"); Details; Ports (chars "eth1,eth0")].
Lemma show_neighbors_selects_witness :
  commands_execute ex_tree 0 ([chars "show"; chars "neighbors"] ++ flat_map choice_words ex_choices) false ex_session =
  Some (0, print ex_session (flat_map (λ i, map (λ n, Neighbor_output (i_name i) n (level ex_choices))
                                       (List.filter (selects_neighbor ex_choices) (i_neighbors i)))
                             (List.filter (selects_port ex_choices) ex_interfaces))).
Proof.
  apply show_neighbors_selects; [|reflexivity|].
  - vm_compute. repeat (constructor; [intros Hin; apply list_elem_of_In in Hin; cbn in Hin; intuition congruence|]). constructor.
  - vm_compute. repeat constructor; congruence.
Defined.

(** FDP selects every neighbor that is not hidden. *)
Example fdp_selects_all :
  commands_execute ex_tree 0 [chars "show"; chars "neighbors"; chars "protocol"; chars "fdp"] false ex_session =
  commands_execute ex_tree 0 [chars "show"; chars "neighbors"] false ex_session.
Proof. vm_compute. reflexivity. Qed.

(** A list with one key twice satisfies the check for two keys. *)
Example check_env_duplicate :
  cmd_check_env (chars "a,b") (Env [(chars "a", None); (chars "a", None)] [] 0 []) = 1.
Proof. vm_compute. reflexivity. Qed.

(** The character < runs the end of the line before the line has ended. *)
Example angle_bracket :
  commands_execute ex_tree 0 [chars "show"; chars "neighbors"; chars "<"] false ex_session =
  Some (-1, print ex_session (map (λ x, Neighbor_output x.1 x.2 DISPLAY_NORMAL)
    [(chars "eth0", Neighbor 1 0 LLDPD_MODE_LLDP); (chars "eth1", Neighbor 3 0 LLDPD_MODE_LLDP)])).
Proof. vm_compute. reflexivity. Qed.
