(* ===== verification/OvsDecode.v ===== *)
(** * Database interface: the table of names

    The fork for OpenSwitch publishes the neighbors in a database, as texts
    (daemon/lldpd_ovsdb_if.c).  [lldp_ovsdb_setup_decode] fills one array with the names of
    all the options, category after category, and an array with the start of each
    category; the functions here turn a number, a set of bits or an address into text. *)

From stdpp Require Import strings.
From S2P Require Import Prelude Bytes Text Const AtomMaps.
#[local] Open Scope Z_scope.

(** ** Constants (lldp-const.h, lldpd_ovsdb_if.h) *)

Definition LLDP_DOT3_MAU_AUI : Z := 1.
Definition LLDP_DOT3_MAU_10BASE5 : Z := 2.
Definition LLDP_DOT3_MAU_FOIRL : Z := 3.
Definition LLDP_DOT3_MAU_10BASE2 : Z := 4.
Definition LLDP_DOT3_MAU_10BASET : Z := 5.
Definition LLDP_DOT3_MAU_10BASEFP : Z := 6.
Definition LLDP_DOT3_MAU_10BASEFB : Z := 7.
Definition LLDP_DOT3_MAU_10BASEFL : Z := 8.
Definition LLDP_DOT3_MAU_10BROAD36 : Z := 9.
Definition LLDP_DOT3_MAU_10BASETHD : Z := 10.
Definition LLDP_DOT3_MAU_10BASETFD : Z := 11.
Definition LLDP_DOT3_MAU_10BASEFLHD : Z := 12.
Definition LLDP_DOT3_MAU_10BASEFLFD : Z := 13.
Definition LLDP_DOT3_MAU_10BASET4 : Z := 14.
Definition LLDP_DOT3_MAU_100BASETXHD : Z := 15.
Definition LLDP_DOT3_MAU_100BASETXFD : Z := 16.
Definition LLDP_DOT3_MAU_100BASEFXHD : Z := 17.
Definition LLDP_DOT3_MAU_100BASEFXFD : Z := 18.
Definition LLDP_DOT3_MAU_100BASET2HD : Z := 19.
Definition LLDP_DOT3_MAU_100BASET2FD : Z := 20.
Definition LLDP_DOT3_MAU_1000BASEXHD : Z := 21.
Definition LLDP_DOT3_MAU_1000BASEXFD : Z := 22.
Definition LLDP_DOT3_MAU_1000BASELXHD : Z := 23.
Definition LLDP_DOT3_MAU_1000BASELXFD : Z := 24.
Definition LLDP_DOT3_MAU_1000BASESXHD : Z := 25.
Definition LLDP_DOT3_MAU_1000BASESXFD : Z := 26.
Definition LLDP_DOT3_MAU_1000BASECXHD : Z := 27.
Definition LLDP_DOT3_MAU_1000BASECXFD : Z := 28.
Definition LLDP_DOT3_MAU_1000BASETHD : Z := 29.
Definition LLDP_DOT3_MAU_1000BASETFD : Z := 30.
Definition LLDP_DOT3_MAU_10GIGBASEX : Z := 31.
Definition LLDP_DOT3_MAU_10GIGBASELX4 : Z := 32.
Definition LLDP_DOT3_MAU_10GIGBASER : Z := 33.
Definition LLDP_DOT3_MAU_10GIGBASEER : Z := 34.
Definition LLDP_DOT3_MAU_10GIGBASELR : Z := 35.
Definition LLDP_DOT3_MAU_10GIGBASESR : Z := 36.
Definition LLDP_DOT3_MAU_10GIGBASEW : Z := 37.
Definition LLDP_DOT3_MAU_10GIGBASEEW : Z := 38.
Definition LLDP_DOT3_MAU_10GIGBASELW : Z := 39.
Definition LLDP_DOT3_MAU_10GIGBASESW : Z := 40.
Definition LLDP_DOT3_LINK_AUTONEG_OTHER : Z := 0x8000.
Definition LLDP_DOT3_LINK_AUTONEG_10BASE_T : Z := 0x4000.
Definition LLDP_DOT3_LINK_AUTONEG_10BASET_FD : Z := 0x2000.
Definition LLDP_DOT3_LINK_AUTONEG_100BASE_T4 : Z := 0x1000.
Definition LLDP_DOT3_LINK_AUTONEG_100BASE_TX : Z := 0x0800.
Definition LLDP_DOT3_LINK_AUTONEG_100BASE_TXFD : Z := 0x0400.
Definition LLDP_DOT3_LINK_AUTONEG_100BASE_T2 : Z := 0x0200.
Definition LLDP_DOT3_LINK_AUTONEG_100BASE_T2FD : Z := 0x0100.
Definition LLDP_DOT3_LINK_AUTONEG_FDX_PAUSE : Z := 0x0080.
Definition LLDP_DOT3_LINK_AUTONEG_FDX_APAUSE : Z := 0x0040.
Definition LLDP_DOT3_LINK_AUTONEG_FDX_SPAUSE : Z := 0x0020.
Definition LLDP_DOT3_LINK_AUTONEG_FDX_BPAUSE : Z := 0x0010.
Definition LLDP_DOT3_LINK_AUTONEG_1000BASE_X : Z := 0x0008.
Definition LLDP_DOT3_LINK_AUTONEG_1000BASE_XFD : Z := 0x0004.
Definition LLDP_DOT3_LINK_AUTONEG_1000BASE_T : Z := 0x0002.
Definition LLDP_DOT3_LINK_AUTONEG_1000BASE_TFD : Z := 0x0001.

Inductive decode_category :=
  | LLDP_CHASSISID_SUBTYPE_INDEX
  | LLDP_PORTID_SUBTYPE_INDEX
  | LLDP_DOT3_MAU_INDEX
  | LLDP_DOT3_POWER_INDEX
  | LLDP_DOT3_POWERPAIRS_INDEX
  | LLDP_DOT3_POWER_8023AT_INDEX
  | LLDP_DOT3_POWER_SOURCE_INDEX
  | LLDP_DOT3_POWER_PRIO_INDEX
  | LLDP_DOT3_LINK_AUTONEG_INDEX
  | LLDP_CAP_INDEX
  | LLDP_PPVID_CAP_INDEX
  | LLDP_MGMT_ADDR_INDEX
  | LLDP_MGMT_IFACE_INDEX
  | LLDP_MED_CLASS_INDEX
  | LLDP_MED_APPTYPE_INDEX
  | LLDP_MED_LOCFORMAT_INDEX
  | LLDP_MED_LOCATION_GEOID_INDEX
  | LLDP_MED_LOCATION_ALTITUDE_INDEX
  | LLDP_MED_POW_TYPE_INDEX
  | LLDP_MED_POW_SOURCE_INDEX
  | LLDP_MED_POW_PRIO_INDEX
  | LLDP_MED_CAP_INDEX
  | LLDP_MODE_INDEX
  | LLDP_BOND_SLAVE_SRC_MAC_TYPE_INDEX.

Definition DECODE_TABLE_MAX : Z := 1024.

(** ** The table *)

(** [bit_set]: the number of the highest bit, of a number of 32 bits. *)
Fixpoint bit_set_loop (fuel : nat) (n l : Z) : Z :=
  match fuel with
  | O => l
  | S fuel => let n := Z.shiftr n 1 in if n =? 0 then l else bit_set_loop fuel n (l + 1)
  end.
Definition bit_set (n : Z) : Z := bit_set_loop 32 (u32 n) 0.

(** One part of the setup: its category, the names it stores, and how far it moves the
    index. *)
Record decode_entries := Entries { category : decode_category; names : list (Z * list Z); next_index : Z }.

Definition decode_setup_link : list decode_entries :=
  [ Entries LLDP_CHASSISID_SUBTYPE_INDEX
      [ (LLDP_CHASSISID_SUBTYPE_CHASSIS, chars "chassis");
        (LLDP_CHASSISID_SUBTYPE_IFALIAS, chars "if_alias");
        (LLDP_CHASSISID_SUBTYPE_PORT, chars "port");
        (LLDP_CHASSISID_SUBTYPE_LLADDR, chars "link_local_addr");
        (LLDP_CHASSISID_SUBTYPE_ADDR, chars "addr");
        (LLDP_CHASSISID_SUBTYPE_IFNAME, chars "if_name");
        (LLDP_CHASSISID_SUBTYPE_LOCAL, chars "local") ]
      (LLDP_CHASSISID_SUBTYPE_LOCAL + 1);
    Entries LLDP_PORTID_SUBTYPE_INDEX
      [ (LLDP_PORTID_SUBTYPE_UNKNOWN, chars "unknown");
        (LLDP_PORTID_SUBTYPE_IFALIAS, chars "if_alias");
        (LLDP_PORTID_SUBTYPE_PORT, chars "port");
        (LLDP_PORTID_SUBTYPE_LLADDR, chars "link_local_addr");
        (LLDP_PORTID_SUBTYPE_ADDR, chars "addr");
        (LLDP_PORTID_SUBTYPE_IFNAME, chars "if_name");
        (LLDP_PORTID_SUBTYPE_AGENTCID, chars "agent_cid");
        (LLDP_PORTID_SUBTYPE_LOCAL, chars "if_name") ]
      (LLDP_PORTID_SUBTYPE_LOCAL + 1);
    Entries LLDP_DOT3_MAU_INDEX
      [ (LLDP_DOT3_MAU_AUI, chars "AUI");
        (LLDP_DOT3_MAU_10BASE5, chars "10 BASE5");
        (LLDP_DOT3_MAU_10BASET, chars "10 BASE5");
        (LLDP_DOT3_MAU_10BASEFP, chars "10 BASEFP");
        (LLDP_DOT3_MAU_10BASEFB, chars "10 BASEFB");
        (LLDP_DOT3_MAU_10BASEFL, chars "10 BASEFL");
        (LLDP_DOT3_MAU_10BROAD36, chars "10 BROAD36");
        (LLDP_DOT3_MAU_10BASETHD, chars "10 BASETHD");
        (LLDP_DOT3_MAU_10BASETFD, chars "10 BASETFD");
        (LLDP_DOT3_MAU_10BASEFLHD, chars "10 BASEFLHD");
        (LLDP_DOT3_MAU_10BASEFLFD, chars "10 BASEFLFD");
        (LLDP_DOT3_MAU_10BASET4, chars "10 BASET4");
        (LLDP_DOT3_MAU_100BASETXHD, chars "100 BASETXHD");
        (LLDP_DOT3_MAU_100BASETXFD, chars "100 BASETXFD");
        (LLDP_DOT3_MAU_100BASEFXHD, chars "100 BASEFXHD");
        (LLDP_DOT3_MAU_100BASEFXFD, chars "100 BASEFXFD");
        (LLDP_DOT3_MAU_100BASET2HD, chars "100 BASET2HD");
        (LLDP_DOT3_MAU_100BASET2FD, chars "100 BASET2FD");
        (LLDP_DOT3_MAU_1000BASEXHD, chars "1000 BASEXHD");
        (LLDP_DOT3_MAU_1000BASEXFD, chars "1000 BASEXFD");
        (LLDP_DOT3_MAU_1000BASELXHD, chars "1000 BASELXHD");
        (LLDP_DOT3_MAU_1000BASELXFD, chars "1000 BASELXFD");
        (LLDP_DOT3_MAU_1000BASESXHD, chars "1000 BASESXHD");
        (LLDP_DOT3_MAU_1000BASESXFD, chars "1000 BASESXFD");
        (LLDP_DOT3_MAU_1000BASECXHD, chars "1000 BASECXHD");
        (LLDP_DOT3_MAU_1000BASECXFD, chars "1000 BASECXFD");
        (LLDP_DOT3_MAU_1000BASETHD, chars "1000 BASETHD");
        (LLDP_DOT3_MAU_1000BASETFD, chars "1000 BASETFD");
        (LLDP_DOT3_MAU_10GIGBASEX, chars "10 GIGBASEX");
        (LLDP_DOT3_MAU_10GIGBASELX4, chars "10 GIGBASELX4");
        (LLDP_DOT3_MAU_10GIGBASER, chars "10 GIGBASEER");
        (LLDP_DOT3_MAU_10GIGBASEER, chars "10 GIGBASEER");
        (LLDP_DOT3_MAU_10GIGBASELR, chars "10 GIGBASELR");
        (LLDP_DOT3_MAU_10GIGBASESR, chars "10 GIGBASESR");
        (LLDP_DOT3_MAU_10GIGBASEW, chars "10 GIGBASEW");
        (LLDP_DOT3_MAU_10GIGBASEEW, chars "10 GIGBASEEW");
        (LLDP_DOT3_MAU_10GIGBASELW, chars "10 GIGBASELW");
        (LLDP_DOT3_MAU_10GIGBASESW, chars "10 GIGBASESW") ]
      (LLDP_DOT3_MAU_10GIGBASESW + 1);
    Entries LLDP_DOT3_POWER_INDEX
      [ (LLDP_DOT3_POWER_PSE, chars "PSE");
        (LLDP_DOT3_POWER_PD, chars "PD") ]
      (LLDP_DOT3_POWER_PD + 1);
    Entries LLDP_DOT3_POWERPAIRS_INDEX
      [ (LLDP_DOT3_POWERPAIRS_SIGNAL, chars "SIGNAL");
        (LLDP_DOT3_POWERPAIRS_SPARE, chars "SPATRE") ]
      (LLDP_DOT3_POWERPAIRS_SPARE + 1);
    Entries LLDP_DOT3_POWER_8023AT_INDEX
      [ (LLDP_DOT3_POWER_8023AT_OFF, chars "OFF");
        (LLDP_DOT3_POWER_8023AT_TYPE1, chars "TYPE1");
        (LLDP_DOT3_POWER_8023AT_TYPE2, chars "TYPE2") ]
      (LLDP_DOT3_POWER_8023AT_TYPE2 + 1);
    Entries LLDP_DOT3_POWER_SOURCE_INDEX
      [ (LLDP_DOT3_POWER_SOURCE_UNKNOWN, chars "Unkown");
        (LLDP_DOT3_POWER_SOURCE_PRIMARY, chars "Primary");
        (LLDP_DOT3_POWER_SOURCE_BACKUP, chars "Backup");
        (LLDP_DOT3_POWER_SOURCE_BOTH, chars "Both") ]
      (LLDP_DOT3_POWER_SOURCE_BOTH + 1);
    Entries LLDP_DOT3_POWER_PRIO_INDEX
      [ (LLDP_DOT3_POWER_PRIO_UNKNOWN, chars "Unkown");
        (LLDP_DOT3_POWER_PRIO_CRITICAL, chars "Critical");
        (LLDP_DOT3_POWER_PRIO_HIGH, chars "High");
        (LLDP_DOT3_POWER_PRIO_LOW, chars "Low") ]
      (LLDP_DOT3_POWER_PRIO_LOW + 1);
    Entries LLDP_DOT3_LINK_AUTONEG_INDEX
      [ (bit_set LLDP_DOT3_LINK_AUTONEG_OTHER, chars "Other");
        (bit_set LLDP_DOT3_LINK_AUTONEG_10BASE_T, chars "10 BASE_T");
        (bit_set LLDP_DOT3_LINK_AUTONEG_10BASET_FD, chars "10 BASET_FD");
        (bit_set LLDP_DOT3_LINK_AUTONEG_100BASE_T4, chars "100 BASE_T4");
        (bit_set LLDP_DOT3_LINK_AUTONEG_100BASE_TX, chars "100 BASE_TX");
        (bit_set LLDP_DOT3_LINK_AUTONEG_100BASE_TXFD, chars "100 BASE_TXFD");
        (bit_set LLDP_DOT3_LINK_AUTONEG_100BASE_T2, chars "100 BASE_T2");
        (bit_set LLDP_DOT3_LINK_AUTONEG_100BASE_T2FD, chars "100 BASE_T2FD");
        (bit_set LLDP_DOT3_LINK_AUTONEG_FDX_PAUSE, chars "FDX_PAUSE");
        (bit_set LLDP_DOT3_LINK_AUTONEG_FDX_APAUSE, chars "FDX_APAUSE");
        (bit_set LLDP_DOT3_LINK_AUTONEG_FDX_SPAUSE, chars "FDX_SPAUSE");
        (bit_set LLDP_DOT3_LINK_AUTONEG_FDX_BPAUSE, chars "FDX_BPAUSE");
        (bit_set LLDP_DOT3_LINK_AUTONEG_1000BASE_X, chars "1000 BASE_X");
        (bit_set LLDP_DOT3_LINK_AUTONEG_1000BASE_XFD, chars "1000 BASE_XFD");
        (bit_set LLDP_DOT3_LINK_AUTONEG_1000BASE_T, chars "1000 BASE_T");
        (bit_set LLDP_DOT3_LINK_AUTONEG_1000BASE_TFD, chars "1000 BASE_TFD") ]
      (bit_set LLDP_DOT3_LINK_AUTONEG_OTHER + 1) ].
Definition decode_setup_capabilities : list decode_entries :=
  [ Entries LLDP_CAP_INDEX
      [ (bit_set LLDP_CAP_OTHER, chars "Other");
        (bit_set LLDP_CAP_REPEATER, chars "Repeater");
        (bit_set LLDP_CAP_BRIDGE, chars "Bridge");
        (bit_set LLDP_CAP_WLAN, chars "WLAN");
        (bit_set LLDP_CAP_ROUTER, chars "Router");
        (bit_set LLDP_CAP_TELEPHONE, chars "Telephone");
        (bit_set LLDP_CAP_DOCSIS, chars "DOCSIS");
        (bit_set LLDP_CAP_STATION, chars "Station") ]
      (bit_set LLDP_CAP_STATION + 1);
    Entries LLDP_PPVID_CAP_INDEX
      [ (LLDP_PPVID_CAP_SUPPORTED, chars "SUPPORTED");
        (LLDP_PPVID_CAP_ENABLED, chars "ENABLED") ]
      (bit_set LLDP_PPVID_CAP_ENABLED + 1);
    Entries LLDP_MGMT_ADDR_INDEX
      [ (LLDP_MGMT_ADDR_NONE, chars "None");
        (LLDP_MGMT_ADDR_IP4, chars "IPv4");
        (LLDP_MGMT_ADDR_IP6, chars "IPv6") ]
      (LLDP_MGMT_ADDR_IP6 + 1);
    Entries LLDP_MGMT_IFACE_INDEX
      [ (LLDP_MGMT_IFACE_UNKNOWN, chars "Unknown");
        (LLDP_MGMT_IFACE_IFINDEX, chars "IF_INDEX");
        (LLDP_MGMT_IFACE_SYSPORT, chars "Sysroot") ]
      (LLDP_MGMT_IFACE_SYSPORT + 1);
    Entries LLDP_MED_CLASS_INDEX
      [ (LLDP_MED_CLASS_I, chars "CLASS_I");
        (LLDP_MED_CLASS_II, chars "CLASS_II");
        (LLDP_MED_CLASS_III, chars "CLASS_III");
        (LLDP_MED_NETWORK_DEVICE, chars "Network_Device") ]
      (LLDP_MED_NETWORK_DEVICE + 1);
    Entries LLDP_MED_APPTYPE_INDEX
      [ (LLDP_MED_APPTYPE_UNDEFINED, chars "Undefined");
        (LLDP_MED_APPTYPE_VOICE, chars "VOICE");
        (LLDP_MED_APPTYPE_VOICESIGNAL, chars "VOICESIGNAL");
        (LLDP_MED_APPTYPE_GUESTVOICE, chars "GUESTVOICE");
        (LLDP_MED_APPTYPE_GUESTVOICESIGNAL, chars "GUESTVOICESIGNAL");
        (LLDP_MED_APPTYPE_SOFTPHONEVOICE, chars "SOFTPHONEVOICE");
        (LLDP_MED_APPTYPE_VIDEOCONFERENCE, chars "VIDEOCONFERENCE");
        (LLDP_MED_APPTYPE_VIDEOSTREAM, chars "VIDEOSTREAM");
        (LLDP_MED_APPTYPE_VIDEOSIGNAL, chars "VIDEOSIGNAL") ]
      (LLDP_MED_APPTYPE_LAST + 1);
    Entries LLDP_MED_LOCFORMAT_INDEX
      [ (LLDP_MED_LOCFORMAT_COORD, chars "COORD");
        (LLDP_MED_LOCFORMAT_CIVIC, chars "CIVIC");
        (LLDP_MED_LOCFORMAT_ELIN, chars "ELIN") ]
      (LLDP_MED_LOCFORMAT_LAST + 1);
    Entries LLDP_MED_LOCATION_GEOID_INDEX
      [ (LLDP_MED_LOCATION_GEOID_WGS84, chars "WGS84");
        (LLDP_MED_LOCATION_GEOID_NAD83, chars "NAD83");
        (LLDP_MED_LOCATION_GEOID_NAD83_MLLW, chars "NAD83_MLLW") ]
      (LLDP_MED_LOCATION_GEOID_NAD83_MLLW + 1);
    Entries LLDP_MED_LOCATION_ALTITUDE_INDEX
      [ (LLDP_MED_LOCATION_ALTITUDE_UNIT_METER, chars "Meter");
        (LLDP_MED_LOCATION_ALTITUDE_UNIT_FLOOR, chars "Floor") ]
      (LLDP_MED_LOCATION_ALTITUDE_UNIT_FLOOR + 1);
    Entries LLDP_MED_POW_TYPE_INDEX
      [ (LLDP_MED_POW_TYPE_PSE, chars "PSE");
        (LLDP_MED_POW_TYPE_PD, chars "PD");
        (LLDP_MED_POW_TYPE_RESERVED, chars "RESERVED") ]
      (LLDP_MED_POW_TYPE_RESERVED + 1);
    Entries LLDP_MED_POW_SOURCE_INDEX
      [ (LLDP_MED_POW_SOURCE_UNKNOWN, chars "UNKNOWN");
        (LLDP_MED_POW_SOURCE_PRIMARY, chars "PRIMARY");
        (LLDP_MED_POW_SOURCE_BACKUP, chars "BACKUP");
        (LLDP_MED_POW_SOURCE_RESERVED, chars "RESERVED");
        (LLDP_MED_POW_SOURCE_PSE, chars "PSE");
        (LLDP_MED_POW_SOURCE_LOCAL, chars "LOCAL");
        (LLDP_MED_POW_SOURCE_BOTH, chars "BOTH") ]
      (LLDP_MED_POW_SOURCE_BOTH + 1);
    Entries LLDP_MED_POW_PRIO_INDEX
      [ (LLDP_MED_POW_PRIO_UNKNOWN, chars "Unknown");
        (LLDP_MED_POW_PRIO_CRITICAL, chars "Critical");
        (LLDP_MED_POW_PRIO_HIGH, chars "High");
        (LLDP_MED_POW_PRIO_LOW, chars "Low") ]
      (LLDP_MED_POW_PRIO_LOW + 1);
    Entries LLDP_MED_CAP_INDEX
      [ (bit_set LLDP_MED_CAP_CAP, chars "CAP");
        (bit_set LLDP_MED_CAP_POLICY, chars "POLICY");
        (bit_set LLDP_MED_CAP_LOCATION, chars "LOCATION");
        (bit_set LLDP_MED_CAP_MDI_PSE, chars "PSE");
        (bit_set LLDP_MED_CAP_MDI_PD, chars "PD");
        (bit_set LLDP_MED_CAP_IV, chars "IV") ]
      (bit_set LLDP_MED_CAP_IV + 1);
    Entries LLDP_MODE_INDEX
      [ (LLDPD_MODE_LLDP, chars "LLDP");
        (LLDPD_MODE_CDPV1, chars "CDPV1");
        (LLDPD_MODE_CDPV2, chars "CDPV2");
        (LLDPD_MODE_SONMP, chars "SONMP");
        (LLDPD_MODE_EDP, chars "EDP");
        (LLDPD_MODE_FDP, chars "FDP") ]
      (LLDPD_MODE_MAX + 1);
    Entries LLDP_BOND_SLAVE_SRC_MAC_TYPE_INDEX
      [ (LLDP_BOND_SLAVE_SRC_MAC_TYPE_UNKNOWN, chars "Unkown");
        (LLDP_BOND_SLAVE_SRC_MAC_TYPE_REAL, chars "Real");
        (LLDP_BOND_SLAVE_SRC_MAC_TYPE_ZERO, chars "Zero");
        (LLDP_BOND_SLAVE_SRC_MAC_TYPE_FIXED, chars "Fixed");
        (LLDP_BOND_SLAVE_SRC_MAC_TYPE_LOCALLY_ADMINISTERED, chars "Locally_Administered") ]
      (LLDP_BOND_SLAVE_SRC_MAC_TYPE_LOCALLY_ADMINISTERED) ].
Definition decode_setup : list decode_entries := decode_setup_link ++ decode_setup_capabilities.

Record decode_table := Table_ {
  lldp_decode_table : list (option (list Z));
  lldp_decode_start : list Z
}.

(** [LLDP_DECODE_SETUP] *)
Definition LLDP_DECODE_SETUP (base : Z) (table : list (option (list Z))) (e : Z * list Z) : list (option (list Z)) :=
  <[ Z.to_nat (base + e.1) := Some e.2 ]> table.

Fixpoint setup_loop (l : list decode_entries) (index : Z) (t : decode_table) : decode_table :=
  match l with
  | [] => Table_ (lldp_decode_table t) (lldp_decode_start t ++ [index])
  | e :: l =>
      setup_loop l (index + next_index e)
        (Table_ (foldl (LLDP_DECODE_SETUP index) (lldp_decode_table t) (names e)) (lldp_decode_start t ++ [index]))
  end.
Definition lldp_ovsdb_setup_decode : decode_table :=
  setup_loop decode_setup 0 (Table_ (replicate (Z.to_nat DECODE_TABLE_MAX) None) []).

(** ** Decoding *)

Definition category_index (c : decode_category) : nat :=
  match c with
  | LLDP_CHASSISID_SUBTYPE_INDEX => 0
  | LLDP_PORTID_SUBTYPE_INDEX => 1
  | LLDP_DOT3_MAU_INDEX => 2
  | LLDP_DOT3_POWER_INDEX => 3
  | LLDP_DOT3_POWERPAIRS_INDEX => 4
  | LLDP_DOT3_POWER_8023AT_INDEX => 5
  | LLDP_DOT3_POWER_SOURCE_INDEX => 6
  | LLDP_DOT3_POWER_PRIO_INDEX => 7
  | LLDP_DOT3_LINK_AUTONEG_INDEX => 8
  | LLDP_CAP_INDEX => 9
  | LLDP_PPVID_CAP_INDEX => 10
  | LLDP_MGMT_ADDR_INDEX => 11
  | LLDP_MGMT_IFACE_INDEX => 12
  | LLDP_MED_CLASS_INDEX => 13
  | LLDP_MED_APPTYPE_INDEX => 14
  | LLDP_MED_LOCFORMAT_INDEX => 15
  | LLDP_MED_LOCATION_GEOID_INDEX => 16
  | LLDP_MED_LOCATION_ALTITUDE_INDEX => 17
  | LLDP_MED_POW_TYPE_INDEX => 18
  | LLDP_MED_POW_SOURCE_INDEX => 19
  | LLDP_MED_POW_PRIO_INDEX => 20
  | LLDP_MED_CAP_INDEX => 21
  | LLDP_MODE_INDEX => 22
  | LLDP_BOND_SLAVE_SRC_MAC_TYPE_INDEX => 23
  end.

(** [sprintf] with a NULL string. *)
Definition NULL_TEXT : list Z := chars "(null)".
Definition SPACE : list Z := chars " ".

Section Decode.
Context (t : decode_table).

Definition start_of (i : nat) : Z := default 0 (lldp_decode_start t !! i).
Definition base_of (c : decode_category) : Z := start_of (category_index c).
Definition limit_of (c : decode_category) : Z := start_of (S (category_index c)) - start_of (category_index c).
Definition entry_at (i : Z) : option (list Z) := mjoin (lldp_decode_table t !! Z.to_nat i).

(** The loop of [decode_features]: [i] counts up to the limit, [out] is what was written. *)
Fixpoint features_loop (steps : nat) (i base features : Z) (out : list Z) (n : bool) : list Z :=
  match steps with
  | O => out
  | S steps =>
      if Z.testbit features i
      then let name := default NULL_TEXT (entry_at (base + i)) in
           features_loop steps (i + 1) base features (if n then out ++ chars ", " ++ name else name) true
      else features_loop steps (i + 1) base features out n
  end.
Definition decode_features (features : Z) (c : decode_category) : list Z :=
  features_loop (Z.to_nat (limit_of c)) 0 (base_of c) features SPACE false.

Definition decode_property (property : Z) (c : decode_category) : list Z :=
  if limit_of c <=? property then SPACE else default SPACE (entry_at (base_of c + property)).
End Decode.

(** [decode_nw_addr]: [decode_str] is left alone when the length is not the one of a MAC
    address. *)
Definition ETHER_ADDR_LEN : Z := 6.
Fixpoint mac_text (l : list Z) : list Z :=
  match l with
  | [] => []
  | [c] => hex2 c
  | c :: l => hex2 c ++ [58] ++ mac_text l
  end.
Definition decode_nw_addr (decode_str user_str : list Z) (key_len : Z) : list Z :=
  if key_len =? ETHER_ADDR_LEN then mac_text (take (Z.to_nat key_len) user_str) else decode_str.

(** ** What the table holds *)

(** The name of an option in its own category: the last one that was given. *)
Definition name_in (l : list (Z * list Z)) (v : Z) : option (list Z) :=
  snd <$> list.last (filter (λ e, e.1 = v) l).
Definition entries_of (c : decode_category) : decode_entries :=
  default (Entries c [] 0) (decode_setup !! category_index c).
Definition all_categories : list decode_category := map category decode_setup.

Lemma all_categories_elem c : c ∈ all_categories.
Proof. apply list_elem_of_lookup. exists (category_index c). by destruct c. Qed.

Lemma seq_below (n : Z) (P : Z → bool) :
  forallb P (map Z.of_nat (seq 0 (Z.to_nat n))) = true → ∀ v, 0 ≤ v < n → P v = true.
Proof.
  intros Hall v Hv. rewrite forallb_forall in Hall. apply Hall. apply in_map_iff. exists (Z.to_nat v).
  split; [lia|]. apply in_seq. lia.
Qed.

(** Categories follow each other: the limit is what the setup moved the index by. *)
Lemma limits c : limit_of lldp_ovsdb_setup_decode c = next_index (entries_of c).
Proof. by destruct c; vm_compute. Qed.

Lemma property_below c v :
  0 ≤ v < next_index (entries_of c) →
  entry_at lldp_ovsdb_setup_decode (base_of lldp_ovsdb_setup_decode c + v) = name_in (names (entries_of c)) v.
Proof.
  intros Hv.
  pose proof (seq_below (next_index (entries_of c))
    (λ v, bool_decide (entry_at lldp_ovsdb_setup_decode (base_of lldp_ovsdb_setup_decode c + v) = name_in (names (entries_of c)) v))) as Hs.
  eapply bool_decide_eq_true_1. apply Hs; [|done]. clear. by destruct c; vm_compute.
Qed.

(** A number is shown by the name it has in its own category, although all the categories share one
    array: the last name that was stored for it when it is below the end of the category, and a space
    when it is above or has no name. *)
Theorem decode_property_names c v :
  0 ≤ v →
  decode_property lldp_ovsdb_setup_decode v c =
  if v <? next_index (entries_of c) then default SPACE (name_in (names (entries_of c)) v) else SPACE.
Proof.
  intros Hv. unfold decode_property. rewrite limits. destruct (Z.ltb_spec v (next_index (entries_of c))) as [Hl|Hl].
  - rewrite (proj2 (Z.leb_gt _ _)), property_below by lia. done.
  - by rewrite (proj2 (Z.leb_le _ _)).
Qed.

(** The names of the bits that are set, in increasing order. *)
Definition bits_set (features n : Z) : list Z := List.filter (Z.testbit features) (map Z.of_nat (seq 0 (Z.to_nat n))).
Fixpoint comma_list (l : list (list Z)) : list Z :=
  match l with [] => [] | [x] => x | x :: l => x ++ chars ", " ++ comma_list l end.

Lemma features_loop_spec t steps i base features out n :
  0 ≤ i →
  features_loop t steps i base features out n =
  let l := map (λ j, default NULL_TEXT (entry_at t (base + j)))
               (List.filter (Z.testbit features) (map (λ k, i + Z.of_nat k) (seq 0 steps))) in
  match l with [] => out | _ => if n then out ++ chars ", " ++ comma_list l else comma_list l end.
Proof.
  revert i out n. induction steps as [|steps IH]; intros i out n Hi; [done|]. cbn [features_loop seq map List.filter].
  rewrite Z.add_0_r, <- seq_shift, map_map.
  assert (map (λ k, i + Z.of_nat (S k)) (seq 0 steps) = map (λ k, i + 1 + Z.of_nat k) (seq 0 steps)) as ->
    by (apply map_ext; lia).
  rewrite !IH by lia. destruct (Z.testbit features i); [|done]. cbn [map].
  destruct (map _ _) as [|x l]; cbn zeta; [by destruct n; cbn [comma_list]|].
  destruct n; cbn [comma_list]; by rewrite <- ?app_assoc.
Qed.

(** A set of capabilities, or of link modes, is shown as the list of the names of exactly the bits
    that are set, in increasing order, and as a space when there is none. *)
Theorem decode_features_names c features :
  c = LLDP_CAP_INDEX ∨ c = LLDP_DOT3_LINK_AUTONEG_INDEX →
  decode_features lldp_ovsdb_setup_decode features c =
  match bits_set features (next_index (entries_of c)) with
  | [] => SPACE
  | l => comma_list (map (λ i, default [] (name_in (names (entries_of c)) i)) l)
  end.
Proof.
  intros Hc. unfold decode_features. rewrite features_loop_spec, limits by lia. cbn zeta. unfold bits_set.
  assert (map (λ k, 0 + Z.of_nat k) (seq 0 (Z.to_nat (next_index (entries_of c)))) = map Z.of_nat (seq 0 (Z.to_nat (next_index (entries_of c))))) as ->
    by (apply map_ext; lia).
  set (l := List.filter _ _).
  assert (∀ i, In i l → 0 ≤ i < next_index (entries_of c)) as Hl.
  { intros i Hi. apply List.filter_In in Hi as [Hi _]. apply in_map_iff in Hi as (k & <- & Hk). apply in_seq in Hk. lia. }
  assert (map (λ j, default NULL_TEXT (entry_at lldp_ovsdb_setup_decode (base_of lldp_ovsdb_setup_decode c + j))) l =
          map (λ i, default [] (name_in (names (entries_of c)) i)) l) as ->.
  { apply map_ext_in. intros i Hi. rewrite property_below by auto. specialize (Hl i Hi).
    pose proof (seq_below (next_index (entries_of c)) (λ i, bool_decide (is_Some (name_in (names (entries_of c)) i)))) as Hs.
    assert (is_Some (name_in (names (entries_of c)) i)) as [x ->]; [|done].
    eapply bool_decide_eq_true_1. apply Hs; [|done]. clear -Hc. by destruct Hc as [-> | ->]; vm_compute. }
  by destruct l.
Qed.
