(* ===== verification/OvsNbr.v ===== *)
(** * Database interface: publishing a neighbor

    [lldp_nbr_update] writes a neighbor as a list of keys and values, all in one buffer of
    [KEY_VAL_STR_BUF_MAX] bytes, and gives them to the database.  A value is cut after
    [MAX_DESCR - 1] bytes, while the position in the buffer moves by its full length.
    [decode_str] is a scratch string that one step may leave to the next.

    [inet_ntop] is a parameter: it gives a text of less than [INET6_ADDRSTRLEN] bytes, or
    nothing when the family is unknown. *)

From stdpp Require Import strings.
From S2P Require Import Prelude Bytes Text Const Structs OvsDecode.
#[local] Open Scope Z_scope.

Abbreviation word := (list Z).

(** ** Keys (lldpd_ovsdb_if.h) *)

Definition LLDP_NBR_CHASSIS_CAP_AVAIL : list Z := chars "chassis_capability_available".
Definition LLDP_NBR_CHASSIS_CAP_ENABLE : list Z := chars "chassis_capability_enabled".
Definition LLDP_NBR_CHASSIS_DESCR : list Z := chars "chassis_description".
Definition LLDP_NBR_CHASSIS_ID : list Z := chars "chassis_id".
Definition LLDP_NBR_CHASSIS_ID_LEN : list Z := chars "chassis_id_len".
Definition LLDP_NBR_CHASSIS_ID_SUBTYPE : list Z := chars "chassis_id_subtype".
Definition LLDP_NBR_CHASSIS_IDX : list Z := chars "chassis_index".
Definition LLDP_NBR_CHASSIS_NAME : list Z := chars "chassis_name".
Definition LLDP_NBR_CHASSIS_PROTOCOL : list Z := chars "chassis_protocol".
Definition LLDP_NBR_CHASSIS_REF_COUNT : list Z := chars "chassis_refcount".
Definition LLDP_NBR_CHASSIS_TTL : list Z := chars "chassis_ttl".
Definition LLDP_NBR_MAC_AUTONEG_ADV : list Z := chars "macphy_autoneg_advertised".
Definition LLDP_NBR_MAC_AUTONEG_ENB : list Z := chars "macphy_autoneg_enabled".
Definition LLDP_NBR_MAC_AUTONEG_SUPPORT : list Z := chars "macphy_autoneg_support".
Definition LLDP_NBR_MAC_AUTONEG_TYPE : list Z := chars "macphy_mau_type".
Definition LLDP_NBR_PORT_DESCR : list Z := chars "port_description".
Definition LLDP_NBR_PORT_HIDDEN_IN : list Z := chars "port_hidden_in".
Definition LLDP_NBR_PORT_HIDDEN_OUT : list Z := chars "port_hidden_out".
Definition LLDP_NBR_PORT_ID : list Z := chars "port_id".
Definition LLDP_NBR_PORT_ID_LEN : list Z := chars "port_id_len".
Definition LLDP_NBR_PORT_ID_SUBTYPE : list Z := chars "port_id_subtype".
Definition LLDP_NBR_PORT_LASTCHANGE : list Z := chars "port_lastchange".
Definition LLDP_NBR_PORT_LASTUPDATE : list Z := chars "port_lastupdate".
Definition LLDP_NBR_PORT_MFS : list Z := chars "port_mfs".
Definition LLDP_NBR_PORT_PROTOCOL : list Z := chars "port_protocol".
Definition LLDP_NBR_PORT_PVID : list Z := chars "port_pvid".
Definition LLDP_NBR_POWER_ALLOC : list Z := chars "power_allocated".
Definition LLDP_NBR_POWER_CLASS : list Z := chars "power_class".
Definition LLDP_NBR_POWER_DEVICE : list Z := chars "power_devicetype".
Definition LLDP_NBR_POWER_ENABLED : list Z := chars "power_enabled".
Definition LLDP_NBR_POWER_PAIRCTL : list Z := chars "power_paircontrol".
Definition LLDP_NBR_POWER_PAIR : list Z := chars "power_pairs".
Definition LLDP_NBR_POWER_TYPE : list Z := chars "power_powertype".
Definition LLDP_NBR_POWER_PRIO : list Z := chars "power_priority".
Definition LLDP_NBR_POWER_REQ : list Z := chars "power_requested".
Definition LLDP_NBR_POWER_SRC : list Z := chars "power_source".
Definition LLDP_NBR_POWER_SUPPORT : list Z := chars "power_supported".
Definition LLDP_NBR_MGMT_IP_LIST : list Z := chars "mgmt_ip_list".
Definition LLDP_NBR_MGMT_IF_LIST : list Z := chars "mgmt_iface_list".
Definition LLDP_NBR_VLAN_NAME_LIST : list Z := chars "vlan_name_list".
Definition LLDP_NBR_VLAN_ID_LIST : list Z := chars "vlan_id_list".
Definition LLDP_NBR_PPVIDS_CAP_LIST : list Z := chars "ppvids_cap_list".
Definition LLDP_NBR_PPVIDS_PPVID_LIST : list Z := chars "ppvids_ppvid_list".
Definition LLDP_NBR_PIDS_NAME_LIST : list Z := chars "pids_name_list".
Definition LLDP_NBR_PIDS_LEN_LIST : list Z := chars "pids_len_list".

Definition KEY_VAL_STR_BUF_MAX : Z := 4096.
Definition MAX_DESCR : Z := 256.
Definition MGMT_IF_MAX : Z := 16.
Definition STR_BUF_DECODE_MAX : Z := 1024.
Definition VLAN_LIST_STR_MAX : Z := 4096 * 256.
Definition VLAN_LIST_INT_MAX : Z := 4096 * 16.
Definition INET6_ADDRSTRLEN : Z := 46.
Definition MGMTIP_LIST_MAX : Z := MGMT_IF_MAX * INET6_ADDRSTRLEN.

(** [%d] of an integer of 32 bits, [%llx] of a [long long]. *)
Definition print_int (v : Z) : word :=
  let v := u32 v in if v <? 2 ^ 31 then decimal v else 45 :: decimal (2 ^ 32 - v).
Fixpoint hex_digits (fuel : nat) (v : Z) (acc : word) : word :=
  match fuel with
  | O => acc
  | S fuel => let acc := hex_digit (v mod 16) :: acc in if v <? 16 then acc else hex_digits fuel (v / 16) acc
  end.
Definition print_llx (v : Z) : word := hex_digits 16 (v mod 2 ^ 64) [].

(** ** The buffer *)

(** A write past the end of a block, or a string without terminator. *)
Inductive fault := Overflow | Overread.
Record buffer := Buffer { offset : Z; pairs : list (word * word); decode_str : word }.
#[global] Instance eta_buffer : Settable buffer := λ b, Buffer (offset b) (pairs b) (decode_str b).
Definition op : Type := buffer → fault + buffer.
Definition skip : op := inr.
Definition andthen (f g : op) : op := λ b, match f b with inl e => inl e | inr b => g b end.
Declare Scope nbr_scope.
Infix "⨾" := andthen (at level 62, right associativity) : nbr_scope.
#[local] Open Scope nbr_scope.

(** [LLDP_ENCODE_KEY_VAL] and its variants: the pair is what the two pointers point to. *)
Definition LLDP_ENCODE_KEY_VAL (key : word) (val : option word) : op := λ b,
  let val := cstr (default [] val) in
  let written := take (Z.to_nat (MAX_DESCR - 1)) val in
  let vpos := offset b + zlen key + 1 in
  if KEY_VAL_STR_BUF_MAX <? vpos then inl Overflow
  else if KEY_VAL_STR_BUF_MAX <? vpos + zlen written + 1 then inl Overflow
  else inr (b <| offset := vpos + zlen val + 1 |> <| pairs ::= (λ l, l ++ [(key, written)]) |>).
Definition LLDP_ENCODE_KEY_VAL_INT (key : word) (val : Z) : op := LLDP_ENCODE_KEY_VAL key (Some (print_int val)).
Definition LLDP_ENCODE_KEY_VAL_DBL (key : word) (val : Z) : op := LLDP_ENCODE_KEY_VAL key (Some (print_llx val)).

(** Steps on the scratch string. *)
Definition decoding (f : word → word) : op := λ b, inr (b <| decode_str ::= f |>).
Definition encode_decoded (key : word) : op := λ b, LLDP_ENCODE_KEY_VAL key (Some (decode_str b)) b.
(** [sprintf(decode_str, "%s", s)] of a block that holds exactly [s]. *)
Definition print_block (s : option word) : op := λ b,
  match s with
  | None => inl Overread
  | Some s => if existsb (Z.eqb 0) s
              then if STR_BUF_DECODE_MAX <=? strlen s then inl Overflow else inr (b <| decode_str := cstr s |>)
              else inl Overread
  end.

(** ** Lists *)

(** [smap_list_set]: an item more, in a block of [size] bytes. *)
Definition smap_list_set (size : Z) (svec val : word) : fault + word :=
  let s := svec ++ (if zlen svec =? 0 then [] else chars ",") ++ val in
  if size <? zlen s + 1 then inl Overflow else inr s.
Fixpoint smap_list (size : Z) (svec : word) (vals : list word) : fault + word :=
  match vals with
  | [] => inr svec
  | v :: vals => match smap_list_set size svec v with inl e => inl e | inr s => smap_list size s vals end
  end.

(** [smap_list_get_next]: the item at [vec_cur], and where the next one is, if any. *)
Definition smap_list_get_next (svec : word) (vec_cur : nat) : word * option nat :=
  let item := take_while (λ c, negb (c =? 0) && negb (c =? 44)) (drop vec_cur svec) in
  let idx := (vec_cur + length item)%nat in
  (item, match svec !! idx with Some c => if c =? 0 then None else Some (S idx) | None => None end).

Section Publish.
Context (inet_ntop : Z → word → option word).

Definition with_list (l : fault + word) (k : word → op) : op := λ b, match l with inl e => inl e | inr s => k s b end.

(** Two lists in step; both are built before they are used. *)
Definition encode_lists (key0 key1 : word) (l0 l1 : fault + word) : op :=
  with_list l0 (λ s0, with_list l1 (λ s1,
    LLDP_ENCODE_KEY_VAL key0 (Some s0) ⨾ LLDP_ENCODE_KEY_VAL key1 (Some s1))).

Definition mgmt_texts (c : lldpd_chassis) : list (word * word) :=
  omap (λ m, match inet_ntop (m_family m) (m_addr m) with
             | Some ip => Some (ip, print_int (m_iface m))
             | None => None
             end) (take (Z.to_nat MGMT_IF_MAX) (c_mgmt c)).
Definition lldp_create_mgmtip_list (c : lldpd_chassis) : (fault + word) * (fault + word) :=
  (smap_list MGMTIP_LIST_MAX [] (map fst (mgmt_texts c)), smap_list MGMTIP_LIST_MAX [] (map snd (mgmt_texts c))).

Definition lldp_create_vlan_list (p : lldpd_port) : (fault + word) * (fault + word) :=
  (smap_list VLAN_LIST_STR_MAX [] (map (λ v, cstr (v_name v)) (p_vlans p)),
   smap_list VLAN_LIST_INT_MAX [] (map (λ v, print_int (v_vid v)) (p_vlans p))).
Definition lldp_create_ppvid_list (p : lldpd_port) : (fault + word) * (fault + word) :=
  (smap_list VLAN_LIST_INT_MAX [] (map (λ v, print_int (p_cap_status v)) (p_ppvids p)),
   smap_list VLAN_LIST_INT_MAX [] (map (λ v, print_int (p_ppvid v)) (p_ppvids p))).

(** The blocks of protocol identities are printed as strings: each needs a terminator. *)
Definition block_string (s : word) : option word := if existsb (Z.eqb 0) s then Some (cstr s) else None.
Definition lldp_create_pi_list (p : lldpd_port) : (fault + word) * (fault + word) :=
  (match mapM (λ i, block_string (p_pi i)) (p_pids p) with
   | Some l => smap_list VLAN_LIST_STR_MAX [] l
   | None => inl Overread
   end,
   smap_list VLAN_LIST_INT_MAX [] (map (λ i, print_int (zlen (p_pi i))) (p_pids p))).

(** ** The update *)

Abbreviation T := lldp_ovsdb_setup_decode.
Definition id_len (id : option word) : Z := zlen (default [] id).
Definition flag (b : bool) : Z := if b then 1 else 0.
Definition unless_empty {A} (l : list A) (o : op) : op := match l with [] => skip | _ => o end.

Definition encode_chassis (c : lldpd_chassis) : op :=
  LLDP_ENCODE_KEY_VAL_INT LLDP_NBR_CHASSIS_REF_COUNT (c_refcount c) ⨾
  LLDP_ENCODE_KEY_VAL_INT LLDP_NBR_CHASSIS_IDX (c_index c) ⨾
  decoding (λ _, decode_property T (c_protocol c) LLDP_MODE_INDEX) ⨾
  encode_decoded LLDP_NBR_CHASSIS_PROTOCOL ⨾
  decoding (λ _, decode_property T (c_id_subtype c) LLDP_CHASSISID_SUBTYPE_INDEX) ⨾
  encode_decoded LLDP_NBR_CHASSIS_ID_SUBTYPE ⨾
  decoding (λ d, decode_nw_addr d (default [] (c_id c)) (id_len (c_id c))) ⨾
  encode_decoded LLDP_NBR_CHASSIS_ID ⨾
  LLDP_ENCODE_KEY_VAL_INT LLDP_NBR_CHASSIS_ID_LEN (id_len (c_id c)) ⨾
  LLDP_ENCODE_KEY_VAL LLDP_NBR_CHASSIS_NAME (c_name c) ⨾
  LLDP_ENCODE_KEY_VAL LLDP_NBR_CHASSIS_DESCR (c_descr c) ⨾
  decoding (λ _, decode_features T (c_cap_available c) LLDP_CAP_INDEX) ⨾
  encode_decoded LLDP_NBR_CHASSIS_CAP_AVAIL ⨾
  decoding (λ _, decode_features T (c_cap_enabled c) LLDP_CAP_INDEX) ⨾
  encode_decoded LLDP_NBR_CHASSIS_CAP_ENABLE ⨾
  LLDP_ENCODE_KEY_VAL_INT LLDP_NBR_CHASSIS_TTL (c_ttl c) ⨾
  unless_empty (c_mgmt c)
    (encode_lists LLDP_NBR_MGMT_IP_LIST LLDP_NBR_MGMT_IF_LIST
       (lldp_create_mgmtip_list c).1 (lldp_create_mgmtip_list c).2).

Definition encode_port (p : lldpd_port) : op :=
  LLDP_ENCODE_KEY_VAL_DBL LLDP_NBR_PORT_LASTCHANGE (p_lastchange p) ⨾
  LLDP_ENCODE_KEY_VAL_DBL LLDP_NBR_PORT_LASTUPDATE (p_lastupdate p) ⨾
  decoding (λ _, decode_property T (p_protocol p) LLDP_MODE_INDEX) ⨾
  encode_decoded LLDP_NBR_PORT_PROTOCOL ⨾
  LLDP_ENCODE_KEY_VAL_INT LLDP_NBR_PORT_HIDDEN_IN (flag (p_hidden_in p)) ⨾
  LLDP_ENCODE_KEY_VAL_INT LLDP_NBR_PORT_HIDDEN_OUT (flag (p_hidden_out p)) ⨾
  decoding (λ _, decode_property T (p_id_subtype p) LLDP_PORTID_SUBTYPE_INDEX) ⨾
  encode_decoded LLDP_NBR_PORT_ID_SUBTYPE ⨾
  (if p_id_subtype p =? LLDP_PORTID_SUBTYPE_LLADDR
   then decoding (λ d, decode_nw_addr d (default [] (p_id p)) (id_len (p_id p)))
   else print_block (p_id p)) ⨾
  encode_decoded LLDP_NBR_PORT_ID ⨾
  LLDP_ENCODE_KEY_VAL_INT LLDP_NBR_PORT_ID_LEN (id_len (p_id p)) ⨾
  LLDP_ENCODE_KEY_VAL LLDP_NBR_PORT_DESCR (p_descr p) ⨾
  LLDP_ENCODE_KEY_VAL_INT LLDP_NBR_PORT_MFS (p_mfs p).

Definition encode_macphy (m : lldpd_dot3_macphy) : op :=
  decoding (λ _, decode_features T (autoneg_support m) LLDP_DOT3_LINK_AUTONEG_INDEX) ⨾
  encode_decoded LLDP_NBR_MAC_AUTONEG_SUPPORT ⨾
  decoding (λ _, decode_features T (autoneg_enabled m) LLDP_DOT3_LINK_AUTONEG_INDEX) ⨾
  encode_decoded LLDP_NBR_MAC_AUTONEG_ENB ⨾
  decoding (λ _, decode_features T (autoneg_advertised m) LLDP_DOT3_LINK_AUTONEG_INDEX) ⨾
  encode_decoded LLDP_NBR_MAC_AUTONEG_ADV ⨾
  decoding (λ _, decode_property T (mau_type m) LLDP_DOT3_MAU_INDEX) ⨾
  encode_decoded LLDP_NBR_MAC_AUTONEG_TYPE.

Definition encode_power (w : lldpd_dot3_power) : op :=
  LLDP_ENCODE_KEY_VAL_INT LLDP_NBR_POWER_DEVICE (pow_devicetype w) ⨾
  LLDP_ENCODE_KEY_VAL_INT LLDP_NBR_POWER_SUPPORT (pow_supported w) ⨾
  LLDP_ENCODE_KEY_VAL_INT LLDP_NBR_POWER_ENABLED (pow_enabled w) ⨾
  LLDP_ENCODE_KEY_VAL_INT LLDP_NBR_POWER_PAIRCTL (pow_paircontrol w) ⨾
  LLDP_ENCODE_KEY_VAL_INT LLDP_NBR_POWER_PAIR (pow_pairs w) ⨾
  LLDP_ENCODE_KEY_VAL_INT LLDP_NBR_POWER_CLASS (pow_class w) ⨾
  LLDP_ENCODE_KEY_VAL_INT LLDP_NBR_POWER_TYPE (pow_powertype w) ⨾
  LLDP_ENCODE_KEY_VAL_INT LLDP_NBR_POWER_SRC (pow_source w) ⨾
  LLDP_ENCODE_KEY_VAL_INT LLDP_NBR_POWER_PRIO (pow_priority w) ⨾
  LLDP_ENCODE_KEY_VAL_INT LLDP_NBR_POWER_REQ (pow_requested w) ⨾
  LLDP_ENCODE_KEY_VAL_INT LLDP_NBR_POWER_ALLOC (pow_allocated w).

Definition encode_vlans (p : lldpd_port) : op :=
  LLDP_ENCODE_KEY_VAL_INT LLDP_NBR_PORT_PVID (p_pvid p) ⨾
  unless_empty (p_vlans p)
    (encode_lists LLDP_NBR_VLAN_NAME_LIST LLDP_NBR_VLAN_ID_LIST (lldp_create_vlan_list p).1 (lldp_create_vlan_list p).2) ⨾
  unless_empty (p_ppvids p)
    (encode_lists LLDP_NBR_PPVIDS_CAP_LIST LLDP_NBR_PPVIDS_PPVID_LIST (lldp_create_ppvid_list p).1 (lldp_create_ppvid_list p).2) ⨾
  unless_empty (p_pids p)
    (encode_lists LLDP_NBR_PIDS_NAME_LIST LLDP_NBR_PIDS_LEN_LIST (lldp_create_pi_list p).1 (lldp_create_pi_list p).2).

(** [lldp_nbr_update]: the keys and values given to [smap_add], in order. *)
Definition lldp_nbr_update (chassis : option lldpd_chassis) (p : lldpd_port) : fault + list (word * word) :=
  match ((match chassis with Some c => encode_chassis c | None => skip end) ⨾
         encode_port p ⨾ encode_macphy (p_macphy p) ⨾ encode_power (p_power p) ⨾ encode_vlans p) (Buffer 0 [] []) with
  | inl e => inl e
  | inr b => inr (pairs b)
  end.

(** ** What is published *)

Definition join_step (s v : word) : word := s ++ (if zlen s =? 0 then [] else chars ",") ++ v.
Definition smap_join (l : list word) : word := foldl join_step [] l.
Definition two_lists {A} (l : list A) (k0 k1 : word) (f0 f1 : A → word) : list (word * word) :=
  match l with [] => [] | _ => [(k0, smap_join (map f0 l)); (k1, smap_join (map f1 l))] end.

(** The identifier of the chassis: an address, or the text that was there before, which is
    the name of the type of the identifier. *)
Definition address_or (before : word) (id : option word) : word :=
  if id_len id =? ETHER_ADDR_LEN then mac_text (default [] id) else before.

Definition chassis_fields (c : lldpd_chassis) : list (word * word) :=
  let subtype := decode_property T (c_id_subtype c) LLDP_CHASSISID_SUBTYPE_INDEX in
  [ (LLDP_NBR_CHASSIS_REF_COUNT, print_int (c_refcount c));
    (LLDP_NBR_CHASSIS_IDX, print_int (c_index c));
    (LLDP_NBR_CHASSIS_PROTOCOL, decode_property T (c_protocol c) LLDP_MODE_INDEX);
    (LLDP_NBR_CHASSIS_ID_SUBTYPE, subtype);
    (LLDP_NBR_CHASSIS_ID, address_or subtype (c_id c));
    (LLDP_NBR_CHASSIS_ID_LEN, print_int (id_len (c_id c)));
    (LLDP_NBR_CHASSIS_NAME, default [] (c_name c));
    (LLDP_NBR_CHASSIS_DESCR, default [] (c_descr c));
    (LLDP_NBR_CHASSIS_CAP_AVAIL, decode_features T (c_cap_available c) LLDP_CAP_INDEX);
    (LLDP_NBR_CHASSIS_CAP_ENABLE, decode_features T (c_cap_enabled c) LLDP_CAP_INDEX);
    (LLDP_NBR_CHASSIS_TTL, print_int (c_ttl c)) ] ++
  match c_mgmt c with
  | [] => []
  | _ => [(LLDP_NBR_MGMT_IP_LIST, smap_join (map fst (mgmt_texts c))); (LLDP_NBR_MGMT_IF_LIST, smap_join (map snd (mgmt_texts c)))]
  end.

Definition port_fields (p : lldpd_port) : list (word * word) :=
  let subtype := decode_property T (p_id_subtype p) LLDP_PORTID_SUBTYPE_INDEX in
  [ (LLDP_NBR_PORT_LASTCHANGE, print_llx (p_lastchange p));
    (LLDP_NBR_PORT_LASTUPDATE, print_llx (p_lastupdate p));
    (LLDP_NBR_PORT_PROTOCOL, decode_property T (p_protocol p) LLDP_MODE_INDEX);
    (LLDP_NBR_PORT_HIDDEN_IN, print_int (flag (p_hidden_in p)));
    (LLDP_NBR_PORT_HIDDEN_OUT, print_int (flag (p_hidden_out p)));
    (LLDP_NBR_PORT_ID_SUBTYPE, subtype);
    (LLDP_NBR_PORT_ID, if p_id_subtype p =? LLDP_PORTID_SUBTYPE_LLADDR then address_or subtype (p_id p) else cstr (default [] (p_id p)));
    (LLDP_NBR_PORT_ID_LEN, print_int (id_len (p_id p)));
    (LLDP_NBR_PORT_DESCR, default [] (p_descr p));
    (LLDP_NBR_PORT_MFS, print_int (p_mfs p)) ].

Definition macphy_fields (m : lldpd_dot3_macphy) : list (word * word) :=
  [ (LLDP_NBR_MAC_AUTONEG_SUPPORT, decode_features T (autoneg_support m) LLDP_DOT3_LINK_AUTONEG_INDEX);
    (LLDP_NBR_MAC_AUTONEG_ENB, decode_features T (autoneg_enabled m) LLDP_DOT3_LINK_AUTONEG_INDEX);
    (LLDP_NBR_MAC_AUTONEG_ADV, decode_features T (autoneg_advertised m) LLDP_DOT3_LINK_AUTONEG_INDEX);
    (LLDP_NBR_MAC_AUTONEG_TYPE, decode_property T (mau_type m) LLDP_DOT3_MAU_INDEX) ].

Definition power_fields (w : lldpd_dot3_power) : list (word * word) :=
  [ (LLDP_NBR_POWER_DEVICE, print_int (pow_devicetype w)); (LLDP_NBR_POWER_SUPPORT, print_int (pow_supported w));
    (LLDP_NBR_POWER_ENABLED, print_int (pow_enabled w)); (LLDP_NBR_POWER_PAIRCTL, print_int (pow_paircontrol w));
    (LLDP_NBR_POWER_PAIR, print_int (pow_pairs w)); (LLDP_NBR_POWER_CLASS, print_int (pow_class w));
    (LLDP_NBR_POWER_TYPE, print_int (pow_powertype w)); (LLDP_NBR_POWER_SRC, print_int (pow_source w));
    (LLDP_NBR_POWER_PRIO, print_int (pow_priority w)); (LLDP_NBR_POWER_REQ, print_int (pow_requested w));
    (LLDP_NBR_POWER_ALLOC, print_int (pow_allocated w)) ].

Definition vlan_fields (p : lldpd_port) : list (word * word) :=
  [(LLDP_NBR_PORT_PVID, print_int (p_pvid p))] ++
  two_lists (p_vlans p) LLDP_NBR_VLAN_NAME_LIST LLDP_NBR_VLAN_ID_LIST (λ v, cstr (v_name v)) (λ v, print_int (v_vid v)) ++
  two_lists (p_ppvids p) LLDP_NBR_PPVIDS_CAP_LIST LLDP_NBR_PPVIDS_PPVID_LIST (λ v, print_int (p_cap_status v)) (λ v, print_int (p_ppvid v)) ++
  two_lists (p_pids p) LLDP_NBR_PIDS_NAME_LIST LLDP_NBR_PIDS_LEN_LIST (λ i, cstr (p_pi i)) (λ i, print_int (zlen (p_pi i))).

Definition nbr_fields (chassis : option lldpd_chassis) (p : lldpd_port) : list (word * word) :=
  match chassis with Some c => chassis_fields c | None => [] end ++
  port_fields p ++ macphy_fields (p_macphy p) ++ power_fields (p_power p) ++ vlan_fields p.

(** What the database gets for a field, and the room the fields take. *)
Definition stored (f : word * word) : word * word := (f.1, take (Z.to_nat (MAX_DESCR - 1)) (cstr f.2)).
Definition field_size (f : word * word) : Z := zlen f.1 + strlen f.2 + 2.
Definition fields_size (l : list (word * word)) : Z := foldr (λ f s, field_size f + s) 0 l.

(** ** Proofs *)

Fixpoint encode_all (l : list (word * word)) : op :=
  match l with [] => skip | f :: l => LLDP_ENCODE_KEY_VAL f.1 (Some f.2) ⨾ encode_all l end.

Lemma fields_size_cons f l : fields_size (f :: l) = field_size f + fields_size l.
Proof. done. Qed.
Lemma fields_size_app l l' : fields_size (l ++ l') = fields_size l + fields_size l'.
Proof. induction l as [|f l IH]; [done|]. cbn [app]. rewrite !fields_size_cons, IH. lia. Qed.
Lemma fields_size_nonneg l : 0 ≤ fields_size l.
Proof.
  induction l as [|f l IH]; [done|]. rewrite fields_size_cons. unfold field_size, strlen. pose proof (zlen_nonneg f.1). pose proof (zlen_nonneg (cstr f.2)). lia.
Qed.

(** One field: it is written, or it does not fit. *)
Lemma encode_one f b :
  (LLDP_ENCODE_KEY_VAL f.1 (Some f.2) b = inl Overflow ∧ KEY_VAL_STR_BUF_MAX < offset b + field_size f) ∨
  LLDP_ENCODE_KEY_VAL f.1 (Some f.2) b = inr (Buffer (offset b + field_size f) (pairs b ++ [stored f]) (decode_str b)) ∧
    offset b + zlen f.1 + 2 ≤ KEY_VAL_STR_BUF_MAX.
Proof.
  unfold LLDP_ENCODE_KEY_VAL, field_size, strlen, stored. cbn [from_option]. unfold id. cbv zeta. set (v := cstr f.2).
  assert (zlen (take (Z.to_nat (MAX_DESCR - 1)) v) ≤ zlen v) as Hv by (unfold zlen; rewrite length_take; lia).
  pose proof (zlen_nonneg (take (Z.to_nat (MAX_DESCR - 1)) v)).
  destruct (Z.ltb_spec KEY_VAL_STR_BUF_MAX (offset b + zlen f.1 + 1)); [left; split; [done|lia]|].
  destruct (Z.ltb_spec KEY_VAL_STR_BUF_MAX (offset b + zlen f.1 + 1 + zlen (take (Z.to_nat (MAX_DESCR - 1)) v) + 1)); [left; split; [done|lia]|].
  right. split; [|lia]. replace (offset b + (zlen f.1 + zlen v + 2)) with (offset b + zlen f.1 + 1 + zlen v + 1) by lia.
  by destruct b.
Qed.

(** A step that writes the fields [l] and leaves [d'] in the scratch string. *)
Definition writes (o : op) (d : word) (l : list (word * word)) (d' : word) : Prop := ∀ b,
  decode_str b = d → 0 ≤ offset b →
  (o b = inl Overflow ∧ KEY_VAL_STR_BUF_MAX < offset b + fields_size l) ∨
  (o b = inr (Buffer (offset b + fields_size l) (pairs b ++ map stored l) d')
   ∧ (l ≠ [] → offset b + fields_size (removelast l) ≤ KEY_VAL_STR_BUF_MAX)).

Lemma writes_nil d : writes skip d [] d.
Proof. intros [o ps ds] Hd Ho. right. cbn in *. subst. rewrite app_nil_r, Z.add_0_r. by split. Qed.

Lemma writes_app f g d l d' l' d'' : writes f d l d' → writes g d' l' d'' → writes (f ⨾ g) d (l ++ l') d''.
Proof.
  intros Hf Hg b Hb Ho. unfold andthen. rewrite fields_size_app. pose proof (fields_size_nonneg l'). pose proof (fields_size_nonneg l).
  destruct (Hf b Hb Ho) as [[-> Hs]|[-> Hs]]; [left; split; [done|lia]|].
  destruct (Hg (Buffer (offset b + fields_size l) (pairs b ++ map stored l) d')) as [[-> Hs']|[-> Hs']]; [done|cbn; lia| |]; cbn in Hs' |- *.
  - left. split; [done|lia].
  - right. rewrite map_app, app_assoc, Z.add_assoc. split; [done|]. intros Hne. destruct l' as [|x l'].
    + rewrite app_nil_r in *. by apply Hs.
    + rewrite removelast_app by done. rewrite fields_size_app. specialize (Hs' ltac:(done)). lia.
Qed.

Lemma writes_field k v d : writes (LLDP_ENCODE_KEY_VAL k v) d [(k, default [] v)] d.
Proof.
  intros b Hb Ho. pose proof (encode_one (k, default [] v) b) as Hone. cbn [fst snd] in Hone.
  assert (LLDP_ENCODE_KEY_VAL k (Some (default [] v)) = LLDP_ENCODE_KEY_VAL k v) as Heq by (by destruct v). rewrite Heq in Hone.
  unfold fields_size. cbn [foldr map removelast]. rewrite !Z.add_0_r. subst d.
  destruct Hone as [Hl|[Hr Hs]]; [by left|right]. split; [done|]. pose proof (zlen_nonneg k). cbn in Hs. lia.
Qed.
Lemma writes_int k v d : writes (LLDP_ENCODE_KEY_VAL_INT k v) d [(k, print_int v)] d.
Proof. apply writes_field. Qed.
Lemma writes_dbl k v d : writes (LLDP_ENCODE_KEY_VAL_DBL k v) d [(k, print_llx v)] d.
Proof. apply writes_field. Qed.
Lemma writes_decoding f d : writes (decoding f) d [] (f d).
Proof.
  intros [o ps ds] Hd Ho. right. cbn in *. subst. rewrite app_nil_r, Z.add_0_r. by split.
Qed.
Lemma writes_decoded k d : writes (encode_decoded k) d [(k, d)] d.
Proof. intros b Hb Ho. unfold encode_decoded. rewrite Hb. by apply (writes_field k (Some d) d b). Qed.

(** Lists: what the loop builds, and when it does not fit. *)
Lemma join_step_grows s v : zlen s ≤ zlen (join_step s v).
Proof.
  unfold join_step. rewrite !zlen_app. pose proof (zlen_nonneg v).
  pose proof (zlen_nonneg (if zlen s =? 0 then [] else chars ",")). lia.
Qed.
Lemma join_grows l s : zlen s ≤ zlen (foldl join_step s l).
Proof.
  revert s. induction l as [|v l IH]; intros s; cbn [foldl]; [lia|]. pose proof (join_step_grows s v). specialize (IH (join_step s v)). lia.
Qed.
Lemma smap_list_spec size l s :
  zlen s + 1 ≤ size →
  smap_list size s l = if size <? zlen (foldl join_step s l) + 1 then inl Overflow else inr (foldl join_step s l).
Proof.
  revert s. induction l as [|v l IH]; intros s Hs; cbn [smap_list foldl].
  - by rewrite (proj2 (Z.ltb_ge _ _)).
  - unfold smap_list_set. fold (join_step s v). cbv zeta. fold (join_step s v). destruct (Z.ltb_spec size (zlen (join_step s v) + 1)) as [Hv|Hv].
    + pose proof (join_grows l (join_step s v)). by rewrite (proj2 (Z.ltb_lt _ _)) by lia.
    + by apply IH.
Qed.

Lemma join_no_nul l s : no_nul s → Forall no_nul l → no_nul (foldl join_step s l).
Proof.
  intros Hs Hl. revert s Hs. induction Hl as [|v l Hv Hl IH]; intros s Hs; cbn [foldl]; [done|]. apply IH.
  unfold join_step. apply Forall_app. split; [done|]. apply Forall_app. split; [|done]. case_if; by repeat constructor.
Qed.

Lemma writes_lists k0 k1 size0 size1 l0 l1 d :
  KEY_VAL_STR_BUF_MAX ≤ size0 ∨ zlen (smap_join l0) < size0 →
  KEY_VAL_STR_BUF_MAX ≤ size1 ∨ zlen (smap_join l1) < size1 →
  0 < size0 → 0 < size1 → Forall no_nul l0 → Forall no_nul l1 →
  writes (encode_lists k0 k1 (smap_list size0 [] l0) (smap_list size1 [] l1)) d [(k0, smap_join l0); (k1, smap_join l1)] d.
Proof.
  intros H0 H1 Hp0 Hp1 N0 N1. unfold encode_lists, with_list. rewrite !smap_list_spec by (rewrite zlen_nil; lia).
  fold (smap_join l0) (smap_join l1).
  assert (strlen (smap_join l0) = zlen (smap_join l0) ∧ strlen (smap_join l1) = zlen (smap_join l1)) as [S0 S1].
  { unfold strlen. rewrite !cstr_no_nul by (apply join_no_nul; [constructor|done]). done. }
  intros b Hb Ho. pose proof (zlen_nonneg k0). pose proof (zlen_nonneg k1).
  pose proof (zlen_nonneg (smap_join l0)). pose proof (zlen_nonneg (smap_join l1)).
  destruct (Z.ltb_spec size0 (zlen (smap_join l0) + 1)).
  { left. split; [done|]. unfold fields_size, field_size. cbn [foldr fst snd]. lia. }
  destruct (Z.ltb_spec size1 (zlen (smap_join l1) + 1)).
  { left. split; [done|]. unfold fields_size, field_size. cbn [foldr fst snd]. lia. }
  by apply (writes_app _ _ d [(k0, smap_join l0)] d [(k1, smap_join l1)] d (writes_field k0 (Some _) d) (writes_field k1 (Some _) d)).
Qed.

Lemma decimal_aux_length fuel v acc : zlen acc ≤ zlen (decimal_aux fuel v acc) ≤ zlen acc + Z.of_nat fuel.
Proof.
  revert v acc. induction fuel as [|fuel IH]; intros v acc; cbn [decimal_aux]; [lia|].
  case_if; [rewrite zlen_cons; lia|]. specialize (IH (v / 10) ((48 + v mod 10) :: acc)). rewrite zlen_cons in IH. lia.
Qed.
Lemma decimal_aux_no_nul fuel v acc : 0 ≤ v → no_nul acc → no_nul (decimal_aux fuel v acc).
Proof.
  revert v acc. induction fuel as [|fuel IH]; intros v acc Hv Ha; cbn [decimal_aux]; [done|].
  assert (no_nul ((48 + v mod 10) :: acc)) by (constructor; [pose proof (Z.mod_pos_bound v 10); lia|done]).
  case_if; [done|]. apply IH; [apply Z.div_pos; lia|done].
Qed.
Lemma print_int_ok v : no_nul (print_int v) ∧ zlen (print_int v) ≤ 21.
Proof.
  unfold print_int. pose proof (u32_bounds v) as Hb. unfold decimal.
  pose proof (decimal_aux_length 20 (u32 v) []) as H1. pose proof (decimal_aux_length 20 (2 ^ 32 - u32 v) []) as H2.
  rewrite zlen_nil in *. destruct (Z.ltb_spec (u32 v) (2 ^ 31)); split.
  - apply decimal_aux_no_nul; [lia|constructor].
  - lia.
  - constructor; [lia|]. apply decimal_aux_no_nul; [lia|constructor].
  - rewrite zlen_cons. lia.
Qed.

(** Items of at most [n - 1] bytes. *)
Lemma join_bound n l s : Forall (λ v, zlen v < n) l → zlen (foldl join_step s l) ≤ zlen s + n * zlen l.
Proof.
  intros Hl. revert s. induction Hl as [|v l Hv Hl IH]; intros s; cbn [foldl]; [rewrite zlen_nil; lia|].
  specialize (IH (join_step s v)). assert (zlen (join_step s v) ≤ zlen s + n).
  { unfold join_step. rewrite !zlen_app. case_if; [rewrite zlen_nil; lia|]. change (zlen (chars ",")) with 1. lia. }
  rewrite zlen_cons. lia.
Qed.
Lemma smap_join_bound n k l : Forall (λ v, zlen v < n) l → zlen l ≤ k → 0 < k → 0 < n → zlen (smap_join l) < n * k.
Proof.
  intros Hl Hk Hpos Hn. unfold smap_join. destruct Hl as [|v l Hv Hl]; cbn [foldl]; [rewrite zlen_nil; nia|].
  change (join_step [] v) with v. pose proof (join_bound n l v Hl) as Hb. rewrite zlen_cons in Hk.
  assert (n * (zlen l + 1) ≤ n * k) by (apply Z.mul_le_mono_nonneg_l; lia). lia.
Qed.

(** [sprintf] is given blocks as strings: it reads past one that holds no NUL.  The decoder
    stores exactly the bytes of the frame, so this is the case of most port identifiers that
    are not addresses. *)
Definition unterminated (s : word) : Prop := 0 ∉ s.
Definition id_unterminated (p : lldpd_port) : Prop :=
  p_id_subtype p ≠ LLDP_PORTID_SUBTYPE_LLADDR ∧ ∀ id, p_id p = Some id → unterminated id.
Definition pids_unterminated (p : lldpd_port) : Prop := Exists (λ i, unterminated (p_pi i)) (p_pids p).
(** The text does not fit in the scratch string. *)
Definition id_long (p : lldpd_port) : Prop :=
  p_id_subtype p ≠ LLDP_PORTID_SUBTYPE_LLADDR ∧ STR_BUF_DECODE_MAX ≤ strlen (default [] (p_id p)).

(** What [inet_ntop] returns is a text of less than [INET6_ADDRSTRLEN] bytes. *)
Context (inet_ntop_text : ∀ f a s, inet_ntop f a = Some s → no_nul s ∧ zlen s < INET6_ADDRSTRLEN).

Lemma mgmt_texts_ok c : Forall (λ x, (no_nul x.1 ∧ zlen x.1 < INET6_ADDRSTRLEN) ∧ no_nul x.2 ∧ zlen x.2 < INET6_ADDRSTRLEN) (mgmt_texts c).
Proof.
  apply list.Forall_forall. intros x Hx. apply list_elem_of_omap in Hx as (m & _ & Hm).
  destruct (inet_ntop (m_family m) (m_addr m)) as [ip|] eqn:E; [|done]. injection Hm as <-. cbn [fst snd].
  destruct (print_int_ok (m_iface m)). split; [by eapply inet_ntop_text|]. unfold INET6_ADDRSTRLEN. split; [done|lia].
Qed.
Lemma mgmt_texts_length c : zlen (mgmt_texts c) ≤ MGMT_IF_MAX.
Proof.
  assert (∀ A B (f : A → option B) l, (length (omap f l) ≤ length l)%nat) as Ho.
  { intros A B f l. induction l as [|a l IH]; cbn; [lia|]. destruct (f a); cbn; lia. }
  unfold mgmt_texts, zlen. pose proof (Ho _ _ (λ m, match inet_ntop (m_family m) (m_addr m) with
    | Some ip => Some (ip, print_int (m_iface m)) | None => None end) (take (Z.to_nat MGMT_IF_MAX) (c_mgmt c))) as Hl.
  rewrite length_take in Hl. unfold MGMT_IF_MAX in *. lia.
Qed.

Lemma two_no_nul c : Forall no_nul (map fst (mgmt_texts c)) ∧ Forall no_nul (map snd (mgmt_texts c)) ∧
  Forall (λ v, zlen v < INET6_ADDRSTRLEN) (map fst (mgmt_texts c)) ∧ Forall (λ v, zlen v < INET6_ADDRSTRLEN) (map snd (mgmt_texts c)).
Proof.
  pose proof (mgmt_texts_ok c) as Hf. rewrite !Forall_map. split_and!; (eapply list.Forall_impl; [exact Hf|]); cbn; tauto.
Qed.

Lemma writes_mgmt c d :
  writes (unless_empty (c_mgmt c) (encode_lists LLDP_NBR_MGMT_IP_LIST LLDP_NBR_MGMT_IF_LIST
            (lldp_create_mgmtip_list c).1 (lldp_create_mgmtip_list c).2)) d
    match c_mgmt c with
    | [] => []
    | _ => [(LLDP_NBR_MGMT_IP_LIST, smap_join (map fst (mgmt_texts c))); (LLDP_NBR_MGMT_IF_LIST, smap_join (map snd (mgmt_texts c)))]
    end d.
Proof.
  unfold unless_empty. destruct (c_mgmt c) as [|m l] eqn:E; [apply writes_nil|]. clear E m l.
  destruct (two_no_nul c) as (N0 & N1 & B0 & B1). pose proof (mgmt_texts_length c) as Hlen.
  assert (∀ (f : word * word → word), zlen (map f (mgmt_texts c)) ≤ MGMT_IF_MAX) as Hl by (intros f; unfold zlen; by rewrite length_map).
  apply writes_lists; try done; right; unfold MGMTIP_LIST_MAX; rewrite Z.mul_comm; apply smap_join_bound; auto; done.
Qed.

Lemma writes_two {A} (l : list A) k0 k1 size0 size1 f0 f1 d :
  KEY_VAL_STR_BUF_MAX ≤ size0 → KEY_VAL_STR_BUF_MAX ≤ size1 → (∀ a, no_nul (f0 a)) → (∀ a, no_nul (f1 a)) →
  writes (unless_empty l (encode_lists k0 k1 (smap_list size0 [] (map f0 l)) (smap_list size1 [] (map f1 l)))) d
    (two_lists l k0 k1 f0 f1) d.
Proof.
  intros H0 H1 N0 N1. destruct l as [|a l]; [apply writes_nil|]. unfold two_lists, unless_empty. unfold KEY_VAL_STR_BUF_MAX in *.
  apply writes_lists; try (unfold KEY_VAL_STR_BUF_MAX; lia); apply Forall_map; apply list.Forall_forall; auto.
Qed.

(** A step that may also read past a block, exactly when [bad], or overflow the scratch
    string, only when [long]. *)
Definition tries (bad long : Prop) (o : op) (d : word) (l : list (word * word)) (d' : word) : Prop := ∀ b,
  decode_str b = d → 0 ≤ offset b →
  match o b with
  | inl Overread => bad
  | inl Overflow => long ∨ KEY_VAL_STR_BUF_MAX < offset b + fields_size l
  | inr b' => ¬ bad ∧ ¬ long ∧ b' = Buffer (offset b + fields_size l) (pairs b ++ map stored l) d' ∧
      (l ≠ [] → offset b + fields_size (removelast l) ≤ KEY_VAL_STR_BUF_MAX)
  end.
Lemma tries_writes o d l d' : writes o d l d' → tries False False o d l d'.
Proof. intros Ho b Hb H0. destruct (Ho b Hb H0) as [[-> Hs]|[-> Hs]]; [by right|]. split_and!; auto. Qed.

Lemma tries_app f g d l d' l' d'' bad bad' long long' :
  tries bad long f d l d' → tries bad' long' g d' l' d'' → tries (bad ∨ bad') (long ∨ long') (f ⨾ g) d (l ++ l') d''.
Proof.
  intros Hf Hg b Hb Ho. unfold andthen. rewrite fields_size_app. pose proof (fields_size_nonneg l'). pose proof (fields_size_nonneg l).
  specialize (Hf b Hb Ho). destruct (f b) as [[]|b']; [destruct Hf; [by left; left|right; lia]|by left|].
  destruct Hf as (Hbad & Hlong & -> & Hs).
  specialize (Hg (Buffer (offset b + fields_size l) (pairs b ++ map stored l) d') eq_refl ltac:(cbn; lia)).
  destruct (g _) as [[]|b'']; cbn in Hg; [destruct Hg; [by left; right|right; lia]|by right|].
  destruct Hg as (Hbad' & Hlong' & -> & Hs'). split; [tauto|]. split; [tauto|]. rewrite map_app, app_assoc, Z.add_assoc. split; [done|].
  intros Hne. destruct l' as [|x l']; [rewrite app_nil_r in *; by apply Hs|].
  rewrite removelast_app by done. rewrite fields_size_app. specialize (Hs' ltac:(done)). lia.
Qed.
Lemma tries_left f g d l d' l' d'' bad long :
  writes f d l d' → tries bad long g d' l' d'' → tries bad long (f ⨾ g) d (l ++ l') d''.
Proof.
  intros Hf%tries_writes Hg b Hb Ho. pose proof (tries_app _ _ _ _ _ _ _ _ _ _ _ Hf Hg b Hb Ho) as H.
  destruct ((f ⨾ g) b) as [[]|]; tauto.
Qed.
Lemma tries_right f g d l d' l' d'' bad long :
  tries bad long f d l d' → writes g d' l' d'' → tries bad long (f ⨾ g) d (l ++ l') d''.
Proof.
  intros Hf Hg%tries_writes b Hb Ho. pose proof (tries_app _ _ _ _ _ _ _ _ _ _ _ Hf Hg b Hb Ho) as H.
  destruct ((f ⨾ g) b) as [[]|]; tauto.
Qed.

Lemma terminated_spec s : existsb (Z.eqb 0) s = false ↔ unterminated s.
Proof.
  unfold unterminated. rewrite <- not_true_iff_false, existsb_exists. apply not_iff_compat. split.
  - intros (x & Hx & <-%Z.eqb_eq). by apply list_elem_of_In.
  - intros H0. exists 0. split; [by apply list_elem_of_In|done].
Qed.

Lemma tries_pids p d :
  tries (pids_unterminated p) False
    (unless_empty (p_pids p) (encode_lists LLDP_NBR_PIDS_NAME_LIST LLDP_NBR_PIDS_LEN_LIST
            (lldp_create_pi_list p).1 (lldp_create_pi_list p).2)) d
    (two_lists (p_pids p) LLDP_NBR_PIDS_NAME_LIST LLDP_NBR_PIDS_LEN_LIST (λ i, cstr (p_pi i)) (λ i, print_int (zlen (p_pi i)))) d.
Proof.
  unfold lldp_create_pi_list, pids_unterminated.
  destruct (mapM (λ i, block_string (p_pi i)) (p_pids p)) as [l|] eqn:Em.
  - assert (¬ Exists (λ i, unterminated (p_pi i)) (p_pids p) ∧ l = map (λ i, cstr (p_pi i)) (p_pids p)) as [Hn ->].
    { revert l Em. induction (p_pids p) as [|i ps IH]; intros l; cbn [mapM map].
      - intros [= <-]. split; [|done]. intros He. inversion He.
      - intros (k & Hk & (ks & Hks & [= <-])%bind_Some)%bind_Some. unfold block_string in Hk.
        destruct (existsb (Z.eqb 0) (p_pi i)) eqn:Ei; [|done]. injection Hk as <-. destruct (IH ks Hks) as [Hn ->]. split; [|done].
        intros He. inversion He as [? ? Hu|]; subst; [|done]. apply terminated_spec in Hu. congruence. }
    assert (writes (unless_empty (p_pids p) (encode_lists LLDP_NBR_PIDS_NAME_LIST LLDP_NBR_PIDS_LEN_LIST
              (smap_list VLAN_LIST_STR_MAX [] (map (λ i, cstr (p_pi i)) (p_pids p)))
              (smap_list VLAN_LIST_INT_MAX [] (map (λ i, print_int (zlen (p_pi i))) (p_pids p))))) d
            (two_lists (p_pids p) LLDP_NBR_PIDS_NAME_LIST LLDP_NBR_PIDS_LEN_LIST (λ i, cstr (p_pi i)) (λ i, print_int (zlen (p_pi i)))) d) as Hw.
    { apply writes_two; try done; [intros i; apply cstr_is_no_nul|intros i; apply print_int_ok]. }
    intros b Hb Ho. specialize (tries_writes _ _ _ _ Hw b Hb Ho). cbn [fst snd]. destruct (unless_empty _ _ b) as [[]|]; tauto.
  - assert (Exists (λ i, unterminated (p_pi i)) (p_pids p)) as He.
    { revert Em. induction (p_pids p) as [|i ps IH]; cbn [mapM]; [done|].
      destruct (block_string (p_pi i)) as [k|] eqn:Ek; cbn [mbind option_bind].
      - destruct (mapM _ ps); [done|]. intros _. right. by apply IH.
      - intros _. left. apply terminated_spec. unfold block_string in Ek. by destruct (existsb _ _). }
    intros b Hb Ho. destruct (p_pids p); [by inversion He|]. exact He.
Qed.

Lemma nw_addr_or d id : decode_nw_addr d (default [] id) (id_len id) = address_or d id.
Proof.
  unfold decode_nw_addr, address_or. destruct (id_len id =? ETHER_ADDR_LEN); [|done].
  unfold id_len. by rewrite to_nat_zlen, take_ge.
Qed.
Lemma tries_port_id p d :
  tries (id_unterminated p) (id_long p)
    (if p_id_subtype p =? LLDP_PORTID_SUBTYPE_LLADDR
     then decoding (λ d, decode_nw_addr d (default [] (p_id p)) (id_len (p_id p)))
     else print_block (p_id p)) d []
    (if p_id_subtype p =? LLDP_PORTID_SUBTYPE_LLADDR then address_or d (p_id p) else cstr (default [] (p_id p))).
Proof.
  unfold id_unterminated, id_long. destruct (Z.eqb_spec (p_id_subtype p) LLDP_PORTID_SUBTYPE_LLADDR) as [|Hne].
  - rewrite <- nw_addr_or. intros b Hb Ho.
    pose proof (tries_writes _ _ _ _ (writes_decoding (λ d, decode_nw_addr d (default [] (p_id p)) (id_len (p_id p))) d) b Hb Ho) as Hw.
    destruct (decoding _ b) as [[]|]; tauto.
  - intros [o ps ds] Hd Ho. unfold print_block. destruct (p_id p) as [id|]; [|by split].
    destruct (existsb (Z.eqb 0) id) eqn:Ei.
    + destruct (Z.leb_spec STR_BUF_DECODE_MAX (strlen id)) as [Hl|Hl]; [by left|]. split_and!.
      * intros [_ Hu]. specialize (Hu id eq_refl). apply terminated_spec in Hu. congruence.
      * intros [_ Hl']. cbn in Hl'. lia.
      * cbn. by rewrite app_nil_r, Z.add_0_r.
      * done.
    + split; [done|]. intros id' [= <-]. by apply terminated_spec.
Qed.

(** Steps in sequence: the fields of the first, then those of the rest. *)
Ltac writes_step :=
  lazymatch goal with
  | |- writes (LLDP_ENCODE_KEY_VAL_INT _ _ ⨾ _) _ _ _ => eapply (writes_app _ _ _ [_]); [apply writes_int|]
  | |- writes (LLDP_ENCODE_KEY_VAL_DBL _ _ ⨾ _) _ _ _ => eapply (writes_app _ _ _ [_]); [apply writes_dbl|]
  | |- writes (LLDP_ENCODE_KEY_VAL _ _ ⨾ _) _ _ _ => eapply (writes_app _ _ _ [_]); [apply writes_field|]
  | |- writes (decoding _ ⨾ _) _ _ _ => eapply (writes_app _ _ _ []); [apply writes_decoding|]; cbv beta; rewrite ?nw_addr_or
  | |- writes (encode_decoded _ ⨾ _) _ _ _ => eapply (writes_app _ _ _ [_]); [apply writes_decoded|]
  | |- writes (LLDP_ENCODE_KEY_VAL_INT _ _) _ _ _ => apply writes_int
  | |- writes (encode_decoded _) _ _ _ => apply writes_decoded
  end.
Ltac tries_step :=
  lazymatch goal with
  | |- tries _ _ (LLDP_ENCODE_KEY_VAL_INT _ _ ⨾ _) _ _ _ => eapply (tries_left _ _ _ [_]); [apply writes_int|]
  | |- tries _ _ (LLDP_ENCODE_KEY_VAL_DBL _ _ ⨾ _) _ _ _ => eapply (tries_left _ _ _ [_]); [apply writes_dbl|]
  | |- tries _ _ (decoding _ ⨾ _) _ _ _ => eapply (tries_left _ _ _ []); [apply writes_decoding|]; cbv beta
  | |- tries _ _ (encode_decoded _ ⨾ _) _ _ _ => eapply (tries_left _ _ _ [_]); [apply writes_decoded|]
  end.

Lemma writes_chassis c d : ∃ d', writes (encode_chassis c) d (chassis_fields c) d'.
Proof.
  eexists. unfold encode_chassis, chassis_fields. cbv zeta. cbn [app].
  repeat writes_step. apply writes_mgmt.
Qed.
Lemma tries_port p d : ∃ d', tries (id_unterminated p) (id_long p) (encode_port p) d (port_fields p) d'.
Proof.
  eexists. unfold encode_port, port_fields. cbv zeta. repeat tries_step.
  eapply (tries_right _ _ _ []); [by apply tries_port_id|]. repeat writes_step.
Qed.
Lemma writes_macphy m d : ∃ d', writes (encode_macphy m) d (macphy_fields m) d'.
Proof. eexists. unfold encode_macphy, macphy_fields. repeat writes_step. Qed.
Lemma writes_power w d : ∃ d', writes (encode_power w) d (power_fields w) d'.
Proof. eexists. unfold encode_power, power_fields. repeat writes_step. Qed.
Lemma tries_vlans p d : ∃ d', tries (pids_unterminated p) False (encode_vlans p) d (vlan_fields p) d'.
Proof.
  eexists. unfold encode_vlans, vlan_fields. cbn [app]. tries_step.
  eapply tries_left; [apply writes_two; try done; intros v; [apply cstr_is_no_nul|apply print_int_ok]|].
  eapply tries_left; [apply writes_two; try done; intros v; apply print_int_ok|]. apply tries_pids.
Qed.

Definition when {A} (b : bool) (l : list A) : list A := if b then l else [].
Definition nbr_keys (c m v pp pi : bool) : list word :=
  when c ([LLDP_NBR_CHASSIS_REF_COUNT; LLDP_NBR_CHASSIS_IDX; LLDP_NBR_CHASSIS_PROTOCOL; LLDP_NBR_CHASSIS_ID_SUBTYPE;
           LLDP_NBR_CHASSIS_ID; LLDP_NBR_CHASSIS_ID_LEN; LLDP_NBR_CHASSIS_NAME; LLDP_NBR_CHASSIS_DESCR;
           LLDP_NBR_CHASSIS_CAP_AVAIL; LLDP_NBR_CHASSIS_CAP_ENABLE; LLDP_NBR_CHASSIS_TTL] ++
          when m [LLDP_NBR_MGMT_IP_LIST; LLDP_NBR_MGMT_IF_LIST]) ++
  map fst (port_fields (Build_lldpd_port None 0 0 None 0 false false 0 None None 0 0
             (Build_lldpd_dot3_macphy 0 0 0 0) (Build_lldpd_dot3_power 0 0 0 0 0 0 0 0 0 0 0) 0 [] []
             (Build_lldpd_med_power 0 0 0 0) 0 [] [] [])) ++
  map fst (macphy_fields (Build_lldpd_dot3_macphy 0 0 0 0)) ++
  map fst (power_fields (Build_lldpd_dot3_power 0 0 0 0 0 0 0 0 0 0 0)) ++
  [LLDP_NBR_PORT_PVID] ++ when v [LLDP_NBR_VLAN_NAME_LIST; LLDP_NBR_VLAN_ID_LIST] ++
  when pp [LLDP_NBR_PPVIDS_CAP_LIST; LLDP_NBR_PPVIDS_PPVID_LIST] ++ when pi [LLDP_NBR_PIDS_NAME_LIST; LLDP_NBR_PIDS_LEN_LIST].
Lemma nbr_keys_distinct chassis p : NoDup (map fst (nbr_fields chassis p)).
Proof.
  assert (∃ c m v pp pi, map fst (nbr_fields chassis p) = nbr_keys c m v pp pi) as (c & m & v & pp & pi & ->).
  { exists (bool_decide (is_Some chassis)), (match chassis with Some c => bool_decide (c_mgmt c ≠ []) | None => false end),
      (bool_decide (p_vlans p ≠ [])), (bool_decide (p_ppvids p ≠ [])), (bool_decide (p_pids p ≠ [])).
    unfold nbr_fields, nbr_keys, vlan_fields. rewrite !map_app.
    repeat f_equal; [|unfold two_lists; by destruct (p_vlans p)|unfold two_lists; by destruct (p_ppvids p)|unfold two_lists; by destruct (p_pids p)].
    destruct chassis as [c|]; [|done]. unfold chassis_fields. rewrite map_app. cbv zeta. cbn [map fst app when].
    by destruct (c_mgmt c). }
  eapply bool_decide_eq_true_1. by destruct c, m, v, pp, pi; vm_compute.
Qed.

(** C40: what publishing a neighbor does, for every neighbor.  When it succeeds, the database gets
    the list of its fields, every key once, the values cut after 255 bytes, and all but the last
    field fit in the buffer of 4096 bytes.  It reads past the end of a block only when the port
    identifier is not an address and holds no NUL, or when a protocol identity holds none, and it
    never succeeds then.  It writes past the end of a buffer only when the fields do not fit, or the
    port identifier is longer than the scratch string.  ([nbr_fields] has the values the code gives:
    the identifier of a chassis that is not of six bytes shows the name of its type.) *)
Theorem nbr_update_correct chassis p :
  NoDup (map fst (nbr_fields chassis p)) ∧
  match lldp_nbr_update chassis p with
  | inr published =>
      published = map stored (nbr_fields chassis p) ∧
      fields_size (removelast (nbr_fields chassis p)) ≤ KEY_VAL_STR_BUF_MAX ∧
      ¬ id_unterminated p ∧ ¬ pids_unterminated p ∧ ¬ id_long p
  | inl Overread => id_unterminated p ∨ pids_unterminated p
  | inl Overflow => KEY_VAL_STR_BUF_MAX < fields_size (nbr_fields chassis p) ∨ id_long p
  end.
Proof.
  split; [apply nbr_keys_distinct|]. unfold lldp_nbr_update, nbr_fields.
  assert (∃ d, writes match chassis with Some c => encode_chassis c | None => skip end []
                 match chassis with Some c => chassis_fields c | None => [] end d) as [d1 H1].
  { destruct chassis; [apply writes_chassis|]. eexists. apply writes_nil. }
  destruct (tries_port p d1) as [d2 H2]. destruct (writes_macphy (p_macphy p) d2) as [d3 H3].
  destruct (writes_power (p_power p) d3) as [d4 H4]. destruct (tries_vlans p d4) as [d5 H5].
  pose proof (tries_left _ _ _ _ _ _ _ _ _ H1 (tries_app _ _ _ _ _ _ _ _ _ _ _ H2
    (tries_left _ _ _ _ _ _ _ _ _ H3 (tries_left _ _ _ _ _ _ _ _ _ H4 H5))) (Buffer 0 [] []) eq_refl ltac:(done)) as H.
  match goal with |- context [match ?o (Buffer 0 [] []) with _ => _ end] => destruct (o (Buffer 0 [] [])) as [[]|b] end;
    cbn [offset pairs app] in H; [rewrite Z.add_0_l in H; tauto|done|].
  destruct H as (Hb & Hl & -> & Hs). rewrite Z.add_0_l in Hs. cbn [pairs]. split_and!; try tauto.
  apply Hs. by destruct chassis.
Qed.
End Publish.

(** ** Reading a list back *)

Fixpoint list_items (fuel : nat) (svec : word) (cur : nat) : list word :=
  match fuel with
  | O => []
  | S fuel => let '(x, next) := smap_list_get_next svec cur in
              x :: match next with Some cur => list_items fuel svec cur | None => [] end
  end.

Definition item_ok (v : word) : Prop := v ≠ [] ∧ Forall (λ c, c ≠ 0 ∧ c ≠ 44) v.
Definition after_comma (l : list word) : word := flat_map (λ v, 44 :: v) l.

Lemma join_commas s l : s ≠ [] → Forall item_ok l → foldl join_step s l = s ++ after_comma l.
Proof.
  intros Hs Hl. revert s Hs. induction Hl as [|v l [Hv _] Hl IH]; intros s Hs; cbn [foldl after_comma flat_map]; [by rewrite app_nil_r|].
  rewrite IH; unfold join_step; destruct s as [|c s]; try done.
  rewrite zlen_cons, (proj2 (Z.eqb_neq _ 0)) by (pose proof (zlen_nonneg s); lia).
  change (chars ",") with [44]. by rewrite <- !app_assoc.
Qed.

Lemma list_items_from fuel pre v l :
  item_ok v → Forall item_ok l → (length l < fuel)%nat →
  list_items fuel (pre ++ v ++ after_comma l) (length pre) = v :: l.
Proof.
  revert pre v l. induction fuel as [|fuel IH]; intros pre v l [Hv Hc] Hl Hf; [lia|]. cbn [list_items].
  unfold smap_list_get_next. rewrite drop_app_length.
  assert (take_while (λ c, negb (c =? 0) && negb (c =? 44)) (v ++ after_comma l) = v) as ->.
  { destruct l as [|w l]; cbn [after_comma flat_map app].
    - rewrite app_nil_r. apply take_while_all. eapply list.Forall_impl; [exact Hc|]. intros c [H1 H2]. cbn.
      by rewrite (proj2 (Z.eqb_neq _ _) H1), (proj2 (Z.eqb_neq _ _) H2).
    - clear -Hc. induction Hc as [|c v [H1 H2] Hc IH]; [done|]. cbn [app take_while].
      rewrite (proj2 (Z.eqb_neq _ _) H1), (proj2 (Z.eqb_neq _ _) H2). cbn [negb andb]. by f_equal. }
  assert ((pre ++ v ++ after_comma l) !! (length pre + length v)%nat = after_comma l !! 0%nat) as ->.
  { rewrite app_assoc, lookup_app_r by (rewrite length_app; lia). f_equal. rewrite length_app. lia. }
  destruct l as [|w l]; [done|]. cbn. inversion Hl as [|? ? Hw Hl']; subst.
  change (if 44 =? 0 then None else Some (S (length pre + length v))) with (Some (S (length pre + length v))). f_equal.
  replace (pre ++ v ++ 44 :: w ++ flat_map (λ v, 44 :: v) l) with ((pre ++ v ++ [44]) ++ w ++ after_comma l)
    by (rewrite <- !app_assoc; done).
  replace (S (length pre + length v)) with (length (pre ++ v ++ [44])) by (rewrite !length_app; cbn; lia).
  cbn in Hf. apply IH; [done|done|lia].
Qed.

(** The lists in the database can be read back: when no item is empty or has a comma in it,
    smap_list_get_next gives the items that smap_list_set was given, in order. *)
Theorem list_roundtrip size l :
  Forall item_ok l → l ≠ [] → zlen (smap_join l) < size →
  ∃ s, smap_list size [] l = inr s ∧ list_items (length l) s 0 = l.
Proof.
  intros Hl Hne Hs. exists (smap_join l). pose proof (zlen_nonneg (smap_join l)).
  rewrite smap_list_spec by (rewrite zlen_nil; lia). fold (smap_join l). rewrite (proj2 (Z.ltb_ge _ _)) by lia. split; [done|].
  destruct Hl as [|v l Hv Hl]; [done|]. unfold smap_join. cbn [foldl]. change (join_step [] v) with v.
  rewrite join_commas by (done || apply Hv). apply (list_items_from _ [] v l Hv Hl). cbn. lia.
Qed.
