(* ===== verification/OvsConfig.v ===== *)
(** * Database interface: the configuration

    The settings of the daemon come from the row of the table System of the database
    (daemon/lldpd_ovsdb_if.c): intervals, the TLVs to announce, the management address,
    whether LLDP runs; the tables of bridges and of VRFs give capabilities.

    The constants of openswitch-idl.h, [inet_pton] and what the update of the local
    interfaces finds are parameters; nothing is assumed of the latter.  A row is given by what the accessors of the
    database library answer for it; [changed] says that the database reports a change. *)

From stdpp Require Import gmap strings.
From S2P Require Import Prelude Bytes Text Const Structs Table TableOk TableInv TableSteps Client.
#[local] Open Scope Z_scope.

Abbreviation word := (list Z).

(** ** Parameters *)

(** openswitch-idl.h: the keys are kept apart by their names only. *)
Inductive config_key :=
  | SYSTEM_OTHER_CONFIG_MAP_LLDP_TX_INTERVAL | SYSTEM_OTHER_CONFIG_MAP_LLDP_HOLD
  | SYSTEM_OTHER_CONFIG_MAP_LLDP_ENABLE | SYSTEM_OTHER_CONFIG_MAP_LLDP_MGMT_ADDR
  | SYSTEM_OTHER_CONFIG_MAP_LLDP_TLV_SYS_NAME_ENABLE | SYSTEM_OTHER_CONFIG_MAP_LLDP_TLV_SYS_DESC_ENABLE
  | SYSTEM_OTHER_CONFIG_MAP_LLDP_TLV_SYS_CAP_ENABLE | SYSTEM_OTHER_CONFIG_MAP_LLDP_TLV_MGMT_ADDR_ENABLE
  | SYSTEM_OTHER_CONFIG_MAP_LLDP_TLV_PORT_DESC_ENABLE | SYSTEM_OTHER_CONFIG_MAP_LLDP_TLV_PORT_VLAN_ID_ENABLE
  | SYSTEM_OTHER_CONFIG_MAP_LLDP_TLV_PORT_PROTO_VLAN_ID_ENABLE | SYSTEM_OTHER_CONFIG_MAP_LLDP_TLV_PORT_VLAN_NAME_ENABLE
  | SYSTEM_OTHER_CONFIG_MAP_LLDP_TLV_PORT_PROTO_ID_ENABLE.
Inductive status_key := SYSTEM_MGMT_INTF_MAP_IP | SYSTEM_MGMT_INTF_MAP_IPV6.

Class OpenSwitch := {
  TX_INTERVAL_DEFAULT : Z; TX_INTERVAL_MIN : Z; TX_INTERVAL_MAX : Z;
  HOLD_DEFAULT : Z; HOLD_MIN : Z; HOLD_MAX : Z;
  TLV_DEFAULT : bool; ENABLE_DEFAULT : bool;
  interval_limits : 0 < TX_INTERVAL_MIN ≤ TX_INTERVAL_MAX;
  hold_limits : 0 < HOLD_MIN ≤ HOLD_MAX
}.

Record system_row := SystemRow {
  smap_get_int : config_key → Z → Z;
  smap_get_bool : config_key → bool → bool;
  smap_get : config_key → option word;
  mgmt_intf_status : status_key → option word
}.

(** [inet_pton] *)
Class InetPton := {
  inet_pton : Z → word → option (list Z);
  inet_pton_size : ∀ text a,
    (inet_pton LLDPD_AF_IPV4 text = Some a → zlen a = 4) ∧ (inet_pton LLDPD_AF_IPV6 text = Some a → zlen a = 16)
}.

(** [interfaces_update] (daemon/interfaces-linux.c) changes the local interfaces and the
    chassis, from what the operating system answers: they are any list and any heap here. *)
Class InterfacesUpdate := interfaces_found : lldpd → list lldpd_hardware * heap.
Definition interfaces_update `{InterfacesUpdate} (cfg : lldpd) : lldpd :=
  cfg<|g_hardware := (interfaces_found cfg).1|><|g_heap := (interfaces_found cfg).2|>.

Section Config.
Context `{BuildConfig} `{OpenSwitch} `{InetPton} `{InterfacesUpdate}.
Implicit Types (cfg : lldpd) (row : system_row) (now : Z).

(** ** Local ports *)

Definition on_local (f : lldpd_chassis → lldpd_chassis) cfg : lldpd :=
  match LOCAL_CHASSIS cfg with Some p => cfg<|g_heap ::= alter f p|> | None => cfg end.

Definition reset_flags cfg : lldpd := cfg<|g_hardware ::= map (λ hw, hw<|h_flags := 0|>)|>.
(** [lldpd_update_localports], less the timer. *)
Definition lldpd_update_localports now cfg : lldpd := lldpd_cleanup now (interfaces_update (reset_flags cfg)).
(** [lldpd_reset] of all the interfaces, and of one of them. *)
Definition lldpd_reset now cfg : lldpd := lldpd_cleanup now (reset_flags cfg).
Definition lldpd_reset_one now cfg (i : nat) : lldpd :=
  lldpd_cleanup now (cfg<|g_hardware ::= alter (λ hw, hw<|h_flags := 0|>) i|>).

(** ** Settings: the daemon, and whether it must send at once *)

Abbreviation state := (lldpd * bool)%type.

Definition set_ttl cfg : lldpd :=
  on_local (λ c, c<|c_ttl := Z.min 65535 (c_tx_interval (g_config cfg) * c_tx_hold (g_config cfg))|>) cfg.

Definition apply_interval row (st : state) : state :=
  let v := smap_get_int row SYSTEM_OTHER_CONFIG_MAP_LLDP_TX_INTERVAL TX_INTERVAL_DEFAULT in
  if (negb (v =? c_tx_interval (g_config st.1)) && (TX_INTERVAL_MIN <=? v) && (v <=? TX_INTERVAL_MAX))%bool
  then (set_ttl (st.1<|g_config ::= λ c, c<|c_tx_interval := v|>|>), true) else st.
Definition apply_hold row (st : state) : state :=
  let v := smap_get_int row SYSTEM_OTHER_CONFIG_MAP_LLDP_HOLD HOLD_DEFAULT in
  if (negb (v =? c_tx_hold (g_config st.1)) && (HOLD_MIN <=? v) && (v <=? HOLD_MAX))%bool
  then (set_ttl (st.1<|g_config ::= λ c, c<|c_tx_hold := v|>|>), true) else st.

Definition lldpd_apply_tlv_configs row (tlv_name : config_key) (w : lldpd_config → bool) `{!Setter w} (st : state) : state :=
  let tlv_setting := smap_get_bool row tlv_name TLV_DEFAULT in
  if bool_decide (tlv_setting ≠ w (g_config st.1))
  then (st.1<|g_config ::= λ c, set w (λ _, tlv_setting) c|>, true) else st.

(** ** Management address *)

(** [validate_ip] gives [inet_pton] a pointer to a pointer: an IPv6 address does not fit. *)
Inductive fault := StackOverflow.
Definition validate_ip (ip : word) : fault + bool :=
  if existsb (λ c, existsb (Z.eqb c) (chars "!,*?")) ip then inr false
  else match inet_pton LLDPD_AF_IPV4 ip with
       | Some _ => inr true
       | None => match inet_pton LLDPD_AF_IPV6 ip with Some _ => inl StackOverflow | None => inr false end
       end.

(** [strtok(s, "/")] *)
Definition slash : Z := 47.
Fixpoint skip_slashes (s : word) : word :=
  match s with c :: s' => if c =? slash then skip_slashes s' else s | [] => [] end.
Definition strtok (s : word) : option word :=
  match take_while (λ c, negb (c =? slash)) (skip_slashes s) with [] => None | t => Some t end.

Definition add_mgmt (m : lldpd_mgmt) cfg : lldpd := on_local (λ c, c<|c_mgmt ::= λ l, l ++ [m]|>) cfg.
Definition lldpd_chassis_mgmt_cleanup cfg : lldpd := on_local (λ c, c<|c_mgmt := []|>) cfg.

(** The families that [inet_pton] is tried with, in order. *)
Definition parse_address (text : word) : option (Z * Z * list Z) :=
  match inet_pton LLDPD_AF_IPV4 text with
  | Some a => Some (LLDPD_AF_IPV4, 4, a)
  | None => match inet_pton LLDPD_AF_IPV6 text with Some a => Some (LLDPD_AF_IPV6, 16, a) | None => None end
  end.

Definition set_pattern (text : word) cfg : lldpd :=
  if bool_decide (c_mgmt_pattern (g_config cfg) = Some text) then cfg
  else cfg<|g_config ::= λ c, c<|c_mgmt_pattern := Some text|>|>.

(** The address of the management interface, for one family.  With these sizes
    [lldpd_alloc_mgmt] only fails when there is no memory. *)
Definition add_interface_address (af size : Z) (a : list Z) (st : state * bool) : state * bool :=
  match lldpd_alloc_mgmt af a size 0 with
  | inr m => (add_mgmt m st.1.1, true, true)
  | inl _ => st
  end.
Definition interface_ipv4 row (st : state * bool) : fault + state * bool :=
  match mgmt_intf_status row SYSTEM_MGMT_INTF_MAP_IP with
  | None => inr st
  | Some text =>
      match strtok text with
      | None => inr st
      | Some ip =>
          match validate_ip ip with
          | inl e => inl e
          | inr false => inr st
          | inr true => inr (match inet_pton LLDPD_AF_IPV4 ip with
                             | Some a => add_interface_address LLDPD_AF_IPV4 4 a st
                             | None => st
                             end)
          end
      end
  end.
Definition interface_ipv6 row (st : state * bool) : state * bool :=
  match mgmt_intf_status row SYSTEM_MGMT_INTF_MAP_IPV6 with
  | None => st
  | Some text =>
      match (ip ← strtok text; inet_pton LLDPD_AF_IPV6 ip) with
      | Some a => add_interface_address LLDPD_AF_IPV6 16 a st
      | None => st
      end
  end.

(** The second boolean is [update_now]. *)
Definition set_lldp_mgmt_address row (st : state) : fault + state * bool :=
  let st := (lldpd_chassis_mgmt_cleanup st.1, st.2) in
  match smap_get row SYSTEM_OTHER_CONFIG_MAP_LLDP_MGMT_ADDR with
  | Some text =>
      match parse_address text with
      | None => inr (st.1, true, true)
      | Some (af, size, a) =>
          match lldpd_alloc_mgmt af a size 0 with
          | inl _ => inr (st, false)
          | inr m => inr (add_mgmt m (set_pattern text st.1), true, true)
          end
      end
  | None => match interface_ipv4 row (st, false) with
            | inl e => inl e
            | inr st => inr (interface_ipv6 row st)
            end
  end.

(** ** Protocols *)

#[global] Instance eta_protocol : Settable protocol := λ r,
  {| mode := mode r; enabled := enabled r; name := name r; proto_send := proto_send r;
     proto_decode := proto_decode r; guess := guess r; mac := mac r |}.
Definition set_enabled (i : nat) (v : Z) cfg : lldpd := cfg<|g_protocols ::= alter (λ p, p<|enabled := v|>) i|>.

(** One protocol of the loop: [clear] counts the times that the neighbors are removed from
    the database. *)
Definition protocol_step now (lldp_enabled : bool) (i : nat) (st : state * nat) : state * nat :=
  let '(cfg, send, clear) := st in
  match g_protocols cfg !! i with
  | None => st
  | Some p =>
      if mode p =? LLDPD_MODE_LLDP then
        let v := if lldp_enabled then 1 else 0 in
        let '(cfg, send) :=
          if negb (v =? enabled p)
          then (lldpd_update_localports now (lldpd_reset now (set_enabled i v cfg)), send || lldp_enabled)
          else (cfg, send) in
        (cfg, send, if lldp_enabled then clear else S clear)
      else st
  end.
Fixpoint protocol_loop now (lldp_enabled : bool) (n i : nat) (st : state * nat) : state * nat :=
  match n with O => st | S n => protocol_loop now lldp_enabled n (S i) (protocol_step now lldp_enabled i st) end.
Definition any_enabled cfg : bool := existsb (λ p, negb (enabled p =? 0)) (g_protocols cfg).

(** ** The whole row *)

Definition apply_tlvs row (st : state) : state :=
  let st := lldpd_apply_tlv_configs row SYSTEM_OTHER_CONFIG_MAP_LLDP_TLV_SYS_NAME_ENABLE c_lldp_tlv_sys_name_enable st in
  let st := lldpd_apply_tlv_configs row SYSTEM_OTHER_CONFIG_MAP_LLDP_TLV_SYS_DESC_ENABLE c_lldp_tlv_sys_desc_enable st in
  let st := lldpd_apply_tlv_configs row SYSTEM_OTHER_CONFIG_MAP_LLDP_TLV_SYS_CAP_ENABLE c_lldp_tlv_sys_cap_enable st in
  let st := lldpd_apply_tlv_configs row SYSTEM_OTHER_CONFIG_MAP_LLDP_TLV_MGMT_ADDR_ENABLE c_lldp_tlv_mgmt_addr_enable st in
  let st := lldpd_apply_tlv_configs row SYSTEM_OTHER_CONFIG_MAP_LLDP_TLV_PORT_DESC_ENABLE c_lldp_tlv_port_desc_enable st in
  let st := lldpd_apply_tlv_configs row SYSTEM_OTHER_CONFIG_MAP_LLDP_TLV_PORT_VLAN_ID_ENABLE c_lldp_tlv_port_vlanid_enable st in
  let st := lldpd_apply_tlv_configs row SYSTEM_OTHER_CONFIG_MAP_LLDP_TLV_PORT_PROTO_VLAN_ID_ENABLE c_lldp_tlv_port_proto_vlanid_enable st in
  let st := lldpd_apply_tlv_configs row SYSTEM_OTHER_CONFIG_MAP_LLDP_TLV_PORT_VLAN_NAME_ENABLE c_lldp_tlv_port_vlan_name_enable st in
  lldpd_apply_tlv_configs row SYSTEM_OTHER_CONFIG_MAP_LLDP_TLV_PORT_PROTO_ID_ENABLE c_lldp_tlv_port_proto_id_enable st.

(** [lldpd_apply_global_changes]: the daemon, [send_now], and how often the neighbors
    are removed from the database. *)
Definition lldpd_apply_global_changes now (ovs : option system_row) (changed : bool) (st : state) : fault + state * nat :=
  match ovs with
  | None => inr (st, 0%nat)
  | Some row =>
      if negb changed then inr (st, 0%nat) else
      match set_lldp_mgmt_address row (apply_hold row (apply_interval row st)) with
      | inl e => inl e
      | inr (st, update_now) =>
          let st := apply_tlvs row st in
          let lldp_enabled := smap_get_bool row SYSTEM_OTHER_CONFIG_MAP_LLDP_ENABLE ENABLE_DEFAULT in
          let '(cfg, send, clear) := protocol_loop now lldp_enabled (length (g_protocols st.1)) 0 (st, 0%nat) in
          let cfg := cfg<|g_config ::= λ c, c<|c_is_any_protocol_enabled := any_enabled cfg|>|> in
          inr (if update_now then levent_update_now cfg else cfg, send, clear)
      end
  end.

(** ** Capabilities from the tables of bridges and VRFs *)

Definition local_caps cfg : Z :=
  match LOCAL_CHASSIS cfg with
  | Some p => match g_heap cfg !! p with Some c => c_cap_enabled c | None => 0 end
  | None => 0
  end.
Definition has_cap (caps cap : Z) : bool := negb (Z.land caps cap =? 0).

Definition lldpd_apply_bridge_changes (br changed : bool) (st : state) : state :=
  if br && negb changed then st
  else if br
       then if has_cap (local_caps st.1) LLDP_CAP_BRIDGE then st
            else (levent_update_now (on_local (λ c, c<|c_cap_enabled ::= Z.lor LLDP_CAP_BRIDGE|>) st.1), true)
       else if has_cap (local_caps st.1) LLDP_CAP_BRIDGE
            then (levent_update_now (on_local (λ c, c<|c_cap_enabled ::= λ e, Z.ldiff e LLDP_CAP_BRIDGE|>) st.1), true)
            else st.
Definition lldpd_apply_vrf_changes (vrf changed : bool) (st : state) : state :=
  if vrf && negb changed then st
  else if vrf
       then if has_cap (local_caps st.1) LLDP_CAP_ROUTER then st
            else (on_local (λ c, c<|c_cap_enabled ::= Z.lor LLDP_CAP_ROUTER|>) st.1, true)
       else if has_cap (local_caps st.1) LLDP_CAP_ROUTER
            then (on_local (λ c, c<|c_cap_enabled ::= λ e, Z.ldiff e LLDP_CAP_ROUTER|>) st.1, true)
            else st.

(** ** What the row asks for *)

Definition in_limits (low high new old : Z) : Z := if ((low <=? new) && (new <=? high))%bool then new else old.
Definition wanted_interval row : Z → Z :=
  in_limits TX_INTERVAL_MIN TX_INTERVAL_MAX (smap_get_int row SYSTEM_OTHER_CONFIG_MAP_LLDP_TX_INTERVAL TX_INTERVAL_DEFAULT).
Definition wanted_hold row : Z → Z :=
  in_limits HOLD_MIN HOLD_MAX (smap_get_int row SYSTEM_OTHER_CONFIG_MAP_LLDP_HOLD HOLD_DEFAULT).
Definition wanted_tlv row (key : config_key) : bool := smap_get_bool row key TLV_DEFAULT.
Definition wanted_pattern row (old : option word) : option word :=
  match smap_get row SYSTEM_OTHER_CONFIG_MAP_LLDP_MGMT_ADDR with
  | Some text => match parse_address text with Some _ => Some text | None => old end
  | None => old
  end.
Definition timed row (c : lldpd_config) : lldpd_config := c<|c_tx_interval ::= wanted_interval row|><|c_tx_hold ::= wanted_hold row|>.
Definition flagged row (c : lldpd_config) : lldpd_config :=
  c<|c_lldp_tlv_sys_name_enable := wanted_tlv row SYSTEM_OTHER_CONFIG_MAP_LLDP_TLV_SYS_NAME_ENABLE|>
   <|c_lldp_tlv_sys_desc_enable := wanted_tlv row SYSTEM_OTHER_CONFIG_MAP_LLDP_TLV_SYS_DESC_ENABLE|>
   <|c_lldp_tlv_sys_cap_enable := wanted_tlv row SYSTEM_OTHER_CONFIG_MAP_LLDP_TLV_SYS_CAP_ENABLE|>
   <|c_lldp_tlv_mgmt_addr_enable := wanted_tlv row SYSTEM_OTHER_CONFIG_MAP_LLDP_TLV_MGMT_ADDR_ENABLE|>
   <|c_lldp_tlv_port_desc_enable := wanted_tlv row SYSTEM_OTHER_CONFIG_MAP_LLDP_TLV_PORT_DESC_ENABLE|>
   <|c_lldp_tlv_port_vlanid_enable := wanted_tlv row SYSTEM_OTHER_CONFIG_MAP_LLDP_TLV_PORT_VLAN_ID_ENABLE|>
   <|c_lldp_tlv_port_proto_vlanid_enable := wanted_tlv row SYSTEM_OTHER_CONFIG_MAP_LLDP_TLV_PORT_PROTO_VLAN_ID_ENABLE|>
   <|c_lldp_tlv_port_vlan_name_enable := wanted_tlv row SYSTEM_OTHER_CONFIG_MAP_LLDP_TLV_PORT_VLAN_NAME_ENABLE|>
   <|c_lldp_tlv_port_proto_id_enable := wanted_tlv row SYSTEM_OTHER_CONFIG_MAP_LLDP_TLV_PORT_PROTO_ID_ENABLE|>.
Definition wanted_config row (c : lldpd_config) : lldpd_config :=
  flagged row ((timed row c)<|c_mgmt_pattern ::= wanted_pattern row|>).

(** The management addresses: the configured one, or those of the management interface. *)
Definition address (af size : Z) (a : list Z) : lldpd_mgmt :=
  {| m_family := af; m_addr := a ++ replicate (Z.to_nat (LLDPD_MGMT_MAXADDRSIZE - size)) 0; m_addrsize := size; m_iface := 0 |}.
Definition listed (o : option lldpd_mgmt) : list lldpd_mgmt := match o with Some m => [m] | None => [] end.
Definition interface_address row (key : status_key) (af size : Z) : option lldpd_mgmt :=
  text ← mgmt_intf_status row key; ip ← strtok text;
  if (af =? LLDPD_AF_IPV4) && existsb (λ c, existsb (Z.eqb c) (chars "!,*?")) ip then None
  else address af size <$> inet_pton af ip.
Definition wanted_mgmt row : list lldpd_mgmt :=
  match smap_get row SYSTEM_OTHER_CONFIG_MAP_LLDP_MGMT_ADDR with
  | Some text => listed ((λ x, address x.1.1 x.1.2 x.2) <$> parse_address text)
  | None => listed (interface_address row SYSTEM_MGMT_INTF_MAP_IP LLDPD_AF_IPV4 4) ++
            listed (interface_address row SYSTEM_MGMT_INTF_MAP_IPV6 LLDPD_AF_IPV6 16)
  end.

(** What the row makes of the local chassis: [c] is the configuration before. *)
Definition wanted_ttl row (c : lldpd_config) (old : Z) : Z :=
  let c' := timed row c in
  if (c_tx_interval c' =? c_tx_interval c) && (c_tx_hold c' =? c_tx_hold c) then old
  else Z.min 65535 (c_tx_interval c' * c_tx_hold c').
Definition wanted_local row (c : lldpd_config) (ch : lldpd_chassis) : lldpd_chassis :=
  ch<|c_ttl ::= wanted_ttl row c|><|c_mgmt := wanted_mgmt row|>.

(** The address of the management interface that overflows the stack. *)
Definition misplaced_address row : Prop :=
  smap_get row SYSTEM_OTHER_CONFIG_MAP_LLDP_MGMT_ADDR = None ∧
  ∃ text ip, mgmt_intf_status row SYSTEM_MGMT_INTF_MAP_IP = Some text ∧ strtok text = Some ip ∧
    inet_pton LLDPD_AF_IPV4 ip = None ∧ inet_pton LLDPD_AF_IPV6 ip ≠ None.

(** ** Proofs: the settings *)

Definition touched (local : nat) (f : lldpd_config → lldpd_config) (g : lldpd_chassis → lldpd_chassis) cfg : lldpd :=
  cfg<|g_config ::= f|><|g_heap ::= alter g local|>.

Lemma alter_twice {A} (f g : A → A) (k : nat) (m : gmap nat A) : alter f k (alter g k m) = alter (λ x, f (g x)) k m.
Proof.
  apply map_eq. intros i. destruct (decide (k = i)) as [->|Hne]; [|by rewrite !lookup_alter_ne].
  rewrite !lookup_alter_eq. by destruct (m !! i).
Qed.
Lemma touched_touched local f g f' g' cfg :
  touched local f' g' (touched local f g cfg) = touched local (λ c, f' (f c)) (λ c, g' (g c)) cfg.
Proof. exact (f_equal (λ h, cfg<|g_config := f' (f (g_config cfg))|><|g_heap := h|>) (alter_twice g' g local (g_heap cfg))). Qed.
Lemma touched_local local f g cfg : LOCAL_CHASSIS (touched local f g cfg) = LOCAL_CHASSIS cfg.
Proof. done. Qed.
Lemma touched_same local f g cfg : f (g_config cfg) = g_config cfg → (∀ c, g c = c) → touched local f g cfg = cfg.
Proof.
  intros Hf Hg. change (cfg<|g_config := f (g_config cfg)|><|g_heap := alter g local (g_heap cfg)|> = cfg).
  rewrite Hf, alter_same by done. by destruct cfg.
Qed.
Lemma touched_ext local f g f' g' cfg :
  f (g_config cfg) = f' (g_config cfg) → (∀ c, g c = g' c) → touched local f g cfg = touched local f' g' cfg.
Proof.
  intros Hf Hg. change (cfg<|g_config := f (g_config cfg)|><|g_heap := alter g local (g_heap cfg)|> = touched local f' g' cfg).
  rewrite Hf, (alter_ext g g') by auto. done.
Qed.
Lemma on_local_touched local g cfg : LOCAL_CHASSIS cfg = Some local → on_local g cfg = touched local id g cfg.
Proof. unfold on_local. by intros ->. Qed.

Lemma config_same_interval (c : lldpd_config) : c<|c_tx_interval := c_tx_interval c|> = c.
Proof. by destruct c. Qed.
Lemma config_same_hold (c : lldpd_config) : c<|c_tx_hold := c_tx_hold c|> = c.
Proof. by destruct c. Qed.

Definition new_ttl (same : bool) (ttl : Z) (ch : lldpd_chassis) : lldpd_chassis :=
  if same then ch else ch<|c_ttl := Z.min 65535 ttl|>.
Lemma interval_touched local row cfg send :
  LOCAL_CHASSIS cfg = Some local →
  let i := c_tx_interval (g_config cfg) in
  (apply_interval row (cfg, send)).1 =
  touched local (λ c, c<|c_tx_interval ::= wanted_interval row|>)
    (new_ttl (wanted_interval row i =? i) (wanted_interval row i * c_tx_hold (g_config cfg))) cfg.
Proof.
  intros Hl i. unfold apply_interval, wanted_interval, in_limits. cbn [fst snd]. rewrite <- andb_assoc.
  set (v := smap_get_int row SYSTEM_OTHER_CONFIG_MAP_LLDP_TX_INTERVAL _). fold i.
  destruct ((TX_INTERVAL_MIN <=? v) && (v <=? TX_INTERVAL_MAX)); rewrite ?andb_true_r, ?andb_false_r.
  - unfold new_ttl. destruct (Z.eqb_spec v i) as [->|Hne]; cbn [negb fst snd].
    + symmetry. by apply touched_same; [apply config_same_interval|].
    + unfold set_ttl. by rewrite (on_local_touched local) by done.
  - symmetry. cbn [fst]. apply touched_same; [apply config_same_interval|]. intros c. unfold new_ttl. by rewrite Z.eqb_refl.
Qed.
Lemma hold_touched local row cfg send :
  LOCAL_CHASSIS cfg = Some local →
  let h := c_tx_hold (g_config cfg) in
  (apply_hold row (cfg, send)).1 =
  touched local (λ c, c<|c_tx_hold ::= wanted_hold row|>)
    (new_ttl (wanted_hold row h =? h) (c_tx_interval (g_config cfg) * wanted_hold row h)) cfg.
Proof.
  intros Hl h. unfold apply_hold, wanted_hold, in_limits. cbn [fst snd]. rewrite <- andb_assoc.
  set (v := smap_get_int row SYSTEM_OTHER_CONFIG_MAP_LLDP_HOLD _). fold h.
  destruct ((HOLD_MIN <=? v) && (v <=? HOLD_MAX)); rewrite ?andb_true_r, ?andb_false_r.
  - unfold new_ttl. destruct (Z.eqb_spec v h) as [->|Hne]; cbn [negb fst snd].
    + symmetry. by apply touched_same; [apply config_same_hold|].
    + unfold set_ttl. by rewrite (on_local_touched local) by done.
  - symmetry. cbn [fst]. apply touched_same; [apply config_same_hold|]. intros c. unfold new_ttl. by rewrite Z.eqb_refl.
Qed.

Lemma timers_touched local row cfg send :
  LOCAL_CHASSIS cfg = Some local →
  (apply_hold row (apply_interval row (cfg, send))).1 =
  touched local (timed row) (λ ch, ch<|c_ttl ::= wanted_ttl row (g_config cfg)|>) cfg.
Proof.
  intros Hl. rewrite (surjective_pairing (apply_interval row (cfg, send))), (interval_touched local) by done.
  rewrite (hold_touched local) by done. rewrite touched_touched. apply touched_ext; [done|]. intros ch.
  cbn -[Z.min Z.eqb]. unfold wanted_ttl, timed, new_ttl. cbn -[Z.min Z.eqb].
  destruct (Z.eqb_spec (wanted_interval row (c_tx_interval (g_config cfg))) (c_tx_interval (g_config cfg))) as [Ei|Ei],
    (Z.eqb_spec (wanted_hold row (c_tx_hold (g_config cfg))) (c_tx_hold (g_config cfg))) as [Eh|Eh];
    cbn [andb]; rewrite ?Eh; by destruct ch.
Qed.

(** The TLVs. *)
Lemma tlv_touched local row key (w : lldpd_config → bool) `{!Setter w} (st : state) :
  (∀ c, set w (λ _, w c) c = c) →
  (lldpd_apply_tlv_configs row key w st).1 = touched local (λ c, set w (λ _, wanted_tlv row key) c) id st.1.
Proof.
  intros Hw. unfold lldpd_apply_tlv_configs, wanted_tlv. destruct (decide (smap_get_bool row key TLV_DEFAULT = w (g_config st.1))) as [E|E].
  - rewrite bool_decide_false by tauto. symmetry. apply touched_same; [|done]. by rewrite E.
  - rewrite bool_decide_true by done. cbn [fst].
    change (st.1<|g_config := set w (λ _, smap_get_bool row key TLV_DEFAULT) (g_config st.1)|> =
            st.1<|g_config := set w (λ _, smap_get_bool row key TLV_DEFAULT) (g_config st.1)|><|g_heap := alter id local (g_heap st.1)|>).
    rewrite alter_same by done. by destruct st.1.
Qed.
Lemma tlvs_touched local row (st : state) : (apply_tlvs row st).1 = touched local (flagged row) id st.1.
Proof.
  unfold apply_tlvs. repeat (rewrite (tlv_touched local) by (by intros [])). rewrite !touched_touched. done.
Qed.

(** The management address. *)
Lemma alloc_address af size a :
  (af = LLDPD_AF_IPV4 ∧ size = 4 ∨ af = LLDPD_AF_IPV6 ∧ size = 16) → zlen a = size →
  lldpd_alloc_mgmt af a size 0 = inr (address af size a).
Proof.
  intros Haf Hsize. unfold lldpd_alloc_mgmt, address.
  assert (take (Z.to_nat size) a = a) as -> by (rewrite <- Hsize, to_nat_zlen; by apply take_ge).
  by destruct Haf as [[-> ->]|[-> ->]].
Qed.
Lemma parse_address_alloc text af size a :
  parse_address text = Some (af, size, a) → lldpd_alloc_mgmt af a size 0 = inr (address af size a).
Proof.
  unfold parse_address. destruct (inet_pton LLDPD_AF_IPV4 text) as [b|] eqn:E4.
  - intros [= <- <- <-]. apply alloc_address; [by left|]. by apply (inet_pton_size text).
  - destruct (inet_pton LLDPD_AF_IPV6 text) as [b|] eqn:E6; [|done]. intros [= <- <- <-].
    apply alloc_address; [by right|]. by apply (inet_pton_size text).
Qed.

Lemma cleanup_touched local cfg :
  LOCAL_CHASSIS cfg = Some local → lldpd_chassis_mgmt_cleanup cfg = touched local id (λ c, c<|c_mgmt := []|>) cfg.
Proof. apply on_local_touched. Qed.
Lemma add_touched local m cfg :
  LOCAL_CHASSIS cfg = Some local → add_mgmt m cfg = touched local id (λ c, c<|c_mgmt ::= λ l, l ++ [m]|>) cfg.
Proof. apply on_local_touched. Qed.
Lemma pattern_touched local text cfg :
  set_pattern text cfg = touched local (λ c, c<|c_mgmt_pattern := Some text|>) id cfg.
Proof.
  unfold set_pattern. case_bool_decide as E.
  - symmetry. apply touched_same; [|done]. rewrite <- E. by destruct (g_config cfg).
  - change (cfg<|g_config := (g_config cfg)<|c_mgmt_pattern := Some text|>|> =
            cfg<|g_config := (g_config cfg)<|c_mgmt_pattern := Some text|>|><|g_heap := alter id local (g_heap cfg)|>).
    rewrite alter_same by done. by destruct cfg.
Qed.

(** An address more, when there is one. *)
Definition with_mgmt (l : list lldpd_mgmt) (c : lldpd_chassis) : lldpd_chassis := c<|c_mgmt ::= λ m, m ++ l|>.
Lemma with_mgmt_nil c : with_mgmt [] c = c.
Proof. destruct c. unfold with_mgmt, set. cbn. by rewrite app_nil_r. Qed.
Lemma interface_touched local af size o (st : state * bool) :
  LOCAL_CHASSIS st.1.1 = Some local → (af = LLDPD_AF_IPV4 ∧ size = 4 ∨ af = LLDPD_AF_IPV6 ∧ size = 16) →
  (∀ a, o = Some a → zlen a = size) →
  (match o with Some a => add_interface_address af size a st | None => st end).1.1 =
  touched local id (with_mgmt (listed (address af size <$> o))) st.1.1.
Proof.
  intros Hl Haf Ho. destruct o as [a|]; cbn [fmap option_fmap option_map listed].
  - unfold add_interface_address. rewrite alloc_address by auto. by rewrite (add_touched local).
  - symmetry. apply touched_same; [done|]. exact with_mgmt_nil.
Qed.

Lemma ipv4_touched local row (st : state * bool) :
  smap_get row SYSTEM_OTHER_CONFIG_MAP_LLDP_MGMT_ADDR = None → LOCAL_CHASSIS st.1.1 = Some local → ¬ misplaced_address row →
  ∃ st', interface_ipv4 row st = inr st' ∧
    st'.1.1 = touched local id (with_mgmt (listed (interface_address row SYSTEM_MGMT_INTF_MAP_IP LLDPD_AF_IPV4 4))) st.1.1.
Proof.
  intros Hnone Hl Hm. unfold interface_ipv4, interface_address.
  assert (∃ st' : state * bool, inr (A := fault) st = inr st' ∧ st'.1.1 = touched local id (with_mgmt []) st.1.1) as Hsame.
  { exists st. split; [done|]. symmetry. apply touched_same; [done|]. apply with_mgmt_nil. }
  destruct (mgmt_intf_status row SYSTEM_MGMT_INTF_MAP_IP) as [text|] eqn:Et; [|exact Hsame]. cbn [mbind option_bind].
  destruct (strtok text) as [ip|] eqn:Eip; [|exact Hsame]. cbn [mbind option_bind]. unfold validate_ip. rewrite Z.eqb_refl. cbn [andb].
  destruct (existsb _ ip); [exact Hsame|]. destruct (inet_pton LLDPD_AF_IPV4 ip) as [a|] eqn:E4.
  - eexists. split; [done|]. rewrite <- (interface_touched local LLDPD_AF_IPV4 4 (Some a) st) by
      (auto; intros a' [= <-]; by apply (inet_pton_size ip)). done.
  - destruct (inet_pton LLDPD_AF_IPV6 ip) eqn:E6; [|exact Hsame]. exfalso. apply Hm. split; [done|]. exists text, ip. by rewrite E6.
Qed.
Lemma ipv6_touched local row (st : state * bool) :
  LOCAL_CHASSIS st.1.1 = Some local →
  (interface_ipv6 row st).1.1 =
  touched local id (with_mgmt (listed (interface_address row SYSTEM_MGMT_INTF_MAP_IPV6 LLDPD_AF_IPV6 16))) st.1.1.
Proof.
  intros Hl. unfold interface_ipv6, interface_address.
  assert (st.1.1 = touched local id (with_mgmt []) st.1.1) as Hsame.
  { symmetry. apply touched_same; [done|]. apply with_mgmt_nil. }
  destruct (mgmt_intf_status row SYSTEM_MGMT_INTF_MAP_IPV6) as [text|]; [|exact Hsame]. cbn [mbind option_bind].
  destruct (strtok text) as [ip|]; [|exact Hsame]. cbn [mbind option_bind].
  change ((LLDPD_AF_IPV6 =? LLDPD_AF_IPV4) && _) with false. cbv iota.
  apply (interface_touched local LLDPD_AF_IPV6 16 (inet_pton LLDPD_AF_IPV6 ip) st); auto.
  intros a Ha. by apply (inet_pton_size ip).
Qed.

Lemma mgmt_touched local row (st : state) :
  LOCAL_CHASSIS st.1 = Some local → ¬ misplaced_address row →
  ∃ st' u, set_lldp_mgmt_address row st = inr (st', u) ∧
    st'.1 = touched local (λ c, c<|c_mgmt_pattern ::= wanted_pattern row|>) (λ ch, ch<|c_mgmt := wanted_mgmt row|>) st.1.
Proof.
  intros Hl Hm. unfold set_lldp_mgmt_address, wanted_pattern, wanted_mgmt. rewrite (cleanup_touched local) by done. cbn [fst snd].
  destruct (smap_get row SYSTEM_OTHER_CONFIG_MAP_LLDP_MGMT_ADDR) as [text|] eqn:Eg.
  - destruct (parse_address text) as [[[af size] a]|] eqn:Ep.
    + rewrite (parse_address_alloc _ _ _ _ Ep). do 2 eexists. split; [done|]. cbn [fst].
      rewrite (pattern_touched local), (add_touched local) by done. rewrite !touched_touched. apply touched_ext; [done|]. by intros [].
    + do 2 eexists. split; [done|]. cbn [fst]. apply touched_ext; [by destruct (g_config st.1)|]. by intros [].
  - destruct (ipv4_touched local row (touched local id (λ c, c<|c_mgmt := []|>) st.1, st.2, false) Eg Hl Hm) as (st4 & -> & H4).
    cbn [fst] in H4. rewrite (surjective_pairing (interface_ipv6 row st4)). do 2 eexists. split; [done|].
    rewrite (ipv6_touched local) by (rewrite H4; done). rewrite H4, !touched_touched.
    apply touched_ext; [by destruct (g_config st.1)|]. by intros [].
Qed.

(** ** Proofs: the protocols *)

Lemma cleanup_config now cfg : g_config (lldpd_cleanup now cfg) = g_config cfg.
Proof. unfold lldpd_cleanup. by destruct (cleanup_hardware _ _ _) as [[? ?] ?]. Qed.

(** The interfaces again, after protocol [i] has been started or stopped. *)
Definition restarted now (i : nat) (v : Z) cfg : lldpd := lldpd_update_localports now (lldpd_reset now (set_enabled i v cfg)).
Lemma restart_spec now i v cfg :
  g_config (restarted now i v cfg) = g_config cfg ∧ g_protocols (restarted now i v cfg) = g_protocols (set_enabled i v cfg).
Proof.
  unfold restarted, lldpd_update_localports, lldpd_reset. split.
  - rewrite cleanup_config. exact (cleanup_config now (reset_flags _)).
  - rewrite cleanup_protocols. exact (cleanup_protocols now (reset_flags _)).
Qed.

(** What one protocol becomes. *)
Definition switch (v : Z) (p : protocol) : protocol := if mode p =? LLDPD_MODE_LLDP then p<|enabled := v|> else p.
Definition as_int (b : bool) : Z := if b then 1 else 0.
Lemma switch_same v p : enabled p = v → switch v p = p.
Proof. intros <-. unfold switch. case_match; [|done]. by destruct p. Qed.

(** LLDP is protocol [i], it is in another state than [v], and no other protocol is LLDP. *)
Definition switched_at (v : Z) (ps : list protocol) (i : nat) : Prop :=
  (∃ p, ps !! i = Some p ∧ mode p = LLDPD_MODE_LLDP ∧ enabled p ≠ v) ∧
  ∀ j q, ps !! j = Some q → mode q = LLDPD_MODE_LLDP → j = i.

(** The state of the loop before protocol [i]. *)
Record loop_inv now (e : bool) cfg0 (i : nat) (st : state * nat) : Prop := {
  li_config : g_config st.1.1 = g_config cfg0;
  li_protocols : g_protocols st.1.1 =
    map (switch (as_int e)) (take i (g_protocols cfg0)) ++ drop i (g_protocols cfg0);
  li_same : map (switch (as_int e)) (g_protocols cfg0) = g_protocols cfg0 → st.1.1 = cfg0;
  li_changed k : switched_at (as_int e) (g_protocols cfg0) k →
    st.1.1 = if (i <=? k)%nat then cfg0 else restarted now k (as_int e) cfg0
}.
Lemma switch_at v i (ps : list protocol) p :
  ps !! i = Some p →
  alter (switch v) i (map (switch v) (take i ps) ++ drop i ps) = map (switch v) (take (S i) ps) ++ drop (S i) ps.
Proof.
  intros Hp. pose proof (lookup_lt_Some _ _ _ Hp) as Hlt.
  assert (i = length (map (switch v) (take i ps)) + 0)%nat as Hi by (rewrite length_map, length_take; lia).
  rewrite Hi at 1. rewrite list.alter_app_r. rewrite (drop_S _ _ _ Hp), (take_S_r _ _ _ Hp), map_app, <- app_assoc. done.
Qed.

Lemma step_inv now e cfg0 i (st : state * nat) :
  (i < length (g_protocols cfg0))%nat → loop_inv now e cfg0 i st → loop_inv now e cfg0 (S i) (protocol_step now e i st).
Proof.
  destruct st as [[cfg send] clear]. intros Hi [Hc Hp Hs Hk]. cbn [fst snd] in *.
  apply lookup_lt_is_Some in Hi as [p Hi].
  pose proof (switch_at (as_int e) i _ p Hi) as Hsw. rewrite <- Hp in Hsw.
  assert (g_protocols cfg !! i = Some p) as Hpi.
  { rewrite Hp, lookup_app_r by (rewrite length_map, length_take; lia).
    pose proof (lookup_lt_Some _ _ _ Hi). rewrite length_map, length_take, lookup_drop. by replace (_ + _)%nat with i by lia. }
  assert (switch (as_int e) p = p → alter (switch (as_int e)) i (g_protocols cfg) = g_protocols cfg) as Hid.
  { intros E. rewrite <- (list.list_alter_id id (g_protocols cfg) i) at 2 by done. apply list.list_alter_ext; [|done]. intros x Hx. change (id x) with x. congruence. }
  assert (switch (as_int e) p = p → loop_inv now e cfg0 (S i) (cfg, send, clear)) as Hskip.
  { intros E. split; cbn [fst]; [done|by rewrite <- Hsw, Hid|done|]. intros k Hsk. rewrite (Hk k Hsk).
    assert (k ≠ i) as Hki.
    { intros ->. destruct Hsk as [(q & Hq & Hm & Hne) _]. assert (q = p) as -> by congruence.
      apply Hne. unfold switch in E. rewrite Hm, Z.eqb_refl in E. rewrite <- E. done. }
    destruct (Nat.leb_spec i k), (Nat.leb_spec (S i) k); (done || lia). }
  unfold protocol_step. rewrite Hpi. fold (as_int e).
  destruct (mode p =? LLDPD_MODE_LLDP) eqn:Em; [|apply Hskip; unfold switch; by rewrite Em].
  destruct (Z.eqb_spec (as_int e) (enabled p)) as [Ee|Ee]; cbn [negb].
  { specialize (Hskip (switch_same _ _ (eq_sym Ee))). destruct Hskip. by split. }
  change (lldpd_update_localports now (lldpd_reset now (set_enabled i (as_int e) cfg))) with (restarted now i (as_int e) cfg).
  destruct (restart_spec now i (as_int e) cfg) as (Hb & Hd). split; cbn [fst].
  - by rewrite Hb.
  - rewrite Hd, <- Hsw. change (alter (λ p, p<|enabled := as_int e|>) i (g_protocols cfg) = alter (switch (as_int e)) i (g_protocols cfg)).
    apply list.list_alter_ext; [|done]. intros x Hx. assert (x = p) as -> by congruence. unfold switch. by rewrite Em.
  - intros E. exfalso. apply Ee. pose proof (f_equal (λ l, l !! i) E) as Ei. cbn in Ei. rewrite list_lookup_fmap, Hi in Ei.
    injection Ei as Ei. unfold switch in Ei. rewrite Em in Ei. by rewrite <- Ei.
  - intros k Hsk. rewrite (Hk k Hsk). destruct Hsk as [_ Hu]. rewrite <- (Hu i p Hi) by (by apply Z.eqb_eq).
    by rewrite (proj2 (Nat.leb_le i i)), (proj2 (Nat.leb_gt (S i) i)) by lia.
Qed.

Lemma loop_spec now e cfg0 n i (st : state * nat) :
  (i + n = length (g_protocols cfg0))%nat → loop_inv now e cfg0 i st →
  loop_inv now e cfg0 (i + n) (protocol_loop now e n i st).
Proof.
  revert i st. induction n as [|n IH]; intros i st Hn Hinv; cbn [protocol_loop]; [by rewrite Nat.add_0_r|].
  replace (i + S n)%nat with (S i + n)%nat by lia. apply IH; [lia|]. apply step_inv; [lia|done].
Qed.
Lemma protocols_spec now e cfg send :
  let cfg' := (protocol_loop now e (length (g_protocols cfg)) 0 (cfg, send, 0%nat)).1.1 in
  g_config cfg' = g_config cfg ∧ g_protocols cfg' = map (switch (as_int e)) (g_protocols cfg) ∧
  (map (switch (as_int e)) (g_protocols cfg) = g_protocols cfg → cfg' = cfg) ∧
  ∀ k, switched_at (as_int e) (g_protocols cfg) k → cfg' = restarted now k (as_int e) cfg.
Proof.
  destruct (loop_spec now e cfg (length (g_protocols cfg)) 0 (cfg, send, 0%nat)) as [Hb Hd Hf Hk]; [lia|by split|].
  cbv zeta. split_and!; [done| |done|].
  - rewrite Hd. rewrite Nat.add_0_l, take_ge, drop_ge by lia. apply app_nil_r.
  - intros k Hsk. rewrite (Hk k Hsk). destruct Hsk as [(p & Hp & _) _]. apply lookup_lt_Some in Hp.
    by rewrite (proj2 (Nat.leb_gt _ _)) by lia.
Qed.

Lemma touched_ok local f g cfg :
  (∀ c, c_refcount (g c) = c_refcount c ∧ c_protocol (g c) = c_protocol c) → table_ok local cfg → table_ok local (touched local f g cfg).
Proof. intros Hg Hok. by apply (alter_local_ok local (cfg<|g_config ::= f|>) g). Qed.

(** ** The configuration is what the row says *)

(** C37: when the row of the system changes, the settings of the daemon become what it asks
    for: the interval and the hold multiplier when they are within their limits (the time
    to live of the local chassis follows them, at most 65535), every TLV switch, the
    management address pattern; LLDP is started or stopped and the other protocols are left
    alone.  When LLDP keeps its state the interfaces are untouched, the local chassis announces
    exactly the management addresses of the row and the table of neighbors stays well formed;
    when it changes, the interfaces are reset and updated with the new settings in place,
    whatever the update finds.  The address of the management interface is not an IPv6 address
    where an IPv4 address is expected ([misplaced_address]), which overflows the stack. *)
Theorem global_changes_correct local now row cfg send :
  table_ok local cfg → ¬ misplaced_address row →
  let v := as_int (smap_get_bool row SYSTEM_OTHER_CONFIG_MAP_LLDP_ENABLE ENABLE_DEFAULT) in
  let configured := touched local (wanted_config row) (wanted_local row (g_config cfg)) cfg in
  ∃ cfg' send' clear, lldpd_apply_global_changes now (Some row) true (cfg, send) = inr (cfg', send', clear) ∧
    g_protocols cfg' = map (switch v) (g_protocols cfg) ∧
    g_config cfg' = (wanted_config row (g_config cfg))<|c_is_any_protocol_enabled := any_enabled cfg'|> ∧
    (map (switch v) (g_protocols cfg) = g_protocols cfg →
     g_hardware cfg' = g_hardware cfg ∧ g_heap cfg' = alter (wanted_local row (g_config cfg)) local (g_heap cfg) ∧
     table_ok local cfg') ∧
    (∀ i, switched_at v (g_protocols cfg) i →
     g_hardware cfg' = g_hardware (restarted now i v configured) ∧ g_heap cfg' = g_heap (restarted now i v configured)).
Proof.
  intros Hok Hm v configured. assert (LOCAL_CHASSIS cfg = Some local) as Hl by (by destruct Hok as [[_ _ _ Hl _ _] _ _]).
  pose proof (timers_touched local row cfg send Hl) as Ht. unfold lldpd_apply_global_changes. cbn [negb].
  set (st1 := apply_hold row (apply_interval row (cfg, send))) in *.
  destruct (mgmt_touched local row st1) as (st2 & u & -> & Hst2); [by rewrite Ht|done|].
  set (st3 := apply_tlvs row st2).
  assert (st3.1 = configured) as Hst3.
  { unfold st3. rewrite (tlvs_touched local), Hst2, Ht, !touched_touched. done. }
  assert (table_ok local configured) as Hok3 by (by apply touched_ok).
  fold v. set (e := smap_get_bool _ _ _) in *. destruct st3 as [cfg3 send3]. cbn [fst] in *. subst cfg3.
  destruct (protocols_spec now e configured send3) as (Hc4 & Hp4 & Hsame & Hch). fold v in Hp4, Hsame, Hch.
  destruct (protocol_loop _ _ _ _ _) as [[cfg4 send4] clear]. cbn [fst] in *.
  exists (if u then levent_update_now (cfg4<|g_config ::= λ c, c<|c_is_any_protocol_enabled := any_enabled cfg4|>|>)
    else cfg4<|g_config ::= λ c, c<|c_is_any_protocol_enabled := any_enabled cfg4|>|>), send4, clear. split; [reflexivity|].
  assert (g_config cfg4 = wanted_config row (g_config cfg)) as Hc by exact Hc4.
  assert (map (switch v) (g_protocols cfg) = g_protocols cfg → g_hardware cfg4 = g_hardware cfg ∧
    g_heap cfg4 = alter (wanted_local row (g_config cfg)) local (g_heap cfg) ∧ table_ok local cfg4) as Hkeep.
  { intros E. rewrite (Hsame E). split; [reflexivity|]. split; [reflexivity|done]. }
  assert (∀ i, switched_at v (g_protocols cfg) i →
     g_hardware cfg4 = g_hardware (restarted now i v configured) ∧ g_heap cfg4 = g_heap (restarted now i v configured)) as Hre.
  { intros i Hi. by rewrite (Hch i Hi). }
  rewrite <- Hc. destruct u; exact (conj Hp4 (conj eq_refl (conj Hkeep Hre))).
Qed.

(** ** The capabilities follow the tables *)

Lemma local_caps_on local cfg (f : Z → Z) c :
  LOCAL_CHASSIS cfg = Some local → g_heap cfg !! local = Some c →
  local_caps (on_local (λ c, c<|c_cap_enabled ::= f|>) cfg) = f (c_cap_enabled c).
Proof.
  intros Hl Hc. rewrite (on_local_touched local) by done. unfold local_caps. rewrite touched_local, Hl.
  change (g_heap _) with (alter (λ c, c<|c_cap_enabled ::= f|>) local (g_heap cfg)). by rewrite lookup_alter_eq, Hc.
Qed.
Lemma has_cap_bit caps n : 0 ≤ n → has_cap caps (2 ^ n) = Z.testbit caps n.
Proof.
  intros Hn. unfold has_cap. destruct (Z.testbit caps n) eqn:Eb.
  - destruct (Z.eqb_spec (Z.land caps (2 ^ n)) 0) as [E|]; [|done]. pose proof (f_equal (λ x, Z.testbit x n) E) as F.
    cbn beta in F. by rewrite Z.land_spec, Eb, Z.pow2_bits_true, Z.testbit_0_l in F.
  - replace (Z.land caps (2 ^ n)) with 0; [done|]. symmetry. apply Z.bits_inj'. intros m Hm.
    rewrite Z.land_spec, Z.testbit_0_l. destruct (decide (n = m)) as [->|Hne]; [by rewrite Eb|].
    by rewrite Z.pow2_bits_false, andb_false_r by done.
Qed.
Lemma bit_changed caps n m (b : bool) :
  0 ≤ n → 0 ≤ m →
  Z.testbit (if b then Z.lor (2 ^ n) caps else Z.ldiff caps (2 ^ n)) m = if decide (m = n) then b else Z.testbit caps m.
Proof.
  intros Hn Hm. destruct b; rewrite ?Z.lor_spec, ?Z.ldiff_spec, Z.pow2_bits_eqb by done;
    destruct (Z.eqb_spec n m), (decide (m = n)); try lia; cbn [orb negb]; by rewrite ?andb_false_r, ?andb_true_r.
Qed.

(** When a table changed, its capability is announced exactly when it has a row; the other
    capabilities stay, and a frame is sent at once exactly when the capability changed. *)
Theorem capabilities_follow local br vrf cfg send c n :
  LOCAL_CHASSIS cfg = Some local → g_heap cfg !! local = Some c → 0 ≤ n →
  (let st := lldpd_apply_bridge_changes br true (cfg, send) in
   Z.testbit (local_caps st.1) n = (if decide (n = 2) then br else Z.testbit (c_cap_enabled c) n) ∧
   st.2 = (send || xorb br (Z.testbit (c_cap_enabled c) 2))%bool) ∧
  (let st := lldpd_apply_vrf_changes vrf true (cfg, send) in
   Z.testbit (local_caps st.1) n = (if decide (n = 4) then vrf else Z.testbit (c_cap_enabled c) n) ∧
   st.2 = (send || xorb vrf (Z.testbit (c_cap_enabled c) 4))%bool).
Proof.
  intros Hl Hc Hn. assert (local_caps cfg = c_cap_enabled c) as Hcaps by (unfold local_caps; by rewrite Hl, Hc).
  pose proof (has_cap_bit (c_cap_enabled c) 2 ltac:(lia)) as Hb. pose proof (has_cap_bit (c_cap_enabled c) 4 ltac:(lia)) as Hv.
  change (2 ^ 2) with LLDP_CAP_BRIDGE in Hb. change (2 ^ 4) with LLDP_CAP_ROUTER in Hv.
  unfold lldpd_apply_bridge_changes, lldpd_apply_vrf_changes. cbn [fst snd negb]. rewrite !andb_false_r, Hcaps, Hb, Hv.
  pose proof (bit_changed (c_cap_enabled c) 2 n br ltac:(lia) Hn) as Cb. pose proof (bit_changed (c_cap_enabled c) 4 n vrf ltac:(lia) Hn) as Cv.
  split; [destruct br, (Z.testbit (c_cap_enabled c) 2) eqn:Eb | destruct vrf, (Z.testbit (c_cap_enabled c) 4) eqn:Eb];
    cbn [fst snd xorb]; rewrite ?orb_false_r, ?orb_true_r; (split; [|done]).
  all: change (local_caps (levent_update_now ?x)) with (local_caps x); try (rewrite (local_caps_on local _ _ c) by done).
  all: rewrite ?Hcaps; try exact Cb; try exact Cv; clear Cb Cv; case_decide; by subst.
Qed.
End Config.
