(* ===== verification/OvsSync.v ===== *)
(** * Database interface: neighbors kept in the database

    [lldpd_ovsdb_nbrs_run] copies what changed to the rows of the interfaces,
    [lldpd_ovsdb_nbrs_change_all] copies everything, and [lldpd_run] confirms either in a
    transaction.  What changed is in [h_rport_change_opcode].

    The rows are a replica kept by the database library; a transaction changes the database
    when it is confirmed.  [inet_ntop] and the conversion of the library from text to
    integers are parameters.  Pointers to a hardware port or to a row are positions. *)

From stdpp Require Import gmap strings.
From S2P Require Import Prelude Bytes Text Const Structs Table TableOk OvsDecode OvsNbr.
#[local] Open Scope Z_scope.

Abbreviation word := (list Z).
Abbreviation smap := (gmap (list Z) (list Z)).

(** ** Rows *)

(** openswitch-idl.h *)
Inductive stat_key :=
  | INTERFACE_STATISTICS_LLDP_TX_COUNT | INTERFACE_STATISTICS_LLDP_RX_COUNT
  | INTERFACE_STATISTICS_LLDP_RX_DISCARDED_COUNT | INTERFACE_STATISTICS_LLDP_RX_UNRECOGNIZED_COUNT
  | INTERFACE_STATISTICS_LLDP_AGEOUT_COUNT | INTERFACE_STATISTICS_LLDP_INSERT_COUNT
  | INTERFACE_STATISTICS_LLDP_DELETE_COUNT | INTERFACE_STATISTICS_LLDP_DROP_COUNT.
#[global] Instance stat_key_eq_dec : EqDecision stat_key.
Proof. solve_decision. Defined.
Definition lldp_interface_statistics_keys : list stat_key :=
  [INTERFACE_STATISTICS_LLDP_TX_COUNT; INTERFACE_STATISTICS_LLDP_RX_COUNT;
   INTERFACE_STATISTICS_LLDP_RX_DISCARDED_COUNT; INTERFACE_STATISTICS_LLDP_RX_UNRECOGNIZED_COUNT;
   INTERFACE_STATISTICS_LLDP_AGEOUT_COUNT; INTERFACE_STATISTICS_LLDP_INSERT_COUNT;
   INTERFACE_STATISTICS_LLDP_DELETE_COUNT; INTERFACE_STATISTICS_LLDP_DROP_COUNT].
(** The column of statistics: keys with their values. *)
Definition statistics : Type := list (stat_key * Z).
Definition LLDPD_TOTAL_STATS_PER_INTERFACE : nat := length lldp_interface_statistics_keys.

Record ovsrec_interface := IfRow { r_name : word; lldp_neighbor_info : smap; lldp_statistics : statistics }.
Record interface_data := Itf { i_name : word; i_ifrow : option nat; i_hw : option nat; synced_from_db : bool }.
(** [status] is [None] when there is no row of the system. *)
Record database := Db { ifrows : list ovsrec_interface; status : option smap }.
#[global] Instance eta_ifrow : Settable ovsrec_interface := λ r, IfRow (r_name r) (lldp_neighbor_info r) (lldp_statistics r).
#[global] Instance eta_itf : Settable interface_data := λ r, Itf (i_name r) (i_ifrow r) (i_hw r) (synced_from_db r).
#[global] Instance eta_database : Settable database := λ r, Db (ifrows r) (status r).

Definition CLEAR_TABLE_REQUESTED : word := chars "lldp_num_clear_table_requested".
Definition CLEAR_TABLE_PERFORMED : word := chars "lldp_last_clear_table_performed".
Definition CLEAR_COUNTERS_REQUESTED : word := chars "lldp_num_clear_counters_requested".
Definition CLEAR_COUNTERS_PERFORMED : word := chars "lldp_last_clear_counters_performed".

(** [smap_get_int]: the library reads back what [%d] printed. *)
Class SmapInt := {
  smap_int : word → Z;
  smap_int_range : ∀ s, - 2 ^ 31 ≤ smap_int s < 2 ^ 31;
  smap_int_printed : ∀ n, - 2 ^ 31 ≤ n < 2 ^ 31 → smap_int (print_int n) = n
}.
Definition smap_get_int `{SmapInt} (m : smap) (key : word) (def : Z) : Z :=
  match m !! key with Some s => smap_int s | None => def end.

(** [strtoll(s, 0, 16)] *)
Definition hex_value (c : Z) : option Z :=
  if ((48 <=? c) && (c <=? 57))%bool then Some (c - 48)
  else if ((97 <=? c) && (c <=? 102))%bool then Some (c - 87)
  else if ((65 <=? c) && (c <=? 70))%bool then Some (c - 55) else None.
Fixpoint hex_number (acc : Z) (s : word) : Z :=
  match s with
  | c :: s => match hex_value c with Some d => hex_number (16 * acc + d) s | None => acc end
  | [] => acc
  end.
Definition after_0x (s : word) : word :=
  match s with
  | 48 :: x :: c :: s' => if (((x =? 120) || (x =? 88)) && bool_decide (is_Some (hex_value c)))%bool then c :: s' else s
  | _ => s
  end.
Definition strtoll16 (s : word) : Z :=
  match skip_spaces s with
  | 45 :: s => Z.max (- 2 ^ 63) (- hex_number 0 (after_0x s))
  | 43 :: s => Z.min (2 ^ 63 - 1) (hex_number 0 (after_0x s))
  | s => Z.min (2 ^ 63 - 1) (hex_number 0 (after_0x s))
  end.

(** [sprintf] into an array of 10 bytes. *)
Definition sprintf10 (text : word) : OvsNbr.fault + word := if 10 <? zlen text + 1 then inl Overflow else inr text.

Section Sync.
Context `{BuildConfig} `{SmapInt} (inet_ntop : Z → word → option word).
Implicit Types (cfg : lldpd) (db : database) (hw : lldpd_hardware) (itf : interface_data) (now : Z).

Definition set_neighbor_info (j : nat) (info : smap) db : database :=
  db<|ifrows ::= alter (λ r, r<|lldp_neighbor_info := info|>) j|>.
Definition clear_infos db : database := db<|ifrows ::= map (λ r, r<|lldp_neighbor_info := ∅|>)|>.
Definition lldpd_ovsdb_clear_all_nbrs_run db : database * bool := (clear_infos db, negb (zlen (ifrows db) =? 0)).

(** ** Requests to clear *)

(** The loop over the hardware: [lldpd_remote_cleanup(hardware, NULL, 1)], and what is done
    before and after it. *)
Fixpoint clear_remotes (before after : lldpd_hardware → lldpd_hardware) (hws : list lldpd_hardware) (h : heap)
    : heap * list lldpd_hardware :=
  match hws with
  | [] => (h, [])
  | hw :: hws =>
      let '(h, hw, _) := lldpd_remote_cleanup false true 0 h (before hw) in
      let '(h, hws) := clear_remotes before after hws h in
      (h, after hw :: hws)
  end.
Definition clear_daemon before after cfg : lldpd :=
  let '(h, hws) := clear_remotes before after (g_hardware cfg) (g_heap cfg) in cfg<|g_heap := h|><|g_hardware := hws|>.

Definition lldpd_clear_nbr_table cfg db : OvsNbr.fault + lldpd * database * bool :=
  match status db with
  | None => inr (cfg, db, false)
  | Some st =>
      let requested := smap_get_int st CLEAR_TABLE_REQUESTED 0 in
      let performed := smap_get_int st CLEAR_TABLE_PERFORMED 0 in
      match sprintf10 (print_int requested) with
      | inl e => inl e
      | inr str =>
          if performed <? requested
          then inr (clear_daemon id id cfg,
                    (clear_infos db)<|status := Some {[CLEAR_TABLE_PERFORMED := str; CLEAR_TABLE_REQUESTED := str]}|>, true)
          else inr (cfg, db, false)
      end
  end.

Definition reset_counters hw : lldpd_hardware :=
  hw<|h_tx_cnt := 0|><|h_rx_cnt := 0|><|h_rx_discarded_cnt := 0|><|h_rx_unrecognized_cnt := 0|><|h_ageout_cnt := 0|><|h_drop_cnt := 0|>.
Definition lldpd_clear_counters cfg db : OvsNbr.fault + lldpd * database * bool :=
  match status db with
  | None => inr (cfg, db, false)
  | Some st =>
      let requested := smap_get_int st CLEAR_COUNTERS_REQUESTED 0 in
      let performed := smap_get_int st CLEAR_COUNTERS_PERFORMED 0 in
      match sprintf10 (print_int requested) with
      | inl e => inl e
      | inr str =>
          if performed <? requested
          then inr (clear_daemon reset_counters (λ hw, hw<|h_delete_cnt := 0|>) cfg,
                    (clear_infos db)<|status := Some (<[CLEAR_COUNTERS_PERFORMED := str]> (<[CLEAR_COUNTERS_REQUESTED := str]> st))|>, true)
          else inr (cfg, db, false)
      end
  end.

(** ** Changes of neighbors *)

Definition publish (h : heap) (p : lldpd_port) : OvsNbr.fault + smap :=
  match lldp_nbr_update inet_ntop (p_chassis p ≫= (h !!.)) p with
  | inl e => inl e
  | inr l => inr (list_to_map l)
  end.
Definition set_opcode (i : nat) cfg : lldpd :=
  cfg<|g_hardware ::= alter (λ hw, hw<|h_rport_change_opcode := LLDPD_AF_NBR_NOOP|>) i|>.

(** What the change [opcode] makes of the information of the row; [None]: nothing is written. *)
Definition change_info (h : heap) (opcode : Z) hw (info : smap) : OvsNbr.fault + option smap :=
  if ((opcode =? LLDPD_AF_NBR_ADD) || (opcode =? LLDPD_AF_NBR_MOD))%bool then
    match h_rports hw with
    | [] => inr None
    | p :: _ => match publish h p with inl e => inl e | inr m => inr (Some m) end
    end
  else if opcode =? LLDPD_AF_NBR_UPD then
    match h_rports hw with
    | [] => inr None
    | p :: _ => match sprintf10 (print_llx (p_lastupdate p)) with
                | inl e => inl e
                | inr s => inr (Some (<[LLDP_NBR_PORT_LASTUPDATE := s]> info))
                end
    end
  else if opcode =? LLDPD_AF_NBR_DEL then inr (Some ∅)
  else inr None.

Definition nbr_step (st : lldpd * database * bool) itf : OvsNbr.fault + lldpd * database * bool :=
  let '(cfg, db, nbr_change) := st in
  match i_hw itf, i_ifrow itf with
  | Some i, Some j =>
      match g_hardware cfg !! i, ifrows db !! j with
      | Some hw, Some row =>
          if h_rport_change_opcode hw =? LLDPD_AF_NBR_NOOP then inr st
          else if bool_decide (r_name row = h_ifname hw) then
            let info := lldp_neighbor_info row in
            let opcode := if ((h_rport_change_opcode hw =? LLDPD_AF_NBR_UPD) && bool_decide (info !! LLDP_NBR_CHASSIS_TTL = None))%bool
                          then LLDPD_AF_NBR_ADD else h_rport_change_opcode hw in
            match change_info (g_heap cfg) opcode hw info with
            | inl e => inl e
            | inr (Some m) => inr (set_opcode i cfg, set_neighbor_info j m db, true)
            | inr None => inr (set_opcode i cfg, db, nbr_change)
            end
          else inr st
      | _, _ => inr st
      end
  | _, _ => inr st
  end.
Fixpoint nbr_loop (itfs : list interface_data) (st : lldpd * database * bool) : OvsNbr.fault + lldpd * database * bool :=
  match itfs with
  | [] => inr st
  | itf :: itfs => match nbr_step st itf with inl e => inl e | inr st => nbr_loop itfs st end
  end.

(** ** Old entries *)

Definition aged_out now (info : smap) : bool :=
  match info !! LLDP_NBR_PORT_LASTUPDATE, info !! LLDP_NBR_CHASSIS_TTL with
  | Some last, Some ttl => int32 (atoi ttl + 2) <? now - strtoll16 last
  | _, _ => false
  end.
Definition age_row now (row : ovsrec_interface) : ovsrec_interface :=
  if aged_out now (lldp_neighbor_info row)
  then row<|lldp_neighbor_info := ∅|><|lldp_statistics := map (λ k, (k, 0)) lldp_interface_statistics_keys|> else row.
Definition age_rows now (db : database) : database * bool :=
  (db<|ifrows ::= map (age_row now)|>, existsb (λ r, aged_out now (lldp_neighbor_info r)) (ifrows db)).

(** ** The run *)

Definition lldpd_ovsdb_nbrs_run now (all_interfaces : list interface_data) cfg db : OvsNbr.fault + lldpd * database * bool :=
  match lldpd_clear_nbr_table cfg db with
  | inl e => inl e
  | inr (cfg, db, c1) =>
      match lldpd_clear_counters cfg db with
      | inl e => inl e
      | inr (cfg, db, c2) =>
          match nbr_loop all_interfaces (cfg, db, c1 || c2) with
          | inl e => inl e
          | inr (cfg, db, c3) => let '(db, c4) := age_rows now db in inr (cfg, db, c3 || c4)
          end
      end
  end.

(** [lldpd_ovsdb_nbrs_change_all]: the loop over the rows for one hardware port. *)
Fixpoint change_rows (name : word) (info : OvsNbr.fault + smap) (rows : list ovsrec_interface) : OvsNbr.fault + list ovsrec_interface :=
  match rows with
  | [] => inr []
  | row :: rows =>
      if bool_decide (r_name row = name)
      then match info, change_rows name info rows with
           | inl e, _ => inl e
           | _, inl e => inl e
           | inr m, inr rows => inr (row<|lldp_neighbor_info := m|> :: rows)
           end
      else match change_rows name info rows with inl e => inl e | inr rows => inr (row :: rows) end
  end.
Definition shown (h : heap) hw : OvsNbr.fault + smap := match h_rports hw with [] => inr ∅ | p :: _ => publish h p end.
Fixpoint change_all (h : heap) (hws : list lldpd_hardware) (rows : list ovsrec_interface)
    : OvsNbr.fault + list lldpd_hardware * list ovsrec_interface :=
  match hws with
  | [] => inr ([], rows)
  | hw :: hws =>
      match change_rows (h_ifname hw) (shown h hw) rows with
      | inl e => inl e
      | inr rows' =>
          let hw := if existsb (λ r, bool_decide (r_name r = h_ifname hw)) rows
                    then hw<|h_rport_change_opcode := LLDPD_AF_NBR_NOOP|> else hw in
          match change_all h hws rows' with inl e => inl e | inr (hws, rows) => inr (hw :: hws, rows) end
      end
  end.
Definition lldpd_ovsdb_nbrs_change_all cfg db : OvsNbr.fault + lldpd * database :=
  match change_all (g_heap cfg) (g_hardware cfg) (ifrows db) with
  | inl e => inl e
  | inr (hws, rows) => inr (cfg<|g_hardware := hws|>, db<|ifrows := rows|>)
  end.

(** ** Transactions *)

Inductive ovsdb_idl_txn_status :=
  | TXN_UNCOMMITTED | TXN_UNCHANGED | TXN_INCOMPLETE | TXN_ABORTED | TXN_SUCCESS | TXN_TRY_AGAIN | TXN_NOT_LOCKED | TXN_ERROR.

(** [confirm_txn] holds what the database becomes when it is confirmed. *)
Record confirm := Confirm { w_cfg : lldpd; w_db : database; confirm_txn : option database; confirm_txn_try_again : bool }.

(** The creation of the transaction, in [lldpd_run]. *)
Definition start_txn now (itfs : list interface_data) (w : confirm) : OvsNbr.fault + confirm :=
  match confirm_txn w with
  | Some _ => inr w
  | None =>
      if confirm_txn_try_again w
      then match lldpd_ovsdb_nbrs_change_all (w_cfg w) (w_db w) with
           | inl e => inl e
           | inr (cfg, db) => inr (Confirm cfg (w_db w) (Some db) true)
           end
      else match lldpd_ovsdb_nbrs_run now itfs (w_cfg w) (w_db w) with
           | inl e => inl e
           | inr (cfg, db, change) => inr (Confirm cfg (w_db w) (if change then Some db else None) false)
           end
  end.
(** Its end: [answer] is what [ovsdb_idl_txn_commit] returns. *)
Definition commit_txn (answer : ovsdb_idl_txn_status) (w : confirm) : confirm :=
  match confirm_txn w with
  | None => w
  | Some db =>
      match answer with
      | TXN_INCOMPLETE => w
      | TXN_SUCCESS => Confirm (w_cfg w) db None false
      | TXN_TRY_AGAIN => Confirm (w_cfg w) (w_db w) None true
      | _ => Confirm (w_cfg w) (w_db w) None false
      end
  end.
Definition confirm_run now itfs answer (w : confirm) : OvsNbr.fault + confirm :=
  match start_txn now itfs w with inl e => inl e | inr w => inr (commit_txn answer w) end.

(** ** What the code relies on *)

(** The map of interfaces ties distinct hardware ports to distinct rows of the same name. *)
Record linked (itfs : list interface_data) cfg db : Prop := {
  lk_hw : NoDup (omap i_hw itfs);
  lk_row : NoDup (omap i_ifrow itfs);
  lk_names itf i j : itf ∈ itfs → i_hw itf = Some i → i_ifrow itf = Some j →
    ∃ hw row, g_hardware cfg !! i = Some hw ∧ ifrows db !! j = Some row ∧ r_name row = h_ifname hw
}.

(** The first neighbor, the one that is published, fits in the buffers. *)
Definition publishable (h : heap) hw : Prop :=
  ∀ p l, h_rports hw = p :: l → (∃ m, publish h p = inr m) ∧ zlen (print_llx (p_lastupdate p)) < 10.

(** The code of the change tells how the row differs from the first neighbor. *)
Definition described (h : heap) hw (info : smap) : Prop :=
  (h_rport_change_opcode hw = LLDPD_AF_NBR_NOOP ∧ shown h hw = inr info) ∨
  ((h_rport_change_opcode hw = LLDPD_AF_NBR_ADD ∨ h_rport_change_opcode hw = LLDPD_AF_NBR_MOD) ∧ h_rports hw ≠ []) ∨
  (h_rport_change_opcode hw = LLDPD_AF_NBR_UPD ∧
   ∃ p l, h_rports hw = p :: l ∧
     (is_Some (info !! LLDP_NBR_CHASSIS_TTL) → publish h p = inr (<[LLDP_NBR_PORT_LASTUPDATE := print_llx (p_lastupdate p)]> info))) ∨
  (h_rport_change_opcode hw = LLDPD_AF_NBR_DEL ∧ h_rports hw = []).
Definition all_described (itfs : list interface_data) cfg db : Prop := ∀ itf i j hw row,
  itf ∈ itfs → i_hw itf = Some i → i_ifrow itf = Some j → g_hardware cfg !! i = Some hw → ifrows db !! j = Some row →
  publishable (g_heap cfg) hw ∧ described (g_heap cfg) hw (lldp_neighbor_info row).

(** ** Proofs: changes of neighbors *)

Definition settled hw : lldpd_hardware := hw<|h_rport_change_opcode := LLDPD_AF_NBR_NOOP|>.
Lemma settled_same hw : h_rport_change_opcode hw = LLDPD_AF_NBR_NOOP → settled hw = hw.
Proof. intros E. destruct hw. unfold settled, set. cbn in *. by rewrite E. Qed.
Lemma set_opcode_same i cfg hw :
  g_hardware cfg !! i = Some hw → h_rport_change_opcode hw = LLDPD_AF_NBR_NOOP → set_opcode i cfg = cfg.
Proof.
  intros Hi E. unfold set_opcode. transitivity (cfg<|g_hardware := g_hardware cfg|>); [|by destruct cfg].
  unfold set. cbn. f_equal. rewrite <- (list.list_alter_id id (g_hardware cfg) i) at 2 by done.
  apply list.list_alter_ext; [|done]. intros x Hx. assert (x = hw) as -> by congruence. by apply settled_same.
Qed.
Lemma set_info_same j db row : ifrows db !! j = Some row → set_neighbor_info j (lldp_neighbor_info row) db = db.
Proof.
  intros Hj. unfold set_neighbor_info. transitivity (db<|ifrows := ifrows db|>); [|by destruct db].
  unfold set. cbn. f_equal. rewrite <- (list.list_alter_id id (ifrows db) j) at 2 by done.
  apply list.list_alter_ext; [|done]. intros x Hx. assert (x = row) as -> by congruence. by destruct row.
Qed.

Lemma nbr_step_effect cfg db c itf i j hw row :
  i_hw itf = Some i → i_ifrow itf = Some j → g_hardware cfg !! i = Some hw → ifrows db !! j = Some row →
  r_name row = h_ifname hw → publishable (g_heap cfg) hw → described (g_heap cfg) hw (lldp_neighbor_info row) →
  ∃ m c', nbr_step (cfg, db, c) itf = inr (set_opcode i cfg, set_neighbor_info j m db, c') ∧
    shown (g_heap cfg) hw = inr m ∧
    (h_rport_change_opcode hw = LLDPD_AF_NBR_NOOP → c' = c ∧ m = lldp_neighbor_info row) ∧
    (h_rport_change_opcode hw ≠ LLDPD_AF_NBR_NOOP → c' = true).
Proof.
  intros Hi Hj Hhw Hrow Hname Hp Hd. unfold nbr_step. rewrite Hi, Hj, Hhw, Hrow.
  destruct (Z.eqb_spec (h_rport_change_opcode hw) LLDPD_AF_NBR_NOOP) as [E|E].
  { destruct Hd as [[_ Hs]|[[[E'|E'] _]|[[E' _]|[E' _]]]]; [|rewrite E in E'; discriminate ..].
    exists (lldp_neighbor_info row), c. by rewrite (set_opcode_same _ _ _ Hhw E), (set_info_same _ _ _ Hrow). }
  rewrite bool_decide_true by done. unfold shown.
  destruct Hd as [[E' _]|[[E' Hne]|[[E' (p & l & Hr & Hu)]|[E' Hr]]]]; [congruence|..].
  - destruct (h_rports hw) as [|p l] eqn:Er; [done|]. destruct (Hp p l Er) as [[m Hm] _]. exists m, true.
    destruct E' as [-> | ->]; cbn [Z.eqb LLDPD_AF_NBR_UPD andb]; unfold change_info; cbn -[publish]; by rewrite Er, Hm.
  - destruct (Hp p l Hr) as [[m Hm] Hlen]. rewrite E', Hr, Hm. cbn [Z.eqb LLDPD_AF_NBR_UPD Pos.eqb andb].
    destruct (lldp_neighbor_info row !! LLDP_NBR_CHASSIS_TTL) as [t|] eqn:Et.
    + rewrite bool_decide_false by done. unfold change_info, sprintf10. cbn -[publish zlen print_llx]. rewrite Hr.
      rewrite (proj2 (Z.ltb_ge _ _)) by lia. specialize (Hu ltac:(done)). rewrite Hm in Hu. injection Hu as ->. eexists _, true. split_and!; [reflexivity|reflexivity|done|done].
    + rewrite bool_decide_true by done. exists m, true. unfold change_info. cbn -[publish]. by rewrite Hr, Hm.
  - exists ∅, true. rewrite E', Hr. done.
Qed.

Lemma set_opcode_eq i cfg : g_hardware (set_opcode i cfg) !! i = settled <$> g_hardware cfg !! i.
Proof. apply list_lookup_alter_eq. Qed.
Lemma set_opcode_ne i i' cfg : i ≠ i' → g_hardware (set_opcode i cfg) !! i' = g_hardware cfg !! i'.
Proof. apply list_lookup_alter_ne. Qed.
Lemma set_info_eq j m db : ifrows (set_neighbor_info j m db) !! j = (λ r, r<|lldp_neighbor_info := m|>) <$> ifrows db !! j.
Proof. apply list_lookup_alter_eq. Qed.
Lemma set_info_ne j j' m db : j ≠ j' → ifrows (set_neighbor_info j m db) !! j' = ifrows db !! j'.
Proof. apply list_lookup_alter_ne. Qed.

(** What the loop makes of the interfaces of [itfs]. *)
Record synced (itfs : list interface_data) cfg db cfg' db' : Prop := {
  sy_heap : g_heap cfg' = g_heap cfg;
  sy_rows itf i j : itf ∈ itfs → i_hw itf = Some i → i_ifrow itf = Some j →
    ∃ hw row m, g_hardware cfg !! i = Some hw ∧ ifrows db !! j = Some row ∧ shown (g_heap cfg) hw = inr m ∧
      g_hardware cfg' !! i = Some (settled hw) ∧ ifrows db' !! j = Some (row<|lldp_neighbor_info := m|>);
  sy_hw i : i ∉ omap i_hw itfs → g_hardware cfg' !! i = g_hardware cfg !! i;
  sy_row j : j ∉ omap i_ifrow itfs → ifrows db' !! j = ifrows db !! j
}.
Lemma omap_cons {A B} (f : A → option B) x l : omap f (x :: l) = match f x with Some y => [y] | None => [] end ++ omap f l.
Proof. cbn. by destruct (f x). Qed.
Lemma elem_of_omap_hw itf (itfs : list interface_data) i : itf ∈ itfs → i_hw itf = Some i → i ∈ omap i_hw itfs.
Proof. intros. apply list_elem_of_omap. by exists itf. Qed.
Lemma elem_of_omap_row itf (itfs : list interface_data) j : itf ∈ itfs → i_ifrow itf = Some j → j ∈ omap i_ifrow itfs.
Proof. intros. apply list_elem_of_omap. by exists itf. Qed.

(** One interface of the loop, tied or not. *)
Lemma nbr_step_other cfg db c itf : i_hw itf = None ∨ i_ifrow itf = None → nbr_step (cfg, db, c) itf = inr (cfg, db, c).
Proof. unfold nbr_step. by intros [-> | ->]; [|destruct (i_hw itf)]. Qed.

Lemma NoDup_omap_cons {A B} (f : A → option B) x l :
  NoDup (omap f (x :: l)) → NoDup (omap f l) ∧ (∀ y, f x = Some y → y ∉ omap f l).
Proof.
  rewrite omap_cons. destruct (f x) as [y|]; cbn [app].
  - intros Hnd. apply list.NoDup_cons in Hnd as [Hy Hl]. split; [done|]. by intros ? [= <-].
  - done.
Qed.
Lemma not_elem_omap_cons {A B} (f : A → option B) x l y : y ∉ omap f (x :: l) → f x ≠ Some y ∧ y ∉ omap f l.
Proof. rewrite omap_cons, elem_of_app. intros Hy. split; [|tauto]. intros E. apply Hy. left. rewrite E. by constructor. Qed.

Lemma tail_linked itf itfs cfg db : linked (itf :: itfs) cfg db → linked itfs cfg db.
Proof.
  intros [H1' H2 H3]. apply NoDup_omap_cons in H1' as [? _], H2 as [? _]. split; [done|done|].
  intros x i j Hx. apply H3. by right.
Qed.
(** Changes elsewhere do not matter to the interfaces of [itfs]. *)
Lemma linked_frame itfs cfg db cfg' db' :
  (∀ i, i ∈ omap i_hw itfs → g_hardware cfg' !! i = g_hardware cfg !! i) →
  (∀ j, j ∈ omap i_ifrow itfs → ifrows db' !! j = ifrows db !! j) → g_heap cfg' = g_heap cfg →
  linked itfs cfg db → all_described itfs cfg db → linked itfs cfg' db' ∧ all_described itfs cfg' db'.
Proof.
  intros Hi Hj Hh [H1' H2 H3] Hd. split; [split; [done|done|]|].
  - intros x i j Hx Ei Ej. rewrite Hi, Hj by eauto using elem_of_omap_hw, elem_of_omap_row. by eapply H3.
  - intros x i j hw row Hx Ei Ej Hhw Hrow. rewrite Hi in Hhw by eauto using elem_of_omap_hw.
    rewrite Hj in Hrow by eauto using elem_of_omap_row. rewrite Hh. by eapply Hd.
Qed.

Definition pending (itfs : list interface_data) cfg : Prop := ∃ itf i j hw,
  itf ∈ itfs ∧ i_hw itf = Some i ∧ i_ifrow itf = Some j ∧ g_hardware cfg !! i = Some hw ∧ h_rport_change_opcode hw ≠ LLDPD_AF_NBR_NOOP.
Lemma pending_cons itf itfs cfg :
  pending (itf :: itfs) cfg →
  (∃ i j hw, i_hw itf = Some i ∧ i_ifrow itf = Some j ∧ g_hardware cfg !! i = Some hw ∧ h_rport_change_opcode hw ≠ LLDPD_AF_NBR_NOOP) ∨
  pending itfs cfg.
Proof.
  intros (x & i & j & hw & Hx & Hrest). apply elem_of_cons in Hx as [-> |Hx]; [left; by exists i, j, hw|].
  right. by exists x, i, j, hw.
Qed.
Lemma pending_frame itfs cfg cfg' :
  (∀ i, i ∈ omap i_hw itfs → g_hardware cfg' !! i = g_hardware cfg !! i) → pending itfs cfg → pending itfs cfg'.
Proof.
  intros Hi (x & i & j & hw & Hx & Ei & Ej & Hhw & Hne). exists x, i, j, hw.
  rewrite Hi by eauto using elem_of_omap_hw. done.
Qed.

Lemma synced_skip itf itfs cfg db cfg' db' :
  i_hw itf = None ∨ i_ifrow itf = None → synced itfs cfg db cfg' db' → synced (itf :: itfs) cfg db cfg' db'.
Proof.
  intros Hnone [S1 S2 S3 S4]. split; [done| | |].
  - intros x i j Hx Ei Ej. apply elem_of_cons in Hx as [-> |Hx]; [destruct Hnone; congruence|by apply S2 with x].
  - intros i [_ Hi]%not_elem_omap_cons. by apply S3.
  - intros j [_ Hj]%not_elem_omap_cons. by apply S4.
Qed.
Lemma synced_step itf itfs cfg db cfg' db' i j hw row m :
  linked (itf :: itfs) cfg db → i_hw itf = Some i → i_ifrow itf = Some j →
  g_hardware cfg !! i = Some hw → ifrows db !! j = Some row → shown (g_heap cfg) hw = inr m →
  synced itfs (set_opcode i cfg) (set_neighbor_info j m db) cfg' db' → synced (itf :: itfs) cfg db cfg' db'.
Proof.
  intros [Hn1 Hn2 _] Ei Ej Hhw Hrow Hs [S1 S2 S3 S4].
  apply NoDup_omap_cons in Hn1 as [_ Hi], Hn2 as [_ Hj]. specialize (Hi _ Ei). specialize (Hj _ Ej).
  split; [done| | |].
  - intros x i' j' Hx Ei' Ej'. apply elem_of_cons in Hx as [-> |Hx].
    + assert (i' = i) as -> by congruence. assert (j' = j) as -> by congruence. exists hw, row, m.
      rewrite S3, S4, set_opcode_eq, set_info_eq, Hhw, Hrow by done. done.
    + destruct (S2 x i' j' Hx Ei' Ej') as (hw' & row' & m' & H1' & H2 & H3 & H4 & H5). exists hw', row', m'.
      assert (i ≠ i') by (intros ->; apply Hi; eauto using elem_of_omap_hw).
      assert (j ≠ j') by (intros ->; apply Hj; eauto using elem_of_omap_row).
      rewrite set_opcode_ne in H1' by done. rewrite set_info_ne in H2 by done. done.
  - intros i' [Hne Hi']%not_elem_omap_cons. rewrite S3 by done. apply set_opcode_ne. congruence.
  - intros j' [Hne Hj']%not_elem_omap_cons. rewrite S4 by done. apply set_info_ne. congruence.
Qed.

Lemma nbr_loop_effect itfs cfg db c :
  linked itfs cfg db → all_described itfs cfg db →
  ∃ cfg' db' c', nbr_loop itfs (cfg, db, c) = inr (cfg', db', c') ∧ synced itfs cfg db cfg' db' ∧
    (c' = false → c = false ∧ db' = db ∧ cfg' = cfg) ∧ (pending itfs cfg ∨ c = true → c' = true).
Proof.
  revert cfg db c. induction itfs as [|itf itfs IH]; intros cfg db c Hl Hd; cbn [nbr_loop].
  { exists cfg, db, c. split_and!; [done|split; [done|by intros ? ? ? ?%elem_of_nil|done|done]|done|].
    intros [(x & ? & ? & ? & Hx & _)|]; [by apply elem_of_nil in Hx|done]. }
  pose proof (tail_linked _ _ _ _ Hl) as Ht.
  assert (all_described itfs cfg db) as Hdt by (intros x i j hw row Hx; apply Hd; by right).
  destruct (i_hw itf) as [i|] eqn:Ei; [destruct (i_ifrow itf) as [j|] eqn:Ej|].
  2,3: rewrite nbr_step_other by auto; destruct (IH cfg db c Ht Hdt) as (cfg' & db' & c' & -> & Hs & Hc & Hp);
    exists cfg', db', c'; split_and!; [done|apply synced_skip; auto|done|];
    intros [[(i' & j' & hw & ? & ? & _)|Hpe]%pending_cons|]; [congruence|auto|auto].
  destruct (lk_names _ _ _ Hl itf i j ltac:(by left) Ei Ej) as (hw & row & Hhw & Hrow & Hname).
  destruct (Hd itf i j hw row ltac:(by left) Ei Ej Hhw Hrow) as [Hp Hdesc].
  destruct (nbr_step_effect cfg db c itf i j hw row Ei Ej Hhw Hrow Hname Hp Hdesc) as (m & c1 & -> & Hs & Hnoop & Hop).
  pose proof Hl as [Hn1 Hn2 _]. apply NoDup_omap_cons in Hn1 as [_ Hni], Hn2 as [_ Hnj]. specialize (Hni _ Ei). specialize (Hnj _ Ej).
  assert (∀ i', i' ∈ omap i_hw itfs → g_hardware (set_opcode i cfg) !! i' = g_hardware cfg !! i') as Hfi.
  { intros i' Hi'. apply set_opcode_ne. by intros ->. }
  destruct (linked_frame itfs cfg db (set_opcode i cfg) (set_neighbor_info j m db)) as [Hl' Hd']; [done| |done|done|done|].
  { intros j' Hj'. apply set_info_ne. by intros ->. }
  destruct (IH _ _ c1 Hl' Hd') as (cfg' & db' & c' & -> & Hsy & Hc & Hpe). exists cfg', db', c'. split_and!; [done| | |].
  - by eapply synced_step.
  - intros ->. destruct (Hc eq_refl) as (-> & -> & ->).
    destruct (decide (h_rport_change_opcode hw = LLDPD_AF_NBR_NOOP)) as [E|E]; [|by specialize (Hop E)].
    destruct (Hnoop E) as [<- ->]. by rewrite (set_info_same _ _ _ Hrow), (set_opcode_same _ _ _ Hhw E).
  - intros [[(i' & j' & hw' & Ei' & Ej' & Hhw' & Hne)|Hpend]%pending_cons|Hc1].
    + apply Hpe. right. apply Hop. congruence.
    + apply Hpe. left. by apply (pending_frame itfs cfg).
    + apply Hpe. right. destruct (decide (h_rport_change_opcode hw = LLDPD_AF_NBR_NOOP)) as [E|E]; [|auto].
      by destruct (Hnoop E) as [-> _].
Qed.

(** ** Proofs: requests to clear *)

Context (ovsdb : ENABLE_OVSDB = true).

(** What stays of a hardware port that loses its neighbors. *)
Definition emptied hw hw' : Prop :=
  h_rports hw' = [] ∧ h_ifname hw' = h_ifname hw ∧
  h_rport_change_opcode hw' = match h_rports hw with [] => h_rport_change_opcode hw | _ => LLDPD_AF_NBR_DEL end.
Definition same_neighbors (f : lldpd_hardware → lldpd_hardware) : Prop := ∀ hw,
  h_rports (f hw) = h_rports hw ∧ h_ifname (f hw) = h_ifname hw ∧ h_rport_change_opcode (f hw) = h_rport_change_opcode hw.

Lemma remote_cleanup_loop_all l h hw :
  let '(h', hw', ev, kept) := remote_cleanup_loop false true 0 l h hw in
  kept = [] ∧ h_ifname hw' = h_ifname hw ∧
  h_rport_change_opcode hw' = match l with [] => h_rport_change_opcode hw | _ => LLDPD_AF_NBR_DEL end.
Proof.
  revert h hw. induction l as [|p l IH]; intros h hw; cbn [remote_cleanup_loop]; [done|].
  unfold remote_cleanup_port at 1. cbn [negb andb orb]. rewrite ovsdb.
  set (hw1 := hw<|h_delete_cnt ::= incr64|><|h_rport_change_opcode := LLDPD_AF_NBR_DEL|>).
  specialize (IH (lldpd_port_cleanup h p) hw1). destruct (remote_cleanup_loop _ _ _ _ _ _) as [[[h' hw'] ev] kept].
  destruct IH as (-> & -> & ->). split_and!; [done|done|]. by destruct l.
Qed.
Lemma clear_remotes_effect before after hws h :
  same_neighbors before → same_neighbors after → Forall2 emptied hws (clear_remotes before after hws h).2.
Proof.
  intros Hb Ha. revert h. induction hws as [|hw hws IH]; intros h; cbn [clear_remotes]; [constructor|].
  unfold lldpd_remote_cleanup. pose proof (remote_cleanup_loop_all (h_rports (before hw)) h (before hw)) as Hl.
  destruct (remote_cleanup_loop _ _ _ _ _ _) as [[[h' hw'] ev] kept]. destruct Hl as (-> & Hn & Ho).
  specialize (IH h'). destruct (clear_remotes before after hws h') as [h2 hws2]. cbn [snd] in *. constructor; [|done].
  destruct (Hb hw) as (B1 & B2 & B3), (Ha (hw'<|h_rports := []|>)) as (A1 & A2 & A3).
  rewrite B1, B3 in Ho. unfold emptied. rewrite A1, A2, A3. split_and!; [done|cbn; congruence|exact Ho].
Qed.
Lemma clear_daemon_effect before after cfg :
  same_neighbors before → same_neighbors after → Forall2 emptied (g_hardware cfg) (g_hardware (clear_daemon before after cfg)).
Proof.
  intros Hb Ha. unfold clear_daemon. pose proof (clear_remotes_effect before after (g_hardware cfg) (g_heap cfg) Hb Ha) as Hf.
  by destruct (clear_remotes _ _ _ _) as [h hws].
Qed.

Lemma emptied_described h h' hw hw' info :
  emptied hw hw' → described h hw info → publishable h' hw' ∧ described h' hw' ∅.
Proof.
  intros (Hr & _ & Ho) Hd. split; [by intros p l Hp; rewrite Hr in Hp|].
  destruct (h_rports hw) as [|p l] eqn:E; [|right; right; right; done].
  destruct Hd as [[E' _]|[[_ Hne]|[[_ (p & l & Hr' & _)]|[E' _]]]]; [|congruence|congruence|].
  - left. split; [congruence|]. unfold shown. by rewrite Hr.
  - right; right; right. split; [congruence|done].
Qed.

(** Whatever is cleared, the changes stay described. *)
Record ready (itfs : list interface_data) cfg db : Prop := {
  rd_linked : linked itfs cfg db;
  rd_described : all_described itfs cfg db
}.
Lemma cleared_ready before after itfs cfg db st :
  same_neighbors before → same_neighbors after → ready itfs cfg db →
  ready itfs (clear_daemon before after cfg) ((clear_infos db)<|status := st|>).
Proof.
  intros Hb Ha [[H1' H2 H3] Hd]. pose proof (clear_daemon_effect before after cfg Hb Ha) as Hf.
  assert (∀ j, ifrows ((clear_infos db)<|status := st|>) !! j = (λ r, r<|lldp_neighbor_info := ∅|>) <$> ifrows db !! j) as Hrows.
  { intros j. apply list_lookup_fmap. }
  split; [split; [done|done|]|].
  - intros itf i j Hitf Ei Ej. destruct (H3 itf i j Hitf Ei Ej) as (hw & row & Hhw & Hrow & Hn).
    destruct (Forall2_lookup_l _ _ _ _ _ Hf Hhw) as (hw' & Hhw' & (_ & Hname & _)).
    exists hw', (row<|lldp_neighbor_info := ∅|>). rewrite Hrows, Hrow. split_and!; [done|done|cbn; congruence].
  - intros itf i j hw' row' Hitf Ei Ej Hhw' Hrow'. destruct (H3 itf i j Hitf Ei Ej) as (hw & row & Hhw & Hrow & _).
    destruct (Forall2_lookup_l _ _ _ _ _ Hf Hhw) as (hw'' & E & Hem). assert (hw'' = hw') as -> by congruence.
    rewrite Hrows, Hrow in Hrow'. injection Hrow' as <-. destruct (Hd itf i j hw row Hitf Ei Ej Hhw Hrow) as [_ Hdesc].
    by apply (emptied_described (g_heap cfg) _ hw hw' (lldp_neighbor_info row)).
Qed.

Lemma id_same : same_neighbors id.
Proof. done. Qed.
Lemma reset_same : same_neighbors reset_counters.
Proof. done. Qed.
Lemma delete_same : same_neighbors (λ hw, hw<|h_delete_cnt := 0|>).
Proof. done. Qed.

(** A request is a number of at most nine digits. *)
Definition small_request (key : word) db : Prop := ∀ st, status db = Some st → zlen (print_int (smap_get_int st key 0)) < 10.

Lemma clear_table_ready itfs cfg db :
  ready itfs cfg db → small_request CLEAR_TABLE_REQUESTED db → small_request CLEAR_COUNTERS_REQUESTED db →
  ∃ cfg' db' c, lldpd_clear_nbr_table cfg db = inr (cfg', db', c) ∧ ready itfs cfg' db' ∧
    small_request CLEAR_COUNTERS_REQUESTED db' ∧ (c = false → cfg' = cfg ∧ db' = db).
Proof.
  intros Hr Hs Hs'. unfold lldpd_clear_nbr_table. destruct (status db) as [st|] eqn:Est; [|by exists cfg, db, false].
  cbv zeta. specialize (Hs st Est). unfold sprintf10. rewrite (proj2 (Z.ltb_ge _ _)) by lia.
  case_match; [|by exists cfg, db, false]. do 3 eexists. split_and!; [done|apply cleared_ready; auto using id_same| |done].
  intros st' [= <-]. unfold smap_get_int. rewrite lookup_insert_ne, lookup_singleton_ne by discriminate. done.
Qed.
Lemma clear_counters_ready itfs cfg db :
  ready itfs cfg db → small_request CLEAR_COUNTERS_REQUESTED db →
  ∃ cfg' db' c, lldpd_clear_counters cfg db = inr (cfg', db', c) ∧ ready itfs cfg' db' ∧ (c = false → cfg' = cfg ∧ db' = db).
Proof.
  intros Hr Hs. unfold lldpd_clear_counters. destruct (status db) as [st|] eqn:Est; [|by exists cfg, db, false].
  cbv zeta. specialize (Hs st Est). unfold sprintf10. rewrite (proj2 (Z.ltb_ge _ _)) by lia.
  case_match; [|by exists cfg, db, false]. do 3 eexists.
  split_and!; [done|apply cleared_ready; auto using reset_same, delete_same|done].
Qed.

(** A request is served once. *)
Theorem clear_once cfg db cfg' db' :
  (lldpd_clear_nbr_table cfg db = inr (cfg', db', true) → lldpd_clear_nbr_table cfg' db' = inr (cfg', db', false)) ∧
  (lldpd_clear_counters cfg db = inr (cfg', db', true) → lldpd_clear_counters cfg' db' = inr (cfg', db', false)).
Proof.
  assert (∀ (st : smap) k, smap_int (print_int (smap_get_int st k 0)) = smap_get_int st k 0) as Hint.
  { intros st k. apply smap_int_printed. unfold smap_get_int. destruct (st !! k); [apply smap_int_range|lia]. }
  unfold lldpd_clear_nbr_table, lldpd_clear_counters, sprintf10. split; intros Heq;
    (destruct (status db) as [st|] eqn:Est in Heq; [|discriminate]); cbv zeta in Heq;
    (destruct (10 <? _) eqn:El in Heq; [discriminate|]); (destruct (_ <? _) in Heq; [|discriminate]); injection Heq as <- <-;
    match goal with |- context [status ?d] => eassert (status d = Some _) as -> by reflexivity end; cbv beta iota zeta.
  - assert (∀ k, k = CLEAR_TABLE_REQUESTED ∨ k = CLEAR_TABLE_PERFORMED →
      smap_get_int {[CLEAR_TABLE_PERFORMED := print_int (smap_get_int st CLEAR_TABLE_REQUESTED 0);
                     CLEAR_TABLE_REQUESTED := print_int (smap_get_int st CLEAR_TABLE_REQUESTED 0)]} k 0 =
      smap_get_int st CLEAR_TABLE_REQUESTED 0) as Hk.
    { intros k [-> | ->]; unfold smap_get_int at 1; [rewrite lookup_insert_ne, lookup_singleton_eq by discriminate|rewrite lookup_insert_eq]; apply Hint. }
    rewrite !Hk, El, Z.ltb_irrefl by auto. reflexivity.
  - assert (∀ k, k = CLEAR_COUNTERS_REQUESTED ∨ k = CLEAR_COUNTERS_PERFORMED →
      smap_get_int (<[CLEAR_COUNTERS_PERFORMED := print_int (smap_get_int st CLEAR_COUNTERS_REQUESTED 0)]>
        (<[CLEAR_COUNTERS_REQUESTED := print_int (smap_get_int st CLEAR_COUNTERS_REQUESTED 0)]> st)) k 0 =
      smap_get_int st CLEAR_COUNTERS_REQUESTED 0) as Hk.
    { intros k [-> | ->]; unfold smap_get_int at 1; [rewrite lookup_insert_ne, lookup_insert_eq by discriminate|rewrite lookup_insert_eq]; apply Hint. }
    rewrite !Hk, El, Z.ltb_irrefl by auto. reflexivity.
Qed.

(** ** Proofs: the run *)

(** A row shows the first neighbor of the hardware port, or nothing when that is [old]. *)
Definition in_sync (old : smap → bool) (itfs : list interface_data) cfg db : Prop := ∀ itf i j,
  itf ∈ itfs → i_hw itf = Some i → i_ifrow itf = Some j →
  ∃ hw row m, g_hardware cfg !! i = Some hw ∧ ifrows db !! j = Some row ∧ r_name row = h_ifname hw ∧
    h_rport_change_opcode hw = LLDPD_AF_NBR_NOOP ∧ shown (g_heap cfg) hw = inr m ∧
    lldp_neighbor_info row = if old m then ∅ else m.

Lemma age_rows_same now db : (age_rows now db).2 = false → (age_rows now db).1 = db.
Proof.
  cbn [age_rows fst snd]. intros He. transitivity (db<|ifrows := ifrows db|>); [|by destruct db].
  unfold set. cbn. f_equal. induction (ifrows db) as [|r rows IH]; [done|]. cbn [existsb] in He.
  apply orb_false_iff in He as [E He]. cbn [map]. rewrite IH by done. unfold age_row. by rewrite E.
Qed.
Lemma aged_in_sync now itfs cfg db cfg' db' :
  linked itfs cfg db → synced itfs cfg db cfg' db' → in_sync (aged_out now) itfs cfg' (age_rows now db').1.
Proof.
  intros Hl [Hh Hs _ _] itf i j Hitf Ei Ej. destruct (Hs itf i j Hitf Ei Ej) as (hw & row & m & Hhw & Hrow & Hm & Hhw' & Hrow').
  destruct (lk_names _ _ _ Hl itf i j Hitf Ei Ej) as (hw2 & row2 & E1 & E2 & Hn).
  assert (hw2 = hw) as -> by congruence. assert (row2 = row) as -> by congruence.
  exists (settled hw), (age_row now (row<|lldp_neighbor_info := m|>)), m. rewrite Hh.
  split_and!; [done| | |done|exact Hm|].
  - cbn [age_rows fst]. change (ifrows _) with (age_row now <$> ifrows db'). by rewrite list_lookup_fmap, Hrow'.
  - unfold age_row. cbn. destruct (aged_out now m); exact Hn.
  - unfold age_row. cbn. by destruct (aged_out now m).
Qed.

(** What every run keeps of the daemon: neighbors only go, and all of them at once. *)
Definition kept_hw cfg cfg' hw hw' : Prop :=
  h_ifname hw' = h_ifname hw ∧ (h_rports hw' = [] ∨ h_rports hw' = h_rports hw ∧ g_heap cfg' = g_heap cfg).
Definition kept cfg cfg' : Prop := Forall2 (kept_hw cfg cfg') (g_hardware cfg) (g_hardware cfg').
Lemma kept_refl cfg : kept cfg cfg.
Proof. apply Forall2_same_length_lookup. split; [done|]. intros i x y Hx Hy. assert (x = y) as -> by congruence. split; [done|by right]. Qed.
Lemma kept_trans cfg1 cfg2 cfg3 : kept cfg1 cfg2 → kept cfg2 cfg3 → kept cfg1 cfg3.
Proof.
  apply Forall2_trans. intros x y z [N1 R1] [N2 R2]. split; [congruence|].
  destruct R2 as [?|[-> ->]]; [by left|]. exact R1.
Qed.
Lemma kept_opcode i cfg : kept cfg (set_opcode i cfg).
Proof.
  apply (Forall2_alter_r (kept_hw cfg (set_opcode i cfg)) settled); [exact (kept_refl cfg)|]. intros x y _ _ Hxy. exact Hxy.
Qed.
Lemma kept_cleared before after cfg : same_neighbors before → same_neighbors after → kept cfg (clear_daemon before after cfg).
Proof.
  intros Hb Ha. eapply list.Forall2_impl; [exact (clear_daemon_effect before after cfg Hb Ha)|]. intros x y (Hr & Hn & _). split; [done|by left].
Qed.
Lemma kept_step cfg db c itf cfg' db' c' : nbr_step (cfg, db, c) itf = inr (cfg', db', c') → kept cfg cfg'.
Proof.
  unfold nbr_step. repeat case_match; try discriminate; intros [= <- <- <-]; by (apply kept_opcode || apply kept_refl).
Qed.
Lemma kept_loop itfs cfg db c cfg' db' c' : nbr_loop itfs (cfg, db, c) = inr (cfg', db', c') → kept cfg cfg'.
Proof.
  revert cfg db c. induction itfs as [|itf itfs IH]; intros cfg db c; cbn [nbr_loop]; [intros [= <- <- <-]; apply kept_refl|].
  destruct (nbr_step _ _) as [|[[cfg1 db1] c1]] eqn:E; [done|]. intros Hl%IH. eapply kept_trans; [by eapply kept_step|done].
Qed.
Lemma kept_run now itfs cfg db cfg' db' c : lldpd_ovsdb_nbrs_run now itfs cfg db = inr (cfg', db', c) → kept cfg cfg'.
Proof.
  unfold lldpd_ovsdb_nbrs_run. destruct (lldpd_clear_nbr_table cfg db) as [|[[cfg1 db1] c1]] eqn:E1; [done|].
  destruct (lldpd_clear_counters cfg1 db1) as [|[[cfg2 db2] c2]] eqn:E2; [done|].
  destruct (nbr_loop _ _) as [|[[cfg3 db3] c3]] eqn:E3; [done|]. intros [= <- _ _].
  apply kept_trans with cfg1; [|apply kept_trans with cfg2; [|by eapply kept_loop]].
  - unfold lldpd_clear_nbr_table in E1. repeat case_match; simplify_eq; auto using kept_refl, kept_cleared, id_same.
  - unfold lldpd_clear_counters in E2. repeat case_match; simplify_eq; auto using kept_refl, kept_cleared, reset_same, delete_same.
Qed.

Lemma nbrs_run_effect now itfs cfg db :
  ready itfs cfg db → small_request CLEAR_TABLE_REQUESTED db → small_request CLEAR_COUNTERS_REQUESTED db →
  ∃ cfg' db' c, lldpd_ovsdb_nbrs_run now itfs cfg db = inr (cfg', db', c) ∧ in_sync (aged_out now) itfs cfg' db' ∧
    (c = false → cfg' = cfg ∧ db' = db) ∧ (pending itfs cfg → c = true).
Proof.
  intros Hr Hs1 Hs2. unfold lldpd_ovsdb_nbrs_run.
  destruct (clear_table_ready itfs cfg db Hr Hs1 Hs2) as (cfg1 & db1 & c1 & -> & Hr1 & Hs3 & Hc1).
  destruct (clear_counters_ready itfs cfg1 db1 Hr1 Hs3) as (cfg2 & db2 & c2 & -> & [Hl2 Hd2] & Hc2).
  destruct (nbr_loop_effect itfs cfg2 db2 (c1 || c2) Hl2 Hd2) as (cfg3 & db3 & c3 & -> & Hsy & Hc3 & Hp3).
  rewrite (surjective_pairing (age_rows now db3)). do 3 eexists. split; [done|]. split; [by eapply aged_in_sync|]. split.
  - intros [-> H4]%orb_false_iff. rewrite (age_rows_same _ _ H4). destruct (Hc3 eq_refl) as ([-> ->]%orb_false_iff & -> & ->).
    destruct (Hc2 eq_refl) as [-> ->]. by destruct (Hc1 eq_refl) as [-> ->].
  - intros Hp. rewrite Hp3; [done|]. destruct c1, c2; auto. left.
    destruct (Hc2 eq_refl) as [-> ->]. by destruct (Hc1 eq_refl) as [-> ->].
Qed.

(** *** Everything again *)

Lemma change_rows_map name m rows :
  change_rows name (inr m) rows = inr (map (λ r, if bool_decide (r_name r = name) then r<|lldp_neighbor_info := m|> else r) rows).
Proof. induction rows as [|r rows IH]; [done|]. cbn [change_rows map]. rewrite IH. by destruct (bool_decide _). Qed.

Definition all_publishable cfg : Prop :=
  NoDup (h_ifname <$> g_hardware cfg) ∧ ∀ hw, hw ∈ g_hardware cfg → publishable (g_heap cfg) hw.
Lemma publishable_shown h hw : publishable h hw → ∃ m, shown h hw = inr m.
Proof. intros Hp. unfold shown. destruct (h_rports hw) as [|p l] eqn:E; [by exists ∅|]. by destruct (Hp p l E). Qed.

Lemma change_all_effect h hws rows :
  NoDup (h_ifname <$> hws) → (∀ hw, hw ∈ hws → publishable h hw) →
  ∃ hws' rows', change_all h hws rows = inr (hws', rows') ∧
    Forall2 (λ hw hw', h_ifname hw' = h_ifname hw ∧ h_rports hw' = h_rports hw ∧
      ((∃ row, row ∈ rows ∧ r_name row = h_ifname hw) → h_rport_change_opcode hw' = LLDPD_AF_NBR_NOOP)) hws hws' ∧
    (∀ j row, rows !! j = Some row → ∃ row', rows' !! j = Some row' ∧ r_name row' = r_name row ∧
       (∀ hw, hw ∈ hws → h_ifname hw = r_name row → shown h hw = inr (lldp_neighbor_info row')) ∧
       (r_name row ∉ h_ifname <$> hws → row' = row)).
Proof.
  revert rows. induction hws as [|hw hws IH]; intros rows Hnd Hp; cbn [change_all].
  { exists [], rows. split_and!; [done|constructor|]. intros j row Hj. exists row. split_and!; [done|done|by intros ? ?%elem_of_nil|done]. }
  rewrite fmap_cons in Hnd. apply list.NoDup_cons in Hnd as [Hnew Hnd].
  destruct (publishable_shown h hw (Hp hw ltac:(by left))) as [m Hm]. rewrite Hm, change_rows_map.
  set (upd := λ r, if bool_decide (r_name r = h_ifname hw) then r<|lldp_neighbor_info := m|> else r).
  assert (∀ r, r_name (upd r) = r_name r) as Hupd by (intros r; unfold upd; by case_match).
  destruct (IH (map upd rows) Hnd ltac:(intros; apply Hp; by right)) as (hws' & rows' & -> & Hh & Hr).
  do 2 eexists. split_and!; [done| |].
  - constructor.
    + destruct (existsb (λ r, bool_decide (r_name r = h_ifname hw)) rows) eqn:Ee; [done|].
      split_and!; [done|done|]. intros (row & Hrow & Hn). exfalso. apply not_true_iff_false in Ee. apply Ee. apply existsb_exists.
      exists row. split; [by apply list_elem_of_In|by apply bool_decide_eq_true].
    + eapply list.Forall2_impl; [exact Hh|]. intros x y (E1 & E2 & E3). split_and!; [done..|].
      intros (row & Hrow & Hn). apply E3. exists (upd row). rewrite Hupd. split; [|done].
      apply list_elem_of_fmap. by exists row.
  - intros j row Hj. destruct (Hr j (upd row)) as (row' & E1 & E2 & E3 & E4).
    { change (map upd rows) with (upd <$> rows). by rewrite list_lookup_fmap, Hj. }
    rewrite Hupd in *. exists row'. split_and!; [done|done| |].
    + intros hw0 Hhw0 Hn. apply elem_of_cons in Hhw0 as [-> |Hhw0]; [|by apply E3].
      rewrite E4 by (by rewrite <- Hn). rewrite Hm. unfold upd. by rewrite bool_decide_true.
    + rewrite fmap_cons. intros Hnot. rewrite E4 by (intros ?; apply Hnot; by right).
      unfold upd. rewrite bool_decide_false; [done|]. intros E. apply Hnot. rewrite E. by left.
Qed.

(** The rows and the hardware that [kept] relates are still tied. *)
Lemma kept_linked itfs cfg cfg' db : kept cfg cfg' → linked itfs cfg db → linked itfs cfg' db.
Proof.
  intros Hk [H1' H2 H3]. split; [done|done|]. intros itf i j Hitf Ei Ej.
  destruct (H3 itf i j Hitf Ei Ej) as (hw & row & Hhw & Hrow & Hn).
  destruct (Forall2_lookup_l _ _ _ _ _ Hk Hhw) as (hw' & Hhw' & Hname & _). exists hw', row. split_and!; [done|done|congruence].
Qed.
Lemma kept_publishable cfg cfg' : kept cfg cfg' → all_publishable cfg → all_publishable cfg'.
Proof.
  intros Hk [Hnd Hp]. split.
  - replace (h_ifname <$> g_hardware cfg') with (h_ifname <$> g_hardware cfg); [done|].
    clear Hnd Hp. unfold kept in Hk. induction Hk as [|x y l k [Hxy _] Hk IH]; [done|]. rewrite !fmap_cons. congruence.
  - intros hw' Hhw'. apply list_elem_of_lookup in Hhw' as [i Hi].
    destruct (Forall2_lookup_r _ _ _ _ _ Hk Hi) as (hw & Hhw & _ & [Hr|[Hr Hh]]); intros p l Hpl; [congruence|].
    rewrite Hh. apply (Hp hw (list_elem_of_lookup_2 _ _ _ Hhw) p l). congruence.
Qed.

Lemma change_all_in_sync itfs cfg db :
  linked itfs cfg db → all_publishable cfg →
  ∃ cfg' db', lldpd_ovsdb_nbrs_change_all cfg db = inr (cfg', db') ∧ in_sync (λ _, false) itfs cfg' db' ∧ kept cfg cfg'.
Proof.
  intros Hl [Hnd Hp]. destruct (change_all_effect (g_heap cfg) (g_hardware cfg) (ifrows db) Hnd Hp) as (hws' & rows' & Heq & Hh & Hr).
  unfold lldpd_ovsdb_nbrs_change_all. rewrite Heq. do 2 eexists. split_and!; [done| |].
  - intros itf i j Hitf Ei Ej. destruct (lk_names _ _ _ Hl itf i j Hitf Ei Ej) as (hw & row & Hhw & Hrow & Hn).
    destruct (Forall2_lookup_l _ _ _ _ _ Hh Hhw) as (hw' & Hhw' & Hname & Hrp & Hop).
    destruct (Hr j row Hrow) as (row' & Hrow' & Hn' & Hs & _). exists hw', row', (lldp_neighbor_info row').
    split_and!; [done|done|congruence| | |done].
    + apply Hop. exists row. split; [by eapply list_elem_of_lookup_2|done].
    + change (shown (g_heap cfg) hw' = inr (lldp_neighbor_info row')).
      rewrite <- (Hs hw); [|by eapply list_elem_of_lookup_2|done]. unfold shown. by rewrite Hrp.
  - eapply list.Forall2_impl; [exact Hh|]. intros x y (E1 & E2 & _). split; [done|right; done].
Qed.

(** ** Changes are confirmed *)

(** Several runs, each at its time and with the answer of the database. *)
Fixpoint confirm_runs (itfs : list interface_data) (steps : list (Z * ovsdb_idl_txn_status)) (w : confirm) : OvsNbr.fault + confirm :=
  match steps with
  | [] => inr w
  | (now, answer) :: steps => match confirm_run now itfs answer w with inl e => inl e | inr w => confirm_runs itfs steps w end
  end.
Definition undecided (a : ovsdb_idl_txn_status) : Prop := a = TXN_INCOMPLETE ∨ a = TXN_TRY_AGAIN.

(** Between two runs: either a transaction waits, with the right content, or all is to be
    written again. *)
Definition waiting (old : smap → bool) itfs (w : confirm) : Prop :=
  linked itfs (w_cfg w) (w_db w) ∧ all_publishable (w_cfg w) ∧
  ((∃ db, confirm_txn w = Some db ∧ (in_sync old itfs (w_cfg w) db ∨ in_sync (λ _, false) itfs (w_cfg w) db)) ∨
   confirm_txn w = None ∧ confirm_txn_try_again w = true).
Definition confirmed (old : smap → bool) itfs (w : confirm) : Prop :=
  confirm_txn w = None ∧ confirm_txn_try_again w = false ∧
  (in_sync old itfs (w_cfg w) (w_db w) ∨ in_sync (λ _, false) itfs (w_cfg w) (w_db w)).

(** A transaction under way meets its answer. *)
Lemma commit_waiting old itfs w db answer :
  linked itfs (w_cfg w) (w_db w) → all_publishable (w_cfg w) → confirm_txn w = Some db →
  in_sync old itfs (w_cfg w) db ∨ in_sync (λ _, false) itfs (w_cfg w) db →
  (undecided answer → waiting old itfs (commit_txn answer w)) ∧ (answer = TXN_SUCCESS → confirmed old itfs (commit_txn answer w)).
Proof.
  intros Hl Hp Hdb Hs. unfold commit_txn. rewrite Hdb. split.
  - intros [-> | ->]; (split; [done|]; split; [done|]); [left; by exists db|by right].
  - intros ->. done.
Qed.
Lemma run_waiting old now itfs w answer :
  waiting old itfs w →
  ∃ w', confirm_run now itfs answer w = inr w' ∧
    (undecided answer → waiting old itfs w') ∧ (answer = TXN_SUCCESS → confirmed old itfs w').
Proof.
  intros (Hl & Hp & [(db & Hdb & Hs)|[Hn Ht]]); unfold confirm_run, start_txn.
  - rewrite Hdb. eexists. split; [done|]. by eapply commit_waiting.
  - rewrite Hn, Ht. destruct (change_all_in_sync itfs (w_cfg w) (w_db w) Hl Hp) as (cfg' & db' & -> & Hs & Hk).
    eexists. split; [done|]. eapply (commit_waiting old itfs (Confirm cfg' (w_db w) (Some db') true) db'); [..|done|by right].
    + by apply (kept_linked itfs (w_cfg w)).
    + by apply (kept_publishable (w_cfg w)).
Qed.
Lemma runs_waiting old itfs w steps t :
  waiting old itfs w → Forall (λ s, undecided s.2) steps →
  ∃ w', confirm_runs itfs (steps ++ [(t, TXN_SUCCESS)]) w = inr w' ∧ confirmed old itfs w'.
Proof.
  intros Hw Hs. revert w Hw. induction Hs as [|[now a] steps Ha Hs IH]; intros w Hw; cbn [app confirm_runs].
  - destruct (run_waiting old t itfs w TXN_SUCCESS Hw) as (w' & -> & _ & Hc). exists w'. auto.
  - destruct (run_waiting old now itfs w a Hw) as (w' & -> & Hu & _). apply IH. by apply Hu.
Qed.

(** C38: a change of neighbors whose code describes it reaches the database: whatever number of times
    the transaction is still incomplete or has to be tried again, once it is accepted every row that
    is tied to a hardware port shows the first neighbor of that port (or nothing when that is too
    old), no change is pending, and nothing has to be written again.

    The code of a change describes it ([all_described]) when it is none and the row shows the first
    neighbor already, add or modify and there is a neighbor, update and the row differs from the first
    neighbor at most by the time, delete and no neighbor is left; a deletion that leaves another
    neighbor is not described, and empties the row.  The first neighbor of each port can be published
    and its time has less than ten hexadecimal digits ([publishable]), the numbers of the requests to
    clear have less than ten characters ([small_request]), and the map of interfaces ties distinct
    ports to distinct rows of the same name ([linked]). *)
Theorem neighbors_confirmed itfs cfg db now a steps t :
  linked itfs cfg db → all_described itfs cfg db → all_publishable cfg →
  small_request CLEAR_TABLE_REQUESTED db → small_request CLEAR_COUNTERS_REQUESTED db → pending itfs cfg →
  undecided a ∧ Forall (λ s, undecided s.2) steps →
  (∃ w, confirm_runs itfs [(t, TXN_SUCCESS)] (Confirm cfg db None false) = inr w ∧ confirmed (aged_out t) itfs w) ∧
  (∃ w, confirm_runs itfs ((now, a) :: steps ++ [(t, TXN_SUCCESS)]) (Confirm cfg db None false) = inr w ∧
        confirmed (aged_out now) itfs w).
Proof.
  intros Hl Hd Hp Hs1 Hs2 Hpe [Ha Hs].
  assert (∀ t' answer, ∃ w, confirm_run t' itfs answer (Confirm cfg db None false) = inr w ∧
    (undecided answer → waiting (aged_out t') itfs w) ∧ (answer = TXN_SUCCESS → confirmed (aged_out t') itfs w)) as Hfirst.
  { intros t' answer. unfold confirm_run, start_txn. cbn [confirm_txn confirm_txn_try_again w_cfg w_db].
    destruct (nbrs_run_effect t' itfs cfg db (Build_ready _ _ _ Hl Hd) Hs1 Hs2) as (cfg' & db' & c & Hrun & Hsy & _ & Hc).
    rewrite Hrun, (Hc Hpe). eexists. split; [done|]. pose proof (kept_run _ _ _ _ _ _ _ Hrun) as Hk.
    eapply (commit_waiting (aged_out t') itfs (Confirm cfg' db (Some db') false) db'); [..|done|by left].
    - by apply (kept_linked itfs cfg).
    - by apply (kept_publishable cfg). }
  split.
  - destruct (Hfirst t TXN_SUCCESS) as (w & Hw & _ & Hc). exists w. cbn [confirm_runs]. rewrite Hw. auto.
  - destruct (Hfirst now a) as (w & Hw & Hu & _). cbn [confirm_runs]. rewrite Hw. apply runs_waiting; auto.
Qed.
End Sync.
