(* ===== verification/OvsStats.v ===== *)
(** * Database interface: counters in the database

    The counters of the hardware ports are written to the rows of the interfaces, their sums
    to the row of the system.  After a restart the counters go on from those of the row. *)

From stdpp Require Import gmap strings.
From S2P Require Import Prelude Bytes Text Const Structs Table OvsNbr OvsSync.
#[local] Open Scope Z_scope.

Definition u64 (v : Z) : Z := v mod 2 ^ 64.
(** A [u_int64_t] stored in an [int64_t]. *)
Definition s64 (v : Z) : Z := let v := u64 v in if v <? 2 ^ 63 then v else v - 2 ^ 64.

(** [ovsdb_datum_get_int64_value_given_string_key], with 0 when the key is missing; a missing
    column has no key. *)
Definition datum_value (datum : statistics) (k : stat_key) : Z :=
  match list_find (λ x, x.1 = k) datum with Some (_, (_, v)) => v | None => 0 end.

(** In the order of [lldp_interface_statistics_keys]. *)
Definition counters (hw : lldpd_hardware) : list Z :=
  [h_tx_cnt hw; h_rx_cnt hw; h_rx_discarded_cnt hw; h_rx_unrecognized_cnt hw; h_ageout_cnt hw; h_insert_cnt hw;
   h_delete_cnt hw; h_drop_cnt hw].
Definition sync_lldp_counters_from_db (datum : statistics) (hw : lldpd_hardware) : lldpd_hardware :=
  hw<|h_tx_cnt ::= λ c, u64 (c + datum_value datum INTERFACE_STATISTICS_LLDP_TX_COUNT)|>
    <|h_rx_cnt ::= λ c, u64 (c + datum_value datum INTERFACE_STATISTICS_LLDP_RX_COUNT)|>
    <|h_rx_discarded_cnt ::= λ c, u64 (c + datum_value datum INTERFACE_STATISTICS_LLDP_RX_DISCARDED_COUNT)|>
    <|h_rx_unrecognized_cnt ::= λ c, u64 (c + datum_value datum INTERFACE_STATISTICS_LLDP_RX_UNRECOGNIZED_COUNT)|>
    <|h_ageout_cnt ::= λ c, u64 (c + datum_value datum INTERFACE_STATISTICS_LLDP_AGEOUT_COUNT)|>
    <|h_insert_cnt ::= λ c, u64 (c + datum_value datum INTERFACE_STATISTICS_LLDP_INSERT_COUNT)|>
    <|h_delete_cnt ::= λ c, u64 (c + datum_value datum INTERFACE_STATISTICS_LLDP_DELETE_COUNT)|>
    <|h_drop_cnt ::= λ c, u64 (c + datum_value datum INTERFACE_STATISTICS_LLDP_DROP_COUNT)|>.

(** The state: hardware ports, rows, the map of interfaces, and the sums. *)
Record stats := Stats { s_hws : list lldpd_hardware; s_rows : list ovsrec_interface; s_totals : list Z }.

Definition report (hw : lldpd_hardware) : statistics := zip lldp_interface_statistics_keys (map s64 (counters hw)).
Definition lldp_process_one_interface_counters (itf : interface_data) (st : stats) : interface_data * stats :=
  match i_hw itf, i_ifrow itf with
  | Some i, Some j =>
      match s_hws st !! i, s_rows st !! j with
      | Some hw, Some row =>
          let hw := if synced_from_db itf then hw else sync_lldp_counters_from_db (lldp_statistics row) hw in
          (itf<|synced_from_db := true|>,
           Stats (<[i := hw]> (s_hws st)) (<[j := row<|lldp_statistics := report hw|>]> (s_rows st))
             (zip_with (λ t c, u64 (t + c)) (s_totals st) (counters hw)))
      | _, _ => (itf, st)
      end
  | _, _ => (itf, st)
  end.
Fixpoint interfaces_counters (itfs : list interface_data) (st : stats) : list interface_data * stats :=
  match itfs with
  | [] => ([], st)
  | itf :: itfs =>
      let '(itf, st) := lldp_process_one_interface_counters itf st in
      let '(itfs, st) := interfaces_counters itfs st in (itf :: itfs, st)
  end.
Definition lldp_process_all_interfaces_counters (itfs : list interface_data) hws rows : list interface_data * stats :=
  interfaces_counters itfs (Stats hws rows (replicate LLDPD_TOTAL_STATS_PER_INTERFACE 0)).

Inductive global_key :=
  | OVSDB_STATISTICS_LLDP_TABLE_INSERTS | OVSDB_STATISTICS_LLDP_TABLE_DELETES
  | OVSDB_STATISTICS_LLDP_TABLE_DROPS | OVSDB_STATISTICS_LLDP_TABLE_AGEOUTS.
Definition total (n : nat) (totals : list Z) : list Z := decimal (default 0 (totals !! n)).
Definition lldp_process_global_counters (totals : list Z) : list (global_key * list Z) :=
  [(OVSDB_STATISTICS_LLDP_TABLE_INSERTS, total 5 totals); (OVSDB_STATISTICS_LLDP_TABLE_DELETES, total 6 totals);
   (OVSDB_STATISTICS_LLDP_TABLE_DROPS, total 7 totals); (OVSDB_STATISTICS_LLDP_TABLE_AGEOUTS, total 4 totals)].

(** The schedule: [None] when it is not yet time, with the delay to wait for. *)
Definition lldpd_stats_run (interval last now : Z) : Z * option Z :=
  let left_ := Z.max 0 (interval - (now - last)) in
  if 0 <? left_ then (last, Some left_) else (now, None).

(** ** Proofs *)

(** The counters of a port once the row has been taken into account. *)
Definition resumed (itf : interface_data) (row : ovsrec_interface) (hw : lldpd_hardware) : lldpd_hardware :=
  if synced_from_db itf then hw else sync_lldp_counters_from_db (lldp_statistics row) hw.
Lemma resumed_counters itf row hw :
  counters (resumed itf row hw) =
  if synced_from_db itf then counters hw
  else zip_with (λ c k, u64 (c + datum_value (lldp_statistics row) k)) (counters hw) lldp_interface_statistics_keys.
Proof. unfold resumed. by destruct (synced_from_db itf). Qed.

Definition tied (hws : list lldpd_hardware) (rows : list ovsrec_interface) (itf : interface_data) : option (lldpd_hardware * ovsrec_interface) :=
  i ← i_hw itf; j ← i_ifrow itf; hw ← hws !! i; row ← rows !! j; Some (hw, row).
Definition sums (l : list (list Z)) (start : list Z) : list Z := foldl (λ t c, zip_with (λ t c, u64 (t + c)) t c) start l.

Section Report.
Variables (hws : list lldpd_hardware) (rows : list ovsrec_interface).
Implicit Types itfs : list interface_data.

Definition resumed_list itfs : list (list Z) :=
  omap (λ itf, (λ x, counters (resumed itf x.2 x.1)) <$> tied hws rows itf) itfs.

Lemma one_tied itf st i j hw row :
  i_hw itf = Some i → i_ifrow itf = Some j → s_hws st !! i = Some hw → s_rows st !! j = Some row →
  lldp_process_one_interface_counters itf st =
  (itf<|synced_from_db := true|>,
   Stats (<[i := resumed itf row hw]> (s_hws st)) (<[j := row<|lldp_statistics := report (resumed itf row hw)|>]> (s_rows st))
     (zip_with (λ t c, u64 (t + c)) (s_totals st) (counters (resumed itf row hw)))).
Proof. intros Hi Hj Hh Hr. unfold lldp_process_one_interface_counters. by rewrite Hi, Hj, Hh, Hr. Qed.
Lemma one_untied itf st :
  tied (s_hws st) (s_rows st) itf = None → lldp_process_one_interface_counters itf st = (itf, st).
Proof.
  unfold tied, lldp_process_one_interface_counters. destruct (i_hw itf) as [i|]; [|done]. destruct (i_ifrow itf) as [j|]; [|done].
  cbn. destruct (s_hws st !! i); [|done]. by destruct (s_rows st !! j).
Qed.
Lemma tied_inv h r itf hw row :
  tied h r itf = Some (hw, row) → ∃ i j, i_hw itf = Some i ∧ i_ifrow itf = Some j ∧ h !! i = Some hw ∧ r !! j = Some row.
Proof.
  unfold tied. destruct (i_hw itf) as [i|]; [|done]. destruct (i_ifrow itf) as [j|]; [|done]. cbn.
  destruct (h !! i) as [hw'|] eqn:Eh; [|done]. destruct (r !! j) as [row'|] eqn:Er; [|done]. intros [= -> ->]. by exists i, j.
Qed.
End Report.

(** What the loop makes of the ports and rows of [itfs]. *)
Record reported (itfs : list interface_data) (st st' : stats) : Prop := {
  rp_tied itf hw row i j : itf ∈ itfs → tied (s_hws st) (s_rows st) itf = Some (hw, row) → i_hw itf = Some i → i_ifrow itf = Some j →
    s_hws st' !! i = Some (resumed itf row hw) ∧ s_rows st' !! j = Some (row<|lldp_statistics := report (resumed itf row hw)|>);
  rp_hw i : i ∉ omap i_hw itfs → s_hws st' !! i = s_hws st !! i;
  rp_row j : j ∉ omap i_ifrow itfs → s_rows st' !! j = s_rows st !! j;
  rp_totals : s_totals st' = sums (resumed_list (s_hws st) (s_rows st) itfs) (s_totals st)
}.

(** Other ports and rows do not matter. *)
Lemma tied_frame (h h' : list lldpd_hardware) (r r' : list ovsrec_interface) (itfs : list interface_data) :
  (∀ i, i ∈ omap i_hw itfs → h' !! i = h !! i) → (∀ j, j ∈ omap i_ifrow itfs → r' !! j = r !! j) →
  ∀ itf, itf ∈ itfs → tied h' r' itf = tied h r itf.
Proof.
  intros Hi Hj itf Hitf. unfold tied. destruct (i_hw itf) as [i|] eqn:Ei; [|done]. destruct (i_ifrow itf) as [j|] eqn:Ej; [|done].
  cbn. by rewrite Hi, Hj by eauto using elem_of_omap_hw, elem_of_omap_row.
Qed.
Lemma resumed_list_frame (h h' : list lldpd_hardware) (r r' : list ovsrec_interface) (itfs : list interface_data) :
  (∀ itf, itf ∈ itfs → tied h' r' itf = tied h r itf) → resumed_list h' r' itfs = resumed_list h r itfs.
Proof.
  intros Hf. unfold resumed_list. induction itfs as [|itf itfs IH]; [done|]. rewrite !omap_cons, IH by (intros; apply Hf; by right).
  by rewrite Hf by by left.
Qed.

Lemma reported_loop itfs st :
  NoDup (omap i_hw itfs) → NoDup (omap i_ifrow itfs) → reported itfs st (interfaces_counters itfs st).2.
Proof.
  revert st. induction itfs as [|itf itfs IH]; intros st Hni Hnj; cbn [interfaces_counters].
  { split; [by intros ? ? ? ? ? ?%elem_of_nil|done..]. }
  apply NoDup_omap_cons in Hni as [Hni Hi], Hnj as [Hnj Hj].
  destruct (tied (s_hws st) (s_rows st) itf) as [[hw row]|] eqn:Et.
  - pose proof (tied_inv _ _ _ _ _ Et) as (i & j & Ei & Ej & Hhw & Hrow).
    rewrite (one_tied itf st i j hw row Ei Ej Hhw Hrow). set (st1 := Stats _ _ _). specialize (IH st1 Hni Hnj).
    destruct (interfaces_counters itfs st1) as [itfs' st']. cbn [snd] in *. destruct IH as [T1 T2 T3 T4].
    assert (∀ x, x ∈ itfs → tied (s_hws st1) (s_rows st1) x = tied (s_hws st) (s_rows st) x) as Hf.
    { apply tied_frame; intros k Hk; apply list_lookup_insert_ne; intros ->; [by apply (Hi k)|by apply (Hj k)]. }
    split.
    + intros x hw' row' i' j' Hx Ht Ei' Ej'. apply elem_of_cons in Hx as [-> |Hx].
      * assert (i' = i) as -> by congruence. assert (j' = j) as -> by congruence. rewrite Et in Ht. injection Ht as <- <-.
        rewrite T2, T3 by auto. cbn [st1 s_hws s_rows]. rewrite !list_lookup_insert_eq by (by eapply lookup_lt_Some). done.
      * apply (T1 x); [done| |done|done]. by rewrite Hf.
    + intros k [Hne Hk]%not_elem_omap_cons. rewrite T2 by done. apply list_lookup_insert_ne. congruence.
    + intros k [Hne Hk]%not_elem_omap_cons. rewrite T3 by done. apply list_lookup_insert_ne. congruence.
    + rewrite T4, (resumed_list_frame _ _ _ _ _ Hf). unfold resumed_list at 2. rewrite omap_cons, Et. done.
  - rewrite one_untied by done. specialize (IH st Hni Hnj). destruct (interfaces_counters itfs st) as [itfs' st']. cbn [snd] in *.
    destruct IH as [T1 T2 T3 T4]. split.
    + intros x hw' row' i' j' Hx Ht. apply elem_of_cons in Hx as [-> |Hx]; [congruence|by apply T1].
    + intros k [_ Hk]%not_elem_omap_cons. by apply T2.
    + intros k [_ Hk]%not_elem_omap_cons. by apply T3.
    + rewrite T4. unfold resumed_list at 2. by rewrite omap_cons, Et.
Qed.

(** The report of the counters: the row of every interface that is tied to a hardware port
    gets the counters of that port, which go on from those of the row the first time; the
    sums are those of the counters written, and other rows stay. *)
Theorem counters_reported itfs hws rows :
  NoDup (omap i_hw itfs) → NoDup (omap i_ifrow itfs) →
  let st := (lldp_process_all_interfaces_counters itfs hws rows).2 in
  (∀ itf hw row i j, itf ∈ itfs → tied hws rows itf = Some (hw, row) → i_hw itf = Some i → i_ifrow itf = Some j →
     s_hws st !! i = Some (resumed itf row hw) ∧ s_rows st !! j = Some (row<|lldp_statistics := report (resumed itf row hw)|>)) ∧
  (∀ j, j ∉ omap i_ifrow itfs → s_rows st !! j = rows !! j) ∧
  s_totals st = sums (resumed_list hws rows itfs) (replicate 8 0).
Proof.
  intros Hni Hnj. destruct (reported_loop itfs (Stats hws rows (replicate LLDPD_TOTAL_STATS_PER_INTERFACE 0)) Hni Hnj) as [T1 T2 T3 T4].
  split_and!; [exact T1|exact T3|exact T4].
Qed.

(** Reports are at least an interval apart, and the wait never passes the next one. *)
Theorem stats_schedule interval last now :
  0 ≤ interval →
  match lldpd_stats_run interval last now with
  | (last', None) => last' = now ∧ interval ≤ now - last
  | (last', Some wait) => last' = last ∧ now + wait = last + interval ∧ 0 < wait
  end.
Proof. intros Hi. unfold lldpd_stats_run. destruct (Z.ltb_spec 0 (Z.max 0 (interval - (now - last)))); lia. Qed.
