(* ===== verification/OvsPorts.v ===== *)
(** * Database interface: interfaces, ports and VLANs

    Two maps tie the rows of the database to the hardware: [all_interfaces] gives for a name
    the row of the interface and the hardware port, as far as they exist, [all_ports] the
    ports of the switch with the interfaces they are made of.  The VLANs of a port row are
    announced by the hardware of its interfaces.

    The blocks of [struct interface_data] are reached through both maps: they are kept in a
    heap, so that a block that has been freed can be told from one that is there.  The names
    of the modes and directions (openswitch-idl.h) are parameters.  A hash table is visited
    in some order. *)

From stdpp Require Import gmap strings.
From S2P Require Import Prelude Bytes Text Const Structs.
#[local] Open Scope Z_scope.

Abbreviation word := (list Z).

Inductive fault := UseAfterFree | NullDereference.

(** ** Rows of the database *)

Inductive vlan_mode_e :=
  | PORT_VLAN_MODE_ACCESS | PORT_VLAN_MODE_TRUNK | PORT_VLAN_MODE_NATIVE_TAGGED | PORT_VLAN_MODE_NATIVE_UNTAGGED.
#[global] Instance vlan_mode_eq_dec : EqDecision vlan_mode_e.
Proof. solve_decision. Defined.
Class OvsNames := {
  OVSREC_PORT_VLAN_MODE_ACCESS : word; OVSREC_PORT_VLAN_MODE_TRUNK : word;
  OVSREC_PORT_VLAN_MODE_NATIVE_TAGGED : word; OVSREC_PORT_VLAN_MODE_NATIVE_UNTAGGED : word;
  ENABLE_DIR_OFF : word; ENABLE_DIR_RX : word; ENABLE_DIR_TX : word; ENABLE_DIR_RXTX : word;
  LINK_STATE_UP : word
}.

Record if_row := IfaceRow { ir_name : word; lldp_enable_dir : option word; link_state : option word }.
#[global] Instance if_row_eq_dec : EqDecision if_row.
Proof. solve_decision. Defined.
Record port_row := PortRow { pr_name : word; pr_interfaces : list word; vlan_mode_text : option word; vlan_tag : option Z; vlan_trunks : list Z }.
#[global] Instance port_row_eq_dec : EqDecision port_row.
Proof. solve_decision. Defined.
Record vlan_row := VlanRow { vl_id : Z; vl_name : word }.

(** ** Blocks *)

Record interface_data := Itf { i_ifrow : option if_row; i_hw : option nat; portdata : option word }.
Record port_data := Port { vlan_mode : vlan_mode_e; interfaces : list (option nat); portrow : port_row }.
#[global] Instance eta_port_itf : Settable interface_data := λ r, Itf (i_ifrow r) (i_hw r) (portdata r).
#[global] Instance eta_port_data : Settable port_data := λ r, Port (vlan_mode r) (interfaces r) (portrow r).

Record world := World {
  hws : gmap nat lldpd_hardware;
  blocks : gmap nat interface_data;
  all_interfaces : gmap word nat;
  all_ports : gmap word port_data;
  next_block : nat
}.
#[global] Instance eta_world : Settable world := λ w, World (hws w) (blocks w) (all_interfaces w) (all_ports w) (next_block w).
Definition interface_found (w : world) (name : word) : option nat := all_interfaces w !! name.

Section Ports.
Context `{OvsNames}.
Implicit Types (w : world) (vlans : list vlan_row).

(** ** Interfaces *)

Definition new_block (name : word) (itf : interface_data) w : world :=
  w<|blocks ::= <[next_block w := itf]>|><|all_interfaces ::= <[name := next_block w]>|><|next_block ::= S|>.
Definition free_block (name : word) (b : nat) w : world := w<|blocks ::= delete b|><|all_interfaces ::= delete name|>.
Definition block (w : world) (b : nat) : fault + interface_data := match blocks w !! b with Some itf => inr itf | None => inl UseAfterFree end.
Definition set_block (b : nat) (itf : interface_data) w : world := w<|blocks ::= <[b := itf]>|>.

Definition del_old_db_interface (name : word) w : world :=
  match all_interfaces w !! name with
  | None => w
  | Some b => match blocks w !! b with
              | None => w
              | Some itf => match i_hw itf with
                            | None => free_block name b w
                            | Some _ => set_block b (itf<|i_ifrow := None|>) w
                            end
              end
  end.
Definition add_new_db_interface (ifrow : if_row) w : world :=
  match all_interfaces w !! ir_name ifrow with
  | None => new_block (ir_name ifrow) (Itf (Some ifrow) None None) w
  | Some b => match blocks w !! b with Some itf => set_block b (itf<|i_ifrow := Some ifrow|>) w | None => w end
  end.
Definition del_lldpd_hardware_interface (name : word) w : world :=
  match all_interfaces w !! name with
  | None => w
  | Some b => match blocks w !! b with
              | None => w
              | Some itf => match i_ifrow itf with
                            | None => free_block name b w
                            | Some _ => set_block b (itf<|i_hw := None|>) w
                            end
              end
  end.

(** ** VLANs *)

Definition set_hw (i : nat) (f : lldpd_port → lldpd_port) w : world := w<|hws ::= alter (λ hw, hw<|h_lport ::= f|>) i|>.
Definition lldpd_vlan_cleanup (p : lldpd_port) : lldpd_port := p<|p_vlans := []|>.
Fixpoint vlan_name_lookup_by_vid (vlans : list vlan_row) (vid : Z) : option word :=
  match vlans with
  | [] => None
  | v :: vlans => if vl_id v =? vid then Some (vl_name v) else vlan_name_lookup_by_vid vlans vid
  end.
Definition set_lldp_vlan_name_tlv (vlans : list vlan_row) (vlan : Z) (p : lldpd_port) : lldpd_port :=
  match vlan_name_lookup_by_vid vlans vlan with
  | None => p
  | Some name => p<|p_vlans ::= λ l, l ++ [{| v_name := name; v_vid := u16 vlan |}]|>
  end.
Definition set_lldp_trunk_vlans (vlans : list vlan_row) (row : port_row) (itf : interface_data) w : world :=
  match i_hw itf with
  | Some i => set_hw i (λ p, fold_left (λ p v, set_lldp_vlan_name_tlv vlans v p) (vlan_trunks row) p) w
  | None => w
  end.
Definition set_lldp_pvid (vlans : list vlan_row) (row : port_row) (itf : interface_data) w : world :=
  match vlan_tag row, i_hw itf with
  | Some vid, Some i => set_hw i (λ p, set_lldp_vlan_name_tlv vlans vid (p<|p_pvid := u16 vid|>)) w
  | _, _ => w
  end.

(** ** Ports *)

Definition mode_of (row : port_row) : vlan_mode_e :=
  match vlan_mode_text row with
  | Some s =>
      if bool_decide (s = OVSREC_PORT_VLAN_MODE_ACCESS) then PORT_VLAN_MODE_ACCESS
      else if bool_decide (s = OVSREC_PORT_VLAN_MODE_TRUNK) then PORT_VLAN_MODE_TRUNK
      else if bool_decide (s = OVSREC_PORT_VLAN_MODE_NATIVE_TAGGED) then PORT_VLAN_MODE_NATIVE_TAGGED
      else if bool_decide (s = OVSREC_PORT_VLAN_MODE_NATIVE_UNTAGGED) then PORT_VLAN_MODE_NATIVE_UNTAGGED
      else PORT_VLAN_MODE_TRUNK
  | None => match vlan_tag row with Some _ => PORT_VLAN_MODE_ACCESS | None => PORT_VLAN_MODE_TRUNK end
  end.

(** The first loop: the VLANs of the former interfaces go. *)
Fixpoint cleanup_vlans (itfs : list (option nat)) w : fault + world :=
  match itfs with
  | [] => inr w
  | None :: itfs => cleanup_vlans itfs w
  | Some b :: itfs =>
      match block w b with
      | inl e => inl e
      | inr itf => cleanup_vlans itfs (match i_hw itf with Some i => set_hw i lldpd_vlan_cleanup w | None => w end)
      end
  end.
(** The second one, for the interface of number [k] of the row. *)
Definition reconfigure_interface (vlans : list vlan_row) (name : word) (row : port_row) (k : nat) (iface : word) (st : port_data * world)
    : fault + port_data * world :=
  let '(port, w) := st in
  match all_interfaces w !! iface with
  | None => inr st
  | Some b =>
      match block w b with
      | inl e => inl e
      | inr itf =>
          let '(port, w) := match i_hw itf with
                            | Some _ => (port<|interfaces ::= <[k := Some b]>|>, set_block b (itf<|portdata := Some name|>) w)
                            | None => (port, w)
                            end in
          let port := port<|vlan_mode := mode_of row|> in
          let w := if bool_decide (vlan_mode port = PORT_VLAN_MODE_TRUNK) then w else set_lldp_pvid vlans row itf w in
          let w := if bool_decide (vlan_mode port = PORT_VLAN_MODE_ACCESS) then w else set_lldp_trunk_vlans vlans row itf w in
          inr (port, w)
      end
  end.
Fixpoint reconfigure_interfaces vlans name row (k : nat) (l : list word) (st : port_data * world) : fault + port_data * world :=
  match l with
  | [] => inr st
  | iface :: l => match reconfigure_interface vlans name row k iface st with
                  | inl e => inl e
                  | inr st => reconfigure_interfaces vlans name row (S k) l st
                  end
  end.
Definition lldpd_reconfigure_port (vlans : list vlan_row) (name : word) w : fault + world :=
  match all_ports w !! name with
  | None => inr w
  | Some port =>
      let row := portrow port in
      match cleanup_vlans (interfaces port) w with
      | inl e => inl e
      | inr w =>
          match reconfigure_interfaces vlans name row 0 (pr_interfaces row)
                  (port<|interfaces := replicate (length (pr_interfaces row)) None|>, w) with
          | inl e => inl e
          | inr (port, w) => inr (w<|all_ports ::= <[name := port]>|>)
          end
      end
  end.

(** [del_old_port]: the number of interfaces cleaned, and the world. *)
Fixpoint forget_interfaces (itfs : list (option nat)) (rc : nat) w : fault + nat * world :=
  match itfs with
  | [] => inr (rc, w)
  | None :: itfs => forget_interfaces itfs rc w
  | Some b :: itfs =>
      match block w b with
      | inl e => inl e
      | inr itf =>
          match i_hw itf with
          | None => inl NullDereference
          | Some i =>
              match hws w !! i with
              | None => inl UseAfterFree
              | Some hw =>
                  match all_interfaces w !! h_ifname hw with
                  | None => forget_interfaces itfs rc w
                  | Some b' =>
                      match block w b' with
                      | inl e => inl e
                      | inr intf =>
                          let w := set_block b' (intf<|portdata := None|>) w in
                          forget_interfaces itfs (S rc) (set_hw i (λ p, (lldpd_vlan_cleanup p)<|p_pvid := 0|>) w)
                      end
                  end
              end
          end
      end
  end.
Definition del_old_port (name : word) w : fault + nat * world :=
  match all_ports w !! name with
  | None => inr (0%nat, w)
  | Some port =>
      match forget_interfaces (interfaces port) 0 w with
      | inl e => inl e
      | inr (rc, w) => inr (rc, w<|all_ports ::= delete name|>)
      end
  end.
Definition add_new_port (row : port_row) w : world :=
  match all_ports w !! pr_name row with
  | Some _ => w
  | None => w<|all_ports ::= <[pr_name row := Port PORT_VLAN_MODE_ACCESS [] row]>|>
  end.

(** [handle_port_config_mods]: [modified] says that the row was inserted or modified. *)
Fixpoint handle_port_config_mods vlans (rows : gmap word port_row) (modified : word → bool) (names : list word) (rc : nat) w
    : fault + nat * world :=
  match names with
  | [] => inr (rc, w)
  | name :: names =>
      match rows !! name with
      | Some row =>
          if modified name
          then match lldpd_reconfigure_port vlans name (w<|all_ports ::= alter (λ p, p<|portrow := row|>) name|>) with
               | inl e => inl e
               | inr w => handle_port_config_mods vlans rows modified names (S rc) w
               end
          else handle_port_config_mods vlans rows modified names rc w
      | None => handle_port_config_mods vlans rows modified names rc w
      end
  end.
Fixpoint delete_ports (rows : gmap word port_row) (names : list word) (send_now : bool) w : fault + bool * world :=
  match names with
  | [] => inr (send_now, w)
  | name :: names =>
      match rows !! name with
      | Some _ => delete_ports rows names send_now w
      | None => match del_old_port name w with
                | inl e => inl e
                | inr (rc, w) => delete_ports rows names (send_now || negb (rc =? 0)%nat) w
                end
      end
  end.
Fixpoint add_ports (rows : list port_row) w : world :=
  match rows with [] => w | row :: rows => add_ports rows (add_new_port row w) end.
(** The rows by name: the first one of a name counts. *)
Definition collect (rows : list port_row) : gmap word port_row := list_to_map (map (λ r, (pr_name r, r)) rows).
Definition names_of {A} (m : gmap word A) : list word := (map_to_list m).*1.
Definition lldpd_apply_port_changes (rows : list port_row) vlans (changed : bool) (modified : word → bool) (send_now : bool) w
    : fault + bool * world :=
  if (negb (bool_decide (rows = [])) && negb changed)%bool then inr (send_now, w) else
  match delete_ports (collect rows) (names_of (all_ports w)) send_now w with
  | inl e => inl e
  | inr (send_now, w) =>
      let w := add_ports (map snd (map_to_list (collect rows))) w in
      match handle_port_config_mods vlans (collect rows) modified (names_of (all_ports w)) 0 w with
      | inl e => inl e
      | inr (rc, w) => inr (send_now || negb (rc =? 0)%nat, w)
      end
  end.

(** ** New hardware *)

Definition direction (text : option word) (old : hardware_enable_dir_e) : hardware_enable_dir_e :=
  match text with
  | Some s =>
      if bool_decide (s = ENABLE_DIR_OFF) then HARDWARE_ENABLE_DIR_OFF
      else if bool_decide (s = ENABLE_DIR_RX) then HARDWARE_ENABLE_DIR_RX
      else if bool_decide (s = ENABLE_DIR_TX) then HARDWARE_ENABLE_DIR_TX
      else if bool_decide (s = ENABLE_DIR_RXTX) then HARDWARE_ENABLE_DIR_RXTX else old
  | None => HARDWARE_ENABLE_DIR_RXTX
  end.
(** The port of the database that has the row of the interface: the first one in [all_ports]
    that lists it. *)
Definition port_of (rows : list port_row) (ifrow : option if_row) w : option word :=
  match ifrow with
  | None => None
  | Some r => head (omap (λ row, if bool_decide (ir_name r ∈ pr_interfaces row ∧ is_Some (all_ports w !! pr_name row))
                                 then Some (pr_name row) else None) rows)
  end.
Definition add_lldpd_hardware_interface (rows : list port_row) vlans (i : nat) w : fault + world :=
  match hws w !! i with
  | None => inr w
  | Some hw =>
      match all_interfaces w !! h_ifname hw with
      | None => inr (new_block (h_ifname hw) (Itf None (Some i) None) w)
      | Some b =>
          match block w b with
          | inl e => inl e
          | inr itf =>
              let text := i_ifrow itf ≫= lldp_enable_dir in
              let up := bool_decide ((i_ifrow itf ≫= link_state) = Some LINK_STATE_UP) in
              let w := set_block b (itf<|i_hw := Some i|><|portdata := None|>) w in
              let w := w<|hws ::= alter (λ hw, hw<|h_enable_dir ::= direction text|><|h_link_state_down := negb up|>) i|> in
              match port_of rows (i_ifrow itf) w with
              | None => inr w
              | Some name => lldpd_reconfigure_port vlans name (set_block b (itf<|i_hw := Some i|><|portdata := Some name|>) w)
              end
          end
      end
  end.

(** [add_vlans_from_ovsdb] *)
Definition add_vlans_from_ovsdb vlans (hw_name : word) w : fault + world :=
  match all_interfaces w !! hw_name with
  | None => inr w
  | Some b =>
      match block w b with
      | inl e => inl e
      | inr itf =>
          match portdata itf ≫= λ name, all_ports w !! name with
          | None => inr w
          | Some port =>
              let w := if bool_decide (vlan_mode port = PORT_VLAN_MODE_TRUNK) then w else set_lldp_pvid vlans (portrow port) itf w in
              inr (if bool_decide (vlan_mode port = PORT_VLAN_MODE_ACCESS) then w else set_lldp_trunk_vlans vlans (portrow port) itf w)
          end
      end
  end.

(** ** The map of interfaces *)

(** An entry has a row or hardware, of its own name; blocks belong to one entry. *)
Record maps_ok w : Prop := {
  mo_entry n b : all_interfaces w !! n = Some b → ∃ itf, blocks w !! b = Some itf ∧
    (i_ifrow itf ≠ None ∨ i_hw itf ≠ None) ∧
    (∀ r, i_ifrow itf = Some r → ir_name r = n) ∧
    (∀ i, i_hw itf = Some i → ∃ hw, hws w !! i = Some hw ∧ h_ifname hw = n);
  mo_block b : is_Some (blocks w !! b) → ∃ n, all_interfaces w !! n = Some b;
  mo_inj n n' b : all_interfaces w !! n = Some b → all_interfaces w !! n' = Some b → n = n';
  mo_fresh b : is_Some (blocks w !! b) → (b < next_block w)%nat
}.

Lemma new_block_ok name itf w :
  maps_ok w → all_interfaces w !! name = None →
  (i_ifrow itf ≠ None ∨ i_hw itf ≠ None) → (∀ r, i_ifrow itf = Some r → ir_name r = name) →
  (∀ i, i_hw itf = Some i → ∃ hw, hws w !! i = Some hw ∧ h_ifname hw = name) → maps_ok (new_block name itf w).
Proof.
  intros [M1 M2 M3 M4] Hnone H1 H2 H3. unfold new_block.
  assert (blocks w !! next_block w = None) as Hnb.
  { destruct (blocks w !! next_block w) eqn:E; [|done]. specialize (M4 (next_block w) ltac:(by rewrite E)). lia. }
  assert (∀ n, all_interfaces w !! n ≠ Some (next_block w)) as Hno.
  { intros n Hn. destruct (M1 n _ Hn) as (? & ? & _). congruence. }
  split; cbn.
  - intros n b. destruct (decide (name = n)) as [<-|Hne].
    + rewrite lookup_insert_eq. intros [= <-]. exists itf. by rewrite lookup_insert_eq.
    + rewrite lookup_insert_ne by done. intros Hn. destruct (M1 n b Hn) as (itf' & Hb & Hrest).
      exists itf'. rewrite lookup_insert_ne by (intros <-; by apply (Hno n)). done.
  - intros b. destruct (decide (next_block w = b)) as [<-|Hne]; [intros _; exists name; by rewrite lookup_insert_eq|].
    rewrite lookup_insert_ne by done. intros Hb. destruct (M2 b Hb) as [n Hn]. exists n. rewrite lookup_insert_ne; [done|congruence].
  - intros n n' b. destruct (decide (name = n)) as [<-|Hne], (decide (name = n')) as [<-|Hne']; [done|..].
    + rewrite lookup_insert_eq, lookup_insert_ne by done. intros [= <-] Hn'. by destruct (Hno n').
    + rewrite lookup_insert_eq, lookup_insert_ne by done. intros Hn [= <-]. by destruct (Hno n).
    + rewrite !lookup_insert_ne by done. apply M3.
  - intros b. destruct (decide (next_block w = b)) as [<-|Hne]; [lia|]. rewrite lookup_insert_ne by done. intros Hb%M4. lia.
Qed.
Lemma free_block_ok name b w : maps_ok w → all_interfaces w !! name = Some b → maps_ok (free_block name b w).
Proof.
  intros [M1 M2 M3 M4] Hb. unfold free_block. split; cbn.
  - intros n b'. destruct (decide (name = n)) as [<-|Hne]; [by rewrite lookup_delete_eq|]. rewrite lookup_delete_ne by done.
    intros Hn. destruct (M1 n b' Hn) as (itf & Hi & Hrest). exists itf. rewrite lookup_delete_ne; [done|].
    intros <-. apply Hne. by eapply M3.
  - intros b'. destruct (decide (b = b')) as [<-|Hne]; [rewrite lookup_delete_eq; by intros [? ?]|]. rewrite lookup_delete_ne by done.
    intros Hb'. destruct (M2 b' Hb') as [n Hn]. exists n. rewrite lookup_delete_ne; [done|congruence].
  - intros n n' b' [_ Hn]%lookup_delete_Some [_ Hn']%lookup_delete_Some. by eapply M3.
  - intros b' [x [_ Hx]%lookup_delete_Some]. by apply M4.
Qed.
Lemma set_block_ok name b itf w :
  maps_ok w → all_interfaces w !! name = Some b →
  (i_ifrow itf ≠ None ∨ i_hw itf ≠ None) → (∀ r, i_ifrow itf = Some r → ir_name r = name) →
  (∀ i, i_hw itf = Some i → ∃ hw, hws w !! i = Some hw ∧ h_ifname hw = name) → maps_ok (set_block b itf w).
Proof.
  intros [M1 M2 M3 M4] Hb H1 H2 H3. unfold set_block. split; cbn.
  - intros n b' Hn. destruct (decide (b = b')) as [<-|Hne].
    + assert (n = name) as -> by (by eapply M3). exists itf. by rewrite lookup_insert_eq.
    + rewrite lookup_insert_ne by done. by apply M1.
  - intros b'. destruct (decide (b = b')) as [<-|Hne]; [intros _; by exists name|]. rewrite lookup_insert_ne by done. apply M2.
  - exact M3.
  - intros b'. destruct (decide (b = b')) as [<-|Hne].
    + intros _. destruct (M1 name b Hb) as (x & Hx & _). apply M4. by rewrite Hx.
    + rewrite lookup_insert_ne by done. apply M4.
Qed.

(** The rows come and go, and so does the hardware: an interface is in the map exactly as
    long as it has a row or hardware. *)
Theorem maps_kept w name row :
  maps_ok w →
  maps_ok (del_old_db_interface name w) ∧ maps_ok (add_new_db_interface row w) ∧ maps_ok (del_lldpd_hardware_interface name w) ∧
  (∃ b itf, all_interfaces (add_new_db_interface row w) !! ir_name row = Some b ∧
            blocks (add_new_db_interface row w) !! b = Some itf ∧ i_ifrow itf = Some row) ∧
  (∀ b itf, all_interfaces (del_lldpd_hardware_interface name w) !! name = Some b →
            blocks (del_lldpd_hardware_interface name w) !! b = Some itf → i_hw itf = None ∧ i_ifrow itf ≠ None).
Proof.
  intros Hok. pose proof Hok as [M1 M2 M3 M4]. split_and!.
  - unfold del_old_db_interface. destruct (all_interfaces w !! name) as [b|] eqn:En; [|done].
    destruct (M1 name b En) as (itf & Hb & Hor & Hr & Hh). rewrite Hb. destruct (i_hw itf) as [i|] eqn:Ei; [|by apply free_block_ok].
    apply (set_block_ok name); [done|done|right; cbn; by rewrite Ei|done|cbn; by rewrite Ei].
  - unfold add_new_db_interface. destruct (all_interfaces w !! ir_name row) as [b|] eqn:En.
    + destruct (M1 _ b En) as (itf & Hb & Hor & Hr & Hh). rewrite Hb.
      apply (set_block_ok (ir_name row)); [done|done|by left|by intros r [= <-]|done].
    + apply new_block_ok; [done|done|by left|by intros r [= <-]|done].
  - unfold del_lldpd_hardware_interface. destruct (all_interfaces w !! name) as [b|] eqn:En; [|done].
    destruct (M1 name b En) as (itf & Hb & Hor & Hr & Hh). rewrite Hb. destruct (i_ifrow itf) as [r|] eqn:Ei; [|by apply free_block_ok].
    apply (set_block_ok name); [done|done|left; cbn; by rewrite Ei|cbn; by rewrite Ei|done].
  - unfold add_new_db_interface. destruct (all_interfaces w !! ir_name row) as [b|] eqn:En.
    + destruct (M1 _ b En) as (itf & Hb & _). rewrite Hb. exists b, (itf<|i_ifrow := Some row|>). cbn. by rewrite lookup_insert_eq.
    + exists (next_block w), (Itf (Some row) None None). cbn. by rewrite !lookup_insert_eq.
  - intros b itf. unfold del_lldpd_hardware_interface. destruct (all_interfaces w !! name) as [b0|] eqn:En; [|congruence].
    destruct (M1 name b0 En) as (itf0 & Hb & _). rewrite Hb. destruct (i_ifrow itf0) as [r|] eqn:Ei.
    + cbn. rewrite En. intros [= <-]. rewrite lookup_insert_eq. intros [= <-]. cbn. by rewrite Ei.
    + cbn. by rewrite lookup_delete_eq.
Qed.

(** ** VLANs of a port *)

(** What the row asks of the local port of an interface. *)
Definition wanted_vids (row : port_row) : list Z :=
  (if bool_decide (mode_of row = PORT_VLAN_MODE_TRUNK) then [] else option_list (vlan_tag row)) ++
  (if bool_decide (mode_of row = PORT_VLAN_MODE_ACCESS) then [] else vlan_trunks row).
Definition named vlans (vid : Z) : option lldpd_vlan :=
  (λ n, {| v_name := n; v_vid := u16 vid |}) <$> vlan_name_lookup_by_vid vlans vid.
Definition wanted_pvid (row : port_row) (old : Z) : Z :=
  if bool_decide (mode_of row = PORT_VLAN_MODE_TRUNK) then old
  else match vlan_tag row with Some vid => u16 vid | None => old end.
Definition configured vlans (row : port_row) (p : lldpd_port) : lldpd_port :=
  p<|p_pvid ::= wanted_pvid row|><|p_vlans ::= λ l, l ++ omap (named vlans) (wanted_vids row)|>.

Lemma vlan_tlv vlans vid p : set_lldp_vlan_name_tlv vlans vid p = p<|p_vlans ::= λ l, l ++ option_list (named vlans vid)|>.
Proof.
  unfold set_lldp_vlan_name_tlv, named. destruct (vlan_name_lookup_by_vid vlans vid); [done|].
  destruct p. unfold set. cbn. by rewrite app_nil_r.
Qed.
Lemma trunk_tlvs vlans vids p :
  fold_left (λ p v, set_lldp_vlan_name_tlv vlans v p) vids p = p<|p_vlans ::= λ l, l ++ omap (named vlans) vids|>.
Proof.
  revert p. induction vids as [|v vids IH]; intros p; cbn [fold_left]; [destruct p; unfold set; cbn; by rewrite app_nil_r|].
  rewrite IH, vlan_tlv. destruct p. unfold set. cbn. f_equal. rewrite <- app_assoc. by destruct (named vlans v).
Qed.

Definition on_port (f : lldpd_port → lldpd_port) (hw : lldpd_hardware) : lldpd_hardware := hw<|h_lport ::= f|>.
Lemma alter_comp {A} (f g : A → A) (k : nat) (m : gmap nat A) : alter f k (alter g k m) = alter (λ x, f (g x)) k m.
Proof.
  apply map_eq. intros i. destruct (decide (k = i)) as [->|Hne]; [|by rewrite !lookup_alter_ne].
  rewrite !lookup_alter_eq. by destruct (m !! i).
Qed.
Lemma alter_idem {A} (f : A → A) (k : nat) (m : gmap nat A) : (∀ x, f x = x) → alter f k m = m.
Proof.
  intros Hf. apply map_eq. intros i. destruct (decide (k = i)) as [->|Hne]; [|by rewrite lookup_alter_ne].
  rewrite lookup_alter_eq. destruct (m !! i); [|done]. cbn. by rewrite Hf.
Qed.
Lemma alter_fext {A} (f g : A → A) (k : nat) (m : gmap nat A) : (∀ x, f x = g x) → alter f k m = alter g k m.
Proof.
  intros Hf. apply map_eq. intros i. destruct (decide (k = i)) as [->|Hne]; [|by rewrite !lookup_alter_ne].
  rewrite !lookup_alter_eq. destruct (m !! i); [|done]. cbn. by rewrite Hf.
Qed.

(** The VLAN settings of one interface. *)
Definition pvid_of vlans (row : port_row) (p : lldpd_port) : lldpd_port :=
  match vlan_tag row with Some vid => set_lldp_vlan_name_tlv vlans vid (p<|p_pvid := u16 vid|>) | None => p end.
Definition trunks_of vlans (row : port_row) (p : lldpd_port) : lldpd_port :=
  fold_left (λ p v, set_lldp_vlan_name_tlv vlans v p) (vlan_trunks row) p.
Lemma configured_spec vlans row p :
  (let p := if bool_decide (mode_of row = PORT_VLAN_MODE_TRUNK) then p else pvid_of vlans row p in
   if bool_decide (mode_of row = PORT_VLAN_MODE_ACCESS) then p else trunks_of vlans row p) = configured vlans row p.
Proof.
  cbv zeta. unfold trunks_of, pvid_of. rewrite trunk_tlvs. unfold configured, wanted_pvid, wanted_vids.
  destruct (vlan_tag row) as [vid|]; rewrite ?vlan_tlv; destruct p; repeat case_bool_decide; try congruence;
    unfold set; cbn; rewrite ?app_nil_r; try done; destruct (named vlans vid); cbn; rewrite <- ?app_assoc, ?app_nil_r; done.
Qed.

Definition on_hw (o : option nat) (f : lldpd_port → lldpd_port) w : world :=
  match o with Some i => w<|hws ::= alter (on_port f) i|> | None => w end.
Lemma on_hw_comp o f g w : on_hw o f (on_hw o g w) = on_hw o (λ p, f (g p)) w.
Proof. destruct o as [i|]; [|done]. destruct w. unfold on_hw, set. cbn. by rewrite alter_comp. Qed.
Lemma on_hw_ext o f g w : (∀ p, f p = g p) → on_hw o f w = on_hw o g w.
Proof.
  intros Hf. destruct o as [i|]; [|done]. destruct w. unfold on_hw, set. cbn. rewrite (alter_fext (on_port f) (on_port g)); [done|].
  intros []. unfold on_port, set. cbn. by rewrite Hf.
Qed.
Lemma on_hw_id o w : on_hw o (λ p, p) w = w.
Proof. destruct o as [i|]; [|done]. destruct w. unfold on_hw, set. cbn. rewrite alter_idem; [done|by intros []]. Qed.
Lemma pvid_on_hw vlans row itf w : set_lldp_pvid vlans row itf w = on_hw (i_hw itf) (pvid_of vlans row) w.
Proof.
  unfold set_lldp_pvid, pvid_of. destruct (vlan_tag row); [by destruct (i_hw itf)|]. by rewrite on_hw_id.
Qed.
Lemma trunks_on_hw vlans row itf w : set_lldp_trunk_vlans vlans row itf w = on_hw (i_hw itf) (trunks_of vlans row) w.
Proof. unfold set_lldp_trunk_vlans. by destruct (i_hw itf). Qed.

Lemma apply_vlans_spec vlans row itf w :
  (let w := if bool_decide (mode_of row = PORT_VLAN_MODE_TRUNK) then w else set_lldp_pvid vlans row itf w in
   if bool_decide (mode_of row = PORT_VLAN_MODE_ACCESS) then w else set_lldp_trunk_vlans vlans row itf w) =
  on_hw (i_hw itf) (configured vlans row) w.
Proof.
  rewrite pvid_on_hw. cbv zeta. rewrite (on_hw_ext _ _ _ w (λ p, eq_sym (configured_spec vlans row p))).
  repeat case_bool_decide; rewrite ?trunks_on_hw, ?on_hw_comp, ?on_hw_id; done.
Qed.

(** The hardware of an interface, by name. *)
Definition hw_of w (name : word) : option nat := b ← all_interfaces w !! name; itf ← blocks w !! b; i_hw itf.
(** Same maps and same hardware for every block. *)
Definition same_maps w w' : Prop :=
  all_interfaces w' = all_interfaces w ∧ all_ports w' = all_ports w ∧ ∀ b, i_hw <$> blocks w' !! b = i_hw <$> blocks w !! b.
Lemma same_maps_trans w1 w2 w3 : same_maps w1 w2 → same_maps w2 w3 → same_maps w1 w3.
Proof. intros (A1 & B1 & C1) (A2 & B2 & C2). split_and!; [congruence|congruence|]. intros b. by rewrite C2, C1. Qed.
Lemma same_maps_hw_of w w' n : same_maps w w' → hw_of w' n = hw_of w n.
Proof.
  intros (Ha & _ & Hb). unfold hw_of. rewrite Ha. destruct (all_interfaces w !! n) as [b|]; [|done]. cbn.
  specialize (Hb b). destruct (blocks w' !! b), (blocks w !! b); cbn in *; congruence.
Qed.
Lemma same_maps_live w w' b : same_maps w w' → is_Some (blocks w !! b) → is_Some (blocks w' !! b).
Proof. intros (_ & _ & Hb) [itf Hi]. specialize (Hb b). rewrite Hi in Hb. by destruct (blocks w' !! b). Qed.
Lemma same_maps_on_hw o f w : same_maps w (on_hw o f w).
Proof. by destruct o. Qed.
Lemma on_hw_lookup o f w i :
  hws (on_hw o f w) !! i = if bool_decide (o = Some i) then on_port f <$> hws w !! i else hws w !! i.
Proof.
  destruct o as [k|]; [|done]. cbn. case_bool_decide as E; [injection E as ->; apply lookup_alter_eq|]. apply lookup_alter_ne. congruence.
Qed.

(** *** Cleaning *)

Lemma omap_cons' {A B} (f : A → option B) x l : omap f (x :: l) = option_list (f x) ++ omap f l.
Proof. cbn. by destruct (f x). Qed.

Lemma in_first (o : option nat) (l : list nat) i : bool_decide (i ∈ option_list o ++ l) = bool_decide (o = Some i) || bool_decide (i ∈ l).
Proof.
  destruct o as [k|]; cbn [option_list app]; [|by rewrite (bool_decide_false (None = Some i)) by done].
  destruct (decide (k = i)) as [->|Hne]; [rewrite (bool_decide_true (Some i = Some i)) by done; by rewrite bool_decide_true by by left|].
  rewrite (bool_decide_false (Some k = Some i)) by congruence. cbn [orb]. apply bool_decide_ext. change (option_list (Some k) ++ l) with (k :: l). rewrite elem_of_cons. split; [|by right].
  by intros [->|].
Qed.
Definition hws_at w (l : list (option nat)) : list nat := omap (λ o, b ← o; itf ← blocks w !! b; i_hw itf) l.
Lemma cleanup_vlans_spec l w :
  (∀ b, Some b ∈ l → is_Some (blocks w !! b)) →
  ∃ w', cleanup_vlans l w = inr w' ∧ same_maps w w' ∧
    ∀ i, hws w' !! i = if bool_decide (i ∈ hws_at w l) then on_port lldpd_vlan_cleanup <$> hws w !! i else hws w !! i.
Proof.
  revert w. induction l as [|[b|] l IH]; intros w Hlive; cbn [cleanup_vlans].
  - exists w. done.
  - destruct (Hlive b ltac:(by left)) as [itf Hb]. unfold block. rewrite Hb.
    set (w1 := match i_hw itf with Some i => set_hw i lldpd_vlan_cleanup w | None => w end).
    assert (w1 = on_hw (i_hw itf) lldpd_vlan_cleanup w) as Hw1 by (unfold w1, on_hw; by destruct (i_hw itf)).
    destruct (IH w1) as (w' & -> & Hs & Hl).
    { intros b' Hb'. rewrite Hw1. apply (same_maps_live w); [apply same_maps_on_hw|]. apply Hlive. by right. }
    exists w'. split; [done|]. split; [eapply same_maps_trans; [|exact Hs]; rewrite Hw1; apply same_maps_on_hw|].
    assert (hws_at w1 l = hws_at w l) as Hat by (rewrite Hw1; by destruct (i_hw itf)).
    assert (hws_at w (Some b :: l) = option_list (i_hw itf) ++ hws_at w l) as Hcons.
    { unfold hws_at at 1. rewrite omap_cons'. cbn [mbind option_bind]. rewrite Hb. done. }
    intros i. rewrite Hl, Hat, Hw1, on_hw_lookup, Hcons, in_first.
    destruct (decide (i_hw itf = Some i)) as [E|E], (decide (i ∈ hws_at w l)) as [F|F];
      rewrite ?(bool_decide_true _ E), ?(bool_decide_false _ E), ?(bool_decide_true _ F), ?(bool_decide_false _ F); try done.
    by destruct (hws w !! i).
  - destruct (IH w) as (w' & -> & Hs & Hl); [intros b Hb; apply Hlive; by right|]. by exists w'.
Qed.

(** *** Configuring *)

(** Every interface of the map has its block. *)
Definition entries_live w : Prop := ∀ n b, all_interfaces w !! n = Some b → is_Some (blocks w !! b).

Lemma reconfigure_interface_spec vlans name row k iface port w :
  entries_live w →
  ∃ port' w', reconfigure_interface vlans name row k iface (port, w) = inr (port', w') ∧ same_maps w w' ∧
    hws w' = hws (on_hw (hw_of w iface) (configured vlans row) w).
Proof.
  intros Hlive. unfold reconfigure_interface, hw_of. destruct (all_interfaces w !! iface) as [b|] eqn:Eb; [|by exists port, w].
  destruct (Hlive iface b Eb) as [itf Hb]. unfold block. cbn [mbind option_bind]. rewrite Hb.
  cbn [mbind option_bind]. destruct (i_hw itf) as [i|] eqn:Ei; cbn [vlan_mode set].
  - eexists _, _. split; [done|]. cbv zeta. cbn [vlan_mode]. rewrite apply_vlans_spec, Ei. split; [|done].
    eapply same_maps_trans; [|apply same_maps_on_hw]. split_and!; [done|done|]. intros b'. cbn.
    destruct (decide (b = b')) as [<-|Hne]; [rewrite lookup_insert_eq, Hb; cbn; by rewrite Ei|by rewrite lookup_insert_ne].
  - eexists _, _. split; [done|]. cbv zeta. cbn [vlan_mode]. rewrite apply_vlans_spec, Ei. by split.
Qed.

Lemma entries_live_same w w' : same_maps w w' → entries_live w → entries_live w'.
Proof. intros Hs Hl n b Hn. apply (same_maps_live w); [done|]. apply (Hl n). by destruct Hs as [<- _]. Qed.

Lemma reconfigure_interfaces_spec vlans name row l k port w :
  entries_live w → NoDup (omap (hw_of w) l) →
  ∃ port' w', reconfigure_interfaces vlans name row k l (port, w) = inr (port', w') ∧ same_maps w w' ∧
    ∀ i, hws w' !! i = if bool_decide (i ∈ omap (hw_of w) l) then on_port (configured vlans row) <$> hws w !! i else hws w !! i.
Proof.
  revert k port w. induction l as [|iface l IH]; intros k port w Hlive Hnd; cbn [reconfigure_interfaces]; [by exists port, w|].
  destruct (reconfigure_interface_spec vlans name row k iface port w Hlive) as (port1 & w1 & -> & Hs1 & Hh1).
  rewrite omap_cons' in Hnd. apply list.NoDup_app in Hnd as (_ & Hdis & Hnd).
  assert (∀ l' : list word, omap (hw_of w1) l' = omap (hw_of w) l') as Hom.
  { intros l'. induction l' as [|x l' IHl]; [done|]. rewrite !omap_cons', IHl. by rewrite (same_maps_hw_of _ _ x Hs1). }
  destruct (IH (S k) port1 w1) as (port2 & w2 & -> & Hs2 & Hh2); [by eapply entries_live_same|by rewrite Hom|].
  exists port2, w2. split; [done|]. split; [by eapply same_maps_trans|]. intros i.
  rewrite Hh2, Hom, Hh1, on_hw_lookup, omap_cons', in_first.
  destruct (decide (hw_of w iface = Some i)) as [E|E], (decide (i ∈ omap (hw_of w) l)) as [F|F];
    rewrite ?(bool_decide_true _ E), ?(bool_decide_false _ E), ?(bool_decide_true _ F), ?(bool_decide_false _ F); try done.
  exfalso. apply (Hdis i); [rewrite E; by left|done].
Qed.

(** ** The VLANs of the database are announced *)

End Ports.
