(* ===== verification/WitnessOvs.v ===== *)
(** * The theorems on the database interface at work

    A neighbor that is published, the configuration that a row gives, and what the switch
    shows of numbers. *)

From stdpp Require Import gmap strings.
From S2P Require Import Prelude Bytes Text Const Structs Table TableOk TableInv OvsDecode OvsNbr OvsConfig Witness.
#[local] Open Scope Z_scope.

#[local] Instance ex_openswitch_build : BuildConfig := {| ENABLE_OVSDB := true; HOST_LITTLE_ENDIAN := true |}.

(** ** Names *)

Lemma decode_property_names_witness :
  decode_property lldp_ovsdb_setup_decode LLDP_CHASSISID_SUBTYPE_LLADDR LLDP_CHASSISID_SUBTYPE_INDEX = chars "link_local_addr".
Proof. etransitivity; [apply decode_property_names; vm_compute; discriminate|vm_compute; reflexivity]. Defined.

(** A port identifier of subtype "local" is shown as an interface name, and the status
    "enabled" of a protocol VLAN has no name within its category. *)
Example shown_names :
  decode_property lldp_ovsdb_setup_decode LLDP_PORTID_SUBTYPE_LOCAL LLDP_PORTID_SUBTYPE_INDEX = chars "if_name" ∧
  decode_property lldp_ovsdb_setup_decode LLDP_DOT3_MAU_10BASET LLDP_DOT3_MAU_INDEX = chars "10 BASE5" ∧
  decode_property lldp_ovsdb_setup_decode LLDP_PPVID_CAP_ENABLED LLDP_PPVID_CAP_INDEX = SPACE ∧
  decode_features lldp_ovsdb_setup_decode 20 LLDP_CAP_INDEX = chars "Bridge, Router".
Proof. vm_compute. done. Qed.

(** ** A neighbor *)

(** The library call, for IPv4 only. *)
Definition ex_byte (b : Z) : list Z := decimal (b mod 256).
Definition ex_inet_ntop (f : Z) (a : list Z) : option (list Z) :=
  match a with
  | a :: b :: c :: d :: _ => if f =? 1 then Some (ex_byte a ++ [46] ++ ex_byte b ++ [46] ++ ex_byte c ++ [46] ++ ex_byte d) else None
  | _ => None
  end.
Lemma ex_byte_ok b : no_nul (ex_byte b) ∧ zlen (ex_byte b) ≤ 3.
Proof.
  pose proof (seq_below 256 (λ b, bool_decide (no_nul (decimal b) ∧ zlen (decimal b) ≤ 3))) as Hs.
  eapply bool_decide_eq_true_1. apply (Hs ltac:(vm_compute; reflexivity)). apply Z.mod_pos_bound. lia.
Qed.
Lemma ex_inet_ntop_ok f a s : ex_inet_ntop f a = Some s → no_nul s ∧ zlen s < INET6_ADDRSTRLEN.
Proof.
  unfold ex_inet_ntop. destruct a as [|a [|b [|c [|d a']]]]; try done. destruct (f =? 1); [|done]. intros [= <-].
  destruct (ex_byte_ok a) as [Na La], (ex_byte_ok b) as [Nb Lb], (ex_byte_ok c) as [Nc Lc], (ex_byte_ok d) as [Nd Ld].
  split.
  - unfold no_nul in *. apply list.Forall_app; split; [done|]. do 2 (apply list.Forall_cons; split; [done|]; apply list.Forall_app; split; [done|]). by constructor.
  - repeat first [rewrite zlen_app | rewrite zlen_cons]. unfold INET6_ADDRSTRLEN. lia.
Qed.

(** A neighbor whose port identifier is an address, as the decoder stores it, and one whose
    identifier is the name of an interface: the bytes of the frame, without a NUL. *)
Definition ex_published : lldpd_port :=
  ex_port<|p_id_subtype := LLDP_PORTID_SUBTYPE_LLADDR|><|p_id := Some [2; 0; 0; 0; 0; 1]|><|p_pids := [{| p_pi := [1; 2; 3; 0] |}]|>.
Definition ex_named : lldpd_port := ex_published<|p_id_subtype := LLDP_PORTID_SUBTYPE_IFNAME|><|p_id := Some (chars "eth0")|>.
Definition ex_fields : list (list Z * list Z) := nbr_fields ex_inet_ntop (Some ex_ch) ex_published.
Lemma nbr_update_correct_witness :
  lldp_nbr_update ex_inet_ntop (Some ex_ch) ex_published = inr (map stored ex_fields) ∧
  lldp_nbr_update ex_inet_ntop (Some ex_ch) ex_named = inl Overread ∧
  NoDup (map fst ex_fields) ∧ ¬ id_unterminated ex_published ∧ (id_unterminated ex_named ∨ pids_unterminated ex_named).
Proof.
  destruct (nbr_update_correct ex_inet_ntop ex_inet_ntop_ok (Some ex_ch) ex_published) as [Hn Hp].
  destruct (nbr_update_correct ex_inet_ntop ex_inet_ntop_ok (Some ex_ch) ex_named) as [_ Hq].
  assert (lldp_nbr_update ex_inet_ntop (Some ex_ch) ex_published = inr (map stored ex_fields)) as E by (vm_compute; reflexivity).
  assert (lldp_nbr_update ex_inet_ntop (Some ex_ch) ex_named = inl Overread) as E' by (vm_compute; reflexivity).
  rewrite E in Hp. rewrite E' in Hq. destruct Hp as (_ & _ & Hi & _). split; [exact E|]. split; [exact E'|]. split; [exact Hn|]. by split.
Defined.
(** The identifier of the chassis is a MAC address, its capabilities are named. *)
Example published_fields :
  fields_size ex_fields ≤ KEY_VAL_STR_BUF_MAX ∧
  (LLDP_NBR_CHASSIS_ID, chars "02:00:00:00:00:09") ∈ map stored ex_fields ∧
  (LLDP_NBR_CHASSIS_CAP_ENABLE, chars "Bridge, Router") ∈ map stored ex_fields ∧
  (LLDP_NBR_MGMT_IP_LIST, chars "10.0.0.1") ∈ map stored ex_fields.
Proof. ex. Qed.
(** An identifier that is not a MAC address is shown as its own subtype. *)
Example misshown_identifier :
  (LLDP_NBR_CHASSIS_ID, chars "if_name") ∈
  map stored (nbr_fields ex_inet_ntop (Some (ex_ch<|c_id := Some (chars "sw1")|><|c_id_subtype := LLDP_CHASSISID_SUBTYPE_IFNAME|>)) ex_published).
Proof. ex. Qed.
(** A long list of VLANs goes past the end of the buffer. *)
Definition ex_many_vlans : lldpd_port :=
  ex_published<|p_vlans := replicate 400 {| v_name := chars "vlan-name-"; v_vid := 1000 |}|>.
Example neighbor_overflows : lldp_nbr_update ex_inet_ntop (Some ex_ch) ex_many_vlans = inl Overflow.
Proof. vm_compute. reflexivity. Qed.

Lemma list_roundtrip_witness :
  ∃ s, smap_list 64 [] [chars "v1"; chars "v2"; chars "v3"] = inr s ∧ list_items 3 s 0 = [chars "v1"; chars "v2"; chars "v3"].
Proof.
  apply (list_roundtrip 64 [chars "v1"; chars "v2"; chars "v3"]); [|discriminate|vm_compute; reflexivity].
  unfold item_ok. ex.
Defined.

(** ** The configuration *)

#[local] Instance ex_openswitch : OpenSwitch.
Proof.
  refine {| TX_INTERVAL_DEFAULT := 30; TX_INTERVAL_MIN := 5; TX_INTERVAL_MAX := 32768; HOLD_DEFAULT := 4; HOLD_MIN := 2; HOLD_MAX := 10;
            TLV_DEFAULT := true; ENABLE_DEFAULT := true |}; lia.
Defined.
Definition ex_pton (af : Z) (text : list Z) : option (list Z) :=
  if bool_decide (af = LLDPD_AF_IPV4 ∧ text = chars "10.0.0.2") then Some [10; 0; 0; 2]
  else if bool_decide (af = LLDPD_AF_IPV6 ∧ text = chars "::1") then Some (replicate 15 0 ++ [1]) else None.
#[local] Instance ex_inet_pton : InetPton.
Proof.
  refine {| inet_pton := ex_pton |}. intros text a. unfold ex_pton.
  split; repeat case_bool_decide; try (intros [= <-]; reflexivity); by destruct_and?.
Defined.
(** An update that finds nothing new. *)
#[local] Instance ex_interfaces_update : InterfacesUpdate := λ cfg, (g_hardware cfg, g_heap cfg).

Definition ex_row (addr : list Z) (enable : bool) : system_row :=
  {| smap_get_int := λ k d, match k with SYSTEM_OTHER_CONFIG_MAP_LLDP_TX_INTERVAL => 60 | SYSTEM_OTHER_CONFIG_MAP_LLDP_HOLD => 50 | _ => d end;
     smap_get_bool := λ k d, match k with SYSTEM_OTHER_CONFIG_MAP_LLDP_ENABLE => enable | _ => d end;
     smap_get := λ _, None;
     mgmt_intf_status := λ k, match k with SYSTEM_MGMT_INTF_MAP_IP => Some addr | SYSTEM_MGMT_INTF_MAP_IPV6 => Some (chars "::1/128") end |}.
Definition ex_wanted : system_row := ex_row (chars "10.0.0.2/24") true.
Definition ex_stopped : system_row := ex_row (chars "10.0.0.2/24") false.
Lemma ex_row_placed e : ¬ misplaced_address (ex_row (chars "10.0.0.2/24") e).
Proof. intros (_ & text & ip & [= <-] & Hip & H4 & _). vm_compute in Hip. injection Hip as <-. vm_compute in H4. discriminate. Qed.
Lemma global_changes_correct_witness :
  (∃ cfg' send' clear, lldpd_apply_global_changes 100 (Some ex_wanted) true (ex_daemon, false) = inr (cfg', send', clear) ∧
    g_config cfg' = (wanted_config ex_wanted (g_config ex_daemon))<|c_is_any_protocol_enabled := any_enabled cfg'|> ∧
    g_hardware cfg' = g_hardware ex_daemon ∧ g_heap cfg' = alter (wanted_local ex_wanted (g_config ex_daemon)) 0%nat (g_heap ex_daemon) ∧
    table_ok 0 cfg') ∧
  (∃ cfg' send' clear, lldpd_apply_global_changes 100 (Some ex_stopped) true (ex_daemon, false) = inr (cfg', send', clear) ∧
    g_protocols cfg' = map (switch 0) (g_protocols ex_daemon) ∧
    g_hardware cfg' = g_hardware (restarted 100 0 0 (touched 0 (wanted_config ex_stopped) (wanted_local ex_stopped (g_config ex_daemon)) ex_daemon))).
Proof.
  split.
  - destruct (global_changes_correct 0 100 ex_wanted ex_daemon false ex_daemon_ok (ex_row_placed true))
      as (cfg' & send' & clear & H1 & _ & H2 & H3 & _).
    destruct H3 as (H3 & H4 & H5); [reflexivity|]. exists cfg', send', clear. split; [exact H1|]. split; [exact H2|]. by split; [|split].
  - destruct (global_changes_correct 0 100 ex_stopped ex_daemon false ex_daemon_ok (ex_row_placed false))
      as (cfg' & send' & clear & H1 & H2 & _ & _ & H3).
    destruct (H3 0%nat) as [H4 _].
    + split; [eexists; split; [reflexivity|]; split; [reflexivity|discriminate]|].
      intros j q Hq Hm. do 9 (destruct j as [|j]; [first [reflexivity|discriminate Hq|exfalso; injection Hq as <-; discriminate Hm]|]). discriminate Hq.
    + exists cfg', send', clear. split; [exact H1|]. split; [exact H2|exact H4].
Defined.
(** The interval is taken, the hold multiplier, out of its limits, is not; two addresses
    are announced. *)
Example wanted_values :
  c_tx_interval (wanted_config ex_wanted ex_cfg) = 60 ∧ c_tx_hold (wanted_config ex_wanted ex_cfg) = 4 ∧
  c_ttl (wanted_local ex_wanted ex_cfg ex_ch) = 240 ∧ map m_addrsize (wanted_mgmt ex_wanted) = [4; 16].
Proof. vm_compute. done. Qed.
(** An IPv6 address where an IPv4 address is expected is written over the stack. *)
Example misplaced_address_overflows :
  lldpd_apply_global_changes 100 (Some (ex_row (chars "::1") true)) true (ex_daemon, false) = inl StackOverflow.
Proof. vm_compute. reflexivity. Qed.
