(* ===== verification/WitnessSync.v ===== *)
(** * The theorems on neighbors and counters in the database at work

    A new neighbor that is confirmed after retries, and changes that get lost. *)

From stdpp Require Import gmap strings.
From S2P Require Import Prelude Bytes Text Const Structs Table OvsDecode OvsNbr OvsSync OvsStats Witness WitnessOvs.
#[local] Open Scope Z_scope.

#[local] Instance ex_sync_build : BuildConfig := {| ENABLE_OVSDB := true; HOST_LITTLE_ENDIAN := true |}.

Lemma digits_decimal v : 0 ≤ v < 10 ^ 20 → digits 0 (decimal v) = v.
Proof. intros Hv. destruct (decimal_aux_digits 20 v [] Hv) as (d & Hd & Hval & _). unfold decimal. by rewrite Hd, app_nil_r. Qed.
#[local] Instance ex_smap_int : SmapInt.
Proof.
  refine {| smap_int := λ s, Z.max (- 2 ^ 31) (Z.min (2 ^ 31 - 1) (decimal_value s)) |}; [intros s; lia|].
  intros n Hn. assert (decimal_value (print_int n) = n) as ->; [|lia]. unfold print_int, u32. cbv zeta.
  destruct (Z.ltb_spec n 0) as [Hneg|Hpos].
  - replace (n mod 2 ^ 32) with (n + 2 ^ 32) by (symmetry; rewrite <- (Z.mod_small (n + 2 ^ 32) (2 ^ 32)) by lia; by rewrite <- Z.add_mod_idemp_r, Z.mod_same, Z.add_0_r by done).
    rewrite (proj2 (Z.ltb_ge _ _)) by lia. change (- digits 0 (decimal (2 ^ 32 - (n + 2 ^ 32))) = n). rewrite digits_decimal by lia. lia.
  - rewrite Z.mod_small by lia. rewrite (proj2 (Z.ltb_lt _ _)) by lia. rewrite <- (app_nil_r (decimal n)). apply decimal_value_decimal; [lia|done].
Defined.

(** A switch with a new neighbor, not yet in the database. *)
Definition ex_neighbor_port : lldpd_port := ex_published<|p_chassis := Some 0%nat|>.
Definition ex_new : lldpd_hardware := ex_hw<|h_rports := [ex_neighbor_port]|><|h_rport_change_opcode := LLDPD_AF_NBR_ADD|>.
Definition ex_switch : lldpd := ex_daemon<|g_hardware := [ex_new]|>.
Definition ex_db : database := Db [IfRow (chars "eth0") ∅ []] (Some {[CLEAR_TABLE_REQUESTED := chars "2"; CLEAR_TABLE_PERFORMED := chars "2"]}).
Definition ex_itfs : list interface_data := [Itf (chars "eth0") (Some 0%nat) (Some 0%nat) false].

Lemma ex_tied itf i j hw row :
  itf ∈ ex_itfs → i_hw itf = Some i → i_ifrow itf = Some j → g_hardware ex_switch !! i = Some hw → ifrows ex_db !! j = Some row →
  hw = ex_new ∧ row = IfRow (chars "eth0") ∅ [].
Proof. intros ->%list_elem_of_singleton [= <-] [= <-] [= <-] [= <-]. done. Qed.
Lemma ex_publishable : publishable ex_inet_ntop (g_heap ex_switch) ex_new.
Proof.
  intros p l [= <- <-]. split; [|vm_compute; reflexivity].
  destruct (publish ex_inet_ntop (g_heap ex_switch) ex_neighbor_port) as [e|m] eqn:E; [|by exists m].
  assert (match publish ex_inet_ntop (g_heap ex_switch) ex_neighbor_port with inl _ => false | inr _ => true end = true) as Hc
    by (vm_compute; reflexivity).
  rewrite E in Hc. discriminate.
Qed.

Lemma neighbors_confirmed_witness :
  (∃ w, confirm_runs ex_inet_ntop ex_itfs [(200, TXN_SUCCESS)] (Confirm ex_switch ex_db None false) = inr w ∧
        confirmed ex_inet_ntop (aged_out 200) ex_itfs w) ∧
  (∃ w, confirm_runs ex_inet_ntop ex_itfs [(100, TXN_INCOMPLETE); (110, TXN_TRY_AGAIN); (120, TXN_TRY_AGAIN); (200, TXN_SUCCESS)]
          (Confirm ex_switch ex_db None false) = inr w ∧ confirmed ex_inet_ntop (aged_out 100) ex_itfs w).
Proof.
  apply (neighbors_confirmed ex_inet_ntop (eq_refl : @ENABLE_OVSDB ex_sync_build = true) ex_itfs ex_switch ex_db 100 TXN_INCOMPLETE [(110, TXN_TRY_AGAIN); (120, TXN_TRY_AGAIN)] 200).
  - split; [apply NoDup_singleton|apply NoDup_singleton|]. intros itf i j ->%list_elem_of_singleton [= <-] [= <-]. do 2 eexists. split; [reflexivity|]. split; reflexivity.
  - intros itf i j hw row H1 H2 H3 H4 H5. destruct (ex_tied itf i j hw row H1 H2 H3 H4 H5) as [-> ->]. split; [exact ex_publishable|].
    right; left. split; [left; reflexivity|discriminate].
  - split; [apply NoDup_singleton|]. intros hw ->%list_elem_of_singleton. exact ex_publishable.
  - intros st Hst. assert (st = default ∅ (status ex_db)) as -> by (rewrite Hst; reflexivity). vm_compute. reflexivity.
  - intros st Hst. assert (st = default ∅ (status ex_db)) as -> by (rewrite Hst; reflexivity). vm_compute. reflexivity.
  - exists (Itf (chars "eth0") (Some 0%nat) (Some 0%nat) false), 0%nat, 0%nat, ex_new. split; [apply list_elem_of_singleton; reflexivity|].
    split; [reflexivity|]. split; [reflexivity|]. split; [reflexivity|discriminate].
  - split; [left; reflexivity|]. constructor; [right; reflexivity|]. constructor; [right; reflexivity|]. constructor.
Defined.

(** A neighbor that goes while another one stays: the row is emptied all the same. *)
Definition ex_two : lldpd := ex_switch<|g_hardware := [ex_new<|h_rport_change_opcode := LLDPD_AF_NBR_DEL|>]|>.
Example remaining_neighbor_hidden :
  match lldpd_ovsdb_nbrs_run ex_inet_ntop 100 ex_itfs ex_two ex_db with
  | inr (cfg, db, _) => bool_decide (map (map p_id ∘ h_rports) (g_hardware cfg) = [[p_id ex_neighbor_port]] ∧
                                     map lldp_neighbor_info (ifrows db) = [∅])
  | inl _ => false
  end = true.
Proof. vm_compute. reflexivity. Qed.
(** A transaction that fails for good loses the change. *)
Example failed_change_lost :
  match confirm_runs ex_inet_ntop ex_itfs [(100, TXN_ERROR); (200, TXN_SUCCESS)] (Confirm ex_switch ex_db None false) with
  | inr w => bool_decide (map lldp_neighbor_info (ifrows (w_db w)) = [∅] ∧ map h_rport_change_opcode (g_hardware (w_cfg w)) = [LLDPD_AF_NBR_NOOP])
  | inl _ => false
  end = true.
Proof. vm_compute. reflexivity. Qed.
(** A request to clear the table makes a request to clear the counters go away unserved. *)
Definition ex_requests : smap :=
  {[CLEAR_TABLE_REQUESTED := chars "1"; CLEAR_TABLE_PERFORMED := chars "0"; CLEAR_COUNTERS_REQUESTED := chars "1"; CLEAR_COUNTERS_PERFORMED := chars "0"]}.
Example counters_request_dropped :
  match lldpd_ovsdb_nbrs_run ex_inet_ntop 100 ex_itfs (ex_switch<|g_hardware := [ex_new<|h_tx_cnt := 7|>]|>) (Db (ifrows ex_db) (Some ex_requests)) with
  | inr (cfg, db, _) => bool_decide (map h_tx_cnt (g_hardware cfg) = [7] ∧ (st ← status db; st !! CLEAR_COUNTERS_REQUESTED) = None)
  | inl _ => false
  end = true.
Proof. vm_compute. reflexivity. Qed.
(** Clearing the counters keeps the number of insertions. *)
Example insertions_kept :
  match lldpd_clear_counters (ex_switch<|g_hardware := [ex_new<|h_tx_cnt := 7|><|h_insert_cnt := 5|>]|>)
          (Db (ifrows ex_db) (Some {[CLEAR_COUNTERS_REQUESTED := chars "1"]})) with
  | inr (cfg, _, _) => bool_decide (map counters (g_hardware cfg) = [[0; 0; 0; 0; 0; 5; 0; 0]])
  | inl _ => false
  end = true.
Proof. vm_compute. reflexivity. Qed.
