(* ===== verification/WitnessPorts.v ===== *)
(** * The theorems on ports and VLANs at work

    A port of one interface, configured as an access port, and what happens when the
    interface goes. *)

From stdpp Require Import gmap strings.
From S2P Require Import Prelude Bytes Text Const Structs OvsPorts Witness.
#[local] Open Scope Z_scope.

#[local] Instance ex_names : OvsNames := {|
  OVSREC_PORT_VLAN_MODE_ACCESS := chars "access"; OVSREC_PORT_VLAN_MODE_TRUNK := chars "trunk";
  OVSREC_PORT_VLAN_MODE_NATIVE_TAGGED := chars "native-tagged"; OVSREC_PORT_VLAN_MODE_NATIVE_UNTAGGED := chars "native-untagged";
  ENABLE_DIR_OFF := chars "off"; ENABLE_DIR_RX := chars "rx"; ENABLE_DIR_TX := chars "tx"; ENABLE_DIR_RXTX := chars "rxtx";
  LINK_STATE_UP := chars "up" |}.

Definition ex_vlans : list vlan_row := [VlanRow 5 (chars "office"); VlanRow 7 (chars "voice")].
Definition ex_if_row : if_row := IfaceRow (chars "eth0") None (Some (chars "up")).
Definition ex_access : port_row := PortRow (chars "p1") [chars "eth0"] None (Some 5) [7].
Definition ex_tagged : port_row := PortRow (chars "p1") [chars "eth0"] (Some (chars "native-tagged")) (Some 5) [7; 9].
Definition ex_trunk : port_row := PortRow (chars "p1") [chars "eth0"] (Some (chars "trunk")) (Some 5) [7].

(** The row of the interface, its hardware, and the port have been added. *)
Definition ex_bare : lldpd_hardware := ex_hw<|h_lport := port_zero|>.
Definition ex_start : world := World {[0%nat := ex_bare]} ∅ ∅ ∅ 0.
Definition ex_known (row : port_row) : world := add_new_port row (add_new_db_interface ex_if_row ex_start).
Definition got (r : OvsPorts.fault + world) : world := match r with inr w => w | inl _ => ex_start end.
Definition ex_running (row : port_row) : world := got (add_lldpd_hardware_interface [row] ex_vlans 0 (ex_known row)).

(** The interface was on the port before, with another VLAN. *)
Definition ex_former : lldpd_hardware := ex_hw<|h_lport := port_zero<|p_vlans := [{| v_vid := 3; v_name := chars "old" |}]|>|>.
Definition ex_port_before : port_data := Port PORT_VLAN_MODE_ACCESS [Some 0%nat] ex_tagged.
Definition ex_ready : world :=
  World {[0%nat := ex_former]} {[0%nat := Itf (Some ex_if_row) (Some 0%nat) None]} {[chars "eth0" := 0%nat]}
    {[chars "p1" := ex_port_before]} 1.
Lemma ex_ready_ok : maps_ok ex_ready.
Proof.
  split; cbn [hws blocks all_interfaces next_block ex_ready].
  - intros n b [<- <-]%lookup_singleton_Some. exists (Itf (Some ex_if_row) (Some 0%nat) None). split; [apply lookup_singleton_eq|].
    split; [left; discriminate|]. split; [intros r [= <-]; reflexivity|]. intros i [= <-]. exists ex_former. split; [apply lookup_singleton_eq|reflexivity].
  - intros b [x [<- _]%lookup_singleton_Some]. exists (chars "eth0"). apply lookup_singleton_eq.
  - intros n n' b [<- _]%lookup_singleton_Some [<- _]%lookup_singleton_Some. reflexivity.
  - intros b [x [<- _]%lookup_singleton_Some]. lia.
Qed.


Definition vlans_of (w : world) : list (Z * list (Z * list Z)) :=
  map (λ x, (p_pvid (h_lport x.2), map (λ v, (v_vid v, v_name v)) (p_vlans (h_lport x.2)))) (map_to_list (hws w)).
(** An access port announces its own VLAN, a tagged one also the trunked ones that have a name. *)
Example announced :
  vlans_of (ex_running ex_access) = [(5, [(5, chars "office")])] ∧
  vlans_of (got (lldpd_reconfigure_port ex_vlans (chars "p1") ex_ready)) = [(5, [(5, chars "office"); (7, chars "voice")])].
Proof. vm_compute. done. Qed.
(** A port that becomes a trunk keeps announcing the identifier of its former VLAN. *)
Definition become (row : port_row) (w : world) : OvsPorts.fault + nat * world :=
  handle_port_config_mods ex_vlans {[pr_name row := row]} (λ _, true) [pr_name row] 0 w.
Example former_pvid_kept :
  match become ex_trunk (ex_running ex_access) with inr (_, w) => vlans_of w | inl _ => [] end = [(5, [(7, chars "voice")])].
Proof. vm_compute. reflexivity. Qed.
(** The hardware of an interface goes, then its row: the port still points to the block. *)
Example interface_used_after_free :
  match become ex_access (del_old_db_interface (chars "eth0") (del_lldpd_hardware_interface (chars "eth0") (ex_running ex_access))) with
  | inl UseAfterFree => true | _ => false
  end = true.
Proof. vm_compute. reflexivity. Qed.
(** The hardware goes, then the port. *)
Example deleted_port_without_hardware :
  match del_old_port (chars "p1") (del_lldpd_hardware_interface (chars "eth0") (ex_running ex_access)) with
  | inl NullDereference => true | _ => false
  end = true.
Proof. vm_compute. reflexivity. Qed.
